(* ===== verification/_CoqProject ===== *)
-Q . S2P
Prelude.v
Crypto.v
Float.v
Reputation.v
Instances.v
Sha256.v
Codec.v
Wire.v
Merkle.v
Transaction.v
Agreement.v
Subscription.v
ToolJob.v
Contract.v
ContractPlatform.v
ContractStorage.v
ContractEvents.v
ToolVerifier.v
Capability.v
Tool.v
RpcDelegation.v
Entity.v
Validator.v
Token.v
Task.v
Agent.v
Wallet.v
Layouts.v
Payloads.v
Keystore.v
KeystoreFile.v
Mnemonic.v
Embedding.v
Conversation.v
Outbox.v
Client.v
ConversationApi.v
CliWallet.v
CliQuery.v
CliTx.v
CliOffline.v
CliConversation.v
Cli.v
Conformance.v
