(* ===== verification/Prelude.v ===== *)
(** * Zincha developer SDK: verification development

    The Zincha SDK builds, signs and checks the transactions and records of an agent
    economy chain. Four Rust crates share its core: [zincha-primitives] (data types,
    hashing and signatures, the protocol's record operations, wallet, keystore and embedding),
    [zincha-client] (RPC client, conversations and their outbox), [zincha-cli-core] (the
    command line) and [zincha-cli] (its entry point). This development models the four, one
    file or a few for each component, and proves what makes each of them correct.

    The parts build on one another as the crates do. Records ([Agreement], [Tool], [Task], ...)
    are data with the operations the chain and its tools apply to them; [Wallet] makes signed
    transactions of requests about them; [Client] sends these to a node and waits; [Keystore]
    and [Mnemonic] hold and derive the keys; [Conversation], [ConversationApi] and [Outbox] speak
    to a provider's service; the files [CliWallet] to [Cli] drive all of it from arguments and
    files.

    ** Reading the model

    Definitions keep the names of the source where Rocq allows it; a record's fields are
    the struct's fields in the struct's order, prefixed where two records of a file share
    one. A method on [&mut self] returns the new value, with its result if it has one.
    - Integers are [Z] at their width: [wrap8] to [wrap64] are the arithmetic of a release
      build, [sat_*] and [checked_add] the methods of those names, [is_u8] to [is_u64] the
      ranges. A theorem states the ranges it needs.
    - Bytes are [list byte]; [[u8; n]] is [bytesN n], whose equality is that of its bytes.
      Strings are lists of code points ([rstr]), with their UTF-8 encoding [utf8].
    - [Result] is [result], with [Ok] and [Err]; [?] is the monad's bind. Error messages
      are templates with arguments ([message]), so an error's text is compared without
      formatting it; an [anyhow] error is the list of its causes. [may_panic] is an option
      whose [None] is a panic: an index out of range, an [expect], an [unwrap].
    - [f64] and [f32] are the standard library's specification floats, rounded to nearest.
    - [HashMap] and [BTreeMap] are [gmap], [HashSet] is [gset]; iteration order is explicit
      where it shows, and proved irrelevant where the source iterates a hash map.
    - A command of the command line is a function of the files to the files it leaves, what it
      sent and printed in order, and how it ended ([M], [T], [S] and [R] of [CliWallet],
      [CliTx], [CliConversation] and [Cli]): an answer or an error, a panic, or a poll without
      an answer. Everything a run sends is among its events: requests of the node (the polls of a
      wait as one), texts posted to an embedding service, requests of a conversation's service, those
      for live profiles, and those of its event stream with the pages of a resynchronisation.
    - Code that asks the outside in the middle of a computation (a builder that has a text
      embedded, a client that tries interfaces, a flush that submits) is a tree of
      questions ([asking]); [answered] runs it against answers and records what was asked.

    Third-party code is a parameter: a class holds the operations the source calls and a
    second class states their documented laws ([Digests], [Hex] with [HexLaws], [Ed25519]
    with [Ed25519Laws], [Aead] with [AeadLaws], [Bincode], a writer and a reader at one type, with
    [BincodeLaws]; and likewise Argon2id, HMAC-SHA512 with the [bip39] crate, X25519 and HKDF, base64, PKCS#8, URLs, IP
    addresses, UUIDs and the JSON codecs of single types). Nothing is assumed of the digests; a
    binding theorem names the byte strings hashed and asks that the digest separates those
    ([collision_free]). [Instances] gives small concrete instances of the classes of [Crypto], each
    other file those of its own, and the module of witnesses that ends a file applies its
    theorems to concrete data through them. The clock, random draws, the natural logarithm, the
    power function, [str::to_lowercase], [char::is_alphanumeric], the answers of an embedding
    service and the relation of addresses to entities are arguments. So are the outcomes of the outside world:
    which file calls fail and after how many bytes, what the node and the service answer, and
    how connections end; a theorem about failures quantifies over them.

    Two parameters have their real value too, for a check of the model against the repository's
    own data: [Sha256] is the digest of FIPS 180-4, and [Layouts] gives [Bincode] the format that
    bincode 1 documents for fixed-width integers, field by field as the structs declare them; a
    public key is read there only if it is a point of the curve. With them [Conformance] rebuilds every signed transaction of sdk/testdata to the last byte. The
    signatures there are the vectors' own, a table of the curve parameter.

    ** Files

    - [Prelude]: results, integers, bytes, strings, floats, sorting, record update, the
      tactics ([inv_ok], [to_prop], [mlia], [by_compute]) and the generic lemmas.
    - [Crypto]: crypto/hash.rs, crypto/keys.rs, error.rs. Hash and address texts, keys,
      signatures. [Wire]: their encodings as text and in binary, and the PKCS#8 form.
      [Instances]: the concrete instances. [Float]: floating point operations. [Sha256]: the
      digest. [Codec]: binary formats as records of a writer, a reader and their laws, with the
      combinators for integers, sequences, options, variants and records.
    - [Merkle] (Module Merkle): crypto/merkle.rs. Inclusion proofs are complete and sound,
      the in-place root equals the tree's, and two limits of the format.
    - [Transaction] (Module Tx): primitives/transaction.rs. Types and their encodings,
      signing and verification, validity windows, batch operations.
    - [Agreement] (Module Agreement): primitives/agreement.rs. Creation checks against a
      specification that reads the payload alone, milestones, escrow, settlement shares, disputes and
      resolutions, arbitrator selection.
    - [Subscription], [ToolJob], [ToolVerifier] (Module Access), [Tool]: the four parts of
      primitives/tool.rs. Subscriptions are proved against a specification of one billing
      advance and a ledger over any run of events; opening a job's current milestone
      starts a fresh round and touches no money; the tool-side verifier refines the contract of its two traits ([ChainVerifier],
      [ReplayStore]), which are classes with laws that the source's own implementations
      discharge, and a step relation of concurrent handlers shows that no token is served
      twice; endpoints, routes, reputation counters and ranking.
    - [Contract], [ContractPlatform] (Module Platform), [ContractStorage] (Module Storage),
      [ContractEvents] (Module Events): primitives/contract.rs. Export tables and their binary
      search, ABI commitment, wire checks, addresses and routes; the advertised platform profile
      and its fingerprint; the Patricia trie of a contract's storage, whose root
      determines the storage; the event archive, whose accumulator is incremental and
      determines the events.
    - [Token]: primitives/token.rs and the execution results of contract.rs. Merging staged
      writes is committing them in order, up to the pointwise equality of token states.
    - [Capability], [RpcDelegation] (Module Delegation), [Entity], [Validator], [Task]:
      primitives/capability.rs (with the capability string of agent.rs),
      rpc_delegation.rs, entity.rs, validator.rs, task.rs.
    - [Reputation] (Modules Config, Reputation, Requester) and [Agent]: config.rs and
      primitives/agent.rs. Scores stay bounded, counters well formed, and an agent's
      ring buffers within their bounds over any run of operations.
    - [Wallet]: wallet/agent_wallet.rs. Every builder, as one [request] per method, run by
      [run_builder]. The class [Builder] states what a wallet promises its callers (a transaction
      that verifies and carries the wallet's chain, nonce and window), proved of the builders and
      used by the command line; over any run of requests nonces strictly increase.
    - [Layouts]: the layout of each transaction, payload and receipt of primitives/; a
      transaction can be hashed exactly when it is in the range of its Rust types, and its
      hexadecimal form reads back. [Payloads]: the [decode] function of each payload, and the bytes
      it takes.
    - [Keystore], [KeystoreFile], [Mnemonic] (Modules Mnemonic and Release):
      wallet/keystore.rs, wallet/mnemonic.rs, release.rs. What is imported unlocks with its
      password; the checks of the JSON form; the tree of values that the serde attributes make of
      the entries, which passes these checks and reads back; derivation along hardened paths, which determines its
      path; the table of releases.
    - [Embedding]: embedding/engine.rs. Feature hashing, and a cache that changes no answer.
    - [Conversation] (with Module Anyhow, errors and their causes) and [Outbox]: zincha-client's
      conversation.rs. Profiles and the choice of an interface that serves the authenticated one,
      delegations, message signatures, end-to-end encryption and its round trip; the outbox file,
      which is a whole snapshot after any failing run and loses no message; a flush, which submits
      what is due; event framing, which does not depend on how a stream within the buffer's bound is
      cut; resynchronisation, which ends.
      [ConversationApi]: the requests of the authenticated client and the grant of read access.
    - [Client]: zincha-client's lib.rs. The endpoints' requests, their signing and what a
      signature commits to, the decoding of responses, waiting for a transaction.
    - [CliWallet]: support.rs, secret.rs, wallet.rs and output.rs of zincha-cli-core. A command
      changes at most the file it names, leaves it private, and refines the keystore's
      operation; a stored or generated key loads again.
    - [CliQuery]: query.rs and surface.rs. Every query asks for an endpoint of the public table,
      under the authority that table gives it.
    - [CliTx]: tx.rs. Each of the commands asks a wallet for the transaction it names, with the
      fee, nonce, chain and window resolved for it, and sends no more than it was told to.
      [CliOffline]: a transaction signed into a file by one machine and submitted by another.
    - [CliConversation]: conversation.rs. The private state file stays a whole checked state,
      requests go only to the provider's authenticated service, and a message is queued before
      it is sent. [Cli]: lib.rs and watch.rs. The client of a run, the dispatch of a command, and
      what each kind of command may send.
    - [Conformance]: the golden vectors of sdk/testdata and of the crates' tests: transactions,
      agreement payloads, delegations, contract addresses, storage roots, receipts, and the texts
      that conversation keys and messages sign.

    The properties of the development carry a number in their comment; other theorems
    record behaviour that other parts rely on, or were proved on the way.

    ** Recursion

    Recursion is structural except in these places. [Merkle.build_layers] and the in-place
    [reduce_levels] halve a layer at each step, so the number of leaves is fuel enough,
    and more changes nothing ([build_layers_fuel]). [Contract.search_loop] halves the searched
    window, so the length of the slice is enough, and [callable] is proved to answer. The storage
    trie consumes at least one nibble of the keys at each level, so one more than the longest
    key is enough, and [compute_contract_storage_root] is proved never to be [None] on
    storages whose keys and values fit their 32-bit length prefixes. Decoding UTF-8 and draining
    the buffer of an event stream consume at least a byte at each step, so the number of bytes is
    fuel enough. [Sha256.blocks] has a block of fuel for each word of the padded message; the
    count of a sequence of a binary format is checked against the bytes that are left before that
    many elements are read, since each takes at least a byte ([enc_pos]).
    Loops that end only when the world lets them run over what the world gives:
    waiting for a transaction over its polls, resynchronising over its pages, following a
    conversation over its connections; theorems say when the first two end.

    ** Not modelled

    - The argument parser (the [clap] crate): its result, the [Cli] record, is where a run starts.
    - Building HTTP clients, TLS and its certificate callbacks, but for the pinned-certificate
      check.
    - Derived [serde] code, but for the keystore's: theorems are over the codecs' parameters,
      [Layouts], [Payloads] and [Conformance] over the format the derivation documents. A capability with a character outside ASCII is
      not read there. [Display] texts, but for those that another part reads.
    - Curve arithmetic, Argon2id, the authenticated cipher and JSON parsers.
    - Locks around shared maps and files: each call on them is one step.
    - On files: directories of a path, and symbolic links but for the test that refuses them;
      rewriting the outbox with the same bytes is taken to leave its mode. A conversation
      run reads one clock value.
    - The Python and TypeScript ports, generated descriptions and scripts. *)
From stdpp Require Export base gmap strings list fin_maps numbers pretty sorting.
From Stdlib Require Export Strings.Byte.
From Corelib Require Export SpecFloat.

#[global] Open Scope Z_scope.
#[global] Set Default Goal Selector "!".

(** ** Results and error messages *)

(** Rust's [Result<A, E>]. *)
Inductive result (E A : Type) : Type :=
| Ok (a : A)
| Err (e : E).
Arguments Ok {E A} a.
Arguments Err {E A} e.

#[global] Instance result_ret {E} : MRet (result E) := fun A a => Ok a.
#[global] Instance result_bind {E} : MBind (result E) :=
  fun A B k m => match m with Ok a => k a | Err e => Err e end.
#[global] Instance result_eq_dec {E A} `{EqDecision E, EqDecision A} :
  EqDecision (result E A).
Proof. solve_decision. Defined.

(** [if !b { return Err(e) }]. *)
Definition ensure {E} (b : bool) (e : E) : result E unit :=
  if b then Ok () else Err e.

(** [opt.ok_or(e)]. *)
Definition ok_or {E A} (o : option A) (e : E) : result E A :=
  match o with Some a => Ok a | None => Err e end.

Definition map_err {E F A} (f : E -> F) (r : result E A) : result F A :=
  match r with Ok a => Ok a | Err e => Err (f e) end.

Definition is_ok {E A} (r : result E A) : bool :=
  match r with Ok _ => true | Err _ => false end.

(** [.ok()]. *)
Definition ok {E A} (r : result E A) : option A :=
  match r with Ok a => Some a | Err _ => None end.

(** ** Questions to the outside

    A computation that asks something of the outside world and goes on with the answer. Run
    against a world that answers, it gives what it asked, in order, and its result. *)
Inductive asking (Q R A : Type) : Type :=
| Answered (a : A)
| Ask (q : Q) (k : R -> asking Q R A).
Arguments Answered {Q R A} a.
Arguments Ask {Q R A} q k.
#[global] Instance asking_ret {Q R} : MRet (asking Q R) := fun A a => Answered a.
#[global] Instance asking_bind {Q R} : MBind (asking Q R) := fun A B k =>
  fix go m := match m with Answered a => k a | Ask q f => Ask q (fun r => go (f r)) end.
Fixpoint answered {Q R A : Type} (world : Q -> R) (m : asking Q R A) : list Q * A :=
  match m with
  | Answered a => ([], a)
  | Ask q k => let '(asked, a) := answered world (k (world q)) in (q :: asked, a)
  end.
Lemma answered_bind {Q R A B : Type} (world : Q -> R) (m : asking Q R A) (k : A -> asking Q R B) :
  answered world (m ≫= k) =
  let '(asked, a) := answered world m in
  let '(asked', b) := answered world (k a) in (asked ++ asked', b).
Proof.
  unfold mbind. induction m as [a|q f IH]; cbn; [by destruct (answered world (k a))|].
  rewrite IH. destruct (answered world (f (world q))) as [qs a].
  by destruct (answered world (k a)).
Qed.

(** What holds of the answer, whatever the questions were answered. *)
Definition ends {Q R A : Type} (P : A -> Prop) (m : asking Q R A) : Prop :=
  forall world, P (answered world m).2.
Lemma ends_answered {Q R A : Type} (P : A -> Prop) a : P a -> ends (Q := Q) (R := R) P (Answered a).
Proof. by intros Ha world. Qed.
Lemma ends_bind {Q R A B : Type} (P : B -> Prop) (m : asking Q R A) (k : A -> asking Q R B) :
  (forall a, ends P (k a)) -> ends P (m ≫= k).
Proof.
  intros Hk world. rewrite answered_bind. destruct (answered world m) as [asked a].
  specialize (Hk a world). by destruct (answered world (k a)).
Qed.

(** ** Machine integers *)

Definition U8_MAX : Z := 255.
Definition U16_MAX : Z := 65535.
Definition U32_MAX : Z := 4294967295.
Definition U64_MAX : Z := 18446744073709551615.

Definition is_u8 (z : Z) : Prop := 0 <= z <= U8_MAX.
Definition is_u16 (z : Z) : Prop := 0 <= z <= U16_MAX.
Definition is_u32 (z : Z) : Prop := 0 <= z <= U32_MAX.
Definition is_u64 (z : Z) : Prop := 0 <= z <= U64_MAX.

(** [u64] arithmetic: [saturating_*], [checked_add], and the wrapping that an
    unchecked [+] has in a release build. *)
Definition sat_add (a b : Z) : Z := Z.min (a + b) U64_MAX.
Definition sat_sub (a b : Z) : Z := Z.max (a - b) 0.
Definition sat_mul (a b : Z) : Z := Z.min (a * b) U64_MAX.
Definition checked_add (a b : Z) : option Z :=
  if a + b <=? U64_MAX then Some (a + b) else None.
Definition wrap8 (z : Z) : Z := z mod 256.
Definition wrap16 (z : Z) : Z := z mod 65536.
Definition wrap32 (z : Z) : Z := z mod 4294967296.
Definition wrap64 (z : Z) : Z := z mod 18446744073709551616.
(** [u8] and [u32] saturating additions. *)
Definition sat_add8 (a b : Z) : Z := Z.min (a + b) U8_MAX.
Definition sat_add32 (a b : Z) : Z := Z.min (a + b) U32_MAX.

(** [iter.sum::<u64>()] in a release build. *)
Definition sum_u64 (l : list Z) : Z := foldl (fun acc x => wrap64 (acc + x)) 0 l.
(** The mathematical sum, the specification of [sum_u64]. *)
Definition sumZ (l : list Z) : Z := foldr Z.add 0 l.

Ltac unfold_width :=
  unfold is_u8, is_u16, is_u32, is_u64, sat_add, sat_sub, sat_mul,
    sat_add8, sat_add32, wrap8, wrap16, wrap32, wrap64,
    U8_MAX, U16_MAX, U32_MAX, U64_MAX in *.
(** Linear goals over machine integers. *)
Ltac mlia := unfold_width; lia.

Lemma wrap32_range z : is_u32 (wrap32 z).
Proof. pose proof (Z.mod_pos_bound z 4294967296 ltac:(lia)). mlia. Qed.
Lemma wrap64_range z : is_u64 (wrap64 z).
Proof. pose proof (Z.mod_pos_bound z 18446744073709551616 ltac:(lia)). mlia. Qed.

(** ** Bytes *)

#[global] Instance byte_eq_dec : EqDecision byte := Byte.byte_eq_dec.
#[global] Program Instance byte_countable : Countable byte :=
  inj_countable Byte.to_N Byte.of_N _.
Next Obligation. intros b. apply Byte.of_to_N. Qed.

Definition byte_val (b : byte) : Z := Z.of_N (Byte.to_N b).
(** [z as u8]. *)
Definition byte_of (z : Z) : byte := default x00 (Byte.of_N (Z.to_N (wrap8 z))).

(** [z.to_be_bytes()] and [z.to_le_bytes()] of an [n]-byte integer. *)
Fixpoint le_bytes (n : nat) (z : Z) : list byte :=
  match n with
  | O => []
  | S n' => byte_of z :: le_bytes n' (z / 256)
  end.
Definition be_bytes (n : nat) (z : Z) : list byte := reverse (le_bytes n z).

Fixpoint le_value (l : list byte) : Z :=
  match l with [] => 0 | b :: l' => byte_val b + 256 * le_value l' end.

(** Lexicographic order of byte slices, Rust's [Ord] for [[u8]]. *)
Fixpoint bytes_cmp (a b : list byte) : comparison :=
  match a, b with
  | [], [] => Eq
  | [], _ :: _ => Lt
  | _ :: _, [] => Gt
  | x :: a', y :: b' =>
      match Z.compare (byte_val x) (byte_val y) with
      | Eq => bytes_cmp a' b'
      | c => c
      end
  end.

(** A fixed array [[u8; n]]. *)
Record bytesN (n : nat) : Type := BytesN {
  bn : list byte;
  bn_len : Nat.eqb (length bn) n = true;
}.
Arguments BytesN {n}.
Arguments bn {n}.
Arguments bn_len {n}.

Lemma bytesN_eq {n} (a b : bytesN n) : bn a = bn b -> a = b.
Proof.
  destruct a as [x p], b as [y q]; simpl; intros ->.
  f_equal. apply (proof_irrel p q).
Qed.

#[global] Instance bytesN_eq_dec n : EqDecision (bytesN n).
Proof.
  intros a b. destruct (decide (bn a = bn b)) as [E|E].
  - left. by apply bytesN_eq.
  - right. by intros ->.
Defined.

Lemma bn_length {n} (a : bytesN n) : length (bn a) = n.
Proof. apply Nat.eqb_eq, bn_len. Qed.

Definition mk_bytesN (n : nat) (l : list byte) : option (bytesN n) :=
  match Bool.bool_dec (Nat.eqb (length l) n) true with
  | left p => Some (BytesN l p)
  | right _ => None
  end.

Lemma mk_bytesN_bn {n} (a : bytesN n) : mk_bytesN n (bn a) = Some a.
Proof.
  unfold mk_bytesN. destruct (Bool.bool_dec _ _) as [p|p].
  - f_equal. by apply bytesN_eq.
  - destruct p. apply bn_len.
Qed.

Lemma mk_bytesN_Some n l a : mk_bytesN n l = Some a -> bn a = l /\ length l = n.
Proof.
  unfold mk_bytesN. destruct (Bool.bool_dec _ _) as [p|p]; [|done].
  intros [= <-]. split; [done|]. by apply Nat.eqb_eq.
Qed.

Lemma mk_bytesN_None n l : mk_bytesN n l = None -> length l <> n.
Proof.
  unfold mk_bytesN. destruct (Bool.bool_dec _ _) as [p|p]; [done|].
  intros _ E. apply p. by apply Nat.eqb_eq.
Qed.

#[global] Program Instance bytesN_countable n : Countable (bytesN n) :=
  inj_countable bn (mk_bytesN n) _.
Next Obligation. intros n a. apply mk_bytesN_bn. Qed.

(** [let mut arr = [0u8; n]; arr[..len].copy_from_slice(..)]: pad with zeros, cut at [n]. *)
Definition pad_list (n : nat) (l : list byte) : list byte :=
  take n l ++ replicate (n - length l) x00.

Lemma pad_list_length n l : length (pad_list n l) = n.
Proof. unfold pad_list. rewrite length_app, length_take, length_replicate. lia. Qed.

Lemma pad_list_id n l : length l = n -> pad_list n l = l.
Proof.
  intros <-. unfold pad_list. rewrite take_ge by lia.
  by rewrite Nat.sub_diag, app_nil_r.
Qed.

(** A proof of [b = true] that computes to [eq_refl], so that closed arrays compare
    by evaluation. *)
Definition canonical_true (b : bool) (p : b = true) : b = true :=
  match b as b' return (b' = true -> b' = true) with
  | true => fun _ => eq_refl
  | false => fun p => p
  end p.

Definition pad_bytesN (n : nat) (l : list byte) : bytesN n :=
  BytesN (pad_list n l)
    (canonical_true _ (proj2 (Nat.eqb_eq _ _) (pad_list_length n l))).

Lemma bn_pad n l : bn (pad_bytesN n l) = pad_list n l.
Proof. done. Qed.

Lemma pad_bytesN_bn {n} (a : bytesN n) : pad_bytesN n (bn a) = a.
Proof. apply bytesN_eq. rewrite bn_pad. apply pad_list_id, bn_length. Qed.

(** ** Integer encodings *)

Lemma byte_val_range b : 0 <= byte_val b < 256.
Proof. unfold byte_val. pose proof (Byte.to_N_bounded b). lia. Qed.

Lemma byte_val_of z : byte_val (byte_of z) = wrap8 z.
Proof.
  unfold byte_of, byte_val. pose proof (Z.mod_pos_bound z 256 ltac:(lia)) as Hb.
  destruct (Byte.of_N (Z.to_N (wrap8 z))) as [b|] eqn:E; simpl.
  - apply Byte.to_of_N in E. rewrite E. unfold wrap8. lia.
  - apply Byte.of_N_None_iff in E. unfold wrap8 in *. lia.
Qed.

Lemma byte_of_val b : byte_of (byte_val b) = b.
Proof.
  unfold byte_of, byte_val, wrap8. pose proof (Byte.to_N_bounded b).
  rewrite Z.mod_small by lia. by rewrite N2Z.id, Byte.of_to_N.
Qed.

Lemma byte_val_inj a b : byte_val a = byte_val b -> a = b.
Proof. intros E. by rewrite <- (byte_of_val a), E, byte_of_val. Qed.

Lemma le_bytes_length n z : length (le_bytes n z) = n.
Proof. revert z. induction n as [|n IH]; intros z; simpl; [done|]. by rewrite IH. Qed.

Lemma be_bytes_length n z : length (be_bytes n z) = n.
Proof. unfold be_bytes. by rewrite length_reverse, le_bytes_length. Qed.

Lemma le_value_le_bytes n z : le_value (le_bytes n z) = z mod 256 ^ Z.of_nat n.
Proof.
  revert z. induction n as [|n IH]; intros z; [simpl; by rewrite Z.mod_1_r|].
  cbn [le_bytes le_value]. rewrite IH, byte_val_of. unfold wrap8.
  rewrite Nat2Z.inj_succ, Z.pow_succ_r by lia.
  rewrite Z.rem_mul_r by lia. lia.
Qed.

Lemma le_bytes_inj n a b :
  0 <= a < 256 ^ Z.of_nat n -> 0 <= b < 256 ^ Z.of_nat n ->
  le_bytes n a = le_bytes n b -> a = b.
Proof.
  intros Ha Hb E. apply (f_equal le_value) in E.
  rewrite !le_value_le_bytes in E. by rewrite !Z.mod_small in E by lia.
Qed.

Lemma be_bytes_inj n a b :
  0 <= a < 256 ^ Z.of_nat n -> 0 <= b < 256 ^ Z.of_nat n ->
  be_bytes n a = be_bytes n b -> a = b.
Proof. intros Ha Hb E. eapply le_bytes_inj; eauto. by apply (inj reverse). Qed.

Lemma be_bytes8_inj a b : is_u64 a -> is_u64 b -> be_bytes 8 a = be_bytes 8 b -> a = b.
Proof. intros Ha Hb. apply be_bytes_inj; unfold_width; lia. Qed.

Lemma le_bytes8_inj a b : is_u64 a -> is_u64 b -> le_bytes 8 a = le_bytes 8 b -> a = b.
Proof. intros Ha Hb. apply le_bytes_inj; unfold_width; lia. Qed.

Lemma be_bytes4_inj a b : is_u32 a -> is_u32 b -> be_bytes 4 a = be_bytes 4 b -> a = b.
Proof. intros Ha Hb. apply be_bytes_inj; unfold_width; lia. Qed.

(** ** Strings *)

(** A Rust [str] is a sequence of Unicode scalar values; [len] and [as_bytes]
    go through its UTF-8 encoding. *)
Abbreviation rstr := (list Z).

(** A source literal (ASCII). *)
Definition lit (s : string) : rstr :=
  (fun a => Z.of_N (Ascii.N_of_ascii a)) <$> String.list_ascii_of_string s.

Definition utf8_char (c : Z) : list byte :=
  if c <? 128 then [byte_of c]
  else if c <? 2048 then [byte_of (192 + c / 64); byte_of (128 + c mod 64)]
  else if c <? 65536 then
    [byte_of (224 + c / 4096); byte_of (128 + (c / 64) mod 64); byte_of (128 + c mod 64)]
  else
    [byte_of (240 + c / 262144); byte_of (128 + (c / 4096) mod 64);
     byte_of (128 + (c / 64) mod 64); byte_of (128 + c mod 64)].

(** [s.as_bytes()] and [s.len()]. *)
Definition utf8 (s : rstr) : list byte := mjoin (utf8_char <$> s).
Definition str_len (s : rstr) : Z := Z.of_nat (length (utf8 s)).

(** [b"literal"]. *)
Definition blit (s : string) : list byte := utf8 (lit s).

Definition chr (a : Ascii.ascii) : Z := Z.of_N (Ascii.N_of_ascii a).

(** [char::is_whitespace] (Unicode White_Space). *)
Definition is_whitespace (c : Z) : bool :=
  ((9 <=? c) && (c <=? 13)) || (c =? 32) || (c =? 133) || (c =? 160) || (c =? 5760)
  || ((8192 <=? c) && (c <=? 8202)) || (c =? 8232) || (c =? 8233) || (c =? 8239)
  || (c =? 8287) || (c =? 12288).
(** [char::is_control] (Unicode category Cc). *)
Definition is_control (c : Z) : bool := (c <? 32) || ((127 <=? c) && (c <? 160)).
Definition is_ascii_lowercase (c : Z) : bool := (97 <=? c) && (c <=? 122).
Definition is_ascii_uppercase (c : Z) : bool := (65 <=? c) && (c <=? 90).
Definition is_ascii_digit (c : Z) : bool := (48 <=? c) && (c <=? 57).
Definition to_ascii_lowercase (s : rstr) : rstr :=
  (fun c => if is_ascii_uppercase c then c + 32 else c) <$> s.

Fixpoint drop_while {A} (p : A -> bool) (l : list A) : list A :=
  match l with [] => [] | x :: l' => if p x then drop_while p l' else l end.
Fixpoint take_while {A} (p : A -> bool) (l : list A) : list A :=
  match l with [] => [] | x :: l' => if p x then x :: take_while p l' else [] end.

(** [s.trim()]. *)
Definition trim (s : rstr) : rstr :=
  reverse (drop_while is_whitespace (reverse (drop_while is_whitespace s))).

Fixpoint strip_prefix (p s : rstr) : option rstr :=
  match p, s with
  | [], _ => Some s
  | _ :: _, [] => None
  | a :: p', b :: s' => if a =? b then strip_prefix p' s' else None
  end.
Definition starts_with (p s : rstr) : bool := bool_decide (is_Some (strip_prefix p s)).
Definition ends_with (p s : rstr) : bool := starts_with (reverse p) (reverse s).
(** [s.contains(pat)] for a string and for a set of characters. *)
Fixpoint contains_str (p s : rstr) : bool :=
  starts_with p s || match s with [] => false | _ :: s' => contains_str p s' end.
Definition contains_any (cs : list Z) (s : rstr) : bool :=
  existsb (fun c => bool_decide (c ∈ cs)) s.

(** [s.split_once(c)]. *)
Fixpoint split_once (c : Z) (s : rstr) : option (rstr * rstr) :=
  match s with
  | [] => None
  | x :: s' =>
      if x =? c then Some ([], s')
      else match split_once c s' with Some (a, b) => Some (x :: a, b) | None => None end
  end.
(** [s.split(c)]: always at least one piece. *)
Fixpoint split_on (c : Z) (s : rstr) : list rstr :=
  match s with
  | [] => [[]]
  | x :: s' =>
      if x =? c then [] :: split_on c s'
      else match split_on c s' with [] => [[x]] | p :: ps => (x :: p) :: ps end
  end.

(** [n.to_string()] of an unsigned integer. *)
Definition show_u (n : Z) : rstr := lit (pretty (Z.to_N n)).

(** ** Errors *)

(** A message built by [format!]: the template of the source and its arguments. *)
Inductive fmt_arg : Type :=
| AInt (n : Z)
| AStr (s : rstr)
| ABytes (b : list byte)
| AFloat (f : spec_float).
Record message : Type := Msg { template : string; margs : list fmt_arg }.
Definition msg (s : string) : message := Msg s [].

#[global] Instance spec_float_eq_dec : EqDecision spec_float.
Proof. solve_decision. Defined.
#[global] Instance fmt_arg_eq_dec : EqDecision fmt_arg.
Proof. solve_decision. Defined.
#[global] Instance message_eq_dec : EqDecision message.
Proof. solve_decision. Defined.

(** ** Floating point *)

(** IEEE binary64 and binary32 values, with the standard library's specification
    floats; arithmetic rounds to nearest, ties to even. *)
Abbreviation f64 := spec_float (only parsing).
Abbreviation f32 := spec_float (only parsing).
Definition f64_of_Z (z : Z) : f64 := binary_normalize 53 1024 z 0 false.
Definition f64_add (a b : f64) : f64 := SFadd 53 1024 a b.
Definition f64_sub (a b : f64) : f64 := SFsub 53 1024 a b.
Definition f64_mul (a b : f64) : f64 := SFmul 53 1024 a b.
Definition f64_div (a b : f64) : f64 := SFdiv 53 1024 a b.
Definition f64_min (a b : f64) : f64 :=
  match a, b with
  | S754_nan, _ => b
  | _, S754_nan => a
  | _, _ => if SFltb b a then b else a
  end.
Definition f64_max (a b : f64) : f64 :=
  match a, b with
  | S754_nan, _ => b
  | _, S754_nan => a
  | _, _ => if SFltb a b then b else a
  end.

(** ** Panics and loops *)

(** A computation that may panic (index out of range, [expect], [unwrap]):
    [None] is the panic. *)
Abbreviation may_panic := option (only parsing).

(** A [for] loop over [xs] whose body may panic or fail. *)
Fixpoint fold_option {A B} (f : B -> A -> option B) (b : B) (xs : list A) : option B :=
  match xs with [] => Some b | x :: xs' => b' ← f b x; fold_option f b' xs' end.
Fixpoint fold_result {E A B} (f : B -> A -> result E B) (b : B) (xs : list A) : result E B :=
  match xs with [] => Ok b | x :: xs' => b' ← f b x; fold_result f b' xs' end.

Lemma fold_option_app {A B} (f : B -> A -> option B) b xs ys :
  fold_option f b (xs ++ ys) = (b' ← fold_option f b xs; fold_option f b' ys).
Proof.
  revert b. induction xs as [|x xs IH]; intros b; [done|].
  cbn. destruct (f b x); cbn; [apply IH|done].
Qed.

(** ** Automation *)

Create HintDb zincha.

(** Split a monadic chain or a conditional that is known to have succeeded. *)
Ltac inv_ok :=
  repeat match goal with
  | H : Ok _ = Ok _ |- _ => injection H; clear H; intros; try subst
  | H : Some _ = Some _ |- _ => injection H; clear H; intros; try subst
  | H : Err _ = Ok _ |- _ => discriminate H
  | H : Ok _ = Err _ |- _ => discriminate H
  | H : None = Some _ |- _ => discriminate H
  | H : Some _ = None |- _ => discriminate H
  | H : mbind _ ?m = Ok _ |- _ =>
      let E := fresh "E" in
      destruct m eqn:E; cbn [mbind result_bind] in H; [|discriminate H]
  | H : mbind _ ?m = Some _ |- _ =>
      let E := fresh "E" in
      destruct m eqn:E; cbn [mbind option_bind] in H; [|discriminate H]
  | H : ensure ?b _ = Ok _ |- _ =>
      let E := fresh "E" in
      destruct b eqn:E; cbn [ensure] in H; [clear H|discriminate H]
  | H : (if ?b then Err _ else _) = Ok _ |- _ =>
      let E := fresh "E" in destruct b eqn:E; [discriminate H|]
  | H : (if ?b then Ok _ else Err _) = Ok _ |- _ =>
      let E := fresh "E" in destruct b eqn:E; [|discriminate H]
  | u : unit |- _ => destruct u
  end.

(** What a chain that succeeds went through. *)
Lemma bind_Ok {E A B} (r : result E A) (f : A -> result E B) y :
  (x ← r; f x) = Ok y -> exists x, r = Ok x /\ f x = Ok y.
Proof. destruct r as [x|e]; cbn; intros E'; [by exists x|done]. Qed.
Lemma ok_or_inv {E A} (o : option A) (e : E) x : ok_or o e = Ok x -> o = Some x.
Proof. destruct o; cbn; intros [= ->]; done. Qed.

(** Conjunctions of closed arithmetic facts. *)
Ltac by_compute := repeat split; first [by vm_compute | vm_compute; discriminate].

(** Boolean guards as propositions. *)
Ltac to_prop :=
  repeat match goal with
  | H : (_ && _) = true |- _ => apply andb_true_iff in H as [? ?]
  | H : (_ || _) = false |- _ => apply orb_false_iff in H as [? ?]
  | H : negb _ = true |- _ => apply negb_true_iff in H
  | H : negb _ = false |- _ => apply negb_false_iff in H
  | H : bool_decide _ = true |- _ => apply bool_decide_eq_true in H
  | H : bool_decide _ = false |- _ => apply bool_decide_eq_false in H
  | H : (_ <=? _) = true |- _ => apply Z.leb_le in H
  | H : (_ <=? _) = false |- _ => apply Z.leb_gt in H
  | H : (_ <? _) = true |- _ => apply Z.ltb_lt in H
  | H : (_ <? _) = false |- _ => apply Z.ltb_ge in H
  | H : (_ =? _) = true |- _ => apply Z.eqb_eq in H
  | H : (_ =? _) = false |- _ => apply Z.eqb_neq in H
  end.

(** ** Sums *)

Lemma sumZ_app xs ys : sumZ (xs ++ ys) = sumZ xs + sumZ ys.
Proof. induction xs as [|x xs IH]; cbn; [done|]. unfold sumZ in *. lia. Qed.

Lemma sumZ_nonneg xs : Forall (fun x => 0 <= x) xs -> 0 <= sumZ xs.
Proof. induction 1; cbn; [lia|]. unfold sumZ in *. lia. Qed.

(** A [u64] sum is the mathematical one as long as that fits. *)
Lemma sum_u64_exact xs :
  Forall (fun x => 0 <= x) xs -> sumZ xs <= U64_MAX -> sum_u64 xs = sumZ xs.
Proof.
  intros Hxs Hmax. unfold sum_u64.
  assert (forall acc, 0 <= acc -> acc + sumZ xs <= U64_MAX ->
    foldl (fun acc x => wrap64 (acc + x)) acc xs = acc + sumZ xs) as H.
  { clear Hmax. induction Hxs as [|x xs Hx Hxs IH]; intros acc Hacc Hm; cbn; [lia|].
    pose proof (sumZ_nonneg xs Hxs). cbn in Hm. unfold sumZ in *.
    rewrite IH; unfold wrap64, U64_MAX in *; rewrite Z.mod_small; lia. }
  rewrite H by lia. lia.
Qed.
#[export] Hint Resolve sumZ_nonneg bn_length : zincha.
Create Rewrite HintDb zincha_rw.
#[export] Hint Rewrite @sumZ_app @bn_length le_bytes_length be_bytes_length : zincha_rw.

(** ** Record update

    [r <| field := v |>] for Rust's assignment to one field.  [Eta R] names the
    projections of [R] once; the update replaces one of them. *)
Class Eta (R : Type) : Type := eta : R -> R.
Class Update {R T : Type} (field : R -> T) : Type := update : (T -> T) -> R -> R.
Arguments update {R T} field {_} f r /.

Ltac build_update field :=
  match type of field with
  | ?R -> _ =>
      let inst := constr:(_ : Eta R) in
      let body := eval hnf in (inst : R -> R) in
      let abstracted := eval pattern field in body in
      match abstracted with
      | ?F _ => exact (fun f r => F (fun r' => f (field r')) r)
      end
  end.
#[global] Hint Extern 1 (Update ?field) => build_update field : typeclass_instances.

Notation "r <| field := v |>" := (update field (fun _ => v) r)
  (at level 12, left associativity, format "r  <| field  :=  v |>").

(** ** Stable sorting

    [slice::sort_by]: stable, by insertion; [cmp] is the comparison closure. *)
Section SortBy.
Context {A : Type} (cmp : A -> A -> comparison).

Fixpoint insert_by (x : A) (l : list A) : list A :=
  match l with
  | [] => [x]
  | y :: l' => match cmp x y with Gt => y :: insert_by x l' | _ => x :: l end
  end.
Fixpoint sort_by (l : list A) : list A :=
  match l with [] => [] | x :: l' => insert_by x (sort_by l') end.

Lemma insert_by_perm x l : insert_by x l ≡ₚ x :: l.
Proof.
  induction l as [|y l IH]; cbn; [done|]. destruct (cmp x y); [done..|].
  rewrite IH. apply Permutation_swap.
Qed.

Lemma sort_by_perm l : sort_by l ≡ₚ l.
Proof. induction l as [|x l IH]; cbn; [done|]. by rewrite insert_by_perm, IH. Qed.

Definition not_after (x y : A) : Prop := cmp x y <> Gt.

Lemma insert_by_sorted x l :
  (forall a b, cmp a b = Gt -> not_after b a) ->
  Sorted not_after l -> Sorted not_after (insert_by x l).
Proof.
  intros Hanti. induction l as [|y l IH]; cbn; intros Hl; [by repeat constructor|].
  destruct (cmp x y) eqn:E.
  - constructor; [done|]. constructor. unfold not_after. by rewrite E.
  - constructor; [done|]. constructor. unfold not_after. by rewrite E.
  - inversion Hl as [|? ? Hs Hhd]; subst. constructor; [by apply IH|].
    destruct l as [|z l]; cbn; [constructor; by apply Hanti|].
    destruct (cmp x z); constructor; try by apply Hanti.
    by inversion Hhd.
Qed.

Lemma sort_by_sorted l :
  (forall a b, cmp a b = Gt -> not_after b a) -> Sorted not_after (sort_by l).
Proof.
  intros Hanti. induction l as [|x l IH]; cbn; [constructor|]. by apply insert_by_sorted.
Qed.
End SortBy.

Lemma bytes_cmp_refl a : bytes_cmp a a = Eq.
Proof. induction a as [|x a IH]; cbn; [done|]. by rewrite Z.compare_refl. Qed.

Lemma bytes_cmp_eq a b : bytes_cmp a b = Eq -> a = b.
Proof.
  revert b. induction a as [|x a IH]; intros [|y b]; cbn; try done.
  destruct (Z.compare_spec (byte_val x) (byte_val y)) as [E|E|E]; try done.
  intros H. apply byte_val_inj in E. by rewrite E, (IH b H).
Qed.

Lemma bytes_cmp_antisym a b : bytes_cmp b a = CompOpp (bytes_cmp a b).
Proof.
  revert b. induction a as [|x a IH]; intros [|y b]; cbn; try done.
  rewrite (Z.compare_antisym (byte_val x) (byte_val y)).
  destruct (Z.compare (byte_val x) (byte_val y)); cbn; auto.
Qed.

Lemma bytes_cmp_trans_le a b c :
  bytes_cmp a b <> Gt -> bytes_cmp b c <> Gt -> bytes_cmp a c <> Gt.
Proof.
  revert b c. induction a as [|x a IH]; intros [|y b] [|z c]; cbn; try done.
  destruct (Z.compare_spec (byte_val x) (byte_val y)),
    (Z.compare_spec (byte_val y) (byte_val z)),
    (Z.compare_spec (byte_val x) (byte_val z)); try done; try lia. eauto.
Qed.

Lemma ensure_Ok {E} b (e : E) u : ensure b e = Ok u <-> b = true.
Proof. destruct b, u; cbn; split; congruence. Qed.

Lemma forallb_Forall {A} (p : A -> bool) l :
  forallb p l = true <-> Forall (fun x => p x = true) l.
Proof.
  induction l as [|x l IH]; cbn; [by repeat constructor|].
  by rewrite andb_true_iff, Forall_cons, IH.
Qed.

(** ** UTF-8 *)

(** A Unicode code point. *)
Definition is_scalar (c : Z) : Prop := 0 <= c < 1114112.

Lemma utf8_char_length c : (1 <= length (utf8_char c) <= 4)%nat.
Proof. unfold utf8_char. repeat case_match; cbn; lia. Qed.

Lemma utf8_length s : (length s <= length (utf8 s) <= 4 * length s)%nat.
Proof.
  induction s as [|c s IH]; [cbn; lia|].
  change (utf8 (c :: s)) with (utf8_char c ++ utf8 s). cbn [length].
  rewrite length_app. pose proof (utf8_char_length c). lia.
Qed.

(** The code point of the leading character of a byte sequence, and its length. *)
Definition utf8_head (l : list Z) : Z * nat :=
  match l with
  | a :: _ =>
      if a <? 128 then (a, 1%nat)
      else if a <? 224 then
        match l with a :: b :: _ => ((a - 192) * 64 + (b - 128), 2%nat) | _ => (0, O) end
      else if a <? 240 then
        match l with
        | a :: b :: c :: _ => ((a - 224) * 4096 + (b - 128) * 64 + (c - 128), 3%nat)
        | _ => (0, O)
        end
      else
        match l with
        | a :: b :: c :: d :: _ =>
            ((a - 240) * 262144 + (b - 128) * 4096 + (c - 128) * 64 + (d - 128), 4%nat)
        | _ => (0, O)
        end
  | [] => (0, O)
  end.

Lemma utf8_head_char c r :
  is_scalar c -> utf8_head (byte_val <$> (utf8_char c ++ r)) = (c, length (utf8_char c)).
Proof.
  unfold is_scalar. intros Hc. unfold utf8_char.
  destruct (Z.ltb_spec c 128); [|destruct (Z.ltb_spec c 2048); [|destruct (Z.ltb_spec c 65536)]];
    cbn [app fmap list_fmap length]; rewrite ?byte_val_of; unfold utf8_head, wrap8;
    rewrite ?(Z.mod_small _ 256) by (Z.to_euclidean_division_equations; lia).
  - by rewrite (proj2 (Z.ltb_lt c 128)) by lia.
  - pose proof (Z.div_pos c 64). pose proof (Z.div_lt_upper_bound c 64 32).
    rewrite (proj2 (Z.ltb_ge (192 + _) 128)), (proj2 (Z.ltb_lt (192 + _) 224)) by lia.
    f_equal. rewrite (Z.div_mod c 64) at 3 by lia. lia.
  - pose proof (Z.div_pos c 4096). pose proof (Z.div_lt_upper_bound c 4096 16).
    rewrite (proj2 (Z.ltb_ge (224 + _) 128)), (proj2 (Z.ltb_ge (224 + _) 224)),
      (proj2 (Z.ltb_lt (224 + _) 240)) by lia.
    f_equal. Z.to_euclidean_division_equations; lia.
  - pose proof (Z.div_pos c 262144). pose proof (Z.div_lt_upper_bound c 262144 16).
    rewrite (proj2 (Z.ltb_ge (240 + _) 128)), (proj2 (Z.ltb_ge (240 + _) 224)),
      (proj2 (Z.ltb_ge (240 + _) 240)) by lia.
    f_equal. Z.to_euclidean_division_equations; lia.
Qed.

Lemma utf8_inj s t : Forall is_scalar s -> Forall is_scalar t -> utf8 s = utf8 t -> s = t.
Proof.
  intros Hs. revert t. induction Hs as [|c s Hc Hs IH]; intros t Ht E.
  { pose proof (utf8_length t) as L. rewrite <- E in L. destruct t; [done|]. cbn in L. lia. }
  destruct Ht as [|d t Hd Ht].
  { pose proof (utf8_length (c :: s)) as L. rewrite E in L. cbn in L. lia. }
  change (utf8_char c ++ utf8 s = utf8_char d ++ utf8 t) in E.
  pose proof (utf8_head_char c (utf8 s) Hc) as E1.
  pose proof (utf8_head_char d (utf8 t) Hd) as E2.
  rewrite E, E2 in E1. injection E1 as -> _.
  apply app_inv_head in E. f_equal. by apply IH.
Qed.

Lemma lit_scalar s : Forall is_scalar (lit s).
Proof.
  unfold lit. apply Forall_fmap, Forall_forall. intros a _. cbn. unfold is_scalar.
  pose proof (Ascii.N_ascii_bounded a). lia.
Qed.

(** ** Printed numbers *)

Lemma lit_String a s : lit (String a s) = chr a :: lit s.
Proof. reflexivity. Qed.

Lemma lit_inj s t : lit s = lit t -> s = t.
Proof.
  revert t. induction s as [|a s IH]; intros [|b t] E; try done.
  rewrite !lit_String in E. injection E as E1 E2. f_equal; [|by apply IH].
  apply N2Z.inj in E1. by apply (f_equal Ascii.ascii_of_N) in E1; rewrite !Ascii.ascii_N_embedding in E1.
Qed.

Lemma show_u_inj a b : 0 <= a -> 0 <= b -> show_u a = show_u b -> a = b.
Proof. unfold show_u. intros Ha Hb E%lit_inj%(inj pretty). lia. Qed.

Lemma pretty_N_char_digit d : is_ascii_digit (chr (pretty_N_char d)) = true.
Proof. unfold pretty_N_char. by repeat case_match. Qed.

Lemma pretty_N_go_digits x s :
  Forall (fun c => is_ascii_digit c = true) (lit s) ->
  Forall (fun c => is_ascii_digit c = true) (lit (pretty_N_go x s)).
Proof.
  revert s. induction (N.lt_wf_0 x) as [x _ IH]. intros s Hs.
  destruct (decide (0 < x)%N) as [Hx|Hx].
  - rewrite pretty_N_go_step by done. apply IH; [by apply N.div_lt|].
    rewrite lit_String. constructor; [apply pretty_N_char_digit|done].
  - assert (x = 0%N) as -> by lia. by rewrite pretty_N_go_0.
Qed.

Lemma show_u_digits n : Forall (fun c => is_ascii_digit c = true) (show_u n).
Proof.
  unfold show_u, pretty, pretty_N. case_decide; [by repeat constructor|].
  by apply pretty_N_go_digits.
Qed.

(** ** Prefixes *)

Lemma strip_prefix_app p s : strip_prefix p (p ++ s) = Some s.
Proof. induction p as [|c p IH]; cbn; [done|]. by rewrite Z.eqb_refl. Qed.

Lemma strip_prefix_Some p s r : strip_prefix p s = Some r -> s = p ++ r.
Proof.
  revert s. induction p as [|c p IH]; intros [|d s] E; cbn in *; inv_ok; [done..|].
  destruct (c =? d) eqn:C; [|done]. to_prop. subst. f_equal. by apply IH.
Qed.

Lemma starts_with_iff p s : starts_with p s = true <-> exists r, s = p ++ r.
Proof.
  unfold starts_with. rewrite bool_decide_eq_true. split.
  - intros [r ->%strip_prefix_Some]. by exists r.
  - intros [r ->]. rewrite strip_prefix_app. by exists r.
Qed.
Lemma ends_with_iff p s : ends_with p s = true <-> exists r, s = r ++ p.
Proof.
  unfold ends_with. rewrite starts_with_iff. split.
  - intros [r E]. exists (reverse r). apply (f_equal reverse) in E.
    by rewrite reverse_app, !reverse_involutive in E.
  - intros [r ->]. exists (reverse r). apply reverse_app.
Qed.
Lemma contains_str_iff p s : contains_str p s = true <-> exists a b, s = a ++ p ++ b.
Proof.
  induction s as [|c s IH]; cbn; rewrite orb_true_iff, starts_with_iff.
  - split; [intros [[r E]|]; [by exists [], r|done]|].
    intros (a & b & E). left. symmetry in E. apply app_nil in E as [-> E]. by exists b.
  - rewrite IH. split.
    + intros [[r E]|(a & b & ->)]; [by exists [], r|by exists (c :: a), b].
    + intros ([|x a] & b & E); cbn in E; [left; by exists b|].
      right. injection E as -> ->. by exists a, b.
Qed.
Lemma contains_any_false cs s :
  contains_any cs s = false <-> Forall (fun c => c ∉ cs) s.
Proof.
  unfold contains_any. induction s as [|c s IH]; cbn; [by repeat constructor|].
  rewrite orb_false_iff, bool_decide_eq_false, Forall_cons, IH. done.
Qed.

(** ** Splitting *)

Lemma split_once_Some c s a b : split_once c s = Some (a, b) <-> s = a ++ c :: b /\ c ∉ a.
Proof.
  revert a. induction s as [|x s IH]; intros a; cbn.
  { split; [done|]. intros [E _]. by destruct a. }
  destruct (Z.eqb_spec x c) as [->|Hne].
  - split; [intros [= <- <-]; split; [done|apply not_elem_of_nil]|].
    intros [E Hn]. destruct a as [|y a]; cbn in E; [congruence|].
    injection E as -> _. by destruct Hn; left.
  - destruct (split_once c s) as [[a' b']|] eqn:E; cbn.
    + split.
      * intros [= <- <-]. destruct (proj1 (IH a') eq_refl) as [-> Hn].
        split; [done|]. rewrite not_elem_of_cons. by split; [intros ->|].
      * intros [Es Hn]. destruct a as [|y a]; cbn in Es; [congruence|]. injection Es as -> Es.
        apply not_elem_of_cons in Hn as [_ Hn].
        pose proof (proj2 (IH a) (conj Es Hn)) as Ea. congruence.
    + split; [done|]. intros [Es Hn]. destruct a as [|y a]; cbn in Es; [congruence|].
      injection Es as -> Es. apply not_elem_of_cons in Hn as [_ Hn].
      pose proof (proj2 (IH a) (conj Es Hn)). done.
Qed.

Lemma split_on_nonempty c s : split_on c s <> [].
Proof. destruct s as [|x s]; cbn; [done|]. case_match; [done|]. by case_match. Qed.

Lemma split_on_app c a b : split_on c (a ++ c :: b) = split_on c a ++ split_on c b.
Proof.
  induction a as [|x a IH]; cbn; [by rewrite Z.eqb_refl|]. rewrite IH.
  destruct (x =? c); [done|].
  destruct (split_on c a) eqn:E; [by apply split_on_nonempty in E|done].
Qed.

(** Every character is the separator or in a piece. *)
Lemma split_on_elem c s x :
  x ∈ s -> x = c \/ exists p, p ∈ split_on c s /\ x ∈ p.
Proof.
  induction s as [|y s IH]; [by intros ?%not_elem_of_nil|]. cbn.
  intros [->|Hx]%elem_of_cons.
  - destruct (Z.eqb_spec y c) as [->|_]; [by left|]. right.
    destruct (split_on c s) as [|p ps]; [exists [y]|exists (y :: p)]; set_solver.
  - destruct (IH Hx) as [->|(p & Hp & Hxp)]; [by left|]. right.
    destruct (y =? c); [exists p; set_solver|].
    destruct (split_on c s) as [|q ps]; [set_solver|].
    apply elem_of_cons in Hp as [->|Hp]; [exists (y :: q)|exists p]; set_solver.
Qed.

(** ** Trimming *)

Lemma drop_while_none {A} (p : A -> bool) l : Forall (fun x => p x = false) l -> drop_while p l = l.
Proof. intros Hf. destruct Hf as [|x l Hx _]; [done|]. cbn. by rewrite Hx. Qed.

Lemma trim_id s : Forall (fun c => is_whitespace c = false) s -> trim s = s.
Proof.
  intros Hs. unfold trim. rewrite (drop_while_none _ s Hs).
  rewrite drop_while_none by (by apply Forall_reverse). apply reverse_involutive.
Qed.

Lemma show_u_scalar n : Forall is_scalar (show_u n).
Proof.
  eapply Forall_impl; [apply show_u_digits|]. intros c Hc. unfold is_ascii_digit in Hc. to_prop.
  unfold is_scalar. lia.
Qed.

(** ** Lexicographic order of integer lists

    The order of strings (by scalar value, which is the order of their UTF-8 bytes) and
    of nibble sequences. *)
Fixpoint zlist_cmp (a b : list Z) : comparison :=
  match a, b with
  | [], [] => Eq
  | [], _ :: _ => Lt
  | _ :: _, [] => Gt
  | x :: a', y :: b' => match Z.compare x y with Eq => zlist_cmp a' b' | c => c end
  end.

Lemma zlist_cmp_refl a : zlist_cmp a a = Eq.
Proof. induction a as [|x a IH]; cbn; [done|]. by rewrite Z.compare_refl. Qed.

Lemma zlist_cmp_eq a b : zlist_cmp a b = Eq -> a = b.
Proof.
  revert b. induction a as [|x a IH]; intros [|y b]; cbn; try done.
  destruct (Z.compare_spec x y) as [E|E|E]; try done. intros H. by rewrite E, (IH b H).
Qed.

Lemma zlist_cmp_antisym a b : zlist_cmp b a = CompOpp (zlist_cmp a b).
Proof.
  revert b. induction a as [|x a IH]; intros [|y b]; cbn; try done.
  rewrite (Z.compare_antisym x y). destruct (Z.compare x y); cbn; auto.
Qed.

Lemma zlist_cmp_trans a b c : zlist_cmp a b = Lt -> zlist_cmp b c = Lt -> zlist_cmp a c = Lt.
Proof.
  revert b c. induction a as [|x a IH]; intros [|y b] [|z c]; cbn; try done.
  destruct (Z.compare_spec x y), (Z.compare_spec y z), (Z.compare_spec x z);
    try done; try lia. eauto.
Qed.

Lemma zlist_cmp_app p a b : zlist_cmp (p ++ a) (p ++ b) = zlist_cmp a b.
Proof. induction p as [|x p IH]; cbn; [done|]. by rewrite Z.compare_refl. Qed.

(** A list sorted by [not_after] without ties is strictly sorted. *)
Lemma strictly_sorted {A} (cmp : A -> A -> comparison) l :
  (forall a b c, cmp a b <> Gt -> cmp b c <> Gt -> cmp a c <> Gt) ->
  (forall a b, a ∈ l -> b ∈ l -> cmp a b = Eq -> a = b) ->
  NoDup l -> Sorted (not_after cmp) l -> StronglySorted (fun a b => cmp a b = Lt) l.
Proof.
  intros Htr Heq Hnd Hs. apply Sorted_StronglySorted in Hs; [|intros a b c; apply Htr].
  induction Hs as [|x l Hs IH Hf]; [constructor|]. apply NoDup_cons in Hnd as [Hx Hnd].
  constructor.
  - apply IH; [|done]. intros a b Ha Hb. apply Heq; by apply list_elem_of_further.
  - rewrite Forall_forall in Hf |- *. intros y Hy. specialize (Hf y Hy).
    unfold not_after in Hf. destruct (cmp x y) eqn:E; try done.
    apply Heq in E as ->; [done| |]; [apply list_elem_of_here|by apply list_elem_of_further].
Qed.

(** ** Total preorders given by comparison functions *)

(** [Ordering::then_with]. *)
Definition then_with (c d : comparison) : comparison := match c with Eq => d | _ => c end.

Class CmpLaws {A} (cmp : A -> A -> comparison) : Prop := {
  cmp_antisym : forall a b, cmp b a = CompOpp (cmp a b);
  cmp_trans : forall a b c, cmp a b <> Gt -> cmp b c <> Gt -> cmp a c <> Gt;
}.

#[global] Instance Z_cmp_laws : CmpLaws Z.compare.
Proof.
  split; [intros; apply Z.compare_antisym|].
  intros a b c. destruct (Z.compare_spec a b), (Z.compare_spec b c), (Z.compare_spec a c);
    try done; lia.
Qed.
#[global] Instance bytes_cmp_laws : CmpLaws bytes_cmp.
Proof. split; [intros; apply bytes_cmp_antisym|apply bytes_cmp_trans_le]. Qed.
#[global] Instance zlist_cmp_laws : CmpLaws zlist_cmp.
Proof.
  split; [intros; apply zlist_cmp_antisym|]. intros a b c H1 H2.
  destruct (zlist_cmp a b) eqn:E1; [apply zlist_cmp_eq in E1 as ->; done| |done].
  destruct (zlist_cmp b c) eqn:E2; [apply zlist_cmp_eq in E2 as <-; by rewrite E1| |done].
  by rewrite (zlist_cmp_trans _ _ _ E1 E2).
Qed.

(** Comparing a field. *)
Definition cmp_on {A B} (f : A -> B) (cmp : B -> B -> comparison) (a b : A) : comparison :=
  cmp (f a) (f b).
#[global] Instance cmp_on_laws {A B} (f : A -> B) cmp : CmpLaws cmp -> CmpLaws (cmp_on f cmp).
Proof.
  intros Hc. split; unfold cmp_on; [intros; apply cmp_antisym|intros a b c; apply cmp_trans].
Qed.

Definition cmp_then {A} (c1 c2 : A -> A -> comparison) (a b : A) : comparison :=
  then_with (c1 a b) (c2 a b).
#[global] Instance cmp_then_laws {A} (c1 c2 : A -> A -> comparison) :
  CmpLaws c1 -> CmpLaws c2 -> CmpLaws (cmp_then c1 c2).
Proof.
  intros H1 H2. split; unfold cmp_then.
  - intros a b. rewrite (cmp_antisym (cmp := c1) a b), (cmp_antisym (cmp := c2) a b).
    destruct (c1 a b); done.
  - intros a b c. pose proof (cmp_trans (cmp := c1) a b c). pose proof (cmp_trans (cmp := c1) b c a).
    pose proof (cmp_trans (cmp := c1) c a b). pose proof (cmp_trans (cmp := c2) a b c).
    pose proof (cmp_antisym (cmp := c1) a b). pose proof (cmp_antisym (cmp := c1) b c).
    pose proof (cmp_antisym (cmp := c1) a c).
    destruct (c1 a b), (c1 b c), (c1 a c); cbn in *; try done; repeat match goal with
      | E : c1 _ _ = _ |- _ => rewrite E in *; clear E end;
      intros; exfalso; intuition congruence.
Qed.

Lemma sort_by_strongly_sorted {A} (cmp : A -> A -> comparison) `{!CmpLaws cmp} l :
  StronglySorted (not_after cmp) (sort_by cmp l).
Proof.
  apply Sorted_StronglySorted; [intros a b c; apply cmp_trans|].
  apply sort_by_sorted. intros a b E. unfold not_after. by rewrite cmp_antisym, E.
Qed.

(** A sorted permutation without ties is unique. *)
Lemma sorted_unique {A} (cmp : A -> A -> comparison) (l1 l2 : list A) :
  (forall a b, a ∈ l1 -> b ∈ l1 -> cmp a b <> Gt -> cmp b a <> Gt -> a = b) ->
  StronglySorted (not_after cmp) l1 -> StronglySorted (not_after cmp) l2 ->
  l1 ≡ₚ l2 -> l1 = l2.
Proof.
  intros Hanti H1. revert l2. induction H1 as [|a l1 Hs1 IH Hf1]; intros l2 H2 Hp.
  { by apply Permutation_nil in Hp. }
  destruct H2 as [|b l2 Hs2 Hf2]; [by symmetry in Hp; apply Permutation_nil in Hp|].
  assert (a = b) as <-.
  { assert (a ∈ b :: l2) as Ha by (rewrite <- Hp; apply list_elem_of_here).
    assert (b ∈ a :: l1) as Hb by (rewrite Hp; apply list_elem_of_here).
    pose proof Ha as Ha'. pose proof Hb as Hb'.
    apply elem_of_cons in Ha as [->|Ha]; [done|]. apply elem_of_cons in Hb as [<-|Hb]; [done|].
    rewrite Forall_forall in Hf1, Hf2.
    apply Hanti; [apply list_elem_of_here|done|by apply Hf1|by apply Hf2]. }
  f_equal. apply IH; [|done|by apply Permutation_cons_inv in Hp].
  intros x y Hx Hy. apply Hanti; by apply list_elem_of_further.
Qed.

Lemma sort_by_unique {A} (cmp : A -> A -> comparison) `{!CmpLaws cmp} l1 l2 :
  (forall a b, a ∈ l1 -> b ∈ l1 -> cmp a b = Eq -> a = b) ->
  l1 ≡ₚ l2 -> sort_by cmp l1 = sort_by cmp l2.
Proof.
  intros Heq Hp. apply (sorted_unique cmp); [|apply sort_by_strongly_sorted, _..|].
  - intros a b Ha Hb Hab Hba. rewrite sort_by_perm in Ha, Hb. apply Heq; [done..|].
    rewrite cmp_antisym in Hba. by destruct (cmp a b).
  - by rewrite !sort_by_perm.
Qed.

(** ** Decimal numbers *)

(** [s.parse()] at an unsigned type whose greatest value is [max]: an optional plus sign,
    then decimal digits read from the left. *)
Inductive ParseIntError : Type := IntEmpty | InvalidDigit | PosOverflow.
Definition parse_int_text (e : ParseIntError) : rstr :=
  match e with
  | IntEmpty => lit "cannot parse integer from empty string"
  | InvalidDigit => lit "invalid digit found in string"
  | PosOverflow => lit "number too large to fit in target type"
  end.
Fixpoint parse_digits (max acc : Z) (s : rstr) : result ParseIntError Z :=
  match s with
  | [] => Ok acc
  | c :: s' =>
      if is_ascii_digit c then
        if max <? acc * 10 then Err PosOverflow
        else if max <? acc * 10 + (c - 48) then Err PosOverflow
        else parse_digits max (acc * 10 + (c - 48)) s'
      else Err InvalidDigit
  end.
Definition parse_unsigned (max : Z) (s : rstr) : result ParseIntError Z :=
  match s with
  | [] => Err IntEmpty
  | c :: s' =>
      if c =? 43 then match s' with [] => Err InvalidDigit | _ => parse_digits max 0 s' end
      else parse_digits max 0 s
  end.

(** The value of a digit string. *)
Definition dec_value (s : rstr) : Z := foldl (fun acc c => acc * 10 + (c - 48)) 0 s.

Lemma parse_digits_Ok max acc s n :
  0 <= acc <= max ->
  parse_digits max acc s = Ok n <->
  Forall (fun c => is_ascii_digit c = true) s /\
  n = foldl (fun a c => a * 10 + (c - 48)) acc s /\ n <= max.
Proof.
  revert acc. induction s as [|c s IH]; intros acc Ha; cbn.
  { split; [intros [= <-]; repeat split; [constructor|lia]|by intros (_ & -> & _)]. }
  assert (forall a l, 0 <= a -> Forall (fun c => is_ascii_digit c = true) l ->
    a <= foldl (fun a c => a * 10 + (c - 48)) a l) as Hmono.
  { intros a l Hl Hf. revert a Hl. induction Hf as [|d l Hd _ IHl]; intros a Hl; cbn; [done|].
    unfold is_ascii_digit in Hd. to_prop. etrans; [|apply IHl; lia]. lia. }
  rewrite Forall_cons. destruct (is_ascii_digit c) eqn:D; [|split; [done|by intros ([] & _)]].
  pose proof D as D'. unfold is_ascii_digit in D'. to_prop.
  destruct (Z.ltb_spec max (acc * 10)) as [H1|H1].
  { split; [done|]. intros ([_ Hf] & -> & Hn). pose proof (Hmono (acc * 10 + (c - 48)) s).
    exfalso. cut (acc * 10 + (c - 48) <= max); [lia|]. etrans; [apply Hmono|exact Hn]; [lia|done]. }
  destruct (Z.ltb_spec max (acc * 10 + (c - 48))) as [H2|H2].
  { split; [done|]. intros ([_ Hf] & -> & Hn). exfalso.
    cut (acc * 10 + (c - 48) <= max); [lia|]. etrans; [apply Hmono|exact Hn]; [lia|done]. }
  rewrite IH by lia. tauto.
Qed.

(** What [parse] accepts. *)
Lemma parse_unsigned_Ok max s n :
  0 <= max ->
  parse_unsigned max s = Ok n <->
  exists d, (s = d \/ s = 43 :: d) /\ d <> [] /\
    Forall (fun c => is_ascii_digit c = true) d /\ n = dec_value d /\ n <= max.
Proof.
  intros Hm. unfold parse_unsigned. destruct s as [|c s].
  { split; [done|]. by intros (d & [<-|] & Hd & _). }
  destruct (Z.eqb_spec c 43) as [->|Hc].
  - destruct s as [|x s].
    + split; [done|]. intros (d & [<-|[= <-]] & Hd & Hf & _); [|done].
      by apply Forall_cons in Hf as [? _].
    + rewrite parse_digits_Ok by lia. split; [intros (Hf & -> & Hn); exists (x :: s); split_and!; auto|].
      intros (d & [<-|[= <-]] & Hd & Hf & -> & Hn); [by apply Forall_cons in Hf as [? _]|done].
  - rewrite parse_digits_Ok by lia. split; [intros (Hf & -> & Hn); exists (c :: s); split_and!; auto|].
    intros (d & [<-|[= -> _]] & Hd & Hf & -> & Hn); done.
Qed.

Lemma pretty_N_char_value d :
  (d < 10)%N -> chr (pretty_N_char d) - 48 = Z.of_N d.
Proof.
  intros Hd. assert (d ∈ [0;1;2;3;4;5;6;7;8;9]%N) as Hin.
  { rewrite !elem_of_cons. lia. }
  rewrite !elem_of_cons, elem_of_nil in Hin.
  repeat (destruct Hin as [->|Hin]; [by vm_compute|]). done.
Qed.
Lemma pretty_N_go_value x s :
  dec_value (lit (pretty_N_go x s)) = foldl (fun a c => a * 10 + (c - 48)) (Z.of_N x) (lit s).
Proof.
  revert s. induction (N.lt_wf_0 x) as [x _ IH]. intros s.
  destruct (decide (0 < x)%N) as [Hx|Hx].
  - rewrite pretty_N_go_step by done. rewrite IH by (by apply N.div_lt).
    rewrite lit_String. cbn [foldl]. rewrite pretty_N_char_value by (by apply N.mod_lt).
    f_equal. pose proof (N.div_mod x 10). lia.
  - assert (x = 0%N) as -> by lia. by rewrite pretty_N_go_0.
Qed.
Lemma dec_value_nonneg d : Forall (fun c => is_ascii_digit c = true) d -> 0 <= dec_value d.
Proof.
  unfold dec_value. assert (0 <= 0) as Ha by done. revert Ha. generalize 0 at 2 4.
  intros a Ha Hf. revert a Ha. induction Hf as [|c d Hc _ IH]; intros a Ha; cbn; [done|].
  apply IH. unfold is_ascii_digit in Hc. to_prop. lia.
Qed.
Lemma show_u_value n : 0 <= n -> dec_value (show_u n) = n.
Proof.
  intros Hn. unfold show_u, pretty, pretty_N. case_decide as Hz; [by cbn; lia|].
  rewrite pretty_N_go_value. cbn. lia.
Qed.
Lemma show_u_nonempty n : 0 <= n -> show_u n <> [].
Proof.
  intros Hn E. pose proof (show_u_value n Hn) as Hv. rewrite E in Hv. cbn in Hv. by subst n.
Qed.
(** Printing and parsing. *)
Lemma parse_show_u max n : 0 <= n <= max -> parse_unsigned max (show_u n) = Ok n.
Proof.
  intros Hn. apply parse_unsigned_Ok; [lia|]. exists (show_u n). split; [by left|].
  split; [apply show_u_nonempty; lia|]. split; [apply show_u_digits|].
  rewrite show_u_value by lia. lia.
Qed.

(** ** Joining

    [fields.join(sep)]; fields that do not contain the separator are read back. *)
Lemma split_on_none c s : c ∉ s -> split_on c s = [s].
Proof.
  induction s as [|x s IH]; [done|]. intros [Hx Hs]%not_elem_of_cons. cbn.
  destruct (Z.eqb_spec x c); [congruence|]. by rewrite IH.
Qed.
Fixpoint join (sep : rstr) (l : list rstr) : rstr :=
  match l with [] => [] | [x] => x | x :: l' => x ++ sep ++ join sep l' end.
Lemma split_join c l : l <> [] -> Forall (fun x => c ∉ x) l -> split_on c (join [c] l) = l.
Proof.
  intros Hn Hf. induction Hf as [|x l Hx Hf IH]; [done|]. destruct l as [|y l].
  - by apply split_on_none.
  - change (join [c] (x :: y :: l)) with (x ++ c :: join [c] (y :: l)).
    by rewrite split_on_app, split_on_none, IH by done.
Qed.
Lemma join_inj c l1 l2 :
  l1 <> [] -> l2 <> [] -> Forall (fun x => c ∉ x) l1 -> Forall (fun x => c ∉ x) l2 ->
  join [c] l1 = join [c] l2 -> l1 = l2.
Proof. intros N1 N2 F1 F2 E. by rewrite <- (split_join c l1), <- (split_join c l2), E. Qed.

(** [n.to_string()] of a signed integer. *)
Definition show_i (n : Z) : rstr := if n <? 0 then 45 :: show_u (- n) else show_u n.
Lemma show_i_inj a b : show_i a = show_i b -> a = b.
Proof.
  unfold show_i. assert (forall n l, show_u n <> 45 :: l) as Hm.
  { intros n l E. pose proof (show_u_digits n) as Hf. rewrite E in Hf.
    by apply Forall_cons in Hf as [Hf _]. }
  destruct (Z.ltb_spec a 0), (Z.ltb_spec b 0); intros E.
  - injection E as E. apply show_u_inj in E; lia.
  - by symmetry in E; apply Hm in E.
  - by apply Hm in E.
  - apply show_u_inj in E; lia.
Qed.
Lemma show_u_avoids c n : is_ascii_digit c = false -> c ∉ show_u n.
Proof.
  intros Hc Hin. pose proof (show_u_digits n) as Hf. rewrite Forall_forall in Hf.
  apply Hf in Hin. congruence.
Qed.
Lemma show_i_avoids c n : is_ascii_digit c = false -> c <> 45 -> c ∉ show_i n.
Proof.
  intros Hc Hm. unfold show_i. destruct (n <? 0); [|by apply show_u_avoids].
  rewrite not_elem_of_cons. split; [done|by apply show_u_avoids].
Qed.

Definition I64_MAX : Z := 9223372036854775807.
Definition I64_MIN : Z := -9223372036854775808.
Definition is_i64 (z : Z) : Prop := I64_MIN <= z <= I64_MAX.
Definition sat_i64 (z : Z) : Z := Z.max I64_MIN (Z.min z I64_MAX).

(** ** Decoding UTF-8 *)

(** [str::from_utf8]: the scalar values whose encoding the bytes are. *)
Definition is_char (c : Z) : bool :=
  (0 <=? c) && (c <? 1114112) && negb ((55296 <=? c) && (c <=? 57343)).
Fixpoint utf8_decode (fuel : nat) (l : list byte) : rstr :=
  match fuel, l with
  | S fuel', _ :: _ =>
      let '(c, n) := utf8_head (byte_val <$> l) in c :: utf8_decode fuel' (drop n l)
  | _, _ => []
  end.
Definition from_utf8 (l : list byte) : option rstr :=
  let s := utf8_decode (length l) l in
  if bool_decide (utf8 s = l) && forallb is_char s then Some s else None.

(** Decoding inverts encoding. *)
Lemma utf8_decode_utf8 fuel s :
  (length (utf8 s) <= fuel)%nat -> Forall is_scalar s -> utf8_decode fuel (utf8 s) = s.
Proof.
  intros Hf Hs. revert fuel Hf. induction Hs as [|c s Hc Hs IH]; intros fuel Hf; [by destruct fuel|].
  change (utf8 (c :: s)) with (utf8_char c ++ utf8 s) in *. rewrite length_app in Hf.
  pose proof (utf8_char_length c) as Hl. pose proof (utf8_head_char c (utf8 s) Hc) as Hh.
  destruct fuel as [|fuel]; [lia|].
  destruct (utf8_char c ++ utf8 s) as [|b l] eqn:E.
  { apply (f_equal length) in E. rewrite length_app in E. cbn in E. lia. }
  cbn [utf8_decode]. rewrite Hh. rewrite <- E, drop_app_length. f_equal. apply IH. lia.
Qed.
Lemma from_utf8_utf8 s : forallb is_char s = true -> from_utf8 (utf8 s) = Some s.
Proof.
  intros Hs. assert (Forall is_scalar s) as Hsc.
  { apply forallb_Forall in Hs. eapply Forall_impl; [exact Hs|]. cbn. intros c Hc.
    unfold is_char in Hc. unfold is_scalar. mlia. }
  unfold from_utf8. rewrite utf8_decode_utf8 by done.
  by rewrite bool_decide_eq_true_2, Hs.
Qed.
