(* ===== verification/Crypto.v ===== *)
(** * Hashes, addresses, keys and the error type

    Models [crypto/hash.rs], [crypto/keys.rs] and [error.rs].  SHA-256, BLAKE3, the
    [hex] crate, [ed25519-dalek] and [bincode] are third-party: each is a class whose
    fields are the operations the code calls, and a second class states the
    documented laws a theorem may rely on. *)
From S2P Require Import Prelude.

(** ** [error.rs] *)

Inductive ZinchaError : Type :=
| InvalidSignature (m : message)
| InvalidPublicKey (m : message)
| KeyDerivation (m : message)
| InvalidTransaction (m : message)
| InsufficientBalance (have need : Z)
| InvalidNonce (expected got : Z)
| DuplicateTransaction (m : message)
| InvalidBlock (m : message)
| InvalidBlockHash (expected got : rstr)
| ParentNotFound (m : message)
| InvalidMerkleRoot
| AgentNotFound (m : message)
| AgentAlreadyRegistered (m : message)
| InvalidCapability (m : message)
| InsufficientStake (minimum provided : Z)
| TaskNotFound (m : message)
| TaskAlreadyFulfilled (m : message)
| NoMatchingAgent (m : message)
| TaskExpired (m : message)
| NotValidator (m : message)
| InvalidComputationProof (m : message)
| ConsensusFailure (m : message)
| Storage (m : message)
| Serialization (m : message)
| Network (m : message)
| PeerNotFound (m : message)
| RateLimited (m : message)
| OrderflowRouteUnavailable (m : message)
| Config (m : message)
| Internal (m : message).

#[global] Instance ZinchaError_eq_dec : EqDecision ZinchaError.
Proof. solve_decision. Defined.

(** ** Third-party primitives *)

Abbreviation Hash256 := (bytesN 32).
Abbreviation Address := (bytesN 20).

(** The [sha2] and [blake3] crates. *)
Class Digests := {
  sha256 : list byte -> bytesN 32;
  blake3 : list byte -> bytesN 32;
}.

(** The [hex] crate; the error is its display string. *)
Class Hex := {
  hex_encode : list byte -> rstr;
  hex_decode : rstr -> result rstr (list byte);
}.
Class HexLaws `{Hex} : Prop := {
  hex_decode_encode : forall b, hex_decode (hex_encode b) = Ok b;
  hex_encode_digits : forall b c,
    c ∈ hex_encode b -> 48 <= c <= 57 \/ 97 <= c <= 102;
  hex_decode_length : forall s b,
    hex_decode s = Ok b -> length s = (2 * length b)%nat;
}.

(** The [ed25519-dalek] crate. A key is represented by its 32-byte encoding:
    [ed_decode] is the check [VerifyingKey::from_bytes] makes (errors are display
    strings), and every 32-byte string is a signing key. *)
Class Ed25519 := {
  ed_decode : bytesN 32 -> result rstr unit;
  ed_verify : bytesN 32 -> list byte -> bytesN 64 -> result rstr unit;
  ed_public : bytesN 32 -> bytesN 32;
  ed_sign : bytesN 32 -> list byte -> bytesN 64;
}.
Class Ed25519Laws `{Ed25519} : Prop := {
  public_decodes : forall sk, ed_decode (ed_public sk) = Ok ();
  sign_verify : forall sk m, ed_verify (ed_public sk) m (ed_sign sk m) = Ok ();
}.

(** [XChaCha20Poly1305]: key, nonce, message or ciphertext, associated data. *)
Class Aead := {
  aead_encrypt : bytesN 32 -> list byte -> list byte -> list byte -> result rstr (list byte);
  aead_decrypt : bytesN 32 -> list byte -> list byte -> list byte -> result rstr (list byte);
}.
Class AeadLaws `{Aead} : Prop :=
  aead_roundtrip : forall key nonce m aad c,
    aead_encrypt key nonce m aad = Ok c -> aead_decrypt key nonce c aad = Ok m.

(** [bincode] with fixed-width integers at one type, through the [serde] code the build derives
    for it: writing a value, and reading one from the front of some bytes, with what is left. *)
Class Bincode (T : Type) := {
  bincode_serialize : T -> result rstr (list byte);
  bincode_read : list byte -> result rstr (T * list byte);
}.
(** [bincode::deserialize] lets bytes follow the value. *)
Definition bincode_deserialize `{Bincode T} (b : list byte) : result rstr T :=
  p ← bincode_read b; Ok p.1.
(** [reject_trailing_bytes().deserialize] does not. *)
Definition bincode_deserialize_all `{Bincode T} (b : list byte) : result rstr T :=
  p ← bincode_read b;
  match p.2 with
  | [] => Ok p.1
  | _ :: _ => Err (lit "Slice had bytes remaining after deserialization")
  end.
(** Reading takes all of what writing gave. *)
Class BincodeLaws (T : Type) `{Bincode T} : Prop :=
  bincode_read_written : forall (x : T) b,
    bincode_serialize x = Ok b -> bincode_read b = Ok (x, []).

Lemma bincode_roundtrip {T} `{BincodeLaws T} (x : T) b :
  bincode_serialize x = Ok b -> bincode_deserialize b = Ok x.
Proof. unfold bincode_deserialize. by intros ->%bincode_read_written. Qed.
Lemma bincode_roundtrip_all {T} `{BincodeLaws T} (x : T) b :
  bincode_serialize x = Ok b -> bincode_deserialize_all b = Ok x.
Proof. unfold bincode_deserialize_all. by intros ->%bincode_read_written. Qed.
Lemma bincode_inj {T} `{BincodeLaws T} (x y : T) b :
  bincode_serialize x = Ok b -> bincode_serialize y = Ok b -> x = y.
Proof.
  intros Hx%bincode_roundtrip Hy%bincode_roundtrip.
  rewrite Hx in Hy. by injection Hy.
Qed.

(** ** [crypto/hash.rs] *)
Section Hash.
Context `{Digests}.

(** [Hash256::zero]. *)
Definition hash_zero : Hash256 := pad_bytesN 32 [].
Definition hash_from_slice (slice : list byte) : Hash256 := pad_bytesN 32 slice.

(** [hash_bytes]: one SHA-256 update, then [from_slice] of the digest. *)
Definition hash_bytes (data : list byte) : Hash256 := hash_from_slice (bn (sha256 data)).
Definition double_hash (data : list byte) : Hash256 :=
  let first := hash_bytes data in hash_bytes (bn first).
Definition blake3_hash (data : list byte) : Hash256 := hash_from_slice (bn (blake3 data)).
Definition combine_hashes (left right : Hash256) : Hash256 :=
  hash_bytes (bn left ++ bn right).

(** [serialize_for_hash] panics when serialisation fails: [None]. *)
Definition serialize_for_hash {T} `{Bincode T} (value : T) : option (list byte) :=
  ok (bincode_serialize value).
Definition hash_transaction {T} `{Bincode T} (tx : T) : option Hash256 :=
  hash_bytes <$> serialize_for_hash tx.

Lemma hash_bytes_sha256 data : hash_bytes data = sha256 data.
Proof. apply pad_bytesN_bn. Qed.

(** [collision_free xs]: the hash separates the byte strings of [xs]. *)
Definition collision_free (xs : list (list byte)) : Prop :=
  forall x y, x ∈ xs -> y ∈ xs -> hash_bytes x = hash_bytes y -> x = y.

Lemma collision_free_sub xs ys :
  (forall x, x ∈ xs -> x ∈ ys) -> collision_free ys -> collision_free xs.
Proof. intros Hsub Hcf x y Hx Hy. apply Hcf; auto. Qed.

(** A boolean test, for concrete digests. *)
Definition collision_freeb (xs : list (list byte)) : bool :=
  let hs := (fun x => (x, hash_bytes x)) <$> xs in
  forallb (fun p => forallb (fun q =>
    implb (bool_decide (p.2 = q.2)) (bool_decide (p.1 = q.1))) hs) hs.

Lemma collision_freeb_ok xs : collision_freeb xs = true -> collision_free xs.
Proof.
  intros Hb x y Hx Hy E. unfold collision_freeb in Hb. rewrite forallb_forall in Hb.
  assert (forall z, z ∈ xs -> List.In (z, hash_bytes z)
    ((fun x => (x, hash_bytes x)) <$> xs)) as Hin.
  { intros z Hz. apply list_elem_of_In, list_elem_of_fmap. eauto. }
  specialize (Hb _ (Hin x Hx)). rewrite forallb_forall in Hb.
  specialize (Hb _ (Hin y Hy)). cbn [fst snd] in Hb.
  rewrite bool_decide_eq_true_2 in Hb by done. by apply bool_decide_eq_true in Hb.
Qed.

Lemma app_bytesN_inj {n} (a b : bytesN n) x y :
  bn a ++ x = bn b ++ y -> a = b /\ x = y.
Proof.
  intros E. apply app_inj_1 in E as [E1 E2]; [|by rewrite !bn_length].
  split; [by apply bytesN_eq|done].
Qed.

Lemma combine_preimage_inj (a b c d : Hash256) :
  bn a ++ bn b = bn c ++ bn d -> a = c /\ b = d.
Proof. intros [-> E]%app_bytesN_inj. split; [done|by apply bytesN_eq]. Qed.
End Hash.

Section HashHex.
Context `{Hex}.
Definition hash_to_hex (h : Hash256) : rstr := hex_encode (bn h).
(** [Hash256::from_hex]: decodes, then pads or truncates to 32 bytes. *)
Definition hash_from_hex (s : rstr) : result rstr Hash256 :=
  bytes ← hex_decode s; Ok (pad_bytesN 32 bytes).

Lemma hash_from_hex_to_hex `{!HexLaws} h : hash_from_hex (hash_to_hex h) = Ok h.
Proof.
  unfold hash_from_hex, hash_to_hex. rewrite hex_decode_encode. cbn.
  f_equal. apply pad_bytesN_bn.
Qed.
End HashHex.

(** ** [crypto/keys.rs] *)
Definition ADDRESS_PREFIX : rstr := lit "zn1".

Section Address.
Context `{Hex}.

Definition address_zero : Address := pad_bytesN 20 [].
Definition address_last (b : byte) : Address := pad_bytesN 20 (replicate 19 x00 ++ [b]).
Definition address_treasury : Address := address_last x01.
Definition address_ecosystem_fund : Address := address_last x02.
Definition address_distribution_fund : Address := address_last x03.
Definition address_foundation : Address := address_last x04.

Definition decode_raw_hex_body (s : rstr) : result ZinchaError Address :=
  bytes ← map_err (fun e => InvalidPublicKey (Msg "{}" [AStr e])) (hex_decode s);
  match mk_bytesN 20 bytes with
  | Some a => Ok a
  | None => Err (InvalidPublicKey
      (Msg "Address must be 20 bytes, got {}" [AInt (Z.of_nat (length bytes))]))
  end.

Definition address_from_hex (s : rstr) : result ZinchaError Address :=
  match strip_prefix ADDRESS_PREFIX s with
  | None => Err (InvalidPublicKey (Msg "Address must start with {}" [AStr ADDRESS_PREFIX]))
  | Some raw_hex => decode_raw_hex_body raw_hex
  end.

Definition address_from_raw_hex (s : rstr) : result ZinchaError Address :=
  if starts_with ADDRESS_PREFIX s then
    Err (InvalidPublicKey
      (Msg "Raw hex address must not include {} prefix" [AStr ADDRESS_PREFIX]))
  else decode_raw_hex_body s.

Definition address_to_raw_hex (a : Address) : rstr := hex_encode (bn a).
(** [to_hex], which is also the [Display] form. *)
Definition address_to_hex (a : Address) : rstr := ADDRESS_PREFIX ++ address_to_raw_hex a.

Lemma decode_raw_hex_body_encode `{!HexLaws} (a : Address) :
  decode_raw_hex_body (address_to_raw_hex a) = Ok a.
Proof.
  unfold decode_raw_hex_body, address_to_raw_hex. rewrite hex_decode_encode. cbn.
  by rewrite mk_bytesN_bn.
Qed.

(** ** The public form of an address *)
Section AddressText.
Context `{!HexLaws}.

Lemma address_to_hex_length (a : Address) : length (address_to_hex a) = 43%nat.
Proof.
  unfold address_to_hex, address_to_raw_hex. rewrite length_app.
  rewrite (hex_decode_length _ _ (hex_decode_encode (bn a))), bn_length. done.
Qed.

Lemma address_to_hex_inj (a b : Address) : address_to_hex a = address_to_hex b -> a = b.
Proof.
  unfold address_to_hex, address_to_raw_hex. intros E%app_inv_head.
  apply (f_equal hex_decode) in E. rewrite !hex_decode_encode in E.
  apply bytesN_eq. congruence.
Qed.

Lemma address_to_hex_scalar (a : Address) : Forall is_scalar (address_to_hex a).
Proof.
  apply Forall_forall. intros c. unfold address_to_hex, address_to_raw_hex.
  intros [Hc|Hc]%elem_of_app.
  - apply (Forall_forall is_scalar ADDRESS_PREFIX); [|done]. repeat constructor; by_compute.
  - apply hex_encode_digits in Hc. unfold is_scalar. lia.
Qed.

End AddressText.

(** The accepted public form has the prefix and exactly 40 hex digits. *)
Lemma decode_raw_hex_body_length `{!HexLaws} s a :
  decode_raw_hex_body s = Ok a -> length s = 40%nat.
Proof.
  unfold decode_raw_hex_body. destruct (hex_decode s) as [b|] eqn:E; [|done]. cbn.
  destruct (mk_bytesN 20 b) eqn:M; [|done]. intros _.
  apply mk_bytesN_Some in M as [_ L]. apply hex_decode_length in E. lia.
Qed.
End Address.

(** [PublicKey], [Signature] and [Keypair] by their encodings; [PartialEq for PublicKey]
    compares encodings. *)
Abbreviation PublicKey := (bytesN 32).
Abbreviation Signature := (bytesN 64).
Abbreviation Keypair := (bytesN 32).

Section Keys.
Context `{Digests, Ed25519}.

Definition pk_from_bytes (bytes : bytesN 32) : result ZinchaError PublicKey :=
  _ ← map_err (fun e => InvalidPublicKey (Msg "{}" [AStr e])) (ed_decode bytes); Ok bytes.
(** [Signature::from_bytes] accepts every 64-byte string. *)
Definition sig_from_bytes (bytes : bytesN 64) : result ZinchaError Signature := Ok bytes.
Definition pk_verify (pk : PublicKey) (m : list byte) (s : Signature)
    : result ZinchaError unit :=
  map_err (fun e => InvalidSignature (Msg "{}" [AStr e])) (ed_verify pk m s).

(** [Address::from_public_key]: bytes 12..32 of the SHA-256 of the key. *)
Definition address_from_public_key (pk : PublicKey) : Address :=
  pad_bytesN 20 (drop 12 (bn (sha256 (bn pk)))).
Definition pk_to_address (pk : PublicKey) : Address := address_from_public_key pk.

Definition keypair_from_secret_bytes (b : bytesN 32) : Keypair := b.
Definition keypair_public_key (k : Keypair) : PublicKey := ed_public k.
Definition keypair_address (k : Keypair) : Address := pk_to_address (keypair_public_key k).
Definition keypair_sign (k : Keypair) (m : list byte) : Signature := ed_sign k m.
Definition keypair_secret_bytes (k : Keypair) : bytesN 32 := k.

Lemma keypair_sign_verify `{!Ed25519Laws} k m :
  pk_verify (keypair_public_key k) m (keypair_sign k m) = Ok ().
Proof. unfold pk_verify, keypair_public_key, keypair_sign. by rewrite sign_verify. Qed.

Lemma address_from_public_key_bytes pk :
  bn (address_from_public_key pk) = drop 12 (bn (sha256 (bn pk))).
Proof.
  unfold address_from_public_key. rewrite bn_pad. apply pad_list_id.
  by rewrite length_drop, bn_length.
Qed.
End Keys.

(** ** Properties of the textual forms *)

(** Hexadecimal text never begins with the address prefix. *)
Lemma hex_no_prefix `{HexLaws} b : starts_with ADDRESS_PREFIX (hex_encode b) = false.
Proof.
  unfold starts_with. apply bool_decide_eq_false. intros [r E%strip_prefix_Some].
  assert (122 ∈ hex_encode b) as [?|?]%hex_encode_digits; [|lia..].
  rewrite E. change ADDRESS_PREFIX with [122; 110; 49]. apply list_elem_of_here.
Qed.

(** Both textual forms of an address parse back to it, each parser accepts only
    texts of its own form (43 characters with the [zn1] prefix, 40 without), and no text
    is accepted by both parsers. *)
Theorem address_text_forms `{HexLaws} (a : Address) (s : rstr) :
  address_from_hex (address_to_hex a) = Ok a
  /\ address_from_raw_hex (address_to_raw_hex a) = Ok a
  /\ (forall x, address_from_hex s = Ok x -> length s = 43%nat /\ starts_with ADDRESS_PREFIX s = true)
  /\ (forall x, address_from_raw_hex s = Ok x ->
        length s = 40%nat /\ is_ok (address_from_hex s) = false).
Proof.
  repeat split.
  - unfold address_from_hex, address_to_hex. rewrite strip_prefix_app.
    apply decode_raw_hex_body_encode.
  - unfold address_from_raw_hex, address_to_raw_hex. rewrite hex_no_prefix. apply decode_raw_hex_body_encode.
  - unfold address_from_hex in *. destruct (strip_prefix _ s) as [r|] eqn:E; [|done].
    apply strip_prefix_Some in E as ->. rewrite length_app.
    match goal with E : decode_raw_hex_body _ = _ |- _ => apply decode_raw_hex_body_length in E; rewrite E end.
    done.
  - unfold address_from_hex, starts_with in *. destruct (strip_prefix _ s) eqn:E; [|done].
    by apply bool_decide_eq_true.
  - unfold address_from_raw_hex in *. inv_ok. eauto using decode_raw_hex_body_length.
  - unfold address_from_raw_hex, address_from_hex, starts_with in *. inv_ok. to_prop.
    destruct (strip_prefix _ s); [by destruct E|done].
Qed.

(** [Hash256::from_hex] inverts [to_hex], but it checks no length: any decodable text
    is cut at 32 bytes or padded with zeros, so texts of different lengths name one hash
    and the empty text is the zero hash. *)
Theorem hash_from_hex_any_length `{HexLaws} (h : Hash256) (b extra : list byte) :
  hash_from_hex (hash_to_hex h) = Ok h
  /\ hash_from_hex (hex_encode b) = Ok (pad_bytesN 32 b)
  /\ hash_from_hex (hex_encode (bn h ++ extra)) = Ok h
  /\ hash_from_hex (hex_encode []) = Ok hash_zero.
Proof.
  unfold hash_from_hex, hash_to_hex. rewrite !hex_decode_encode. cbn [mbind result_bind].
  repeat split; f_equal; [apply pad_bytesN_bn|]. apply bytesN_eq. rewrite bn_pad.
  unfold pad_list. rewrite length_app, bn_length.
  replace (32 - (32 + length extra))%nat with 0%nat by lia.
  rewrite app_nil_r, take_app_le by (rewrite bn_length; lia).
  apply take_ge. by rewrite bn_length.
Qed.
