(* ===== verification/Float.v ===== *)
(** * Floating point operations

    The float operations of the records with scores and embeddings, over the standard
    library's specification floats: comparison, [clamp], decimal literals, the casts
    between [f32] and [f64]; and when a result is a NaN. *)
From S2P Require Import Prelude.

Definition f64_ltb (a b : f64) : bool := SFltb a b.
Definition f64_leb (a b : f64) : bool := SFleb a b.
Definition f64_gtb (a b : f64) : bool := SFltb b a.
Definition f64_geb (a b : f64) : bool := SFleb b a.
Definition f64_eqb (a b : f64) : bool := SFeqb a b.
Definition f64_sqrt (a : f64) : f64 := SFsqrt 53 1024 a.

(** [f64::clamp] with constant bounds (the method panics when they are not ordered). *)
Definition f64_clamp (x lo hi : f64) : f64 :=
  let x := if f64_ltb x lo then lo else x in
  if f64_gtb x hi then hi else x.

(** A decimal literal [n / d]: both are exact, so the quotient is correctly rounded. *)
Definition f64_lit (n d : Z) : f64 := f64_div (f64_of_Z n) (f64_of_Z d).

Definition is_nan (x : spec_float) : bool :=
  match x with S754_nan => true | _ => false end.
Definition is_finite (x : spec_float) : bool :=
  match x with S754_zero _ | S754_finite _ _ _ => true | _ => false end.
Definition is_zero (x : spec_float) : bool :=
  match x with S754_zero _ => true | _ => false end.

Definition f32_of_Z (z : Z) : f32 := binary_normalize 24 128 z 0 false.
Definition f32_add (a b : f32) : f32 := SFadd 24 128 a b.
Definition f32_sub (a b : f32) : f32 := SFsub 24 128 a b.
Definition f32_mul (a b : f32) : f32 := SFmul 24 128 a b.
Definition f32_div (a b : f32) : f32 := SFdiv 24 128 a b.
Definition f32_sqrt (a : f32) : f32 := SFsqrt 24 128 a.
(** [x as f32] rounds; [x as f64] is exact. *)
Definition f32_of_f64 (x : f64) : f32 :=
  match x with
  | S754_finite s m e => binary_round 24 128 s m e
  | _ => x
  end.
Definition f64_of_f32 (x : f32) : f64 :=
  match x with
  | S754_finite s m e => binary_round 53 1024 s m e
  | _ => x
  end.

(** ** Order *)

Lemma SFcompare_antisym x y : SFcompare y x = option_map CompOpp (SFcompare x y).
Proof.
  assert (Hp : forall p q, Pos.compare_cont Eq q p = CompOpp (Pos.compare_cont Eq p q))
    by (intros; apply (Pos.compare_antisym p q)).
  destruct x as [sx|sx| |sx mx ex], y as [sy|sy| |sy my ey];
    try destruct sx; try destruct sy; try done; cbn; f_equal;
    rewrite (Z.compare_antisym ex ey); destruct (Z.compare ex ey); cbn; try done;
    rewrite Hp; by destruct (Pos.compare_cont Eq mx my).
Qed.

Lemma SFcompare_None x y : SFcompare x y = None <-> is_nan x || is_nan y = true.
Proof. destruct x, y; cbn; (split; [intros E|intros E]); first [done|discriminate E]. Qed.

Lemma leb_not_nan x y : f64_leb x y = true -> is_nan x = false /\ is_nan y = false.
Proof.
  unfold f64_leb, SFleb. destruct (SFcompare x y) eqn:E; [|done]. intros _.
  destruct (is_nan x || is_nan y) eqn:N; [apply SFcompare_None in N; congruence|].
  by apply orb_false_iff.
Qed.

Lemma not_ltb_leb x y :
  is_nan x = false -> is_nan y = false -> f64_ltb x y = false -> f64_leb y x = true.
Proof.
  intros Nx Ny. unfold f64_ltb, f64_leb, SFltb, SFleb. rewrite (SFcompare_antisym x y).
  destruct (SFcompare x y) as [[]|] eqn:E; try done.
  apply SFcompare_None in E. rewrite Nx, Ny in E. done.
Qed.

Lemma ltb_leb x y : f64_ltb x y = true -> f64_leb x y = true.
Proof. unfold f64_ltb, f64_leb, SFltb, SFleb. by destruct (SFcompare x y) as [[]|]. Qed.

Lemma leb_refl x : is_nan x = false -> f64_leb x x = true.
Proof.
  intros N. apply not_ltb_leb; [done..|].
  unfold f64_ltb, SFltb. pose proof (SFcompare_antisym x x) as E.
  by destruct (SFcompare x x) as [[]|].
Qed.

(** [x] lies in [lo, hi], and so is no NaN. *)
Definition between (lo hi x : f64) : bool := f64_leb lo x && f64_leb x hi.

Lemma between_not_nan lo hi x : between lo hi x = true -> is_nan x = false.
Proof. unfold between. intros [H _]%andb_true_iff. by destruct (leb_not_nan _ _ H). Qed.

Lemma between_finite lo hi x :
  is_finite lo = true -> is_finite hi = true -> between lo hi x = true -> is_finite x = true.
Proof.
  unfold between, f64_leb, SFleb. destruct lo as [sl|sl| |sl ml el], hi as [sh|sh| |sh mh eh];
    try done; destruct x as [s|s| |s m e]; try done; destruct s; try done; cbn;
    try destruct sl; try destruct sh; done.
Qed.

Lemma leb_not_ltb x y : f64_leb x y = true -> f64_ltb y x = false.
Proof.
  unfold f64_leb, f64_ltb, SFleb, SFltb. rewrite (SFcompare_antisym x y).
  by destruct (SFcompare x y) as [[]|].
Qed.

Lemma clamp_between lo hi x :
  f64_leb lo hi = true -> is_nan x = false -> between lo hi (f64_clamp x lo hi) = true.
Proof.
  intros B N. destruct (leb_not_nan _ _ B) as [Nl Nh]. unfold f64_clamp, between, f64_gtb.
  change SFltb with f64_ltb.
  destruct (f64_ltb x lo) eqn:E1; apply andb_true_iff.
  - rewrite (leb_not_ltb _ _ B). split; [by apply leb_refl|done].
  - destruct (f64_ltb hi x) eqn:E2; [by split; [|apply leb_refl]|].
    split; by apply not_ltb_leb.
Qed.

Lemma clamp_nan lo hi : f64_clamp S754_nan lo hi = S754_nan.
Proof. unfold f64_clamp, f64_ltb, f64_gtb, SFltb. cbn. by destruct hi. Qed.

Lemma clamp_id lo hi x : between lo hi x = true -> f64_clamp x lo hi = x.
Proof.
  unfold between. intros [A B]%andb_true_iff. unfold f64_clamp, f64_gtb.
  rewrite (leb_not_ltb _ _ A). change SFltb with f64_ltb. by rewrite (leb_not_ltb _ _ B).
Qed.

Lemma max_zero x : f64_leb (f64_of_Z 0) (f64_max x (f64_of_Z 0)) = true.
Proof.
  change (f64_of_Z 0) with (S754_zero false). unfold f64_max, SFltb, f64_leb, SFleb.
  destruct x as [[]|[]| |[] m e]; done.
Qed.

(** ** NaNs *)

Lemma shr_1_nonneg r : 0 <= shr_m r -> 0 <= shr_m (shr_1 r).
Proof. destruct r as [[|[]|] ? ?]; cbn; lia. Qed.

Lemma iter_shr_1_nonneg p r : 0 <= shr_m r -> 0 <= shr_m (iter_pos shr_1 p r).
Proof. revert r. induction p; intros r H; cbn; auto using shr_1_nonneg. Qed.

Lemma shr_fexp_nonneg prec emax m e l :
  0 <= m -> 0 <= shr_m (fst (shr_fexp prec emax m e l)).
Proof.
  intros H. unfold shr_fexp, shr.
  assert (0 <= shr_m (shr_record_of_loc m l)) by (by destruct l as [|[]]).
  destruct (_ - e); cbn; auto using iter_shr_1_nonneg.
Qed.

Lemma round_aux_not_nan prec emax s m e l :
  0 <= m -> is_nan (binary_round_aux prec emax s m e l) = false.
Proof.
  intros H. unfold binary_round_aux.
  pose proof (shr_fexp_nonneg prec emax m e l H) as H1.
  destruct (shr_fexp prec emax m e l) as [r1 e1]. cbn [fst] in H1.
  assert (0 <= round_nearest_even (shr_m r1) (loc_of_shr_record r1)) as H2
    by (destruct (loc_of_shr_record r1) as [|[]]; cbn; try destruct (Z.even _); lia).
  pose proof (shr_fexp_nonneg prec emax _ e1 loc_Exact H2) as H3.
  destruct (shr_fexp prec emax (round_nearest_even _ _) e1 loc_Exact) as [r2 e2]. cbn [fst] in H3.
  destruct (shr_m r2); [done| |lia]. by destruct (e2 <=? emax - prec).
Qed.

Lemma binary_round_not_nan prec emax s m e : is_nan (binary_round prec emax s m e) = false.
Proof. unfold binary_round. destruct (shl_align _ _ _). by apply round_aux_not_nan. Qed.

Lemma normalize_not_nan prec emax m e s : is_nan (binary_normalize prec emax m e s) = false.
Proof. destruct m; cbn; [done|apply binary_round_not_nan..]. Qed.

Lemma add_not_nan x y :
  is_finite x = true -> is_nan y = false -> is_nan (f64_add x y) = false.
Proof.
  unfold f64_add. destruct x as [[]|sx| |sx mx ex], y as [[]|sy| |sy my ey]; try done.
  all: intros _ _; cbn; apply normalize_not_nan.
Qed.

Lemma sub_not_nan x y :
  is_finite x = true -> is_nan y = false -> is_nan (f64_sub x y) = false.
Proof.
  unfold f64_sub. destruct x as [[]|sx| |sx mx ex], y as [[]|sy| |sy my ey]; try done.
  all: intros _ _; cbn; apply normalize_not_nan.
Qed.

Lemma mul_not_nan x y :
  is_finite x = true -> is_zero x = false -> is_nan y = false -> is_nan (f64_mul x y) = false.
Proof.
  unfold f64_mul. destruct x as [sx|sx| |sx mx ex], y as [sy|sy| |sy my ey]; try done.
  intros _ _ _. by apply round_aux_not_nan.
Qed.

Lemma mul_not_nan_r x y :
  is_nan x = false -> is_finite y = true -> is_zero y = false -> is_nan (f64_mul x y) = false.
Proof.
  unfold f64_mul. destruct x as [sx|sx| |sx mx ex], y as [sy|sy| |sy my ey]; try done.
  intros _ _ _. by apply round_aux_not_nan.
Qed.

Lemma div_not_nan x y :
  is_nan x = false -> is_finite y = true -> is_zero y = false -> is_nan (f64_div x y) = false.
Proof.
  unfold f64_div. destruct x as [sx|sx| |sx mx ex], y as [sy|sy| |sy my ey]; try done.
  intros _ _ _. unfold SFdiv, SFdiv_core_binary.
  match goal with |- context [Z.div_eucl ?m _] =>
    pose proof (Z.div_pos m (Z.pos my)) as Hq; assert (0 <= m) as Hm end.
  { match goal with |- context [match ?d with 0 => _ | _ => _ end] => destruct d end;
      [lia| |lia]. apply Z.shiftl_nonneg. lia. }
  unfold Z.div in Hq. destruct (Z.div_eucl _ (Z.pos my)). apply round_aux_not_nan, Hq; lia.
Qed.

Lemma of_Z_not_nan z : is_nan (f64_of_Z z) = false.
Proof. apply normalize_not_nan. Qed.

(** ** Integers as floats

    A positive integer below 2^400 becomes a finite nonzero float, so no quotient of
    counters is a NaN. *)
Lemma digits2_bounds p :
  2 ^ (Z.pos (digits2_pos p) - 1) <= Z.pos p < 2 ^ Z.pos (digits2_pos p).
Proof.
  assert (forall d, 2 ^ Z.pos (Pos.succ d) = 2 * 2 ^ Z.pos d) as Hs
    by (intros; rewrite Pos2Z.inj_succ, Z.pow_succ_r; lia).
  assert (forall d, 2 ^ (Z.pos (Pos.succ d) - 1) = 2 * 2 ^ (Z.pos d - 1)) as Ht
    by (intros; rewrite <- Z.pow_succ_r by lia; f_equal; lia).
  induction p as [p IH|p IH|]; cbn [digits2_pos]; rewrite ?Hs, ?Ht; [lia|lia|].
  split; reflexivity.
Qed.

Lemma Zdigits2_bounds m : 0 < m -> 1 <= Zdigits2 m /\ 2 ^ (Zdigits2 m - 1) <= m < 2 ^ Zdigits2 m.
Proof. destruct m as [|p|p]; [lia| |lia]. intros _. pose proof (digits2_bounds p). cbn. lia. Qed.

Lemma Zdigits2_le m k : 0 < m -> 0 <= k -> m < 2 ^ k -> Zdigits2 m <= k.
Proof.
  intros H Hk Hm. destruct (Zdigits2_bounds m H) as [H1 [H2 _]].
  destruct (Z.le_gt_cases (Zdigits2 m) k) as [|Hgt]; [done|].
  assert (2 ^ k <= 2 ^ (Zdigits2 m - 1)) by (apply Z.pow_le_mono_r; lia). lia.
Qed.

Lemma shr_1_div r : 0 <= shr_m r -> shr_m (shr_1 r) = shr_m r / 2.
Proof.
  destruct r as [m b s]. cbn [shr_m]. rewrite <- Z.div2_div. intros H.
  destruct m as [|[]|]; cbn; lia.
Qed.

Lemma iter_shr_1_div p r :
  0 <= shr_m r -> shr_m (iter_pos shr_1 p r) = shr_m r / 2 ^ Z.pos p.
Proof.
  revert r. induction p as [p IH|p IH|]; intros r H; cbn [iter_pos].
  - rewrite !IH, shr_1_div by auto using iter_shr_1_nonneg, shr_1_nonneg.
    rewrite !Z.div_div by lia. f_equal.
    rewrite Pos2Z.inj_xI, Z.pow_add_r, Z.pow_1_r, <- Z.pow_twice_r by lia. lia.
  - rewrite !IH by auto using iter_shr_1_nonneg. rewrite Z.div_div by lia. f_equal.
    by rewrite Pos2Z.inj_xO, <- Z.pow_twice_r.
  - by apply shr_1_div.
Qed.

(** How far [shr_fexp] shifts a [d]-digit mantissa, away from the subnormals. *)
Definition excess (m : Z) : Z := Z.max 0 (Zdigits2 m - 53).

Lemma shr_fexp_shift m e l :
  0 < m -> -60 <= e ->
  let '(r, e') := shr_fexp 53 1024 m e l in
  shr_m r = m / 2 ^ excess m /\ e' = e + excess m.
Proof.
  intros Hm He. destruct (Zdigits2_bounds m Hm) as [Hd _].
  unfold shr_fexp, shr, excess, fexp, emin.
  assert (shr_m (shr_record_of_loc m l) = m) as Em by (by destruct l as [|[]]).
  destruct (Z.max (Zdigits2 m + e - 53) (3 - 1024 - 53) - e) as [|n|n] eqn:E.
  - replace (Z.max 0 (Zdigits2 m - 53)) with 0 by lia. rewrite Em, Z.div_1_r. lia.
  - replace (Z.max 0 (Zdigits2 m - 53)) with (Z.pos n) by lia.
    by rewrite iter_shr_1_div, Em by (rewrite Em; lia).
  - replace (Z.max 0 (Zdigits2 m - 53)) with 0 by lia. rewrite Em, Z.div_1_r. lia.
Qed.

Lemma excess_bounds m k : 0 < m -> 53 <= k -> m < 2 ^ k ->
  0 <= excess m <= k - 53 /\ 1 <= m / 2 ^ excess m <= m.
Proof.
  intros H Hk Hm. pose proof (Zdigits2_le m k H ltac:(lia) Hm).
  destruct (Zdigits2_bounds m H) as [H1 [H2 _]]. unfold excess. split; [lia|].
  assert (0 < 2 ^ Z.max 0 (Zdigits2 m - 53)) by (apply Z.pow_pos_nonneg; lia).
  split; [|apply Z.div_le_upper_bound; nia].
  apply Z.div_le_lower_bound; [done|]. rewrite Z.mul_1_r.
  transitivity (2 ^ (Zdigits2 m - 1)); [apply Z.pow_le_mono_r; lia|done].
Qed.

Lemma round_nearest_even_bounds m l : m <= round_nearest_even m l <= m + 1.
Proof. destruct l as [|[]]; cbn; try destruct (Z.even m); lia. Qed.

Definition finite_nonzero (x : spec_float) : bool := is_finite x && negb (is_zero x).

Lemma round_aux_finite s m e l :
  0 < m < 2 ^ 400 -> -60 <= e <= 60 ->
  finite_nonzero (binary_round_aux 53 1024 s m e l) = true.
Proof.
  intros [Hm Hm'] He. unfold binary_round_aux.
  pose proof (shr_fexp_shift m e l Hm ltac:(lia)) as S1.
  destruct (shr_fexp 53 1024 m e l) as [r1 e1]. destruct S1 as [S1 ->].
  destruct (excess_bounds m 400 Hm ltac:(lia) Hm') as [X1 X2].
  pose proof (round_nearest_even_bounds (shr_m r1) (loc_of_shr_record r1)) as R.
  set (m1 := round_nearest_even _ _) in *. rewrite S1 in R.
  assert (0 < m1 < 2 ^ 401) as [Hm1 Hm1'].
  { split; [lia|]. change (2 ^ 401) with (2 * 2 ^ 400). lia. }
  pose proof (shr_fexp_shift m1 (e + excess m) loc_Exact Hm1 ltac:(lia)) as S2.
  destruct (shr_fexp 53 1024 m1 (e + excess m) loc_Exact) as [r2 e2]. destruct S2 as [S2 ->].
  destruct (excess_bounds m1 401 Hm1 ltac:(lia) Hm1') as [Y1 Y2]. rewrite <- S2 in Y2.
  destruct (shr_m r2) as [|q|q]; [lia| |lia].
  replace (_ <=? 1024 - 53) with true by (symmetry; apply Z.leb_le; lia). done.
Qed.

Lemma iter_xO m d : Z.pos (Pos.iter xO m d) = Z.pos m * 2 ^ Z.pos d.
Proof.
  induction d as [|d IH] using Pos.peano_ind; [cbn; lia|].
  rewrite Pos.iter_succ, Pos2Z.inj_xO, IH, Pos2Z.inj_succ, Z.pow_succ_r; lia.
Qed.

Lemma of_Z_finite z : 0 < z < 2 ^ 300 -> finite_nonzero (f64_of_Z z) = true.
Proof.
  intros [H H']. destruct z as [|m|m]; [lia| |lia]. cbn [f64_of_Z binary_normalize].
  unfold binary_round, shl_align, fexp, emin.
  pose proof (digits2_bounds m) as B. rewrite Z.add_0_r.
  destruct (Z.max (Z.pos (digits2_pos m) - 53) (3 - 1024 - 53) - 0) as [|d|d] eqn:E.
  - apply round_aux_finite; [|lia]. split; [lia|]. by transitivity (2 ^ 300).
  - apply round_aux_finite; [|lia]. split; [lia|]. by transitivity (2 ^ 300).
  - rewrite iter_xO. apply round_aux_finite; [|lia].
    assert (0 < 2 ^ Z.pos d <= 2 ^ 53) as [D1 D2].
    { split; [apply Z.pow_pos_nonneg; lia|apply Z.pow_le_mono_r; lia]. }
    split; [lia|]. transitivity (2 ^ 300 * 2 ^ 53); [nia|reflexivity].
Qed.

(** A quotient of unsigned integers with a nonzero denominator is never a NaN. *)
Lemma quotient_not_nan a b :
  is_u64 a -> 0 < b <= U64_MAX -> is_nan (f64_div (f64_of_Z a) (f64_of_Z b)) = false.
Proof.
  intros _ Hb. assert (finite_nonzero (f64_of_Z b) = true) as [F N]%andb_true_iff.
  { apply of_Z_finite. unfold U64_MAX in Hb. split; [lia|]. by apply Z.le_lt_trans with (2 ^ 64); [lia|]. }
  apply div_not_nan; [apply of_Z_not_nan|done|by apply negb_true_iff].
Qed.

Lemma min_numbers x c :
  is_nan x = false -> is_nan c = false -> f64_min x c = if f64_ltb c x then c else x.
Proof. unfold f64_min. by destruct x, c. Qed.

(** A minimum with a bound that is a number does not exceed it. *)
Lemma min_leb x c : is_nan c = false -> f64_leb (f64_min x c) c = true.
Proof.
  intros N. destruct (is_nan x) eqn:Nx; [destruct x; try done; by apply leb_refl|].
  rewrite min_numbers by done.
  destruct (f64_ltb c x) eqn:E; [by apply leb_refl|by apply not_ltb_leb].
Qed.
