(* ===== verification/Reputation.v ===== *)
(** * Protocol parameters and reputation

    Models [config.rs] (the matching parameters) and, of [primitives/agent.rs], the
    reputation of agents ([ReputationData]) and of requesters ([RequesterReputation]): the
    scores derived from the counters, every operation that records an event, and the
    policy that decides whether a requester may use automatic matching. *)
From S2P Require Import Prelude Float.

Module Config.
Record MatchingProtocolParams : Type := {
  feedback_blend_saturation_count : Z;
  feedback_blend_max_weight : f64;
  neural_bonus_weight : f64;
  discovery_min_age_blocks : Z;
  discovery_min_stake : Z;
  max_match_tools_per_agent : Z;
  requester_min_trust_score : f64;
  requester_max_cancellation_rate : f64;
  requester_max_dispute_rate : f64;
  requester_max_failed_report_rate : f64;
  requester_min_auto_match_backing : Z;
  requester_min_tasks_for_trust : Z;
  requester_min_rating_fairness : f64;
  requester_min_ratings_for_fairness : Z;
  requester_min_reviewed_outcomes_for_failed_report_rate : Z;
  agent_stake_per_reputation_point : Z;
}.

Definition default_matching_params : MatchingProtocolParams :=
  {| feedback_blend_saturation_count := 20; feedback_blend_max_weight := f64_lit 3 10;
     neural_bonus_weight := f64_lit 3 10; discovery_min_age_blocks := 100;
     discovery_min_stake := 1000000; max_match_tools_per_agent := 16;
     requester_min_trust_score := f64_of_Z 35; requester_max_cancellation_rate := f64_lit 1 2;
     requester_max_dispute_rate := f64_lit 1 2;
     requester_max_failed_report_rate := f64_lit 1 2;
     requester_min_auto_match_backing := 5000000; requester_min_tasks_for_trust := 4;
     requester_min_rating_fairness := f64_lit 1 2; requester_min_ratings_for_fairness := 4;
     requester_min_reviewed_outcomes_for_failed_report_rate := 4;
     agent_stake_per_reputation_point := 100000 |}.
End Config.
Import Config.

(** ** Agents *)
Module Reputation.

Record ReputationData : Type := {
  score : f64;
  tasks_completed : Z;
  tasks_failed : Z;
  cumulative_quality : f64;
  disputes_won : Z;
  disputes_lost : Z;
  last_updated : Z;
  total_value_completed : Z;
  value_weighted_quality : f64;
  ratings_received : Z;
  total_value_rated : Z;
}.
#[global] Instance eta_ReputationData : Eta ReputationData := fun r =>
  {| score := score r; tasks_completed := tasks_completed r; tasks_failed := tasks_failed r;
     cumulative_quality := cumulative_quality r; disputes_won := disputes_won r;
     disputes_lost := disputes_lost r; last_updated := last_updated r;
     total_value_completed := total_value_completed r;
     value_weighted_quality := value_weighted_quality r;
     ratings_received := ratings_received r; total_value_rated := total_value_rated r |}.

Definition default_reputation : ReputationData :=
  {| score := f64_of_Z 0; tasks_completed := 0; tasks_failed := 0;
     cumulative_quality := f64_of_Z 0; disputes_won := 0; disputes_lost := 0;
     last_updated := 0; total_value_completed := 0; value_weighted_quality := f64_of_Z 0;
     ratings_received := 0; total_value_rated := 0 |}.

Definition DECAY_HALF_LIFE_MS : f64 :=
  f64_mul (f64_mul (f64_mul (f64_of_Z 30) (f64_of_Z 24)) (f64_of_Z 3600)) (f64_of_Z 1000).

Definition resolved_task_count (r : ReputationData) : Z :=
  sat_add (tasks_completed r) (tasks_failed r).
Definition reliability (r : ReputationData) : f64 :=
  let total := resolved_task_count r in
  if total =? 0 then f64_of_Z 0 else f64_div (f64_of_Z (tasks_completed r)) (f64_of_Z total).
Definition avg_quality (r : ReputationData) : f64 :=
  if ratings_received r =? 0 then f64_of_Z 0
  else f64_div (cumulative_quality r) (f64_of_Z (ratings_received r)).
Definition weighted_avg_quality (r : ReputationData) : f64 :=
  if total_value_rated r =? 0 then f64_of_Z 0
  else f64_div (value_weighted_quality r) (f64_of_Z (total_value_rated r)).

(** [powf] is the platform's power function. *)
Definition effective_score (powf : f64 -> f64 -> f64) (r : ReputationData)
    (current_time_ms : Z) : f64 :=
  if (current_time_ms =? 0) || (last_updated r =? 0) || f64_eqb (score r) (f64_of_Z 0)
  then score r
  else
    let elapsed_ms := f64_of_Z (sat_sub current_time_ms (last_updated r)) in
    let decay := powf (f64_lit 1 2) (f64_div elapsed_ms DECAY_HALF_LIFE_MS) in
    f64_mul (score r) decay.
Definition days_inactive (r : ReputationData) (current_time_ms : Z) : f64 :=
  if last_updated r =? 0 then f64_of_Z 0
  else
    let elapsed_ms := f64_of_Z (sat_sub current_time_ms (last_updated r)) in
    f64_div elapsed_ms (f64_mul (f64_mul (f64_of_Z 24) (f64_of_Z 3600)) (f64_of_Z 1000)).

(** The weight of a task's fee, in whole ZIN within [0.01, 10]. *)
Definition fee_weight (fee : Z) : f64 :=
  f64_clamp (f64_div (f64_of_Z fee) (f64_of_Z 1000000)) (f64_lit 1 100) (f64_of_Z 10).
Definition clamp_score (s : f64) : f64 := f64_clamp s (f64_of_Z 0) (f64_of_Z 100).
Definition clamp_quality (q : f64) : f64 := f64_clamp q (f64_of_Z 0) (f64_of_Z 10).
Definition rating_delta (q weight : f64) : f64 :=
  f64_mul (f64_mul (f64_sub q (f64_of_Z 5)) weight) (f64_lit 1 10).

Definition record_completion (r : ReputationData) (fee timestamp : Z) : ReputationData :=
  let r := r <| tasks_completed := sat_add (tasks_completed r) 1 |>
             <| total_value_completed := sat_add (total_value_completed r) fee |> in
  let weight := fee_weight fee in
  r <| score := clamp_score (f64_add (score r) (f64_mul (f64_lit 1 2) weight)) |>
    <| last_updated := timestamp |>.
Definition record_rating (r : ReputationData) (quality : f64) (fee timestamp : Z)
    : ReputationData :=
  let q := clamp_quality quality in
  let r := r <| cumulative_quality := f64_add (cumulative_quality r) q |>
             <| ratings_received := sat_add (ratings_received r) 1 |>
             <| value_weighted_quality :=
                  f64_add (value_weighted_quality r) (f64_mul q (f64_of_Z fee)) |>
             <| total_value_rated := sat_add (total_value_rated r) fee |> in
  let weight := fee_weight fee in
  let delta := rating_delta q weight in
  r <| score := clamp_score (f64_add (score r) delta) |> <| last_updated := timestamp |>.
Definition record_failure (r : ReputationData) (fee timestamp : Z) : ReputationData :=
  let r := r <| tasks_failed := sat_add (tasks_failed r) 1 |> in
  let weight := fee_weight fee in
  r <| score := clamp_score (f64_sub (score r) (f64_mul (f64_of_Z 5) weight)) |>
    <| last_updated := timestamp |>.

(** *** Histories *)

(** The operations on a reputation, as values. *)
Inductive rep_op : Type :=
| Completion (fee timestamp : Z)
| Rating (quality : f64) (fee timestamp : Z)
| Failure (fee timestamp : Z).
Definition apply_op (r : ReputationData) (o : rep_op) : ReputationData :=
  match o with
  | Completion fee t => record_completion r fee t
  | Rating q fee t => record_rating r q fee t
  | Failure fee t => record_failure r fee t
  end.
Definition run_ops (r : ReputationData) (os : list rep_op) : ReputationData :=
  foldl apply_op r os.

(** A rating that is no number; [ReputationUpdateData] never carries one past its check. *)
Definition nan_rating (o : rep_op) : bool :=
  match o with Rating q _ _ => is_nan q | _ => false end.
Definition op_fee (o : rep_op) : Z :=
  match o with Completion f _ | Rating _ f _ | Failure f _ => f end.
Definition is_completion (o : rep_op) : bool :=
  match o with Completion _ _ => true | _ => false end.
Definition is_rating (o : rep_op) : bool :=
  match o with Rating _ _ _ => true | _ => false end.
Definition is_failure (o : rep_op) : bool :=
  match o with Failure _ _ => true | _ => false end.
Definition count_ops (p : rep_op -> bool) (os : list rep_op) : Z :=
  Z.of_nat (length (List.filter p os)).
Definition fees (p : rep_op -> bool) (os : list rep_op) : Z :=
  sumZ (op_fee <$> List.filter p os).

(** *** The score *)

Lemma fee_weight_between fee : between (f64_lit 1 100) (f64_of_Z 10) (fee_weight fee) = true.
Proof.
  apply clamp_between; [by vm_compute|].
  apply div_not_nan; [apply of_Z_not_nan|by vm_compute..].
Qed.
Lemma fee_weight_finite fee : is_finite (fee_weight fee) = true.
Proof. eapply between_finite; [..|apply fee_weight_between]; by vm_compute. Qed.
Lemma fee_weight_nonzero fee : is_zero (fee_weight fee) = false.
Proof.
  pose proof (fee_weight_between fee) as B. by destruct (fee_weight fee).
Qed.
Lemma fee_weight_not_nan fee : is_nan (fee_weight fee) = false.
Proof. exact (between_not_nan _ _ _ (fee_weight_between fee)). Qed.

Definition score_ok (s : f64) : bool := between (f64_of_Z 0) (f64_of_Z 100) s.
Lemma score_ok_finite s : score_ok s = true -> is_finite s = true.
Proof. intros B. eapply between_finite; [..|exact B]; by vm_compute. Qed.
Lemma clamp_score_ok s : is_nan s = false -> score_ok (clamp_score s) = true.
Proof. intros N. apply clamp_between; [by vm_compute|done]. Qed.

Lemma quality_finite q : is_nan q = false -> is_finite (clamp_quality q) = true.
Proof.
  intros N. eapply between_finite; [..|apply clamp_between; [by vm_compute|done]];
    by vm_compute.
Qed.

Lemma rating_delta_not_nan q fee :
  is_nan q = false -> is_nan (rating_delta (clamp_quality q) (fee_weight fee)) = false.
Proof.
  intros N. unfold rating_delta.
  apply mul_not_nan_r; [|by vm_compute..].
  apply mul_not_nan_r; [|apply fee_weight_finite|apply fee_weight_nonzero].
  apply sub_not_nan; [by apply quality_finite|by vm_compute].
Qed.

Lemma apply_op_score r o :
  nan_rating o = false -> score_ok (score r) = true -> score_ok (score (apply_op r o)) = true.
Proof.
  intros N B%score_ok_finite. destruct o as [fee t|q fee t|fee t]; cbn [apply_op]; cbn;
    apply clamp_score_ok.
  - apply add_not_nan; [done|].
    apply mul_not_nan; [by vm_compute|by vm_compute|apply fee_weight_not_nan].
  - apply add_not_nan; [done|by apply rating_delta_not_nan].
  - apply sub_not_nan; [done|].
    apply mul_not_nan; [by vm_compute|by vm_compute|apply fee_weight_not_nan].
Qed.

Lemma apply_op_nan r o : is_nan (score r) = true -> is_nan (score (apply_op r o)) = true.
Proof.
  intros N. destruct (score r) eqn:E; try done.
  destruct o; cbn; rewrite E; unfold clamp_score; cbn [f64_add f64_sub SFadd SFsub];
    by rewrite clamp_nan.
Qed.

Lemma rating_nan_score r fee t : is_nan (score (record_rating r S754_nan fee t)) = true.
Proof.
  cbn. unfold clamp_quality. rewrite clamp_nan. unfold rating_delta.
  cbn [f64_sub SFsub f64_mul SFmul]. unfold clamp_score.
  replace (f64_add (score r) S754_nan) with S754_nan by (by destruct (score r)).
  by rewrite clamp_nan.
Qed.

Lemma run_ops_nan os r : is_nan (score r) = true -> is_nan (score (run_ops r os)) = true.
Proof.
  revert r. induction os as [|o os IH]; intros r N; [done|]. apply IH, apply_op_nan, N.
Qed.

(** C38: An agent's score over any history of completions, ratings and failures. From
    a score within [0, 100] it stays within [0, 100] as long as no rating is a NaN,
    whatever the fees and the qualities; one NaN rating makes it a NaN for good, which no
    later event repairs. *)
Theorem score_stays_bounded r os :
  score_ok (score r) = true ->
  if existsb nan_rating os then is_nan (score (run_ops r os)) = true
  else score_ok (score (run_ops r os)) = true.
Proof.
  revert r. induction os as [|o os IH]; intros r B; [done|].
  cbn [existsb]. destruct (nan_rating o) eqn:N; cbn [orb].
  - destruct o as [|q fee t|]; try done. destruct q; try done.
    apply (run_ops_nan os (record_rating r S754_nan fee t)), rating_nan_score.
  - by apply (IH (apply_op r o)), apply_op_score.
Qed.

(** *** The counters *)

Lemma sat_add_assoc a b c :
  0 <= b -> 0 <= c -> sat_add (sat_add a b) c = sat_add a (b + c).
Proof. unfold sat_add. lia. Qed.
Lemma sat_add_0 a : a <= U64_MAX -> sat_add a 0 = a.
Proof. unfold sat_add. lia. Qed.

(** A counter that the operations [p] selects move by [f], saturating, ends at the
    saturated total of the history. *)
Lemma counter_total (get : ReputationData -> Z) (p : rep_op -> bool) (f : rep_op -> Z) r os :
  (forall r o, get r <= U64_MAX ->
     get (apply_op r o) = sat_add (get r) (if p o then f o else 0)) ->
  Forall (fun o => 0 <= f o) os -> get r <= U64_MAX ->
  get (run_ops r os) = sat_add (get r) (sumZ (f <$> List.filter p os)).
Proof.
  intros Hstep Hf. revert r. induction Hf as [|o os Ho Hf IH]; intros r Hr; cbn.
  - by rewrite sat_add_0.
  - change (foldl apply_op (apply_op r o) os) with (run_ops (apply_op r o) os).
    rewrite IH; rewrite Hstep; [|done|unfold sat_add; lia|done].
    assert (0 <= sumZ (f <$> List.filter p os)).
    { apply sumZ_nonneg, Forall_fmap, Forall_forall. intros x Hx%list_elem_of_In%filter_In.
      rewrite Forall_forall in Hf. apply Hf, list_elem_of_In, Hx. }
    rewrite sat_add_assoc; [|by destruct (p o)|done]. by destruct (p o).
Qed.

Lemma sum_one (l : list rep_op) : sumZ ((fun _ => 1) <$> l) = Z.of_nat (length l).
Proof.
  induction l as [|o l IH]; [done|]. etrans; [exact (f_equal (Z.add 1) IH)|]. cbn. lia.
Qed.

Lemma run_ops_keeps {A} (get : ReputationData -> A) r os :
  (forall r o, get (apply_op r o) = get r) -> get (run_ops r os) = get r.
Proof.
  intros H. revert r. induction os as [|o os IH]; intros r; [done|].
  etrans; [apply (IH (apply_op r o))|apply H].
Qed.

Definition counters_u64 (r : ReputationData) : Prop :=
  Forall is_u64 [tasks_completed r; tasks_failed r; total_value_completed r;
                 ratings_received r; total_value_rated r].

Ltac op_step := intros ? [] ?; cbn; by rewrite ?sat_add_0.

(** An agent's counters are its history. After any history the numbers of
    completions, failures and ratings and the completed and rated value are the starting
    counts plus what the history holds, each saturating at 2^64 - 1; disputes are
    untouched. *)
Theorem counters_are_history r os :
  counters_u64 r -> Forall (fun o => is_u64 (op_fee o)) os ->
  let r' := run_ops r os in
  tasks_completed r' = sat_add (tasks_completed r) (count_ops is_completion os) /\
  tasks_failed r' = sat_add (tasks_failed r) (count_ops is_failure os) /\
  ratings_received r' = sat_add (ratings_received r) (count_ops is_rating os) /\
  total_value_completed r' = sat_add (total_value_completed r) (fees is_completion os) /\
  total_value_rated r' = sat_add (total_value_rated r) (fees is_rating os) /\
  disputes_won r' = disputes_won r /\ disputes_lost r' = disputes_lost r.
Proof.
  unfold counters_u64. rewrite !Forall_cons. intros (H1 & H2 & H3 & H4 & H5 & _) Hf. cbn zeta.
  assert (Forall (fun _ : rep_op => 0 <= 1) os) as H01 by (by apply Forall_true).
  assert (Forall (fun o => 0 <= op_fee o) os) as Hfee
    by (eapply Forall_impl; [exact Hf|]; unfold is_u64; cbn; lia).
  unfold is_u64 in *. unfold count_ops, fees. rewrite <- !sum_one.
  split_and!.
  - apply (counter_total tasks_completed is_completion (fun _ => 1)); [op_step|done|lia].
  - apply (counter_total tasks_failed is_failure (fun _ => 1)); [op_step|done|lia].
  - apply (counter_total ratings_received is_rating (fun _ => 1)); [op_step|done|lia].
  - apply (counter_total total_value_completed is_completion op_fee); [op_step|done|lia].
  - apply (counter_total total_value_rated is_rating op_fee); [op_step|done|lia].
  - apply (run_ops_keeps disputes_won). by intros ? [].
  - apply (run_ops_keeps disputes_lost). by intros ? [].
Qed.
End Reputation.

(** ** Requesters *)
Module Requester.

Record RequesterReputation : Type := {
  tasks_submitted : Z;
  same_entity_submission_units_neutralized : Z;
  tasks_fulfilled : Z;
  tasks_cancelled : Z;
  matched_agent_timeouts : Z;
  ratings_given : Z;
  failed_reports_given : Z;
  avg_rating_given : f64;
  lowest_ratings_given : Z;
  perfect_ratings_given : Z;
  total_escrowed : Z;
  total_settled_spend : Z;
  auto_match_bonded_amount : Z;
  task_disputes_initiated : Z;
  agreement_disputes_initiated : Z;
  last_active : Z;
  storage_deposit : Z;
}.
#[global] Instance eta_RequesterReputation : Eta RequesterReputation := fun r =>
  {| tasks_submitted := tasks_submitted r;
     same_entity_submission_units_neutralized := same_entity_submission_units_neutralized r;
     tasks_fulfilled := tasks_fulfilled r; tasks_cancelled := tasks_cancelled r;
     matched_agent_timeouts := matched_agent_timeouts r; ratings_given := ratings_given r;
     failed_reports_given := failed_reports_given r;
     avg_rating_given := avg_rating_given r;
     lowest_ratings_given := lowest_ratings_given r;
     perfect_ratings_given := perfect_ratings_given r; total_escrowed := total_escrowed r;
     total_settled_spend := total_settled_spend r;
     auto_match_bonded_amount := auto_match_bonded_amount r;
     task_disputes_initiated := task_disputes_initiated r;
     agreement_disputes_initiated := agreement_disputes_initiated r;
     last_active := last_active r; storage_deposit := storage_deposit r |}.
Record RequesterAutoMatchPolicy : Type := {
  eligible : bool;
  economic_backing_policy_active : bool;
  trust_policy_active : bool;
  fairness_policy_active : bool;
  cancellation_policy_active : bool;
  dispute_policy_active : bool;
  failed_report_policy_active : bool;
  blocked_by_economic_backing : bool;
  blocked_by_trust : bool;
  blocked_by_rating_fairness : bool;
  blocked_by_cancellation_rate : bool;
  blocked_by_dispute_rate : bool;
  blocked_by_failed_report_rate : bool;
  min_auto_match_backing : Z;
  required_additional_backing : Z;
  min_trust_score : f64;
  min_tasks_for_trust : Z;
  min_rating_fairness : f64;
  min_ratings_for_fairness : Z;
  max_cancellation_rate : f64;
  min_tasks_for_cancellation_rate : Z;
  max_dispute_rate : f64;
  min_tasks_for_dispute_rate : Z;
  max_failed_report_rate : f64;
  min_reviewed_outcomes_for_failed_report_rate : Z;
}.
Record RequesterReputationView : Type := {
  rv_trust_score : f64;
  rv_tasks_submitted : Z;
  rv_third_party_tasks_submitted : Z;
  rv_same_entity_submission_units_neutralized : Z;
  rv_tasks_fulfilled : Z;
  rv_tasks_cancelled : Z;
  rv_matched_agent_timeouts : Z;
  rv_fulfillment_rate : f64;
  rv_cancellation_rate : f64;
  rv_ratings_given : Z;
  rv_failed_reports_given : Z;
  rv_reviewed_outcomes : Z;
  rv_failed_report_rate : f64;
  rv_avg_rating_given : f64;
  rv_rating_fairness : f64;
  rv_lowest_ratings_given : Z;
  rv_perfect_ratings_given : Z;
  rv_total_spent : Z;
  rv_total_escrowed : Z;
  rv_auto_match_bonded_amount : Z;
  rv_economic_backing : Z;
  rv_disputes_initiated : Z;
  rv_agreement_disputes_initiated : Z;
  rv_dispute_rate : f64;
  rv_last_active : Z;
  rv_storage_deposit : Z;
  rv_auto_match_policy : RequesterAutoMatchPolicy;
}.

Definition default_requester : RequesterReputation :=
  {| tasks_submitted := 0; same_entity_submission_units_neutralized := 0;
     tasks_fulfilled := 0; tasks_cancelled := 0; matched_agent_timeouts := 0;
     ratings_given := 0; failed_reports_given := 0; avg_rating_given := f64_of_Z 0;
     lowest_ratings_given := 0; perfect_ratings_given := 0; total_escrowed := 0;
     total_settled_spend := 0; auto_match_bonded_amount := 0; task_disputes_initiated := 0;
     agreement_disputes_initiated := 0; last_active := 0; storage_deposit := 0 |}.

(** *** Rates *)
Definition third_party_tasks_submitted (r : RequesterReputation) : Z :=
  sat_sub (tasks_submitted r) (same_entity_submission_units_neutralized r).
(** The three rates divide a counter by the scored submissions, zero when there are none. *)
Definition per_submission (r : RequesterReputation) (count : Z) : f64 :=
  let denominator := third_party_tasks_submitted r in
  if denominator =? 0 then f64_of_Z 0 else f64_div (f64_of_Z count) (f64_of_Z denominator).
Definition fulfillment_rate (r : RequesterReputation) : f64 := per_submission r (tasks_fulfilled r).
Definition cancellation_rate (r : RequesterReputation) : f64 := per_submission r (tasks_cancelled r).
Definition dispute_rate (r : RequesterReputation) : f64 :=
  per_submission r (task_disputes_initiated r).
Definition rating_confidence (r : RequesterReputation) : f64 :=
  f64_min (f64_div (f64_of_Z (ratings_given r)) (f64_of_Z 8)) (f64_of_Z 1).
Definition reviewed_outcomes (r : RequesterReputation) : Z :=
  sat_add (ratings_given r) (failed_reports_given r).
Definition failed_report_rate (r : RequesterReputation) : f64 :=
  let denominator := reviewed_outcomes r in
  if denominator =? 0 then f64_of_Z 0
  else f64_div (f64_of_Z (failed_reports_given r)) (f64_of_Z denominator).

(** The first estimate of [rating_fairness], from the average rating. *)
Definition fairness_of_average (avg : f64) : f64 :=
  if f64_ltb avg (f64_of_Z 2) then f64_lit 2 10
  else if f64_ltb avg (f64_of_Z 3) then f64_lit 4 10
  else if f64_ltb avg (f64_of_Z 4) then f64_lit 7 10
  else if f64_gtb avg (f64_lit 95 10) then f64_lit 45 100
  else if f64_gtb avg (f64_of_Z 9) then f64_lit 75 100
  else f64_of_Z 1.
Definition rating_fairness (r : RequesterReputation) : f64 :=
  if ratings_given r =? 0 then f64_lit 1 2
  else
    let avg := f64_clamp (avg_rating_given r) (f64_of_Z 0) (f64_of_Z 10) in
    let raw := fairness_of_average avg in
    let lowest_share := f64_div (f64_of_Z (lowest_ratings_given r)) (f64_of_Z (ratings_given r)) in
    let perfect_share :=
      f64_div (f64_of_Z (perfect_ratings_given r)) (f64_of_Z (ratings_given r)) in
    let raw := f64_sub raw (f64_mul lowest_share (f64_lit 25 100)) in
    let raw := f64_sub raw (f64_mul perfect_share (f64_lit 25 100)) in
    let raw :=
      if f64_gtb lowest_share (f64_lit 2 10) && f64_gtb perfect_share (f64_lit 2 10)
      then f64_sub raw (f64_mul (f64_lit 35 100)
             (f64_min (f64_div (f64_min lowest_share perfect_share) (f64_lit 1 2)) (f64_of_Z 1)))
      else raw in
    let raw := f64_clamp raw (f64_of_Z 0) (f64_of_Z 1) in
    let confidence := rating_confidence r in
    f64_add (f64_lit 1 2) (f64_mul (f64_sub raw (f64_lit 1 2)) confidence).

(** [ln] is the standard library's natural logarithm. *)
Definition trust_score (ln : f64 -> f64) (r : RequesterReputation) : f64 :=
  let scored_submissions := third_party_tasks_submitted r in
  if scored_submissions =? 0 then f64_of_Z 50
  else
    let fulfillment := f64_mul (fulfillment_rate r) (f64_of_Z 35) in
    let no_cancel := f64_mul (f64_sub (f64_of_Z 1) (cancellation_rate r)) (f64_of_Z 25) in
    let fairness := f64_mul (rating_fairness r) (f64_of_Z 20) in
    let neutral_reserved := f64_of_Z 10 in
    let volume := f64_min
      (f64_mul (ln (f64_add (f64_of_Z scored_submissions) (f64_of_Z 1))) (f64_of_Z 4))
      (f64_of_Z 10) in
    f64_add (f64_add (f64_add (f64_add fulfillment no_cancel) fairness) neutral_reserved) volume.

Definition actual_spend (r : RequesterReputation) : Z := total_settled_spend r.
Definition economic_backing (r : RequesterReputation) : Z := auto_match_bonded_amount r.
Definition required_additional_auto_match_backing (r : RequesterReputation)
    (params : MatchingProtocolParams) : Z :=
  sat_sub (requester_min_auto_match_backing params) (economic_backing r).

Definition auto_match_policy_of (ln : f64 -> f64) (r : RequesterReputation)
    (params : MatchingProtocolParams) : RequesterAutoMatchPolicy :=
  let trust := trust_score ln r in
  let fairness := rating_fairness r in
  let min_trust := f64_clamp (requester_min_trust_score params) (f64_of_Z 0) (f64_of_Z 100) in
  let unit_clamp x := f64_clamp x (f64_of_Z 0) (f64_of_Z 1) in
  let min_fairness := unit_clamp (requester_min_rating_fairness params) in
  let max_cancellation := unit_clamp (requester_max_cancellation_rate params) in
  let max_dispute := unit_clamp (requester_max_dispute_rate params) in
  let max_failed_report := unit_clamp (requester_max_failed_report_rate params) in
  let min_backing := requester_min_auto_match_backing params in
  let backing := economic_backing r in
  let scored_submissions := third_party_tasks_submitted r in
  let reviewed := reviewed_outcomes r in
  let backing_active := 0 <? min_backing in
  let no_backing := backing_active && (backing <? min_backing) in
  let trust_active := requester_min_tasks_for_trust params <=? scored_submissions in
  let fairness_active := requester_min_ratings_for_fairness params <=? ratings_given r in
  let cancellation_active := f64_ltb max_cancellation (f64_of_Z 1) &&
    (requester_min_tasks_for_trust params <=? scored_submissions) in
  let dispute_active := f64_ltb max_dispute (f64_of_Z 1) &&
    (requester_min_tasks_for_trust params <=? scored_submissions) in
  let failed_report_active := f64_ltb max_failed_report (f64_of_Z 1) &&
    (requester_min_reviewed_outcomes_for_failed_report_rate params <=? reviewed) in
  let low_trust := trust_active && f64_ltb trust min_trust in
  let low_fairness := fairness_active && f64_ltb fairness min_fairness in
  let cancels := cancellation_active && f64_gtb (cancellation_rate r) max_cancellation in
  let disputes := dispute_active && f64_gtb (dispute_rate r) max_dispute in
  let reports := failed_report_active && f64_gtb (failed_report_rate r) max_failed_report in
  {| eligible := negb no_backing && negb low_trust && negb low_fairness && negb cancels &&
       negb disputes && negb reports;
     economic_backing_policy_active := backing_active; trust_policy_active := trust_active;
     fairness_policy_active := fairness_active;
     cancellation_policy_active := cancellation_active; dispute_policy_active := dispute_active;
     failed_report_policy_active := failed_report_active;
     blocked_by_economic_backing := no_backing; blocked_by_trust := low_trust;
     blocked_by_rating_fairness := low_fairness; blocked_by_cancellation_rate := cancels;
     blocked_by_dispute_rate := disputes; blocked_by_failed_report_rate := reports;
     min_auto_match_backing := min_backing;
     required_additional_backing := sat_sub min_backing backing; min_trust_score := min_trust;
     min_tasks_for_trust := requester_min_tasks_for_trust params;
     min_rating_fairness := min_fairness;
     min_ratings_for_fairness := requester_min_ratings_for_fairness params;
     max_cancellation_rate := max_cancellation;
     min_tasks_for_cancellation_rate := requester_min_tasks_for_trust params;
     max_dispute_rate := max_dispute;
     min_tasks_for_dispute_rate := requester_min_tasks_for_trust params;
     max_failed_report_rate := max_failed_report;
     min_reviewed_outcomes_for_failed_report_rate :=
       requester_min_reviewed_outcomes_for_failed_report_rate params |}.
Definition allows_auto_match (ln : f64 -> f64) (r : RequesterReputation)
    (params : MatchingProtocolParams) : bool := eligible (auto_match_policy_of ln r params).

Definition read_view (ln : f64 -> f64) (r : RequesterReputation)
    (params : MatchingProtocolParams) : RequesterReputationView :=
  {| rv_trust_score := trust_score ln r; rv_tasks_submitted := tasks_submitted r;
     rv_third_party_tasks_submitted := third_party_tasks_submitted r;
     rv_same_entity_submission_units_neutralized := same_entity_submission_units_neutralized r;
     rv_tasks_fulfilled := tasks_fulfilled r; rv_tasks_cancelled := tasks_cancelled r;
     rv_matched_agent_timeouts := matched_agent_timeouts r;
     rv_fulfillment_rate := fulfillment_rate r; rv_cancellation_rate := cancellation_rate r;
     rv_ratings_given := ratings_given r; rv_failed_reports_given := failed_reports_given r;
     rv_reviewed_outcomes := reviewed_outcomes r; rv_failed_report_rate := failed_report_rate r;
     rv_avg_rating_given := avg_rating_given r; rv_rating_fairness := rating_fairness r;
     rv_lowest_ratings_given := lowest_ratings_given r;
     rv_perfect_ratings_given := perfect_ratings_given r; rv_total_spent := actual_spend r;
     rv_total_escrowed := total_escrowed r;
     rv_auto_match_bonded_amount := auto_match_bonded_amount r;
     rv_economic_backing := economic_backing r;
     rv_disputes_initiated := task_disputes_initiated r;
     rv_agreement_disputes_initiated := agreement_disputes_initiated r;
     rv_dispute_rate := dispute_rate r; rv_last_active := last_active r;
     rv_storage_deposit := storage_deposit r;
     rv_auto_match_policy := auto_match_policy_of ln r params |}.

(** *** Operations *)
Definition record_submission (r : RequesterReputation) (escrowed_fee timestamp : Z) :=
  r <| tasks_submitted := sat_add (tasks_submitted r) 1 |>
    <| total_escrowed := sat_add (total_escrowed r) escrowed_fee |>
    <| last_active := timestamp |>.
Definition record_decomposition (r : RequesterReputation) (subtask_count timestamp : Z) :=
  r <| tasks_submitted := sat_add (tasks_submitted r) (sat_sub subtask_count 1) |>
    <| last_active := timestamp |>.
Definition record_fulfillment (r : RequesterReputation) (settled_spend timestamp : Z) :=
  r <| tasks_fulfilled := sat_add (tasks_fulfilled r) 1 |>
    <| total_settled_spend := sat_add (total_settled_spend r) settled_spend |>
    <| last_active := timestamp |>.
Definition record_cancellation (r : RequesterReputation) (timestamp : Z) :=
  r <| tasks_cancelled := sat_add (tasks_cancelled r) 1 |> <| last_active := timestamp |>.
Definition record_matched_agent_timeout (r : RequesterReputation) (timestamp : Z) :=
  r <| matched_agent_timeouts := sat_add (matched_agent_timeouts r) 1 |>
    <| last_active := timestamp |>.
Definition record_auto_match_bond (r : RequesterReputation) (amount timestamp : Z) :=
  r <| auto_match_bonded_amount := sat_add (auto_match_bonded_amount r) amount |>
    <| last_active := timestamp |>.
Definition record_rating_given (r : RequesterReputation) (quality : f64) (timestamp : Z) :=
  let r := r <| ratings_given := sat_add (ratings_given r) 1 |> in
  let q := f64_clamp quality (f64_of_Z 0) (f64_of_Z 10) in
  let r := if f64_leb q (f64_of_Z 1)
           then r <| lowest_ratings_given := sat_add (lowest_ratings_given r) 1 |> else r in
  let r := if f64_geb q (f64_of_Z 10)
           then r <| perfect_ratings_given := sat_add (perfect_ratings_given r) 1 |> else r in
  let avg :=
    if ratings_given r =? 1 then q
    else f64_div (f64_add (f64_mul (avg_rating_given r) (f64_of_Z (ratings_given r - 1))) q)
           (f64_of_Z (ratings_given r)) in
  r <| avg_rating_given := avg |> <| last_active := timestamp |>.
Definition record_failed_report (r : RequesterReputation) (timestamp : Z) :=
  r <| failed_reports_given := sat_add (failed_reports_given r) 1 |> <| last_active := timestamp |>.
Definition record_same_entity_submission_neutralization (r : RequesterReputation)
    (timestamp : Z) :=
  let remaining := sat_sub (tasks_submitted r) (same_entity_submission_units_neutralized r) in
  let r := if 0 <? remaining
           then r <| same_entity_submission_units_neutralized :=
                       sat_add (same_entity_submission_units_neutralized r) 1 |> else r in
  r <| last_active := timestamp |>.
Definition record_dispute (r : RequesterReputation) (timestamp : Z) :=
  r <| task_disputes_initiated := sat_add (task_disputes_initiated r) 1 |>
    <| last_active := timestamp |>.
Definition record_agreement_dispute (r : RequesterReputation) (timestamp : Z) :=
  r <| agreement_disputes_initiated := sat_add (agreement_disputes_initiated r) 1 |>
    <| last_active := timestamp |>.

(** *** The operations as a step relation *)
Inductive step (r : RequesterReputation) : RequesterReputation -> Prop :=
| step_submission fee t : is_u64 fee -> step r (record_submission r fee t)
| step_decomposition n t : is_u64 n -> step r (record_decomposition r n t)
| step_fulfillment spend t : is_u64 spend -> step r (record_fulfillment r spend t)
| step_cancellation t : step r (record_cancellation r t)
| step_timeout t : step r (record_matched_agent_timeout r t)
| step_bond amount t : is_u64 amount -> step r (record_auto_match_bond r amount t)
| step_rating q t : step r (record_rating_given r q t)
| step_failed_report t : step r (record_failed_report r t)
| step_neutralization t : step r (record_same_entity_submission_neutralization r t)
| step_dispute t : step r (record_dispute r t)
| step_agreement_dispute t : step r (record_agreement_dispute r t).

(** Well-formed counters: at their width, no more units neutralised than submitted, and
    floor and ceiling ratings disjoint parts of the ratings given until that counter
    saturates. *)
Record well_formed (r : RequesterReputation) : Prop := {
  wf_submitted : is_u64 (tasks_submitted r);
  wf_neutralised : 0 <= same_entity_submission_units_neutralized r <= tasks_submitted r;
  wf_ratings : is_u64 (ratings_given r);
  wf_lowest : 0 <= lowest_ratings_given r;
  wf_perfect : 0 <= perfect_ratings_given r;
  wf_extremes : lowest_ratings_given r + perfect_ratings_given r <= ratings_given r \/
                ratings_given r = U64_MAX;
  wf_bond : is_u64 (auto_match_bonded_amount r);
}.

(** A rating is not both at the floor and at the ceiling. *)
Lemma floor_not_ceiling q : f64_leb q (f64_of_Z 1) = true -> f64_geb q (f64_of_Z 10) = false.
Proof.
  unfold f64_leb, f64_geb, SFleb.
  let one := eval vm_compute in (f64_of_Z 1) in change (f64_of_Z 1) with one.
  let ten := eval vm_compute in (f64_of_Z 10) in change (f64_of_Z 10) with ten.
  destruct q as [|[]| |[] m e]; [done..|]. unfold SFcompare.
  assert (e <= -52 -> (-49 ?= e) = Gt) as G by (intros; apply Z.compare_gt_iff; lia).
  destruct (Z.compare_spec e (-52)); [| |discriminate]; intros _; rewrite G; [done|lia|done|lia].
Qed.

Lemma rating_counters r q t :
  let r' := record_rating_given r q t in
  lowest_ratings_given r' + perfect_ratings_given r'
    <= lowest_ratings_given r + perfect_ratings_given r + 1.
Proof.
  unfold record_rating_given. set (c := f64_clamp _ _ _).
  pose proof (floor_not_ceiling c) as X.
  destruct (f64_leb c (f64_of_Z 1)); [rewrite (X eq_refl)|destruct (f64_geb c (f64_of_Z 10))];
    cbn; unfold sat_add; lia.
Qed.

Lemma rating_keeps r q t :
  let r' := record_rating_given r q t in
  tasks_submitted r' = tasks_submitted r /\
  same_entity_submission_units_neutralized r' = same_entity_submission_units_neutralized r /\
  auto_match_bonded_amount r' = auto_match_bonded_amount r /\
  ratings_given r' = sat_add (ratings_given r) 1.
Proof.
  unfold record_rating_given. set (c := f64_clamp _ _ _).
  by destruct (f64_leb c (f64_of_Z 1)), (f64_geb c (f64_of_Z 10)).
Qed.

Lemma rating_nonneg r q t :
  0 <= lowest_ratings_given r -> 0 <= perfect_ratings_given r ->
  let r' := record_rating_given r q t in
  0 <= lowest_ratings_given r' /\ 0 <= perfect_ratings_given r'.
Proof.
  unfold record_rating_given. set (c := f64_clamp _ _ _). intros.
  destruct (f64_leb c (f64_of_Z 1)), (f64_geb c (f64_of_Z 10)); cbn; unfold_width;
    unfold sat_add, U64_MAX; lia.
Qed.

Lemma step_well_formed r r' : step r r' -> well_formed r -> well_formed r'.
Proof.
  intros S [W1 W2 W3 W4 W5 W6 W7].
  destruct S; try (split; cbn; unfold is_u64, sat_add, sat_sub, U64_MAX in *; lia).
  - destruct (rating_keeps r q t) as (E1 & E2 & E3 & E4).
    destruct (rating_nonneg r q t W4 W5) as [N1 N2].
    pose proof (rating_counters r q t) as B. cbn zeta in *.
    split; rewrite ?E1, ?E2, ?E3, ?E4; try done; unfold is_u64, sat_add, U64_MAX in *; lia.
  - unfold record_same_entity_submission_neutralization.
    destruct (0 <? _) eqn:E; split; cbn; try done.
    apply Z.ltb_lt in E. unfold is_u64, sat_add, sat_sub, U64_MAX in *; lia.
Qed.

(** A requester's counters over any sequence of recorded events. They stay at their
    width; the submission units neutralised never exceed the units submitted, so that
    the scored submissions are exactly the difference; and the floor and ceiling ratings
    never exceed the ratings given before that counter saturates. *)
Theorem requester_counters_well_formed r :
  rtc step default_requester r ->
  well_formed r /\
  third_party_tasks_submitted r + same_entity_submission_units_neutralized r
    = tasks_submitted r.
Proof.
  intros R. assert (well_formed r) as W.
  { revert r R. apply rtc_ind_r; [split; cbn; mlia|].
    intros y z _ S IH. exact (step_well_formed _ _ S IH). }
  split; [done|]. destruct W. unfold third_party_tasks_submitted, sat_sub. lia.
Qed.

(** *** The auto-match policy *)

(** What the policy asks of a requester, gate by gate; rates and thresholds are compared
    as floats, and a cancellation, dispute or report threshold of one or more is no
    gate. *)
Definition may_auto_match (ln : f64 -> f64) (r : RequesterReputation)
    (params : MatchingProtocolParams) : Prop :=
  let unit_clamp x := f64_clamp x (f64_of_Z 0) (f64_of_Z 1) in
  let judged := requester_min_tasks_for_trust params <= third_party_tasks_submitted r in
  let within rate limit := f64_ltb limit (f64_of_Z 1) = true -> f64_gtb rate limit = false in
  requester_min_auto_match_backing params <= auto_match_bonded_amount r /\
  (judged -> f64_ltb (trust_score ln r)
     (f64_clamp (requester_min_trust_score params) (f64_of_Z 0) (f64_of_Z 100)) = false) /\
  (requester_min_ratings_for_fairness params <= ratings_given r ->
     f64_ltb (rating_fairness r) (unit_clamp (requester_min_rating_fairness params)) = false) /\
  (judged -> within (cancellation_rate r)
     (unit_clamp (requester_max_cancellation_rate params))) /\
  (judged -> within (dispute_rate r) (unit_clamp (requester_max_dispute_rate params))) /\
  (requester_min_reviewed_outcomes_for_failed_report_rate params <= reviewed_outcomes r ->
     within (failed_report_rate r) (unit_clamp (requester_max_failed_report_rate params))).

Lemma gate_open a b : negb (a && b) = true <-> (a = true -> b = false).
Proof. destruct a, b; cbn; naive_solver. Qed.

(** The auto-match policy implements its specification. A requester is eligible exactly
    when its bond covers the required backing and every dimension with enough history
    (trust, rating fairness, cancellations, disputes, failed reports) is within its clamped
    threshold; no dimension makes up for another. The shortfall the policy reports is
    exact: bonding an amount lifts the backing block when, and only when, it is at least
    the shortfall, and leaves the other five gates as they were. *)
Theorem auto_match_policy_refines_spec ln r params amount t :
  is_u64 (auto_match_bonded_amount r) -> is_u64 amount ->
  is_u64 (requester_min_auto_match_backing params) ->
  (allows_auto_match ln r params = true <-> may_auto_match ln r params) /\
  let p := auto_match_policy_of ln r params in
  let p' := auto_match_policy_of ln (record_auto_match_bond r amount t) params in
  required_additional_backing p = required_additional_auto_match_backing r params /\
  (blocked_by_economic_backing p' = false <-> required_additional_backing p <= amount) /\
  (blocked_by_trust p', blocked_by_rating_fairness p', blocked_by_cancellation_rate p',
   blocked_by_dispute_rate p', blocked_by_failed_report_rate p')
  = (blocked_by_trust p, blocked_by_rating_fairness p, blocked_by_cancellation_rate p,
     blocked_by_dispute_rate p, blocked_by_failed_report_rate p).
Proof.
  intros Hb Ha Hm. split; [|split; [done|split; [|done]]].
  - unfold allows_auto_match, auto_match_policy_of, may_auto_match, economic_backing.
    cbn [eligible]. rewrite !andb_true_iff, !gate_open, !andb_true_iff, !Z.leb_le, !Z.ltb_ge, Z.ltb_lt.
    unfold is_u64 in *. intuition lia.
  - cbn. rewrite andb_false_iff, !Z.ltb_ge. unfold economic_backing; cbn.
    unfold sat_add, sat_sub, is_u64, U64_MAX in *. lia.
Qed.
End Requester.

(** ** Witnesses *)
Module ReputationWitness.
Import Reputation Requester.

Definition history : list rep_op :=
  [Completion 5000000 10; Rating (f64_of_Z 9) 5000000 11; Failure 1000000 12].
Definition poisoned : list rep_op := [Completion 5000000 10; Rating S754_nan 1 11; Completion 7 12].

Lemma score_stays_bounded_witness :
  score_ok (score (run_ops default_reputation history)) = true /\
  is_nan (score (run_ops default_reputation poisoned)) = true.
Proof.
  split.
  - exact (score_stays_bounded default_reputation history eq_refl).
  - exact (score_stays_bounded default_reputation poisoned eq_refl).
Defined.

Lemma counters_are_history_witness :
  tasks_completed (run_ops default_reputation history) = 1 /\
  total_value_completed (run_ops default_reputation history) = 5000000.
Proof.
  assert (counters_u64 default_reputation) as Hc by (repeat constructor; by_compute).
  assert (Forall (fun o => is_u64 (op_fee o)) history) as Hf by (repeat constructor; by_compute).
  destruct (counters_are_history default_reputation history Hc Hf) as (A & _ & _ & B & _).
  split; [exact A|exact B].
Defined.

Definition busy : RequesterReputation :=
  record_same_entity_submission_neutralization
    (record_rating_given (record_submission default_requester 100 1) (f64_of_Z 10) 2) 3.

Lemma requester_counters_well_formed_witness : well_formed busy.
Proof.
  refine (proj1 (requester_counters_well_formed busy _)).
  eapply rtc_r; [eapply rtc_r; [eapply rtc_r; [apply rtc_refl|]|]|].
  - apply (step_submission default_requester 100 1). mlia.
  - apply step_rating.
  - apply step_neutralization.
Defined.

(** A new requester under the default parameters is blocked for want of backing alone, and
    the bond it is asked for makes it eligible. *)
Lemma auto_match_policy_refines_spec_witness :
  let asked := required_additional_auto_match_backing default_requester default_matching_params in
  asked = 5000000 /\
  allows_auto_match (fun x => x) default_requester default_matching_params = false /\
  may_auto_match (fun x => x) (record_auto_match_bond default_requester asked 7)
    default_matching_params.
Proof.
  cbv zeta. split; [reflexivity|split; [by vm_compute|]].
  refine (proj1 (proj1 (auto_match_policy_refines_spec (fun x => x)
    (record_auto_match_bond default_requester 5000000 7) default_matching_params 0 8 _ _ _)) _);
    by_compute.
Defined.
End ReputationWitness.
