(* ===== verification/Instances.v ===== *)
(** * Concrete instances of the third-party classes

    A complete hexadecimal codec, a small checksum digest, a signature scheme whose
    signature names its key and message, and table-driven serialisers.  They satisfy
    the law classes of [Crypto] and are what the witnesses compute with. *)
From S2P Require Import Prelude Crypto.

(** ** Hexadecimal *)
Definition hex_digit (z : Z) : Z := if z <? 10 then 48 + z else 87 + z.
Definition hex_value (c : Z) : option Z :=
  if (48 <=? c) && (c <=? 57) then Some (c - 48)
  else if (97 <=? c) && (c <=? 102) then Some (c - 87)
  else if (65 <=? c) && (c <=? 70) then Some (c - 55)
  else None.
Definition hex_encode_byte (b : byte) : rstr :=
  [hex_digit (byte_val b / 16); hex_digit (byte_val b mod 16)].
Definition plain_hex_encode (l : list byte) : rstr := mjoin (hex_encode_byte <$> l).
Fixpoint plain_hex_decode (s : rstr) : result rstr (list byte) :=
  match s with
  | [] => Ok []
  | [_] => Err (lit "Odd number of digits")
  | a :: b :: s' =>
      match hex_value a, hex_value b with
      | Some x, Some y => l ← plain_hex_decode s'; Ok (byte_of (16 * x + y) :: l)
      | _, _ => Err (lit "Invalid character")
      end
  end.

Lemma hex_value_digit z : 0 <= z < 16 -> hex_value (hex_digit z) = Some z.
Proof.
  intros Hz. unfold hex_value, hex_digit.
  destruct (Z.ltb_spec z 10); repeat case_match; f_equal; lia.
Qed.

#[global] Instance plain_hex : Hex := {
  hex_encode := plain_hex_encode;
  hex_decode := plain_hex_decode;
}.

Lemma plain_hex_decode_length n s b :
  (length s <= n)%nat -> plain_hex_decode s = Ok b -> length s = (2 * length b)%nat.
Proof.
  revert s b. induction n as [|n IH]; intros s b Hs.
  { destruct s; simpl in Hs; [|lia]. by intros [= <-]. }
  destruct s as [|x [|y s]]; cbn; [by intros [= <-]|done|].
  destruct (hex_value x), (hex_value y); try done.
  destruct (plain_hex_decode s) as [l|] eqn:E; cbn; [|done]. intros [= <-].
  apply IH in E; [|simpl in Hs; lia]. simpl. lia.
Qed.

Lemma plain_hex_encode_cons x b :
  plain_hex_encode (x :: b) =
  hex_digit (byte_val x / 16) :: hex_digit (byte_val x mod 16) :: plain_hex_encode b.
Proof. done. Qed.

Lemma nibble_bounds x : 0 <= byte_val x / 16 < 16 /\ 0 <= byte_val x mod 16 < 16.
Proof. pose proof (byte_val_range x). Z.to_euclidean_division_equations; lia. Qed.

Lemma plain_hex_decode_encode b : plain_hex_decode (plain_hex_encode b) = Ok b.
Proof.
  induction b as [|x b IH]; [done|]. pose proof (nibble_bounds x) as [? ?].
  rewrite plain_hex_encode_cons. cbn [plain_hex_decode].
  rewrite !hex_value_digit, IH by done. cbn [mbind result_bind].
  rewrite <- Z.div_mod by lia. by rewrite byte_of_val.
Qed.

Lemma plain_hex_encode_digits b c :
  c ∈ plain_hex_encode b -> 48 <= c <= 57 \/ 97 <= c <= 102.
Proof.
  induction b as [|x b IH]; [by intros ?%not_elem_of_nil|].
  pose proof (nibble_bounds x). rewrite plain_hex_encode_cons, !elem_of_cons.
  unfold hex_digit. intros [->|[->|?]]; [| |by apply IH]; case_match; lia.
Qed.

#[global] Instance plain_hex_laws : HexLaws.
Proof.
  split.
  - exact plain_hex_decode_encode.
  - exact plain_hex_encode_digits.
  - intros s b. by apply (plain_hex_decode_length (length s)).
Qed.

(** ** Digests and signatures *)
Definition checksum (salt : Z) (l : list byte) : bytesN 32 :=
  let acc := foldl (fun acc b =>
    (acc * 65599 + byte_val b + 1) mod 2305843009213693951) salt l in
  let word := le_bytes 8 acc in
  pad_bytesN 32 (word ++ word ++ word ++ word).

#[global] Instance plain_digests : Digests := {
  sha256 := checksum 5381;
  blake3 := checksum 7919;
}.

Definition plain_sign (k : bytesN 32) (m : list byte) : bytesN 64 :=
  pad_bytesN 64 (bn k ++ bn (checksum 33 m)).

#[global] Instance plain_ed25519 : Ed25519 := {
  ed_decode := fun k => Ok ();
  ed_verify := fun k m s =>
    if decide (s = plain_sign k m) then Ok () else Err (lit "signature error");
  ed_public := fun k => k;
  ed_sign := plain_sign;
}.

#[global] Instance plain_ed25519_laws : Ed25519Laws.
Proof. split; cbn; [done|]. intros sk m. by rewrite decide_True. Qed.

(** A cipher that carries its key and associated data in front and checks them. *)
#[global] Instance plain_aead : Aead := {
  aead_encrypt := fun key n m aad => Ok (bn key ++ bn (checksum 57 (n ++ aad)) ++ m);
  aead_decrypt := fun key n c aad =>
    if bool_decide (take 64 c = bn key ++ bn (checksum 57 (n ++ aad))) then Ok (drop 64 c)
    else Err [];
}.
#[global] Instance plain_aead_laws : AeadLaws.
Proof.
  intros key n m aad c. unfold aead_encrypt, aead_decrypt, plain_aead.
  generalize (checksum 57 (n ++ aad)). intros t [= <-]. rewrite (app_assoc (bn key)).
  assert (length (bn key ++ bn t) = 64%nat) as Hk by (by rewrite length_app, !bn_length).
  rewrite take_app_length', drop_app_length' by done. by rewrite bool_decide_eq_true_2.
Qed.

(** ** Serialisers given by a table *)
Fixpoint table_index {T} `{EqDecision T} (xs : list T) (x : T) : option nat :=
  match xs with
  | [] => None
  | y :: xs' => if decide (x = y) then Some O else S <$> table_index xs' x
  end.

Definition table_serialize {T} `{EqDecision T} (xs : list T) (x : T) : result rstr (list byte) :=
  match table_index xs x with
  | Some i => Ok (replicate i x01)
  | None => Err (lit "not in the table")
  end.
Definition table_deserialize {T} (xs : list T) (b : list byte) : result rstr T :=
  match xs !! length b with Some x => Ok x | None => Err (lit "unexpected end of file") end.

Definition table_bincode {T} `{EqDecision T} (xs : list T) : Bincode T :=
  {| bincode_serialize := table_serialize xs;
     bincode_read := fun b => x ← table_deserialize xs b; Ok (x, []) |}.

Lemma table_index_lookup {T} `{EqDecision T} (xs : list T) x i :
  table_index xs x = Some i -> xs !! i = Some x.
Proof.
  revert i. induction xs as [|y xs IH]; intros i; cbn; [done|].
  destruct (decide (x = y)) as [->|_]; [by intros [= <-]|].
  destruct (table_index xs x) as [j|] eqn:E; cbn; [|done].
  intros [= <-]. cbn. by apply IH.
Qed.

Lemma table_roundtrip {T} `{EqDecision T} (xs : list T) x b :
  table_serialize xs x = Ok b -> table_deserialize xs b = Ok x.
Proof.
  unfold table_serialize, table_deserialize.
  destruct (table_index xs x) as [i|] eqn:E; [|done]. intros [= <-].
  rewrite length_replicate. by rewrite (table_index_lookup _ _ _ E).
Qed.
Lemma table_bincode_laws {T} `{EqDecision T} (xs : list T) :
  @BincodeLaws T (table_bincode xs).
Proof. intros x b E%table_roundtrip. cbn. by rewrite E. Qed.

Lemma address_text_forms_witness :
  address_from_hex (address_to_hex address_treasury) = Ok address_treasury
  /\ length (address_to_raw_hex address_foundation) = 40%nat.
Proof.
  pose proof (address_text_forms address_treasury (address_to_raw_hex address_foundation))
    as (E & _ & _ & R).
  split; [exact E|]. apply (R address_foundation). by vm_compute.
Defined.

Lemma hash_from_hex_any_length_witness :
  hash_from_hex (hex_encode (bn hash_zero ++ [x01])) = Ok hash_zero.
Proof. apply (hash_from_hex_any_length hash_zero [] [x01]). Defined.
