(* ===== verification/Sha256.v ===== *)
(** * The real digest

    SHA-256 as FIPS 180-4 defines it, on byte lists, with 32-bit words as integers: the instance
    of [Digests] under which the repository's golden values are recomputed ([Conformance]).
    BLAKE3 keeps the checksum of [Instances]; no golden value depends on it. *)
From S2P Require Import Prelude Crypto Instances.

Module Sha256.

(** ** Words *)
Definition mask : Z := 4294967295.
Definition add32 (a b : Z) : Z := Z.land (a + b) mask.
Definition rotr (n x : Z) : Z := Z.lor (Z.shiftr x n) (Z.land (Z.shiftl x (32 - n)) mask).
Definition ch (x y z : Z) : Z := Z.lxor (Z.land x y) (Z.land (Z.lxor x mask) z).
Definition maj (x y z : Z) : Z := Z.lxor (Z.lxor (Z.land x y) (Z.land x z)) (Z.land y z).
Definition big_sigma0 (x : Z) : Z := Z.lxor (Z.lxor (rotr 2 x) (rotr 13 x)) (rotr 22 x).
Definition big_sigma1 (x : Z) : Z := Z.lxor (Z.lxor (rotr 6 x) (rotr 11 x)) (rotr 25 x).
Definition small_sigma0 (x : Z) : Z := Z.lxor (Z.lxor (rotr 7 x) (rotr 18 x)) (Z.shiftr x 3).
Definition small_sigma1 (x : Z) : Z := Z.lxor (Z.lxor (rotr 17 x) (rotr 19 x)) (Z.shiftr x 10).

(** ** Constants

    The standard defines them: 32 bits of the fractional parts of the cube roots of the first 64
    primes, and of the square roots of the first eight. *)
Definition is_prime (n : Z) : bool := forallb (fun d => negb (n mod d =? 0)) (seqZ 2 (n - 2)).
Definition primes : list Z := List.filter is_prime (seqZ 2 310).
(** The integer [k]-th root of [n], from its highest bit down. *)
Fixpoint root (k n : Z) (bits : nat) (r : Z) : Z :=
  match bits with
  | O => r
  | S bits' =>
      let r' := r + 2 ^ Z.of_nat bits' in
      root k n bits' (if r' ^ k <=? n then r' else r)
  end.
Definition root_fraction (k p : Z) : Z := Z.land (root k (p * 2 ^ (32 * k)) 36 0) mask.
Definition round_constants : list Z := Eval vm_compute in (root_fraction 3 <$> primes).
Record state : Type := St { sa : Z; sb : Z; sc : Z; sd : Z; se : Z; sf : Z; sg : Z; sh : Z }.
Definition initial : state := Eval vm_compute in
  let w i := root_fraction 2 (nth i primes 0) in
  St (w 0%nat) (w 1%nat) (w 2%nat) (w 3%nat) (w 4%nat) (w 5%nat) (w 6%nat) (w 7%nat).

(** ** Blocks *)
Definition pad (m : list byte) : list byte :=
  let n := length m in
  let z := Z.to_nat ((55 - Z.of_nat n) mod 64) in
  m ++ x80 :: replicate z x00 ++ be_bytes 8 (8 * Z.of_nat n).
Fixpoint words (l : list byte) : list Z :=
  match l with
  | a :: b :: c :: d :: l' =>
      (Z.shiftl (byte_val a) 24 + Z.shiftl (byte_val b) 16 + Z.shiftl (byte_val c) 8 + byte_val d)
        :: words l'
  | _ => []
  end.
(** The message schedule, from a window of the last sixteen words. *)
Fixpoint schedule (n : nat) (w : list Z) : list Z :=
  match n with
  | O => []
  | S n' =>
      match w with
      | w0 :: w1 :: rest =>
          w0 :: schedule n' (w1 :: rest ++
            [add32 (add32 (small_sigma1 (nth 14 w 0)) (nth 9 w 0))
                   (add32 (small_sigma0 w1) w0)])
      | _ => []
      end
  end.
Definition round (s : state) (kw : Z * Z) : state :=
  let '(St a b c d e f g h) := s in
  let t1 := add32 (add32 h (big_sigma1 e)) (add32 (ch e f g) (add32 kw.1 kw.2)) in
  let t2 := add32 (big_sigma0 a) (maj a b c) in
  St (add32 t1 t2) a b c (add32 d t1) e f g.
Definition compress (s : state) (block : list Z) : state :=
  let t := foldl round s (combine round_constants (schedule 64 block)) in
  St (add32 (sa s) (sa t)) (add32 (sb s) (sb t)) (add32 (sc s) (sc t)) (add32 (sd s) (sd t))
     (add32 (se s) (se t)) (add32 (sf s) (sf t)) (add32 (sg s) (sg t)) (add32 (sh s) (sh t)).
Fixpoint blocks (fuel : nat) (w : list Z) : list (list Z) :=
  match fuel, w with
  | S fuel', _ :: _ => take 16 w :: blocks fuel' (drop 16 w)
  | _, _ => []
  end.
Definition digest (m : list byte) : bytesN 32 :=
  let w := words (pad m) in
  let s := foldl compress initial (blocks (length w) w) in
  pad_bytesN 32 (mjoin (be_bytes 4 <$> [sa s; sb s; sc s; sd s; se s; sf s; sg s; sh s])).

Definition real_digests : Digests := {| sha256 := digest; blake3 := checksum 7919 |}.

(** The bits are those of the root. *)
Lemma root_spec k n bits r : 0 < k -> 0 <= r -> r ^ k <= n < (r + 2 ^ Z.of_nat bits) ^ k ->
  root k n bits r ^ k <= n < (root k n bits r + 1) ^ k.
Proof.
  intros Hk. revert r. induction bits as [|bits IH]; intros r Hr H; cbn [root]; [done|].
  rewrite Nat2Z.inj_succ, Z.pow_succ_r in H by lia.
  pose proof (Z.pow_pos_nonneg 2 (Z.of_nat bits) ltac:(lia) ltac:(lia)).
  destruct (Z.leb_spec ((r + 2 ^ Z.of_nat bits) ^ k) n); apply IH; [lia| |lia|lia].
  split; [done|]. replace (r + _ + _) with (r + 2 * 2 ^ Z.of_nat bits) by lia. lia.
Qed.
(** There are 64 primes, and the roots taken of them fit the 36 bits asked for. *)
Lemma constants_complete : length primes = 64%nat /\
  forallb (fun p => p * 2 ^ 64 <? (2 ^ 36) ^ 2) (take 8 primes) = true /\
  forallb (fun p => p * 2 ^ 96 <? (2 ^ 36) ^ 3) primes = true.
Proof. vm_compute. auto. Qed.

(** Every message is padded to whole blocks, so the fuel of [blocks] suffices. *)
Lemma pad_blocks m : (Z.of_nat (length (pad m)) mod 64) = 0.
Proof.
  unfold pad. rewrite length_app. cbn [length]. rewrite length_app, length_replicate, be_bytes_length.
  pose proof (Z.mod_pos_bound (55 - Z.of_nat (length m)) 64 ltac:(lia)).
  replace (Z.of_nat _) with (Z.of_nat (length m) + 9 + (55 - Z.of_nat (length m)) mod 64) by lia.
  Z.to_euclidean_division_equations. lia.
Qed.

(** The test values of FIPS 180-4: one block, and two. *)
Example digest_abc : hex_encode (bn (digest (blit "abc"))) =
  lit "ba7816bf8f01cfea414140de5dae2223b00361a396177a9cb410ff61f20015ad".
Proof. vm_compute. reflexivity. Qed.
Example digest_two_blocks :
  hex_encode (bn (digest (blit "abcdbcdecdefdefgefghfghighijhijkijkljklmklmnlmnomnopnopq"))) =
  lit "248d6a61d20638b8e5c026930c3e6039a33ce45964ff2167f6ecedd419db06c1".
Proof. vm_compute. reflexivity. Qed.
End Sha256.
