(* ===== verification/Codec.v ===== *)
(** * The real binary format

    The default layout of [bincode] 1: fixed-width little-endian integers, a tag byte before an
    optional value, a 64-bit length before a text, a byte vector or a list, a 32-bit code for a
    variant, and the fields of a record one after the other. A codec carries its laws: what it
    writes it reads back, whatever follows, and what it reads it can write. So the layouts of the
    payloads ([Layouts]) are lawful instances of [Bincode] by construction. Most codecs read
    nothing but what they write, which [Exact] states. *)
From S2P Require Import Prelude Crypto Instances.

Module Codec.
#[local] Obligation Tactic := idtac.

Record codec (T : Type) : Type := Mk {
  enc : T -> list byte;
  fits : T -> bool;
  dec : list byte -> option (T * list byte);
  dec_enc : forall x r, fits x = true -> dec (enc x ++ r) = Some (x, r);
  dec_fits : forall l x r, dec l = Some (x, r) -> fits x = true;
  enc_pos : forall x, (1 <= length (enc x))%nat;
}.
Arguments Mk {T}.
Arguments enc {T}.
Arguments fits {T}.
Arguments dec {T}.
Arguments dec_enc {T}.
Arguments dec_fits {T}.
Arguments enc_pos {T}.
(** A codec that reads nothing but what it writes. *)
Class Exact {T} (c : codec T) : Prop :=
  exact_dec : forall l x r, dec c l = Some (x, r) -> l = enc c x ++ r.

(** ** Values of a fixed width *)
Definition split_at (n : nat) (l : list byte) : option (list byte * list byte) :=
  if bool_decide (n <= length l)%nat then Some (take n l, drop n l) else None.

Lemma split_at_app (a r : list byte) : split_at (length a) (a ++ r) = Some (a, r).
Proof.
  unfold split_at. rewrite bool_decide_eq_true_2 by (rewrite length_app; lia).
  by rewrite take_app_length, drop_app_length.
Qed.
Lemma split_at_Some n l a r : split_at n l = Some (a, r) -> length a = n /\ l = a ++ r.
Proof.
  unfold split_at. case_bool_decide; [|done]. intros [= <- <-].
  split; [by rewrite length_take_le|]. by rewrite take_drop.
Qed.

Lemma le_value_range l : 0 <= le_value l < 256 ^ Z.of_nat (length l).
Proof.
  induction l as [|b l IH]; cbn [le_value length]; [lia|].
  pose proof (byte_val_range b). rewrite Nat2Z.inj_succ, Z.pow_succ_r by lia. lia.
Qed.
Lemma le_bytes_le_value l : le_bytes (length l) (le_value l) = l.
Proof.
  induction l as [|b l IH]; [done|]. cbn [length le_value le_bytes].
  pose proof (byte_val_range b). f_equal.
  - apply byte_val_inj. rewrite byte_val_of. unfold wrap8.
    rewrite (Z.mul_comm 256), Z.mod_add by lia. by rewrite Z.mod_small by lia.
  - rewrite (Z.mul_comm 256), Z.div_add, Z.div_small by lia. by rewrite Z.add_0_l.
Qed.

(** An unsigned integer of [S n] bytes. *)
Definition uint_fits (n : nat) (z : Z) : bool := (0 <=? z) && (z <? 256 ^ Z.of_nat (S n)).
Lemma uint_fits_iff n z : uint_fits n z = true <-> 0 <= z < 256 ^ Z.of_nat (S n).
Proof. unfold uint_fits. by rewrite andb_true_iff, Z.leb_le, Z.ltb_lt. Qed.
Program Definition uint (n : nat) : codec Z := {|
  enc := le_bytes (S n);
  fits := uint_fits n;
  dec l := '(a, r) ← split_at (S n) l; Some (le_value a, r);
|}.
Next Obligation.
  intros n z r Hz%uint_fits_iff. cbn beta.
  pose proof (split_at_app (le_bytes (S n) z) r) as E. rewrite le_bytes_length in E. rewrite E.
  cbn [mbind option_bind]. rewrite le_value_le_bytes, Z.mod_small by done. done.
Qed.
Next Obligation.
  intros n l x r. cbn beta. destruct (split_at (S n) l) as [[a r']|] eqn:E; cbn [mbind option_bind]; [|done].
  intros [= <- <-]. apply split_at_Some in E as [L ->]. rewrite uint_fits_iff.
  pose proof (le_value_range a) as R. by rewrite L in R.
Qed.
Next Obligation. intros n x. rewrite le_bytes_length. lia. Qed.
#[export] Instance uint_exact n : Exact (uint n).
Proof.
  intros l x r. cbn [dec uint]. destruct (split_at (S n) l) as [[a r']|] eqn:E; [|done].
  intros [= <- <-]. apply split_at_Some in E as [L ->]. cbn [enc uint].
  by rewrite <- L, le_bytes_le_value.
Qed.
Definition u8 : codec Z := uint 0.
Definition u16 : codec Z := uint 1.
Definition u32 : codec Z := uint 3.
Definition u64 : codec Z := uint 7.

(** An array of [S n] bytes: hashes, addresses, keys and signatures. *)
Program Definition arr (n : nat) : codec (bytesN (S n)) := {|
  enc := bn;
  fits _ := true;
  dec l := '(a, r) ← split_at (S n) l; Some (pad_bytesN (S n) a, r);
|}.
Next Obligation.
  intros n x r _. cbn beta. pose proof (split_at_app (bn x) r) as E. rewrite bn_length in E.
  rewrite E. cbn [mbind option_bind]. by rewrite pad_bytesN_bn.
Qed.
Next Obligation.
  done.
Qed.
Next Obligation. intros n x. rewrite bn_length. lia. Qed.
#[export] Instance arr_exact n : Exact (arr n).
Proof.
  intros l x r. cbn [dec arr]. destruct (split_at (S n) l) as [[a r']|] eqn:E; [|done].
  intros [= <- <-]. apply split_at_Some in E as [L ->]. cbn [enc arr]. by rewrite bn_pad, pad_list_id.
Qed.

(** ** Refinement of a codec *)
(** A codec read through a view: [g] rebuilds, [f] takes apart. *)
Program Definition iso {A B} (g : A -> B) (f : B -> A) (gf : forall b, g (f b) = b)
    (fg : forall a, f (g a) = a) (c : codec A) : codec B := {|
  enc b := enc c (f b);
  fits b := fits c (f b);
  dec l := '(a, r) ← dec c l; Some (g a, r);
|}.
Next Obligation.
  intros A B g f gf fg c x r Hx. cbn beta. rewrite (dec_enc c) by done.
  cbn [mbind option_bind]. by rewrite gf.
Qed.
Next Obligation.
  intros A B g f gf fg c l x r. cbn beta. destruct (dec c l) as [[a r']|] eqn:E; [|done].
  intros [= <- <-]. rewrite fg. by apply dec_fits in E.
Qed.
Next Obligation. intros. apply enc_pos. Qed.
#[export] Instance iso_exact {A B} (g : A -> B) f gf fg (c : codec A) :
  Exact c -> Exact (iso g f gf fg c).
Proof.
  intros Hc l x r. cbn [dec iso]. destruct (dec c l) as [[a r']|] eqn:E; [|done].
  intros [= <- <-]. cbn [enc iso]. rewrite fg. by apply Hc.
Qed.
(** The codec on the values a test accepts. *)
Program Definition where_ {A} (p : A -> bool) (c : codec A) : codec A := {|
  enc := enc c;
  fits a := fits c a && p a;
  dec l := '(a, r) ← dec c l; if p a then Some (a, r) else None;
|}.
Next Obligation.
  intros A p c x r [Hx Hp]%andb_true_iff. rewrite (dec_enc c) by done.
  cbn [mbind option_bind]. by rewrite Hp.
Qed.
Next Obligation.
  intros A p c l x r. cbn beta. destruct (dec c l) as [[a r']|] eqn:E; cbn [mbind option_bind]; [|done].
  destruct (p a) eqn:Hp; [|done]. intros [= <- <-]. apply dec_fits in E as ->. by rewrite Hp.
Qed.
Next Obligation. intros. apply enc_pos. Qed.
#[export] Instance where_exact {A} p (c : codec A) : Exact c -> Exact (where_ p c).
Proof.
  intros Hc l x r. cbn [dec where_]. destruct (dec c l) as [[a r']|] eqn:E; [|done].
  cbn [mbind option_bind]. destruct (p a); [|done]. intros [= <- <-]. by apply Hc.
Qed.
(** A codec whose reader normalises what it reads. *)
Program Definition normalised {A} `{EqDecision A} (f : A -> option A) (c : codec A)
    (Hf : forall a b, fits c a = true -> f a = Some b -> fits c b = true /\ f b = Some b) : codec A := {|
  enc := enc c;
  fits a := fits c a && bool_decide (f a = Some a);
  dec l := '(a, r) ← dec c l; b ← f a; Some (b, r);
|}.
Next Obligation.
  intros A ? f c Hf x r [Hx Hp%bool_decide_eq_true]%andb_true_iff. rewrite (dec_enc c) by done.
  cbn [mbind option_bind]. by rewrite Hp.
Qed.
Next Obligation.
  intros A ? f c Hf l x r. cbn beta. destruct (dec c l) as [[a r']|] eqn:E; cbn [mbind option_bind]; [|done].
  destruct (f a) as [b|] eqn:Hb; cbn [mbind option_bind]; [|done]. intros [= <- <-].
  apply dec_fits in E. apply (Hf a b E) in Hb as [-> Hb]. by rewrite bool_decide_eq_true_2.
Qed.
Next Obligation. intros. apply enc_pos. Qed.
(** A codec through a partial view: [f] writes, [g] reads, and only what [f] gives back is read. *)
Program Definition via {A B} `{EqDecision A, EqDecision B} (f : B -> A) (g : A -> option B)
    (c : codec A) : codec B := {|
  enc b := enc c (f b);
  fits b := fits c (f b) && bool_decide (g (f b) = Some b);
  dec l := '(a, r) ← dec c l; b ← g a; if bool_decide (f b = a) then Some (b, r) else None;
|}.
Next Obligation.
  intros A B ?? f g c x r [Hx Hg%bool_decide_eq_true]%andb_true_iff.
  rewrite (dec_enc c) by done. cbn [mbind option_bind]. rewrite Hg. cbn [mbind option_bind].
  by rewrite bool_decide_eq_true_2.
Qed.
Next Obligation.
  intros A B ?? f g c l x r. cbn beta.
  destruct (dec c l) as [[a r']|] eqn:E; cbn [mbind option_bind]; [|done].
  destruct (g a) as [b|] eqn:Hg; cbn [mbind option_bind]; [|done].
  case_bool_decide as Hf; [|done]. intros [= <- <-]. apply dec_fits in E.
  rewrite Hf, E. by rewrite bool_decide_eq_true_2.
Qed.
Next Obligation. intros. apply enc_pos. Qed.
#[export] Instance via_exact {A B} `{EqDecision A, EqDecision B} (f : B -> A) g (c : codec A) :
  Exact c -> Exact (via f g c).
Proof.
  intros Hc l x r. cbn [dec via]. destruct (dec c l) as [[a r']|] eqn:E; [|done].
  cbn [mbind option_bind]. destruct (g a) as [b|]; cbn [mbind option_bind]; [|done].
  case_bool_decide as Hf; [|done]. intros [= <- <-]. cbn [enc via]. rewrite Hf. by apply Hc.
Qed.

Definition boolean : codec bool :=
  via (fun b : bool => if b then 1 else 0)
    (fun z => if z =? 0 then Some false else if z =? 1 then Some true else None) u8.
(** A variant without fields: [code] is what is written for it. *)
Definition variant {T} `{EqDecision T} (xs : list T) (code : T -> Z) : codec T :=
  via code (fun z => find (fun x => code x =? z) xs) u32.

(** ** Compounds *)
Program Definition pair {A B} (c : codec A) (d : codec B) : codec (A * B) := {|
  enc p := enc c p.1 ++ enc d p.2;
  fits p := fits c p.1 && fits d p.2;
  dec l := '(a, r) ← dec c l; '(b, r') ← dec d r; Some ((a, b), r');
|}.
Next Obligation.
  intros A B c d [a b] r [Ha Hb]%andb_true_iff. cbn [fst snd] in *. cbn beta.
  rewrite <- app_assoc, (dec_enc c) by done. cbn [mbind option_bind].
  by rewrite (dec_enc d) by done.
Qed.
Next Obligation.
  intros A B c d l [a b] r.
  destruct (dec c l) as [[a' r1]|] eqn:E1; cbn [mbind option_bind]; [|done].
  destruct (dec d r1) as [[b' r2]|] eqn:E2; [|done].
  intros [= <- <- <-]. apply dec_fits in E1, E2. cbn [fst snd]. by rewrite E1, E2.
Qed.
Next Obligation. intros A B c d p. cbn beta. rewrite length_app. pose proof (enc_pos c p.1). lia. Qed.
#[export] Instance pair_exact {A B} (c : codec A) (d : codec B) :
  Exact c -> Exact d -> Exact (pair c d).
Proof.
  intros Hc Hd l [a b] r. cbn [dec pair]. destruct (dec c l) as [[a' r1]|] eqn:E1; [|done].
  cbn [mbind option_bind]. destruct (dec d r1) as [[b' r2]|] eqn:E2; [|done].
  intros [= <- <- <-]. apply Hc in E1 as ->. apply Hd in E2 as ->. cbn [enc pair fst snd].
  by rewrite app_assoc.
Qed.

Definition opt_dec {A} (c : codec A) (l : list byte) : option (option A * list byte) :=
  match l with
  | x00 :: r => Some (None, r)
  | x01 :: r => '(a, r') ← dec c r; Some (Some a, r')
  | _ => None
  end.
Program Definition opt {A} (c : codec A) : codec (option A) := {|
  enc o := from_option (fun a => x01 :: enc c a) [x00] o;
  fits o := from_option (fits c) true o;
  dec := opt_dec c;
|}.
Next Obligation.
  intros A c [a|] r; [|done]. intros Ha. cbn [app from_option opt_dec]. by rewrite (dec_enc c).
Qed.
Next Obligation.
  intros A c [|b l] x r; cbn beta; [done|]. destruct b; try done; cbn [opt_dec].
  - by intros [= <- <-].
  - destruct (dec c l) as [[a r']|] eqn:E; [|done]. intros [= <- <-].
    by apply dec_fits in E.
Qed.
Next Obligation. intros A c [a|]; cbn [from_option length]; lia. Qed.
#[export] Instance opt_exact {A} (c : codec A) : Exact c -> Exact (opt c).
Proof.
  intros Hc [|b l] x r; [done|]. destruct b; try done; cbn [dec opt opt_dec].
  - by intros [= <- <-].
  - destruct (dec c l) as [[a r']|] eqn:E; [|done]. intros [= <- <-]. by apply Hc in E as ->.
Qed.

(** Exactly [n] values. *)
Fixpoint dec_n {A} (c : codec A) (n : nat) (l : list byte) : option (list A * list byte) :=
  match n with
  | O => Some ([], l)
  | S n' => '(a, r) ← dec c l; '(xs, r') ← dec_n c n' r; Some (a :: xs, r')
  end.
Definition enc_all {A} (c : codec A) (xs : list A) : list byte := mjoin (enc c <$> xs).
Lemma enc_all_cons {A} (c : codec A) x xs : enc_all c (x :: xs) = enc c x ++ enc_all c xs.
Proof. done. Qed.

Lemma dec_n_enc {A} (c : codec A) xs r :
  forallb (fits c) xs = true -> dec_n c (length xs) (enc_all c xs ++ r) = Some (xs, r).
Proof.
  induction xs as [|x xs IH]; [done|]. intros [Hx Hxs]%andb_true_iff.
  cbn [length dec_n]. rewrite enc_all_cons, <- app_assoc, (dec_enc c) by done.
  cbn [mbind option_bind]. by rewrite IH.
Qed.
Lemma dec_n_Some {A} (c : codec A) n l xs r : dec_n c n l = Some (xs, r) ->
  length xs = n /\ forallb (fits c) xs = true /\ (Exact c -> l = enc_all c xs ++ r).
Proof.
  revert l xs. induction n as [|n IH]; intros l xs; cbn [dec_n]; [by intros [= <- <-]|].
  destruct (dec c l) as [[a r1]|] eqn:E1; cbn [mbind option_bind]; [|done].
  destruct (dec_n c n r1) as [[ys r2]|] eqn:E2; [|done]. intros [= <- <-].
  apply IH in E2 as (L & F & X). cbn [length forallb]. rewrite L, (dec_fits c _ _ _ E1), F.
  split_and!; [done|done|]. intros Hc. apply Hc in E1 as ->.
  rewrite enc_all_cons, <- app_assoc. by rewrite X.
Qed.
Lemma enc_all_length {A} (c : codec A) xs : (length xs <= length (enc_all c xs))%nat.
Proof.
  induction xs as [|x xs IH]; [done|]. rewrite enc_all_cons, length_app. cbn [length].
  pose proof (enc_pos c x). lia.
Qed.

(** A length, then that many values. A length above the bytes left cannot be met, as every
    value takes a byte. *)
Definition vec_dec {A} (c : codec A) (l : list byte) : option (list A * list byte) :=
  '(n, r) ← dec u64 l;
  if n <=? Z.of_nat (length r) then dec_n c (Z.to_nat n) r else None.
Lemma vec_dec_Some {A} (c : codec A) l xs r : vec_dec c l = Some (xs, r) -> exists n r1,
  dec u64 l = Some (n, r1) /\ Z.of_nat (length xs) = n /\ forallb (fits c) xs = true /\
  (Exact c -> r1 = enc_all c xs ++ r).
Proof.
  unfold vec_dec. destruct (dec u64 l) as [[n r1]|] eqn:E; cbn [mbind option_bind]; [|done].
  destruct (n <=? Z.of_nat (length r1)); [|done]. intros (L & F & X)%dec_n_Some.
  exists n, r1. pose proof (dec_fits u64 _ _ _ E) as Hn. apply uint_fits_iff in Hn.
  split_and!; [done| |done|done]. rewrite L. by rewrite Z2Nat.id by lia.
Qed.
Program Definition vec {A} (c : codec A) : codec (list A) := {|
  enc xs := enc u64 (Z.of_nat (length xs)) ++ enc_all c xs;
  fits xs := fits u64 (Z.of_nat (length xs)) && forallb (fits c) xs;
  dec := vec_dec c;
|}.
Next Obligation.
  intros A c xs r [Hn Hxs]%andb_true_iff. unfold vec_dec. rewrite <- app_assoc, (dec_enc u64) by done.
  cbn [mbind option_bind]. pose proof (enc_all_length c xs). rewrite length_app.
  destruct (Z.leb_spec (Z.of_nat (length xs)) (Z.of_nat (length (enc_all c xs) + length r))); [|lia].
  rewrite Nat2Z.id. by apply dec_n_enc.
Qed.
Next Obligation.
  intros A c l xs r E. apply vec_dec_Some in E as (n & r1 & E & L & F & _).
  rewrite L, F. by rewrite (dec_fits u64 _ _ _ E).
Qed.
Next Obligation.
  intros A c xs. cbn beta. rewrite length_app.
  pose proof (enc_pos u64 (Z.of_nat (length xs))). lia.
Qed.
#[export] Instance vec_exact {A} (c : codec A) : Exact c -> Exact (vec c).
Proof.
  intros Hc l xs r E. apply vec_dec_Some in E as (n & r1 & E & L & _ & X).
  apply uint_exact in E as ->. cbn [enc vec]. rewrite L, (X Hc), <- app_assoc. done.
Qed.

Definition byte_dec (l : list byte) : option (byte * list byte) :=
  match l with [] => None | b :: r => Some (b, r) end.
Program Definition byte1 : codec byte := {|
  enc b := [b];
  fits _ := true;
  dec := byte_dec;
|}.
Next Obligation. done. Qed.
Next Obligation. done. Qed.
Next Obligation. cbn. lia. Qed.
#[export] Instance byte_exact : Exact byte1.
Proof. intros [|b l] x r; [done|]. by intros [= <- <-]. Qed.
Definition bytes : codec (list byte) := vec byte1.
Definition str : codec rstr :=
  via (fun s => if forallb is_char s then utf8 s else []) from_utf8 bytes.

Lemma fits_u64 z : fits u64 z = true <-> is_u64 z.
Proof. unfold u64. cbn [fits uint]. rewrite uint_fits_iff. unfold is_u64, U64_MAX. lia. Qed.
Lemma fits_bytes l : fits bytes l = true <-> is_u64 (Z.of_nat (length l)).
Proof.
  unfold bytes. cbn [fits vec]. rewrite andb_true_iff, fits_u64.
  assert (forallb (fits byte1) l = true) as -> by (by induction l). tauto.
Qed.
Lemma fits_str s : fits str s = true <-> forallb is_char s = true /\ is_u64 (str_len s).
Proof.
  unfold str, str_len. cbn [fits via]. rewrite andb_true_iff, bool_decide_eq_true.
  destruct (forallb is_char s) eqn:Hs.
  - rewrite fits_bytes, from_utf8_utf8 by done. naive_solver.
  - split; [|by intros []]. intros [_ E]. exfalso. assert (from_utf8 [] = Some []) as E0 by (by vm_compute).
    rewrite E0 in E. injection E as <-. discriminate Hs.
Qed.
(** ** Floating point values *)
(** The bits of a value of precision [S p] and of [w] bits: sign, exponent, fraction. *)
Definition float_bits (p w : Z) (x : spec_float) : Z :=
  let sign (s : bool) := if s then Z.shiftl 1 (w - 1) else 0 in
  let top := Z.shiftl (Z.shiftl 1 (w - 1 - p) - 1) p in
  match x with
  | S754_zero s => sign s
  | S754_infinity s => sign s + top
  | S754_nan => top + Z.shiftl 1 (p - 1)
  | S754_finite s m e =>
      let emin := 3 - Z.shiftl 1 (w - 2 - p) - (p + 1) in
      sign s +
      (if Zpos m <? Z.shiftl 1 p then Zpos m
       else Z.shiftl (e - emin + 1) p + (Zpos m - Z.shiftl 1 p))
  end.
Definition float_of_bits (p w : Z) (z : Z) : spec_float :=
  let s := Z.testbit z (w - 1) in
  let fraction := z mod Z.shiftl 1 p in
  let exponent := Z.shiftr z p mod Z.shiftl 1 (w - 1 - p) in
  let emin := 3 - Z.shiftl 1 (w - 2 - p) - (p + 1) in
  if exponent =? 0 then
    match fraction with Zpos m => S754_finite s m emin | _ => S754_zero s end
  else if exponent =? Z.shiftl 1 (w - 1 - p) - 1 then
    if fraction =? 0 then S754_infinity s else S754_nan
  else
    match fraction + Z.shiftl 1 p with
    | Zpos m => S754_finite s m (exponent + emin - 1)
    | _ => S754_nan
    end.
(** Of the bit patterns of a NaN only the quiet one is read. *)
Definition f64 : codec spec_float := via (float_bits 52 64) (fun z => Some (float_of_bits 52 64 z)) u64.
Definition f32 : codec spec_float := via (float_bits 23 32) (fun z => Some (float_of_bits 23 32 z)) u32.

(** ** As a serialiser *)
Definition serializer {T} (c : codec T) : Bincode T := {|
  bincode_serialize x := if fits c x then Ok (enc c x) else Err (lit "value out of range");
  bincode_read l := match dec c l with Some p => Ok p | None => Err (lit "unexpected end of file") end;
|}.
Lemma read_dec {T} (c : codec T) l p : @bincode_read T (serializer c) l = Ok p <-> dec c l = Some p.
Proof. cbn. destruct (dec c l); split; congruence. Qed.
Lemma serializer_laws {T} (c : codec T) : @BincodeLaws T (serializer c).
Proof.
  intros x b. cbn [bincode_serialize serializer]. destruct (fits c x) eqn:Hx; [|done].
  intros [= <-]. apply read_dec. rewrite <- (app_nil_r (enc c x)). by apply dec_enc.
Qed.
(** What is read can be written; with an exact codec, it starts with what is written for it. *)
Lemma deserialize_spec {T} (c : codec T) l x :
  @bincode_deserialize T (serializer c) l = Ok x ->
  fits c x = true /\ (Exact c -> exists r, l = enc c x ++ r).
Proof.
  intros ([y r] & E%read_dec & [= <-])%bind_Ok. split; [by apply dec_fits in E|].
  intros Hc. exists r. by apply Hc.
Qed.
Lemma deserialize_written {T} (c : codec T) x r :
  fits c x = true -> @bincode_deserialize T (serializer c) (enc c x ++ r) = Ok x.
Proof. intros F. unfold bincode_deserialize. cbn [bincode_read serializer]. by rewrite dec_enc. Qed.
(** Where nothing may follow the value, that is all that is read. *)
Lemma all_spec {T} (c : codec T) l x :
  @bincode_deserialize_all T (serializer c) l = Ok x <-> dec c l = Some (x, []).
Proof.
  unfold bincode_deserialize_all. cbn [bincode_read serializer].
  destruct (dec c l) as [[y [|b r]]|]; cbn; split; congruence.
Qed.
Lemma all_exact {T} (c : codec T) `{!Exact c} l x :
  @bincode_deserialize_all T (serializer c) l = Ok x <-> fits c x = true /\ l = enc c x.
Proof.
  rewrite all_spec. split.
  - intros E. split; [by apply dec_fits in E|]. apply exact_dec in E. by rewrite app_nil_r in E.
  - intros [F ->]. rewrite <- (app_nil_r (enc c x)). by apply dec_enc.
Qed.
End Codec.
