(* ===== verification/Wire.v ===== *)
(** * Encodings of the fixed-width values

    Models the [serde] implementations of hashes, addresses, keys and signatures
    ([crypto/hash.rs], [crypto/keys.rs], with [fixed_bytes_serde]), their debug texts, and the
    PKCS#8 form of a key pair. A format is an argument: a writer is told a text or a tuple of
    bytes, and a reader hands over what it finds. The PKCS#8 codec is a parameter. *)
From S2P Require Import Prelude Crypto Instances.

Module Wire.

(** ** [fixed_bytes_serde] *)
(** What a [Serializer] is asked to write. *)
Inductive serialized : Type := Text (s : rstr) | Tuple (elements : list byte).
(** What a [Deserializer] finds: a text, or a sequence whose elements may fail to decode and
    which ends after its last. *)
Record deserializer : Type := {
  is_human_readable : bool;
  string : result rstr rstr;
  sequence : list (result rstr byte);
}.
Inductive de_error : Type :=
| Custom (m : message)
| InvalidLength (index : Z) (expecting : message)
| Format (e : rstr).

Section FixedBytes.
Context `{Hex}.

Definition serialize (human_readable : bool) (bytes : list byte) : serialized :=
  if human_readable then Text (hex_encode bytes) else Tuple bytes.
Definition expecting (n : nat) : message := Msg "exactly {} binary bytes" [AInt (Z.of_nat n)].
(** [visit_seq] from [index] on, with [k] bytes to fill. *)
Fixpoint visit_seq (n : nat) (index : Z) (k : nat) (sequence : list (result rstr byte))
    : result de_error (list byte) :=
  match k with
  | O => Ok []
  | S k' =>
      match sequence with
      | [] => Err (InvalidLength index (expecting n))
      | Err e :: _ => Err (Format e)
      | Ok b :: rest => bytes ← visit_seq n (index + 1) k' rest; Ok (b :: bytes)
      end
  end.
Definition deserialize (n : nat) (d : deserializer) : result de_error (bytesN n) :=
  if is_human_readable d then
    encoded ← map_err Format (string d);
    decoded ← map_err (fun e => Custom (Msg "{}" [AStr e])) (hex_decode encoded);
    match mk_bytesN n decoded with
    | Some bytes => Ok bytes
    | None => Err (Custom (Msg "expected {} decoded bytes, found {}"
                [AInt (Z.of_nat n); AInt (Z.of_nat (length decoded))]))
    end
  else bytes ← visit_seq n 0 n (sequence d); Ok (pad_bytesN n bytes).
(** A format that hands back what was written. *)
Definition reader (s : serialized) : deserializer :=
  match s with
  | Text t => {| is_human_readable := true; string := Ok t; sequence := [] |}
  | Tuple bytes => {| is_human_readable := false; string := Err []; sequence := Ok <$> bytes |}
  end.
End FixedBytes.

(** ** The four types *)
Section Values.
Context `{Hex, Ed25519}.

Definition address_serialize (human_readable : bool) (a : Address) : serialized :=
  serialize human_readable (bn a).
Definition address_deserialize (d : deserializer) : result de_error Address := deserialize 20 d.
Definition pk_serialize (human_readable : bool) (k : PublicKey) : serialized :=
  serialize human_readable (bn k).
(** An error's display text is its kind and message, kept whole as an argument here. *)
Definition custom_of (text_of : ZinchaError -> rstr) (e : ZinchaError) : de_error :=
  Custom (Msg "{}" [AStr (text_of e)]).
Definition pk_deserialize (text_of : ZinchaError -> rstr) (d : deserializer)
    : result de_error PublicKey :=
  arr ← deserialize 32 d; map_err (custom_of text_of) (pk_from_bytes arr).
Definition sig_serialize (human_readable : bool) (s : Signature) : serialized :=
  serialize human_readable (bn s).
Definition sig_deserialize (text_of : ZinchaError -> rstr) (d : deserializer)
    : result de_error Signature :=
  arr ← deserialize 64 d; map_err (custom_of text_of) (sig_from_bytes arr).
Definition hash_serialize (human_readable : bool) (h : Hash256) : serialized :=
  serialize human_readable (bn h).
Definition hash_deserialize (d : deserializer) : result de_error Hash256 :=
  if is_human_readable d then
    encoded ← map_err Format (string d);
    map_err (fun e => Custom (Msg "{}" [AStr e])) (hash_from_hex encoded)
  else deserialize 32 d.

(** ** Texts for people *)
Definition address_debug (a : Address) : rstr := lit "Address(" ++ address_to_hex a ++ lit ")".
Definition pk_debug (k : PublicKey) : rstr := lit "PublicKey(" ++ hex_encode (take 8 (bn k)) ++ lit ")".
Definition sig_debug (s : Signature) : rstr := lit "Sig(" ++ hex_encode (take 8 (bn s)) ++ lit "..)".
Definition hash_debug (h : Hash256) : rstr :=
  lit "Hash(" ++ hex_encode (take 4 (bn h)) ++ lit ".." ++ hex_encode (drop 28 (bn h)) ++ lit ")".

(** ** Properties *)
Context `{!HexLaws}.

Lemma visit_seq_bytes n i (bytes : list byte) rest :
  visit_seq n i (length bytes) ((Ok <$> bytes) ++ rest) = Ok bytes.
Proof.
  revert i. induction bytes as [|b bytes IH]; intros i; [done|].
  cbn [length fmap list_fmap app visit_seq]. by rewrite IH.
Qed.
Lemma visit_seq_Ok n i k seq bytes :
  visit_seq n i k seq = Ok bytes -> length bytes = k /\ exists rest, seq = (Ok <$> bytes) ++ rest.
Proof.
  revert i seq bytes. induction k as [|k IH]; intros i seq bytes; cbn [visit_seq].
  - intros [= <-]. eauto.
  - destruct seq as [|[b|e] seq]; [done| |done]. intros (l & (El & rest & ->)%IH & [= <-])%bind_Ok.
    cbn [length]. split; [lia|]. by exists rest.
Qed.
Lemma deserialize_serialize h n (x : bytesN n) : deserialize n (reader (serialize h (bn x))) = Ok x.
Proof.
  unfold serialize, deserialize. destruct h; cbn [reader is_human_readable string sequence].
  - cbn [map_err mbind result_bind]. rewrite hex_decode_encode. cbn [map_err mbind result_bind].
    by rewrite mk_bytesN_bn.
  - rewrite <- (app_nil_r (Ok <$> bn x)).
    pose proof (visit_seq_bytes n 0 (bn x) []) as E. rewrite bn_length in E. rewrite E.
    cbn [mbind result_bind]. by rewrite pad_bytesN_bn.
Qed.
(** What a fixed width value is read from. *)
Definition spells (d : deserializer) (bytes : list byte) : Prop :=
  if is_human_readable d then exists t, string d = Ok t /\ hex_decode t = Ok bytes
  else exists rest, sequence d = (Ok <$> bytes) ++ rest.
Lemma deserialize_spells n d x : deserialize n d = Ok x <-> spells d (bn x).
Proof.
  unfold deserialize, spells. destruct (is_human_readable d).
  - split.
    + intros (t & Et & (b & Eb & E)%bind_Ok)%bind_Ok.
      destruct (string d) as [t'|]; [|done]. injection Et as <-. exists t'. split; [done|].
      destruct (hex_decode t') as [b'|]; [|done]. injection Eb as <-.
      destruct (mk_bytesN n b') eqn:M; [|done]. injection E as <-. by apply mk_bytesN_Some in M as [-> _].
    + intros (t & -> & E). cbn [map_err mbind result_bind]. rewrite E.
      cbn [map_err mbind result_bind]. by rewrite mk_bytesN_bn.
  - split.
    + intros (b & (L & rest & ->)%visit_seq_Ok & [= <-])%bind_Ok.
      exists rest. rewrite bn_pad, pad_list_id by done. done.
    + intros (rest & ->). pose proof (visit_seq_bytes n 0 (bn x) rest) as E.
      rewrite bn_length in E. rewrite E. cbn [mbind result_bind]. by rewrite pad_bytesN_bn.
Qed.

(** C32: Every value reads back from what it writes, as text and in binary. What a reader accepts of an
    address, a key or a signature is no more than that: exactly its bytes (20, 32 or 64), in
    hexadecimal with no prefix or one by one in binary, where a short sequence and a failing
    element are errors and what follows the last is not looked at; and a public key must be a
    point of the curve. The same holds of a hash in binary; its text form is not exact, as
    [Hash256::from_hex] pads a short text and cuts a long one. *)
Theorem wire_forms text_of human d :
  (forall a, address_deserialize (reader (address_serialize human a)) = Ok a) /\
  (forall k, ed_decode k = Ok () -> pk_deserialize text_of (reader (pk_serialize human k)) = Ok k) /\
  (forall s, sig_deserialize text_of (reader (sig_serialize human s)) = Ok s) /\
  (forall h, hash_deserialize (reader (hash_serialize human h)) = Ok h) /\
  (forall a, address_deserialize d = Ok a <-> spells d (bn a)) /\
  (forall k, pk_deserialize text_of d = Ok k <-> spells d (bn k) /\ ed_decode k = Ok ()) /\
  (forall s, sig_deserialize text_of d = Ok s <-> spells d (bn s)) /\
  (is_human_readable d = false -> forall h, hash_deserialize d = Ok h <-> spells d (bn h)).
Proof.
  assert (forall k x, map_err (custom_of text_of) (pk_from_bytes k) = Ok x <-> k = x /\ ed_decode k = Ok ())
    as Hk.
  { intros k x. unfold pk_from_bytes. destruct (ed_decode k) as [[]|]; cbn.
    - split; [by intros [= <-]|by intros [<- _]].
    - split; [done|by intros [_ ?]]. }
  split_and!.
  - intros a. apply deserialize_serialize.
  - intros k E. unfold pk_deserialize, pk_serialize. rewrite deserialize_serialize.
    cbn [mbind result_bind]. by apply Hk.
  - intros s. unfold sig_deserialize, sig_serialize. by rewrite deserialize_serialize.
  - intros h. unfold hash_deserialize, hash_serialize, serialize. destruct human.
    + cbn. fold (hash_to_hex h). by rewrite hash_from_hex_to_hex.
    + exact (deserialize_serialize false 32 h).
  - intros a. apply deserialize_spells.
  - intros k. unfold pk_deserialize. split.
    + by intros (x & E%deserialize_spells & [<- ?]%Hk)%bind_Ok.
    + intros [->%deserialize_spells E]. by apply Hk.
  - intros s. unfold sig_deserialize. split.
    + by intros (x & E%deserialize_spells & [= <-])%bind_Ok.
    + by intros ->%deserialize_spells.
  - intros E h. unfold hash_deserialize. rewrite E. apply deserialize_spells.
Qed.
End Values.

(** ** The PKCS#8 form of a key pair, and its generation *)
(** The [pkcs8] crate at an ed25519 key, with line feeds. *)
Class Pkcs8 := {
  from_pkcs8_pem : rstr -> result rstr (bytesN 32);
  to_pkcs8_pem : bytesN 32 -> result rstr rstr;
}.
Class Pkcs8Laws `{Pkcs8} : Prop :=
  pkcs8_roundtrip : forall k t, to_pkcs8_pem k = Ok t -> from_pkcs8_pem t = Ok k.
Section Pem.
Context `{Pkcs8}.
(** [draw] is what the system's random source gives. *)
Definition keypair_generate (draw : bytesN 32) : Keypair := keypair_from_secret_bytes draw.
Definition keypair_from_pkcs8_pem (pem : rstr) : result ZinchaError Keypair :=
  map_err (fun e => InvalidPublicKey (Msg "invalid PKCS#8 PEM: {}" [AStr e])) (from_pkcs8_pem pem).
Definition keypair_to_pkcs8_pem (k : Keypair) : result ZinchaError rstr :=
  map_err (fun e => KeyDerivation (Msg "encode PKCS#8 PEM: {}" [AStr e])) (to_pkcs8_pem k).
Lemma pem_roundtrip `{!Pkcs8Laws} k t :
  keypair_to_pkcs8_pem k = Ok t -> keypair_from_pkcs8_pem t = Ok k.
Proof.
  unfold keypair_to_pkcs8_pem, keypair_from_pkcs8_pem.
  destruct (to_pkcs8_pem k) as [t'|] eqn:E; [|done]. intros [= <-].
  by rewrite (pkcs8_roundtrip _ _ E).
Qed.
End Pem.
End Wire.

Module WireWitness.
Import Wire.
Definition key0 : PublicKey := pad_bytesN 32 [x09].
Definition text0 (e : ZinchaError) : rstr := [].
Lemma wire_forms_witness :
  pk_deserialize text0 (reader (pk_serialize true key0)) = Ok key0 /\
  pk_deserialize text0 (reader (pk_serialize false key0)) = Ok key0 /\
  hash_deserialize (reader (Tuple (replicate 32 x01))) = Ok (pad_bytesN 32 (replicate 32 x01)).
Proof.
  split_and!.
  - by apply (wire_forms text0 true (reader (Text []))).
  - by apply (wire_forms text0 false (reader (Text []))).
  - apply (wire_forms text0 true (reader (Tuple (replicate 32 x01)))); [reflexivity|].
    exists []. by vm_compute.
Defined.
End WireWitness.
