(* ===== verification/Merkle.v ===== *)
(** * Merkle trees ([crypto/merkle.rs])

    Construction, in-place root, inclusion proofs and their verification, over an
    arbitrary digest. *)
From S2P Require Import Prelude Crypto Instances.

Module Merkle.
Section Tree.
Context `{Digests}.

(** [MerkleTree]: all layers, leaves first. *)
Record MerkleTree : Type := { layers : list (list Hash256) }.

(** [MerkleProof]: a sibling comes with its side ([true] = right). *)
Record MerkleProof : Type := {
  leaf : Hash256;
  siblings : list (Hash256 * bool);
  proof_root : Hash256;
}.

(** One round of the [while i < current.len()] loop: pairs are combined and an odd
    last element is combined with itself. *)
Fixpoint next_layer (current : list Hash256) : list Hash256 :=
  match current with
  | [] => []
  | [a] => [combine_hashes a a]
  | a :: b :: rest => combine_hashes a b :: next_layer rest
  end.

(** The [loop]: stop at a one-element layer. *)
Fixpoint build_layers (fuel : nat) (current : list Hash256) : list (list Hash256) :=
  match fuel with
  | O => [current]
  | S fuel' =>
      if Nat.eqb (length current) 1 then [current]
      else current :: build_layers fuel' (next_layer current)
  end.

Definition from_hashes (leaves : list Hash256) : MerkleTree :=
  match leaves with
  | [] => {| layers := [[hash_bytes (blit "empty")]] |}
  | _ => {| layers := build_layers (length leaves) leaves |}
  end.

Definition from_data (items : list (list byte)) : MerkleTree :=
  from_hashes (hash_bytes <$> items).

Definition root (t : MerkleTree) : Hash256 :=
  match last (layers t) with
  | Some (h :: _) => h
  | _ => hash_zero
  end.

Definition leaf_count (t : MerkleTree) : nat :=
  match layers t with [] => 0%nat | l :: _ => length l end.

(** The [for layer in &self.layers[..len - 1]] loop of [proof]. *)
Fixpoint proof_walk (ls : list (list Hash256)) (idx : nat)
    : may_panic (list (Hash256 * bool)) :=
  match ls with
  | [] => Some []
  | layer :: ls' =>
      let sibling_idx := if Nat.even idx then S idx else Nat.pred idx in
      sibling ← (if Nat.ltb sibling_idx (length layer)
                 then layer !! sibling_idx else layer !! idx);
      rest ← proof_walk ls' (idx / 2)%nat;
      Some ((sibling, Nat.even idx) :: rest)
  end.

Definition proof (t : MerkleTree) (leaf_index : nat) : may_panic (option MerkleProof) :=
  if Nat.leb (leaf_count t) leaf_index then Some None
  else
    sibs ← proof_walk (take (length (layers t) - 1) (layers t)) leaf_index;
    l0 ← layers t !! 0%nat;
    lf ← l0 !! leaf_index;
    Some (Some {| leaf := lf; siblings := sibs; proof_root := root t |}).

Definition verify_step (current : Hash256) (s : Hash256 * bool) : Hash256 :=
  if s.2 then combine_hashes current s.1 else combine_hashes s.1 current.

Definition verify_proof (p : MerkleProof) : bool :=
  bool_decide (foldl verify_step (leaf p) (siblings p) = proof_root p).

(** One iteration of the inner [for write_index in 0..next_width]. *)
Definition reduce_slot (width : nat) (hashes : list Hash256) (write_index : nat)
    : may_panic (list Hash256) :=
  let left_index := (write_index * 2)%nat in
  let right_index := Nat.min (left_index + 1) (width - 1) in
  l ← hashes !! left_index;
  r ← hashes !! right_index;
  if Nat.ltb write_index (length hashes)
  then Some (<[write_index := combine_hashes l r]> hashes) else None.

(** The [while width > 1] loop; [truncate] is [take]. *)
Fixpoint reduce_levels (fuel width : nat) (hashes : list Hash256)
    : may_panic (list Hash256) :=
  match fuel with
  | O => Some hashes
  | S fuel' =>
      if Nat.leb width 1 then Some hashes
      else
        let next_width := ((width + 1) / 2)%nat in
        hs ← fold_option (reduce_slot width) hashes (seq 0 next_width);
        reduce_levels fuel' next_width (take next_width hs)
  end.

(** Returns the root and the reduced buffer. *)
Definition root_from_hashes_in_place (hashes : list Hash256)
    : may_panic (Hash256 * list Hash256) :=
  match hashes with
  | [] => Some (hash_bytes (blit "empty"), [])
  | _ =>
      hs ← reduce_levels (length hashes) (length hashes) hashes;
      r ← hs !! 0%nat;
      Some (r, hs)
  end.

Definition root_from_hashes_owned (hashes : list Hash256) : may_panic Hash256 :=
  fst <$> root_from_hashes_in_place hashes.

(** ** Layers *)

Lemma next_layer_length l : length (next_layer l) = ((length l + 1) / 2)%nat.
Proof.
  cut (forall n (l : list Hash256), (length l <= n)%nat ->
    length (next_layer l) = ((length l + 1) / 2)%nat); [eauto|].
  clear l. intros n. induction n as [|n IH]; intros [|a [|b l]] Hl; simpl in Hl; try lia; try done.
  cbn [next_layer length]. rewrite IH by lia.
  replace (S (S (length l)) + 1)%nat with (length l + 1 + 1 * 2)%nat by lia.
  rewrite Nat.div_add by lia. lia.
Qed.

Lemma half_bounds n : (2 <= n -> 1 <= (n + 1) / 2 < n)%nat.
Proof.
  intros Hn. pose proof (Nat.div_mod_eq (n + 1) 2).
  pose proof (Nat.mod_upper_bound (n + 1) 2). lia.
Qed.

(** The fuel given by [from_hashes] is enough: the last layer is a singleton. *)
Lemma build_layers_last fuel l :
  (1 <= length l <= fuel)%nat -> exists r, last (build_layers fuel l) = Some [r].
Proof.
  revert l. induction fuel as [|fuel IH]; intros l Hl; [lia|]. cbn.
  destruct (Nat.eqb_spec (length l) 1) as [E|E].
  - destruct l as [|x [|y l]]; simpl in E; try lia. by exists x.
  - pose proof (half_bounds (length l)).
    destruct (IH (next_layer l)) as [r Hr]; [rewrite next_layer_length; lia|].
    exists r. rewrite last_cons. by rewrite Hr.
Qed.

Lemma build_layers_head fuel l : exists ls, build_layers fuel l = l :: ls.
Proof.
  destruct fuel; cbn; [eauto|]. destruct (Nat.eqb _ 1); eauto.
Qed.

Lemma from_hashes_layers leaves :
  leaves <> [] -> layers (from_hashes leaves) = build_layers (length leaves) leaves.
Proof. by destruct leaves. Qed.

Lemma next_layer_lookup l k :
  next_layer l !! k =
  (a ← l !! (2 * k)%nat; Some (combine_hashes a (default a (l !! (2 * k + 1)%nat)))).
Proof.
  revert l. induction k as [|k IH]; intros [|a [|b l]]; try done.
  replace (2 * S k)%nat with (S (S (2 * k))) by lia. apply IH.
Qed.

Lemma take_init_cons {A} (x : A) (ls : list A) :
  ls <> [] -> take (length (x :: ls) - 1) (x :: ls) = x :: take (length ls - 1) ls.
Proof.
  destruct ls as [|y ls]; [done|]. intros _. cbn [length].
  by rewrite !Nat.sub_succ, !Nat.sub_0_r.
Qed.

Lemma build_layers_nonempty fuel l : build_layers fuel l <> [].
Proof. destruct (build_layers_head fuel l) as [ls ->]. done. Qed.

(** The sibling chosen at one layer recombines to the parent at the next. *)
Lemma sibling_parent l idx x :
  l !! idx = Some x ->
  exists sib,
    (if Nat.ltb (if Nat.even idx then S idx else Nat.pred idx) (length l)
     then l !! (if Nat.even idx then S idx else Nat.pred idx) else l !! idx) = Some sib /\
    next_layer l !! (idx / 2)%nat = Some (verify_step x (sib, Nat.even idx)).
Proof.
  intros Hx. pose proof (lookup_lt_Some _ _ _ Hx) as Hlt. rewrite next_layer_lookup.
  unfold verify_step; cbn [fst snd]. destruct (Nat.even idx) eqn:Ev.
  - apply Nat.even_spec in Ev as [k ->].
    replace (2 * k / 2)%nat with k by (rewrite Nat.mul_comm, Nat.div_mul; lia).
    rewrite Hx. cbn [mbind option_bind]. replace (2 * k + 1)%nat with (S (2 * k)) by lia.
    destruct (Nat.ltb_spec (S (2 * k)) (length l)) as [Hl|Hl].
    + apply lookup_lt_is_Some in Hl as [y Hy]. exists y. by rewrite Hy.
    + rewrite (lookup_ge_None_2 l (S (2 * k))) by lia. by exists x.
  - assert (Nat.odd idx = true) as [k Hk]%Nat.odd_spec by (unfold Nat.odd; by rewrite Ev).
    subst idx. replace (Nat.pred (2 * k + 1)) with (2 * k)%nat by lia.
    replace ((2 * k + 1) / 2)%nat with k
      by (rewrite Nat.add_comm, Nat.mul_comm, Nat.div_add by lia; done).
    destruct (Nat.ltb_spec (2 * k) (length l)); [|lia].
    destruct (lookup_lt_is_Some_2 l (2 * k)%nat ltac:(lia)) as [y Hy].
    exists y. rewrite Hx, Hy. by cbn.
Qed.

Lemma proof_walk_verifies fuel l idx x r :
  (1 <= length l <= fuel)%nat -> l !! idx = Some x ->
  last (build_layers fuel l) = Some [r] ->
  exists sibs,
    proof_walk (take (length (build_layers fuel l) - 1) (build_layers fuel l)) idx
      = Some sibs /\
    foldl verify_step x sibs = r.
Proof.
  revert l idx x. induction fuel as [|fuel IH]; intros l idx x Hl Hx Hr; [lia|].
  cbn [build_layers] in *. destruct (Nat.eqb_spec (length l) 1) as [E|E].
  - destruct l as [|y [|? l]]; simpl in E; try lia. injection Hr as ->.
    apply list_lookup_singleton_Some in Hx as [-> ->]. by exists [].
  - pose proof (half_bounds (length l)) as Hh.
    rewrite take_init_cons by apply build_layers_nonempty.
    destruct (sibling_parent l idx x Hx) as (sib & Hsib & Hpar).
    rewrite last_cons in Hr.
    destruct (last (build_layers fuel (next_layer l))) as [r'|] eqn:Hlast;
      [|apply last_None in Hlast; by apply build_layers_nonempty in Hlast].
    injection Hr as ->.
    assert (1 <= length (next_layer l) <= fuel)%nat as Hnl
      by (rewrite next_layer_length; lia).
    destruct (IH _ _ _ Hnl Hpar Hlast) as (sibs & Hw & Hf).
    exists ((sib, Nat.even idx) :: sibs). cbn [proof_walk]. rewrite Hsib.
    cbn [mbind option_bind]. rewrite Hw. by cbn.
Qed.

Lemma root_build fuel l r :
  last (build_layers fuel l) = Some [r] -> root {| layers := build_layers fuel l |} = r.
Proof. intros Hl. unfold root. cbn [layers]. by rewrite Hl. Qed.

(** ** In-place reduction *)

(** After [k] iterations the first [k] slots hold the next layer. *)
Lemma reduce_slots_prefix l k :
  (k <= length (next_layer l))%nat ->
  fold_option (reduce_slot (length l)) l (seq 0 k) =
  Some (take k (next_layer l) ++ drop k l).
Proof.
  induction k as [|k IH]; intros Hk; [by rewrite take_0, drop_0|].
  assert (length (next_layer l) = (length l + 1) / 2)%nat as Hn by apply next_layer_length.
  pose proof (Nat.div_mod_eq (length l + 1) 2) as Hd.
  pose proof (Nat.mod_upper_bound (length l + 1) 2) as Hm.
  rewrite seq_S, fold_option_app, IH by lia. cbn [mbind option_bind fold_option].
  unfold reduce_slot. rewrite !Nat.add_0_l.
  assert (length (take k (next_layer l)) = k) as Htk by (rewrite length_take; lia).
  assert (forall j, (k <= j)%nat -> (take k (next_layer l) ++ drop k l) !! j = l !! j) as Hj.
  { intros j Hj. rewrite lookup_app_r by lia. rewrite lookup_drop, Htk.
    by replace (k + (j - k))%nat with j by lia. }
  destruct (lookup_lt_is_Some_2 l (k * 2)%nat ltac:(lia)) as [a Ha].
  destruct (lookup_lt_is_Some_2 l (Nat.min (k * 2 + 1) (length l - 1)) ltac:(lia)) as [b Hb].
  rewrite !Hj by lia. rewrite Ha, Hb. cbn [mbind option_bind].
  destruct (Nat.ltb_spec k (length (take k (next_layer l) ++ drop k l))) as [_|Hlt];
    [|rewrite length_app, length_drop in Hlt; lia].
  f_equal. assert (next_layer l !! k = Some (combine_hashes a b)) as Hnk.
  { rewrite next_layer_lookup. replace (2 * k)%nat with (k * 2)%nat by lia. rewrite Ha.
    cbn [mbind option_bind]. do 2 f_equal.
    destruct (decide (k * 2 + 1 < length l)%nat).
    - rewrite Nat.min_l in Hb by lia. by rewrite Hb.
    - rewrite (lookup_ge_None_2 l (k * 2 + 1)%nat) by lia. rewrite Nat.min_r in Hb by lia.
      replace (length l - 1)%nat with (k * 2)%nat in Hb by lia. cbn. congruence. }
  rewrite (take_S_r _ _ _ Hnk), <- app_assoc.
  rewrite insert_app_r_alt by lia. rewrite Htk, Nat.sub_diag.
  destruct (lookup_lt_is_Some_2 l k ltac:(lia)) as [c Hc].
  rewrite (drop_S _ _ _ Hc). done.
Qed.

Lemma reduce_levels_last fuel l r :
  (1 <= length l <= fuel)%nat -> last (build_layers fuel l) = Some [r] ->
  reduce_levels fuel (length l) l = Some [r].
Proof.
  revert l. induction fuel as [|fuel IH]; intros l Hl Hr; [lia|].
  cbn [build_layers reduce_levels] in *.
  destruct (Nat.eqb_spec (length l) 1) as [E|E].
  - rewrite E. cbn. cbn in Hr. by injection Hr as ->.
  - pose proof (half_bounds (length l)) as Hh.
    destruct (Nat.leb_spec (length l) 1); [lia|].
    rewrite <- next_layer_length. rewrite reduce_slots_prefix by lia.
    cbn [mbind option_bind]. rewrite (take_ge (next_layer l)) by lia. rewrite take_app_length.
    apply IH; [rewrite next_layer_length; lia|].
    rewrite last_cons in Hr.
    by destruct (last (build_layers fuel (next_layer l))) eqn:Hlast;
      [|apply last_None in Hlast; apply build_layers_nonempty in Hlast].
Qed.

(** ** Binding *)

(** The byte strings hashed while the layers above [l] are built. *)
Fixpoint pair_preimages (l : list Hash256) : list (list byte) :=
  match l with
  | [] => []
  | [a] => [bn a ++ bn a]
  | a :: b :: rest => (bn a ++ bn b) :: pair_preimages rest
  end.
Fixpoint tree_preimages (fuel : nat) (l : list Hash256) : list (list byte) :=
  match fuel with
  | O => []
  | S fuel' =>
      if Nat.eqb (length l) 1 then []
      else pair_preimages l ++ tree_preimages fuel' (next_layer l)
  end.
(** The byte strings hashed by [verify_proof]. *)
Fixpoint path_preimages (current : Hash256) (sibs : list (Hash256 * bool))
    : list (list byte) :=
  match sibs with
  | [] => []
  | s :: sibs' =>
      (if s.2 then bn current ++ bn s.1 else bn s.1 ++ bn current)
      :: path_preimages (verify_step current s) sibs'
  end.

Lemma pair_preimages_elem l h :
  h ∈ next_layer l ->
  exists a b, a ∈ l /\ b ∈ l /\ h = hash_bytes (bn a ++ bn b) /\
    (bn a ++ bn b) ∈ pair_preimages l.
Proof.
  cut (forall n (l : list Hash256), (length l <= n)%nat -> h ∈ next_layer l ->
    exists a b, a ∈ l /\ b ∈ l /\ h = hash_bytes (bn a ++ bn b) /\
      (bn a ++ bn b) ∈ pair_preimages l); [eauto|].
  clear l. intros n. induction n as [|n IH]; intros [|a [|b l]] Hl; simpl in Hl; try lia;
    cbn [next_layer pair_preimages].
  - by intros ?%not_elem_of_nil.
  - by intros ?%not_elem_of_nil.
  - intros ->%list_elem_of_singleton. exists a, a. set_solver.
  - intros [->|Hin]%elem_of_cons; [exists a, b; set_solver|].
    destruct (IH l ltac:(lia) Hin) as (c & d & ? & ? & ? & ?). exists c, d. set_solver.
Qed.

(** A path of the tree's depth that ends in the root starts in the leaves. *)
Lemma path_starts_in_leaves fuel l x sibs r :
  (1 <= length l <= fuel)%nat ->
  last (build_layers fuel l) = Some [r] ->
  length sibs = (length (build_layers fuel l) - 1)%nat ->
  collision_free (tree_preimages fuel l ++ path_preimages x sibs) ->
  foldl verify_step x sibs = r -> x ∈ l.
Proof.
  revert l x sibs. induction fuel as [|fuel IH]; intros l x sibs Hl Hlast Hs Hcf Hf; [lia|].
  cbn [build_layers tree_preimages] in *.
  destruct (Nat.eqb_spec (length l) 1) as [E|E].
  - destruct l as [|y [|? ?]]; simpl in E; try lia. cbn in Hlast. injection Hlast as ->.
    destruct sibs; [|simpl in Hs; lia]. cbn in Hf. subst. set_solver.
  - pose proof (half_bounds (length l)) as Hh.
    destruct sibs as [|s sibs].
    { destruct (build_layers_head fuel (next_layer l)) as [ls Hls].
      rewrite Hls in Hs. simpl in Hs. lia. }
    cbn [foldl path_preimages] in Hf, Hcf.
    rewrite last_cons in Hlast.
    destruct (last (build_layers fuel (next_layer l))) as [r'|] eqn:Hl';
      [|apply last_None in Hl'; by apply build_layers_nonempty in Hl'].
    injection Hlast as ->.
    assert (verify_step x s ∈ next_layer l) as Hin.
    { eapply (IH (next_layer l) (verify_step x s) sibs); eauto.
      - rewrite next_layer_length. lia.
      - cbn [length] in Hs. lia.
      - eapply collision_free_sub; [|exact Hcf]. set_solver. }
    apply pair_preimages_elem in Hin as (a & b & Ha & Hb & Hh' & Hpre).
    unfold verify_step, combine_hashes in Hh'.
    destruct (s.2) eqn:Hdir.
    + assert (bn x ++ bn s.1 = bn a ++ bn b) as Heq by (apply Hcf; [set_solver..|done]).
      apply combine_preimage_inj in Heq as [-> _]. done.
    + assert (bn s.1 ++ bn x = bn a ++ bn b) as Heq by (apply Hcf; [set_solver..|done]).
      apply combine_preimage_inj in Heq as [_ ->]. done.
Qed.

(** ** Duplicated last element *)
Lemma next_layer_duplicate l x :
  Nat.even (length l) = true -> next_layer (l ++ [x]) = next_layer (l ++ [x; x]).
Proof.
  cut (forall n (l : list Hash256), (length l <= n)%nat ->
    Nat.even (length l) = true -> next_layer (l ++ [x]) = next_layer (l ++ [x; x]));
    [eauto|].
  clear l. intros n. induction n as [|n IH]; intros [|a [|b l]] Hl Ev; simpl in Hl; try lia;
    try done.
  cbn [app next_layer]. f_equal. apply IH; [lia|done].
Qed.

(** Extra fuel changes nothing. *)
Lemma build_layers_fuel f1 f2 l :
  (1 <= length l <= f1)%nat -> (f1 <= f2)%nat -> build_layers f2 l = build_layers f1 l.
Proof.
  revert f2 l. induction f1 as [|f1 IH]; intros f2 l Hl Hf; [lia|].
  destruct f2 as [|f2]; [lia|]. cbn [build_layers].
  destruct (Nat.eqb_spec (length l) 1); [done|].
  pose proof (half_bounds (length l)). f_equal.
  apply IH; [rewrite next_layer_length|]; lia.
Qed.

Lemma build_layers_step n l :
  (2 <= length l)%nat -> build_layers (S n) l = l :: build_layers n (next_layer l).
Proof. intros Hl. cbn [build_layers]. by destruct (Nat.eqb_spec (length l) 1); [lia|]. Qed.

(** ** Properties *)

(** Two lists of one length with equal next layers are equal. *)
Lemma next_layer_inj n (l1 l2 : list Hash256) :
  (length l1 <= n)%nat -> length l1 = length l2 -> next_layer l1 = next_layer l2 ->
  collision_free (pair_preimages l1 ++ pair_preimages l2) -> l1 = l2.
Proof.
  revert l1 l2. induction n as [|n IH]; intros [|a [|b l1]] [|c [|d l2]] Hn Hl E Hcf;
    cbn in Hn, Hl; try done; try lia; cbn [next_layer] in E.
  - assert (bn a ++ bn a = bn c ++ bn c) as Hp.
    { assert (combine_hashes a a = combine_hashes c c) as E1 by congruence.
      apply Hcf; [set_solver..|exact E1]. }
    by apply combine_preimage_inj in Hp as [-> _].
  - assert (combine_hashes a b = combine_hashes c d /\ next_layer l1 = next_layer l2) as [E1 E2].
    { split; congruence. }
    assert (bn a ++ bn b = bn c ++ bn d) as Hp by (apply Hcf; [set_solver..|exact E1]).
    apply combine_preimage_inj in Hp as [-> ->]. do 2 f_equal.
    apply IH; [lia|lia|done|]. eapply collision_free_sub; [|exact Hcf].
    cbn [pair_preimages]. set_solver.
Qed.

Lemma build_layers_inj f (l1 l2 : list Hash256) r :
  (1 <= length l1 <= f)%nat -> length l1 = length l2 ->
  last (build_layers f l1) = Some [r] -> last (build_layers f l2) = Some [r] ->
  collision_free (tree_preimages f l1 ++ tree_preimages f l2) -> l1 = l2.
Proof.
  revert l1 l2. induction f as [|f IH]; intros l1 l2 Hf Hl R1 R2 Hcf; [lia|].
  cbn [build_layers tree_preimages] in *. rewrite <- Hl in *.
  destruct (Nat.eqb_spec (length l1) 1) as [E|E].
  - destruct l1 as [|x [|? ?]], l2 as [|y [|? ?]]; cbn in *; try lia. congruence.
  - pose proof (half_bounds (length l1) ltac:(lia)).
    destruct (build_layers_head f (next_layer l1)) as [ls1 B1].
    destruct (build_layers_head f (next_layer l2)) as [ls2 B2].
    assert (forall (x : list Hash256) l ls, last (x :: l :: ls) = last (l :: ls)) as Hlast by done.
    rewrite B1, Hlast, <- B1 in R1. rewrite B2, Hlast, <- B2 in R2.
    eapply (next_layer_inj (length l1)); [lia|done| |].
    + apply IH; [rewrite next_layer_length; lia|by rewrite !next_layer_length, Hl|done|done|].
      eapply collision_free_sub; [|exact Hcf]. set_solver.
    + eapply collision_free_sub; [|exact Hcf]. set_solver.
Qed.

(** Trees with one number of leaves and one root have the same leaves. *)
Lemma root_same_length_inj (l1 l2 : list Hash256) :
  length l1 = length l2 -> root (from_hashes l1) = root (from_hashes l2) ->
  collision_free (tree_preimages (length l1) l1 ++ tree_preimages (length l2) l2) -> l1 = l2.
Proof.
  intros Hl E Hcf. destruct (decide (l1 = [])) as [->|Hne]; [by destruct l2|].
  assert (l2 <> []) as Hne2 by (destruct l1, l2; done).
  assert (1 <= length l1 <= length l1)%nat as H1 by (destruct l1; [done|cbn; lia]).
  destruct (build_layers_last (length l1) l1 H1) as [r Hr].
  rewrite Hl in H1. destruct (build_layers_last (length l2) l2 H1) as [r2 Hr2].
  assert (r = r2) as <-.
  { rewrite <- (root_build _ _ _ Hr), <- (root_build _ _ _ Hr2).
    by rewrite <- !from_hashes_layers by done; destruct (from_hashes l1), (from_hashes l2). }
  rewrite <- Hl in Hr2, Hcf. eapply build_layers_inj; eauto. lia.
Qed.

(** C18: every index below the leaf count has an inclusion proof, computed without a
    panic; it carries that leaf and the tree's root, and it verifies. *)
Theorem merkle_proof_complete leaves idx x :
  leaves !! idx = Some x ->
  exists p, proof (from_hashes leaves) idx = Some (Some p) /\
    leaf p = x /\ proof_root p = root (from_hashes leaves) /\ verify_proof p = true.
Proof.
  intros Hx. pose proof (lookup_lt_Some _ _ _ Hx) as Hlt.
  assert (leaves <> []) as Hne by (by intros ->).
  destruct (build_layers_last (length leaves) leaves ltac:(lia)) as [r Hr].
  assert (1 <= length leaves <= length leaves)%nat as Hl by lia.
  destruct (proof_walk_verifies _ _ _ _ _ Hl Hx Hr) as (sibs & Hw & Hf).
  assert (from_hashes leaves = {| layers := build_layers (length leaves) leaves |}) as ->
    by (by destruct leaves).
  exists {| leaf := x; siblings := sibs; proof_root := r |}.
  unfold proof, leaf_count. cbn [layers].
  destruct (build_layers_head (length leaves) leaves) as [ls Hls].
  rewrite Hw. rewrite (root_build _ _ _ Hr). rewrite Hls.
  destruct (Nat.leb_spec (length leaves) idx); [lia|]. cbn. rewrite Hx. cbn.
  repeat split. unfold verify_proof. cbn. by apply bool_decide_eq_true_2.
Qed.

Lemma in_place_root leaves : leaves <> [] ->
  root_from_hashes_in_place leaves = Some (root (from_hashes leaves), [root (from_hashes leaves)]).
Proof.
  intros Hne. destruct leaves as [|x l] eqn:El; [done|]. rewrite <- El.
  assert (1 <= length leaves <= length leaves)%nat as Hl by (rewrite El; simpl; lia).
  destruct (build_layers_last _ _ Hl) as [r Hr].
  assert (root (from_hashes leaves) = r) as ->.
  { rewrite <- (root_build _ _ _ Hr). by rewrite El. }
  rewrite El. unfold root_from_hashes_in_place. rewrite <- El.
  by rewrite (reduce_levels_last _ _ _ Hl Hr).
Qed.

Lemma owned_root leaves : root_from_hashes_owned leaves = Some (root (from_hashes leaves)).
Proof.
  unfold root_from_hashes_owned. destruct leaves as [|x l]; [done|].
  by rewrite in_place_root.
Qed.


(** C8: soundness. When the digest has no collision among the strings hashed by the
    tree and by the proof, a proof of the tree's depth that verifies against the
    tree's root is a proof of one of its leaves. *)
Theorem merkle_proof_sound leaves p :
  leaves <> [] ->
  length (siblings p) = (length (layers (from_hashes leaves)) - 1)%nat ->
  collision_free (tree_preimages (length leaves) leaves ++
                  path_preimages (leaf p) (siblings p)) ->
  proof_root p = root (from_hashes leaves) ->
  verify_proof p = true -> leaf p ∈ leaves.
Proof.
  intros Hne Hlen Hcf Hroot Hv. rewrite from_hashes_layers in Hlen by done.
  assert (1 <= length leaves <= length leaves)%nat as Hl.
  { destruct leaves; [done|]. simpl. lia. }
  destruct (build_layers_last _ _ Hl) as [r Hr].
  eapply path_starts_in_leaves; eauto.
  unfold verify_proof in Hv. apply bool_decide_eq_true in Hv. rewrite Hv, Hroot.
  rewrite <- (root_build _ _ _ Hr). by destruct leaves.
Qed.

(** Two limits of the format, for every digest. A leaf list of odd length above
    one has the root of the longer list that repeats its last leaf; and the root
    itself, with no siblings, passes [verify_proof], which does not check depth. *)
Theorem merkle_format_limits l x :
  l <> [] -> Nat.even (length l) = true ->
  root (from_hashes (l ++ [x])) = root (from_hashes (l ++ [x; x])) /\
  (forall t, verify_proof {| leaf := root t; siblings := []; proof_root := root t |} = true).
Proof.
  intros Hne Hev. split; [|intros t; by apply bool_decide_eq_true_2].
  assert (2 <= length l)%nat as Hl.
  { destruct l as [|? [|? ?]]; [done|done|simpl; lia]. }
  assert (forall m : list Hash256, (2 <= length m)%nat ->
    root (from_hashes m) =
    root {| layers := build_layers (length m) (next_layer m) |}) as Hstep.
  { intros m Hm. unfold root. rewrite from_hashes_layers by (intros ->; simpl in Hm; lia).
    cbn [layers]. pose proof (half_bounds (length m) Hm).
    destruct (length m) as [|n] eqn:En; [lia|].
    rewrite (build_layers_step n m) by lia.
    rewrite (build_layers_fuel n (S n) (next_layer m))
      by (rewrite ?next_layer_length, ?En; lia).
    rewrite last_cons.
    destruct (last (build_layers n (next_layer m))) eqn:Hlast; [done|].
    apply last_None in Hlast. by apply build_layers_nonempty in Hlast. }
  rewrite (Hstep (l ++ [x])), (Hstep (l ++ [x; x])) by (rewrite length_app; simpl; lia).
  rewrite <- (next_layer_duplicate l x) by done. f_equal. f_equal.
  symmetry. apply build_layers_fuel; [rewrite next_layer_length|];
    rewrite ?length_app; cbn [length]; [|lia].
  pose proof (half_bounds (length l + 1)). lia.
Qed.
End Tree.
End Merkle.

(** ** Witnesses *)
Definition leaf_n (n : Z) : Hash256 := hash_bytes (le_bytes 1 n).
Definition five_leaves : list Hash256 := leaf_n <$> [1; 2; 3; 4; 5].

Lemma merkle_proof_complete_witness :
  five_leaves !! 4%nat = Some (leaf_n 5) /\
  exists p, Merkle.proof (Merkle.from_hashes five_leaves) 4 = Some (Some p) /\
    Merkle.leaf p = leaf_n 5 /\
    Merkle.proof_root p = Merkle.root (Merkle.from_hashes five_leaves) /\
    Merkle.verify_proof p = true.
Proof. split; [reflexivity|apply Merkle.merkle_proof_complete; reflexivity]. Defined.

Definition third_proof : Merkle.MerkleProof :=
  match Merkle.proof (Merkle.from_hashes five_leaves) 2 with
  | Some (Some p) => p
  | _ => {| Merkle.leaf := hash_zero; Merkle.siblings := []; Merkle.proof_root := hash_zero |}
  end.

Lemma merkle_proof_sound_witness :
  Merkle.verify_proof third_proof = true /\ Merkle.leaf third_proof ∈ five_leaves.
Proof.
  split; [by vm_compute|].
  apply Merkle.merkle_proof_sound; [done|by vm_compute| |by vm_compute|by vm_compute].
  apply collision_freeb_ok. by vm_compute.
Defined.

Lemma merkle_format_limits_witness :
  Merkle.root (Merkle.from_hashes (take 2 five_leaves ++ [leaf_n 3])) =
  Merkle.root (Merkle.from_hashes (take 2 five_leaves ++ [leaf_n 3; leaf_n 3])) /\
  (forall t, Merkle.verify_proof
    {| Merkle.leaf := Merkle.root t; Merkle.siblings := []; Merkle.proof_root := Merkle.root t |}
    = true).
Proof. apply Merkle.merkle_format_limits; by vm_compute. Defined.
