(* ===== verification/Transaction.v ===== *)
(** * Transactions ([primitives/transaction.rs])

    Transaction types with their wire codes and names, unsigned and signed
    transactions, validity windows and the synthetic operations of a batch. *)
From S2P Require Import Prelude Crypto Instances.

Module Tx.

(** ** Transaction types (the [define_tx_types!] invocation) *)
Inductive TxType : Type :=
| Transfer
| EntityLink
| AgentRegister
| AgentUpdate
| TaskSubmit
| TaskFulfill
| TaskCancel
| ReputationUpdate
| TaskAccept
| TaskDispute
| TaskResolve
| TaskFinalize
| ToolRegister
| ToolInvoke
| ToolResultSubmit
| ToolResultAccept
| ToolResultDispute
| ToolResultResolve
| ToolJobExpire
| ToolSubscriptionPlanCreate
| ToolSubscriptionPlanUpdate
| ToolSubscriptionStart
| ToolSubscriptionTopUp
| ToolSubscriptionCancel
| ToolSubscriptionResume
| ToolSubscriptionRenew
| ToolUpdate
| AgreementCreate
| AgreementAccept
| AgreementExecute
| AgreementDispute
| AgreementResolve
| AgreementCancel
| ArbitratorRegister
| ValidatorRegister
| ValidatorExit
| ValidatorVrfCommit
| ValidatorVrfContribution
| Stake
| Unstake
| TaskDecompose
| Batch
| ContractDeploy
| ContractCall
| TokenCreate
| TokenTransfer
| TokenApprove
| TokenMint
| TokenUpdateAuthority
| TokenBurn
| AgentDeregister
| ToolDeregister
| ArbitratorDeregister
| ContractDeactivate
| TokenDestroy
| ToolUsageReport
| ToolUsageAccept
| ToolUsageDispute
| ToolUsageResolve
| ToolUsageExpire
| ValidatorUpdate
| ContractVerify
| ContractPublishAbi
| ContractRouteUpdate
| ContractRouteCall
| ProtocolParamsUpdate
| CapabilityPropose
| CapabilityApprove
| CapabilityReject
| CapabilityDeprecate
| RpcReadDelegationGrant
| RpcReadDelegationRevoke.

#[global] Instance TxType_eq_dec : EqDecision TxType.
Proof. solve_decision. Defined.

(** The invocation's rows in source order. *)
Definition tx_types : list TxType :=
  [Transfer; EntityLink; AgentRegister; AgentUpdate;
   TaskSubmit; TaskFulfill; TaskCancel; ReputationUpdate;
   TaskAccept; TaskDispute; TaskResolve; TaskFinalize;
   ToolRegister; ToolInvoke; ToolResultSubmit; ToolResultAccept;
   ToolResultDispute; ToolResultResolve; ToolJobExpire; ToolSubscriptionPlanCreate;
   ToolSubscriptionPlanUpdate; ToolSubscriptionStart; ToolSubscriptionTopUp; ToolSubscriptionCancel;
   ToolSubscriptionResume; ToolSubscriptionRenew; ToolUpdate; AgreementCreate;
   AgreementAccept; AgreementExecute; AgreementDispute; AgreementResolve;
   AgreementCancel; ArbitratorRegister; ValidatorRegister; ValidatorExit;
   ValidatorVrfCommit; ValidatorVrfContribution; Stake; Unstake;
   TaskDecompose; Batch; ContractDeploy; ContractCall;
   TokenCreate; TokenTransfer; TokenApprove; TokenMint;
   TokenUpdateAuthority; TokenBurn; AgentDeregister; ToolDeregister;
   ArbitratorDeregister; ContractDeactivate; TokenDestroy; ToolUsageReport;
   ToolUsageAccept; ToolUsageDispute; ToolUsageResolve; ToolUsageExpire;
   ValidatorUpdate; ContractVerify; ContractPublishAbi; ContractRouteUpdate;
   ContractRouteCall; ProtocolParamsUpdate; CapabilityPropose; CapabilityApprove;
   CapabilityReject; CapabilityDeprecate; RpcReadDelegationGrant; RpcReadDelegationRevoke].

Definition RETIRED_CONTRACT_UPGRADE_WIRE_CODE : Z := 40.
Definition CONTRACT_UPGRADE_UNSUPPORTED_MSG : string :=
  "ContractUpgrade is not supported; deploy a new contract address and retarget callers/tools".

Definition as_str (t : TxType) : rstr :=
  match t with
  | Transfer => lit "transfer"
  | EntityLink => lit "entity_link"
  | AgentRegister => lit "agent_register"
  | AgentUpdate => lit "agent_update"
  | TaskSubmit => lit "task_submit"
  | TaskFulfill => lit "task_fulfill"
  | TaskCancel => lit "task_cancel"
  | ReputationUpdate => lit "reputation_update"
  | TaskAccept => lit "task_accept"
  | TaskDispute => lit "task_dispute"
  | TaskResolve => lit "task_resolve"
  | TaskFinalize => lit "task_finalize"
  | ToolRegister => lit "tool_register"
  | ToolInvoke => lit "tool_invoke"
  | ToolResultSubmit => lit "tool_result_submit"
  | ToolResultAccept => lit "tool_result_accept"
  | ToolResultDispute => lit "tool_result_dispute"
  | ToolResultResolve => lit "tool_result_resolve"
  | ToolJobExpire => lit "tool_job_expire"
  | ToolSubscriptionPlanCreate => lit "tool_subscription_plan_create"
  | ToolSubscriptionPlanUpdate => lit "tool_subscription_plan_update"
  | ToolSubscriptionStart => lit "tool_subscription_start"
  | ToolSubscriptionTopUp => lit "tool_subscription_top_up"
  | ToolSubscriptionCancel => lit "tool_subscription_cancel"
  | ToolSubscriptionResume => lit "tool_subscription_resume"
  | ToolSubscriptionRenew => lit "tool_subscription_renew"
  | ToolUpdate => lit "tool_update"
  | AgreementCreate => lit "agreement_create"
  | AgreementAccept => lit "agreement_accept"
  | AgreementExecute => lit "agreement_execute"
  | AgreementDispute => lit "agreement_dispute"
  | AgreementResolve => lit "agreement_resolve"
  | AgreementCancel => lit "agreement_cancel"
  | ArbitratorRegister => lit "arbitrator_register"
  | ValidatorRegister => lit "validator_register"
  | ValidatorExit => lit "validator_exit"
  | ValidatorVrfCommit => lit "validator_vrf_commit"
  | ValidatorVrfContribution => lit "validator_vrf_contribution"
  | Stake => lit "stake"
  | Unstake => lit "unstake"
  | TaskDecompose => lit "task_decompose"
  | Batch => lit "batch"
  | ContractDeploy => lit "contract_deploy"
  | ContractCall => lit "contract_call"
  | TokenCreate => lit "token_create"
  | TokenTransfer => lit "token_transfer"
  | TokenApprove => lit "token_approve"
  | TokenMint => lit "token_mint"
  | TokenUpdateAuthority => lit "token_update_authority"
  | TokenBurn => lit "token_burn"
  | AgentDeregister => lit "agent_deregister"
  | ToolDeregister => lit "tool_deregister"
  | ArbitratorDeregister => lit "arbitrator_deregister"
  | ContractDeactivate => lit "contract_deactivate"
  | TokenDestroy => lit "token_destroy"
  | ToolUsageReport => lit "tool_usage_report"
  | ToolUsageAccept => lit "tool_usage_accept"
  | ToolUsageDispute => lit "tool_usage_dispute"
  | ToolUsageResolve => lit "tool_usage_resolve"
  | ToolUsageExpire => lit "tool_usage_expire"
  | ValidatorUpdate => lit "validator_update"
  | ContractVerify => lit "contract_verify"
  | ContractPublishAbi => lit "contract_publish_abi"
  | ContractRouteUpdate => lit "contract_route_update"
  | ContractRouteCall => lit "contract_route_call"
  | ProtocolParamsUpdate => lit "protocol_params_update"
  | CapabilityPropose => lit "capability_propose"
  | CapabilityApprove => lit "capability_approve"
  | CapabilityReject => lit "capability_reject"
  | CapabilityDeprecate => lit "capability_deprecate"
  | RpcReadDelegationGrant => lit "rpc_read_delegation_grant"
  | RpcReadDelegationRevoke => lit "rpc_read_delegation_revoke"
  end.

Definition wire_code (t : TxType) : Z :=
  match t with
  | Transfer => 0
  | EntityLink => 1
  | AgentRegister => 2
  | AgentUpdate => 3
  | TaskSubmit => 4
  | TaskFulfill => 5
  | TaskCancel => 6
  | ReputationUpdate => 7
  | TaskAccept => 63
  | TaskDispute => 64
  | TaskResolve => 65
  | TaskFinalize => 66
  | ToolRegister => 8
  | ToolInvoke => 9
  | ToolResultSubmit => 10
  | ToolResultAccept => 11
  | ToolResultDispute => 12
  | ToolResultResolve => 13
  | ToolJobExpire => 14
  | ToolSubscriptionPlanCreate => 15
  | ToolSubscriptionPlanUpdate => 16
  | ToolSubscriptionStart => 17
  | ToolSubscriptionTopUp => 18
  | ToolSubscriptionCancel => 19
  | ToolSubscriptionResume => 20
  | ToolSubscriptionRenew => 21
  | ToolUpdate => 22
  | AgreementCreate => 23
  | AgreementAccept => 24
  | AgreementExecute => 25
  | AgreementDispute => 26
  | AgreementResolve => 27
  | AgreementCancel => 28
  | ArbitratorRegister => 29
  | ValidatorRegister => 30
  | ValidatorExit => 31
  | ValidatorVrfCommit => 32
  | ValidatorVrfContribution => 33
  | Stake => 34
  | Unstake => 35
  | TaskDecompose => 36
  | Batch => 37
  | ContractDeploy => 38
  | ContractCall => 39
  | TokenCreate => 41
  | TokenTransfer => 42
  | TokenApprove => 43
  | TokenMint => 44
  | TokenUpdateAuthority => 45
  | TokenBurn => 46
  | AgentDeregister => 47
  | ToolDeregister => 48
  | ArbitratorDeregister => 49
  | ContractDeactivate => 50
  | TokenDestroy => 51
  | ToolUsageReport => 52
  | ToolUsageAccept => 53
  | ToolUsageDispute => 54
  | ToolUsageResolve => 55
  | ToolUsageExpire => 56
  | ValidatorUpdate => 57
  | ContractVerify => 58
  | ContractPublishAbi => 59
  | ContractRouteUpdate => 60
  | ContractRouteCall => 61
  | ProtocolParamsUpdate => 62
  | CapabilityPropose => 67
  | CapabilityApprove => 68
  | CapabilityReject => 69
  | CapabilityDeprecate => 70
  | RpcReadDelegationGrant => 71
  | RpcReadDelegationRevoke => 72
  end.

Definition from_str_name (name : rstr) : option TxType :=
  List.find (fun t => bool_decide (as_str t = name)) tx_types.

Definition from_wire_code (code : Z) : result message TxType :=
  match List.find (fun t => wire_code t =? code) tx_types with
  | Some t => Ok t
  | None =>
      if code =? RETIRED_CONTRACT_UPGRADE_WIRE_CODE
      then Err (msg CONTRACT_UPGRADE_UNSUPPORTED_MSG)
      else Err (Msg "Unknown transaction type code {}" [AInt code])
  end.

(** What a [serde] serialiser receives: a string in a human-readable format, a [u32]
    otherwise. *)
Inductive serde_token : Type := TokStr (s : rstr) | TokU32 (n : Z).

Definition serialize_tx_type (human_readable : bool) (t : TxType) : serde_token :=
  if human_readable then TokStr (as_str t) else TokU32 (wire_code t).
Definition deserialize_tx_type (tok : serde_token) : result message TxType :=
  match tok with
  | TokStr name => ok_or (from_str_name name) (Msg "Unknown transaction type {}" [AStr name])
  | TokU32 code => from_wire_code code
  end.

Inductive StakeTarget : Type := STAgent | STValidator | STRequesterAutoMatch.

(** ** Transactions *)
Record BatchOperation : Type := {
  op_tx_type : TxType;
  op_recipient : Address;
  op_amount : Z;
  op_data : list byte;
}.
Record BatchData : Type := { operations : list BatchOperation }.

Record Transaction : Type := {
  tx_type : TxType;
  sender : Address;
  recipient : Address;
  amount : Z;
  fee : Z;
  max_priority_fee_per_gas : Z;
  nonce : Z;
  timestamp : Z;
  reference_block_height : Z;
  reference_block_hash : Hash256;
  max_valid_block_height : Z;
  data : list byte;
  chain_id : rstr;
}.
#[global] Instance Transaction_eq_dec : EqDecision Transaction.
Proof. solve_decision. Defined.

Definition has_explicit_validity_window (tx : Transaction) : bool :=
  negb (max_valid_block_height tx =? 0).
Definition is_expired_at_block (tx : Transaction) (block_number : Z) : bool :=
  has_explicit_validity_window tx && (max_valid_block_height tx <? block_number).
Definition blocks_until_expiry_at (tx : Transaction) (block_number : Z) : option Z :=
  if has_explicit_validity_window tx
  then Some (sat_sub (max_valid_block_height tx) block_number) else None.

Definition set_validity_window (height : Z) (hash : Hash256) (ttl_blocks : Z)
    (tx : Transaction) : Transaction :=
  {| tx_type := tx_type tx; sender := sender tx; recipient := recipient tx;
     amount := amount tx; fee := fee tx;
     max_priority_fee_per_gas := max_priority_fee_per_gas tx;
     nonce := nonce tx; timestamp := timestamp tx;
     reference_block_height := height;
     reference_block_hash := hash;
     max_valid_block_height := sat_add height (Z.max ttl_blocks 1);
     data := data tx; chain_id := chain_id tx |}.

(** [new_transfer]; [now_ms] is what [current_timestamp_ms] reads from the clock. *)
Definition new_transfer (now_ms : Z) (snd rcp : Address) (amt f n : Z) (chain : rstr)
    : Transaction :=
  {| tx_type := Transfer; sender := snd; recipient := rcp; amount := amt; fee := f;
     max_priority_fee_per_gas := 0; nonce := n; timestamp := now_ms;
     reference_block_height := 0; reference_block_hash := hash_zero;
     max_valid_block_height := 0; data := []; chain_id := chain |}.

Record SignedTransaction : Type := {
  transaction : Transaction;
  signature : Signature;
  public_key : PublicKey;
  tx_hash : Hash256;
}.
#[global] Instance SignedTransaction_eq_dec : EqDecision SignedTransaction.
Proof. solve_decision. Defined.

Section Signing.
Context `{Digests, Ed25519, Bincode Transaction}.

(** [Transaction::hash]; the [expect] on serialisation is the panic. *)
Definition hash (tx : Transaction) : may_panic Hash256 :=
  encoded ← ok (bincode_serialize tx); Some (hash_bytes encoded).

Definition sign (tx : Transaction) (keypair : Keypair) : may_panic SignedTransaction :=
  h ← hash tx;
  Some {| transaction := tx;
          signature := keypair_sign keypair (bn h);
          public_key := keypair_public_key keypair;
          tx_hash := h |}.

(** [SignedTransaction::verify]: recomputed hash, sender address, signature. *)
Definition verify (stx : SignedTransaction) : may_panic (result ZinchaError unit) :=
  expected_hash ← hash (transaction stx);
  Some (
    if negb (bool_decide (expected_hash = tx_hash stx)) then
      Err (InvalidTransaction (msg "Transaction hash mismatch"))
    else if negb (bool_decide (pk_to_address (public_key stx) = sender (transaction stx))) then
      Err (InvalidTransaction (msg "Public key does not match sender address"))
    else pk_verify (public_key stx) (bn (tx_hash stx)) (signature stx)).

Definition total_cost (stx : SignedTransaction) : Z :=
  sat_add (amount (transaction stx)) (fee (transaction stx)).

Definition synthetic_batch_preimage (batch_tx_hash : Hash256) (op_index : Z) : list byte :=
  blit "zincha_batch_inner_tx_v1" ++ bn batch_tx_hash ++ be_bytes 8 (wrap64 op_index).
Definition synthetic_batch_operation_hash (batch_tx_hash : Hash256) (op_index : Z) : Hash256 :=
  hash_bytes (synthetic_batch_preimage batch_tx_hash op_index).

Definition synthetic_batch_operation (batch_tx : SignedTransaction) (op_index n : Z)
    (operation : BatchOperation) : SignedTransaction :=
  let outer := transaction batch_tx in
  {| transaction :=
       {| tx_type := op_tx_type operation; sender := sender outer;
          recipient := op_recipient operation; amount := op_amount operation;
          fee := 0; max_priority_fee_per_gas := 0; nonce := n;
          timestamp := timestamp outer;
          reference_block_height := reference_block_height outer;
          reference_block_hash := reference_block_hash outer;
          max_valid_block_height := max_valid_block_height outer;
          data := op_data operation; chain_id := chain_id outer |};
     signature := signature batch_tx;
     public_key := public_key batch_tx;
     tx_hash := synthetic_batch_operation_hash (tx_hash batch_tx) op_index |}.

(** ** Lemmas *)
Lemma hash_Some tx h :
  hash tx = Some h -> exists b, bincode_serialize tx = Ok b /\ h = hash_bytes b.
Proof.
  unfold hash. destruct (bincode_serialize tx) as [b|]; cbn; [|done].
  intros [= <-]. eauto.
Qed.

(** [verify] accepts exactly when its three checks hold. *)
Lemma verify_Ok stx :
  verify stx = Some (Ok ()) <->
  hash (transaction stx) = Some (tx_hash stx) /\
  pk_to_address (public_key stx) = sender (transaction stx) /\
  pk_verify (public_key stx) (bn (tx_hash stx)) (signature stx) = Ok ().
Proof.
  unfold verify. split.
  - intros Hv. inv_ok. match goal with E : _ = Ok () |- _ => revert E end.
    repeat case_match; try done. intros Hpk. to_prop. by subst.
  - intros (-> & Ha & Hv). cbn. rewrite !bool_decide_eq_true_2 by done. by rewrite Hv.
Qed.

(** ** Properties *)

(** C1: signing a transaction keeps it, records the digest of its encoding, the signer's public key
    and the signature by that key of the digest, and nothing else; what comes out verifies
    when the signer's address is the transaction's sender, and otherwise is refused for
    its sender. *)
Theorem sign_then_verify `{!Ed25519Laws} tx keypair stx :
  sign tx keypair = Some stx ->
  transaction stx = tx /\
  hash tx = Some (tx_hash stx) /\
  public_key stx = keypair_public_key keypair /\
  signature stx = keypair_sign keypair (bn (tx_hash stx)) /\
  verify stx = Some (
    if bool_decide (keypair_address keypair = sender tx) then Ok ()
    else Err (InvalidTransaction (msg "Public key does not match sender address"))).
Proof.
  unfold sign. intros Hs. inv_ok. cbn. split_and!; [done..|].
  case_bool_decide as Hsender.
  - apply verify_Ok. cbn. split; [done|]. split; [exact Hsender|]. apply keypair_sign_verify.
  - unfold verify. cbn. match goal with E : hash _ = Some _ |- _ => rewrite E end. cbn.
    rewrite bool_decide_eq_true_2 by done. cbn. by rewrite bool_decide_eq_false_2.
Qed.

(** C2: two signed transactions that both verify and carry one hash are the same transaction, if
    the digest does not collide on their two encodings; each is signed, on that hash, by a key
    whose address is the transaction's sender. *)
Theorem verified_hash_binds `{!BincodeLaws Transaction} stx1 stx2 b1 b2 :
  verify stx1 = Some (Ok ()) -> verify stx2 = Some (Ok ()) ->
  bincode_serialize (transaction stx1) = Ok b1 ->
  bincode_serialize (transaction stx2) = Ok b2 ->
  collision_free [b1; b2] -> tx_hash stx1 = tx_hash stx2 ->
  transaction stx1 = transaction stx2 /\
  Forall (fun stx => pk_to_address (public_key stx) = sender (transaction stx1) /\
            pk_verify (public_key stx) (bn (tx_hash stx1)) (signature stx) = Ok ()) [stx1; stx2].
Proof.
  intros (Hh1 & Ha1 & Hv1)%verify_Ok (Hh2 & Ha2 & Hv2)%verify_Ok Hb1 Hb2 Hcf Heq.
  assert (b1 = b2) as <-.
  { apply Hcf; [set_solver..|].
    apply hash_Some in Hh1 as (c1 & Hc1 & E1), Hh2 as (c2 & Hc2 & E2).
    rewrite Hb1 in Hc1. rewrite Hb2 in Hc2. congruence. }
  assert (transaction stx1 = transaction stx2) as Ht by (by eapply bincode_inj).
  split; [done|]. repeat constructor; [done|done|by rewrite Ht|by rewrite Heq].
Qed.

(** Within one digest without collisions, the internal hashes of batch operations
    name the batch and the index: no two operations of any batches share one. *)
Theorem synthetic_batch_hash_inj h1 h2 i1 i2 :
  is_u64 i1 -> is_u64 i2 ->
  collision_free [synthetic_batch_preimage h1 i1; synthetic_batch_preimage h2 i2] ->
  synthetic_batch_operation_hash h1 i1 = synthetic_batch_operation_hash h2 i2 ->
  h1 = h2 /\ i1 = i2.
Proof.
  intros Hi1 Hi2 Hcf E. apply Hcf in E; [|set_solver..].
  unfold synthetic_batch_preimage in E. apply (inj (app _)) in E.
  apply app_bytesN_inj in E as [-> E]. split; [done|].
  unfold_width. rewrite !Z.mod_small in E by lia. by apply be_bytes8_inj in E.
Qed.
End Signing.

(** The wire code and the name of a transaction type determine it, in both
    serialisation formats; no other code decodes, and code 40 is rejected with the
    retired-upgrade message. *)
Theorem tx_type_roundtrip t :
  (forall human, deserialize_tx_type (serialize_tx_type human t) = Ok t) /\
  (forall code t', from_wire_code code = Ok t' -> wire_code t' = code) /\
  (forall name t', from_str_name name = Some t' -> as_str t' = name) /\
  from_wire_code RETIRED_CONTRACT_UPGRADE_WIRE_CODE
    = Err (msg CONTRACT_UPGRADE_UNSUPPORTED_MSG).
Proof.
  split; [|split; [|split]].
  - intros [|]; destruct t; by vm_compute.
  - intros code t'. unfold from_wire_code.
    destruct (List.find _ tx_types) as [u|] eqn:F; [|by case_match].
    intros [= <-]. apply find_some in F as [_ F]. by apply Z.eqb_eq.
  - intros name t' F. apply find_some in F as [_ F]. by apply bool_decide_eq_true in F.
  - by vm_compute.
Qed.

(** Setting a validity window always makes it explicit; the transaction is then
    expired exactly past [height + max(ttl, 1)] (saturated), and the remaining-blocks
    count is zero exactly at or past the last valid block. *)
Theorem validity_window_spec height h ttl tx block :
  is_u64 height -> is_u64 ttl -> is_u64 block ->
  let tx' := set_validity_window height h ttl tx in
  let last_block := Z.min (height + Z.max ttl 1) U64_MAX in
  has_explicit_validity_window tx' = true /\
  max_valid_block_height tx' = last_block /\
  (is_expired_at_block tx' block = true <-> last_block < block) /\
  (exists n, blocks_until_expiry_at tx' block = Some n /\ (n = 0 <-> last_block <= block)).
Proof.
  intros Hh Ht Hb tx' last_block.
  assert (max_valid_block_height tx' = last_block) as Hm by done.
  assert (has_explicit_validity_window tx' = true) as Hx.
  { unfold has_explicit_validity_window. rewrite Hm. subst last_block. apply negb_true_iff.
    apply Z.eqb_neq. mlia. }
  split; [done|]. split; [done|]. split.
  - unfold is_expired_at_block. rewrite Hx, Hm. cbn. apply Z.ltb_lt.
  - unfold blocks_until_expiry_at. rewrite Hx, Hm. eexists; split; [done|]. mlia.
Qed.
End Tx.

(** ** Witnesses *)
Module TxWitness.
Import Tx.

Definition key0 : bytesN 32 := pad_bytesN 32 [x01; x02].
Definition tx0 : Transaction :=
  new_transfer 1700000000000 (keypair_address key0) address_treasury 5 1 7 (lit "zincha-vega-1").
#[local] Instance tx_serializer : Bincode Transaction := table_bincode [tx0].
#[local] Instance tx_serializer_laws : BincodeLaws Transaction := table_bincode_laws [tx0].

Definition stx0 : SignedTransaction :=
  {| transaction := tx0; signature := keypair_sign key0 (bn (hash_bytes []));
     public_key := key0; tx_hash := hash_bytes [] |}.

Lemma sign_then_verify_witness :
  sign tx0 key0 = Some stx0 /\ transaction stx0 = tx0 /\ verify stx0 = Some (Ok ()).
Proof.
  split; [by vm_compute|].
  destruct (sign_then_verify tx0 key0 stx0) as (H1 & _ & _ & _ & H2); [by vm_compute|].
  split; [exact H1|]. rewrite H2. by vm_compute.
Defined.

Lemma verified_hash_binds_witness :
  verify stx0 = Some (Ok ()) /\
  (transaction stx0 = transaction stx0 /\
   Forall (fun stx => pk_to_address (public_key stx) = sender tx0 /\
             pk_verify (public_key stx) (bn (tx_hash stx0)) (signature stx) = Ok ()) [stx0; stx0]).
Proof.
  split; [by vm_compute|].
  apply (verified_hash_binds stx0 stx0 [] []);
    [by vm_compute|by vm_compute|done|done| |done].
  apply collision_freeb_ok. by vm_compute.
Defined.

Lemma synthetic_batch_hash_inj_witness :
  synthetic_batch_operation_hash (hash_bytes []) 3 =
  synthetic_batch_operation_hash (hash_bytes []) 3 /\
  (hash_bytes [] = hash_bytes [] /\ 3 = 3).
Proof.
  split; [done|]. apply synthetic_batch_hash_inj; [mlia|mlia| |done].
  apply collision_freeb_ok. by vm_compute.
Defined.

Lemma validity_window_spec_witness :
  let tx' := set_validity_window 100 (hash_bytes []) 0 tx0 in
  max_valid_block_height tx' = 101 /\
  has_explicit_validity_window tx' = true.
Proof.
  pose proof (validity_window_spec 100 (hash_bytes []) 0 tx0 101) as H.
  cbv zeta in H. destruct H as (H1 & H2 & _); [mlia|mlia|mlia|].
  split; [exact H2|exact H1].
Defined.
End TxWitness.
