(* ===== verification/Agreement.v ===== *)
(** * Agreements ([primitives/agreement.rs])

    Multi-party escrow agreements: milestone schedules, settlement allocations and
    their payout, the settlement approver, dispute reputation effects, resolution
    storage and the stateless validation of a creation payload.  The [same_entity]
    closure of the source is a parameter of each function that takes it. *)
From S2P Require Import Prelude Crypto Instances.

Module Agreement.

Inductive AgreementStatus : Type :=
| Proposed | Active | Completed | Disputed | Resolved | Expired | Cancelled.
Inductive MilestoneStatus : Type := MPending | MCompleted | MDisputed | MResolved.
Inductive AgreementDisputePartyOutcome : Type := Won | Lost.

#[global] Instance AgreementStatus_eq_dec : EqDecision AgreementStatus.
Proof. solve_decision. Defined.
#[global] Instance MilestoneStatus_eq_dec : EqDecision MilestoneStatus.
Proof. solve_decision. Defined.
#[global] Instance PartyOutcome_eq_dec : EqDecision AgreementDisputePartyOutcome.
Proof. solve_decision. Defined.

(** A deterministic payout share in basis points. *)
Record AgreementPayoutShare : Type := { recipient : Address; share_bps : Z }.

(** One explicit party-level dispute reputation effect. *)
Record AgreementDisputeReputationEffect : Type := {
  party : Address;
  outcome : AgreementDisputePartyOutcome;
}.

Record DisputeResolution : Type := {
  payouts : list AgreementPayoutShare;
  reputation_effects : list AgreementDisputeReputationEffect;
  reason : rstr;
  resolved_at_block : Z;
  resolution_milestone_index : option Z;
}.

Record Milestone : Type := {
  index : Z;
  description : rstr;
  amount : Z;
  status : MilestoneStatus;
  result_hash : option Hash256;
  completed_at_block : option Z;
  resolution : option DisputeResolution;
}.
#[global] Instance eta_Milestone : Eta Milestone := fun m =>
  {| index := index m; description := description m; amount := amount m;
     status := status m; result_hash := result_hash m;
     completed_at_block := completed_at_block m; resolution := resolution m |}.

Record MilestoneDef : Type := { def_description : rstr; def_amount : Z }.

Definition canonical_single_payment_milestones (escrow_amount : Z) : list MilestoneDef :=
  [{| def_description := lit "Complete agreement"; def_amount := escrow_amount |}].

(** The [for (index, milestone) in enumerate()] loop that bounds descriptions. *)
Fixpoint check_descriptions (i : nat) (defs : list MilestoneDef) : result message unit :=
  match defs with
  | [] => Ok ()
  | d :: defs' =>
      if 1024 <? str_len (def_description d)
      then Err (Msg "Milestone {} description too long" [AInt (Z.of_nat i)])
      else check_descriptions (S i) defs'
  end.

Definition materialize_one (i : nat) (d : MilestoneDef) : Milestone :=
  {| index := wrap32 (Z.of_nat i); description := def_description d;
     amount := def_amount d; status := MPending; result_hash := None;
     completed_at_block := None; resolution := None |}.

Definition materialize_agreement_milestones (defs : list MilestoneDef) (escrow_amount : Z)
    : result message (list Milestone) :=
  match defs with
  | [] => Err (msg "Agreement requires at least one milestone; single-payment agreements must use one milestone whose amount equals escrow")
  | _ =>
      milestone_total ← ok_or
        (fold_option (fun acc d => checked_add acc (def_amount d)) 0 defs)
        (msg "Milestone amounts overflow");
      if negb (milestone_total =? escrow_amount) then
        Err (Msg "Milestone total {} != escrow {}" [AInt milestone_total; AInt escrow_amount])
      else if Nat.ltb 20 (length defs) then Err (msg "Max 20 milestones")
      else
        _ ← check_descriptions 0 defs;
        Ok (imap materialize_one defs)
  end.

Section Entities.
Variable same_entity : Address -> Address -> bool.

Fixpoint settlement_approver_is_independent (proposer settlement_approver : Address)
    (settlement_allocations : list AgreementPayoutShare) : bool :=
  match settlement_allocations with
  | [] => true
  | allocation :: rest =>
      if same_entity proposer (recipient allocation) then
        settlement_approver_is_independent proposer settlement_approver rest
      else if same_entity settlement_approver (recipient allocation) then false
      else settlement_approver_is_independent proposer settlement_approver rest
  end.

Definition agreement_involves_third_party (proposer : Address)
    (settlement_recipients : list Address) : bool :=
  negb (bool_decide (settlement_recipients = [])) &&
  existsb (fun r => negb (same_entity proposer r)) settlement_recipients.

Definition agreement_service_provider_involves_third_party
    (proposer service_provider : Address) : bool :=
  negb (same_entity proposer service_provider).

(** The loop over explicit allocations: [seen] and [total_share_bps] are its state. *)
Fixpoint check_allocations (parties : list Address) (seen : gset Address) (total : Z)
    (allocs : list AgreementPayoutShare) : result message Z :=
  match allocs with
  | [] => Ok total
  | a :: rest =>
      if share_bps a =? 0 then
        Err (msg "Settlement allocations cannot contain a zero share")
      else if negb (bool_decide (recipient a ∈ parties)) then
        Err (msg "Settlement allocation recipient must be a party")
      else if bool_decide (recipient a ∈ seen) then
        Err (msg "Settlement allocations cannot contain duplicate recipients")
      else check_allocations parties ({[recipient a]} ∪ seen)
             (sat_add32 total (share_bps a)) rest
  end.

Definition resolve_agreement_settlement_allocations (proposer : Address)
    (parties : list Address) (service_provider : Address)
    (settlement_allocations : list AgreementPayoutShare)
    : result message (list AgreementPayoutShare) :=
  match settlement_allocations with
  | [] => Ok [{| recipient := service_provider; share_bps := 10000 |}]
  | _ =>
      total_share_bps ← check_allocations parties ∅ 0 settlement_allocations;
      if negb (total_share_bps =? 10000) then
        Err (msg "Settlement allocations must sum to 10_000 bps")
      else if negb (agreement_involves_third_party proposer
                      (recipient <$> settlement_allocations)) then
        Err (msg "Settlement allocations must include a third-party recipient")
      else if negb (existsb (fun a => bool_decide (recipient a = service_provider))
                      settlement_allocations) then
        Err (msg "Service provider must receive a non-zero settlement allocation")
      else Ok settlement_allocations
  end.

Definition resolve_agreement_settlement_approver (proposer : Address)
    (parties : list Address) (settlement_allocations : list AgreementPayoutShare)
    (settlement_approver : option Address) : result message Address :=
  approver ←
    match settlement_approver with
    | Some approver =>
        if negb (bool_decide (approver ∈ parties))
        then Err (msg "Settlement approver must be a party") else Ok approver
    | None =>
        if Nat.ltb 2 (length parties)
        then Err (msg "Multi-party agreements require explicit settlement approver")
        else Ok proposer
    end;
  if negb (settlement_approver_is_independent proposer approver settlement_allocations)
  then Err (msg "Settlement approver cannot be a non-proposer payout recipient or same entity")
  else Ok approver.

(** ** Dispute reputation effects *)
Definition outcome_rank (o : AgreementDisputePartyOutcome) : Z :=
  match o with Won => 0 | Lost => 1 end.

(** The comparison of both [sort_by] calls: party bytes, then [outcome as u8]. *)
Definition effect_cmp (lhs rhs : AgreementDisputeReputationEffect) : comparison :=
  match bytes_cmp (bn (party lhs)) (bn (party rhs)) with
  | Eq => Z.compare (outcome_rank (outcome lhs)) (outcome_rank (outcome rhs))
  | c => c
  end.

Fixpoint check_effects (parties : list Address) (seen : gset Address)
    (winner loser : bool) (effects : list AgreementDisputeReputationEffect)
    : result message (bool * bool) :=
  match effects with
  | [] => Ok (winner, loser)
  | e :: rest =>
      if negb (bool_decide (party e ∈ parties)) then
        Err (msg "Resolution reputation effect party must be a party")
      else if bool_decide (party e ∈ seen) then
        Err (msg "Resolution reputation effects cannot contain duplicate parties")
      else
        match outcome e with
        | Won => check_effects parties ({[party e]} ∪ seen) true loser rest
        | Lost => check_effects parties ({[party e]} ∪ seen) winner true rest
        end
  end.

(** The double loop over [index < other_index]. *)
Fixpoint any_same_entity (effects : list AgreementDisputeReputationEffect) : bool :=
  match effects with
  | [] => false
  | e :: rest =>
      existsb (fun o => same_entity (party e) (party o)) rest || any_same_entity rest
  end.

Definition normalize_dispute_reputation_effects (parties : list Address)
    (effects : list AgreementDisputeReputationEffect)
    : result message (list AgreementDisputeReputationEffect) :=
  saw ← check_effects parties ∅ false false effects;
  if negb (bool_decide (effects = [])) && (negb saw.1 || negb saw.2) then
    Err (msg "Resolution reputation effects must include at least one winner and one loser")
  else if any_same_entity effects then
    Err (msg "Resolution reputation effects cannot target same-entity parties more than once")
  else Ok (sort_by effect_cmp effects).

(** [Iterator::min_by]: the first of the minimal elements. *)
Definition min_address (l : list Address) : option Address :=
  match l with
  | [] => None
  | x :: l' => Some (foldl (fun m y =>
      match bytes_cmp (bn m) (bn y) with Gt => y | _ => m end) x l')
  end.

Definition dispute_reputation_counterparty (pty : Address)
    (out : AgreementDisputePartyOutcome)
    (effects : list AgreementDisputeReputationEffect) : option Address :=
  min_address (party <$> List.filter (fun e =>
    negb (bool_decide (outcome e = out)) && negb (same_entity pty (party e))) effects).

End Entities.

(** ** The agreement record *)
Record Agreement : Type := {
  agreement_id : Hash256;
  parties : list Address;
  proposer : Address;
  terms : list byte;
  escrow_amount : Z;
  agreement_status : AgreementStatus;
  created_at_block : Z;
  expires_at : Z;
  accepted_by : list Address;
  arbitrator : option Address;
  agreement_result_hash : option Hash256;
  dispute_reason : rstr;
  disputed_milestone_index : option Z;
  disputed_at : option Z;
  arbitration_deadline_at : option Z;
  arbitration_reassignments : Z;
  prior_arbitrators : list Address;
  agreement_resolution : option DisputeResolution;
  milestones : list Milestone;
  escrow_released : Z;
  arbitrator_fee_bps : Z;
  service_provider : Address;
  settlement_allocations : list AgreementPayoutShare;
  storage_deposit : Z;
  settlement_approver : option Address;
}.
#[global] Instance eta_Agreement : Eta Agreement := fun a =>
  {| agreement_id := agreement_id a; parties := parties a; proposer := proposer a; terms
     := terms a; escrow_amount := escrow_amount a; agreement_status := agreement_status
     a; created_at_block := created_at_block a; expires_at := expires_at a; accepted_by
     := accepted_by a; arbitrator := arbitrator a; agreement_result_hash :=
     agreement_result_hash a; dispute_reason := dispute_reason a;
     disputed_milestone_index := disputed_milestone_index a; disputed_at := disputed_at
     a; arbitration_deadline_at := arbitration_deadline_at a; arbitration_reassignments
     := arbitration_reassignments a; prior_arbitrators := prior_arbitrators a;
     agreement_resolution := agreement_resolution a; milestones := milestones a;
     escrow_released := escrow_released a; arbitrator_fee_bps := arbitrator_fee_bps a;
     service_provider := service_provider a; settlement_allocations :=
     settlement_allocations a; storage_deposit := storage_deposit a; settlement_approver
     := settlement_approver a |}.

Definition is_fully_accepted (a : Agreement) : bool :=
  forallb (fun p => bool_decide (p ∈ accepted_by a)) (parties a).
Definition is_expired (a : Agreement) (current_time_ms : Z) : bool :=
  (0 <? expires_at a) && (expires_at a <? current_time_ms).
Definition has_milestones (a : Agreement) : bool := negb (bool_decide (length (milestones a) = 0%nat)).
Definition milestone_settled (m : Milestone) : bool :=
  bool_decide (status m = MCompleted) || bool_decide (status m = MResolved).
Definition all_milestones_complete (a : Agreement) : bool :=
  has_milestones a && forallb milestone_settled (milestones a).
Definition escrow_remaining (a : Agreement) : Z := sat_sub (escrow_amount a) (escrow_released a).

Definition record_escrow_release (amt : Z) (a : Agreement) : Agreement :=
  a <| escrow_released := Z.min (sat_add (escrow_released a) amt) (escrow_amount a) |>.
Definition release_remaining_escrow (a : Agreement) : Agreement :=
  a <| escrow_released := escrow_amount a |>.
Definition clear_dispute_state (a : Agreement) : Agreement :=
  a <| dispute_reason := [] |> <| disputed_milestone_index := None |>
    <| disputed_at := None |> <| arbitration_deadline_at := None |>
    <| arbitration_reassignments := 0 |> <| prior_arbitrators := [] |>.
Definition normalize_for_expiry (a : Agreement) : Agreement :=
  clear_dispute_state (a <| agreement_status := Expired |> <| storage_deposit := 0 |>).
Definition get_settlement_approver (a : Agreement) : Address :=
  default (proposer a) (settlement_approver a).
Definition effective_settlement_allocations (a : Agreement) : list AgreementPayoutShare :=
  match settlement_allocations a with
  | [] => [{| recipient := service_provider a; share_bps := 10000 |}]
  | l => l
  end.
Definition settlement_recipients (a : Agreement) : list Address :=
  recipient <$> effective_settlement_allocations a.

(** [self.milestones.get_mut(i)] followed by an update of the element. *)
Definition update_milestone (i : Z) (f : Milestone -> Milestone) (a : Agreement) : Agreement :=
  a <| milestones := alter f (Z.to_nat i) (milestones a) |>.

Definition normalize_resolution_storage (a : Agreement) : Agreement :=
  match agreement_resolution a with
  | None => a
  | Some r =>
      match resolution_milestone_index r with
      | None => a
      | Some i =>
          match milestones a !! Z.to_nat i with
          | None => a
          | Some m =>
              (match resolution m with
               | None => update_milestone i (fun m => m <| resolution := Some r |>) a
               | Some _ => a
               end) <| agreement_resolution := None |>
          end
      end
  end.

Definition record_milestone_resolution (i : Z) (r : DisputeResolution) (a : Agreement)
    : Agreement :=
  let a := normalize_resolution_storage a in
  let a := update_milestone i (fun m => m <| resolution := Some r |>) a in
  a <| agreement_resolution := None |>.

Definition record_whole_agreement_resolution (r : DisputeResolution) (a : Agreement)
    : Agreement :=
  normalize_resolution_storage a <| agreement_resolution := Some r |>.

Definition resolution_for (milestone_index : option Z) (a : Agreement)
    : option DisputeResolution :=
  match milestone_index with
  | Some i => m ← milestones a !! Z.to_nat i; resolution m
  | None => agreement_resolution a
  end.

(** The loop of [distribute_amount]; the last recipient takes what is left. *)
Fixpoint distribute_loop (amt distributed : Z) (allocations : list AgreementPayoutShare)
    : list (Address * Z) :=
  match allocations with
  | [] => []
  | allocation :: rest =>
      let payout_amount :=
        match rest with
        | [] => sat_sub amt distributed
        | _ => wrap64 (amt * share_bps allocation / 10000)
        end in
      (recipient allocation, payout_amount)
      :: distribute_loop amt (sat_add distributed payout_amount) rest
  end.
Definition distribute_amount (amt : Z) (allocations : list AgreementPayoutShare)
    : list (Address * Z) := distribute_loop amt 0 allocations.

Definition payout_amount_for_recipient (pays : list (Address * Z)) (r : Address) : Z :=
  match List.find (fun p => bool_decide (p.1 = r)) pays with
  | Some p => p.2
  | None => 0
  end.

Definition new_resolution (pays : list AgreementPayoutShare)
    (effects : list AgreementDisputeReputationEffect) (why : rstr) (block : Z)
    (milestone_index : option Z) : DisputeResolution :=
  {| payouts := pays; reputation_effects := sort_by effect_cmp effects; reason := why;
     resolved_at_block := block; resolution_milestone_index := milestone_index |}.

(** ** Creation *)
Record AgreementCreateData : Type := {
  cd_parties : list Address;
  cd_terms : list byte;
  cd_escrow_amount : Z;
  cd_expires_at : Z;
  cd_arbitrator : option Address;
  cd_milestones : list MilestoneDef;
  cd_service_provider : Address;
  cd_settlement_allocations : list AgreementPayoutShare;
  cd_settlement_approver : option Address;
}.

Fixpoint check_duplicate_parties (seen : gset Address) (ps : list Address)
    : result message unit :=
  match ps with
  | [] => Ok ()
  | p :: ps' =>
      if bool_decide (p ∈ seen) then Err (Msg "Duplicate party: {}" [ABytes (bn p)])
      else check_duplicate_parties ({[p]} ∪ seen) ps'
  end.

Definition validate_agreement_create_stateless (same_entity : Address -> Address -> bool)
    (prop : Address) (d : AgreementCreateData) : result message unit :=
  let n := Z.of_nat (length (cd_parties d)) in
  _ ← ensure (negb (n <? 2)) (msg "Agreement requires at least 2 parties");
  _ ← ensure (negb (10 <? n)) (Msg "Too many parties: {} > 10" [AInt n]);
  _ ← ensure (bool_decide (prop ∈ cd_parties d)) (msg "Proposer must be a party");
  _ ← check_duplicate_parties ∅ (cd_parties d);
  _ ← ensure (negb (cd_escrow_amount d =? 0)) (msg "Escrow amount must be > 0");
  _ ← ensure (negb (65536 <? Z.of_nat (length (cd_terms d))))
        (Msg "Terms too large: {} > 65536" [AInt (Z.of_nat (length (cd_terms d)))]);
  _ ← materialize_agreement_milestones (cd_milestones d) (cd_escrow_amount d);
  _ ← match cd_arbitrator d with
      | None => Ok ()
      | Some arb =>
          _ ← ensure (negb (bool_decide (arb ∈ cd_parties d)))
                (msg "Arbitrator cannot be a party");
          ensure (negb (existsb (same_entity arb) (cd_parties d)))
            (msg "Arbitrator cannot be same entity as a party")
      end;
  _ ← ensure (bool_decide (cd_service_provider d ∈ cd_parties d))
        (msg "Service provider must be a party");
  _ ← ensure (agreement_service_provider_involves_third_party same_entity prop
                (cd_service_provider d))
        (msg "Service provider cannot be the proposer or same entity");
  allocs ← resolve_agreement_settlement_allocations same_entity prop (cd_parties d)
             (cd_service_provider d) (cd_settlement_allocations d);
  _ ← resolve_agreement_settlement_approver same_entity prop (cd_parties d) allocs
        (cd_settlement_approver d);
  Ok ().

(** ** Other payloads and the arbitrator profile *)
Record AgreementAcceptData : Type := { accept_agreement_id : Hash256 }.
Record AgreementExecuteData : Type := {
  execute_agreement_id : Hash256;
  execute_result_hash : Hash256;
  execute_milestone_index : Z;
}.
Record AgreementDisputeData : Type := {
  dispute_agreement_id : Hash256;
  dispute_data_reason : rstr;
  dispute_milestone_index : option Z;
}.
Record AgreementResolveData : Type := {
  resolve_agreement_id : Hash256;
  resolve_payouts : list AgreementPayoutShare;
  resolve_reputation_effects : list AgreementDisputeReputationEffect;
  resolve_reason : rstr;
  resolve_milestone_index : option Z;
}.
Record AgreementCancelData : Type := { cancel_agreement_id : Hash256 }.

Record ArbitratorProfile : Type := {
  arb_address : Address;
  arb_name : rstr;
  arb_description : rstr;
  arb_stake : Z;
  fee_bps : Z;
  specializations : list rstr;
  arb_active : bool;
  disputes_resolved : Z;
  rulings_upheld : Z;
  disputes_missed : Z;
  total_fees_earned : Z;
  registered_at : Z;
  last_active : Z;
  arb_storage_deposit : Z;
}.

(** [selection_score]; [ln] is the standard library's natural logarithm. Its stake term
    is a definition of its own. *)
Definition stake_score (stake : Z) : f64 :=
  f64_min (f64_div (f64_of_Z stake) (f64_of_Z 10000000)) (f64_of_Z 30).

Definition selection_score (ln : f64 -> f64) (p : ArbitratorProfile) : f64 :=
  let one := f64_of_Z 1 in
  let volume_score := f64_min
    (f64_mul (ln (f64_add (f64_of_Z (disputes_resolved p)) one)) (f64_of_Z 10))
    (f64_of_Z 25) in
  let upheld_rate :=
    if 0 <? disputes_resolved p
    then f64_div (f64_of_Z (rulings_upheld p)) (f64_of_Z (disputes_resolved p))
    else f64_div one (f64_of_Z 2) in
  let upheld_score := f64_mul upheld_rate (f64_of_Z 30) in
  let fee_score := f64_mul
    (f64_sub one (f64_min (f64_div (f64_of_Z (fee_bps p)) (f64_of_Z 1000)) one))
    (f64_of_Z 15) in
  let missed_penalty := f64_min
    (f64_mul (ln (f64_add (f64_of_Z (disputes_missed p)) one)) (f64_of_Z 8))
    (f64_of_Z 20) in
  f64_max
    (f64_sub (f64_add (f64_add (f64_add (stake_score (arb_stake p)) volume_score)
                         upheld_score) fee_score) missed_penalty)
    (f64_of_Z 0).

Record ArbitratorRegisterData : Type := {
  reg_name : rstr;
  reg_description : rstr;
  reg_stake : Z;
  reg_fee_bps : Z;
  reg_specializations : list rstr;
}.
Definition MIN_ARBITRATOR_STAKE : Z := 5000000.

(** ** Lemmas: milestones *)
Lemma checked_sum_Some defs acc t :
  0 <= acc <= U64_MAX -> Forall (fun d => 0 <= def_amount d) defs ->
  fold_option (fun acc d => checked_add acc (def_amount d)) acc defs = Some t <->
  t = acc + sumZ (def_amount <$> defs) /\ t <= U64_MAX.
Proof.
  intros Hacc Hd. revert acc Hacc. induction Hd as [|d defs Hd0 Hd IH]; intros acc Hacc.
  - cbn. split; [intros [= <-]; lia|intros [-> _]; f_equal; lia].
  - pose proof (sumZ_nonneg (def_amount <$> defs) ltac:(by apply Forall_fmap)) as Hs.
    cbn [fold_option fmap list_fmap sumZ foldr] in *.
    destruct (checked_add acc (def_amount d)) as [acc'|] eqn:Ec; unfold checked_add in Ec;
      destruct (Z.leb_spec (acc + def_amount d) U64_MAX) as [Hle|Hgt]; inv_ok;
      cbn [mbind option_bind].
    + rewrite IH by lia. unfold sumZ. lia.
    + split; [done|]. unfold sumZ in *. lia.
Qed.

Lemma check_descriptions_Ok i defs :
  check_descriptions i defs = Ok () <->
  Forall (fun d => str_len (def_description d) <= 1024) defs.
Proof.
  revert i. induction defs as [|d defs IH]; intros i; cbn; [by split|].
  destruct (Z.ltb_spec 1024 (str_len (def_description d))) as [H|H].
  - split; [done|]. intros Hf. inversion Hf. lia.
  - rewrite IH. split; intros Hf; [by constructor|by inversion Hf].
Qed.

Lemma ok_or_Ok {E A} (o : option A) (e : E) x : ok_or o e = Ok x <-> o = Some x.
Proof. destruct o; cbn; split; intros [= ->]; done. Qed.

Lemma materialize_iff defs escrow ms :
  Forall (fun d => 0 <= def_amount d) defs ->
  materialize_agreement_milestones defs escrow = Ok ms <->
  (1 <= length defs <= 20)%nat /\ sumZ (def_amount <$> defs) = escrow /\
  escrow <= U64_MAX /\ Forall (fun d => str_len (def_description d) <= 1024) defs /\
  ms = imap materialize_one defs.
Proof.
  intros Hd. destruct defs as [|d0 defs0] eqn:Edefs; [cbn; split; [done|lia]|].
  rewrite <- Edefs in *. assert (length defs = S (length defs0)) as Hlen by (by rewrite Edefs).
  assert (materialize_agreement_milestones defs escrow =
    (t ← ok_or (fold_option (fun acc d => checked_add acc (def_amount d)) 0 defs)
           (msg "Milestone amounts overflow");
     if negb (t =? escrow) then
        Err (Msg "Milestone total {} != escrow {}" [AInt t; AInt escrow])
     else if Nat.ltb 20 (length defs) then Err (msg "Max 20 milestones")
     else _ ← check_descriptions 0 defs; Ok (imap materialize_one defs))) as ->
    by (by rewrite Edefs).
  split.
  - intros H. inv_ok. apply ok_or_Ok, checked_sum_Some in E as [Et Hmax]; [|mlia|done].
    repeat case_match; inv_ok; to_prop; try done.
    match goal with H : (20 <? _)%nat = false |- _ => apply Nat.ltb_ge in H end.
    match goal with H : check_descriptions _ _ = Ok ?u |- _ =>
      destruct u; apply check_descriptions_Ok in H end.
    repeat split; try done; lia.
  - intros ([_ Hl] & Hs & Hm & Hdesc & ->).
    rewrite (proj2 (checked_sum_Some defs 0 escrow ltac:(mlia) Hd)) by lia.
    cbn [ok_or mbind result_bind]. rewrite Z.eqb_refl. cbn [negb].
    destruct (Nat.ltb_spec 20 (length defs)); [lia|].
    by rewrite (proj2 (check_descriptions_Ok 0 defs) Hdesc).
Qed.

(** ** Lemmas: allocations *)
Lemma check_allocations_Ok ps seen total allocs t :
  0 <= total <= U32_MAX -> Forall (fun a => is_u16 (share_bps a)) allocs ->
  check_allocations ps seen total allocs = Ok t <->
  Forall (fun a => share_bps a <> 0 /\ recipient a ∈ ps) allocs /\
  NoDup (recipient <$> allocs) /\ Forall (fun a => recipient a ∉ seen) allocs /\
  t = Z.min (total + sumZ (share_bps <$> allocs)) U32_MAX.
Proof.
  intros Ht Ha. revert seen total Ht.
  induction Ha as [|a allocs Ha0 Ha IH]; intros seen total Ht.
  - cbn. split.
    + intros [= <-]. repeat split; try constructor. lia.
    + intros (_ & _ & _ & ->). f_equal. lia.
  - assert (0 <= sumZ (share_bps <$> allocs)) as Hs.
    { apply sumZ_nonneg, Forall_fmap. eapply Forall_impl; [exact Ha|]. cbn. intros ?. mlia. }
    cbn [check_allocations fmap list_fmap]. rewrite NoDup_cons, !Forall_cons.
    destruct (Z.eqb_spec (share_bps a) 0); [naive_solver|].
    destruct (bool_decide_reflect (recipient a ∈ ps)); cbn [negb]; [|naive_solver].
    destruct (bool_decide_reflect (recipient a ∈ seen)); [naive_solver|].
    rewrite IH by mlia.
    assert (Forall (fun a0 => recipient a0 ∉ {[recipient a]} ∪ seen) allocs <->
      recipient a ∉ (recipient <$> allocs) /\ Forall (fun a0 => recipient a0 ∉ seen) allocs)
      as ->.
    { rewrite !Forall_forall. setoid_rewrite list_elem_of_fmap. set_solver. }
    assert (Z.min (sat_add32 total (share_bps a) + sumZ (share_bps <$> allocs)) U32_MAX =
      Z.min (total + sumZ (share_bps a :: (share_bps <$> allocs))) U32_MAX) as ->.
    { change (sumZ (share_bps a :: (share_bps <$> allocs))) with
        (share_bps a + sumZ (share_bps <$> allocs)). mlia. }
    tauto.
Qed.

(** What a resolved allocation list satisfies. *)
Record allocations_spec (same_entity : Address -> Address -> bool) (prop : Address)
    (ps : list Address) (sp : Address) (allocs : list AgreementPayoutShare) : Prop := {
  alloc_shares : Forall (fun a => share_bps a <> 0 /\ recipient a ∈ ps) allocs;
  alloc_distinct : NoDup (recipient <$> allocs);
  alloc_total : sumZ (share_bps <$> allocs) = 10000;
  alloc_third_party : exists a, a ∈ allocs /\ same_entity prop (recipient a) = false;
  alloc_provider : sp ∈ (recipient <$> allocs);
}.

Lemma existsb_elem {A} (f : A -> bool) l :
  existsb f l = true <-> exists x, x ∈ l /\ f x = true.
Proof. rewrite existsb_exists. by setoid_rewrite <- list_elem_of_In. Qed.

Lemma resolve_allocations_iff se prop ps sp given out :
  Forall (fun a => is_u16 (share_bps a)) given ->
  resolve_agreement_settlement_allocations se prop ps sp given = Ok out <->
  (given = [] /\ out = [{| recipient := sp; share_bps := 10000 |}]) \/
  (given <> [] /\ out = given /\ allocations_spec se prop ps sp given).
Proof.
  intros Hg. destruct given as [|a0 rest] eqn:Eg; [cbn; naive_solver|].
  rewrite <- Eg in *. assert (given <> []) as Hne by (by rewrite Eg).
  assert (resolve_agreement_settlement_allocations se prop ps sp given =
    (t ← check_allocations ps ∅ 0 given;
     if negb (t =? 10000) then Err (msg "Settlement allocations must sum to 10_000 bps")
     else if negb (agreement_involves_third_party se prop (recipient <$> given)) then
       Err (msg "Settlement allocations must include a third-party recipient")
     else if negb (existsb (fun a => bool_decide (recipient a = sp)) given) then
       Err (msg "Service provider must receive a non-zero settlement allocation")
     else Ok given)) as -> by (by rewrite Eg).
  assert (agreement_involves_third_party se prop (recipient <$> given) = true <->
    exists a, a ∈ given /\ se prop (recipient a) = false) as Hthird.
  { unfold agreement_involves_third_party. rewrite bool_decide_eq_false_2
      by (by rewrite Eg). cbn [negb andb]. rewrite existsb_elem.
    setoid_rewrite list_elem_of_fmap. setoid_rewrite negb_true_iff. naive_solver. }
  assert (existsb (fun a => bool_decide (recipient a = sp)) given = true <->
    sp ∈ (recipient <$> given)) as Hprov.
  { rewrite existsb_elem. setoid_rewrite bool_decide_eq_true. rewrite list_elem_of_fmap.
    naive_solver. }
  split.
  - intros H. right. inv_ok. apply check_allocations_Ok in E as (H1 & H2 & _ & Ht); [|mlia|done].
    repeat case_match; inv_ok; to_prop; try done.
    repeat split; try done; [|by apply Hthird|by apply Hprov]. mlia.
  - intros [[? _]|(_ & -> & [H1 H2 H3 H4 H5])]; [done|].
    rewrite (proj2 (check_allocations_Ok ps ∅ 0 given 10000 ltac:(mlia) Hg)).
    + cbn. by rewrite (proj2 Hthird), (proj2 Hprov) by done.
    + repeat split; try done; [|mlia]. apply Forall_forall. set_solver.
Qed.

(** ** Lemmas: payout *)
Lemma floor_share amt s : 0 <= amt <= U64_MAX -> 0 <= s <= 10000 ->
  wrap64 (amt * s / 10000) = amt * s / 10000 /\ 0 <= amt * s / 10000 <= amt /\
  10000 * (amt * s / 10000) <= amt * s <= 10000 * (amt * s / 10000) + 9999.
Proof.
  intros Ha Hs. assert (0 <= amt * s <= amt * 10000) as Hb by nia.
  assert (0 <= amt * s / 10000 <= amt) as Hq by (Z.to_euclidean_division_equations; lia).
  split; [unfold wrap64; apply Z.mod_small; mlia|]. split; [done|].
  Z.to_euclidean_division_equations; lia.
Qed.

(** State of the loop: [distributed] is within [k] rounding units of the share [c] that
    has been paid. *)
Lemma distribute_loop_spec amt allocs : forall distributed c k,
  0 <= amt <= U64_MAX -> allocs <> [] ->
  Forall (fun a => 0 <= share_bps a) allocs -> 0 <= c -> 0 <= k ->
  c + sumZ (share_bps <$> allocs) = 10000 -> 0 <= distributed ->
  0 <= amt * c - distributed * 10000 <= 9999 * k ->
  sumZ (snd <$> distribute_loop amt distributed allocs) = amt - distributed /\
  Forall2 (fun a p => p.1 = recipient a /\
    amt * share_bps a / 10000 <= p.2 < amt * share_bps a / 10000 + k + Z.of_nat (length allocs))
    allocs (distribute_loop amt distributed allocs).
Proof.
  induction allocs as [|a rest IH]; intros distributed c k Ha Hne Hall Hc Hk Hsum Hd Hinv;
    [done|]. inversion Hall as [|? ? Ha0 Hrest]; subst.
  pose proof (sumZ_nonneg (share_bps <$> rest) ltac:(by apply Forall_fmap)) as Hs.
  cbn [fmap list_fmap sumZ foldr] in Hsum.
  change (foldr Z.add 0 (share_bps <$> rest)) with (sumZ (share_bps <$> rest)) in Hsum.
  destruct (floor_share amt (share_bps a) Ha ltac:(lia)) as (Hw & Hq & Hr).
  destruct rest as [|b rest'] eqn:Erest.
  - cbn in Hsum |- *. unfold sat_sub.
    assert (share_bps a = 10000 - c) as Es by lia.
    assert (amt * share_bps a = 10000 * amt - amt * c) as Em by (rewrite Es; ring).
    assert (distributed <= amt) by nia.
    split; [lia|]. constructor; [|constructor]. cbn. split; [done|].
    Z.to_euclidean_division_equations; lia.
  - rewrite <- Erest in *. assert (rest <> []) as Hne' by (by rewrite Erest).
    assert (distribute_loop amt distributed (a :: rest) =
      (recipient a, amt * share_bps a / 10000) ::
      distribute_loop amt (distributed + amt * share_bps a / 10000) rest) as ->.
    { rewrite Erest. cbn [distribute_loop]. rewrite Hw. unfold sat_add.
      rewrite Z.min_l by nia. done. }
    destruct (IH (distributed + amt * share_bps a / 10000) (c + share_bps a) (k + 1))
      as [IHs IHf]; try done; try lia.
    cbn [fmap list_fmap sumZ foldr snd]. unfold sumZ in *. split; [lia|].
    constructor; [cbn; split; [done|lia]|].
    eapply Forall2_impl; [exact IHf|]. cbn [length]. intros x p [? ?]. split; [done|lia].
Qed.

Lemma distribute_loop_recipients amt distributed allocs :
  fst <$> distribute_loop amt distributed allocs = recipient <$> allocs.
Proof.
  revert distributed. induction allocs as [|a rest IH]; intros d; cbn; [done|].
  by rewrite IH.
Qed.

(** ** Lemmas: approver and creation *)
Lemma approver_independent_iff se prop appr allocs :
  settlement_approver_is_independent se prop appr allocs = true <->
  forall a, a ∈ allocs -> se prop (recipient a) = false -> se appr (recipient a) = false.
Proof.
  rewrite <- Forall_forall. induction allocs as [|a rest IH]; cbn; [by split|].
  rewrite Forall_cons, <- IH.
  destruct (se prop (recipient a)) eqn:E1, (se appr (recipient a)) eqn:E2; naive_solver.
Qed.

Lemma resolve_approver_iff se prop ps allocs given out :
  resolve_agreement_settlement_approver se prop ps allocs given = Ok out <->
  (match given with
   | Some appr => appr ∈ ps /\ out = appr
   | None => (length ps <= 2)%nat /\ out = prop
   end) /\
  (forall a, a ∈ allocs -> se prop (recipient a) = false -> se out (recipient a) = false).
Proof.
  unfold resolve_agreement_settlement_approver. destruct given as [appr|].
  - destruct (bool_decide_reflect (appr ∈ ps)); cbn; [|naive_solver].
    destruct (settlement_approver_is_independent se prop appr allocs) eqn:Ei; cbn.
    + pose proof (proj1 (approver_independent_iff _ _ _ _) Ei). naive_solver.
    + split; [done|]. intros [[_ ->] H]. apply approver_independent_iff in H. congruence.
  - destruct (Nat.ltb_spec 2 (length ps)); cbn; [split; [done|lia]|].
    destruct (settlement_approver_is_independent se prop prop allocs) eqn:Ei; cbn.
    + pose proof (proj1 (approver_independent_iff _ _ _ _) Ei). naive_solver.
    + split; [done|]. intros [[_ ->] H0]. apply approver_independent_iff in H0. congruence.
Qed.

Lemma check_duplicate_parties_Ok seen ps :
  check_duplicate_parties seen ps = Ok () <-> NoDup ps /\ Forall (fun p => p ∉ seen) ps.
Proof.
  revert seen. induction ps as [|p ps IH]; intros seen; cbn.
  - split; [repeat constructor|done].
  - rewrite NoDup_cons, Forall_cons. destruct (bool_decide_reflect (p ∈ seen)); [naive_solver|].
    rewrite IH. rewrite !Forall_forall. set_solver.
Qed.

(** ** Lemmas: dispute effects *)
Lemma check_effects_Ok ps seen w l effects w' l' :
  check_effects ps seen w l effects = Ok (w', l') <->
  Forall (fun e => party e ∈ ps /\ party e ∉ seen) effects /\ NoDup (party <$> effects) /\
  w' = w || existsb (fun e => bool_decide (outcome e = Won)) effects /\
  l' = l || existsb (fun e => bool_decide (outcome e = Lost)) effects.
Proof.
  revert seen w l. induction effects as [|e rest IH]; intros seen w l; cbn.
  - rewrite !orb_false_r. split; [intros [= <- <-]; repeat constructor|].
    by intros (_ & _ & -> & ->).
  - rewrite NoDup_cons, Forall_cons.
    destruct (bool_decide_reflect (party e ∈ ps)); cbn [negb]; [|naive_solver].
    destruct (bool_decide_reflect (party e ∈ seen)); [naive_solver|].
    assert (Forall (fun e0 => party e0 ∈ ps /\ party e0 ∉ {[party e]} ∪ seen) rest <->
      party e ∉ (party <$> rest) /\ Forall (fun e0 => party e0 ∈ ps /\ party e0 ∉ seen) rest)
      as Hf.
    { rewrite !Forall_forall. setoid_rewrite list_elem_of_fmap. set_solver. }
    destruct (outcome e) eqn:Eo; rewrite IH, Hf, ?orb_true_l, ?orb_true_r; cbn;
      rewrite ?orb_false_l, ?orb_true_r; tauto.
Qed.

Lemma effect_cmp_antisym a b : effect_cmp a b = Gt -> not_after effect_cmp b a.
Proof.
  unfold not_after, effect_cmp. rewrite (bytes_cmp_antisym (bn (party a)) (bn (party b))).
  destruct (bytes_cmp (bn (party a)) (bn (party b))); cbn; try done.
  rewrite (Z.compare_antisym (outcome_rank (outcome a))).
  by destruct (Z.compare _ _).
Qed.

Lemma any_same_entity_false se effects :
  any_same_entity se effects = false <->
  ForallOrdPairs (fun a b => se (party a) (party b) = false) effects.
Proof.
  induction effects as [|e rest IH]; cbn; [split; [constructor|done]|].
  rewrite orb_false_iff, IH. rewrite <- not_true_iff_false, existsb_elem. split.
  - intros [H1 H2]. constructor; [|done]. apply Forall_forall. intros x Hx.
    apply not_true_iff_false. intros Hse. apply H1. eauto.
  - intros H. inversion H as [|? ? H1 H2]; subst. split; [|done].
    intros (x & Hx & Hse). apply list_elem_of_In in Hx. rewrite Forall_forall in H1.
    apply list_elem_of_In in Hx. rewrite (H1 x Hx) in Hse. done.
Qed.

Lemma min_address_spec l m :
  min_address l = Some m -> m ∈ l /\ forall x, x ∈ l -> bytes_cmp (bn m) (bn x) <> Gt.
Proof.
  destruct l as [|x0 l]; cbn; [done|]. intros [= <-].
  revert x0. induction l as [|y l IH]; intros x0; cbn.
  - split; [by apply list_elem_of_singleton|].
    intros x ->%list_elem_of_singleton. by rewrite bytes_cmp_refl.
  - set (z := match bytes_cmp (bn x0) (bn y) with Gt => y | _ => x0 end).
    destruct (IH z) as [Hin Hmin].
    assert ((z = x0 \/ z = y) /\ bytes_cmp (bn z) (bn x0) <> Gt /\
      bytes_cmp (bn z) (bn y) <> Gt) as (Hz & Hz0 & Hzy).
    { subst z. pose proof (bytes_cmp_antisym (bn x0) (bn y)) as Hanti.
      destruct (bytes_cmp (bn x0) (bn y)) eqn:E; rewrite ?bytes_cmp_refl, ?E, ?Hanti; auto. }
    assert (bytes_cmp (bn (foldl (fun m y => match bytes_cmp (bn m) (bn y) with
      Gt => y | _ => m end) z l)) (bn z) <> Gt) as Hmz by (apply Hmin, list_elem_of_here).
    split.
    { rewrite elem_of_cons in Hin. rewrite !elem_of_cons. destruct Hin as [->|Hin]; [|auto].
      destruct Hz as [Hz|Hz]; auto. }
    intros x Hx. rewrite !elem_of_cons in Hx. destruct Hx as [->|[->|Hx]].
    + by eapply bytes_cmp_trans_le.
    + by eapply bytes_cmp_trans_le.
    + apply Hmin. by right.
Qed.

(** ** Properties *)

(** C6: escrow conservation. When a proposer's settlement allocations resolve, paying a
    released amount through them gives out exactly that amount: recipients are the
    allocation's, in order, and every payout is its share rounded down plus less than
    one unit per recipient. *)
Theorem settlement_conserves_escrow se prop ps sp given out amt :
  Forall (fun a => is_u16 (share_bps a)) given -> is_u64 amt ->
  resolve_agreement_settlement_allocations se prop ps sp given = Ok out ->
  sumZ (snd <$> distribute_amount amt out) = amt /\
  fst <$> distribute_amount amt out = recipient <$> out /\
  Forall2 (fun a p => p.1 = recipient a /\
    amt * share_bps a / 10000 <= p.2 < amt * share_bps a / 10000 + Z.of_nat (length out))
    out (distribute_amount amt out).
Proof.
  intros Hg Ha Hr. apply resolve_allocations_iff in Hr; [|done].
  assert (out <> [] /\ Forall (fun a => 0 <= share_bps a) out /\
    sumZ (share_bps <$> out) = 10000) as (Hne & Hpos & Hsum).
  { destruct Hr as [[_ ->]|(Hne & -> & Hs)]; [by repeat constructor|].
    split; [done|]. split; [|apply Hs]. eapply Forall_impl; [exact Hg|]. cbn. intros. mlia. }
  destruct (distribute_loop_spec amt out 0 0 0) as [H1 H2]; try done; try lia.
  split; [unfold distribute_amount; lia|].
  split; [apply distribute_loop_recipients|].
  eapply Forall2_impl; [exact H2|]. cbn. intros a p [? ?]. split; [done|lia].
Qed.

(** A milestone schedule is accepted exactly when it has between 1 and 20 entries
    whose amounts add up, without overflow, to the escrow and whose descriptions are at
    most 1024 bytes; it then becomes pending milestones numbered in order. The
    single-payment schedule is always accepted. *)
Theorem materialize_milestones_spec defs escrow :
  Forall (fun d => is_u64 (def_amount d)) defs -> is_u64 escrow ->
  ((exists ms, materialize_agreement_milestones defs escrow = Ok ms) <->
   (1 <= length defs <= 20)%nat /\ sumZ (def_amount <$> defs) = escrow /\
   Forall (fun d => str_len (def_description d) <= 1024) defs) /\
  (forall ms, materialize_agreement_milestones defs escrow = Ok ms ->
   sumZ (amount <$> ms) = escrow /\ length ms = length defs /\
   forall i m, ms !! i = Some m -> index m = Z.of_nat i /\ status m = MPending /\
     resolution m = None) /\
  is_ok (materialize_agreement_milestones
    (canonical_single_payment_milestones escrow) escrow) = true.
Proof.
  intros Hd He. assert (Forall (fun d => 0 <= def_amount d) defs) as Hd'.
  { eapply Forall_impl; [exact Hd|]. cbn. intros. mlia. }
  split; [|split].
  - split.
    + intros [ms Hms]. apply materialize_iff in Hms; [tauto|done].
    + intros (H1 & H2 & H3). exists (imap materialize_one defs).
      apply materialize_iff; [done|]. repeat split; try done; mlia.
  - intros ms Hms. apply materialize_iff in Hms as (Hlen & Hs & _ & _ & ->); [|done].
    assert (forall (f : nat -> nat), amount <$> imap (materialize_one ∘ f) defs =
      def_amount <$> defs) as Ham.
    { clear. induction defs as [|d defs IH]; intros f; cbn; [done|]. f_equal. apply IH. }
    split; [|split].
    + pose proof (Ham (fun i => i)) as Ham'.
      change (materialize_one ∘ (fun i => i)) with materialize_one in Ham'.
      by rewrite Ham'.
    + apply length_imap.
    + intros i m Hm. rewrite list_lookup_imap in Hm. pose proof Hm as Hm'.
      apply fmap_Some in Hm as (d & Hi & ->). cbn. apply lookup_lt_Some in Hi.
      split; [|done]. unfold wrap32. apply Z.mod_small. lia.
  - unfold canonical_single_payment_milestones.
    destruct (materialize_agreement_milestones _ _) eqn:E; [done|].
    assert (exists ms, materialize_agreement_milestones
      [{| def_description := lit "Complete agreement"; def_amount := escrow |}] escrow = Ok ms)
      as [ms Hms]; [|congruence].
    eexists. apply materialize_iff; [constructor; [cbn; mlia|constructor]|].
    split; [cbn; lia|]. split; [cbn; lia|]. split; [mlia|].
    split; [constructor; [by vm_compute|constructor]|done].
Qed.

(** The agreement a creation payload may propose, in terms of the payload alone.  [se] says which
    addresses belong to one entity. *)
Record schedule_adds_up (defs : list MilestoneDef) (escrow : Z) : Prop := {
  sc_count : (1 <= length defs <= 20)%nat;
  sc_total : sumZ (def_amount <$> defs) = escrow;
  sc_descriptions : Forall (fun d => str_len (def_description d) <= 1024) defs;
}.

(** Who is paid: the recipients of the allocations, or the service provider when none are given. *)
Definition paid_parties (d : AgreementCreateData) : list Address :=
  if bool_decide (cd_settlement_allocations d = []) then [cd_service_provider d]
  else recipient <$> cd_settlement_allocations d.

(** Who approves a settlement: the named approver, or the proposer. *)
Definition approving_party (prop : Address) (d : AgreementCreateData) : Address :=
  default prop (cd_settlement_approver d).

Record valid_agreement_create (se : Address -> Address -> bool) (prop : Address)
    (d : AgreementCreateData) : Prop := {
  va_parties : NoDup (cd_parties d) /\ (2 <= length (cd_parties d) <= 10)%nat /\
    prop ∈ cd_parties d;
  va_escrow : 0 < cd_escrow_amount d;
  va_terms : Z.of_nat (length (cd_terms d)) <= 65536;
  va_milestones : schedule_adds_up (cd_milestones d) (cd_escrow_amount d);
  va_arbitrator : forall arb, cd_arbitrator d = Some arb ->
    arb ∉ cd_parties d /\ forall p, p ∈ cd_parties d -> se arb p = false;
  va_provider : cd_service_provider d ∈ cd_parties d /\ se prop (cd_service_provider d) = false;
  va_shares : cd_settlement_allocations d <> [] ->
    Forall (fun a => share_bps a <> 0 /\ recipient a ∈ cd_parties d) (cd_settlement_allocations d) /\
    NoDup (recipient <$> cd_settlement_allocations d) /\
    sumZ (share_bps <$> cd_settlement_allocations d) = 10000 /\
    cd_service_provider d ∈ (recipient <$> cd_settlement_allocations d);
  va_approver_named : match cd_settlement_approver d with
    | Some appr => appr ∈ cd_parties d
    | None => length (cd_parties d) = 2%nat
    end;
  va_approver_unpaid : forall r, r ∈ paid_parties d -> se prop r = false ->
    se (approving_party prop d) r = false;
}.

(** The integers of a payload are within the widths of their fields. *)
Definition create_fits (d : AgreementCreateData) : Prop :=
  is_u64 (cd_escrow_amount d) /\ Forall (fun m => is_u64 (def_amount m)) (cd_milestones d) /\
  Forall (fun a => is_u16 (share_bps a)) (cd_settlement_allocations d).

Lemma schedule_iff d : create_fits d ->
  (exists ms, materialize_agreement_milestones (cd_milestones d) (cd_escrow_amount d) = Ok ms) <->
  schedule_adds_up (cd_milestones d) (cd_escrow_amount d).
Proof.
  intros (He & Hm & _).
  assert (Forall (fun m => 0 <= def_amount m) (cd_milestones d)) as Hm'.
  { eapply Forall_impl; [exact Hm|]. cbn. intros. mlia. }
  setoid_rewrite (materialize_iff _ _ _ Hm'). split.
  - intros (ms & H1 & H2 & _ & H4 & _). by split.
  - intros [H1 H2 H3]. eexists. repeat split; try done; try lia; mlia.
Qed.

(** The two resolutions succeed exactly on a settlement of the specification. *)
Lemma settlement_iff se prop d :
  create_fits d -> (2 <= length (cd_parties d))%nat -> se prop (cd_service_provider d) = false ->
  (exists allocs appr,
    resolve_agreement_settlement_allocations se prop (cd_parties d) (cd_service_provider d)
      (cd_settlement_allocations d) = Ok allocs /\
    resolve_agreement_settlement_approver se prop (cd_parties d) allocs
      (cd_settlement_approver d) = Ok appr) <->
  (cd_settlement_allocations d <> [] ->
    Forall (fun a => share_bps a <> 0 /\ recipient a ∈ cd_parties d) (cd_settlement_allocations d) /\
    NoDup (recipient <$> cd_settlement_allocations d) /\
    sumZ (share_bps <$> cd_settlement_allocations d) = 10000 /\
    cd_service_provider d ∈ (recipient <$> cd_settlement_allocations d)) /\
  match cd_settlement_approver d with
  | Some appr => appr ∈ cd_parties d
  | None => length (cd_parties d) = 2%nat
  end /\
  (forall r, r ∈ paid_parties d -> se prop r = false -> se (approving_party prop d) r = false).
Proof.
  intros (_ & _ & Hg) Hlen Hse. unfold paid_parties, approving_party.
  setoid_rewrite (resolve_allocations_iff se prop _ _ _ _ Hg). setoid_rewrite resolve_approver_iff.
  case_bool_decide as Hnil.
  - rewrite Hnil. split.
    + intros (al & appr & [[_ ->]|[? _]] & Hap & Hind); [|done].
      split; [done|]. destruct (cd_settlement_approver d); destruct Hap as [? ->]; cbn.
      * split; [done|]. intros r ->%list_elem_of_singleton. apply (Hind _ (list_elem_of_here _ _)).
      * split; [lia|]. intros r ->%list_elem_of_singleton. apply (Hind _ (list_elem_of_here _ _)).
    + intros (_ & Hap & Hind). eexists _, (default prop (cd_settlement_approver d)).
      split; [by left|]. split; [destruct (cd_settlement_approver d); split; done || lia|].
      intros a ->%list_elem_of_singleton. apply Hind. cbn. set_solver.
  - split.
    + intros (al & appr & [[? _]|(_ & -> & [H1 H2 H3 H4 H5])] & Hap & Hind); [done|].
      split; [done|]. assert (default prop (cd_settlement_approver d) = appr) as -> by
        (by destruct (cd_settlement_approver d); destruct Hap as [? ->]).
      split; [by destruct (cd_settlement_approver d); destruct Hap; [|lia]|].
      intros r (a & -> & Ha)%list_elem_of_fmap. by apply Hind.
    + intros (Hal & Hap & Hind). destruct (Hal Hnil) as (H1 & H2 & H3 & H4).
      eexists _, (default prop (cd_settlement_approver d)). split.
      * right. split; [done|]. split; [reflexivity|]. split; try done.
        apply list_elem_of_fmap in H4 as (a & Hsp & Ha). exists a. by rewrite <- Hsp.
      * split; [destruct (cd_settlement_approver d); split; done || lia|].
        intros a Ha. apply Hind. apply list_elem_of_fmap. eauto.
Qed.

(** C20: the stateless check accepts a creation payload exactly when it satisfies the
    specification, which reads the payload alone: 2 to 10 distinct parties with the proposer among
    them; positive escrow; at most 65536 bytes of terms; 1 to 20 milestones, described in at most 1024
    bytes each, whose amounts add up to the escrow; an arbitrator, if any, that is no party nor of a
    party's entity; a service provider that is a party of another entity than the
    proposer; allocations, if any, of non-zero shares to distinct parties, the provider among them, adding
    up to 10000; an approver that is a party, and named unless there are two parties, of an entity that
    is not paid other than the proposer's. The integers are within their fields' widths. *)
Theorem validate_create_refines_spec se prop d :
  create_fits d ->
  validate_agreement_create_stateless se prop d = Ok () <-> valid_agreement_create se prop d.
Proof.
  intros Hfit. pose proof Hfit as [He64 _].
  unfold validate_agreement_create_stateless. split.
  - intros H. inv_ok. to_prop.
    match goal with H : check_duplicate_parties _ _ = Ok _ |- _ =>
      apply check_duplicate_parties_Ok in H as [? _] end.
    assert (se prop (cd_service_provider d) = false) as Hse by (by apply negb_true_iff).
    assert (2 <= length (cd_parties d))%nat as Hlen by lia.
    destruct (proj1 (settlement_iff se prop d Hfit Hlen Hse)) as (Hsh & Hap & Hun); [eauto|].
    split; try done; [split; [done|split; [lia|done]]|mlia| |].
    + apply schedule_iff; eauto.
    + intros arb Harb. rewrite Harb in *. inv_ok. to_prop. split; [done|].
      intros p Hp. apply not_true_iff_false. intros Hx.
      match goal with H : existsb _ _ = false |- _ =>
        rewrite <- not_true_iff_false in H; apply H end.
      apply existsb_elem. eauto.
  - intros [[Hnd [Hlen Hprop]] He Ht Hms Harb [Hsp Hse] Hsh Hap Hun].
    apply (schedule_iff d Hfit) in Hms as [ms Hms].
    destruct (proj2 (settlement_iff se prop d Hfit ltac:(lia) Hse)) as (allocs & appr & Hal & Hr); [done|].
    destruct (Z.ltb_spec (Z.of_nat (length (cd_parties d))) 2); [lia|].
    destruct (Z.ltb_spec 10 (Z.of_nat (length (cd_parties d)))); [lia|].
    rewrite bool_decide_eq_true_2 by done. cbn [ensure negb mbind result_bind].
    rewrite (proj2 (check_duplicate_parties_Ok ∅ _)) by
      (split; [done|apply Forall_forall; set_solver]). cbn [mbind result_bind].
    rewrite (proj2 (Z.eqb_neq (cd_escrow_amount d) 0)) by lia. cbn [ensure negb mbind result_bind].
    destruct (Z.ltb_spec 65536 (Z.of_nat (length (cd_terms d)))); [lia|].
    cbn [ensure negb mbind result_bind]. rewrite Hms. cbn [mbind result_bind].
    assert ((match cd_arbitrator d with
      | None => Ok ()
      | Some arb =>
          _ ← ensure (negb (bool_decide (arb ∈ cd_parties d)))
                (msg "Arbitrator cannot be a party");
          ensure (negb (existsb (se arb) (cd_parties d)))
            (msg "Arbitrator cannot be same entity as a party")
      end) = Ok ()) as ->.
    { destruct (cd_arbitrator d) as [arb|]; [|done]. destruct (Harb arb eq_refl) as [Ha1 Ha2].
      rewrite bool_decide_eq_false_2 by done. cbn.
      apply ensure_Ok, negb_true_iff, not_true_iff_false. intros (p & Hp & Hx)%existsb_elem.
      rewrite (Ha2 p Hp) in Hx. done. }
    cbn [mbind result_bind]. rewrite bool_decide_eq_true_2 by done.
    unfold agreement_service_provider_involves_third_party. rewrite Hse.
    cbn [ensure negb mbind result_bind]. rewrite Hal. cbn [mbind result_bind]. by rewrite Hr.
Qed.

(** Releasing escrow step by step never over-releases. After any sequence of partial
    releases the counter is the smaller of the escrow and the total released, released
    and remaining escrow add up to the escrow, and a final full release leaves none. *)
Theorem escrow_release_sequence a amounts :
  0 <= escrow_released a <= escrow_amount a -> is_u64 (escrow_amount a) ->
  Forall is_u64 amounts ->
  let a' := foldl (fun a amt => record_escrow_release amt a) a amounts in
  escrow_amount a' = escrow_amount a /\
  escrow_released a' = Z.min (escrow_amount a) (escrow_released a + sumZ amounts) /\
  escrow_released a' + escrow_remaining a' = escrow_amount a /\
  escrow_remaining (release_remaining_escrow a') = 0.
Proof.
  intros Hr He Hall. cbv zeta.
  set (a' := foldl (fun a amt => record_escrow_release amt a) a amounts).
  assert (escrow_amount a' = escrow_amount a /\
    escrow_released a' = Z.min (escrow_amount a) (escrow_released a + sumZ amounts))
    as [H1 H2].
  { subst a'. revert a Hr He. induction Hall as [|amt amounts Ha Hall IH]; intros a Hr He.
    - cbn. split; [done|lia].
    - cbn [foldl]. destruct (IH (record_escrow_release amt a)) as [IH1 IH2].
      { unfold record_escrow_release. cbn. mlia. }
      { done. }
      rewrite IH1, IH2. unfold record_escrow_release. cbn.
      assert (0 <= sumZ amounts).
      { apply sumZ_nonneg. eapply Forall_impl; [exact Hall|]. cbn. intros. mlia. }
      unfold sumZ in *. split; [done|mlia]. }
  assert (0 <= sumZ amounts).
  { apply sumZ_nonneg. eapply Forall_impl; [exact Hall|]. cbn. intros. mlia. }
  repeat split; [done|done| |].
  - unfold escrow_remaining. rewrite H1, H2. mlia.
  - unfold escrow_remaining, release_remaining_escrow. cbn. mlia.
Qed.

(** The candidates of [dispute_reputation_counterparty] are the opposing parties. *)
Lemma counterparty_candidates se effects e q :
  (forall x y, se x y = se y x) -> any_same_entity se effects = false -> e ∈ effects ->
  q ∈ (party <$> List.filter (fun e0 => negb (bool_decide (outcome e0 = outcome e)) &&
    negb (se (party e) (party e0))) (sort_by effect_cmp effects)) <->
  exists x, x ∈ effects /\ party x = q /\ outcome x <> outcome e.
Proof.
  intros Hsym Hany He. rewrite any_same_entity_false in Hany.
  assert (forall x, x ∈ effects -> e <> x -> se (party e) (party x) = false) as Hne.
  { intros x Hx%list_elem_of_In Hxy. apply list_elem_of_In in He.
    destruct (ForallOrdPairs_In Hany e x He Hx) as [->|[?|?]]; [done|done|]. by rewrite Hsym. }
  pose proof (sort_by_perm effect_cmp effects) as Hperm. rewrite list_elem_of_fmap. split.
  - intros (x & -> & Hx). rewrite list_elem_of_In, filter_In, <- list_elem_of_In, Hperm in Hx.
    destruct Hx as [Hx Hb]. to_prop. eauto.
  - intros (x & Hx & <- & Hxo). exists x. split; [done|].
    rewrite list_elem_of_In, filter_In, <- list_elem_of_In, Hperm. split; [done|].
    rewrite bool_decide_eq_false_2, Hne by (done || by intros ->). done.
Qed.

(** Normalised dispute effects are the submitted ones in the canonical order, for
    distinct parties of the agreement; and each of them has an opposing counterparty,
    which is the least address among the parties with the other outcome. *)
Theorem dispute_effects_have_counterparty se ps effects out :
  (forall x y, se x y = se y x) ->
  normalize_dispute_reputation_effects se ps effects = Ok out ->
  out ≡ₚ effects /\ Sorted (not_after effect_cmp) out /\ NoDup (party <$> out) /\
  forall e, e ∈ out -> exists q,
    dispute_reputation_counterparty se (party e) (outcome e) out = Some q /\
    (exists e', e' ∈ out /\ party e' = q /\ outcome e' <> outcome e /\ q ∈ ps) /\
    (forall e', e' ∈ out -> outcome e' <> outcome e ->
       bytes_cmp (bn q) (bn (party e')) <> Gt).
Proof.
  intros Hsym Hn. unfold normalize_dispute_reputation_effects in Hn. inv_ok.
  match goal with x : (bool * bool)%type |- _ => destruct x as [w l] end.
  match goal with
  | H1 : _ && _ = false, H2 : any_same_entity _ _ = false |- _ =>
      rename H1 into Ewl, H2 into Eany
  end. cbn [fst snd] in Ewl.
  apply check_effects_Ok in E as (Hin & Hnd & Hw & Hl). cbn in Hw, Hl.
  pose proof (sort_by_perm effect_cmp effects) as Hperm.
  split; [done|]. split; [apply sort_by_sorted, effect_cmp_antisym|].
  split; [by rewrite Hperm|]. intros e He.
  rewrite Hperm in He.
  assert (exists e', e' ∈ effects /\ outcome e' <> outcome e) as (e' & He' & Ho).
  { apply andb_false_iff in Ewl as [Hemp|Hwl].
    - apply negb_false_iff, bool_decide_eq_true in Hemp. subst. by apply not_elem_of_nil in He.
    - apply orb_false_iff in Hwl as [->%negb_false_iff ->%negb_false_iff].
      destruct (outcome e) eqn:Eo.
      + symmetry in Hl. apply existsb_elem in Hl as (x & Hx & Hb). exists x. to_prop.
        split; [done|congruence].
      + symmetry in Hw. apply existsb_elem in Hw as (x & Hx & Hb). exists x. to_prop.
        split; [done|congruence]. }
  pose proof (fun q => counterparty_candidates se effects e q Hsym Eany He) as Hc.
  unfold dispute_reputation_counterparty.
  set (cands := party <$> List.filter _ _) in *.
  destruct (min_address cands) as [q|] eqn:Eq.
  - exists q. apply min_address_spec in Eq as [Hq Hmin]. split; [done|]. split.
    + apply Hc in Hq as (x & Hx & Hxq & Hxo). exists x. rewrite Hperm.
      repeat split; try done. rewrite Forall_forall in Hin.
      rewrite <- Hxq. by apply Hin.
    + intros x Hx Hxo. apply Hmin, Hc. exists x. by rewrite <- Hperm.
  - exfalso. assert (party e' ∈ cands) as Hx by (apply Hc; eauto).
    unfold min_address in Eq. by destruct cands; [apply not_elem_of_nil in Hx|].
Qed.

(** Recording a milestone resolution stores it with that milestone, empties the
    top-level slot, keeps every other milestone's resolution as normalisation left it,
    and a whole-agreement resolution is stored at the top level without touching the
    milestones. *)
Theorem resolution_storage_scoped a i r :
  0 <= i < Z.of_nat (length (milestones a)) ->
  let a' := record_milestone_resolution i r a in
  resolution_for (Some i) a' = Some r /\ resolution_for None a' = None /\
  (forall j, 0 <= j -> j <> i ->
     resolution_for (Some j) a' = resolution_for (Some j) (normalize_resolution_storage a)) /\
  length (milestones a') = length (milestones a) /\
  let w := record_whole_agreement_resolution r a in
  resolution_for None w = Some r /\
  forall j, resolution_for (Some j) w = resolution_for (Some j) (normalize_resolution_storage a).
Proof.
  intros Hi. cbv zeta.
  assert (length (milestones (normalize_resolution_storage a)) = length (milestones a)) as Hlen.
  { unfold normalize_resolution_storage. repeat case_match; cbn; try done.
    by rewrite length_alter. }
  assert (exists m, milestones (normalize_resolution_storage a) !! Z.to_nat i = Some m)
    as [m Hm] by (apply lookup_lt_is_Some; lia).
  unfold record_milestone_resolution, record_whole_agreement_resolution, update_milestone.
  repeat split.
  - cbn. rewrite list_lookup_alter, decide_True by done. rewrite Hm. done.
  - intros j Hj Hne. cbn. rewrite list_lookup_alter_ne by lia. done.
  - cbn. by rewrite length_alter.
Qed.

(** The arbitrator selection score's stake term is 1 at ten million micro-ZIN (the
    ten ZIN at which the comment beside it promises the maximum of 30) and reaches 30
    only at three hundred million. *)
Theorem stake_score_saturation :
  stake_score (2 * MIN_ARBITRATOR_STAKE) = f64_of_Z 1 /\
  stake_score 300000000 = f64_of_Z 30 /\
  SFltb (stake_score 299000000) (f64_of_Z 30) = true.
Proof. split; [|split]; by vm_compute. Qed.

End Agreement.

(** ** Witnesses *)
Module AgreementWitness.
Import Agreement.

Definition party_a : Address := address_last x11.
Definition party_b : Address := address_last x12.
Definition party_c : Address := address_last x13.
Definition same (x y : Address) : bool := bool_decide (x = y).
Definition shares : list AgreementPayoutShare :=
  [{| recipient := party_b; share_bps := 3333 |}; {| recipient := party_c; share_bps := 6667 |}].

Lemma settlement_conserves_escrow_witness :
  distribute_amount 100 shares = [(party_b, 33); (party_c, 67)] /\
  (sumZ (snd <$> distribute_amount 100 shares) = 100 /\
   fst <$> distribute_amount 100 shares = recipient <$> shares /\
   Forall2 (fun a p => p.1 = recipient a /\
     100 * share_bps a / 10000 <= p.2 < 100 * share_bps a / 10000 + Z.of_nat (length shares))
     shares (distribute_amount 100 shares)).
Proof.
  split; [by vm_compute|].
  apply (settlement_conserves_escrow same party_a [party_a; party_b; party_c] party_b shares);
    [repeat constructor; cbn; mlia|mlia|by vm_compute].
Defined.

Definition two_milestones : list MilestoneDef :=
  [{| def_description := lit "draft"; def_amount := 40 |};
   {| def_description := lit "final"; def_amount := 60 |}].

Lemma materialize_milestones_spec_witness :
  exists ms, materialize_agreement_milestones two_milestones 100 = Ok ms /\
    sumZ (amount <$> ms) = 100.
Proof.
  assert (Forall (fun d => is_u64 (def_amount d)) two_milestones) as Hd
    by (repeat constructor; cbn; mlia).
  destruct (materialize_milestones_spec two_milestones 100 Hd ltac:(mlia)) as (_ & H & _).
  eexists. split; [reflexivity|]. by apply H.
Defined.

Definition create_data : AgreementCreateData := {|
  cd_parties := [party_a; party_b; party_c]; cd_terms := blit "terms";
  cd_escrow_amount := 100; cd_expires_at := 0; cd_arbitrator := Some address_treasury;
  cd_milestones := two_milestones; cd_service_provider := party_b;
  cd_settlement_allocations := shares; cd_settlement_approver := Some party_a |}.

Lemma create_data_fits : create_fits create_data.
Proof. split; [cbn; mlia|]. split; repeat constructor; cbn; mlia. Qed.

(** A payload of three parties meets the specification. *)
Lemma validate_create_refines_spec_witness :
  valid_agreement_create same party_a create_data /\
  create_fits create_data /\ sumZ (def_amount <$> two_milestones) = 100.
Proof.
  split; [|split; [exact create_data_fits|done]].
  apply (validate_create_refines_spec same party_a create_data create_data_fits). by vm_compute.
Defined.

Definition agreement0 : Agreement := {|
  agreement_id := hash_zero; parties := [party_a; party_b]; proposer := party_a; terms := [];
  escrow_amount := 100; agreement_status := Active; created_at_block := 1; expires_at := 0;
  accepted_by := [party_a; party_b]; arbitrator := None; agreement_result_hash := None;
  dispute_reason := []; disputed_milestone_index := None; disputed_at := None;
  arbitration_deadline_at := None; arbitration_reassignments := 0; prior_arbitrators := [];
  agreement_resolution := None; milestones := imap materialize_one two_milestones;
  escrow_released := 0; arbitrator_fee_bps := 0; service_provider := party_b;
  settlement_allocations := []; storage_deposit := 0; settlement_approver := None |}.

Lemma escrow_release_sequence_witness :
  let a' := foldl (fun a amt => record_escrow_release amt a) agreement0 [40; 50; 30] in
  escrow_released a' = 100 /\ escrow_released a' + escrow_remaining a' = 100.
Proof.
  split; [by vm_compute|].
  apply (escrow_release_sequence agreement0 [40; 50; 30]); cbn; [lia|mlia|].
  repeat constructor; mlia.
Defined.

Definition effects0 : list AgreementDisputeReputationEffect :=
  [{| party := party_b; outcome := Lost |}; {| party := party_a; outcome := Won |}].

Lemma dispute_effects_have_counterparty_witness :
  exists q, dispute_reputation_counterparty same party_b Lost (reverse effects0) = Some q.
Proof.
  destruct (dispute_effects_have_counterparty same [party_a; party_b] effects0
    (reverse effects0)) as (_ & _ & _ & H).
  - intros x y. unfold same. apply bool_decide_ext. split; congruence.
  - by vm_compute.
  - destruct (H {| party := party_b; outcome := Lost |}) as (q & Hq & _); [|by exists q].
    unfold effects0. cbn. apply list_elem_of_further, list_elem_of_here.
Defined.

Definition resolution0 : DisputeResolution :=
  new_resolution shares effects0 (lit "late") 9 (Some 1).

Lemma resolution_storage_scoped_witness :
  resolution_for (Some 1) (record_milestone_resolution 1 resolution0 agreement0)
    = Some resolution0.
Proof. apply (resolution_storage_scoped agreement0 1 resolution0). cbn. lia. Defined.
End AgreementWitness.
