(* ===== verification/Subscription.v ===== *)
(** * Recurring tool subscriptions

    Models the plan and subscription part of [primitives/tool.rs]: starting and
    restarting a slot, invoke-time coverage, restoring the value of failed invokes,
    period advance from the prepaid reserve, and terminal shutdown.  A method that
    takes [&mut self] returns the new subscription beside its result. *)
From S2P Require Import Prelude Crypto.

Module Subscription.

Inductive SubscriptionOveragePolicy : Type := Deny | PayAsYouGo.
Inductive ToolSubscriptionStatus : Type :=
| Active | Paused | PastDue | CancelRequested | Cancelled.
#[global] Instance Overage_eq_dec : EqDecision SubscriptionOveragePolicy.
Proof. solve_decision. Defined.
#[global] Instance Status_eq_dec : EqDecision ToolSubscriptionStatus.
Proof. solve_decision. Defined.

Definition default_subscription_period_ms : Z := 30 * 24 * 3600000.
Definition default_subscription_auto_renew : bool := true.

Record ToolSubscriptionPlan : Type := {
  plan_plan_id : Hash256;
  plan_tool_id : Hash256;
  plan_provider : Address;
  plan_name : rstr;
  plan_price_per_period : Z;
  plan_period_ms : Z;
  plan_included_calls : Z;
  plan_included_credits : Z;
  plan_overage_policy : SubscriptionOveragePolicy;
  plan_active : bool;
  plan_created_at : Z;
  plan_created_at_block : Z;
  plan_updated_at : Z;
  plan_storage_deposit : Z;
}.

Record ToolSubscription : Type := {
  subscription_id : Hash256;
  plan_id : Hash256;
  tool_id : Hash256;
  subscriber : Address;
  provider : Address;
  price_per_period : Z;
  period_ms : Z;
  included_calls : Z;
  included_credits : Z;
  overage_policy : SubscriptionOveragePolicy;
  current_period_start : Z;
  current_period_end : Z;
  next_renewal_at : Z;
  remaining_calls : Z;
  remaining_credits : Z;
  compensating_calls : Z;
  compensating_credits : Z;
  reserved_balance : Z;
  status : ToolSubscriptionStatus;
  auto_renew : bool;
  created_at : Z;
  created_at_block : Z;
  storage_deposit : Z;
  cancelled_at : option Z;
}.

#[global] Instance eta_ToolSubscription : Eta ToolSubscription := fun s =>
  {| subscription_id := subscription_id s; plan_id := plan_id s; tool_id := tool_id s;
     subscriber := subscriber s; provider := provider s;
     price_per_period := price_per_period s; period_ms := period_ms s;
     included_calls := included_calls s; included_credits := included_credits s;
     overage_policy := overage_policy s; current_period_start := current_period_start s;
     current_period_end := current_period_end s; next_renewal_at := next_renewal_at s;
     remaining_calls := remaining_calls s; remaining_credits := remaining_credits s;
     compensating_calls := compensating_calls s;
     compensating_credits := compensating_credits s;
     reserved_balance := reserved_balance s; status := status s;
     auto_renew := auto_renew s; created_at := created_at s;
     created_at_block := created_at_block s; storage_deposit := storage_deposit s;
     cancelled_at := cancelled_at s |}.

Record SubscriptionCoverage : Type := {
  covered_amount : Z;
  uncovered_amount : Z;
  used_call : bool;
}.
Record SubscriptionAdvanceOutcome : Type := {
  renewed_periods : Z;
  provider_credit : Z;
}.
Record SubscriptionTerminalShutdownOutcome : Type := {
  reserve_refund : Z;
  compensation_refund : Z;
}.

Definition start_or_restart_from_plan (reusable : option ToolSubscription)
    (subscription_id : Hash256) (plan : ToolSubscriptionPlan) (subscriber : Address)
    (now_ms current_block reserve_amount : Z) (auto_renew : bool)
    (additional_storage_deposit : Z) : ToolSubscription :=
  let '(calls, credits, existing_storage_deposit) :=
    match reusable with
    | Some s => (compensating_calls s, compensating_credits s, storage_deposit s)
    | None => (0, 0, 0)
    end in
  {| subscription_id := subscription_id;
     plan_id := plan_plan_id plan;
     tool_id := plan_tool_id plan;
     subscriber := subscriber;
     provider := plan_provider plan;
     price_per_period := plan_price_per_period plan;
     period_ms := plan_period_ms plan;
     included_calls := plan_included_calls plan;
     included_credits := plan_included_credits plan;
     overage_policy := plan_overage_policy plan;
     current_period_start := now_ms;
     current_period_end := sat_add now_ms (plan_period_ms plan);
     next_renewal_at := sat_add now_ms (plan_period_ms plan);
     remaining_calls := plan_included_calls plan;
     remaining_credits := plan_included_credits plan;
     compensating_calls := calls;
     compensating_credits := credits;
     reserved_balance := reserve_amount;
     status := Active;
     auto_renew := auto_renew;
     created_at := now_ms;
     created_at_block := current_block;
     storage_deposit := sat_add existing_storage_deposit additional_storage_deposit;
     cancelled_at := None |}.

Definition can_accept_reserve_top_up (s : ToolSubscription) : bool :=
  match status s with Active | Paused | PastDue => true | _ => false end.

Definition is_usable_at (s : ToolSubscription) (now_ms : Z) : bool :=
  (now_ms <? current_period_end s) &&
  match status s with Active | CancelRequested => true | _ => false end.

Definition has_compensating_entitlement (s : ToolSubscription) : bool :=
  (0 <? compensating_calls s) || (0 <? compensating_credits s).

Definition compensating_refund_value (s : ToolSubscription) (call_value : Z) : Z :=
  sat_add (compensating_credits s) (sat_mul call_value (compensating_calls s)).

Definition requires_subscription_compatible_tool (s : ToolSubscription) : bool :=
  negb (bool_decide (status s = Cancelled)) || (0 <? reserved_balance s)
  || has_compensating_entitlement s.

Definition is_invoke_usable_at (s : ToolSubscription) (now_ms : Z) : bool :=
  is_usable_at s now_ms
  || (has_compensating_entitlement s && negb (bool_decide (status s = Paused))).

Definition consume_allowance (s : ToolSubscription) (tool_price : Z)
    : ToolSubscription * SubscriptionCoverage :=
  if 0 <? compensating_calls s then
    (s <| compensating_calls := compensating_calls s - 1 |>,
     {| covered_amount := tool_price; uncovered_amount := 0; used_call := true |})
  else if 0 <? remaining_calls s then
    (s <| remaining_calls := remaining_calls s - 1 |>,
     {| covered_amount := tool_price; uncovered_amount := 0; used_call := true |})
  else
    let from_compensation := Z.min (compensating_credits s) tool_price in
    let uncovered := sat_sub tool_price from_compensation in
    let from_period := Z.min (remaining_credits s) uncovered in
    let covered := sat_add from_compensation from_period in
    (s <| compensating_credits := sat_sub (compensating_credits s) from_compensation |>
       <| remaining_credits := sat_sub (remaining_credits s) from_period |>,
     {| covered_amount := covered; uncovered_amount := sat_sub tool_price covered;
        used_call := false |}).

Definition restore_allowance_as_compensation (s : ToolSubscription) (covered : Z)
    (used : bool) : ToolSubscription :=
  if used then s <| compensating_calls := sat_add32 (compensating_calls s) 1 |>
  else if 0 <? covered then
    s <| compensating_credits := sat_add (compensating_credits s) covered |>
  else s.

Definition terminate_for_unrecoverable_service_loss (s : ToolSubscription)
    (now_ms compensating_call_value : Z)
    : ToolSubscription * SubscriptionTerminalShutdownOutcome :=
  let outcome :=
    {| reserve_refund := reserved_balance s;
       compensation_refund := compensating_refund_value s compensating_call_value |} in
  let s := s <| reserved_balance := 0 |> <| compensating_calls := 0 |>
             <| compensating_credits := 0 |> <| auto_renew := false |>
             <| status := Cancelled |> in
  (match cancelled_at s with None => s <| cancelled_at := Some now_ms |> | Some _ => s end,
   outcome).

Definition no_outcome : SubscriptionAdvanceOutcome :=
  {| renewed_periods := 0; provider_credit := 0 |}.

(** The paused branch of [advance_periods]: the billing clock restarts at [now_ms]. *)
Definition resume_clock (s : ToolSubscription) (now_ms : Z) : ToolSubscription :=
  if bool_decide (status s = Paused) then
    s <| current_period_start := now_ms |> <| current_period_end := now_ms |>
      <| next_renewal_at := now_ms |>
  else s.

Definition periods_due (s : ToolSubscription) (now_ms : Z) : Z :=
  let elapsed := sat_sub now_ms (current_period_end s) in
  sat_add (if period_ms s =? 0 then 0 else elapsed / period_ms s) 1.

(** The renewing branches of [advance_periods]. *)
Definition renew_periods (s : ToolSubscription) (now_ms : Z)
    : ToolSubscription * SubscriptionAdvanceOutcome :=
  let due := periods_due s now_ms in
  let affordable :=
    if price_per_period s =? 0 then due
    else Z.min due (reserved_balance s / price_per_period s) in
  if affordable =? 0 then
    (s <| status := PastDue |> <| remaining_calls := 0 |> <| remaining_credits := 0 |>,
     no_outcome)
  else
    let total_cost := sat_mul (price_per_period s) affordable in
    let charged := 0 <? price_per_period s in
    let s1 := if charged
      then s <| reserved_balance := sat_sub (reserved_balance s) total_cost |> else s in
    let credit := if charged then total_cost else 0 in
    let advanced_ms := sat_mul (period_ms s1) affordable in
    let s2 := s1 <| current_period_end := sat_add (current_period_end s1) advanced_ms |> in
    let s3 := s2 <| current_period_start := sat_sub (current_period_end s2) (period_ms s2) |> in
    let s4 := s3 <| next_renewal_at := current_period_end s3 |> in
    let outcome := {| renewed_periods := Z.min affordable U32_MAX; provider_credit := credit |} in
    (if affordable <? due then
       s4 <| status := PastDue |> <| remaining_calls := 0 |> <| remaining_credits := 0 |>
     else
       s4 <| remaining_calls := included_calls s4 |>
          <| remaining_credits := included_credits s4 |> <| status := Active |>,
     outcome).

Definition advance_periods (s : ToolSubscription) (now_ms : Z) (service_available : bool)
    : ToolSubscription * SubscriptionAdvanceOutcome :=
  if bool_decide (status s = CancelRequested) && (current_period_end s <=? now_ms) then
    (s <| status := Cancelled |>, no_outcome)
  else if now_ms <? current_period_end s then (s, no_outcome)
  else if negb (auto_renew s) ||
          match status s with CancelRequested | Cancelled => true | _ => false end then
    (s <| status := Cancelled |>, no_outcome)
  else if negb service_available then (s <| status := Paused |>, no_outcome)
  else renew_periods (resume_clock s now_ms) now_ms.

(** ** Well-formed subscriptions *)

Record wf (s : ToolSubscription) : Prop := {
  wf_price : is_u64 (price_per_period s);
  wf_period : is_u64 (period_ms s);
  wf_calls : 0 <= remaining_calls s <= included_calls s;
  wf_credits : 0 <= remaining_credits s <= included_credits s;
  wf_included : is_u32 (included_calls s) /\ is_u64 (included_credits s);
  wf_comp : is_u32 (compensating_calls s) /\ is_u64 (compensating_credits s);
  wf_reserve : is_u64 (reserved_balance s);
  wf_bounds : 0 <= current_period_start s <= current_period_end s /\
    current_period_end s <= U64_MAX;
  wf_renewal : next_renewal_at s = current_period_end s;
}.
#[local] Hint Constructors wf : core.

(** The commercial terms, frozen when the subscription starts. *)
Definition terms (s : ToolSubscription) :=
  (subscription_id s, plan_id s, tool_id s, subscriber s, provider s, price_per_period s,
   period_ms s, included_calls s, included_credits s, overage_policy s).

(** Total entitlement: what the current period still grants and what was restored. *)
Definition total_calls (s : ToolSubscription) : Z := remaining_calls s + compensating_calls s.
Definition total_credits (s : ToolSubscription) : Z :=
  remaining_credits s + compensating_credits s.

(** ** Advancing periods: the specification

    One billing step from the start of the due window.  [e] is where the paid time ends
    (the period's end, or now for a paused subscription) and [k] periods are bought. *)
Definition due_from (s : ToolSubscription) (now : Z) : Z :=
  if bool_decide (status s = Paused) then now else current_period_end s.
Definition renewable (s : ToolSubscription) : Prop :=
  auto_renew s = true /\ status s <> CancelRequested /\ status s <> Cancelled.

(** Nothing but the listed fields changes. *)
Definition same_entitlements (s s' : ToolSubscription) : Prop :=
  terms s' = terms s /\ compensating_calls s' = compensating_calls s /\
  compensating_credits s' = compensating_credits s /\ auto_renew s' = auto_renew s /\
  cancelled_at s' = cancelled_at s.

Inductive advance_spec (s : ToolSubscription) (now : Z) (available : bool)
  : ToolSubscription -> Z -> Z -> Prop :=
| adv_within : now < current_period_end s -> advance_spec s now available s 0 0
| adv_cancel :
    current_period_end s <= now -> ~ renewable s ->
    advance_spec s now available (s <| status := Cancelled |>) 0 0
| adv_pause :
    current_period_end s <= now -> renewable s -> available = false ->
    advance_spec s now available (s <| status := Paused |>) 0 0
| adv_short s' k :
    current_period_end s <= now -> renewable s -> available = true ->
    0 <= k -> same_entitlements s s' ->
    status s' = PastDue -> remaining_calls s' = 0 -> remaining_credits s' = 0 ->
    reserved_balance s' = reserved_balance s - k * price_per_period s ->
    0 <= reserved_balance s' < price_per_period s ->
    current_period_end s' = due_from s now + k * period_ms s ->
    current_period_end s' <= now ->
    advance_spec s now available s' k (k * price_per_period s)
| adv_full s' k :
    current_period_end s <= now -> renewable s -> available = true ->
    1 <= k -> same_entitlements s s' ->
    status s' = Active -> remaining_calls s' = included_calls s ->
    remaining_credits s' = included_credits s ->
    reserved_balance s' = reserved_balance s - k * price_per_period s ->
    0 <= reserved_balance s' ->
    current_period_end s' = due_from s now + k * period_ms s ->
    current_period_start s' = current_period_end s' - period_ms s ->
    current_period_start s' <= now < current_period_end s' ->
    advance_spec s now available s' k (k * price_per_period s).

Lemma renewable_dec s :
  negb (auto_renew s) || match status s with CancelRequested | Cancelled => true | _ => false end
    = false <-> renewable s.
Proof.
  unfold renewable. destruct (auto_renew s), (status s); cbn; split; try done;
    intros (? & ? & ?); done.
Qed.

Lemma resume_clock_due s now : current_period_end (resume_clock s now) = due_from s now.
Proof. unfold resume_clock, due_from. by case_bool_decide. Qed.

Lemma resume_clock_same s now :
  same_entitlements s (resume_clock s now) /\
  reserved_balance (resume_clock s now) = reserved_balance s /\
  price_per_period (resume_clock s now) = price_per_period s /\
  period_ms (resume_clock s now) = period_ms s.
Proof. unfold resume_clock. by case_bool_decide. Qed.

(** The number of periods due is exact while clocks fit [u64]. *)
Lemma periods_due_exact s now :
  is_u64 now -> 0 < period_ms s -> 0 <= current_period_end s <= now ->
  now + period_ms s <= U64_MAX ->
  periods_due s now = (now - current_period_end s) / period_ms s + 1.
Proof.
  intros Hn Hp He Hm. unfold periods_due. rewrite (proj2 (Z.eqb_neq _ _)) by lia.
  assert (0 <= (now - current_period_end s) / period_ms s <= now - current_period_end s).
  { split; [apply Z.div_pos; lia|]. apply Z.div_le_upper_bound; nia. }
  unfold sat_sub, sat_add. rewrite (Z.max_l (now - _)) by lia. mlia.
Qed.

(** What [renew_periods] does once the due count [d] is known. *)
Lemma renew_periods_spec s now d :
  wf s -> is_u64 now -> 0 < period_ms s -> current_period_end s <= now ->
  now + period_ms s <= U64_MAX -> d = (now - current_period_end s) / period_ms s + 1 ->
  let '(s', o) := renew_periods s now in
  exists k, 0 <= k <= d /\ renewed_periods o = Z.min k U32_MAX /\
    provider_credit o = k * price_per_period s /\ same_entitlements s s' /\
    reserved_balance s' = reserved_balance s - k * price_per_period s /\
    0 <= reserved_balance s' /\
    current_period_end s' = current_period_end s + k * period_ms s /\
    (k < d -> status s' = PastDue /\ remaining_calls s' = 0 /\ remaining_credits s' = 0 /\
      reserved_balance s' < price_per_period s) /\
    (k = d -> status s' = Active /\ remaining_calls s' = included_calls s /\
      remaining_credits s' = included_credits s /\
      current_period_start s' = current_period_end s' - period_ms s).
Proof.
  intros [Hpr Hpe _ _ _ _ Hres [Hb1 Hb2] _] Hn Hp He Hm ->.
  pose proof (periods_due_exact s now Hn Hp ltac:(lia) Hm) as Hd.
  set (d := (now - current_period_end s) / period_ms s + 1) in *.
  assert (1 <= d) by (subst d; pose proof (Z.div_pos (now - current_period_end s)
    (period_ms s)); lia).
  assert (d * period_ms s <= now - current_period_end s + period_ms s) as Hdm.
  { subst d. pose proof (Z.mul_div_le (now - current_period_end s) (period_ms s)). lia. }
  unfold renew_periods. rewrite Hd.
  set (k := if price_per_period s =? 0 then d
            else Z.min d (reserved_balance s / price_per_period s)).
  assert (0 <= k <= d /\ k * price_per_period s <= reserved_balance s /\
    (k < d -> reserved_balance s - k * price_per_period s < price_per_period s))
    as (Hk & Hkr & Hlt).
  { subst k. destruct (Z.eqb_spec (price_per_period s) 0) as [E0|E0]; [rewrite E0; mlia|].
    assert (0 < price_per_period s) by mlia.
    pose proof (Z.div_mod (reserved_balance s) (price_per_period s) E0).
    pose proof (Z.mod_pos_bound (reserved_balance s) (price_per_period s) ltac:(lia)).
    assert (0 <= reserved_balance s / price_per_period s) by (apply Z.div_pos; mlia).
    split; [lia|]. split; [nia|nia]. }
  destruct (Z.eqb_spec k 0) as [E|E].
  { exists 0. rewrite E in *. cbn. repeat split; try done; try mlia; intros; lia. }
  assert (0 <= k * period_ms s <= d * period_ms s) by nia.
  exists k. destruct (Z.ltb_spec 0 (price_per_period s)) as [Hc|Hc];
    destruct (Z.ltb_spec k d) as [Hkd|Hkd]; cbn;
    repeat split; try done; try mlia; unfold_width; try nia; intros; try lia.
Qed.

(** C34: advancing a subscription's billing refines the period specification, for a well-formed
    subscription with a positive period, at a time after which one more period still fits 64
    bits. Before the end of the paid period nothing changes. From its end on, a subscription
    that does not renew automatically, whose cancellation was requested or which is cancelled,
    becomes cancelled, and one whose service is unavailable becomes paused, free of charge and
    otherwise as it was. In every other case whole periods are bought at the frozen price,
    counted from the end of the paid period, or from the current time if it was paused; the
    provider is credited exactly what leaves the reserve, and the subscription is then either
    Active, with full allowances, in the one period that contains the current time, or PastDue,
    without allowances, paid up to no later than the current time, with less than one period's
    price in reserve. The number of periods reported is the number bought, at most 2^32 - 1. *)
Theorem advance_refines_spec s now available :
  wf s -> is_u64 now -> 0 < period_ms s -> now + period_ms s <= U64_MAX ->
  let '(s', o) := advance_periods s now available in
  exists k, renewed_periods o = Z.min k U32_MAX /\
    advance_spec s now available s' k (provider_credit o).
Proof.
  intros Hwf Hn Hp Hm. unfold advance_periods.
  destruct (bool_decide (status s = CancelRequested) && (current_period_end s <=? now)) eqn:E1.
  { to_prop. exists 0. split; [done|]. apply adv_cancel; [done|]. by intros (_ & ? & _). }
  clear E1.
  destruct (Z.ltb_spec now (current_period_end s)) as [Hlt|Hge].
  { exists 0. split; [done|]. by apply adv_within. }
  destruct (negb (auto_renew s) || _) eqn:E2.
  { exists 0. split; [done|]. apply adv_cancel; [done|].
    intros Hr%renewable_dec. congruence. }
  apply renewable_dec in E2. destruct available; cbn [negb]; [|exists 0; split; [done|];
    by apply adv_pause].
  pose proof (resume_clock_due s now) as Hdue.
  pose proof (resume_clock_same s now) as (Hsame & Hres & Hprice & Hper).
  assert (0 <= current_period_end (resume_clock s now) <= now) as Hce.
  { rewrite Hdue. unfold due_from. pose proof (wf_bounds s Hwf). case_bool_decide; mlia. }
  assert (wf (resume_clock s now)) as Hwf'.
  { unfold resume_clock. case_bool_decide; [|done]. destruct Hwf. split; cbn; try done. mlia. }
  assert (0 < period_ms (resume_clock s now)) as Hp' by (by rewrite Hper).
  assert (now + period_ms (resume_clock s now) <= U64_MAX) as Hm' by (by rewrite Hper).
  pose proof (renew_periods_spec (resume_clock s now) now _ Hwf' Hn Hp' ltac:(lia) Hm' eq_refl)
    as Hspec.
  destruct (renew_periods (resume_clock s now) now) as [s' o].
  destruct Hspec as (k & Hk & Hrp & Hpc & Hse & Hrb & Hrb0 & Hend & Hshort & Hfull).
  rewrite Hprice, Hper, Hres, Hdue in *. exists k. split; [done|]. rewrite Hpc.
  set (e := due_from s now) in *.
  set (d := (now - e) / period_ms s + 1) in *.
  pose proof (Z.mul_div_le (now - e) (period_ms s) Hp).
  pose proof (Z.mul_succ_div_gt (now - e) (period_ms s) Hp).
  assert (same_entitlements s s') as Hse'.
  { unfold same_entitlements in *. intuition congruence. }
  assert (included_calls (resume_clock s now) = included_calls s /\
    included_credits (resume_clock s now) = included_credits s) as [Hi1 Hi2]
    by (unfold resume_clock; by case_bool_decide).
  rewrite Hi1, Hi2 in *.
  destruct (Z.eq_dec k d) as [->|Hne].
  - destruct (Hfull eq_refl) as (? & ? & ? & ?). apply adv_full; try done; subst d; nia.
  - destruct (Hshort ltac:(lia)) as (? & ? & ? & ?). apply adv_short; try done; try lia.
    assert (k * period_ms s <= (d - 1) * period_ms s) by nia. subst d. lia.
Qed.

(** An invocation is covered for its whole price by an included call, restored calls
    first, or else by credits as far as they reach, restored credits first; covered and
    uncovered parts add up to the price, exactly what was covered leaves the
    entitlement, and restoring it after a failed invocation gives the entitlement back
    without touching the period, the reserve or the status. *)
Theorem consume_restore_conserves s price :
  wf s -> is_u64 price -> total_calls s <= U32_MAX -> total_credits s <= U64_MAX ->
  let '(s1, c) := consume_allowance s price in
  let s2 := restore_allowance_as_compensation s1 (covered_amount c) (used_call c) in
  covered_amount c + uncovered_amount c = price /\
  used_call c = (0 <? total_calls s) /\
  (used_call c = true -> covered_amount c = price /\ total_calls s1 = total_calls s - 1 /\
     total_credits s1 = total_credits s /\
     (0 < compensating_calls s -> remaining_calls s1 = remaining_calls s)) /\
  (used_call c = false -> covered_amount c = Z.min price (total_credits s) /\
     total_credits s1 = total_credits s - covered_amount c /\
     total_calls s1 = total_calls s /\
     (remaining_credits s1 < remaining_credits s -> compensating_credits s1 = 0)) /\
  wf s1 /\ wf s2 /\ total_calls s2 = total_calls s /\ total_credits s2 = total_credits s /\
  same_entitlements s (s2 <| compensating_calls := compensating_calls s |>
                          <| compensating_credits := compensating_credits s |>) /\
  status s2 = status s /\ reserved_balance s2 = reserved_balance s.
Proof.
  intros Hwf Hp Hc Hd. unfold total_calls, total_credits in *.
  pose proof Hwf as [Hpr Hpe Hrc Hrd [Hi1 Hi2] [Hcc Hcd] Hres Hb Hn].
  unfold consume_allowance, restore_allowance_as_compensation.
  destruct (Z.ltb_spec 0 (compensating_calls s)); [|destruct (Z.ltb_spec 0 (remaining_calls s))];
    cbn.
  1, 2: rewrite (proj2 (Z.ltb_lt _ _)) by mlia;
    repeat split; cbn; try done; try mlia; try (intros; discriminate).
  rewrite (proj2 (Z.ltb_ge _ _)) by mlia.
  set (c1 := Z.min (compensating_credits s) price).
  set (c2 := Z.min (remaining_credits s) (sat_sub price c1)).
  assert (sat_add c1 c2 = c1 + c2) as -> by (subst c1 c2; mlia).
  destruct (Z.ltb_spec 0 (c1 + c2)); cbn;
    repeat split; cbn; try done; subst c1 c2; try mlia; try (intros; discriminate).
Qed.

(** ** Runs

    The calls the chain makes on one subscription, in any order, with the money each
    moves out of the reserve. *)
Inductive event : Type :=
| EvInvoke (price : Z)
| EvRestore (covered : Z) (used : bool)
| EvAdvance (now : Z) (available : bool)
| EvShutdown (now call_value : Z).

Definition event_ok (e : event) : Prop :=
  match e with
  | EvInvoke p => is_u64 p
  | EvRestore c _ => is_u64 c
  | EvAdvance now _ => is_u64 now
  | EvShutdown _ _ => True
  end.

Definition apply_event (s : ToolSubscription) (e : event) : ToolSubscription * Z :=
  match e with
  | EvInvoke price => ((consume_allowance s price).1, 0)
  | EvRestore covered used => (restore_allowance_as_compensation s covered used, 0)
  | EvAdvance now available =>
      let '(s', o) := advance_periods s now available in (s', provider_credit o)
  | EvShutdown now v =>
      let '(s', o) := terminate_for_unrecoverable_service_loss s now v in (s', reserve_refund o)
  end.

Fixpoint run (s : ToolSubscription) (es : list event) : ToolSubscription * Z :=
  match es with
  | [] => (s, 0)
  | e :: es' =>
      let '(s1, paid) := apply_event s e in
      let '(s2, rest) := run s1 es' in (s2, paid + rest)
  end.

(** What every event keeps. *)
Definition keeps (s s' : ToolSubscription) (paid : Z) : Prop :=
  wf s' /\ terms s' = terms s /\ 0 <= paid /\
  reserved_balance s' + paid = reserved_balance s /\
  (status s = Cancelled -> status s' = Cancelled).

Lemma keeps_refl s : wf s -> keeps s s 0.
Proof. intros Hwf. split; [done|]. repeat split; [lia|lia|done]. Qed.

Lemma keeps_consume s price : wf s -> is_u64 price -> keeps s (consume_allowance s price).1 0.
Proof.
  intros Hwf Hp. pose proof Hwf as [? ? ? ? [? ?] [? ?] ? [? ?] ?].
  unfold consume_allowance.
  destruct (Z.ltb_spec 0 (compensating_calls s)); [|destruct (Z.ltb_spec 0 (remaining_calls s))];
    repeat split; cbn; try done; mlia.
Qed.

Lemma keeps_restore s c used : wf s -> is_u64 c ->
  keeps s (restore_allowance_as_compensation s c used) 0.
Proof.
  intros Hwf Hc. pose proof Hwf as [? ? ? ? [? ?] [? ?] ? [? ?] ?].
  unfold restore_allowance_as_compensation.
  destruct used; [|destruct (Z.ltb_spec 0 c)]; repeat split; cbn; try done; mlia.
Qed.

Lemma keeps_renew s now : wf s -> is_u64 now -> status s <> Cancelled ->
  keeps s (renew_periods s now).1 (provider_credit (renew_periods s now).2).
Proof.
  intros Hwf Hn Hst. pose proof Hwf as [Hpr Hpe ? ? [? ?] [? ?] Hres [? ?] ?].
  unfold renew_periods. set (d := periods_due s now).
  assert (1 <= d) as Hd.
  { subst d. unfold periods_due. destruct (period_ms s =? 0) eqn:E; [mlia|]. to_prop.
    assert (0 <= sat_sub now (current_period_end s) / period_ms s) by (apply Z.div_pos; mlia).
    mlia. }
  set (k := if price_per_period s =? 0 then d else _).
  assert (0 <= k /\ k * price_per_period s <= reserved_balance s) as [Hk Hkr].
  { subst k. destruct (Z.eqb_spec (price_per_period s) 0) as [E0|E0]; [rewrite E0; mlia|].
    assert (0 < price_per_period s) by mlia.
    pose proof (Z.mul_div_le (reserved_balance s) (price_per_period s) ltac:(lia)).
    assert (0 <= reserved_balance s / price_per_period s) by (apply Z.div_pos; mlia). nia. }
  destruct (k =? 0); [repeat split; cbn; try done; mlia|].
  assert (0 <= period_ms s * k) by (unfold is_u64 in *; nia).
  destruct (Z.ltb_spec 0 (price_per_period s)); destruct (k <? d); repeat split; cbn;
    try done; unfold_width; nia.
Qed.

Lemma keeps_advance s now available : wf s -> is_u64 now ->
  keeps s (advance_periods s now available).1 (provider_credit (advance_periods s now available).2).
Proof.
  intros Hwf Hn. pose proof Hwf as [? ? ? ? [? ?] [? ?] ? [? ?] ?].
  unfold advance_periods.
  destruct (bool_decide (status s = CancelRequested) && _);
    [repeat split; cbn; try done; mlia|].
  destruct (now <? current_period_end s); [by apply keeps_refl|].
  destruct (negb (auto_renew s) || _) eqn:E; [repeat split; cbn; try done; mlia|].
  apply renewable_dec in E as (_ & _ & Hnc).
  destruct available; cbn [negb]; [|repeat split; cbn; try done; mlia].
  destruct (resume_clock_same s now) as ((Ht & _) & Hr & _).
  assert (wf (resume_clock s now)).
  { unfold resume_clock. case_bool_decide; [|done]. split; cbn; try done; mlia. }
  destruct (keeps_renew (resume_clock s now) now) as (K1 & K2 & K3 & K4 & _); [done..| |].
  { unfold resume_clock. by case_bool_decide. }
  rewrite Hr, Ht in *. repeat split; try done; try apply K1.
Qed.

Lemma keeps_event s e : wf s -> event_ok e ->
  keeps s (apply_event s e).1 (apply_event s e).2.
Proof.
  intros Hwf He. destruct e as [p|c u|now av|now v]; cbn in He |- *.
  - by apply keeps_consume.
  - by apply keeps_restore.
  - pose proof (keeps_advance s now av Hwf He). by destruct (advance_periods s now av).
  - pose proof Hwf as [? ? ? ? [? ?] [? ?] ? [? ?] ?].
    destruct (cancelled_at s); repeat split; cbn; try done; mlia.
Qed.

(** C7: over any sequence of invocations, restorations, billing advances and a shutdown
    of a freshly started subscription the state stays well formed (allowances within
    the plan, ordered period bounds, every field in its width), the commercial terms
    stay those of the plan, and every unit of reserve is accounted for: credited to the
    provider, refunded, or still reserved. A cancelled subscription stays cancelled. *)
Theorem subscription_run_ledger plan id who now block reserve renew deposit es :
  is_u64 (plan_price_per_period plan) -> is_u64 (plan_period_ms plan) ->
  is_u32 (plan_included_calls plan) -> is_u64 (plan_included_credits plan) ->
  is_u64 now -> is_u64 reserve -> Forall event_ok es ->
  let s := start_or_restart_from_plan None id plan who now block reserve renew deposit in
  let '(s', paid) := run s es in
  wf s' /\ terms s' = terms s /\ 0 <= paid /\ reserved_balance s' + paid = reserve /\
  forall es', Forall event_ok es' -> status s' = Cancelled -> status (run s' es').1 = Cancelled.
Proof.
  intros Hpr Hpe Hc Hcr Hn Hr Hes. cbv zeta.
  set (s := start_or_restart_from_plan None id plan who now block reserve renew deposit).
  assert (wf s) as Hwf by (subst s; split; cbn; try done; mlia).
  assert (forall es s, Forall event_ok es -> wf s -> keeps s (run s es).1 (run s es).2) as Hrun.
  { clear. induction es as [|e es IH]; intros s Hes Hwf; cbn; [by apply keeps_refl|].
    inversion Hes as [|? ? He Hes']; subst.
    destruct (keeps_event s e Hwf He) as (A1 & A2 & A3 & A4 & A5).
    destruct (apply_event s e) as [s1 p1]. cbn in *.
    destruct (IH s1 Hes' A1) as (B1 & B2 & B3 & B4 & B5).
    destruct (run s1 es) as [s2 p2]. cbn in *.
    repeat split; try apply B1; try congruence; try lia. auto. }
  destruct (Hrun es s Hes Hwf) as (K1 & K2 & K3 & K4 & K5).
  destruct (run s es) as [s' paid]. cbn in *. repeat split; try apply K1; try done.
  intros es' Hes' Hst. by apply (Hrun es' s' Hes' K1).
Qed.

End Subscription.

(** A concrete plan: price 10 per period of 100 ms, three calls and 50 credits. *)
Module SubscriptionWitness.
Import Subscription.

Definition plan0 : ToolSubscriptionPlan := {|
  plan_plan_id := hash_zero; plan_tool_id := hash_zero; plan_provider := address_treasury;
  plan_name := lit "basic"; plan_price_per_period := 10; plan_period_ms := 100;
  plan_included_calls := 1; plan_included_credits := 50; plan_overage_policy := PayAsYouGo;
  plan_active := true; plan_created_at := 0; plan_created_at_block := 0;
  plan_updated_at := 0; plan_storage_deposit := 0 |}.
Definition sub0 : ToolSubscription :=
  start_or_restart_from_plan None hash_zero plan0 address_foundation 0 0 25 true 0.

Lemma wf_sub0 : wf sub0.
Proof. split; by_compute. Qed.

(** At 250 ms two of the two periods due are affordable. *)
Lemma advance_refines_spec_witness :
  status (advance_periods sub0 250 true).1 = Active /\
  exists k, advance_spec sub0 250 true (advance_periods sub0 250 true).1 k 20.
Proof.
  split; [by vm_compute|].
  assert (is_u64 250 /\ 0 < period_ms sub0 /\ 250 + period_ms sub0 <= U64_MAX) as (A & B & C)
    by by_compute.
  pose proof (advance_refines_spec sub0 250 true wf_sub0 A B C) as T.
  destruct (advance_periods sub0 250 true) as [s' o] eqn:E.
  destruct T as (k & _ & T). exists k.
  assert (provider_credit o = 20) as <- by (vm_compute in E; by injection E as _ <-).
  exact T.
Defined.

Lemma consume_restore_conserves_witness :
  covered_amount (consume_allowance sub0 70).2 + uncovered_amount (consume_allowance sub0 70).2
    = 70.
Proof.
  assert (is_u64 70 /\ total_calls sub0 <= U32_MAX /\ total_credits sub0 <= U64_MAX)
    as (A & B & C) by by_compute.
  pose proof (consume_restore_conserves sub0 70 wf_sub0 A B C) as T.
  destruct (consume_allowance sub0 70) as [s1 c]. apply T.
Defined.

(** Two invocations, a failed one restored, a renewal, and a shutdown. *)
Definition run0 : list event :=
  [EvInvoke 30; EvInvoke 70; EvRestore 30 true; EvAdvance 120 true; EvAdvance 260 false;
   EvAdvance 900 true; EvShutdown 950 30].

Lemma subscription_run_ledger_witness :
  (run sub0 run0).2 = 25 /\ wf (run sub0 run0).1.
Proof.
  split; [by vm_compute|].
  assert (is_u64 10 /\ is_u64 100 /\ is_u32 1 /\ is_u64 50 /\ is_u64 0 /\ is_u64 25)
    as (A1 & A2 & A3 & A4 & A5 & A6) by by_compute.
  assert (Forall event_ok run0) as Hes by (repeat constructor; by_compute).
  pose proof (subscription_run_ledger plan0 hash_zero address_foundation 0 0 25 true 0 run0
    A1 A2 A3 A4 A5 A6 Hes) as T.
  cbv zeta in T. change (start_or_restart_from_plan None hash_zero plan0 address_foundation 0 0 25
    true 0) with sub0 in T.
  destruct (run sub0 run0) as [s' paid]. apply T.
Defined.
End SubscriptionWitness.
