(* ===== verification/ToolJob.v ===== *)
(** * Escrowed tool jobs and metered sessions

    Models the job part of [primitives/tool.rs]: milestone-escrowed jobs with their
    sequential milestones, the metered usage session record, and the payloads of the
    transactions that drive them. *)
From S2P Require Import Prelude Crypto.

Module ToolJob.

Inductive ToolJobStatus : Type := JobOpen | JobSubmitted | JobDisputed.
Inductive ToolMilestoneStatus : Type := Pending | Submitted | Disputed | Completed.
#[global] Instance JobStatus_eq_dec : EqDecision ToolJobStatus.
Proof. solve_decision. Defined.
#[global] Instance ToolMilestoneStatus_eq_dec : EqDecision ToolMilestoneStatus.
Proof. solve_decision. Defined.

Record ToolMilestoneDef : Type := { def_label : rstr; def_amount : Z }.

Record ToolMilestone : Type := {
  label : rstr;
  amount : Z;
  m_status : ToolMilestoneStatus;
  m_submit_deadline : option Z;
  m_result_hash : option Hash256;
  m_result_metadata : list byte;
  m_submitted_at : option Z;
  m_challenge_deadline : option Z;
  m_dispute_reason : option rstr;
  m_disputed_at : option Z;
}.
#[global] Instance eta_ToolMilestone : Eta ToolMilestone := fun m =>
  {| label := label m; amount := amount m; m_status := m_status m;
     m_submit_deadline := m_submit_deadline m; m_result_hash := m_result_hash m;
     m_result_metadata := m_result_metadata m; m_submitted_at := m_submitted_at m;
     m_challenge_deadline := m_challenge_deadline m;
     m_dispute_reason := m_dispute_reason m; m_disputed_at := m_disputed_at m |}.

(** [From<ToolMilestoneDef> for ToolMilestone]. *)
Definition milestone_from_def (value : ToolMilestoneDef) : ToolMilestone :=
  {| label := def_label value; amount := def_amount value; m_status := Pending;
     m_submit_deadline := None; m_result_hash := None; m_result_metadata := [];
     m_submitted_at := None; m_challenge_deadline := None; m_dispute_reason := None;
     m_disputed_at := None |}.

Record ToolJob : Type := {
  job_id : Hash256;
  tool_id : Hash256;
  requester : Address;
  provider : Address;
  arbitrator : option Address;
  amount_escrowed : Z;
  storage_deposit : Z;
  sla_ms : Z;
  subscription_id : option Hash256;
  subscription_covered_amount : Z;
  subscription_used_call : bool;
  input_data : list byte;
  input_hash : Hash256;
  status : ToolJobStatus;
  opened_at : Z;
  opened_at_block : Z;
  challenge_window_ms : Z;
  max_result_metadata_bytes : Z;
  arbitrator_fee_bps : Z;
  submit_deadline : Z;
  result_hash : option Hash256;
  result_metadata : list byte;
  submitted_at : option Z;
  challenge_deadline : option Z;
  dispute_reason : option rstr;
  disputed_at : option Z;
  arbitration_deadline_at : option Z;
  arbitration_reassignments : Z;
  prior_arbitrators : list Address;
  milestones : list ToolMilestone;
}.
#[global] Instance eta_ToolJob : Eta ToolJob := fun j =>
  {| job_id := job_id j; tool_id := tool_id j; requester := requester j;
     provider := provider j; arbitrator := arbitrator j;
     amount_escrowed := amount_escrowed j; storage_deposit := storage_deposit j;
     sla_ms := sla_ms j; subscription_id := subscription_id j;
     subscription_covered_amount := subscription_covered_amount j;
     subscription_used_call := subscription_used_call j; input_data := input_data j;
     input_hash := input_hash j; status := status j; opened_at := opened_at j;
     opened_at_block := opened_at_block j; challenge_window_ms := challenge_window_ms j;
     max_result_metadata_bytes := max_result_metadata_bytes j;
     arbitrator_fee_bps := arbitrator_fee_bps j; submit_deadline := submit_deadline j;
     result_hash := result_hash j; result_metadata := result_metadata j;
     submitted_at := submitted_at j; challenge_deadline := challenge_deadline j;
     dispute_reason := dispute_reason j; disputed_at := disputed_at j;
     arbitration_deadline_at := arbitration_deadline_at j;
     arbitration_reassignments := arbitration_reassignments j;
     prior_arbitrators := prior_arbitrators j; milestones := milestones j |}.

Definition is_milestone_job (j : ToolJob) : bool :=
  negb (bool_decide (length (milestones j) = 0%nat)).

Definition completed (m : ToolMilestone) : bool := bool_decide (m_status m = Completed).

(** [iter.position(|m| m.status != Completed)]. *)
Fixpoint first_open (ms : list ToolMilestone) : option nat :=
  match ms with
  | [] => None
  | m :: ms' => if negb (completed m) then Some 0%nat else S <$> first_open ms'
  end.
Definition current_milestone_index (j : ToolJob) : option nat := first_open (milestones j).

Definition current_milestone (j : ToolJob) : option ToolMilestone :=
  i ← current_milestone_index j; milestones j !! i.

(** [current_milestone_mut]: the caller's writes through the returned reference are the
    function [f]; [None] when there is no current milestone. *)
Definition current_milestone_mut (f : ToolMilestone -> ToolMilestone) (j : ToolJob)
    : option ToolJob :=
  i ← current_milestone_index j;
  _ ← milestones j !! i;
  Some (j <| milestones := alter f i (milestones j) |>).

Definition completed_milestone_amount (j : ToolJob) : Z :=
  sum_u64 (amount <$> List.filter completed (milestones j)).

Definition unpaid_amount_from (start_idx : nat) (j : ToolJob) : Z :=
  sum_u64 (amount <$> List.filter (fun m => negb (completed m)) (drop start_idx (milestones j))).

Definition clear_transient_result_state (j : ToolJob) : ToolJob :=
  j <| result_hash := None |> <| result_metadata := [] |> <| submitted_at := None |>
    <| challenge_deadline := None |> <| dispute_reason := None |> <| disputed_at := None |>
    <| arbitration_deadline_at := None |> <| arbitration_reassignments := 0 |>
    <| prior_arbitrators := [] |>.

(** The writes [open_current_milestone] makes to the milestone. *)
Definition open_milestone (deadline : Z) (m : ToolMilestone) : ToolMilestone :=
  m <| m_status := Pending |> <| m_submit_deadline := Some deadline |>
    <| m_result_hash := None |> <| m_result_metadata := [] |> <| m_submitted_at := None |>
    <| m_challenge_deadline := None |> <| m_dispute_reason := None |>
    <| m_disputed_at := None |>.

Definition open_current_milestone (now_ms : Z) (j : ToolJob) : ToolJob :=
  let deadline := sat_add now_ms (sla_ms j) in
  match current_milestone_mut (open_milestone deadline) j with
  | None => j
  | Some j => clear_transient_result_state
      (j <| status := JobOpen |> <| submit_deadline := deadline |>)
  end.

(** ** Transaction payloads *)
Record ToolResultSubmitData : Type := {
  rs_job_id : Hash256;
  rs_result_hash : Hash256;
  rs_result_metadata : list byte;
  rs_milestone_index : option Z;
}.
Record ToolResultAcceptData : Type := {
  ra_job_id : Hash256;
  ra_milestone_index : option Z;
}.
Record ToolResultDisputeData : Type := {
  rd_job_id : Hash256;
  rd_reason : rstr;
  rd_milestone_index : option Z;
}.
Record ToolResultResolveData : Type := {
  rr_job_id : Hash256;
  rr_provider_wins : bool;
  rr_reason : rstr;
  rr_milestone_index : option Z;
}.
Record ToolJobExpireData : Type := { je_job_id : Hash256 }.

(** ** Metered usage *)
Inductive ToolUsageSessionStatus : Type := SessionOpen | SessionReported | SessionDisputed.

Record ToolUsageSession : Type := {
  us_session_id : Hash256;
  us_tool_id : Hash256;
  us_requester : Address;
  us_provider : Address;
  us_arbitrator : option Address;
  us_amount_reserved : Z;
  us_storage_deposit : Z;
  us_price_per_unit : Z;
  us_max_units : Z;
  us_input_data : list byte;
  us_input_hash : Hash256;
  us_status : ToolUsageSessionStatus;
  us_opened_at : Z;
  us_opened_at_block : Z;
  us_challenge_window_ms : Z;
  us_max_result_metadata_bytes : Z;
  us_arbitrator_fee_bps : Z;
  us_submit_deadline : Z;
  us_reported_units : option Z;
  us_billed_amount : option Z;
  us_result_hash : option Hash256;
  us_result_metadata : list byte;
  us_submitted_at : option Z;
  us_challenge_deadline : option Z;
  us_dispute_reason : option rstr;
  us_disputed_at : option Z;
  us_arbitration_deadline_at : option Z;
  us_arbitration_reassignments : Z;
  us_prior_arbitrators : list Address;
}.
Record ToolUsageReportData : Type := {
  ur_session_id : Hash256;
  ur_units_used : Z;
  ur_result_hash : Hash256;
  ur_result_metadata : list byte;
}.
Record ToolUsageAcceptData : Type := { ua_session_id : Hash256 }.
Record ToolUsageDisputeData : Type := { ud_session_id : Hash256; ud_reason : rstr }.
Record ToolUsageResolveData : Type := {
  uv_session_id : Hash256;
  uv_provider_wins : bool;
  uv_reason : rstr;
}.
Record ToolUsageExpireData : Type := { ux_session_id : Hash256 }.

(** ** Canonical payload decoding

    [decode_canonical_tool_payload]: bincode with fixed-width integers that rejects
    trailing bytes. *)
Section Decode.
Context `{Bincode T}.
Definition decode_canonical_tool_payload (bytes : list byte) : result rstr T :=
  bincode_deserialize_all bytes.
End Decode.

(** ** Lemmas on the current milestone *)

Lemma first_open_spec ms i :
  first_open ms = Some i <->
  (exists m, ms !! i = Some m /\ completed m = false) /\
  Forall (fun m => completed m = true) (take i ms).
Proof.
  revert i. induction ms as [|m ms IH]; intros i; cbn.
  { split; [done|]. intros [(x & Hx & _) _]. by destruct i. }
  destruct (completed m) eqn:E; cbn.
  - rewrite fmap_Some. split.
    + intros (k & Hk%IH & ->). cbn. destruct Hk as [Hx Hf]. split; [exact Hx|].
      apply Forall_cons. split; [exact E|exact Hf].
    + destruct i as [|i]; cbn; intros [(x & Hx & Hc) Hf]; [simplify_eq; congruence|].
      exists i. split; [|done]. apply IH. split; [eauto|]. by inversion Hf.
  - split.
    + intros [= <-]. cbn. split; [eauto|constructor].
    + destruct i as [|i]; [done|]. cbn. intros [_ Hf]. inversion Hf. congruence.
Qed.

Lemma first_open_None ms : first_open ms = None <-> Forall (fun m => completed m = true) ms.
Proof.
  induction ms as [|m ms IH]; cbn; [by repeat constructor|].
  destruct (completed m) eqn:E; cbn.
  - rewrite fmap_None, IH. split; [by constructor|]. intros Hf. by inversion Hf.
  - split; [done|]. inversion 1. congruence.
Qed.

Lemma filter_all_completed ms : Forall (fun m => completed m = true) ms ->
  List.filter completed ms = ms /\ List.filter (fun m => negb (completed m)) ms = [].
Proof.
  induction 1 as [|m ms Hm _ [IH1 IH2]]; [done|]. cbn. rewrite Hm. cbn. by rewrite IH1, IH2.
Qed.

Lemma sum_split ms :
  sumZ (amount <$> List.filter completed ms) +
  sumZ (amount <$> List.filter (fun m => negb (completed m)) ms) = sumZ (amount <$> ms).
Proof.
  induction ms as [|m ms IH]; cbn; [done|].
  destruct (completed m); cbn; unfold sumZ in *; lia.
Qed.

Definition amounts_ok (ms : list ToolMilestone) : Prop :=
  Forall (fun m => 0 <= amount m) ms /\ sumZ (amount <$> ms) <= U64_MAX.

Lemma amounts_ok_ext ms ms' : amount <$> ms' = amount <$> ms -> amounts_ok ms -> amounts_ok ms'.
Proof.
  intros E [Hp Hs]. split; [|by rewrite E].
  assert (Forall (fun a => 0 <= a) (amount <$> ms')) as Hf.
  { rewrite E. by apply Forall_fmap. }
  rewrite Forall_fmap in Hf. exact Hf.
Qed.

Lemma sumZ_filter_le p ms : Forall (fun m => 0 <= amount m) ms ->
  0 <= sumZ (amount <$> List.filter p ms) <= sumZ (amount <$> ms).
Proof.
  induction 1 as [|m ms Hm _ IH]; cbn; [lia|]. destruct (p m); cbn; unfold sumZ in *; lia.
Qed.

Lemma sum_filter_exact p ms : amounts_ok ms ->
  sum_u64 (amount <$> List.filter p ms) = sumZ (amount <$> List.filter p ms).
Proof.
  intros [Hp Hs]. apply sum_u64_exact.
  - apply Forall_fmap, List.Forall_forall. intros m [Hm _]%filter_In.
    rewrite List.Forall_forall in Hp. apply Hp, Hm.
  - pose proof (sumZ_filter_le p ms Hp). lia.
Qed.

Lemma amounts_ok_drop i ms : amounts_ok ms -> amounts_ok (drop i ms).
Proof.
  intros [Hp Hs]. rewrite <- (take_drop i ms), fmap_app, sumZ_app in Hs.
  rewrite <- (take_drop i ms) in Hp. apply Forall_app in Hp as [Ht Hd]. split; [done|].
  assert (0 <= sumZ (amount <$> take i ms)); [|lia].
  apply sumZ_nonneg. by apply Forall_fmap.
Qed.

Lemma list_split_at {A} (l : list A) i x : l !! i = Some x -> l = take i l ++ x :: drop (S i) l.
Proof. intros E. symmetry. by apply take_drop_middle. Qed.

Lemma alter_split {A} (f : A -> A) (l : list A) i x : l !! i = Some x ->
  alter f i l = take i l ++ f x :: drop (S i) l.
Proof.
  intros E. pose proof (lookup_lt_Some _ _ _ E).
  rewrite (list_split_at l i x E) at 1.
  replace i with (length (take i l) + 0)%nat at 1 by (rewrite length_take; lia).
  by rewrite alter_app_r.
Qed.

(** The milestones before, at and after the current one. *)
Lemma current_split j i : current_milestone_index j = Some i ->
  exists ms1 m ms2, current_milestone j = Some m /\ completed m = false /\
    milestones j = ms1 ++ m :: ms2 /\ length ms1 = i /\
    Forall (fun m => completed m = true) ms1 /\
    forall f, current_milestone_mut f j = Some (j <| milestones := ms1 ++ f m :: ms2 |>).
Proof.
  intros Hi. pose proof Hi as [(m & Hm & Hc) Hf]%first_open_spec.
  exists (take i (milestones j)), m, (drop (S i) (milestones j)).
  unfold current_milestone, current_milestone_mut. rewrite Hi. cbn. rewrite Hm. cbn.
  repeat split; [done|by apply list_split_at| |done|].
  - rewrite length_take. apply lookup_lt_Some in Hm. lia.
  - intros f. by rewrite (alter_split f _ _ _ Hm).
Qed.

(** What a job is when its current milestone has just been opened, with its deadline: the milestones
    around it are as they were, and of the job itself only the fields of a round are written. *)
Record reopened (deadline : Z) (j : ToolJob) (before : list ToolMilestone) (m : ToolMilestone)
    (after : list ToolMilestone) (j' : ToolJob) : Prop := {
  re_milestones : milestones j' = before ++
    {| label := label m; amount := amount m; m_status := Pending; m_submit_deadline := Some deadline;
       m_result_hash := None; m_result_metadata := []; m_submitted_at := None;
       m_challenge_deadline := None; m_dispute_reason := None; m_disputed_at := None |} :: after;
  re_round : status j' = JobOpen /\ submit_deadline j' = deadline;
  re_result : result_hash j' = None /\ result_metadata j' = [] /\ submitted_at j' = None /\
    challenge_deadline j' = None;
  re_dispute : dispute_reason j' = None /\ disputed_at j' = None /\
    arbitration_deadline_at j' = None /\ arbitration_reassignments j' = 0 /\ prior_arbitrators j' = [];
  re_parties : job_id j' = job_id j /\ tool_id j' = tool_id j /\ requester j' = requester j /\
    provider j' = provider j /\ arbitrator j' = arbitrator j;
  re_money : amount_escrowed j' = amount_escrowed j /\ storage_deposit j' = storage_deposit j /\
    subscription_covered_amount j' = subscription_covered_amount j /\
    subscription_used_call j' = subscription_used_call j /\ subscription_id j' = subscription_id j /\
    arbitrator_fee_bps j' = arbitrator_fee_bps j;
  re_input : input_data j' = input_data j /\ input_hash j' = input_hash j /\
    opened_at j' = opened_at j /\ opened_at_block j' = opened_at_block j;
  re_terms : sla_ms j' = sla_ms j /\ challenge_window_ms j' = challenge_window_ms j /\
    max_result_metadata_bytes j' = max_result_metadata_bytes j;
}.

(** C37: Opening the current milestone. A job all of whose milestones are completed is left as it
    is. Otherwise the first milestone that is not completed becomes pending, with a deadline the
    service time away and nothing of an earlier round; the job is open with the same deadline, its
    result, dispute and arbitration state cleared; its parties, money, input and terms and every other
    milestone stay, so the amounts paid and unpaid are the same and the milestone remains the
    current one. *)
Theorem milestone_opened now j :
  let j' := open_current_milestone now j in
  match current_milestone_index j with
  | None => Forall (fun m => m_status m = Completed) (milestones j) /\ j' = j
  | Some i => exists before m after,
      milestones j = before ++ m :: after /\ length before = i /\
      Forall (fun m => m_status m = Completed) before /\ m_status m <> Completed /\
      reopened (sat_add now (sla_ms j)) j before m after j' /\
      current_milestone_index j' = Some i /\
      completed_milestone_amount j' = completed_milestone_amount j /\
      forall k, unpaid_amount_from k j' = unpaid_amount_from k j
  end.
Proof.
  cbv zeta. destruct (current_milestone_index j) as [i|] eqn:Hi.
  2: { split; [|by unfold open_current_milestone, current_milestone_mut; rewrite Hi].
       apply first_open_None in Hi. eapply Forall_impl; [exact Hi|]. intros m. apply bool_decide_eq_true. }
  destruct (current_split j i Hi) as (t & m & r & Hm & Hc & Hs & Hlen & Hf & Hmut).
  exists t, m, r. unfold open_current_milestone. rewrite Hmut. cbv zeta.
  set (d := sat_add now (sla_ms j)).
  assert (first_open (t ++ open_milestone d m :: r) = Some i) as Hfirst.
  { apply first_open_spec. rewrite lookup_app_r by lia.
    replace (i - length t)%nat with 0%nat by lia. split; [by eexists|].
    subst i. by rewrite take_app_length. }
  split_and!; [done|done| |by apply bool_decide_eq_false in Hc|by split|exact Hfirst| |].
  - eapply Forall_impl; [exact Hf|]. intros x. apply bool_decide_eq_true.
  - unfold completed_milestone_amount. cbn. by rewrite Hs, !List.filter_app; cbn; rewrite Hc.
  - intros k. unfold unpaid_amount_from. cbn. rewrite Hs. f_equal.
    destruct (decide (k <= i)%nat).
    + rewrite !drop_app_le by lia. by rewrite !List.filter_app, !fmap_app; cbn; rewrite Hc.
    + rewrite !drop_app_ge by lia.
      by replace (k - length t)%nat with (S (k - length t - 1)%nat) by lia.
Qed.

(** Where the amounts of the plan do not overflow, the paid and the unpaid milestones add up to it, and
    nothing before the current milestone is unpaid. *)
Theorem milestone_accounts j :
  amounts_ok (milestones j) ->
  completed_milestone_amount j + unpaid_amount_from 0 j = sumZ (amount <$> milestones j) /\
  match current_milestone_index j with
  | None => unpaid_amount_from 0 j = 0
  | Some i => exists m, current_milestone j = Some m /\
      unpaid_amount_from i j = unpaid_amount_from 0 j /\
      unpaid_amount_from (S i) j = unpaid_amount_from 0 j - amount m
  end.
Proof.
  intros Hok. unfold completed_milestone_amount, unpaid_amount_from.
  rewrite !sum_filter_exact by (try done; by apply amounts_ok_drop). rewrite drop_0.
  split; [apply sum_split|]. destruct (current_milestone_index j) as [i|] eqn:Hi.
  - destruct (current_split j i Hi) as (t & m & r & Hm & Hc & Hs & Hl & Hf & _).
    exists m. rewrite !sum_filter_exact by (by apply amounts_ok_drop).
    destruct (filter_all_completed _ Hf) as [_ Hnone]. subst i. rewrite Hs, drop_app_length.
    split_and!; [done|by rewrite List.filter_app, Hnone|].
    replace (S (length t)) with (length t + 1)%nat by lia. rewrite drop_app_add'; [|done].
    rewrite List.filter_app, Hnone. cbn. rewrite Hc. cbn. rewrite drop_0. unfold sumZ. lia.
  - apply first_open_None, filter_all_completed in Hi as [_ ->]. done.
Qed.
End ToolJob.

(** A two-milestone job. *)
Module ToolJobWitness.
Import ToolJob.

Definition job0 : ToolJob := {|
  job_id := hash_zero; tool_id := hash_zero; requester := address_foundation;
  provider := address_treasury; arbitrator := None; amount_escrowed := 100;
  storage_deposit := 0; sla_ms := 1000; subscription_id := None;
  subscription_covered_amount := 0; subscription_used_call := false; input_data := [];
  input_hash := hash_zero; status := JobOpen; opened_at := 0; opened_at_block := 0;
  challenge_window_ms := 500; max_result_metadata_bytes := 4096; arbitrator_fee_bps := 0;
  submit_deadline := 1000; result_hash := None; result_metadata := []; submitted_at := None;
  challenge_deadline := None; dispute_reason := None; disputed_at := None;
  arbitration_deadline_at := None; arbitration_reassignments := 0; prior_arbitrators := [];
  milestones := milestone_from_def <$>
    [{| def_label := lit "draft"; def_amount := 40 |};
     {| def_label := lit "final"; def_amount := 60 |}] |}.

Lemma milestone_accounts_witness :
  completed_milestone_amount job0 + unpaid_amount_from 0 job0 = 100.
Proof.
  apply (milestone_accounts job0). split; [repeat constructor; by_compute|by_compute].
Defined.
End ToolJobWitness.
