(* ===== verification/Contract.v ===== *)
(** * Contract records, exports, ABIs and routes

    Models the data and the stateless checks of [primitives/contract.rs]: committed
    callable exports, authenticated ABI state, the record's checked serialisation, route
    names, contract addresses and the targets of top-level calls.  The storage root and
    the event archive have files of their own. *)
From S2P Require Import Prelude Crypto Instances.

Module Contract.

Definition CONTRACT_ROUTE_SCHEME : rstr := lit "contractref://".
Definition CONTRACT_VM_PROFILE_ID : rstr := lit "zincha-wasm-int-v1".
Definition CONTRACT_VM_PROFILE_VERSION : Z := 1.
Definition MAX_CONTRACT_CALLABLE_EXPORTS : Z := 256.
Definition MAX_CONTRACT_EXPORT_NAME_BYTES : Z := 128.
Definition MAX_CONTRACT_ROUTE_NAME_BYTES : Z := 64.
Definition MAX_CONTRACT_ABI_BYTES : Z := 256 * 1024.
Definition MAX_CONTRACT_BYTECODE : Z := 1024 * 1024.
Definition MAX_STORAGE_KEY : Z := 64.
Definition MAX_STORAGE_VALUE : Z := 64 * 1024.
Definition MAX_CONTRACT_GAS : Z := 10000000.
Definition WASM_FUEL_PER_GAS : Z := 10.
Definition WASM_FUEL_LIMIT : Z := MAX_CONTRACT_GAS * WASM_FUEL_PER_GAS.

(** ** Source verification *)
Inductive ContractSourceLanguage : Type := Wat | Rust | AssemblyScript.

Record ContractVerificationBackendCapability : Type := {
  vb_language : ContractSourceLanguage;
  direct_bytecode_reproduction : bool;
  requires_bytecode_witness : bool;
  requires_build_recipe : bool;
}.
Definition supported_contract_verification_backends
    : list ContractVerificationBackendCapability :=
  [ {| vb_language := Wat; direct_bytecode_reproduction := true;
       requires_bytecode_witness := false; requires_build_recipe := false |};
    {| vb_language := Rust; direct_bytecode_reproduction := false;
       requires_bytecode_witness := true; requires_build_recipe := true |};
    {| vb_language := AssemblyScript; direct_bytecode_reproduction := false;
       requires_bytecode_witness := true; requires_build_recipe := true |} ].

Record ContractVerificationRecord : Type := {
  vr_language : ContractSourceLanguage;
  vr_compiler : rstr;
  vr_source_hash : Hash256;
  vr_bytecode_witness_hash : option Hash256;
  vr_build_recipe_hash : option Hash256;
  verified_at_block : Z;
}.
Record ContractSourceProof : Type := {
  sp_language : ContractSourceLanguage;
  sp_compiler : rstr;
  sp_source_code : rstr;
  sp_bytecode_witness : option rstr;
}.
Record PublishedContractSource : Type := {
  ps_language : ContractSourceLanguage;
  ps_compiler : rstr;
  ps_source_code : rstr;
  ps_source_hash : Hash256;
  ps_bytecode_witness : option rstr;
  ps_bytecode_witness_hash : option Hash256;
  ps_build_recipe : option rstr;
  ps_build_recipe_hash : option Hash256;
  ps_bytecode_hash : Hash256;
}.

(** ** ABI data *)
Record AbiParam : Type := { param_name : rstr; param_ty : rstr; param_description : rstr }.
Record FunctionSignature : Type := {
  fn_name : rstr;
  fn_description : rstr;
  fn_params : list AbiParam;
  fn_returns : list AbiParam;
  fn_mutates : bool;
}.
Record ContractAbi : Type := {
  abi_name : rstr;
  abi_version : rstr;
  abi_functions : list FunctionSignature;
}.

(** ** Records *)
Record ContractExportMetadata : Type := {
  profile_id : rstr;
  profile_version : Z;
  em_bytecode_hash : Hash256;
  has_memory_export : bool;
  callable_exports : list rstr;
  callable_exports_hash : Hash256;
}.

Record ContractRecord : Type := {
  address : Address;
  deployer : Address;
  bytecode_hash : Hash256;
  export_metadata : ContractExportMetadata;
  created_at_block : Z;
  updated_at_block : Z;
  is_active : bool;
  abi : option ContractAbi;
  abi_hash : option Hash256;
  verified : bool;
  source_hash : option Hash256;
  verification : option ContractVerificationRecord;
  storage_deposit : Z;
  verified_source_storage_deposit : Z;
  storage_bytes : Z;
  storage_slot_count : Z;
  storage_generation : Z;
  storage_reserve : Z;
  storage_root : Hash256;
}.
#[global] Instance eta_ContractRecord : Eta ContractRecord := fun r =>
  {| address := address r; deployer := deployer r; bytecode_hash := bytecode_hash r;
     export_metadata := export_metadata r; created_at_block := created_at_block r;
     updated_at_block := updated_at_block r; is_active := is_active r; abi := abi r;
     abi_hash := abi_hash r; verified := verified r; source_hash := source_hash r;
     verification := verification r; storage_deposit := storage_deposit r;
     verified_source_storage_deposit := verified_source_storage_deposit r;
     storage_bytes := storage_bytes r; storage_slot_count := storage_slot_count r;
     storage_generation := storage_generation r; storage_reserve := storage_reserve r;
     storage_root := storage_root r |}.

(** [ContractRecordWire] has the same fields; the wire form is the record whose checks
    have not been made yet. *)
Record ContractRecordWire : Type := Wire { wire_record : ContractRecord }.
Definition record_of_wire (w : ContractRecordWire) : ContractRecord := wire_record w.
Definition wire_of_record (r : ContractRecord) : ContractRecordWire := Wire r.

Record ContractRouteKey : Type := { rk_deployer : Address; rk_route_name : rstr }.
Record ContractRouteRecord : Type := {
  rr_deployer : Address;
  rr_route_name : rstr;
  target_contract_address : Address;
  revision : Z;
  rr_created_at_block : Z;
  rr_updated_at_block : Z;
  rr_storage_deposit : Z;
}.

(** ** Transaction payloads *)
Record ContractDeployData : Type := { bytecode : list byte }.
Record ContractVerifyData : Type := {
  cv_contract_address : Address;
  cv_proof : ContractSourceProof;
}.
Record ContractPublishAbiData : Type := { pa_contract_address : Address; pa_abi : ContractAbi }.
Record ContractRouteUpdateData : Type := {
  ru_route_name : rstr;
  ru_target_contract_address : Address;
}.
Record ContractRouteCallData : Type := {
  rc_deployer : Address;
  rc_route_name : rstr;
  rc_function : rstr;
  rc_args : list byte;
  rc_gas_limit : Z;
}.
Record ContractCallData : Type := {
  cc_contract_address : Address;
  cc_function : rstr;
  cc_args : list byte;
  cc_gas_limit : Z;
}.

(** ** Callable exports *)

(** [slice::binary_search_by]: [base] and [size] as in the standard library; each round
    halves [size], so the slice's length is fuel enough. *)
Fixpoint search_loop {A} (f : A -> comparison) (l : list A) (fuel base size : nat)
    : may_panic nat :=
  match fuel with
  | O => Some base
  | S fuel =>
      if (size <=? 1)%nat then Some base
      else
        let half := Nat.div2 size in
        x ← l !! (base + half)%nat;
        search_loop f l fuel (match f x with Gt => base | _ => (base + half)%nat end) (size - half)
  end.
Definition binary_search_by {A} (f : A -> comparison) (l : list A) : may_panic bool :=
  match l with
  | [] => Some false
  | _ =>
      base ← search_loop f l (length l) 0 (length l);
      x ← l !! base;
      Some (match f x with Eq => true | _ => false end)
  end.

Definition str_cmp : rstr -> rstr -> comparison := zlist_cmp.

(** [Vec::dedup]: drops an element equal to the one before it. *)
Fixpoint dedup (l : list rstr) : list rstr :=
  match l with
  | x :: ((y :: _) as l') => if bool_decide (x = y) then dedup l' else x :: dedup l'
  | _ => l
  end.

Definition callable (m : ContractExportMetadata) (function : rstr) : may_panic bool :=
  if negb (has_memory_export m) then Some false
  else if bool_decide (function = []) then Some false
  else binary_search_by (fun candidate => str_cmp candidate function) (callable_exports m).

Fixpoint check_export_names (exports : list rstr) : result message unit :=
  match exports with
  | [] => Ok ()
  | e :: exports' =>
      if bool_decide (e = []) then
        Err (msg "Contract export metadata contains an empty export name")
      else if MAX_CONTRACT_EXPORT_NAME_BYTES <? str_len e then
        Err (Msg "Contract export metadata export '{}' exceeds {} bytes"
          [AStr e; AInt MAX_CONTRACT_EXPORT_NAME_BYTES])
      else check_export_names exports'
  end.

(** [windows(2).any(|w| w[0] >= w[1])]. *)
Fixpoint unsorted_windows (l : list rstr) : bool :=
  match l with
  | x :: ((y :: _) as l') =>
      match str_cmp x y with Lt => unsorted_windows l' | _ => true end
  | _ => false
  end.

Section Exports.
Context `{Digests, Bincode (list rstr)}.

Definition hash_callable_exports (exports : list rstr) : result message Hash256 :=
  match bincode_serialize exports with
  | Ok encoded => Ok (hash_bytes encoded)
  | Err error => Err (Msg "Contract callable exports could not be hashed: {error}" [AStr error])
  end.

Definition validate_for_bytecode_hash (m : ContractExportMetadata)
    (expected_bytecode_hash : Hash256) : result message unit :=
  _ ← ensure (bool_decide (profile_id m = CONTRACT_VM_PROFILE_ID))
    (Msg "Contract export metadata profile_id {} does not match {}"
      [AStr (profile_id m); AStr CONTRACT_VM_PROFILE_ID]);
  _ ← ensure (profile_version m =? CONTRACT_VM_PROFILE_VERSION)
    (Msg "Contract export metadata profile_version {} does not match {}"
      [AInt (profile_version m); AInt CONTRACT_VM_PROFILE_VERSION]);
  _ ← ensure (bool_decide (em_bytecode_hash m = expected_bytecode_hash))
    (Msg "Contract export metadata bytecode_hash {} does not match record bytecode_hash {}"
      [ABytes (bn (em_bytecode_hash m)); ABytes (bn expected_bytecode_hash)]);
  let count := Z.of_nat (length (callable_exports m)) in
  _ ← ensure (negb (MAX_CONTRACT_CALLABLE_EXPORTS <? count))
    (Msg "Contract export metadata has {} callable exports, exceeding {}"
      [AInt count; AInt MAX_CONTRACT_CALLABLE_EXPORTS]);
  _ ← check_export_names (callable_exports m);
  _ ← ensure (negb (unsorted_windows (callable_exports m)))
    (msg "Contract export metadata callable exports must be sorted and unique");
  expected_hash ← hash_callable_exports (callable_exports m);
  ensure (bool_decide (callable_exports_hash m = expected_hash))
    (Msg "Contract export metadata callable_exports_hash {} does not match {}"
      [ABytes (bn (callable_exports_hash m)); ABytes (bn expected_hash)]).

(** [ContractExportMetadata::new]. *)
Definition new_export_metadata (bytecode_hash : Hash256) (has_memory : bool)
    (exports : list rstr) : result message ContractExportMetadata :=
  let exports := dedup (sort_by str_cmp exports) in
  exports_hash ← hash_callable_exports exports;
  let metadata :=
    {| profile_id := CONTRACT_VM_PROFILE_ID;
       profile_version := CONTRACT_VM_PROFILE_VERSION;
       em_bytecode_hash := bytecode_hash;
       has_memory_export := has_memory;
       callable_exports := exports;
       callable_exports_hash := exports_hash |} in
  _ ← validate_for_bytecode_hash metadata bytecode_hash;
  Ok metadata.

(** [expect] on the empty set's hash. *)
Definition empty_for_bytecode_hash (bytecode_hash : Hash256) : may_panic ContractExportMetadata :=
  h ← ok (hash_callable_exports []);
  Some {| profile_id := CONTRACT_VM_PROFILE_ID;
          profile_version := CONTRACT_VM_PROFILE_VERSION;
          em_bytecode_hash := bytecode_hash;
          has_memory_export := false;
          callable_exports := [];
          callable_exports_hash := h |}.

Definition validate_export_metadata_state (r : ContractRecord) : result message unit :=
  validate_for_bytecode_hash (export_metadata r) (bytecode_hash r).
End Exports.

(** ** Authenticated ABI *)
Section Abi.
Context `{Digests, Bincode ContractAbi}.

Definition hash_contract_abi (a : ContractAbi) : option Hash256 :=
  hash_bytes <$> ok (bincode_serialize a).

Definition validate_canonical_abi_state (r : ContractRecord) : result message unit :=
  match abi r, abi_hash r with
  | None, None => Ok ()
  | Some a, Some h =>
      computed ← ok_or (hash_contract_abi a) (msg "Contract ABI could not be canonically hashed");
      if bool_decide (computed = h) then Ok ()
      else Err (Msg
        "Contract {} carries an ABI payload that does not match its committed abi_hash"
        [ABytes (bn (address r))])
  | Some _, None =>
      Err (Msg "Contract {} carries an ABI payload without a committed abi_hash"
        [ABytes (bn (address r))])
  | None, Some _ =>
      Err (Msg "Contract {} carries an abi_hash without a matching ABI payload"
        [ABytes (bn (address r))])
  end.

Definition authenticated_abi (r : ContractRecord) : option ContractAbi :=
  _ ← ok (validate_canonical_abi_state r); abi r.

Definition set_authenticated_abi (a : ContractAbi) (r : ContractRecord)
    : result message (ContractRecord * Hash256) :=
  h ← ok_or (hash_contract_abi a) (msg "Contract ABI could not be canonically hashed");
  Ok (r <| abi := Some a |> <| abi_hash := Some h |>, h).

Fixpoint check_functions (seen : gset rstr) (fs : list FunctionSignature) : result message unit :=
  match fs with
  | [] => Ok ()
  | f :: fs' =>
      let name := trim (fn_name f) in
      if bool_decide (name = []) then Err (msg "Contract ABI function name must not be empty")
      else if bool_decide (name ∈ seen) then
        Err (Msg "Contract ABI contains duplicate function '{}'" [AStr name])
      else check_functions ({[ name ]} ∪ seen) fs'
  end.

Definition validate_contract_abi_shape (a : ContractAbi) : result message Hash256 :=
  _ ← ensure (negb (bool_decide (trim (abi_name a) = [])))
    (msg "Contract ABI name must not be empty");
  _ ← ensure (negb (bool_decide (trim (abi_version a) = [])))
    (msg "Contract ABI version must not be empty");
  encoded ← map_err (fun e => Msg "Failed to encode contract ABI: {}" [AStr e])
    (bincode_serialize a);
  _ ← ensure (negb (MAX_CONTRACT_ABI_BYTES <? Z.of_nat (length encoded)))
    (Msg "Contract ABI too large: {} > {} bytes"
      [AInt (Z.of_nat (length encoded)); AInt MAX_CONTRACT_ABI_BYTES]);
  _ ← check_functions ∅ (abi_functions a);
  Ok (hash_bytes encoded).
End Abi.

(** ** Checked serialisation of a record

    The wire format of [ContractRecordWire] is the build's derived [serde] code; errors
    are display strings ([m_str] renders a message). *)
Section Serde.
Context `{Digests, Bincode (list rstr), Bincode ContractAbi, Bincode ContractRecordWire}.
Variable m_str : message -> rstr.

Definition serialize_record (r : ContractRecord) : result rstr (list byte) :=
  _ ← map_err m_str (validate_export_metadata_state r);
  _ ← map_err m_str (validate_canonical_abi_state r);
  bincode_serialize (wire_of_record r).

Definition deserialize_record (b : list byte) : result rstr ContractRecord :=
  w ← bincode_deserialize b;
  let r := record_of_wire w in
  _ ← map_err m_str (validate_export_metadata_state r);
  _ ← map_err m_str (validate_canonical_abi_state r);
  Ok r.
End Serde.

(** ** Addresses, routes and call targets *)
Section Derive.
Context `{Digests}.

Definition contract_address_preimage (dep : Address) (nonce : Z) (code_hash : Hash256)
    : list byte :=
  bn dep ++ be_bytes 8 nonce ++ bn code_hash.
Definition derive_contract_address_from_bytecode_hash (dep : Address) (nonce : Z)
    (code_hash : Hash256) : Address :=
  let h := hash_bytes (contract_address_preimage dep nonce code_hash) in
  pad_bytesN 20 (drop 12 (bn h)).
Definition derive_contract_address (dep : Address) (nonce : Z) (code : list byte) : Address :=
  derive_contract_address_from_bytecode_hash dep nonce (hash_bytes code).
End Derive.

Definition route_char (ch : Z) : bool :=
  is_ascii_lowercase ch || is_ascii_digit ch || bool_decide (ch ∈ lit "-_.").

Fixpoint normalize_route_chars (s : rstr) : result message rstr :=
  match s with
  | [] => Ok []
  | ch :: s' =>
      if is_ascii_uppercase ch then Err (msg "Contract route names must be lowercase ASCII")
      else if route_char ch then rest ← normalize_route_chars s'; Ok (ch :: rest)
      else Err (msg
        "Contract route names may only contain lowercase ASCII letters, digits, '.', '-', and '_'")
  end.

Definition validate_and_normalize_contract_route_name (route_name : rstr) : result message rstr :=
  let trimmed := trim route_name in
  _ ← ensure (negb (bool_decide (trimmed = [])))
    (msg "Contract route name must not be empty");
  _ ← ensure (negb (MAX_CONTRACT_ROUTE_NAME_BYTES <? str_len trimmed))
    (Msg "Contract route name too long: {} > {} bytes"
      [AInt (str_len trimmed); AInt MAX_CONTRACT_ROUTE_NAME_BYTES]);
  _ ← ensure (negb (starts_with (lit ".") trimmed || ends_with (lit ".") trimmed))
    (msg "Contract route name must not start or end with '.'");
  normalize_route_chars trimmed.

Definition new_route_key (dep : Address) (route_name : rstr) : result message ContractRouteKey :=
  name ← validate_and_normalize_contract_route_name route_name;
  Ok {| rk_deployer := dep; rk_route_name := name |}.

Definition validate_top_level_contract_call_gas_limit (gas_limit : Z) : result message unit :=
  if gas_limit =? 0 then Err (msg "ContractCall gas_limit must be > 0")
  else if MAX_CONTRACT_GAS <? gas_limit then
    Err (Msg "Gas limit {} exceeds max {}" [AInt gas_limit; AInt MAX_CONTRACT_GAS])
  else Ok ().

Definition validate_top_level_contract_call_target (contract_address : Address) (gas_limit : Z)
    (contract : option ContractRecord) : result message ContractRecord :=
  c ← ok_or contract (Msg "Contract {} not found" [ABytes (bn contract_address)]);
  if negb (is_active c) then Err (Msg "Contract {} is inactive" [ABytes (bn contract_address)])
  else
    _ ← validate_top_level_contract_call_gas_limit gas_limit; Ok c.

Definition validate_top_level_contract_route_call_target (dep : Address) (route_name : rstr)
    (gas_limit : Z) (route : option ContractRouteRecord) (contract : option ContractRecord)
    : result message (ContractRouteRecord * ContractRecord) :=
  key ← new_route_key dep route_name;
  r ← ok_or route (Msg "Contract route {}::{} not found"
    [ABytes (bn (rk_deployer key)); AStr (rk_route_name key)]);
  c ← validate_top_level_contract_call_target (target_contract_address r) gas_limit contract;
  Ok (r, c).

(** ** Sorted export lists *)

Definition str_lt (a b : rstr) : Prop := str_cmp a b = Lt.

Lemma str_lt_trans a b c : str_lt a b -> str_lt b c -> str_lt a c.
Proof. apply zlist_cmp_trans. Qed.

Lemma str_cmp_total a b : str_lt a b \/ a = b \/ str_lt b a.
Proof.
  unfold str_lt, str_cmp. rewrite (zlist_cmp_antisym a b).
  destruct (zlist_cmp a b) eqn:E; cbn; auto. right; left. by apply zlist_cmp_eq.
Qed.

Lemma str_cmp_Gt a b : str_cmp a b = Gt <-> str_lt b a.
Proof.
  unfold str_lt, str_cmp. rewrite (zlist_cmp_antisym a b). by destruct (zlist_cmp a b).
Qed.

Lemma dedup_member l x : x ∈ dedup l <-> x ∈ l.
Proof.
  induction l as [|a [|b l] IH]; [done..|]. cbn [dedup].
  case_bool_decide as E.
  - rewrite IH. subst b. split; [by apply list_elem_of_further|].
    intros [->|Hx]%elem_of_cons; [apply list_elem_of_here|done].
  - rewrite !(elem_of_cons _ _ a), IH. done.
Qed.

Lemma dedup_hd a l : exists l', dedup (a :: l) = a :: l'.
Proof.
  revert a. induction l as [|b l IH]; intros a; [by exists []|].
  cbn [dedup]. case_bool_decide as E; [|by eexists]. subst b. apply IH.
Qed.

Lemma dedup_sorted l : Sorted (not_after str_cmp) l -> Sorted str_lt (dedup l).
Proof.
  induction l as [|a [|b l] IH]; intros Hs; [constructor|by repeat constructor|].
  inversion Hs as [|? ? Hs' Hh]; subst. specialize (IH Hs').
  change (dedup (a :: b :: l)) with
    (if bool_decide (a = b) then dedup (b :: l) else a :: dedup (b :: l)).
  case_bool_decide as E; [done|].
  constructor; [done|]. destruct (dedup_hd b l) as [l' ->]. constructor.
  inversion Hh as [|? ? Hna]; subst. unfold not_after in Hna.
  destruct (str_cmp_total a b) as [?|[?|?%str_cmp_Gt]]; done.
Qed.

Lemma sorted_exports l : StronglySorted str_lt (dedup (sort_by str_cmp l)) /\
  forall x, x ∈ dedup (sort_by str_cmp l) <-> x ∈ l.
Proof.
  split.
  - apply Sorted_StronglySorted; [intros a b c; apply str_lt_trans|].
    apply dedup_sorted, sort_by_sorted. intros a b Hab. unfold not_after.
    apply str_cmp_Gt in Hab. unfold str_lt in Hab. by rewrite Hab.
  - intros x. rewrite dedup_member. by rewrite sort_by_perm.
Qed.

Lemma unsorted_windows_spec l : unsorted_windows l = false <-> StronglySorted str_lt l.
Proof.
  split.
  - intros Hw. apply Sorted_StronglySorted; [intros a b c; apply str_lt_trans|].
    induction l as [|a [|b l] IH]; [constructor|by repeat constructor|].
    cbn [unsorted_windows] in Hw. destruct (str_cmp a b) eqn:E; try done.
    constructor; [by apply IH|by constructor].
  - intros Hs%StronglySorted_Sorted. induction l as [|a [|b l] IH]; [done..|].
    inversion Hs as [|? ? Hs' Hh]; subst. inversion Hh as [|? ? Hab]; subst.
    cbn [unsorted_windows]. unfold str_lt in Hab. rewrite Hab. by apply IH.
Qed.

Lemma StronglySorted_lookup l i j x y : StronglySorted str_lt l ->
  l !! i = Some x -> l !! j = Some y -> (i < j)%nat -> str_lt x y.
Proof.
  intros Hs. revert i j. induction Hs as [|a l Hs IH Hf]; intros i j Hi Hj Hij; [done|].
  destruct j as [|j]; [lia|]. cbn in Hj. destruct i as [|i]; cbn in Hi.
  - injection Hi as <-. rewrite Forall_forall in Hf. apply Hf. by eapply list_elem_of_lookup_2.
  - eapply IH; eauto. lia.
Qed.

(** The search never reads out of range and narrows to the position of [t], if any. *)
Lemma search_loop_spec l t fuel base size :
  StronglySorted str_lt l -> (1 <= size <= S fuel)%nat -> (base + size <= length l)%nat ->
  exists b, search_loop (fun c => str_cmp c t) l fuel base size = Some b /\ (b < length l)%nat /\
    forall i, l !! i = Some t -> (base <= i < base + size)%nat -> i = b.
Proof.
  intros Hs. revert base size. induction fuel as [|fuel IH]; intros base size Hz Hb; cbn.
  { exists base. repeat split; [lia|]. intros i _ Hi. lia. }
  destruct (Nat.leb_spec size 1) as [H1|H1].
  { exists base. repeat split; [lia|]. intros i _ Hi. lia. }
  rewrite Nat.div2_div. pose proof (Nat.div_lt size 2 ltac:(lia) ltac:(lia)).
  assert (1 <= size / 2)%nat by (apply Nat.div_le_lower_bound; lia).
  set (half := (size / 2)%nat) in *.
  destruct (lookup_lt_is_Some_2 l (base + half)) as [x Hx]; [lia|]. rewrite Hx. cbn.
  assert (size - half <= size - 1)%nat by lia.
  assert (half <= size - half)%nat.
  { pose proof (Nat.div_mod_eq size 2). subst half. lia. }
  destruct (str_cmp x t) eqn:E.
  1, 2: destruct (IH (base + half)%nat (size - half)%nat) as (b & Hl & Hbl & Hu);
    [lia|lia|]; exists b; split; [done|]; split; [done|];
    intros i Hi Hr; apply Hu; [done|];
    destruct (decide (i < base + half)%nat) as [Hlt|]; [exfalso|lia];
    pose proof (StronglySorted_lookup l i (base + half) t x Hs Hi Hx Hlt) as Htx;
    unfold str_lt, str_cmp in *; rewrite zlist_cmp_antisym, E in Htx; done.
  destruct (IH base (size - half)%nat) as (b & Hl & Hbl & Hu); [lia|lia|].
  exists b. split; [done|]. split; [done|]. intros i Hi Hr. apply Hu; [done|].
  destruct (decide (i < base + half)%nat) as [Hlt|Hge]; [lia|exfalso].
  apply str_cmp_Gt in E. destruct (decide (i = base + half)%nat) as [->|Hne].
  - rewrite Hx in Hi. injection Hi as ->. unfold str_lt, str_cmp in E.
    by rewrite zlist_cmp_refl in E.
  - pose proof (StronglySorted_lookup l (base + half) i x t Hs Hx Hi ltac:(lia)) as Hxt.
    unfold str_lt, str_cmp in *. rewrite zlist_cmp_antisym, E in Hxt. done.
Qed.

Lemma binary_search_spec l t : StronglySorted str_lt l ->
  binary_search_by (fun c => str_cmp c t) l = Some (bool_decide (t ∈ l)).
Proof.
  intros Hs. destruct l as [|a l]; [done|]. unfold binary_search_by.
  destruct (search_loop_spec (a :: l) t (length (a :: l)) 0 (length (a :: l)) Hs)
    as (b & -> & Hb & Hu); [cbn; lia|lia|].
  cbn [mbind option_bind]. destruct (lookup_lt_is_Some_2 (a :: l) b Hb) as [x Hx].
  rewrite Hx. cbn [mbind option_bind]. f_equal.
  case_bool_decide as Ht.
  - apply list_elem_of_lookup in Ht as [i Hi].
    assert (i = b) as ->.
    { apply Hu; [done|]. split; [lia|]. apply lookup_lt_Some in Hi. lia. }
    rewrite Hx in Hi. injection Hi as ->. unfold str_cmp. by rewrite zlist_cmp_refl.
  - destruct (str_cmp x t) eqn:E; [|done..]. apply zlist_cmp_eq in E as ->.
    exfalso. apply Ht. by eapply list_elem_of_lookup_2.
Qed.

Lemma check_export_names_Ok l u : check_export_names l = Ok u <->
  Forall (fun e => e <> [] /\ str_len e <= MAX_CONTRACT_EXPORT_NAME_BYTES) l.
Proof.
  destruct u. induction l as [|e l IH]; cbn [check_export_names]; [by repeat constructor|].
  rewrite Forall_cons, <- IH.
  case_bool_decide as E; [split; [done|by intros [[? _] _]]|].
  destruct (Z.ltb_spec MAX_CONTRACT_EXPORT_NAME_BYTES (str_len e)); [|tauto].
  split; [done|]. intros [[_ ?] _]. lia.
Qed.

Section ExportProofs.
Context `{Digests, Bincode (list rstr)}.

(** What a validated export table satisfies. *)
Record valid_exports (m : ContractExportMetadata) (code : Hash256) : Prop := {
  ve_profile : profile_id m = CONTRACT_VM_PROFILE_ID /\
    profile_version m = CONTRACT_VM_PROFILE_VERSION;
  ve_code : em_bytecode_hash m = code;
  ve_count : Z.of_nat (length (callable_exports m)) <= MAX_CONTRACT_CALLABLE_EXPORTS;
  ve_names : Forall (fun e => e <> [] /\ str_len e <= MAX_CONTRACT_EXPORT_NAME_BYTES)
    (callable_exports m);
  ve_sorted : StronglySorted str_lt (callable_exports m);
  ve_hash : hash_callable_exports (callable_exports m) = Ok (callable_exports_hash m);
}.

Lemma validate_exports_iff m code :
  validate_for_bytecode_hash m code = Ok () <-> valid_exports m code.
Proof.
  unfold validate_for_bytecode_hash. split.
  - intros Hv. inv_ok. to_prop.
    match goal with Hc : check_export_names _ = Ok _ |- _ => apply check_export_names_Ok in Hc end.
    match goal with Hw : unsorted_windows _ = false |- _ => apply unsorted_windows_spec in Hw end.
    split; [by split|done|lia|done|done|congruence].
  - intros [[-> ->] -> Hc Hn%(check_export_names_Ok _ ()) Hs%unsorted_windows_spec Hh].
    rewrite !bool_decide_eq_true_2 by done. cbn [ensure mbind result_bind Z.eqb].
    rewrite (proj2 (Z.ltb_ge _ _) Hc). cbn [ensure negb mbind result_bind].
    change (CONTRACT_VM_PROFILE_VERSION =? CONTRACT_VM_PROFILE_VERSION) with true.
    cbn [ensure negb mbind result_bind].
    rewrite Hn. cbn [mbind result_bind]. rewrite Hs. cbn [ensure negb mbind result_bind].
    rewrite Hh. cbn [mbind result_bind]. by rewrite bool_decide_eq_true_2.
Qed.

(** The committed callable exports of a contract. Building the table from any list
    of names either fails or gives a table that passes validation, holds the same names
    once each in increasing order, and answers [callable] by binary search, without
    reading out of range, exactly for the exported names of a module with memory. *)
Theorem export_table_correct code mem names m :
  new_export_metadata code mem names = Ok m ->
  validate_for_bytecode_hash m code = Ok () /\
  (forall x, x ∈ callable_exports m <-> x ∈ names) /\
  StronglySorted str_lt (callable_exports m) /\
  forall f, callable m f = Some (mem && bool_decide (f ∈ names)).
Proof.
  intros Hn. unfold new_export_metadata in Hn. inv_ok.
  match goal with Hv : validate_for_bytecode_hash _ _ = Ok _ |- _ => rename Hv into Hval end.
  destruct (sorted_exports names) as [Hs Hm]. cbn [callable_exports].
  split; [done|]. split; [done|]. split; [done|].
  intros f. unfold callable. cbn [has_memory_export callable_exports].
  destruct mem; [cbn [negb andb]|done].
  case_bool_decide as Ef.
  - f_equal. symmetry. apply bool_decide_eq_false. intros Hin%Hm. subst f.
    apply validate_exports_iff, ve_names in Hval. cbn in Hval.
    rewrite Forall_forall in Hval. by apply Hval in Hin as [? _].
  - rewrite binary_search_spec by done. f_equal. by apply bool_decide_ext.
Qed.
End ExportProofs.

(** ** Route names *)

Definition route_name_ok (s : rstr) : Prop :=
  s <> [] /\ str_len s <= MAX_CONTRACT_ROUTE_NAME_BYTES /\
  starts_with (lit ".") s = false /\ ends_with (lit ".") s = false /\
  Forall (fun c => route_char c = true) s.

Lemma route_char_lower c : route_char c = true -> is_ascii_uppercase c = false /\ is_whitespace c = false.
Proof.
  unfold route_char, is_ascii_lowercase, is_ascii_digit, is_ascii_uppercase, is_whitespace.
  intros Hc. assert (97 <= c <= 122 \/ 48 <= c <= 57 \/ c = 45 \/ c = 95 \/ c = 46) as Hr.
  { apply orb_true_iff in Hc as [Hc|Hc]; [apply orb_true_iff in Hc as [Hc|Hc]|].
    - apply andb_true_iff in Hc as [H1%Z.leb_le H2%Z.leb_le]. lia.
    - apply andb_true_iff in Hc as [H1%Z.leb_le H2%Z.leb_le]. lia.
    - apply bool_decide_eq_true in Hc. change (lit "-_.") with [45; 95; 46] in Hc.
      set_solver. }
  destruct (Z.leb_spec 65 c), (Z.leb_spec c 90); cbn; split; try lia;
    repeat match goal with |- context [?x <=? ?y] => destruct (Z.leb_spec x y) end;
    repeat match goal with |- context [?x =? ?y] => destruct (Z.eqb_spec x y) end; cbn; lia.
Qed.

Lemma normalize_route_chars_iff s r :
  normalize_route_chars s = Ok r <-> r = s /\ Forall (fun c => route_char c = true) s.
Proof.
  revert r. induction s as [|c s IH]; intros r; cbn [normalize_route_chars].
  { split; [intros [= <-]|intros [-> _]]; by repeat constructor. }
  rewrite Forall_cons. split.
  - intros Hn. inv_ok.
    destruct (route_char c) eqn:Er; [|done]. inv_ok.
    destruct (proj1 (IH _) eq_refl) as [-> ?]. done.
  - intros (-> & Hc & Hs). destruct (route_char_lower c Hc) as [-> _]. rewrite Hc.
    by rewrite (proj2 (IH s) (conj eq_refl Hs)).
Qed.

Lemma route_name_iff s r :
  validate_and_normalize_contract_route_name s = Ok r <-> r = trim s /\ route_name_ok r.
Proof.
  unfold validate_and_normalize_contract_route_name, route_name_ok. split.
  - intros Hv. inv_ok. to_prop.
    apply normalize_route_chars_iff in Hv as [-> ?]. repeat split; auto.
  - intros (-> & Hne & Hl & H1 & H2 & Hf).
    rewrite bool_decide_eq_false_2 by done. cbn [negb ensure mbind result_bind].
    rewrite (proj2 (Z.ltb_ge _ _) Hl), H1, H2. cbn [negb orb ensure mbind result_bind].
    by apply normalize_route_chars_iff.
Qed.

Lemma route_name_trim s : route_name_ok s -> trim s = s.
Proof.
  intros (_ & _ & _ & _ & Hf). apply trim_id.
  eapply Forall_impl; [exact Hf|]. intros c Hc. by apply route_char_lower.
Qed.

(** A route name is accepted exactly when its trimmed form is non-empty, at most 64
    bytes of lowercase letters, digits and [-_.], and neither starts nor ends with a dot;
    the normalised name is the trimmed one, and normalising it again changes nothing. *)
Theorem route_name_normalisation name n :
  validate_and_normalize_contract_route_name name = Ok n <->
  n = trim name /\ route_name_ok n /\ validate_and_normalize_contract_route_name n = Ok n.
Proof.
  rewrite !route_name_iff. split; [|tauto]. intros [-> Hok]. split; [done|].
  split; [done|]. split; [|done]. by rewrite (route_name_trim _ Hok).
Qed.

(** ** Authenticated records *)
Section RecordProofs.
Context `{Digests, Bincode (list rstr), !Bincode ContractAbi, !Bincode ContractRecordWire}.
Variable m_str : message -> rstr.

(** Only checked contract records cross the wire. Serialising succeeds only on a
    record whose export table and ABI commitment validate and the bytes read back as
    that record; whatever reads back validates too and exposes its ABI as authenticated;
    and storing an ABI always leaves the record with a valid ABI commitment. *)
Theorem contract_record_wire `{!BincodeLaws ContractRecordWire} r b :
  (serialize_record m_str r = Ok b -> deserialize_record m_str b = Ok r) /\
  (deserialize_record m_str b = Ok r ->
     validate_export_metadata_state r = Ok () /\ validate_canonical_abi_state r = Ok () /\
     authenticated_abi r = abi r) /\
  (forall a r' h, set_authenticated_abi a r = Ok (r', h) ->
     validate_canonical_abi_state r' = Ok () /\ authenticated_abi r' = Some a /\
     abi_hash r' = Some h /\ export_metadata r' = export_metadata r /\
     storage_root r' = storage_root r).
Proof.
  split; [|split].
  - unfold serialize_record, deserialize_record.
    destruct (validate_export_metadata_state r) as [u1|] eqn:E1; [|done].
    destruct (validate_canonical_abi_state r) as [u2|] eqn:E2; [|done].
    cbn. intros Hs%bincode_roundtrip. rewrite Hs. cbn. rewrite E1. cbn. by rewrite E2.
  - unfold deserialize_record. intros Hd. inv_ok. unfold map_err in *.
    destruct (validate_export_metadata_state _) as [[]|]; [|done].
    match goal with |- context [validate_canonical_abi_state ?x] =>
      destruct (validate_canonical_abi_state x) as [[]|] eqn:Ea; [|done] end.
    split; [done|]. split; [done|]. unfold authenticated_abi. by rewrite Ea.
  - unfold set_authenticated_abi. intros a r' h Ha. inv_ok.
    unfold ok_or in *. destruct (hash_contract_abi a) as [h'|] eqn:Eh; [|done]. inv_ok.
    match goal with |- validate_canonical_abi_state ?x = _ /\ _ => set (r' := x) end.
    assert (validate_canonical_abi_state r' = Ok ()) as Hv.
    { unfold validate_canonical_abi_state. cbn. rewrite Eh. cbn.
      by rewrite bool_decide_eq_true_2. }
    split; [done|]. unfold authenticated_abi. by rewrite Hv.
Qed.

(** An ABI commitment binds the ABI. Two records that validate and commit to the same
    hash expose the same ABI, when the digest does not collide on the two encodings. *)
Theorem abi_commitment_binds `{!BincodeLaws ContractAbi} r1 r2 a1 a2 h b1 b2 :
  validate_canonical_abi_state r1 = Ok () -> validate_canonical_abi_state r2 = Ok () ->
  abi_hash r1 = Some h -> abi_hash r2 = Some h ->
  abi r1 = Some a1 -> abi r2 = Some a2 ->
  bincode_serialize a1 = Ok b1 -> bincode_serialize a2 = Ok b2 ->
  collision_free [b1; b2] -> a1 = a2.
Proof.
  unfold validate_canonical_abi_state, hash_contract_abi.
  intros V1 V2 H1 H2 A1 A2 B1 B2 Hcf. rewrite H1, A1, B1 in V1. rewrite H2, A2, B2 in V2.
  cbn in V1, V2. repeat case_bool_decide; try done.
  assert (b1 = b2) as -> by (apply Hcf; [set_solver..|congruence]).
  eapply bincode_inj; eauto.
Qed.
End RecordProofs.

(** ** Call targets *)

(** A top-level call reaches a contract exactly when the record exists, is active and
    the gas limit is between 1 and the maximum; through a route the name must also
    normalise and the route exist, and the records returned are the ones looked up. *)
Theorem call_target_checks addr dep name gas c route r r0 :
  is_u64 gas ->
  (validate_top_level_contract_call_target addr gas c = Ok r <->
     c = Some r /\ is_active r = true /\ 1 <= gas <= MAX_CONTRACT_GAS) /\
  (validate_top_level_contract_route_call_target dep name gas route c = Ok (r0, r) <->
     route = Some r0 /\ is_ok (new_route_key dep name) = true /\
     c = Some r /\ is_active r = true /\ 1 <= gas <= MAX_CONTRACT_GAS).
Proof.
  intros Hg.
  assert (forall u, validate_top_level_contract_call_gas_limit gas = Ok u <->
    1 <= gas <= MAX_CONTRACT_GAS) as Hgas.
  { intros []. unfold validate_top_level_contract_call_gas_limit.
    destruct (Z.eqb_spec gas 0), (Z.ltb_spec MAX_CONTRACT_GAS gas); split; try done; mlia. }
  assert (forall addr, validate_top_level_contract_call_target addr gas c = Ok r <->
     c = Some r /\ is_active r = true /\ 1 <= gas <= MAX_CONTRACT_GAS) as Hcall.
  { intros a. unfold validate_top_level_contract_call_target.
    destruct c as [c|]; cbn [ok_or mbind result_bind]; [|by split; [|intros (? & _)]].
    destruct (is_active c) eqn:Ea; cbn [negb].
    - destruct (validate_top_level_contract_call_gas_limit gas) as [u|] eqn:Eg;
        cbn [mbind result_bind].
      + pose proof (proj1 (Hgas u) eq_refl). split; [intros [= <-]; done|by intros ([= <-] & _)].
      + split; [done|]. intros (_ & _ & Hr). apply (Hgas ()) in Hr. done.
    - split; [done|]. intros ([= <-] & Hact & _). congruence. }
  split; [apply Hcall|].
  unfold validate_top_level_contract_route_call_target.
  destruct (new_route_key dep name) as [k|]; cbn [is_ok mbind result_bind];
    [|split; [done|by intros (_ & ? & _)]].
  destruct route as [rt|]; cbn [ok_or mbind result_bind]; [|by split; [|intros (? & _)]].
  split.
  - intros Hv. inv_ok.
    match goal with Hc : validate_top_level_contract_call_target _ _ _ = Ok _ |- _ =>
      apply Hcall in Hc end. done.
  - intros ([= ->] & _ & Hc). apply (Hcall (target_contract_address r0)) in Hc.
    by rewrite Hc.
Qed.

(** Contract addresses. Equal addresses come from the same deployer, nonce and code
    hash whenever the digest, cut to its last twenty bytes, separates the two preimages. *)
Theorem contract_address_binds `{Digests} d1 d2 n1 n2 c1 c2 :
  is_u64 n1 -> is_u64 n2 ->
  let p1 := contract_address_preimage d1 n1 c1 in
  let p2 := contract_address_preimage d2 n2 c2 in
  (drop 12 (bn (hash_bytes p1)) = drop 12 (bn (hash_bytes p2)) -> p1 = p2) ->
  derive_contract_address_from_bytecode_hash d1 n1 c1 =
    derive_contract_address_from_bytecode_hash d2 n2 c2 ->
  d1 = d2 /\ n1 = n2 /\ c1 = c2.
Proof.
  intros Hn1 Hn2 p1 p2 Hsep E.
  assert (p1 = p2) as Hp.
  { apply Hsep. apply (f_equal bn) in E. unfold derive_contract_address_from_bytecode_hash in E.
    rewrite !bn_pad, !pad_list_id in E by (by rewrite length_drop, bn_length). done. }
  subst p1 p2. unfold contract_address_preimage in Hp.
  apply app_bytesN_inj in Hp as [-> Hp].
  apply app_inj_1 in Hp as [Hb Hc]; [|by rewrite !be_bytes_length].
  apply be_bytes8_inj in Hb as ->; [|done..]. split; [done|]. split; [done|by apply bytesN_eq].
Qed.

End Contract.

(** A contract with three exports and an empty ABI. *)
Module ContractWitness.
Import Contract.

Definition names0 : list rstr := [lit "transfer"; lit "balance"; lit "mint"; lit "balance"].
#[local] Instance exports_serializer : Bincode (list rstr) :=
  table_bincode [[lit "balance"; lit "mint"; lit "transfer"]].
Definition abi0 : ContractAbi :=
  {| abi_name := lit "token"; abi_version := lit "1.0.0"; abi_functions := [] |}.
#[local] Instance rstr_eq : EqDecision rstr := _.
#[local] Instance AbiParam_eq : EqDecision AbiParam.
Proof. solve_decision. Defined.
#[local] Instance FunctionSignature_eq : EqDecision FunctionSignature.
Proof. solve_decision. Defined.
#[local] Instance ContractAbi_eq : EqDecision ContractAbi.
Proof. solve_decision. Defined.
#[local] Instance Language_eq : EqDecision ContractSourceLanguage.
Proof. solve_decision. Defined.
#[local] Instance Verification_eq : EqDecision ContractVerificationRecord.
Proof. solve_decision. Defined.
#[local] Instance Exports_eq : EqDecision ContractExportMetadata.
Proof. solve_decision. Defined.
#[local] Instance Record_eq : EqDecision ContractRecord.
Proof. solve_decision. Defined.
#[local] Instance Wire_eq : EqDecision ContractRecordWire.
Proof. solve_decision. Defined.
#[local] Instance abi_serializer : Bincode ContractAbi := table_bincode [abi0].
#[local] Instance abi_serializer_laws : BincodeLaws ContractAbi := table_bincode_laws [abi0].

Definition code0 : Hash256 := hash_bytes [x01].
Definition exports0 : ContractExportMetadata := {|
  profile_id := CONTRACT_VM_PROFILE_ID; profile_version := 1; em_bytecode_hash := code0;
  has_memory_export := true;
  callable_exports := [lit "balance"; lit "mint"; lit "transfer"];
  callable_exports_hash := default hash_zero (ok (hash_callable_exports
    [lit "balance"; lit "mint"; lit "transfer"])) |}.
Definition record0 : ContractRecord := {|
  address := address_treasury; deployer := address_foundation; bytecode_hash := code0;
  export_metadata := exports0; created_at_block := 1; updated_at_block := 1;
  is_active := true; abi := Some abi0; abi_hash := hash_contract_abi abi0; verified := false;
  source_hash := None; verification := None; storage_deposit := 0;
  verified_source_storage_deposit := 0; storage_bytes := 0; storage_slot_count := 0;
  storage_generation := 0; storage_reserve := 0; storage_root := hash_zero |}.
#[local] Instance wire_serializer : Bincode ContractRecordWire := table_bincode [Wire record0].
#[local] Instance wire_serializer_laws : BincodeLaws ContractRecordWire :=
  table_bincode_laws [Wire record0].

Lemma export_table_correct_witness :
  callable exports0 (lit "mint") = Some true /\ callable exports0 (lit "burn") = Some false.
Proof.
  assert (new_export_metadata code0 true names0 = Ok exports0) as E by (by vm_compute).
  pose proof (export_table_correct code0 true names0 exports0 E) as (_ & _ & _ & T).
  split; [rewrite (T (lit "mint"))|rewrite (T (lit "burn"))]; by vm_compute.
Defined.

Definition plain_message (m : message) : rstr := lit (template m).

Lemma contract_record_wire_witness :
  exists b, serialize_record plain_message record0 = Ok b /\
    deserialize_record plain_message b = Ok record0.
Proof.
  destruct (serialize_record plain_message record0) as [b|e] eqn:E; [|by vm_compute in E].
  exists b. split; [done|].
  by apply (contract_record_wire plain_message record0 b).
Defined.

Definition abi_bytes : list byte := default [] (ok (bincode_serialize abi0)).
Lemma abi_commitment_binds_witness : abi0 = abi0.
Proof.
  assert (validate_canonical_abi_state record0 = Ok ()) as V by (by vm_compute).
  assert (abi_hash record0 = Some (default hash_zero (hash_contract_abi abi0))) as Hh
    by (by vm_compute).
  assert (abi record0 = Some abi0) as Ha by exact eq_refl.
  assert (bincode_serialize abi0 = Ok abi_bytes) as B by (by vm_compute).
  assert (collision_free [abi_bytes; abi_bytes]) as C
    by (apply collision_freeb_ok; by vm_compute).
  exact (abi_commitment_binds record0 record0 abi0 abi0 _ abi_bytes abi_bytes
    V V Hh Hh Ha Ha B B C).
Defined.

Lemma call_target_checks_witness :
  validate_top_level_contract_call_target address_treasury 100 (Some record0) = Ok record0.
Proof.
  assert (is_u64 100) as G by by_compute.
  apply (call_target_checks address_treasury address_foundation [] 100 (Some record0) None record0
    {| rr_deployer := address_zero; rr_route_name := []; target_contract_address := address_zero;
       revision := 0; rr_created_at_block := 0; rr_updated_at_block := 0;
       rr_storage_deposit := 0 |} G).
  split; [done|]. split; [done|]. by_compute.
Defined.

Lemma route_name_normalisation_example :
  validate_and_normalize_contract_route_name (lit " my-route.v1 ") = Ok (lit "my-route.v1").
Proof. by vm_compute. Qed.

Lemma contract_address_binds_witness :
  (address_treasury = address_treasury /\ 1 = 1 /\ code0 = code0) /\
  negb (bool_decide (derive_contract_address_from_bytecode_hash address_treasury 1 code0 =
    derive_contract_address_from_bytecode_hash address_treasury 2 code0)) = true.
Proof.
  assert (is_u64 1) as N by by_compute.
  split; [|by vm_compute].
  by apply (contract_address_binds address_treasury address_treasury 1 1 code0 code0 N N).
Defined.
End ContractWitness.
