(* ===== verification/ContractPlatform.v ===== *)
(** * The contract platform's advertised profile

    Models the platform capabilities of [primitives/contract.rs]: the constants of the virtual
    machine, the verification backends, and the fingerprint by which a client recognises the
    platform it was built against. *)
From S2P Require Import Prelude Crypto Instances Contract.
Import Contract.

Module Platform.

Definition CONTRACT_PLATFORM_PROFILE_VERSION : Z := 1.
Definition CONTRACT_FIXED_POINT_SCALE : Z := 1000000.
Definition MAX_STORAGE_TOTAL : Z := 10 * 1024 * 1024.
Definition MAX_CALL_DEPTH : Z := 8.
Definition CONTRACT_WASM_FEATURES : list rstr :=
  [lit "mvp"; lit "mutable-global"; lit "sign-extension"; lit "multi-value"; lit "bulk-memory";
   lit "integer-only"; lit "no-floats"; lit "no-simd"; lit "no-threads";
   lit "no-reference-types"; lit "no-memory64"; lit "no-component-model"].
Definition CONTRACT_HOST_FUNCTIONS : list rstr :=
  [lit "host_block_height"; lit "host_block_timestamp"; lit "host_call_value";
   lit "host_tool_nominal_price"; lit "host_tool_subscription_covered_amount";
   lit "host_gas_remaining"; lit "host_caller"; lit "host_origin"; lit "host_self_address";
   lit "host_get_balance"; lit "host_get_nonce"; lit "host_transfer"; lit "host_storage_set";
   lit "host_storage_get"; lit "host_storage_delete"; lit "host_sha256"; lit "host_blake3";
   lit "host_verify_signature"; lit "host_chain_id"; lit "host_address_from_pubkey";
   lit "host_emit_event"; lit "host_caller_is_agent"; lit "host_caller_reputation_micros";
   lit "host_get_reputation_score_micros"; lit "host_get_effective_reputation_micros";
   lit "host_get_reputation_details_fixed"; lit "host_agent_has_capability";
   lit "host_get_requester_reputation_details_fixed"; lit "host_get_agent";
   lit "host_get_agent_capabilities"; lit "host_get_task"; lit "host_get_agreement";
   lit "host_get_tool"; lit "host_search_tools"; lit "host_get_task_status";
   lit "host_is_task_fulfilled"; lit "host_get_agreement_status";
   lit "host_get_tool_reputation_fixed"; lit "host_get_arbitrator_fixed";
   lit "host_call_contract"; lit "host_tool_invoke"; lit "host_token_balance";
   lit "host_token_allowance"; lit "host_token_total_supply"; lit "host_token_metadata";
   lit "host_token_transfer"; lit "host_token_transfer_from"; lit "host_token_mint";
   lit "host_token_burn"; lit "host_token_approve"].

Record ContractUpgradePolicy : Type := {
  same_address_upgrades_supported : bool;
  immutable_replacement_supported : bool;
  stable_route_aliases_supported : bool;
  route_scheme : rstr;
}.
(** What the fingerprint serialises, in order. *)
Record ContractPlatformProfileFingerprint : Type := {
  f_profile_version : Z;
  f_vm_profile_id : rstr;
  f_vm_profile_version : Z;
  f_integer_only : bool;
  f_fixed_point_scale : Z;
  f_wasm_features : list rstr;
  f_host_functions : list rstr;
  f_max_contract_bytes : Z;
  f_max_storage_value_bytes : Z;
  f_max_storage_per_contract_bytes : Z;
  f_max_call_depth : Z;
  f_upgrade_policy : ContractUpgradePolicy;
  f_supported_verification_backends : list ContractVerificationBackendCapability;
}.
Record ContractPlatformCapabilities : Type := {
  profile_version : Z;
  profile_id : rstr;
  contract_vm_profile_id : rstr;
  contract_vm_profile_version : Z;
  integer_only : bool;
  fixed_point_scale : Z;
  wasm_features : list rstr;
  host_functions : list rstr;
  max_contract_bytes : Z;
  max_storage_value_bytes : Z;
  max_storage_per_contract_bytes : Z;
  max_call_depth : Z;
  upgrade_policy : ContractUpgradePolicy;
  supported_verification_backends : list ContractVerificationBackendCapability;
}.

Definition contract_platform_scope_components
    : list rstr * list rstr * ContractUpgradePolicy * list ContractVerificationBackendCapability :=
  (CONTRACT_WASM_FEATURES, CONTRACT_HOST_FUNCTIONS,
   {| same_address_upgrades_supported := false; immutable_replacement_supported := true;
      stable_route_aliases_supported := true; route_scheme := CONTRACT_ROUTE_SCHEME |},
   supported_contract_verification_backends).

Section Profile.
Context `{Digests, Hex, !Bincode ContractPlatformProfileFingerprint}.

Definition fingerprint (features functions : list rstr) (policy : ContractUpgradePolicy)
    (backends : list ContractVerificationBackendCapability) : ContractPlatformProfileFingerprint :=
  {| f_profile_version := CONTRACT_PLATFORM_PROFILE_VERSION;
     f_vm_profile_id := CONTRACT_VM_PROFILE_ID;
     f_vm_profile_version := CONTRACT_VM_PROFILE_VERSION;
     f_integer_only := true;
     f_fixed_point_scale := CONTRACT_FIXED_POINT_SCALE;
     f_wasm_features := features;
     f_host_functions := functions;
     f_max_contract_bytes := MAX_CONTRACT_BYTECODE;
     f_max_storage_value_bytes := MAX_STORAGE_VALUE;
     f_max_storage_per_contract_bytes := MAX_STORAGE_TOTAL;
     f_max_call_depth := MAX_CALL_DEPTH;
     f_upgrade_policy := policy;
     f_supported_verification_backends := backends |}.
(** [None] is the panic of [expect]. *)
Definition profile_hash (f : ContractPlatformProfileFingerprint) : may_panic rstr :=
  encoded ← ok (bincode_serialize f); Some (hash_to_hex (hash_bytes encoded)).
Definition compute_contract_platform_profile_id (features functions : list rstr)
    (policy : ContractUpgradePolicy) (backends : list ContractVerificationBackendCapability)
    : may_panic rstr :=
  profile_hash (fingerprint features functions policy backends).
Definition contract_platform_capabilities : may_panic ContractPlatformCapabilities :=
  let '(features, functions, policy, backends) := contract_platform_scope_components in
  id ← compute_contract_platform_profile_id features functions policy backends;
  Some {| profile_version := CONTRACT_PLATFORM_PROFILE_VERSION;
          profile_id := id;
          contract_vm_profile_id := CONTRACT_VM_PROFILE_ID;
          contract_vm_profile_version := CONTRACT_VM_PROFILE_VERSION;
          integer_only := true;
          fixed_point_scale := CONTRACT_FIXED_POINT_SCALE;
          wasm_features := features;
          host_functions := functions;
          max_contract_bytes := MAX_CONTRACT_BYTECODE;
          max_storage_value_bytes := MAX_STORAGE_VALUE;
          max_storage_per_contract_bytes := MAX_STORAGE_TOTAL;
          max_call_depth := MAX_CALL_DEPTH;
          upgrade_policy := policy;
          supported_verification_backends := backends |}.

(** ** Properties *)
(** A fingerprint read off advertised capabilities, as a client recomputes it. *)
Definition fingerprint_of (c : ContractPlatformCapabilities) : ContractPlatformProfileFingerprint :=
  {| f_profile_version := profile_version c;
     f_vm_profile_id := contract_vm_profile_id c;
     f_vm_profile_version := contract_vm_profile_version c;
     f_integer_only := integer_only c;
     f_fixed_point_scale := fixed_point_scale c;
     f_wasm_features := wasm_features c;
     f_host_functions := host_functions c;
     f_max_contract_bytes := max_contract_bytes c;
     f_max_storage_value_bytes := max_storage_value_bytes c;
     f_max_storage_per_contract_bytes := max_storage_per_contract_bytes c;
     f_max_call_depth := max_call_depth c;
     f_upgrade_policy := upgrade_policy c;
     f_supported_verification_backends := supported_verification_backends c |}.

Lemma profile_hash_inj `{!HexLaws, !BincodeLaws ContractPlatformProfileFingerprint} f g i :
  (forall x y, bincode_serialize f = Ok x -> bincode_serialize g = Ok y -> collision_free [x; y]) ->
  profile_hash f = Some i -> profile_hash g = Some i -> f = g.
Proof.
  unfold profile_hash. intros Hcf.
  destruct (bincode_serialize f) as [x|] eqn:Ef; [|done].
  destruct (bincode_serialize g) as [y|] eqn:Eg; [|done]. cbn [ok mbind option_bind].
  intros [= <-] [= E]. unfold hash_to_hex in E. apply (f_equal hex_decode) in E. rewrite !hex_decode_encode in E.
  assert (x = y) as ->; [|exact (bincode_inj _ _ _ Ef Eg)].
  apply (Hcf x y eq_refl eq_refl);
    [repeat first [apply list_elem_of_here|apply list_elem_of_further]..|].
  apply bytesN_eq. congruence.
Qed.

(** The advertised profile identifier is the hash of everything else that is advertised: a
    client that recomputes it from the capabilities gets the same text, and capabilities with
    other limits, functions, features, upgrade policy or backends have another identifier. *)
Theorem platform_profile_commits `{!HexLaws, !BincodeLaws ContractPlatformProfileFingerprint} c :
  contract_platform_capabilities = Some c ->
  profile_hash (fingerprint_of c) = Some (profile_id c) /\
  forall c', profile_hash (fingerprint_of c') = Some (profile_id c) ->
    (forall x y, bincode_serialize (fingerprint_of c) = Ok x ->
       bincode_serialize (fingerprint_of c') = Ok y -> collision_free [x; y]) ->
    fingerprint_of c' = fingerprint_of c.
Proof.
  intros E.
  assert (profile_hash (fingerprint_of c) = Some (profile_id c)) as Hid.
  { unfold contract_platform_capabilities in E. cbv zeta beta iota delta [contract_platform_scope_components] in E.
    unfold compute_contract_platform_profile_id in E.
    destruct (profile_hash _) as [i|] eqn:Ei; [|discriminate E].
    assert (forall a b : ContractPlatformCapabilities, Some a = Some b -> a = b) as Hi by congruence.
    apply Hi in E. subst c. exact Ei. }
  split; [done|]. intros c' Hid' Hcf. symmetry. exact (profile_hash_inj _ _ _ Hcf Hid Hid').
Qed.

(** Nothing is advertised twice, each source language has exactly one backend, and a backend
    whose source reproduces the bytecode is one that asks for no witness and no recipe. *)
Lemma platform_scope_consistent :
  NoDup CONTRACT_WASM_FEATURES /\ NoDup CONTRACT_HOST_FUNCTIONS /\
  forall l, exists b, List.filter (fun b => match vb_language b, l with
    | Wat, Wat | Rust, Rust | AssemblyScript, AssemblyScript => true | _, _ => false end)
    supported_contract_verification_backends = [b] /\
    requires_bytecode_witness b = negb (direct_bytecode_reproduction b) /\
    requires_build_recipe b = negb (direct_bytecode_reproduction b).
Proof.
  split_and!.
  - apply (bool_decide_unpack _). by vm_compute.
  - apply (bool_decide_unpack _). by vm_compute.
  - intros []; eexists; by repeat split.
Qed.
End Profile.
End Platform.

Module PlatformWitness.
Import Platform.
#[local] Instance Language_eq : EqDecision ContractSourceLanguage.
Proof. solve_decision. Defined.
#[local] Instance Backend_eq : EqDecision ContractVerificationBackendCapability.
Proof. solve_decision. Defined.
#[local] Instance Policy_eq : EqDecision ContractUpgradePolicy.
Proof. solve_decision. Defined.
#[local] Instance Fingerprint_eq : EqDecision ContractPlatformProfileFingerprint.
Proof. solve_decision. Defined.
Definition fingerprint0 : ContractPlatformProfileFingerprint :=
  let '(features, functions, policy, backends) := contract_platform_scope_components in
  fingerprint features functions policy backends.
#[local] Instance fingerprints : Bincode ContractPlatformProfileFingerprint := table_bincode [fingerprint0].
#[local] Instance fingerprints_laws : BincodeLaws ContractPlatformProfileFingerprint.
Proof. apply table_bincode_laws. Qed.
Definition id0 : rstr := hash_to_hex (hash_bytes []).
Lemma platform_profile_commits_witness :
  exists c, contract_platform_capabilities = Some c /\ profile_id c = id0 /\
    profile_hash (fingerprint_of c) = Some id0.
Proof.
  eexists. split; [vm_compute; reflexivity|]. split; [vm_compute; reflexivity|].
  refine (proj1 (platform_profile_commits _ _)). vm_compute. reflexivity.
Defined.
End PlatformWitness.
