(* ===== verification/ContractStorage.v ===== *)
(** * The authenticated contract storage root

    Models [compute_contract_storage_root] and its helpers in [primitives/contract.rs]: a
    hexary Patricia trie over the nibbles of the keys, hashed bottom-up, and the check of
    an exported storage projection against a contract record.  A [BTreeMap] is a [gmap]
    read in key order; an index or slice out of range is a panic. *)
From S2P Require Import Prelude Crypto Instances Contract.
Import Contract.

Module Storage.

Definition entry : Type := (list Z * list byte).

(** [bytes_to_nibbles]. *)
Definition bytes_to_nibbles (bytes : list byte) : list Z :=
  mjoin ((fun b => [Z.shiftr (byte_val b) 4; Z.land (byte_val b) 15]) <$> bytes).

Fixpoint common_prefix_length (left right : list Z) : nat :=
  match left, right with
  | x :: left', y :: right' => if x =? y then S (common_prefix_length left' right') else 0
  | _, _ => 0
  end.

(** [chunks(2)] of a slice of even length. *)
Fixpoint pack_pairs (nibbles : list Z) : list byte :=
  match nibbles with
  | a :: b :: rest => byte_of (Z.lor (wrap8 (Z.shiftl a 4)) b) :: pack_pairs rest
  | _ => []
  end.

Definition hex_prefix_encode (nibbles : list Z) (is_leaf : bool) : list byte :=
  let odd := Nat.odd (length nibbles) in
  let flag := (if is_leaf then 2 else 0) + (if odd then 1 else 0) in
  match nibbles with
  | n :: rest =>
      if odd then byte_of (Z.lor (wrap8 (Z.shiftl flag 4)) n) :: pack_pairs rest
      else byte_of (wrap8 (Z.shiftl flag 4)) :: pack_pairs nibbles
  | [] => [byte_of (wrap8 (Z.shiftl flag 4))]
  end.

(** [(len as u32).to_be_bytes()]. *)
Definition be_len (l : list byte) : list byte := be_bytes 4 (wrap32 (Z.of_nat (length l))).

Definition leaf_bytes (key_end : list Z) (value : list byte) : list byte :=
  let encoded_key := hex_prefix_encode key_end true in
  [x01] ++ be_len encoded_key ++ encoded_key ++ be_len value ++ value.
Definition extension_bytes (prefix : list Z) (child : Hash256) : list byte :=
  let encoded_prefix := hex_prefix_encode prefix false in
  [x02] ++ be_len encoded_prefix ++ encoded_prefix ++ bn child.
Definition branch_bytes (children : list Hash256) (value : option (list byte)) : list byte :=
  [x03] ++ mjoin (bn <$> children)
  ++ match value with
     | Some v => [x01] ++ be_len v ++ v
     | None => [x00]
     end.

(** [&s[offset..]]. *)
Definition slice_from {A} (offset : nat) (s : list A) : may_panic (list A) :=
  if (offset <=? length s)%nat then Some (drop offset s) else None.

(** The loop that narrows [shared_prefix_len], stopping at zero. *)
Fixpoint shared_prefix_loop (first_key : list Z) (offset acc : nat) (rest : list entry)
    : may_panic nat :=
  match rest with
  | [] => Some acc
  | (nibbles, _) :: rest' =>
      a ← slice_from offset first_key;
      b ← slice_from offset nibbles;
      let acc := Nat.min acc (common_prefix_length a b) in
      if Nat.eqb acc 0 then Some 0%nat else shared_prefix_loop first_key offset acc rest'
  end.

(** The runs the branch loop walks: maximal blocks of consecutive entries with one nibble
    at [offset]. *)
Fixpoint runs (offset : nat) (entries : list entry) : may_panic (list (Z * list entry)) :=
  match entries with
  | [] => Some []
  | e :: entries' =>
      c ← e.1 !! offset;
      gs ← runs offset entries';
      Some (match gs with
            | (c', g) :: gs' => if c =? c' then (c, e :: g) :: gs' else (c, [e]) :: gs
            | [] => [(c, [e])]
            end)
  end.

(** The branch's own value and the entries that go to its children. *)
Definition branch_parts (offset : nat) (entries : list entry)
    : option (list byte) * list entry :=
  match entries with
  | (first_key, first_value) :: rest =>
      if Nat.eqb (length first_key) offset then (Some first_value, rest) else (None, entries)
  | [] => (None, [])
  end.

Section Hashing.
Context `{Digests}.

Definition hash_contract_storage_leaf (key_end : list Z) (value : list byte) : Hash256 :=
  hash_bytes (leaf_bytes key_end value).
Definition hash_contract_storage_extension (prefix : list Z) (child : Hash256) : Hash256 :=
  hash_bytes (extension_bytes prefix child).
Definition hash_contract_storage_branch (children : list Hash256) (value : option (list byte))
    : Hash256 :=
  hash_bytes (branch_bytes children value).

(** [children[child_index] = h]. *)
Definition set_child (children : list Hash256) (c : Z) (h : Hash256) : may_panic (list Hash256) :=
  if (0 <=? c) && (c <? Z.of_nat (length children)) then Some (<[Z.to_nat c := h]> children)
  else None.

(** The loop that fills the sixteen children, [root] being the recursive call. *)
Definition fill_children (root : list entry -> may_panic Hash256) (gs : list (Z * list entry))
    : may_panic (list Hash256) :=
  fold_option (fun children '(c, g) => h ← root g; set_child children c h)
    (replicate 16 hash_zero) gs.

Fixpoint contract_storage_subtree_root (fuel : nat) (entries : list entry) (offset : nat)
    : may_panic Hash256 :=
  match fuel with
  | O => None
  | S fuel =>
      match entries with
      | [] => Some hash_zero
      | [(k, v)] => key_end ← slice_from offset k; Some (hash_contract_storage_leaf key_end v)
      | (first_key, _) :: rest =>
          shared ← shared_prefix_loop first_key offset (length first_key - offset) rest;
          if (0 <? shared)%nat then
            child ← contract_storage_subtree_root fuel entries (offset + shared);
            Some (hash_contract_storage_extension (take shared (drop offset first_key)) child)
          else
            let '(branch_value, children_entries) := branch_parts offset entries in
            gs ← runs offset children_entries;
            children ← fill_children
              (fun g => contract_storage_subtree_root fuel g (S offset)) gs;
            Some (hash_contract_storage_branch children branch_value)
      end
  end.
End Hashing.

(** [storage.iter()]: the map in key order. *)
Definition btree_iter (storage : gmap (list byte) (list byte)) : list (list byte * list byte) :=
  sort_by (fun a b => bytes_cmp a.1 b.1) (map_to_list storage).

(** Recursion depth: every level consumes a nibble of the longest key. *)
Definition max_key (entries : list entry) : nat :=
  foldr Nat.max 0%nat ((fun e => length e.1) <$> entries).

Section Root.
Context `{Digests}.

Definition compute_contract_storage_root (storage : gmap (list byte) (list byte))
    : may_panic Hash256 :=
  if bool_decide (storage = ∅) then Some hash_zero
  else
    let entries := (fun e => (bytes_to_nibbles e.1, e.2)) <$> btree_iter storage in
    contract_storage_subtree_root (S (S (max_key entries))) entries 0.

(** From a [HashMap]: collected into a [BTreeMap] first. *)
Definition compute_contract_storage_root_from_hash_map (storage : gmap (list byte) (list byte))
    : may_panic Hash256 :=
  if bool_decide (storage = ∅) then Some hash_zero
  else compute_contract_storage_root (list_to_map (map_to_list storage)).
End Root.

Definition contract_storage_total_bytes (storage : gmap (list byte) (list byte)) : Z :=
  sum_u64 ((fun e => Z.of_nat (length e.1 + length e.2)) <$> btree_iter storage).

Section Projection.
Context `{Digests}.

Definition verify_contract_storage_projection (record : ContractRecord)
    (storage : option (gmap (list byte) (list byte))) : may_panic (result message unit) :=
  actual_root ← match storage with
                | Some s => compute_contract_storage_root s
                | None => Some hash_zero
                end;
  if negb (bool_decide (storage_root record = actual_root)) then
    Some (Err (Msg "contract {} storage_root mismatch: record commits {} but projection hashes to {}"
      [ABytes (bn (address record)); ABytes (bn (storage_root record));
       ABytes (bn actual_root)]))
  else
    let actual_bytes := match storage with
      | Some s => contract_storage_total_bytes s | None => 0 end in
    if negb (storage_bytes record =? actual_bytes) then
      Some (Err (Msg "contract {} storage_bytes mismatch: record commits {} but projection contains {}"
        [ABytes (bn (address record)); AInt (storage_bytes record); AInt actual_bytes]))
    else
      let actual_slot_count := match storage with
        | Some s => wrap64 (Z.of_nat (length (map_to_list s))) | None => 0 end in
      if negb (storage_slot_count record =? actual_slot_count) then
        Some (Err (Msg "contract {} storage_slot_count mismatch: record commits {} but projection contains {}"
          [ABytes (bn (address record)); AInt (storage_slot_count record);
           AInt actual_slot_count]))
      else Some (Ok ()).
End Projection.

(** ** Encodings determine what they encode *)

Definition is_nibble (z : Z) : Prop := 0 <= z < 16.

Lemma nibbles_of_byte b :
  Z.shiftr (byte_val b) 4 = byte_val b / 16 /\ Z.land (byte_val b) 15 = byte_val b mod 16.
Proof.
  split; [by rewrite Z.shiftr_div_pow2|].
  change 15 with (Z.ones 4). by rewrite Z.land_ones.
Qed.

Lemma bytes_to_nibbles_cons b l :
  bytes_to_nibbles (b :: l) = byte_val b / 16 :: byte_val b mod 16 :: bytes_to_nibbles l.
Proof. unfold bytes_to_nibbles. cbn. destruct (nibbles_of_byte b) as [-> ->]. done. Qed.

Lemma bytes_to_nibbles_range l : Forall is_nibble (bytes_to_nibbles l).
Proof.
  induction l as [|b l IH]; [constructor|]. rewrite bytes_to_nibbles_cons.
  pose proof (byte_val_range b). repeat constructor; try done; unfold is_nibble;
    [apply Z.div_pos; lia|apply Z.div_lt_upper_bound; lia|apply Z.mod_pos_bound; lia..].
Qed.

Lemma bytes_to_nibbles_length l : length (bytes_to_nibbles l) = (2 * length l)%nat.
Proof. induction l as [|b l IH]; [done|]. rewrite bytes_to_nibbles_cons. cbn. lia. Qed.

(** Nibble order is byte order. *)
Lemma bytes_to_nibbles_cmp a b :
  zlist_cmp (bytes_to_nibbles a) (bytes_to_nibbles b) = bytes_cmp a b.
Proof.
  revert b. induction a as [|x a IH]; intros [|y b]; [done..|].
  rewrite !bytes_to_nibbles_cons. cbn. rewrite IH.
  pose proof (Z.div_mod (byte_val x) 16 ltac:(lia)).
  pose proof (Z.div_mod (byte_val y) 16 ltac:(lia)).
  pose proof (Z.mod_pos_bound (byte_val x) 16 ltac:(lia)).
  pose proof (Z.mod_pos_bound (byte_val y) 16 ltac:(lia)).
  destruct (Z.compare_spec (byte_val x / 16) (byte_val y / 16)),
    (Z.compare_spec (byte_val x mod 16) (byte_val y mod 16)),
    (Z.compare_spec (byte_val x) (byte_val y)); try done; lia.
Qed.

Lemma bytes_to_nibbles_inj a b : bytes_to_nibbles a = bytes_to_nibbles b -> a = b.
Proof.
  intros E. apply bytes_cmp_eq. rewrite <- bytes_to_nibbles_cmp, E. apply zlist_cmp_refl.
Qed.

(** Two nibbles packed in a byte. *)
Lemma pack_nibbles a b : is_nibble a -> is_nibble b ->
  byte_val (byte_of (Z.lor (wrap8 (Z.shiftl a 4)) b)) = 16 * a + b.
Proof.
  intros Ha Hb. rewrite byte_val_of.
  assert (forallb (fun x => forallb (fun y =>
    wrap8 (Z.lor (wrap8 (Z.shiftl x 4)) y) =? 16 * x + y) (seqZ 0 16)) (seqZ 0 16) = true) as H
    by (by vm_compute).
  rewrite forallb_forall in H. specialize (H a).
  rewrite <- list_elem_of_In, elem_of_seqZ in H. specialize (H ltac:(unfold is_nibble in *; lia)).
  rewrite forallb_forall in H. specialize (H b).
  rewrite <- list_elem_of_In, elem_of_seqZ in H.
  apply Z.eqb_eq, H. unfold is_nibble in *; lia.
Qed.

Lemma pack_pairs_inj : forall n a b, (length a <= n)%nat ->
  Forall is_nibble a -> Forall is_nibble b ->
  Nat.odd (length a) = false -> Nat.odd (length b) = false ->
  pack_pairs a = pack_pairs b -> a = b.
Proof.
  induction n as [|n IH]; intros [|x [|x' a]] [|y [|y' b]] Hn Ha Hb Oa Ob E;
    cbn in *; try done; try lia.
  injection E as E1 E2.
  apply Forall_cons in Ha as [Hx Ha]. apply Forall_cons in Ha as [Hx' Ha].
  apply Forall_cons in Hb as [Hy Hb]. apply Forall_cons in Hb as [Hy' Hb].
  apply (f_equal byte_val) in E1. rewrite !pack_nibbles in E1 by done.
  assert (x = y /\ x' = y') as [-> ->] by (unfold is_nibble in *; lia).
  do 2 f_equal. eapply (IH a b); eauto; lia.
Qed.

Lemma hex_prefix_inj a b leaf : Forall is_nibble a -> Forall is_nibble b ->
  hex_prefix_encode a leaf = hex_prefix_encode b leaf -> a = b.
Proof.
  intros Ha Hb. unfold hex_prefix_encode.
  set (fl := if leaf then 2 else 0).
  assert (fl = 0 \/ fl = 2) as Hfl by (subst fl; destruct leaf; lia).
  assert (forall z, is_nibble z -> Z.lor (wrap8 (Z.shiftl z 4)) 0 = wrap8 (Z.shiftl z 4)) as H0
    by (intros; apply Z.lor_0_r).
  assert (forall z, is_nibble z -> byte_val (byte_of (wrap8 (Z.shiftl z 4))) = 16 * z) as Hev.
  { intros z Hz. rewrite <- H0 by done. rewrite pack_nibbles by (done || unfold is_nibble; lia).
    lia. }
  assert (is_nibble (fl + 0) /\ is_nibble (fl + 1)) as [Hf0 Hf1] by (unfold is_nibble; lia).
  destruct a as [|x a], b as [|y b]; cbn [length].
  - done.
  - destruct (Nat.odd (S (length b))) eqn:O; intros E; injection E.
    + intros _ E1. apply (f_equal byte_val) in E1. apply Forall_cons in Hb as [Hy _].
      rewrite Hev, pack_nibbles in E1 by done. unfold is_nibble in *. lia.
    + intros E2. apply (pack_pairs_inj (length (y :: b)) [] (y :: b)); try done. cbn. lia.
  - destruct (Nat.odd (S (length a))) eqn:O; intros E; injection E.
    + intros _ E1. apply (f_equal byte_val) in E1. apply Forall_cons in Ha as [Hy _].
      rewrite Hev, pack_nibbles in E1 by done. unfold is_nibble in *. lia.
    + intros E2. by apply (pack_pairs_inj (length (x :: a)) (x :: a) []).
  - destruct (Nat.odd (S (length a))) eqn:Oa, (Nat.odd (S (length b))) eqn:Ob;
      intros E; injection E.
    + intros E2 E1. apply (f_equal byte_val) in E1.
      apply Forall_cons in Ha as [Hx Ha], Hb as [Hy Hb].
      rewrite !pack_nibbles in E1 by done. assert (x = y) as -> by lia. f_equal.
      rewrite Nat.odd_succ in Oa, Ob. eapply (pack_pairs_inj (length a)); eauto;
        by rewrite <- Nat.negb_even, ?Oa, ?Ob.
    + intros _ E1. apply (f_equal byte_val) in E1. apply Forall_cons in Ha as [Hx Ha].
      rewrite pack_nibbles, Hev in E1 by done. unfold is_nibble in *. lia.
    + intros _ E1. apply (f_equal byte_val) in E1. apply Forall_cons in Hb as [Hy Hb].
      rewrite Hev, pack_nibbles in E1 by done. unfold is_nibble in *. lia.
    + intros E2. by apply (pack_pairs_inj (length (x :: a)) (x :: a) (y :: b)).
Qed.

Lemma pack_pairs_length n a : (length a <= n)%nat -> (length (pack_pairs a) <= length a)%nat.
Proof.
  revert a. induction n as [|n IH]; intros [|x [|y a]] Hn; cbn in *; try lia.
  specialize (IH a). lia.
Qed.

Lemma hex_prefix_length a leaf : (length (hex_prefix_encode a leaf) <= S (length a))%nat.
Proof.
  unfold hex_prefix_encode. destruct a as [|x a]; [done|].
  pose proof (pack_pairs_length (length a) a).
  pose proof (pack_pairs_length (length (x :: a)) (x :: a)).
  destruct (Nat.odd _); cbn [length] in *; lia.
Qed.

Definition short (n : nat) : Prop := Z.of_nat n < 4294967296.

Lemma framed_inj a b x y : short (length a) -> short (length b) ->
  be_len a ++ a ++ x = be_len b ++ b ++ y -> a = b /\ x = y.
Proof.
  intros Ha Hb E. apply app_inj_1 in E as [E1 E2]; [|by unfold be_len; rewrite !be_bytes_length].
  unfold be_len, short in *. apply be_bytes4_inj in E1; [|apply wrap32_range..].
  unfold wrap32 in E1. rewrite !Z.mod_small in E1 by lia.
  apply app_inj_1 in E2; [done|lia].
Qed.

Lemma framed_end_inj a b : short (length a) -> short (length b) ->
  be_len a ++ a = be_len b ++ b -> a = b.
Proof.
  intros Ha Hb E. apply (framed_inj a b [] []); [done..|]. by rewrite !app_nil_r.
Qed.

Lemma leaf_bytes_inj k v k' v' : Forall is_nibble k -> Forall is_nibble k' ->
  short (S (length k)) -> short (S (length k')) -> short (length v) -> short (length v') ->
  leaf_bytes k v = leaf_bytes k' v' -> k = k' /\ v = v'.
Proof.
  intros Hk Hk' Lk Lk' Lv Lv' E. unfold leaf_bytes in E. apply app_inv_head in E.
  pose proof (hex_prefix_length k true). pose proof (hex_prefix_length k' true).
  apply framed_inj in E as [E1 E2]; [|unfold short in *; lia..].
  apply hex_prefix_inj in E1; [|done..].
  split; [done|]. by apply framed_end_inj.
Qed.

Lemma extension_bytes_inj q h q' h' : Forall is_nibble q -> Forall is_nibble q' ->
  short (S (length q)) -> short (S (length q')) ->
  extension_bytes q h = extension_bytes q' h' -> q = q' /\ h = h'.
Proof.
  intros Hq Hq' Lq Lq' E. unfold extension_bytes in E. apply app_inv_head in E.
  pose proof (hex_prefix_length q false). pose proof (hex_prefix_length q' false).
  apply framed_inj in E as [E1 E2]; [|unfold short in *; lia..].
  apply hex_prefix_inj in E1; [|done..]. split; [done|by apply bytesN_eq].
Qed.

Lemma mjoin_bn_inj {n} (xs ys : list (bytesN n)) a b : length xs = length ys ->
  mjoin (bn <$> xs) ++ a = mjoin (bn <$> ys) ++ b -> xs = ys /\ a = b.
Proof.
  revert ys. induction xs as [|x xs IH]; intros [|y ys] L E; cbn in *; try done.
  rewrite <- !app_assoc in E. apply app_inj_1 in E as [E1 E2]; [|by rewrite !bn_length].
  apply bytesN_eq in E1. destruct (IH ys) as [-> ->]; [lia|done|by subst].
Qed.

Lemma branch_bytes_inj ch v ch' v' : length ch = length ch' ->
  match v with Some v => short (length v) | None => True end ->
  match v' with Some v => short (length v) | None => True end ->
  branch_bytes ch v = branch_bytes ch' v' -> ch = ch' /\ v = v'.
Proof.
  intros L Lv Lv' E. unfold branch_bytes in E. apply app_inv_head in E.
  apply mjoin_bn_inj in E as [-> E]; [|done]. split; [done|].
  destruct v as [v|], v' as [v'|]; try done. apply app_inv_head in E.
  f_equal. by apply framed_end_inj.
Qed.

(** ** Well-formed entry lists

    Strictly sorted keys that all start with the nibbles [p] consumed so far. *)
Definition klt (a b : entry) : Prop := zlist_cmp a.1 b.1 = Lt.
Definition entry_ok (p : list Z) (e : entry) : Prop :=
  (exists s, e.1 = p ++ s /\ Forall is_nibble s) /\ short (S (length e.1)) /\ short (length e.2).
Definition wf_entries (p : list Z) (es : list entry) : Prop :=
  StronglySorted klt es /\ Forall (entry_ok p) es.

Lemma wf_tail p e es : wf_entries p (e :: es) -> wf_entries p es.
Proof. intros [Hs Hf]. inversion Hs. inversion Hf. by split. Qed.

Lemma entry_ok_drop p e : entry_ok p e -> e.1 = p ++ drop (length p) e.1.
Proof. intros [(s & E & _) _]. by rewrite E, drop_app_length. Qed.

Lemma slice_ok p e : entry_ok p e -> slice_from (length p) e.1 = Some (drop (length p) e.1).
Proof.
  intros [(s & E & _) _]. unfold slice_from.
  destruct (Nat.leb_spec (length p) (length e.1)); [done|].
  rewrite E, length_app in H. lia.
Qed.

Lemma common_prefix_spec a b :
  (common_prefix_length a b <= length a)%nat /\
  forall n, (n <= common_prefix_length a b)%nat -> take n a = take n b.
Proof.
  revert b. induction a as [|x a IH]; intros [|y b]; cbn; split; try lia;
    try (intros [|n] Hn; cbn in *; try done; lia).
  - destruct (x =? y); cbn; [|lia]. specialize (IH b) as [? _]. lia.
  - intros n Hn. destruct (Z.eqb_spec x y) as [->|]; [|by replace n with 0%nat by lia].
    destruct n as [|n]; [done|]. cbn. f_equal. apply IH. lia.
Qed.

(** The shared prefix is shared by every entry. *)
Lemma shared_prefix_spec p k0 v0 rest acc :
  wf_entries p ((k0, v0) :: rest) -> (acc <= length k0 - length p)%nat ->
  exists s, shared_prefix_loop k0 (length p) acc rest = Some s /\ (s <= acc)%nat /\
    Forall (fun e => take s (drop (length p) e.1) = take s (drop (length p) k0)) rest.
Proof.
  revert acc. induction rest as [|[k v] rest IH]; intros acc Hwf Hacc; cbn [shared_prefix_loop].
  { exists acc. split; [done|]. split; [lia|constructor]. }
  pose proof Hwf as [Hs Hf]. inversion Hf as [|? ? H0 Hf']; subst.
  inversion Hf' as [|? ? H1 Hf'']; subst.
  rewrite (slice_ok p (k0, v0) H0 : slice_from (length p) k0 = _).
  rewrite (slice_ok p (k, v) H1 : slice_from (length p) k = _). cbn [mbind option_bind fst].
  set (c := common_prefix_length _ _).
  destruct (common_prefix_spec (drop (length p) k0) (drop (length p) k)) as [_ Hc].
  destruct (Nat.eqb_spec (Nat.min acc c) 0) as [E|E].
  { exists 0%nat. split; [done|]. split; [lia|]. by apply Forall_forall. }
  destruct (IH (Nat.min acc c)) as (s & Hl & Hle & Hall); [| lia|].
  { inversion Hs as [|? ? Hs' Hlt]; subst. inversion Hs'; subst. inversion Hlt; subst.
    split; [by constructor|by constructor]. }
  exists s. split; [done|]. split; [lia|]. constructor; [|done].
  cbn. symmetry. apply Hc. fold c. lia.
Qed.

Lemma wf_single p e : entry_ok p e -> wf_entries p [e].
Proof. intros He. split; [repeat constructor|by apply Forall_singleton]. Qed.

(** The runs of a sorted list partition it by nibble, in increasing order. *)
Lemma runs_spec p es :
  wf_entries p es -> Forall (fun e => (length p < length e.1)%nat) es ->
  exists gs, runs (length p) es = Some gs /\ mjoin (snd <$> gs) = es /\
    StronglySorted Z.lt (fst <$> gs) /\
    Forall (fun cg => is_nibble cg.1 /\ cg.2 <> [] /\ wf_entries (p ++ [cg.1]) cg.2) gs /\
    (forall e es' c g gs', es = e :: es' -> gs = (c, g) :: gs' ->
       exists s, e.1 = p ++ c :: s).
Proof.
  induction es as [|e es IH]; intros Hwf Hlen.
  { exists []. repeat split; try constructor. intros. done. }
  destruct IH as (gs & Hr & Hj & Hs & Hg & Hhd); [by eapply wf_tail|by inversion Hlen|].
  destruct Hwf as [Hsort Hok]. apply Forall_cons in Hok as [He Hok], Hlen as [Hle Hlen].
  apply StronglySorted_inv in Hsort as [Hsort' Hlt].
  destruct He as [([|c s] & Ek & Hn) Hsz].
  { exfalso. rewrite Ek, app_nil_r in Hle. lia. }
  apply Forall_cons in Hn as [Hc Hn].
  assert (e.1 !! length p = Some c) as Hlook.
  { rewrite Ek, lookup_app_r, Nat.sub_diag by lia. done. }
  assert (entry_ok (p ++ [c]) e) as Hok1.
  { split; [|done]. exists s. by rewrite <- app_assoc. }
  cbn [runs]. rewrite Hlook, Hr. cbn [mbind option_bind].
  destruct gs as [|[c' g] gs].
  - exists [(c, [e])]. rewrite <- Hj. split; [done|]. split; [done|]. split; [repeat constructor|].
    split.
    + apply Forall_singleton. split; [apply Hc|]. split; [done|by apply wf_single].
    + intros e0 es' c0 g gs' [= <- <-] [= <- <- <-]. by exists s.
  - apply Forall_cons in Hg as [(Hc' & Hgne & Hgwf) Hg]. cbn in Hj, Hs, Hc', Hgne, Hgwf.
    rewrite <- Hj in Hlt. apply Forall_app in Hlt as [Hltg _].
    destruct (Z.eqb_spec c c') as [<-|Hne].
    + exists ((c, e :: g) :: gs). split; [done|]. split; [by rewrite <- Hj|]. split; [done|].
      split.
      * constructor; [|done]. destruct Hgwf as [Hg1 Hg2]. cbn.
        split; [apply Hc|]. split; [done|]. split; by constructor.
      * intros e0 es' c0 g0 gs' [= <- <-] [= <- <- <-]. by exists s.
    + exists ((c, [e]) :: (c', g) :: gs). split; [done|]. split; [by rewrite <- Hj|].
      assert (c < c') as Hcc.
      { destruct g as [|e' g]; [done|]. apply Forall_cons in Hltg as [Hlt _].
        destruct Hgwf as [_ Hg2]. apply Forall_cons in Hg2 as [[(s' & Es' & _) _] _].
        unfold klt in Hlt. rewrite Ek, Es', <- app_assoc, zlist_cmp_app in Hlt. cbn in Hlt.
        destruct (Z.compare_spec c c'); try done; lia. }
      split; [|split].
      * constructor; [done|]. constructor; [done|]. inversion Hs as [|? ? _ Hf]; subst.
        eapply Forall_impl; [exact Hf|]. cbn. intros; lia.
      * constructor; [|by constructor]. split; [apply Hc|]. split; [done|by apply wf_single].
      * intros e0 es' c0 g0 gs' [= <- <-] [= <- <- <-]. by exists s.
Qed.

Section Binding.
Context `{Digests}.

Lemma set_child_spec ch c h : is_nibble c -> length ch = 16%nat ->
  set_child ch c h = Some (<[Z.to_nat c := h]> ch).
Proof.
  intros Hc L. unfold set_child, is_nibble in *. rewrite L.
  destruct (Z.leb_spec 0 c), (Z.ltb_spec c (Z.of_nat 16)); try done; lia.
Qed.

(** Filling the sixteen child slots. *)
Lemma fold_children (f : list entry -> option Hash256) gs ch0 :
  length ch0 = 16%nat -> NoDup (fst <$> gs) -> Forall (fun cg => is_nibble cg.1) gs ->
  (forall cg, cg ∈ gs -> is_Some (f cg.2)) ->
  exists ch,
    fold_option (fun children '(c, g) => h ← f g; set_child children c h) ch0 gs = Some ch /\
    length ch = 16%nat /\
    (forall c g, (c, g) ∈ gs -> f g = ch !! Z.to_nat c) /\
    (forall c, is_nibble c -> c ∉ fst <$> gs -> ch !! Z.to_nat c = ch0 !! Z.to_nat c).
Proof.
  revert ch0. induction gs as [|[c g] gs IH]; intros ch0 L Hnd Hn Hf; cbn.
  { exists ch0. repeat split; try done. intros c g Hin. by apply not_elem_of_nil in Hin. }
  apply NoDup_cons in Hnd as [Hnin Hnd]. apply Forall_cons in Hn as [Hc Hn]. cbn in *.
  destruct (Hf (c, g)) as [h Hh]; [apply list_elem_of_here|]. cbn in Hh.
  rewrite Hh. cbn. rewrite set_child_spec by done. cbn.
  destruct (IH (<[Z.to_nat c := h]> ch0)) as (ch & Hch & Hl & Hin & Hout).
  { by rewrite length_insert. }
  { done. }
  { done. }
  { intros cg Hcg. apply Hf. by apply list_elem_of_further. }
  exists ch. split; [done|]. split; [done|]. split.
  - intros c1 g1 [[= -> ->]|Hin1]%elem_of_cons; [|by apply Hin].
    rewrite Hout by done. rewrite Hh. symmetry. apply list_lookup_insert_eq.
    unfold is_nibble in *. lia.
  - intros c1 Hc1 [Hne Hnot]%not_elem_of_cons. rewrite Hout by done.
    apply list_lookup_insert_ne. unfold is_nibble in *. lia.
Qed.

(** The byte strings hashed below a node, the node's own first. *)
Fixpoint subtree_preimages (fuel : nat) (entries : list entry) (offset : nat) : list (list byte) :=
  match fuel with
  | O => []
  | S fuel =>
      match entries with
      | [] => []
      | [(k, v)] => [leaf_bytes (drop offset k) v]
      | (first_key, _) :: rest =>
          match shared_prefix_loop first_key offset (length first_key - offset) rest with
          | None => []
          | Some shared =>
              if (0 <? shared)%nat then
                match contract_storage_subtree_root fuel entries (offset + shared) with
                | None => []
                | Some child =>
                    extension_bytes (take shared (drop offset first_key)) child
                    :: subtree_preimages fuel entries (offset + shared)
                end
              else
                let '(branch_value, children_entries) := branch_parts offset entries in
                match runs offset children_entries with
                | None => []
                | Some gs =>
                    match fill_children
                        (fun g => contract_storage_subtree_root fuel g (S offset)) gs with
                    | None => []
                    | Some children =>
                        branch_bytes children branch_value
                        :: mjoin ((fun cg => subtree_preimages fuel cg.2 (S offset)) <$> gs)
                    end
                end
          end
      end
  end.

(** What a node is: the string [b] it hashes, the sub-lists it covers, and where the
    strings hashed below it are. *)
Inductive node (f : nat) (p : list Z) (es : list entry) (ps : list (list byte))
  : list byte -> Prop :=
| node_leaf k v : es = [(k, v)] -> node f p es ps (leaf_bytes (drop (length p) k) v)
| node_extension q c :
    q <> [] -> Forall is_nibble q -> short (S (length q)) -> wf_entries (p ++ q) es ->
    contract_storage_subtree_root f es (length (p ++ q)) = Some c ->
    (forall x, x ∈ subtree_preimages f es (length (p ++ q)) -> x ∈ ps) ->
    node f p es ps (extension_bytes q c)
| node_branch bv gs ch :
    es = match bv with Some v => [(p, v)] | None => [] end ++ mjoin (snd <$> gs) ->
    match bv with Some v => short (length v) | None => True end ->
    Forall (fun cg => is_nibble cg.1 /\ cg.2 <> [] /\ wf_entries (p ++ [cg.1]) cg.2) gs ->
    length ch = 16%nat ->
    (forall c g, (c, g) ∈ gs ->
       contract_storage_subtree_root f g (length (p ++ [c])) = ch !! Z.to_nat c) ->
    (forall c, is_nibble c -> c ∉ fst <$> gs -> ch !! Z.to_nat c = Some hash_zero) ->
    (forall c g x, (c, g) ∈ gs -> x ∈ subtree_preimages f g (length (p ++ [c])) -> x ∈ ps) ->
    node f p es ps (branch_bytes ch bv).

Definition depth_ok (fuel : nat) (p : list Z) (es : list entry) : Prop :=
  Forall (fun e => (length e.1 < length p + fuel)%nat) es.
Definition total_at (f : nat) : Prop :=
  forall p es, wf_entries p es -> es <> [] -> depth_ok f p es ->
    is_Some (contract_storage_subtree_root f es (length p)).

Lemma StronglySorted_NoDup_lt (l : list Z) : StronglySorted Z.lt l -> NoDup l.
Proof.
  induction 1 as [|x l _ IH Hf]; [constructor|]. constructor; [|done].
  intros Hx. rewrite Forall_forall in Hf. specialize (Hf x Hx). lia.
Qed.

(** Only the first entry of a sorted list can end at [p]. *)
Lemma others_longer p e es : wf_entries p (e :: es) ->
  Forall (fun e => (length p < length e.1)%nat) es.
Proof.
  intros [Hs Hok]. apply StronglySorted_inv in Hs as [_ Hlt].
  apply Forall_cons in Hok as [[(s & E & _) _] Hok].
  rewrite Forall_forall in Hlt, Hok |- *. intros x Hx.
  destruct (Hok x Hx) as [(s' & E' & _) _]. specialize (Hlt x Hx).
  unfold klt in Hlt. rewrite E, E', zlist_cmp_app in Hlt. rewrite E', length_app.
  destruct s, s'; cbn in *; try done; lia.
Qed.

Lemma length_snoc (p : list Z) c : length (p ++ [c]) = S (length p).
Proof. rewrite length_app. cbn. lia. Qed.

Lemma depth_sub f p c es g : depth_ok (S f) p es -> (forall e, e ∈ g -> e ∈ es) ->
  depth_ok f (p ++ [c]) g.
Proof.
  intros Hd Hsub. apply Forall_forall. intros e He. unfold depth_ok in Hd.
  rewrite Forall_forall in Hd. specialize (Hd e (Hsub e He)). rewrite length_snoc. lia.
Qed.

Lemma branch_member (bv : option (list byte)) p (gs : list (Z * list entry)) c g e :
  (c, g) ∈ gs -> e ∈ g ->
  e ∈ match bv with Some v => [(p, v)] | None => [] end ++ mjoin (snd <$> gs).
Proof.
  intros Hg He. apply elem_of_app. right. apply list_elem_of_join. exists g. split; [done|].
  apply list_elem_of_fmap. by exists (c, g).
Qed.

Lemma extension_wf p s k0 v0 rest :
  wf_entries p ((k0, v0) :: rest) -> (s <= length k0 - length p)%nat ->
  Forall (fun e => take s (drop (length p) e.1) = take s (drop (length p) k0)) rest ->
  let q := take s (drop (length p) k0) in
  length q = s /\ Forall is_nibble q /\ short (S (length q)) /\
  wf_entries (p ++ q) ((k0, v0) :: rest).
Proof.
  intros Hwf Hs Hall q. pose proof Hwf as [Hsort Hok].
  assert (length q = s) as Hq by (subst q; rewrite length_take, length_drop; lia).
  pose proof Hok as [H0 Hr]%Forall_cons.
  assert (forall e, entry_ok p e -> take s (drop (length p) e.1) = q ->
    Forall is_nibble q /\ entry_ok (p ++ q) e) as Hext.
  { intros e [(t & E & Hn) Hsz] Et. rewrite E, drop_app_length in Et.
    rewrite <- (take_drop s t), Et in Hn. apply Forall_app in Hn as [Hn1 Hn2].
    split; [done|]. split; [|done]. exists (drop s t). split; [|done].
    rewrite E, <- app_assoc. f_equal. by rewrite <- Et, take_drop. }
  destruct (Hext (k0, v0) H0 eq_refl) as [Hqn H0'].
  split; [done|]. split; [done|]. split.
  - destruct H0 as [_ [Hsh _]]. unfold short in *. cbn in Hsh. lia.
  - split; [done|]. constructor; [done|]. rewrite Forall_forall in Hr, Hall |- *.
    intros e He. apply Hext; [by apply Hr|by apply Hall].
Qed.

(** One step of the two recursions on two or more entries. *)
Lemma root_many f k0 v0 e1 rest o :
  contract_storage_subtree_root (S f) ((k0, v0) :: e1 :: rest) o =
  (shared ← shared_prefix_loop k0 o (length k0 - o) (e1 :: rest);
   if (0 <? shared)%nat then
     child ← contract_storage_subtree_root f ((k0, v0) :: e1 :: rest) (o + shared);
     Some (hash_contract_storage_extension (take shared (drop o k0)) child)
   else
     let '(bv, ces) := branch_parts o ((k0, v0) :: e1 :: rest) in
     gs ← runs o ces;
     children ← fill_children (fun g => contract_storage_subtree_root f g (S o)) gs;
     Some (hash_contract_storage_branch children bv)).
Proof. done. Qed.

Lemma preimages_many f k0 v0 e1 rest o :
  subtree_preimages (S f) ((k0, v0) :: e1 :: rest) o =
  match shared_prefix_loop k0 o (length k0 - o) (e1 :: rest) with
  | None => []
  | Some shared =>
      if (0 <? shared)%nat then
        match contract_storage_subtree_root f ((k0, v0) :: e1 :: rest) (o + shared) with
        | None => []
        | Some child => extension_bytes (take shared (drop o k0)) child
            :: subtree_preimages f ((k0, v0) :: e1 :: rest) (o + shared)
        end
      else
        let '(bv, ces) := branch_parts o ((k0, v0) :: e1 :: rest) in
        match runs o ces with
        | None => []
        | Some gs =>
            match fill_children (fun g => contract_storage_subtree_root f g (S o)) gs with
            | None => []
            | Some children => branch_bytes children bv
                :: mjoin ((fun cg => subtree_preimages f cg.2 (S o)) <$> gs)
            end
        end
  end.
Proof. done. Qed.

Lemma branch_parts_spec p k0 v0 rest : wf_entries p ((k0, v0) :: rest) ->
  exists bv ces, branch_parts (length p) ((k0, v0) :: rest) = (bv, ces) /\
    (k0, v0) :: rest = match bv with Some v => [(p, v)] | None => [] end ++ ces /\
    match bv with Some v => short (length v) | None => True end /\
    wf_entries p ces /\ Forall (fun e => (length p < length e.1)%nat) ces.
Proof.
  intros Hwf. pose proof (others_longer _ _ _ Hwf) as Ho.
  pose proof Hwf as [_ [Hk Hv]%Forall_cons]. destruct Hk as [(t & Et & _) [_ Hv0]].
  cbn in Et, Hv0. unfold branch_parts.
  destruct (Nat.eqb_spec (length k0) (length p)) as [El|El].
  - exists (Some v0), rest. split; [done|]. split.
    + rewrite Et, length_app in El. destruct t; [|cbn in El; lia].
      by rewrite Et, app_nil_r.
    + split; [done|]. split; [by eapply wf_tail|done].
  - exists None, ((k0, v0) :: rest). repeat split; try apply Hwf.
    constructor; [|done]. cbn. rewrite Et, length_app in El |- *. lia.
Qed.

Definition view (f : nat) (p : list Z) (es : list entry) : Prop :=
  exists b ps, contract_storage_subtree_root (S f) es (length p) = Some (hash_bytes b) /\
    subtree_preimages (S f) es (length p) = b :: ps /\ node f p es ps b.

Lemma view_extension f p k0 v0 e1 rest s : total_at f ->
  wf_entries p ((k0, v0) :: e1 :: rest) -> depth_ok (S f) p ((k0, v0) :: e1 :: rest) ->
  shared_prefix_loop k0 (length p) (length k0 - length p) (e1 :: rest) = Some s ->
  (0 < s <= length k0 - length p)%nat ->
  Forall (fun e => take s (drop (length p) e.1) = take s (drop (length p) k0)) (e1 :: rest) ->
  view f p ((k0, v0) :: e1 :: rest).
Proof.
  intros IH Hwf Hd Hloop [Hpos Hs] Hall. unfold view.
  rewrite root_many, preimages_many, Hloop. cbn [mbind option_bind].
  rewrite (proj2 (Nat.ltb_lt _ _) Hpos).
  destruct (extension_wf p s k0 v0 (e1 :: rest) Hwf Hs Hall) as (Hq & Hqn & Hqs & Hwf').
  set (q := take s (drop (length p) k0)) in *.
  assert (length p + s = length (p ++ q))%nat as -> by (rewrite length_app; lia).
  destruct (IH (p ++ q) ((k0, v0) :: e1 :: rest) Hwf') as [c Hc]; [done| |].
  { eapply Forall_impl; [exact Hd|]. cbn. intros. rewrite length_app. lia. }
  rewrite Hc. cbn [mbind option_bind]. eexists _, _. split; [done|]. split; [done|].
  apply node_extension; try done. intros E. rewrite E in Hq. cbn in Hq. lia.
Qed.

Lemma view_branch f p k0 v0 e1 rest : total_at f ->
  wf_entries p ((k0, v0) :: e1 :: rest) -> depth_ok (S f) p ((k0, v0) :: e1 :: rest) ->
  shared_prefix_loop k0 (length p) (length k0 - length p) (e1 :: rest) = Some 0%nat ->
  view f p ((k0, v0) :: e1 :: rest).
Proof.
  intros IH Hwf Hd Hloop. unfold view.
  rewrite root_many, preimages_many, Hloop. cbn [mbind option_bind Nat.ltb Nat.leb].
  destruct (branch_parts_spec p k0 v0 (e1 :: rest) Hwf)
    as (bv & ces & -> & Hes & Hbv & Hcwf & Hclen). cbn iota beta.
  destruct (runs_spec p ces Hcwf Hclen) as (gs & Hr & Hj & Hsrt & Hg & _).
  rewrite Hr. cbn [mbind option_bind].
  destruct (fold_children (fun g => contract_storage_subtree_root f g (S (length p))) gs
    (replicate 16 hash_zero)) as (ch & Hf & Hl & Hin & Hout).
  { done. }
  { apply StronglySorted_NoDup_lt, Hsrt. }
  { eapply Forall_impl; [exact Hg|]. by intros cg [? _]. }
  { intros [c g] Hcg. pose proof Hg as Hg'. rewrite Forall_forall in Hg'.
    destruct (Hg' _ Hcg) as (_ & Hgne & Hgwf). cbn in *. rewrite <- (length_snoc p c).
    apply IH; [done..|]. apply (depth_sub f p c _ g Hd). intros e He.
    rewrite Hes, <- Hj. by eapply branch_member. }
  unfold fill_children. rewrite Hf. eexists _, _. split; [done|]. split; [done|].
  apply (node_branch _ _ _ _ bv gs ch); try done.
  - etransitivity; [exact Hes|]. f_equal. symmetry. exact Hj.
  - intros c g Hcg. rewrite length_snoc. by apply Hin.
  - intros c Hc Hnot. rewrite Hout by done. apply lookup_replicate. unfold is_nibble in Hc.
    split; [done|lia].
  - intros c g x Hcg Hx. rewrite length_snoc in Hx. apply list_elem_of_join.
    eexists. split; [exact Hx|]. apply list_elem_of_fmap. by exists (c, g).
Qed.

Lemma node_view f p es : total_at f -> wf_entries p es -> es <> [] -> depth_ok (S f) p es ->
  view f p es.
Proof.
  intros IH Hwf Hne Hd. destruct es as [|[k0 v0] [|e1 rest]]; [done| |]; clear Hne.
  - exists (leaf_bytes (drop (length p) k0) v0), []. cbn [contract_storage_subtree_root].
    destruct Hwf as [_ [Hok _]%Forall_cons].
    pose proof (slice_ok p (k0, v0) Hok) as Hsl. cbn [fst] in Hsl. rewrite Hsl.
    split; [done|]. split; [done|]. by apply (node_leaf _ _ _ _ k0 v0).
  - destruct (shared_prefix_spec p k0 v0 (e1 :: rest) (length k0 - length p) Hwf)
      as (s & Hloop & Hs & Hall); [lia|].
    destruct s as [|s]; [by apply view_branch|].
    eapply view_extension; try done. lia.
Qed.

(** The computation never panics: the depth of the tree is bounded by the keys. *)
Lemma subtree_total f : total_at f.
Proof.
  induction f as [|f IH]; intros p es Hwf Hne Hd.
  - destruct es as [|e es]; [done|]. destruct Hwf as [_ Hok].
    apply Forall_cons in Hok as [[(s & E & _) _] _]. apply Forall_cons in Hd as [Hd _].
    rewrite E, length_app in Hd. lia.
  - destruct (node_view f p es IH Hwf Hne Hd) as (b & ps & -> & _). by eexists.
Qed.

(** The hash separates the strings of [xs] and maps none of them to the zero hash, which
    stands for an absent child. *)
Definition hash_ok (xs : list (list byte)) : Prop :=
  collision_free xs /\ Forall (fun x => hash_bytes x <> hash_zero) xs.

Lemma hash_ok_sub xs ys : (forall x, x ∈ xs -> x ∈ ys) -> hash_ok ys -> hash_ok xs.
Proof.
  intros Hsub [Hc Hz]. split; [by eapply collision_free_sub|].
  rewrite Forall_forall in Hz |- *. auto.
Qed.

Lemma depth_pos f p e es : wf_entries p (e :: es) -> depth_ok f p (e :: es) -> exists f', f = S f'.
Proof.
  intros [_ [[(s & E & _) _] _]%Forall_cons] [Hd _]%Forall_cons.
  rewrite E, length_app in Hd. destruct f; [lia|eauto].
Qed.

Lemma entry_drop_range p e : entry_ok p e ->
  Forall is_nibble (drop (length p) e.1) /\ short (S (length (drop (length p) e.1))).
Proof.
  intros [(s & E & Hn) [Hs _]]. rewrite E, drop_app_length.
  split; [done|]. rewrite E, length_app in Hs. unfold short in *. lia.
Qed.

(** [f1] and [f2] agree below [p]: equal roots there mean the entries of one list are
    entries of the other. *)
Definition binds_at (f1 : nat) : Prop := forall f2 p es1 es2 h,
  wf_entries p es1 -> wf_entries p es2 -> es1 <> [] -> es2 <> [] ->
  depth_ok f1 p es1 -> depth_ok f2 p es2 ->
  contract_storage_subtree_root f1 es1 (length p) = Some h ->
  contract_storage_subtree_root f2 es2 (length p) = Some h ->
  hash_ok (subtree_preimages f1 es1 (length p) ++ subtree_preimages f2 es2 (length p)) ->
  forall e, e ∈ es1 -> e ∈ es2.

(** The root of a non-empty list is the hash of a string among its preimages. *)
Lemma root_nonzero f p g xs : wf_entries p g -> g <> [] -> depth_ok f p g -> hash_ok xs ->
  (forall x, x ∈ subtree_preimages f g (length p) -> x ∈ xs) ->
  contract_storage_subtree_root f g (length p) <> Some hash_zero.
Proof.
  intros Hw Hne Hd [_ Hz] Hsub Hr. destruct g as [|e g]; [done|].
  destruct (depth_pos _ _ _ _ Hw Hd) as [f' ->].
  destruct (node_view f' p (e :: g) (subtree_total f') Hw Hne Hd) as (b & ps & Eb & Pb & _).
  assert (hash_bytes b = hash_zero) as Ez by congruence.
  rewrite Forall_forall in Hz. apply (Hz b); [|done]. apply Hsub. rewrite Pb. apply list_elem_of_here.
Qed.

(** The children of two equal branches. *)
Lemma branch_binds f1 f2 p (gs1 gs2 : list (Z * list entry)) (ch : list Hash256) xs c g1 e :
  binds_at f1 ->
  (c, g1) ∈ gs1 -> is_nibble c -> g1 <> [] -> wf_entries (p ++ [c]) g1 ->
  depth_ok f1 (p ++ [c]) g1 ->
  Forall (fun cg => is_nibble cg.1 /\ cg.2 <> [] /\ wf_entries (p ++ [cg.1]) cg.2) gs2 ->
  (forall c g, (c, g) ∈ gs2 -> depth_ok f2 (p ++ [c]) g) ->
  contract_storage_subtree_root f1 g1 (length (p ++ [c])) = ch !! Z.to_nat c ->
  (forall c g, (c, g) ∈ gs2 ->
     contract_storage_subtree_root f2 g (length (p ++ [c])) = ch !! Z.to_nat c) ->
  (forall c, is_nibble c -> c ∉ fst <$> gs2 -> ch !! Z.to_nat c = Some hash_zero) ->
  hash_ok xs ->
  (forall x, x ∈ subtree_preimages f1 g1 (length (p ++ [c])) -> x ∈ xs) ->
  (forall c g x, (c, g) ∈ gs2 -> x ∈ subtree_preimages f2 g (length (p ++ [c])) -> x ∈ xs) ->
  e ∈ g1 -> exists g2, (c, g2) ∈ gs2 /\ e ∈ g2.
Proof.
  intros IH Hcg1 Hc Hne1 Hw1 Hd1 Hg2 Hd2 Hr1 Hin2 Hout2 Hok Hp1 Hp2 He.
  destruct (subtree_total f1 (p ++ [c]) g1 Hw1 Hne1 Hd1) as [h1 Hh1].
  destruct (decide (c ∈ fst <$> gs2)) as [Hmem|Hnot].
  - apply list_elem_of_fmap in Hmem as ([c' g2] & E & Hcg2). cbn in E. subst c'.
    rewrite Forall_forall in Hg2. destruct (Hg2 _ Hcg2) as (_ & Hne2 & Hw2). cbn in *.
    exists g2. split; [done|]. eapply (IH f2 (p ++ [c]) g1 g2 h1); eauto.
    + rewrite (Hin2 c g2 Hcg2). by rewrite <- Hr1.
    + eapply hash_ok_sub; [|exact Hok]. intros x [Hx|Hx]%elem_of_app; eauto.
  - exfalso. rewrite (Hout2 c Hc Hnot) in Hr1.
    by eapply root_nonzero in Hr1.
Qed.

Lemma root_binds f1 : binds_at f1.
Proof.
  induction f1 as [|f1 IH]; intros f2 p es1 es2 h Hw1 Hw2 Hn1 Hn2 Hd1 Hd2 Hr1 Hr2 Hok e He; [done|].
  assert (exists f, f2 = S f) as [f ->].
  { destruct es2; [done|]. by eapply depth_pos. }
  destruct (node_view f1 p es1 (subtree_total f1) Hw1 Hn1 Hd1) as (b1 & ps1 & E1 & P1 & N1).
  destruct (node_view f p es2 (subtree_total f) Hw2 Hn2 Hd2) as (b2 & ps2 & E2 & P2 & N2).
  rewrite E1 in Hr1. rewrite E2 in Hr2. rewrite P1, P2 in Hok.
  assert (b1 = b2) as Hb.
  { destruct Hok as [Hc _]. apply Hc; [set_solver..|congruence]. }
  assert (hash_ok (ps1 ++ ps2)) as Hps by (eapply hash_ok_sub; [|exact Hok]; set_solver).
  destruct N1 as [k1 v1 Hes1|q1 c1 Hq1 Hqn1 Hqs1 Hqw1 Hqr1 Hqp1|bv1 gs1 ch1 Hes1 Hbv1 Hg1 Hl1 Hin1 Hout1 Hp1],
    N2 as [k2 v2 Hes2|q2 c2 Hq2 Hqn2 Hqs2 Hqw2 Hqr2 Hqp2|bv2 gs2 ch2 Hes2 Hbv2 Hg2 Hl2 Hin2 Hout2 Hp2];
    try (unfold leaf_bytes, extension_bytes, branch_bytes in Hb; discriminate Hb).
  - subst es1 es2. destruct Hw1 as [_ [Ho1 _]%Forall_cons], Hw2 as [_ [Ho2 _]%Forall_cons].
    pose proof (entry_drop_range _ _ Ho1) as [A1 B1]. pose proof (entry_drop_range _ _ Ho2) as [A2 B2].
    pose proof (entry_ok_drop _ _ Ho1) as D1. pose proof (entry_ok_drop _ _ Ho2) as D2.
    cbn [fst snd] in *.
    apply (leaf_bytes_inj _ _ _ _ A1 A2 B1 B2 (proj2 (proj2 Ho1)) (proj2 (proj2 Ho2))) in Hb
      as [Hk Hv].
    cbn in Hk, Hv. subst v2. rewrite Hk, <- D2 in D1. by rewrite D1 in He.
  - apply extension_bytes_inj in Hb as [-> ->]; [|assumption..].
    assert (forall f es, depth_ok (S f) p es -> depth_ok f (p ++ q2) es) as Hdq.
    { intros f' es Hd. eapply Forall_impl; [exact Hd|]. cbn. intros x Hx. rewrite length_app.
      destruct q2; [done|cbn; lia]. }
    eapply (IH f (p ++ q2) es1 es2 c2); eauto.
    eapply hash_ok_sub; [|exact Hps]. intros x [Hx|Hx]%elem_of_app; apply elem_of_app; eauto.
  - apply branch_bytes_inj in Hb as [-> ->]; [|congruence|done|done].
    rewrite Hes1 in He. apply elem_of_app in He as [He|He].
    { rewrite Hes2. apply elem_of_app. by left. }
    apply list_elem_of_join in He as (g1 & He & ([c g1'] & -> & Hcg1)%list_elem_of_fmap).
    cbn in He. rewrite Forall_forall in Hg1. destruct (Hg1 _ Hcg1) as (Hc & Hne & Hw). cbn in *.
    destruct (branch_binds f1 f p gs1 gs2 ch2 (ps1 ++ ps2) c g1' e) as (g2 & Hcg2 & He2); eauto.
    + eapply depth_sub; [exact Hd1|]. intros x Hx. rewrite Hes1. by eapply branch_member.
    + intros c' g Hcg. eapply depth_sub; [exact Hd2|]. intros x Hx. rewrite Hes2.
      by eapply branch_member.
    + intros x Hx. apply elem_of_app. eauto.
    + intros c' g x Hcg Hx. apply elem_of_app. eauto.
    + rewrite Hes2. by eapply branch_member.
Qed.

(** ** Whole maps *)

(** Keys and values whose encoded lengths fit the 32-bit length fields; the chain bounds
    them by 64 bytes and 64 KiB. *)
Definition storage_ok (s : gmap (list byte) (list byte)) : Prop :=
  map_Forall (fun k v => short (2 * length k + 1) /\ short (length v)) s.

Definition nibble_entries (s : gmap (list byte) (list byte)) : list entry :=
  (fun e => (bytes_to_nibbles e.1, e.2)) <$> btree_iter s.
Definition storage_preimages (s : gmap (list byte) (list byte)) : list (list byte) :=
  subtree_preimages (S (S (max_key (nibble_entries s)))) (nibble_entries s) 0.

Lemma btree_iter_member s k v : (k, v) ∈ btree_iter s <-> s !! k = Some v.
Proof. unfold btree_iter. rewrite sort_by_perm. apply elem_of_map_to_list. Qed.

Lemma btree_iter_sorted s :
  StronglySorted (fun a b => bytes_cmp a.1 b.1 = Lt) (btree_iter s).
Proof.
  apply (strictly_sorted (fun a b => bytes_cmp a.1 b.1)).
  - intros a b c. apply bytes_cmp_trans_le.
  - intros [k1 v1] [k2 v2] H1%btree_iter_member H2%btree_iter_member E%bytes_cmp_eq.
    cbn in E. subst k2. congruence.
  - unfold btree_iter. rewrite sort_by_perm. apply NoDup_map_to_list.
  - apply sort_by_sorted. intros a b E. unfold not_after. cbn.
    rewrite bytes_cmp_antisym. cbn in E. by rewrite E.
Qed.

Lemma nibble_entries_wf s : storage_ok s -> wf_entries [] (nibble_entries s).
Proof.
  intros Hok. split.
  - unfold nibble_entries. pose proof (btree_iter_sorted s) as Hs.
    induction Hs as [|e l _ IH Hf]; cbn; [constructor|]. constructor; [done|].
    apply Forall_fmap. eapply Forall_impl; [exact Hf|]. intros e' He'.
    unfold klt. cbn. by rewrite bytes_to_nibbles_cmp.
  - apply Forall_fmap, Forall_forall. intros [k v] Hin%btree_iter_member.
    destruct (Hok _ _ Hin) as [Hk Hv]. split; [|split].
    + eexists. split; [done|]. apply bytes_to_nibbles_range.
    + cbn [fst]. rewrite bytes_to_nibbles_length. unfold short in *. lia.
    + done.
Qed.

Lemma nibble_entries_depth s : depth_ok (S (S (max_key (nibble_entries s)))) [] (nibble_entries s).
Proof.
  unfold depth_ok, max_key. cbn [length Nat.add].
  induction (nibble_entries s) as [|e es IH]; [constructor|]. cbn. constructor; [lia|].
  eapply Forall_impl; [exact IH|]. cbn. intros. lia.
Qed.

Lemma nibble_entries_nonempty s : s <> ∅ -> nibble_entries s <> [].
Proof.
  intros Hne E. apply Hne, map_eq. intros k. rewrite lookup_empty.
  destruct (s !! k) as [v|] eqn:Hk; [|done]. apply btree_iter_member in Hk.
  unfold nibble_entries in E. apply fmap_nil_inv in E. rewrite E in Hk.
  by apply not_elem_of_nil in Hk.
Qed.

Lemma nibble_entries_incl s1 s2 :
  (forall e, e ∈ nibble_entries s1 -> e ∈ nibble_entries s2) ->
  forall k v, s1 !! k = Some v -> s2 !! k = Some v.
Proof.
  intros Hin k v Hk%btree_iter_member.
  assert ((bytes_to_nibbles k, v) ∈ nibble_entries s2) as He.
  { apply Hin. unfold nibble_entries. apply list_elem_of_fmap. by exists (k, v). }
  apply list_elem_of_fmap in He as ([k' v'] & [= E1%bytes_to_nibbles_inj E2] & He).
  subst. by apply btree_iter_member.
Qed.

Lemma storage_root_unfold s : s <> ∅ ->
  compute_contract_storage_root s =
  contract_storage_subtree_root (S (S (max_key (nibble_entries s)))) (nibble_entries s) 0.
Proof. intros Hne. unfold compute_contract_storage_root. by rewrite bool_decide_eq_false_2. Qed.

Lemma storage_root_total s : storage_ok s -> is_Some (compute_contract_storage_root s).
Proof.
  intros Hok. destruct (decide (s = ∅)) as [->|Hne]; [by eexists|].
  rewrite storage_root_unfold by done. apply (subtree_total _ []).
  - by apply nibble_entries_wf.
  - by apply nibble_entries_nonempty.
  - apply nibble_entries_depth.
Qed.

Lemma storage_root_nonzero s xs : storage_ok s -> s <> ∅ -> hash_ok xs ->
  (forall x, x ∈ storage_preimages s -> x ∈ xs) ->
  compute_contract_storage_root s <> Some hash_zero.
Proof.
  intros Hok Hne Hh Hsub. rewrite storage_root_unfold by done.
  eapply (root_nonzero _ []); [by apply nibble_entries_wf|by apply nibble_entries_nonempty|
    apply nibble_entries_depth|exact Hh|exact Hsub].
Qed.

Lemma storage_root_incl s1 s2 h : storage_ok s1 -> storage_ok s2 -> s1 <> ∅ -> s2 <> ∅ ->
  compute_contract_storage_root s1 = Some h -> compute_contract_storage_root s2 = Some h ->
  hash_ok (storage_preimages s1 ++ storage_preimages s2) ->
  forall k v, s1 !! k = Some v -> s2 !! k = Some v.
Proof.
  intros Ho1 Ho2 Hn1 Hn2 Hr1 Hr2 Hh. rewrite storage_root_unfold in Hr1, Hr2 by done.
  apply nibble_entries_incl. eapply (root_binds _ _ []); eauto using nibble_entries_wf,
    nibble_entries_nonempty, nibble_entries_depth.
Qed.

(** C19: the storage root binds the storage. It is computed for every storage without a
    panic, and two storages with one root are the same map, when the digest has no
    collision among the strings hashed for the two tries and maps none of them to the
    zero hash, which the format uses for an absent child. The [HashMap] entry point
    computes the same root. *)
Theorem storage_root_binds s1 s2 :
  storage_ok s1 -> storage_ok s2 -> hash_ok (storage_preimages s1 ++ storage_preimages s2) ->
  is_Some (compute_contract_storage_root s1) /\
  (compute_contract_storage_root s1 = compute_contract_storage_root s2 -> s1 = s2) /\
  compute_contract_storage_root_from_hash_map s1 = compute_contract_storage_root s1.
Proof.
  intros Ho1 Ho2 Hh. split; [by apply storage_root_total|]. split.
  - intros E. destruct (storage_root_total s1 Ho1) as [h Hr1]. pose proof Hr1 as Hr2.
    rewrite E in Hr2.
    assert (forall s xs, storage_ok s -> hash_ok xs -> (forall x, x ∈ storage_preimages s -> x ∈ xs) ->
      compute_contract_storage_root s = Some hash_zero -> s = ∅) as Hz.
    { intros s xs Ho Hx Hsub Hr. destruct (decide (s = ∅)) as [|Hne]; [done|].
      by eapply storage_root_nonzero in Hr. }
    destruct (decide (s1 = ∅)) as [->|Hn1].
    { symmetry. eapply Hz; [exact Ho2|exact Hh| |by rewrite <- E]. intros; apply elem_of_app; auto. }
    destruct (decide (s2 = ∅)) as [->|Hn2].
    { eapply Hz; [exact Ho1|exact Hh| |by rewrite E]. intros; apply elem_of_app; auto. }
    apply map_eq. intros k. apply option_eq. intros v. split.
    + by apply (storage_root_incl s1 s2 h).
    + apply (storage_root_incl s2 s1 h); try done.
      eapply hash_ok_sub; [|exact Hh]. set_solver.
  - unfold compute_contract_storage_root_from_hash_map. rewrite list_to_map_to_list.
    case_bool_decide; [|done]. by subst.
Qed.

(** The projection check. It never panics; it accepts exactly the projections whose
    root, byte count and slot count are the committed ones, an absent projection standing
    for an empty one; so a record whose storage was verified admits one storage only. *)
Theorem storage_projection_spec r p1 p2 :
  let s1 := default ∅ p1 in let s2 := default ∅ p2 in
  storage_ok s1 -> storage_ok s2 -> hash_ok (storage_preimages s1 ++ storage_preimages s2) ->
  (verify_contract_storage_projection r p1 = Some (Ok ()) <->
     compute_contract_storage_root s1 = Some (storage_root r) /\
     storage_bytes r = contract_storage_total_bytes s1 /\
     storage_slot_count r = wrap64 (Z.of_nat (size s1))) /\
  is_Some (verify_contract_storage_projection r p1) /\
  (verify_contract_storage_projection r p1 = Some (Ok ()) ->
   verify_contract_storage_projection r p2 = Some (Ok ()) -> s1 = s2).
Proof.
  cbv zeta. intros Ho1 Ho2 Hh.
  assert (forall p, storage_ok (default ∅ p) ->
    (verify_contract_storage_projection r p = Some (Ok ()) <->
     compute_contract_storage_root (default ∅ p) = Some (storage_root r) /\
     storage_bytes r = contract_storage_total_bytes (default ∅ p) /\
     storage_slot_count r = wrap64 (Z.of_nat (size (default ∅ p)))) /\
    is_Some (verify_contract_storage_projection r p)) as Hv.
  { intros p Ho. destruct (storage_root_total _ Ho) as [h Hr].
    unfold verify_contract_storage_projection.
    assert ((match p with Some s => compute_contract_storage_root s | None => Some hash_zero end)
      = Some h) as -> by (by destruct p).
    assert ((match p with Some s => contract_storage_total_bytes s | None => 0 end)
      = contract_storage_total_bytes (default ∅ p)) as -> by (by destruct p).
    assert ((match p with Some s => wrap64 (Z.of_nat (length (map_to_list s))) | None => 0 end)
      = wrap64 (Z.of_nat (size (default ∅ p)))) as ->.
    { destruct p as [s|]; [|done]. cbn. by rewrite length_map_to_list. }
    rewrite Hr. cbn [mbind option_bind].
    case_bool_decide as E1; cbn [negb]; [|split; [split; [done|intros ([= ->] & _); done]|by eexists]].
    destruct (Z.eqb_spec (storage_bytes r) (contract_storage_total_bytes (default ∅ p))) as [E2|E2];
      cbn [negb]; [|split; [split; [done|by intros (_ & ? & _)]|by eexists]].
    destruct (Z.eqb_spec (storage_slot_count r) (wrap64 (Z.of_nat (size (default ∅ p))))) as [E3|E3];
      cbn [negb]; [|split; [split; [done|by intros (_ & _ & ?)]|by eexists]].
    split; [|by eexists]. split; [|done]. intros _. split; [congruence|done]. }
  split; [by apply Hv|]. split; [by apply Hv|].
  intros V1%Hv V2%Hv; [|done..].
  eapply storage_root_binds; eauto. destruct V1 as [-> _], V2 as [-> _]. done.
Qed.
End Binding.

End Storage.

(** Two small storages that share key prefixes. *)
Module StorageWitness.
Import Storage.

Definition s_one : gmap (list byte) (list byte) :=
  {[ [x01; x02] := [x0a]; [x01; x03] := [x0b]; [x01] := [x0c]; [x20] := [x0d] ]}.
Definition s_two : gmap (list byte) (list byte) := <[ [x01; x03] := [x0e] ]> s_one.

Definition hash_okb (xs : list (list byte)) : bool :=
  collision_freeb xs && forallb (fun x => negb (bool_decide (hash_bytes x = hash_zero))) xs.
Lemma hash_okb_ok xs : hash_okb xs = true -> hash_ok xs.
Proof.
  intros [Hc Hz]%andb_true_iff. split; [by apply collision_freeb_ok|].
  apply List.Forall_forall. intros x Hx. rewrite forallb_forall in Hz.
  specialize (Hz x Hx). by to_prop.
Qed.

Definition storage_okb (s : gmap (list byte) (list byte)) : bool :=
  forallb (fun e => (Z.of_nat (2 * length e.1 + 1) <? 4294967296)
    && (Z.of_nat (length e.2) <? 4294967296)) (map_to_list s).
Lemma storage_okb_ok s : storage_okb s = true -> storage_ok s.
Proof.
  intros Hb k v Hkv. unfold storage_okb in Hb. rewrite forallb_forall in Hb.
  specialize (Hb (k, v)). rewrite <- list_elem_of_In, elem_of_map_to_list in Hb.
  specialize (Hb Hkv). cbn [fst snd] in Hb. to_prop. unfold short. lia.
Qed.

Lemma storage_root_binds_witness :
  is_Some (compute_contract_storage_root s_one) /\
  compute_contract_storage_root s_one <> compute_contract_storage_root s_two.
Proof.
  assert (storage_ok s_one) as A by (apply storage_okb_ok; by vm_compute).
  assert (storage_ok s_two) as B by (apply storage_okb_ok; by vm_compute).
  assert (hash_ok (storage_preimages s_one ++ storage_preimages s_two)) as C
    by (apply hash_okb_ok; by vm_compute).
  destruct (storage_root_binds s_one s_two A B C) as (T & Q & _).
  split; [exact T|]. intros E%Q. apply (f_equal (lookup [x01; x03])) in E. by vm_compute in E.
Defined.

Definition record1 : ContractRecord :=
  ContractWitness.record0
    <| storage_root := default hash_zero (compute_contract_storage_root s_one) |>
    <| storage_bytes := 10 |> <| storage_slot_count := 4 |>.

Lemma storage_projection_spec_witness :
  verify_contract_storage_projection record1 (Some s_one) = Some (Ok ()) /\
  verify_contract_storage_projection record1 (Some s_two) <> Some (Ok ()).
Proof.
  assert (storage_ok (default ∅ (Some s_one))) as A by (apply storage_okb_ok; by vm_compute).
  assert (storage_ok (default ∅ (Some s_two))) as B by (apply storage_okb_ok; by vm_compute).
  assert (hash_ok (storage_preimages s_one ++ storage_preimages s_two)) as C
    by (apply hash_okb_ok; by vm_compute).
  assert (verify_contract_storage_projection record1 (Some s_one) = Some (Ok ())) as V
    by (by vm_compute).
  destruct (storage_projection_spec record1 (Some s_one) (Some s_two) A B C) as (_ & _ & Q).
  split; [exact V|]. intros V2. specialize (Q V V2). cbn [default] in Q.
  assert (bool_decide (s_one !! [x01; x03] = s_two !! [x01; x03]) = true) as E
    by (rewrite (Q : s_one = s_two); by apply bool_decide_eq_true).
  vm_compute in E. discriminate E.
Defined.
End StorageWitness.
