(* ===== verification/ContractEvents.v ===== *)
(** * The contract event archive

    Models the event part of [primitives/contract.rs]: canonical order, block roots and
    the archive accumulator, computed block by block as the chain advances or in one
    pass over an exported projection. *)
From S2P Require Import Prelude Crypto Instances Merkle.

Module Events.

Record ContractEvent : Type := {
  contract_address : Address;
  topic : rstr;
  data : list byte;
  block_number : Z;
  tx_hash : Hash256;
  log_index : Z;
}.
#[global] Instance ContractEvent_eq_dec : EqDecision ContractEvent.
Proof. solve_decision. Defined.

(** Within a block: address, log index, transaction, topic, data. *)
Definition block_cmp : ContractEvent -> ContractEvent -> comparison :=
  cmp_then (cmp_on (fun e => bn (contract_address e)) bytes_cmp)
  (cmp_then (cmp_on log_index Z.compare)
  (cmp_then (cmp_on (fun e => bn (tx_hash e)) bytes_cmp)
  (cmp_then (cmp_on topic zlist_cmp)
            (cmp_on data bytes_cmp)))).
Definition canonical_cmp : ContractEvent -> ContractEvent -> comparison :=
  cmp_then (cmp_on block_number Z.compare) block_cmp.

Definition sort_contract_events_canonically (events : list ContractEvent) : list ContractEvent :=
  sort_by canonical_cmp events.

(** The maximal runs of one block number the archive loop walks. *)
Fixpoint block_runs (events : list ContractEvent) : list (Z * list ContractEvent) :=
  match events with
  | [] => []
  | e :: events' =>
      match block_runs events' with
      | (n, es) :: rs =>
          if block_number e =? n then (n, e :: es) :: rs
          else (block_number e, [e]) :: (n, es) :: rs
      | [] => [(block_number e, [e])]
      end
  end.

Section Archive.
Context `{Digests, Bincode ContractEvent}.

(** Panics when the event does not serialise. *)
Definition hash_contract_event (event : ContractEvent) : may_panic Hash256 :=
  hash_bytes <$> ok (bincode_serialize event).

Definition compute_contract_event_block_root (events : list ContractEvent) : may_panic Hash256 :=
  match events with
  | [] => Some hash_zero
  | _ =>
      leaf_hashes ← mapM hash_contract_event (sort_by block_cmp events);
      Merkle.root_from_hashes_owned leaf_hashes
  end.

Definition accumulator_bytes (previous : Hash256) (block_number : Z) (count : nat)
    (block_root : Hash256) : list byte :=
  bn previous ++ be_bytes 8 block_number ++ be_bytes 8 (wrap64 (Z.of_nat count)) ++ bn block_root.

Definition advance_contract_event_archive_accumulator (previous : Hash256) (block_number : Z)
    (block_events : list ContractEvent) : may_panic Hash256 :=
  match block_events with
  | [] => Some previous
  | _ =>
      block_root ← compute_contract_event_block_root block_events;
      Some (hash_bytes (accumulator_bytes previous block_number (length block_events) block_root))
  end.

Definition compute_contract_event_archive_accumulator (events : list ContractEvent)
    : may_panic Hash256 :=
  match events with
  | [] => Some hash_zero
  | _ =>
      fold_option (fun acc '(n, es) => advance_contract_event_archive_accumulator acc n es)
        hash_zero (block_runs (sort_contract_events_canonically events))
  end.

Definition verify_contract_event_archive_accumulator (expected : Hash256)
    (events : list ContractEvent) : may_panic (result message unit) :=
  actual ← compute_contract_event_archive_accumulator events;
  Some (ensure (bool_decide (expected = actual))
    (Msg "contract event archive accumulator mismatch: committed {} but projection hashes to {}"
      [ABytes (bn expected); ABytes (bn actual)])).

(** ** The canonical order *)

#[local] Instance block_cmp_laws : CmpLaws block_cmp := _.
#[local] Instance canonical_cmp_laws : CmpLaws canonical_cmp := _.

Lemma block_cmp_eq a b : block_number a = block_number b -> block_cmp a b = Eq -> a = b.
Proof.
  unfold block_cmp, cmp_then, cmp_on, then_with. intros Hn E.
  destruct (bytes_cmp (bn (contract_address a)) _) eqn:E1; try done.
  destruct (Z.compare_spec (log_index a) (log_index b)) as [E2|E2|E2]; try done.
  destruct (bytes_cmp (bn (tx_hash a)) _) eqn:E3; try done.
  destruct (zlist_cmp (topic a) _) eqn:E4; try done.
  apply bytes_cmp_eq in E1, E3, E. apply zlist_cmp_eq in E4.
  apply bytesN_eq in E1, E3. destruct a, b; cbn in *; subst. done.
Qed.

Lemma canonical_cmp_eq a b : canonical_cmp a b = Eq -> a = b.
Proof.
  unfold canonical_cmp, cmp_then, cmp_on at 1, then_with.
  destruct (Z.compare_spec (block_number a) (block_number b)); try done.
  by apply block_cmp_eq.
Qed.

Lemma canonical_sort_unique es1 es2 : es1 ≡ₚ es2 ->
  sort_contract_events_canonically es1 = sort_contract_events_canonically es2.
Proof. apply sort_by_unique; [apply _|]. intros a b _ _. apply canonical_cmp_eq. Qed.

Definition in_block (n : Z) (es : list ContractEvent) : Prop :=
  Forall (fun e => block_number e = n) es.

Lemma in_block_perm n es1 es2 : es1 ≡ₚ es2 -> in_block n es1 -> in_block n es2.
Proof. unfold in_block. by intros ->. Qed.

Lemma block_root_perm n es1 es2 : in_block n es1 -> es1 ≡ₚ es2 ->
  compute_contract_event_block_root es1 = compute_contract_event_block_root es2.
Proof.
  intros Hb Hp. pose proof (Permutation_length Hp).
  assert (sort_by block_cmp es1 = sort_by block_cmp es2) as E.
  { apply sort_by_unique; [apply _| |done]. intros a b Ha Hb'.
    unfold in_block in Hb. rewrite Forall_forall in Hb.
    apply block_cmp_eq. by rewrite (Hb a), (Hb b). }
  unfold compute_contract_event_block_root. rewrite E. by destruct es1, es2.
Qed.

Lemma advance_perm acc n es1 es2 : in_block n es1 -> es1 ≡ₚ es2 ->
  advance_contract_event_archive_accumulator acc n es1 =
  advance_contract_event_archive_accumulator acc n es2.
Proof.
  intros Hb Hp. pose proof (Permutation_length Hp) as Hl.
  unfold advance_contract_event_archive_accumulator.
  rewrite (block_root_perm n es1 es2 Hb Hp), Hl. by destruct es1, es2.
Qed.

(** ** Runs *)

Lemma block_runs_join es : mjoin (snd <$> block_runs es) = es.
Proof.
  induction es as [|e es IH]; [done|]. cbn [block_runs].
  destruct (block_runs es) as [|[n rs] rest]; [exact (f_equal (cons e) IH)|].
  destruct (block_number e =? n); exact (f_equal (cons e) IH).
Qed.

Lemma block_runs_ok es : Forall (fun r => r.2 <> [] /\ in_block r.1 r.2) (block_runs es).
Proof.
  induction es as [|e es IH]; [constructor|]. cbn [block_runs].
  destruct (block_runs es) as [|[n rs] rest].
  - constructor; [|done]. split; [done|by constructor].
  - inversion IH as [|? ? [Hne Hb] Hrest]; subst.
    destruct (Z.eqb_spec (block_number e) n) as [En|En].
    + constructor; [|done]. split; [done|]. cbn. by constructor.
    + constructor; [|done]. split; [done|by repeat constructor].
Qed.

(** A block in front of events of other blocks is the first run. *)
Lemma block_runs_app n es rest : in_block n es -> es <> [] ->
  match rest with e :: _ => block_number e <> n | [] => True end ->
  block_runs (es ++ rest) = (n, es) :: block_runs rest.
Proof.
  intros Hb Hne Hr. induction Hb as [|e es He Hb IH]; [done|]. clear Hne.
  destruct es as [|e2 es].
  - cbn [app block_runs]. destruct rest as [|r rest]; cbn [block_runs]; [by rewrite He|].
    destruct (block_runs rest) as [|[m rs] rs'].
    + destruct (Z.eqb_spec (block_number e) (block_number r)); [congruence|by rewrite He].
    + destruct (Z.eqb_spec (block_number r) m) as [<-|];
        destruct (Z.eqb_spec (block_number e) (block_number r)); try congruence; by rewrite He.
  - assert (e2 :: es <> []) as Hne by done. specialize (IH Hne).
    change ((e :: e2 :: es) ++ rest) with (e :: ((e2 :: es) ++ rest)). cbn [block_runs].
    rewrite IH. destruct (Z.eqb_spec (block_number e) n); [done|congruence].
Qed.

Definition blocks_ok (bs : list (Z * list ContractEvent)) : Prop :=
  StronglySorted Z.lt (fst <$> bs) /\ Forall (fun b => in_block b.1 b.2) bs.

Lemma blocks_ok_cons n es bs : blocks_ok ((n, es) :: bs) ->
  in_block n es /\ blocks_ok bs /\
  Forall (fun e => n < block_number e) (mjoin (snd <$> bs)).
Proof.
  intros [Hs Hf]. apply Forall_cons in Hf as [Hb Hf]. cbn in Hs, Hb.
  apply StronglySorted_inv in Hs as [Hs Hlt]. split; [done|]. split; [done|].
  apply Forall_forall. intros e (es' & He & ([m es''] & -> & Hin)%list_elem_of_fmap)%list_elem_of_join.
  cbn in He. rewrite Forall_forall in Hf. rewrite Forall_forall in Hlt. specialize (Hf _ Hin). cbn in Hf.
  unfold in_block in Hf. rewrite Forall_forall in Hf. rewrite (Hf e He).
  apply Hlt. apply list_elem_of_fmap. by exists (m, es'').
Qed.

(** Sorting the blocks one by one sorts their concatenation. *)
Lemma blocks_sorted bs : blocks_ok bs ->
  StronglySorted (not_after canonical_cmp)
    (mjoin ((fun b => sort_contract_events_canonically b.2) <$> bs)) /\
  mjoin ((fun b => sort_contract_events_canonically b.2) <$> bs) ≡ₚ mjoin (snd <$> bs).
Proof.
  induction bs as [|[n es] bs IH]; intros Hok; [by repeat constructor|].
  apply blocks_ok_cons in Hok as (Hb & Hok & Hlt). destruct (IH Hok) as [IH1 IH2]. cbn.
  split; [|by rewrite IH2, (sort_by_perm canonical_cmp es)].
  apply StronglySorted_app. split; [|split; [|done]].
  - intros x y Hx Hy. unfold not_after, canonical_cmp, cmp_then, cmp_on at 1, then_with.
    rewrite IH2 in Hy. unfold sort_contract_events_canonically in Hx. rewrite sort_by_perm in Hx.
    unfold in_block in Hb. rewrite Forall_forall in Hb, Hlt.
    specialize (Hb x Hx). specialize (Hlt y Hy). cbn in Hlt.
    by destruct (Z.compare_spec (block_number x) (block_number y)); [lia|..|lia].
  - apply sort_by_strongly_sorted, _.
Qed.

Lemma fold_blocks bs acc : blocks_ok bs ->
  fold_option (fun acc '(n, es) => advance_contract_event_archive_accumulator acc n es) acc
    (block_runs (mjoin ((fun b => sort_contract_events_canonically b.2) <$> bs))) =
  fold_option (fun acc '(n, es) => advance_contract_event_archive_accumulator acc n es) acc bs.
Proof.
  revert acc. induction bs as [|[n es] bs IH]; intros acc Hok; [done|].
  apply blocks_ok_cons in Hok as (Hb & Hok & Hlt). cbn [fmap list_fmap snd].
  set (s := sort_contract_events_canonically es).
  assert (s ≡ₚ es) as Hp by apply sort_by_perm.
  assert (in_block n s) as Hbs by (eapply in_block_perm; [symmetry; exact Hp|exact Hb]).
  destruct (decide (es = [])) as [->|Hne].
  { cbn. by apply IH. }
  change (mjoin (s :: ?x)) with (s ++ mjoin x).
  rewrite (block_runs_app n).
  - cbn [fold_option]. rewrite (advance_perm acc n s es Hbs Hp).
    destruct (advance_contract_event_archive_accumulator acc n es); [|done]. cbn. by apply IH.
  - exact Hbs.
  - intros E. rewrite E in Hp. apply Permutation_nil in Hp. done.
  - destruct (mjoin _) as [|e rest] eqn:E; [done|].
    destruct (blocks_sorted bs Hok) as [_ Hpj].
    assert (e ∈ mjoin (snd <$> bs)) as He by (rewrite <- Hpj, E; apply list_elem_of_here).
    rewrite Forall_forall in Hlt. specialize (Hlt e He). lia.
Qed.

(** The archive accumulator of an exported projection, in any order, is the one the
    chain reaches by advancing block after block. *)
Theorem archive_accumulator_incremental bs events :
  blocks_ok bs -> events ≡ₚ mjoin (snd <$> bs) ->
  compute_contract_event_archive_accumulator events =
  fold_option (fun acc '(n, es) => advance_contract_event_archive_accumulator acc n es)
    hash_zero bs.
Proof.
  intros Hok Hp. rewrite <- (fold_blocks bs hash_zero Hok).
  destruct (blocks_sorted bs Hok) as [Hs Hps].
  assert (sort_contract_events_canonically events =
    mjoin ((fun b => sort_contract_events_canonically b.2) <$> bs)) as E.
  { apply (sorted_unique canonical_cmp); [|apply sort_by_strongly_sorted, _|done|].
    - intros a b _ _ Hab Hba. apply canonical_cmp_eq.
      rewrite cmp_antisym in Hba. by destruct (canonical_cmp a b).
    - unfold sort_contract_events_canonically at 1. by rewrite sort_by_perm, Hps. }
  unfold compute_contract_event_archive_accumulator. rewrite <- E.
  by destruct events.
Qed.

(** ** Binding *)

(** The strings hashed while one block is added: event encodings, tree pairs, and the
    accumulator input. *)
Definition encodings (es : list ContractEvent) : list (list byte) :=
  (fun e => default [] (ok (bincode_serialize e))) <$> sort_by block_cmp es.
Definition block_preimages (acc : Hash256) (n : Z) (es : list ContractEvent) : list (list byte) :=
  encodings es
  ++ Merkle.tree_preimages (length es) (hash_bytes <$> encodings es)
  ++ match compute_contract_event_block_root es with
     | Some r => [accumulator_bytes acc n (length es) r]
     | None => []
     end.
Fixpoint chain_preimages (acc : Hash256) (rs : list (Z * list ContractEvent)) : list (list byte) :=
  match rs with
  | [] => []
  | (n, es) :: rs' =>
      block_preimages acc n es ++
      match advance_contract_event_archive_accumulator acc n es with
      | Some acc' => chain_preimages acc' rs'
      | None => []
      end
  end.
Definition archive_preimages (events : list ContractEvent) : list (list byte) :=
  chain_preimages hash_zero (block_runs (sort_contract_events_canonically events)).

(** No collision among [xs] and none of them hashes to the empty archive's value. *)
Definition archive_hash_ok (xs : list (list byte)) : Prop :=
  collision_free xs /\ Forall (fun x => hash_bytes x <> hash_zero) xs.

Lemma archive_hash_sub xs ys :
  (forall x, x ∈ xs -> x ∈ ys) -> archive_hash_ok ys -> archive_hash_ok xs.
Proof.
  intros Hsub [Hc Hz]. split; [by eapply collision_free_sub|].
  rewrite Forall_forall in Hz |- *. auto.
Qed.

Definition chain (acc : Hash256) (rs : list (Z * list ContractEvent)) : option Hash256 :=
  fold_option (fun acc '(n, es) => advance_contract_event_archive_accumulator acc n es) acc rs.

Lemma chain_preimages_app acc rs n es acc' : chain acc rs = Some acc' ->
  chain_preimages acc (rs ++ [(n, es)]) =
  chain_preimages acc rs ++ block_preimages acc' n es ++
    match advance_contract_event_archive_accumulator acc' n es with
    | Some _ => [] | None => [] end.
Proof.
  revert acc. induction rs as [|[m es'] rs IH]; intros acc Hc; cbn in *.
  - injection Hc as ->. done.
  - destruct (advance_contract_event_archive_accumulator acc m es') as [a|]; cbn in *; [|done].
    rewrite IH by done. by rewrite <- app_assoc.
Qed.

Lemma leaf_hashes es hs : mapM hash_contract_event (sort_by block_cmp es) = Some hs ->
  hs = hash_bytes <$> encodings es /\ length hs = length es /\
  Forall (fun e => is_ok (bincode_serialize e) = true) (sort_by block_cmp es).
Proof.
  intros Hm. apply mapM_Some in Hm. unfold encodings.
  assert (length hs = length es) as Hl.
  { rewrite <- (Forall2_length _ _ _ Hm). apply Permutation_length, sort_by_perm. }
  split; [|split; [done|]].
  - clear Hl. induction Hm as [|e h l hs He Hm IH]; [done|]. cbn. rewrite <- IH. f_equal.
    unfold hash_contract_event, ok in *. by destruct (bincode_serialize e); cbn in *; inv_ok.
  - clear Hl. induction Hm as [|e h l hs He Hm IH]; constructor; [|done].
    unfold hash_contract_event, ok in *. by destruct (bincode_serialize e).
Qed.

Lemma block_root_Some es r : es <> [] -> compute_contract_event_block_root es = Some r ->
  r = Merkle.root (Merkle.from_hashes (hash_bytes <$> encodings es)) /\
  Forall (fun e => is_ok (bincode_serialize e) = true) (sort_by block_cmp es).
Proof.
  intros Hne Hr. unfold compute_contract_event_block_root in Hr. destruct es as [|e es]; [done|].
  destruct (mapM _ _) as [hs|] eqn:Em; [|done]. cbn in Hr.
  apply leaf_hashes in Em as (-> & _ & Hall). rewrite Merkle.owned_root in Hr. by inv_ok.
Qed.

Lemma encodings_length es : length (encodings es) = length es.
Proof. unfold encodings. rewrite length_fmap. apply Permutation_length, sort_by_perm. Qed.

Context `{!BincodeLaws ContractEvent}.

(** Equal block roots over equally many events bind the events. *)
Lemma block_root_binds es1 es2 r : es1 <> [] -> es2 <> [] -> length es1 = length es2 ->
  compute_contract_event_block_root es1 = Some r ->
  compute_contract_event_block_root es2 = Some r ->
  collision_free (encodings es1 ++ Merkle.tree_preimages (length es1) (hash_bytes <$> encodings es1)
    ++ encodings es2 ++ Merkle.tree_preimages (length es2) (hash_bytes <$> encodings es2)) ->
  es1 ≡ₚ es2.
Proof.
  intros N1 N2 Hl [R1 A1]%block_root_Some [R2 A2]%block_root_Some Hcf; [|done..].
  assert (hash_bytes <$> encodings es1 = hash_bytes <$> encodings es2) as E.
  { apply Merkle.root_same_length_inj.
    - by rewrite !length_fmap, !encodings_length.
    - congruence.
    - rewrite !length_fmap, !encodings_length. eapply collision_free_sub; [|exact Hcf]. set_solver. }
  assert (sort_by block_cmp es1 = sort_by block_cmp es2) as Es.
  { assert (forall x, x ∈ encodings es1 -> x ∈ encodings es1 ++ encodings es2) as _ by set_solver.
    assert (collision_free (encodings es1 ++ encodings es2)) as Hc
      by (eapply collision_free_sub; [|exact Hcf]; set_solver).
    clear - E A1 A2 Hc BincodeLaws0. unfold encodings in *.
    revert A1 A2 E Hc. generalize (sort_by block_cmp es1), (sort_by block_cmp es2).
    induction l as [|a l IH]; intros [|b l2] A1 A2 E Hc; cbn in E; try done.
    apply Forall_cons in A1 as [Ha A1], A2 as [Hb A2].
    assert (hash_bytes (default [] (ok (bincode_serialize a))) =
      hash_bytes (default [] (ok (bincode_serialize b)))) as Eh by congruence.
    apply Hc in Eh; [|cbn; set_solver..].
    destruct (bincode_serialize a) as [ba|] eqn:Ea; [|done].
    destruct (bincode_serialize b) as [bb|] eqn:Eb; [|done]. cbn in Eh. subst bb.
    f_equal; [by eapply bincode_inj|]. apply IH; [done|done|congruence|].
    eapply collision_free_sub; [|exact Hc]. cbn. set_solver. }
  by rewrite <- (sort_by_perm block_cmp es1), Es, sort_by_perm.
Qed.

Definition run_ok (r : Z * list ContractEvent) : Prop :=
  r.2 <> [] /\ is_u64 r.1 /\ Z.of_nat (length r.2) <= U64_MAX.

Lemma accumulator_bytes_inj p1 p2 n1 n2 (k1 k2 : nat) r1 r2 :
  is_u64 n1 -> is_u64 n2 -> Z.of_nat k1 <= U64_MAX -> Z.of_nat k2 <= U64_MAX ->
  accumulator_bytes p1 n1 k1 r1 = accumulator_bytes p2 n2 k2 r2 ->
  p1 = p2 /\ n1 = n2 /\ k1 = k2 /\ r1 = r2.
Proof.
  intros Hn1 Hn2 Hk1 Hk2 E. unfold accumulator_bytes in E.
  apply app_bytesN_inj in E as [-> E].
  apply app_inj_1 in E as [E1 E]; [|by rewrite !be_bytes_length].
  apply be_bytes8_inj in E1 as ->; [|done..].
  apply app_inj_1 in E as [E1 E]; [|by rewrite !be_bytes_length].
  apply be_bytes8_inj in E1; [|apply wrap64_range..].
  unfold wrap64, U64_MAX in *. rewrite !Z.mod_small in E1 by lia.
  split; [done|]. split; [done|]. split; [lia|by apply bytesN_eq].
Qed.

Lemma advance_Some acc n es h : es <> [] ->
  advance_contract_event_archive_accumulator acc n es = Some h ->
  exists r, compute_contract_event_block_root es = Some r /\
    h = hash_bytes (accumulator_bytes acc n (length es) r).
Proof.
  intros Hne Ha. unfold advance_contract_event_archive_accumulator in Ha.
  destruct es as [|e es]; [done|]. inv_ok. by eexists.
Qed.

(** The last step of a chain. *)
Lemma chain_snoc rs n es h : Forall run_ok (rs ++ [(n, es)]) ->
  chain hash_zero (rs ++ [(n, es)]) = Some h ->
  exists acc r, chain hash_zero rs = Some acc /\ Forall run_ok rs /\ run_ok (n, es) /\
    compute_contract_event_block_root es = Some r /\
    h = hash_bytes (accumulator_bytes acc n (length es) r) /\
    chain_preimages hash_zero (rs ++ [(n, es)]) =
      chain_preimages hash_zero rs ++ block_preimages acc n es.
Proof.
  intros Hok Hc. apply Forall_app in Hok as [Hok Hr].
  apply Forall_cons in Hr as [Hr _]. unfold chain in Hc. rewrite fold_option_app in Hc.
  destruct (fold_option _ hash_zero rs) as [acc|] eqn:Ea; [|done]. cbn in Hc.
  destruct (advance_contract_event_archive_accumulator acc n es) as [h'|] eqn:Eadv; [|done].
  cbn in Hc. inv_ok. pose proof Eadv as Eadv'.
  apply advance_Some in Eadv as (r & Hr1 & ->); [|apply Hr].
  exists acc, r. repeat split; try done; try apply Hr.
  rewrite (chain_preimages_app _ _ _ _ acc) by exact Ea. rewrite Eadv'. by rewrite app_nil_r.
Qed.

Lemma chain_nonzero rs n es h xs : Forall run_ok (rs ++ [(n, es)]) ->
  chain hash_zero (rs ++ [(n, es)]) = Some h -> archive_hash_ok xs ->
  (forall x, x ∈ chain_preimages hash_zero (rs ++ [(n, es)]) -> x ∈ xs) -> h <> hash_zero.
Proof.
  intros Hok Hc [_ Hz] Hsub Eh.
  destruct (chain_snoc rs n es h Hok Hc) as (acc & r & _ & _ & _ & Hr & -> & Hp).
  rewrite Forall_forall in Hz. eapply Hz; [apply Hsub|exact Eh].
  rewrite Hp. unfold block_preimages. rewrite Hr. set_solver.
Qed.

(** Equal chains over non-empty runs: same blocks, same events in each. *)
Lemma chain_binds rs1 : forall rs2 h,
  Forall run_ok rs1 -> Forall run_ok rs2 ->
  chain hash_zero rs1 = Some h -> chain hash_zero rs2 = Some h ->
  archive_hash_ok (chain_preimages hash_zero rs1 ++ chain_preimages hash_zero rs2) ->
  mjoin (snd <$> rs1) ≡ₚ mjoin (snd <$> rs2).
Proof.
  induction rs1 as [|[n1 es1] rs1 IH] using rev_ind; intros rs2 h Ho1 Ho2 C1 C2 Hh.
  - destruct rs2 as [|[n2 es2] rs2 _] using rev_ind; [done|]. exfalso.
    unfold chain in C1. cbn in C1. injection C1 as <-.
    eapply (chain_nonzero rs2 n2 es2 hash_zero); [done|done|exact Hh| |done]. set_solver.
  - destruct rs2 as [|[n2 es2] rs2 _] using rev_ind.
    { exfalso. unfold chain in C2. cbn in C2. injection C2 as <-.
      eapply (chain_nonzero rs1 n1 es1 hash_zero); [done|done|exact Hh| |done]. set_solver. }
    destruct (chain_snoc _ _ _ _ Ho1 C1) as (a1 & r1 & K1 & F1 & (N1 & U1 & L1) & R1 & E1 & P1).
    destruct (chain_snoc _ _ _ _ Ho2 C2) as (a2 & r2 & K2 & F2 & (N2 & U2 & L2) & R2 & E2 & P2).
    cbn [fst snd] in *. rewrite P1, P2 in Hh. unfold block_preimages in Hh.
    rewrite R1, R2 in Hh. pose proof Hh as [Hcf _].
    assert (accumulator_bytes a1 n1 (length es1) r1 = accumulator_bytes a2 n2 (length es2) r2) as E.
    { apply Hcf; [set_solver..|congruence]. }
    apply accumulator_bytes_inj in E as (-> & -> & El & ->); [|done..].
    rewrite !fmap_app, !join_app. cbn. rewrite !app_nil_r. f_equiv.
    + eapply (IH rs2 a2); eauto. eapply archive_hash_sub; [|exact Hh]. set_solver.
    + eapply block_root_binds; eauto. eapply collision_free_sub; [|exact Hcf]. set_solver.
Qed.

(** The accumulator binds the archive. Two event lists with one accumulator hold
    the same events, whatever their order, when the digest has no collision among the
    strings hashed for the two and maps none of them to the empty archive's value. *)
Theorem archive_accumulator_binds events1 events2 h :
  Forall (fun e => is_u64 (block_number e)) (events1 ++ events2) ->
  Z.of_nat (length events1) <= U64_MAX -> Z.of_nat (length events2) <= U64_MAX ->
  archive_hash_ok (archive_preimages events1 ++ archive_preimages events2) ->
  verify_contract_event_archive_accumulator h events1 = Some (Ok ()) ->
  verify_contract_event_archive_accumulator h events2 = Some (Ok ()) ->
  events1 ≡ₚ events2.
Proof.
  intros Hu L1 L2 Hh V1 V2. apply Forall_app in Hu as [Hu1 Hu2].
  assert (forall es, verify_contract_event_archive_accumulator h es = Some (Ok ()) ->
    chain hash_zero (block_runs (sort_contract_events_canonically es)) = Some h) as Hv.
  { intros es V. unfold verify_contract_event_archive_accumulator in V.
    destruct (compute_contract_event_archive_accumulator es) as [a|] eqn:Ea; [|done].
    cbn in V. case_bool_decide as E; [|done]. subst a.
    unfold compute_contract_event_archive_accumulator in Ea. by destruct es. }
  assert (forall es, Forall (fun e => is_u64 (block_number e)) es -> Z.of_nat (length es) <= U64_MAX ->
    Forall run_ok (block_runs (sort_contract_events_canonically es))) as Hok.
  { intros es Hu Hl. apply Forall_forall. intros [n rs] Hin.
    pose proof (block_runs_ok (sort_contract_events_canonically es)) as Hb.
    rewrite Forall_forall in Hb. destruct (Hb _ Hin) as [Hne Hbl]. cbn in Hne, Hbl.
    assert (forall e, e ∈ rs -> e ∈ es) as Hsub.
    { intros e He. rewrite <- (sort_by_perm canonical_cmp es).
      change (e ∈ sort_contract_events_canonically es).
      rewrite <- (block_runs_join (sort_contract_events_canonically es)).
      apply list_elem_of_join. exists rs. split; [done|]. apply list_elem_of_fmap. by exists (n, rs). }
    split; [done|]. split.
    - destruct rs as [|e rs]; [done|]. unfold in_block in Hbl. apply Forall_cons in Hbl as [<- _].
      rewrite Forall_forall in Hu. apply Hu, Hsub, list_elem_of_here.
    - cbn. assert (length rs <= length es)%nat; [|lia].
      rewrite <- (Permutation_length (sort_by_perm canonical_cmp es)).
      change (length rs <= length (sort_contract_events_canonically es))%nat.
      rewrite <- (block_runs_join (sort_contract_events_canonically es)).
      apply list_elem_of_split in Hin as (l1 & l2 & ->).
      rewrite fmap_app, join_app, !length_app. cbn. rewrite length_app. lia. }
  rewrite <- (sort_by_perm canonical_cmp events1), <- (sort_by_perm canonical_cmp events2).
  change (sort_contract_events_canonically events1 ≡ₚ sort_contract_events_canonically events2).
  rewrite <- (block_runs_join (sort_contract_events_canonically events1)).
  rewrite <- (block_runs_join (sort_contract_events_canonically events2)).
  eapply chain_binds; eauto.
Qed.
End Archive.

End Events.

(** Four events in two blocks, exported out of order. *)
Module EventsWitness.
Import Events.

Definition ev (a : Address) (n i : Z) (d : byte) : ContractEvent :=
  {| contract_address := a; topic := lit "Transfer"; data := [d]; block_number := n;
     tx_hash := hash_zero; log_index := i |}.
Definition e1 := ev address_treasury 7 0 x01.
Definition e2 := ev address_treasury 7 1 x02.
Definition e3 := ev address_ecosystem_fund 7 0 x03.
Definition e4 := ev address_treasury 9 0 x04.
#[local] Instance event_serializer : Bincode ContractEvent := table_bincode [e1; e2; e3; e4].
#[local] Instance event_serializer_laws : BincodeLaws ContractEvent :=
  table_bincode_laws [e1; e2; e3; e4].
Definition blocks0 : list (Z * list ContractEvent) := [(7, [e2; e3; e1]); (8, []); (9, [e4])].
Definition exported : list ContractEvent := [e4; e1; e2; e3].
Definition accumulator0 : Hash256 :=
  default hash_zero (compute_contract_event_archive_accumulator exported).

Lemma archive_accumulator_incremental_witness :
  compute_contract_event_archive_accumulator exported =
  (a ← advance_contract_event_archive_accumulator hash_zero 7 [e2; e3; e1];
   advance_contract_event_archive_accumulator a 9 [e4]).
Proof.
  assert (blocks_ok blocks0) as A by (split; repeat constructor).
  assert (exported ≡ₚ mjoin (snd <$> blocks0)) as B.
  { change (exported ≡ₚ [e2; e3; e1; e4]). unfold exported.
    apply (bool_decide_unpack _). by vm_compute. }
  rewrite (archive_accumulator_incremental blocks0 exported A B). by vm_compute.
Defined.

Definition archive_hash_okb (xs : list (list byte)) : bool :=
  collision_freeb xs && forallb (fun x => negb (bool_decide (hash_bytes x = hash_zero))) xs.
Lemma archive_hash_okb_ok xs : archive_hash_okb xs = true -> archive_hash_ok xs.
Proof.
  intros [Hc Hz]%andb_true_iff. split; [by apply collision_freeb_ok|].
  apply List.Forall_forall. intros x Hx. rewrite forallb_forall in Hz.
  specialize (Hz x Hx). by to_prop.
Qed.

Lemma archive_accumulator_binds_witness : exported ≡ₚ [e1; e2; e3; e4].
Proof.
  assert (Forall (fun e => is_u64 (block_number e)) (exported ++ [e1; e2; e3; e4])) as A
    by (repeat constructor; by_compute).
  assert (Z.of_nat (length exported) <= U64_MAX) as B by by_compute.
  assert (Z.of_nat (length [e1; e2; e3; e4]) <= U64_MAX) as C by by_compute.
  assert (archive_hash_ok (archive_preimages exported ++ archive_preimages [e1; e2; e3; e4])) as D
    by (apply archive_hash_okb_ok; by vm_compute).
  assert (verify_contract_event_archive_accumulator accumulator0 exported = Some (Ok ())) as V1
    by (by vm_compute).
  assert (verify_contract_event_archive_accumulator accumulator0 [e1; e2; e3; e4] = Some (Ok ()))
    as V2 by (by vm_compute).
  exact (archive_accumulator_binds exported [e1; e2; e3; e4] accumulator0 A B C D V1 V2).
Defined.
End EventsWitness.
