(* ===== verification/ToolVerifier.v ===== *)
(** * Access tokens, receipts and the tool-side verifier

    Models the prepaid-access part of [primitives/tool.rs].  [ChainVerifier] and
    [ReplayStore] are the source's traits, as classes over the implementor's state; their
    laws say what the verifier relies on, and the two implementations in the source
    ([HashSetChainVerifier], [InMemoryReplayStore]) discharge them.  A replay store is
    mutated behind a shared reference, so [try_use] returns the store after the call. *)
From S2P Require Import Prelude Crypto Merkle Instances.

Module Access.

Record AccessToken : Type := {
  tool_id : Hash256;
  invoker : Address;
  token_id : Hash256;
  block_number : Z;
  amount_paid : Z;
  issued_at : Z;
  nonce : Z;
  block_hash : Hash256;
  consumed_by : option Hash256;
}.
#[global] Instance AccessToken_eq_dec : EqDecision AccessToken.
Proof. solve_decision. Defined.
#[global] Instance eta_AccessToken : Eta AccessToken := fun t =>
  {| tool_id := tool_id t; invoker := invoker t; token_id := token_id t;
     block_number := block_number t; amount_paid := amount_paid t; issued_at := issued_at t;
     nonce := nonce t; block_hash := block_hash t; consumed_by := consumed_by t |}.

Record AccessTokenReceipt : Type := {
  r_token_id : Hash256;
  r_tool_id : Hash256;
  r_invoker : Address;
  r_amount_paid : Z;
  r_issued_at : Z;
  r_block_number : Z;
  r_nonce : Z;
}.
Record TokenConsumptionRecord : Type := { tc_task_id : Hash256; tc_storage_deposit : Z }.
Record ReceiptWithProof : Type := {
  rp_receipt : AccessTokenReceipt;
  rp_proof_siblings : list (Hash256 * bool);
  rp_receipt_root : Hash256;
}.

(** ** Serialisation *)
Section Codec.
Context `{Bincode AccessToken}.

(** The consensus view: the block hash is zeroed. *)
Definition serialize_for_commitment (t : AccessToken) : result rstr (list byte) :=
  bincode_serialize (t <| block_hash := hash_zero |>).

(** [unwrap_or_default]: an unserialisable token is the empty text. *)
Definition token_to_hex `{Hex} (t : AccessToken) : rstr :=
  hex_encode (default [] (ok (bincode_serialize t))).
Definition token_from_hex `{Hex} (s : rstr) : option AccessToken :=
  bytes ← ok (hex_decode s); ok (bincode_deserialize bytes).
End Codec.

(** ** Receipts *)
Definition CANONICAL_DOMAIN_V1 : list byte := blit "ZINCHA_RECEIPT_V1".

Definition from_token (token : AccessToken) : AccessTokenReceipt :=
  {| r_token_id := token_id token;
     r_tool_id := tool_id token;
     r_invoker := invoker token;
     r_amount_paid := amount_paid token;
     r_issued_at := issued_at token;
     r_block_number := block_number token;
     r_nonce := nonce token |}.

Definition canonical_bytes (r : AccessTokenReceipt) : list byte :=
  CANONICAL_DOMAIN_V1 ++ bn (r_token_id r) ++ bn (r_tool_id r) ++ bn (r_invoker r)
  ++ be_bytes 8 (r_amount_paid r) ++ be_bytes 8 (r_issued_at r)
  ++ be_bytes 8 (r_block_number r) ++ be_bytes 8 (r_nonce r).

Definition leaf_hash `{Digests} (r : AccessTokenReceipt) : Hash256 :=
  hash_bytes (canonical_bytes r).

(** ** Access requests *)
Definition signable_bytes (t : AccessToken) : list byte :=
  bn (tool_id t) ++ bn (invoker t) ++ bn (token_id t) ++ be_bytes 8 (block_number t)
  ++ be_bytes 8 (amount_paid t) ++ be_bytes 8 (issued_at t) ++ be_bytes 8 (nonce t).

Record ToolAccessRequest : Type := {
  token : AccessToken;
  invoker_proof : list byte;
  invoker_pubkey : list byte;
}.

Definition new_request `{Digests, Ed25519} (t : AccessToken) (invoker_keypair : Keypair)
    : ToolAccessRequest :=
  let token_hash := hash_bytes (signable_bytes t) in
  {| token := t;
     invoker_proof := bn (keypair_sign invoker_keypair (bn token_hash));
     invoker_pubkey := bn (keypair_public_key invoker_keypair) |}.

Definition request_to_hex `{Bincode ToolAccessRequest, Hex} (q : ToolAccessRequest) : rstr :=
  hex_encode (default [] (ok (bincode_serialize q))).
Definition request_from_hex `{Bincode ToolAccessRequest, Hex} (s : rstr)
    : option ToolAccessRequest :=
  bytes ← ok (hex_decode s); ok (bincode_deserialize bytes).

Inductive ToolVerifyError : Type :=
| ChainVerificationFailed (token_id : Hash256)
| InvalidInvokerProof
| WrongTool (expected got : Hash256)
| InsufficientPayment (paid required : Z)
| AlreadyConsumed (task_id : Hash256)
| ReplayDetected (token_id : Hash256)
| Expired (issued_at max_age_ms : Z).
(** [Display]. *)
Definition verify_error_text `{Hex} (e : ToolVerifyError) : message :=
  match e with
  | ChainVerificationFailed id => Msg "Token {} not verified on-chain" [AStr (hash_to_hex id)]
  | InvalidInvokerProof => Msg "Invalid invoker proof — presenter is not the payer" []
  | WrongTool expected got =>
      Msg "Token is for tool {} but this is {}" [AStr (hash_to_hex got); AStr (hash_to_hex expected)]
  | InsufficientPayment paid required =>
      Msg "Paid {} micro-ZIN but tool requires {}" [AInt paid; AInt required]
  | AlreadyConsumed id => Msg "Token already consumed by task {}" [AStr (hash_to_hex id)]
  | ReplayDetected id => Msg "Token {} already used" [AStr (hash_to_hex id)]
  | Expired issued_at max_age_ms =>
      Msg "Token issued at {} exceeded max age {}ms" [AInt issued_at; AInt max_age_ms]
  end.

(** ** Interfaces *)

(** [trait ChainVerifier]. *)
Class ChainVerifier (C : Type) := {
  verify_access_token : C -> AccessToken -> bool;
  get_consumed_by : C -> Hash256 -> option Hash256;
}.

(** The fields a verifier must compare with the record stored under the token's id. *)
Definition same_claims (a b : AccessToken) : Prop :=
  block_hash a = block_hash b /\ tool_id a = tool_id b /\ invoker a = invoker b /\
  amount_paid a = amount_paid b /\ block_number a = block_number b /\
  issued_at a = issued_at b /\ nonce a = nonce b.

(** The trait's contract: a verified token is the recorded one, stamped with a block. *)
Class ChainVerifierLaws (C : Type) `{ChainVerifier C} := {
  chain_token : C -> Hash256 -> option AccessToken;
  verify_access_token_spec : forall c t,
    verify_access_token c t = true <->
    exists on_chain, chain_token c (token_id t) = Some on_chain /\
      same_claims on_chain t /\ block_hash on_chain <> hash_zero;
}.

(** [trait ReplayStore]. *)
Class ReplayStore (R : Type) := {
  try_use : R -> Hash256 -> R * bool;
}.

(** The trait's contract: one atomic check-and-mark. *)
Class ReplayStoreLaws (R : Type) `{ReplayStore R} := {
  used : R -> Hash256 -> bool;
  try_use_fresh : forall r id, (try_use r id).2 = negb (used r id);
  try_use_marks : forall r id id',
    used (try_use r id).1 id' = bool_decide (id' = id) || used r id';
}.

(** ** The verifier *)
Record ToolVerifier : Type := {
  v_tool_id : Hash256;
  max_age_ms : Z;
  min_price : Z;
}.
#[global] Instance eta_ToolVerifier : Eta ToolVerifier := fun v =>
  {| v_tool_id := v_tool_id v; max_age_ms := max_age_ms v; min_price := min_price v |}.

(** [ToolVerifier::new]; the chain verifier and the store are passed to [verify]. *)
Definition new_verifier (tool : Hash256) : ToolVerifier :=
  {| v_tool_id := tool; max_age_ms := 3600000; min_price := 0 |}.
Definition with_max_age_ms (ms : Z) (v : ToolVerifier) : ToolVerifier := v <| max_age_ms := ms |>.
Definition with_min_price (p : Z) (v : ToolVerifier) : ToolVerifier := v <| min_price := p |>.

Section Verify.
Context `{Digests, Ed25519}.
Context {C R : Type} `{ChainVerifier C, ReplayStore R}.

(** Step 3 of [verify]: the presenter owns the invoker address. *)
Definition verify_invoker_proof (request : ToolAccessRequest) : result ToolVerifyError unit :=
  let t := token request in
  let token_hash := hash_bytes (signable_bytes t) in
  match mk_bytesN 64 (invoker_proof request), mk_bytesN 32 (invoker_pubkey request) with
  | Some sig_bytes, Some pk_bytes =>
      invoker_pk ← map_err (fun _ => InvalidInvokerProof) (pk_from_bytes pk_bytes);
      _ ← ensure (bool_decide (pk_to_address invoker_pk = invoker t)) InvalidInvokerProof;
      sig ← map_err (fun _ => InvalidInvokerProof) (sig_from_bytes sig_bytes);
      map_err (fun _ => InvalidInvokerProof) (pk_verify invoker_pk (bn token_hash) sig)
  | _, _ => Err InvalidInvokerProof
  end.

(** Steps 1 to 6, free of side effects. *)
Definition verify_checks (v : ToolVerifier) (c : C) (now_ms : Z) (request : ToolAccessRequest)
    : result ToolVerifyError unit :=
  let t := token request in
  _ ← ensure (verify_access_token c t) (ChainVerificationFailed (token_id t));
  _ ← ensure (bool_decide (tool_id t = v_tool_id v)) (WrongTool (v_tool_id v) (tool_id t));
  _ ← verify_invoker_proof request;
  _ ← ensure (negb ((0 <? min_price v) && (amount_paid t <? min_price v)))
    (InsufficientPayment (amount_paid t) (min_price v));
  _ ← match get_consumed_by c (token_id t) with
      | Some task_id => Err (AlreadyConsumed task_id)
      | None => Ok ()
      end;
  ensure (negb ((0 <? max_age_ms v) && (max_age_ms v <? sat_sub now_ms (issued_at t))))
    (Expired (issued_at t) (max_age_ms v)).

(** Step 7: the atomic claim of the token id. *)
Definition claim (store : R) (request : ToolAccessRequest)
    : R * result ToolVerifyError unit :=
  let '(store', fresh) := try_use store (token_id (token request)) in
  (store', ensure fresh (ReplayDetected (token_id (token request)))).

(** [ToolVerifier::verify]: the checks, then the replay store. *)
Definition verify (v : ToolVerifier) (c : C) (now_ms : Z) (store : R)
    (request : ToolAccessRequest) : R * result ToolVerifyError unit :=
  match verify_checks v c now_ms request with
  | Err e => (store, Err e)
  | Ok _ => claim store request
  end.

(** ** Requests served at the same time

    A verifier is shared by the endpoint's request handlers. Each handler runs the checks
    and then the claim; between the two, other handlers run and the chain moves on. *)
Inductive session : Type :=
| Arrived (now_ms : Z) (request : ToolAccessRequest)
| Cleared (request : ToolAccessRequest)
| Finished (request : ToolAccessRequest) (res : result ToolVerifyError unit).

Record endpoint : Type := { chain_state : C; store : R; sessions : list session }.

Inductive endpoint_step (v : ToolVerifier) : endpoint -> endpoint -> Prop :=
| step_chain c c' r l :
    endpoint_step v {| chain_state := c; store := r; sessions := l |}
      {| chain_state := c'; store := r; sessions := l |}
| step_arrive c r l now q :
    endpoint_step v {| chain_state := c; store := r; sessions := l |}
      {| chain_state := c; store := r; sessions := l ++ [Arrived now q] |}
| step_check_ok c r l i now q :
    l !! i = Some (Arrived now q) -> verify_checks v c now q = Ok () ->
    endpoint_step v {| chain_state := c; store := r; sessions := l |}
      {| chain_state := c; store := r; sessions := <[ i := Cleared q ]> l |}
| step_check_err c r l i now q e :
    l !! i = Some (Arrived now q) -> verify_checks v c now q = Err e ->
    endpoint_step v {| chain_state := c; store := r; sessions := l |}
      {| chain_state := c; store := r; sessions := <[ i := Finished q (Err e) ]> l |}
| step_claim c r l i q r' res :
    l !! i = Some (Cleared q) -> claim r q = (r', res) ->
    endpoint_step v {| chain_state := c; store := r; sessions := l |}
      {| chain_state := c; store := r'; sessions := <[ i := Finished q res ]> l |}.
End Verify.

(** ** The implementations in the source *)
Record HashSetChainVerifier : Type := {
  known_tokens : gmap Hash256 AccessToken;
  consumptions : gmap Hash256 Hash256;
}.
Definition new_hashset_verifier : HashSetChainVerifier :=
  {| known_tokens := ∅; consumptions := ∅ |}.
Definition add_token (t : AccessToken) (c : HashSetChainVerifier) : HashSetChainVerifier :=
  {| known_tokens := <[ token_id t := t ]> (known_tokens c); consumptions := consumptions c |}.
Definition add_consumption (token task : Hash256) (c : HashSetChainVerifier)
    : HashSetChainVerifier :=
  {| known_tokens := known_tokens c; consumptions := <[ token := task ]> (consumptions c) |}.

Definition hashset_verify_access_token (c : HashSetChainVerifier) (t : AccessToken) : bool :=
  match known_tokens c !! token_id t with
  | Some on_chain =>
      bool_decide (block_hash on_chain = block_hash t)
      && bool_decide (tool_id on_chain = tool_id t)
      && bool_decide (invoker on_chain = invoker t)
      && (amount_paid on_chain =? amount_paid t)
      && (block_number on_chain =? block_number t)
      && (issued_at on_chain =? issued_at t)
      && (nonce on_chain =? nonce t)
      && negb (bool_decide (block_hash on_chain = hash_zero))
  | None => false
  end.
#[global] Instance hashset_chain_verifier : ChainVerifier HashSetChainVerifier := {
  verify_access_token := hashset_verify_access_token;
  get_consumed_by := fun c id => consumptions c !! id;
}.

Record InMemoryReplayStore : Type := { used_ids : gset Hash256 }.
Definition new_replay_store : InMemoryReplayStore := {| used_ids := ∅ |}.
(** [HashSet::insert] answers whether the value was new. *)
Definition in_memory_try_use (r : InMemoryReplayStore) (id : Hash256)
    : InMemoryReplayStore * bool :=
  ({| used_ids := {[ id ]} ∪ used_ids r |}, negb (bool_decide (id ∈ used_ids r))).
#[global] Instance in_memory_replay_store : ReplayStore InMemoryReplayStore := {
  try_use := in_memory_try_use;
}.

(** [ToolVerifier::new_insecure_in_memory]: the verifier with the store it claims in. *)
Definition new_insecure_in_memory (tool : Hash256) : ToolVerifier * InMemoryReplayStore :=
  (new_verifier tool, new_replay_store).

#[global] Instance hashset_verifier_laws : ChainVerifierLaws HashSetChainVerifier.
Proof.
  refine {| chain_token := fun c id => known_tokens c !! id |}.
  intros c t. cbn. unfold hashset_verify_access_token, same_claims.
  destruct (known_tokens c !! token_id t) as [o|]; [|split; [done|by intros (? & ? & _)]].
  split.
  - intros Hv. to_prop. by exists o.
  - intros (? & [= <-] & (-> & -> & -> & -> & -> & -> & ->) & Hz).
    by rewrite !bool_decide_eq_true_2, !Z.eqb_refl, bool_decide_eq_false_2 by done.
Defined.

#[global] Instance in_memory_replay_laws : ReplayStoreLaws InMemoryReplayStore.
Proof.
  refine {| used := fun r id => bool_decide (id ∈ used_ids r) |}.
  - done.
  - intros r id id'. cbn.
    destruct (decide (id' = id)) as [->|Hne].
    + rewrite (bool_decide_eq_true_2 (id = id)) by done. apply bool_decide_eq_true_2. set_solver.
    + rewrite (bool_decide_eq_false_2 (id' = id)) by done. apply bool_decide_ext. set_solver.
Defined.

(** ** Properties of the verifier *)
Section VerifyProofs.
Context `{Digests, Ed25519}.
Context {C R : Type} `{ChainVerifierLaws C, ReplayStoreLaws R}.

(** What the trait's documentation promises of a granted access. *)
Record access_granted (v : ToolVerifier) (c : C) (now : Z) (request : ToolAccessRequest)
  : Prop := {
  ag_recorded : exists on_chain, chain_token c (token_id (token request)) = Some on_chain /\
    same_claims on_chain (token request) /\ block_hash on_chain <> hash_zero;
  ag_tool : tool_id (token request) = v_tool_id v;
  ag_presenter : exists pk sig : list byte, exists pk32 sig64,
    pk = invoker_pubkey request /\ sig = invoker_proof request /\
    mk_bytesN 32 pk = Some pk32 /\ mk_bytesN 64 sig = Some sig64 /\
    pk_from_bytes pk32 = Ok pk32 /\ pk_to_address pk32 = invoker (token request) /\
    pk_verify pk32 (bn (hash_bytes (signable_bytes (token request)))) sig64 = Ok ();
  ag_price : min_price v <= 0 \/ min_price v <= amount_paid (token request);
  ag_unconsumed : get_consumed_by c (token_id (token request)) = None;
  ag_fresh : max_age_ms v <= 0 \/ sat_sub now (issued_at (token request)) <= max_age_ms v;
}.

Lemma invoker_proof_iff request :
  verify_invoker_proof request = Ok () <->
  exists pk sig : list byte, exists pk32 sig64,
    pk = invoker_pubkey request /\ sig = invoker_proof request /\
    mk_bytesN 32 pk = Some pk32 /\ mk_bytesN 64 sig = Some sig64 /\
    pk_from_bytes pk32 = Ok pk32 /\ pk_to_address pk32 = invoker (token request) /\
    pk_verify pk32 (bn (hash_bytes (signable_bytes (token request)))) sig64 = Ok ().
Proof.
  unfold verify_invoker_proof. split.
  - destruct (mk_bytesN 64 _) as [sig64|] eqn:Es; [|done].
    destruct (mk_bytesN 32 _) as [pk32|] eqn:Ep; [|done]. intros Hv.
    destruct (pk_from_bytes pk32) as [k|] eqn:Ek; [|done].
    assert (k = pk32) as ->.
    { unfold pk_from_bytes in Ek. destruct (map_err _ _); [|done]. cbn in Ek. congruence. }
    cbn in Hv. case_bool_decide as Ea; [|done]. cbn in Hv.
    destruct (pk_verify pk32 _ sig64) as [[]|] eqn:Ev; [|done].
    exists (invoker_pubkey request), (invoker_proof request), pk32, sig64. done.
  - intros (pk & sig & pk32 & sig64 & -> & -> & -> & -> & -> & Ea & Ev).
    cbn [map_err mbind result_bind sig_from_bytes].
    rewrite bool_decide_eq_true_2 by done. cbn [ensure mbind result_bind map_err sig_from_bytes].
    by rewrite Ev.
Qed.

Lemma verify_checks_iff v c now request :
  verify_checks v c now request = Ok () <-> access_granted v c now request.
Proof.
  unfold verify_checks. split.
  - intros Hv. inv_ok. to_prop.
    match goal with E : verify_invoker_proof _ = Ok _ |- _ => apply invoker_proof_iff in E end.
    match goal with E : verify_access_token _ _ = true |- _ => apply verify_access_token_spec in E end.
    destruct (get_consumed_by c _) eqn:Ec; [done|]. split; try done.
    + destruct (Z.ltb_spec 0 (min_price v)), (Z.ltb_spec (amount_paid (token request)) (min_price v));
        try done; lia.
    + destruct (Z.ltb_spec 0 (max_age_ms v)),
        (Z.ltb_spec (max_age_ms v) (sat_sub now (issued_at (token request)))); try done; lia.
  - intros [Hr%verify_access_token_spec Ht Hp%invoker_proof_iff Hm Hc Hf].
    rewrite Hr, Hc, Hp, bool_decide_eq_true_2 by done. cbn.
    destruct (Z.ltb_spec 0 (min_price v)), (Z.ltb_spec (amount_paid (token request)) (min_price v));
      try lia; cbn;
    destruct (Z.ltb_spec 0 (max_age_ms v)),
      (Z.ltb_spec (max_age_ms v) (sat_sub now (issued_at (token request)))); try done; lia.
Qed.

(** What one [try_use] does, in terms of the ids already used. *)
Lemma try_use_result r id r' fresh :
  try_use r id = (r', fresh) ->
  fresh = negb (used r id) /\
  forall id', used r' id' = true <-> used r id' = true \/ id' = id.
Proof.
  intros E. pose proof (try_use_fresh r id) as Hf. pose proof (try_use_marks r id) as Hm.
  rewrite E in Hf, Hm. cbn [fst snd] in *. split; [done|]. intros id'. rewrite Hm.
  rewrite orb_true_iff, bool_decide_eq_true. tauto.
Qed.

(** C4: the verifier refines its contract, for every chain verifier and replay store that
    keep theirs. A request is accepted exactly when the token is the one recorded on
    chain, is for this tool, is presented by the owner of the paying address, meets the
    floor, is unconsumed and fresh, and its id was never used; acceptance marks exactly
    that id, and a request refused by a check leaves the store as it was. *)
Theorem verifier_refines_contract v c now r request :
  let '(r', res) := verify v c now r request in
  (res = Ok () <->
    access_granted v c now request /\ used r (token_id (token request)) = false) /\
  (forall id, used r' id = true <->
    used r id = true \/ (res = Ok () /\ id = token_id (token request))) /\
  (~ access_granted v c now request -> r' = r).
Proof.
  unfold verify, claim. destruct (verify_checks v c now request) as [[]|e] eqn:E.
  - apply verify_checks_iff in E. destruct (try_use r _) as [r' fresh] eqn:Et.
    apply try_use_result in Et as [-> Hm].
    split; [|split; [|done]].
    + destruct (used r _) eqn:Eu; cbn; [split; [done|by intros [_ ?]]|done].
    + intros id. rewrite Hm. destruct (used r (token_id _)) eqn:Eu; cbn; [|naive_solver].
      split; [|naive_solver]. intros [?| ->]; by left.
  - assert (~ access_granted v c now request) as Hn.
    { intros Hg%verify_checks_iff. congruence. }
    split; [|split; [|done]].
    + split; [done|]. by intros [? _].
    + intros id. split; [tauto|]. by intros [?|[? _]].
Qed.

(** A token id is settled by at most one session, which marked it in the store. *)
Definition served (l : list session) (id : Hash256) (i : nat) : Prop :=
  exists q, l !! i = Some (Finished q (Ok ())) /\ token_id (token q) = id.
Definition endpoint_inv (r0 : R) (s : endpoint (C := C) (R := R)) : Prop :=
  (forall id, used r0 id = true -> used (store s) id = true) /\
  (forall id i, served (sessions s) id i -> used r0 id = false /\ used (store s) id = true) /\
  (forall id i j, served (sessions s) id i -> served (sessions s) id j -> i = j).

(** Replacing a session that is not served. *)
Lemma served_insert l i x q id j :
  l !! i = Some x -> (forall q', x <> Finished q' (Ok ())) ->
  served (<[ i := q ]> l) id j <->
  (j <> i /\ served l id j) \/
  (j = i /\ exists q', q = Finished q' (Ok ()) /\ token_id (token q') = id).
Proof.
  intros Hi Hx. unfold served. destruct (decide (j = i)) as [->|Hne].
  - rewrite list_lookup_insert_eq by (by eapply lookup_lt_Some). naive_solver.
  - rewrite list_lookup_insert_ne by done. naive_solver.
Qed.

Lemma served_unsettled l i x q id j :
  l !! i = Some x -> (forall q', x <> Finished q' (Ok ())) ->
  (forall q', q <> Finished q' (Ok ())) ->
  served (<[ i := q ]> l) id j -> served l id j.
Proof.
  intros Hi Hx Hq [[_ Hs]|[_ (q' & E & _)]]%(served_insert _ _ x); [done| |done|done].
  by apply Hq in E.
Qed.

Lemma endpoint_inv_mono r0 c c' r l l' :
  (forall id i, served l' id i -> served l id i) ->
  endpoint_inv r0 {| chain_state := c; store := r; sessions := l |} ->
  endpoint_inv r0 {| chain_state := c'; store := r; sessions := l' |}.
Proof.
  intros Hs (Hk & Hu & Hd). split; [done|]. split; cbn in *.
  - intros id i ?%Hs. by eapply Hu.
  - intros id i j ?%Hs ?%Hs. by eapply Hd.
Qed.

Lemma endpoint_inv_claim r0 c r l i q r' res :
  l !! i = Some (Cleared q) -> claim r q = (r', res) ->
  endpoint_inv r0 {| chain_state := c; store := r; sessions := l |} ->
  endpoint_inv r0 {| chain_state := c; store := r'; sessions := <[ i := Finished q res ]> l |}.
Proof.
  intros Hi Hc Hinv. unfold claim in Hc. destruct (try_use r _) as [r1 fresh] eqn:Et.
  apply try_use_result in Et as [-> Hm]. injection Hc as <- <-.
  assert (endpoint_inv r0 {| chain_state := c; store := r1; sessions := l |}) as (Hk & Hu & Hd).
  { destruct Hinv as (Hk & Hu & Hd). split; [|split]; cbn in *; [..|done].
    - intros id Hid. apply Hm. left. by apply Hk.
    - intros id j Hj. destruct (Hu _ _ Hj). split; [done|]. apply Hm. by left. }
  destruct (used r (token_id (token q))) eqn:Eu; cbn [negb ensure].
  { eapply endpoint_inv_mono; [|split; [exact Hk|split; [exact Hu|exact Hd]]].
    intros id j. by apply (served_unsettled _ _ (Cleared q)). }
  destruct Hinv as (Hk0 & Hu0 & _). cbn in *.
  assert (forall j, ~ served l (token_id (token q)) j) as Hno.
  { intros j [_ ?]%Hu0. congruence. }
  split; [done|]. split; cbn.
  - intros id j [[_ Hs]|[_ (q' & [= <-] & <-)]]%(served_insert _ _ (Cleared q)); [by eapply Hu| |done..].
    split; [|apply Hm; by right].
    destruct (used r0 (token_id (token q))) eqn:E0; [|done]. apply Hk0 in E0. congruence.
  - intros id j k. rewrite !(served_insert _ _ (Cleared q)) by done.
    intros [[Hj Sj]|[-> (qj & [= <-] & <-)]] [[Hk' Sk]|[-> (qk & [= <-] & Ek)]]; [by eapply Hd| | |done].
    + subst id. by apply Hno in Sj.
    + by apply Hno in Sk.
Qed.

Lemma endpoint_step_inv v r0 s s' :
  endpoint_inv r0 s -> endpoint_step v s s' -> endpoint_inv r0 s'.
Proof.
  intros Hinv Hs. revert Hinv. destruct Hs; intros Hinv; eauto using endpoint_inv_claim.
  - eapply endpoint_inv_mono; [|exact Hinv]. intros id i (q' & E & <-).
    exists q'. split; [|done]. by apply lookup_snoc_Some in E as [[_ ?]|[_ ?]].
  - eapply endpoint_inv_mono; [|exact Hinv]. intros id j.
    by apply (served_unsettled _ _ (Arrived now q)).
  - eapply endpoint_inv_mono; [|exact Hinv]. intros id j.
    by apply (served_unsettled _ _ (Arrived now q)).
Qed.

(** C5: a paid token buys one service however the handlers interleave. In every state the
    endpoint reaches, two sessions that were both granted access carry different token
    ids, and no granted session carries an id the store knew at the start. *)
Theorem concurrent_requests_never_replay v c0 r0 c r l :
  rtc (endpoint_step v) {| chain_state := c0; store := r0; sessions := [] |}
    {| chain_state := c; store := r; sessions := l |} ->
  forall i q, l !! i = Some (Finished q (Ok ())) ->
    used r0 (token_id (token q)) = false /\ used r (token_id (token q)) = true /\
    forall j q', l !! j = Some (Finished q' (Ok ())) -> j <> i ->
      token_id (token q') <> token_id (token q).
Proof.
  intros Hs i q Hi.
  assert (endpoint_inv r0 {| chain_state := c; store := r; sessions := l |}) as (_ & Hu & Hd).
  { revert Hs. apply (rtc_ind_r (fun s => endpoint_inv r0 s)).
    - split; [done|]. split; cbn; [intros ?? (? & [=] & _)|by intros ??? (? & [=] & _)].
    - intros s s' _ Hstep Hinv. by eapply endpoint_step_inv. }
  cbn in *. assert (served l (token_id (token q)) i) as Hq by (by exists q).
  destruct (Hu _ _ Hq). split; [done|]. split; [done|].
  intros j q' Hj Hne E. apply Hne. eapply Hd; [|exact Hq]. by exists q'.
Qed.

(** C36: completeness. The payer's own request for a recorded, unconsumed token of this
    tool that meets the floor and the age limit is served once, then refused as a replay;
    the same token presented by a key of another address is an invalid proof, whatever
    the store holds. *)
Theorem payer_served_exactly_once `{!Ed25519Laws} v c now r t k :
  chain_token c (token_id t) = Some t -> block_hash t <> hash_zero ->
  tool_id t = v_tool_id v -> invoker t = keypair_address k ->
  min_price v <= amount_paid t -> get_consumed_by c (token_id t) = None ->
  sat_sub now (issued_at t) <= max_age_ms v -> used r (token_id t) = false ->
  exists r', verify v c now r (new_request t k) = (r', Ok ()) /\
    (forall now', sat_sub now' (issued_at t) <= max_age_ms v ->
       (verify v c now' r' (new_request t k)).2 = Err (ReplayDetected (token_id t))) /\
    (forall r0 thief, keypair_address thief <> keypair_address k ->
       verify v c now r0 (new_request t thief) = (r0, Err InvalidInvokerProof)).
Proof.
  intros Hc Hz Ht Hk Hp Hn Ha Hu.
  assert (forall now', sat_sub now' (issued_at t) <= max_age_ms v ->
    verify_checks v c now' (new_request t k) = Ok ()) as Hok.
  { intros now' Ha'. apply verify_checks_iff. split; cbn; try done; [by exists t| |by right..].
    exists (bn (keypair_public_key k)), (bn (keypair_sign k (bn (hash_bytes (signable_bytes t))))),
      (keypair_public_key k), (keypair_sign k (bn (hash_bytes (signable_bytes t)))).
    rewrite !mk_bytesN_bn, keypair_sign_verify. unfold pk_from_bytes, keypair_public_key.
    by rewrite public_decodes. }
  destruct (try_use r (token_id t)) as [r' fresh] eqn:Et.
  pose proof (try_use_result _ _ _ _ Et) as [-> Hm]. exists r'. split; [|split].
  - unfold verify, claim. rewrite Hok by done. cbn [token new_request].
    by rewrite Et, Hu.
  - intros now' Ha'. unfold verify, claim. rewrite Hok by done. cbn [token new_request].
    destruct (try_use r' (token_id t)) as [r'' fresh'] eqn:Et'.
    apply try_use_result in Et' as [-> _].
    assert (used r' (token_id t) = true) as -> by (apply Hm; by right). done.
  - intros r0 thief Hne. unfold verify, verify_checks. cbn [token new_request].
    assert (verify_access_token c t = true) as ->.
    { apply verify_access_token_spec. by exists t. }
    rewrite bool_decide_eq_true_2 by done. unfold verify_invoker_proof.
    cbn [token new_request invoker_proof invoker_pubkey ensure mbind result_bind].
    rewrite !mk_bytesN_bn. unfold pk_from_bytes, keypair_public_key.
    rewrite public_decodes. cbn [map_err mbind result_bind].
    rewrite bool_decide_eq_false_2; [done|]. by rewrite Hk.
Qed.
End VerifyProofs.

(** The store of a process ends with it: what one process served and refuses to serve again, the
    next one, which starts with a new store, serves. *)
Lemma insecure_restart_replays `{Digests, Ed25519, ChainVerifierLaws C} tool c now request r' :
  let '(v, r) := new_insecure_in_memory tool in
  verify v c now r request = (r', Ok ()) ->
  (verify v c now r' request).2 = Err (ReplayDetected (token_id (token request))) /\
  (verify v c now (new_insecure_in_memory tool).2 request).2 = Ok ().
Proof.
  cbn. intros E. split; [|by rewrite E]. revert E. unfold verify.
  destruct (verify_checks _ _ _ _) as [[]|]; [|done].
  unfold claim. destruct (try_use new_replay_store _) as [r1 fresh] eqn:E1.
  intros [= -> _]. apply try_use_result in E1 as [_ Hu].
  destruct (try_use r' _) as [r2 fresh2] eqn:E2. apply try_use_result in E2 as [-> _].
  by rewrite (proj2 (Hu _) (or_intror eq_refl)).
Qed.

(** ** Properties of receipts *)
Definition receipt_ok (r : AccessTokenReceipt) : Prop :=
  is_u64 (r_amount_paid r) /\ is_u64 (r_issued_at r) /\ is_u64 (r_block_number r) /\
  is_u64 (r_nonce r).

(** Peels a fixed-width field off an equation of encodings. *)
Ltac peel E :=
  apply app_inj_1 in E as [?E E]; [|by rewrite ?bn_length, ?be_bytes_length].

Lemma canonical_bytes_inj r1 r2 :
  receipt_ok r1 -> receipt_ok r2 -> canonical_bytes r1 = canonical_bytes r2 -> r1 = r2.
Proof.
  intros (? & ? & ? & ?) (? & ? & ? & ?) E. unfold canonical_bytes in E.
  apply app_inv_head in E. peel E. peel E. peel E. peel E. peel E. peel E.
  destruct r1, r2; simpl in *. f_equal; first [by apply bytesN_eq | by apply be_bytes8_inj].
Qed.

Lemma signable_bytes_inj t1 t2 :
  receipt_ok (from_token t1) -> receipt_ok (from_token t2) ->
  signable_bytes t1 = signable_bytes t2 -> from_token t1 = from_token t2.
Proof.
  intros (? & ? & ? & ?) (? & ? & ? & ?) E. unfold signable_bytes in E.
  peel E. peel E. peel E. peel E. peel E. peel E.
  destruct t1, t2; unfold from_token; simpl in *.
  f_equal; first [by apply bytesN_eq | by apply be_bytes8_inj].
Qed.

(** A receipt proven into a block's receipt root is one of the receipts the block
    committed to, when the digest has no collision among the strings hashed; and the
    bytes the invoker signs determine every field of the token's receipt. *)
Theorem receipt_inclusion_sound `{Digests} receipts r p :
  receipts <> [] -> Forall receipt_ok (r :: receipts) ->
  Merkle.leaf p = leaf_hash r ->
  Merkle.proof_root p = Merkle.root (Merkle.from_hashes (leaf_hash <$> receipts)) ->
  length (Merkle.siblings p) =
    (length (Merkle.layers (Merkle.from_hashes (leaf_hash <$> receipts))) - 1)%nat ->
  collision_free (canonical_bytes <$> (r :: receipts)) ->
  collision_free (Merkle.tree_preimages (length receipts) (leaf_hash <$> receipts)
                  ++ Merkle.path_preimages (leaf_hash r) (Merkle.siblings p)) ->
  Merkle.verify_proof p = true ->
  r ∈ receipts /\
  forall t t', r = from_token t -> receipt_ok (from_token t') ->
    signable_bytes t' = signable_bytes t -> from_token t' ∈ receipts.
Proof.
  intros Hne Hok Hl Hr Hs Hc Hc' Hv.
  assert (r ∈ receipts) as Hin.
  { destruct p as [x sibs rt]. cbn in *. subst x rt.
    unfold Merkle.verify_proof in Hv. cbn in Hv. apply bool_decide_eq_true in Hv.
    assert (1 <= length (leaf_hash <$> receipts) <= length receipts)%nat as Hlen.
    { rewrite length_fmap. destruct receipts; [done|]. cbn. lia. }
    destruct (Merkle.build_layers_last _ _ Hlen) as [rt Hrt].
    rewrite Merkle.from_hashes_layers, length_fmap in Hs
      by (by intros ?%fmap_nil_inv).
    eapply Merkle.path_starts_in_leaves in Hs; [|done|exact Hrt|exact Hc'|].
    - apply list_elem_of_fmap in Hs as (r' & E & Hr'). rewrite Forall_forall in Hok.
      assert (r = r') as ->; [|done].
      apply canonical_bytes_inj; [set_solver..|]. apply Hc; [set_solver..|done].
    - rewrite Hv. rewrite <- (Merkle.root_build _ _ _ Hrt). 
      destruct receipts; [done|]. cbn. by rewrite length_fmap. }
  split; [done|]. intros t t' -> Ht' E.
  apply Forall_cons in Hok as [Hok _]. apply signable_bytes_inj in E; [|done..].
  by rewrite E.
Qed.

(** A token that serialises survives its header form, and two tokens with one
    consensus encoding agree on everything but the block hash; restamping a token never
    changes its consensus encoding, its receipt or the bytes its invoker signs. *)
Theorem token_codec `{BincodeLaws AccessToken, HexLaws} t b h :
  bincode_serialize t = Ok b ->
  token_from_hex (token_to_hex t) = Some t /\
  (forall t', is_ok (serialize_for_commitment t) = true ->
     serialize_for_commitment t' = serialize_for_commitment t ->
     t' = t <| block_hash := block_hash t' |>) /\
  serialize_for_commitment (t <| block_hash := h |>) = serialize_for_commitment t /\
  from_token (t <| block_hash := h |>) = from_token t /\
  signable_bytes (t <| block_hash := h |>) = signable_bytes t.
Proof.
  intros Hb. split; [|split; [|done]].
  - unfold token_from_hex, token_to_hex. rewrite Hb. cbn. rewrite hex_decode_encode. cbn.
    by rewrite (bincode_roundtrip _ _ Hb).
  - intros t' Hok E. unfold serialize_for_commitment in *.
    destruct (bincode_serialize (t <| block_hash := hash_zero |>)) as [c|] eqn:Ec; [|done].
    pose proof (bincode_inj _ _ _ E Ec) as Eq. destruct t, t'. cbn in *. congruence.
Qed.
End Access.

(** ** Witnesses *)
Module AccessWitness.
Import Access.

Definition h (z : Z) : Hash256 := pad_bytesN 32 [byte_of z].
Definition payer : Keypair := pad_bytesN 32 [x07].
Definition thief : Keypair := pad_bytesN 32 [x08; x01].
Definition token0 : AccessToken :=
  {| tool_id := h 1; invoker := keypair_address payer; token_id := h 2; block_number := 10;
     amount_paid := 500; issued_at := 1000; nonce := 3; block_hash := h 9;
     consumed_by := None |}.
Definition chain0 : HashSetChainVerifier := add_token token0 new_hashset_verifier.
Definition tool0 : ToolVerifier := with_min_price 100 (new_verifier (h 1)).

Lemma payer_served_exactly_once_witness :
  exists r', verify tool0 chain0 2000 new_replay_store (new_request token0 payer) = (r', Ok ()).
Proof.
  destruct (payer_served_exactly_once tool0 chain0 2000 new_replay_store token0 payer)
    as (r' & T & _).
  - by vm_compute.
  - discriminate.
  - reflexivity.
  - reflexivity.
  - by vm_compute.
  - by vm_compute.
  - by vm_compute.
  - by vm_compute.
  - exists r'. exact T.
Defined.

(** The source's two implementations, in the verifier's contract. *)
Lemma verifier_refines_contract_witness :
  access_granted tool0 chain0 2000 (new_request token0 payer) /\
  used (verify tool0 chain0 2000 new_replay_store (new_request token0 payer)).1 (h 2) = true.
Proof.
  pose proof (verifier_refines_contract tool0 chain0 2000 new_replay_store
    (new_request token0 payer)) as T.
  destruct (verify tool0 chain0 2000 new_replay_store (new_request token0 payer))
    as [r' res] eqn:E.
  assert (res = Ok ()) as Hok by (vm_compute in E; congruence).
  destruct T as (T1 & T2 & _). split; [by apply T1|]. apply T2. right. split; [exact Hok|reflexivity].
Defined.

Definition store1 : InMemoryReplayStore := {| used_ids := {[ h 2 ]} |}.

(** Two handlers clear the checks with one token; only the first to claim is served. *)
Definition raced : list session :=
  [Finished (new_request token0 payer) (Ok ());
   Finished (new_request token0 payer) (Err (ReplayDetected (h 2)))].

Lemma concurrent_requests_never_replay_witness :
  used new_replay_store (h 2) = false /\ used store1 (h 2) = true.
Proof.
  assert (rtc (endpoint_step tool0)
    {| chain_state := chain0; store := new_replay_store; sessions := [] |}
    {| chain_state := chain0; store := store1; sessions := raced |}) as Hs.
  { eapply rtc_l; [apply (step_arrive _ _ _ _ 2000 (new_request token0 payer))|].
    eapply rtc_l; [apply (step_arrive _ _ _ _ 2001 (new_request token0 payer))|].
    eapply rtc_l; [apply (step_check_ok _ _ _ _ 0 2000 (new_request token0 payer)); by vm_compute|].
    eapply rtc_l; [apply (step_check_ok _ _ _ _ 1 2001 (new_request token0 payer)); by vm_compute|].
    eapply rtc_l; [apply (step_claim _ _ _ _ 0 (new_request token0 payer) store1 (Ok ()));
      [reflexivity|by vm_compute]|].
    eapply rtc_l; [apply (step_claim _ _ _ _ 1 (new_request token0 payer) store1
      (Err (ReplayDetected (h 2)))); [reflexivity|by vm_compute]|].
    exact (rtc_refl _ _). }
  pose proof (concurrent_requests_never_replay tool0 chain0 new_replay_store chain0 store1 raced
    Hs 0%nat (new_request token0 payer) eq_refl) as (T1 & T2 & _).
  split; [exact T1|exact T2].
Defined.

Definition receipt_n (z : Z) : AccessTokenReceipt :=
  from_token (token0 <| token_id := h z |>).
Definition receipts0 : list AccessTokenReceipt := receipt_n <$> [4; 5; 6].
Definition proof0 : Merkle.MerkleProof :=
  match Merkle.proof (Merkle.from_hashes (leaf_hash <$> receipts0)) 1 with
  | Some (Some p) => p
  | _ => {| Merkle.leaf := hash_zero; Merkle.siblings := []; Merkle.proof_root := hash_zero |}
  end.

Lemma receipt_inclusion_sound_witness : receipt_n 5 ∈ receipts0.
Proof.
  destruct (receipt_inclusion_sound receipts0 (receipt_n 5) proof0) as [T _].
  - discriminate.
  - repeat constructor; by_compute.
  - by vm_compute.
  - by vm_compute.
  - by vm_compute.
  - apply collision_freeb_ok. by vm_compute.
  - apply collision_freeb_ok. by vm_compute.
  - by vm_compute.
  - exact T.
Defined.

Definition table0 : list AccessToken := [token0; token0 <| block_hash := hash_zero |>].

Lemma token_codec_witness :
  @token_from_hex (table_bincode table0) plain_hex
    (@token_to_hex (table_bincode table0) plain_hex token0) = Some token0.
Proof.
  pose proof (@token_codec (table_bincode table0) (table_bincode_laws table0) plain_hex
    plain_hex_laws token0 [] (h 77)) as T.
  apply T. by vm_compute.
Defined.
End AccessWitness.
