(* ===== verification/Capability.v ===== *)
(** * Capabilities

    Models [primitives/capability.rs] (the catalog's data and the slug check) and the
    [Capability] string type of [primitives/agent.rs].  [str::to_lowercase] is a full
    Unicode mapping, so it is a parameter of the definitions that call it. *)
From S2P Require Import Prelude Crypto.

Module Capability.

Definition CAPABILITY_CATALOG_VERSION : Z := 1.
Definition MAX_CAPABILITY_SLUG_BYTES : Z := 128.
Definition MAX_CAPABILITY_ALIASES : Z := 32.
Definition MAX_CAPABILITY_TEXT_BYTES : Z := 4096.

(** ** The string type *)
Record Capability : Type := { as_str : rstr }.
#[global] Instance Capability_eq_dec : EqDecision Capability.
Proof. solve_decision. Defined.

Definition new_capability (to_lowercase : rstr -> rstr) (s : rstr) : Capability :=
  {| as_str := to_lowercase s |}.
(** [Deserialize]: a capability read from the wire is lowered. *)
Definition capability_from_wire (to_lowercase : rstr -> rstr) (raw : rstr) : Capability :=
  {| as_str := to_lowercase raw |}.

(** ** The catalog *)
Inductive CapabilityStatus : Type := Active | Pending | Rejected | Deprecated.
#[global] Instance CapabilityStatus_eq_dec : EqDecision CapabilityStatus.
Proof. solve_decision. Defined.

Definition status_as_str (s : CapabilityStatus) : rstr :=
  match s with
  | Active => lit "active"
  | Pending => lit "pending"
  | Rejected => lit "rejected"
  | Deprecated => lit "deprecated"
  end.
Definition status_parse (value : rstr) : option CapabilityStatus :=
  if bool_decide (value = lit "active") then Some Active
  else if bool_decide (value = lit "pending") then Some Pending
  else if bool_decide (value = lit "rejected") then Some Rejected
  else if bool_decide (value = lit "deprecated") then Some Deprecated
  else None.

Inductive CapabilitySource : Type := Seed | UserProposed | Curated.

Record CapabilityUsageSummary : Type := {
  agent_count : Z;
  tool_count : Z;
  open_task_count : Z;
  market_sample_count : Z;
}.
Record CapabilityCatalogEntry : Type := {
  slug : rstr;
  display_name : rstr;
  description : rstr;
  category : rstr;
  parent : option rstr;
  status : CapabilityStatus;
  aliases : list rstr;
  keywords : list rstr;
  examples : list rstr;
  related : list rstr;
  proposer : option Address;
  source : CapabilitySource;
  created_at_block : Z;
  updated_at_block : Z;
  usage : CapabilityUsageSummary;
}.
Record CapabilityProposeData : Type := {
  cp_slug : rstr;
  cp_display_name : rstr;
  cp_description : rstr;
  cp_category : rstr;
  cp_parent : option rstr;
  cp_aliases : list rstr;
  cp_keywords : list rstr;
  cp_examples : list rstr;
  cp_related : list rstr;
}.
Record CapabilityApproveData : Type := {
  ca_slug : rstr;
  ca_display_name : option rstr;
  ca_description : option rstr;
  ca_category : option rstr;
  ca_parent : option (option rstr);
  ca_aliases : option (list rstr);
  ca_keywords : option (list rstr);
  ca_examples : option (list rstr);
  ca_related : option (list rstr);
}.
Record CapabilityRejectData : Type := { cr_slug : rstr; cr_reason : rstr }.
Record CapabilityDeprecateData : Type := {
  cd_slug : rstr;
  cd_replacement : rstr;
  cd_reason : rstr;
}.

(** ** Slugs *)
Definition dot : Z := 46.

Definition segment_char (ch : Z) : bool :=
  is_ascii_lowercase ch || is_ascii_digit ch || (ch =? 45).

Definition check_segment (segment : rstr) : result message unit :=
  match segment with
  | [] => Err (msg "capability slug segment cannot be empty")
  | first :: chars =>
      _ ← ensure (is_ascii_lowercase first)
        (msg "each capability slug segment must start with a lowercase letter");
      ensure (forallb segment_char chars) (msg
        "capability slug segments may contain only lowercase letters, digits, and hyphen")
  end.
Definition check_segments (segments : list rstr) : result message unit :=
  fold_result (fun _ s => check_segment s) () segments.

Definition normalize_capability_slug (raw : rstr) : result message rstr :=
  let value := trim raw in
  _ ← ensure (negb (bool_decide (value = []))) (msg "capability slug is required");
  _ ← ensure (negb (MAX_CAPABILITY_SLUG_BYTES <? str_len value))
    (Msg "capability slug too long: {} > {} bytes"
      [AInt (str_len value); AInt MAX_CAPABILITY_SLUG_BYTES]);
  _ ← ensure (bool_decide (value = to_ascii_lowercase value))
    (msg "capability slug must be lowercase ASCII");
  _ ← ensure (negb (contains_any [47; 95; 32; 9; 10; 13] value))
    (msg "capability slug must not contain whitespace, slash, or underscore");
  _ ← ensure (negb (starts_with [dot] value || ends_with [dot] value
                    || contains_str [dot; dot] value))
    (msg "capability slug must use non-empty dotted segments");
  let segments := split_on dot value in
  _ ← ensure (negb ((length segments <? 2)%nat || (8 <? length segments)%nat))
    (msg "capability slug must contain 2 to 8 dotted segments");
  _ ← check_segments segments;
  Ok value.

(** ** Properties *)

(** The grammar the check enforces. *)
Definition segment_ok (s : rstr) : Prop :=
  exists c cs, s = c :: cs /\ is_ascii_lowercase c = true /\ Forall (fun x => segment_char x = true) cs.
Definition slug_ok (s : rstr) : Prop :=
  str_len s <= MAX_CAPABILITY_SLUG_BYTES /\
  (2 <= length (split_on dot s) <= 8)%nat /\ Forall segment_ok (split_on dot s).

Lemma check_segment_iff s : check_segment s = Ok () <-> segment_ok s.
Proof.
  unfold check_segment, segment_ok. destruct s as [|c cs].
  { split; [done|]. by intros (? & ? & [=] & _). }
  split.
  - intros Hc. inv_ok. to_prop. exists c, cs. split; [done|]. split; [done|].
    by apply forallb_Forall.
  - intros (? & ? & [= <- <-] & -> & Hf). cbn.
    by rewrite (proj2 (forallb_Forall _ _) Hf).
Qed.

Lemma check_segments_iff l : check_segments l = Ok () <-> Forall segment_ok l.
Proof.
  unfold check_segments. induction l as [|s l IH]; [by repeat constructor|]. cbn.
  rewrite Forall_cons, <- check_segment_iff, <- IH.
  destruct (check_segment s) as [[]|]; cbn; [naive_solver|]. split; [done|]. by intros [? _].
Qed.

Lemma slug_char s c :
  Forall segment_ok (split_on dot s) -> c ∈ s ->
  c = dot \/ 97 <= c <= 122 \/ 48 <= c <= 57 \/ c = 45.
Proof.
  intros Hf [->|(p & Hp & Hc)]%(split_on_elem dot); [by left|]. right.
  rewrite Forall_forall in Hf. destruct (Hf p Hp) as (x & xs & -> & Hx & Hxs).
  assert (is_ascii_lowercase c = true \/ segment_char c = true) as Hs.
  { apply elem_of_cons in Hc as [->|Hc]; [by left|]. right.
    rewrite Forall_forall in Hxs. by apply Hxs. }
  unfold segment_char, is_ascii_lowercase, is_ascii_digit in Hs.
  rewrite !orb_true_iff, !andb_true_iff, !Z.leb_le, Z.eqb_eq in Hs. lia.
Qed.

Lemma slug_checks_redundant s :
  Forall segment_ok (split_on dot s) ->
  s = to_ascii_lowercase s /\ contains_any [47; 95; 32; 9; 10; 13] s = false /\
  starts_with [dot] s = false /\ ends_with [dot] s = false /\
  contains_str [dot; dot] s = false /\ Forall (fun c => is_whitespace c = false) s.
Proof.
  intros Hf.
  assert (forall c, c ∈ s -> c = dot \/ 97 <= c <= 122 \/ 48 <= c <= 57 \/ c = 45) as Hc
    by (intros c; by apply slug_char).
  assert ([] ∉ split_on dot s) as Hne.
  { intros Hin. rewrite Forall_forall in Hf. by destruct (Hf _ Hin) as (? & ? & [=] & _). }
  unfold dot in Hc. repeat split.
  - unfold to_ascii_lowercase. rewrite <- (list_fmap_id s) at 1.
    apply list_fmap_ext. intros i c Hi. specialize (Hc c (list_elem_of_lookup_2 _ _ _ Hi)).
    unfold is_ascii_uppercase. destruct (Z.leb_spec 65 c), (Z.leb_spec c 90); cbn; lia.
  - apply contains_any_false, Forall_forall. intros c Hs. specialize (Hc c Hs).
    intros Hin. repeat (apply elem_of_cons in Hin as [->|Hin]; [lia|]). by apply not_elem_of_nil in Hin.
  - apply not_true_iff_false. intros [r ->]%starts_with_iff. apply Hne.
    cbn. left.
  - apply not_true_iff_false. intros [r ->]%ends_with_iff. apply Hne.
    rewrite split_on_app. cbn. set_solver.
  - apply not_true_iff_false. intros (a & b & ->)%contains_str_iff. apply Hne.
    cbn. rewrite split_on_app. cbn. set_solver.
  - apply Forall_forall. intros c Hs. specialize (Hc c Hs). unfold is_whitespace.
    repeat match goal with |- context [?x <=? ?y] => destruct (Z.leb_spec x y); try lia end;
    repeat match goal with |- context [?x =? ?y] => destruct (Z.eqb_spec x y); try lia end; done.
Qed.

Lemma normalize_slug_iff raw s :
  normalize_capability_slug raw = Ok s <-> s = trim raw /\ slug_ok s.
Proof.
  unfold normalize_capability_slug, slug_ok. split.
  - intros Hv. inv_ok. to_prop.
    match goal with E : check_segments _ = Ok ?u |- _ => destruct u; apply check_segments_iff in E end.
    split; [done|]. split; [lia|]. split; [|done].
    repeat match goal with E : (_ <? _)%nat = false |- _ => apply Nat.ltb_ge in E end. done.
  - intros (-> & Hl & Hn & Hf).
    pose proof (slug_checks_redundant _ Hf) as (E1 & E2 & E3 & E4 & E5 & _).
    rewrite (bool_decide_eq_false_2 (trim raw = [])); [|intros En; rewrite En in Hn; cbn in Hn; lia].
    rewrite (proj2 (Z.ltb_ge _ _) Hl). rewrite bool_decide_eq_true_2 by exact E1.
    rewrite E2, E3, E4, E5. cbn [negb orb ensure mbind result_bind].
    rewrite (proj2 (Nat.ltb_ge _ _)), (proj2 (Nat.ltb_ge 8 _)) by lia. cbn [negb orb ensure mbind result_bind].
    by rewrite (proj2 (check_segments_iff _) Hf).
Qed.

Lemma slug_ok_trim s : slug_ok s -> trim s = s.
Proof. intros (_ & _ & Hf). apply trim_id. by apply slug_checks_redundant. Qed.

(** A capability slug is accepted exactly when its trimmed form is at most 128 bytes
    of two to eight dot-separated segments, each a lowercase letter followed by lowercase
    letters, digits or hyphens; the result is the trimmed form, which is itself accepted
    unchanged. *)
Theorem capability_slug_grammar raw s :
  normalize_capability_slug raw = Ok s <->
  s = trim raw /\ slug_ok s /\ normalize_capability_slug s = Ok s.
Proof.
  rewrite !normalize_slug_iff. split; [|tauto]. intros [-> Hs].
  split; [done|]. split; [done|]. split; [|done]. symmetry. by apply slug_ok_trim.
Qed.

(** *** Trimming *)
Lemma drop_while_fix {A} (p : A -> bool) l :
  (forall x, head l = Some x -> p x = false) -> drop_while p l = l.
Proof. destruct l as [|x l]; [done|]. cbn. intros Hh. by rewrite Hh. Qed.
Lemma drop_while_head {A} (p : A -> bool) l x : head (drop_while p l) = Some x -> p x = false.
Proof.
  induction l as [|y l IH]; [done|]. cbn. destruct (p y) eqn:E; [exact IH|]. by intros [= <-].
Qed.
Lemma drop_while_suffix {A} (p : A -> bool) l : exists k, l = k ++ drop_while p l.
Proof.
  induction l as [|y l [k IH]]; [by exists []|]. cbn. destruct (p y); [|by exists []].
  exists (y :: k). cbn. congruence.
Qed.
Lemma drop_while_fmap {A} (p : A -> bool) (f : A -> A) l :
  (forall x, p (f x) = p x) -> drop_while p (f <$> l) = f <$> drop_while p l.
Proof. intros Hf. induction l as [|y l IH]; [done|]. cbn. rewrite Hf. by destruct (p y). Qed.

Lemma trim_idem s : trim (trim s) = trim s.
Proof.
  unfold trim. set (t := drop_while is_whitespace s).
  set (u := drop_while is_whitespace (reverse t)).
  assert (drop_while is_whitespace (reverse u) = reverse u) as E.
  { apply drop_while_fix. intros x Hx. apply (drop_while_head is_whitespace s). fold t.
    destruct (drop_while_suffix is_whitespace (reverse t)) as [k Ek]. fold u in Ek.
    apply (f_equal reverse) in Ek. rewrite reverse_involutive, reverse_app in Ek. rewrite Ek.
    by destruct (reverse u). }
  rewrite E, reverse_involutive. f_equal. apply drop_while_fix, drop_while_head.
Qed.

Lemma lowercase_whitespace c :
  is_whitespace (if is_ascii_uppercase c then c + 32 else c) = is_whitespace c.
Proof.
  destruct (is_ascii_uppercase c) eqn:E; [|done]. unfold is_ascii_uppercase in E.
  apply andb_true_iff in E as [E1%Z.leb_le E2%Z.leb_le]. unfold is_whitespace.
  repeat match goal with |- context [?x <=? ?y] => destruct (Z.leb_spec x y); try lia end;
  repeat match goal with |- context [?x =? ?y] => destruct (Z.eqb_spec x y); try lia end; done.
Qed.

Lemma trim_lowercase s : trim (to_ascii_lowercase s) = to_ascii_lowercase (trim s).
Proof.
  unfold trim, to_ascii_lowercase.
  rewrite (drop_while_fmap _ _ _ lowercase_whitespace), <- fmap_reverse.
  by rewrite (drop_while_fmap _ _ _ lowercase_whitespace), <- fmap_reverse.
Qed.

Lemma lowercase_idem s : to_ascii_lowercase (to_ascii_lowercase s) = to_ascii_lowercase s.
Proof.
  unfold to_ascii_lowercase. rewrite <- list_fmap_compose. apply list_fmap_ext. intros i c _.
  cbn. unfold is_ascii_uppercase. repeat case_match; lia.
Qed.

Example slug_example :
  normalize_capability_slug (lit " ai.text.generation-v2 ") = Ok (lit "ai.text.generation-v2")
  /\ is_ok (normalize_capability_slug (lit "ai..text")) = false
  /\ is_ok (normalize_capability_slug (lit "ai")) = false.
Proof. by vm_compute. Qed.
End Capability.
