(* ===== verification/Tool.v ===== *)
(** * Tools

    Models the registry part of [primitives/tool.rs]: settlement modes, the entry with its
    contract endpoints and execution routes, the verified-outcome statistics, discovery
    ranking and the payloads of the tool transactions. *)
From S2P Require Import Prelude Crypto Instances Capability Contract Subscription ToolJob.
Import Capability.

Module Tool.

Inductive HttpToolSettlementMode : Type :=
| PrepaidAccess | ResultEscrowed | MeteredUsage | MilestoneEscrowed.
Inductive ToolInvokeRoute : Type :=
| ContractBacked | HttpPrepaidAccess | HttpResultEscrowed | HttpMeteredUsage
| HttpMilestoneEscrowed.
Inductive ContractEndpointTarget : Type :=
| TAddress (contract_address : Address) (function : rstr)
| TRoute (deployer : Address) (route_name function : rstr).
Inductive ToolArbitrationPolicy : Type := Protocol.
#[global] Instance HttpToolSettlementMode_eq_dec : EqDecision HttpToolSettlementMode.
Proof. solve_decision. Defined.
#[global] Instance ToolInvokeRoute_eq_dec : EqDecision ToolInvokeRoute.
Proof. solve_decision. Defined.
#[global] Instance ContractEndpointTarget_eq_dec : EqDecision ContractEndpointTarget.
Proof. solve_decision. Defined.

Definition default_settlement_mode : HttpToolSettlementMode := PrepaidAccess.
Definition default_tool_sla_ms : Z := 3600000.
Definition default_tool_challenge_window_ms : Z := 900000.
Definition default_tool_max_result_metadata_bytes : Z := 4096.
Definition default_tool_match_enabled : bool := true.

(** ** Reputation *)
Record ToolReputation : Type := {
  total_calls : Z;
  successful_calls : Z;
  failed_calls : Z;
  cumulative_quality : f64;
  quality_ratings : Z;
  total_revenue : Z;
}.
#[global] Instance eta_ToolReputation : Eta ToolReputation := fun r =>
  {| total_calls := total_calls r; successful_calls := successful_calls r;
     failed_calls := failed_calls r; cumulative_quality := cumulative_quality r;
     quality_ratings := quality_ratings r; total_revenue := total_revenue r |}.

Definition verified_calls (r : ToolReputation) : Z :=
  sat_add (successful_calls r) (failed_calls r).
Definition verified_success_rate (r : ToolReputation) : option f64 :=
  if verified_calls r =? 0 then None
  else Some (f64_div (f64_of_Z (successful_calls r)) (f64_of_Z (verified_calls r))).
Definition success_rate (r : ToolReputation) : f64 :=
  f64_div (f64_add (f64_of_Z (successful_calls r)) (f64_of_Z 1))
          (f64_add (f64_of_Z (verified_calls r)) (f64_of_Z 2)).
Definition avg_quality (r : ToolReputation) : f64 :=
  if quality_ratings r =? 0 then f64_of_Z 0
  else f64_div (cumulative_quality r) (f64_of_Z (quality_ratings r)).
Definition record_access_grant (r : ToolReputation) : ToolReputation :=
  r <| total_calls := sat_add (total_calls r) 1 |>.
Definition record_paid_access (revenue : Z) (r : ToolReputation) : ToolReputation :=
  let r := record_access_grant r in
  r <| total_revenue := sat_add (total_revenue r) revenue |>.
Definition record_subscription_revenue (revenue : Z) (r : ToolReputation) : ToolReputation :=
  r <| total_revenue := sat_add (total_revenue r) revenue |>.
Definition record_settlement_revenue (revenue : Z) (r : ToolReputation) : ToolReputation :=
  r <| total_revenue := sat_add (total_revenue r) revenue |>.
Definition record_verified_outcome (success : bool) (r : ToolReputation) : ToolReputation :=
  if success then r <| successful_calls := sat_add (successful_calls r) 1 |>
  else r <| failed_calls := sat_add (failed_calls r) 1 |>.

(** ** Entries *)
Record ToolEntry : Type := {
  tool_id : Hash256;
  owner : Address;
  name : rstr;
  description : rstr;
  endpoint : rstr;
  price_per_call : Z;
  settlement_mode : HttpToolSettlementMode;
  sla_ms : Z;
  challenge_window_ms : Z;
  max_result_metadata_bytes : Z;
  arbitration_policy : ToolArbitrationPolicy;
  capabilities : list Capability;
  match_enabled : bool;
  description_embedding : list f32;
  neural_embedding : list f32;
  active : bool;
  deregistered_at : Z;
  version : rstr;
  registered_at_block : Z;
  reputation : ToolReputation;
  storage_deposit : Z;
}.

(** ** Contract endpoints *)
Definition CONTRACT_SCHEME : rstr := lit "contract://".
Definition slash : Z := 47.
Definition question : Z := 63.

Definition is_contract_endpoint (endpoint : rstr) : bool :=
  starts_with CONTRACT_SCHEME endpoint || starts_with Contract.CONTRACT_ROUTE_SCHEME endpoint.
Definition is_contract_tool (t : ToolEntry) : bool := is_contract_endpoint (endpoint t).

(** [s.splitn(n, c)]. *)
Fixpoint splitn (n : nat) (c : Z) (s : rstr) : list rstr :=
  match n with
  | O => []
  | S O => [s]
  | S n' => match split_once c s with Some (a, b) => a :: splitn n' c b | None => [s] end
  end.

Section Endpoints.
Context `{Hex}.

Definition contract_target_for_endpoint (endpoint : rstr) : option (Address * rstr) :=
  path ← strip_prefix CONTRACT_SCHEME endpoint;
  '(addr_str, rest) ← split_once slash path;
  if contains_any [question] rest then None
  else if bool_decide (rest = []) then None
  else address ← ok (address_from_hex addr_str); Some (address, rest).

Definition contract_route_for_endpoint (endpoint : rstr) : option (Address * rstr * rstr) :=
  path ← strip_prefix Contract.CONTRACT_ROUTE_SCHEME endpoint;
  let parts := splitn 3 slash path in
  deployer_str ← parts !! 0%nat;
  deployer ← ok (address_from_hex deployer_str);
  route_name ← parts !! 1%nat;
  function ← parts !! 2%nat;
  if bool_decide (route_name = []) || bool_decide (function = [])
     || contains_any [question] function then None
  else
    normalized ← ok (Contract.validate_and_normalize_contract_route_name route_name);
    if bool_decide (normalized = route_name) then Some (deployer, route_name, function)
    else None.

Definition contract_endpoint_target (endpoint : rstr) : option ContractEndpointTarget :=
  match contract_target_for_endpoint endpoint with
  | Some (contract_address, function) => Some (TAddress contract_address function)
  | None =>
      match contract_route_for_endpoint endpoint with
      | Some (deployer, route_name, function) => Some (TRoute deployer route_name function)
      | None => None
      end
  end.

Definition validate_contract_endpoint (endpoint : rstr) : result message unit :=
  if negb (is_contract_endpoint endpoint) then Ok ()
  else if contains_any [question] endpoint then
    Err (msg "contract-backed endpoints do not support query parameters or version selectors; use a new immutable contract address or a contractref://<deployer>/<route>/<function> alias instead")
  else
    match contract_endpoint_target endpoint with
    | Some _ => Ok ()
    | None =>
        if starts_with CONTRACT_SCHEME endpoint then
          Err (msg "Invalid contract:// endpoint; expected contract://<address>/<function>")
        else
          Err (msg "Invalid contractref:// endpoint; expected contractref://<deployer>/<route>/<function>")
    end.

Definition contract_target_address_for_endpoint (endpoint : rstr) : option Address :=
  fst <$> contract_target_for_endpoint endpoint.

(** ** Execution routes *)
Definition invoke_route_for (endpoint : rstr) (mode : HttpToolSettlementMode)
    : ToolInvokeRoute :=
  if is_contract_endpoint endpoint then ContractBacked
  else
    match mode with
    | PrepaidAccess => HttpPrepaidAccess
    | ResultEscrowed => HttpResultEscrowed
    | MeteredUsage => HttpMeteredUsage
    | MilestoneEscrowed => HttpMilestoneEscrowed
    end.
Definition supports_subscriptions_for (endpoint : rstr) (mode : HttpToolSettlementMode)
    : bool :=
  match invoke_route_for endpoint mode with
  | HttpPrepaidAccess | HttpResultEscrowed | ContractBacked => true
  | _ => false
  end.
Definition invoke_route (t : ToolEntry) : ToolInvokeRoute :=
  invoke_route_for (endpoint t) (settlement_mode t).
Definition supports_subscriptions (t : ToolEntry) : bool :=
  supports_subscriptions_for (endpoint t) (settlement_mode t).
Definition supports_contract_host_invoke (t : ToolEntry) : bool :=
  bool_decide (invoke_route t = HttpPrepaidAccess).
Definition contract_target_address (t : ToolEntry) : option Address :=
  contract_target_address_for_endpoint (endpoint t).
Definition subscription_payment_recipient (t : ToolEntry) : option Address :=
  if is_contract_tool t then contract_target_address t else Some (owner t).
End Endpoints.

Definition has_capability (t : ToolEntry) (cap : Capability) : bool :=
  bool_decide (cap ∈ capabilities t).
Definition has_all_capabilities (t : ToolEntry) (caps : list Capability) : bool :=
  forallb (has_capability t) caps.

(** ** Discovery ranking *)
Record ToolSearchPreferences : Type := {
  w_reliability : Z;
  w_price : Z;
  w_quality : Z;
  w_popularity : Z;
  w_freshness : Z;
  max_price : Z;
  min_success_rate : f64;
  discovery_threshold : Z;
  discovery_boost : Z;
}.
#[global] Instance eta_ToolSearchPreferences : Eta ToolSearchPreferences := fun p =>
  {| w_reliability := w_reliability p; w_price := w_price p; w_quality := w_quality p;
     w_popularity := w_popularity p; w_freshness := w_freshness p; max_price := max_price p;
     min_success_rate := min_success_rate p; discovery_threshold := discovery_threshold p;
     discovery_boost := discovery_boost p |}.

Definition default_preferences : ToolSearchPreferences :=
  {| w_reliability := 35; w_price := 25; w_quality := 20; w_popularity := 10;
     w_freshness := 10; max_price := 0; min_success_rate := f64_of_Z 0;
     discovery_threshold := 10; discovery_boost := 10 |}.
Definition cheapest : ToolSearchPreferences :=
  default_preferences <| w_price := 60 |> <| w_reliability := 20 |> <| w_quality := 10 |>
    <| w_popularity := 5 |> <| w_freshness := 5 |>.
(** The literal [0.8] is the quotient of 8 by 10, correctly rounded. *)
Definition most_reliable : ToolSearchPreferences :=
  default_preferences <| w_reliability := 50 |> <| w_quality := 25 |> <| w_price := 10 |>
    <| w_popularity := 10 |> <| w_freshness := 5 |>
    <| min_success_rate := f64_div (f64_of_Z 8) (f64_of_Z 10) |>.
Definition discover_new : ToolSearchPreferences :=
  default_preferences <| w_freshness := 40 |> <| w_price := 25 |> <| w_reliability := 15 |>
    <| w_quality := 10 |> <| w_popularity := 10 |> <| discovery_boost := 20 |>
    <| discovery_threshold := 20 |>.
Definition most_popular : ToolSearchPreferences :=
  default_preferences <| w_popularity := 40 |> <| w_reliability := 30 |> <| w_quality := 15 |>
    <| w_price := 10 |> <| w_freshness := 5 |>.

(** The sum of the weights is computed in [u8], before the conversion to [f64]: it wraps
    in a release build (and panics in a debug build). *)
Definition weight_total (p : ToolSearchPreferences) : Z :=
  Z.max (wrap8 (wrap8 (wrap8 (wrap8 (w_reliability p + w_price p) + w_quality p)
                        + w_popularity p) + w_freshness p)) 1.
Definition weight_share (p : ToolSearchPreferences) (w : Z) : f64 :=
  f64_div (f64_of_Z w) (f64_of_Z (weight_total p)).

(** [1.0 - (n as f64 / cap).min(1.0)] scaled to a hundred. *)
Definition scaled_inverse (n cap : Z) : f64 :=
  f64_mul (f64_sub (f64_of_Z 1) (f64_min (f64_div (f64_of_Z n) (f64_of_Z cap)) (f64_of_Z 1)))
          (f64_of_Z 100).

Definition ranked_score (ln : f64 -> f64) (prefs : ToolSearchPreferences) (t : ToolEntry) : f64 :=
  let r := reputation t in
  let wr := weight_share prefs (w_reliability prefs) in
  let wp := weight_share prefs (w_price prefs) in
  let wq := weight_share prefs (w_quality prefs) in
  let wpo := weight_share prefs (w_popularity prefs) in
  let wf := weight_share prefs (w_freshness prefs) in
  let reliability := f64_mul (success_rate r) (f64_of_Z 100) in
  let price_score := scaled_inverse (price_per_call t) 10000000 in
  let quality := f64_mul (avg_quality r) (f64_of_Z 10) in
  let popularity := f64_min
    (f64_mul (ln (f64_add (f64_of_Z (total_calls r)) (f64_of_Z 1))) (f64_of_Z 15))
    (f64_of_Z 100) in
  let freshness :=
    if total_calls r <? discovery_threshold prefs then f64_of_Z 100
    else scaled_inverse (total_calls r) 1000 in
  let score :=
    f64_add (f64_add (f64_add (f64_add (f64_mul reliability wr) (f64_mul price_score wp))
                        (f64_mul quality wq)) (f64_mul popularity wpo))
            (f64_mul freshness wf) in
  if (0 <? discovery_threshold prefs) && (total_calls r <? discovery_threshold prefs)
  then f64_add score (f64_of_Z (discovery_boost prefs)) else score.
Definition discovery_score (ln : f64 -> f64) (t : ToolEntry) : f64 :=
  ranked_score ln default_preferences t.

(** ** Transaction payloads *)
Record ToolRegisterData : Type := {
  rg_name : rstr;
  rg_description : rstr;
  rg_endpoint : rstr;
  rg_price_per_call : Z;
  rg_settlement_mode : HttpToolSettlementMode;
  rg_sla_ms : Z;
  rg_challenge_window_ms : Z;
  rg_max_result_metadata_bytes : Z;
  rg_arbitration_policy : ToolArbitrationPolicy;
  rg_capabilities : list Capability;
  rg_match_enabled : bool;
  rg_neural_embedding : option (list f32);
  rg_version : rstr;
}.
Record ToolSubscriptionPlanCreateData : Type := {
  pc_tool_id : Hash256;
  pc_name : rstr;
  pc_price_per_period : Z;
  pc_period_ms : Z;
  pc_included_calls : Z;
  pc_included_credits : Z;
  pc_overage_policy : Subscription.SubscriptionOveragePolicy;
}.
Record ToolSubscriptionPlanUpdateData : Type := {
  pu_plan_id : Hash256;
  pu_name : option rstr;
  pu_price_per_period : option Z;
  pu_period_ms : option Z;
  pu_included_calls : option Z;
  pu_included_credits : option Z;
  pu_overage_policy : option Subscription.SubscriptionOveragePolicy;
  pu_active : option bool;
}.
Record ToolSubscriptionStartData : Type := {
  ss_plan_id : Hash256;
  ss_reserve_amount : Z;
  ss_auto_renew : bool;
}.
Record ToolSubscriptionTopUpData : Type := { tu_subscription_id : Hash256; tu_amount : Z }.
Record ToolSubscriptionCancelData : Type := { sc_subscription_id : Hash256 }.
Record ToolSubscriptionResumeData : Type := {
  sr_subscription_id : Hash256;
  sr_reserve_amount : Z;
}.
Record ToolSubscriptionRenewData : Type := { sn_subscription_id : Hash256 }.
Record ToolInvokeData : Type := {
  iv_tool_id : Hash256;
  iv_input_data : list byte;
  iv_max_metered_units : option Z;
  iv_gas_limit : Z;
  iv_milestones : list ToolJob.ToolMilestoneDef;
}.
Record ToolUpdateData : Type := {
  up_tool_id : Hash256;
  up_description : option rstr;
  up_endpoint : option rstr;
  up_price_per_call : option Z;
  up_settlement_mode : option HttpToolSettlementMode;
  up_sla_ms : option Z;
  up_challenge_window_ms : option Z;
  up_max_result_metadata_bytes : option Z;
  up_arbitration_policy : option ToolArbitrationPolicy;
  up_capabilities : option (list Capability);
  up_match_enabled : option bool;
  up_neural_embedding : option (list f32);
  up_version : option rstr;
  up_active : option bool;
}.

Definition DEFAULT_CONTRACT_TOOL_GAS_LIMIT : Z := 400000.

Definition validate_contract_tool_gas_limit (gas_limit : Z) : result message Z :=
  if gas_limit =? 0 then Err (msg "Contract-backed ToolInvoke gas_limit must be > 0")
  else if Contract.MAX_CONTRACT_GAS <? gas_limit then
    Err (Msg "Contract-backed ToolInvoke gas_limit {} exceeds max {}"
           [AInt gas_limit; AInt Contract.MAX_CONTRACT_GAS])
  else Ok gas_limit.

(** [ToolInvokeData::decode]; a failed check is a custom bincode error. *)
Definition decode_invoke `{Bincode ToolInvokeData} (bytes : list byte)
    : result (rstr + message) ToolInvokeData :=
  data ← map_err inl (ToolJob.decode_canonical_tool_payload bytes);
  _ ← map_err inr (validate_contract_tool_gas_limit (iv_gas_limit data));
  Ok data.

(** ** Properties of endpoints *)

(** What a parsed target satisfies, and the canonical text of one. *)
Definition function_ok (f : rstr) : Prop := f <> [] /\ question ∉ f.
Definition target_ok (t : ContractEndpointTarget) : Prop :=
  match t with
  | TAddress _ f => function_ok f
  | TRoute _ n f => Contract.route_name_ok n /\ function_ok f
  end.

Lemma schemes_disjoint s : strip_prefix CONTRACT_SCHEME (Contract.CONTRACT_ROUTE_SCHEME ++ s) = None.
Proof. reflexivity. Qed.

Lemma question_free f : contains_any [question] f = false <-> question ∉ f.
Proof.
  rewrite contains_any_false, Forall_forall. split.
  - intros Hf Hin. apply (Hf _ Hin). by left.
  - intros Hn c Hc Hin. apply Hn. apply list_elem_of_singleton in Hin. by rewrite <- Hin.
Qed.

Lemma route_name_chars n c : Contract.route_name_ok n -> c ∈ n -> c <> slash /\ c <> question.
Proof.
  intros (_ & _ & _ & _ & Hf) Hc. rewrite Forall_forall in Hf. specialize (Hf c Hc).
  by split; intros ->.
Qed.

Section EndpointProofs.
Context `{HexLaws}.

Definition render (addr : rstr) (t : ContractEndpointTarget) : rstr :=
  match t with
  | TAddress _ f => CONTRACT_SCHEME ++ addr ++ slash :: f
  | TRoute _ n f => Contract.CONTRACT_ROUTE_SCHEME ++ addr ++ slash :: n ++ slash :: f
  end.
Definition target_owner (t : ContractEndpointTarget) : Address :=
  match t with TAddress a _ => a | TRoute d _ _ => d end.

Lemma target_for_endpoint_iff e a f :
  contract_target_for_endpoint e = Some (a, f) <->
  exists addr, e = render addr (TAddress a f) /\ address_from_hex addr = Ok a /\
    slash ∉ addr /\ function_ok f.
Proof.
  unfold contract_target_for_endpoint, function_ok. split.
  - intros E. apply bind_Some in E as (path & ->%strip_prefix_Some & E).
    apply bind_Some in E as ([addr rest] & [-> Hs]%split_once_Some & E).
    destruct (contains_any _ rest) eqn:Eq; [done|].
    case_bool_decide; [done|]. apply bind_Some in E as (a' & Ea & [= -> ->]).
    exists addr. apply question_free in Eq. split; [done|].
    destruct (address_from_hex addr); [|done]. by injection Ea as ->.
  - intros (addr & -> & Ha & Hs & Hne & Hq). cbn [render].
    rewrite strip_prefix_app. cbn. rewrite (proj2 (split_once_Some _ _ addr f)) by done. cbn.
    rewrite (proj2 (question_free f) Hq), bool_decide_eq_false_2 by done. by rewrite Ha.
Qed.

Lemma route_for_endpoint_iff e d n f :
  contract_route_for_endpoint e = Some (d, n, f) <->
  exists addr, e = render addr (TRoute d n f) /\ address_from_hex addr = Ok d /\
    slash ∉ addr /\ Contract.route_name_ok n /\ function_ok f.
Proof.
  unfold contract_route_for_endpoint, function_ok. split.
  - intros E. apply bind_Some in E as (path & ->%strip_prefix_Some & E). cbn [splitn] in E.
    destruct (split_once slash path) as [[addr rest]|] eqn:E1; cbn in E.
    2: { by destruct (address_from_hex path). }
    apply split_once_Some in E1 as [-> H1].
    destruct (address_from_hex addr) as [d'|] eqn:Ea; [|done]. cbn in E.
    destruct (split_once slash rest) as [[n' f']|] eqn:E2; [|done]. cbn in E.
    apply split_once_Some in E2 as [-> H2].
    destruct (bool_decide (n' = [])) eqn:En, (bool_decide (f' = [])) eqn:Ef,
      (contains_any [question] f') eqn:Eq; try done. cbn in E. to_prop.
    destruct (Contract.validate_and_normalize_contract_route_name n') as [m|] eqn:Ev; [|done].
    cbn in E. case_bool_decide as Em; [|done]. subst m.
    apply Contract.route_name_iff in Ev as [_ Hok]. apply question_free in Eq.
    injection E as -> -> ->. by exists addr.
  - intros (addr & -> & Ha & Hs & Hn & Hne & Hq). cbn [render].
    rewrite strip_prefix_app. cbn [mbind option_bind splitn].
    rewrite (proj2 (split_once_Some _ _ addr (n ++ slash :: f))) by done. cbn.
    assert (slash ∉ n) as Hsn by (intros Hin; by destruct (route_name_chars _ _ Hn Hin)).
    rewrite (proj2 (split_once_Some _ _ n f)) by done. rewrite Ha. cbn.
    rewrite (bool_decide_eq_false_2 (n = [])) by (by destruct Hn).
    rewrite (bool_decide_eq_false_2 (f = [])) by done.
    rewrite (proj2 (question_free f) Hq). cbn.
    rewrite (proj2 (Contract.route_name_iff n n)).
    + cbn. by rewrite bool_decide_eq_true_2.
    + split; [by rewrite Contract.route_name_trim|done].
Qed.

Lemma endpoint_target_iff e t :
  contract_endpoint_target e = Some t <->
  exists addr, e = render addr t /\ address_from_hex addr = Ok (target_owner t) /\
    slash ∉ addr /\ target_ok t.
Proof.
  unfold contract_endpoint_target. split.
  - destruct (contract_target_for_endpoint e) as [[a f]|] eqn:E1.
    + intros [= <-]. by apply target_for_endpoint_iff.
    + destruct (contract_route_for_endpoint e) as [[[d n] f]|] eqn:E2; [|done].
      intros [= <-]. by apply route_for_endpoint_iff.
  - intros (addr & He & Ha & Hs & Hok). destruct t as [a f|d n f]; cbn in Ha, Hok.
    + by rewrite (proj2 (target_for_endpoint_iff e a f) (ex_intro _ addr (conj He (conj Ha (conj Hs Hok))))).
    + assert (contract_target_for_endpoint e = None) as ->.
      { unfold contract_target_for_endpoint. rewrite He. cbn [render].
        by rewrite schemes_disjoint. }
      by rewrite (proj2 (route_for_endpoint_iff e d n f)
        (ex_intro _ addr (conj He (conj Ha (conj Hs Hok))))).
Qed.

Lemma address_text_plain (a : Address) c :
  c ∈ address_to_hex a -> c <> slash /\ c <> question.
Proof.
  unfold address_to_hex, address_to_raw_hex. intros [Hc|Hc]%elem_of_app.
  - apply (Forall_forall (fun c => c <> slash /\ c <> question) ADDRESS_PREFIX); [|done].
    repeat constructor; discriminate.
  - apply hex_encode_digits in Hc. unfold slash, question. lia.
Qed.

(** Contract endpoints. An endpoint parses to a target exactly when it is the
    rendering of that target with a text of its owner's address, the function is
    non-empty and free of query marks and a route name is in normal form. Every such
    target has an endpoint: its rendering with the address's public text parses back to
    it and passes the endpoint check, and what the check accepts is either a plain URL or
    parses. *)
Theorem contract_endpoint_roundtrip t e :
  (contract_endpoint_target e = Some t <->
    exists addr, e = render addr t /\ address_from_hex addr = Ok (target_owner t) /\
      slash ∉ addr /\ target_ok t) /\
  (target_ok t ->
    contract_endpoint_target (render (address_to_hex (target_owner t)) t) = Some t /\
    validate_contract_endpoint (render (address_to_hex (target_owner t)) t) = Ok ()) /\
  (validate_contract_endpoint e = Ok () ->
    is_contract_endpoint e = false \/ is_Some (contract_endpoint_target e)).
Proof.
  split; [apply endpoint_target_iff|]. split.
  - intros Hok.
    assert (forall c, c ∈ address_to_hex (target_owner t) -> c <> slash /\ c <> question) as Hp
      by (intros c; apply address_text_plain).
    assert (contract_endpoint_target (render (address_to_hex (target_owner t)) t) = Some t) as E.
    { apply endpoint_target_iff. exists (address_to_hex (target_owner t)). split; [done|].
      split; [|split; [|done]]; [|intros Hin; by apply Hp in Hin as [? _]].
      unfold address_from_hex, address_to_hex. rewrite strip_prefix_app.
      apply decode_raw_hex_body_encode. }
    split; [done|]. unfold validate_contract_endpoint. rewrite E.
    case_match; [done|]. rewrite (proj2 (question_free _)); [done|].
    assert (question ∉ CONTRACT_SCHEME /\ question ∉ Contract.CONTRACT_ROUTE_SCHEME) as [Q1 Q2].
    { split; by apply question_free. }
    assert (question ∉ address_to_hex (target_owner t)) as Q3
      by (intros Hin; by apply Hp in Hin as [_ ?]).
    destruct t as [a f|d n f]; cbn [render target_owner target_ok] in *.
    + destruct Hok as [_ Q]. rewrite !not_elem_of_app, not_elem_of_cons. done.
    + destruct Hok as (Hn & _ & Q). rewrite !not_elem_of_app, not_elem_of_cons, not_elem_of_app,
        not_elem_of_cons. split; [done|]. split; [done|]. split; [done|]. split; [|done].
      intros Hin. by destruct (route_name_chars _ _ Hn Hin).
  - unfold validate_contract_endpoint. destruct (is_contract_endpoint e); [|by left].
    cbn. destruct (contains_any _ e); [done|].
    destruct (contract_endpoint_target e); [by right|]. by destruct (starts_with _ e).
Qed.

(** Routing of a tool whose endpoint passed the check. A contract endpoint always
    takes the contract route whatever the stored settlement mode; a contract can invoke
    inline exactly the prepaid HTTP tools; subscriptions are backed by every route but
    the metered and milestone ones; and period revenue goes to the owner of an HTTP tool
    and to the contract named by an address endpoint. An alias endpoint backs
    subscriptions too, but names no recipient. *)
Theorem tool_routing t :
  validate_contract_endpoint (endpoint t) = Ok () ->
  (invoke_route t = ContractBacked <-> is_contract_tool t = true) /\
  (supports_contract_host_invoke t = true <->
    is_contract_tool t = false /\ settlement_mode t = PrepaidAccess) /\
  (supports_subscriptions t = false <->
    is_contract_tool t = false /\
    (settlement_mode t = MeteredUsage \/ settlement_mode t = MilestoneEscrowed)) /\
  match contract_endpoint_target (endpoint t) with
  | None => is_contract_tool t = false /\ subscription_payment_recipient t = Some (owner t)
  | Some (TAddress a _) => subscription_payment_recipient t = Some a
  | Some (TRoute _ _ _) =>
      subscription_payment_recipient t = None /\ supports_subscriptions t = true
  end.
Proof.
  intros Hv.
  assert (forall tgt, contract_endpoint_target (endpoint t) = Some tgt ->
    is_contract_tool t = true) as Hc.
  { intros tgt (addr & He & _)%endpoint_target_iff. unfold is_contract_tool, is_contract_endpoint.
    rewrite He. destruct tgt; cbn [render]; rewrite orb_true_iff, !starts_with_iff; eauto. }
  unfold invoke_route, supports_contract_host_invoke, supports_subscriptions,
    subscription_payment_recipient, contract_target_address, contract_target_address_for_endpoint,
    supports_subscriptions_for, invoke_route, invoke_route_for.
  change (is_contract_endpoint (endpoint t)) with (is_contract_tool t) in *.
  split; [|split; [|split]].
  - destruct (is_contract_tool t), (settlement_mode t); naive_solver.
  - rewrite bool_decide_eq_true. destruct (is_contract_tool t), (settlement_mode t); naive_solver.
  - destruct (is_contract_tool t), (settlement_mode t); naive_solver.
  - unfold validate_contract_endpoint in Hv.
    change (is_contract_endpoint (endpoint t)) with (is_contract_tool t) in Hv.
    destruct (contract_endpoint_target (endpoint t)) as [[a f|d n f]|] eqn:E.
    + rewrite (Hc _ eq_refl). apply endpoint_target_iff in E.
      by rewrite (proj2 (target_for_endpoint_iff _ a f) E).
    + rewrite (Hc _ eq_refl). apply endpoint_target_iff in E as (addr & -> & _).
      unfold contract_target_for_endpoint. cbn [render]. by rewrite schemes_disjoint.
    + destruct (is_contract_tool t); [|done]. cbn in Hv.
      destruct (contains_any _ _); [done|]. by destruct (starts_with _ _).
Qed.
End EndpointProofs.

(** ** Properties of reputation and ranking *)

(** What the chain records about a tool. *)
Inductive tool_event : Type :=
| EvPaid (revenue : Z) | EvCovered | EvSubscription (revenue : Z) | EvSettled (revenue : Z)
| EvOutcome (success : bool).
Definition record_event (r : ToolReputation) (e : tool_event) : ToolReputation :=
  match e with
  | EvPaid x => record_paid_access x r
  | EvCovered => record_access_grant r
  | EvSubscription x => record_subscription_revenue x r
  | EvSettled x => record_settlement_revenue x r
  | EvOutcome s => record_verified_outcome s r
  end.
Definition new_reputation : ToolReputation :=
  {| total_calls := 0; successful_calls := 0; failed_calls := 0;
     cumulative_quality := f64_of_Z 0; quality_ratings := 0; total_revenue := 0 |}.

Definition event_calls (e : tool_event) : Z :=
  match e with EvPaid _ | EvCovered => 1 | _ => 0 end.
Definition event_revenue (e : tool_event) : Z :=
  match e with EvPaid x | EvSubscription x | EvSettled x => x | _ => 0 end.
Definition event_outcome (s : bool) (e : tool_event) : Z :=
  match e with EvOutcome s' => if Bool.eqb s s' then 1 else 0 | _ => 0 end.
Definition event_nonneg (e : tool_event) : Prop := 0 <= event_revenue e.

Definition total (f : tool_event -> Z) (es : list tool_event) : Z := sumZ (f <$> es).

(** Saturating at every step is saturating once. *)
Lemma sat_add_sat a b c : 0 <= b -> 0 <= c -> sat_add (sat_add a b) c = sat_add a (b + c).
Proof. mlia. Qed.

Lemma total_cons f e es : total f (e :: es) = f e + total f es.
Proof. reflexivity. Qed.

Lemma total_nonneg f es : (forall e, e ∈ es -> 0 <= f e) -> 0 <= total f es.
Proof.
  intros Hf. apply sumZ_nonneg, Forall_forall. intros x (y & -> & Hy)%list_elem_of_fmap. auto.
Qed.

Lemma event_outcome_nonneg s e : 0 <= event_outcome s e.
Proof. destruct e as [| | | |[]], s; cbn; lia. Qed.

(** No outcome was counted exactly when none was observed. *)
Lemma no_outcome_iff es :
  total (event_outcome true) es = 0 /\ total (event_outcome false) es = 0 <->
  forall s, EvOutcome s ∉ es.
Proof.
  induction es as [|e es IH].
  { split; [|done]. intros _ s. apply not_elem_of_nil. }
  pose proof (total_nonneg (event_outcome true) es ltac:(intros; apply event_outcome_nonneg)).
  pose proof (total_nonneg (event_outcome false) es ltac:(intros; apply event_outcome_nonneg)).
  pose proof (event_outcome_nonneg true e). pose proof (event_outcome_nonneg false e).
  rewrite !total_cons. split.
  - intros [E1 E2] s [<-|Hin]%elem_of_cons; [destruct s; cbn in *; lia|].
    revert Hin. apply IH. lia.
  - intros Hno. assert (event_outcome true e = 0 /\ event_outcome false e = 0) as [-> ->].
    { destruct e as [| | | |b]; try done. destruct (Hno b). by left. }
    rewrite !Z.add_0_l. apply IH. intros s Hin. apply (Hno s). by right.
Qed.

Lemma verified_success_rate_None r : verified_success_rate r = None <-> verified_calls r = 0.
Proof. unfold verified_success_rate. by destruct (Z.eqb_spec (verified_calls r) 0). Qed.

Lemma record_events_spec r es :
  is_u64 (total_calls r) -> is_u64 (total_revenue r) -> is_u64 (successful_calls r) ->
  is_u64 (failed_calls r) -> Forall event_nonneg es ->
  let r' := foldl record_event r es in
  total_calls r' = sat_add (total_calls r) (total event_calls es) /\
  total_revenue r' = sat_add (total_revenue r) (total event_revenue es) /\
  successful_calls r' = sat_add (successful_calls r) (total (event_outcome true) es) /\
  failed_calls r' = sat_add (failed_calls r) (total (event_outcome false) es).
Proof.
  intros H1 H2 H3 H4 Hes. revert r H1 H2 H3 H4.
  induction Hes as [|e es He Hes IH]; intros r H1 H2 H3 H4; cbn zeta.
  { unfold total. cbn. mlia. }
  unfold event_nonneg in He. cbn [foldl]. rewrite !total_cons.
  assert (0 <= total event_calls es /\ 0 <= total event_revenue es /\
    0 <= total (event_outcome true) es /\ 0 <= total (event_outcome false) es) as (N1 & N2 & N3 & N4).
  { rewrite Forall_forall in Hes. repeat split; apply total_nonneg; intros x Hx;
      [destruct x; cbn; lia|by apply Hes|apply event_outcome_nonneg..]. }
  destruct (IH (record_event r e)) as (E1 & E2 & E3 & E4);
    [destruct e as [| | | |[]]; cbn in *; mlia..|].
  rewrite E1, E2, E3, E4.
  destruct e as [| | | |[]]; cbn in *; unfold sat_add, is_u64, U64_MAX in *; lia.
Qed.

(** The statistics of a tool are sums over its history. After any events, calls,
    revenue and outcomes are the counts of the events, saturating at [u64::MAX]; an
    access grant never counts as an outcome, revenue never as a call; and a verified
    success rate exists exactly when an outcome was observed. *)
Theorem reputation_is_history es :
  Forall event_nonneg es ->
  let r := foldl record_event new_reputation es in
  total_calls r = Z.min (total event_calls es) U64_MAX /\
  total_revenue r = Z.min (total event_revenue es) U64_MAX /\
  successful_calls r = Z.min (total (event_outcome true) es) U64_MAX /\
  failed_calls r = Z.min (total (event_outcome false) es) U64_MAX /\
  (verified_success_rate r = None <-> forall s, EvOutcome s ∉ es).
Proof.
  intros Hes. cbn zeta.
  pose proof (record_events_spec new_reputation es) as T. cbn zeta in T.
  destruct T as (E1 & E2 & E3 & E4); [by_compute..|exact Hes|].
  rewrite verified_success_rate_None, <- no_outcome_iff. unfold verified_calls.
  revert E1 E2 E3 E4. generalize (foldl record_event new_reputation es). intros r.
  change (total_calls new_reputation) with 0. change (total_revenue new_reputation) with 0.
  change (successful_calls new_reputation) with 0. change (failed_calls new_reputation) with 0.
  pose proof (total_nonneg (event_outcome true) es ltac:(intros; apply event_outcome_nonneg)).
  pose proof (total_nonneg (event_outcome false) es ltac:(intros; apply event_outcome_nonneg)).
  intros -> -> -> ->. mlia.
Qed.

Definition weights (p : ToolSearchPreferences) : list Z :=
  [w_reliability p; w_price p; w_quality p; w_popularity p; w_freshness p].

(** The ranking divides each weight by the sum of the weights modulo 256. Below 256
    that is their sum, and the five presets add to 100; but weights in the documented
    range 0 to 100 reach it: 52, 51, 51, 51 and 51 make the divisor 1, so each weight
    multiplies its term whole, and all weights at 100 divide by 244, not 500. *)
Theorem search_weights_wrap p :
  Forall is_u8 (weights p) ->
  weight_total p = Z.max (sumZ (weights p) mod 256) 1 /\
  (1 <= sumZ (weights p) <= U8_MAX -> weight_total p = sumZ (weights p)) /\
  ((fun q => weight_total q) <$>
     [default_preferences; cheapest; most_reliable; discover_new; most_popular])
    = [100; 100; 100; 100; 100] /\
  (weights p = [52; 51; 51; 51; 51] ->
     weight_total p = 1 /\ weight_share p (w_reliability p) = f64_of_Z 52) /\
  (weights p = [100; 100; 100; 100; 100] -> weight_total p = 244).
Proof.
  intros Hu.
  assert (weight_total p = Z.max (sumZ (weights p) mod 256) 1) as Ht.
  { unfold weight_total, weights, wrap8. cbn [sumZ foldr].
    repeat first [rewrite Z.add_mod_idemp_l by lia | rewrite <- Z.add_assoc]. by rewrite Z.add_0_r. }
  split; [done|]. split; [|split; [by vm_compute|split]].
  - intros Hs. rewrite Ht, Z.mod_small by mlia. lia.
  - intros Hw. assert (w_reliability p = 52) as Hr by (unfold weights in Hw; congruence).
    unfold weight_share. rewrite Ht, Hw, Hr. by vm_compute.
  - intros Hw. rewrite Ht, Hw. by vm_compute.
Qed.
End Tool.

(** ** Witnesses *)
Module ToolWitness.
Import Tool.

Definition alice : Address := pad_bytesN 20 [x0a].
Definition alias_tool : ToolEntry :=
  {| tool_id := hash_zero; owner := alice; name := lit "t"; description := [];
     endpoint := render (address_to_hex alice) (TRoute alice (lit "pay.v1") (lit "run"));
     price_per_call := 10; settlement_mode := MeteredUsage; sla_ms := default_tool_sla_ms;
     challenge_window_ms := default_tool_challenge_window_ms;
     max_result_metadata_bytes := default_tool_max_result_metadata_bytes;
     arbitration_policy := Protocol; capabilities := []; match_enabled := true;
     description_embedding := []; neural_embedding := []; active := true; deregistered_at := 0;
     version := lit "1"; registered_at_block := 1; reputation := new_reputation;
     storage_deposit := 0 |}.

Lemma contract_endpoint_roundtrip_witness :
  contract_endpoint_target (endpoint alias_tool) = Some (TRoute alice (lit "pay.v1") (lit "run")).
Proof.
  assert (target_ok (TRoute alice (lit "pay.v1") (lit "run"))) as Hok.
  { split; [|split; [discriminate|apply question_free; by vm_compute]].
    apply (Contract.route_name_iff (lit "pay.v1")). by vm_compute. }
  destruct (contract_endpoint_roundtrip (TRoute alice (lit "pay.v1") (lit "run")) [])
    as (_ & T & _). apply (T Hok).
Defined.

Lemma tool_routing_witness : subscription_payment_recipient alias_tool = None.
Proof.
  assert (validate_contract_endpoint (endpoint alias_tool) = Ok ()) as Hv by (by vm_compute).
  destruct (tool_routing alias_tool Hv) as (_ & _ & _ & T).
  assert (contract_endpoint_target (endpoint alias_tool) = Some (TRoute alice (lit "pay.v1") (lit "run")))
    as E by (by vm_compute).
  rewrite E in T. exact (proj1 T).
Defined.

Definition history0 : list tool_event :=
  [EvPaid 70; EvOutcome true; EvCovered; EvOutcome false; EvSubscription 30; EvSettled 5].

Lemma reputation_is_history_witness :
  total_calls (foldl record_event new_reputation history0) = 2 /\
  total_revenue (foldl record_event new_reputation history0) = 105.
Proof.
  assert (Forall event_nonneg history0) as Hes by (repeat constructor; by_compute).
  destruct (reputation_is_history history0 Hes) as (T1 & T2 & _).
  split; [exact T1|exact T2].
Defined.

Definition keen : ToolSearchPreferences :=
  default_preferences <| w_reliability := 52 |> <| w_price := 51 |> <| w_quality := 51 |>
    <| w_popularity := 51 |> <| w_freshness := 51 |>.

Lemma search_weights_wrap_witness : weight_total keen = 1.
Proof.
  assert (Forall is_u8 (weights keen)) as Hu by (repeat constructor; by_compute).
  destruct (search_weights_wrap keen Hu) as (_ & _ & _ & T & _).
  exact (proj1 (T eq_refl)).
Defined.
End ToolWitness.
