(* ===== verification/RpcDelegation.v ===== *)
(** * Read delegations

    Models [primitives/rpc_delegation.rs]: scope masks, grants with their expiry, the
    service identifier check, and the domain-separated delegation identifier. *)
From S2P Require Import Prelude Crypto Instances.

Module Delegation.

Definition RPC_READ_DELEGATION_VERSION : Z := 1.
Definition RPC_READ_DELEGATION_ID_DOMAIN : list byte := blit "zincha-rpc-read-delegation-id-v1".
Definition RPC_READ_DELEGATION_MIN_LIFETIME_MS : Z := 60 * 60 * 1000.
Definition RPC_READ_DELEGATION_DEFAULT_LIFETIME_MS : Z := 30 * 24 * 60 * 60 * 1000.
Definition RPC_READ_DELEGATION_MAX_LIFETIME_MS : Z := 90 * 24 * 60 * 60 * 1000.
Definition MAX_RPC_READ_DELEGATIONS_PER_DELEGATOR : Z := 32.
Definition MAX_RPC_READ_DELEGATION_SERVICE_ID_CHARS : Z := 256.

Definition RPC_READ_SCOPE_TASK_READ : Z := Z.shiftl 1 0.
Definition RPC_READ_SCOPE_TASK_LIFECYCLE_READ : Z := Z.shiftl 1 1.
Definition RPC_READ_SCOPE_AGREEMENT_READ : Z := Z.shiftl 1 2.
Definition RPC_READ_SCOPE_AGREEMENT_LIFECYCLE_READ : Z := Z.shiftl 1 3.
Definition RPC_READ_SCOPE_TOOL_JOB_READ : Z := Z.shiftl 1 4.
Definition RPC_READ_SCOPE_TOOL_JOB_LIFECYCLE_READ : Z := Z.shiftl 1 5.
Definition RPC_READ_SCOPE_TOOL_USAGE_SESSION_READ : Z := Z.shiftl 1 6.
Definition RPC_READ_SCOPE_TOOL_USAGE_SESSION_LIFECYCLE_READ : Z := Z.shiftl 1 7.
Definition RPC_READ_SCOPE_ALL : Z := Z.shiftl 1 8 - 1.

Inductive RpcReadScope : Type :=
| TaskRead | TaskLifecycleRead | AgreementRead | AgreementLifecycleRead
| ToolJobRead | ToolJobLifecycleRead | ToolUsageSessionRead | ToolUsageSessionLifecycleRead.
#[global] Instance RpcReadScope_eq_dec : EqDecision RpcReadScope.
Proof. solve_decision. Defined.

(** The discriminant, [self as u8]. *)
Definition scope_index (s : RpcReadScope) : Z :=
  match s with
  | TaskRead => 0 | TaskLifecycleRead => 1 | AgreementRead => 2 | AgreementLifecycleRead => 3
  | ToolJobRead => 4 | ToolJobLifecycleRead => 5 | ToolUsageSessionRead => 6
  | ToolUsageSessionLifecycleRead => 7
  end.
Definition ALL : list RpcReadScope :=
  [TaskRead; TaskLifecycleRead; AgreementRead; AgreementLifecycleRead; ToolJobRead;
   ToolJobLifecycleRead; ToolUsageSessionRead; ToolUsageSessionLifecycleRead].
Definition mask (s : RpcReadScope) : Z := Z.shiftl 1 (scope_index s).
Definition rpc_read_scope_mask (scopes : list RpcReadScope) : Z :=
  foldl (fun m s => Z.lor m (mask s)) 0 scopes.

Record RpcReadDelegationGrantData : Type := {
  g_delegate_public_key : bytesN 32;
  g_service_id : rstr;
  g_scope_mask : Z;
  g_expires_at_ms : Z;
}.
Record RpcReadDelegationRevokeData : Type := { v_delegation_id : Hash256 }.
Record RpcReadDelegation : Type := {
  version : Z;
  delegation_id : Hash256;
  delegator : Address;
  delegate : Address;
  delegate_public_key : bytesN 32;
  service_id : rstr;
  service_id_hash : Hash256;
  scope_mask : Z;
  created_at_block : Z;
  updated_at_block : Z;
  expires_at_ms : Z;
  storage_deposit : Z;
}.

Definition grants (d : RpcReadDelegation) (required_scope now_ms : Z) : bool :=
  (now_ms <? expires_at_ms d) && (Z.land (scope_mask d) required_scope =? required_scope).

Definition validate_rpc_read_delegation_service_id (service_id : rstr) : result message unit :=
  if bool_decide (service_id = []) || negb (bool_decide (trim service_id = service_id)) then
    Err (msg "delegation service_id must be non-empty and must not have surrounding whitespace")
  else if MAX_RPC_READ_DELEGATION_SERVICE_ID_CHARS <? Z.of_nat (length service_id) then
    Err (Msg "delegation service_id exceeds {} Unicode scalar values"
           [AInt MAX_RPC_READ_DELEGATION_SERVICE_ID_CHARS])
  else if existsb is_control service_id then
    Err (msg "delegation service_id must not contain control characters")
  else Ok ().

(** [len as u32] keeps the low 32 bits. *)
Definition delegation_id_preimage (delegator : Address) (delegate_public_key : bytesN 32)
    (service_id : rstr) : list byte :=
  let service_id_bytes := utf8 service_id in
  RPC_READ_DELEGATION_ID_DOMAIN ++ bn delegator ++ bn delegate_public_key
  ++ be_bytes 4 (wrap32 (Z.of_nat (length service_id_bytes))) ++ service_id_bytes.

Section Ids.
Context `{Digests}.

Definition rpc_read_delegation_id (delegator : Address) (delegate_public_key : bytesN 32)
    (service_id : rstr) : Hash256 :=
  hash_bytes (delegation_id_preimage delegator delegate_public_key service_id).

(** The error carries the display text of the decoding error, a parameter here. *)
Definition rpc_read_delegate_address `{Ed25519} (show : ZinchaError -> rstr)
    (public_key : bytesN 32) : result message Address :=
  map_err (fun e => Msg "invalid delegation public key: {}" [AStr (show e)])
    (key ← pk_from_bytes public_key; Ok (pk_to_address key)).

Definition rpc_read_service_id_hash (service_id : rstr) : Hash256 :=
  hash_bytes (utf8 service_id).
End Ids.

(** ** Scope masks are sets of scopes *)

Lemma mask_testbit s i : 0 <= i -> Z.testbit (mask s) i = bool_decide (scope_index s = i).
Proof.
  intros Hi. unfold mask. rewrite Z.shiftl_1_l, Z.pow2_bits_eqb by (destruct s; cbn; lia).
  destruct (Z.eqb_spec (scope_index s) i); by case_bool_decide.
Qed.

Lemma scope_mask_testbit scopes m i :
  0 <= i ->
  Z.testbit (foldl (fun m s => Z.lor m (mask s)) m scopes) i
  = Z.testbit m i || existsb (fun s => bool_decide (scope_index s = i)) scopes.
Proof.
  intros Hi. revert m. induction scopes as [|s l IH]; intros m; cbn; [by rewrite orb_false_r|].
  by rewrite IH, Z.lor_spec, mask_testbit, orb_assoc.
Qed.

Lemma scope_index_inj s t : scope_index s = scope_index t -> s = t.
Proof. by destruct s, t. Qed.

Lemma scope_bit scopes s :
  Z.testbit (rpc_read_scope_mask scopes) (scope_index s) = bool_decide (s ∈ scopes).
Proof.
  unfold rpc_read_scope_mask. rewrite scope_mask_testbit by (destruct s; cbn; lia).
  rewrite Z.bits_0. cbn. apply eq_true_iff_eq.
  rewrite bool_decide_eq_true, existsb_exists. split.
  - intros (t & Hin & ->%bool_decide_eq_true%scope_index_inj). by apply list_elem_of_In.
  - intros Hin. exists s. split; [by apply list_elem_of_In|by apply bool_decide_eq_true].
Qed.

(** Masking keeps the required bits exactly when they are all there. *)
Lemma land_covers a b : 0 <= b ->
  Z.land a b = b <-> forall i, 0 <= i -> Z.testbit b i = true -> Z.testbit a i = true.
Proof.
  intros Hb. split.
  - intros E i Hi Ht. rewrite <- E, Z.land_spec in Ht. by apply andb_true_iff in Ht as [? _].
  - intros Hs. apply Z.bits_inj'. intros i Hi. rewrite Z.land_spec.
    destruct (Z.testbit b i) eqn:Et; [by rewrite (Hs i Hi Et)|by rewrite andb_false_r].
Qed.

Lemma scope_mask_nonneg scopes : 0 <= rpc_read_scope_mask scopes.
Proof.
  unfold rpc_read_scope_mask. assert (forall l m, 0 <= m -> 0 <= foldl (fun m s => Z.lor m (mask s)) m l) as Hg.
  { induction l as [|s l IH]; intros m Hm; cbn; [done|]. apply IH. apply Z.lor_nonneg.
    split; [done|]. unfold mask. by apply Z.shiftl_nonneg. }
  by apply Hg.
Qed.

Lemma scope_mask_bits scopes i :
  0 <= i -> Z.testbit (rpc_read_scope_mask scopes) i = true <->
  exists s, s ∈ scopes /\ scope_index s = i.
Proof.
  intros Hi. unfold rpc_read_scope_mask. rewrite scope_mask_testbit, Z.bits_0 by done.
  cbn [orb]. rewrite existsb_exists. split; intros (s & Hs & E); exists s.
  - apply bool_decide_eq_true in E. by rewrite list_elem_of_In.
  - rewrite <- list_elem_of_In. by rewrite bool_decide_eq_true.
Qed.

(** A delegation grants what it lists until it expires. A delegation whose mask was
    built from [held] grants the mask built from [wanted] exactly when it has not expired
    and every wanted scope is held, whatever the order and repetition of the lists; the
    full mask is the union of all scopes and fits in eight bits, and a bit outside the
    scopes is never granted. *)
Theorem grants_scopes d held wanted now :
  scope_mask d = rpc_read_scope_mask held ->
  (grants d (rpc_read_scope_mask wanted) now = true <->
     now < expires_at_ms d /\ forall s, s ∈ wanted -> s ∈ held) /\
  rpc_read_scope_mask ALL = RPC_READ_SCOPE_ALL /\
  Z.land (rpc_read_scope_mask held) RPC_READ_SCOPE_ALL = rpc_read_scope_mask held /\
  (forall m i, 8 <= i -> Z.testbit m i = true -> 0 <= m -> grants d m now = false).
Proof.
  intros Hm.
  assert (forall l i, 0 <= i -> Z.testbit (rpc_read_scope_mask l) i = true -> i < 8) as Hlt.
  { intros l i Hi (s & _ & <-)%scope_mask_bits; [|done]. destruct s; cbn; lia. }
  split; [|split; [by vm_compute|split]].
  - unfold grants. rewrite andb_true_iff, Z.ltb_lt, Z.eqb_eq, Hm.
    rewrite land_covers by apply scope_mask_nonneg. split; intros [He Hs]; (split; [done|]).
    + intros s Hw. specialize (Hs (scope_index s) ltac:(destruct s; cbn; lia)).
      rewrite !scope_bit, !bool_decide_eq_true in Hs. by apply Hs.
    + intros i Hi (s & Hw & <-)%scope_mask_bits; [|done].
      rewrite scope_bit, bool_decide_eq_true. by apply Hs.
  - rewrite Z.land_comm. apply land_covers; [apply scope_mask_nonneg|].
    intros i Hi Ht. apply Hlt in Ht; [|done].
    change RPC_READ_SCOPE_ALL with (Z.ones 8). apply Z.ones_spec_low. lia.
  - intros m i Hi Ht Hnn. unfold grants. apply andb_false_iff. right. apply Z.eqb_neq.
    rewrite Hm, land_covers by done. intros Hc. specialize (Hc i ltac:(lia) Ht).
    apply Hlt in Hc; lia.
Qed.

(** ** Identifiers *)

Lemma service_id_ok_iff s :
  validate_rpc_read_delegation_service_id s = Ok () <->
  s <> [] /\ trim s = s /\ Z.of_nat (length s) <= MAX_RPC_READ_DELEGATION_SERVICE_ID_CHARS /\
  Forall (fun c => is_control c = false) s.
Proof.
  unfold validate_rpc_read_delegation_service_id.
  assert (existsb is_control s = false <-> Forall (fun c => is_control c = false) s) as Hc.
  { induction s as [|c s IH]; cbn; [by repeat constructor|].
    by rewrite orb_false_iff, Forall_cons, IH. }
  split.
  - intros Hv. inv_ok. to_prop. repeat split; auto. by apply Hc.
  - intros (H1 & H2 & H3 & H4).
    rewrite (bool_decide_eq_false_2 _ H1), (bool_decide_eq_true_2 _ H2). cbn.
    rewrite (proj2 (Z.ltb_ge _ _) H3). by rewrite (proj2 Hc H4).
Qed.

(** Delegation identifiers. For two accepted service identifiers, the byte strings
    hashed determine the delegator, the key and the identifier, so when the digest does
    not collide on them, equal delegation ids mean the same delegator, key and service;
    an accepted identifier has at most 1024 bytes, so its 32-bit length prefix is exact. *)
Theorem delegation_id_binds `{Digests} d1 d2 k1 k2 s1 s2 :
  validate_rpc_read_delegation_service_id s1 = Ok () ->
  validate_rpc_read_delegation_service_id s2 = Ok () ->
  Forall is_scalar s1 -> Forall is_scalar s2 ->
  collision_free [delegation_id_preimage d1 k1 s1; delegation_id_preimage d2 k2 s2] ->
  rpc_read_delegation_id d1 k1 s1 = rpc_read_delegation_id d2 k2 s2 ->
  d1 = d2 /\ k1 = k2 /\ s1 = s2 /\ str_len s1 <= 1024.
Proof.
  intros (_ & _ & L1 & _)%service_id_ok_iff (_ & _ & L2 & _)%service_id_ok_iff S1 S2 Hc E.
  pose proof (utf8_length s1). pose proof (utf8_length s2).
  unfold MAX_RPC_READ_DELEGATION_SERVICE_ID_CHARS in *.
  apply Hc in E; [|set_solver..]. unfold delegation_id_preimage in E.
  apply app_inv_head in E.
  apply app_inj_1 in E as [Ed E]; [|by rewrite !bn_length].
  apply app_inj_1 in E as [Ek E]; [|by rewrite !bn_length].
  apply app_inj_1 in E as [_ E]; [|by rewrite !be_bytes_length].
  split; [by apply bytesN_eq|]. split; [by apply bytesN_eq|].
  split; [by apply utf8_inj|]. unfold str_len. lia.
Qed.
End Delegation.

(** ** Witnesses *)
Module DelegationWitness.
Import Delegation.

Definition reader : Address := pad_bytesN 20 [x11].
Definition key0 : bytesN 32 := pad_bytesN 32 [x22].
Definition delegation0 : RpcReadDelegation :=
  {| version := RPC_READ_DELEGATION_VERSION; delegation_id := hash_zero; delegator := reader;
     delegate := reader; delegate_public_key := key0; service_id := lit "provider/conversations";
     service_id_hash := hash_zero; scope_mask := rpc_read_scope_mask [AgreementRead; TaskRead];
     created_at_block := 1; updated_at_block := 1; expires_at_ms := 500; storage_deposit := 0 |}.

Lemma grants_scopes_witness :
  grants delegation0 (rpc_read_scope_mask [TaskRead; TaskRead]) 499 = true /\
  grants delegation0 256 499 = false.
Proof.
  destruct (grants_scopes delegation0 [AgreementRead; TaskRead] [TaskRead; TaskRead] 499 eq_refl)
    as (T & _ & _ & T').
  split.
  - apply T. split; [reflexivity|]. intros s Hs. set_solver.
  - apply (T' 256 8); [lia|reflexivity|lia].
Defined.

Lemma delegation_id_binds_witness :
  str_len (lit "provider/conversations") <= 1024.
Proof.
  destruct (delegation_id_binds reader reader key0 key0 (lit "provider/conversations")
    (lit "provider/conversations")) as (_ & _ & _ & T).
  - by vm_compute.
  - by vm_compute.
  - repeat constructor; by_compute.
  - repeat constructor; by_compute.
  - apply collision_freeb_ok. by vm_compute.
  - reflexivity.
  - exact T.
Defined.
End DelegationWitness.
