(* ===== verification/Entity.v ===== *)
(** * Entity links

    Models [primitives/entity.rs]: a sender links its address to an entity root, and the
    root co-signs a message that names the chain and both addresses. *)
From S2P Require Import Prelude Crypto Instances.

Module Entity.

Record EntityLinkData : Type := {
  entity : Address;
  authorizer_public_key : option PublicKey;
  authorizer_signature : option Signature;
}.
Record EntityLinkRecord : Type := { er_entity : Address; er_storage_deposit : Z }.
Definition new_link_record (entity : Address) (storage_deposit : Z) : EntityLinkRecord :=
  {| er_entity := entity; er_storage_deposit := storage_deposit |}.

(** The text hashed by [entity_link_message]. *)
Definition link_text `{Hex} (chain_id : rstr) (linked entity : Address) : rstr :=
  lit "zincha:entity_link:" ++ chain_id ++ lit ":" ++ address_to_hex linked ++ lit ":"
  ++ address_to_hex entity.
Definition entity_link_message `{Digests, Hex} (chain_id : rstr) (linked entity : Address)
    : bytesN 32 := hash_bytes (utf8 (link_text chain_id linked entity)).

Definition verify_link `{Digests, Hex, Ed25519} (d : EntityLinkData) (sender : Address)
    (chain_id : rstr) : result ZinchaError unit :=
  if bool_decide (entity d = sender) then
    Err (InvalidTransaction (msg "EntityLink target must differ from sender"))
  else
    pk ← ok_or (authorizer_public_key d)
      (InvalidTransaction (msg "EntityLink requires authorizer_public_key"));
    sig ← ok_or (authorizer_signature d)
      (InvalidTransaction (msg "EntityLink requires authorizer_signature"));
    if negb (bool_decide (pk_to_address pk = entity d)) then
      Err (InvalidTransaction (msg "EntityLink authorizer must match entity root"))
    else
      let message := entity_link_message chain_id sender (entity d) in
      pk_verify pk (bn message) sig.

(** ** Properties *)
Section Proofs.
Context `{Digests, HexLaws, Ed25519Laws}.

Lemma link_text_scalar chain linked root :
  Forall is_scalar chain -> Forall is_scalar (link_text chain linked root).
Proof.
  intros Hc. unfold link_text. rewrite !Forall_app.
  repeat split; auto using lit_scalar, address_to_hex_scalar.
Qed.

(** The chain identifier may hold any character: the fields after it have fixed length. *)
Lemma link_text_inj c1 c2 l1 l2 e1 e2 :
  link_text c1 l1 e1 = link_text c2 l2 e2 -> c1 = c2 /\ l1 = l2 /\ e1 = e2.
Proof.
  unfold link_text. intros E%app_inv_head.
  assert (forall (l e : Address), length (lit ":" ++ address_to_hex l ++ lit ":" ++ address_to_hex e)
    = 88%nat) as Hlen.
  { intros l e. rewrite !length_app, !address_to_hex_length. done. }
  apply app_inj_2 in E as [-> E]; [|by rewrite !Hlen].
  apply app_inv_head in E. apply app_inj_1 in E as [E1 E]; [|by rewrite !address_to_hex_length].
  apply app_inv_head in E. split; [done|]. split; by apply address_to_hex_inj.
Qed.

(** An entity link is accepted exactly when it names another address as root and is
    signed by a key of that root over the message for this chain and sender. The root's
    own signature is accepted; and when the digest does not collide on the two texts, the
    message signed for one chain, sender and root is not that of another, so a signature
    authorises one link on one chain. *)
Theorem entity_link_authorisation d sender chain :
  (verify_link d sender chain = Ok () <->
    entity d <> sender /\ exists pk sig, authorizer_public_key d = Some pk /\
      authorizer_signature d = Some sig /\ pk_to_address pk = entity d /\
      pk_verify pk (bn (entity_link_message chain sender (entity d))) sig = Ok ()) /\
  (forall k, keypair_address k <> sender ->
    verify_link {| entity := keypair_address k;
                   authorizer_public_key := Some (keypair_public_key k);
                   authorizer_signature := Some (keypair_sign k
                     (bn (entity_link_message chain sender (keypair_address k)))) |}
      sender chain = Ok ()) /\
  (forall chain' sender' root', Forall is_scalar chain -> Forall is_scalar chain' ->
    collision_free [utf8 (link_text chain sender (entity d));
                    utf8 (link_text chain' sender' root')] ->
    entity_link_message chain sender (entity d) = entity_link_message chain' sender' root' ->
    chain = chain' /\ sender = sender' /\ entity d = root').
Proof.
  split; [|split].
  - unfold verify_link. case_bool_decide as Ee; [split; [done|by intros [? _]]|].
    split.
    + intros Hv. split; [done|]. destruct (authorizer_public_key d) as [pk|]; [|done].
      destruct (authorizer_signature d) as [sig|]; [|done]. cbn [ok_or mbind result_bind] in Hv.
      destruct (bool_decide (pk_to_address pk = entity d)) eqn:Ea; [|done]. to_prop.
      by exists pk, sig.
    + intros (_ & pk & sig & -> & -> & Ea & Hv). cbn [ok_or mbind result_bind].
      by rewrite bool_decide_eq_true_2.
  - intros k Hk. unfold verify_link. cbn [entity authorizer_public_key authorizer_signature].
    rewrite bool_decide_eq_false_2 by done. cbn [ok_or mbind result_bind].
    rewrite bool_decide_eq_true_2 by done. apply keypair_sign_verify.
  - intros c' s' r' Hs Hs' Hc E. apply Hc in E; [|set_solver..].
    apply utf8_inj in E; [|by apply link_text_scalar..]. by apply link_text_inj in E.
Qed.
End Proofs.
End Entity.

(** ** Witnesses *)
Module EntityWitness.
Import Entity.

Definition root_key : Keypair := pad_bytesN 32 [x31].
Definition member : Address := pad_bytesN 20 [x32].
Definition link0 : EntityLinkData :=
  {| entity := keypair_address root_key;
     authorizer_public_key := Some (keypair_public_key root_key);
     authorizer_signature := Some (keypair_sign root_key
       (bn (entity_link_message (lit "zincha-main") member (keypair_address root_key)))) |}.

Lemma entity_link_authorisation_witness : verify_link link0 member (lit "zincha-main") = Ok ().
Proof.
  destruct (entity_link_authorisation link0 member (lit "zincha-main")) as (_ & T & _).
  apply (T root_key). apply (bool_decide_unpack _). by vm_compute.
Defined.
End EntityWitness.
