(* ===== verification/Validator.v ===== *)
(** * Validators and epoch randomness

    Models [primitives/validator.rs]: executor service claims, signed VRF evidence, and the
    commit/reveal life of one contribution. *)
From S2P Require Import Prelude Crypto Instances.

Module Validator.

Definition MAX_VALIDATOR_EXECUTOR_SERVICES : Z := 32.
Definition MAX_VALIDATOR_EXECUTOR_ENDPOINT_BYTES : Z := 256.
Definition MAX_VALIDATOR_VRF_OUTPUT_BYTES : Z := 128.
Definition MAX_VALIDATOR_VRF_PROOF_BYTES : Z := 512.
Definition VALIDATOR_VRF_PROOF_DOMAIN : list byte := blit "zincha_validator_vrf_contribution_v2".
Definition VALIDATOR_VRF_OUTPUT_DOMAIN : list byte := blit "zincha_validator_vrf_output_v2".
Definition VALIDATOR_VRF_COMMITMENT_DOMAIN : list byte := blit "zincha_validator_vrf_commitment_v1".
Definition VALIDATOR_VRF_EVIDENCE_DOMAIN : list byte := blit "zincha_validator_vrf_evidence_v1".

Record ValidatorExecutorService : Type := {
  partition_id : Z;
  rpc_endpoint : rstr;
  executor_public_key : PublicKey;
}.
Record ValidatorUpdateData : Type := {
  executor_services : list ValidatorExecutorService;
  vrf_public_key : option PublicKey;
}.
Record ValidatorVrfCommitData : Type := { cm_target_epoch : Z; cm_commitment : Hash256 }.
Record ValidatorVrfContributionData : Type := {
  ct_target_epoch : Z;
  ct_vrf_output : list byte;
  ct_vrf_proof : list byte;
}.
Record ValidatorVrfContributionKey : Type := { ck_target_epoch : Z; ck_validator : Address }.
Definition new_contribution_key (target_epoch : Z) (validator : Address)
    : ValidatorVrfContributionKey :=
  {| ck_target_epoch := target_epoch; ck_validator := validator |}.
Record ValidatorVrfContributionRecord : Type := {
  validator : Address;
  target_epoch : Z;
  commitment : Hash256;
  submitted_in_block : Z;
  revealed_in_block : option Z;
  vrf_output : list byte;
  vrf_proof : list byte;
}.
#[global] Instance eta_ContributionRecord : Eta ValidatorVrfContributionRecord := fun r =>
  {| validator := validator r; target_epoch := target_epoch r; commitment := commitment r;
     submitted_in_block := submitted_in_block r; revealed_in_block := revealed_in_block r;
     vrf_output := vrf_output r; vrf_proof := vrf_proof r |}.

Inductive ValidatorVrfEvidenceKind : Type := Commit | Contribution.
Definition rank (k : ValidatorVrfEvidenceKind) : Z :=
  match k with Commit => 0 | Contribution => 1 end.

Inductive SignedValidatorVrfEvidence : Type :=
| ECommit (e_validator : Address) (e_target_epoch : Z) (e_commitment : Hash256)
    (e_public_key : PublicKey) (e_signature : Signature)
| EContribution (e_validator : Address) (e_target_epoch : Z) (e_output e_proof : list byte)
    (e_public_key : PublicKey) (e_signature : Signature).

Record ValidatorVrfEvidenceKey : Type := {
  ek_target_epoch : Z;
  ek_kind : ValidatorVrfEvidenceKind;
  ek_validator : Address;
}.

Definition u32_len (l : list byte) : list byte := le_bytes 4 (wrap32 (Z.of_nat (length l))).
Definition u64_len (l : list byte) : list byte := le_bytes 8 (Z.of_nat (length l)).

Definition commit_signable_bytes (v : Address) (epoch : Z) (c : Hash256) (pk : PublicKey)
    : list byte :=
  VALIDATOR_VRF_EVIDENCE_DOMAIN ++ [byte_of (rank Commit)] ++ le_bytes 8 epoch ++ bn v ++ bn c
  ++ bn pk.
Definition contribution_signable_bytes (v : Address) (epoch : Z) (output proof : list byte)
    (pk : PublicKey) : list byte :=
  VALIDATOR_VRF_EVIDENCE_DOMAIN ++ [byte_of (rank Contribution)] ++ le_bytes 8 epoch ++ bn v
  ++ u32_len output ++ output ++ u32_len proof ++ proof ++ bn pk.

Definition evidence_validator (e : SignedValidatorVrfEvidence) : Address :=
  match e with ECommit v _ _ _ _ | EContribution v _ _ _ _ _ => v end.
Definition evidence_target_epoch (e : SignedValidatorVrfEvidence) : Z :=
  match e with ECommit _ n _ _ _ | EContribution _ n _ _ _ _ => n end.
Definition evidence_kind (e : SignedValidatorVrfEvidence) : ValidatorVrfEvidenceKind :=
  match e with ECommit _ _ _ _ _ => Commit | EContribution _ _ _ _ _ _ => Contribution end.
Definition pool_key (e : SignedValidatorVrfEvidence) : ValidatorVrfEvidenceKey :=
  {| ek_target_epoch := evidence_target_epoch e; ek_kind := evidence_kind e;
     ek_validator := evidence_validator e |}.
Definition commit_payload (e : SignedValidatorVrfEvidence) : option ValidatorVrfCommitData :=
  match e with
  | ECommit _ n c _ _ => Some {| cm_target_epoch := n; cm_commitment := c |}
  | _ => None
  end.
Definition contribution_payload (e : SignedValidatorVrfEvidence)
    : option ValidatorVrfContributionData :=
  match e with
  | EContribution _ n o p _ _ =>
      Some {| ct_target_epoch := n; ct_vrf_output := o; ct_vrf_proof := p |}
  | _ => None
  end.

(** ** Executor service claims *)
Fixpoint check_services (num_partitions : Z) (seen : gset Z)
    (services : list ValidatorExecutorService) : result ZinchaError unit :=
  match services with
  | [] => Ok ()
  | service :: rest =>
      if num_partitions <=? partition_id service then
        Err (InvalidTransaction (Msg
          "Validator executor partition {} out of range for {} partitions"
          [AInt (partition_id service); AInt num_partitions]))
      else if bool_decide (rpc_endpoint service = []) then
        Err (InvalidTransaction (msg "Validator executor endpoint cannot be empty"))
      else if MAX_VALIDATOR_EXECUTOR_ENDPOINT_BYTES <? str_len (rpc_endpoint service) then
        Err (InvalidTransaction (Msg "Validator executor endpoint too long: {} > {}"
          [AInt (str_len (rpc_endpoint service)); AInt MAX_VALIDATOR_EXECUTOR_ENDPOINT_BYTES]))
      else if bool_decide (partition_id service ∈ seen) then
        Err (InvalidTransaction (Msg "Duplicate validator executor partition claim {}"
          [AInt (partition_id service)]))
      else check_services num_partitions ({[ partition_id service ]} ∪ seen) rest
  end.
Definition validate_update (d : ValidatorUpdateData) (num_partitions : Z)
    : result ZinchaError unit :=
  let n := Z.of_nat (length (executor_services d)) in
  if MAX_VALIDATOR_EXECUTOR_SERVICES <? n then
    Err (InvalidTransaction (Msg "Too many validator executor services: {} > {}"
      [AInt n; AInt MAX_VALIDATOR_EXECUTOR_SERVICES]))
  else check_services num_partitions ∅ (executor_services d).

(** ** Contributions *)
Definition validate_commit (d : ValidatorVrfCommitData) : result ZinchaError unit :=
  if bool_decide (cm_commitment d = hash_zero) then
    Err (InvalidTransaction (msg "Validator VRF commitment cannot be zero"))
  else Ok ().

Definition validate_contribution (d : ValidatorVrfContributionData) : result ZinchaError unit :=
  let output_len := Z.of_nat (length (ct_vrf_output d)) in
  let proof_len := Z.of_nat (length (ct_vrf_proof d)) in
  if bool_decide (ct_vrf_output d = []) then
    Err (InvalidTransaction (msg "Validator VRF output cannot be empty"))
  else if MAX_VALIDATOR_VRF_OUTPUT_BYTES <? output_len then
    Err (InvalidTransaction (Msg "Validator VRF output too long: {} > {}"
      [AInt output_len; AInt MAX_VALIDATOR_VRF_OUTPUT_BYTES]))
  else if bool_decide (ct_vrf_proof d = []) then
    Err (InvalidTransaction (msg "Validator VRF proof cannot be empty"))
  else if MAX_VALIDATOR_VRF_PROOF_BYTES <? proof_len then
    Err (InvalidTransaction (Msg "Validator VRF proof too long: {} > {}"
      [AInt proof_len; AInt MAX_VALIDATOR_VRF_PROOF_BYTES]))
  else Ok ().

Definition proof_signable_bytes (chain_id : rstr) (v : Address) (epoch : Z)
    (prior_seed : Hash256) : list byte :=
  VALIDATOR_VRF_PROOF_DOMAIN ++ utf8 chain_id ++ bn v ++ le_bytes 8 epoch ++ bn prior_seed.

Definition commitment_preimage (d : ValidatorVrfContributionData) : list byte :=
  VALIDATOR_VRF_COMMITMENT_DOMAIN ++ u64_len (ct_vrf_output d) ++ ct_vrf_output d
  ++ u64_len (ct_vrf_proof d) ++ ct_vrf_proof d.

Section Ops.
Context `{Digests, Ed25519}.

Definition validator_vrf_public_key_matches_address (v : Address) (pk : PublicKey) : bool :=
  bool_decide (pk_to_address pk = v).

Definition new_commit (k : Keypair) (epoch : Z) (c : Hash256) : SignedValidatorVrfEvidence :=
  let v := keypair_address k in
  let pk := keypair_public_key k in
  ECommit v epoch c pk (keypair_sign k (commit_signable_bytes v epoch c pk)).
Definition new_contribution (k : Keypair) (epoch : Z) (output proof : list byte)
    : SignedValidatorVrfEvidence :=
  let v := keypair_address k in
  let pk := keypair_public_key k in
  EContribution v epoch output proof pk
    (keypair_sign k (contribution_signable_bytes v epoch output proof pk)).

(** [hash]: [None] when the value does not serialise, where the code panics. *)
Definition evidence_hash `{Bincode SignedValidatorVrfEvidence} (e : SignedValidatorVrfEvidence)
    : may_panic Hash256 :=
  encoded ← ok (bincode_serialize e); Some (hash_bytes (VALIDATOR_VRF_EVIDENCE_DOMAIN ++ encoded)).

Definition verify_signature (e : SignedValidatorVrfEvidence) : result ZinchaError unit :=
  match e with
  | ECommit v epoch c pk s =>
      if negb (bool_decide (pk_to_address pk = v)) then
        Err (InvalidSignature (msg "validator VRF commit signer does not match validator"))
      else pk_verify pk (commit_signable_bytes v epoch c pk) s
  | EContribution v epoch output proof pk s =>
      if negb (bool_decide (pk_to_address pk = v)) then
        Err (InvalidSignature (msg "validator VRF contribution signer does not match validator"))
      else pk_verify pk (contribution_signable_bytes v epoch output proof pk) s
  end.

Definition commitment_hash (d : ValidatorVrfContributionData) : result ZinchaError Hash256 :=
  _ ← validate_contribution d; Ok (hash_bytes (commitment_preimage d)).

Definition proof_signature (proof : list byte) : result ZinchaError Signature :=
  match mk_bytesN 64 proof with
  | Some p => sig_from_bytes p
  | None => Err (InvalidTransaction (Msg "Validator VRF proof must be 64 bytes, got {}"
      [AInt (Z.of_nat (length proof))]))
  end.

Definition output_preimage (pk : PublicKey) (chain_id : rstr) (v : Address) (epoch : Z)
    (prior_seed : Hash256) (proof : Signature) : list byte :=
  VALIDATOR_VRF_OUTPUT_DOMAIN ++ bn pk ++ utf8 chain_id ++ bn v ++ le_bytes 8 epoch
  ++ bn prior_seed ++ bn proof.
Definition expected_output_from_proof (pk : PublicKey) (chain_id : rstr) (v : Address)
    (epoch : Z) (prior_seed : Hash256) (proof : list byte) : result ZinchaError (list byte) :=
  p ← proof_signature proof;
  Ok (bn (hash_bytes (output_preimage pk chain_id v epoch prior_seed p))).

Definition verify_for_validator (d : ValidatorVrfContributionData) (chain_id : rstr)
    (v : Address) (pk : PublicKey) (prior_seed : Hash256) : result ZinchaError unit :=
  _ ← validate_contribution d;
  proof ← proof_signature (ct_vrf_proof d);
  _ ← pk_verify pk (proof_signable_bytes chain_id v (ct_target_epoch d) prior_seed) proof;
  expected ← expected_output_from_proof pk chain_id v (ct_target_epoch d) prior_seed
    (ct_vrf_proof d);
  if negb (bool_decide (ct_vrf_output d = expected)) then
    Err (InvalidTransaction (msg "Validator VRF output does not match the submitted proof"))
  else Ok ().

Definition into_record (d : ValidatorVrfContributionData) (v : Address) (c : Hash256)
    (block : Z) : ValidatorVrfContributionRecord :=
  {| validator := v; target_epoch := ct_target_epoch d; commitment := c;
     submitted_in_block := block; revealed_in_block := Some block;
     vrf_output := ct_vrf_output d; vrf_proof := ct_vrf_proof d |}.
Definition committed_only (v : Address) (epoch : Z) (c : Hash256) (block : Z)
    : ValidatorVrfContributionRecord :=
  {| validator := v; target_epoch := epoch; commitment := c; submitted_in_block := block;
     revealed_in_block := None; vrf_output := []; vrf_proof := [] |}.
Definition is_revealed (r : ValidatorVrfContributionRecord) : bool :=
  bool_decide (is_Some (revealed_in_block r)).

(** [reveal] takes [&mut self]: the record after the call, and the result. *)
Definition reveal (r : ValidatorVrfContributionRecord) (d : ValidatorVrfContributionData)
    (block : Z) : ValidatorVrfContributionRecord * result ZinchaError unit :=
  match commitment_hash d with
  | Err e => (r, Err e)
  | Ok c =>
      if negb (bool_decide (c = commitment r)) then
        (r, Err (InvalidTransaction
          (msg "Validator VRF reveal does not match the committed hash")))
      else
        (r <| revealed_in_block := Some block |> <| vrf_output := ct_vrf_output d |>
           <| vrf_proof := ct_vrf_proof d |>, Ok ())
  end.
End Ops.

(** ** Service claims *)
Definition service_ok (num_partitions : Z) (s : ValidatorExecutorService) : Prop :=
  partition_id s < num_partitions /\ rpc_endpoint s <> [] /\
  str_len (rpc_endpoint s) <= MAX_VALIDATOR_EXECUTOR_ENDPOINT_BYTES.

Lemma check_services_iff n seen l :
  check_services n seen l = Ok () <->
  Forall (service_ok n) l /\ NoDup (partition_id <$> l) /\
  Forall (fun s => partition_id s ∉ seen) l.
Proof.
  revert seen. induction l as [|s l IH]; intros seen; cbn.
  { split; [|done]. intros _. by repeat constructor. }
  unfold service_ok in *. rewrite !Forall_cons, NoDup_cons, list_elem_of_fmap.
  destruct (Z.leb_spec n (partition_id s)); [split; [done|]; intros ([? _] & _); lia|].
  case_bool_decide as He; [split; [done|]; by intros ([(_ & ? & _) _] & _)|].
  destruct (Z.ltb_spec MAX_VALIDATOR_EXECUTOR_ENDPOINT_BYTES (str_len (rpc_endpoint s)));
    [split; [done|]; intros ([(_ & _ & ?) _] & _); lia|].
  case_bool_decide as Hs; [split; [done|]; by intros (_ & _ & ? & _)|].
  rewrite IH. split.
  - intros (Hok & Hnd & Hf). split; [done|]. rewrite Forall_forall in Hf.
    split; [split; [|done]|].
    + intros (t & E & Ht). specialize (Hf t Ht). set_solver.
    + split; [done|]. apply Forall_forall. intros t Ht. specialize (Hf t Ht). set_solver.
  - intros ([_ Hok] & [Hn Hnd] & _ & Hf). split; [done|]. split; [done|].
    apply Forall_forall. rewrite Forall_forall in Hf. intros t Ht.
    rewrite not_elem_of_union, not_elem_of_singleton. split; [|by apply Hf].
    intros E. apply Hn. by exists t.
Qed.

(** A validator update is accepted exactly when it claims at most 32 services, each
    in range with an endpoint of 1 to 256 bytes, and no partition twice. *)
Theorem validator_update_spec d n :
  validate_update d n = Ok () <->
  Z.of_nat (length (executor_services d)) <= MAX_VALIDATOR_EXECUTOR_SERVICES /\
  Forall (service_ok n) (executor_services d) /\
  NoDup (partition_id <$> executor_services d).
Proof.
  unfold validate_update.
  destruct (Z.ltb_spec MAX_VALIDATOR_EXECUTOR_SERVICES (Z.of_nat (length (executor_services d)))).
  - split; [done|]. intros [? _]. lia.
  - rewrite check_services_iff. split; [tauto|]. intros (_ & Hf & Hn). split; [done|].
    split; [done|]. apply Forall_forall. intros s _. apply not_elem_of_empty.
Qed.

(** ** Evidence *)
Definition evidence_public_key (e : SignedValidatorVrfEvidence) : PublicKey :=
  match e with ECommit _ _ _ pk _ | EContribution _ _ _ _ pk _ => pk end.
Definition evidence_signable (e : SignedValidatorVrfEvidence) : list byte :=
  match e with
  | ECommit v n c pk _ => commit_signable_bytes v n c pk
  | EContribution v n o p pk _ => contribution_signable_bytes v n o p pk
  end.
(** Epochs are [u64] and vectors shorter than 4 GiB. *)
Definition evidence_ok (e : SignedValidatorVrfEvidence) : Prop :=
  is_u64 (evidence_target_epoch e) /\
  match e with
  | ECommit _ _ _ _ _ => True
  | EContribution _ _ o p _ _ =>
      Z.of_nat (length o) <= U32_MAX /\ Z.of_nat (length p) <= U32_MAX
  end.

Lemma le_bytes4_len_inj (a b : list byte) :
  Z.of_nat (length a) <= U32_MAX -> Z.of_nat (length b) <= U32_MAX ->
  u32_len a = u32_len b -> length a = length b.
Proof.
  intros Ha Hb E. unfold u32_len, wrap32 in E.
  rewrite !Z.mod_small in E by mlia. apply le_bytes_inj in E; cbn; mlia.
Qed.

(** A length-prefixed field at the head of an encoding. *)
Lemma field32_inj (a b x y : list byte) :
  Z.of_nat (length a) <= U32_MAX -> Z.of_nat (length b) <= U32_MAX ->
  u32_len a ++ a ++ x = u32_len b ++ b ++ y -> a = b /\ x = y.
Proof.
  intros Ha Hb E. apply app_inj_1 in E as [E1 E]; [|by unfold u32_len; rewrite !le_bytes_length].
  apply le_bytes4_len_inj in E1; [|done..]. by apply app_inj_1 in E.
Qed.

Lemma evidence_signable_inj e1 e2 :
  evidence_ok e1 -> evidence_ok e2 -> evidence_signable e1 = evidence_signable e2 ->
  pool_key e1 = pool_key e2 /\ evidence_public_key e1 = evidence_public_key e2 /\
  commit_payload e1 = commit_payload e2 /\ contribution_payload e1 = contribution_payload e2.
Proof.
  destruct e1 as [v1 n1 c1 k1 s1|v1 n1 o1 p1 k1 s1], e2 as [v2 n2 c2 k2 s2|v2 n2 o2 p2 k2 s2];
    intros [N1 L1] [N2 L2] E; cbn [evidence_signable evidence_target_epoch] in *;
    unfold commit_signable_bytes, contribution_signable_bytes in E;
    apply app_inv_head in E; (apply app_inj_1 in E as [Ek E]; [|done]); try discriminate;
    (apply app_inj_1 in E as [En E]; [|by rewrite !le_bytes_length]);
    (apply le_bytes8_inj in En; [|done|done]); subst;
    (apply app_inj_1 in E as [Ev E]; [|by rewrite !bn_length]); apply bytesN_eq in Ev as ->.
  - apply app_inj_1 in E as [Ec E]; [|by rewrite !bn_length].
    apply bytesN_eq in Ec as ->. by apply bytesN_eq in E as ->.
  - apply field32_inj in E as [-> E]; [|tauto..]. apply field32_inj in E as [-> E]; [|tauto..].
    by apply bytesN_eq in E as ->.
Qed.

Section Proofs.
Context `{Digests, Ed25519Laws}.

(** Evidence is authentic. A validator's own commit and contribution verify; evidence
    that verifies is signed by a key of the validator it names, over bytes that determine
    its kind, epoch, validator and payload, so one signature never serves as two pieces
    of evidence. *)
Theorem vrf_evidence_authentic k e e' n c o p :
  evidence_ok e -> evidence_ok e' ->
  verify_signature (new_commit k n c) = Ok () /\
  verify_signature (new_contribution k n o p) = Ok () /\
  (verify_signature e = Ok () <->
     pk_to_address (evidence_public_key e) = evidence_validator e /\
     exists s, pk_verify (evidence_public_key e) (evidence_signable e) s = Ok () /\
       match e with ECommit _ _ _ _ s' | EContribution _ _ _ _ _ s' => s' = s end) /\
  (evidence_signable e = evidence_signable e' ->
     pool_key e = pool_key e' /\ evidence_public_key e = evidence_public_key e' /\
     commit_payload e = commit_payload e' /\ contribution_payload e = contribution_payload e').
Proof.
  intros He He'. split; [|split; [|split]].
  - cbn. rewrite bool_decide_eq_true_2 by done. apply keypair_sign_verify.
  - cbn. rewrite bool_decide_eq_true_2 by done. apply keypair_sign_verify.
  - destruct e as [v m d pk s|v m x y pk s]; unfold verify_signature;
      cbn [evidence_public_key evidence_validator evidence_signable];
      (case_bool_decide as Ea; cbn [negb]; [|split; [done|by intros [? _]]]);
      (split; [intros Hv; split; [done|by exists s]|by intros (_ & ? & ? & <-)]).
  - by apply evidence_signable_inj.
Qed.

(** ** Contributions *)
Lemma validate_contribution_iff d :
  validate_contribution d = Ok () <->
  1 <= Z.of_nat (length (ct_vrf_output d)) <= MAX_VALIDATOR_VRF_OUTPUT_BYTES /\
  1 <= Z.of_nat (length (ct_vrf_proof d)) <= MAX_VALIDATOR_VRF_PROOF_BYTES.
Proof.
  unfold validate_contribution, MAX_VALIDATOR_VRF_OUTPUT_BYTES, MAX_VALIDATOR_VRF_PROOF_BYTES.
  assert (forall l : list byte, l = [] <-> Z.of_nat (length l) = 0) as Hnil.
  { intros l. rewrite <- length_zero_iff_nil. lia. }
  rewrite (bool_decide_ext _ _ (Hnil (ct_vrf_output d))), (bool_decide_ext _ _ (Hnil (ct_vrf_proof d))).
  generalize (length (ct_vrf_output d)), (length (ct_vrf_proof d)). intros a b.
  repeat case_bool_decide; repeat match goal with |- context [?x <? ?y] =>
    destruct (Z.ltb_spec x y) end; split; (done || lia).
Qed.

Lemma commitment_preimage_inj d1 d2 :
  validate_contribution d1 = Ok () -> validate_contribution d2 = Ok () ->
  commitment_preimage d1 = commitment_preimage d2 ->
  ct_vrf_output d1 = ct_vrf_output d2 /\ ct_vrf_proof d1 = ct_vrf_proof d2.
Proof.
  intros V1%validate_contribution_iff V2%validate_contribution_iff E.
  unfold MAX_VALIDATOR_VRF_OUTPUT_BYTES, MAX_VALIDATOR_VRF_PROOF_BYTES in *.
  unfold commitment_preimage, u64_len in E. apply app_inv_head in E.
  apply app_inj_1 in E as [E1 E]; [|by rewrite !le_bytes_length].
  apply le_bytes8_inj in E1; [|mlia..]. apply app_inj_1 in E as [-> E]; [|lia].
  apply app_inj_1 in E as [_ E]; [|by rewrite !le_bytes_length]. done.
Qed.

Lemma reveal_ok_iff r d b :
  (reveal r d b).2 = Ok () <->
  validate_contribution d = Ok () /\ commitment r = hash_bytes (commitment_preimage d).
Proof.
  unfold reveal, commitment_hash. destruct (validate_contribution d) as [[]|e]; cbn.
  - case_bool_decide; cbn; [naive_solver|]. split; [done|]. by intros [_ ?].
  - split; [done|]. by intros [? _].
Qed.

Lemma reveal_record r d b :
  (reveal r d b).1 =
  if is_ok (reveal r d b).2
  then r <| revealed_in_block := Some b |> <| vrf_output := ct_vrf_output d |>
         <| vrf_proof := ct_vrf_proof d |>
  else r.
Proof.
  unfold reveal. destruct (commitment_hash d) as [c|e]; [|done]. by case_bool_decide.
Qed.

(** The attempts to reveal into one record, in order. *)
Definition reveal_all (r : ValidatorVrfContributionRecord)
    (attempts : list (ValidatorVrfContributionData * Z)) : ValidatorVrfContributionRecord :=
  foldl (fun r a => (reveal r a.1 a.2).1) r attempts.
Definition opens (r : ValidatorVrfContributionRecord)
    (a : ValidatorVrfContributionData * Z) : Prop :=
  validate_contribution a.1 = Ok () /\ commitment r = hash_bytes (commitment_preimage a.1).

Lemma reveal_all_inv r attempts :
  let r' := reveal_all r attempts in
  validator r' = validator r /\ target_epoch r' = target_epoch r /\
  commitment r' = commitment r /\ submitted_in_block r' = submitted_in_block r /\
  ((r' = r /\ forall a, a ∈ attempts -> ~ opens r a) \/
   exists a, a ∈ attempts /\ opens r a /\ revealed_in_block r' = Some a.2 /\
     vrf_output r' = ct_vrf_output a.1 /\ vrf_proof r' = ct_vrf_proof a.1).
Proof.
  revert r. induction attempts as [|[d b] l IH]; intros r; cbn zeta.
  { repeat (split; [done|]). left. split; [done|]. by intros a ?%not_elem_of_nil. }
  unfold reveal_all. cbn [foldl fst snd]. fold (reveal_all (reveal r d b).1 l).
  rewrite reveal_record. destruct (reveal r d b).2 as [[]|e] eqn:E; cbn [is_ok].
  - apply reveal_ok_iff in E. specialize (IH (r <| revealed_in_block := Some b |>
      <| vrf_output := ct_vrf_output d |> <| vrf_proof := ct_vrf_proof d |>)).
    cbn zeta in IH. destruct IH as (-> & -> & -> & -> & Hcase).
    repeat (split; [done|]). right. destruct Hcase as [[-> _]|(a & Ha & Ho & Hr)].
    + exists (d, b). split; [left|]. done.
    + exists a. split; [by right|]. done.
  - specialize (IH r). cbn zeta in IH. destruct IH as (-> & -> & -> & -> & Hcase).
    assert (~ opens r (d, b)) as Hn.
    { intros Ho. apply (reveal_ok_iff r d b) in Ho. congruence. }
    repeat (split; [done|]). destruct Hcase as [[-> Hno]|(a & Ha & Ho & Hr)].
    + left. split; [done|]. intros a [->|Ha]%elem_of_cons; [done|by apply Hno].
    + right. exists a. split; [by right|done].
Qed.

(** A commitment fixes the contribution. Whatever reveals are attempted against a
    committed record, its validator, epoch, commitment and submission block never change,
    and it is revealed exactly when some attempt was a valid contribution with the
    committed hash. When the digest does not collide on the contributions involved, the
    revealed output and proof are those of the contribution the validator committed to. *)
Theorem vrf_commitment_binds d0 v n c block attempts :
  commitment_hash d0 = Ok c ->
  collision_free (commitment_preimage <$> (d0 :: attempts.*1)) ->
  let r := committed_only v n c block in
  let r' := reveal_all r attempts in
  validator r' = v /\ target_epoch r' = n /\ commitment r' = c /\
  submitted_in_block r' = block /\
  (is_revealed r' = true <-> exists a, a ∈ attempts /\ opens r a) /\
  (is_revealed r' = true ->
     vrf_output r' = ct_vrf_output d0 /\ vrf_proof r' = ct_vrf_proof d0) /\
  ((d0, block) ∈ attempts -> is_revealed r' = true).
Proof.
  intros Hd Hc. cbn zeta. unfold commitment_hash in Hd.
  destruct (validate_contribution d0) as [[]|] eqn:Hv; [|done]. cbn [mbind result_bind] in Hd. injection Hd as <-.
  set (r := committed_only v n (hash_bytes (commitment_preimage d0)) block).
  pose proof (reveal_all_inv r attempts) as T. cbn zeta in T.
  destruct T as (-> & -> & -> & -> & Hcase). repeat (split; [done|]).
  unfold is_revealed. rewrite bool_decide_eq_true.
  assert (opens r (d0, block)) as Hself by done.
  split; [|split].
  - destruct Hcase as [[-> Hno]|(a & Ha & Ho & Hr & _)].
    + split; [by intros [? [=]]|]. intros (a & Ha & Ho). by destruct (Hno a Ha).
    + split; [by exists a|]. intros _. rewrite Hr. by exists a.2.
  - intros Hrev. destruct Hcase as [[E _]|(a & Ha & [Va Ea] & _ & -> & ->)].
    { rewrite E in Hrev. by destruct Hrev as [? [=]]. }
    apply Hc in Ea.
    + apply commitment_preimage_inj in Ea as [-> ->]; done.
    + apply list_elem_of_fmap. exists d0. split; [done|left].
    + apply list_elem_of_fmap. exists a.1. split; [done|]. right.
      apply list_elem_of_fmap. by exists a.
  - intros Hin. destruct Hcase as [[_ Hno]|(a & _ & _ & Hr & _)].
    + by destruct (Hno _ Hin).
    + rewrite Hr. by exists a.2.
Qed.

(** The contribution a validator computes for an epoch. *)
Definition honest_contribution (k : Keypair) (chain_id : rstr) (n : Z) (seed : Hash256)
    : ValidatorVrfContributionData :=
  let v := keypair_address k in
  let proof := keypair_sign k (proof_signable_bytes chain_id v n seed) in
  {| ct_target_epoch := n;
     ct_vrf_output := bn (hash_bytes
       (output_preimage (keypair_public_key k) chain_id v n seed proof));
     ct_vrf_proof := bn proof |}.

Lemma verify_for_validator_iff d chain v pk seed :
  verify_for_validator d chain v pk seed = Ok () <->
  exists proof : Signature, ct_vrf_proof d = bn proof /\
    pk_verify pk (proof_signable_bytes chain v (ct_target_epoch d) seed) proof = Ok () /\
    ct_vrf_output d =
      bn (hash_bytes (output_preimage pk chain v (ct_target_epoch d) seed proof)).
Proof.
  unfold verify_for_validator, expected_output_from_proof, proof_signature. split.
  - intros Hv. inv_ok. destruct (mk_bytesN 64 (ct_vrf_proof d)) as [p|] eqn:Ep; [|done].
    unfold sig_from_bytes in *. inv_ok. to_prop.
    match goal with E : mk_bytesN 64 _ = Some ?q |- _ => exists q end.
    apply mk_bytesN_Some in Ep as [Ep _]. done.
  - intros (p & Ep & Hp & Eo).
    rewrite (proj2 (validate_contribution_iff d)).
    + cbn [mbind result_bind]. rewrite Ep, mk_bytesN_bn. unfold sig_from_bytes.
      cbn [mbind result_bind]. rewrite Hp. cbn [mbind result_bind].
      by rewrite bool_decide_eq_true_2.
    + rewrite Ep, Eo, !bn_length. by_compute.
Qed.

(** Verification of a contribution. The contribution a validator computes verifies
    for its epoch and seed and can be committed; every verified contribution has a
    64-byte proof signed by the given key for exactly this chain, validator, epoch and
    seed, and an output that its proof determines, so a validator cannot choose the
    output of a proof. *)
Theorem vrf_contribution_verified k chain n seed :
  let d := honest_contribution k chain n seed in
  verify_for_validator d chain (keypair_address k) (keypair_public_key k) seed = Ok () /\
  is_ok (commitment_hash d) = true /\
  forall d1 d2 v pk,
    verify_for_validator d1 chain v pk seed = Ok () ->
    length (ct_vrf_proof d1) = 64%nat /\ length (ct_vrf_output d1) = 32%nat /\
    (verify_for_validator d2 chain v pk seed = Ok () ->
     ct_target_epoch d1 = ct_target_epoch d2 -> ct_vrf_proof d1 = ct_vrf_proof d2 -> d1 = d2).
Proof.
  cbn zeta. split; [|split].
  - apply verify_for_validator_iff. cbn.
    exists (keypair_sign k (proof_signable_bytes chain (keypair_address k) n seed)).
    split; [done|]. split; [apply keypair_sign_verify|done].
  - unfold commitment_hash. rewrite (proj2 (validate_contribution_iff _)); [done|].
    unfold honest_contribution. cbn [ct_vrf_output ct_vrf_proof]. rewrite !bn_length. by_compute.
  - intros d1 d2 v pk (p1 & E1 & _ & O1)%verify_for_validator_iff.
    split; [by rewrite E1, bn_length|]. split; [by rewrite O1, bn_length|].
    intros (p2 & E2 & _ & O2)%verify_for_validator_iff En Ep.
    assert (p1 = p2) as <- by (apply bytesN_eq; congruence).
    destruct d1, d2; cbn in *. congruence.
Qed.
End Proofs.
End Validator.

(** ** Witnesses *)
Module ValidatorWitness.
Import Validator.

Definition val_key : Keypair := pad_bytesN 32 [x41].
Definition seed0 : Hash256 := pad_bytesN 32 [x42].
Definition contribution0 : ValidatorVrfContributionData :=
  honest_contribution val_key (lit "zincha-main") 9 seed0.
Definition forged0 : ValidatorVrfContributionData :=
  {| ct_target_epoch := 9; ct_vrf_output := [x01]; ct_vrf_proof := [x02] |}.
Definition commitment0 : Hash256 := hash_bytes (commitment_preimage contribution0).

Lemma vrf_evidence_authentic_witness :
  verify_signature (new_commit val_key 9 commitment0) = Ok ().
Proof.
  assert (evidence_ok (new_commit val_key 9 commitment0)) as He by (split; [by_compute|exact I]).
  exact (proj1 (vrf_evidence_authentic val_key _ _ 9 commitment0 [] [] He He)).
Defined.

Lemma vrf_contribution_verified_witness :
  verify_for_validator contribution0 (lit "zincha-main") (keypair_address val_key)
    (keypair_public_key val_key) seed0 = Ok ().
Proof. exact (proj1 (vrf_contribution_verified val_key (lit "zincha-main") 9 seed0)). Defined.

(** A forged reveal is refused, the committed one is stored. *)
Lemma vrf_commitment_binds_witness :
  vrf_output (reveal_all (committed_only (keypair_address val_key) 9 commitment0 5)
    [(forged0, 6); (contribution0, 5)]) = ct_vrf_output contribution0.
Proof.
  assert (commitment_hash contribution0 = Ok commitment0) as E by (by vm_compute).
  assert (collision_free (commitment_preimage <$>
    (contribution0 :: [(forged0, 6); (contribution0, 5)].*1))) as Hc
    by (apply collision_freeb_ok; by vm_compute).
  pose proof (vrf_commitment_binds contribution0 (keypair_address val_key) 9 commitment0 5
    [(forged0, 6); (contribution0, 5)] E Hc) as T.
  cbv zeta in T. destruct T as (_ & _ & _ & _ & _ & T & R). apply T, R. right. left.
Defined.
End ValidatorWitness.
