(* ===== verification/Token.v ===== *)
(** * Tokens and staged contract writes

    Models [primitives/token.rs] and the execution results of [primitives/contract.rs]
    ([ContractExecResult], [ContractTokenWrites]).  A hash map is a [gmap], a hash set a
    [gset]; a loop over one visits its elements in the order of [elements] or
    [map_to_list], and the lemmas below show that the order does not matter. *)
From S2P Require Import Prelude Crypto Instances ContractEvents ToolVerifier.

Module Token.

Record TokenSecondaryStateStorageDeposit : Type := { payer : Address; sd_amount : Z }.
Record TokenMetadata : Type := {
  token_id : Hash256;
  name : rstr;
  symbol : rstr;
  decimals : Z;
  total_supply : Z;
  max_supply : Z;
  burnable : bool;
  creator : Address;
  mint_authority : option Address;
  created_at_block : Z;
  metadata : list byte;
  storage_deposit : Z;
}.
Record TokenCreateData : Type := {
  tc_name : rstr;
  tc_symbol : rstr;
  tc_decimals : Z;
  tc_initial_supply : Z;
  tc_max_supply : Z;
  tc_burnable : bool;
  tc_mint_authority : option Address;
  tc_metadata : list byte;
}.
Record TokenMintData : Type := { tm_token_id : Hash256; tm_to : Address; tm_amount : Z }.
Record TokenTransferData : Type := { tt_token_id : Hash256; tt_to : Address; tt_amount : Z }.
Record TokenApproveData : Type := { ta_token_id : Hash256; ta_spender : Address; ta_amount : Z }.
Record TokenBurnData : Type := { tb_token_id : Hash256; tb_amount : Z }.
Record TokenUpdateAuthorityData : Type := {
  tu_token_id : Hash256;
  tu_mint_authority : option Address;
}.

Record AllowanceKey : Type := {
  ak_token_id : Hash256;
  ak_owner : Address;
  ak_spender : Address;
}.
#[global] Instance AllowanceKey_eq_dec : EqDecision AllowanceKey.
Proof. solve_decision. Defined.
#[global] Program Instance AllowanceKey_countable : Countable AllowanceKey :=
  inj_countable (fun k => (ak_token_id k, ak_owner k, ak_spender k))
    (fun t => Some {| ak_token_id := t.1.1; ak_owner := t.1.2; ak_spender := t.2 |}) _.
Next Obligation. by intros []. Qed.

Definition MAX_TOKEN_SYMBOL : Z := 10.
Definition MAX_TOKEN_METADATA : Z := 4096.

Definition mintable (t : TokenMetadata) : bool := bool_decide (is_Some (mint_authority t)).

Definition token_id_text `{Hex} (creator : Address) (symbol : rstr) (nonce : Z) : rstr :=
  address_to_hex creator ++ lit ":" ++ symbol ++ lit ":" ++ show_u nonce.
Definition derive_token_id `{Hex, Digests} (creator : Address) (symbol : rstr) (nonce : Z)
    : Hash256 := hash_bytes (utf8 (token_id_text creator symbol nonce)).

(** ** Staged token state *)
Record ContractTokenWrites : Type := {
  tokens : gmap Hash256 TokenMetadata;
  tokens_removed : gset Hash256;
  token_balances : gmap (Hash256 * Address) Z;
  token_balances_removed : gset (Hash256 * Address);
  token_balance_storage_deposits : gmap (Hash256 * Address) TokenSecondaryStateStorageDeposit;
  token_balance_storage_deposits_removed : gset (Hash256 * Address);
  token_allowances : gmap AllowanceKey Z;
  token_allowances_removed : gset AllowanceKey;
  token_allowance_storage_deposits : gmap AllowanceKey TokenSecondaryStateStorageDeposit;
  token_allowance_storage_deposits_removed : gset AllowanceKey;
}.
Definition default_writes : ContractTokenWrites :=
  {| tokens := ∅; tokens_removed := ∅; token_balances := ∅; token_balances_removed := ∅;
     token_balance_storage_deposits := ∅; token_balance_storage_deposits_removed := ∅;
     token_allowances := ∅; token_allowances_removed := ∅;
     token_allowance_storage_deposits := ∅; token_allowance_storage_deposits_removed := ∅ |}.

Definition is_empty (w : ContractTokenWrites) : bool :=
  bool_decide (dom (tokens w) = ∅) && bool_decide (tokens_removed w = ∅)
  && bool_decide (token_balances w = ∅) && bool_decide (token_balances_removed w = ∅)
  && bool_decide (dom (token_balance_storage_deposits w) = ∅)
  && bool_decide (token_balance_storage_deposits_removed w = ∅)
  && bool_decide (token_allowances w = ∅) && bool_decide (token_allowances_removed w = ∅)
  && bool_decide (dom (token_allowance_storage_deposits w) = ∅)
  && bool_decide (token_allowance_storage_deposits_removed w = ∅).

Section Merge.
Context `{Countable K} {A : Type}.

(** [for key in &removed { map.remove(key); set.insert(key.clone()); }] *)
Definition remove_loop (removed : list K) (s : gmap K A * gset K) : gmap K A * gset K :=
  foldl (fun s k => (delete k s.1, {[ k ]} ∪ s.2)) s removed.
(** [for (key, x) in &map { set.remove(key); map.insert(key.clone(), x.clone()); }] *)
Definition insert_loop (written : list (K * A)) (s : gmap K A * gset K) : gmap K A * gset K :=
  foldl (fun s kx => (<[ kx.1 := kx.2 ]> s.1, s.2 ∖ {[ kx.1 ]})) s written.
Definition merge_layer (s o : gmap K A * gset K) : gmap K A * gset K :=
  insert_loop (map_to_list o.1) (remove_loop (elements o.2) s).
End Merge.

Definition merge_from (self other : ContractTokenWrites) : ContractTokenWrites :=
  let t := merge_layer (tokens self, tokens_removed self) (tokens other, tokens_removed other) in
  let b := merge_layer (token_balances self, token_balances_removed self)
             (token_balances other, token_balances_removed other) in
  let bd := merge_layer
             (token_balance_storage_deposits self, token_balance_storage_deposits_removed self)
             (token_balance_storage_deposits other, token_balance_storage_deposits_removed other) in
  let a := merge_layer (token_allowances self, token_allowances_removed self)
             (token_allowances other, token_allowances_removed other) in
  let ad := merge_layer
             (token_allowance_storage_deposits self, token_allowance_storage_deposits_removed self)
             (token_allowance_storage_deposits other, token_allowance_storage_deposits_removed other) in
  {| tokens := t.1; tokens_removed := t.2; token_balances := b.1; token_balances_removed := b.2;
     token_balance_storage_deposits := bd.1; token_balance_storage_deposits_removed := bd.2;
     token_allowances := a.1; token_allowances_removed := a.2;
     token_allowance_storage_deposits := ad.1; token_allowance_storage_deposits_removed := ad.2 |}.

(** [storage_writes] is keyed by address; a [None] value is a deletion. *)
Record ContractExecResult : Type := {
  success : bool;
  fatal_error : bool;
  return_data : list byte;
  gas_used : Z;
  events : list Events.ContractEvent;
  error : option rstr;
  balance_deltas : list (Address * Z);
  storage_writes : gmap Address (list (list byte * option (list byte)));
  pending_access_tokens : list Access.AccessToken;
  token_writes : ContractTokenWrites;
  final_event_counter : Z;
}.

(** ** Layers of staged state *)
Section LayerProofs.
Context `{Countable K} {A : Type}.
Implicit Types (s o : gmap K A * gset K).

(** What a staged layer shows over a base state. *)
Definition overlay s (base : K -> option A) (k : K) : option A :=
  match s.1 !! k with
  | Some x => Some x
  | None => if bool_decide (k ∈ s.2) then None else base k
  end.
(** No key is both written and removed. *)
Definition layer_ok s : Prop := forall k, is_Some (s.1 !! k) -> k ∉ s.2.

Lemma remove_loop_lookup l s k :
  (remove_loop l s).1 !! k = (if bool_decide (k ∈ l) then None else s.1 !! k) /\
  (k ∈ (remove_loop l s).2 <-> k ∈ l \/ k ∈ s.2).
Proof.
  revert s. induction l as [|j l IH]; intros s; cbn.
  { split; [done|]. set_solver. }
  destruct (IH (delete j s.1, {[ j ]} ∪ s.2)) as [E1 E2].
  unfold remove_loop in E1, E2. rewrite E1, E2. cbn. split; [|set_solver].
  destruct (decide (k = j)) as [->|Hne].
  - rewrite (bool_decide_eq_true_2 (j ∈ j :: l)) by left. rewrite lookup_delete_eq.
    by case_bool_decide.
  - rewrite lookup_delete_ne by done.
    rewrite (bool_decide_ext (k ∈ j :: l) (k ∈ l)) by set_solver. done.
Qed.

Lemma insert_loop_lookup (l : list (K * A)) s k :
  NoDup l.*1 ->
  (insert_loop l s).1 !! k =
    match (list_to_map l : gmap K A) !! k with Some x => Some x | None => s.1 !! k end /\
  (k ∈ (insert_loop l s).2 <-> k ∉ l.*1 /\ k ∈ s.2).
Proof.
  revert s. induction l as [|[j x] l IH]; intros s; cbn.
  { intros _. rewrite lookup_empty. split; [done|]. set_solver. }
  intros [Hj Hnd]%NoDup_cons. destruct (IH (<[ j := x ]> s.1, s.2 ∖ {[ j ]}) Hnd) as [E1 E2].
  unfold insert_loop in E1, E2. rewrite E1, E2. cbn. split; [|set_solver].
  destruct (decide (k = j)) as [->|Hne].
  - rewrite !lookup_insert_eq. by rewrite not_elem_of_list_to_map_1.
  - by rewrite !lookup_insert_ne by done.
Qed.

Lemma merge_layer_lookup s o k :
  (merge_layer s o).1 !! k =
    match o.1 !! k with
    | Some x => Some x
    | None => if bool_decide (k ∈ o.2) then None else s.1 !! k
    end /\
  (k ∈ (merge_layer s o).2 <-> o.1 !! k = None /\ (k ∈ o.2 \/ k ∈ s.2)).
Proof.
  unfold merge_layer.
  destruct (remove_loop_lookup (elements o.2) s k) as [R1 R2].
  destruct (insert_loop_lookup (map_to_list o.1) (remove_loop (elements o.2) s) k
    (NoDup_fst_map_to_list o.1)) as [I1 I2].
  rewrite I1, I2, R1, R2, list_to_map_to_list. split.
  - destruct (o.1 !! k); [done|]. by rewrite (bool_decide_ext _ _ (elem_of_elements o.2 k)).
  - rewrite elem_of_elements, <- not_elem_of_dom, list_elem_of_fmap, elem_of_dom. split.
    + intros [Hn ?]. split; [|done]. intros [x Hx]. apply Hn. exists (k, x).
      split; [done|]. by apply elem_of_map_to_list.
    + intros [Hn ?]. split; [|done]. intros ([k' x] & -> & Hx%elem_of_map_to_list).
      by destruct Hn; exists x.
Qed.

(** Visiting the keys in another order gives the same layer. *)
Lemma merge_layer_any_order s o removed written :
  removed ≡ₚ elements o.2 -> written ≡ₚ map_to_list o.1 ->
  forall k, (insert_loop written (remove_loop removed s)).1 !! k = (merge_layer s o).1 !! k /\
    (k ∈ (insert_loop written (remove_loop removed s)).2 <-> k ∈ (merge_layer s o).2).
Proof.
  intros Hr Hw k. pose proof (NoDup_fst_map_to_list o.1) as Hnd.
  assert (NoDup written.*1) as Hnw by (by rewrite Hw).
  destruct (remove_loop_lookup removed s k) as [R1 R2].
  destruct (insert_loop_lookup written (remove_loop removed s) k Hnw) as [I1 I2].
  destruct (remove_loop_lookup (elements o.2) s k) as [R1' R2'].
  destruct (insert_loop_lookup (map_to_list o.1) (remove_loop (elements o.2) s) k Hnd) as [I1' I2'].
  unfold merge_layer. rewrite I1, I1', I2, I2', R1, R1', R2, R2'.
  rewrite (bool_decide_ext (k ∈ removed) (k ∈ elements o.2)) by (by rewrite Hr).
  rewrite (list_to_map_proper written (map_to_list o.1)) by done.
  by rewrite Hr, Hw.
Qed.

Lemma merge_layer_ok s o : layer_ok s -> layer_ok o -> layer_ok (merge_layer s o).
Proof.
  intros Hs Ho k. destruct (merge_layer_lookup s o k) as [-> E].
  intros Hk Hin. apply E in Hin as [En Hin]. rewrite En in Hk.
  case_bool_decide; [by destruct Hk|]. destruct Hin as [?|?]; [done|]. by eapply Hs.
Qed.

(** Merging is staging one layer after the other. *)
Lemma overlay_merge s o base k :
  overlay (merge_layer s o) base k = overlay o (overlay s base) k.
Proof.
  unfold overlay. destruct (merge_layer_lookup s o k) as [-> E].
  rewrite (bool_decide_ext _ _ E). destruct (o.1 !! k); [done|].
  rewrite (bool_decide_ext (None = None /\ (k ∈ o.2 \/ k ∈ s.2)) (k ∈ o.2 \/ k ∈ s.2)) by naive_solver.
  destruct (s.1 !! k); repeat case_bool_decide; naive_solver.
Qed.
End LayerProofs.

(** ** The token state a node commits to *)
Record token_state : Type := {
  st_tokens : Hash256 -> option TokenMetadata;
  st_balances : Hash256 * Address -> option Z;
  st_balance_deposits : Hash256 * Address -> option TokenSecondaryStateStorageDeposit;
  st_allowances : AllowanceKey -> option Z;
  st_allowance_deposits : AllowanceKey -> option TokenSecondaryStateStorageDeposit;
}.
#[global] Instance token_state_equiv : Equiv token_state := fun x y =>
  (forall k, st_tokens x k = st_tokens y k) /\ (forall k, st_balances x k = st_balances y k) /\
  (forall k, st_balance_deposits x k = st_balance_deposits y k) /\
  (forall k, st_allowances x k = st_allowances y k) /\
  (forall k, st_allowance_deposits x k = st_allowance_deposits y k).
#[global] Instance token_state_equivalence : Equivalence (≡@{token_state}).
Proof.
  split.
  - by intros x.
  - intros x y (E1 & E2 & E3 & E4 & E5). by repeat split.
  - intros x y z (E1 & E2 & E3 & E4 & E5) (F1 & F2 & F3 & F4 & F5).
    repeat split; intros k; congruence.
Qed.

(** Staged writes as a change of state. *)
Definition commit (w : ContractTokenWrites) (st : token_state) : token_state :=
  {| st_tokens := overlay (tokens w, tokens_removed w) (st_tokens st);
     st_balances := overlay (token_balances w, token_balances_removed w) (st_balances st);
     st_balance_deposits := overlay
       (token_balance_storage_deposits w, token_balance_storage_deposits_removed w)
       (st_balance_deposits st);
     st_allowances := overlay (token_allowances w, token_allowances_removed w) (st_allowances st);
     st_allowance_deposits := overlay
       (token_allowance_storage_deposits w, token_allowance_storage_deposits_removed w)
       (st_allowance_deposits st) |}.

Lemma overlay_proper `{Countable K} {A} (s : gmap K A * gset K) (b1 b2 : K -> option A) k :
  (forall k, b1 k = b2 k) -> overlay s b1 k = overlay s b2 k.
Proof. intros E. unfold overlay. by rewrite E. Qed.

#[global] Instance commit_proper w : Proper ((≡) ==> (≡)) (commit w).
Proof. intros x y (E1 & E2 & E3 & E4 & E5). repeat split; intros k; by apply overlay_proper. Qed.

Lemma commit_merge a b st : commit (merge_from a b) st ≡ commit b (commit a st).
Proof.
  repeat split; intros k; unfold commit, merge_from;
    cbn [st_tokens st_balances st_balance_deposits st_allowances st_allowance_deposits
         tokens tokens_removed token_balances token_balances_removed
         token_balance_storage_deposits token_balance_storage_deposits_removed
         token_allowances token_allowances_removed token_allowance_storage_deposits
         token_allowance_storage_deposits_removed];
    rewrite <- surjective_pairing; apply overlay_merge.
Qed.

Definition writes_ok (w : ContractTokenWrites) : Prop :=
  layer_ok (tokens w, tokens_removed w) /\
  layer_ok (token_balances w, token_balances_removed w) /\
  layer_ok (token_balance_storage_deposits w, token_balance_storage_deposits_removed w) /\
  layer_ok (token_allowances w, token_allowances_removed w) /\
  layer_ok (token_allowance_storage_deposits w, token_allowance_storage_deposits_removed w).

Lemma merge_from_ok a b : writes_ok a -> writes_ok b -> writes_ok (merge_from a b).
Proof.
  intros (A1 & A2 & A3 & A4 & A5) (B1 & B2 & B3 & B4 & B5). unfold writes_ok, merge_from.
  cbn [tokens tokens_removed token_balances token_balances_removed
       token_balance_storage_deposits token_balance_storage_deposits_removed
       token_allowances token_allowances_removed token_allowance_storage_deposits
       token_allowance_storage_deposits_removed].
  rewrite <- !surjective_pairing. repeat split; by apply merge_layer_ok.
Qed.

Lemma is_empty_iff w : is_empty w = true <-> w = default_writes.
Proof.
  unfold is_empty. rewrite !andb_true_iff, !bool_decide_eq_true, !dom_empty_iff_L.
  destruct w. unfold default_writes. cbn. split.
  - intros (((((((((-> & ->) & ->) & ->) & ->) & ->) & ->) & ->) & ->) & ->). done.
  - by intros [= -> -> -> -> -> -> -> -> -> ->].
Qed.

(** C35: merging staged writes is committing them in order. However many child executions
    are merged into a parent's writes, committing the result shows the same tokens,
    balances, allowances and deposits as committing the parent and then each child; no
    key ends both written and removed if none started so; and writes are empty exactly
    when they are the default ones, which change nothing. *)
Theorem token_writes_compose w children st :
  commit (foldl merge_from w children) st ≡ foldl (fun st c => commit c st) (commit w st) children
  /\ (Forall writes_ok (w :: children) -> writes_ok (foldl merge_from w children))
  /\ (is_empty w = true <-> w = default_writes)
  /\ commit default_writes st ≡ st.
Proof.
  split; [|split; [|split; [apply is_empty_iff|by repeat split]]].
  - revert w st. induction children as [|c cs IH]; intros w st; cbn; [done|].
    rewrite IH. clear IH. generalize (commit_merge w c st).
    generalize (commit (merge_from w c) st), (commit c (commit w st)). clear.
    induction cs as [|c cs IH]; intros x y E; cbn; [done|]. apply IH. by rewrite E.
  - revert w. induction children as [|c cs IH]; intros w; cbn.
    { by intros [? _]%Forall_cons. }
    intros [Hw [Hc Hcs]%Forall_cons]%Forall_cons. apply IH. constructor; [|done].
    by apply merge_from_ok.
Qed.

(** ** Token identifiers *)

Lemma last_colon_inj a b m n :
  lit ":" ++ a ++ lit ":" ++ show_u m = lit ":" ++ b ++ lit ":" ++ show_u n ->
  a = b /\ show_u m = show_u n.
Proof.
  intros E%app_inv_head. apply (f_equal reverse) in E.
  rewrite !reverse_app in E. change (reverse (lit ":")) with [58] in E.
  assert (forall k, 58 ∉ reverse (show_u k)) as Hd.
  { intros k. rewrite elem_of_reverse. intros Hin. pose proof (show_u_digits k) as Hf.
    rewrite Forall_forall in Hf. by specialize (Hf _ Hin). }
  rewrite <- !app_assoc in E. cbn in E.
  pose proof (proj2 (split_once_Some 58 (reverse (show_u m) ++ 58 :: reverse a) _ _)
    (conj eq_refl (Hd m))) as S1.
  pose proof (proj2 (split_once_Some 58 (reverse (show_u n) ++ 58 :: reverse b) _ _)
    (conj eq_refl (Hd n))) as S2.
  rewrite E, S2 in S1. injection S1 as E1 E2. by split; apply (inj reverse).
Qed.

(** Token identifiers. The text hashed determines creator, symbol and nonce even when
    the symbol contains the separator, so when the digest does not collide on the two
    texts, equal token ids mean the same creator, symbol and nonce. *)
Theorem token_id_binds `{Digests, HexLaws} c1 c2 s1 s2 n1 n2 :
  is_u64 n1 -> is_u64 n2 -> Forall is_scalar s1 -> Forall is_scalar s2 ->
  collision_free [utf8 (token_id_text c1 s1 n1); utf8 (token_id_text c2 s2 n2)] ->
  derive_token_id c1 s1 n1 = derive_token_id c2 s2 n2 ->
  c1 = c2 /\ s1 = s2 /\ n1 = n2.
Proof.
  intros N1 N2 S1 S2 Hc E. apply Hc in E; [|set_solver..].
  apply utf8_inj in E.
  - unfold token_id_text in E.
    apply app_inj_1 in E as [Ea E]; [|by rewrite !address_to_hex_length].
    apply address_to_hex_inj in Ea as ->. apply last_colon_inj in E as [-> En].
    apply show_u_inj in En as ->; [done|mlia..].
  - unfold token_id_text. rewrite !Forall_app. repeat split;
      auto using address_to_hex_scalar, lit_scalar, show_u_scalar.
  - unfold token_id_text. rewrite !Forall_app. repeat split;
      auto using address_to_hex_scalar, lit_scalar, show_u_scalar.
Qed.
End Token.

(** ** Witnesses *)
Module TokenWitness.
Import Token.

Definition issuer : Address := pad_bytesN 20 [x51].
Definition coin : Hash256 := pad_bytesN 32 [x52].

(** A parent spends a balance to zero, its child restores it. *)
Definition parent_writes : ContractTokenWrites :=
  merge_from default_writes
    {| tokens := ∅; tokens_removed := ∅; token_balances := ∅;
       token_balances_removed := {[ (coin, issuer) ]}; token_balance_storage_deposits := ∅;
       token_balance_storage_deposits_removed := ∅; token_allowances := ∅;
       token_allowances_removed := ∅; token_allowance_storage_deposits := ∅;
       token_allowance_storage_deposits_removed := ∅ |}.
Definition child_writes : ContractTokenWrites :=
  {| tokens := ∅; tokens_removed := ∅; token_balances := {[ (coin, issuer) := 7 ]};
     token_balances_removed := ∅; token_balance_storage_deposits := ∅;
     token_balance_storage_deposits_removed := ∅; token_allowances := ∅;
     token_allowances_removed := ∅; token_allowance_storage_deposits := ∅;
     token_allowance_storage_deposits_removed := ∅ |}.
Definition ledger0 : token_state :=
  {| st_tokens := fun _ => None; st_balances := fun _ => Some 3;
     st_balance_deposits := fun _ => None; st_allowances := fun _ => None;
     st_allowance_deposits := fun _ => None |}.

Lemma token_writes_compose_witness :
  st_balances (commit parent_writes ledger0) (coin, issuer) = None /\
  st_balances (commit (foldl merge_from parent_writes [child_writes]) ledger0) (coin, issuer)
    = Some 7.
Proof.
  split; [by vm_compute|].
  destruct (token_writes_compose parent_writes [child_writes] ledger0) as ((_ & T & _) & _).
  rewrite T. by vm_compute.
Defined.

Lemma token_id_binds_witness : lit "A:1" = lit "A:1" /\ 2 = 2.
Proof.
  destruct (token_id_binds issuer issuer (lit "A:1") (lit "A:1") 2 2) as (_ & T1 & T2).
  - by_compute.
  - by_compute.
  - repeat constructor; by_compute.
  - repeat constructor; by_compute.
  - apply collision_freeb_ok. by vm_compute.
  - reflexivity.
  - split; [exact T1|exact T2].
Defined.
End TokenWitness.
