(* ===== verification/Task.v ===== *)
(** * Tasks

    Models [primitives/task.rs]: the task record and its lifecycle fields, matching
    preferences, the task payloads and subtask identifiers. *)
From S2P Require Import Prelude Crypto Instances Capability ToolVerifier.
Import Capability.

Module Task.

Inductive TaskStatus : Type :=
| Pending | Matched | InProgress | Submitted | Disputed | Fulfilled | Failed | Expired
| Cancelled | Decomposed.
#[global] Instance TaskStatus_eq_dec : EqDecision TaskStatus.
Proof. solve_decision. Defined.

(** ** Matching preferences *)
Record MatchPreferences : Type := {
  w_semantic : Z;
  w_reputation : Z;
  w_price : Z;
  w_freshness : Z;
  w_stake : Z;
  min_reputation : f64;
  mp_max_price : Z;
  discovery_threshold : Z;
  discovery_boost : Z;
}.
#[global] Instance eta_MatchPreferences : Eta MatchPreferences := fun p =>
  {| w_semantic := w_semantic p; w_reputation := w_reputation p; w_price := w_price p;
     w_freshness := w_freshness p; w_stake := w_stake p; min_reputation := min_reputation p;
     mp_max_price := mp_max_price p; discovery_threshold := discovery_threshold p;
     discovery_boost := discovery_boost p |}.

Definition default_match_preferences : MatchPreferences :=
  {| w_semantic := 30; w_reputation := 30; w_price := 20; w_freshness := 10; w_stake := 10;
     min_reputation := f64_of_Z 0; mp_max_price := 0; discovery_threshold := 10;
     discovery_boost := 15 |}.
Definition quality_first : MatchPreferences :=
  default_match_preferences <| w_reputation := 50 |> <| w_semantic := 30 |> <| w_price := 5 |>
    <| w_freshness := 5 |> <| w_stake := 10 |> <| min_reputation := f64_of_Z 3 |>.
Definition cheapest : MatchPreferences :=
  default_match_preferences <| w_price := 60 |> <| w_reputation := 15 |> <| w_semantic := 15 |>
    <| w_freshness := 5 |> <| w_stake := 5 |>.
Definition discover_new : MatchPreferences :=
  default_match_preferences <| w_freshness := 40 |> <| w_semantic := 30 |> <| w_price := 15 |>
    <| w_reputation := 10 |> <| w_stake := 5 |> <| discovery_boost := 30 |>
    <| discovery_threshold := 20 |>.

(** The divisor of [weights]: a [u16] sum. *)
Definition match_total (p : MatchPreferences) : Z :=
  Z.max (wrap16 (wrap16 (wrap16 (wrap16 (w_semantic p + w_reputation p) + w_price p)
                          + w_freshness p) + w_stake p)) 1.
Definition weights (p : MatchPreferences) : f64 * f64 * f64 * f64 * f64 :=
  let total := f64_of_Z (match_total p) in
  (f64_div (f64_of_Z (w_semantic p)) total, f64_div (f64_of_Z (w_reputation p)) total,
   f64_div (f64_of_Z (w_price p)) total, f64_div (f64_of_Z (w_freshness p)) total,
   f64_div (f64_of_Z (w_stake p)) total).

(** ** The task record *)
Record Task : Type := {
  task_id : Hash256;
  requester : Address;
  description : rstr;
  description_embedding : list f32;
  neural_embedding : list f32;
  required_capabilities : list Capability;
  max_fee : Z;
  priority : Z;
  deadline : Z;
  parameters : list byte;
  status : TaskStatus;
  matched_agent : option Address;
  submitted_at_block : Z;
  agreed_fee : Z;
  challenge_window_ms : Z;
  result_hash : option Hash256;
  submitted_at : option Z;
  challenge_deadline : option Z;
  dispute_reason : option rstr;
  disputed_at : option Z;
  arbitrator : option Address;
  arbitrator_fee_bps : Z;
  arbitration_deadline_at : option Z;
  arbitration_reassignments : Z;
  prior_arbitrators : list Address;
  resolved_by : option Address;
  resolution_agent_wins : option bool;
  resolution_reason : option rstr;
  resolved_at : option Z;
  tools_used : list Hash256;
  verified_tools : list Hash256;
  subtask_ids : list Hash256;
  parent_task : option Hash256;
  dependencies : list Z;
  input_refs : list Hash256;
  match_preferences : MatchPreferences;
  rated : bool;
  requester_submission_neutralized : bool;
  storage_deposit : Z;
}.
#[global] Instance eta_Task : Eta Task := fun t =>
  {| task_id := task_id t; requester := requester t; description := description t;
     description_embedding := description_embedding t; neural_embedding := neural_embedding t;
     required_capabilities := required_capabilities t; max_fee := max_fee t;
     priority := priority t; deadline := deadline t; parameters := parameters t;
     status := status t; matched_agent := matched_agent t;
     submitted_at_block := submitted_at_block t; agreed_fee := agreed_fee t;
     challenge_window_ms := challenge_window_ms t; result_hash := result_hash t;
     submitted_at := submitted_at t; challenge_deadline := challenge_deadline t;
     dispute_reason := dispute_reason t; disputed_at := disputed_at t;
     arbitrator := arbitrator t; arbitrator_fee_bps := arbitrator_fee_bps t;
     arbitration_deadline_at := arbitration_deadline_at t;
     arbitration_reassignments := arbitration_reassignments t;
     prior_arbitrators := prior_arbitrators t; resolved_by := resolved_by t;
     resolution_agent_wins := resolution_agent_wins t; resolution_reason := resolution_reason t;
     resolved_at := resolved_at t; tools_used := tools_used t; verified_tools := verified_tools t;
     subtask_ids := subtask_ids t; parent_task := parent_task t; dependencies := dependencies t;
     input_refs := input_refs t; match_preferences := match_preferences t; rated := rated t;
     requester_submission_neutralized := requester_submission_neutralized t;
     storage_deposit := storage_deposit t |}.

Definition is_expired (t : Task) (current_time_ms : Z) : bool := deadline t <? current_time_ms.
Definition is_matchable (t : Task) : bool := bool_decide (status t = Pending).
Definition is_subtask (t : Task) : bool := bool_decide (is_Some (parent_task t)).

Definition clear_submission_lifecycle (t : Task) : Task :=
  t <| submitted_at := None |> <| challenge_deadline := None |> <| dispute_reason := None |>
    <| disputed_at := None |> <| arbitration_deadline_at := None |>
    <| arbitration_reassignments := 0 |> <| prior_arbitrators := [] |>
    <| arbitrator := None |> <| arbitrator_fee_bps := 0 |>.
Definition clear_resolution_metadata (t : Task) : Task :=
  t <| resolved_by := None |> <| resolution_agent_wins := None |>
    <| resolution_reason := None |> <| resolved_at := None |>.

(** ** Payloads *)
Record TaskSubmitData : Type := {
  ts_description : rstr;
  ts_neural_embedding : option (list f32);
  ts_required_capabilities : list Capability;
  ts_max_fee : Z;
  ts_priority : Z;
  ts_deadline : Z;
  ts_parameters : list byte;
  ts_match_preferences : MatchPreferences;
}.
Record TaskFulfillData : Type := {
  tf_task_id : Hash256;
  tf_result_hash : Hash256;
  tf_result_data : list byte;
  tf_tools_used : list Hash256;
  tf_input_refs : list Hash256;
  tf_receipt_proofs : list Access.ReceiptWithProof;
}.
Record TaskAcceptData : Type := { ta_task_id : Hash256 }.
Record TaskDisputeData : Type := { td_task_id : Hash256; td_reason : rstr }.
Record TaskResolveData : Type := {
  tr_task_id : Hash256;
  tr_agent_wins : bool;
  tr_reason : rstr;
}.
Record TaskFinalizeData : Type := { tz_task_id : Hash256 }.
Record SubTaskDef : Type := {
  sd_description : rstr;
  sd_required_capabilities : list Capability;
  sd_dependencies : list Z;
  sd_escrow : Z;
}.
Record TaskDecomposeData : Type := { dc_task_id : Hash256; dc_subtasks : list SubTaskDef }.

Definition subtask_text `{Hex} (parent_task_id : Hash256) (index : Z) : rstr :=
  hash_to_hex parent_task_id ++ lit ":subtask:" ++ show_u index.
Definition derive_subtask_id `{Hex, Digests} (parent_task_id : Hash256) (index : Z) : Hash256 :=
  hash_bytes (utf8 (subtask_text parent_task_id index)).

(** ** Properties *)

(** Clearing a submission keeps the match, the result and the resolution. *)
Lemma clear_lifecycle_keeps t :
  let c := clear_submission_lifecycle t in
  clear_submission_lifecycle c = c /\
  clear_resolution_metadata c = clear_submission_lifecycle (clear_resolution_metadata t) /\
  (status c, matched_agent c, result_hash c, agreed_fee c, resolved_by c, resolution_agent_wins c)
  = (status t, matched_agent t, result_hash t, agreed_fee t, resolved_by t,
     resolution_agent_wins t).
Proof. destruct t. vm_compute. repeat split. Qed.

(** Task matching weights are normalised by their true sum. The [u16] sum of five
    [u8] weights never wraps, so the divisor is the sum of the weights (one when all are
    zero), each preset adds to a hundred, and the five shares of the default preset are
    the correctly rounded 0.3, 0.3, 0.2, 0.1 and 0.1. *)
Theorem match_weights_exact p :
  Forall is_u8 [w_semantic p; w_reputation p; w_price p; w_freshness p; w_stake p] ->
  match_total p =
    Z.max (sumZ [w_semantic p; w_reputation p; w_price p; w_freshness p; w_stake p]) 1 /\
  ((fun q => match_total q) <$> [default_match_preferences; quality_first; cheapest; discover_new])
    = [100; 100; 100; 100] /\
  weights default_match_preferences =
    (f64_div (f64_of_Z 3) (f64_of_Z 10), f64_div (f64_of_Z 3) (f64_of_Z 10),
     f64_div (f64_of_Z 2) (f64_of_Z 10), f64_div (f64_of_Z 1) (f64_of_Z 10),
     f64_div (f64_of_Z 1) (f64_of_Z 10)).
Proof.
  rewrite !Forall_cons. intros (H1 & H2 & H3 & H4 & H5 & _).
  split; [|split; by vm_compute].
  unfold match_total. cbn [sumZ foldr].
  assert (forall z, 0 <= z <= U16_MAX -> wrap16 z = z) as Hw
    by (intros z Hz; unfold wrap16; rewrite Z.mod_small; mlia).
  unfold is_u8, U8_MAX, U16_MAX in *.
  rewrite (Hw (w_semantic p + w_reputation p)), (Hw (_ + w_price p)),
    (Hw (_ + w_freshness p)), (Hw (_ + w_stake p)) by lia. lia.
Qed.

Section Ids.
Context `{Digests, HexLaws}.

Lemma hash_to_hex_inj (a b : Hash256) : hash_to_hex a = hash_to_hex b -> a = b.
Proof.
  unfold hash_to_hex. intros E. apply (f_equal hex_decode) in E.
  rewrite !hex_decode_encode in E. apply bytesN_eq. congruence.
Qed.
Lemma hash_to_hex_length (a : Hash256) : length (hash_to_hex a) = 64%nat.
Proof.
  unfold hash_to_hex. by rewrite (hex_decode_length _ _ (hex_decode_encode (bn a))), bn_length.
Qed.
Lemma hash_to_hex_scalar (a : Hash256) : Forall is_scalar (hash_to_hex a).
Proof.
  apply Forall_forall. intros c Hc%hex_encode_digits. unfold is_scalar. lia.
Qed.

(** Subtask identifiers. When the digest does not collide on the two texts, equal
    subtask ids mean the same parent and the same index, so the subtasks of one
    decomposition have distinct ids. *)
Theorem subtask_id_binds p1 p2 i1 i2 :
  0 <= i1 -> 0 <= i2 ->
  collision_free [utf8 (subtask_text p1 i1); utf8 (subtask_text p2 i2)] ->
  derive_subtask_id p1 i1 = derive_subtask_id p2 i2 -> p1 = p2 /\ i1 = i2.
Proof.
  intros N1 N2 Hc E. apply Hc in E; [|set_solver..].
  apply utf8_inj in E; [|unfold subtask_text; rewrite !Forall_app;
    auto using hash_to_hex_scalar, lit_scalar, show_u_scalar..].
  unfold subtask_text in E. apply app_inj_1 in E as [Ep E]; [|by rewrite !hash_to_hex_length].
  apply hash_to_hex_inj in Ep as ->. apply app_inv_head in E. by apply show_u_inj in E.
Qed.
End Ids.
End Task.

(** ** Witnesses *)
Module TaskWitness.
Import Task.

Definition greedy : MatchPreferences :=
  default_match_preferences <| w_semantic := 255 |> <| w_reputation := 255 |>
    <| w_price := 255 |> <| w_freshness := 255 |> <| w_stake := 255 |>.

Lemma match_weights_exact_witness : match_total greedy = 1275.
Proof.
  assert (Forall is_u8 [w_semantic greedy; w_reputation greedy; w_price greedy;
    w_freshness greedy; w_stake greedy]) as Hu by (repeat constructor; by_compute).
  destruct (match_weights_exact greedy Hu) as (T & _). exact T.
Defined.

Lemma subtask_id_binds_witness : hash_zero = hash_zero /\ 3 = 3.
Proof.
  apply (subtask_id_binds hash_zero hash_zero 3 3); [lia|lia| |reflexivity].
  apply collision_freeb_ok. by vm_compute.
Defined.
End TaskWitness.
