(* ===== verification/Agent.v ===== *)
(** * Agents

    Models [primitives/agent.rs] but for the reputation records of [Reputation]: the agent
    identity with its two ring buffers and its feedback embedding, the usable score, the
    matching score, the public view, and the payloads and events. *)
From S2P Require Import Prelude Crypto Float Reputation Instances Capability ToolVerifier Task.
Import Capability Config.

Module Agent.

(** ** Well-known capabilities *)
Section WellKnown.
Context (to_lowercase : rstr -> rstr).
Definition text_generation : Capability := new_capability to_lowercase (lit "ai.text.generation").
Definition image_generation : Capability := new_capability to_lowercase (lit "ai.image.generation").
Definition code_execution : Capability := new_capability to_lowercase (lit "ai.code.execution").
Definition data_analysis : Capability := new_capability to_lowercase (lit "ai.data.analysis").
Definition web_search : Capability := new_capability to_lowercase (lit "ai.web.search").
Definition translation : Capability := new_capability to_lowercase (lit "ai.text.translation").
Definition summarization : Capability := new_capability to_lowercase (lit "ai.text.summarization").
Definition trading : Capability := new_capability to_lowercase (lit "finance.trading").
Definition reasoning : Capability := new_capability to_lowercase (lit "ai.reasoning").
Definition tool_use : Capability := new_capability to_lowercase (lit "ai.tool.use").
Definition audio_processing : Capability := new_capability to_lowercase (lit "ai.audio.processing").
Definition video_processing : Capability := new_capability to_lowercase (lit "ai.video.processing").
Definition embedding_capability : Capability := new_capability to_lowercase (lit "ai.embedding").
Definition fine_tuning : Capability := new_capability to_lowercase (lit "ai.fine-tuning").
Definition validation : Capability := new_capability to_lowercase (lit "ai.validation").
Definition well_known : list Capability :=
  [text_generation; image_generation; code_execution; data_analysis; web_search; translation; summarization; trading; reasoning; tool_use; audio_processing; video_processing; embedding_capability; fine_tuning; validation].
End WellKnown.

(** ** Payloads and events *)
Record AgentRegisterData : Type := {
  ar_name : rstr;
  ar_description : rstr;
  ar_neural_embedding : option (list f32);
  ar_model_hash : Hash256;
  ar_capabilities : list Capability;
  ar_metadata : list byte;
  ar_min_fee : Z;
  ar_fee_schedule : list (rstr * Z);
}.
Record AgentUpdateData : Type := {
  au_name : option rstr;
  au_description : option rstr;
  au_neural_embedding : option (list f32);
  au_model_hash : option Hash256;
  au_capabilities : option (list Capability);
  au_metadata : option (list byte);
  au_active : option bool;
  au_min_fee : option Z;
  au_fee_schedule : option (list (rstr * Z));
}.
Record ReputationUpdateData : Type := {
  ru_task_id : Hash256;
  ru_quality_score : f64;
  ru_requester_accepted : bool;
  ru_feedback : rstr;
}.


Definition not_finite_message (q : f64) : message :=
  Msg "quality_score must be finite, got {}" [AFloat q].
Definition out_of_range_message (q : f64) : message :=
  Msg "quality_score must be within [0.0, 10.0], got {}" [AFloat q].
Definition validate (d : ReputationUpdateData) : result message unit :=
  _ ← ensure (is_finite (ru_quality_score d)) (not_finite_message (ru_quality_score d));
  ensure (f64_leb (f64_of_Z 0) (ru_quality_score d) && f64_leb (ru_quality_score d) (f64_of_Z 10))
    (out_of_range_message (ru_quality_score d)).

Record FeedbackEntry : Type := {
  fe_reviewer : Address;
  fe_task_id : Hash256;
  fe_quality : f64;
  fe_requester_accepted : bool;
  fe_text : rstr;
  fe_embedding : list f32;
  fe_timestamp : Z;
  fe_task_fee : Z;
}.

Definition MAX_FEEDBACK_ENTRIES : Z := 50.
Definition MAX_REPUTATION_EVENTS : Z := 100.

Inductive ReputationEventType : Type :=
| TaskCompleted | QualityRating | TaskFailed | AgreementCompleted | DisputeWon | DisputeLost
| AgreementExpired.

Record ReputationEvent : Type := {
  ev_event_type : ReputationEventType;
  ev_reference_id : Hash256;
  ev_counterparty : Address;
  ev_score_before : f64;
  ev_score_after : f64;
  ev_value : Z;
  ev_submitted_quality : option f64;
  ev_effective_quality : option f64;
  ev_requester_accepted : option bool;
  ev_timestamp : Z;
  ev_storage_deposit : Z;
}.

Definition score_change (event_type : ReputationEventType) (reference_id : Hash256)
    (counterparty : Address) (score_before score_after : f64) (value timestamp : Z)
    : ReputationEvent :=
  {| ev_event_type := event_type; ev_reference_id := reference_id;
     ev_counterparty := counterparty; ev_score_before := score_before;
     ev_score_after := score_after; ev_value := value; ev_submitted_quality := None;
     ev_effective_quality := None; ev_requester_accepted := None; ev_timestamp := timestamp;
     ev_storage_deposit := 0 |}.
Definition quality_rating (reference_id : Hash256) (counterparty : Address)
    (score_before score_after : f64) (value : Z) (submitted_quality effective_quality : f64)
    (requester_accepted : bool) (timestamp : Z) : ReputationEvent :=
  {| ev_event_type := QualityRating; ev_reference_id := reference_id;
     ev_counterparty := counterparty; ev_score_before := score_before;
     ev_score_after := score_after; ev_value := value;
     ev_submitted_quality := Some submitted_quality;
     ev_effective_quality := Some effective_quality;
     ev_requester_accepted := Some requester_accepted; ev_timestamp := timestamp;
     ev_storage_deposit := 0 |}.

(** ** Agent identities *)
Record AgentIdentity : Type := {
  address : Address;
  name : rstr;
  description : rstr;
  description_embedding : list f32;
  neural_embedding : list f32;
  model_hash : Hash256;
  capabilities : list Capability;
  owner : Address;
  stake : Z;
  reputation : Reputation.ReputationData;
  registered_at_block : Z;
  registered_at : Z;
  active : bool;
  deregistered_at : Z;
  metadata : list byte;
  feedback : list FeedbackEntry;
  feedback_embedding : list f32;
  reputation_history : list ReputationEvent;
  min_fee : Z;
  fee_schedule : list (rstr * Z);
  storage_deposit : Z;
}.
#[global] Instance eta_AgentIdentity : Eta AgentIdentity := fun r =>
  {| address := address r; name := name r; description := description r;
     description_embedding := description_embedding r;
     neural_embedding := neural_embedding r; model_hash := model_hash r;
     capabilities := capabilities r; owner := owner r; stake := stake r;
     reputation := reputation r; registered_at_block := registered_at_block r;
     registered_at := registered_at r; active := active r;
     deregistered_at := deregistered_at r; metadata := metadata r; feedback := feedback r;
     feedback_embedding := feedback_embedding r;
     reputation_history := reputation_history r; min_fee := min_fee r;
     fee_schedule := fee_schedule r; storage_deposit := storage_deposit r |}.
Record AgentReputationView : Type := {
  rw_stored_score : f64;
  rw_stake_backed_score_cap : f64;
  rw_backed_score : f64;
  rw_effective_score : f64;
  rw_tasks_completed : Z;
  rw_tasks_failed : Z;
  rw_cumulative_quality : f64;
  rw_disputes_won : Z;
  rw_disputes_lost : Z;
  rw_last_updated : Z;
  rw_total_value_completed : Z;
  rw_value_weighted_quality : f64;
  rw_ratings_received : Z;
  rw_total_value_rated : Z;
  rw_avg_quality : f64;
  rw_weighted_avg_quality : f64;
  rw_reliability : f64;
  rw_days_inactive : f64;
  rw_dispute_loss_ratio : option f64;
  rw_dispute_penalty : option f64;
}.
Record AgentPublicView : Type := {
  pv_address : Address;
  pv_name : rstr;
  pv_description : rstr;
  pv_description_embedding : list f32;
  pv_neural_embedding : list f32;
  pv_model_hash : Hash256;
  pv_capabilities : list Capability;
  pv_owner : Address;
  pv_stake : Z;
  pv_reputation : AgentReputationView;
  pv_registered_at_block : Z;
  pv_registered_at : Z;
  pv_active : bool;
  pv_deregistered_at : Z;
  pv_metadata : list byte;
  pv_feedback : list FeedbackEntry;
  pv_feedback_embedding : list f32;
  pv_recent_reputation_events : list ReputationEvent;
  pv_reputation_history_total : Z;
  pv_min_fee : Z;
  pv_fee_schedule : list (rstr * Z);
  pv_storage_deposit : Z;
}.

Definition new_agent (addr : Address) (nm desc : rstr) (desc_embedding : list f32)
    (model : Hash256) (caps : list Capability) (own : Address) : AgentIdentity :=
  {| address := addr; name := nm; description := desc;
     description_embedding := desc_embedding; neural_embedding := []; model_hash := model;
     capabilities := caps; owner := own; stake := 0;
     reputation := Reputation.default_reputation; registered_at_block := 0;
     registered_at := 0; active := true; deregistered_at := 0; metadata := []; feedback := [];
     feedback_embedding := []; reputation_history := []; min_fee := 0; fee_schedule := [];
     storage_deposit := 0 |}.

(** The ring buffers: the oldest entry is removed when the buffer is full. *)
Definition ring_push {T} (cap : Z) (buffer : list T) (x : T) : list T :=
  let buffer := if cap <=? Z.of_nat (length buffer) then drop 1 buffer else buffer in
  buffer ++ [x].

(** The exponential moving average of [add_feedback]. *)
Definition blend_feedback (current : list f32) (entry : FeedbackEntry) : list f32 :=
  let embedding := fe_embedding entry in
  if bool_decide (embedding = []) then current
  else
    let weight := f64_clamp (f64_div (f64_of_Z (fe_task_fee entry)) (f64_of_Z 1000000))
                    (f64_lit 1 10) (f64_of_Z 10) in
    if bool_decide (current = []) then embedding
    else if bool_decide (length current = length embedding) then
      let alpha := f32_of_f64 (f64_div weight (f64_add weight (f64_of_Z 5))) in
      zip_with (fun val e => f32_add (f32_mul val (f32_sub (f32_of_Z 1) alpha)) (f32_mul e alpha))
        current embedding
    else current.
Definition add_feedback (a : AgentIdentity) (entry : FeedbackEntry) : AgentIdentity :=
  a <| feedback_embedding := blend_feedback (feedback_embedding a) entry |>
    <| feedback := ring_push MAX_FEEDBACK_ENTRIES (feedback a) entry |>.
Definition add_reputation_event (a : AgentIdentity) (event : ReputationEvent) : AgentIdentity :=
  a <| reputation_history := ring_push MAX_REPUTATION_EVENTS (reputation_history a) event |>.

Definition effective_embedding (a : AgentIdentity) (params : MatchingProtocolParams)
    : list f32 :=
  if bool_decide (feedback_embedding a = []) || bool_decide (description_embedding a = [])
  then description_embedding a
  else if negb (bool_decide (length (feedback_embedding a) = length (description_embedding a)))
  then description_embedding a
  else
    let feedback_count := f64_of_Z (Z.of_nat (length (feedback a))) in
    let saturation_count := f64_of_Z (Z.max (feedback_blend_saturation_count params) 1) in
    let feedback_weight :=
      f64_min (f64_div feedback_count saturation_count) (feedback_blend_max_weight params) in
    let desc_weight := f64_sub (f64_of_Z 1) feedback_weight in
    zip_with (fun d f => f32_add (f32_mul d (f32_of_f64 desc_weight))
                           (f32_mul f (f32_of_f64 feedback_weight)))
      (description_embedding a) (feedback_embedding a).

(** ** The usable score *)
Definition reputation_score_cap (a : AgentIdentity) (params : MatchingProtocolParams) : f64 :=
  let stake_per_point := agent_stake_per_reputation_point params in
  if stake_per_point =? 0 then f64_of_Z 100
  else f64_clamp (f64_div (f64_of_Z (stake a)) (f64_of_Z stake_per_point))
         (f64_of_Z 0) (f64_of_Z 100).
Definition backed_reputation_score (a : AgentIdentity) (params : MatchingProtocolParams) : f64 :=
  f64_min (Reputation.score (reputation a)) (reputation_score_cap a params).
Definition effective_reputation_score (powf : f64 -> f64 -> f64) (a : AgentIdentity)
    (current_time_ms : Z) (params : MatchingProtocolParams) : f64 :=
  f64_min (Reputation.effective_score powf (reputation a) current_time_ms)
    (reputation_score_cap a params).
Definition clamp_reputation_to_backing (a : AgentIdentity) (params : MatchingProtocolParams)
    : AgentIdentity :=
  let cap := reputation_score_cap a params in
  if f64_gtb (Reputation.score (reputation a)) cap
  then a <| reputation := update Reputation.score (fun _ => cap) (reputation a) |> else a.

(** ** The public view *)
Definition loss_ratio (r : Reputation.ReputationData) (total_disputes : Z) : f64 :=
  f64_div (f64_of_Z (Reputation.disputes_lost r)) (f64_of_Z total_disputes).
Definition penalty_of (r : Reputation.ReputationData) (ratio : f64) : f64 :=
  f64_mul (f64_mul ratio (f64_of_Z 5))
    (f64_min (f64_of_Z (Reputation.disputes_lost r)) (f64_of_Z 10)).

Definition read_view_with_reputation_history_total (powf : f64 -> f64 -> f64)
    (a : AgentIdentity) (current_time_ms : Z) (params : MatchingProtocolParams)
    (reputation_history_total : Z) : AgentPublicView :=
  let r := reputation a in
  let total_disputes := sat_add (Reputation.disputes_won r) (Reputation.disputes_lost r) in
  let dispute_loss_ratio :=
    if 0 <? total_disputes then Some (loss_ratio r total_disputes) else None in
  let dispute_penalty := penalty_of r <$> dispute_loss_ratio in
  {| pv_address := address a; pv_name := name a; pv_description := description a;
     pv_description_embedding := description_embedding a;
     pv_neural_embedding := neural_embedding a; pv_model_hash := model_hash a;
     pv_capabilities := capabilities a; pv_owner := owner a; pv_stake := stake a;
     pv_reputation :=
       {| rw_stored_score := Reputation.score r;
          rw_stake_backed_score_cap := reputation_score_cap a params;
          rw_backed_score := backed_reputation_score a params;
          rw_effective_score := effective_reputation_score powf a current_time_ms params;
          rw_tasks_completed := Reputation.tasks_completed r;
          rw_tasks_failed := Reputation.tasks_failed r;
          rw_cumulative_quality := Reputation.cumulative_quality r;
          rw_disputes_won := Reputation.disputes_won r;
          rw_disputes_lost := Reputation.disputes_lost r;
          rw_last_updated := Reputation.last_updated r;
          rw_total_value_completed := Reputation.total_value_completed r;
          rw_value_weighted_quality := Reputation.value_weighted_quality r;
          rw_ratings_received := Reputation.ratings_received r;
          rw_total_value_rated := Reputation.total_value_rated r;
          rw_avg_quality := Reputation.avg_quality r;
          rw_weighted_avg_quality := Reputation.weighted_avg_quality r;
          rw_reliability := Reputation.reliability r;
          rw_days_inactive := Reputation.days_inactive r current_time_ms;
          rw_dispute_loss_ratio := dispute_loss_ratio;
          rw_dispute_penalty := dispute_penalty |};
     pv_registered_at_block := registered_at_block a; pv_registered_at := registered_at a;
     pv_active := active a; pv_deregistered_at := deregistered_at a;
     pv_metadata := metadata a; pv_feedback := feedback a;
     pv_feedback_embedding := feedback_embedding a;
     pv_recent_reputation_events := reputation_history a;
     pv_reputation_history_total := reputation_history_total; pv_min_fee := min_fee a;
     pv_fee_schedule := fee_schedule a; pv_storage_deposit := storage_deposit a |}.
Definition read_view (powf : f64 -> f64 -> f64) (a : AgentIdentity) (current_time_ms : Z)
    (params : MatchingProtocolParams) : AgentPublicView :=
  read_view_with_reputation_history_total powf a current_time_ms params
    (Z.of_nat (length (reputation_history a))).

(** ** Matching *)
Definition has_capability (a : AgentIdentity) (cap : Capability) : bool :=
  bool_decide (cap ∈ capabilities a).
Definition has_all_capabilities (a : AgentIdentity) (caps : list Capability) : bool :=
  forallb (has_capability a) caps.

(** Unlike the view, the scores add the dispute counters without saturation. *)
Definition dispute_deduction (r : Reputation.ReputationData) (score : f64) : f64 :=
  let total_disputes := wrap64 (Reputation.disputes_won r + Reputation.disputes_lost r) in
  if 0 <? total_disputes then f64_sub score (penalty_of r (loss_ratio r total_disputes))
  else score.
Definition stake_points (a : AgentIdentity) : f64 :=
  f64_min (f64_div (f64_of_Z (stake a)) (f64_of_Z 1000000)) (f64_of_Z 100).

Definition base_score (a : AgentIdentity) : f64 :=
  let r := reputation a in
  let score :=
    f64_add (f64_add (f64_mul (Reputation.score r) (f64_lit 6 10))
               (f64_mul (f64_mul (Reputation.reliability r) (f64_of_Z 100)) (f64_lit 3 10)))
      (f64_mul (stake_points a) (f64_lit 1 10)) in
  f64_max (dispute_deduction r score) (f64_of_Z 0).

Definition quoted_price_score (quoted_fee fee_budget : Z) : f64 :=
  if 0 <? fee_budget then
    let fee_ratio := f64_min (f64_div (f64_of_Z quoted_fee) (f64_of_Z fee_budget)) (f64_of_Z 1) in
    f64_mul (f64_sub (f64_of_Z 1) fee_ratio) (f64_of_Z 100)
  else f64_of_Z 50.
Definition eligible_for_discovery_boost (a : AgentIdentity) (current_block : Z)
    (params : MatchingProtocolParams) : bool :=
  let blocks_since_registration := sat_sub current_block (registered_at_block a) in
  (discovery_min_age_blocks params <=? blocks_since_registration) &&
  (discovery_min_stake params <=? stake a).
Definition freshness_score (resolved_tasks : Z) : f64 :=
  f64_mul (f64_sub (f64_of_Z 1)
    (f64_sqrt (f64_min (f64_div (f64_of_Z resolved_tasks) (f64_of_Z 100)) (f64_of_Z 1))))
    (f64_of_Z 100).

Definition matching_score_core (powf : f64 -> f64 -> f64) (a : AgentIdentity)
    (semantic_similarity : f64) (prefs : Task.MatchPreferences) (price_score : f64)
    (now_ms current_block : Z) (params : MatchingProtocolParams) : f64 :=
  let '(ws, wr, wp, wf, wk) := Task.weights prefs in
  let semantic :=
    f64_mul (f64_clamp semantic_similarity (f64_of_Z 0) (f64_of_Z 1)) (f64_of_Z 100) in
  let reputation_points :=
    f64_min (effective_reputation_score powf a now_ms params) (f64_of_Z 100) in
  let resolved_tasks := Reputation.resolved_task_count (reputation a) in
  let freshness := freshness_score resolved_tasks in
  let score :=
    f64_add (f64_add (f64_add (f64_add (f64_mul semantic ws) (f64_mul reputation_points wr))
      (f64_mul price_score wp)) (f64_mul freshness wf)) (f64_mul (stake_points a) wk) in
  let score :=
    if (0 <? Task.discovery_threshold prefs) &&
       (resolved_tasks <? Task.discovery_threshold prefs) &&
       eligible_for_discovery_boost a current_block params
    then f64_add score (f64_of_Z (Task.discovery_boost prefs)) else score in
  f64_max (dispute_deduction (reputation a) score) (f64_of_Z 0).
Definition matching_score (powf : f64 -> f64 -> f64) (a : AgentIdentity)
    (semantic_similarity : f64) (prefs : Task.MatchPreferences) (quoted_fee fee_budget : Z)
    (now_ms current_block : Z) (params : MatchingProtocolParams) : f64 :=
  matching_score_core powf a semantic_similarity prefs (quoted_price_score quoted_fee fee_budget)
    now_ms current_block params.

(** ** Properties *)

(** *** Ring buffers *)
Definition latest {T} (cap : Z) (l : list T) : list T := drop (length l - Z.to_nat cap) l.

Lemma ring_push_latest {T} cap (l : list T) x :
  0 < cap -> Z.of_nat (length l) <= cap -> ring_push cap l x = latest cap (l ++ [x]).
Proof.
  intros Hc Hl. unfold ring_push, latest. rewrite length_app. cbn.
  destruct (cap <=? Z.of_nat (length l)) eqn:E.
  - apply Z.leb_le in E. replace (length l + 1 - Z.to_nat cap)%nat with 1%nat by lia.
    destruct l; [cbn in *; lia|done].
  - apply Z.leb_gt in E. by replace (length l + 1 - Z.to_nat cap)%nat with 0%nat by lia.
Qed.

Lemma latest_length {T} cap (l : list T) :
  0 <= cap -> Z.of_nat (length (latest cap l)) = Z.min cap (Z.of_nat (length l)).
Proof. intros. unfold latest. rewrite length_drop. lia. Qed.

Lemma latest_app {T} cap (l m : list T) : latest cap (latest cap l ++ m) = latest cap (l ++ m).
Proof.
  unfold latest. set (n := Z.to_nat cap). rewrite !length_app, length_drop.
  destruct (Nat.le_gt_cases (length l) n).
  - replace (length l - n)%nat with 0%nat by lia. rewrite drop_0. f_equal. lia.
  - rewrite <- (drop_app_le l m (length l - n)), drop_drop by lia. f_equal. lia.
Qed.

Lemma ring_run {T} cap (xs l : list T) :
  0 < cap -> Z.of_nat (length l) <= cap ->
  foldl (ring_push cap) l xs = latest cap (l ++ xs).
Proof.
  intros Hc. revert l. induction xs as [|x xs IH]; intros l Hl; cbn [foldl].
  - rewrite app_nil_r. unfold latest. by replace (length l - _)%nat with 0%nat by lia.
  - rewrite ring_push_latest by done. rewrite IH by (rewrite latest_length; lia).
    rewrite latest_app. by rewrite <- app_assoc.
Qed.

(** A run on a record whose steps act on one field by [f] and keep another. *)
Lemma run_field {S A B} (get : S -> B) (op : S -> A -> S) (f : B -> A -> B) s xs :
  (forall s x, get (op s x) = f (get s) x) -> get (foldl op s xs) = foldl f (get s) xs.
Proof.
  intros H. revert s. induction xs as [|x xs IH]; intros s; [done|].
  cbn [foldl]. by rewrite IH, H.
Qed.
Lemma run_constant {S A B} (get : S -> B) (op : S -> A -> S) s xs :
  (forall s x, get (op s x) = get s) -> get (foldl op s xs) = get s.
Proof. intros H. rewrite (run_field get op (fun b _ => b)) by done. by induction xs. Qed.

Lemma blend_feedback_length current entry :
  length (blend_feedback current entry)
  = if bool_decide (current = []) then length (fe_embedding entry) else length current.
Proof.
  unfold blend_feedback. case_bool_decide as E1; [rewrite E1; by case_bool_decide; subst|].
  case_bool_decide as E2; [done|]. case_bool_decide as E3; [|done].
  rewrite length_zip_with. lia.
Qed.

Definition profile_fits (a : AgentIdentity) : Prop :=
  Z.of_nat (length (feedback a)) <= MAX_FEEDBACK_ENTRIES /\
  Z.of_nat (length (reputation_history a)) <= MAX_REPUTATION_EVENTS.

(** C39: An agent's profile under any feedback and events. The two ring buffers hold exactly
    the latest fifty feedback entries and the latest hundred events, oldest first, so they
    never outgrow their limits; the score, the stake and the declared embedding are not
    touched; once feedback has fixed the dimension of its embedding no later entry changes
    it; and the effective embedding always has the dimension of the declared one. *)
Theorem agent_profile_bounded a es evs params :
  profile_fits a ->
  let a' := foldl add_reputation_event (foldl add_feedback a es) evs in
  profile_fits a' /\
  feedback a' = latest MAX_FEEDBACK_ENTRIES (feedback a ++ es) /\
  reputation_history a' = latest MAX_REPUTATION_EVENTS (reputation_history a ++ evs) /\
  (reputation a', stake a', description_embedding a')
    = (reputation a, stake a, description_embedding a) /\
  (feedback_embedding a <> [] -> length (feedback_embedding a') = length (feedback_embedding a)) /\
  length (effective_embedding a' params) = length (description_embedding a').
Proof.
  intros [H1 H2]. cbn zeta. set (b := foldl add_feedback a es).
  assert (feedback b = latest MAX_FEEDBACK_ENTRIES (feedback a ++ es)) as Eb.
  { subst b. rewrite (run_field feedback add_feedback (ring_push MAX_FEEDBACK_ENTRIES)) by done.
    by apply ring_run. }
  assert (feedback (foldl add_reputation_event b evs) = feedback b) as Ef
    by (by apply (run_constant feedback)).
  assert (reputation_history (foldl add_reputation_event b evs)
          = latest MAX_REPUTATION_EVENTS (reputation_history a ++ evs)) as Eh.
  { rewrite (run_field reputation_history add_reputation_event (ring_push MAX_REPUTATION_EVENTS))
      by done.
    subst b. rewrite (run_constant reputation_history) by done. by apply ring_run. }
  split; [|split; [|split; [|split; [|split]]]].
  - unfold profile_fits. rewrite Ef, Eb, Eh, !latest_length by done. lia.
  - by rewrite Ef.
  - done.
  - subst b. rewrite (run_constant (fun a => (reputation a, stake a, description_embedding a))
      add_reputation_event) by done.
    by rewrite (run_constant (fun a => (reputation a, stake a, description_embedding a))).
  - intros Hne. rewrite (run_constant feedback_embedding add_reputation_event) by done.
    subst b. rewrite (run_field feedback_embedding add_feedback blend_feedback) by done.
    clear -Hne. revert Hne. generalize (feedback_embedding a) as c.
    induction es as [|e es IH]; intros c Hne; [done|]. cbn [foldl].
    pose proof (blend_feedback_length c e) as L. rewrite bool_decide_eq_false_2 in L by done.
    rewrite IH; [done|]. intros E. rewrite E in L. by destruct c.
  - unfold effective_embedding. destruct (bool_decide _ || _); [done|].
    case_bool_decide as E; cbn [negb]; [|done]. rewrite length_zip_with. lia.
Qed.

(** *** The usable score *)
Lemma score_cap_ok a params :
  is_u64 (stake a) -> is_u64 (agent_stake_per_reputation_point params) ->
  Reputation.score_ok (reputation_score_cap a params) = true.
Proof.
  intros Hs Hp. unfold reputation_score_cap. destruct (_ =? 0) eqn:E; [by vm_compute|].
  apply clamp_between; [by vm_compute|]. apply Z.eqb_neq in E.
  apply quotient_not_nan; [done|unfold is_u64 in Hp; lia].
Qed.

Lemma min_ok s c :
  Reputation.score_ok c = true -> Reputation.score_ok s = true ->
  Reputation.score_ok (f64_min s c) = true.
Proof.
  intros C S. pose proof (between_not_nan _ _ _ C). pose proof (between_not_nan _ _ _ S).
  rewrite min_numbers by done. by destruct (f64_ltb c s).
Qed.

(** The usable reputation is backed by stake. The cap lies within [0, 100], and neither
    the backed nor the decayed score exceeds it, whatever the stored score and the power
    function; a stored score within [0, 100] stays so. A stored NaN reads as the whole cap,
    and enforcing the cap on the record does not remove it; otherwise enforcing the cap
    brings the stored score to the backed one. *)
Theorem usable_score_backed powf a now params :
  is_u64 (stake a) -> is_u64 (agent_stake_per_reputation_point params) ->
  let cap := reputation_score_cap a params in
  let stored := Reputation.score (reputation a) in
  Reputation.score_ok cap = true /\
  f64_leb (backed_reputation_score a params) cap = true /\
  f64_leb (effective_reputation_score powf a now params) cap = true /\
  (Reputation.score_ok stored = true ->
     Reputation.score_ok (backed_reputation_score a params) = true) /\
  (if is_nan stored
   then backed_reputation_score a params = cap /\ clamp_reputation_to_backing a params = a
   else Reputation.score (reputation (clamp_reputation_to_backing a params))
        = backed_reputation_score a params).
Proof.
  intros Hs Hp. cbn zeta. pose proof (score_cap_ok a params Hs Hp) as C.
  pose proof (between_not_nan _ _ _ C) as N.
  split; [done|split; [by apply min_leb|split; [by apply min_leb|split; [by apply min_ok|]]]].
  unfold clamp_reputation_to_backing, backed_reputation_score.
  set (cap := reputation_score_cap a params) in *. unfold f64_gtb. change SFltb with f64_ltb.
  destruct (is_nan (Reputation.score (reputation a))) eqn:E.
  - destruct (Reputation.score (reputation a)); try done. split; [done|]. by destruct cap.
  - rewrite min_numbers by done. by destruct (f64_ltb cap _).
Qed.

(** *** Matching *)

(** What the scores look at: nothing an agent says about itself. *)
Definition same_record (a b : AgentIdentity) : Prop :=
  reputation a = reputation b /\ stake a = stake b /\
  registered_at_block a = registered_at_block b.

Lemma quoted_price_between quoted_fee fee_budget :
  is_u64 quoted_fee -> is_u64 fee_budget ->
  is_nan (quoted_price_score quoted_fee fee_budget) = false.
Proof.
  intros Hq Hb. unfold quoted_price_score. destruct (0 <? fee_budget) eqn:E; [|by vm_compute].
  apply Z.ltb_lt in E. apply mul_not_nan_r; [|by vm_compute..].
  apply sub_not_nan; [by vm_compute|].
  rewrite min_numbers; [|apply quotient_not_nan; [done|unfold is_u64 in Hb; lia]|by vm_compute].
  destruct (f64_ltb _ _); [by vm_compute|].
  apply quotient_not_nan; [done|unfold is_u64 in Hb; lia].
Qed.

(** Matching scores are total and impartial. For every agent, similarity, preferences,
    fees and parameters, even when the similarity, the stored score or the power function is
    a NaN, the matching score and the base score are numbers and at least zero; the price
    term is a number for every pair of fees, and neutral without a budget; and two agents
    with the same reputation, stake and age score the same. *)
Theorem matching_score_total powf a b similarity prefs quoted_fee fee_budget now block params :
  is_u64 quoted_fee -> is_u64 fee_budget ->
  f64_leb (f64_of_Z 0)
    (matching_score powf a similarity prefs quoted_fee fee_budget now block params) = true /\
  f64_leb (f64_of_Z 0) (base_score a) = true /\
  is_nan (quoted_price_score quoted_fee fee_budget) = false /\
  quoted_price_score quoted_fee 0 = f64_of_Z 50 /\
  (same_record a b ->
     matching_score powf a similarity prefs quoted_fee fee_budget now block params
     = matching_score powf b similarity prefs quoted_fee fee_budget now block params /\
     base_score a = base_score b).
Proof.
  intros Hq Hb. split; [|split; [apply max_zero|split; [by apply quoted_price_between|split; [done|]]]].
  - unfold matching_score, matching_score_core. destruct (Task.weights prefs) as [[[[? ?] ?] ?] ?].
    apply max_zero.
  - intros (E1 & E2 & E3).
    unfold matching_score, matching_score_core, base_score, effective_reputation_score,
      reputation_score_cap, stake_points, eligible_for_discovery_boost.
    by rewrite E1, E2, E3.
Qed.

(** *** Ratings *)

(** A reputation update is accepted exactly when its quality is a number in [0, 10]; a
    quality that is no finite number is refused as such, any other as out of range.
    Ratings that pass the check keep an agent's score within [0, 100]. *)
Theorem reputation_update_checked d r fee t :
  (validate d = Ok () <-> between (f64_of_Z 0) (f64_of_Z 10) (ru_quality_score d) = true) /\
  (validate d = Err (not_finite_message (ru_quality_score d))
     <-> is_finite (ru_quality_score d) = false) /\
  (validate d = Ok () -> Reputation.score_ok (Reputation.score r) = true ->
   Reputation.score_ok (Reputation.score
     (Reputation.record_rating r (ru_quality_score d) fee t)) = true).
Proof.
  assert (validate d = Ok () <-> between (f64_of_Z 0) (f64_of_Z 10) (ru_quality_score d) = true) as E.
  { unfold validate. fold (between (f64_of_Z 0) (f64_of_Z 10) (ru_quality_score d)).
    destruct (between _ _ _) eqn:B.
    - by rewrite (between_finite (f64_of_Z 0) (f64_of_Z 10) _ eq_refl eq_refl B).
    - by destruct (is_finite _). }
  split; [done|split].
  - unfold validate. destruct (is_finite _); [|done].
    split; [|done]. by destruct (_ && _).
  - intros V S. apply (Reputation.apply_op_score r (Reputation.Rating (ru_quality_score d) fee t)); [|done].
    exact (between_not_nan _ _ _ (proj1 E V)).
Qed.

(** The well-known capabilities are distinct valid slugs (for a lowering that keeps
    lower-case text). *)
Lemma well_known_slugs :
  NoDup (as_str <$> well_known id) /\
  Forall (fun c => normalize_capability_slug (as_str c) = Ok (as_str c)) (well_known id).
Proof.
  split; [apply (bool_decide_unpack _); by vm_compute|].
  repeat (constructor; [by vm_compute|]). constructor.
Qed.
End Agent.

(** ** Witnesses *)
Module AgentWitness.
Import Agent.

Definition zero_hash : Hash256 := hash_zero.
Definition helper : AgentIdentity :=
  update reputation
    (fun r => update Reputation.score (fun _ => f64_of_Z 80) r)
    (update stake (fun _ => 5000000)
      (new_agent address_zero (lit "helper") [] [f32_of_Z 1; f32_of_Z 2] hash_zero [] address_zero)).
Definition praise (fee : Z) : FeedbackEntry :=
  {| fe_reviewer := address_last x01; fe_task_id := hash_zero; fe_quality := f64_of_Z 9;
     fe_requester_accepted := true; fe_text := []; fe_embedding := [f32_of_Z 3; f32_of_Z 1];
     fe_timestamp := 1; fe_task_fee := fee |}.

Lemma agent_profile_bounded_witness :
  feedback (foldl add_feedback helper [praise 1; praise 2]) = [praise 1; praise 2] /\
  length (effective_embedding (foldl add_feedback helper [praise 1; praise 2])
            default_matching_params) = 2%nat.
Proof.
  assert (profile_fits helper) as F by (split; by_compute).
  destruct (agent_profile_bounded helper [praise 1; praise 2] [] default_matching_params F)
    as (_ & E & _ & _ & _ & L).
  split; [exact E|exact L].
Defined.

Lemma usable_score_backed_witness :
  reputation_score_cap helper default_matching_params = f64_of_Z 50 /\
  Reputation.score (reputation (clamp_reputation_to_backing helper default_matching_params))
  = f64_of_Z 50.
Proof.
  assert (is_u64 (stake helper)) as H1 by (vm_compute; split; discriminate).
  assert (is_u64 (agent_stake_per_reputation_point default_matching_params)) as H2 by (vm_compute; split; discriminate).
  destruct (usable_score_backed (fun x _ => x) helper 9 default_matching_params H1 H2)
    as (_ & _ & _ & _ & E).
  split; [by vm_compute|]. etrans; [exact E|by vm_compute].
Defined.

Lemma matching_score_total_witness :
  f64_leb (f64_of_Z 0) (matching_score (fun _ _ => S754_nan) helper S754_nan
    Task.default_match_preferences 3 10 9 9 default_matching_params) = true.
Proof.
  refine (proj1 (matching_score_total (fun _ _ => S754_nan) helper helper S754_nan
    Task.default_match_preferences 3 10 9 9 default_matching_params _ _)); mlia.
Defined.
End AgentWitness.
