(* ===== verification/Wallet.v ===== *)
(** * The agent wallet

    Models [wallet/agent_wallet.rs]: a wallet with its signer, nonce, clock override and
    validity window, and the builder of every transaction. A builder takes the time the
    clock shows when it runs ([now_ms]) and returns the wallet it leaves and what it
    answers, where [None] is the panic of [Transaction::hash]. The builders that call the embedding
    service do so in the monad [asking]: each call is a question, recorded when the builder is
    run against a service, which is a parameter. *)
From S2P Require Import Prelude Crypto Float Instances Transaction Agreement Subscription ToolJob.
From S2P Require Import Contract ToolVerifier Capability Tool RpcDelegation Entity Validator.
From S2P Require Import Token Task Agent.

Module Wallet.

(** ** Signers *)

(** [TransactionSigner]: any backend, a remote one included; nothing is assumed of the
    signatures it returns. *)
Record TransactionSigner : Type := {
  signer_key : PublicKey;
  signer_sign : Tx.Transaction -> Hash256 -> result ZinchaError Signature;
}.
(** [impl TransactionSigner for Keypair]. *)
Definition keypair_signer `{Ed25519} (k : Keypair) : TransactionSigner :=
  {| signer_key := keypair_public_key k; signer_sign := fun _ h => Ok (keypair_sign k (bn h)) |}.

(** ** The wallet *)
Record AgentWallet : Type := {
  signer : TransactionSigner;
  chain_id : rstr;
  nonce : Z;
  rpc_endpoint : rstr;
  embed_url : option rstr;
  tx_validity_window : option (Z * Hash256 * Z);
  timestamp_ms : option Z;
}.
#[global] Instance eta_AgentWallet : Eta AgentWallet := fun w =>
  {| signer := signer w; chain_id := chain_id w; nonce := nonce w;
     rpc_endpoint := rpc_endpoint w; embed_url := embed_url w;
     tx_validity_window := tx_validity_window w; timestamp_ms := timestamp_ms w |}.

Definition from_signer (s : TransactionSigner) (chain rpc : rstr) : AgentWallet :=
  {| signer := s; chain_id := chain; nonce := 0; rpc_endpoint := rpc; embed_url := None;
     tx_validity_window := None; timestamp_ms := None |}.
Definition new_wallet `{Ed25519} (k : Keypair) (chain rpc : rstr) : AgentWallet :=
  from_signer (keypair_signer k) chain rpc.
Definition from_secret `{Ed25519} (secret : bytesN 32) (chain rpc : rstr) : AgentWallet :=
  new_wallet (keypair_from_secret_bytes secret) chain rpc.

Definition set_embed_url (w : AgentWallet) (url : rstr) : AgentWallet :=
  w <| embed_url := Some url |>.
Definition set_transaction_validity_window (w : AgentWallet) (reference_block_height : Z)
    (reference_block_hash : Hash256) (ttl_blocks : Z) : AgentWallet :=
  w <| tx_validity_window :=
         Some (reference_block_height, reference_block_hash, Z.max ttl_blocks 1) |>.
Definition set_timestamp_ms (w : AgentWallet) (t : Z) : AgentWallet :=
  w <| timestamp_ms := Some t |>.
Definition clear_timestamp_ms (w : AgentWallet) : AgentWallet := w <| timestamp_ms := None |>.
Definition set_nonce (w : AgentWallet) (n : Z) : AgentWallet := w <| nonce := n |>.
(** [next_nonce] returns the current nonce; this is the wallet it leaves. *)
Definition next_nonce (w : AgentWallet) : AgentWallet := w <| nonce := wrap64 (nonce w + 1) |>.
Definition transaction_timestamp_ms (w : AgentWallet) (now_ms : Z) : Z :=
  default now_ms (timestamp_ms w).
Definition wallet_public_key (w : AgentWallet) : PublicKey := signer_key (signer w).
Definition public_key_hex `{Hex} (w : AgentWallet) : rstr :=
  hex_encode (bn (wallet_public_key w)).

(** ** Embeddings *)
Fixpoint join_with (sep : rstr) (l : list rstr) : rstr :=
  match l with [] => [] | [x] => x | x :: l' => x ++ sep ++ join_with sep l' end.
Definition capability_words (caps : list Capability.Capability) : rstr :=
  join_with (lit " ") (Capability.as_str <$> caps).
Definition agent_semantic_profile_text (name description : rstr)
    (caps : list Capability.Capability) : rstr :=
  name ++ lit " " ++ description ++ lit " " ++ capability_words caps.

(** [fetch_embedding url text] is a POST of the text to [url/embed]. *)
Definition embed_call : Type := rstr * rstr.
Abbreviation fetching := (asking embed_call (result rstr (list f32))).
Definition fetch_embedding (url text : rstr) : fetching (result rstr (list f32)) :=
  Ask (url, text) Answered.

(** [embed_text] is the deterministic hasher of the embedding engine. *)
Definition compute_embedding (embed_text : rstr -> list f32) (w : AgentWallet) (text : rstr)
    : fetching (list f32) :=
  match embed_url w with
  | Some url =>
      r ← fetch_embedding url text;
      Answered (match r with Ok vec => vec | Err _ => embed_text text end)
  | None => Answered (embed_text text)
  end.
Definition compute_neural_embedding (w : AgentWallet) (text : rstr)
    : fetching (option (list f32)) :=
  match embed_url w with
  | Some url => r ← fetch_embedding url text; Answered (ok r)
  | None => Answered None
  end.
Definition has_neural_embedding_service (w : AgentWallet) : bool :=
  bool_decide (is_Some (embed_url w)).
Definition compute_neural_embedding_strict (w : AgentWallet) (text : rstr)
    : fetching (result ZinchaError (list f32)) :=
  match embed_url w with
  | None =>
      Answered (Err (InvalidTransaction
        (msg "client neural embeddings require an embed service URL")))
  | Some url =>
      r ← fetch_embedding url text;
      Answered (map_err (fun e =>
        InvalidTransaction (Msg "compute client neural embedding: {}" [AStr e])) r)
  end.
Definition compute_agent_neural_embedding (w : AgentWallet) (name description : rstr)
    (caps : list Capability.Capability) : fetching (option (list f32)) :=
  compute_neural_embedding w (agent_semantic_profile_text name description caps).
Definition compute_agent_neural_embedding_strict (w : AgentWallet) (name description : rstr)
    (caps : list Capability.Capability) : fetching (result ZinchaError (list f32)) :=
  compute_neural_embedding_strict w (agent_semantic_profile_text name description caps).

(** The neural embedding an update carries: the caller's; none when the text is not
    touched; otherwise that of the new text, or the empty vector, which clears it. *)
Definition update_neural_embedding (w : AgentWallet) (name description : option rstr)
    (neural_embedding : option (list f32)) (caps : option (list Capability.Capability))
    : fetching (option (list f32)) :=
  let semantic_update :=
    bool_decide (is_Some name) || bool_decide (is_Some description) ||
    bool_decide (is_Some caps) in
  match neural_embedding with
  | Some embedding => Answered (Some embedding)
  | None =>
      if negb semantic_update then Answered None
      else
        match name, description, caps with
        | Some n, Some d, Some c =>
            computed ← compute_agent_neural_embedding w n d c;
            Answered (match computed with Some vec => Some vec | None => Some [] end)
        | _, _, _ => Answered (Some [])
        end
  end.

(** ** Capability payloads *)
Definition prefix_message (label : string) (m : message) : message :=
  Msg (label +:+ ": " +:+ template m)%string (margs m).
Definition normalize_capability_slug_field (label : string) (value : rstr)
    : result ZinchaError rstr :=
  let normalized := to_ascii_lowercase (trim value) in
  match Capability.normalize_capability_slug normalized with
  | Ok _ => Ok normalized
  | Err e => Err (InvalidCapability (prefix_message label e))
  end.
Fixpoint normalize_capability_slug_list (label : string) (values : list rstr)
    : result ZinchaError (list rstr) :=
  match values with
  | [] => Ok []
  | v :: vs =>
      x ← normalize_capability_slug_field label v;
      xs ← normalize_capability_slug_list label vs; Ok (x :: xs)
  end.
(** [if let Some(x) = field.as_mut() { *x = f(x)? }]. *)
Definition try_update {A} (f : A -> result ZinchaError A) (o : option A)
    : result ZinchaError (option A) :=
  match o with None => Ok None | Some x => y ← f x; Ok (Some y) end.

Definition normalize_capability_proposal (p : Capability.CapabilityProposeData)
    : result ZinchaError Capability.CapabilityProposeData :=
  slug ← normalize_capability_slug_field "slug" (Capability.cp_slug p);
  parent ← try_update (normalize_capability_slug_field "parent") (Capability.cp_parent p);
  aliases ← normalize_capability_slug_list "alias" (Capability.cp_aliases p);
  related ← normalize_capability_slug_list "related" (Capability.cp_related p);
  Ok {| Capability.cp_slug := slug; Capability.cp_display_name := Capability.cp_display_name p;
        Capability.cp_description := Capability.cp_description p;
        Capability.cp_category := Capability.cp_category p; Capability.cp_parent := parent;
        Capability.cp_aliases := aliases; Capability.cp_keywords := Capability.cp_keywords p;
        Capability.cp_examples := Capability.cp_examples p;
        Capability.cp_related := related |}.
Definition normalize_capability_approval (a : Capability.CapabilityApproveData)
    : result ZinchaError Capability.CapabilityApproveData :=
  slug ← normalize_capability_slug_field "slug" (Capability.ca_slug a);
  parent ← try_update (try_update (normalize_capability_slug_field "parent"))
             (Capability.ca_parent a);
  aliases ← try_update (normalize_capability_slug_list "alias") (Capability.ca_aliases a);
  related ← try_update (normalize_capability_slug_list "related") (Capability.ca_related a);
  Ok {| Capability.ca_slug := slug; Capability.ca_display_name := Capability.ca_display_name a;
        Capability.ca_description := Capability.ca_description a;
        Capability.ca_category := Capability.ca_category a; Capability.ca_parent := parent;
        Capability.ca_aliases := aliases; Capability.ca_keywords := Capability.ca_keywords a;
        Capability.ca_examples := Capability.ca_examples a;
        Capability.ca_related := related |}.

Definition default_validator_update : Validator.ValidatorUpdateData :=
  {| Validator.executor_services := []; Validator.vrf_public_key := None |}.

(** ** Signing *)
Section Builders.
Context `{Digests, Hex, Ed25519, Bincode Tx.Transaction}.
Context (embed_service : rstr -> rstr -> result rstr (list f32)).

Definition address (w : AgentWallet) : Address := pk_to_address (wallet_public_key w).

Definition apply_window (w : AgentWallet) (tx : Tx.Transaction) : Tx.Transaction :=
  if Tx.has_explicit_validity_window tx then tx
  else match tx_validity_window w with
       | Some (height, hash, ttl) => Tx.set_validity_window height hash ttl tx
       | None => tx
       end.
(** The inner [None] is a panic, as in [Tx.hash]. *)
Definition sign_transaction (w : AgentWallet) (tx : Tx.Transaction)
    : may_panic (result ZinchaError Tx.SignedTransaction) :=
  let tx := apply_window w tx in
  let public_key := wallet_public_key w in
  let expected_sender := pk_to_address public_key in
  if negb (bool_decide (Tx.sender tx = expected_sender)) then
    Some (Err (InvalidTransaction (Msg "Transaction sender {} does not match signer address {}"
      [ABytes (bn (Tx.sender tx)); ABytes (bn expected_sender)])))
  else
    tx_hash ← Tx.hash tx;
    match signer_sign (signer w) tx tx_hash with
    | Err e => Some (Err e)
    | Ok signature =>
        let signed_tx := {| Tx.transaction := tx; Tx.signature := signature;
                            Tx.public_key := public_key; Tx.tx_hash := tx_hash |} in
        verified ← Tx.verify signed_tx;
        Some (_ ← verified; Ok signed_tx)
    end.

(** What a builder leaves and answers. *)
Definition built : Type := AgentWallet * may_panic (result ZinchaError Tx.SignedTransaction).
(** Most builders call nothing. *)
Definition at_once (b : built) : fetching built := Answered b.
Coercion at_once : built >-> asking.

(** [bincode::serialize(&data)?]. *)
Definition encode {T} `{Bincode T} (x : T) : result ZinchaError (list byte) :=
  map_err (fun e => Serialization (Msg "{}" [AStr e])) (bincode_serialize x).

(** The transaction literal of every builder: the nonce is taken before the payload, whose
    serialisation may fail, is built; the literal has no validity window of its own. *)
Definition submit (w : AgentWallet) (now_ms : Z) (ty : Tx.TxType) (recipient : Address)
    (amount fee max_priority_fee_per_gas : Z) (payload : result ZinchaError (list byte))
    : built :=
  let w' := next_nonce w in
  (w',
   match payload with
   | Err e => Some (Err e)
   | Ok data =>
       sign_transaction w'
         {| Tx.tx_type := ty; Tx.sender := address w; Tx.recipient := recipient;
            Tx.amount := amount; Tx.fee := fee;
            Tx.max_priority_fee_per_gas := max_priority_fee_per_gas; Tx.nonce := nonce w;
            Tx.timestamp := transaction_timestamp_ms w' now_ms;
            Tx.reference_block_height := 0; Tx.reference_block_hash := hash_zero;
            Tx.max_valid_block_height := 0; Tx.data := data; Tx.chain_id := chain_id w |}
   end).

(** A check that returns early, before any nonce is taken. *)
Definition after {A} (w : AgentWallet) (check : result ZinchaError A) (k : A -> built) : built :=
  match check with Err e => (w, Some (Err e)) | Ok a => k a end.

Definition ensure_vrf_public_key_matches_signer (w : AgentWallet) (vrf_public_key : PublicKey)
    : result ZinchaError unit :=
  ensure (bool_decide (bn vrf_public_key = bn (wallet_public_key w)))
    (InvalidTransaction (msg "Validator vrf_public_key must match the wallet signing public key")).
Definition ensure_vrf_keypair_matches_signer (w : AgentWallet) (vrf_keypair : Keypair)
    : result ZinchaError unit :=
  ensure_vrf_public_key_matches_signer w (keypair_public_key vrf_keypair).

(** ** Builders *)
(** One serialiser for each payload type. *)
Context `{!Bincode Entity.EntityLinkData} `{!Bincode Agent.AgentRegisterData}
  `{!Bincode Agent.AgentUpdateData} `{!Bincode Agent.ReputationUpdateData}
  `{!Bincode Task.TaskSubmitData} `{!Bincode Task.TaskFulfillData}
  `{!Bincode Task.TaskAcceptData} `{!Bincode Task.TaskDisputeData}
  `{!Bincode Task.TaskResolveData} `{!Bincode Task.TaskFinalizeData}
  `{!Bincode Task.TaskDecomposeData} `{!Bincode Validator.ValidatorUpdateData}
  `{!Bincode Validator.ValidatorVrfCommitData}
  `{!Bincode Validator.ValidatorVrfContributionData}
  `{!Bincode Agreement.AgreementCreateData} `{!Bincode Agreement.AgreementAcceptData}
  `{!Bincode Agreement.AgreementExecuteData} `{!Bincode Agreement.AgreementDisputeData}
  `{!Bincode Agreement.AgreementResolveData} `{!Bincode Agreement.AgreementCancelData}
  `{!Bincode Agreement.ArbitratorRegisterData} `{!Bincode Tool.ToolRegisterData}
  `{!Bincode Tool.ToolSubscriptionPlanCreateData}
  `{!Bincode Tool.ToolSubscriptionPlanUpdateData} `{!Bincode Tool.ToolSubscriptionStartData}
  `{!Bincode Tool.ToolSubscriptionTopUpData} `{!Bincode Tool.ToolSubscriptionCancelData}
  `{!Bincode Tool.ToolSubscriptionResumeData} `{!Bincode Tool.ToolSubscriptionRenewData}
  `{!Bincode Tool.ToolInvokeData} `{!Bincode Tool.ToolUpdateData}
  `{!Bincode ToolJob.ToolResultSubmitData} `{!Bincode ToolJob.ToolResultAcceptData}
  `{!Bincode ToolJob.ToolResultDisputeData} `{!Bincode ToolJob.ToolResultResolveData}
  `{!Bincode ToolJob.ToolJobExpireData} `{!Bincode ToolJob.ToolUsageReportData}
  `{!Bincode ToolJob.ToolUsageAcceptData} `{!Bincode ToolJob.ToolUsageDisputeData}
  `{!Bincode ToolJob.ToolUsageResolveData} `{!Bincode ToolJob.ToolUsageExpireData}
  `{!Bincode Tx.StakeTarget} `{!Bincode Tx.BatchData} `{!Bincode Contract.ContractDeployData}
  `{!Bincode Contract.ContractCallData} `{!Bincode Contract.ContractRouteCallData}
  `{!Bincode Contract.ContractVerifyData} `{!Bincode Contract.ContractPublishAbiData}
  `{!Bincode Contract.ContractRouteUpdateData} `{!Bincode Token.TokenCreateData}
  `{!Bincode Token.TokenTransferData} `{!Bincode Token.TokenApproveData}
  `{!Bincode Token.TokenMintData} `{!Bincode Token.TokenUpdateAuthorityData}
  `{!Bincode Token.TokenBurnData} `{!Bincode Capability.CapabilityProposeData}
  `{!Bincode Capability.CapabilityApproveData} `{!Bincode Capability.CapabilityRejectData}
  `{!Bincode Capability.CapabilityDeprecateData}
  `{!Bincode Delegation.RpcReadDelegationGrantData}
  `{!Bincode Delegation.RpcReadDelegationRevokeData}.
Definition build_transfer (w : AgentWallet) (now_ms : Z) (recipient : Address)
    (amount fee : Z) : built :=
  submit w now_ms Tx.Transfer recipient amount fee 0
    (Ok []).
Definition build_entity_link (w : AgentWallet) (now_ms : Z) (entity : Address)
    (authorizer : Keypair) (fee : Z) : built :=
  let message := Entity.entity_link_message (chain_id w) (address w) entity in
  submit w now_ms Tx.EntityLink address_zero 0 fee 0
    (encode {| Entity.entity := entity;
               Entity.authorizer_public_key := Some (keypair_public_key authorizer);
               Entity.authorizer_signature := Some (keypair_sign authorizer (bn message)) |}).
Definition build_transfer_with_priority_fee (w : AgentWallet) (now_ms : Z) (recipient : Address)
    (amount fee max_priority_fee_per_gas : Z) : built :=
  submit w now_ms Tx.Transfer recipient amount fee max_priority_fee_per_gas
    (Ok []).
Definition build_register_agent_full (w : AgentWallet) (now_ms : Z) (name description : rstr)
    (capabilities : list Capability.Capability) (model_hash : Hash256) (min_fee : Z)
    (fee_schedule : list (rstr * Z)) (fee : Z) : fetching built :=
  neural_embedding ← compute_agent_neural_embedding w name description capabilities;
  Answered (submit w now_ms Tx.AgentRegister address_zero 0 fee 0
    (encode {| Agent.ar_name := name; Agent.ar_description := description;
               Agent.ar_neural_embedding := neural_embedding;
               Agent.ar_model_hash := model_hash; Agent.ar_capabilities := capabilities;
               Agent.ar_metadata := []; Agent.ar_min_fee := min_fee;
               Agent.ar_fee_schedule := fee_schedule |})).
Definition build_register_agent (w : AgentWallet) (now_ms : Z) (name description : rstr)
    (capabilities : list Capability.Capability) (model_hash : Hash256) (fee : Z) : fetching built :=
  build_register_agent_full w now_ms name description capabilities model_hash 0 [] fee.
Definition build_submit_task_with_prefs (w : AgentWallet) (now_ms : Z) (description : rstr)
    (required_capabilities : list Capability.Capability) (max_fee priority deadline_ms : Z)
    (parameters : list byte) (tx_fee : Z) (match_preferences : Task.MatchPreferences) : fetching built :=
  let embed_text := description ++ lit " " ++ capability_words required_capabilities in
  neural_embedding ← compute_neural_embedding w embed_text;
  Answered (submit w now_ms Tx.TaskSubmit address_zero 0 tx_fee 0
    (encode {| Task.ts_description := description;
               Task.ts_neural_embedding := neural_embedding;
               Task.ts_required_capabilities := required_capabilities;
               Task.ts_max_fee := max_fee; Task.ts_priority := priority;
               Task.ts_deadline := deadline_ms; Task.ts_parameters := parameters;
               Task.ts_match_preferences := match_preferences |})).
Definition build_submit_task (w : AgentWallet) (now_ms : Z) (description : rstr)
    (required_capabilities : list Capability.Capability) (max_fee priority deadline_ms : Z)
    (parameters : list byte) (tx_fee : Z) : fetching built :=
  build_submit_task_with_prefs w now_ms description required_capabilities max_fee priority
    deadline_ms parameters tx_fee Task.default_match_preferences.
Definition build_register_validator_with_update (w : AgentWallet) (now_ms : Z) (stake : Z)
    (update : Validator.ValidatorUpdateData) (fee : Z) : built :=
  let vrf_public_key :=
    match Validator.vrf_public_key update with
    | None => Some (wallet_public_key w)
    | Some k => Some k
    end in
  let update := {| Validator.executor_services := Validator.executor_services update;
                   Validator.vrf_public_key := vrf_public_key |} in
  after w (match vrf_public_key with
           | Some k => ensure_vrf_public_key_matches_signer w k
           | None => Ok ()
           end) (fun _ =>
  submit w now_ms Tx.ValidatorRegister address_zero stake fee 0
    (if bool_decide (Validator.executor_services update = []) &&
        negb (bool_decide (is_Some vrf_public_key))
     then Ok [] else encode update)).
Definition build_register_validator (w : AgentWallet) (now_ms : Z) (stake fee : Z) : built :=
  build_register_validator_with_update w now_ms stake ({| Validator.executor_services := [];
    Validator.vrf_public_key := Some (wallet_public_key w) |}) fee.
Definition build_register_validator_with_vrf_public_key (w : AgentWallet) (now_ms : Z)
    (stake : Z) (vrf_public_key : PublicKey) (fee : Z) : built :=
  build_register_validator_with_update w now_ms stake ({| Validator.executor_services := [];
    Validator.vrf_public_key := Some vrf_public_key |}) fee.
Definition build_update_validator (w : AgentWallet) (now_ms : Z)
    (update : Validator.ValidatorUpdateData) (fee : Z) : built :=
  submit w now_ms Tx.ValidatorUpdate address_zero 0 fee 0
    (encode update).
Definition build_reactivate_validator (w : AgentWallet) (now_ms : Z) (fee : Z) : built :=
  build_update_validator w now_ms default_validator_update fee.
Definition build_update_validator_vrf_public_key (w : AgentWallet) (now_ms : Z)
    (vrf_public_key : PublicKey) (fee : Z) : built :=
  after w (ensure_vrf_public_key_matches_signer w vrf_public_key) (fun _ =>
  build_update_validator w now_ms
    {| Validator.executor_services := []; Validator.vrf_public_key := Some vrf_public_key |} fee).
Definition build_validator_vrf_reveal_data (w : AgentWallet) (target_epoch : Z)
    (prior_seed : Hash256) (vrf_keypair : Keypair)
    : result ZinchaError Validator.ValidatorVrfContributionData :=
  _ ← ensure_vrf_keypair_matches_signer w vrf_keypair;
  let signable :=
    Validator.proof_signable_bytes (chain_id w) (address w) target_epoch prior_seed in
  let proof := bn (keypair_sign vrf_keypair signable) in
  output ← Validator.expected_output_from_proof (keypair_public_key vrf_keypair) (chain_id w)
    (address w) target_epoch prior_seed proof;
  Ok {| Validator.ct_target_epoch := target_epoch; Validator.ct_vrf_output := output;
        Validator.ct_vrf_proof := proof |}.
Definition build_validator_vrf_commit (w : AgentWallet) (now_ms : Z) (target_epoch : Z)
    (prior_seed : Hash256) (vrf_keypair : Keypair) (fee : Z) : built :=
  after w (build_validator_vrf_reveal_data w target_epoch prior_seed vrf_keypair) (fun reveal =>
  submit w now_ms Tx.ValidatorVrfCommit address_zero 0 fee 0
    (commitment ← Validator.commitment_hash reveal;
     encode {| Validator.cm_target_epoch := target_epoch;
               Validator.cm_commitment := commitment |})).
Definition build_validator_vrf_contribution (w : AgentWallet) (now_ms : Z) (target_epoch : Z)
    (prior_seed : Hash256) (vrf_keypair : Keypair) (fee : Z) : built :=
  after w (build_validator_vrf_reveal_data w target_epoch prior_seed vrf_keypair) (fun reveal =>
  submit w now_ms Tx.ValidatorVrfContribution address_zero 0 fee 0 (encode reveal)).
Definition build_create_agreement (w : AgentWallet) (now_ms : Z) (parties : list Address)
    (terms : list byte) (escrow_amount expires_at : Z) (arbitrator : option Address)
    (milestones : list Agreement.MilestoneDef) (service_provider : Address)
    (settlement_allocations : list Agreement.AgreementPayoutShare)
    (settlement_approver : option Address) (fee : Z) : built :=
  let milestones :=
    match milestones with
    | [] => Agreement.canonical_single_payment_milestones escrow_amount
    | _ => milestones
    end in
  submit w now_ms Tx.AgreementCreate address_zero escrow_amount fee 0
    (encode {| Agreement.cd_parties := parties; Agreement.cd_terms := terms;
               Agreement.cd_escrow_amount := escrow_amount;
               Agreement.cd_expires_at := expires_at; Agreement.cd_arbitrator := arbitrator;
               Agreement.cd_milestones := milestones;
               Agreement.cd_service_provider := service_provider;
               Agreement.cd_settlement_allocations := settlement_allocations;
               Agreement.cd_settlement_approver := settlement_approver |}).
Definition build_register_tool_with_settlement (w : AgentWallet) (now_ms : Z)
    (name description endpoint : rstr) (price_per_call : Z)
    (settlement_mode : Tool.HttpToolSettlementMode)
    (sla_ms challenge_window_ms max_result_metadata_bytes : Z)
    (arbitration_policy : Tool.ToolArbitrationPolicy)
    (capabilities : list Capability.Capability) (version : rstr) (fee : Z) : fetching built :=
  let embed_text := name ++ lit " " ++ description ++ lit " " ++ capability_words capabilities in
  neural_embedding ← compute_neural_embedding w embed_text;
  Answered (submit w now_ms Tx.ToolRegister address_zero 0 fee 0
    (encode {| Tool.rg_name := name; Tool.rg_description := description;
               Tool.rg_endpoint := endpoint; Tool.rg_price_per_call := price_per_call;
               Tool.rg_settlement_mode := settlement_mode; Tool.rg_sla_ms := sla_ms;
               Tool.rg_challenge_window_ms := challenge_window_ms;
               Tool.rg_max_result_metadata_bytes := max_result_metadata_bytes;
               Tool.rg_arbitration_policy := arbitration_policy;
               Tool.rg_capabilities := capabilities; Tool.rg_match_enabled := true;
               Tool.rg_neural_embedding := neural_embedding; Tool.rg_version := version |})).
Definition build_register_tool (w : AgentWallet) (now_ms : Z) (name description endpoint : rstr)
    (price_per_call : Z) (capabilities : list Capability.Capability) (version : rstr)
    (fee : Z) : fetching built :=
  build_register_tool_with_settlement w now_ms name description endpoint price_per_call
    Tool.PrepaidAccess 3600000 900000 4096 Tool.Protocol capabilities version fee.
Definition build_register_tool_result_escrowed (w : AgentWallet) (now_ms : Z)
    (name description endpoint : rstr)
    (price_per_call sla_ms challenge_window_ms max_result_metadata_bytes : Z)
    (capabilities : list Capability.Capability) (version : rstr) (fee : Z) : fetching built :=
  build_register_tool_with_settlement w now_ms name description endpoint price_per_call
    Tool.ResultEscrowed sla_ms challenge_window_ms max_result_metadata_bytes Tool.Protocol
    capabilities version fee.
Definition build_register_tool_milestone_escrowed (w : AgentWallet) (now_ms : Z)
    (name description endpoint : rstr)
    (price_per_call sla_ms challenge_window_ms max_result_metadata_bytes : Z)
    (capabilities : list Capability.Capability) (version : rstr) (fee : Z) : fetching built :=
  build_register_tool_with_settlement w now_ms name description endpoint price_per_call
    Tool.MilestoneEscrowed sla_ms challenge_window_ms max_result_metadata_bytes Tool.Protocol
    capabilities version fee.
Definition build_register_tool_metered_usage (w : AgentWallet) (now_ms : Z)
    (name description endpoint : rstr)
    (price_per_unit sla_ms challenge_window_ms max_result_metadata_bytes : Z)
    (capabilities : list Capability.Capability) (version : rstr) (fee : Z) : fetching built :=
  build_register_tool_with_settlement w now_ms name description endpoint price_per_unit
    Tool.MeteredUsage sla_ms challenge_window_ms max_result_metadata_bytes Tool.Protocol
    capabilities version fee.
Definition build_create_tool_subscription_plan (w : AgentWallet) (now_ms : Z)
    (tool_id : Hash256) (name : rstr)
    (price_per_period period_ms included_calls included_credits : Z)
    (overage_policy : Subscription.SubscriptionOveragePolicy) (fee : Z) : built :=
  submit w now_ms Tx.ToolSubscriptionPlanCreate address_zero 0 fee 0
    (encode {| Tool.pc_tool_id := tool_id; Tool.pc_name := name;
      Tool.pc_price_per_period := price_per_period; Tool.pc_period_ms := period_ms;
      Tool.pc_included_calls := included_calls; Tool.pc_included_credits := included_credits;
      Tool.pc_overage_policy := overage_policy |}).
Definition build_update_tool_subscription_plan (w : AgentWallet) (now_ms : Z)
    (update : Tool.ToolSubscriptionPlanUpdateData) (fee : Z) : built :=
  submit w now_ms Tx.ToolSubscriptionPlanUpdate address_zero 0 fee 0
    (encode update).
Definition build_start_tool_subscription (w : AgentWallet) (now_ms : Z) (plan_id : Hash256)
    (reserve_amount : Z) (auto_renew : bool) (fee : Z) : built :=
  submit w now_ms Tx.ToolSubscriptionStart address_zero 0 fee 0
    (encode {| Tool.ss_plan_id := plan_id; Tool.ss_reserve_amount := reserve_amount;
      Tool.ss_auto_renew := auto_renew |}).
Definition build_top_up_tool_subscription (w : AgentWallet) (now_ms : Z)
    (subscription_id : Hash256) (amount fee : Z) : built :=
  submit w now_ms Tx.ToolSubscriptionTopUp address_zero 0 fee 0
    (encode {| Tool.tu_subscription_id := subscription_id; Tool.tu_amount := amount |}).
Definition build_cancel_tool_subscription (w : AgentWallet) (now_ms : Z)
    (subscription_id : Hash256) (fee : Z) : built :=
  submit w now_ms Tx.ToolSubscriptionCancel address_zero 0 fee 0
    (encode {| Tool.sc_subscription_id := subscription_id |}).
Definition build_resume_tool_subscription_with_reserve (w : AgentWallet) (now_ms : Z)
    (subscription_id : Hash256) (reserve_amount fee : Z) : built :=
  submit w now_ms Tx.ToolSubscriptionResume address_zero 0 fee 0
    (encode {| Tool.sr_subscription_id := subscription_id;
      Tool.sr_reserve_amount := reserve_amount |}).
Definition build_resume_tool_subscription (w : AgentWallet) (now_ms : Z)
    (subscription_id : Hash256) (fee : Z) : built :=
  build_resume_tool_subscription_with_reserve w now_ms subscription_id 0 fee.
Definition build_renew_tool_subscription (w : AgentWallet) (now_ms : Z)
    (subscription_id : Hash256) (fee : Z) : built :=
  submit w now_ms Tx.ToolSubscriptionRenew address_zero 0 fee 0
    (encode {| Tool.sn_subscription_id := subscription_id |}).
Definition build_stake (w : AgentWallet) (now_ms : Z) (amount : Z) (target : Tx.StakeTarget)
    (fee : Z) : built :=
  submit w now_ms Tx.Stake address_zero amount fee 0
    (encode target).
Definition build_requester_auto_match_bond (w : AgentWallet) (now_ms : Z)
    (amount fee : Z) : built :=
  submit w now_ms Tx.Stake address_zero amount fee 0
    (encode Tx.STRequesterAutoMatch).
Definition build_unstake (w : AgentWallet) (now_ms : Z) (amount : Z) (target : Tx.StakeTarget)
    (fee : Z) : built :=
  submit w now_ms Tx.Unstake address_zero amount fee 0
    (encode target).
Definition build_exit_validator (w : AgentWallet) (now_ms : Z) (fee : Z) : built :=
  submit w now_ms Tx.ValidatorExit address_zero 0 fee 0
    (Ok []).
Definition build_fulfill_task (w : AgentWallet) (now_ms : Z) (task_id result_hash : Hash256)
    (result_data : list byte) (tools_used input_refs : list Hash256) (fee : Z) : built :=
  submit w now_ms Tx.TaskFulfill address_zero 0 fee 0
    (encode {| Task.tf_task_id := task_id; Task.tf_result_hash := result_hash;
      Task.tf_result_data := result_data; Task.tf_tools_used := tools_used;
      Task.tf_input_refs := input_refs; Task.tf_receipt_proofs := [] |}).
Definition build_fulfill_task_verified (w : AgentWallet) (now_ms : Z)
    (task_id result_hash : Hash256) (result_data : list byte)
    (tools_used input_refs : list Hash256) (receipt_proofs : list Access.ReceiptWithProof)
    (fee : Z) : built :=
  submit w now_ms Tx.TaskFulfill address_zero 0 fee 0
    (encode {| Task.tf_task_id := task_id; Task.tf_result_hash := result_hash;
      Task.tf_result_data := result_data; Task.tf_tools_used := tools_used;
      Task.tf_input_refs := input_refs; Task.tf_receipt_proofs := receipt_proofs |}).
Definition build_accept_task (w : AgentWallet) (now_ms : Z) (task_id : Hash256)
    (fee : Z) : built :=
  submit w now_ms Tx.TaskAccept address_zero 0 fee 0
    (encode {| Task.ta_task_id := task_id |}).
Definition build_dispute_task (w : AgentWallet) (now_ms : Z) (task_id : Hash256) (reason : rstr)
    (fee : Z) : built :=
  submit w now_ms Tx.TaskDispute address_zero 0 fee 0
    (encode {| Task.td_task_id := task_id; Task.td_reason := reason |}).
Definition build_resolve_task (w : AgentWallet) (now_ms : Z) (task_id : Hash256)
    (agent_wins : bool) (reason : rstr) (fee : Z) : built :=
  submit w now_ms Tx.TaskResolve address_zero 0 fee 0
    (encode {| Task.tr_task_id := task_id; Task.tr_agent_wins := agent_wins;
      Task.tr_reason := reason |}).
Definition build_finalize_task (w : AgentWallet) (now_ms : Z) (task_id : Hash256)
    (fee : Z) : built :=
  submit w now_ms Tx.TaskFinalize address_zero 0 fee 0
    (encode {| Task.tz_task_id := task_id |}).
Definition build_cancel_task (w : AgentWallet) (now_ms : Z) (task_id : Hash256)
    (fee : Z) : built :=
  submit w now_ms Tx.TaskCancel address_zero 0 fee 0
    (Ok (bn task_id)).
Definition build_decompose_task (w : AgentWallet) (now_ms : Z) (task_id : Hash256)
    (subtasks : list Task.SubTaskDef) (fee : Z) : built :=
  submit w now_ms Tx.TaskDecompose address_zero 0 fee 0
    (encode {| Task.dc_task_id := task_id; Task.dc_subtasks := subtasks |}).
Definition build_batch (w : AgentWallet) (now_ms : Z) (operations : list Tx.BatchOperation)
    (fee : Z) : built :=
  after w (
    _ ← ensure (negb (bool_decide (operations = [])))
      (InvalidTransaction (msg "Batch must contain at least one operation"));
    ensure (negb (16 <? Z.of_nat (length operations)))
      (InvalidTransaction (msg "Max 16 operations per batch"))) (fun _ =>
  submit w now_ms Tx.Batch address_zero 0 fee 0 (encode {| Tx.operations := operations |})).
Definition build_update_agent_full (w : AgentWallet) (now_ms : Z)
    (name description : option rstr) (neural_embedding : option (list f32))
    (model_hash : option Hash256) (capabilities : option (list Capability.Capability))
    (metadata : option (list byte)) (active : option bool) (min_fee : option Z) (fee_schedule :
    option (list (rstr * Z))) (fee : Z) : fetching built :=
  neural_embedding ← update_neural_embedding w name description neural_embedding capabilities;
  Answered (submit w now_ms Tx.AgentUpdate address_zero 0 fee 0
    (encode {| Agent.au_name := name; Agent.au_description := description;
               Agent.au_neural_embedding := neural_embedding;
               Agent.au_model_hash := model_hash; Agent.au_capabilities := capabilities;
               Agent.au_metadata := metadata; Agent.au_active := active;
               Agent.au_min_fee := min_fee; Agent.au_fee_schedule := fee_schedule |})).
Definition build_update_agent (w : AgentWallet) (now_ms : Z) (name description : option rstr)
    (model_hash : option Hash256) (capabilities : option (list Capability.Capability))
    (metadata : option (list byte)) (active : option bool) (fee : Z) : fetching built :=
  build_update_agent_full w now_ms name description None model_hash capabilities metadata active
    None None fee.
Definition build_update_reputation_with_feedback (w : AgentWallet) (now_ms : Z)
    (task_id : Hash256) (quality_score : f64) (requester_accepted : bool) (feedback : rstr)
    (fee : Z) : built :=
  let data := {| Agent.ru_task_id := task_id; Agent.ru_quality_score := quality_score;
                 Agent.ru_requester_accepted := requester_accepted;
                 Agent.ru_feedback := take 500 feedback |} in
  after w (map_err InvalidTransaction (Agent.validate data)) (fun _ =>
  submit w now_ms Tx.ReputationUpdate address_zero 0 fee 0 (encode data)).
Definition build_update_reputation (w : AgentWallet) (now_ms : Z) (task_id : Hash256)
    (quality_score : f64) (requester_accepted : bool) (fee : Z) : built :=
  build_update_reputation_with_feedback w now_ms task_id quality_score requester_accepted []
    fee.
Definition build_purchase_tool_access (w : AgentWallet) (now_ms : Z) (tool_id : Hash256)
    (input_data : list byte) (fee : Z) : built :=
  submit w now_ms Tx.ToolInvoke address_zero 0 fee 0
    (encode {| Tool.iv_tool_id := tool_id; Tool.iv_input_data := input_data;
      Tool.iv_max_metered_units := None;
      Tool.iv_gas_limit := Tool.DEFAULT_CONTRACT_TOOL_GAS_LIMIT; Tool.iv_milestones := [] |}).
Definition build_invoke_tool (w : AgentWallet) (now_ms : Z) (tool_id : Hash256)
    (input_data : list byte) (fee : Z) : built :=
  submit w now_ms Tx.ToolInvoke address_zero 0 fee 0
    (encode {| Tool.iv_tool_id := tool_id; Tool.iv_input_data := input_data;
      Tool.iv_max_metered_units := None;
      Tool.iv_gas_limit := Tool.DEFAULT_CONTRACT_TOOL_GAS_LIMIT; Tool.iv_milestones := [] |}).
Definition build_invoke_metered_tool (w : AgentWallet) (now_ms : Z) (tool_id : Hash256)
    (input_data : list byte) (max_metered_units fee : Z) : built :=
  submit w now_ms Tx.ToolInvoke address_zero 0 fee 0
    (encode {| Tool.iv_tool_id := tool_id; Tool.iv_input_data := input_data;
      Tool.iv_max_metered_units := Some max_metered_units;
      Tool.iv_gas_limit := Tool.DEFAULT_CONTRACT_TOOL_GAS_LIMIT; Tool.iv_milestones := [] |}).
Definition build_invoke_milestone_tool (w : AgentWallet) (now_ms : Z) (tool_id : Hash256)
    (input_data : list byte) (milestones : list ToolJob.ToolMilestoneDef) (fee : Z) : built :=
  submit w now_ms Tx.ToolInvoke address_zero 0 fee 0
    (encode {| Tool.iv_tool_id := tool_id; Tool.iv_input_data := input_data;
      Tool.iv_max_metered_units := None;
      Tool.iv_gas_limit := Tool.DEFAULT_CONTRACT_TOOL_GAS_LIMIT;
      Tool.iv_milestones := milestones |}).
Definition build_submit_tool_result (w : AgentWallet) (now_ms : Z)
    (job_id result_hash : Hash256) (result_metadata : list byte) (fee : Z) : built :=
  submit w now_ms Tx.ToolResultSubmit address_zero 0 fee 0
    (encode {| ToolJob.rs_job_id := job_id; ToolJob.rs_result_hash := result_hash;
      ToolJob.rs_result_metadata := result_metadata; ToolJob.rs_milestone_index := None |}).
Definition build_submit_tool_milestone_result (w : AgentWallet) (now_ms : Z) (job_id : Hash256)
    (milestone_index : Z) (result_hash : Hash256) (result_metadata : list byte)
    (fee : Z) : built :=
  submit w now_ms Tx.ToolResultSubmit address_zero 0 fee 0
    (encode {| ToolJob.rs_job_id := job_id; ToolJob.rs_result_hash := result_hash;
      ToolJob.rs_result_metadata := result_metadata;
      ToolJob.rs_milestone_index := Some milestone_index |}).
Definition build_accept_tool_result (w : AgentWallet) (now_ms : Z) (job_id : Hash256)
    (fee : Z) : built :=
  submit w now_ms Tx.ToolResultAccept address_zero 0 fee 0
    (encode {| ToolJob.ra_job_id := job_id; ToolJob.ra_milestone_index := None |}).
Definition build_accept_tool_milestone_result (w : AgentWallet) (now_ms : Z) (job_id : Hash256)
    (milestone_index fee : Z) : built :=
  submit w now_ms Tx.ToolResultAccept address_zero 0 fee 0
    (encode {| ToolJob.ra_job_id := job_id;
      ToolJob.ra_milestone_index := Some milestone_index |}).
Definition build_dispute_tool_result (w : AgentWallet) (now_ms : Z) (job_id : Hash256)
    (reason : rstr) (fee : Z) : built :=
  submit w now_ms Tx.ToolResultDispute address_zero 0 fee 0
    (encode {| ToolJob.rd_job_id := job_id; ToolJob.rd_reason := reason;
      ToolJob.rd_milestone_index := None |}).
Definition build_dispute_tool_milestone_result (w : AgentWallet) (now_ms : Z) (job_id : Hash256)
    (milestone_index : Z) (reason : rstr) (fee : Z) : built :=
  submit w now_ms Tx.ToolResultDispute address_zero 0 fee 0
    (encode {| ToolJob.rd_job_id := job_id; ToolJob.rd_reason := reason;
      ToolJob.rd_milestone_index := Some milestone_index |}).
Definition build_resolve_tool_result (w : AgentWallet) (now_ms : Z) (job_id : Hash256)
    (provider_wins : bool) (reason : rstr) (fee : Z) : built :=
  submit w now_ms Tx.ToolResultResolve address_zero 0 fee 0
    (encode {| ToolJob.rr_job_id := job_id; ToolJob.rr_provider_wins := provider_wins;
      ToolJob.rr_reason := reason; ToolJob.rr_milestone_index := None |}).
Definition build_resolve_tool_milestone_result (w : AgentWallet) (now_ms : Z) (job_id : Hash256)
    (milestone_index : Z) (provider_wins : bool) (reason : rstr) (fee : Z) : built :=
  submit w now_ms Tx.ToolResultResolve address_zero 0 fee 0
    (encode {| ToolJob.rr_job_id := job_id; ToolJob.rr_provider_wins := provider_wins;
      ToolJob.rr_reason := reason; ToolJob.rr_milestone_index := Some milestone_index |}).
Definition build_expire_tool_job (w : AgentWallet) (now_ms : Z) (job_id : Hash256)
    (fee : Z) : built :=
  submit w now_ms Tx.ToolJobExpire address_zero 0 fee 0
    (encode {| ToolJob.je_job_id := job_id |}).
Definition build_report_tool_usage (w : AgentWallet) (now_ms : Z) (session_id : Hash256)
    (units_used : Z) (result_hash : Hash256) (result_metadata : list byte) (fee : Z) : built :=
  submit w now_ms Tx.ToolUsageReport address_zero 0 fee 0
    (encode {| ToolJob.ur_session_id := session_id; ToolJob.ur_units_used := units_used;
      ToolJob.ur_result_hash := result_hash; ToolJob.ur_result_metadata := result_metadata |}).
Definition build_accept_tool_usage (w : AgentWallet) (now_ms : Z) (session_id : Hash256)
    (fee : Z) : built :=
  submit w now_ms Tx.ToolUsageAccept address_zero 0 fee 0
    (encode {| ToolJob.ua_session_id := session_id |}).
Definition build_dispute_tool_usage (w : AgentWallet) (now_ms : Z) (session_id : Hash256)
    (reason : rstr) (fee : Z) : built :=
  submit w now_ms Tx.ToolUsageDispute address_zero 0 fee 0
    (encode {| ToolJob.ud_session_id := session_id; ToolJob.ud_reason := reason |}).
Definition build_resolve_tool_usage (w : AgentWallet) (now_ms : Z) (session_id : Hash256)
    (provider_wins : bool) (reason : rstr) (fee : Z) : built :=
  submit w now_ms Tx.ToolUsageResolve address_zero 0 fee 0
    (encode {| ToolJob.uv_session_id := session_id; ToolJob.uv_provider_wins := provider_wins;
      ToolJob.uv_reason := reason |}).
Definition build_expire_tool_usage (w : AgentWallet) (now_ms : Z) (session_id : Hash256)
    (fee : Z) : built :=
  submit w now_ms Tx.ToolUsageExpire address_zero 0 fee 0
    (encode {| ToolJob.ux_session_id := session_id |}).
Definition build_update_tool (w : AgentWallet) (now_ms : Z) (_tool_id : Hash256)
    (update : Tool.ToolUpdateData) (fee : Z) : built :=
  submit w now_ms Tx.ToolUpdate address_zero 0 fee 0
    (encode update).
Definition build_execute_milestone (w : AgentWallet) (now_ms : Z)
    (agreement_id result_hash : Hash256) (milestone_index fee : Z) : built :=
  submit w now_ms Tx.AgreementExecute address_zero 0 fee 0
    (encode {| Agreement.execute_agreement_id := agreement_id;
      Agreement.execute_result_hash := result_hash;
      Agreement.execute_milestone_index := milestone_index |}).
Definition build_execute_agreement (w : AgentWallet) (now_ms : Z)
    (agreement_id result_hash : Hash256) (fee : Z) : built :=
  build_execute_milestone w now_ms agreement_id result_hash 0 fee.
Definition build_dispute_agreement_with_milestone (w : AgentWallet) (now_ms : Z)
    (agreement_id : Hash256) (reason : rstr) (milestone_index : option Z) (fee : Z) : built :=
  submit w now_ms Tx.AgreementDispute address_zero 0 fee 0
    (encode {| Agreement.dispute_agreement_id := agreement_id;
      Agreement.dispute_data_reason := reason;
      Agreement.dispute_milestone_index := milestone_index |}).
Definition build_dispute_agreement (w : AgentWallet) (now_ms : Z) (agreement_id : Hash256)
    (reason : rstr) (fee : Z) : built :=
  build_dispute_agreement_with_milestone w now_ms agreement_id reason None fee.
Definition build_accept_agreement (w : AgentWallet) (now_ms : Z) (agreement_id : Hash256)
    (fee : Z) : built :=
  submit w now_ms Tx.AgreementAccept address_zero 0 fee 0
    (encode {| Agreement.accept_agreement_id := agreement_id |}).
Definition build_resolve_agreement (w : AgentWallet) (now_ms : Z) (agreement_id : Hash256)
    (payouts : list Agreement.AgreementPayoutShare)
    (reputation_effects : list Agreement.AgreementDisputeReputationEffect) (reason : rstr)
    (milestone_index : option Z) (fee : Z) : built :=
  after w (ensure (negb (bool_decide (payouts = [])))
             (InvalidTransaction (msg "Resolution payouts cannot be empty"))) (fun _ =>
  submit w now_ms Tx.AgreementResolve address_zero 0 fee 0
    (encode {| Agreement.resolve_agreement_id := agreement_id;
               Agreement.resolve_payouts := payouts;
               Agreement.resolve_reputation_effects := reputation_effects;
               Agreement.resolve_reason := reason;
               Agreement.resolve_milestone_index := milestone_index |})).
Definition build_cancel_agreement (w : AgentWallet) (now_ms : Z) (agreement_id : Hash256)
    (fee : Z) : built :=
  submit w now_ms Tx.AgreementCancel address_zero 0 fee 0
    (encode {| Agreement.cancel_agreement_id := agreement_id |}).
Definition build_register_arbitrator (w : AgentWallet) (now_ms : Z) (name description : rstr)
    (stake fee_bps : Z) (specializations : list rstr) (fee : Z) : built :=
  submit w now_ms Tx.ArbitratorRegister address_zero stake fee 0
    (encode {| Agreement.reg_name := name; Agreement.reg_description := description;
      Agreement.reg_stake := stake; Agreement.reg_fee_bps := fee_bps;
      Agreement.reg_specializations := specializations |}).
Definition build_deploy_contract (w : AgentWallet) (now_ms : Z) (bytecode : list byte)
    (initial_balance fee : Z) : built :=
  submit w now_ms Tx.ContractDeploy address_zero initial_balance fee 0
    (encode {| Contract.bytecode := bytecode |}).
Definition build_call_contract (w : AgentWallet) (now_ms : Z) (contract_address : Address)
    (function : rstr) (args : list byte) (call_value gas_limit fee : Z) : built :=
  submit w now_ms Tx.ContractCall contract_address call_value fee 0
    (encode {| Contract.cc_contract_address := contract_address;
      Contract.cc_function := function; Contract.cc_args := args;
      Contract.cc_gas_limit := gas_limit |}).
Definition build_call_contract_route (w : AgentWallet) (now_ms : Z) (deployer : Address)
    (route_name function : rstr) (args : list byte) (call_value gas_limit fee : Z) : built :=
  submit w now_ms Tx.ContractRouteCall address_zero call_value fee 0
    (encode {| Contract.rc_deployer := deployer; Contract.rc_route_name := route_name;
      Contract.rc_function := function; Contract.rc_args := args;
      Contract.rc_gas_limit := gas_limit |}).
Definition build_verify_contract_source (w : AgentWallet) (now_ms : Z)
    (contract_address : Address) (proof : Contract.ContractSourceProof) (fee : Z) : built :=
  submit w now_ms Tx.ContractVerify contract_address 0 fee 0
    (encode {| Contract.cv_contract_address := contract_address; Contract.cv_proof := proof |}).
Definition build_publish_contract_abi (w : AgentWallet) (now_ms : Z)
    (contract_address : Address) (abi : Contract.ContractAbi) (fee : Z) : built :=
  submit w now_ms Tx.ContractPublishAbi contract_address 0 fee 0
    (encode {| Contract.pa_contract_address := contract_address; Contract.pa_abi := abi |}).
Definition build_update_contract_route (w : AgentWallet) (now_ms : Z) (route_name : rstr)
    (target_contract_address : Address) (fee : Z) : built :=
  submit w now_ms Tx.ContractRouteUpdate address_zero 0 fee 0
    (encode {| Contract.ru_route_name := route_name;
      Contract.ru_target_contract_address := target_contract_address |}).
Definition build_create_token (w : AgentWallet) (now_ms : Z) (name symbol : rstr)
    (decimals initial_supply : Z) (max_supply : option Z) (mint_authority : option Address)
    (burnable : bool) (metadata : list byte) (fee : Z) : built :=
  let max_supply :=
    match mint_authority, max_supply with
    | None, None => initial_supply
    | _, Some explicit_max_supply => explicit_max_supply
    | _, None => 0
    end in
  submit w now_ms Tx.TokenCreate address_zero 0 fee 0
    (encode {| Token.tc_name := name; Token.tc_symbol := symbol; Token.tc_decimals := decimals;
               Token.tc_initial_supply := initial_supply; Token.tc_max_supply := max_supply;
               Token.tc_burnable := burnable; Token.tc_mint_authority := mint_authority;
               Token.tc_metadata := metadata |}).
Definition build_transfer_token (w : AgentWallet) (now_ms : Z) (token_id : Hash256)
    (to : Address) (amount fee : Z) : built :=
  submit w now_ms Tx.TokenTransfer to 0 fee 0
    (encode {| Token.tt_token_id := token_id; Token.tt_to := to; Token.tt_amount := amount |}).
Definition build_approve_token (w : AgentWallet) (now_ms : Z) (token_id : Hash256)
    (spender : Address) (amount fee : Z) : built :=
  submit w now_ms Tx.TokenApprove spender 0 fee 0
    (encode {| Token.ta_token_id := token_id; Token.ta_spender := spender;
      Token.ta_amount := amount |}).
Definition build_mint_token (w : AgentWallet) (now_ms : Z) (token_id : Hash256) (to : Address)
    (amount fee : Z) : built :=
  submit w now_ms Tx.TokenMint to 0 fee 0
    (encode {| Token.tm_token_id := token_id; Token.tm_to := to; Token.tm_amount := amount |}).
Definition build_update_token_mint_authority (w : AgentWallet) (now_ms : Z) (token_id : Hash256)
    (mint_authority : option Address) (fee : Z) : built :=
  submit w now_ms Tx.TokenUpdateAuthority address_zero 0 fee 0
    (encode {| Token.tu_token_id := token_id; Token.tu_mint_authority := mint_authority |}).
Definition build_burn_token (w : AgentWallet) (now_ms : Z) (token_id : Hash256)
    (amount fee : Z) : built :=
  submit w now_ms Tx.TokenBurn address_zero 0 fee 0
    (encode {| Token.tb_token_id := token_id; Token.tb_amount := amount |}).
Definition build_deregister_agent (w : AgentWallet) (now_ms : Z) (fee : Z) : built :=
  submit w now_ms Tx.AgentDeregister address_zero 0 fee 0
    (Ok []).
Definition build_deregister_tool (w : AgentWallet) (now_ms : Z) (tool_id : Hash256)
    (fee : Z) : built :=
  submit w now_ms Tx.ToolDeregister address_zero 0 fee 0
    (Ok (bn tool_id)).
Definition build_deregister_arbitrator (w : AgentWallet) (now_ms : Z) (fee : Z) : built :=
  submit w now_ms Tx.ArbitratorDeregister address_zero 0 fee 0
    (Ok []).
Definition build_deactivate_contract (w : AgentWallet) (now_ms : Z) (contract_address : Address)
    (fee : Z) : built :=
  submit w now_ms Tx.ContractDeactivate address_zero 0 fee 0
    (Ok (bn contract_address)).
Definition build_destroy_token (w : AgentWallet) (now_ms : Z) (token_id : Hash256)
    (fee : Z) : built :=
  submit w now_ms Tx.TokenDestroy address_zero 0 fee 0
    (Ok (bn token_id)).
Definition build_propose_capability (w : AgentWallet) (now_ms : Z)
    (proposal : Capability.CapabilityProposeData) (fee : Z) : built :=
  after w (normalize_capability_proposal proposal) (fun proposal =>
  submit w now_ms Tx.CapabilityPropose address_zero 0 fee 0 (encode proposal)).
Definition build_approve_capability (w : AgentWallet) (now_ms : Z)
    (approval : Capability.CapabilityApproveData) (fee : Z) : built :=
  after w (normalize_capability_approval approval) (fun approval =>
  submit w now_ms Tx.CapabilityApprove address_zero 0 fee 0 (encode approval)).
Definition build_reject_capability (w : AgentWallet) (now_ms : Z)
    (rejection : Capability.CapabilityRejectData) (fee : Z) : built :=
  after w (normalize_capability_slug_field "slug" (Capability.cr_slug rejection)) (fun slug =>
  submit w now_ms Tx.CapabilityReject address_zero 0 fee 0
    (encode {| Capability.cr_slug := slug; Capability.cr_reason := Capability.cr_reason rejection |})).
Definition build_deprecate_capability (w : AgentWallet) (now_ms : Z)
    (deprecation : Capability.CapabilityDeprecateData) (fee : Z) : built :=
  after w (
    slug ← normalize_capability_slug_field "slug" (Capability.cd_slug deprecation);
    replacement ← normalize_capability_slug_field "replacement"
      (Capability.cd_replacement deprecation);
    Ok (slug, replacement)) (fun '(slug, replacement) =>
  submit w now_ms Tx.CapabilityDeprecate address_zero 0 fee 0
    (encode {| Capability.cd_slug := slug; Capability.cd_replacement := replacement;
               Capability.cd_reason := Capability.cd_reason deprecation |})).
Definition build_rpc_read_delegation_grant (w : AgentWallet) (now_ms : Z)
    (delegate_public_key : PublicKey) (service_id : rstr)
    (scope_mask expires_at_ms fee : Z) : built :=
  after w (
    _ ← map_err InvalidTransaction (Delegation.validate_rpc_read_delegation_service_id service_id);
    ensure (negb ((scope_mask =? 0) ||
                  negb (Z.ldiff scope_mask Delegation.RPC_READ_SCOPE_ALL =? 0)))
      (InvalidTransaction (msg "RPC read delegation scope mask contains no known scope"))) (fun _ =>
  submit w now_ms Tx.RpcReadDelegationGrant address_zero 0 fee 0
    (encode {| Delegation.g_delegate_public_key := delegate_public_key;
               Delegation.g_service_id := service_id; Delegation.g_scope_mask := scope_mask;
               Delegation.g_expires_at_ms := expires_at_ms |})).
Definition build_rpc_read_delegation_revoke (w : AgentWallet) (now_ms : Z)
    (delegation_id : Hash256) (fee : Z) : built :=
  submit w now_ms Tx.RpcReadDelegationRevoke address_zero 0 fee 0
    (encode ({| Delegation.v_delegation_id := delegation_id |})).

(** ** Requests

    The builders as values: one constructor for each, with its arguments. *)
Inductive request : Type :=
| RqTransfer (recipient : Address) (amount fee : Z)
| RqEntityLink (entity : Address) (authorizer : Keypair) (fee : Z)
| RqTransferWithPriorityFee (recipient : Address) (amount fee max_priority_fee_per_gas : Z)
| RqRegisterAgent (name description : rstr) (capabilities : list Capability.Capability)
    (model_hash : Hash256) (fee : Z)
| RqRegisterAgentFull (name description : rstr) (capabilities : list Capability.Capability)
    (model_hash : Hash256) (min_fee : Z) (fee_schedule : list (rstr * Z)) (fee : Z)
| RqSubmitTask (description : rstr) (required_capabilities : list Capability.Capability)
    (max_fee priority deadline_ms : Z) (parameters : list byte) (tx_fee : Z)
| RqSubmitTaskWithPrefs (description : rstr)
    (required_capabilities : list Capability.Capability) (max_fee priority deadline_ms : Z)
    (parameters : list byte) (tx_fee : Z) (match_preferences : Task.MatchPreferences)
| RqRegisterValidator (stake fee : Z)
| RqRegisterValidatorWithUpdate (stake : Z) (update : Validator.ValidatorUpdateData) (fee : Z)
| RqRegisterValidatorWithVrfPublicKey (stake : Z) (vrf_public_key : PublicKey) (fee : Z)
| RqUpdateValidator (update : Validator.ValidatorUpdateData) (fee : Z)
| RqReactivateValidator (fee : Z)
| RqUpdateValidatorVrfPublicKey (vrf_public_key : PublicKey) (fee : Z)
| RqValidatorVrfCommit (target_epoch : Z) (prior_seed : Hash256) (vrf_keypair : Keypair)
    (fee : Z)
| RqValidatorVrfContribution (target_epoch : Z) (prior_seed : Hash256) (vrf_keypair : Keypair)
    (fee : Z)
| RqCreateAgreement (parties : list Address) (terms : list byte) (escrow_amount expires_at : Z)
    (arbitrator : option Address) (milestones : list Agreement.MilestoneDef)
    (service_provider : Address) (settlement_allocations : list Agreement.AgreementPayoutShare)
    (settlement_approver : option Address) (fee : Z)
| RqRegisterTool (name description endpoint : rstr) (price_per_call : Z)
    (capabilities : list Capability.Capability) (version : rstr) (fee : Z)
| RqRegisterToolResultEscrowed (name description endpoint : rstr)
    (price_per_call sla_ms challenge_window_ms max_result_metadata_bytes : Z)
    (capabilities : list Capability.Capability) (version : rstr) (fee : Z)
| RqRegisterToolMilestoneEscrowed (name description endpoint : rstr)
    (price_per_call sla_ms challenge_window_ms max_result_metadata_bytes : Z)
    (capabilities : list Capability.Capability) (version : rstr) (fee : Z)
| RqRegisterToolMeteredUsage (name description endpoint : rstr)
    (price_per_unit sla_ms challenge_window_ms max_result_metadata_bytes : Z)
    (capabilities : list Capability.Capability) (version : rstr) (fee : Z)
| RqRegisterToolWithSettlement (name description endpoint : rstr) (price_per_call : Z)
    (settlement_mode : Tool.HttpToolSettlementMode)
    (sla_ms challenge_window_ms max_result_metadata_bytes : Z)
    (arbitration_policy : Tool.ToolArbitrationPolicy)
    (capabilities : list Capability.Capability) (version : rstr) (fee : Z)
| RqCreateToolSubscriptionPlan (tool_id : Hash256) (name : rstr)
    (price_per_period period_ms included_calls included_credits : Z)
    (overage_policy : Subscription.SubscriptionOveragePolicy) (fee : Z)
| RqUpdateToolSubscriptionPlan (update : Tool.ToolSubscriptionPlanUpdateData) (fee : Z)
| RqStartToolSubscription (plan_id : Hash256) (reserve_amount : Z) (auto_renew : bool) (fee : Z)
| RqTopUpToolSubscription (subscription_id : Hash256) (amount fee : Z)
| RqCancelToolSubscription (subscription_id : Hash256) (fee : Z)
| RqResumeToolSubscription (subscription_id : Hash256) (fee : Z)
| RqResumeToolSubscriptionWithReserve (subscription_id : Hash256) (reserve_amount fee : Z)
| RqRenewToolSubscription (subscription_id : Hash256) (fee : Z)
| RqStake (amount : Z) (target : Tx.StakeTarget) (fee : Z)
| RqRequesterAutoMatchBond (amount fee : Z)
| RqUnstake (amount : Z) (target : Tx.StakeTarget) (fee : Z)
| RqExitValidator (fee : Z)
| RqFulfillTask (task_id result_hash : Hash256) (result_data : list byte)
    (tools_used input_refs : list Hash256) (fee : Z)
| RqFulfillTaskVerified (task_id result_hash : Hash256) (result_data : list byte)
    (tools_used input_refs : list Hash256) (receipt_proofs : list Access.ReceiptWithProof)
    (fee : Z)
| RqAcceptTask (task_id : Hash256) (fee : Z)
| RqDisputeTask (task_id : Hash256) (reason : rstr) (fee : Z)
| RqResolveTask (task_id : Hash256) (agent_wins : bool) (reason : rstr) (fee : Z)
| RqFinalizeTask (task_id : Hash256) (fee : Z)
| RqCancelTask (task_id : Hash256) (fee : Z)
| RqDecomposeTask (task_id : Hash256) (subtasks : list Task.SubTaskDef) (fee : Z)
| RqBatch (operations : list Tx.BatchOperation) (fee : Z)
| RqUpdateAgent (name description : option rstr) (model_hash : option Hash256)
    (capabilities : option (list Capability.Capability)) (metadata : option (list byte))
    (active : option bool) (fee : Z)
| RqUpdateAgentFull (name description : option rstr) (neural_embedding : option (list f32))
    (model_hash : option Hash256) (capabilities : option (list Capability.Capability))
    (metadata : option (list byte)) (active : option bool) (min_fee : option Z) (fee_schedule :
    option (list (rstr * Z))) (fee : Z)
| RqUpdateReputation (task_id : Hash256) (quality_score : f64) (requester_accepted : bool)
    (fee : Z)
| RqUpdateReputationWithFeedback (task_id : Hash256) (quality_score : f64)
    (requester_accepted : bool) (feedback : rstr) (fee : Z)
| RqPurchaseToolAccess (tool_id : Hash256) (input_data : list byte) (fee : Z)
| RqInvokeTool (tool_id : Hash256) (input_data : list byte) (fee : Z)
| RqInvokeMeteredTool (tool_id : Hash256) (input_data : list byte) (max_metered_units fee : Z)
| RqInvokeMilestoneTool (tool_id : Hash256) (input_data : list byte)
    (milestones : list ToolJob.ToolMilestoneDef) (fee : Z)
| RqSubmitToolResult (job_id result_hash : Hash256) (result_metadata : list byte) (fee : Z)
| RqSubmitToolMilestoneResult (job_id : Hash256) (milestone_index : Z) (result_hash : Hash256)
    (result_metadata : list byte) (fee : Z)
| RqAcceptToolResult (job_id : Hash256) (fee : Z)
| RqAcceptToolMilestoneResult (job_id : Hash256) (milestone_index fee : Z)
| RqDisputeToolResult (job_id : Hash256) (reason : rstr) (fee : Z)
| RqDisputeToolMilestoneResult (job_id : Hash256) (milestone_index : Z) (reason : rstr)
    (fee : Z)
| RqResolveToolResult (job_id : Hash256) (provider_wins : bool) (reason : rstr) (fee : Z)
| RqResolveToolMilestoneResult (job_id : Hash256) (milestone_index : Z) (provider_wins : bool)
    (reason : rstr) (fee : Z)
| RqExpireToolJob (job_id : Hash256) (fee : Z)
| RqReportToolUsage (session_id : Hash256) (units_used : Z) (result_hash : Hash256)
    (result_metadata : list byte) (fee : Z)
| RqAcceptToolUsage (session_id : Hash256) (fee : Z)
| RqDisputeToolUsage (session_id : Hash256) (reason : rstr) (fee : Z)
| RqResolveToolUsage (session_id : Hash256) (provider_wins : bool) (reason : rstr) (fee : Z)
| RqExpireToolUsage (session_id : Hash256) (fee : Z)
| RqUpdateTool (_tool_id : Hash256) (update : Tool.ToolUpdateData) (fee : Z)
| RqExecuteAgreement (agreement_id result_hash : Hash256) (fee : Z)
| RqExecuteMilestone (agreement_id result_hash : Hash256) (milestone_index fee : Z)
| RqDisputeAgreement (agreement_id : Hash256) (reason : rstr) (fee : Z)
| RqDisputeAgreementWithMilestone (agreement_id : Hash256) (reason : rstr)
    (milestone_index : option Z) (fee : Z)
| RqAcceptAgreement (agreement_id : Hash256) (fee : Z)
| RqResolveAgreement (agreement_id : Hash256) (payouts : list Agreement.AgreementPayoutShare)
    (reputation_effects : list Agreement.AgreementDisputeReputationEffect) (reason : rstr)
    (milestone_index : option Z) (fee : Z)
| RqCancelAgreement (agreement_id : Hash256) (fee : Z)
| RqRegisterArbitrator (name description : rstr) (stake fee_bps : Z)
    (specializations : list rstr) (fee : Z)
| RqDeployContract (bytecode : list byte) (initial_balance fee : Z)
| RqCallContract (contract_address : Address) (function : rstr) (args : list byte)
    (call_value gas_limit fee : Z)
| RqCallContractRoute (deployer : Address) (route_name function : rstr) (args : list byte)
    (call_value gas_limit fee : Z)
| RqVerifyContractSource (contract_address : Address) (proof : Contract.ContractSourceProof)
    (fee : Z)
| RqPublishContractAbi (contract_address : Address) (abi : Contract.ContractAbi) (fee : Z)
| RqUpdateContractRoute (route_name : rstr) (target_contract_address : Address) (fee : Z)
| RqCreateToken (name symbol : rstr) (decimals initial_supply : Z) (max_supply : option Z)
    (mint_authority : option Address) (burnable : bool) (metadata : list byte) (fee : Z)
| RqTransferToken (token_id : Hash256) (to : Address) (amount fee : Z)
| RqApproveToken (token_id : Hash256) (spender : Address) (amount fee : Z)
| RqMintToken (token_id : Hash256) (to : Address) (amount fee : Z)
| RqUpdateTokenMintAuthority (token_id : Hash256) (mint_authority : option Address) (fee : Z)
| RqBurnToken (token_id : Hash256) (amount fee : Z)
| RqDeregisterAgent (fee : Z)
| RqDeregisterTool (tool_id : Hash256) (fee : Z)
| RqDeregisterArbitrator (fee : Z)
| RqDeactivateContract (contract_address : Address) (fee : Z)
| RqDestroyToken (token_id : Hash256) (fee : Z)
| RqProposeCapability (proposal : Capability.CapabilityProposeData) (fee : Z)
| RqApproveCapability (approval : Capability.CapabilityApproveData) (fee : Z)
| RqRejectCapability (rejection : Capability.CapabilityRejectData) (fee : Z)
| RqDeprecateCapability (deprecation : Capability.CapabilityDeprecateData) (fee : Z)
| RqRpcReadDelegationGrant (delegate_public_key : PublicKey) (service_id : rstr)
    (scope_mask expires_at_ms fee : Z)
| RqRpcReadDelegationRevoke (delegation_id : Hash256) (fee : Z).

Definition ask_request (w : AgentWallet) (now_ms : Z) (r : request) : fetching built :=
  match r with
  | RqTransfer recipient amount fee =>
      build_transfer w now_ms recipient amount fee
  | RqEntityLink entity authorizer fee =>
      build_entity_link w now_ms entity authorizer fee
  | RqTransferWithPriorityFee recipient amount fee max_priority_fee_per_gas =>
      build_transfer_with_priority_fee w now_ms recipient amount fee max_priority_fee_per_gas
  | RqRegisterAgent name description capabilities model_hash fee =>
      build_register_agent w now_ms name description capabilities model_hash fee
  | RqRegisterAgentFull name description capabilities model_hash min_fee fee_schedule fee =>
      build_register_agent_full w now_ms name description capabilities model_hash min_fee
        fee_schedule fee
  | RqSubmitTask description required_capabilities max_fee priority deadline_ms parameters
    tx_fee =>
      build_submit_task w now_ms description required_capabilities max_fee priority deadline_ms
        parameters tx_fee
  | RqSubmitTaskWithPrefs description required_capabilities max_fee priority deadline_ms
    parameters tx_fee match_preferences =>
      build_submit_task_with_prefs w now_ms description required_capabilities max_fee priority
        deadline_ms parameters tx_fee match_preferences
  | RqRegisterValidator stake fee =>
      build_register_validator w now_ms stake fee
  | RqRegisterValidatorWithUpdate stake update fee =>
      build_register_validator_with_update w now_ms stake update fee
  | RqRegisterValidatorWithVrfPublicKey stake vrf_public_key fee =>
      build_register_validator_with_vrf_public_key w now_ms stake vrf_public_key fee
  | RqUpdateValidator update fee =>
      build_update_validator w now_ms update fee
  | RqReactivateValidator fee =>
      build_reactivate_validator w now_ms fee
  | RqUpdateValidatorVrfPublicKey vrf_public_key fee =>
      build_update_validator_vrf_public_key w now_ms vrf_public_key fee
  | RqValidatorVrfCommit target_epoch prior_seed vrf_keypair fee =>
      build_validator_vrf_commit w now_ms target_epoch prior_seed vrf_keypair fee
  | RqValidatorVrfContribution target_epoch prior_seed vrf_keypair fee =>
      build_validator_vrf_contribution w now_ms target_epoch prior_seed vrf_keypair fee
  | RqCreateAgreement parties terms escrow_amount expires_at arbitrator milestones
    service_provider settlement_allocations settlement_approver fee =>
      build_create_agreement w now_ms parties terms escrow_amount expires_at arbitrator
        milestones service_provider settlement_allocations settlement_approver fee
  | RqRegisterTool name description endpoint price_per_call capabilities version fee =>
      build_register_tool w now_ms name description endpoint price_per_call capabilities version
        fee
  | RqRegisterToolResultEscrowed name description endpoint price_per_call sla_ms
    challenge_window_ms max_result_metadata_bytes capabilities version fee =>
      build_register_tool_result_escrowed w now_ms name description endpoint price_per_call
        sla_ms challenge_window_ms max_result_metadata_bytes capabilities version fee
  | RqRegisterToolMilestoneEscrowed name description endpoint price_per_call sla_ms
    challenge_window_ms max_result_metadata_bytes capabilities version fee =>
      build_register_tool_milestone_escrowed w now_ms name description endpoint price_per_call
        sla_ms challenge_window_ms max_result_metadata_bytes capabilities version fee
  | RqRegisterToolMeteredUsage name description endpoint price_per_unit sla_ms
    challenge_window_ms max_result_metadata_bytes capabilities version fee =>
      build_register_tool_metered_usage w now_ms name description endpoint price_per_unit sla_ms
        challenge_window_ms max_result_metadata_bytes capabilities version fee
  | RqRegisterToolWithSettlement name description endpoint price_per_call settlement_mode sla_ms
    challenge_window_ms max_result_metadata_bytes arbitration_policy capabilities version fee =>
      build_register_tool_with_settlement w now_ms name description endpoint price_per_call
        settlement_mode sla_ms challenge_window_ms max_result_metadata_bytes arbitration_policy
        capabilities version fee
  | RqCreateToolSubscriptionPlan tool_id name price_per_period period_ms included_calls
    included_credits overage_policy fee =>
      build_create_tool_subscription_plan w now_ms tool_id name price_per_period period_ms
        included_calls included_credits overage_policy fee
  | RqUpdateToolSubscriptionPlan update fee =>
      build_update_tool_subscription_plan w now_ms update fee
  | RqStartToolSubscription plan_id reserve_amount auto_renew fee =>
      build_start_tool_subscription w now_ms plan_id reserve_amount auto_renew fee
  | RqTopUpToolSubscription subscription_id amount fee =>
      build_top_up_tool_subscription w now_ms subscription_id amount fee
  | RqCancelToolSubscription subscription_id fee =>
      build_cancel_tool_subscription w now_ms subscription_id fee
  | RqResumeToolSubscription subscription_id fee =>
      build_resume_tool_subscription w now_ms subscription_id fee
  | RqResumeToolSubscriptionWithReserve subscription_id reserve_amount fee =>
      build_resume_tool_subscription_with_reserve w now_ms subscription_id reserve_amount fee
  | RqRenewToolSubscription subscription_id fee =>
      build_renew_tool_subscription w now_ms subscription_id fee
  | RqStake amount target fee =>
      build_stake w now_ms amount target fee
  | RqRequesterAutoMatchBond amount fee =>
      build_requester_auto_match_bond w now_ms amount fee
  | RqUnstake amount target fee =>
      build_unstake w now_ms amount target fee
  | RqExitValidator fee =>
      build_exit_validator w now_ms fee
  | RqFulfillTask task_id result_hash result_data tools_used input_refs fee =>
      build_fulfill_task w now_ms task_id result_hash result_data tools_used input_refs fee
  | RqFulfillTaskVerified task_id result_hash result_data tools_used input_refs receipt_proofs
    fee =>
      build_fulfill_task_verified w now_ms task_id result_hash result_data tools_used input_refs
        receipt_proofs fee
  | RqAcceptTask task_id fee =>
      build_accept_task w now_ms task_id fee
  | RqDisputeTask task_id reason fee =>
      build_dispute_task w now_ms task_id reason fee
  | RqResolveTask task_id agent_wins reason fee =>
      build_resolve_task w now_ms task_id agent_wins reason fee
  | RqFinalizeTask task_id fee =>
      build_finalize_task w now_ms task_id fee
  | RqCancelTask task_id fee =>
      build_cancel_task w now_ms task_id fee
  | RqDecomposeTask task_id subtasks fee =>
      build_decompose_task w now_ms task_id subtasks fee
  | RqBatch operations fee =>
      build_batch w now_ms operations fee
  | RqUpdateAgent name description model_hash capabilities metadata active fee =>
      build_update_agent w now_ms name description model_hash capabilities metadata active fee
  | RqUpdateAgentFull name description neural_embedding model_hash capabilities metadata active
    min_fee fee_schedule fee =>
      build_update_agent_full w now_ms name description neural_embedding model_hash capabilities
        metadata active min_fee fee_schedule fee
  | RqUpdateReputation task_id quality_score requester_accepted fee =>
      build_update_reputation w now_ms task_id quality_score requester_accepted fee
  | RqUpdateReputationWithFeedback task_id quality_score requester_accepted feedback fee =>
      build_update_reputation_with_feedback w now_ms task_id quality_score requester_accepted
        feedback fee
  | RqPurchaseToolAccess tool_id input_data fee =>
      build_purchase_tool_access w now_ms tool_id input_data fee
  | RqInvokeTool tool_id input_data fee =>
      build_invoke_tool w now_ms tool_id input_data fee
  | RqInvokeMeteredTool tool_id input_data max_metered_units fee =>
      build_invoke_metered_tool w now_ms tool_id input_data max_metered_units fee
  | RqInvokeMilestoneTool tool_id input_data milestones fee =>
      build_invoke_milestone_tool w now_ms tool_id input_data milestones fee
  | RqSubmitToolResult job_id result_hash result_metadata fee =>
      build_submit_tool_result w now_ms job_id result_hash result_metadata fee
  | RqSubmitToolMilestoneResult job_id milestone_index result_hash result_metadata fee =>
      build_submit_tool_milestone_result w now_ms job_id milestone_index result_hash
        result_metadata fee
  | RqAcceptToolResult job_id fee =>
      build_accept_tool_result w now_ms job_id fee
  | RqAcceptToolMilestoneResult job_id milestone_index fee =>
      build_accept_tool_milestone_result w now_ms job_id milestone_index fee
  | RqDisputeToolResult job_id reason fee =>
      build_dispute_tool_result w now_ms job_id reason fee
  | RqDisputeToolMilestoneResult job_id milestone_index reason fee =>
      build_dispute_tool_milestone_result w now_ms job_id milestone_index reason fee
  | RqResolveToolResult job_id provider_wins reason fee =>
      build_resolve_tool_result w now_ms job_id provider_wins reason fee
  | RqResolveToolMilestoneResult job_id milestone_index provider_wins reason fee =>
      build_resolve_tool_milestone_result w now_ms job_id milestone_index provider_wins reason
        fee
  | RqExpireToolJob job_id fee =>
      build_expire_tool_job w now_ms job_id fee
  | RqReportToolUsage session_id units_used result_hash result_metadata fee =>
      build_report_tool_usage w now_ms session_id units_used result_hash result_metadata fee
  | RqAcceptToolUsage session_id fee =>
      build_accept_tool_usage w now_ms session_id fee
  | RqDisputeToolUsage session_id reason fee =>
      build_dispute_tool_usage w now_ms session_id reason fee
  | RqResolveToolUsage session_id provider_wins reason fee =>
      build_resolve_tool_usage w now_ms session_id provider_wins reason fee
  | RqExpireToolUsage session_id fee =>
      build_expire_tool_usage w now_ms session_id fee
  | RqUpdateTool _tool_id update fee =>
      build_update_tool w now_ms _tool_id update fee
  | RqExecuteAgreement agreement_id result_hash fee =>
      build_execute_agreement w now_ms agreement_id result_hash fee
  | RqExecuteMilestone agreement_id result_hash milestone_index fee =>
      build_execute_milestone w now_ms agreement_id result_hash milestone_index fee
  | RqDisputeAgreement agreement_id reason fee =>
      build_dispute_agreement w now_ms agreement_id reason fee
  | RqDisputeAgreementWithMilestone agreement_id reason milestone_index fee =>
      build_dispute_agreement_with_milestone w now_ms agreement_id reason milestone_index fee
  | RqAcceptAgreement agreement_id fee =>
      build_accept_agreement w now_ms agreement_id fee
  | RqResolveAgreement agreement_id payouts reputation_effects reason milestone_index fee =>
      build_resolve_agreement w now_ms agreement_id payouts reputation_effects reason
        milestone_index fee
  | RqCancelAgreement agreement_id fee =>
      build_cancel_agreement w now_ms agreement_id fee
  | RqRegisterArbitrator name description stake fee_bps specializations fee =>
      build_register_arbitrator w now_ms name description stake fee_bps specializations fee
  | RqDeployContract bytecode initial_balance fee =>
      build_deploy_contract w now_ms bytecode initial_balance fee
  | RqCallContract contract_address function args call_value gas_limit fee =>
      build_call_contract w now_ms contract_address function args call_value gas_limit fee
  | RqCallContractRoute deployer route_name function args call_value gas_limit fee =>
      build_call_contract_route w now_ms deployer route_name function args call_value gas_limit
        fee
  | RqVerifyContractSource contract_address proof fee =>
      build_verify_contract_source w now_ms contract_address proof fee
  | RqPublishContractAbi contract_address abi fee =>
      build_publish_contract_abi w now_ms contract_address abi fee
  | RqUpdateContractRoute route_name target_contract_address fee =>
      build_update_contract_route w now_ms route_name target_contract_address fee
  | RqCreateToken name symbol decimals initial_supply max_supply mint_authority burnable
    metadata fee =>
      build_create_token w now_ms name symbol decimals initial_supply max_supply mint_authority
        burnable metadata fee
  | RqTransferToken token_id to amount fee =>
      build_transfer_token w now_ms token_id to amount fee
  | RqApproveToken token_id spender amount fee =>
      build_approve_token w now_ms token_id spender amount fee
  | RqMintToken token_id to amount fee =>
      build_mint_token w now_ms token_id to amount fee
  | RqUpdateTokenMintAuthority token_id mint_authority fee =>
      build_update_token_mint_authority w now_ms token_id mint_authority fee
  | RqBurnToken token_id amount fee =>
      build_burn_token w now_ms token_id amount fee
  | RqDeregisterAgent fee =>
      build_deregister_agent w now_ms fee
  | RqDeregisterTool tool_id fee =>
      build_deregister_tool w now_ms tool_id fee
  | RqDeregisterArbitrator fee =>
      build_deregister_arbitrator w now_ms fee
  | RqDeactivateContract contract_address fee =>
      build_deactivate_contract w now_ms contract_address fee
  | RqDestroyToken token_id fee =>
      build_destroy_token w now_ms token_id fee
  | RqProposeCapability proposal fee =>
      build_propose_capability w now_ms proposal fee
  | RqApproveCapability approval fee =>
      build_approve_capability w now_ms approval fee
  | RqRejectCapability rejection fee =>
      build_reject_capability w now_ms rejection fee
  | RqDeprecateCapability deprecation fee =>
      build_deprecate_capability w now_ms deprecation fee
  | RqRpcReadDelegationGrant delegate_public_key service_id scope_mask expires_at_ms fee =>
      build_rpc_read_delegation_grant w now_ms delegate_public_key service_id scope_mask
        expires_at_ms fee
  | RqRpcReadDelegationRevoke delegation_id fee =>
      build_rpc_read_delegation_revoke w now_ms delegation_id fee
  end.

(** A request, with the service that answers its calls: what comes of it, and the calls made. *)
Definition run_request (w : AgentWallet) (now_ms : Z) (r : request) : built :=
  (answered (fun call => embed_service call.1 call.2) (ask_request w now_ms r)).2.
Definition request_calls (w : AgentWallet) (now_ms : Z) (r : request) : list embed_call :=
  (answered (fun call => embed_service call.1 call.2) (ask_request w now_ms r)).1.

(** ** Transport *)
Definition tx_to_hex `{Bincode Tx.SignedTransaction} (signed_tx : Tx.SignedTransaction)
    : result ZinchaError rstr :=
  bytes ← encode signed_tx; Ok (hex_encode bytes).
Definition tx_from_hex `{Bincode Tx.SignedTransaction} (hex_str : rstr)
    : result ZinchaError Tx.SignedTransaction :=
  bytes ← map_err (fun e => Serialization (Msg "{}" [AStr e])) (hex_decode hex_str);
  map_err (fun e => Serialization (Msg "{}" [AStr e])) (bincode_deserialize bytes).

(** ** What a request should be

    The type a request's transaction carries and the fee it offers. *)
Definition request_type (r : request) : Tx.TxType :=
  match r with
  | RqTransfer _ _ _ | RqTransferWithPriorityFee _ _ _ _ => Tx.Transfer
  | RqEntityLink _ _ _ => Tx.EntityLink
  | RqRegisterAgent _ _ _ _ _ | RqRegisterAgentFull _ _ _ _ _ _ _ => Tx.AgentRegister
  | RqSubmitTask _ _ _ _ _ _ _ | RqSubmitTaskWithPrefs _ _ _ _ _ _ _ _ => Tx.TaskSubmit
  | RqRegisterValidator _ _ | RqRegisterValidatorWithUpdate _ _ _ |
    RqRegisterValidatorWithVrfPublicKey _ _ _ => Tx.ValidatorRegister
  | RqUpdateValidator _ _ | RqReactivateValidator _ | RqUpdateValidatorVrfPublicKey _ _ => Tx.ValidatorUpdate
  | RqValidatorVrfCommit _ _ _ _ => Tx.ValidatorVrfCommit
  | RqValidatorVrfContribution _ _ _ _ => Tx.ValidatorVrfContribution
  | RqCreateAgreement _ _ _ _ _ _ _ _ _ _ => Tx.AgreementCreate
  | RqRegisterTool _ _ _ _ _ _ _ | RqRegisterToolResultEscrowed _ _ _ _ _ _ _ _ _ _ |
    RqRegisterToolMilestoneEscrowed _ _ _ _ _ _ _ _ _ _ | RqRegisterToolMeteredUsage _ _ _ _ _ _ _
    _ _ _ | RqRegisterToolWithSettlement _ _ _ _ _ _ _ _ _ _ _ _ => Tx.ToolRegister
  | RqCreateToolSubscriptionPlan _ _ _ _ _ _ _ _ => Tx.ToolSubscriptionPlanCreate
  | RqUpdateToolSubscriptionPlan _ _ => Tx.ToolSubscriptionPlanUpdate
  | RqStartToolSubscription _ _ _ _ => Tx.ToolSubscriptionStart
  | RqTopUpToolSubscription _ _ _ => Tx.ToolSubscriptionTopUp
  | RqCancelToolSubscription _ _ => Tx.ToolSubscriptionCancel
  | RqResumeToolSubscription _ _ | RqResumeToolSubscriptionWithReserve _ _ _ => Tx.ToolSubscriptionResume
  | RqRenewToolSubscription _ _ => Tx.ToolSubscriptionRenew
  | RqStake _ _ _ | RqRequesterAutoMatchBond _ _ => Tx.Stake
  | RqUnstake _ _ _ => Tx.Unstake
  | RqExitValidator _ => Tx.ValidatorExit
  | RqFulfillTask _ _ _ _ _ _ | RqFulfillTaskVerified _ _ _ _ _ _ _ => Tx.TaskFulfill
  | RqAcceptTask _ _ => Tx.TaskAccept
  | RqDisputeTask _ _ _ => Tx.TaskDispute
  | RqResolveTask _ _ _ _ => Tx.TaskResolve
  | RqFinalizeTask _ _ => Tx.TaskFinalize
  | RqCancelTask _ _ => Tx.TaskCancel
  | RqDecomposeTask _ _ _ => Tx.TaskDecompose
  | RqBatch _ _ => Tx.Batch
  | RqUpdateAgent _ _ _ _ _ _ _ | RqUpdateAgentFull _ _ _ _ _ _ _ _ _ _ => Tx.AgentUpdate
  | RqUpdateReputation _ _ _ _ | RqUpdateReputationWithFeedback _ _ _ _ _ => Tx.ReputationUpdate
  | RqPurchaseToolAccess _ _ _ | RqInvokeTool _ _ _ | RqInvokeMeteredTool _ _ _ _ |
    RqInvokeMilestoneTool _ _ _ _ => Tx.ToolInvoke
  | RqSubmitToolResult _ _ _ _ | RqSubmitToolMilestoneResult _ _ _ _ _ => Tx.ToolResultSubmit
  | RqAcceptToolResult _ _ | RqAcceptToolMilestoneResult _ _ _ => Tx.ToolResultAccept
  | RqDisputeToolResult _ _ _ | RqDisputeToolMilestoneResult _ _ _ _ => Tx.ToolResultDispute
  | RqResolveToolResult _ _ _ _ | RqResolveToolMilestoneResult _ _ _ _ _ => Tx.ToolResultResolve
  | RqExpireToolJob _ _ => Tx.ToolJobExpire
  | RqReportToolUsage _ _ _ _ _ => Tx.ToolUsageReport
  | RqAcceptToolUsage _ _ => Tx.ToolUsageAccept
  | RqDisputeToolUsage _ _ _ => Tx.ToolUsageDispute
  | RqResolveToolUsage _ _ _ _ => Tx.ToolUsageResolve
  | RqExpireToolUsage _ _ => Tx.ToolUsageExpire
  | RqUpdateTool _ _ _ => Tx.ToolUpdate
  | RqExecuteAgreement _ _ _ | RqExecuteMilestone _ _ _ _ => Tx.AgreementExecute
  | RqDisputeAgreement _ _ _ | RqDisputeAgreementWithMilestone _ _ _ _ => Tx.AgreementDispute
  | RqAcceptAgreement _ _ => Tx.AgreementAccept
  | RqResolveAgreement _ _ _ _ _ _ => Tx.AgreementResolve
  | RqCancelAgreement _ _ => Tx.AgreementCancel
  | RqRegisterArbitrator _ _ _ _ _ _ => Tx.ArbitratorRegister
  | RqDeployContract _ _ _ => Tx.ContractDeploy
  | RqCallContract _ _ _ _ _ _ => Tx.ContractCall
  | RqCallContractRoute _ _ _ _ _ _ _ => Tx.ContractRouteCall
  | RqVerifyContractSource _ _ _ => Tx.ContractVerify
  | RqPublishContractAbi _ _ _ => Tx.ContractPublishAbi
  | RqUpdateContractRoute _ _ _ => Tx.ContractRouteUpdate
  | RqCreateToken _ _ _ _ _ _ _ _ _ => Tx.TokenCreate
  | RqTransferToken _ _ _ _ => Tx.TokenTransfer
  | RqApproveToken _ _ _ _ => Tx.TokenApprove
  | RqMintToken _ _ _ _ => Tx.TokenMint
  | RqUpdateTokenMintAuthority _ _ _ => Tx.TokenUpdateAuthority
  | RqBurnToken _ _ _ => Tx.TokenBurn
  | RqDeregisterAgent _ => Tx.AgentDeregister
  | RqDeregisterTool _ _ => Tx.ToolDeregister
  | RqDeregisterArbitrator _ => Tx.ArbitratorDeregister
  | RqDeactivateContract _ _ => Tx.ContractDeactivate
  | RqDestroyToken _ _ => Tx.TokenDestroy
  | RqProposeCapability _ _ => Tx.CapabilityPropose
  | RqApproveCapability _ _ => Tx.CapabilityApprove
  | RqRejectCapability _ _ => Tx.CapabilityReject
  | RqDeprecateCapability _ _ => Tx.CapabilityDeprecate
  | RqRpcReadDelegationGrant _ _ _ _ _ => Tx.RpcReadDelegationGrant
  | RqRpcReadDelegationRevoke _ _ => Tx.RpcReadDelegationRevoke
  end.
Definition request_fee (r : request) : Z :=
  match r with
  | RqTransfer _ _ fee => fee
  | RqEntityLink _ _ fee => fee
  | RqTransferWithPriorityFee _ _ fee _ => fee
  | RqRegisterAgent _ _ _ _ fee => fee
  | RqRegisterAgentFull _ _ _ _ _ _ fee => fee
  | RqSubmitTask _ _ _ _ _ _ fee => fee
  | RqSubmitTaskWithPrefs _ _ _ _ _ _ fee _ => fee
  | RqRegisterValidator _ fee => fee
  | RqRegisterValidatorWithUpdate _ _ fee => fee
  | RqRegisterValidatorWithVrfPublicKey _ _ fee => fee
  | RqUpdateValidator _ fee => fee
  | RqReactivateValidator fee => fee
  | RqUpdateValidatorVrfPublicKey _ fee => fee
  | RqValidatorVrfCommit _ _ _ fee => fee
  | RqValidatorVrfContribution _ _ _ fee => fee
  | RqCreateAgreement _ _ _ _ _ _ _ _ _ fee => fee
  | RqRegisterTool _ _ _ _ _ _ fee => fee
  | RqRegisterToolResultEscrowed _ _ _ _ _ _ _ _ _ fee => fee
  | RqRegisterToolMilestoneEscrowed _ _ _ _ _ _ _ _ _ fee => fee
  | RqRegisterToolMeteredUsage _ _ _ _ _ _ _ _ _ fee => fee
  | RqRegisterToolWithSettlement _ _ _ _ _ _ _ _ _ _ _ fee => fee
  | RqCreateToolSubscriptionPlan _ _ _ _ _ _ _ fee => fee
  | RqUpdateToolSubscriptionPlan _ fee => fee
  | RqStartToolSubscription _ _ _ fee => fee
  | RqTopUpToolSubscription _ _ fee => fee
  | RqCancelToolSubscription _ fee => fee
  | RqResumeToolSubscription _ fee => fee
  | RqResumeToolSubscriptionWithReserve _ _ fee => fee
  | RqRenewToolSubscription _ fee => fee
  | RqStake _ _ fee => fee
  | RqRequesterAutoMatchBond _ fee => fee
  | RqUnstake _ _ fee => fee
  | RqExitValidator fee => fee
  | RqFulfillTask _ _ _ _ _ fee => fee
  | RqFulfillTaskVerified _ _ _ _ _ _ fee => fee
  | RqAcceptTask _ fee => fee
  | RqDisputeTask _ _ fee => fee
  | RqResolveTask _ _ _ fee => fee
  | RqFinalizeTask _ fee => fee
  | RqCancelTask _ fee => fee
  | RqDecomposeTask _ _ fee => fee
  | RqBatch _ fee => fee
  | RqUpdateAgent _ _ _ _ _ _ fee => fee
  | RqUpdateAgentFull _ _ _ _ _ _ _ _ _ fee => fee
  | RqUpdateReputation _ _ _ fee => fee
  | RqUpdateReputationWithFeedback _ _ _ _ fee => fee
  | RqPurchaseToolAccess _ _ fee => fee
  | RqInvokeTool _ _ fee => fee
  | RqInvokeMeteredTool _ _ _ fee => fee
  | RqInvokeMilestoneTool _ _ _ fee => fee
  | RqSubmitToolResult _ _ _ fee => fee
  | RqSubmitToolMilestoneResult _ _ _ _ fee => fee
  | RqAcceptToolResult _ fee => fee
  | RqAcceptToolMilestoneResult _ _ fee => fee
  | RqDisputeToolResult _ _ fee => fee
  | RqDisputeToolMilestoneResult _ _ _ fee => fee
  | RqResolveToolResult _ _ _ fee => fee
  | RqResolveToolMilestoneResult _ _ _ _ fee => fee
  | RqExpireToolJob _ fee => fee
  | RqReportToolUsage _ _ _ _ fee => fee
  | RqAcceptToolUsage _ fee => fee
  | RqDisputeToolUsage _ _ fee => fee
  | RqResolveToolUsage _ _ _ fee => fee
  | RqExpireToolUsage _ fee => fee
  | RqUpdateTool _ _ fee => fee
  | RqExecuteAgreement _ _ fee => fee
  | RqExecuteMilestone _ _ _ fee => fee
  | RqDisputeAgreement _ _ fee => fee
  | RqDisputeAgreementWithMilestone _ _ _ fee => fee
  | RqAcceptAgreement _ fee => fee
  | RqResolveAgreement _ _ _ _ _ fee => fee
  | RqCancelAgreement _ fee => fee
  | RqRegisterArbitrator _ _ _ _ _ fee => fee
  | RqDeployContract _ _ fee => fee
  | RqCallContract _ _ _ _ _ fee => fee
  | RqCallContractRoute _ _ _ _ _ _ fee => fee
  | RqVerifyContractSource _ _ fee => fee
  | RqPublishContractAbi _ _ fee => fee
  | RqUpdateContractRoute _ _ fee => fee
  | RqCreateToken _ _ _ _ _ _ _ _ fee => fee
  | RqTransferToken _ _ _ fee => fee
  | RqApproveToken _ _ _ fee => fee
  | RqMintToken _ _ _ fee => fee
  | RqUpdateTokenMintAuthority _ _ fee => fee
  | RqBurnToken _ _ fee => fee
  | RqDeregisterAgent fee => fee
  | RqDeregisterTool _ fee => fee
  | RqDeregisterArbitrator fee => fee
  | RqDeactivateContract _ fee => fee
  | RqDestroyToken _ fee => fee
  | RqProposeCapability _ fee => fee
  | RqApproveCapability _ fee => fee
  | RqRejectCapability _ fee => fee
  | RqDeprecateCapability _ fee => fee
  | RqRpcReadDelegationGrant _ _ _ _ fee => fee
  | RqRpcReadDelegationRevoke _ fee => fee
  end.

(** The text whose embedding a request carries: the name, the description and the capabilities of an
    agent or a tool, the description and the capabilities of a task; of an agent's update, only
    if it states all three and brings no embedding of its own. *)
Definition request_text (r : request) : option rstr :=
  match r with
  | RqRegisterAgent name description capabilities _ _
  | RqRegisterAgentFull name description capabilities _ _ _ _
  | RqRegisterTool name description _ _ capabilities _ _
  | RqRegisterToolResultEscrowed name description _ _ _ _ _ capabilities _ _
  | RqRegisterToolMilestoneEscrowed name description _ _ _ _ _ capabilities _ _
  | RqRegisterToolMeteredUsage name description _ _ _ _ _ capabilities _ _
  | RqRegisterToolWithSettlement name description _ _ _ _ _ _ _ capabilities _ _
  | RqUpdateAgent (Some name) (Some description) _ (Some capabilities) _ _ _
  | RqUpdateAgentFull (Some name) (Some description) None _ (Some capabilities) _ _ _ _ _ =>
      Some (agent_semantic_profile_text name description capabilities)
  | RqSubmitTask description capabilities _ _ _ _ _
  | RqSubmitTaskWithPrefs description capabilities _ _ _ _ _ _ =>
      Some (description ++ lit " " ++ capability_words capabilities)
  | _ => None
  end.
(** The one call of a request that carries an embedding, if the wallet has a service. *)
Definition embedding_calls (w : AgentWallet) (r : request) : list embed_call :=
  match embed_url w, request_text r with Some url, Some text => [(url, text)] | _, _ => [] end.

(** The transactions signed in a run of requests, each with the time it was built at. *)
Fixpoint run_requests (w : AgentWallet) (rs : list (Z * request))
    : AgentWallet * list (may_panic (result ZinchaError Tx.SignedTransaction)) :=
  match rs with
  | [] => (w, [])
  | (now_ms, r) :: rs' =>
      let '(w', o) := run_request w now_ms r in
      let '(w'', os) := run_requests w' rs' in (w'', o :: os)
  end.
Definition signed_of (o : may_panic (result ZinchaError Tx.SignedTransaction))
    : option Tx.SignedTransaction := r ← o; ok r.

(** ** Properties *)

(** What holds of every transaction a wallet hands out. *)
Record emitted (w : AgentWallet) (now_ms : Z) (stx : Tx.SignedTransaction) : Prop := {
  em_verified : Tx.verify stx = Some (Ok ());
  em_key : Tx.public_key stx = wallet_public_key w;
  em_sender : Tx.sender (Tx.transaction stx) = address w;
  em_nonce : Tx.nonce (Tx.transaction stx) = nonce w;
  em_chain : Tx.chain_id (Tx.transaction stx) = chain_id w;
  em_time : Tx.timestamp (Tx.transaction stx) = default now_ms (timestamp_ms w);
  em_window :
    match tx_validity_window w with
    | None => Tx.has_explicit_validity_window (Tx.transaction stx) = false
    | Some (height, hash, ttl) =>
        Tx.reference_block_height (Tx.transaction stx) = height /\
        Tx.reference_block_hash (Tx.transaction stx) = hash /\
        Tx.max_valid_block_height (Tx.transaction stx) = sat_add height (Z.max ttl 1)
    end;
}.

(** A builder's outcome: a transaction, with the nonce taken; or none, with the nonce taken
    or not. *)
Definition answers (w : AgentWallet) (now_ms : Z) (ty : Tx.TxType) (fee : Z) (b : built) : Prop :=
  match b.2 with
  | Some (Ok stx) =>
      b.1 = next_nonce w /\ emitted w now_ms stx /\
      Tx.tx_type (Tx.transaction stx) = ty /\ Tx.fee (Tx.transaction stx) = fee
  | _ => b.1 = w \/ b.1 = next_nonce w
  end.

Lemma apply_window_keeps w tx :
  let tx' := apply_window w tx in
  (Tx.tx_type tx', Tx.sender tx', Tx.nonce tx', Tx.chain_id tx', Tx.timestamp tx', Tx.fee tx')
  = (Tx.tx_type tx, Tx.sender tx, Tx.nonce tx, Tx.chain_id tx, Tx.timestamp tx, Tx.fee tx).
Proof. unfold apply_window. by repeat case_match. Qed.

Lemma sign_transaction_Ok w tx stx :
  sign_transaction w tx = Some (Ok stx) ->
  Tx.transaction stx = apply_window w tx /\ Tx.public_key stx = wallet_public_key w /\
  Tx.sender tx = pk_to_address (wallet_public_key w) /\ Tx.verify stx = Some (Ok ()).
Proof.
  unfold sign_transaction. pose proof (apply_window_keeps w tx) as K. cbn zeta in K.
  injection K as _ Ks _ _ _ _. rewrite Ks.
  case_bool_decide as Es; cbn [negb]; [|done].
  destruct (Tx.hash _) as [h|] eqn:Eh; cbn [mbind option_bind]; [|done].
  destruct (signer_sign _ _ _) as [s|e]; [|done].
  destruct (Tx.verify _) as [[[]|e]|] eqn:Ev; cbn; [|done|done].
  intros [= <-]. done.
Qed.

Lemma answers_submit w now_ms ty to amount fee tip payload :
  answers w now_ms ty fee (submit w now_ms ty to amount fee tip payload).
Proof.
  unfold answers, submit. cbn [fst snd]. destruct payload as [data|e]; [|by right].
  destruct (sign_transaction _ _) as [[stx|e]|] eqn:E; [|by right|by right].
  apply sign_transaction_Ok in E as (Et & Ek & Es & Ev). split; [done|].
  match type of Et with _ = apply_window ?x ?y => pose proof (apply_window_keeps x y) as K end.
  cbn zeta in K. rewrite <- Et in K. cbn in K. injection K as K1 K2 K3 K4 K5 K6.
  split; [|done]. split; try done.
  rewrite Et. unfold apply_window. cbn. by destruct (tx_validity_window w) as [[[h hs] ttl]|].
Qed.

Lemma answers_after {A} w now_ms ty fee (check : result ZinchaError A) k :
  (forall a, answers w now_ms ty fee (k a)) -> answers w now_ms ty fee (after w check k).
Proof. intros Hk. destruct check; [apply Hk|by left]. Qed.

Create HintDb builders.
#[local] Hint Unfold build_transfer build_entity_link build_transfer_with_priority_fee build_register_agent
    build_register_agent_full build_submit_task build_submit_task_with_prefs
    build_register_validator build_register_validator_with_update
    build_register_validator_with_vrf_public_key build_update_validator build_reactivate_validator
    build_update_validator_vrf_public_key build_validator_vrf_commit
    build_validator_vrf_contribution build_create_agreement build_register_tool
    build_register_tool_result_escrowed build_register_tool_milestone_escrowed
    build_register_tool_metered_usage build_register_tool_with_settlement
    build_create_tool_subscription_plan build_update_tool_subscription_plan
    build_start_tool_subscription build_top_up_tool_subscription build_cancel_tool_subscription
    build_resume_tool_subscription build_resume_tool_subscription_with_reserve
    build_renew_tool_subscription build_stake build_requester_auto_match_bond build_unstake
    build_exit_validator build_fulfill_task build_fulfill_task_verified build_accept_task
    build_dispute_task build_resolve_task build_finalize_task build_cancel_task
    build_decompose_task build_batch build_update_agent build_update_agent_full
    build_update_reputation build_update_reputation_with_feedback build_purchase_tool_access
    build_invoke_tool build_invoke_metered_tool build_invoke_milestone_tool
    build_submit_tool_result build_submit_tool_milestone_result build_accept_tool_result
    build_accept_tool_milestone_result build_dispute_tool_result
    build_dispute_tool_milestone_result build_resolve_tool_result
    build_resolve_tool_milestone_result build_expire_tool_job build_report_tool_usage
    build_accept_tool_usage build_dispute_tool_usage build_resolve_tool_usage
    build_expire_tool_usage build_update_tool build_execute_agreement build_execute_milestone
    build_dispute_agreement build_dispute_agreement_with_milestone build_accept_agreement
    build_resolve_agreement build_cancel_agreement build_register_arbitrator build_deploy_contract
    build_call_contract build_call_contract_route build_verify_contract_source
    build_publish_contract_abi build_update_contract_route build_create_token build_transfer_token
    build_approve_token build_mint_token build_update_token_mint_authority build_burn_token
    build_deregister_agent build_deregister_tool build_deregister_arbitrator
    build_deactivate_contract build_destroy_token build_propose_capability
    build_approve_capability build_reject_capability build_deprecate_capability
    build_rpc_read_delegation_grant build_rpc_read_delegation_revoke : builders.

(** To show [P] of what a request answers, show it of each builder. *)
Ltac by_builder :=
  cbn [ask_request request_type request_fee]; autounfold with builders; cbv zeta;
  repeat (apply ends_bind; intros ?); apply ends_answered.

Lemma answers_request w now_ms r :
  answers w now_ms (request_type r) (request_fee r) (run_request w now_ms r).
Proof.
  unfold run_request.
  enough (ends (answers w now_ms (request_type r) (request_fee r)) (ask_request w now_ms r)) as E
    by apply E.
  destruct r; by_builder;
    repeat first [apply answers_submit | apply answers_after; intros; repeat case_match].
Qed.

(** The calls a request makes are the one its text asks for. *)
Lemma request_calls_spec w now_ms r : request_calls w now_ms r = embedding_calls w r.
Proof.
  unfold request_calls, embedding_calls.
  destruct r; try (cbn [request_text]; by destruct (embed_url w));
    cbn [ask_request request_text]; autounfold with builders; cbv zeta;
    unfold update_neural_embedding, compute_agent_neural_embedding, compute_neural_embedding;
    repeat match goal with o : option _ |- _ => destruct o end; cbn.
  all: by destruct (embed_url w).
Qed.

(** C9: Whatever the signer does, a wallet hands out only good transactions. For each of the
    ninety-six builders, a transaction that is returned verifies, is sent from the
    wallet's address and carries its key, its chain, its current nonce, its clock reading
    and its validity window, with the type and the fee of the request; the wallet is left
    with the next nonce. When nothing is returned the wallet is unchanged but for the
    nonce. *)
Theorem wallet_requests_sound w now_ms r :
  answers w now_ms (request_type r) (request_fee r) (run_request w now_ms r).
Proof. apply answers_request. Qed.

(** *** Runs *)
Lemma next_nonce_fields w :
  (signer (next_nonce w), chain_id (next_nonce w), embed_url (next_nonce w),
   tx_validity_window (next_nonce w), timestamp_ms (next_nonce w))
  = (signer w, chain_id w, embed_url w, tx_validity_window w, timestamp_ms w).
Proof. done. Qed.

Lemma request_step w now_ms r w' o :
  run_request w now_ms r = (w', o) ->
  (w' = w \/ w' = next_nonce w) /\
  (forall stx, signed_of o = Some stx -> w' = next_nonce w /\ emitted w now_ms stx).
Proof.
  intros E. pose proof (answers_request w now_ms r) as A. unfold answers in A. rewrite E in A.
  cbn [fst snd] in A. destruct o as [[stx|e]|]; cbn.
  - destruct A as (A1 & A2 & _). split; [by right|]. by intros ? [= <-].
  - done.
  - done.
Qed.

(** A run takes at most one nonce a request and signs with the nonces it takes, each once. *)
Record run_ok (w w' : AgentWallet) (n : nat) (txs : list Tx.SignedTransaction) : Prop := {
  ro_config : (signer w', chain_id w', tx_validity_window w') = (signer w, chain_id w, tx_validity_window w);
  ro_nonce : nonce w <= nonce w' <= nonce w + Z.of_nat n;
  ro_sorted : StronglySorted Z.lt ((fun s => Tx.nonce (Tx.transaction s)) <$> txs);
  ro_range : Forall (fun s => nonce w <= Tx.nonce (Tx.transaction s) < nonce w') txs;
  ro_sender : Forall (fun s => Tx.verify s = Some (Ok ()) /\
                        Tx.sender (Tx.transaction s) = address w) txs;
}.

Lemma run_requests_ok w rs w' os :
  0 <= nonce w -> nonce w + Z.of_nat (length rs) <= U64_MAX -> run_requests w rs = (w', os) ->
  length os = length rs /\ run_ok w w' (length rs) (omap signed_of os).
Proof.
  revert w w' os. induction rs as [|[t r] rs IH]; intros w w' os Hlo Hn E; cbn in E.
  - injection E as <- <-. split; [done|]. split; try done; [cbn; lia|constructor].
  - destruct (run_request w t r) as [w1 o] eqn:E1.
    destruct (run_requests w1 rs) as [w2 os2] eqn:E2. injection E as <- <-.
    destruct (request_step _ _ _ _ _ E1) as [Hw Hs]. cbn [length] in Hn.
    assert ((signer w1, chain_id w1, tx_validity_window w1) =
            (signer w, chain_id w, tx_validity_window w) /\
            nonce w <= nonce w1 <= nonce w + 1) as [C N].
    { destruct Hw as [-> | ->]; [split; [done|lia]|]. split; [done|]. cbn. unfold wrap64.
      rewrite Z.mod_small; unfold U64_MAX in *; lia. }
    apply IH in E2 as [L [R1 R2 R3 R4 R5]]; [|lia|lia].
    split; [cbn; lia|].
    assert (address w1 = address w) as Ea by (unfold address, wallet_public_key; congruence).
    cbn [omap list_omap]. destruct (signed_of o) as [stx|] eqn:Eo.
    + destruct (Hs stx eq_refl) as [-> [V _ S Nn _ _ _]].
      assert (nonce (next_nonce w) = nonce w + 1) as Nx.
      { cbn. unfold wrap64. rewrite Z.mod_small; unfold U64_MAX in *; lia. }
      rewrite Nx in *. split; [congruence|cbn [length]; lia| | |].
      * cbn [fmap list_fmap]. constructor; [done|]. rewrite Nn. apply Forall_fmap.
        eapply Forall_impl; [exact R4|]. cbn. lia.
      * constructor; [lia|]. eapply Forall_impl; [exact R4|]. cbn. lia.
      * constructor; [done|]. by rewrite <- Ea.
    + split; [congruence|cbn [length]; lia|done| |by rewrite <- Ea].
      eapply Forall_impl; [exact R4|]. cbn. lia.
Qed.

Lemma sorted_nodup (txs : list Tx.SignedTransaction) :
  StronglySorted Z.lt ((fun s => Tx.nonce (Tx.transaction s)) <$> txs) ->
  NoDup (Tx.transaction <$> txs).
Proof.
  induction txs as [|s txs IH]; intros S; [constructor|]. cbn in *.
  apply StronglySorted_inv in S as [S F]. constructor; [|by apply IH].
  intros (s' & E & I)%list_elem_of_fmap.
  rewrite Forall_fmap, Forall_forall in F. specialize (F s' I). cbn in F. rewrite E in F. lia.
Qed.

(** C10: A run of requests never reuses a nonce. Whatever is asked of a wallet and however
    the signer and the serialisers fail, the transactions signed have strictly increasing
    nonces within those the run took, so no two are the same transaction; all verify and
    come from the one address. When every request is answered with a transaction the nonces
    are consecutive from the wallet's own. *)
Theorem wallet_run_nonces w rs w' os :
  0 <= nonce w -> nonce w + Z.of_nat (length rs) <= U64_MAX -> run_requests w rs = (w', os) ->
  let txs := omap signed_of os in
  run_ok w w' (length rs) txs /\ NoDup (Tx.transaction <$> txs) /\
  (Forall (fun o => is_Some (signed_of o)) os ->
   ((fun s => Tx.nonce (Tx.transaction s)) <$> txs) = seqZ (nonce w) (Z.of_nat (length rs)) /\
   nonce w' = nonce w + Z.of_nat (length rs)).
Proof.
  intros Hlo Hn E. cbn zeta. pose proof (run_requests_ok _ _ _ _ Hlo Hn E) as [L R].
  split; [done|]. split; [by apply sorted_nodup, R|].
  intros F. clear R L. revert w w' os Hlo Hn E F.
  induction rs as [|[t r] rs IH]; intros w w' os Hlo Hn E F; cbn in E.
  - injection E as <- <-. cbn. split; [done|lia].
  - destruct (run_request w t r) as [w1 o] eqn:E1.
    destruct (run_requests w1 rs) as [w2 os2] eqn:E2. injection E as <- <-.
    apply Forall_cons in F as [[stx Eo] F]. cbn [length] in *.
    destruct (request_step _ _ _ _ _ E1) as [_ Hs]. destruct (Hs stx Eo) as [-> [_ _ _ Nn _ _ _]].
    assert (nonce (next_nonce w) = nonce w + 1) as Nx.
    { cbn. unfold wrap64. rewrite Z.mod_small; unfold U64_MAX in *; lia. }
    destruct (IH (next_nonce w) w2 os2) as [I1 I2]; try done; [lia|lia|]. rewrite Nx in *.
    cbn [omap list_omap]. rewrite Eo. cbn [fmap list_fmap]. rewrite Nn. split; [|lia].
    rewrite seqZ_cons by lia. f_equal. etrans; [exact I1|]. f_equal; lia.
Qed.

(** *** A wallet with a local key *)

(** The error of a check on the arguments, as opposed to one of the serialiser. *)
Definition argument_error (e : ZinchaError) : bool :=
  match e with InvalidTransaction _ | InvalidCapability _ => true | _ => false end.
Definition checks_arguments {A} (r : result ZinchaError A) : Prop :=
  match r with Ok _ => True | Err e => argument_error e = true end.

Lemma ca_Ok {A} (a : A) : checks_arguments (Ok a).
Proof. done. Qed.
Lemma ca_ensure b e : argument_error e = true -> checks_arguments (ensure b e).
Proof. by destruct b. Qed.
Lemma ca_bind {A B} (r : result ZinchaError A) (f : A -> result ZinchaError B) :
  checks_arguments r -> (forall a, checks_arguments (f a)) -> checks_arguments (r ≫= f).
Proof. destruct r; cbn; [intros _ Hf; apply Hf|done]. Qed.
Lemma ca_map_err {A} (r : result message A) : checks_arguments (map_err InvalidTransaction r).
Proof. by destruct r. Qed.
Lemma ca_slug label v : checks_arguments (normalize_capability_slug_field label v).
Proof. unfold normalize_capability_slug_field. by destruct (Capability.normalize_capability_slug _). Qed.
Lemma ca_slugs label vs : checks_arguments (normalize_capability_slug_list label vs).
Proof.
  induction vs as [|v vs IH]; [done|]. cbn [normalize_capability_slug_list].
  apply ca_bind; [apply ca_slug|]. intros a. by apply ca_bind.
Qed.
Lemma ca_try {A} (f : A -> result ZinchaError A) o :
  (forall a, checks_arguments (f a)) -> checks_arguments (try_update f o).
Proof. intros Hf. destruct o; [|done]. by apply ca_bind. Qed.
Lemma ca_vrf_key w pk : checks_arguments (ensure_vrf_public_key_matches_signer w pk).
Proof. by apply ca_ensure. Qed.
Lemma ca_reveal w n seed k : checks_arguments (build_validator_vrf_reveal_data w n seed k).
Proof.
  apply ca_bind; [apply ca_vrf_key|]. intros _. apply ca_bind; [|done].
  unfold Validator.expected_output_from_proof, Validator.proof_signature. by rewrite mk_bytesN_bn.
Qed.

Create HintDb checks.
#[local] Hint Resolve ca_Ok ca_ensure ca_bind ca_map_err ca_slug ca_slugs ca_try ca_vrf_key
  ca_reveal : checks.

Lemma ca_proposal p : checks_arguments (normalize_capability_proposal p).
Proof. unfold normalize_capability_proposal. eauto 10 with checks. Qed.
Lemma ca_approval a : checks_arguments (normalize_capability_approval a).
Proof. unfold normalize_capability_approval. eauto 12 with checks. Qed.
#[local] Hint Resolve ca_proposal ca_approval : checks.

(** Only the payload's serialiser fails once the nonce is taken. *)
Definition serialises {T} (r : result ZinchaError T) : Prop :=
  match r with Ok _ => True | Err e => exists m, e = Serialization m end.
Lemma encode_serialises {T} `{Bincode T} (x : T) : serialises (encode x).
Proof. unfold encode. destruct (bincode_serialize x); cbn; eauto. Qed.

(** The commitment of a reveal made here passes the checks of [commitment_hash]. *)
Lemma reveal_commits w n seed k d :
  build_validator_vrf_reveal_data w n seed k = Ok d -> exists c, Validator.commitment_hash d = Ok c.
Proof.
  unfold build_validator_vrf_reveal_data, Validator.expected_output_from_proof,
    Validator.proof_signature. rewrite mk_bytesN_bn.
  destruct (ensure_vrf_keypair_matches_signer w k) as [[]|]; [|done].
  unfold sig_from_bytes. cbn [mbind result_bind]. intros [= <-].
  eexists. unfold Validator.commitment_hash.
  rewrite (proj2 (Validator.validate_contribution_iff _)); [done|].
  cbn [Validator.ct_vrf_output Validator.ct_vrf_proof].
  rewrite ?pad_list_length, ?bn_length.
  unfold Validator.MAX_VALIDATOR_VRF_OUTPUT_BYTES, Validator.MAX_VALIDATOR_VRF_PROOF_BYTES. lia.
Qed.

Section LocalKey.
Context `{!Ed25519Laws} (k : Keypair).
Hypothesis transactions_serialise : forall tx : Tx.Transaction, is_ok (bincode_serialize tx) = true.

(** A builder's outcome with a local key: no panic, and the nonce is taken exactly when the
    arguments pass. *)
Definition local_answer (w : AgentWallet) (b : built) : Prop :=
  match b.2 with
  | Some (Ok _) => b.1 = next_nonce w
  | Some (Err (Serialization _)) => b.1 = next_nonce w
  | Some (Err e) => argument_error e = true /\ b.1 = w
  | None => False
  end.

Lemma local_sign w tx :
  signer w = keypair_signer k -> Tx.sender tx = address w ->
  exists stx, sign_transaction w tx = Some (Ok stx).
Proof.
  intros Hk Hs. unfold sign_transaction, wallet_public_key. rewrite Hk. cbn [signer_key signer_sign keypair_signer].
  pose proof (apply_window_keeps w tx) as K. cbn zeta in K. injection K as _ Ks _ _ _ _.
  unfold address, wallet_public_key in Hs. rewrite Hk in Hs. cbn in Hs.
  rewrite bool_decide_eq_true_2 by (by rewrite Ks). cbn [negb].
  pose proof (transactions_serialise (apply_window w tx)) as T.
  unfold Tx.hash at 1. destruct (bincode_serialize (apply_window w tx)) as [b|e] eqn:Eb; [|done].
  cbn [ok mbind option_bind].
  match goal with |- context [Tx.verify ?s] => assert (Tx.verify s = Some (Ok ())) as V end.
  { apply Tx.verify_Ok. cbn [Tx.transaction Tx.tx_hash Tx.public_key Tx.signature].
    split; [unfold Tx.hash; by rewrite Eb|]. split; [by rewrite Ks|]. apply keypair_sign_verify. }
  rewrite V. cbn. eauto.
Qed.

Lemma local_submit w now_ms ty to amount fee tip payload :
  signer w = keypair_signer k -> serialises payload ->
  local_answer w (submit w now_ms ty to amount fee tip payload).
Proof.
  intros Hk Hp. unfold local_answer, submit. cbn [fst snd].
  destruct payload as [data|e]; [|by destruct Hp as [m ->]].
  match goal with |- context [sign_transaction ?x ?y] =>
    destruct (local_sign x y) as [stx ->]; [done..|] end. done.
Qed.

Lemma local_after {A} w (check : result ZinchaError A) f :
  checks_arguments check -> (forall a, check = Ok a -> local_answer w (f a)) ->
  local_answer w (after w check f).
Proof.
  intros Hc Hf. unfold after. destruct check as [a|e]; [by apply Hf|].
  cbn in Hc. unfold local_answer. cbn. by destruct e.
Qed.

(** A wallet with a local key answers every request. If transactions serialise it never
    panics; a request is answered with a signed transaction and the nonce taken, or with an
    error of its arguments and the wallet as it was, or, when its payload does not
    serialise, with that error, which is the only failure that uses up a nonce. *)
Theorem local_wallet_answers w now_ms r :
  signer w = keypair_signer k -> local_answer w (run_request w now_ms r).
Proof.
  intros Hk. unfold run_request.
  enough (ends (local_answer w) (ask_request w now_ms r)) as E by apply E.
  destruct r; by_builder;
    repeat first
      [ apply local_submit; [exact Hk|first [exact I|apply encode_serialises|idtac]]
      | apply local_after; [|intros; repeat case_match] ];
    eauto 10 with checks;
    first
      [ match goal with E : build_validator_vrf_reveal_data _ _ _ _ = Ok _ |- _ =>
          destruct (reveal_commits _ _ _ _ _ E) as [c ->]; apply encode_serialises end
      | repeat case_match; auto with checks ].
Qed.
End LocalKey.

(** *** Payloads *)

(** Hexadecimal transport loses nothing. What [tx_to_hex] writes [tx_from_hex] reads back
    as the same signed transaction, which verifies if the original did; a text that is not
    hexadecimal or does not decode is a serialisation error. *)
Theorem transport_roundtrip `{!HexLaws} `{Bincode Tx.SignedTransaction} `{!BincodeLaws Tx.SignedTransaction}
    stx text :
  tx_to_hex stx = Ok text ->
  tx_from_hex text = Ok stx /\
  (forall other : rstr, is_ok (tx_from_hex other) = false ->
     exists m, tx_from_hex other = Err (Serialization m)).
Proof.
  unfold tx_to_hex, tx_from_hex, encode. intros E. split.
  - destruct (bincode_serialize stx) as [b|] eqn:Eb; cbn [map_err mbind result_bind] in E; [|done].
    injection E as <-. rewrite hex_decode_encode. cbn [map_err mbind result_bind].
    by rewrite (bincode_roundtrip _ _ Eb).
  - intros other. destruct (hex_decode other) as [b|]; cbn; [|by eauto].
    destruct (bincode_deserialize b); cbn; [done|by eauto].
Qed.

(** What the service answers to [m]. *)
Definition fetched {A} (m : fetching A) : A :=
  (answered (fun call => embed_service call.1 call.2) m).2.
(** No stale embedding. An agent update that touches the name, the description or the
    capabilities always carries a neural embedding: the caller's, the one the service gives
    for the complete new profile, or the empty one that clears it; an update that touches
    none of them carries one only if the caller supplied it. *)
Theorem update_never_stale w name description supplied caps :
  let carried := fetched (update_neural_embedding w name description supplied caps) in
  (is_Some name \/ is_Some description \/ is_Some caps -> is_Some carried) /\
  (name = None -> description = None -> caps = None -> carried = supplied) /\
  (forall vec, carried = Some vec -> supplied = None -> vec <> [] ->
   exists n d c, name = Some n /\ description = Some d /\ caps = Some c /\
     fetched (compute_agent_neural_embedding w n d c) = Some vec).
Proof.
  unfold update_neural_embedding. cbn zeta. split; [|split].
  - intros Ht. destruct supplied; [by eexists|].
    replace (bool_decide (is_Some name) || bool_decide (is_Some description) ||
             bool_decide (is_Some caps)) with true.
    + cbn [negb]. destruct name, description, caps; try by eexists.
      unfold fetched. rewrite answered_bind. destruct (answered _ _) as [? []]; by eexists.
    + symmetry. rewrite !orb_true_iff, !bool_decide_eq_true. tauto.
  - intros -> -> ->. by destruct supplied.
  - intros vec E -> Hv. destruct (negb _); [done|].
    destruct name as [n|], description as [d|], caps as [c|]; cbn in E; try congruence.
    exists n, d, c. split_and!; [done..|]. unfold fetched in *. rewrite answered_bind in E.
    destruct (answered _ _) as [? [v|]]; cbn in *; congruence.
Qed.

(** A slug field is refused, or becomes a slug that the chain's check accepts as it is. *)
Lemma slug_field_spec label v s :
  normalize_capability_slug_field label v = Ok s <->
  s = to_ascii_lowercase (trim v) /\ Capability.slug_ok s.
Proof.
  unfold normalize_capability_slug_field.
  assert (trim (to_ascii_lowercase (trim v)) = to_ascii_lowercase (trim v)) as Ht
    by (by rewrite Capability.trim_lowercase, Capability.trim_idem).
  destruct (Capability.normalize_capability_slug _) as [x|e] eqn:E.
  - apply Capability.normalize_slug_iff in E as [-> Hs]. rewrite Ht in Hs.
    split; [by intros [= <-]|by intros [-> _]].
  - split; [done|]. intros [-> Hs]. exfalso.
    rewrite (proj2 (Capability.normalize_slug_iff _ (to_ascii_lowercase (trim v)))) in E; done.
Qed.

Lemma slug_field_idem label v s :
  normalize_capability_slug_field label v = Ok s ->
  normalize_capability_slug_field label s = Ok s /\ Capability.normalize_capability_slug s = Ok s.
Proof.
  intros [-> Hs]%slug_field_spec.
  assert (to_ascii_lowercase (trim (to_ascii_lowercase (trim v))) = to_ascii_lowercase (trim v)) as E.
  { by rewrite Capability.trim_lowercase, Capability.trim_idem, Capability.lowercase_idem. }
  split; [by apply slug_field_spec; rewrite E|].
  apply Capability.normalize_slug_iff. split; [|done]. symmetry. by apply Capability.slug_ok_trim.
Qed.

Lemma slug_list_idem label vs ss :
  normalize_capability_slug_list label vs = Ok ss ->
  normalize_capability_slug_list label ss = Ok ss /\
  Forall (fun s => Capability.normalize_capability_slug s = Ok s) ss.
Proof.
  revert ss. induction vs as [|v vs IH]; intros ss; cbn [normalize_capability_slug_list];
    [by intros [= <-]|].
  destruct (normalize_capability_slug_field label v) as [x|] eqn:E1; [|done].
  destruct (normalize_capability_slug_list label vs) as [xs|] eqn:E2; [|done].
  intros [= <-]. apply slug_field_idem in E1 as [E1 E1']. destruct (IH xs eq_refl) as [I1 I2].
  cbn [normalize_capability_slug_list]. rewrite E1, I1. split; [done|by constructor].
Qed.

(** Capability proposals are normalised once and for all. A proposal is sent only with
    slugs (its own, its parent's, its aliases and relations) that the catalogue's check
    accepts unchanged, the other fields are those given, and normalising what is sent
    changes nothing. *)
Theorem proposal_normalised p q :
  normalize_capability_proposal p = Ok q ->
  normalize_capability_proposal q = Ok q /\
  Forall (fun s => Capability.normalize_capability_slug s = Ok s)
    (Capability.cp_slug q :: option_list (Capability.cp_parent q) ++ Capability.cp_aliases q
     ++ Capability.cp_related q) /\
  (Capability.cp_display_name q, Capability.cp_description q, Capability.cp_category q,
   Capability.cp_keywords q, Capability.cp_examples q)
  = (Capability.cp_display_name p, Capability.cp_description p, Capability.cp_category p,
     Capability.cp_keywords p, Capability.cp_examples p).
Proof.
  unfold normalize_capability_proposal. intros E.
  destruct (normalize_capability_slug_field "slug" _) as [s|] eqn:E1; [|done].
  destruct (try_update _ (Capability.cp_parent p)) as [o|] eqn:E2; [|done].
  destruct (normalize_capability_slug_list "alias" _) as [al|] eqn:E3; [|done].
  destruct (normalize_capability_slug_list "related" _) as [rl|] eqn:E4; [|done].
  cbn [mbind result_bind] in E. injection E as <-.
  apply slug_field_idem in E1 as [E1 F1]. apply slug_list_idem in E3 as [E3 F3].
  apply slug_list_idem in E4 as [E4 F4].
  assert (try_update (normalize_capability_slug_field "parent") o = Ok o /\
    Forall (fun s => Capability.normalize_capability_slug s = Ok s) (option_list o)) as [E5 F5].
  { destruct (Capability.cp_parent p) as [v|]; cbn [try_update] in E2; [|by injection E2 as <-].
    destruct (normalize_capability_slug_field "parent" v) as [x|] eqn:Ex; [|done].
    injection E2 as <-. apply slug_field_idem in Ex as [Ex Fx]. cbn [try_update]. rewrite Ex.
    split; [done|by repeat constructor]. }
  cbn [Capability.cp_slug Capability.cp_parent Capability.cp_aliases Capability.cp_related].
  rewrite E1, E5, E3, E4. split; [done|]. split; [|done].
  constructor; [done|]. by rewrite !Forall_app.
Qed.

(** What a client of the wallet relies on: an answer for every request, as [answers] says, and
    no call to the embedding service but [embedding_calls]. *)
Class Builder := {
  run_builder : AgentWallet -> Z -> request -> built;
  builder_calls : AgentWallet -> Z -> request -> list embed_call;
  builder_answers : forall w now_ms r,
    answers w now_ms (request_type r) (request_fee r) (run_builder w now_ms r);
  builder_calls_spec : forall w now_ms r, builder_calls w now_ms r = embedding_calls w r;
}.
(** The wallet's own builders keep it. *)
Definition wallet_builder : Builder :=
  {| run_builder := run_request; builder_calls := request_calls;
     builder_answers := answers_request; builder_calls_spec := request_calls_spec |}.
End Builders.
End Wallet.

(** ** Witnesses *)
Module WalletWitness.
Import Wallet.

(** Serialisers that answer always, or never. *)
Definition fixed_codec (T : Type) : Bincode T :=
  {| bincode_serialize := fun _ => Ok [x01]; bincode_read := fun _ => Err [] |}.
#[local] Instance any_codec T : Bincode T := fixed_codec T.
Definition no_service : rstr -> rstr -> result rstr (list f32) := fun _ _ => Err [].

Definition key0 : Keypair := pad_bytesN 32 [x51].
Definition wallet0 : AgentWallet := new_wallet key0 (lit "zincha-vega-1") (lit "http://localhost").
Definition asked : list (Z * request) :=
  [(5, RqTransfer address_treasury 10 1); (6, RqBatch [] 1); (7, RqAcceptTask hash_zero 2)].

Lemma wallet_run_nonces_witness :
  NoDup (Tx.transaction <$> omap signed_of (run_requests no_service wallet0 asked).2) /\
  nonce (run_requests no_service wallet0 asked).1 = 2.
Proof.
  split; [|by vm_compute].
  refine (proj1 (proj2 (wallet_run_nonces no_service wallet0 asked
    (run_requests no_service wallet0 asked).1 (run_requests no_service wallet0 asked).2 _ _ _))).
  - by vm_compute.
  - by vm_compute.
  - apply surjective_pairing.
Defined.

Lemma local_wallet_answers_witness :
  local_answer wallet0 (run_request no_service wallet0 5 (RqUpdateReputation hash_zero S754_nan true 1)).
Proof.
  apply (local_wallet_answers no_service key0).
  - intros tx. reflexivity.
  - reflexivity.
Defined.

Definition stx0 : Tx.SignedTransaction :=
  default {| Tx.transaction := Tx.new_transfer 0 address_zero address_zero 0 0 0 [];
             Tx.signature := pad_bytesN 64 []; Tx.public_key := pad_bytesN 32 [];
             Tx.tx_hash := hash_zero |}
    (signed_of (run_request no_service wallet0 5 (RqTransfer address_treasury 10 1)).2).
#[local] Instance stx_codec : Bincode Tx.SignedTransaction := table_bincode [stx0].
#[local] Instance stx_codec_laws : BincodeLaws Tx.SignedTransaction := table_bincode_laws [stx0].

Lemma transport_roundtrip_witness : tx_from_hex [] = Ok stx0.
Proof. refine (proj1 (transport_roundtrip stx0 [] _)). by vm_compute. Defined.

Definition proposal0 : Capability.CapabilityProposeData :=
  {| Capability.cp_slug := lit " AI.Text "; Capability.cp_display_name := [];
     Capability.cp_description := []; Capability.cp_category := [];
     Capability.cp_parent := None; Capability.cp_aliases := [lit "ai.prose"];
     Capability.cp_keywords := []; Capability.cp_examples := []; Capability.cp_related := [] |}.
Definition proposal1 : Capability.CapabilityProposeData :=
  {| Capability.cp_slug := lit "ai.text"; Capability.cp_display_name := [];
     Capability.cp_description := []; Capability.cp_category := [];
     Capability.cp_parent := None; Capability.cp_aliases := [lit "ai.prose"];
     Capability.cp_keywords := []; Capability.cp_examples := []; Capability.cp_related := [] |}.
Lemma proposal_normalised_witness : normalize_capability_proposal proposal1 = Ok proposal1.
Proof. refine (proj1 (proposal_normalised proposal0 proposal1 _)). by vm_compute. Defined.
End WalletWitness.
