(* ===== verification/Layouts.v ===== *)
(** * The layouts of the chain's types

    The binary layout of every transaction, payload and receipt: the fields of a struct in the
    order its declaration gives them, at the widths of their types, and the variants of an
    enumeration by their index; a transaction type is written by its wire code
    ([primitives/transaction.rs]). A capability is read in lower case, and in ASCII only. *)
From S2P Require Import Prelude Crypto Instances Codec Merkle Transaction Agreement Subscription.
From S2P Require Import ToolJob Contract ContractStorage ToolVerifier Capability Tool RpcDelegation.
From S2P Require Import Entity Validator Token Task Agent Wallet.

Module Layouts.
Import Codec.

#[local] Infix "⊗" := pair (at level 40, left associativity).
#[local] Ltac by_pairs := intros p; repeat match goal with q : _ * _ |- _ => destruct q end; reflexivity.

#[local] Instance arbitration_policy_eq_dec : EqDecision Tool.ToolArbitrationPolicy.
Proof. solve_decision. Defined.
#[local] Instance source_language_eq_dec : EqDecision Contract.ContractSourceLanguage.
Proof. solve_decision. Defined.
#[local] Instance stake_target_eq_dec : EqDecision Tx.StakeTarget.
Proof. solve_decision. Defined.

Definition hash256 : codec Hash256 := arr 31.
Definition address : codec Address := arr 19.

Section Types.
Context `{Ed25519}.
(** [PublicKey::deserialize] takes the bytes of a point of the curve only ([PublicKey::from_bytes]). *)
Definition public_key : codec PublicKey := where_ (fun k => is_ok (pk_from_bytes k)) (arr 31).
Definition indexed {T} `{EqDecision T} (xs : list T) : codec T :=
  variant xs (fun x => Z.of_nat (default O (table_index xs x))).
(** [Capability::deserialize] lowers the case of what it reads. On ASCII texts that is
    [to_ascii_lowercase]; other texts are not read here. *)
Definition lower (s : rstr) : option rstr :=
  if forallb (fun c => c <? 128) s then Some (to_ascii_lowercase s) else None.
Lemma lower_char c : (c <? 128) = true -> is_char c = true ->
  let d := if is_ascii_uppercase c then c + 32 else c in
  (d <? 128) = true /\ is_char d = true /\ length (utf8_char d) = length (utf8_char c).
Proof.
  intros Hc Hi d. assert (0 <= d < 128) as Hd.
  { unfold is_char in Hi. unfold d, is_ascii_uppercase.
    destruct ((65 <=? c) && (c <=? 90)) eqn:Eu; lia. }
  assert (forall z, 0 <= z < 128 -> length (utf8_char z) = 1%nat) as Hlen.
  { intros z Hz. unfold utf8_char. destruct (Z.ltb_spec z 128); [done|lia]. }
  assert (0 <= c < 128) as Hc' by (unfold is_char in Hi; lia).
  split_and!; [lia|unfold is_char; lia|by rewrite !Hlen].
Qed.
Lemma str_len_cons c s : str_len (c :: s) = Z.of_nat (length (utf8_char c)) + str_len s.
Proof. unfold str_len. change (utf8 (c :: s)) with (utf8_char c ++ utf8 s). rewrite length_app. lia. Qed.
Lemma lowercase_cons c s : to_ascii_lowercase (c :: s) =
  (if is_ascii_uppercase c then c + 32 else c) :: to_ascii_lowercase s.
Proof. done. Qed.
Lemma lower_ascii s : forallb (fun c => c <? 128) s = true -> forallb is_char s = true ->
  forallb (fun c => c <? 128) (to_ascii_lowercase s) = true /\
  forallb is_char (to_ascii_lowercase s) = true /\ str_len (to_ascii_lowercase s) = str_len s.
Proof.
  induction s as [|c s IH]; [done|].
  intros [Hc Hs]%andb_true_iff [Ic Is]%andb_true_iff.
  destruct (lower_char c Hc Ic) as (A & B & L). destruct (IH Hs Is) as (E1 & E2 & E3).
  rewrite lowercase_cons, !str_len_cons, L, E3. cbn [forallb]. by rewrite A, B, E1, E2.
Qed.
Lemma lower_normalises s t :
  fits str s = true -> lower s = Some t -> fits str t = true /\ lower t = Some t.
Proof.
  rewrite !fits_str. intros [Hi Hl]. unfold lower.
  destruct (forallb (fun c => c <? 128) s) eqn:Ha; [|done]. intros [= <-].
  destruct (lower_ascii s Ha Hi) as (-> & -> & ->). by rewrite Capability.lowercase_idem.
Qed.
Definition capability : codec Capability.Capability :=
  iso Capability.Build_Capability Capability.as_str ltac:(by intros []) ltac:(done)
    (normalised lower str lower_normalises).
Definition tx_type : codec Tx.TxType := variant Tx.tx_types Tx.wire_code.

Definition http_tool_settlement_mode : codec Tool.HttpToolSettlementMode :=
  indexed [Tool.PrepaidAccess; Tool.ResultEscrowed; Tool.MeteredUsage; Tool.MilestoneEscrowed].
Definition tool_arbitration_policy : codec Tool.ToolArbitrationPolicy :=
  indexed [Tool.Protocol].
Definition subscription_overage_policy : codec Subscription.SubscriptionOveragePolicy :=
  indexed [Subscription.Deny; Subscription.PayAsYouGo].
Definition agreement_dispute_party_outcome : codec Agreement.AgreementDisputePartyOutcome :=
  indexed [Agreement.Won; Agreement.Lost].
Definition contract_source_language : codec Contract.ContractSourceLanguage :=
  indexed [Contract.Wat; Contract.Rust; Contract.AssemblyScript].
Definition agreement_payout_share : codec Agreement.AgreementPayoutShare :=
  iso (fun '(v0, v1) => Agreement.Build_AgreementPayoutShare v0 v1)
    (fun r => (Agreement.recipient r, Agreement.share_bps r))
    ltac:(by intros []) ltac:(by_pairs)
    (address ⊗ u16).
Definition agreement_dispute_reputation_effect : codec Agreement.AgreementDisputeReputationEffect :=
  iso (fun '(v0, v1) => Agreement.Build_AgreementDisputeReputationEffect v0 v1)
    (fun r => (Agreement.party r, Agreement.outcome r))
    ltac:(by intros []) ltac:(by_pairs)
    (address ⊗ agreement_dispute_party_outcome).
Definition milestone_def : codec Agreement.MilestoneDef :=
  iso (fun '(v0, v1) => Agreement.Build_MilestoneDef v0 v1)
    (fun r => (Agreement.def_description r, Agreement.def_amount r))
    ltac:(by intros []) ltac:(by_pairs)
    (str ⊗ u64).
Definition agreement_create_data : codec Agreement.AgreementCreateData :=
  iso (fun '(v0, v1, v2, v3, v4, v5, v6, v7, v8) => Agreement.Build_AgreementCreateData v0 v1 v2 v3
      v4 v5 v6 v7 v8)
    (fun r => (Agreement.cd_parties r, Agreement.cd_terms r, Agreement.cd_escrow_amount r,
        Agreement.cd_expires_at r, Agreement.cd_arbitrator r, Agreement.cd_milestones r,
        Agreement.cd_service_provider r, Agreement.cd_settlement_allocations r,
        Agreement.cd_settlement_approver r))
    ltac:(by intros []) ltac:(by_pairs)
    ((vec address) ⊗ bytes ⊗ u64 ⊗ u64 ⊗ (opt address) ⊗ (vec milestone_def) ⊗ address ⊗ (vec
        agreement_payout_share) ⊗ (opt address)).
Definition agreement_accept_data : codec Agreement.AgreementAcceptData :=
  iso (fun v0 => Agreement.Build_AgreementAcceptData v0)
    (fun r => Agreement.accept_agreement_id r)
    ltac:(by intros []) ltac:(by_pairs)
    (hash256).
Definition agreement_execute_data : codec Agreement.AgreementExecuteData :=
  iso (fun '(v0, v1, v2) => Agreement.Build_AgreementExecuteData v0 v1 v2)
    (fun r => (Agreement.execute_agreement_id r, Agreement.execute_result_hash r,
        Agreement.execute_milestone_index r))
    ltac:(by intros []) ltac:(by_pairs)
    (hash256 ⊗ hash256 ⊗ u32).
Definition agreement_dispute_data : codec Agreement.AgreementDisputeData :=
  iso (fun '(v0, v1, v2) => Agreement.Build_AgreementDisputeData v0 v1 v2)
    (fun r => (Agreement.dispute_agreement_id r, Agreement.dispute_data_reason r,
        Agreement.dispute_milestone_index r))
    ltac:(by intros []) ltac:(by_pairs)
    (hash256 ⊗ str ⊗ (opt u32)).
Definition agreement_resolve_data : codec Agreement.AgreementResolveData :=
  iso (fun '(v0, v1, v2, v3, v4) => Agreement.Build_AgreementResolveData v0 v1 v2 v3 v4)
    (fun r => (Agreement.resolve_agreement_id r, Agreement.resolve_payouts r,
        Agreement.resolve_reputation_effects r, Agreement.resolve_reason r,
        Agreement.resolve_milestone_index r))
    ltac:(by intros []) ltac:(by_pairs)
    (hash256 ⊗ (vec agreement_payout_share) ⊗ (vec agreement_dispute_reputation_effect) ⊗ str ⊗
        (opt u32)).
Definition agreement_cancel_data : codec Agreement.AgreementCancelData :=
  iso (fun v0 => Agreement.Build_AgreementCancelData v0)
    (fun r => Agreement.cancel_agreement_id r)
    ltac:(by intros []) ltac:(by_pairs)
    (hash256).
Definition arbitrator_register_data : codec Agreement.ArbitratorRegisterData :=
  iso (fun '(v0, v1, v2, v3, v4) => Agreement.Build_ArbitratorRegisterData v0 v1 v2 v3 v4)
    (fun r => (Agreement.reg_name r, Agreement.reg_description r, Agreement.reg_stake r,
        Agreement.reg_fee_bps r, Agreement.reg_specializations r))
    ltac:(by intros []) ltac:(by_pairs)
    (str ⊗ str ⊗ u64 ⊗ u16 ⊗ (vec str)).
Definition token_create_data : codec Token.TokenCreateData :=
  iso (fun '(v0, v1, v2, v3, v4, v5, v6, v7) => Token.Build_TokenCreateData v0 v1 v2 v3 v4 v5 v6 v7)
    (fun r => (Token.tc_name r, Token.tc_symbol r, Token.tc_decimals r, Token.tc_initial_supply r,
        Token.tc_max_supply r, Token.tc_burnable r, Token.tc_mint_authority r, Token.tc_metadata
        r))
    ltac:(by intros []) ltac:(by_pairs)
    (str ⊗ str ⊗ u8 ⊗ u64 ⊗ u64 ⊗ boolean ⊗ (opt address) ⊗ bytes).
Definition token_mint_data : codec Token.TokenMintData :=
  iso (fun '(v0, v1, v2) => Token.Build_TokenMintData v0 v1 v2)
    (fun r => (Token.tm_token_id r, Token.tm_to r, Token.tm_amount r))
    ltac:(by intros []) ltac:(by_pairs)
    (hash256 ⊗ address ⊗ u64).
Definition token_transfer_data : codec Token.TokenTransferData :=
  iso (fun '(v0, v1, v2) => Token.Build_TokenTransferData v0 v1 v2)
    (fun r => (Token.tt_token_id r, Token.tt_to r, Token.tt_amount r))
    ltac:(by intros []) ltac:(by_pairs)
    (hash256 ⊗ address ⊗ u64).
Definition token_approve_data : codec Token.TokenApproveData :=
  iso (fun '(v0, v1, v2) => Token.Build_TokenApproveData v0 v1 v2)
    (fun r => (Token.ta_token_id r, Token.ta_spender r, Token.ta_amount r))
    ltac:(by intros []) ltac:(by_pairs)
    (hash256 ⊗ address ⊗ u64).
Definition token_burn_data : codec Token.TokenBurnData :=
  iso (fun '(v0, v1) => Token.Build_TokenBurnData v0 v1)
    (fun r => (Token.tb_token_id r, Token.tb_amount r))
    ltac:(by intros []) ltac:(by_pairs)
    (hash256 ⊗ u64).
Definition token_update_authority_data : codec Token.TokenUpdateAuthorityData :=
  iso (fun '(v0, v1) => Token.Build_TokenUpdateAuthorityData v0 v1)
    (fun r => (Token.tu_token_id r, Token.tu_mint_authority r))
    ltac:(by intros []) ltac:(by_pairs)
    (hash256 ⊗ (opt address)).
Definition contract_source_proof : codec Contract.ContractSourceProof :=
  iso (fun '(v0, v1, v2, v3) => Contract.Build_ContractSourceProof v0 v1 v2 v3)
    (fun r => (Contract.sp_language r, Contract.sp_compiler r, Contract.sp_source_code r,
        Contract.sp_bytecode_witness r))
    ltac:(by intros []) ltac:(by_pairs)
    (contract_source_language ⊗ str ⊗ str ⊗ (opt str)).
Definition abi_param : codec Contract.AbiParam :=
  iso (fun '(v0, v1, v2) => Contract.Build_AbiParam v0 v1 v2)
    (fun r => (Contract.param_name r, Contract.param_ty r, Contract.param_description r))
    ltac:(by intros []) ltac:(by_pairs)
    (str ⊗ str ⊗ str).
Definition function_signature : codec Contract.FunctionSignature :=
  iso (fun '(v0, v1, v2, v3, v4) => Contract.Build_FunctionSignature v0 v1 v2 v3 v4)
    (fun r => (Contract.fn_name r, Contract.fn_description r, Contract.fn_params r,
        Contract.fn_returns r, Contract.fn_mutates r))
    ltac:(by intros []) ltac:(by_pairs)
    (str ⊗ str ⊗ (vec abi_param) ⊗ (vec abi_param) ⊗ boolean).
Definition contract_abi : codec Contract.ContractAbi :=
  iso (fun '(v0, v1, v2) => Contract.Build_ContractAbi v0 v1 v2)
    (fun r => (Contract.abi_name r, Contract.abi_version r, Contract.abi_functions r))
    ltac:(by intros []) ltac:(by_pairs)
    (str ⊗ str ⊗ (vec function_signature)).
Definition contract_deploy_data : codec Contract.ContractDeployData :=
  iso (fun v0 => Contract.Build_ContractDeployData v0)
    (fun r => Contract.bytecode r)
    ltac:(by intros []) ltac:(by_pairs)
    (bytes).
Definition contract_verify_data : codec Contract.ContractVerifyData :=
  iso (fun '(v0, v1) => Contract.Build_ContractVerifyData v0 v1)
    (fun r => (Contract.cv_contract_address r, Contract.cv_proof r))
    ltac:(by intros []) ltac:(by_pairs)
    (address ⊗ contract_source_proof).
Definition contract_publish_abi_data : codec Contract.ContractPublishAbiData :=
  iso (fun '(v0, v1) => Contract.Build_ContractPublishAbiData v0 v1)
    (fun r => (Contract.pa_contract_address r, Contract.pa_abi r))
    ltac:(by intros []) ltac:(by_pairs)
    (address ⊗ contract_abi).
Definition contract_route_update_data : codec Contract.ContractRouteUpdateData :=
  iso (fun '(v0, v1) => Contract.Build_ContractRouteUpdateData v0 v1)
    (fun r => (Contract.ru_route_name r, Contract.ru_target_contract_address r))
    ltac:(by intros []) ltac:(by_pairs)
    (str ⊗ address).
Definition contract_route_call_data : codec Contract.ContractRouteCallData :=
  iso (fun '(v0, v1, v2, v3, v4) => Contract.Build_ContractRouteCallData v0 v1 v2 v3 v4)
    (fun r => (Contract.rc_deployer r, Contract.rc_route_name r, Contract.rc_function r,
        Contract.rc_args r, Contract.rc_gas_limit r))
    ltac:(by intros []) ltac:(by_pairs)
    (address ⊗ str ⊗ str ⊗ bytes ⊗ u64).
Definition contract_call_data : codec Contract.ContractCallData :=
  iso (fun '(v0, v1, v2, v3) => Contract.Build_ContractCallData v0 v1 v2 v3)
    (fun r => (Contract.cc_contract_address r, Contract.cc_function r, Contract.cc_args r,
        Contract.cc_gas_limit r))
    ltac:(by intros []) ltac:(by_pairs)
    (address ⊗ str ⊗ bytes ⊗ u64).
Definition tool_register_data : codec Tool.ToolRegisterData :=
  iso (fun '(v0, v1, v2, v3, v4, v5, v6, v7, v8, v9, v10, v11, v12) => Tool.Build_ToolRegisterData
      v0 v1 v2 v3 v4 v5 v6 v7 v8 v9 v10 v11 v12)
    (fun r => (Tool.rg_name r, Tool.rg_description r, Tool.rg_endpoint r, Tool.rg_price_per_call r,
        Tool.rg_settlement_mode r, Tool.rg_sla_ms r, Tool.rg_challenge_window_ms r,
        Tool.rg_max_result_metadata_bytes r, Tool.rg_arbitration_policy r, Tool.rg_capabilities r,
        Tool.rg_match_enabled r, Tool.rg_neural_embedding r, Tool.rg_version r))
    ltac:(by intros []) ltac:(by_pairs)
    (str ⊗ str ⊗ str ⊗ u64 ⊗ http_tool_settlement_mode ⊗ u64 ⊗ u64 ⊗ u32 ⊗ tool_arbitration_policy
        ⊗ (vec capability) ⊗ boolean ⊗ (opt (vec f32)) ⊗ str).
Definition tool_update_data : codec Tool.ToolUpdateData :=
  iso (fun '(v0, v1, v2, v3, v4, v5, v6, v7, v8, v9, v10, v11, v12, v13) =>
      Tool.Build_ToolUpdateData v0 v1 v2 v3 v4 v5 v6 v7 v8 v9 v10 v11 v12 v13)
    (fun r => (Tool.up_tool_id r, Tool.up_description r, Tool.up_endpoint r, Tool.up_price_per_call
        r, Tool.up_settlement_mode r, Tool.up_sla_ms r, Tool.up_challenge_window_ms r,
        Tool.up_max_result_metadata_bytes r, Tool.up_arbitration_policy r, Tool.up_capabilities r,
        Tool.up_match_enabled r, Tool.up_neural_embedding r, Tool.up_version r, Tool.up_active r))
    ltac:(by intros []) ltac:(by_pairs)
    (hash256 ⊗ (opt str) ⊗ (opt str) ⊗ (opt u64) ⊗ (opt http_tool_settlement_mode) ⊗ (opt u64) ⊗
        (opt u64) ⊗ (opt u32) ⊗ (opt tool_arbitration_policy) ⊗ (opt (vec capability)) ⊗ (opt
        boolean) ⊗ (opt (vec f32)) ⊗ (opt str) ⊗ (opt boolean)).
Definition tool_subscription_plan_create_data : codec Tool.ToolSubscriptionPlanCreateData :=
  iso (fun '(v0, v1, v2, v3, v4, v5, v6) => Tool.Build_ToolSubscriptionPlanCreateData v0 v1 v2 v3
      v4 v5 v6)
    (fun r => (Tool.pc_tool_id r, Tool.pc_name r, Tool.pc_price_per_period r, Tool.pc_period_ms r,
        Tool.pc_included_calls r, Tool.pc_included_credits r, Tool.pc_overage_policy r))
    ltac:(by intros []) ltac:(by_pairs)
    (hash256 ⊗ str ⊗ u64 ⊗ u64 ⊗ u32 ⊗ u64 ⊗ subscription_overage_policy).
Definition tool_subscription_plan_update_data : codec Tool.ToolSubscriptionPlanUpdateData :=
  iso (fun '(v0, v1, v2, v3, v4, v5, v6, v7) => Tool.Build_ToolSubscriptionPlanUpdateData v0 v1 v2
      v3 v4 v5 v6 v7)
    (fun r => (Tool.pu_plan_id r, Tool.pu_name r, Tool.pu_price_per_period r, Tool.pu_period_ms r,
        Tool.pu_included_calls r, Tool.pu_included_credits r, Tool.pu_overage_policy r,
        Tool.pu_active r))
    ltac:(by intros []) ltac:(by_pairs)
    (hash256 ⊗ (opt str) ⊗ (opt u64) ⊗ (opt u64) ⊗ (opt u32) ⊗ (opt u64) ⊗ (opt
        subscription_overage_policy) ⊗ (opt boolean)).
Definition tool_subscription_start_data : codec Tool.ToolSubscriptionStartData :=
  iso (fun '(v0, v1, v2) => Tool.Build_ToolSubscriptionStartData v0 v1 v2)
    (fun r => (Tool.ss_plan_id r, Tool.ss_reserve_amount r, Tool.ss_auto_renew r))
    ltac:(by intros []) ltac:(by_pairs)
    (hash256 ⊗ u64 ⊗ boolean).
Definition tool_subscription_top_up_data : codec Tool.ToolSubscriptionTopUpData :=
  iso (fun '(v0, v1) => Tool.Build_ToolSubscriptionTopUpData v0 v1)
    (fun r => (Tool.tu_subscription_id r, Tool.tu_amount r))
    ltac:(by intros []) ltac:(by_pairs)
    (hash256 ⊗ u64).
Definition tool_subscription_cancel_data : codec Tool.ToolSubscriptionCancelData :=
  iso (fun v0 => Tool.Build_ToolSubscriptionCancelData v0)
    (fun r => Tool.sc_subscription_id r)
    ltac:(by intros []) ltac:(by_pairs)
    (hash256).
Definition tool_subscription_resume_data : codec Tool.ToolSubscriptionResumeData :=
  iso (fun '(v0, v1) => Tool.Build_ToolSubscriptionResumeData v0 v1)
    (fun r => (Tool.sr_subscription_id r, Tool.sr_reserve_amount r))
    ltac:(by intros []) ltac:(by_pairs)
    (hash256 ⊗ u64).
Definition tool_subscription_renew_data : codec Tool.ToolSubscriptionRenewData :=
  iso (fun v0 => Tool.Build_ToolSubscriptionRenewData v0)
    (fun r => Tool.sn_subscription_id r)
    ltac:(by intros []) ltac:(by_pairs)
    (hash256).
Definition tool_milestone_def : codec ToolJob.ToolMilestoneDef :=
  iso (fun '(v0, v1) => ToolJob.Build_ToolMilestoneDef v0 v1)
    (fun r => (ToolJob.def_label r, ToolJob.def_amount r))
    ltac:(by intros []) ltac:(by_pairs)
    (str ⊗ u64).
Definition tool_invoke_data : codec Tool.ToolInvokeData :=
  iso (fun '(v0, v1, v2, v3, v4) => Tool.Build_ToolInvokeData v0 v1 v2 v3 v4)
    (fun r => (Tool.iv_tool_id r, Tool.iv_input_data r, Tool.iv_max_metered_units r,
        Tool.iv_gas_limit r, Tool.iv_milestones r))
    ltac:(by intros []) ltac:(by_pairs)
    (hash256 ⊗ bytes ⊗ (opt u64) ⊗ u64 ⊗ (vec tool_milestone_def)).
Definition tool_result_submit_data : codec ToolJob.ToolResultSubmitData :=
  iso (fun '(v0, v1, v2, v3) => ToolJob.Build_ToolResultSubmitData v0 v1 v2 v3)
    (fun r => (ToolJob.rs_job_id r, ToolJob.rs_result_hash r, ToolJob.rs_result_metadata r,
        ToolJob.rs_milestone_index r))
    ltac:(by intros []) ltac:(by_pairs)
    (hash256 ⊗ hash256 ⊗ bytes ⊗ (opt u32)).
Definition tool_result_accept_data : codec ToolJob.ToolResultAcceptData :=
  iso (fun '(v0, v1) => ToolJob.Build_ToolResultAcceptData v0 v1)
    (fun r => (ToolJob.ra_job_id r, ToolJob.ra_milestone_index r))
    ltac:(by intros []) ltac:(by_pairs)
    (hash256 ⊗ (opt u32)).
Definition tool_result_dispute_data : codec ToolJob.ToolResultDisputeData :=
  iso (fun '(v0, v1, v2) => ToolJob.Build_ToolResultDisputeData v0 v1 v2)
    (fun r => (ToolJob.rd_job_id r, ToolJob.rd_reason r, ToolJob.rd_milestone_index r))
    ltac:(by intros []) ltac:(by_pairs)
    (hash256 ⊗ str ⊗ (opt u32)).
Definition tool_result_resolve_data : codec ToolJob.ToolResultResolveData :=
  iso (fun '(v0, v1, v2, v3) => ToolJob.Build_ToolResultResolveData v0 v1 v2 v3)
    (fun r => (ToolJob.rr_job_id r, ToolJob.rr_provider_wins r, ToolJob.rr_reason r,
        ToolJob.rr_milestone_index r))
    ltac:(by intros []) ltac:(by_pairs)
    (hash256 ⊗ boolean ⊗ str ⊗ (opt u32)).
Definition tool_job_expire_data : codec ToolJob.ToolJobExpireData :=
  iso (fun v0 => ToolJob.Build_ToolJobExpireData v0)
    (fun r => ToolJob.je_job_id r)
    ltac:(by intros []) ltac:(by_pairs)
    (hash256).
Definition tool_usage_report_data : codec ToolJob.ToolUsageReportData :=
  iso (fun '(v0, v1, v2, v3) => ToolJob.Build_ToolUsageReportData v0 v1 v2 v3)
    (fun r => (ToolJob.ur_session_id r, ToolJob.ur_units_used r, ToolJob.ur_result_hash r,
        ToolJob.ur_result_metadata r))
    ltac:(by intros []) ltac:(by_pairs)
    (hash256 ⊗ u64 ⊗ hash256 ⊗ bytes).
Definition tool_usage_accept_data : codec ToolJob.ToolUsageAcceptData :=
  iso (fun v0 => ToolJob.Build_ToolUsageAcceptData v0)
    (fun r => ToolJob.ua_session_id r)
    ltac:(by intros []) ltac:(by_pairs)
    (hash256).
Definition tool_usage_dispute_data : codec ToolJob.ToolUsageDisputeData :=
  iso (fun '(v0, v1) => ToolJob.Build_ToolUsageDisputeData v0 v1)
    (fun r => (ToolJob.ud_session_id r, ToolJob.ud_reason r))
    ltac:(by intros []) ltac:(by_pairs)
    (hash256 ⊗ str).
Definition tool_usage_resolve_data : codec ToolJob.ToolUsageResolveData :=
  iso (fun '(v0, v1, v2) => ToolJob.Build_ToolUsageResolveData v0 v1 v2)
    (fun r => (ToolJob.uv_session_id r, ToolJob.uv_provider_wins r, ToolJob.uv_reason r))
    ltac:(by intros []) ltac:(by_pairs)
    (hash256 ⊗ boolean ⊗ str).
Definition tool_usage_expire_data : codec ToolJob.ToolUsageExpireData :=
  iso (fun v0 => ToolJob.Build_ToolUsageExpireData v0)
    (fun r => ToolJob.ux_session_id r)
    ltac:(by intros []) ltac:(by_pairs)
    (hash256).
Definition access_token_receipt : codec Access.AccessTokenReceipt :=
  iso (fun '(v0, v1, v2, v3, v4, v5, v6) => Access.Build_AccessTokenReceipt v0 v1 v2 v3 v4 v5 v6)
    (fun r => (Access.r_token_id r, Access.r_tool_id r, Access.r_invoker r, Access.r_amount_paid r,
        Access.r_issued_at r, Access.r_block_number r, Access.r_nonce r))
    ltac:(by intros []) ltac:(by_pairs)
    (hash256 ⊗ hash256 ⊗ address ⊗ u64 ⊗ u64 ⊗ u64 ⊗ u64).
Definition receipt_with_proof : codec Access.ReceiptWithProof :=
  iso (fun '(v0, v1, v2) => Access.Build_ReceiptWithProof v0 v1 v2)
    (fun r => (Access.rp_receipt r, Access.rp_proof_siblings r, Access.rp_receipt_root r))
    ltac:(by intros []) ltac:(by_pairs)
    (access_token_receipt ⊗ (vec (pair hash256 boolean)) ⊗ hash256).
Definition access_token : codec Access.AccessToken :=
  iso (fun '(v0, v1, v2, v3, v4, v5, v6, v7, v8) => Access.Build_AccessToken v0 v1 v2 v3 v4 v5 v6
      v7 v8)
    (fun r => (Access.tool_id r, Access.invoker r, Access.token_id r, Access.block_number r,
        Access.amount_paid r, Access.issued_at r, Access.nonce r, Access.block_hash r,
        Access.consumed_by r))
    ltac:(by intros []) ltac:(by_pairs)
    (hash256 ⊗ address ⊗ hash256 ⊗ u64 ⊗ u64 ⊗ u64 ⊗ u64 ⊗ hash256 ⊗ (opt hash256)).
Definition tool_access_request : codec Access.ToolAccessRequest :=
  iso (fun '(v0, v1, v2) => Access.Build_ToolAccessRequest v0 v1 v2)
    (fun r => (Access.token r, Access.invoker_proof r, Access.invoker_pubkey r))
    ltac:(by intros []) ltac:(by_pairs)
    (access_token ⊗ bytes ⊗ bytes).
Definition match_preferences : codec Task.MatchPreferences :=
  iso (fun '(v0, v1, v2, v3, v4, v5, v6, v7, v8) => Task.Build_MatchPreferences v0 v1 v2 v3 v4 v5
      v6 v7 v8)
    (fun r => (Task.w_semantic r, Task.w_reputation r, Task.w_price r, Task.w_freshness r,
        Task.w_stake r, Task.min_reputation r, Task.mp_max_price r, Task.discovery_threshold r,
        Task.discovery_boost r))
    ltac:(by intros []) ltac:(by_pairs)
    (u8 ⊗ u8 ⊗ u8 ⊗ u8 ⊗ u8 ⊗ f64 ⊗ u64 ⊗ u32 ⊗ u8).
Definition task_submit_data : codec Task.TaskSubmitData :=
  iso (fun '(v0, v1, v2, v3, v4, v5, v6, v7) => Task.Build_TaskSubmitData v0 v1 v2 v3 v4 v5 v6 v7)
    (fun r => (Task.ts_description r, Task.ts_neural_embedding r, Task.ts_required_capabilities r,
        Task.ts_max_fee r, Task.ts_priority r, Task.ts_deadline r, Task.ts_parameters r,
        Task.ts_match_preferences r))
    ltac:(by intros []) ltac:(by_pairs)
    (str ⊗ (opt (vec f32)) ⊗ (vec capability) ⊗ u64 ⊗ u8 ⊗ u64 ⊗ bytes ⊗ match_preferences).
Definition task_fulfill_data : codec Task.TaskFulfillData :=
  iso (fun '(v0, v1, v2, v3, v4, v5) => Task.Build_TaskFulfillData v0 v1 v2 v3 v4 v5)
    (fun r => (Task.tf_task_id r, Task.tf_result_hash r, Task.tf_result_data r, Task.tf_tools_used
        r, Task.tf_input_refs r, Task.tf_receipt_proofs r))
    ltac:(by intros []) ltac:(by_pairs)
    (hash256 ⊗ hash256 ⊗ bytes ⊗ (vec hash256) ⊗ (vec hash256) ⊗ (vec receipt_with_proof)).
Definition task_accept_data : codec Task.TaskAcceptData :=
  iso (fun v0 => Task.Build_TaskAcceptData v0)
    (fun r => Task.ta_task_id r)
    ltac:(by intros []) ltac:(by_pairs)
    (hash256).
Definition task_dispute_data : codec Task.TaskDisputeData :=
  iso (fun '(v0, v1) => Task.Build_TaskDisputeData v0 v1)
    (fun r => (Task.td_task_id r, Task.td_reason r))
    ltac:(by intros []) ltac:(by_pairs)
    (hash256 ⊗ str).
Definition task_resolve_data : codec Task.TaskResolveData :=
  iso (fun '(v0, v1, v2) => Task.Build_TaskResolveData v0 v1 v2)
    (fun r => (Task.tr_task_id r, Task.tr_agent_wins r, Task.tr_reason r))
    ltac:(by intros []) ltac:(by_pairs)
    (hash256 ⊗ boolean ⊗ str).
Definition task_finalize_data : codec Task.TaskFinalizeData :=
  iso (fun v0 => Task.Build_TaskFinalizeData v0)
    (fun r => Task.tz_task_id r)
    ltac:(by intros []) ltac:(by_pairs)
    (hash256).
Definition sub_task_def : codec Task.SubTaskDef :=
  iso (fun '(v0, v1, v2, v3) => Task.Build_SubTaskDef v0 v1 v2 v3)
    (fun r => (Task.sd_description r, Task.sd_required_capabilities r, Task.sd_dependencies r,
        Task.sd_escrow r))
    ltac:(by intros []) ltac:(by_pairs)
    (str ⊗ (vec capability) ⊗ (vec u32) ⊗ u64).
Definition task_decompose_data : codec Task.TaskDecomposeData :=
  iso (fun '(v0, v1) => Task.Build_TaskDecomposeData v0 v1)
    (fun r => (Task.dc_task_id r, Task.dc_subtasks r))
    ltac:(by intros []) ltac:(by_pairs)
    (hash256 ⊗ (vec sub_task_def)).
Definition agent_register_data : codec Agent.AgentRegisterData :=
  iso (fun '(v0, v1, v2, v3, v4, v5, v6, v7) => Agent.Build_AgentRegisterData v0 v1 v2 v3 v4 v5 v6
      v7)
    (fun r => (Agent.ar_name r, Agent.ar_description r, Agent.ar_neural_embedding r,
        Agent.ar_model_hash r, Agent.ar_capabilities r, Agent.ar_metadata r, Agent.ar_min_fee r,
        Agent.ar_fee_schedule r))
    ltac:(by intros []) ltac:(by_pairs)
    (str ⊗ str ⊗ (opt (vec f32)) ⊗ hash256 ⊗ (vec capability) ⊗ bytes ⊗ u64 ⊗ (vec (pair str u64))).
Definition agent_update_data : codec Agent.AgentUpdateData :=
  iso (fun '(v0, v1, v2, v3, v4, v5, v6, v7, v8) => Agent.Build_AgentUpdateData v0 v1 v2 v3 v4 v5
      v6 v7 v8)
    (fun r => (Agent.au_name r, Agent.au_description r, Agent.au_neural_embedding r,
        Agent.au_model_hash r, Agent.au_capabilities r, Agent.au_metadata r, Agent.au_active r,
        Agent.au_min_fee r, Agent.au_fee_schedule r))
    ltac:(by intros []) ltac:(by_pairs)
    ((opt str) ⊗ (opt str) ⊗ (opt (vec f32)) ⊗ (opt hash256) ⊗ (opt (vec capability)) ⊗ (opt bytes)
        ⊗ (opt boolean) ⊗ (opt u64) ⊗ (opt (vec (pair str u64)))).
Definition reputation_update_data : codec Agent.ReputationUpdateData :=
  iso (fun '(v0, v1, v2, v3) => Agent.Build_ReputationUpdateData v0 v1 v2 v3)
    (fun r => (Agent.ru_task_id r, Agent.ru_quality_score r, Agent.ru_requester_accepted r,
        Agent.ru_feedback r))
    ltac:(by intros []) ltac:(by_pairs)
    (hash256 ⊗ f64 ⊗ boolean ⊗ str).
Definition entity_link_data : codec Entity.EntityLinkData :=
  iso (fun '(v0, v1, v2) => Entity.Build_EntityLinkData v0 v1 v2)
    (fun r => (Entity.entity r, Entity.authorizer_public_key r, Entity.authorizer_signature r))
    ltac:(by intros []) ltac:(by_pairs)
    (address ⊗ (opt public_key) ⊗ (opt (arr 63))).
Definition validator_executor_service : codec Validator.ValidatorExecutorService :=
  iso (fun '(v0, v1, v2) => Validator.Build_ValidatorExecutorService v0 v1 v2)
    (fun r => (Validator.partition_id r, Validator.rpc_endpoint r, Validator.executor_public_key r))
    ltac:(by intros []) ltac:(by_pairs)
    (u32 ⊗ str ⊗ public_key).
Definition validator_update_data : codec Validator.ValidatorUpdateData :=
  iso (fun '(v0, v1) => Validator.Build_ValidatorUpdateData v0 v1)
    (fun r => (Validator.executor_services r, Validator.vrf_public_key r))
    ltac:(by intros []) ltac:(by_pairs)
    ((vec validator_executor_service) ⊗ (opt public_key)).
Definition validator_vrf_commit_data : codec Validator.ValidatorVrfCommitData :=
  iso (fun '(v0, v1) => Validator.Build_ValidatorVrfCommitData v0 v1)
    (fun r => (Validator.cm_target_epoch r, Validator.cm_commitment r))
    ltac:(by intros []) ltac:(by_pairs)
    (u64 ⊗ hash256).
Definition validator_vrf_contribution_data : codec Validator.ValidatorVrfContributionData :=
  iso (fun '(v0, v1, v2) => Validator.Build_ValidatorVrfContributionData v0 v1 v2)
    (fun r => (Validator.ct_target_epoch r, Validator.ct_vrf_output r, Validator.ct_vrf_proof r))
    ltac:(by intros []) ltac:(by_pairs)
    (u64 ⊗ bytes ⊗ bytes).
Definition capability_propose_data : codec Capability.CapabilityProposeData :=
  iso (fun '(v0, v1, v2, v3, v4, v5, v6, v7, v8) => Capability.Build_CapabilityProposeData v0 v1 v2
      v3 v4 v5 v6 v7 v8)
    (fun r => (Capability.cp_slug r, Capability.cp_display_name r, Capability.cp_description r,
        Capability.cp_category r, Capability.cp_parent r, Capability.cp_aliases r,
        Capability.cp_keywords r, Capability.cp_examples r, Capability.cp_related r))
    ltac:(by intros []) ltac:(by_pairs)
    (str ⊗ str ⊗ str ⊗ str ⊗ (opt str) ⊗ (vec str) ⊗ (vec str) ⊗ (vec str) ⊗ (vec str)).
Definition capability_approve_data : codec Capability.CapabilityApproveData :=
  iso (fun '(v0, v1, v2, v3, v4, v5, v6, v7, v8) => Capability.Build_CapabilityApproveData v0 v1 v2
      v3 v4 v5 v6 v7 v8)
    (fun r => (Capability.ca_slug r, Capability.ca_display_name r, Capability.ca_description r,
        Capability.ca_category r, Capability.ca_parent r, Capability.ca_aliases r,
        Capability.ca_keywords r, Capability.ca_examples r, Capability.ca_related r))
    ltac:(by intros []) ltac:(by_pairs)
    (str ⊗ (opt str) ⊗ (opt str) ⊗ (opt str) ⊗ (opt (opt str)) ⊗ (opt (vec str)) ⊗ (opt (vec str))
        ⊗ (opt (vec str)) ⊗ (opt (vec str))).
Definition capability_reject_data : codec Capability.CapabilityRejectData :=
  iso (fun '(v0, v1) => Capability.Build_CapabilityRejectData v0 v1)
    (fun r => (Capability.cr_slug r, Capability.cr_reason r))
    ltac:(by intros []) ltac:(by_pairs)
    (str ⊗ str).
Definition capability_deprecate_data : codec Capability.CapabilityDeprecateData :=
  iso (fun '(v0, v1, v2) => Capability.Build_CapabilityDeprecateData v0 v1 v2)
    (fun r => (Capability.cd_slug r, Capability.cd_replacement r, Capability.cd_reason r))
    ltac:(by intros []) ltac:(by_pairs)
    (str ⊗ str ⊗ str).
Definition rpc_read_delegation_grant_data : codec Delegation.RpcReadDelegationGrantData :=
  iso (fun '(v0, v1, v2, v3) => Delegation.Build_RpcReadDelegationGrantData v0 v1 v2 v3)
    (fun r => (Delegation.g_delegate_public_key r, Delegation.g_service_id r,
        Delegation.g_scope_mask r, Delegation.g_expires_at_ms r))
    ltac:(by intros []) ltac:(by_pairs)
    (hash256 ⊗ str ⊗ u64 ⊗ u64).
Definition rpc_read_delegation_revoke_data : codec Delegation.RpcReadDelegationRevokeData :=
  iso (fun v0 => Delegation.Build_RpcReadDelegationRevokeData v0)
    (fun r => Delegation.v_delegation_id r)
    ltac:(by intros []) ltac:(by_pairs)
    (hash256).
Definition stake_target : codec Tx.StakeTarget :=
  indexed [Tx.STAgent; Tx.STValidator; Tx.STRequesterAutoMatch].
Definition batch_operation : codec Tx.BatchOperation :=
  iso (fun '(v0, v1, v2, v3) => Tx.Build_BatchOperation v0 v1 v2 v3)
    (fun r => (Tx.op_tx_type r, Tx.op_recipient r, Tx.op_amount r, Tx.op_data r))
    ltac:(by intros []) ltac:(by_pairs)
    (tx_type ⊗ address ⊗ u64 ⊗ bytes).
Definition batch_data : codec Tx.BatchData :=
  iso (fun v0 => Tx.Build_BatchData v0)
    (fun r => Tx.operations r)
    ltac:(by intros []) ltac:(by_pairs)
    ((vec batch_operation)).
Definition transaction : codec Tx.Transaction :=
  iso (fun '(v0, v1, v2, v3, v4, v5, v6, v7, v8, v9, v10, v11, v12) => Tx.Build_Transaction v0 v1
      v2 v3 v4 v5 v6 v7 v8 v9 v10 v11 v12)
    (fun r => (Tx.tx_type r, Tx.sender r, Tx.recipient r, Tx.amount r, Tx.fee r,
        Tx.max_priority_fee_per_gas r, Tx.nonce r, Tx.timestamp r, Tx.reference_block_height r,
        Tx.reference_block_hash r, Tx.max_valid_block_height r, Tx.data r, Tx.chain_id r))
    ltac:(by intros []) ltac:(by_pairs)
    (tx_type ⊗ address ⊗ address ⊗ u64 ⊗ u64 ⊗ u64 ⊗ u64 ⊗ u64 ⊗ u64 ⊗ hash256 ⊗ u64 ⊗ bytes ⊗ str).
Definition signed_transaction : codec Tx.SignedTransaction :=
  iso (fun '(v0, v1, v2, v3) => Tx.Build_SignedTransaction v0 v1 v2 v3)
    (fun r => (Tx.transaction r, Tx.signature r, Tx.public_key r, Tx.tx_hash r))
    ltac:(by intros []) ltac:(by_pairs)
    (transaction ⊗ (arr 63) ⊗ public_key ⊗ hash256).

(** ** As serialisers

    A type with a layout is serialised by it. *)
Class Layout (T : Type) : Type := layout : codec T.
#[export] Instance layout_bincode {T} `{Layout T} : Bincode T := serializer layout.
#[export] Instance layout_laws {T} `{Layout T} : BincodeLaws T := serializer_laws layout.

#[export] Instance http_tool_settlement_mode_layout : Layout Tool.HttpToolSettlementMode :=
    http_tool_settlement_mode.
#[export] Instance tool_arbitration_policy_layout : Layout Tool.ToolArbitrationPolicy :=
    tool_arbitration_policy.
#[export] Instance subscription_overage_policy_layout : Layout
    Subscription.SubscriptionOveragePolicy := subscription_overage_policy.
#[export] Instance agreement_dispute_party_outcome_layout : Layout
    Agreement.AgreementDisputePartyOutcome := agreement_dispute_party_outcome.
#[export] Instance contract_source_language_layout : Layout Contract.ContractSourceLanguage :=
    contract_source_language.
#[export] Instance agreement_payout_share_layout : Layout Agreement.AgreementPayoutShare :=
    agreement_payout_share.
#[export] Instance agreement_dispute_reputation_effect_layout : Layout
    Agreement.AgreementDisputeReputationEffect := agreement_dispute_reputation_effect.
#[export] Instance milestone_def_layout : Layout Agreement.MilestoneDef := milestone_def.
#[export] Instance agreement_create_data_layout : Layout Agreement.AgreementCreateData :=
    agreement_create_data.
#[export] Instance agreement_accept_data_layout : Layout Agreement.AgreementAcceptData :=
    agreement_accept_data.
#[export] Instance agreement_execute_data_layout : Layout Agreement.AgreementExecuteData :=
    agreement_execute_data.
#[export] Instance agreement_dispute_data_layout : Layout Agreement.AgreementDisputeData :=
    agreement_dispute_data.
#[export] Instance agreement_resolve_data_layout : Layout Agreement.AgreementResolveData :=
    agreement_resolve_data.
#[export] Instance agreement_cancel_data_layout : Layout Agreement.AgreementCancelData :=
    agreement_cancel_data.
#[export] Instance arbitrator_register_data_layout : Layout Agreement.ArbitratorRegisterData :=
    arbitrator_register_data.
#[export] Instance token_create_data_layout : Layout Token.TokenCreateData := token_create_data.
#[export] Instance token_mint_data_layout : Layout Token.TokenMintData := token_mint_data.
#[export] Instance token_transfer_data_layout : Layout Token.TokenTransferData :=
    token_transfer_data.
#[export] Instance token_approve_data_layout : Layout Token.TokenApproveData := token_approve_data.
#[export] Instance token_burn_data_layout : Layout Token.TokenBurnData := token_burn_data.
#[export] Instance token_update_authority_data_layout : Layout Token.TokenUpdateAuthorityData :=
    token_update_authority_data.
#[export] Instance contract_source_proof_layout : Layout Contract.ContractSourceProof :=
    contract_source_proof.
#[export] Instance abi_param_layout : Layout Contract.AbiParam := abi_param.
#[export] Instance function_signature_layout : Layout Contract.FunctionSignature :=
    function_signature.
#[export] Instance contract_abi_layout : Layout Contract.ContractAbi := contract_abi.
#[export] Instance contract_deploy_data_layout : Layout Contract.ContractDeployData :=
    contract_deploy_data.
#[export] Instance contract_verify_data_layout : Layout Contract.ContractVerifyData :=
    contract_verify_data.
#[export] Instance contract_publish_abi_data_layout : Layout Contract.ContractPublishAbiData :=
    contract_publish_abi_data.
#[export] Instance contract_route_update_data_layout : Layout Contract.ContractRouteUpdateData :=
    contract_route_update_data.
#[export] Instance contract_route_call_data_layout : Layout Contract.ContractRouteCallData :=
    contract_route_call_data.
#[export] Instance contract_call_data_layout : Layout Contract.ContractCallData :=
    contract_call_data.
#[export] Instance tool_register_data_layout : Layout Tool.ToolRegisterData := tool_register_data.
#[export] Instance tool_update_data_layout : Layout Tool.ToolUpdateData := tool_update_data.
#[export] Instance tool_subscription_plan_create_data_layout : Layout
    Tool.ToolSubscriptionPlanCreateData := tool_subscription_plan_create_data.
#[export] Instance tool_subscription_plan_update_data_layout : Layout
    Tool.ToolSubscriptionPlanUpdateData := tool_subscription_plan_update_data.
#[export] Instance tool_subscription_start_data_layout : Layout Tool.ToolSubscriptionStartData :=
    tool_subscription_start_data.
#[export] Instance tool_subscription_top_up_data_layout : Layout Tool.ToolSubscriptionTopUpData :=
    tool_subscription_top_up_data.
#[export] Instance tool_subscription_cancel_data_layout : Layout Tool.ToolSubscriptionCancelData :=
    tool_subscription_cancel_data.
#[export] Instance tool_subscription_resume_data_layout : Layout Tool.ToolSubscriptionResumeData :=
    tool_subscription_resume_data.
#[export] Instance tool_subscription_renew_data_layout : Layout Tool.ToolSubscriptionRenewData :=
    tool_subscription_renew_data.
#[export] Instance tool_milestone_def_layout : Layout ToolJob.ToolMilestoneDef :=
    tool_milestone_def.
#[export] Instance tool_invoke_data_layout : Layout Tool.ToolInvokeData := tool_invoke_data.
#[export] Instance tool_result_submit_data_layout : Layout ToolJob.ToolResultSubmitData :=
    tool_result_submit_data.
#[export] Instance tool_result_accept_data_layout : Layout ToolJob.ToolResultAcceptData :=
    tool_result_accept_data.
#[export] Instance tool_result_dispute_data_layout : Layout ToolJob.ToolResultDisputeData :=
    tool_result_dispute_data.
#[export] Instance tool_result_resolve_data_layout : Layout ToolJob.ToolResultResolveData :=
    tool_result_resolve_data.
#[export] Instance tool_job_expire_data_layout : Layout ToolJob.ToolJobExpireData :=
    tool_job_expire_data.
#[export] Instance tool_usage_report_data_layout : Layout ToolJob.ToolUsageReportData :=
    tool_usage_report_data.
#[export] Instance tool_usage_accept_data_layout : Layout ToolJob.ToolUsageAcceptData :=
    tool_usage_accept_data.
#[export] Instance tool_usage_dispute_data_layout : Layout ToolJob.ToolUsageDisputeData :=
    tool_usage_dispute_data.
#[export] Instance tool_usage_resolve_data_layout : Layout ToolJob.ToolUsageResolveData :=
    tool_usage_resolve_data.
#[export] Instance tool_usage_expire_data_layout : Layout ToolJob.ToolUsageExpireData :=
    tool_usage_expire_data.
#[export] Instance access_token_receipt_layout : Layout Access.AccessTokenReceipt :=
    access_token_receipt.
#[export] Instance receipt_with_proof_layout : Layout Access.ReceiptWithProof := receipt_with_proof.
#[export] Instance access_token_layout : Layout Access.AccessToken := access_token.
#[export] Instance tool_access_request_layout : Layout Access.ToolAccessRequest :=
    tool_access_request.
#[export] Instance match_preferences_layout : Layout Task.MatchPreferences := match_preferences.
#[export] Instance task_submit_data_layout : Layout Task.TaskSubmitData := task_submit_data.
#[export] Instance task_fulfill_data_layout : Layout Task.TaskFulfillData := task_fulfill_data.
#[export] Instance task_accept_data_layout : Layout Task.TaskAcceptData := task_accept_data.
#[export] Instance task_dispute_data_layout : Layout Task.TaskDisputeData := task_dispute_data.
#[export] Instance task_resolve_data_layout : Layout Task.TaskResolveData := task_resolve_data.
#[export] Instance task_finalize_data_layout : Layout Task.TaskFinalizeData := task_finalize_data.
#[export] Instance sub_task_def_layout : Layout Task.SubTaskDef := sub_task_def.
#[export] Instance task_decompose_data_layout : Layout Task.TaskDecomposeData :=
    task_decompose_data.
#[export] Instance agent_register_data_layout : Layout Agent.AgentRegisterData :=
    agent_register_data.
#[export] Instance agent_update_data_layout : Layout Agent.AgentUpdateData := agent_update_data.
#[export] Instance reputation_update_data_layout : Layout Agent.ReputationUpdateData :=
    reputation_update_data.
#[export] Instance entity_link_data_layout : Layout Entity.EntityLinkData := entity_link_data.
#[export] Instance validator_executor_service_layout : Layout Validator.ValidatorExecutorService :=
    validator_executor_service.
#[export] Instance validator_update_data_layout : Layout Validator.ValidatorUpdateData :=
    validator_update_data.
#[export] Instance validator_vrf_commit_data_layout : Layout Validator.ValidatorVrfCommitData :=
    validator_vrf_commit_data.
#[export] Instance validator_vrf_contribution_data_layout : Layout
    Validator.ValidatorVrfContributionData := validator_vrf_contribution_data.
#[export] Instance capability_propose_data_layout : Layout Capability.CapabilityProposeData :=
    capability_propose_data.
#[export] Instance capability_approve_data_layout : Layout Capability.CapabilityApproveData :=
    capability_approve_data.
#[export] Instance capability_reject_data_layout : Layout Capability.CapabilityRejectData :=
    capability_reject_data.
#[export] Instance capability_deprecate_data_layout : Layout Capability.CapabilityDeprecateData :=
    capability_deprecate_data.
#[export] Instance rpc_read_delegation_grant_data_layout : Layout
    Delegation.RpcReadDelegationGrantData := rpc_read_delegation_grant_data.
#[export] Instance rpc_read_delegation_revoke_data_layout : Layout
    Delegation.RpcReadDelegationRevokeData := rpc_read_delegation_revoke_data.
#[export] Instance stake_target_layout : Layout Tx.StakeTarget := stake_target.
#[export] Instance batch_operation_layout : Layout Tx.BatchOperation := batch_operation.
#[export] Instance batch_data_layout : Layout Tx.BatchData := batch_data.
#[export] Instance transaction_layout : Layout Tx.Transaction := transaction.
#[export] Instance signed_transaction_layout : Layout Tx.SignedTransaction := signed_transaction.
End Types.

(** ** Signed transactions *)
Section Exact.
Context `{Digests, Ed25519, Hex}.

(** The values the Rust types hold: the integers are 64 bits wide, the texts are of scalar values,
    and no length exceeds 64 bits. *)
Record in_range (tx : Tx.Transaction) : Prop := {
  ir_amount : is_u64 (Tx.amount tx);
  ir_fee : is_u64 (Tx.fee tx);
  ir_priority : is_u64 (Tx.max_priority_fee_per_gas tx);
  ir_nonce : is_u64 (Tx.nonce tx);
  ir_timestamp : is_u64 (Tx.timestamp tx);
  ir_reference : is_u64 (Tx.reference_block_height tx);
  ir_valid : is_u64 (Tx.max_valid_block_height tx);
  ir_data : is_u64 (Z.of_nat (length (Tx.data tx)));
  ir_chain : forallb is_char (Tx.chain_id tx) = true /\ is_u64 (str_len (Tx.chain_id tx));
}.

Lemma fits_tx_type t : fits tx_type t = true.
Proof. by destruct t. Qed.

Lemma fits_transaction tx : fits transaction tx = true <-> in_range tx.
Proof.
  destruct tx. unfold transaction, address, hash256. cbn [fits iso pair arr fst snd].
  rewrite fits_tx_type. cbn [andb]. rewrite !andb_true_iff, !fits_u64, fits_bytes, fits_str.
  cbn [Tx.amount Tx.fee Tx.max_priority_fee_per_gas Tx.nonce Tx.timestamp
    Tx.reference_block_height Tx.max_valid_block_height Tx.data Tx.chain_id].
  split; [intros; destruct_and!; by split|]. intros []. tauto.
Qed.
(** A signed transaction also holds a point of the curve. *)
Record signed_in_range (stx : Tx.SignedTransaction) : Prop := {
  ir_transaction : in_range (Tx.transaction stx);
  ir_key : ed_decode (Tx.public_key stx) = Ok ();
}.

Lemma fits_public_key k : fits public_key k = true <-> ed_decode k = Ok ().
Proof.
  unfold public_key, pk_from_bytes. cbn [fits where_ arr andb].
  by destruct (ed_decode k) as [[]|].
Qed.
Lemma fits_signed stx : fits signed_transaction stx = true <-> signed_in_range stx.
Proof.
  destruct stx as [tx s k h].
  assert (fits signed_transaction (Tx.Build_SignedTransaction tx s k h) =
    fits transaction tx && true && fits public_key k && true) as -> by reflexivity.
  rewrite !andb_true_r, andb_true_iff, fits_transaction, fits_public_key.
  split; [by intros []; split|by intros []].
Qed.

Lemma hash_transaction_spec tx h : Tx.hash tx = Some h <->
  in_range tx /\ h = hash_bytes (enc transaction tx).
Proof.
  rewrite <- fits_transaction. unfold Tx.hash. cbn [bincode_serialize layout_bincode serializer].
  unfold layout, transaction_layout. generalize (enc transaction tx).
  destruct (fits transaction tx); intros l; cbn [ok mbind option_bind].
  - split; [by intros [= <-]|by intros [_ ->]].
  - split; [done|by intros []].
Qed.
Lemma tx_to_hex_spec stx text : Wallet.tx_to_hex stx = Ok text <->
  signed_in_range stx /\ text = hex_encode (enc signed_transaction stx).
Proof.
  rewrite <- fits_signed. unfold Wallet.tx_to_hex, Wallet.encode.
  cbn [bincode_serialize layout_bincode serializer]. unfold layout, signed_transaction_layout.
  generalize (enc signed_transaction stx).
  destruct (fits signed_transaction stx); intros l; cbn [map_err mbind result_bind].
  - split; [by intros [= <-]|by intros [_ ->]].
  - split; [done|by intros []].
Qed.

(** C3: The chain's signed transactions, on the wire. A transaction has a hash exactly when its values
    are within their types. A signed one that is, whose key is a point of the curve, is written as a hex
    text, which is read back to it; whatever is read from a hex text is such a one, and the bytes
    of the text begin with what is written for it. Two transactions of one hash are the same
    unless the digest collides on their encodings. *)
Theorem signed_transaction_exact `{!HexLaws} (stx : Tx.SignedTransaction) :
  (in_range (Tx.transaction stx) <-> is_Some (Tx.hash (Tx.transaction stx))) /\
  (signed_in_range stx <-> exists text,
     Wallet.tx_to_hex stx = Ok text /\ Wallet.tx_from_hex text = Ok stx) /\
  (forall text, Wallet.tx_from_hex text = Ok stx ->
     signed_in_range stx /\ exists canonical rest,
       Wallet.tx_to_hex stx = Ok (hex_encode canonical) /\
       hex_decode text = Ok (canonical ++ rest)) /\
  (forall other h, Tx.hash (Tx.transaction stx) = Some h -> Tx.hash other = Some h ->
     collision_free [enc transaction (Tx.transaction stx); enc transaction other] ->
     other = Tx.transaction stx).
Proof.
  split_and!.
  - split; [|by intros [h [Hr _]%hash_transaction_spec]]. intros Hr. eexists. by apply hash_transaction_spec.
  - split; [|by intros (text & [Hr _]%tx_to_hex_spec & _)].
    intros Hr. eexists. split; [by apply tx_to_hex_spec|].
    apply (Wallet.transport_roundtrip stx). by apply tx_to_hex_spec.
  - intros text. unfold Wallet.tx_from_hex. destruct (hex_decode text) as [l|] eqn:E; [|done].
    cbn [map_err mbind result_bind]. intros Hd.
    destruct (bincode_deserialize l) as [y|] eqn:D; [|done]. injection Hd as ->.
    apply (deserialize_spec signed_transaction) in D as [Hr%fits_signed X].
    destruct (X _) as [rest ->]. split; [done|]. exists (enc signed_transaction stx), rest.
    split; [by apply tx_to_hex_spec|done].
  - intros other h [Hr ->]%hash_transaction_spec [Ho E]%hash_transaction_spec Hcf.
    apply Hcf in E; [|apply elem_of_cons; by left
      |apply elem_of_cons; right; by apply list_elem_of_singleton].
    apply fits_transaction in Hr, Ho.
    pose proof (dec_enc transaction _ [] Hr) as D. rewrite E, (dec_enc transaction _ [] Ho) in D.
    by injection D.
Qed.
End Exact.
End Layouts.

(** ** Witnesses *)
Module LayoutsWitness.
Import Codec Layouts.

(** *** Points of the curve

    Decompression of a point of edwards25519: the low 255 bits are the ordinate [y], and
    there is an abscissa when [(y^2 - 1) / (d y^2 + 1)] is a square. *)
Definition p25519 : Z := 2 ^ 255 - 19.
Definition times (a b : Z) : Z := a * b mod p25519.
Fixpoint power (a : Z) (n : positive) : Z :=
  match n with
  | xH => a
  | xO m => let r := power a m in times r r
  | xI m => let r := power a m in times a (times r r)
  end.
Definition invert (a : Z) : Z := power a (Z.to_pos (p25519 - 2)).
Definition curve_d : Z := times (p25519 - 121665) (invert 121666).
Definition is_point (k : bytesN 32) : bool :=
  let y := Z.land (le_value (bn k)) (2 ^ 255 - 1) mod p25519 in
  let y2 := times y y in
  let x2 := times (y2 - 1) (invert (times curve_d y2 + 1)) in
  (x2 =? 0) || (power x2 (Z.to_pos ((p25519 - 1) / 2)) =? 1).

#[local] Instance points : Ed25519 := {|
  ed_public := ed_public; ed_sign := ed_sign; ed_verify := ed_verify;
  ed_decode k := if is_point k then Ok () else Err (lit "Cannot decompress Edwards point") |}.

Definition key_of (hex : rstr) : PublicKey :=
  match hex_decode hex with Ok l => pad_bytesN 32 l | Err _ => pad_bytesN 32 [] end.
(** A key the chain's published transactions are signed with. *)
Definition golden_key : PublicKey :=
  key_of (lit "ea4a6c63e29c520abef5507b132ec5f9954776aebebe7b92421eea691446d22c").

Definition tx0 : Tx.Transaction :=
  Tx.Build_Transaction Tx.RpcReadDelegationRevoke address_treasury address_foundation 7 1000 0
    U64_MAX 1700000000000 42 hash_zero 142 (blit "payload") (lit "zincha-vega-1").
Definition stx0 : Tx.SignedTransaction :=
  Tx.Build_SignedTransaction tx0 (pad_bytesN 64 [x01]) golden_key hash_zero.

(** The bytes 2, 0, 0, … are no point, so a transaction with them for its key cannot be read. *)
Example not_a_point : is_point golden_key = true /\ is_point (pad_bytesN 32 [x02]) = false.
Proof. vm_compute. split; reflexivity. Qed.

Lemma signed_transaction_exact_witness :
  exists text, Wallet.tx_to_hex stx0 = Ok text /\ Wallet.tx_from_hex text = Ok stx0.
Proof.
  apply (signed_transaction_exact stx0). split; [|vm_compute; reflexivity].
  cbn [Tx.transaction stx0].
  split; [unfold is_u64; vm_compute; split; discriminate..|].
  split; [vm_compute; reflexivity|]. vm_compute. split; discriminate.
Defined.
End LayoutsWitness.
