(* ===== verification/Payloads.v ===== *)
(** * Decoding payloads

    The [decode] functions of the transaction payloads. Those of the tool life cycle and its
    subscriptions go through [decode_canonical_tool_payload], which lets nothing follow the value;
    the others are [bincode::deserialize], which ignores what follows. The theorems hold for the
    layouts of [Layouts]: which bytes each kind of decoder takes, and that a capability, whose
    reader lowers its case, is why a payload that carries one has more than one encoding. *)
From S2P Require Import Prelude Crypto Instances Codec Transaction ToolJob Contract Capability Tool.
From S2P Require Import RpcDelegation Task Agent Layouts.

Module Payloads.

(** ** The decoders *)
Section Decoders.
(** [bincode::deserialize]. *)
Definition decode_agent_register `{Bincode Agent.AgentRegisterData} (bytes : list byte)
  : result rstr Agent.AgentRegisterData := bincode_deserialize bytes.
Definition decode_agent_update `{Bincode Agent.AgentUpdateData} (bytes : list byte)
  : result rstr Agent.AgentUpdateData := bincode_deserialize bytes.
Definition decode_capability_propose `{Bincode Capability.CapabilityProposeData} (bytes : list byte)
  : result rstr Capability.CapabilityProposeData := bincode_deserialize bytes.
Definition decode_capability_approve `{Bincode Capability.CapabilityApproveData} (bytes : list byte)
  : result rstr Capability.CapabilityApproveData := bincode_deserialize bytes.
Definition decode_capability_reject `{Bincode Capability.CapabilityRejectData} (bytes : list byte)
  : result rstr Capability.CapabilityRejectData := bincode_deserialize bytes.
Definition decode_capability_deprecate `{Bincode Capability.CapabilityDeprecateData}
    (bytes : list byte) : result rstr Capability.CapabilityDeprecateData := bincode_deserialize bytes.
Definition decode_delegation_grant `{Bincode Delegation.RpcReadDelegationGrantData}
    (bytes : list byte) : result rstr Delegation.RpcReadDelegationGrantData := bincode_deserialize bytes.
Definition decode_delegation_revoke `{Bincode Delegation.RpcReadDelegationRevokeData}
    (bytes : list byte) : result rstr Delegation.RpcReadDelegationRevokeData := bincode_deserialize bytes.
Definition decode_task_submit `{Bincode Task.TaskSubmitData} (bytes : list byte)
  : result rstr Task.TaskSubmitData := bincode_deserialize bytes.
Definition decode_task_accept `{Bincode Task.TaskAcceptData} (bytes : list byte)
  : result rstr Task.TaskAcceptData := bincode_deserialize bytes.
Definition decode_task_dispute `{Bincode Task.TaskDisputeData} (bytes : list byte)
  : result rstr Task.TaskDisputeData := bincode_deserialize bytes.
Definition decode_task_resolve `{Bincode Task.TaskResolveData} (bytes : list byte)
  : result rstr Task.TaskResolveData := bincode_deserialize bytes.
Definition decode_task_finalize `{Bincode Task.TaskFinalizeData} (bytes : list byte)
  : result rstr Task.TaskFinalizeData := bincode_deserialize bytes.
Definition decode_stake_target `{Bincode Tx.StakeTarget} (data : list byte)
  : result rstr Tx.StakeTarget := bincode_deserialize data.
(** [decode_canonical_tool_payload]; [ToolInvokeData::decode] is [Tool.decode_invoke]. *)
Definition decode_subscription_resume `{Bincode Tool.ToolSubscriptionResumeData} (bytes : list byte)
  : result rstr Tool.ToolSubscriptionResumeData := ToolJob.decode_canonical_tool_payload bytes.
Definition decode_tool_register `{Bincode Tool.ToolRegisterData} (bytes : list byte)
  : result rstr Tool.ToolRegisterData := ToolJob.decode_canonical_tool_payload bytes.
Definition decode_tool_update `{Bincode Tool.ToolUpdateData} (bytes : list byte)
  : result rstr Tool.ToolUpdateData := ToolJob.decode_canonical_tool_payload bytes.
Definition decode_result_submit `{Bincode ToolJob.ToolResultSubmitData} (bytes : list byte)
  : result rstr ToolJob.ToolResultSubmitData := ToolJob.decode_canonical_tool_payload bytes.
Definition decode_result_accept `{Bincode ToolJob.ToolResultAcceptData} (bytes : list byte)
  : result rstr ToolJob.ToolResultAcceptData := ToolJob.decode_canonical_tool_payload bytes.
Definition decode_result_dispute `{Bincode ToolJob.ToolResultDisputeData} (bytes : list byte)
  : result rstr ToolJob.ToolResultDisputeData := ToolJob.decode_canonical_tool_payload bytes.
Definition decode_result_resolve `{Bincode ToolJob.ToolResultResolveData} (bytes : list byte)
  : result rstr ToolJob.ToolResultResolveData := ToolJob.decode_canonical_tool_payload bytes.
End Decoders.

(** ** Which bytes are taken *)
Section Decoding.
Context `{Ed25519}.
Import Codec Layouts.

(** A tool payload is decoded from its one encoding. *)
Definition only_encoding {T} (c : codec T)
  (decode : Bincode T -> list byte -> result rstr T) : Prop :=
  forall bytes x, decode (serializer c) bytes = Ok x <-> fits c x = true /\ bytes = enc c x.
(** Other payloads are decoded from any bytes that start with their encoding. *)
Definition encoding_first {T} (c : codec T)
  (decode : Bincode T -> list byte -> result rstr T) : Prop :=
  forall bytes x, decode (serializer c) bytes = Ok x <->
    fits c x = true /\ exists rest, bytes = enc c x ++ rest.
(** What a decoder gives it can encode, and decodes from that encoding: followed by anything else
    ([lenient]), or by nothing else. *)
Definition encodable {T} (c : codec T) (lenient : bool)
  (decode : Bincode T -> list byte -> result rstr T) : Prop :=
  forall bytes x, decode (serializer c) bytes = Ok x -> fits c x = true /\
    decode (serializer c) (enc c x) = Ok x /\
    forall b rest, is_ok (decode (serializer c) (enc c x ++ b :: rest)) = lenient.

Lemma canonical_only {T} (c : codec T) `{!Exact c} :
  only_encoding c (@ToolJob.decode_canonical_tool_payload T).
Proof. intros bytes x. by apply all_exact. Qed.
Lemma deserialize_first {T} (c : codec T) `{!Exact c} :
  encoding_first c (@bincode_deserialize T).
Proof.
  intros bytes x. split.
  - intros [F X]%deserialize_spec. by split; [|apply X].
  - intros [F [rest ->]]. by apply deserialize_written.
Qed.
Lemma canonical_encodable {T} (c : codec T) :
  encodable c false (@ToolJob.decode_canonical_tool_payload T).
Proof.
  intros bytes x E%all_spec. pose proof (dec_fits c _ _ _ E) as F. split_and!; [done| |].
  - apply all_spec. rewrite <- (app_nil_r (enc c x)). by apply dec_enc.
  - intros b rest. destruct (ToolJob.decode_canonical_tool_payload _) as [y|] eqn:Hy; [|done].
    apply all_spec in Hy. rewrite (dec_enc c) in Hy by done. discriminate.
Qed.
Lemma deserialize_encodable {T} (c : codec T) : encodable c true (@bincode_deserialize T).
Proof.
  intros bytes x [F _]%deserialize_spec. split_and!; [done| |].
  - rewrite <- (app_nil_r (enc c x)). by apply deserialize_written.
  - intros b rest. by rewrite deserialize_written.
Qed.

(** C31: The decoders on the wire, on the layouts. A result of a tool, its acceptance, dispute or
    resolution, the resumption of a subscription, and an invocation whose gas limit is positive and
    within [MAX_CONTRACT_GAS] are decoded from exactly one text of bytes: one more byte, or one less, is
    an error. The payloads of the task life cycle (its submission apart), of capability governance, of
    read delegations and a stake's target are decoded from any bytes that start with their
    encoding. The registration and update of a tool or an agent and the submission of a task, which
    carry capabilities, decode to something that can be encoded, and is decoded from that; of these,
    the tool's are an error when a byte follows it, and the others ignore what follows. *)
Theorem payload_decoding :
  (only_encoding tool_result_submit_data (@decode_result_submit) /\
   only_encoding tool_result_accept_data (@decode_result_accept) /\
   only_encoding tool_result_dispute_data (@decode_result_dispute) /\
   only_encoding tool_result_resolve_data (@decode_result_resolve) /\
   only_encoding tool_subscription_resume_data (@decode_subscription_resume) /\
   (forall bytes x, @Tool.decode_invoke (serializer tool_invoke_data) bytes = Ok x <->
      Tool.iv_gas_limit x <> 0 /\ Tool.iv_gas_limit x <= Contract.MAX_CONTRACT_GAS /\
      fits tool_invoke_data x = true /\ bytes = enc tool_invoke_data x)) /\
  (encoding_first task_accept_data (@decode_task_accept) /\
   encoding_first task_dispute_data (@decode_task_dispute) /\
   encoding_first task_resolve_data (@decode_task_resolve) /\
   encoding_first task_finalize_data (@decode_task_finalize) /\
   encoding_first capability_propose_data (@decode_capability_propose) /\
   encoding_first capability_approve_data (@decode_capability_approve) /\
   encoding_first capability_reject_data (@decode_capability_reject) /\
   encoding_first capability_deprecate_data (@decode_capability_deprecate) /\
   encoding_first rpc_read_delegation_grant_data (@decode_delegation_grant) /\
   encoding_first rpc_read_delegation_revoke_data (@decode_delegation_revoke) /\
   encoding_first stake_target (@decode_stake_target)) /\
  (encodable tool_register_data false (@decode_tool_register) /\
   encodable tool_update_data false (@decode_tool_update) /\
   encodable agent_register_data true (@decode_agent_register) /\
   encodable agent_update_data true (@decode_agent_update) /\
   encodable task_submit_data true (@decode_task_submit)).
Proof.
  split_and!; try exact (canonical_only _); try exact (deserialize_first _);
    try exact (canonical_encodable _); try exact (deserialize_encodable _).
  intros bytes x. unfold Tool.decode_invoke, Tool.validate_contract_tool_gas_limit.
  pose proof (canonical_only tool_invoke_data bytes) as D.
  destruct (ToolJob.decode_canonical_tool_payload bytes) as [y|e]; cbn [map_err mbind result_bind].
  - destruct (proj1 (D y) eq_refl) as [F ->].
    destruct (Z.eqb_spec (Tool.iv_gas_limit y) 0); [split; [done|]|
      destruct (Z.ltb_spec Contract.MAX_CONTRACT_GAS (Tool.iv_gas_limit y)); [split; [done|]|]].
    3: { cbn. split; [by intros [= <-]|]. intros (_ & _ & [= ->]%D). done. }
    all: intros (Hz & Hm & Fx); apply D in Fx; injection Fx as ->; lia.
  - split; [done|]. intros (_ & _ & Fx). by apply D in Fx.
Qed.

(** *** A second encoding *)
Definition register_of (capability : rstr) : Tool.ToolRegisterData :=
  Tool.Build_ToolRegisterData (lit "search") [] [] 1 Tool.PrepaidAccess 1 1 1 Tool.Protocol
    [Capability.Build_Capability capability] true None (lit "1").
(** [decode_canonical_tool_payload] takes two texts of bytes for one registration: the reader of a
    capability lowers its case. *)
Theorem register_two_encodings : exists a b x,
  a <> b /\ @decode_tool_register (serializer tool_register_data) a = Ok x /\
  @decode_tool_register (serializer tool_register_data) b = Ok x.
Proof.
  exists (enc tool_register_data (register_of (lit "data.search"))),
    (enc tool_register_data (register_of (lit "data.Search"))), (register_of (lit "data.search")).
  split_and!; [vm_compute; discriminate|vm_compute; reflexivity..].
Qed.
End Decoding.
End Payloads.
