(* ===== verification/Keystore.v ===== *)
(** * The keystore

    Models [wallet/keystore.rs]: encrypted entries, the store that holds them with its
    operations, and the checks of the JSON form. Argon2id, XChaCha20-Poly1305 and, here, the JSON
    codec of the entries ([KeystoreFile] has it) are parameters; the salt, the cipher nonce and
    the clock are arguments, drawn by the caller as the source draws them. *)
From S2P Require Import Prelude Crypto Instances.

(** ** JSON values

    [serde_json::Value], as far as its accessors see it. *)
Module Json.
Inductive Value : Type :=
| Null
| Boolean (b : bool)
| Number (text : rstr)
| Str (s : rstr)
| Array (vs : list Value)
| Object (fields : list (rstr * Value)).

#[global] Instance Value_eq_dec : EqDecision Value.
Proof.
  unfold EqDecision. fix go 1. intros x y.
  assert (forall b c : bool, {b = c} + {b <> c}) as Hb by (intros; apply (decide _)).
  assert (forall b c : rstr, {b = c} + {b <> c}) as Hs by (intros; apply (decide _)).
  pose proof (fun fs gs : list Value => @list_eq_dec _ go fs gs) as Hl.
  pose proof (fun fs gs => @list_eq_dec _ (@prod_eq_dec rstr _ Value go) fs gs) as Hf.
  unfold EqDecision, Decision in *. decide equality.
Defined.

Definition as_array (v : Value) : option (list Value) :=
  match v with Array vs => Some vs | _ => None end.
Definition as_object (v : Value) : option (list (rstr * Value)) :=
  match v with Object fs => Some fs | _ => None end.
Definition as_str (v : Value) : option rstr := match v with Str s => Some s | _ => None end.
(** An object's keys are distinct; [get] finds the value of one. *)
Fixpoint get (key : rstr) (fields : list (rstr * Value)) : option Value :=
  match fields with
  | [] => None
  | (k, v) :: fields' => if decide (k = key) then Some v else get key fields'
  end.
Definition contains_key (key : rstr) (fields : list (rstr * Value)) : bool :=
  bool_decide (is_Some (get key fields)).
End Json.

Module Keystore.

(** ** Third-party cryptography *)

(** [Argon2::hash_password_into] at the parameters of the source. *)
Class Argon2 := { argon2id : list byte -> bytesN 32 -> result rstr (bytesN 32) }.

(** ** Entries *)
Inductive KdfType : Type := Argon2id.
Inductive CipherType : Type := XChaCha20Poly1305.
Inductive KeystoreEntryOrigin : Type := Generated | RawSecretFile | Pkcs8Pem | Mnemonic.

Record KeystoreEntry : Type := {
  address : Address;
  encrypted_key : list byte;
  salt : bytesN 32;
  nonce : option (list byte);
  created_at : Z;
  label : rstr;
  kdf : KdfType;
  cipher : CipherType;
  origin : KeystoreEntryOrigin;
  derivation_path : option rstr;
}.
#[global] Instance eta_KeystoreEntry : Eta KeystoreEntry := fun e =>
  {| address := address e; encrypted_key := encrypted_key e; salt := salt e; nonce := nonce e;
     created_at := created_at e; label := label e; kdf := kdf e; cipher := cipher e;
     origin := origin e; derivation_path := derivation_path e |}.
Record EntryPasswordChangeOutcome : Type := {
  kdf_before : KdfType;
  kdf_after : KdfType;
  cipher_before : CipherType;
  cipher_after : CipherType;
  password_changed : bool;
}.
Record Keystore : Type := { entries : list KeystoreEntry; path : option rstr }.
#[global] Instance eta_Keystore : Eta Keystore := fun k =>
  {| entries := entries k; path := path k |}.

(** What the source draws from the random source and the clock for one entry. *)
Record fresh : Type := { f_salt : bytesN 32; f_nonce : bytesN 24 }.

Definition new_keystore : Keystore := {| entries := []; path := None |}.

(** Finding, replacing and removing by address. *)
Definition has_address (a : Address) (e : KeystoreEntry) : bool := bool_decide (address e = a).
Definition entry (k : Keystore) (a : Address) : option KeystoreEntry :=
  List.find (has_address a) (entries k).
(** [iter_mut().find] and an assignment through [position]: the first entry changes. *)
Fixpoint update_first (p : KeystoreEntry -> bool) (f : KeystoreEntry -> KeystoreEntry)
    (l : list KeystoreEntry) : list KeystoreEntry :=
  match l with [] => [] | e :: l' => if p e then f e :: l' else e :: update_first p f l' end.

Definition validate_current_format (e : KeystoreEntry) : result ZinchaError unit :=
  n ← ok_or (nonce e) (Serialization
    (Msg "Keystore entry {} is missing required xchacha20poly1305 nonce metadata"
       [ABytes (bn (address e))]));
  ensure (length n =? 24)%nat
    (Serialization (Msg "Keystore entry {} has invalid nonce length {}"
       [ABytes (bn (address e)); AInt (Z.of_nat (length n))])).

Section Ops.
Context `{Digests, Hex, Ed25519, Argon2, Aead}.

Definition derive_key_argon2id (password : rstr) (slt : bytesN 32) : result ZinchaError (bytesN 32) :=
  map_err (fun e => KeyDerivation (Msg "Argon2id derivation failed: {}" [AStr e]))
    (argon2id (utf8 password) slt).
Definition keystore_aad (a : Address) : rstr := lit "zincha-keystore:v2:" ++ address_to_hex a.

Definition build_current_entry (fr : fresh) (keypair : Keypair) (password lbl : rstr)
    (created : Z) (orig : KeystoreEntryOrigin) (derivation : option rstr)
    : result ZinchaError KeystoreEntry :=
  derived_key ← derive_key_argon2id password (f_salt fr);
  let secret_bytes := keypair_secret_bytes keypair in
  let aad := keystore_aad (keypair_address keypair) in
  encrypted ← map_err (fun e => KeyDerivation (Msg "encrypt keystore entry: {}" [AStr e]))
    (aead_encrypt derived_key (bn (f_nonce fr)) (bn secret_bytes) (utf8 aad));
  Ok {| address := keypair_address keypair; encrypted_key := encrypted; salt := f_salt fr;
        nonce := Some (bn (f_nonce fr)); created_at := created; label := lbl;
        kdf := Argon2id; cipher := XChaCha20Poly1305; origin := orig;
        derivation_path := derivation |}.

Definition import_key_with_origin (fr : fresh) (now : Z) (k : Keystore) (keypair : Keypair)
    (password lbl : rstr) (orig : KeystoreEntryOrigin) (derivation : option rstr)
    : result ZinchaError Keystore :=
  if bool_decide (is_Some (entry k (keypair_address keypair))) then
    Err (InvalidPublicKey (Msg "Address {} already exists in keystore"
           [ABytes (bn (keypair_address keypair))]))
  else
    e ← build_current_entry fr keypair password lbl now orig derivation;
    Ok (k <| entries := entries k ++ [e] |>).
Definition import_key (fr : fresh) (now : Z) (k : Keystore) (keypair : Keypair)
    (password lbl : rstr) : result ZinchaError Keystore :=
  import_key_with_origin fr now k keypair password lbl RawSecretFile None.
(** [keypair] is the one [Keypair::generate] draws. *)
Definition create_key (fr : fresh) (now : Z) (keypair : Keypair) (k : Keystore)
    (password lbl : rstr) : result ZinchaError (Keystore * Address) :=
  let a := keypair_address keypair in
  k' ← import_key_with_origin fr now k keypair password lbl Generated None; Ok (k', a).

Definition not_found (a : Address) : ZinchaError :=
  InvalidPublicKey (Msg "Address {} not found in keystore" [ABytes (bn a)]).

Definition unlock (k : Keystore) (a : Address) (password : rstr) : result ZinchaError Keypair :=
  e ← ok_or (entry k a) (not_found a);
  _ ← validate_current_format e;
  derived_key ← derive_key_argon2id password (salt e);
  n ← ok_or (nonce e) (KeyDerivation
    (Msg "Keystore entry {} is missing its cipher nonce" [ABytes (bn a)]));
  _ ← ensure (length n =? 24)%nat (KeyDerivation
    (Msg "Keystore entry {} has invalid nonce length {}"
       [ABytes (bn a); AInt (Z.of_nat (length n))]));
  let aad := keystore_aad a in
  decrypted ← map_err (fun _ => KeyDerivation (msg "Invalid password or corrupted keystore entry"))
    (aead_decrypt derived_key n (encrypted_key e) (utf8 aad));
  secret ← ok_or (mk_bytesN 32 decrypted) (KeyDerivation
    (Msg "Keystore entry {} decrypted to invalid secret length {}"
       [ABytes (bn a); AInt (Z.of_nat (length decrypted))]));
  let keypair := keypair_from_secret_bytes secret in
  _ ← ensure (bool_decide (keypair_address keypair = a))
    (KeyDerivation (msg "Decrypted key does not match stored address"));
  Ok keypair.

Definition relabel (k : Keystore) (a : Address) (lbl : rstr) : result ZinchaError Keystore :=
  _ ← ok_or (entry k a) (not_found a);
  Ok (k <| entries := update_first (has_address a) (fun e => e <| label := lbl |>) (entries k) |>).

Definition change_entry_password (fr : fresh) (k : Keystore) (a : Address)
    (current_password new_password : rstr)
    : result ZinchaError (Keystore * EntryPasswordChangeOutcome) :=
  keypair ← unlock k a current_password;
  original ← ok_or (entry k a) (not_found a);
  replacement ← build_current_entry fr keypair new_password (label original)
    (created_at original) (origin original) (derivation_path original);
  Ok (k <| entries := update_first (has_address a) (fun _ => replacement) (entries k) |>,
      {| kdf_before := kdf original; kdf_after := Argon2id; cipher_before := cipher original;
         cipher_after := XChaCha20Poly1305;
         password_changed := negb (bool_decide (current_password = new_password)) |}).

Definition list_addresses (k : Keystore) : list (Address * rstr) :=
  (fun e => (address e, label e)) <$> entries k.
(** The store left, and whether an entry was removed. *)
Definition remove (k : Keystore) (a : Address) : Keystore * bool :=
  let before := length (entries k) in
  let kept := List.filter (fun e => negb (has_address a e)) (entries k) in
  (k <| entries := kept |>, (length kept <? before)%nat).
Definition len (k : Keystore) : Z := Z.of_nat (length (entries k)).
Definition is_empty (k : Keystore) : bool := bool_decide (entries k = []).
End Ops.

(** ** The JSON form *)
Definition removed_check_hash (position : Z) : ZinchaError :=
  Serialization (Msg
    "keystore entry {} contains removed legacy {:?} metadata; canonical keystore entries no longer support legacy password verifiers"
    [AInt position; AStr (lit "check_hash")]).
Definition string_field (key : string) (object : list (rstr * Json.Value)) (e : ZinchaError)
    : result ZinchaError rstr :=
  ok_or (v ← Json.get (lit key) object; Json.as_str v) e.

Definition check_entry_shape (position : Z) (v : Json.Value) : result ZinchaError unit :=
  object ← ok_or (Json.as_object v) (Serialization
    (Msg "keystore entry {} must be a JSON object" [AInt position]));
  _ ← ensure (negb (Json.contains_key (lit "check_hash") object)) (removed_check_hash position);
  origin ← string_field "origin" object (Serialization
    (Msg "keystore entry {} is missing required {:?} metadata; canonical keystore entries must declare how key material entered the wallet surface"
      [AInt position; AStr (lit "origin")]));
  _ ← ensure (bool_decide (origin ∈ [lit "generated"; lit "raw_secret_file"; lit "pkcs8_pem";
                                      lit "mnemonic"]))
    (Serialization (Msg "keystore entry {} uses unsupported origin {:?}; expected one of {:?}, {:?}, {:?}, or {:?}"
      [AInt position; AStr origin; AStr (lit "generated"); AStr (lit "raw_secret_file");
       AStr (lit "pkcs8_pem"); AStr (lit "mnemonic")]));
  kdf ← string_field "kdf" object (Serialization
    (Msg "keystore entry {} is missing required {:?} metadata; legacy keystore crypto is no longer supported"
      [AInt position; AStr (lit "kdf")]));
  _ ← ensure (bool_decide (kdf = lit "argon2id")) (Serialization
    (Msg "keystore entry {} uses unsupported legacy kdf {:?}; only {:?} is supported"
       [AInt position; AStr kdf; AStr (lit "argon2id")]));
  cipher ← string_field "cipher" object (Serialization
    (Msg "keystore entry {} is missing required {:?} metadata; legacy keystore crypto is no longer supported"
      [AInt position; AStr (lit "cipher")]));
  ensure (bool_decide (cipher = lit "xchacha20poly1305")) (Serialization
    (Msg "keystore entry {} uses unsupported legacy cipher {:?}; only {:?} is supported"
       [AInt position; AStr cipher; AStr (lit "xchacha20poly1305")])).
Fixpoint check_entry_shapes (position : Z) (vs : list Json.Value) : result ZinchaError unit :=
  match vs with
  | [] => Ok ()
  | v :: vs' => _ ← check_entry_shape position v; check_entry_shapes (position + 1) vs'
  end.
Definition validate_keystore_json_shape (raw : Json.Value) : result ZinchaError unit :=
  entries ← ok_or (Json.as_array raw)
    (Serialization (msg "keystore JSON must be an array of entries"));
  check_entry_shapes 1 entries.

(** [parse] is [serde_json::from_str], [decode] the derived deserialiser of the entries. *)
Definition from_json_str (parse : rstr -> result rstr Json.Value)
    (decode : Json.Value -> result rstr (list KeystoreEntry)) (data : rstr)
    : result ZinchaError Keystore :=
  raw ← map_err (fun e => Serialization (Msg "{}" [AStr e])) (parse data);
  _ ← validate_keystore_json_shape raw;
  entries ← map_err (fun e => Serialization (Msg "{}" [AStr e])) (decode raw);
  _ ← fold_result (fun _ e => validate_current_format e) () entries;
  Ok {| entries := entries; path := None |}.

(** ** Properties *)

Definition addresses (k : Keystore) : list Address := address <$> entries k.
(** Distinct addresses, current format. *)
Definition well_formed (k : Keystore) : Prop :=
  NoDup (addresses k) /\ Forall (fun e => validate_current_format e = Ok ()) (entries k).

Lemma entry_Some k a e : entry k a = Some e -> e ∈ entries k /\ address e = a.
Proof.
  unfold entry. intros [Hi Ha]%List.find_some. split; [by apply list_elem_of_In|].
  by apply bool_decide_eq_true in Ha.
Qed.
Lemma entry_None k a : entry k a = None <-> a ∉ addresses k.
Proof.
  unfold entry, addresses. induction (entries k) as [|e l IH]; cbn; [set_solver|].
  unfold has_address at 1. case_bool_decide as E; [set_solver|]. rewrite IH. set_solver.
Qed.

Lemma update_first_addresses p f l :
  (forall e, p e = true -> address (f e) = address e) ->
  address <$> update_first p f l = address <$> l.
Proof.
  intros Hf. induction l as [|e l IH]; [done|]. cbn. destruct (p e) eqn:E; cbn; [by rewrite Hf|].
  by rewrite IH.
Qed.
Lemma update_first_Forall (P : KeystoreEntry -> Prop) p f l :
  (forall e, P e -> P (f e)) -> Forall P l -> Forall P (update_first p f l).
Proof.
  intros Hf. induction 1 as [|e l He Hl IH]; [constructor|]. cbn. destruct (p e); constructor; auto.
Qed.
Lemma has_address_iff a e : has_address a e = true <-> address e = a.
Proof. apply bool_decide_eq_true. Qed.
Lemma find_update_same a f l :
  (forall e, address e = a -> address (f e) = a) ->
  List.find (has_address a) (update_first (has_address a) f l)
  = f <$> List.find (has_address a) l.
Proof.
  intros Hf. induction l as [|e l IH]; [done|]. cbn. destruct (has_address a e) eqn:E; cbn.
  - by rewrite (proj2 (has_address_iff _ _) (Hf e (proj1 (has_address_iff _ _) E))).
  - by rewrite E.
Qed.
Lemma find_update_other a b f l :
  a <> b -> (forall e, address e = a -> address (f e) = a) ->
  List.find (has_address b) (update_first (has_address a) f l) = List.find (has_address b) l.
Proof.
  intros Hab Hf. induction l as [|e l IH]; [done|]. cbn. destruct (has_address a e) eqn:E; cbn.
  - apply has_address_iff in E. pose proof (Hf e E) as E'.
    destruct (has_address b (f e)) eqn:B; [apply has_address_iff in B; congruence|].
    destruct (has_address b e) eqn:B'; [apply has_address_iff in B'; congruence|done].
  - by rewrite IH.
Qed.

Section Proofs.
Context `{Digests, Hex, Ed25519Laws, Argon2, AeadLaws}.

(** The entry built for a key opens with its password to that key. *)
Lemma built_entry fr k password lbl t o d e :
  build_current_entry fr k password lbl t o d = Ok e ->
  address e = keypair_address k /\ validate_current_format e = Ok () /\
  (label e, created_at e, origin e, derivation_path e) = (lbl, t, o, d) /\
  forall s, entry s (keypair_address k) = Some e -> unlock s (keypair_address k) password = Ok k.
Proof.
  unfold build_current_entry. intros E.
  destruct (derive_key_argon2id password (f_salt fr)) as [key|] eqn:Ek; [|done].
  cbn [mbind result_bind] in E.
  destruct (aead_encrypt _ _ _ _) as [c|] eqn:Ec; cbn [map_err mbind result_bind] in E; [|done].
  injection E as <-. cbn [address label created_at origin derivation_path].
  assert ((length (bn (f_nonce fr)) =? 24)%nat = true) as Hn by (by rewrite bn_length).
  split; [done|]. split; [unfold validate_current_format; cbn [nonce ok_or mbind result_bind];
    by rewrite Hn|]. split; [done|].
  intros s Es. unfold unlock. rewrite Es. cbn [ok_or mbind result_bind].
  unfold validate_current_format. cbn [nonce ok_or mbind result_bind salt encrypted_key].
  rewrite Hn. cbn [ensure mbind result_bind]. rewrite Ek. cbn [mbind result_bind].
  rewrite (aead_roundtrip _ _ _ _ _ Ec). cbn [map_err mbind result_bind].
  rewrite mk_bytesN_bn. cbn [ok_or mbind result_bind].
  rewrite bool_decide_eq_true_2 by done. done.
Qed.

Lemma import_Ok fr t k kp password lbl o d k' :
  import_key_with_origin fr t k kp password lbl o d = Ok k' ->
  keypair_address kp ∉ addresses k /\
  exists e, build_current_entry fr kp password lbl t o d = Ok e /\ entries k' = entries k ++ [e].
Proof.
  unfold import_key_with_origin. case_bool_decide as Hn; [done|].
  destruct (build_current_entry _ _ _ _ _ _ _) as [e|] eqn:Eb; [|done]. intros [= <-].
  split; [|by exists e]. apply entry_None. destruct (entry _ _); [|done]. exfalso. eauto.
Qed.

Lemma find_app_new a e l :
  a ∉ (address <$> l) -> address e = a -> List.find (has_address a) (l ++ [e]) = Some e.
Proof.
  intros Hn Ha. induction l as [|x l IH]; cbn.
  - by rewrite (proj2 (has_address_iff _ _) Ha).
  - destruct (has_address a x) eqn:E; [apply has_address_iff in E; set_solver|].
    apply IH. set_solver.
Qed.
Lemma find_app_old a e l :
  address e <> a -> List.find (has_address a) (l ++ [e]) = List.find (has_address a) l.
Proof.
  intros Ha. induction l as [|x l IH]; cbn.
  - destruct (has_address a e) eqn:E; [apply has_address_iff in E; congruence|done].
  - by rewrite IH.
Qed.

Lemma well_formed_import fr t k kp password lbl o d k' :
  well_formed k -> import_key_with_origin fr t k kp password lbl o d = Ok k' -> well_formed k'.
Proof.
  intros [Hd Hf] E. apply import_Ok in E as (Hn & e & Eb & Ek).
  destruct (built_entry _ _ _ _ _ _ _ _ Eb) as (Ha & Hv & _).
  split; [|rewrite Ek; apply Forall_app; by repeat constructor].
  unfold addresses. rewrite Ek, fmap_app. apply NoDup_app. split; [done|].
  split; [|apply NoDup_singleton]. intros x Hx Hx'. cbn in Hx'.
  apply list_elem_of_singleton in Hx'. subst x. rewrite Ha in Hx. done.
Qed.
Lemma well_formed_update k a f :
  (forall e, address e = a -> address (f e) = a) ->
  (forall e, validate_current_format e = Ok () -> validate_current_format (f e) = Ok ()) ->
  well_formed k -> well_formed (k <| entries := update_first (has_address a) f (entries k) |>).
Proof.
  intros Ha Hv [Hd Hf]. split; cbn; [|by apply update_first_Forall].
  unfold addresses. cbn. rewrite update_first_addresses; [done|].
  intros e He. apply has_address_iff in He. by rewrite Ha.
Qed.
(** [unlock] sees one entry of the store. *)
Lemma unlock_entry k k' a password :
  entry k a = entry k' a -> unlock k a password = unlock k' a password.
Proof. unfold unlock. by intros ->. Qed.

(** C33: An imported key comes back, and nothing else moves. After a successful import the
    password opens the address to exactly the imported key, every other address answers
    every password as before, the store stays well formed, and importing the same address
    again is refused. *)
Theorem import_unlock fr t k kp password lbl o d k' :
  well_formed k -> import_key_with_origin fr t k kp password lbl o d = Ok k' ->
  unlock k' (keypair_address kp) password = Ok kp /\
  (forall b pw, b <> keypair_address kp -> unlock k' b pw = unlock k b pw) /\
  well_formed k' /\
  (forall fr2 t2 pw2 lbl2 o2 d2,
     is_ok (import_key_with_origin fr2 t2 k' kp pw2 lbl2 o2 d2) = false).
Proof.
  intros Hw E. pose proof (well_formed_import _ _ _ _ _ _ _ _ _ Hw E) as Hw'.
  apply import_Ok in E as (Hn & e & Eb & Ek).
  destruct (built_entry _ _ _ _ _ _ _ _ Eb) as (Ha & Hv & _ & Hu).
  assert (entry k' (keypair_address kp) = Some e) as Ee
    by (unfold entry; rewrite Ek; by apply find_app_new).
  split; [by apply Hu|]. split; [|split].
  - intros b pw Hb. apply unlock_entry. unfold entry. rewrite Ek. apply find_app_old. congruence.
  - done.
  - intros. unfold import_key_with_origin. rewrite Ee. by rewrite bool_decide_eq_true_2 by eauto.
Qed.

(** A successful unlock: the entry is there, and the key it gives has the address. *)
Lemma unlock_Ok k a pw kp :
  unlock k a pw = Ok kp ->
  keypair_address kp = a /\ exists e, entry k a = Some e /\ validate_current_format e = Ok ().
Proof.
  unfold unlock. destruct (entry k a) as [e|]; [|done]. cbn [ok_or mbind result_bind].
  destruct (validate_current_format e) as [[]|] eqn:Ev; [|done]. cbn [mbind result_bind].
  destruct (derive_key_argon2id _ _) as [key|]; [|done]. cbn [mbind result_bind].
  destruct (nonce e) as [n|]; [|done]. cbn [ok_or mbind result_bind].
  destruct (ensure _ _) as [[]|]; [|done]. cbn [mbind result_bind].
  destruct (aead_decrypt _ _ _ _) as [m|]; [|done]. cbn [map_err mbind result_bind].
  destruct (mk_bytesN 32 m) as [sk|]; [|done]. cbn [ok_or mbind result_bind].
  case_bool_decide as Ha; [|done]. cbn. intros [= <-]. by eauto.
Qed.

Lemma update_first_const_list a e0 e l :
  List.find (has_address a) l = Some e0 -> (address e, label e) = (address e0, label e0) ->
  (fun x => (address x, label x)) <$> update_first (has_address a) (fun _ => e) l
  = (fun x => (address x, label x)) <$> l.
Proof.
  intros Hf He. induction l as [|x l IH]; [done|]. cbn in *. destruct (has_address a x).
  - injection Hf as ->. cbn. by rewrite He.
  - cbn. by rewrite IH.
Qed.

(** Changing a password changes the password only. On success the old password opened the
    entry, the new one opens it to the same key, its label, creation time, origin and
    derivation path are the old ones, every other address answers as before, the list
    of addresses with their labels is the same, and the store stays well formed. *)
Theorem change_password_spec fr k a current new k' outcome :
  well_formed k -> change_entry_password fr k a current new = Ok (k', outcome) ->
  (exists kp, unlock k a current = Ok kp /\ unlock k' a new = Ok kp) /\
  (forall b pw, b <> a -> unlock k' b pw = unlock k b pw) /\
  list_addresses k' = list_addresses k /\ well_formed k' /\
  (exists e e', entry k a = Some e /\ entry k' a = Some e' /\
     (label e', created_at e', origin e', derivation_path e')
     = (label e, created_at e, origin e, derivation_path e)) /\
  password_changed outcome = negb (bool_decide (current = new)).
Proof.
  intros Hw E. unfold change_entry_password in E.
  destruct (unlock k a current) as [kp|] eqn:Eu; [|done]. cbn [mbind result_bind] in E.
  destruct (unlock_Ok _ _ _ _ Eu) as (Ha & e0 & Ee & _). rewrite Ee in E.
  cbn [ok_or mbind result_bind] in E.
  destruct (build_current_entry _ _ _ _ _ _ _) as [e|] eqn:Eb; [|done].
  cbn [mbind result_bind] in E. injection E as <- <-.
  destruct (built_entry _ _ _ _ _ _ _ _ Eb) as (Hae & Hv & Hl & Hu). rewrite Ha in Hae, Hu.
  assert (forall x, address x = a -> address ((fun _ => e) x) = a) as Hc by done.
  assert (entry (k <| entries := update_first (has_address a) (fun _ => e) (entries k) |>) a
          = Some e) as Ee'.
  { unfold entry. cbn. rewrite find_update_same by done. unfold entry in Ee. by rewrite Ee. }
  destruct (entry_Some _ _ _ Ee) as [_ He0].
  split; [exists kp; split; [done|by apply Hu]|].
  split; [|split; [|split; [|split; [exists e0, e; by rewrite Hl|done]]]].
  - intros b pw Hb. apply unlock_entry. unfold entry. cbn. by apply find_update_other.
  - unfold list_addresses. cbn. injection Hl as Hl _ _ _.
    apply (update_first_const_list _ e0); [done|by rewrite Hl, Hae, He0].
  - by apply well_formed_update.
Qed.

(** The store's operations, as its callers issue them. *)
Inductive op : Type :=
| OpImport (fr : fresh) (now : Z) (kp : Keypair) (password lbl : rstr)
    (o : KeystoreEntryOrigin) (derivation : option rstr)
| OpRelabel (a : Address) (lbl : rstr)
| OpChangePassword (fr : fresh) (a : Address) (current new : rstr)
| OpRemove (a : Address).
(** The store after one call; a call that fails leaves it. *)
Definition keep_on_error (k : Keystore) (r : result ZinchaError Keystore) : Keystore :=
  match r with Ok k' => k' | Err _ => k end.
Definition step (k : Keystore) (o : op) : Keystore :=
  match o with
  | OpImport fr now kp pw lbl o d =>
      keep_on_error k (import_key_with_origin fr now k kp pw lbl o d)
  | OpRelabel a lbl => keep_on_error k (relabel k a lbl)
  | OpChangePassword fr a current new =>
      keep_on_error k (p ← change_entry_password fr k a current new; Ok p.1)
  | OpRemove a => (remove k a).1
  end.

Lemma find_filter_other a b l :
  b <> a ->
  List.find (has_address b) (List.filter (fun e => negb (has_address a e)) l)
  = List.find (has_address b) l.
Proof.
  intros Hb. induction l as [|e l IH]; [done|]. cbn. destruct (has_address a e) eqn:A; cbn.
  - destruct (has_address b e) eqn:B; [|done].
    apply has_address_iff in A, B. congruence.
  - by rewrite IH.
Qed.
Lemma remaining_addresses a l x :
  x ∈ (address <$> List.filter (fun e => negb (has_address a e)) l)
  <-> x ∈ (address <$> l) /\ x <> a.
Proof.
  induction l as [|e l IH]; cbn; [set_solver|]. destruct (has_address a e) eqn:A; cbn.
  - apply has_address_iff in A. rewrite IH. set_solver.
  - assert (address e <> a) by (intros Hx%has_address_iff; congruence). set_solver.
Qed.
Lemma remaining_length a l :
  (length (List.filter (fun e => negb (has_address a e)) l) <? length l)%nat
  = bool_decide (a ∈ (address <$> l)).
Proof.
  assert (forall l, length (List.filter (fun e => negb (has_address a e)) l) <= length l)%nat
    as Hle by (intros l0; induction l0 as [|e l0 IH]; cbn; [done|]; destruct (has_address a e);
               cbn; lia).
  induction l as [|e l IH]; [by rewrite bool_decide_eq_false_2 by set_solver|].
  cbn [List.filter]. destruct (has_address a e) eqn:A; cbn [negb length fmap list_fmap].
  - rewrite bool_decide_eq_true_2 by (apply has_address_iff in A; set_solver).
    apply Nat.ltb_lt. specialize (Hle l). lia.
  - assert (address e <> a) by (intros Hx%has_address_iff; congruence).
    transitivity (length (List.filter (fun e0 => negb (has_address a e0)) l) <? length l)%nat;
      [apply eq_true_iff_eq; rewrite !Nat.ltb_lt; lia|].
    rewrite IH. apply bool_decide_ext. set_solver.
Qed.
Lemma well_formed_remove k a : well_formed k -> well_formed (remove k a).1.
Proof.
  intros [Hd Hf]. unfold well_formed, remove, addresses in *. cbn.
  induction (entries k) as [|e l IH]; [done|]. cbn in *.
  apply NoDup_cons in Hd as [Hn Hd]. apply Forall_cons in Hf as [He Hf].
  destruct (IH Hd Hf) as [IHd IHf]. destruct (has_address a e); cbn; [done|].
  split; [|by constructor]. apply NoDup_cons. split; [|done].
  intros Hx%remaining_addresses. tauto.
Qed.

Lemma well_formed_step k o : well_formed k -> well_formed (step k o).
Proof.
  intros Hw. destruct o as [fr now kp pw lbl o d|a lbl|fr a current new|a]; cbn [step].
  - destruct (import_key_with_origin _ _ _ _ _ _ _ _) eqn:E; [|done].
    by eapply well_formed_import.
  - unfold relabel. destruct (entry k a); [|done]. cbn [ok_or mbind result_bind keep_on_error].
    by apply well_formed_update.
  - unfold change_entry_password. destruct (unlock k a current) as [kp|] eqn:Eu; [|done].
    cbn [mbind result_bind]. destruct (entry k a) as [e0|]; [|done].
    cbn [ok_or mbind result_bind]. destruct (build_current_entry _ _ _ _ _ _ _) as [e|] eqn:Eb;
      [|done]. cbn [mbind result_bind keep_on_error fst].
    destruct (built_entry _ _ _ _ _ _ _ _ Eb) as (Hae & Hv & _).
    destruct (unlock_Ok _ _ _ _ Eu) as [Ha _].
    apply well_formed_update; [intros; congruence|done|done].
  - by apply well_formed_remove.
Qed.
Lemma well_formed_run ops k : well_formed k -> well_formed (foldl step k ops).
Proof.
  revert k. induction ops as [|o ops IH]; intros k Hw; [done|]. by apply IH, well_formed_step.
Qed.

(** Every store the operations reach is sound. Starting from the empty store and after any
    imports, relabellings, password changes and removals: the addresses are distinct and the
    entries in the current format; whatever key an unlock gives belongs to the
    address asked; relabelling changes no unlock; removing reports exactly whether the address
    was there, makes it answer every password with an error, and leaves the others. *)
Theorem keystore_reachable ops :
  let k := foldl step new_keystore ops in
  well_formed k /\
  (forall a pw kp, unlock k a pw = Ok kp -> keypair_address kp = a /\ a ∈ addresses k) /\
  (forall a lbl k' b pw, relabel k a lbl = Ok k' -> unlock k' b pw = unlock k b pw) /\
  (forall a, (remove k a).2 = bool_decide (a ∈ addresses k) /\
     forall b pw, unlock (remove k a).1 b pw
                  = if decide (b = a) then Err (not_found a) else unlock k b pw).
Proof.
  intros k. split; [|split; [|split]].
  - apply well_formed_run. split; [apply NoDup_nil_2|constructor].
  - intros a pw kp Eu. destruct (unlock_Ok _ _ _ _ Eu) as (Ha & e & Ee & _). split; [done|].
    destruct (entry_Some _ _ _ Ee) as [Hin <-]. by apply list_elem_of_fmap_2.
  - intros a lbl k' b pw. unfold relabel. destruct (entry k a) as [e|] eqn:Ee; [|done].
    cbn [ok_or mbind result_bind]. intros [= <-].
    destruct (decide (b = a)) as [->|Hb].
    + unfold entry in Ee. unfold unlock, entry. cbn.
      rewrite find_update_same by done. rewrite Ee. done.
    + apply unlock_entry. unfold entry. cbn. by apply find_update_other.
  - intros a. split; [apply remaining_length|]. intros b pw. case_decide as Hb.
    + subst b. unfold unlock. rewrite (proj2 (entry_None _ _)); [done|].
      intros Hx%remaining_addresses. tauto.
    + apply unlock_entry. by apply find_filter_other.
Qed.
End Proofs.

(** *** The JSON form *)

(** What an accepted entry looks like. *)
Definition current_shape (v : Json.Value) : Prop :=
  exists fields, v = Json.Object fields /\ Json.get (lit "check_hash") fields = None /\
    Json.get (lit "kdf") fields = Some (Json.Str (lit "argon2id")) /\
    Json.get (lit "cipher") fields = Some (Json.Str (lit "xchacha20poly1305")) /\
    exists o, Json.get (lit "origin") fields = Some (Json.Str o) /\
      o ∈ [lit "generated"; lit "raw_secret_file"; lit "pkcs8_pem"; lit "mnemonic"].

Lemma string_field_Ok key fields e s :
  string_field key fields e = Ok s <-> Json.get (lit key) fields = Some (Json.Str s).
Proof.
  unfold string_field. destruct (Json.get (lit key) fields) as [[]|]; cbn; split; congruence.
Qed.
Lemma check_entry_shape_Ok position v :
  check_entry_shape position v = Ok () <-> current_shape v.
Proof.
  unfold check_entry_shape, current_shape. split.
  - intros E. destruct v as [| | | | |fields]; try done. cbn [Json.as_object ok_or] in E.
    cbn [mbind result_bind] in E. unfold Json.contains_key in E.
    case_bool_decide as Hc; [done|]. cbn [negb ensure mbind result_bind] in E.
    destruct (string_field "origin" _ _) as [o|] eqn:Eo; [|done]. cbn [mbind result_bind] in E.
    case_bool_decide as Ho; [|done]. cbn [ensure mbind result_bind] in E.
    destruct (string_field "kdf" _ _) as [kd|] eqn:Ek; [|done]. cbn [mbind result_bind] in E.
    case_bool_decide as Hk; [|done]. cbn [ensure mbind result_bind] in E.
    destruct (string_field "cipher" _ _) as [ci|] eqn:Ec; [|done]. cbn [mbind result_bind] in E.
    case_bool_decide as Hci; [|done].
    apply string_field_Ok in Eo, Ek, Ec. subst kd ci. exists fields. split; [done|].
    split; [|by eauto]. by apply eq_None_not_Some.
  - intros (fields & -> & Hc & Hk & Hci & o & Ho & Hin). cbn [Json.as_object ok_or mbind result_bind].
    unfold Json.contains_key. rewrite Hc, bool_decide_eq_false_2 by (by intros []).
    cbn [negb ensure mbind result_bind].
    rewrite (proj2 (string_field_Ok _ _ _ _) Ho). cbn [mbind result_bind].
    rewrite bool_decide_eq_true_2 by done. cbn [ensure mbind result_bind].
    rewrite (proj2 (string_field_Ok _ _ _ _) Hk). cbn [mbind result_bind].
    rewrite bool_decide_eq_true_2 by done. cbn [ensure mbind result_bind].
    rewrite (proj2 (string_field_Ok _ _ _ _) Hci). cbn [mbind result_bind].
    by rewrite bool_decide_eq_true_2 by done.
Qed.
Lemma check_entry_shapes_Ok position vs :
  check_entry_shapes position vs = Ok () <-> Forall current_shape vs.
Proof.
  revert position. induction vs as [|v vs IH]; intros position; cbn [check_entry_shapes];
    [by split; [constructor|]|].
  rewrite Forall_cons, <- (check_entry_shape_Ok position), <- (IH (position + 1)).
  destruct (check_entry_shape position v) as [[]|]; cbn [mbind result_bind];
    [tauto|split; [|intros []]; congruence].
Qed.
Lemma validate_all_Ok es :
  fold_result (fun _ e => validate_current_format e) () es = Ok ()
  <-> Forall (fun e => validate_current_format e = Ok ()) es.
Proof.
  induction es as [|e es IH]; cbn [fold_result]; [by split; [constructor|]|].
  rewrite Forall_cons, <- IH. destruct (validate_current_format e) as [[]|]; cbn [mbind result_bind];
    [tauto|split; [|intros []]; congruence].
Qed.

(** Loading a keystore fails closed. A document is accepted only if it parses to an array
    whose every entry declares the current key derivation, cipher and a known origin and no
    legacy password verifier, decodes, and every decoded entry has a nonce of 24 bytes; the
    store then holds exactly the decoded entries. *)
Theorem json_fails_closed parse decode data k :
  from_json_str parse decode data = Ok k <->
  exists vs es, parse data = Ok (Json.Array vs) /\ Forall current_shape vs /\
    decode (Json.Array vs) = Ok es /\
    Forall (fun e => exists n, nonce e = Some n /\ length n = 24%nat) es /\
    k = {| entries := es; path := None |}.
Proof.
  assert (forall e, validate_current_format e = Ok ()
                    <-> exists n, nonce e = Some n /\ length n = 24%nat) as Hfmt.
  { intros e. unfold validate_current_format. destruct (nonce e) as [n|]; cbn [ok_or mbind result_bind];
      [|split; [done|by intros (? & ? & ?)]].
    destruct (Nat.eqb_spec (length n) 24) as [Hn|Hn]; cbn; [split; [eauto|done]|].
    split; [done|]. intros (n' & [= <-] & Hn'). done. }
  setoid_rewrite <- Hfmt. unfold from_json_str. split.
  - intros E. destruct (parse data) as [raw|]; [|done]. cbn [map_err mbind result_bind] in E.
    unfold validate_keystore_json_shape in E. destruct raw as [| | | |vs|]; try done.
    cbn [Json.as_array ok_or mbind result_bind] in E.
    destruct (check_entry_shapes 1 vs) as [[]|] eqn:Es; [|done]. cbn [mbind result_bind] in E.
    destruct (decode _) as [es|] eqn:Ed; [|done]. cbn [map_err mbind result_bind] in E.
    destruct (fold_result _ () es) as [[]|] eqn:Ef; [|done]. injection E as <-.
    apply check_entry_shapes_Ok in Es. apply validate_all_Ok in Ef. eauto 10.
  - intros (vs & es & -> & Hs & Hd & Hf & ->). cbn [map_err mbind result_bind].
    unfold validate_keystore_json_shape. cbn [Json.as_array ok_or mbind result_bind].
    rewrite (proj2 (check_entry_shapes_Ok 1 vs) Hs). cbn [mbind result_bind]. rewrite Hd.
    cbn [map_err mbind result_bind]. by rewrite (proj2 (validate_all_Ok es) Hf).
Qed.
End Keystore.

(** ** Witnesses *)
Module KeystoreWitness.
Import Keystore.

(** The derived key is the salted password. *)
#[local] Instance plain_argon2 : Argon2 := {
  argon2id := fun password slt => Ok (pad_bytesN 32 (take 16 password ++ take 16 (bn slt)));
}.

Definition key1 : Keypair := pad_bytesN 32 [x51].
Definition key2 : Keypair := pad_bytesN 32 [x52].
Definition fresh0 : fresh := {| f_salt := pad_bytesN 32 [x01]; f_nonce := pad_bytesN 24 [x02] |}.
Definition store1 : Keystore :=
  step new_keystore (OpImport fresh0 7 key1 (lit "first") (lit "one") RawSecretFile None).
Definition store2 : Keystore :=
  step store1 (OpImport fresh0 8 key2 (lit "second") (lit "two") RawSecretFile None).
Definition change : result ZinchaError (Keystore * EntryPasswordChangeOutcome) :=
  change_entry_password fresh0 store2 (keypair_address key1) (lit "first") (lit "third").
Definition changed : Keystore := keep_on_error store2 (p ← change; Ok p.1).

Lemma empty_well_formed : well_formed new_keystore.
Proof. split; [apply NoDup_nil_2|constructor]. Qed.
Lemma store1_well_formed : well_formed store1.
Proof. apply well_formed_step, empty_well_formed. Qed.
Lemma store2_well_formed : well_formed store2.
Proof. apply well_formed_step, store1_well_formed. Qed.

(** A second key is imported; it opens, the first still opens, and a wrong password is refused. *)
Lemma import_unlock_witness :
  unlock store2 (keypair_address key2) (lit "second") = Ok key2 /\
  unlock store1 (keypair_address key1) (lit "first") = Ok key1 /\
  is_ok (unlock store2 (keypair_address key2) (lit "first")) = false.
Proof.
  split; [|split; by vm_compute].
  refine (proj1 (import_unlock fresh0 8 store1 key2 (lit "second") (lit "two") RawSecretFile None
    store2 store1_well_formed _)).
  by vm_compute.
Defined.

Lemma change_password_spec_witness :
  list_addresses changed = list_addresses store2 /\
  unlock changed (keypair_address key1) (lit "third") = Ok key1 /\
  is_ok (unlock changed (keypair_address key1) (lit "first")) = false.
Proof.
  split; [|split; by vm_compute].
  refine (proj1 (proj2 (proj2 (change_password_spec fresh0 store2 (keypair_address key1)
    (lit "first") (lit "third") changed
    {| kdf_before := Argon2id; kdf_after := Argon2id; cipher_before := XChaCha20Poly1305;
       cipher_after := XChaCha20Poly1305; password_changed := true |} store2_well_formed _)))).
  by vm_compute.
Defined.
End KeystoreWitness.
