(* ===== verification/KeystoreFile.v ===== *)
(** * The keystore as a JSON document

    Models the derived serde implementations of [wallet/keystore.rs]: the tree of JSON values that
    a keystore is written as and the entries read back from one, with the names the attributes
    give to fields and variants. Writing a tree as text and parsing a text are a parameter, as is
    the wording of a fault. *)
From S2P Require Import Prelude Crypto Instances Wire Keystore.

Module KeystoreFile.
Import Keystore.

(** ** Values *)
(** A parsed object lists its members by key, as serde_json's map does. *)
Fixpoint key_ltb (a b : rstr) : bool :=
  match a, b with
  | _, [] => false
  | [], _ :: _ => true
  | x :: a', y :: b' => (x <? y) || (x =? y) && key_ltb a' b'
  end.
Fixpoint insert_member (f : rstr * Json.Value) (fields : list (rstr * Json.Value))
    : list (rstr * Json.Value) :=
  match fields with
  | [] => [f]
  | g :: rest => if key_ltb g.1 f.1 then g :: insert_member f rest else f :: g :: rest
  end.
Definition by_key (fields : list (rstr * Json.Value)) : list (rstr * Json.Value) :=
  foldr insert_member [] fields.
Fixpoint parsed (v : Json.Value) : Json.Value :=
  match v with
  | Json.Array vs => Json.Array (List.map parsed vs)
  | Json.Object fields => Json.Object (by_key (List.map (fun f => (f.1, parsed f.2)) fields))
  | v => v
  end.

(** Why a value is refused. *)
Inductive fault : Type :=
| MissingField (field : rstr)
| UnknownField (field : rstr)
| UnknownVariant (variant : rstr)
| Invalid (expected : string)
| InvalidLength (n : Z).
Definition array (v : Json.Value) : result fault (list Json.Value) :=
  ok_or (Json.as_array v) (Invalid "a sequence").
Definition text (v : Json.Value) : result fault rstr := ok_or (Json.as_str v) (Invalid "a string").
Definition unsigned (max : Z) (v : Json.Value) : result fault Z :=
  match v with
  | Json.Number t => map_err (fun _ => Invalid "an unsigned integer") (parse_unsigned max t)
  | _ => Err (Invalid "an unsigned integer")
  end.
Fixpoint each {A} (read : Json.Value -> result fault A) (vs : list Json.Value)
    : result fault (list A) :=
  match vs with
  | [] => Ok []
  | v :: vs' => a ← read v; l ← each read vs'; Ok (a :: l)
  end.
Definition byte_value (b : byte) : Json.Value := Json.Number (show_u (Z.of_N (Byte.to_N b))).
Definition read_byte (v : Json.Value) : result fault byte := n ← unsigned 255 v; Ok (byte_of n).
Definition bytes_value (bytes : list byte) : Json.Value := Json.Array (byte_value <$> bytes).
Definition read_bytes (v : Json.Value) : result fault (list byte) := vs ← array v; each read_byte vs.
Definition read_salt (v : Json.Value) : result fault (bytesN 32) :=
  bytes ← read_bytes v; ok_or (mk_bytesN 32 bytes) (InvalidLength (Z.of_nat (length bytes))).

(** ** The names of variants *)
(** [rename_all = "snake_case"]: an underscore before each capital but the first. *)
Definition snake_case (variant : string) : rstr :=
  match lit variant with
  | [] => []
  | c :: rest =>
      to_ascii_lowercase [c] ++
      flat_map (fun c => (if is_ascii_uppercase c then [95] else []) ++ to_ascii_lowercase [c]) rest
  end.
Definition kdf_name (k : KdfType) : rstr := match k with Argon2id => snake_case "Argon2id" end.
(** Renamed explicitly. *)
Definition cipher_name (c : CipherType) : rstr :=
  match c with XChaCha20Poly1305 => lit "xchacha20poly1305" end.
Definition origin_name (g : KeystoreEntryOrigin) : rstr :=
  match g with
  | Generated => snake_case "Generated"
  | RawSecretFile => snake_case "RawSecretFile"
  | Pkcs8Pem => snake_case "Pkcs8Pem"
  | Mnemonic => snake_case "Mnemonic"
  end.
(** A unit variant is read from its name. *)
Definition variant {A} (name : A -> rstr) (all : list A) (v : Json.Value) : result fault A :=
  t ← text v; ok_or (List.find (fun a => bool_decide (name a = t)) all) (UnknownVariant t).

(** ** Entries *)
Section Entries.
Context `{Hex}.
(** A human-readable format is told a text. *)
Definition address_value (a : Address) : Json.Value :=
  match Wire.address_serialize true a with
  | Wire.Text t => Json.Str t
  | Wire.Tuple bytes => bytes_value bytes
  end.
Definition read_address (v : Json.Value) : result fault Address :=
  t ← text v;
  map_err (fun _ => Invalid "an address")
    (Wire.address_deserialize
       {| Wire.is_human_readable := true; Wire.string := Ok t; Wire.sequence := [] |}).
(** [skip_serializing_if = "Option::is_none"]. *)
Definition unless_none (key : string) (v : option Json.Value) : list (rstr * Json.Value) :=
  match v with Some v => [(lit key, v)] | None => [] end.
Definition entry_value (e : KeystoreEntry) : Json.Value :=
  Json.Object
    ([(lit "address", address_value (address e));
      (lit "encrypted_key", bytes_value (encrypted_key e));
      (lit "salt", bytes_value (bn (salt e)))] ++
     unless_none "nonce" (bytes_value <$> nonce e) ++
     [(lit "created_at", Json.Number (show_u (created_at e)));
      (lit "label", Json.Str (label e));
      (lit "kdf", Json.Str (kdf_name (kdf e)));
      (lit "cipher", Json.Str (cipher_name (cipher e)));
      (lit "origin", Json.Str (origin_name (origin e)))] ++
     unless_none "derivation_path" (Json.Str <$> derivation_path e)).
Definition entries_value (es : list KeystoreEntry) : Json.Value := Json.Array (entry_value <$> es).

Definition FIELDS : list rstr :=
  [lit "address"; lit "encrypted_key"; lit "salt"; lit "nonce"; lit "created_at"; lit "label";
   lit "kdf"; lit "cipher"; lit "origin"; lit "derivation_path"].
Definition field {A} (key : string) (read : Json.Value -> result fault A)
    (fields : list (rstr * Json.Value)) : result fault A :=
  v ← ok_or (Json.get (lit key) fields) (MissingField (lit key)); read v.
(** [default], for an option: absent and null are none. *)
Definition optional {A} (key : string) (read : Json.Value -> result fault A)
    (fields : list (rstr * Json.Value)) : result fault (option A) :=
  match Json.get (lit key) fields with
  | None | Some Json.Null => Ok None
  | Some v => a ← read v; Ok (Some a)
  end.
(** [deny_unknown_fields]. *)
Fixpoint known_fields (fields : list (rstr * Json.Value)) : result fault unit :=
  match fields with
  | [] => Ok ()
  | (key, _) :: rest => if bool_decide (key ∈ FIELDS) then known_fields rest else Err (UnknownField key)
  end.
(** An entry is an object by now: its shape was checked. Of several faults, which is reported is
    not modelled. *)
Definition read_entry (v : Json.Value) : result fault KeystoreEntry :=
  fields ← ok_or (Json.as_object v) (Invalid "struct KeystoreEntry");
  _ ← known_fields fields;
  address ← field "address" read_address fields;
  encrypted_key ← field "encrypted_key" read_bytes fields;
  salt ← field "salt" read_salt fields;
  nonce ← optional "nonce" read_bytes fields;
  created_at ← field "created_at" (unsigned U64_MAX) fields;
  label ← field "label" text fields;
  kdf ← field "kdf" (variant kdf_name [Argon2id]) fields;
  cipher ← field "cipher" (variant cipher_name [XChaCha20Poly1305]) fields;
  origin ← field "origin" (variant origin_name [Generated; RawSecretFile; Pkcs8Pem; Mnemonic]) fields;
  derivation_path ← optional "derivation_path" text fields;
  Ok {| address := address; encrypted_key := encrypted_key; salt := salt; nonce := nonce;
        created_at := created_at; label := label; kdf := kdf; cipher := cipher; origin := origin;
        derivation_path := derivation_path |}.
Definition read_entries (v : Json.Value) : result fault (list KeystoreEntry) :=
  vs ← array v; each read_entry vs.
End Entries.

(** ** Reading what was written *)
(** Parsing an object moves its members but hides none. *)
Lemma key_ltb_irrefl k : key_ltb k k = false.
Proof. induction k as [|x k IH]; [done|]. cbn. by rewrite Z.ltb_irrefl, Z.eqb_refl, IH. Qed.
Lemma get_insert k f fields :
  Json.get k (insert_member f fields) = if decide (f.1 = k) then Some f.2 else Json.get k fields.
Proof.
  induction fields as [|g rest IH]; [by destruct f|]. cbn [insert_member].
  destruct (key_ltb g.1 f.1) eqn:El; [|by destruct f]. destruct g as [kg vg]. cbn [Json.get fst] in *.
  rewrite IH. destruct (decide (kg = k)) as [->|]; [|done].
  destruct (decide (f.1 = k)) as [E|]; [|done]. by rewrite E, key_ltb_irrefl in El.
Qed.
Lemma get_parsed k fields :
  Json.get k (by_key (List.map (fun f => (f.1, parsed f.2)) fields)) = parsed <$> Json.get k fields.
Proof.
  induction fields as [|[kf v] rest IH]; [done|]. cbn [List.map by_key foldr].
  rewrite get_insert. cbn [fst snd Json.get]. destruct (decide (kf = k)); [done|]. exact IH.
Qed.
Lemma known_insert f fields :
  known_fields (insert_member f fields) = Ok () <-> f.1 ∈ FIELDS /\ known_fields fields = Ok ().
Proof.
  induction fields as [|g rest IH]; destruct f as [kf vf]; cbn [insert_member fst] in *.
  - cbn [known_fields]. case_bool_decide; [tauto|]. by split; [|intros []].
  - destruct g as [kg vg]. cbn [fst]. destruct (key_ltb kg kf); cbn [known_fields].
    + case_bool_decide; [exact IH|]. by split; [|intros []].
    + case_bool_decide; [|by split; [|intros []]]. tauto.
Qed.
Lemma known_parsed fields :
  known_fields fields = Ok () ->
  known_fields (by_key (List.map (fun f => (f.1, parsed f.2)) fields)) = Ok ().
Proof.
  induction fields as [|[k v] rest IH]; [done|]. cbn [known_fields List.map by_key foldr].
  case_bool_decide; [|done]. intros Hr. apply known_insert. by split; [|apply IH].
Qed.

Lemma read_byte_value b : read_byte (parsed (byte_value b)) = Ok b.
Proof.
  unfold read_byte, byte_value. cbn [parsed unsigned].
  pose proof (Byte.to_N_bounded b) as Hb. rewrite parse_show_u by lia. cbn [map_err mbind result_bind].
  f_equal. destruct b; reflexivity.
Qed.
Lemma each_written {A} (read : Json.Value -> result fault A) (write : A -> Json.Value) l :
  (forall a, a ∈ l -> read (parsed (write a)) = Ok a) ->
  each read (List.map parsed (write <$> l)) = Ok l.
Proof.
  induction l as [|a l IH]; intros Hr; [done|]. cbn [fmap list_fmap List.map each].
  rewrite Hr by apply list_elem_of_here. cbn [mbind result_bind].
  rewrite IH by (intros x Hx; apply Hr; by apply list_elem_of_further). done.
Qed.
Lemma read_bytes_value bytes : read_bytes (parsed (bytes_value bytes)) = Ok bytes.
Proof.
  unfold read_bytes, bytes_value. cbn [parsed array Json.as_array ok_or mbind result_bind].
  apply each_written. intros b _. apply read_byte_value.
Qed.
Lemma read_salt_value (s : bytesN 32) : read_salt (parsed (bytes_value (bn s))) = Ok s.
Proof.
  unfold read_salt. rewrite read_bytes_value. cbn [mbind result_bind]. by rewrite mk_bytesN_bn.
Qed.

Section Roundtrip.
Context `{HexLaws}.
Lemma read_address_value a : read_address (parsed (address_value a)) = Ok a.
Proof.
  unfold read_address, address_value. cbn [Wire.address_serialize Wire.serialize parsed text Json.as_str
    ok_or mbind result_bind].
  pose proof (Wire.deserialize_serialize true 20 a) as E.
  unfold Wire.serialize, Wire.reader in E. unfold Wire.address_deserialize. by rewrite E.
Qed.

(** Each member of a written entry, under its key. *)
Definition members (e : KeystoreEntry) : list (rstr * Json.Value) :=
  match entry_value e with Json.Object fields => fields | _ => [] end.
Lemma members_get e :
  Json.get (lit "address") (members e) = Some (address_value (address e)) /\
  Json.get (lit "encrypted_key") (members e) = Some (bytes_value (encrypted_key e)) /\
  Json.get (lit "salt") (members e) = Some (bytes_value (bn (salt e))) /\
  Json.get (lit "nonce") (members e) = bytes_value <$> nonce e /\
  Json.get (lit "created_at") (members e) = Some (Json.Number (show_u (created_at e))) /\
  Json.get (lit "label") (members e) = Some (Json.Str (label e)) /\
  Json.get (lit "kdf") (members e) = Some (Json.Str (kdf_name (kdf e))) /\
  Json.get (lit "cipher") (members e) = Some (Json.Str (cipher_name (cipher e))) /\
  Json.get (lit "origin") (members e) = Some (Json.Str (origin_name (origin e))) /\
  Json.get (lit "derivation_path") (members e) = Json.Str <$> derivation_path e /\
  Json.get (lit "check_hash") (members e) = None.
Proof.
  unfold members, entry_value. generalize (address_value (address e)), (bytes_value (encrypted_key e)),
    (bytes_value (bn (salt e))), (Json.Number (show_u (created_at e))), (kdf_name (kdf e)),
    (cipher_name (cipher e)), (origin_name (origin e)).
  intros. generalize (label e). intros.
  destruct (nonce e) as [b|], (derivation_path e) as [d|]; cbn [fmap option_fmap option_map unless_none];
    try (generalize (bytes_value b); intros); split_and!; reflexivity.
Qed.
Lemma members_known e : known_fields (members e) = Ok ().
Proof.
  unfold members, entry_value. generalize (address_value (address e)), (bytes_value (encrypted_key e)),
    (bytes_value (bn (salt e))), (Json.Number (show_u (created_at e))), (kdf_name (kdf e)),
    (cipher_name (cipher e)), (origin_name (origin e)).
  intros. generalize (label e). intros.
  destruct (nonce e) as [b|], (derivation_path e) as [d|]; cbn [fmap option_fmap option_map unless_none];
    try (generalize (bytes_value b); intros); reflexivity.
Qed.
Lemma entry_value_members e : entry_value e = Json.Object (members e).
Proof. done. Qed.

Lemma variant_name {A} (name : A -> rstr) all a :
  (forall x y, name x = name y -> x = y) -> a ∈ all -> variant name all (Json.Str (name a)) = Ok a.
Proof.
  intros Hinj Hin. unfold variant. cbn [text Json.as_str ok_or mbind result_bind].
  destruct (List.find _ all) as [x|] eqn:E.
  - apply List.find_some in E as [_ E%bool_decide_eq_true]. by apply Hinj in E as ->.
  - apply list_elem_of_In in Hin. eapply List.find_none in E; [|exact Hin].
    by apply bool_decide_eq_false in E.
Qed.
Lemma origin_name_inj x y : origin_name x = origin_name y -> x = y.
Proof. by destruct x, y. Qed.

Lemma optional_written {A} key (read : Json.Value -> result fault A) (write : A -> Json.Value) o fields :
  Json.get (lit key) fields = parsed <$> (write <$> o) ->
  (forall a, read (parsed (write a)) = Ok a) -> (forall a, parsed (write a) <> Json.Null) ->
  optional key read fields = Ok o.
Proof.
  intros E Hr Hn. unfold optional. rewrite E. destruct o as [a|]; [|done]. cbn.
  specialize (Hr a). specialize (Hn a). destruct (parsed (write a)); [done|by rewrite Hr..].
Qed.
Lemma field_written {A} key (read : Json.Value -> result fault A) v fields a :
  Json.get (lit key) fields = parsed <$> Some v -> read (parsed v) = Ok a -> field key read fields = Ok a.
Proof. intros E Hr. unfold field. by rewrite E. Qed.

(** What a keystore is written as passes the checks of its shape and reads back. *)
Lemma entry_reads e :
  0 <= created_at e <= U64_MAX -> read_entry (parsed (entry_value e)) = Ok e.
Proof.
  intros Ht. rewrite entry_value_members. unfold read_entry.
  cbn [parsed Json.as_object ok_or mbind result_bind]. rewrite known_parsed by apply members_known.
  cbn [mbind result_bind].
  destruct (members_get e) as (Ea & Ek & Es & En & Et & El & Ekd & Ec & Eo & Ed & _).
  set (fields := by_key _).
  assert (forall k, Json.get k fields = parsed <$> Json.get k (members e)) as G by (intros; apply get_parsed).
  rewrite (field_written "address" _ (address_value (address e)) _ (address e));
    [|by rewrite G, Ea|apply read_address_value]. cbn [mbind result_bind].
  rewrite (field_written "encrypted_key" _ (bytes_value (encrypted_key e)) _ (encrypted_key e));
    [|by rewrite G, Ek|apply read_bytes_value]. cbn [mbind result_bind].
  rewrite (field_written "salt" _ (bytes_value (bn (salt e))) _ (salt e));
    [|by rewrite G, Es|apply read_salt_value]. cbn [mbind result_bind].
  rewrite (optional_written "nonce" _ bytes_value (nonce e));
    [|by rewrite G, En|apply read_bytes_value|done]. cbn [mbind result_bind].
  rewrite (field_written "created_at" _ (Json.Number (show_u (created_at e))) _ (created_at e));
    [|by rewrite G, Et|cbn [parsed unsigned]; by rewrite parse_show_u]. cbn [mbind result_bind].
  rewrite (field_written "label" _ (Json.Str (label e)) _ (label e)); [|by rewrite G, El|done].
  cbn [mbind result_bind].
  rewrite (field_written "kdf" _ (Json.Str (kdf_name (kdf e))) _ (kdf e));
    [|by rewrite G, Ekd|by destruct (kdf e)]. cbn [mbind result_bind].
  rewrite (field_written "cipher" _ (Json.Str (cipher_name (cipher e))) _ (cipher e));
    [|by rewrite G, Ec|by destruct (cipher e)]. cbn [mbind result_bind].
  rewrite (field_written "origin" _ (Json.Str (origin_name (origin e))) _ (origin e));
    [|by rewrite G, Eo|].
  2: { cbn [parsed]. apply variant_name; [apply origin_name_inj|].
       destruct (origin e); repeat constructor. }
  cbn [mbind result_bind].
  rewrite (optional_written "derivation_path" _ Json.Str (derivation_path e)); [|by rewrite G, Ed|done..].
  by destruct e.
Qed.
Lemma entry_shape e : current_shape (parsed (entry_value e)).
Proof.
  rewrite entry_value_members. cbn [parsed]. eexists. split; [done|].
  destruct (members_get e) as (_ & _ & _ & _ & _ & _ & Ekd & Ec & Eo & _ & Eh).
  rewrite !get_parsed, Ekd, Ec, Eo, Eh. split; [done|].
  split; [by destruct (kdf e)|]. split; [by destruct (cipher e)|].
  exists (origin_name (origin e)). split; [done|].
  destruct (origin e); vm_compute; repeat constructor.
Qed.
Lemma entries_read es :
  Forall (fun e => 0 <= created_at e <= U64_MAX) es ->
  validate_keystore_json_shape (parsed (entries_value es)) = Ok () /\
  read_entries (parsed (entries_value es)) = Ok es.
Proof.
  intros Ht. unfold entries_value, validate_keystore_json_shape, read_entries. cbn [parsed]. split.
  - cbn [Json.as_array ok_or mbind result_bind]. apply check_entry_shapes_Ok.
    apply Forall_forall. intros v Hv. apply list_elem_of_In, List.in_map_iff in Hv as (w & <- & Hw).
    apply list_elem_of_In, list_elem_of_fmap in Hw as (e & -> & _). apply entry_shape.
  - cbn [array Json.as_array ok_or mbind result_bind]. apply each_written.
    rewrite Forall_forall in Ht. intros e He. by apply entry_reads, Ht.
Qed.
(** What is read has its times in range. *)
Lemma unsigned_range max v n : 0 <= max -> unsigned max v = Ok n -> 0 <= n <= max.
Proof.
  intros Hm. destruct v; cbn; try done. destruct (parse_unsigned max text0) as [m|] eqn:E; [|done].
  intros [= <-]. apply parse_unsigned_Ok in E as (ds & _ & _ & Hd & -> & Hn); [|done].
  by split; [apply dec_value_nonneg|].
Qed.
Lemma entry_in_range v e : read_entry v = Ok e -> 0 <= created_at e <= U64_MAX.
Proof.
  unfold read_entry. intros E. do 6 (apply bind_Ok in E as (? & _ & E)).
  apply bind_Ok in E as (t & Et & E). do 5 (apply bind_Ok in E as (? & _ & E)). injection E as <-.
  unfold field in Et. apply bind_Ok in Et as (? & _ & Et). by apply unsigned_range in Et.
Qed.
Lemma entries_in_range v es :
  read_entries v = Ok es -> Forall (fun e => 0 <= created_at e <= U64_MAX) es.
Proof.
  unfold read_entries. intros (vs & _ & E)%bind_Ok. revert es E.
  induction vs as [|x vs IH]; intros es; cbn [each]; [by intros [= <-]|].
  intros (e & He%entry_in_range & (l & El%IH & [= <-])%bind_Ok)%bind_Ok. by constructor.
Qed.
End Roundtrip.
End KeystoreFile.
