(* ===== verification/Mnemonic.v ===== *)
(** * Mnemonics, derivation paths and releases

    Models [wallet/mnemonic.rs] (BIP39 phrases, SLIP-0010 derivation of ed25519 keys along
    hardened paths) and [release.rs] (the networks' names and endpoints). The [bip39] crate
    and HMAC-SHA512 are parameters. *)
From S2P Require Import Prelude Crypto Instances.

Module Mnemonic.

(** ** Third-party code *)

(** The [bip39] crate in English, at its phrase type, and HMAC-SHA512 (key, message). *)
Class Bip39 := {
  phrase_type : Type;
  parse_in_normalized : rstr -> result rstr phrase_type;
  phrase_to_string : phrase_type -> rstr;
  to_seed : phrase_type -> rstr -> list byte;
  hmac_sha512 : list byte -> list byte -> bytesN 64;
}.

Definition DEFAULT_MNEMONIC_WORD_COUNT : Z := 24.
Definition DEFAULT_DERIVATION_PATH : rstr := lit "m".

Record DerivedMnemonicKey : Type := { keypair : Keypair; derivation_path : rstr }.
Record GeneratedMnemonicKey : Type := {
  g_mnemonic : rstr;
  g_keypair : Keypair;
  g_derivation_path : rstr;
  g_word_count : Z;
}.

Definition validate_word_count (word_count : Z) : result ZinchaError unit :=
  ensure (bool_decide (word_count ∈ [12; 15; 18; 21; 24])) (Config (Msg
    "unsupported mnemonic word count {}; use 12, 15, 18, 21, or 24" [AInt word_count])).

(** ** Derivation paths *)

Definition SLASH : Z := 47.
(** The markers of a hardened segment: an apostrophe, [h] and [H]. *)
Definition hardened_markers : list Z := [39; 104; 72].
Definition HARDENED : Z := 2147483648.

Definition parse_segment (path segment : rstr) : result ZinchaError Z :=
  _ ← ensure (negb (bool_decide (segment = []))) (Config (Msg
    "invalid derivation path {}; empty path segment" [AStr path]));
  let hardened := existsb (fun c => ends_with [c] segment) hardened_markers in
  _ ← ensure hardened (Config (Msg
    "invalid derivation path {}; ed25519 paths must use hardened segments" [AStr path]));
  let value := take (length segment - 1) segment in
  index ← map_err (fun error => Config (Msg
      "invalid derivation path {}; segment {} is not a valid index: {}"
      [AStr path; AStr segment; AStr (parse_int_text error)]))
    (parse_unsigned U32_MAX value);
  _ ← ensure (negb (HARDENED <=? index)) (Config (Msg
    "invalid derivation path {}; segment {} exceeds the maximum unhardened index"
    [AStr path; AStr segment]));
  Ok index.
Fixpoint parse_segments (path : rstr) (segments : list rstr) : result ZinchaError (list Z) :=
  match segments with
  | [] => Ok []
  | s :: segments' =>
      index ← parse_segment path s; rest ← parse_segments path segments'; Ok (index :: rest)
  end.
Definition parse_derivation_path (path : rstr) : result ZinchaError (list Z) :=
  match split_on SLASH path with
  | first :: segments =>
      if decide (first = lit "m") then parse_segments path segments
      else Err (Config (Msg "invalid derivation path {}; paths must start with m" [AStr path]))
  | [] => Err (Config (Msg "invalid derivation path {}; paths must start with m" [AStr path]))
  end.

Definition path_segments_to_string (indices : list Z) : rstr :=
  if bool_decide (indices = []) then DEFAULT_DERIVATION_PATH
  else foldl (fun normalized index => normalized ++ [SLASH] ++ show_u index ++ [39])
         (lit "m") indices.

Definition normalize_derivation_path (path : option rstr) : result ZinchaError rstr :=
  let path :=
    default DEFAULT_DERIVATION_PATH
      (p ← trim <$> path; if bool_decide (p = []) then None else Some p) in
  _ ← parse_derivation_path path;
  if decide (path = DEFAULT_DERIVATION_PATH) then Ok DEFAULT_DERIVATION_PATH
  else indices ← parse_derivation_path path; Ok (path_segments_to_string indices).

(** ** Keys *)
Section Derivation.
Context `{Bip39}.

Definition slip10_split (digest : bytesN 64) : bytesN 32 * bytesN 32 :=
  (pad_bytesN 32 (take 32 (bn digest)), pad_bytesN 32 (drop 32 (bn digest))).
(** A key of any length initialises the MAC. *)
Definition slip10_master (seed : list byte) : bytesN 32 * bytesN 32 :=
  slip10_split (hmac_sha512 (blit "ed25519 seed") seed).
Definition child_data (parent_secret : bytesN 32) (index : Z) : list byte :=
  [x00] ++ bn parent_secret ++ be_bytes 4 (Z.lor index HARDENED).
Definition slip10_child (parent_secret parent_chain_code : bytesN 32) (index : Z)
    : bytesN 32 * bytesN 32 :=
  slip10_split (hmac_sha512 (bn parent_chain_code) (child_data parent_secret index)).
Definition slip10_path (seed : list byte) (indices : list Z) : bytesN 32 * bytesN 32 :=
  foldl (fun k index => slip10_child k.1 k.2 index) (slip10_master seed) indices.
Definition derive_slip10_ed25519_secret (seed : list byte) (path : rstr)
    : result ZinchaError (bytesN 32) :=
  indices ← parse_derivation_path path; Ok (slip10_path seed indices).1.

Definition derive_keypair_from_mnemonic_phrase (phrase passphrase : rstr) (path : option rstr)
    : result ZinchaError DerivedMnemonicKey :=
  mnemonic ← map_err (fun e => KeyDerivation (Msg "parse BIP39 mnemonic: {}" [AStr e]))
    (parse_in_normalized (trim phrase));
  normalized_path ← normalize_derivation_path path;
  let seed := to_seed mnemonic passphrase in
  secret ← derive_slip10_ed25519_secret seed normalized_path;
  Ok {| keypair := keypair_from_secret_bytes secret; derivation_path := normalized_path |}.
(** [generated] is the outcome of the crate's [generate_in] at the word count. *)
Definition generate_mnemonic_key (generated : result rstr phrase_type) (word_count : Z)
    (passphrase : rstr) (path : option rstr) : result ZinchaError GeneratedMnemonicKey :=
  _ ← validate_word_count word_count;
  mnemonic ← map_err (fun e => KeyDerivation (Msg "generate BIP39 mnemonic: {}" [AStr e])) generated;
  let phrase := phrase_to_string mnemonic in
  derived ← derive_keypair_from_mnemonic_phrase phrase passphrase path;
  Ok {| g_mnemonic := phrase; g_keypair := keypair derived;
        g_derivation_path := derivation_path derived; g_word_count := word_count |}.
End Derivation.

(** ** Properties *)

(** A hardened segment and its index: digits, perhaps after a plus sign, then a marker. *)
Definition segment_index (segment : rstr) (index : Z) : Prop :=
  exists digits marker, (segment = digits ++ [marker] \/ segment = 43 :: digits ++ [marker]) /\
    digits <> [] /\ Forall (fun c => is_ascii_digit c = true) digits /\
    marker ∈ hardened_markers /\ index = dec_value digits /\ index < HARDENED.

Lemma last_marker segment :
  existsb (fun c => ends_with [c] segment) hardened_markers = true <->
  exists body marker, segment = body ++ [marker] /\ marker ∈ hardened_markers.
Proof.
  rewrite existsb_exists. split.
  - intros (c & Hc & (r & ->)%ends_with_iff). exists r, c. by rewrite list_elem_of_In.
  - intros (r & c & -> & Hc). exists c. rewrite <- list_elem_of_In. split; [done|].
    apply ends_with_iff. by exists r.
Qed.

Lemma parse_segment_Ok path segment index :
  parse_segment path segment = Ok index <-> segment_index segment index.
Proof.
  unfold parse_segment. case_bool_decide as Hs; cbn [negb ensure mbind result_bind].
  { subst. split; [done|]. by intros (d & c & [E|E] & _); destruct d. }
  destruct (existsb _ _) eqn:Hm; cbn [ensure mbind result_bind].
  2: { split; [done|]. intros (d & c & E & _ & _ & Hc & _). exfalso.
       apply not_true_iff_false in Hm. apply Hm, last_marker.
       by destruct E as [->| ->]; [exists d, c|exists (43 :: d), c]. }
  apply last_marker in Hm as (body & marker & -> & Hc).
  rewrite length_app, Nat.add_sub, take_app_length.
  unfold segment_index. split.
  - destruct (parse_unsigned U32_MAX body) as [n|] eqn:Ep; [|done].
    cbn [map_err mbind result_bind]. destruct (Z.leb_spec HARDENED n) as [Hl|Hl]; [done|].
    cbn. intros [= <-]. apply parse_unsigned_Ok in Ep as (d & Hd & Hn & Hf & -> & _); [|done].
    exists d, marker. split_and!; [|done..]. destruct Hd as [->| ->]; auto.
  - intros (d & c & E & Hn & Hf & Hc' & -> & Hlt).
    rewrite (proj2 (parse_unsigned_Ok U32_MAX body (dec_value d) ltac:(done))).
    + cbn [map_err mbind result_bind]. by rewrite (proj2 (Z.leb_gt _ _) Hlt).
    + exists d. split_and!; [|done..|unfold HARDENED, U32_MAX in *; lia].
      destruct E as [E|E]; [|rewrite app_comm_cons in E]; apply app_inj_tail in E as [-> _]; auto.
Qed.

(** The paths accepted and what they denote. *)
Definition path_indices (path : rstr) (indices : list Z) : Prop :=
  exists segments, split_on SLASH path = lit "m" :: segments /\
    Forall2 segment_index segments indices.
Lemma parse_segments_Ok path segments indices :
  parse_segments path segments = Ok indices <-> Forall2 segment_index segments indices.
Proof.
  revert indices. induction segments as [|s segments IH]; intros indices; cbn.
  { split; [intros [= <-]; constructor|by intros ->%Forall2_nil_inv_l]. }
  destruct (parse_segment path s) as [i|] eqn:Ei; cbn.
  - destruct (parse_segments path segments) as [js0|] eqn:Es; cbn.
    + split; [intros [= <-]; constructor; [by apply (parse_segment_Ok path)|by apply IH]|].
      intros (j & js & Hj & Hjs & ->)%Forall2_cons_inv_l. apply (parse_segment_Ok path) in Hj.
      apply IH in Hjs. congruence.
    + split; [done|]. intros (j & js & Hj & Hjs & ->)%Forall2_cons_inv_l.
      apply IH in Hjs. congruence.
  - split; [done|]. intros (j & js & Hj & Hjs & ->)%Forall2_cons_inv_l.
    apply (parse_segment_Ok path) in Hj. congruence.
Qed.
Lemma parse_path_Ok path indices :
  parse_derivation_path path = Ok indices <-> path_indices path indices.
Proof.
  unfold parse_derivation_path, path_indices.
  destruct (split_on SLASH path) as [|first segments]; [split; [done|by intros (? & ? & _)]|].
  case_decide as Hm.
  - rewrite parse_segments_Ok. subst. split; [eauto|]. by intros (? & [= ->] & ?).
  - split; [done|]. by intros (? & [= -> _] & _).
Qed.

Definition index_ok (i : Z) : Prop := 0 <= i < HARDENED.
Lemma segment_index_ok s i : segment_index s i -> index_ok i.
Proof.
  intros (d & c & _ & _ & Hf & _ & -> & Hlt). split; [by apply dec_value_nonneg|done].
Qed.

(** *** Canonical text *)
Definition segment_text (i : Z) : rstr := show_u i ++ [39].
Lemma path_string_segments indices :
  path_segments_to_string indices
  = lit "m" ++ flat_map (fun i => SLASH :: segment_text i) indices.
Proof.
  unfold path_segments_to_string. case_bool_decide as Hn; [by subst|]. clear Hn.
  generalize (lit "m"). induction indices as [|i l IH]; intros acc; cbn; [by rewrite app_nil_r|].
  rewrite IH. unfold segment_text. rewrite <- !app_assoc. cbn. by rewrite <- !app_assoc.
Qed.
Lemma segment_text_no_slash i : SLASH ∉ segment_text i.
Proof.
  unfold segment_text. rewrite elem_of_app, list_elem_of_singleton. intros [Hin|]; [|done].
  pose proof (show_u_digits i) as Hf. rewrite Forall_forall in Hf. by apply Hf in Hin.
Qed.
Lemma split_path_string p indices :
  SLASH ∉ p ->
  split_on SLASH (p ++ flat_map (fun i => SLASH :: segment_text i) indices)
  = p :: (segment_text <$> indices).
Proof.
  revert p. induction indices as [|i l IH]; intros p Hp.
  { cbn. rewrite app_nil_r. by apply split_on_none. }
  cbn [flat_map]. rewrite <- app_comm_cons, split_on_app, (split_on_none _ _ Hp).
  rewrite (IH (segment_text i)) by apply segment_text_no_slash. done.
Qed.
Lemma segment_text_index i : index_ok i -> segment_index (segment_text i) i.
Proof.
  intros [H1 H2]. exists (show_u i), 39. split_and!.
  - by left.
  - by apply show_u_nonempty.
  - apply show_u_digits.
  - apply list_elem_of_here.
  - by rewrite show_u_value.
  - done.
Qed.
Lemma parse_path_string indices :
  Forall index_ok indices -> parse_derivation_path (path_segments_to_string indices) = Ok indices.
Proof.
  intros Hf. apply parse_path_Ok. exists (segment_text <$> indices).
  rewrite path_string_segments, split_path_string by (by apply (bool_decide_unpack (SLASH ∉ lit "m"))). split; [done|].
  apply Forall2_fmap_l. induction Hf as [|i l Hi _ IH]; constructor;
    [by apply segment_text_index|done].
Qed.
Lemma parse_path_range path indices :
  parse_derivation_path path = Ok indices -> Forall index_ok indices.
Proof.
  intros (segments & _ & Hf)%parse_path_Ok.
  induction Hf as [|s i ss l Hs _ IH]; constructor; [by eapply segment_index_ok|done].
Qed.

(** The path a caller's argument stands for. *)
Definition effective_path (path : option rstr) : rstr :=
  default DEFAULT_DERIVATION_PATH
    (p ← trim <$> path; if bool_decide (p = []) then None else Some p).
Lemma normalize_Ok path q :
  normalize_derivation_path path = Ok q <->
  exists indices, parse_derivation_path (effective_path path) = Ok indices /\
    q = path_segments_to_string indices.
Proof.
  unfold normalize_derivation_path. fold (effective_path path).
  destruct (parse_derivation_path (effective_path path)) as [l|] eqn:Ep;
    cbn [mbind result_bind]; [|split; [done|by intros (? & ? & _)]].
  case_decide as Hd.
  - rewrite Hd in Ep. assert (l = []) as -> by (by injection Ep). split.
    + intros [= <-]. by exists [].
    + by intros (? & [= <-] & ->).
  - split; [intros [= <-]; by exists l|]. by intros (? & [= <-] & ->).
Qed.
Lemma effective_path_string indices :
  effective_path (Some (path_segments_to_string indices)) = path_segments_to_string indices.
Proof.
  unfold effective_path. cbn [fmap option_fmap option_map mbind option_bind].
  rewrite trim_id.
  - rewrite path_string_segments. done.
  - rewrite path_string_segments. apply Forall_app. split; [by repeat constructor|].
    induction indices as [|i l IH]; [constructor|].
    cbn [flat_map]. apply Forall_app. split; [|done].
    constructor; [done|]. unfold segment_text. apply Forall_app. split; [|by repeat constructor].
    eapply Forall_impl; [apply show_u_digits|]. intros c Hc. unfold is_ascii_digit in Hc. to_prop.
    unfold is_whitespace. repeat match goal with
    | |- context [?x <=? ?y] => destruct (Z.leb_spec x y); try lia
    | |- context [?x =? ?y] => destruct (Z.eqb_spec x y); try lia end; done.
Qed.

(** Derivation paths have one canonical text. A path argument is accepted exactly when it
    (trimmed; the root when absent or blank) is [m] followed by hardened segments, each
    an index below 2^31 in decimal; the text given back is the canonical one of those
    indices, denotes the same indices and is a fixed point of normalisation; and every list of
    indices below 2^31 is denoted by its canonical text. *)
Theorem derivation_path_canonical :
  (forall path q, normalize_derivation_path path = Ok q <->
     exists indices, path_indices (effective_path path) indices /\
       q = path_segments_to_string indices) /\
  (forall path q, normalize_derivation_path path = Ok q ->
     normalize_derivation_path (Some q) = Ok q /\
     exists indices, parse_derivation_path q = Ok indices /\
       parse_derivation_path (effective_path path) = Ok indices /\ Forall index_ok indices) /\
  (forall indices, Forall index_ok indices ->
     parse_derivation_path (path_segments_to_string indices) = Ok indices).
Proof.
  split; [|split; [|exact parse_path_string]].
  - intros path q. rewrite normalize_Ok. by setoid_rewrite parse_path_Ok.
  - intros path q (l & Hl & ->)%normalize_Ok. pose proof (parse_path_range _ _ Hl) as Hr.
    split; [|by exists l; auto using parse_path_string].
    apply normalize_Ok. exists l. rewrite effective_path_string. auto using parse_path_string.
Qed.

(** *** Derived keys *)
Section Proofs.
Context `{Bip39}.

Lemma derive_Ok phrase passphrase path r :
  derive_keypair_from_mnemonic_phrase phrase passphrase path = Ok r <->
  exists mn indices, parse_in_normalized (trim phrase) = Ok mn /\
    parse_derivation_path (effective_path path) = Ok indices /\
    r = {| keypair := keypair_from_secret_bytes
                        (slip10_path (to_seed mn passphrase) indices).1;
           derivation_path := path_segments_to_string indices |}.
Proof.
  unfold derive_keypair_from_mnemonic_phrase, derive_slip10_ed25519_secret.
  destruct (parse_in_normalized _) as [mn|]; cbn [map_err mbind result_bind];
    [|split; [done|by intros (? & ? & ? & _)]].
  destruct (normalize_derivation_path path) as [q|] eqn:En; cbn [mbind result_bind].
  - apply normalize_Ok in En as (l & El & ->).
    rewrite (parse_path_string l) by (by eapply parse_path_range). cbn [mbind result_bind].
    split; [intros [= <-]; by exists mn, l|]. intros (mn' & l' & [= <-] & El' & ->). congruence.
  - split; [done|]. intros (mn' & l & _ & El & _).
    assert (normalize_derivation_path path = Ok (path_segments_to_string l)) as En'
      by (apply normalize_Ok; by exists l). congruence.
Qed.

(** A derived key depends only on the phrase, the passphrase and the indices. Two spellings
    of one path derive the same key, and deriving again from the phrase and the path text that
    was returned gives the same key and the same path text; a generated key is recovered from
    the phrase handed out whenever the crate's phrases parse back. *)
Theorem derivation_reproducible phrase passphrase path r :
  derive_keypair_from_mnemonic_phrase phrase passphrase path = Ok r ->
  derive_keypair_from_mnemonic_phrase phrase passphrase (Some (derivation_path r)) = Ok r /\
  (forall path' indices, parse_derivation_path (effective_path path) = Ok indices ->
     parse_derivation_path (effective_path path') = Ok indices ->
     derive_keypair_from_mnemonic_phrase phrase passphrase path' = Ok r) /\
  (forall generated n g,
     generate_mnemonic_key generated n passphrase path = Ok g ->
     n ∈ [12; 15; 18; 21; 24] /\ g_word_count g = n /\
     derive_keypair_from_mnemonic_phrase (g_mnemonic g) passphrase (Some (g_derivation_path g))
     = Ok {| keypair := g_keypair g; derivation_path := g_derivation_path g |}).
Proof.
  assert (forall ph r, derive_keypair_from_mnemonic_phrase ph passphrase path = Ok r ->
    derive_keypair_from_mnemonic_phrase ph passphrase (Some (derivation_path r)) = Ok r) as Hagain.
  { intros ph r' (mn & l & Em & El & ->)%derive_Ok. apply derive_Ok. exists mn, l.
    cbn [derivation_path]. rewrite effective_path_string.
    split_and!; [done| |done]. apply parse_path_string. by eapply parse_path_range. }
  intros E. split; [by apply Hagain|]. split.
  - intros path' l Hl Hl'. apply derive_Ok in E as (mn & l0 & Em & El & ->). apply derive_Ok.
    exists mn, l. split_and!; [done..|]. congruence.
  - intros generated n g. unfold generate_mnemonic_key, validate_word_count.
    case_bool_decide as Hn; [|done]. cbn [ensure mbind result_bind].
    destruct generated as [mn|]; [|done]. cbn [map_err mbind result_bind].
    destruct (derive_keypair_from_mnemonic_phrase (phrase_to_string mn) passphrase path)
      as [r'|] eqn:Er; [|done].
    cbn [mbind result_bind]. intros [= <-]. split; [done|]. split; [done|]. cbn.
    rewrite (Hagain _ _ Er). by destruct r'.
Qed.

(** The HMAC queries of a derivation. *)
Fixpoint child_queries (k : bytesN 32 * bytesN 32) (indices : list Z)
    : list (list byte * list byte) :=
  match indices with
  | [] => []
  | i :: l => (bn k.2, child_data k.1 i) :: child_queries (slip10_child k.1 k.2 i) l
  end.
Definition slip10_queries (seed : list byte) (indices : list Z) : list (list byte * list byte) :=
  (blit "ed25519 seed", seed) :: child_queries (slip10_master seed) indices.
(** HMAC separates the queries. *)
Definition hmac_separates (qs : list (list byte * list byte)) : Prop :=
  forall q r, q ∈ qs -> r ∈ qs -> hmac_sha512 q.1 q.2 = hmac_sha512 r.1 r.2 -> q = r.

Lemma slip10_split_inj a b : slip10_split a = slip10_split b -> a = b.
Proof.
  unfold slip10_split. intros [= E1 E2]. apply bytesN_eq.
  pose proof (bn_length a). pose proof (bn_length b).
  rewrite !pad_list_id in E1 by (rewrite length_take; lia).
  rewrite !pad_list_id in E2 by (rewrite length_drop; lia).
  by rewrite <- (take_drop 32 (bn a)), E1, E2, take_drop.
Qed.
Lemma child_data_inj p q i j :
  index_ok i -> index_ok j -> child_data p i = child_data q j -> p = q /\ i = j.
Proof.
  unfold child_data. intros Hi Hj [= E].
  apply app_inj_1 in E as [Ep Ei]; [|by rewrite !bn_length]. split; [by apply bytesN_eq|].
  assert (forall k, index_ok k -> Z.lor k HARDENED = k + HARDENED) as Hor.
  { intros k Hk. rewrite <- Z.lxor_lor, <- Z.add_nocarry_lxor; [done|..];
    apply Z.bits_inj'; intros b Hb; rewrite Z.land_spec, Z.bits_0;
    change HARDENED with (2 ^ 31); rewrite Z.pow2_bits_eqb by done;
    (destruct (Z.eqb_spec 31 b) as [<-|]; [|by rewrite andb_false_r]);
    rewrite (Z.bits_above_log2 k); [done|apply Hk| |done|apply Hk|];
    unfold index_ok, HARDENED in Hk;
    (destruct (Z.eq_dec k 0) as [->|]; [done|apply Z.log2_lt_pow2; lia]). }
  rewrite !Hor in Ei by done. apply be_bytes4_inj in Ei; unfold index_ok, HARDENED in *; mlia.
Qed.

Lemma slip10_path_snoc seed l i :
  slip10_path seed (l ++ [i])
  = slip10_child (slip10_path seed l).1 (slip10_path seed l).2 i.
Proof. unfold slip10_path. by rewrite foldl_app. Qed.
Lemma child_queries_snoc k l i :
  child_queries k (l ++ [i])
  = child_queries k l
    ++ [let k' := foldl (fun k index => slip10_child k.1 k.2 index) k l in
        (bn k'.2, child_data k'.1 i)].
Proof. revert k. induction l as [|j l IH]; intros k; [done|]. cbn. by rewrite IH. Qed.
Lemma slip10_queries_snoc seed l i :
  slip10_queries seed (l ++ [i])
  = slip10_queries seed l
    ++ [(bn (slip10_path seed l).2, child_data (slip10_path seed l).1 i)].
Proof. unfold slip10_queries. by rewrite child_queries_snoc. Qed.
Lemma hmac_separates_sub qs rs : (forall q, q ∈ qs -> q ∈ rs) -> hmac_separates rs -> hmac_separates qs.
Proof. intros Hs Hr q r Hq Hr'. apply Hr; auto. Qed.
Lemma master_not_child (c : bytesN 32) (m n : list byte) : (blit "ed25519 seed", m) <> (bn c, n).
Proof. intros [= E _]. apply (f_equal length) in E. rewrite bn_length in E. by vm_compute in E. Qed.
Lemma slip10_query_child seed l i :
  (bn (slip10_path seed l).2, child_data (slip10_path seed l).1 i) ∈ slip10_queries seed (l ++ [i]).
Proof. rewrite slip10_queries_snoc. set_solver. Qed.

(** Distinct derivation paths give distinct keys. If HMAC-SHA512 separates the queries the
    two derivations make from one seed, two lists of indices below 2^31, of any
    lengths, that end in the same secret and chain code are the same list. *)
Theorem derivation_binds_path seed l1 l2 :
  Forall index_ok l1 -> Forall index_ok l2 ->
  hmac_separates (slip10_queries seed l1 ++ slip10_queries seed l2) ->
  slip10_path seed l1 = slip10_path seed l2 -> l1 = l2.
Proof.
  revert l2. induction l1 as [|i l1 IH] using rev_ind; intros l2 H1 H2 Hs E;
    (destruct l2 as [|j l2 _] using rev_ind; [try done|]).
  - rewrite slip10_path_snoc in E. apply slip10_split_inj in E. exfalso.
    apply (Hs (_, _) (_, _)) in E; [by apply master_not_child in E|set_solver|].
    apply elem_of_app. right. apply slip10_query_child.
  - rewrite slip10_path_snoc in E. apply slip10_split_inj in E. exfalso.
    symmetry in E. apply (Hs (_, _) (_, _)) in E; [by apply master_not_child in E|set_solver|].
    apply elem_of_app. left. apply slip10_query_child.
  - rewrite !slip10_path_snoc in E. apply slip10_split_inj in E.
    apply Forall_app in H1 as [H1 [Hi _]%Forall_cons_1], H2 as [H2 [Hj _]%Forall_cons_1].
    apply (Hs (_, _) (_, _)) in E;
      [|apply elem_of_app; left; apply slip10_query_child
       |apply elem_of_app; right; apply slip10_query_child].
    pose proof (bytesN_eq _ _ (f_equal fst E)) as Ec. apply (f_equal snd) in E. cbn [snd] in E.
    destruct (child_data_inj _ _ _ _ Hi Hj E) as [Ek ->]. f_equal. apply IH; [done..| |].
    + eapply hmac_separates_sub; [|exact Hs]. intros q. rewrite !slip10_queries_snoc. set_solver.
    + by apply injective_projections.
Qed.
End Proofs.
End Mnemonic.

(** ** Releases *)
Module Release.
Inductive ReleaseName : Type := Polaris | Vega | Sirius | Altair | Lyra.
#[global] Instance ReleaseName_eq_dec : EqDecision ReleaseName.
Proof. solve_decision. Defined.
Inductive ReleaseStage : Type :=
| Devnet | PublicTestnet | IncentivizedTestnet | Mainnet | MainnetUpgrade.
Definition stage_as_str (s : ReleaseStage) : rstr :=
  match s with
  | Devnet => lit "devnet"
  | PublicTestnet => lit "public-testnet"
  | IncentivizedTestnet => lit "incentivized-testnet"
  | Mainnet => lit "mainnet"
  | MainnetUpgrade => lit "mainnet-upgrade"
  end.
Record ReleaseSpec : Type := {
  name : ReleaseName;
  spec_slug : rstr;
  spec_display_name : rstr;
  stage : ReleaseStage;
  chain_id : rstr;
  canonical_rpc_url : rstr;
  canonical_websocket_url : rstr;
  boot_nodes : list rstr;
  explorer_url : option rstr;
  faucet_url : option rstr;
}.
Definition NO_BOOT_NODES : list rstr := [].
Definition VEGA_BOOT_NODES : list rstr :=
  [lit "/dns4/boot-1.vega.zincha.com/tcp/30333"; lit "/dns4/boot-2.vega.zincha.com/tcp/30333"].
Definition SIRIUS_BOOT_NODES : list rstr :=
  [lit "/dns4/boot-1.sirius.zincha.com/tcp/30333"; lit "/dns4/boot-2.sirius.zincha.com/tcp/30333"].
Definition release_spec (n : ReleaseName) : ReleaseSpec :=
  match n with
  | Polaris =>
      {| name := n; spec_slug := lit "polaris"; spec_display_name := lit "Polaris";
         stage := Devnet; chain_id := lit "zincha-polaris-1";
         canonical_rpc_url := lit "https://polaris.zincha.com";
         canonical_websocket_url := lit "wss://polaris.zincha.com"; boot_nodes := NO_BOOT_NODES;
         explorer_url := Some (lit "https://polaris.zinscan.com");
         faucet_url := Some (lit "https://faucet.polaris.zincha.com") |}
  | Vega =>
      {| name := n; spec_slug := lit "vega"; spec_display_name := lit "Vega";
         stage := PublicTestnet; chain_id := lit "zincha-vega-1";
         canonical_rpc_url := lit "https://vega.zincha.com";
         canonical_websocket_url := lit "wss://vega.zincha.com"; boot_nodes := VEGA_BOOT_NODES;
         explorer_url := Some (lit "https://vega.zinscan.com");
         faucet_url := Some (lit "https://faucet.vega.zincha.com") |}
  | Sirius =>
      {| name := n; spec_slug := lit "sirius"; spec_display_name := lit "Sirius";
         stage := IncentivizedTestnet; chain_id := lit "zincha-sirius-1";
         canonical_rpc_url := lit "https://sirius.zincha.com";
         canonical_websocket_url := lit "wss://sirius.zincha.com"; boot_nodes := SIRIUS_BOOT_NODES;
         explorer_url := Some (lit "https://sirius.zinscan.com");
         faucet_url := Some (lit "https://faucet.sirius.zincha.com") |}
  | Altair =>
      {| name := n; spec_slug := lit "altair"; spec_display_name := lit "Altair";
         stage := Mainnet; chain_id := lit "zincha-altair-1";
         canonical_rpc_url := lit "https://altair.zincha.com";
         canonical_websocket_url := lit "wss://altair.zincha.com"; boot_nodes := NO_BOOT_NODES;
         explorer_url := Some (lit "https://altair.zinscan.com"); faucet_url := None |}
  | Lyra =>
      {| name := n; spec_slug := lit "lyra"; spec_display_name := lit "Lyra";
         stage := MainnetUpgrade; chain_id := lit "zincha-altair-1";
         canonical_rpc_url := lit "https://lyra.zincha.com";
         canonical_websocket_url := lit "wss://lyra.zincha.com"; boot_nodes := NO_BOOT_NODES;
         explorer_url := Some (lit "https://lyra.zinscan.com"); faucet_url := None |}
  end.
Definition slug (n : ReleaseName) : rstr := spec_slug (release_spec n).
Definition display_name (n : ReleaseName) : rstr := spec_display_name (release_spec n).

Definition aliases : list (ReleaseName * list rstr) :=
  [(Polaris, [lit "polaris"; lit "devnet"]);
   (Vega, [lit "vega"; lit "public-testnet"; lit "testnet"]);
   (Sirius, [lit "sirius"; lit "incentivized-testnet"; lit "incentivized"]);
   (Altair, [lit "altair"; lit "mainnet"]);
   (Lyra, [lit "lyra"; lit "mainnet-upgrade"])].
(** [replace('_', "-")] after trimming and lowercasing; the arms of the match in order. *)
Definition parse_alias (raw : rstr) : option ReleaseName :=
  let normalized :=
    (fun c => if c =? 95 then 45 else c) <$> to_ascii_lowercase (trim raw) in
  fst <$> List.find (fun p => bool_decide (normalized ∈ p.2)) aliases.
(** [FromStr]; the error carries the argument. *)
Definition from_str (raw : rstr) : result rstr ReleaseName := ok_or (parse_alias raw) raw.

Definition release_from_chain_id (c : rstr) : option ReleaseName :=
  if decide (c = lit "zincha-polaris-1") then Some Polaris
  else if decide (c = lit "zincha-vega-1") then Some Vega
  else if decide (c = lit "zincha-sirius-1") then Some Sirius
  else if decide (c = lit "zincha-altair-1") then Some Altair else None.
Definition spec_for_chain_id (c : rstr) : option ReleaseSpec :=
  release_spec <$> release_from_chain_id c.
Definition canonical_rpc_url_for_alias (raw : rstr) : option rstr :=
  (fun n => canonical_rpc_url (release_spec n)) <$> parse_alias raw.
Definition canonical_websocket_url_for_alias (raw : rstr) : option rstr :=
  (fun n => canonical_websocket_url (release_spec n)) <$> parse_alias raw.

(** Releases and chain identifiers. Every release is found by its slug and by its stage's
    name; a chain identifier resolves exactly to the release other than Lyra that declares it,
    so Lyra, which declares Altair's, is never the answer; and two releases
    share a chain identifier only if they are Altair and Lyra. *)
Theorem chain_id_resolution :
  (forall n, parse_alias (slug n) = Some n /\
             parse_alias (stage_as_str (stage (release_spec n))) = Some n) /\
  (forall c n, release_from_chain_id c = Some n <-> n <> Lyra /\ chain_id (release_spec n) = c) /\
  (forall n m, chain_id (release_spec n) = chain_id (release_spec m) ->
     n = m \/ (n = Altair /\ m = Lyra) \/ (n = Lyra /\ m = Altair)).
Proof.
  split; [|split].
  - intros []; by vm_compute.
  - intros c n. unfold release_from_chain_id. split.
    + repeat case_decide; intros [= <-]; by subst.
    + intros [Hn <-]. destruct n; [by vm_compute..|done].
  - intros [] []; auto; intros E; by vm_compute in E.
Qed.
End Release.

(** ** Witnesses *)
Module MnemonicWitness.
Import Mnemonic.

(** Phrases that parse to themselves, and a keyed checksum. *)
#[local] Instance plain_bip39 : Bip39 := {
  phrase_type := rstr;
  parse_in_normalized := fun p => if bool_decide (p = []) then Err (lit "empty") else Ok p;
  phrase_to_string := fun p => p;
  to_seed := fun p pw => utf8 (p ++ pw);
  hmac_sha512 := fun k m =>
    pad_bytesN 64 (bn (checksum 71 (k ++ m)) ++ bn (checksum 113 (k ++ m)));
}.

Definition phrase0 : rstr := lit " abandon about ".
Definition derived0 : DerivedMnemonicKey :=
  match derive_keypair_from_mnemonic_phrase phrase0 [] (Some (lit "m/+44h/007H")) with
  | Ok r => r | Err _ => {| keypair := pad_bytesN 32 []; derivation_path := [] |}
  end.

(** The path is handed back in canonical form. *)
Lemma derivation_reproducible_witness :
  derivation_path derived0 = lit "m/44'/7'" /\
  derive_keypair_from_mnemonic_phrase phrase0 [] (Some (derivation_path derived0)) = Ok derived0.
Proof.
  split; [by vm_compute|].
  refine (proj1 (derivation_reproducible phrase0 [] (Some (lit "m/+44h/007H")) derived0 _)).
  by vm_compute.
Defined.

Definition separated (qs : list (list byte * list byte)) : bool :=
  forallb (fun q => forallb (fun r =>
    implb (bool_decide (hmac_sha512 q.1 q.2 = hmac_sha512 r.1 r.2)) (bool_decide (q = r))) qs) qs.
Lemma separated_ok qs : separated qs = true -> hmac_separates qs.
Proof.
  unfold separated, hmac_separates. rewrite forallb_forall. intros Hq q r Hin Hr E.
  specialize (Hq q). rewrite forallb_forall in Hq.
  specialize (Hq (proj1 (list_elem_of_In _ _) Hin) r (proj1 (list_elem_of_In _ _) Hr)).
  rewrite bool_decide_eq_true_2 in Hq by done. by apply bool_decide_eq_true in Hq.
Qed.

(** Two paths of different lengths; the derived keys differ. *)
Lemma derivation_binds_path_witness :
  hmac_separates (slip10_queries [x01] [44; 0] ++ slip10_queries [x01] [44]) /\
  slip10_path [x01] [44; 0] <> slip10_path [x01] [44].
Proof.
  assert (hmac_separates (slip10_queries [x01] [44; 0] ++ slip10_queries [x01] [44])) as Hs
    by (apply separated_ok; by vm_compute).
  split; [exact Hs|]. intros E.
  assert ([44; 0] = [44]) as El; [|discriminate El].
  apply (derivation_binds_path [x01] [44; 0] [44]).
  - repeat constructor; discriminate.
  - repeat constructor; discriminate.
  - exact Hs.
  - exact E.
Defined.
End MnemonicWitness.
