(* ===== verification/Embedding.v ===== *)
(** * The built-in embedding engine

    Models [embedding/engine.rs]: feature hashing of a text into a vector of 128 floats, the
    global cache in front of it, the quantised bytes that consensus hashes, and cosine
    similarity. Unicode lowercasing and [char::is_alphanumeric] are arguments. *)
From S2P Require Import Prelude Float.

Module Embedding.

Definition EMBEDDING_CACHE_MAX : Z := 10000.
Definition EMBEDDING_DIM : nat := 128.

(** ** Vectors *)
Abbreviation EmbeddingVector := (list f32).
Definition f32_zero : f32 := S754_zero false.
Definition zero : EmbeddingVector := replicate EMBEDDING_DIM f32_zero.
Definition dim (v : EmbeddingVector) : nat := length v.
Definition vector_is_zero (v : EmbeddingVector) : bool := forallb (fun x => SFeqb x f32_zero) v.

(** [(x.round()) as i32]: the nearest integer, halves away from zero, saturating; a NaN is 0. *)
Definition i32_saturate (z : Z) : Z := Z.max (-2147483648) (Z.min 2147483647 z).
Definition round_half_away (m : positive) (e : Z) : Z :=
  match e with
  | Z0 => Z.pos m
  | Z.pos _ => Z.shiftl (Z.pos m) e
  | Z.neg d => (Z.pos m + 2 ^ (Z.pos d - 1)) / 2 ^ Z.pos d
  end.
Definition round_i32 (x : f32) : Z :=
  match x with
  | S754_zero _ | S754_nan => 0
  | S754_infinity s => if s then -2147483648 else 2147483647
  | S754_finite s m e =>
      i32_saturate (if s then - round_half_away m e else round_half_away m e)
  end.
Definition SCALE : f32 := f32_of_Z 1000000.
Definition quantize (val : f32) : Z := round_i32 (f32_mul val SCALE).
(** The bytes of an [i32]: those of its residue. *)
Definition i32_le_bytes (z : Z) : list byte := le_bytes 4 (wrap32 z).
Definition to_consensus_bytes (v : EmbeddingVector) : list byte :=
  flat_map (fun val => i32_le_bytes (quantize val)) v.

(** ** Feature hashing *)
Definition FNV_OFFSET : Z := 14695981039346656037.
Definition FNV_SIGN_SEED : Z := 7809847782465536322.
Definition FNV_PRIME : Z := 1099511628211.
Definition fnv1a_seed (data : list byte) (seed : Z) : Z :=
  foldl (fun hash b => wrap64 (Z.lxor hash (byte_val b) * FNV_PRIME)) seed data.
Definition fnv1a (data : list byte) : Z := fnv1a_seed data FNV_OFFSET.

(** [None]: a remainder by zero panics. *)
Definition hash_feature (vec : EmbeddingVector) (feature : list byte) (weight : f32)
    : option EmbeddingVector :=
  let h1 := fnv1a feature in
  let h2 := fnv1a_seed feature FNV_SIGN_SEED in
  if bool_decide (vec = []) then None
  else
    let dim := Z.to_nat (h1 mod Z.of_nat (length vec)) in
    let sign := f32_of_Z (if Z.land h2 1 =? 0 then 1 else -1) in
    Some (alter (fun x => f32_add x (f32_mul sign weight)) dim vec).

(** [s.split(p)] for a test on characters. *)
Fixpoint split_by (p : Z -> bool) (s : rstr) : list rstr :=
  match s with
  | [] => [[]]
  | x :: s' =>
      if p x then [] :: split_by p s'
      else match split_by p s' with [] => [[x]] | w :: ws => (x :: w) :: ws end
  end.
(** [windows(2)] and [windows(3)]. *)
Fixpoint pairs {A} (l : list A) : list (A * A) :=
  match l with a :: (b :: _) as l' => (a, b) :: pairs l' | _ => [] end.
Fixpoint triples {A} (l : list A) : list (list A) :=
  match l with a :: (b :: c :: _) as l' => [a; b; c] :: triples l' | _ => [] end.

Definition W_UNIGRAM : f32 := f32_of_Z 1.
Definition W_BIGRAM : f32 := f32_div (f32_of_Z 3) (f32_of_Z 2).
Definition W_TRIGRAM : f32 := f32_div (f32_of_Z 1) (f32_of_Z 2).
Definition W_PART : f32 := f32_of_Z 2.
Definition W_NAMESPACE : f32 := f32_of_Z 3.

(** A sum of floats starts from the negative zero. *)
Definition f32_sum (l : list f32) : f32 := foldl f32_add (S754_zero true) l.
Definition f64_sum (l : list f64) : f64 := foldl f64_add (S754_zero true) l.

Section Engine.
Context (is_alphanumeric : Z -> bool) (to_lowercase : rstr -> rstr).

Definition is_separator (c : Z) : bool :=
  negb (is_alphanumeric c) && negb (c =? 46) && negb (c =? 45).
Definition words_of (text : rstr) : list rstr :=
  List.filter (fun w => negb (bool_decide (w = []))) (split_by is_separator (to_lowercase text)).

Definition bigram_features (words : list rstr) : list (list byte * f32) :=
  (fun p => (utf8 (p.1 ++ [95] ++ p.2), W_BIGRAM)) <$> pairs words.
Definition trigram_features (words : list rstr) : list (list byte * f32) :=
  flat_map (fun word =>
    if str_len word <? 3 then []
    else (fun tri => (utf8 tri, W_TRIGRAM)) <$> triples ([35] ++ word ++ [35])) words.
Definition namespace_features (words : list rstr) : list (list byte * f32) :=
  flat_map (fun word =>
    if contains_any [46] word then
      ((fun part => (utf8 part, W_PART)) <$> split_on 46 word) ++ [(utf8 word, W_NAMESPACE)]
    else []) words.
(** The features in the order the loops hash them. *)
Definition features (words : list rstr) : list (list byte * f32) :=
  ((fun w => (utf8 w, W_UNIGRAM)) <$> words) ++ bigram_features words
  ++ trigram_features words ++ namespace_features words.

Definition l2_normalize (vec : EmbeddingVector) : EmbeddingVector :=
  let magnitude := f32_sqrt (f32_sum ((fun x => f32_mul x x) <$> vec)) in
  if SFltb f32_zero magnitude then (fun x => f32_div x magnitude) <$> vec else vec.
Definition embed_text (text : rstr) : option EmbeddingVector :=
  let words := words_of text in
  if bool_decide (words = []) then Some zero
  else
    vec ← fold_option (fun v f => hash_feature v f.1 f.2) zero (features words);
    Some (l2_normalize vec).

(** ** The cache *)
Record EmbeddingCache : Type := { map : gmap rstr EmbeddingVector; max_size : Z }.
Definition new_cache (max : Z) : EmbeddingCache := {| map := ∅; max_size := max |}.
Definition cache_get (c : EmbeddingCache) (text : rstr) : option EmbeddingVector := map c !! text.
(** [order] is the order in which the hash map lists its keys. *)
Definition cache_insert (order : gmap rstr EmbeddingVector -> list rstr) (c : EmbeddingCache)
    (text : rstr) (value : EmbeddingVector) : EmbeddingCache :=
  let kept :=
    if max_size c <=? Z.of_nat (size (map c)) then
      foldl (fun m k => delete k m) (map c) (take (Z.to_nat (max_size c / 2)) (order (map c)))
    else map c in
  {| map := <[text := value]> kept; max_size := max_size c |}.
(** [get_lock] and [put_lock]: whether each acquisition of the mutex succeeds. *)
Definition embed_text_cached (get_lock put_lock : bool)
    (order : gmap rstr EmbeddingVector -> list rstr) (c : EmbeddingCache) (text : rstr)
    : option (EmbeddingCache * EmbeddingVector) :=
  match (if get_lock then cache_get c text else None) with
  | Some cached => Some (c, cached)
  | None =>
      result ← embed_text text;
      Some (if put_lock then cache_insert order c text result else c, result)
  end.
End Engine.

(** ** Similarity *)
Definition f64_square_sum (v : EmbeddingVector) : f64 :=
  f64_sum ((fun x => f64_mul (f64_of_f32 x) (f64_of_f32 x)) <$> v).
Definition cosine_similarity (a b : EmbeddingVector) : f64 :=
  if negb (length a =? length b)%nat then f64_of_Z 0
  else
    let dot := f64_sum (zip_with (fun x y => f64_mul (f64_of_f32 x) (f64_of_f32 y)) a b) in
    let mag_a := f64_sqrt (f64_square_sum a) in
    let mag_b := f64_sqrt (f64_square_sum b) in
    let tiny := f64_lit 1 10000000000 in
    if f64_ltb mag_a tiny || f64_ltb mag_b tiny then f64_of_Z 0
    else f64_clamp (f64_div dot (f64_mul mag_a mag_b)) (f64_of_Z (-1)) (f64_of_Z 1).

(** ** Properties *)

Section Proofs.
Context (is_alphanumeric : Z -> bool) (to_lowercase : rstr -> rstr).

Lemma hash_feature_dim v f w : v <> [] ->
  exists v', hash_feature v f w = Some v' /\ length v' = length v.
Proof.
  intros Hv. unfold hash_feature. rewrite bool_decide_eq_false_2 by done.
  eexists. split; [done|]. apply length_alter.
Qed.
Lemma hash_features_dim fs v : v <> [] ->
  exists v', fold_option (fun v f => hash_feature v f.1 f.2) v fs = Some v' /\
    length v' = length v.
Proof.
  revert v. induction fs as [|f fs IH]; intros v Hv; [by exists v|]. cbn.
  destruct (hash_feature_dim v f.1 f.2 Hv) as (v' & -> & El). cbn.
  destruct (IH v') as (v'' & -> & El'); [by destruct v, v'|]. exists v''. split; [done|congruence].
Qed.
Lemma embed_text_total text :
  exists v, embed_text is_alphanumeric to_lowercase text = Some v /\ length v = EMBEDDING_DIM.
Proof.
  unfold embed_text. case_bool_decide; [by exists zero|].
  destruct (hash_features_dim (features (words_of is_alphanumeric to_lowercase text)) zero)
    as (v & -> & El); [done|]. cbn. eexists. split; [done|]. unfold l2_normalize.
  destruct (SFltb _ _); [by rewrite length_fmap|done].
Qed.

(** *** The cache is transparent *)
Definition cache_correct (c : EmbeddingCache) : Prop :=
  forall text v, map c !! text = Some v -> embed_text is_alphanumeric to_lowercase text = Some v.

Lemma delete_all_lookup (ks : list rstr) (m : gmap rstr EmbeddingVector) text v :
  foldl (fun m k => delete k m) m ks !! text = Some v -> m !! text = Some v.
Proof.
  revert m. induction ks as [|k ks IH]; intros m; [done|]. cbn. intros E%IH.
  by apply lookup_delete_Some in E as [_ E].
Qed.
Lemma delete_all_size (ks : list rstr) (m : gmap rstr EmbeddingVector) :
  NoDup ks -> (forall k, k ∈ ks -> is_Some (m !! k)) ->
  (size (foldl (fun m k => delete k m) m ks) + length ks = size m)%nat.
Proof.
  revert m. induction ks as [|k ks IH]; intros m Hn Hd; cbn; [lia|].
  apply NoDup_cons in Hn as [Hk Hn].
  destruct (Hd k) as [x Hx]; [apply list_elem_of_here|].
  assert (size m = S (size (delete k m))) as ->.
  { by rewrite map_size_delete_Some, Nat.succ_pred_pos by
      (try done; apply Nat.neq_0_lt_0; intros E%map_size_empty_inv; by subst). }
  rewrite <- (IH (delete k m)); [lia|done|].
  intros k' Hk'. rewrite lookup_delete_ne by (intros ->; done).
  apply Hd. by apply list_elem_of_further.
Qed.

(** A listing of a map's keys. *)
Definition lists_keys (order : gmap rstr EmbeddingVector -> list rstr) : Prop :=
  forall m, order m ≡ₚ (map_to_list m).*1.
Lemma lists_keys_spec order m :
  lists_keys order ->
  NoDup (order m) /\ (forall k, k ∈ order m -> is_Some (m !! k)) /\ length (order m) = size m.
Proof.
  intros Ho. specialize (Ho m). split; [|split].
  - rewrite Ho. apply NoDup_fst_map_to_list.
  - intros k. rewrite Ho. intros ([k' v] & -> & Hin)%list_elem_of_fmap.
    apply elem_of_map_to_list in Hin. by exists v.
  - by rewrite Ho, length_fmap, length_map_to_list.
Qed.

Definition bounded (c : EmbeddingCache) : Prop :=
  2 <= max_size c /\ Z.of_nat (size (map c)) <= max_size c.
Lemma cache_insert_bounded order c text v :
  lists_keys order -> bounded c -> bounded (cache_insert order c text v).
Proof.
  intros Ho [H2 Hb]. destruct (lists_keys_spec order (map c) Ho) as (Hn & Hd & Hl).
  split; [done|]. cbn [map max_size cache_insert].
  assert (forall m : gmap rstr EmbeddingVector, (size (<[text := v]> m) <= S (size m))%nat) as Hi
    by (intros m; rewrite map_size_insert; destruct (m !! text); cbn; lia).
  destruct (Z.leb_spec (max_size c) (Z.of_nat (size (map c)))) as [Hle|Hlt].
  - assert (Z.of_nat (size (map c)) = max_size c) as Es by lia.
    set (ks := take (Z.to_nat (max_size c / 2)) (order (map c))).
    assert (size (foldl (fun m k => delete k m) (map c) ks) + length ks = size (map c))%nat as Hk.
    { apply delete_all_size; [|intros k Hk; apply Hd; eapply subseteq_take; exact Hk].
      eapply sublist_NoDup; [exact Hn|]. apply sublist_take. }
    unfold ks in Hk at 2. rewrite length_take in Hk.
    specialize (Hi (foldl (fun m k => delete k m) (map c) ks)).
    assert (1 <= max_size c / 2 <= max_size c) by (Z.to_euclidean_division_equations; lia). lia.
  - specialize (Hi (map c)). lia.
Qed.
Lemma cache_insert_correct order c text v :
  embed_text is_alphanumeric to_lowercase text = Some v -> cache_correct c ->
  cache_correct (cache_insert order c text v).
Proof.
  intros Ev Hc t w. cbn. intros [[<- <-]|[_ Hw]]%lookup_insert_Some; [done|].
  apply Hc. destruct (_ <=? _); [|done]. by apply delete_all_lookup in Hw.
Qed.

(** One call: the text, whether each lock is acquired, and the map's key order at that time. *)
Record call : Type := {
  c_text : rstr; c_get : bool; c_put : bool;
  c_order : gmap rstr EmbeddingVector -> list rstr;
}.
Definition embed_call (c : EmbeddingCache) (x : call) : option (EmbeddingCache * EmbeddingVector) :=
  embed_text_cached is_alphanumeric to_lowercase (c_get x) (c_put x) (c_order x) c (c_text x).
Definition embed_calls (c : EmbeddingCache) (xs : list call)
    : option (EmbeddingCache * list EmbeddingVector) :=
  fold_option (fun s x => r ← embed_call s.1 x; Some (r.1, s.2 ++ [r.2])) (c, []) xs.

Lemma embed_call_ok c x :
  lists_keys (c_order x) -> bounded c -> cache_correct c ->
  exists c' v, embed_call c x = Some (c', v) /\
    embed_text is_alphanumeric to_lowercase (c_text x) = Some v /\ bounded c' /\ cache_correct c'.
Proof.
  intros Ho Hb Hc. unfold embed_call, embed_text_cached.
  destruct (embed_text_total (c_text x)) as (v & Ev & _).
  assert (exists c' v, (result ← embed_text is_alphanumeric to_lowercase (c_text x);
      Some (if c_put x then cache_insert (c_order x) c (c_text x) result else c, result))
      = Some (c', v) /\ embed_text is_alphanumeric to_lowercase (c_text x) = Some v /\
      bounded c' /\ cache_correct c') as Hmiss.
  { rewrite Ev. cbn. do 2 eexists. split; [done|]. split; [done|].
    destruct (c_put x); [|done].
    split; [by apply cache_insert_bounded|by apply cache_insert_correct]. }
  destruct (c_get x); [|done]. unfold cache_get. destruct (map c !! c_text x) as [w|] eqn:Ew; [|done].
  exists c, w. auto using Hc.
Qed.

(** The embedding cache is invisible. Starting from the empty cache, any sequence of calls
    succeeds (no remainder by zero) and answers each with the 128 components that the
    uncached engine computes for that text, whichever locks are acquired and whatever keys the
    evictions pick; and the cache never holds more than its 10,000 entries. *)
Theorem cache_transparent xs :
  Forall (fun x => lists_keys (c_order x)) xs ->
  exists c vs, embed_calls (new_cache EMBEDDING_CACHE_MAX) xs = Some (c, vs) /\
    Some <$> vs = (fun x => embed_text is_alphanumeric to_lowercase (c_text x)) <$> xs /\
    Forall (fun v => dim v = EMBEDDING_DIM) vs /\
    Z.of_nat (size (map c)) <= EMBEDDING_CACHE_MAX.
Proof.
  intros Hx. unfold embed_calls.
  assert (forall c vs0, bounded c -> cache_correct c ->
    exists c' vs, fold_option (fun s x => r ← embed_call s.1 x; Some (r.1, s.2 ++ [r.2])) (c, vs0) xs
      = Some (c', vs0 ++ vs) /\
    Some <$> vs = (fun x => embed_text is_alphanumeric to_lowercase (c_text x)) <$> xs /\
    Forall (fun v => dim v = EMBEDDING_DIM) vs /\ bounded c' /\ max_size c' = max_size c) as Hrun.
  { induction Hx as [|x xs Ho Hx IH]; intros c vs0 Hb Hc.
    - exists c, []. by rewrite app_nil_r.
    - destruct (embed_call_ok c x Ho Hb Hc) as (c1 & v & E & Ev & Hb1 & Hc1).
      destruct (IH c1 (vs0 ++ [v]) Hb1 Hc1) as (c2 & vs & E2 & Evs & Hd & Hb2 & Hm).
      exists c2, (v :: vs). cbn. rewrite E. cbn. rewrite E2, <- app_assoc. split_and!; [done| | |done|].
      + by rewrite Ev, Evs.
      + constructor; [|done]. destruct (embed_text_total (c_text x)) as (v' & Ev' & El).
        rewrite Ev in Ev'. by injection Ev' as ->.
      + rewrite Hm. revert E. unfold embed_call, embed_text_cached.
        destruct (if c_get x then _ else _); [by intros [= <- _]|].
        destruct (embed_text _ _ _); [|done]. cbn. intros [= <- _]. by destruct (c_put x). }
  destruct (Hrun (new_cache EMBEDDING_CACHE_MAX) []) as (c & vs & E & Evs & Hd & [_ Hb] & Hm);
    [by split|intros t v Hv; cbn in Hv; by rewrite lookup_empty in Hv|].
  exists c, vs. split_and!; [done..|]. by rewrite Hm in Hb.
Qed.
End Proofs.

(** *** Consensus bytes *)
Lemma i32_saturate_range z : -2147483648 <= i32_saturate z <= 2147483647.
Proof. unfold i32_saturate. lia. Qed.
Lemma quantize_range x : -2147483648 <= quantize x <= 2147483647.
Proof.
  unfold quantize, round_i32. destruct (f32_mul x SCALE) as [|[]| |]; try lia.
  apply i32_saturate_range.
Qed.
Lemma i32_le_bytes_inj a b :
  -2147483648 <= a <= 2147483647 -> -2147483648 <= b <= 2147483647 ->
  i32_le_bytes a = i32_le_bytes b -> a = b.
Proof.
  unfold i32_le_bytes. intros Ha Hb E.
  apply (f_equal le_value) in E. rewrite !le_value_le_bytes in E. unfold wrap32 in E.
  change (256 ^ Z.of_nat 4) with 4294967296 in E. rewrite !Z.mod_mod in E by done.
  Z.to_euclidean_division_equations. lia.
Qed.

(** The consensus bytes of an embedding are its quantised components. They take four bytes a
    component, two vectors have the same bytes exactly when they quantise to the same integers,
    and each quantised component fits an [i32], with a NaN counting as zero and an
    infinity as the nearest bound. *)
Theorem consensus_bytes_exact v w :
  length (to_consensus_bytes v) = (4 * dim v)%nat /\
  (to_consensus_bytes v = to_consensus_bytes w <-> quantize <$> v = quantize <$> w) /\
  Forall (fun x => -2147483648 <= quantize x <= 2147483647) v /\
  quantize S754_nan = 0 /\ quantize (S754_infinity false) = 2147483647 /\
  quantize (S754_infinity true) = -2147483648.
Proof.
  assert (forall z, length (i32_le_bytes z) = 4%nat) as Hl by (intros; apply le_bytes_length).
  split; [|split; [|split; [|by vm_compute]]].
  - induction v as [|x v IH]; [done|]. unfold to_consensus_bytes, dim in *. cbn [flat_map length].
    rewrite length_app, Hl, IH. lia.
  - split.
    + revert w. induction v as [|x v IH]; intros [|y w] E; [done| | |].
      * apply (f_equal length) in E. unfold to_consensus_bytes in E. cbn [flat_map] in E.
        by rewrite length_app, Hl in E.
      * apply (f_equal length) in E. unfold to_consensus_bytes in E. cbn [flat_map] in E.
        by rewrite length_app, Hl in E.
      * unfold to_consensus_bytes in E. cbn [flat_map] in E.
        apply app_inj_1 in E as [Ex E]; [|by rewrite !Hl].
        apply i32_le_bytes_inj in Ex; [|apply quantize_range..]. cbn. f_equal; [done|]. by apply IH.
    + revert w. induction v as [|x v IH]; intros [|y w]; [done..|]. intros [= Ex E].
      unfold to_consensus_bytes. cbn [flat_map]. rewrite Ex. f_equal. by apply IH.
  - apply Forall_true, quantize_range.
Qed.

(** *** Similarity *)
Lemma f64_mul_comm a b : f64_mul a b = f64_mul b a.
Proof.
  unfold f64_mul, SFmul. destruct a as [sa|sa| |sa ma ea], b as [sb|sb| |sb mb eb];
    try done; rewrite (xorb_comm sa sb); try done.
  by rewrite (Pos.mul_comm ma mb), (Z.add_comm ea eb).
Qed.
Lemma square_sum_zero v :
  vector_is_zero v = true -> is_zero (f64_square_sum v) = true.
Proof.
  unfold f64_square_sum, f64_sum, vector_is_zero.
  assert (forall s, is_zero s = true -> forallb (fun x => SFeqb x f32_zero) v = true ->
    is_zero (foldl f64_add s ((fun x => f64_mul (f64_of_f32 x) (f64_of_f32 x)) <$> v)) = true) as Hg.
  { induction v as [|x v IH]; intros s Hs; [done|]. cbn [forallb fmap list_fmap foldl].
    intros [Hx Hv]%andb_true_iff. apply IH; [|done].
    destruct x as [[]|[]| |[] m e]; try done; by destruct s as [[]|[]| |]. }
  by apply Hg.
Qed.

(** Cosine similarity is symmetric and bounded. The order of its arguments does not matter;
    the result lies in [-1, 1] unless it is a NaN; vectors of different dimensions and
    vectors whose components are all zero score zero. *)
Theorem cosine_similarity_spec a b :
  cosine_similarity a b = cosine_similarity b a /\
  (is_nan (cosine_similarity a b) = true \/
   between (f64_of_Z (-1)) (f64_of_Z 1) (cosine_similarity a b) = true) /\
  (dim a <> dim b \/ vector_is_zero a = true \/ vector_is_zero b = true ->
   cosine_similarity a b = f64_of_Z 0).
Proof.
  split; [|split].
  - unfold cosine_similarity. rewrite (Nat.eqb_sym (length b)).
    destruct (Nat.eqb_spec (length a) (length b)) as [El|]; [|done]. cbn [negb].
    rewrite orb_comm, (f64_mul_comm (f64_sqrt (f64_square_sum a))).
    assert (zip_with (fun x y => f64_mul (f64_of_f32 x) (f64_of_f32 y)) a b
            = zip_with (fun x y => f64_mul (f64_of_f32 x) (f64_of_f32 y)) b a) as ->; [|done].
    revert b El. induction a as [|x a IH]; intros [|y b] El; try done. cbn.
    rewrite f64_mul_comm. f_equal. apply IH. by injection El.
  - unfold cosine_similarity. destruct (negb _); [by right; vm_compute|].
    destruct (_ || _); [by right; vm_compute|].
    match goal with |- context [f64_clamp ?x _ _] => destruct (is_nan x) eqn:N end.
    + left. destruct (f64_div _ _); done.
    + right. by apply clamp_between.
  - assert (forall v, vector_is_zero v = true ->
      f64_ltb (f64_sqrt (f64_square_sum v)) (f64_lit 1 10000000000) = true) as Hz.
    { intros v Hv%square_sum_zero. destruct (f64_square_sum v) as [[]| | |]; try done; by vm_compute. }
    unfold cosine_similarity, dim. destruct (Nat.eqb_spec (length a) (length b)) as [El|]; [|done].
    cbn [negb]. intros [Hd|[Ha|Hb]]; [done| |].
    + by rewrite (Hz a Ha).
    + by rewrite (Hz b Hb), orb_true_r.
Qed.
End Embedding.

(** ** Witnesses *)
Module EmbeddingWitness.
Import Embedding.

Definition ascii_alphanumeric (c : Z) : bool :=
  is_ascii_digit c || is_ascii_lowercase c || is_ascii_uppercase c.
Definition key_order (m : gmap rstr EmbeddingVector) : list rstr := (map_to_list m).*1.
Definition asked : list call :=
  (fun t => {| c_text := lit t; c_get := true; c_put := true; c_order := key_order |})
  <$> ["finance.quant pricing"; "data"; "finance.quant pricing"]%string.

(** Three calls, the last of which the cache answers: its map holds two texts. *)
Lemma cache_transparent_witness :
  (exists c vs,
    embed_calls ascii_alphanumeric to_ascii_lowercase (new_cache EMBEDDING_CACHE_MAX) asked
    = Some (c, vs) /\
    Some <$> vs
    = (fun x => embed_text ascii_alphanumeric to_ascii_lowercase (c_text x)) <$> asked /\
    Forall (fun v => dim v = EMBEDDING_DIM) vs /\
    Z.of_nat (size (map c)) <= EMBEDDING_CACHE_MAX) /\
  (size ∘ map ∘ fst <$>
    embed_calls ascii_alphanumeric to_ascii_lowercase (new_cache EMBEDDING_CACHE_MAX) asked)
  = Some 2%nat.
Proof.
  split; [|by vm_compute].
  apply (cache_transparent ascii_alphanumeric to_ascii_lowercase asked).
  apply Forall_fmap, Forall_true. intros t m. cbn [c_order compose]. reflexivity.
Defined.
End EmbeddingWitness.
