(* ===== verification/Conversation.v ===== *)
(** * The conversation protocol

    Models the data, checks, signatures and end-to-end encryption of zincha-client's
    [conversation.rs]; [Outbox] models its durable queue and its event stream. Transport
    (reqwest, rustls, url), base64, X25519, HKDF, UUIDs, JSON serialisers and IP addresses are
    parameters. An error is the list of its causes, outermost context first. *)
From S2P Require Import Prelude Crypto Instances Keystore.

(** ** Errors with causes ([anyhow]) *)
Module Anyhow.
Inductive io_kind : Type :=
| ConnectionRefused | NotConnected | AddrNotAvailable | TimedOut | NetworkUnreachable
| HostUnreachable | NotFound | OtherKind.
(** A context or a message, or an error of one of the types the client inspects. *)
Inductive cause : Type :=
| CText (m : message)
| CDns
| CIo (kind : io_kind)
| CRustls
| CReqwest (is_timeout : bool)
| CAuthorizationRequired
| CZincha (e : ZinchaError).
Abbreviation error := (list cause).
Definition bail {A} (m : message) : result error A := Err [CText m].
(** [if b { bail!(m) }]. *)
Definition bail_if (b : bool) (m : string) : result error unit :=
  if b then bail (msg m) else Ok ().
Definition context {A} (m : string) (r : result error A) : result error A :=
  map_err (fun e => CText (msg m) :: e) r.
(** A third-party error, by its text. *)
Definition of_text {A} (r : result rstr A) : result error A :=
  map_err (fun t => [CText (Msg "{}" [AStr t])]) r.
Definition opt_context {A} (m : string) (o : option A) : result error A :=
  ok_or o [CText (msg m)].

Lemma bail_if_Ok b m u : bail_if b m = Ok u <-> b = false.
Proof. unfold bail_if, bail. destruct b, u; by split. Qed.
End Anyhow.

Module Conversation.
Import Anyhow.

(** ** Third-party code *)
Class Uuids := { uuid_to_string : bytesN 16 -> rstr }.
Class UuidLaws `{Uuids} : Prop := {
  uuid_inj : forall a b, uuid_to_string a = uuid_to_string b -> a = b;
  uuid_length : forall a, length (uuid_to_string a) = 36%nat;
  (** Hexadecimal digits and hyphens. *)
  uuid_chars : forall a c, c ∈ uuid_to_string a -> 48 <= c <= 57 \/ 97 <= c <= 102 \/ c = 45;
}.
(** The [url] crate. *)
Class Urls := {
  Url : Type;
  url_parse : rstr -> result rstr Url;
  url_scheme : Url -> rstr;
  url_username : Url -> rstr;
  url_password : Url -> option rstr;
  url_host : Url -> option rstr;
  url_path : Url -> rstr;
  url_query : Url -> option rstr;
  url_fragment : Url -> option rstr;
  url_set_path : rstr -> Url -> Url;
  url_clear_query : Url -> Url;
  url_clear_fragment : Url -> Url;
  url_text : Url -> rstr;
}.
(** [std::net::IpAddr]. *)
Class Ips := {
  IpAddr : Type;
  ip_parse : rstr -> result rstr IpAddr;
  ip_text : IpAddr -> rstr;
  is_loopback : IpAddr -> bool;
  is_ipv6 : IpAddr -> bool;
}.
(** X25519: a secret's public key, and the shared secret with a public key. *)
Class X25519 := {
  x25519_public : bytesN 32 -> bytesN 32;
  diffie_hellman : bytesN 32 -> bytesN 32 -> bytesN 32;
  was_contributory : bytesN 32 -> bool;
}.
Class X25519Laws `{X25519} : Prop :=
  dh_agree : forall a b, diffie_hellman a (x25519_public b) = diffie_hellman b (x25519_public a).
(** HKDF-SHA256 with 32 bytes of output: salt, key, info. *)
Class Hkdf := { hkdf_sha256 : list byte -> list byte -> list byte -> result rstr (bytesN 32) }.
(** Base64, URL-safe without padding. *)
Class Base64 := { b64_encode : list byte -> rstr; b64_decode : rstr -> result rstr (list byte) }.
Definition is_b64_char (c : Z) : bool :=
  is_ascii_digit c || is_ascii_lowercase c || is_ascii_uppercase c || (c =? 45) || (c =? 95).
Class Base64Laws `{Base64} : Prop := {
  b64_roundtrip : forall b, b64_decode (b64_encode b) = Ok b;
  b64_chars : forall b, forallb is_b64_char (b64_encode b) = true;
  b64_empty : b64_encode [] = [];
  b64_length : forall b, Z.of_nat (length (b64_encode b)) mod 4 <> 1;
}.
(** Canonical JSON and its parser at one type. *)
Class JsonCodec (T : Type) := {
  jcs_to_vec : T -> result rstr (list byte);
  json_from_slice : list byte -> result rstr T;
}.

(** What it writes it reads back, and no text is empty. *)
Class JsonLaws (T : Type) `{JsonCodec T} : Prop := {
  json_roundtrip : forall (x : T) b, jcs_to_vec x = Ok b -> json_from_slice b = Ok x;
  jcs_nonempty : forall (x : T) b, jcs_to_vec x = Ok b -> b <> [];
}.

(** ** Data *)
Inductive SubjectKind : Type := Task | Agreement | ToolJob | ToolSession.
Definition kind_as_str (k : SubjectKind) : rstr :=
  match k with
  | Task => lit "task"
  | Agreement => lit "agreement"
  | ToolJob => lit "tool_job"
  | ToolSession => lit "tool_session"
  end.
Record SubjectRef : Type := {
  s_network : rstr; s_chain_id : rstr; s_kind : SubjectKind; s_id : rstr;
}.
Inductive PrivacyMode : Type := PlatformReadable | EndToEnd.
#[global] Instance PrivacyMode_eq_dec : EqDecision PrivacyMode.
Proof. solve_decision. Defined.
Record TlsCertificatePin : Type := {
  pin_sha256 : rstr; pin_not_before_ms : Z; pin_not_after_ms : Z;
}.
#[global] Instance TlsCertificatePin_eq_dec : EqDecision TlsCertificatePin.
Proof. solve_decision. Defined.
Inductive ConversationInterface : Type :=
| Https (url : rstr)
| ZinchaTlsV1 (host : rstr) (port : Z) (certificate_pins : list TlsCertificatePin).
#[global] Instance ConversationInterface_eq_dec : EqDecision ConversationInterface.
Proof. solve_decision. Defined.
Record ConversationProfileV2 : Type := {
  version : Z;
  service_id : rstr;
  interfaces : list ConversationInterface;
  privacy_modes : list PrivacyMode;
  protocol_versions : list Z;
}.
#[global] Instance ConversationProfileV2_eq_dec : EqDecision ConversationProfileV2.
Proof. solve_decision. Defined.
Inductive ConversationTransportPolicy : Type := Auto | HttpsOnly | ZinchaTlsOnly.
#[global] Instance Policy_eq_dec : EqDecision ConversationTransportPolicy.
Proof. solve_decision. Defined.

Record ConversationKeyDelegationV1 : Type := {
  d_version : Z;
  d_delegation_id : bytesN 16;
  d_participant_address : rstr;
  d_participant_public_key : rstr;
  d_subject : SubjectRef;
  d_home_service_id : rstr;
  d_operational_signing_key : rstr;
  d_encryption_key : rstr;
  d_capabilities : list rstr;
  d_not_before_ms : Z;
  d_expires_at_ms : Z;
  d_nonce : rstr;
  d_signature : rstr;
}.
#[global] Instance eta_Delegation : Eta ConversationKeyDelegationV1 := fun d =>
  {| d_version := d_version d; d_delegation_id := d_delegation_id d;
     d_participant_address := d_participant_address d;
     d_participant_public_key := d_participant_public_key d; d_subject := d_subject d;
     d_home_service_id := d_home_service_id d;
     d_operational_signing_key := d_operational_signing_key d;
     d_encryption_key := d_encryption_key d; d_capabilities := d_capabilities d;
     d_not_before_ms := d_not_before_ms d; d_expires_at_ms := d_expires_at_ms d;
     d_nonce := d_nonce d; d_signature := d_signature d |}.
Record CreateDelegationOptions : Type := {
  o_subject : SubjectRef;
  o_home_service_id : rstr;
  o_not_before_ms : Z;
  o_expires_at_ms : Z;
  o_capabilities : list rstr;
}.
Record ChallengeResponse : Type := {
  challenge_id : bytesN 16; challenge : rstr; ch_expires_at_ms : Z;
}.
Inductive MessagePart : Type :=
| Text (text : rstr)
| Data (value : Json.Value)
| ArtifactReference (artifact_id : bytesN 16) (digest media_type : rstr) (size : Z).
#[global] Instance MessagePart_eq_dec : EqDecision MessagePart.
Proof. solve_decision. Defined.
Inductive MessagePayload : Type :=
| Plaintext (parts : list MessagePart)
| Ciphertext (ciphertext : rstr).
#[global] Instance MessagePayload_eq_dec : EqDecision MessagePayload.
Proof. solve_decision. Defined.
Record SubmitMessageRequest : Type := {
  message_id : bytesN 16;
  client_timestamp_ms : Z;
  reply_to : option (bytesN 16);
  key_epoch : option Z;
  payload : MessagePayload;
  signing_key_id : rstr;
  signature : rstr;
}.
#[global] Instance SubmitMessageRequest_eq_dec : EqDecision SubmitMessageRequest.
Proof. solve_decision. Defined.
#[global] Instance eta_Submit : Eta SubmitMessageRequest := fun r =>
  {| message_id := message_id r; client_timestamp_ms := client_timestamp_ms r;
     reply_to := reply_to r; key_epoch := key_epoch r; payload := payload r;
     signing_key_id := signing_key_id r; signature := signature r |}.
Record MessageRecord : Type := {
  m_conversation_id : rstr;
  m_sequence : Z;
  m_message_id : bytesN 16;
  m_sender : rstr;
  m_client_timestamp_ms : Z;
  m_accepted_at_ms : Z;
  m_reply_to : option (bytesN 16);
  m_key_epoch : option Z;
  m_payload : MessagePayload;
  m_payload_digest : rstr;
  m_signing_key_id : rstr;
  m_signature : rstr;
}.
Record Page (T : Type) : Type := { items : list T; next_cursor : option Z }.
Arguments items {T} p. 
Arguments next_cursor {T} p.

(** ** Checks of identifiers *)
Definition MAX_HTTPS_INTERFACE_URL_LENGTH : nat := 2048.
Definition MAX_PROTOCOL_VERSIONS : nat := 64.

(** [byte.is_ascii_digit() || (b'a'..=b'f').contains(&byte)] on every byte. *)
Definition is_lower_hex (c : Z) : bool := is_ascii_digit c || ((97 <=? c) && (c <=? 102)).
Definition validate_conversation_id (value : rstr) : result error unit :=
  bail_if (negb (str_len value =? 64) || negb (forallb is_lower_hex value))
    "identifier must be 32 bytes of lowercase hexadecimal".
Definition validate_subject_ref (s : SubjectRef) : result error unit :=
  _ ← bail_if (bool_decide (trim (s_network s) = []) || (64 <? str_len (s_network s))
        || existsb is_control (s_network s) || bool_decide (trim (s_chain_id s) = [])
        || (128 <? str_len (s_chain_id s)) || existsb is_control (s_chain_id s))
    "conversation subject network or chain ID is invalid";
  context "conversation subject identifier is invalid" (validate_conversation_id (s_id s)).
Definition validate_service_id (value : rstr) : result error unit :=
  bail_if (bool_decide (trim value = []) || (256 <? length value)%nat || existsb is_control value)
    "conversation profile service ID is invalid".
Definition validate_address (value : rstr) : result error unit :=
  body ← opt_context "conversation address must use the zn1 prefix" (strip_prefix (lit "zn1") value);
  bail_if (negb (str_len body =? 40) || negb (forallb is_lower_hex body))
    "conversation address is invalid".

(** ** Payloads *)
Definition validate_part (p : MessagePart) : result error unit :=
  match p with
  | ArtifactReference _ digest media_type _ =>
      bail_if (negb (str_len digest =? 64) || negb (forallb is_lower_hex digest)
          || bool_decide (media_type = []) || (255 <? str_len media_type)
          || existsb is_control media_type)
        "artifact references require a lowercase SHA-256 digest and bounded media type"
  | _ => Ok ()
  end.
Definition validate_plaintext_payload (p : MessagePayload) : result error unit :=
  match p with
  | Ciphertext _ => bail (msg "E2E plaintext has an invalid payload encoding")
  | Plaintext parts =>
      _ ← bail_if (bool_decide (parts = []) || (256 <? length parts)%nat)
        "plaintext messages require 1-256 parts";
      fold_result (fun _ p => validate_part p) () parts
  end.
Definition validate_message_payload (p : MessagePayload) (epoch : option Z) : result error unit :=
  match p with
  | Plaintext _ =>
      _ ← bail_if (bool_decide (is_Some epoch)) "plaintext messages cannot include a key epoch";
      validate_plaintext_payload p
  | Ciphertext c =>
      bail_if (bool_decide (epoch = None) || bool_decide (c = []) || (str_len c mod 4 =? 1)
          || negb (forallb is_b64_char c))
        "ciphertext messages require URL-safe ciphertext and a key epoch"
  end.

(** ** Service profiles *)
Section Profiles.
Context `{Urls, Ips, JsonCodec ConversationProfileV2}.

Definition validate_conversation_url (url : Url) : result error unit :=
  _ ← bail_if (negb (bool_decide (url_username url = [])) || bool_decide (is_Some (url_password url)))
    "conversation service URL must not contain credentials";
  host ← opt_context "conversation service URL has no host" (url_host url);
  let loopback :=
    bool_decide (to_ascii_lowercase host = lit "localhost")
    || match ip_parse host with Ok a => is_loopback a | Err _ => false end in
  _ ← bail_if (negb (bool_decide (url_scheme url = lit "https"))
        && negb (bool_decide (url_scheme url = lit "http") && loopback))
    "conversation service URL must use HTTPS, except for loopback development";
  bail_if (bool_decide (is_Some (url_query url)) || bool_decide (is_Some (url_fragment url)))
    "conversation service URL cannot contain a query or fragment".

(** Each pin in turn against the digests seen before it. *)
Fixpoint check_pins (seen : list rstr) (pins : list TlsCertificatePin) : result error unit :=
  match pins with
  | [] => Ok ()
  | p :: pins' =>
      _ ← bail_if (negb (str_len (pin_sha256 p) =? 64) || negb (forallb is_lower_hex (pin_sha256 p))
            || (pin_not_after_ms p <=? pin_not_before_ms p) || bool_decide (pin_sha256 p ∈ seen))
        "zincha-tls-v1 certificate pin is invalid or duplicated";
      check_pins (pin_sha256 p :: seen) pins'
  end.
Definition interface_identity (i : ConversationInterface) : result error rstr :=
  match i with
  | Https url =>
      _ ← bail_if (MAX_HTTPS_INTERFACE_URL_LENGTH <? length url)%nat
        "HTTPS conversation interface URL exceeds the supported length";
      parsed ← context "conversation profile HTTPS interface URL is invalid"
        (of_text (url_parse url));
      _ ← validate_conversation_url parsed;
      _ ← bail_if (negb (bool_decide (url_scheme parsed = lit "https")))
        "advertised HTTPS interface must use HTTPS";
      Ok (lit "https:" ++ url_text parsed)
  | ZinchaTlsV1 host port pins =>
      address ← context "zincha-tls-v1 host must be a literal IP address" (of_text (ip_parse host));
      _ ← bail_if (negb (bool_decide (host = ip_text address)) || (port =? 0))
        "zincha-tls-v1 host or port is not canonical";
      _ ← bail_if (bool_decide (pins = []) || (2 <? length pins)%nat)
        "zincha-tls-v1 requires one active and at most one next pin";
      _ ← check_pins [] pins;
      Ok (lit "zincha_tls_v1:" ++ host ++ lit ":" ++ show_u port)
  end.
Fixpoint check_interfaces (seen : list rstr) (ifs : list ConversationInterface) : result error unit :=
  match ifs with
  | [] => Ok ()
  | i :: ifs' =>
      identity ← interface_identity i;
      _ ← bail_if (bool_decide (identity ∈ seen)) "conversation profile interfaces must be unique";
      check_interfaces (identity :: seen) ifs'
  end.
Definition METADATA_LIMIT : nat := 4096.
Definition validate_conversation_profile (p : ConversationProfileV2) : result error unit :=
  _ ← bail_if (negb (version p =? 2) || negb (bool_decide (1 ∈ protocol_versions p)))
    "unsupported conversation profile";
  _ ← validate_service_id (service_id p);
  _ ← bail_if (bool_decide (privacy_modes p = []) || negb (bool_decide (NoDup (privacy_modes p)))
        || bool_decide (protocol_versions p = [])
        || (MAX_PROTOCOL_VERSIONS <? length (protocol_versions p))%nat
        || bool_decide (0 ∈ protocol_versions p)
        || negb (length (remove_dups (protocol_versions p)) =? length (protocol_versions p))%nat)
    "conversation profile capabilities must be non-empty and unique";
  _ ← bail_if (bool_decide (interfaces p = []) || (4 <? length (interfaces p))%nat)
    "conversation profile must advertise 1-4 interfaces";
  _ ← check_interfaces [] (interfaces p);
  bytes ← context "encode conversation profile" (of_text (jcs_to_vec p));
  bail_if (METADATA_LIMIT <? length bytes)%nat "conversation profile exceeds agent metadata limit".
Definition conversation_profile_from_metadata (metadata : list byte)
    : result error ConversationProfileV2 :=
  _ ← bail_if (METADATA_LIMIT <? length metadata)%nat
    "conversation profile exceeds agent metadata limit";
  profile ← context "decode conversation profile" (of_text (json_from_slice metadata));
  _ ← validate_conversation_profile profile;
  Ok profile.
Definition conversation_profile_metadata (p : ConversationProfileV2) : result error (list byte) :=
  _ ← validate_conversation_profile p;
  bytes ← context "encode conversation profile" (of_text (jcs_to_vec p));
  _ ← bail_if (METADATA_LIMIT <? length bytes)%nat
    "conversation profile exceeds agent metadata limit";
  Ok bytes.
Definition verify_conversation_service_profile (advertised live : ConversationProfileV2)
    : result error unit :=
  _ ← validate_conversation_profile advertised;
  _ ← validate_conversation_profile live;
  bail_if (negb (bool_decide (advertised = live)))
    "live conversation profile does not match authenticated agent metadata".

Definition direct_tls_url (host : rstr) (port : Z) : result error Url :=
  address ← context "zincha-tls-v1 host must be a literal IP address" (of_text (ip_parse host));
  let authority :=
    if is_ipv6 address then lit "[" ++ ip_text address ++ lit "]:" ++ show_u port
    else ip_text address ++ lit ":" ++ show_u port in
  context "build zincha-tls-v1 URL"
    (of_text (url_parse (lit "https://" ++ authority ++ lit "/"))).
End Profiles.

(** ** Pinned certificates *)
Section Pins.
Context `{Digests, Hex}.

Record parsed_pin : Type := { pp_digest : bytesN 32; pp_from : Z; pp_to : Z }.
Definition parse_pin (p : TlsCertificatePin) : result error parsed_pin :=
  bytes ← context "decode zincha-tls-v1 pin" (of_text (hex_decode (pin_sha256 p)));
  digest ← opt_context "zincha-tls-v1 pin must be 32 bytes" (mk_bytesN 32 bytes);
  Ok {| pp_digest := digest; pp_from := pin_not_before_ms p; pp_to := pin_not_after_ms p |}.
Fixpoint parse_pins (pins : list TlsCertificatePin) : result error (list parsed_pin) :=
  match pins with
  | [] => Ok []
  | p :: pins' => q ← parse_pin p; qs ← parse_pins pins'; Ok (q :: qs)
  end.

Definition CLOCK_SKEW_MS : Z := 300000.
Inductive tls_error : Type := General (m : string) | BadEncoding.
Definition checked_mul_i64 (a b : Z) : option Z :=
  if (I64_MIN <=? a * b) && (a * b <=? I64_MAX) then Some (a * b) else None.
(** [parse_x509] is the x509 parser: the validity of a certificate, in seconds. *)
Definition verify_server_cert (parse_x509 : list byte -> option (Z * Z)) (now : Z)
    (pins : list parsed_pin) (end_entity : list byte) : result tls_error unit :=
  let digest := sha256 end_entity in
  pin ← ok_or (List.find (fun p => bool_decide (digest = pp_digest p)) pins)
    (General "zincha-tls-v1 certificate pin mismatch");
  _ ← ensure (negb ((sat_i64 (now + CLOCK_SKEW_MS) <? pp_from pin)
                    || (pp_to pin <? sat_i64 (now - CLOCK_SKEW_MS))))
    (General "zincha-tls-v1 certificate pin is outside its advertised validity");
  validity ← ok_or (parse_x509 end_entity) BadEncoding;
  not_before_ms ← ok_or (checked_mul_i64 validity.1 1000) (General "certificate validity overflows");
  not_after_ms ← ok_or (checked_mul_i64 validity.2 1000) (General "certificate validity overflows");
  ensure (bool_decide ((not_before_ms, not_after_ms) = (pp_from pin, pp_to pin)))
    (General "zincha-tls-v1 certificate validity does not match the on-chain pin").
End Pins.

(** ** Choosing an interface *)
Section Client.
Context `{Urls, Ips, Hex, JsonCodec ConversationProfileV2}.

Record ConversationClient : Type := { base_url : Url; access_token : option rstr }.
(** [with_http], and [new] after parsing. *)
Definition with_http (u : Url) : result error ConversationClient :=
  _ ← validate_conversation_url u;
  let u := if ends_with (lit "/") (url_path u) then u else url_set_path (url_path u ++ lit "/") u in
  Ok {| base_url := url_clear_fragment (url_clear_query u); access_token := None |}.
Definition client_new (text : rstr) : result error ConversationClient :=
  u ← context "parse conversation service URL" (of_text (url_parse text)); with_http u.
Definition with_access_token (token : rstr) (c : ConversationClient) : ConversationClient :=
  {| base_url := base_url c; access_token := Some token |}.
Definition events_url (join_url : Url -> rstr -> result rstr Url) (c : ConversationClient)
    (conversation_id : rstr) (after : Z) : result error Url :=
  _ ← validate_conversation_id conversation_id;
  _ ← bail_if (after <? 0) "message cursor cannot be negative";
  context "build event URL" (of_text (join_url (base_url c)
    (lit "v1/conversations/" ++ conversation_id ++ lit "/events?after=" ++ show_i after
     ++ lit "&limit=100"))).

(** An unreachable host, as opposed to a TLS failure or an answer. *)
Definition reachable_kind (k : io_kind) : bool :=
  match k with NotFound | OtherKind => false | _ => true end.
Definition is_reachability_error (e : error) : bool :=
  let dns := existsb (fun c => match c with CDns => true | _ => false end) e in
  let io := existsb (fun c => match c with CIo k => reachable_kind k | _ => false end) e in
  let tls := existsb (fun c => match c with CRustls => true | _ => false end) e in
  match List.find (fun c => match c with CReqwest _ => true | _ => false end) (reverse e) with
  | Some (CReqwest timeout) => negb tls && (timeout || dns || io)
  | _ => false
  end.

(** The base URL of an interface the policy allows; [None] when it does not. *)
Definition interface_url (policy : ConversationTransportPolicy) (i : ConversationInterface)
    : option (result error Url) :=
  match i with
  | Https url =>
      if decide (policy = ZinchaTlsOnly) then None
      else Some (context "parse HTTPS conversation interface" (of_text (url_parse url)))
  | ZinchaTlsV1 host port pins =>
      if decide (policy = HttpsOnly) then None
      else Some (u ← direct_tls_url host port; _ ← parse_pins pins; Ok u)
  end.
(** Each interface is asked for its live profile through a client of its own, in the monad
    [asking]. Building the HTTP client itself is taken to succeed. *)
Abbreviation profiling :=
  (asking ConversationClient (result error ConversationProfileV2) (result error ConversationClient)).
Fixpoint try_interfaces (policy : ConversationTransportPolicy) (profile : ConversationProfileV2)
    (supported : bool) (unreachable : list rstr) (ifs : list ConversationInterface) : profiling :=
  match ifs with
  | [] => Answered (
      _ ← bail_if (negb supported)
        "conversation profile has no interface supported by the selected transport policy";
      bail (Msg "all supported conversation interfaces were unreachable: {}"
              [AStr (join (lit ", ") unreachable)]))
  | i :: ifs' =>
      match interface_url policy i with
      | None => try_interfaces policy profile supported unreachable ifs'
      | Some r =>
          match u ← r; with_http u with
          | Err e => Answered (Err e)
          | Ok client =>
              Ask client (fun live =>
                match live with
                | Ok p => Answered (
                    _ ← verify_conversation_service_profile profile p;
                    Ok {| base_url := base_url client; access_token := None |})
                | Err e =>
                    if bool_decide (policy = Auto) && is_reachability_error e then
                      try_interfaces policy profile true
                        (unreachable ++ [url_text (base_url client)]) ifs'
                    else Answered (context "verify live conversation service profile" (Err e))
                end)
          end
      end
  end.
Definition ask_from_profile (profile : ConversationProfileV2) (policy : ConversationTransportPolicy)
    : profiling :=
  match validate_conversation_profile profile with
  | Err e => Answered (Err e)
  | Ok _ => try_interfaces policy profile false [] (interfaces profile)
  end.
(** What comes of it, where [live] answers each client. *)
Definition from_profile (live : ConversationClient -> result error ConversationProfileV2)
    (profile : ConversationProfileV2) (policy : ConversationTransportPolicy)
    : result error ConversationClient :=
  (answered live (ask_from_profile profile policy)).2.
End Client.

(** ** Delegations and message signatures *)
Section Signing.
Context `{Digests, Hex, Ed25519, Uuids, X25519, JsonCodec MessagePayload}.

Definition DELEGATION_DOMAIN : rstr := lit "zincha-conversation-delegation-v1".
Definition CHALLENGE_DOMAIN : rstr := lit "zincha-conversation-challenge-v1".
Definition MESSAGE_DOMAIN : rstr := lit "zincha-conversation-message-v1".
Definition MAX_DELEGATION_MS : Z := 31 * 24 * 60 * 60 * 1000.

(** A set of strings in its order, that of their characters. *)
Definition btree_set (l : list rstr) : list rstr := sort_by zlist_cmp (remove_dups l).
Definition delegation_lines (d : ConversationKeyDelegationV1) : list rstr :=
  [DELEGATION_DOMAIN; show_u (d_version d); uuid_to_string (d_delegation_id d);
   d_participant_address d; d_participant_public_key d; s_network (d_subject d);
   s_chain_id (d_subject d); kind_as_str (s_kind (d_subject d)); s_id (d_subject d);
   d_home_service_id d; d_operational_signing_key d; d_encryption_key d;
   join (lit ",") (btree_set (d_capabilities d)); show_i (d_not_before_ms d);
   show_i (d_expires_at_ms d); d_nonce d].
Definition delegation_signing_bytes (d : ConversationKeyDelegationV1) : list byte :=
  utf8 (join [10] (delegation_lines d)).

(** The probe is the secret of 32 bytes 0x42. *)
Definition validate_x25519_public_key (public_key : bytesN 32) : result error unit :=
  bail_if (negb (was_contributory
                   (diffie_hellman (pad_bytesN 32 (replicate 32 x42)) public_key)))
    "encryption public key is non-contributory".

Definition create_delegation (id nonce : bytesN 16) (account operational : Keypair)
    (encryption_public_key : bytesN 32) (o : CreateDelegationOptions)
    : result error ConversationKeyDelegationV1 :=
  _ ← validate_subject_ref (o_subject o);
  _ ← validate_service_id (o_home_service_id o);
  _ ← validate_x25519_public_key encryption_public_key;
  _ ← bail_if ((o_expires_at_ms o <=? o_not_before_ms o)
        || (MAX_DELEGATION_MS <? sat_i64 (o_expires_at_ms o - o_not_before_ms o)))
    "delegation validity must be positive and no longer than 31 days";
  let unique := btree_set (o_capabilities o) in
  _ ← bail_if (bool_decide (unique = []) || negb (length unique =? length (o_capabilities o))%nat
        || existsb (fun c => negb (bool_decide (c ∈ [lit "read"; lit "write"]))) unique)
    "delegation capabilities must be unique read/write values";
  let d := {| d_version := 1; d_delegation_id := id;
              d_participant_address := address_to_hex (keypair_address account);
              d_participant_public_key := hex_encode (bn (keypair_public_key account));
              d_subject := o_subject o; d_home_service_id := o_home_service_id o;
              d_operational_signing_key := hex_encode (bn (keypair_public_key operational));
              d_encryption_key := hex_encode (bn encryption_public_key);
              d_capabilities := o_capabilities o; d_not_before_ms := o_not_before_ms o;
              d_expires_at_ms := o_expires_at_ms o; d_nonce := hex_encode (bn nonce);
              d_signature := [] |} in
  Ok (d <| d_signature := hex_encode (bn (keypair_sign account (delegation_signing_bytes d))) |>).

Definition challenge_signing_bytes (id : bytesN 16) (text : rstr) : list byte :=
  utf8 (join [10] [CHALLENGE_DOMAIN; uuid_to_string id; text]).
Definition challenge_signature (operational : Keypair) (c : ChallengeResponse) : rstr :=
  hex_encode (bn (keypair_sign operational
    (challenge_signing_bytes (challenge_id c) (challenge c)))).

Definition payload_digest (p : MessagePayload) : result error rstr :=
  bytes ← context "canonicalize message payload" (of_text (jcs_to_vec p));
  Ok (hex_encode (bn (sha256 bytes))).
Definition message_lines (conversation_id sender : rstr) (r : SubmitMessageRequest)
    (digest : rstr) : list rstr :=
  [MESSAGE_DOMAIN; conversation_id; uuid_to_string (message_id r); sender;
   show_i (client_timestamp_ms r); default [] (uuid_to_string <$> reply_to r);
   default [] (show_u <$> key_epoch r); digest; signing_key_id r].
Definition message_signing_bytes (conversation_id sender : rstr) (r : SubmitMessageRequest)
    (digest : rstr) : list byte :=
  utf8 (join [10] (message_lines conversation_id sender r digest)).
Definition sign_message (id : bytesN 16) (now : Z) (operational : Keypair)
    (delegation_id : bytesN 16) (conversation_id sender : rstr) (p : MessagePayload)
    (reply : option (bytesN 16)) (epoch : option Z) : result error SubmitMessageRequest :=
  _ ← validate_conversation_id conversation_id;
  _ ← validate_address sender;
  _ ← bail_if (match epoch with Some e => I64_MAX <? e | None => false end)
    "message key epoch exceeds the protocol range";
  _ ← validate_message_payload p epoch;
  let r := {| message_id := id; client_timestamp_ms := now; reply_to := reply;
              key_epoch := epoch; payload := p; signing_key_id := uuid_to_string delegation_id;
              signature := [] |} in
  digest ← payload_digest p;
  Ok (r <| signature := hex_encode (bn (keypair_sign operational
         (message_signing_bytes conversation_id sender r digest))) |>).
End Signing.

(** ** End-to-end encryption *)
Record E2eRecipient : Type := { r_key_id : rstr; r_public_key : rstr }.
Record E2eWrappedKey : Type := { w_key_id : rstr; w_nonce : rstr; w_ciphertext : rstr }.
#[global] Instance E2eWrappedKey_eq_dec : EqDecision E2eWrappedKey.
Proof. solve_decision. Defined.
Record E2eEnvelopeV1 : Type := {
  e_version : Z;
  e_epoch : Z;
  e_ephemeral_public_key : rstr;
  e_content_nonce : rstr;
  e_ciphertext : rstr;
  e_recipients : list E2eWrappedKey;
}.
#[global] Instance E2eEnvelopeV1_eq_dec : EqDecision E2eEnvelopeV1.
Proof. solve_decision. Defined.
Definition key_id_invalid (id : rstr) : bool :=
  bool_decide (id = []) || (256 <? str_len id) || existsb is_control id.

Section E2e.
Context `{Hex, Aead, X25519, Hkdf, Base64, JsonCodec MessagePayload, JsonCodec E2eEnvelopeV1}.

Definition E2E_CONTENT_DOMAIN : rstr := lit "zincha-conversation-e2e-content-v1".
Definition E2E_WRAP_DOMAIN : rstr := lit "zincha-conversation-e2e-wrap-v1".
Definition content_aad (conversation_id : rstr) (epoch : Z) : list byte :=
  utf8 (join [10] [E2E_CONTENT_DOMAIN; conversation_id; show_u epoch]).
Definition wrap_aad (conversation_id : rstr) (epoch : Z) (key_id : rstr) : list byte :=
  utf8 (join [10] [E2E_WRAP_DOMAIN; conversation_id; show_u epoch; key_id]).

(** One recipient: its wrapping key, and the content key under it. *)
Definition wrap_for (conversation_id : rstr) (epoch : Z) (ephemeral content_key : bytesN 32)
    (nonce : bytesN 24) (r : E2eRecipient) : result error E2eWrappedKey :=
  bytes ← context "decode recipient key" (of_text (hex_decode (r_public_key r)));
  key ← opt_context "recipient key must be 32 bytes" (mk_bytesN 32 bytes);
  let shared := diffie_hellman ephemeral key in
  _ ← bail_if (negb (was_contributory shared)) "E2E recipient public key is non-contributory";
  let aad := wrap_aad conversation_id epoch (r_key_id r) in
  wrap_key ← map_err (fun _ => [CText (msg "derive E2E wrap key")])
    (hkdf_sha256 (utf8 conversation_id) (bn shared) aad);
  encrypted ← map_err (fun _ => [CText (msg "wrap E2E content key")])
    (aead_encrypt wrap_key (bn nonce) (bn content_key) aad);
  Ok {| w_key_id := r_key_id r; w_nonce := b64_encode (bn nonce);
        w_ciphertext := b64_encode encrypted |}.
(** [nonces] are the wrapping nonces drawn, one for each recipient. *)
Fixpoint wrap_all (conversation_id : rstr) (epoch : Z) (ephemeral content_key : bytesN 32)
    (seen : list rstr) (recipients : list (bytesN 24 * E2eRecipient))
    : result error (list E2eWrappedKey) :=
  match recipients with
  | [] => Ok []
  | (nonce, r) :: recipients' =>
      _ ← bail_if (key_id_invalid (r_key_id r)) "E2E recipient key ID is invalid";
      _ ← bail_if (bool_decide (r_key_id r ∈ seen)) "duplicate E2E recipient key ID";
      w ← wrap_for conversation_id epoch ephemeral content_key nonce r;
      ws ← wrap_all conversation_id epoch ephemeral content_key (r_key_id r :: seen) recipients';
      Ok (w :: ws)
  end.

(** What the random source gives one encryption. *)
Record e2e_random : Type := {
  rnd_ephemeral : bytesN 32; rnd_content_key : bytesN 32; rnd_content_nonce : bytesN 24;
}.
Definition encrypt_e2e (rnd : e2e_random) (conversation_id : rstr) (epoch : Z)
    (plaintext : MessagePayload) (recipients : list (bytesN 24 * E2eRecipient))
    : result error MessagePayload :=
  _ ← validate_conversation_id conversation_id;
  _ ← bail_if (I64_MAX <? epoch) "E2E epoch exceeds the protocol range";
  _ ← validate_plaintext_payload plaintext;
  _ ← bail_if (bool_decide (recipients = []) || (256 <? length recipients)%nat)
    "E2E encryption requires plaintext and recipients";
  let ephemeral := rnd_ephemeral rnd in
  encoded ← context "canonicalize E2E plaintext" (of_text (jcs_to_vec plaintext));
  ciphertext ← map_err (fun _ => [CText (msg "encrypt E2E content")])
    (aead_encrypt (rnd_content_key rnd) (bn (rnd_content_nonce rnd)) encoded
       (content_aad conversation_id epoch));
  wrapped ← wrap_all conversation_id epoch ephemeral (rnd_content_key rnd) [] recipients;
  let envelope :=
    {| e_version := 1; e_epoch := epoch;
       e_ephemeral_public_key := hex_encode (bn (x25519_public ephemeral));
       e_content_nonce := b64_encode (bn (rnd_content_nonce rnd));
       e_ciphertext := b64_encode ciphertext; e_recipients := wrapped |} in
  bytes ← context "encode E2E envelope" (of_text (jcs_to_vec envelope));
  Ok (Ciphertext (b64_encode bytes)).

(** The recipients' identifiers in turn against those seen before. *)
Fixpoint ids_invalid (seen : list rstr) (rs : list E2eWrappedKey) : bool :=
  match rs with
  | [] => false
  | r :: rs' =>
      key_id_invalid (w_key_id r) || bool_decide (w_key_id r ∈ seen)
      || ids_invalid (w_key_id r :: seen) rs'
  end.
Definition decrypt_e2e (conversation_id : rstr) (expected_epoch : Z) (p : MessagePayload)
    (recipient_key_id : rstr) (recipient_secret : bytesN 32) : result error MessagePayload :=
  _ ← validate_conversation_id conversation_id;
  _ ← bail_if ((I64_MAX <? expected_epoch) || key_id_invalid recipient_key_id)
    "E2E epoch or recipient key ID is invalid";
  ciphertext ← match p with
               | Ciphertext c => Ok c
               | Plaintext _ => bail (msg "E2E payload is not ciphertext")
               end;
  bytes ← context "decode E2E envelope" (of_text (b64_decode ciphertext));
  envelope ← context "parse E2E envelope" (of_text (json_from_slice bytes));
  _ ← bail_if (negb (e_version envelope =? 1) || negb (e_epoch envelope =? expected_epoch))
    "E2E envelope version or epoch mismatch";
  _ ← bail_if (bool_decide (e_recipients envelope = [])
        || (256 <? length (e_recipients envelope))%nat)
    "E2E envelope recipient count is invalid";
  _ ← bail_if (ids_invalid [] (e_recipients envelope)) "E2E envelope recipient IDs are invalid";
  ephemeral_bytes ← context "decode ephemeral key"
    (of_text (hex_decode (e_ephemeral_public_key envelope)));
  ephemeral ← opt_context "ephemeral key must be 32 bytes" (mk_bytesN 32 ephemeral_bytes);
  recipient ← opt_context "recipient is not included in E2E envelope"
    (List.find (fun r => bool_decide (w_key_id r = recipient_key_id)) (e_recipients envelope));
  let shared := diffie_hellman recipient_secret ephemeral in
  _ ← bail_if (negb (was_contributory shared)) "E2E ephemeral public key is non-contributory";
  let aad := wrap_aad conversation_id expected_epoch recipient_key_id in
  wrap_key ← map_err (fun _ => [CText (msg "derive E2E wrap key")])
    (hkdf_sha256 (utf8 conversation_id) (bn shared) aad);
  nonce ← context "decode wrap nonce" (of_text (b64_decode (w_nonce recipient)));
  encrypted_key ← context "decode wrapped key" (of_text (b64_decode (w_ciphertext recipient)));
  _ ← bail_if (negb (length nonce =? 24))%nat "invalid wrap nonce";
  content_key_bytes ← map_err (fun _ => [CText (msg "unwrap E2E content key")])
    (aead_decrypt wrap_key nonce encrypted_key aad);
  content_key ← opt_context "invalid E2E content key" (mk_bytesN 32 content_key_bytes);
  content_nonce ← context "decode content nonce" (of_text (b64_decode (e_content_nonce envelope)));
  _ ← bail_if (negb (length content_nonce =? 24))%nat "invalid content nonce";
  encrypted ← context "decode E2E ciphertext" (of_text (b64_decode (e_ciphertext envelope)));
  plaintext_bytes ← map_err (fun _ => [CText (msg "decrypt E2E content")])
    (aead_decrypt content_key content_nonce encrypted (content_aad conversation_id expected_epoch));
  plaintext ← context "decode E2E plaintext" (of_text (json_from_slice plaintext_bytes));
  _ ← validate_plaintext_payload plaintext;
  Ok plaintext.
End E2e.

(** ** Properties *)

(** *** End-to-end encryption *)
Section E2eProofs.
Context `{HexLaws, AeadLaws, X25519Laws, Hkdf, Base64Laws, JsonCodec MessagePayload,
  JsonLaws E2eEnvelopeV1}.

Lemma wrap_all_spec conv epoch eph ck seen rs ws :
  wrap_all conv epoch eph ck seen rs = Ok ws ->
  ids_invalid seen ws = false /\ length ws = length rs /\
  forall n r, (n, r) ∈ rs -> r_key_id r ∉ seen /\ key_id_invalid (r_key_id r) = false /\
    exists w, wrap_for conv epoch eph ck n r = Ok w /\ w_key_id w = r_key_id r /\
      List.find (fun x => bool_decide (w_key_id x = r_key_id r)) ws = Some w.
Proof.
  revert seen ws. induction rs as [|[n0 r0] rs IH]; intros seen ws; cbn [wrap_all].
  { intros [= <-]. split_and!; [done..|]. by intros n r ?%not_elem_of_nil. }
  destruct (key_id_invalid (r_key_id r0)) eqn:Hk; [done|]. cbn [bail_if mbind result_bind].
  case_bool_decide as Hs; [done|]. cbn [bail_if mbind result_bind].
  destruct (wrap_for conv epoch eph ck n0 r0) as [w0|] eqn:Ew; [|done]. cbn [mbind result_bind].
  destruct (wrap_all _ _ _ _ (r_key_id r0 :: seen) rs) as [ws'|] eqn:Er; [|done].
  cbn [mbind result_bind]. intros [= <-].
  assert (w_key_id w0 = r_key_id r0) as Ei.
  { revert Ew. unfold wrap_for. destruct (context _ (of_text (hex_decode _))); [|done].
    cbn [mbind result_bind]. destruct (opt_context _ _); [|done]. cbn [mbind result_bind].
    destruct (bail_if _ _); [|done]. cbn [mbind result_bind].
    destruct (map_err _ (hkdf_sha256 _ _ _)); [|done]. cbn [mbind result_bind].
    destruct (map_err _ _); [|done]. cbn. by intros [= <-]. }
  destruct (IH _ _ Er) as (Hi & Hl & Hr). cbn [ids_invalid length]. rewrite Ei.
  split; [|split; [by rewrite Hl|]].
  - by rewrite Hk, bool_decide_eq_false_2, Hi.
  - intros n r [[= -> ->]|Hin]%elem_of_cons.
    + split_and!; [done..|]. exists w0. split_and!; [done..|]. cbn [List.find].
      by rewrite bool_decide_eq_true_2.
    + destruct (Hr n r Hin) as (Hns & Hkr & w & Hw & Hwi & Hf).
      apply not_elem_of_cons in Hns as [Hne Hns]. split_and!; [done..|].
      exists w. split_and!; [done..|]. cbn [List.find].
      by rewrite bool_decide_eq_false_2 by congruence.
Qed.

Lemma b64_nonempty b : b <> [] -> b64_encode b <> [].
Proof.
  intros Hb E. apply Hb. pose proof (b64_roundtrip b) as R. pose proof (b64_roundtrip []) as R0.
  rewrite b64_empty in R0. rewrite E, R0 in R. by injection R.
Qed.

(** The parts of a successful encryption. *)
Lemma encrypt_Ok rnd conv epoch plaintext rs out :
  encrypt_e2e rnd conv epoch plaintext rs = Ok out ->
  validate_conversation_id conv = Ok () /\ epoch <= I64_MAX /\
  validate_plaintext_payload plaintext = Ok () /\ rs <> [] /\ (length rs <= 256)%nat /\
  exists encoded c ws bytes,
    jcs_to_vec plaintext = Ok encoded /\
    aead_encrypt (rnd_content_key rnd) (bn (rnd_content_nonce rnd)) encoded
      (content_aad conv epoch) = Ok c /\
    wrap_all conv epoch (rnd_ephemeral rnd) (rnd_content_key rnd) [] rs = Ok ws /\
    jcs_to_vec {| e_version := 1; e_epoch := epoch;
       e_ephemeral_public_key := hex_encode (bn (x25519_public (rnd_ephemeral rnd)));
       e_content_nonce := b64_encode (bn (rnd_content_nonce rnd));
       e_ciphertext := b64_encode c; e_recipients := ws |} = Ok bytes /\
    out = Ciphertext (b64_encode bytes).
Proof.
  unfold encrypt_e2e. destruct (validate_conversation_id conv) as [[]|]; [|done].
  cbn [mbind result_bind]. destruct (Z.ltb_spec I64_MAX epoch); [done|].
  cbn [bail_if mbind result_bind]. destruct (validate_plaintext_payload plaintext) as [[]|]; [|done].
  cbn [mbind result_bind]. case_bool_decide; [done|]. cbn [orb].
  destruct (Nat.ltb_spec 256 (length rs)); [done|]. cbn [bail_if mbind result_bind].
  destruct (jcs_to_vec plaintext) as [encoded|]; [|done].
  cbn [of_text context map_err mbind result_bind].
  destruct (aead_encrypt _ _ _ _) as [c|] eqn:Ec; [|done]. cbn [map_err mbind result_bind].
  destruct (wrap_all _ _ _ _ _ _) as [ws|] eqn:Ew; [|done]. cbn [mbind result_bind].
  destruct (jcs_to_vec {| e_version := 1 |}) as [bytes|] eqn:Eb; [|done].
  cbn [of_text context map_err mbind result_bind]. intros [= <-].
  split_and!; [done..|]. by exists encoded, c, ws, bytes.
Qed.

Lemma wrap_for_opens conv epoch eph ck n r w secret :
  wrap_for conv epoch eph ck n r = Ok w ->
  hex_decode (r_public_key r) = Ok (bn (x25519_public secret)) ->
  let shared := diffie_hellman secret (x25519_public eph) in
  let aad := wrap_aad conv epoch (r_key_id r) in
  was_contributory shared = true /\ w_nonce w = b64_encode (bn n) /\
  exists wk enc, hkdf_sha256 (utf8 conv) (bn shared) aad = Ok wk /\
    w_ciphertext w = b64_encode enc /\ aead_decrypt wk (bn n) enc aad = Ok (bn ck).
Proof.
  intros E Hd. cbn zeta. unfold wrap_for in E. rewrite Hd in E.
  cbn [of_text context map_err mbind result_bind] in E. rewrite mk_bytesN_bn in E.
  cbn [opt_context ok_or mbind result_bind] in E. rewrite dh_agree in E.
  destruct (was_contributory _) eqn:Hc; [|done]. cbn [negb bail_if mbind result_bind] in E.
  destruct (hkdf_sha256 _ _ _) as [wk|] eqn:Ek; [|done]. cbn [map_err mbind result_bind] in E.
  destruct (aead_encrypt _ _ _ _) as [enc|] eqn:Ee; [|done]. cbn [map_err mbind result_bind] in E.
  injection E as <-. split_and!; [done..|]. exists wk, enc. split_and!; [done..|].
  by apply aead_roundtrip.
Qed.

(** The envelope of an encryption: what the checks of [decrypt_e2e] before the key agreement
    see in it. *)
Lemma open_envelope rnd conv epoch plaintext rs out :
  encrypt_e2e rnd conv epoch plaintext rs = Ok out ->
  exists b bytes env, out = Ciphertext b /\ b = b64_encode bytes /\ b <> [] /\
    json_from_slice bytes = Ok env /\ e_version env = 1 /\ e_epoch env = epoch.
Proof.
  intros E. destruct (encrypt_Ok _ _ _ _ _ _ E)
    as (_ & _ & _ & _ & _ & encoded & c & ws & bytes & _ & _ & _ & Eb & ->).
  eexists _, bytes, _. split_and!; [done|done| |by apply json_roundtrip|done|done].
  apply b64_nonempty. by eapply jcs_nonempty.
Qed.

Lemma b64_str_len s : forallb is_b64_char s = true -> str_len s = Z.of_nat (length s).
Proof.
  intros Hs. unfold str_len. f_equal. unfold utf8. apply forallb_Forall in Hs.
  induction Hs as [|x s Hx _ IH]; [done|].
  rewrite fmap_cons. change (mjoin (?a :: ?l)) with (a ++ mjoin l). rewrite length_app, IH.
  unfold is_b64_char, is_ascii_digit, is_ascii_lowercase, is_ascii_uppercase in Hx.
  unfold utf8_char. destruct (Z.ltb_spec x 128); [done|]. mlia.
Qed.
Lemma recipient_decrypts rnd conv epoch plaintext rs out n r secret :
  (forall b, jcs_to_vec plaintext = Ok b -> json_from_slice b = Ok plaintext) ->
  encrypt_e2e rnd conv epoch plaintext rs = Ok out -> (n, r) ∈ rs ->
  hex_decode (r_public_key r) = Ok (bn (x25519_public secret)) ->
  decrypt_e2e conv epoch out (r_key_id r) secret = Ok plaintext.
Proof.
  intros Hjson E Hin Hdec.
  destruct (encrypt_Ok _ _ _ _ _ _ E)
    as (Hv & He & Hp & Hne & Hlen & encoded & c & ws & bytes & Ej & Ec & Ew & Eb & ->).
  destruct (wrap_all_spec _ _ _ _ _ _ _ Ew) as (Hi & Hl & Hr).
  destruct (Hr n r Hin) as (_ & Hk & w & Hw & _ & Hf).
  destruct (wrap_for_opens _ _ _ _ _ _ _ _ Hw Hdec) as (Hc & Hn & wk & enc & Ek & Hx & Hopen).
  unfold decrypt_e2e. rewrite Hv. cbn [mbind result_bind].
  rewrite (proj2 (Z.ltb_ge _ _) He), Hk. cbn [orb bail_if mbind result_bind].
  rewrite b64_roundtrip. cbn [of_text context map_err mbind result_bind].
  rewrite (json_roundtrip _ _ Eb).
  cbn [of_text context map_err mbind result_bind e_version e_epoch e_recipients].
  rewrite !Z.eqb_refl. cbn [negb orb bail_if mbind result_bind].
  rewrite bool_decide_eq_false_2 by (intros ->; destruct rs; done).
  rewrite Hl, (proj2 (Nat.ltb_ge _ _) Hlen). cbn [orb bail_if mbind result_bind].
  rewrite Hi. cbn [bail_if mbind result_bind e_ephemeral_public_key].
  rewrite hex_decode_encode. cbn [of_text context map_err mbind result_bind].
  rewrite mk_bytesN_bn. cbn [opt_context ok_or mbind result_bind]. rewrite Hf.
  cbn [opt_context ok_or mbind result_bind]. rewrite Hc. cbn [negb bail_if mbind result_bind].
  rewrite Ek, Hn, Hx. cbn [map_err mbind result_bind]. rewrite !b64_roundtrip.
  cbn [of_text context map_err mbind result_bind]. rewrite !bn_length, Hopen.
  cbn [Nat.eqb negb bail_if map_err mbind result_bind]. rewrite mk_bytesN_bn.
  cbn [opt_context ok_or mbind result_bind e_content_nonce e_ciphertext]. rewrite !b64_roundtrip.
  cbn [of_text context map_err mbind result_bind]. rewrite !bn_length.
  cbn [Nat.eqb negb bail_if map_err mbind result_bind]. rewrite (aead_roundtrip _ _ _ _ _ Ec).
  cbn [map_err mbind result_bind]. rewrite (Hjson _ Ej).
  cbn [of_text context map_err mbind result_bind]. by rewrite Hp.
Qed.

(** C23: Every recipient of an encrypted message reads it, and reads it only in its context.
    When encryption succeeds, each recipient whose listed public key is that of its secret
    decrypts, in the same conversation and epoch, exactly the plaintext (whose canonical
    JSON is assumed to parse back); the result is a ciphertext that passes the message checks
    for its epoch; under any other epoch decryption is refused. *)
Theorem e2e_roundtrip rnd conv epoch plaintext rs out :
  (forall b, jcs_to_vec plaintext = Ok b -> json_from_slice b = Ok plaintext) ->
  encrypt_e2e rnd conv epoch plaintext rs = Ok out ->
  (forall n r secret, (n, r) ∈ rs ->
     hex_decode (r_public_key r) = Ok (bn (x25519_public secret)) ->
     decrypt_e2e conv epoch out (r_key_id r) secret = Ok plaintext) /\
  validate_message_payload out (Some epoch) = Ok () /\
  (forall conv' epoch' id secret, epoch' <> epoch ->
     is_ok (decrypt_e2e conv' epoch' out id secret) = false).
Proof.
  intros Hjson E. split; [|split].
  - intros n r secret. by apply (recipient_decrypts rnd).
  - destruct (open_envelope _ _ _ _ _ _ E) as (b & bytes & env & -> & -> & Hb & _).
    cbn [validate_message_payload]. rewrite !bool_decide_eq_false_2 by done. cbn [orb].
    rewrite b64_str_len by apply b64_chars.
    rewrite (proj2 (Z.eqb_neq _ _)) by apply b64_length. by rewrite b64_chars.
  - intros conv' epoch' id secret Hne.
    destruct (open_envelope _ _ _ _ _ _ E) as (b & bytes & env & -> & -> & _ & Hj & Hver & Hep).
    unfold decrypt_e2e. destruct (validate_conversation_id conv') as [[]|]; [|done].
    cbn [mbind result_bind]. destruct (bail_if _ "E2E epoch or recipient key ID is invalid") as [[]|];
      [|done]. cbn [mbind result_bind]. rewrite b64_roundtrip.
    cbn [of_text context map_err mbind result_bind]. rewrite Hj.
    cbn [of_text context map_err mbind result_bind]. rewrite Hver, Hep, Z.eqb_refl.
    rewrite (proj2 (Z.eqb_neq _ _)) by congruence. done.
Qed.
End E2eProofs.

(** *** Signed lines *)

(** A line: characters other than the newline. *)
Definition line_char (c : Z) : Prop := is_scalar c /\ c <> 10.
Definition clean (s : rstr) : Prop := Forall line_char s.

Lemma clean_scalar s : clean s -> Forall is_scalar s.
Proof. intros Hs. eapply Forall_impl; [exact Hs|]. by intros c []. Qed.
Lemma clean_no_newline s : clean s -> 10 ∉ s.
Proof. unfold clean. rewrite Forall_forall. intros Hs Hin. by destruct (Hs 10 Hin). Qed.
Lemma clean_app a b : clean a -> clean b -> clean (a ++ b).
Proof. intros. by apply Forall_app. Qed.
Lemma clean_lit s : forallb (fun c => negb (c =? 10)) (lit s) = true -> clean (lit s).
Proof.
  rewrite forallb_Forall. intros Hn. pose proof (lit_scalar s) as Hs. unfold clean.
  rewrite Forall_forall in Hn, Hs |- *. intros c Hc. split; [by apply Hs|].
  specialize (Hn c Hc). cbn in Hn. mlia.
Qed.
Lemma clean_show_u n : clean (show_u n).
Proof.
  eapply Forall_impl; [apply show_u_digits|]. intros c Hc. unfold is_ascii_digit in Hc.
  unfold line_char, is_scalar. mlia.
Qed.
Lemma clean_show_i n : clean (show_i n).
Proof.
  unfold show_i. destruct (n <? 0); [|apply clean_show_u]. constructor; [|apply clean_show_u].
  by unfold line_char, is_scalar.
Qed.
Lemma clean_hex `{HexLaws} b : clean (hex_encode b).
Proof.
  unfold clean. rewrite Forall_forall. intros c Hc%hex_encode_digits.
  unfold line_char, is_scalar. lia.
Qed.
Lemma clean_lower_hex s : forallb is_lower_hex s = true -> clean s.
Proof.
  rewrite forallb_Forall. intros Hs. eapply Forall_impl; [exact Hs|]. cbn. intros c Hc.
  unfold is_lower_hex, is_ascii_digit in Hc. unfold line_char, is_scalar. mlia.
Qed.
Lemma clean_uuid `{UuidLaws} u : clean (uuid_to_string u).
Proof.
  unfold clean. rewrite Forall_forall. intros c Hc%uuid_chars. unfold line_char, is_scalar. lia.
Qed.
(** A text without control characters. *)
Lemma clean_printable s : Forall is_scalar s -> existsb is_control s = false -> clean s.
Proof.
  intros Hs Hc. unfold clean. rewrite Forall_forall in Hs |- *. intros c Hin.
  split; [by apply Hs|]. intros ->. apply not_true_iff_false in Hc. apply Hc, existsb_exists.
  exists 10. by rewrite <- list_elem_of_In.
Qed.
Lemma clean_conversation_id v : validate_conversation_id v = Ok () -> clean v.
Proof.
  intros [_ Hv]%bail_if_Ok%orb_false_iff. apply clean_lower_hex. by apply negb_false_iff.
Qed.
Lemma clean_address v : validate_address v = Ok () -> clean v.
Proof.
  unfold validate_address. destruct (strip_prefix _ v) as [body|] eqn:E; [|done].
  cbn [opt_context ok_or mbind result_bind]. apply strip_prefix_Some in E as ->.
  intros [_ Hv]%bail_if_Ok%orb_false_iff. apply clean_app; [by apply clean_lit|].
  apply clean_lower_hex. by apply negb_false_iff.
Qed.

Lemma join_scalar l : Forall clean l -> Forall is_scalar (join [10] l).
Proof.
  induction 1 as [|x l Hx Hl IH]; [constructor|]. destruct l as [|y l]; [by apply clean_scalar|].
  change (join [10] (x :: y :: l)) with (x ++ 10 :: join [10] (y :: l)).
  apply Forall_app. split; [by apply clean_scalar|]. by constructor.
Qed.
(** Signed bytes determine their lines. *)
Lemma signed_lines_inj l1 l2 :
  l1 <> [] -> l2 <> [] -> Forall clean l1 -> Forall clean l2 ->
  utf8 (join [10] l1) = utf8 (join [10] l2) -> l1 = l2.
Proof.
  intros N1 N2 C1 C2 E. apply utf8_inj in E; [|by apply join_scalar..].
  apply (join_inj 10); [done|done| | |done].
  - eapply Forall_impl; [exact C1|]. apply clean_no_newline.
  - eapply Forall_impl; [exact C2|]. apply clean_no_newline.
Qed.

Section SigningProofs.
Context `{Digests, HexLaws, Ed25519Laws, UuidLaws, X25519, JsonCodec MessagePayload}.

Lemma sign_message_Ok id t op del conv sender p reply ep r :
  sign_message id t op del conv sender p reply ep = Ok r ->
  clean conv /\ clean sender /\
  exists d, payload_digest p = Ok d /\
  message_lines conv sender r d
  = [MESSAGE_DOMAIN; conv; uuid_to_string id; sender; show_i t;
     default [] (uuid_to_string <$> reply); default [] (show_u <$> ep); d; uuid_to_string del] /\
  signature r = hex_encode (bn (keypair_sign op (message_signing_bytes conv sender r d))).
Proof.
  unfold sign_message. destruct (validate_conversation_id conv) as [[]|] eqn:Ec; [|done].
  cbn [mbind result_bind]. destruct (validate_address sender) as [[]|] eqn:Es; [|done].
  cbn [mbind result_bind]. destruct (bail_if _ _) as [[]|]; [|done]. cbn [mbind result_bind].
  destruct (validate_message_payload p ep) as [[]|]; [|done]. cbn [mbind result_bind].
  destruct (payload_digest p) as [d|]; [|done]. cbn [mbind result_bind]. intros [= <-].
  split; [by apply clean_conversation_id|]. split; [by apply clean_address|].
  exists d. split_and!; done.
Qed.
Lemma payload_digest_clean p d : payload_digest p = Ok d -> clean d.
Proof.
  unfold payload_digest. destruct (jcs_to_vec p); [|done]. cbn. intros [= <-]. apply clean_hex.
Qed.
Lemma message_lines_clean id t op del conv sender p reply ep r d :
  sign_message id t op del conv sender p reply ep = Ok r -> payload_digest p = Ok d ->
  Forall clean (message_lines conv sender r d).
Proof.
  intros Er Ed. destruct (sign_message_Ok _ _ _ _ _ _ _ _ _ _ Er)
    as (Hc & Hs & d' & Ed' & L & _).
  assert (d' = d) as -> by congruence. rewrite L.
  rewrite !Forall_cons. split_and!; try done.
  - by apply clean_lit.
  - apply clean_uuid.
  - apply clean_show_i.
  - destruct reply; cbn; [apply clean_uuid|constructor].
  - destruct ep; cbn; [apply clean_show_u|constructor].
  - by eapply payload_digest_clean.
  - apply clean_uuid.
Qed.
Lemma optional_uuid_inj (a b : option (bytesN 16)) :
  default [] (uuid_to_string <$> a) = default [] (uuid_to_string <$> b) -> a = b.
Proof.
  destruct a as [a|], b as [b|]; cbn; intros E; [f_equal; by apply uuid_inj| | |done];
    apply (f_equal length) in E; by rewrite uuid_length in E.
Qed.
Lemma optional_epoch_inj (a b : option Z) :
  from_option is_u64 True a -> from_option is_u64 True b ->
  default [] (show_u <$> a) = default [] (show_u <$> b) -> a = b.
Proof.
  destruct a as [a|], b as [b|]; cbn; intros Ha Hb E; [| | |done].
  - f_equal. unfold is_u64 in *. apply show_u_inj; [lia..|done].
  - unfold is_u64 in *. apply show_u_nonempty in E; [done|lia].
  - unfold is_u64 in *. symmetry in E. apply show_u_nonempty in E; [done|lia].
Qed.

(** A message signature binds the message. The signature produced verifies over the signed
    bytes under the operational key, and two messages whose signed bytes agree agree in
    everything signed: conversation, message identifier, sender, time, reply target, key epoch,
    delegation and payload digest; and, where SHA-256 separates the canonical JSON of the two
    payloads and that JSON parses back, in the payload. *)
Theorem message_signature_binds id1 t1 op1 del1 conv1 from1 p1 reply1 ep1 r1 d1
    id2 t2 op2 del2 conv2 from2 p2 reply2 ep2 r2 d2 :
  sign_message id1 t1 op1 del1 conv1 from1 p1 reply1 ep1 = Ok r1 -> payload_digest p1 = Ok d1 ->
  sign_message id2 t2 op2 del2 conv2 from2 p2 reply2 ep2 = Ok r2 -> payload_digest p2 = Ok d2 ->
  from_option is_u64 True ep1 -> from_option is_u64 True ep2 ->
  message_signing_bytes conv1 from1 r1 d1 = message_signing_bytes conv2 from2 r2 d2 ->
  (exists sig, hex_decode (signature r1) = Ok (bn sig) /\
     pk_verify (keypair_public_key op1) (message_signing_bytes conv1 from1 r1 d1) sig = Ok ()) /\
  (conv1, id1, from1, t1, reply1, ep1, del1, d1) = (conv2, id2, from2, t2, reply2, ep2, del2, d2) /\
  ((forall b1 b2, jcs_to_vec p1 = Ok b1 -> jcs_to_vec p2 = Ok b2 ->
      json_from_slice b1 = Ok p1 /\ json_from_slice b2 = Ok p2 /\
      (sha256 b1 = sha256 b2 -> b1 = b2)) -> p1 = p2).
Proof.
  intros E1 Ed1 E2 Ed2 Hu1 Hu2 E.
  pose proof (message_lines_clean _ _ _ _ _ _ _ _ _ _ _ E1 Ed1) as C1.
  pose proof (message_lines_clean _ _ _ _ _ _ _ _ _ _ _ E2 Ed2) as C2.
  apply signed_lines_inj in E; [|done..].
  destruct (sign_message_Ok _ _ _ _ _ _ _ _ _ _ E1) as (_ & _ & d1' & Ed1' & L1 & Hs1).
  destruct (sign_message_Ok _ _ _ _ _ _ _ _ _ _ E2) as (_ & _ & d2' & Ed2' & L2 & _).
  assert (d1' = d1) as -> by congruence. assert (d2' = d2) as -> by congruence.
  rewrite L1, L2 in E. injection E as -> Ei -> Et Er Ee -> Edl.
  apply uuid_inj in Ei as ->. apply uuid_inj in Edl as ->. apply show_i_inj in Et as ->.
  apply optional_uuid_inj in Er as ->. apply optional_epoch_inj in Ee as ->; [|done..].
  split; [|split; [done|]].
  - eexists. rewrite Hs1, hex_decode_encode. split; [done|]. apply keypair_sign_verify.
  - intros Hj. unfold payload_digest in Ed1, Ed2.
    destruct (jcs_to_vec p1) as [b1|] eqn:J1; [|done]. destruct (jcs_to_vec p2) as [b2|] eqn:J2; [|done].
    destruct (Hj b1 b2 eq_refl eq_refl) as (R1 & R2 & Hsep). cbn in Ed1, Ed2.
    assert (b1 = b2) as ->; [|congruence]. apply Hsep, bytesN_eq.
    assert (Ok (E:=rstr) (bn (sha256 b1)) = Ok (bn (sha256 b2))) as Eq; [|by injection Eq].
    rewrite <- !hex_decode_encode. f_equal. congruence.
Qed.

Lemma remove_dups_length (l : list rstr) : (length (remove_dups l) <= length l)%nat.
Proof. induction l as [|x l IH]; cbn; [done|]. case_decide; cbn; lia. Qed.
Lemma remove_dups_full (l : list rstr) : length (remove_dups l) = length l -> remove_dups l = l.
Proof.
  induction l as [|x l IH]; cbn; [done|]. pose proof (remove_dups_length l).
  case_decide; cbn; intros E; [lia|]. f_equal. apply IH. lia.
Qed.
Lemma btree_set_perm l : length (btree_set l) = length l -> btree_set l ≡ₚ l.
Proof.
  unfold btree_set. rewrite (Permutation_length (sort_by_perm _ _)). intros E.
  rewrite (sort_by_perm zlist_cmp), remove_dups_full by done. done.
Qed.
Lemma hex_encode_inj (a b : list byte) : hex_encode a = hex_encode b -> a = b.
Proof.
  intros E. assert (Ok (E:=rstr) a = Ok b) as Eq by (rewrite <- !hex_decode_encode; by f_equal).
  by injection Eq.
Qed.
Lemma hex_bn_inj {n} (a b : bytesN n) : hex_encode (bn a) = hex_encode (bn b) -> a = b.
Proof. intros E. by apply bytesN_eq, hex_encode_inj. Qed.

Definition options_scalar (o : CreateDelegationOptions) : Prop :=
  Forall is_scalar (s_network (o_subject o)) /\ Forall is_scalar (s_chain_id (o_subject o)) /\
  Forall is_scalar (o_home_service_id o).
Lemma create_delegation_Ok id nonce acc op ek o d :
  options_scalar o -> create_delegation id nonce acc op ek o = Ok d ->
  let caps := o_capabilities o in
  0 < o_expires_at_ms o - o_not_before_ms o /\
  sat_i64 (o_expires_at_ms o - o_not_before_ms o) <= MAX_DELEGATION_MS /\
  caps <> [] /\ btree_set caps ≡ₚ caps /\ Forall (fun c => c ∈ [lit "read"; lit "write"]) caps /\
  d_signature d = hex_encode (bn (keypair_sign acc (delegation_signing_bytes d))) /\
  (clean (s_network (o_subject o)) /\ clean (s_chain_id (o_subject o)) /\
   clean (s_id (o_subject o)) /\ clean (o_home_service_id o)) /\
  delegation_lines d
  = [DELEGATION_DOMAIN; show_u 1; uuid_to_string id; address_to_hex (keypair_address acc);
     hex_encode (bn (keypair_public_key acc)); s_network (o_subject o); s_chain_id (o_subject o);
     kind_as_str (s_kind (o_subject o)); s_id (o_subject o); o_home_service_id o;
     hex_encode (bn (keypair_public_key op)); hex_encode (bn ek);
     join (lit ",") (btree_set caps); show_i (o_not_before_ms o); show_i (o_expires_at_ms o);
     hex_encode (bn nonce)].
Proof.
  intros (Hn & Hc & Hs) E. cbn zeta. unfold create_delegation, validate_subject_ref in E.
  destruct (bail_if _ "conversation subject network or chain ID is invalid") as [[]|] eqn:E1; [|done].
  cbn [mbind result_bind] in E. destruct (validate_conversation_id _) as [[]|] eqn:Eid; [|done].
  cbn [context map_err mbind result_bind] in E.
  destruct (validate_service_id _) as [[]|] eqn:E2; [|done]. cbn [mbind result_bind] in E.
  destruct (validate_x25519_public_key ek) as [[]|]; [|done]. cbn [mbind result_bind] in E.
  destruct (bail_if _ "delegation validity must be positive and no longer than 31 days")
    as [[]|] eqn:E3; [|done]. cbn [mbind result_bind] in E.
  destruct (bail_if _ "delegation capabilities must be unique read/write values")
    as [[]|] eqn:E4; [|done]. cbn [mbind result_bind] in E.
  apply bail_if_Ok in E1, E3, E4. apply bail_if_Ok in E2.
  apply orb_false_iff in E1 as [E1 Hcc]. apply orb_false_iff in E1 as [E1 _].
  apply orb_false_iff in E1 as [E1 _]. apply orb_false_iff in E1 as [_ Hcn].
  apply orb_false_iff in E2 as [_ Hcs]. apply orb_false_iff in E3 as [Hv1 Hv2].
  apply orb_false_iff in E4 as [E4 Hc3]. apply orb_false_iff in E4 as [Hc1 Hc2].
  apply bool_decide_eq_false in Hc1.
  apply negb_false_iff, Nat.eqb_eq, btree_set_perm in Hc2.
  apply Z.leb_gt in Hv1. apply Z.ltb_ge in Hv2.
  assert (Forall (fun c => c ∈ [lit "read"; lit "write"]) (btree_set (o_capabilities o))) as Hrw.
  { apply Forall_forall. intros c Hin. apply not_true_iff_false in Hc3.
    destruct (decide (c ∈ [lit "read"; lit "write"])) as [|Hx]; [done|]. exfalso.
    apply Hc3, existsb_exists. exists c. rewrite <- list_elem_of_In. split; [done|].
    by rewrite bool_decide_eq_false_2. }
  injection E as <-. cbn [d_signature].
  split; [lia|]. split; [done|]. split; [intros Ec; rewrite Ec in Hc1; done|].
  split; [done|]. split; [by rewrite <- Hc2|]. split; [done|]. split; [|done].
  split_and!; [by apply clean_printable|by apply clean_printable| |by apply clean_printable].
  by apply clean_conversation_id.
Qed.

Lemma clean_join_comma l :
  Forall (fun c => c ∈ [lit "read"; lit "write"]) l ->
  clean (join (lit ",") l) /\ Forall (fun c => 44 ∉ c) l.
Proof.
  intros Hl. assert (forall c, c ∈ [lit "read"; lit "write"] -> clean c /\ 44 ∉ c) as Hrw.
  { intros c. rewrite !elem_of_cons, elem_of_nil. intros [->|[->|[]]];
      (split; [by apply clean_lit|by apply (bool_decide_unpack _)]). }
  split; [|eapply Forall_impl; [exact Hl|]; cbn; intros c Hc; by apply Hrw].
  induction Hl as [|c l Hc Hl IH]; [constructor|]. destruct l as [|c' l]; [by apply Hrw|].
  change (join (lit ",") (c :: c' :: l)) with (c ++ lit "," ++ join (lit ",") (c' :: l)).
  apply clean_app; [by apply Hrw|]. apply clean_app; [by apply clean_lit|done].
Qed.
Lemma clean_address_text a : clean (address_to_hex a).
Proof. apply clean_app; [by apply clean_lit|apply clean_hex]. Qed.
Lemma delegation_lines_clean id nonce acc op ek o d :
  options_scalar o -> create_delegation id nonce acc op ek o = Ok d ->
  Forall clean (delegation_lines d).
Proof.
  intros Hs E. destruct (create_delegation_Ok _ _ _ _ _ _ _ Hs E)
    as (_ & _ & _ & Hp & Hrw & _ & (H1' & H2' & H3' & H4') & ->).
  rewrite <- Hp in Hrw. destruct (clean_join_comma _ Hrw) as [Hj _].
  rewrite !Forall_cons. split_and!; try done; try apply clean_hex.
  - by apply clean_lit.
  - apply clean_show_u.
  - apply clean_uuid.
  - apply clean_address_text.
  - by destruct (s_kind (o_subject o)); apply clean_lit.
  - apply clean_show_i.
  - apply clean_show_i.
Qed.
Lemma kind_as_str_inj a b : kind_as_str a = kind_as_str b -> a = b.
Proof. destruct a, b; cbn; intros E; first [done|by apply lit_inj in E]. Qed.

Lemma lines15_inj (a0 : rstr) a1 a2 a3 a4 a5 a6 a7 a8 a9 a10 a11 a12 a13 a14 a15 b1 b2 b3 b4 b5 b6 b7 b8 b9 b10 b11 b12 b13 b14 b15 :
  a0 :: [a1; a2; a3; a4; a5; a6; a7; a8; a9; a10; a11; a12; a13; a14; a15]
  = a0 :: [b1; b2; b3; b4; b5; b6; b7; b8; b9; b10; b11; b12; b13; b14; b15] ->
  (a2, a3, a4, a7, a8, a5, a6, a9)
  = (b2, b3, b4, b7, b8, b5, b6, b9) /\
  (a10, a11, a12, a13, a14, a15)
  = (b10, b11, b12, b13, b14, b15).
Proof. intros [= _ -> -> -> -> -> -> -> -> -> -> -> -> -> ->]. done. Qed.
Lemma capabilities_text_inj l1 l2 :
  l1 <> [] -> l2 <> [] -> Forall (fun c => c ∈ [lit "read"; lit "write"]) l1 ->
  Forall (fun c => c ∈ [lit "read"; lit "write"]) l2 ->
  join (lit ",") l1 = join (lit ",") l2 -> l1 = l2.
Proof.
  intros N1 N2 [_ C1]%clean_join_comma [_ C2]%clean_join_comma. change (lit ",") with [44].
  by apply join_inj.
Qed.
Lemma validity_bound x : 0 < x -> sat_i64 x <= MAX_DELEGATION_MS -> x <= MAX_DELEGATION_MS.
Proof. unfold sat_i64, I64_MAX, I64_MIN, MAX_DELEGATION_MS. lia. Qed.
Lemma subject_eq a b :
  s_network a = s_network b -> s_chain_id a = s_chain_id b -> s_kind a = s_kind b ->
  s_id a = s_id b -> a = b.
Proof. destruct a, b. cbn. by intros -> -> -> ->. Qed.
(** A key delegation binds what it grants. The delegation created is valid for a positive
    time of at most 31 days and carries a signature that verifies under the account's
    key; and two delegations whose signed bytes agree agree in the identifier, the account and its
    key, the subject, the service, the operational and encryption keys, the capabilities (as
    sets), the validity and the nonce. *)
Theorem delegation_binds id1 n1 acc1 op1 ek1 o1 d1 id2 n2 acc2 op2 ek2 o2 d2 :
  options_scalar o1 -> options_scalar o2 ->
  create_delegation id1 n1 acc1 op1 ek1 o1 = Ok d1 ->
  create_delegation id2 n2 acc2 op2 ek2 o2 = Ok d2 ->
  delegation_signing_bytes d1 = delegation_signing_bytes d2 ->
  (0 < o_expires_at_ms o1 - o_not_before_ms o1 <= MAX_DELEGATION_MS /\
   exists sig, hex_decode (d_signature d1) = Ok (bn sig) /\
     pk_verify (keypair_public_key acc1) (delegation_signing_bytes d1) sig = Ok ()) /\
  (id1, n1, keypair_address acc1, keypair_public_key acc1, keypair_public_key op1, ek1)
  = (id2, n2, keypair_address acc2, keypair_public_key acc2, keypair_public_key op2, ek2) /\
  (o_subject o1, o_home_service_id o1, o_not_before_ms o1, o_expires_at_ms o1)
  = (o_subject o2, o_home_service_id o2, o_not_before_ms o2, o_expires_at_ms o2) /\
  o_capabilities o1 ≡ₚ o_capabilities o2.
Proof.
  intros S1 S2 E1 E2 E. apply signed_lines_inj in E; [|done|done|
    exact (delegation_lines_clean _ _ _ _ _ _ _ S1 E1)|
    exact (delegation_lines_clean _ _ _ _ _ _ _ S2 E2)].
  destruct (create_delegation_Ok _ _ _ _ _ _ _ S1 E1) as (V & M & N1 & P1 & R1 & G & _ & L1).
  destruct (create_delegation_Ok _ _ _ _ _ _ _ S2 E2) as (_ & _ & N2 & P2 & R2 & _ & _ & L2).
  split.
  { split; [split; [exact V|by apply validity_bound]|].
    eexists. rewrite G, hex_decode_encode. split; [done|]. apply keypair_sign_verify. }
  rewrite L1, L2 in E.
  apply lines15_inj in E as [E E'].
  apply pair_equal_spec in E as [E Eh]. apply pair_equal_spec in E as [E Ec].
  apply pair_equal_spec in E as [E En]. apply pair_equal_spec in E as [E Ei].
  apply pair_equal_spec in E as [E Es]. apply pair_equal_spec in E as [E Ek].
  apply pair_equal_spec in E as [Eid Ea].
  apply pair_equal_spec in E' as [E' Enn]. apply pair_equal_spec in E' as [E' Et2].
  apply pair_equal_spec in E' as [E' Et1]. apply pair_equal_spec in E' as [E' Ej].
  apply pair_equal_spec in E' as [Eo Ee].
  apply uuid_inj in Eid as ->. apply address_to_hex_inj in Ea.
  apply hex_bn_inj in Ek, Eo, Ee, Enn.
  apply kind_as_str_inj in Es. apply show_i_inj in Et1, Et2.
  apply capabilities_text_inj in Ej.
  - split; [by rewrite Ea, Ek, Eo, Ee, Enn|]. split; [|by rewrite <- P1, <- P2, Ej].
    by rewrite (subject_eq _ _ En Ec Es Ei), Eh, Et1, Et2.
  - intros Hx. rewrite Hx in P1. by apply Permutation_nil_l in P1.
  - intros Hx. rewrite Hx in P2. by apply Permutation_nil_l in P2.
  - by rewrite P1.
  - by rewrite P2.
Qed.
End SigningProofs.

(** *** Profiles and interfaces *)
Section ProfileProofs.
Context `{Urls, Ips, Hex, JsonLaws ConversationProfileV2}.

Lemma check_interfaces_Ok seen ifs :
  check_interfaces seen ifs = Ok () ->
  exists ids, Forall2 (fun i id => interface_identity i = Ok id) ifs ids /\
    NoDup ids /\ Forall (fun id => id ∉ seen) ids.
Proof.
  revert seen. induction ifs as [|i ifs IH]; intros seen; cbn [check_interfaces].
  { intros _. exists []. split_and!; constructor. }
  destruct (interface_identity i) as [id|] eqn:Ei; [|done]. cbn [mbind result_bind].
  case_bool_decide as Hs; [done|]. cbn [bail_if mbind result_bind].
  intros (ids & Hf & Hn & Hx)%IH. exists (id :: ids). split; [by constructor|].
  rewrite Forall_forall in Hx. split.
  - apply NoDup_cons. split; [|done]. intros Hin. apply (Hx id Hin), list_elem_of_here.
  - constructor; [done|]. apply Forall_forall. intros x Hxin Hseen.
    apply (Hx x Hxin). by apply list_elem_of_further.
Qed.

(** What a profile that passes the checks is. *)
Definition profile_ok (p : ConversationProfileV2) : Prop :=
  version p = 2 /\ 1 ∈ protocol_versions p /\ NoDup (privacy_modes p) /\ privacy_modes p <> [] /\
  0 ∉ protocol_versions p /\ NoDup (protocol_versions p) /\
  (length (protocol_versions p) <= MAX_PROTOCOL_VERSIONS)%nat /\
  (1 <= length (interfaces p) <= 4)%nat /\
  (exists ids, Forall2 (fun i id => interface_identity i = Ok id) (interfaces p) ids /\ NoDup ids) /\
  exists bytes, jcs_to_vec p = Ok bytes /\ (length bytes <= METADATA_LIMIT)%nat.
Lemma remove_dups_NoDup_Z (l : list Z) :
  length (remove_dups l) = length l -> NoDup l.
Proof.
  assert (forall l : list Z, length (remove_dups l) <= length l)%nat as Hle.
  { intros k. induction k as [|x k IH]; cbn; [done|]. case_decide; cbn; lia. }
  induction l as [|x l IH]; cbn; [constructor|]. specialize (Hle l).
  case_decide; cbn; intros E; [lia|]. apply NoDup_cons. split; [done|]. apply IH. lia.
Qed.
Lemma validate_profile_Ok p : validate_conversation_profile p = Ok () -> profile_ok p.
Proof.
  unfold validate_conversation_profile. intros E.
  destruct (bail_if _ "unsupported conversation profile") as [[]|] eqn:E1; [|done].
  cbn [mbind result_bind] in E. destruct (validate_service_id _) as [[]|]; [|done].
  cbn [mbind result_bind] in E.
  destruct (bail_if _ "conversation profile capabilities must be non-empty and unique")
    as [[]|] eqn:E2; [|done]. cbn [mbind result_bind] in E.
  destruct (bail_if _ "conversation profile must advertise 1-4 interfaces") as [[]|] eqn:E3; [|done].
  cbn [mbind result_bind] in E. destruct (check_interfaces _ _) as [[]|] eqn:E4; [|done].
  cbn [mbind result_bind] in E. destruct (jcs_to_vec p) as [bytes|] eqn:Ej; [|done].
  cbn [of_text context map_err mbind result_bind] in E.
  apply bail_if_Ok in E, E1, E2, E3. apply orb_false_iff in E1 as [Ev Ep], E3 as [Ei1 Ei2].
  apply orb_false_iff in E2 as [E2 Eu]. apply orb_false_iff in E2 as [E2 Ez].
  apply orb_false_iff in E2 as [E2 Em]. apply orb_false_iff in E2 as [E2 _].
  apply orb_false_iff in E2 as [En Ed].
  apply negb_false_iff in Ev, Ep, Ed, Eu. apply Nat.eqb_eq in Eu. apply remove_dups_NoDup_Z in Eu.
  apply bool_decide_eq_true in Ep, Ed. apply bool_decide_eq_false in En, Ez, Ei1.
  apply Nat.ltb_ge in E, Em, Ei2. apply Z.eqb_eq in Ev.
  destruct (check_interfaces_Ok _ _ E4) as (ids & Hf & Hn & _).
  unfold profile_ok. split_and!; try done; [|by exists ids|by exists bytes].
  destruct (interfaces p); [done|]. cbn. lia.
Qed.
Lemma verify_profile_Ok a l : verify_conversation_service_profile a l = Ok () -> a = l.
Proof.
  unfold verify_conversation_service_profile.
  destruct (validate_conversation_profile a) as [[]|]; [|done]. cbn [mbind result_bind].
  destruct (validate_conversation_profile l) as [[]|]; [|done]. cbn [mbind result_bind].
  intros E%bail_if_Ok. by apply negb_false_iff, bool_decide_eq_true in E.
Qed.

(** Profiles survive the agent metadata they are published in. Metadata written for a profile
    is at most 4,096 bytes and reads back to that profile; metadata is accepted only
    for a profile of version 2 that lists protocol 1, distinct nonzero protocol versions,
    distinct privacy modes and one to four interfaces with distinct identities; and the live
    profile of a service is accepted only if it equals the advertised one. *)
Theorem profile_metadata_roundtrip p :
  (forall b, conversation_profile_metadata p = Ok b ->
     (length b <= METADATA_LIMIT)%nat /\ conversation_profile_from_metadata b = Ok p) /\
  (forall m, conversation_profile_from_metadata m = Ok p ->
     (length m <= METADATA_LIMIT)%nat /\ profile_ok p) /\
  (forall live, verify_conversation_service_profile p live = Ok () -> live = p).
Proof.
  split; [|split].
  - intros b E. unfold conversation_profile_metadata in E.
    destruct (validate_conversation_profile p) as [[]|] eqn:Ev; [|done].
    cbn [mbind result_bind] in E. destruct (jcs_to_vec p) as [bytes|] eqn:Ej; [|done].
    cbn [of_text context map_err mbind result_bind] in E.
    destruct (Nat.ltb_spec METADATA_LIMIT (length bytes)) as [|Hl]; [done|].
    cbn [bail_if mbind result_bind] in E. injection E as <-. split; [done|].
    unfold conversation_profile_from_metadata. rewrite (proj2 (Nat.ltb_ge _ _) Hl).
    cbn [bail_if mbind result_bind]. rewrite (json_roundtrip _ _ Ej).
    cbn [of_text context map_err mbind result_bind]. by rewrite Ev.
  - intros m E. unfold conversation_profile_from_metadata in E.
    destruct (Nat.ltb_spec METADATA_LIMIT (length m)) as [|Hl]; [done|]. split; [done|].
    cbn [bail_if mbind result_bind] in E. destruct (json_from_slice m) as [q|]; [|done].
    cbn [of_text context map_err mbind result_bind] in E.
    destruct (validate_conversation_profile q) as [[]|] eqn:Ev; [|done]. injection E as <-.
    by apply validate_profile_Ok.
  - intros live E. symmetry. by apply verify_profile_Ok.
Qed.

(** An interface the choice may pass over. *)
Definition passed_over (live : ConversationClient -> result error ConversationProfileV2)
    (policy : ConversationTransportPolicy) (i : ConversationInterface) : Prop :=
  interface_url policy i = None \/
  (policy = Auto /\ exists u c e, interface_url policy i = Some (Ok u) /\ with_http u = Ok c /\
     live c = Err e /\ is_reachability_error e = true).
Lemma try_interfaces_Ok live policy p sup un ifs c :
  (answered live (try_interfaces policy p sup un ifs)).2 = Ok c ->
  exists before i after u c0, ifs = before ++ i :: after /\
    interface_url policy i = Some (Ok u) /\ with_http u = Ok c0 /\ live c0 = Ok p /\
    c = {| base_url := base_url c0; access_token := None |} /\
    Forall (passed_over live policy) before.
Proof.
  revert sup un. induction ifs as [|i ifs IH]; intros sup un; cbn [try_interfaces].
  { by destruct sup. }
  destruct (interface_url policy i) as [r|] eqn:Ei.
  - destruct r as [u|]; [|done]. cbn [mbind result_bind].
    destruct (with_http u) as [c0|] eqn:Eh; [|done]. cbn [answered].
    destruct (live c0) as [q|e] eqn:El.
    + cbn [answered snd]. destruct (verify_conversation_service_profile p q) as [[]|] eqn:Ev; [|done].
      cbn [mbind result_bind]. intros [= <-]. apply verify_profile_Ok in Ev as <-.
      exists [], i, ifs, u, c0. split_and!; [done..|constructor].
    + case_bool_decide as Hp; [|done]. destruct (is_reachability_error e) eqn:Er; [|done].
      cbn [andb]. specialize (IH true (un ++ [url_text (base_url c0)])).
      destruct (answered live _) as [asked x]. cbn [snd] in *.
      intros (before & j & after & u' & c' & -> & ? & ? & ? & ? & Hf)%IH.
      exists (i :: before), j, after, u', c'. split_and!; [done..|].
      constructor; [|done]. right. split; [done|]. by exists u, c0, e.
  - intros (before & j & after & u' & c' & -> & ? & ? & ? & ? & Hf)%IH.
    exists (i :: before), j, after, u', c'. split_and!; [done..|]. constructor; [by left|done].
Qed.
(** Only interfaces of the profile that the policy allows are asked, each without a token. *)
Definition allowed (policy : ConversationTransportPolicy) (ifs : list ConversationInterface)
    (c : ConversationClient) : Prop :=
  exists i u, i ∈ ifs /\ interface_url policy i = Some (Ok u) /\ with_http u = Ok c.
Lemma try_interfaces_asks live policy p sup un ifs :
  Forall (allowed policy ifs) (answered live (try_interfaces policy p sup un ifs)).1.
Proof.
  revert sup un. induction ifs as [|i ifs IH]; intros sup un; cbn [try_interfaces]; [constructor|].
  assert (forall sup un, Forall (allowed policy (i :: ifs))
    (answered live (try_interfaces policy p sup un ifs)).1) as Hlater.
  { intros sup' un'. eapply Forall_impl; [apply IH|]. intros c (j & u & ? & ?).
    exists j, u. split; [by right|done]. }
  destruct (interface_url policy i) as [r|] eqn:Ei; [|apply Hlater].
  destruct r as [u|]; [|constructor]. cbn [mbind result_bind].
  destruct (with_http u) as [c0|] eqn:Eh; [|constructor]. cbn [answered].
  assert (allowed policy (i :: ifs) c0) as Hhere by (exists i, u; split_and!; [by left|done..]).
  destruct (live c0) as [q|e]; [by repeat constructor|]. destruct (_ && _); [|by repeat constructor].
  specialize (Hlater true (un ++ [url_text (base_url c0)])).
  destruct (answered live _) as [asked x]. by constructor.
Qed.
Lemma from_profile_asks live p policy :
  Forall (allowed policy (interfaces p)) (answered live (ask_from_profile p policy)).1.
Proof.
  unfold ask_from_profile. destruct (validate_conversation_profile p); [|constructor].
  apply try_interfaces_asks.
Qed.
Lemma with_http_token u c : with_http u = Ok c -> access_token c = None.
Proof. unfold with_http. intros (_ & _ & [= <-])%bind_Ok. done. Qed.

(** C24: A client is bound to the profile it was built from. The client comes from the first
    interface that the policy allows and that was not passed over; it carries no
    access token, its service's live profile is exactly the advertised one; and an allowed
    interface is passed over only under the automatic policy and only when it could not be
    reached, never for a TLS failure, an answer or a different profile. *)
Theorem from_profile_authenticated live p policy c :
  from_profile live p policy = Ok c ->
  profile_ok p /\ access_token c = None /\
  exists before i after u c0, interfaces p = before ++ i :: after /\
    interface_url policy i = Some (Ok u) /\ with_http u = Ok c0 /\ live c0 = Ok p /\
    base_url c = base_url c0 /\
    Forall (fun j => interface_url policy j = None \/
      (policy = Auto /\ exists uj cj e, interface_url policy j = Some (Ok uj) /\
         with_http uj = Ok cj /\ live cj = Err e /\ is_reachability_error e = true /\
         CRustls ∉ e)) before.
Proof.
  unfold from_profile, ask_from_profile.
  destruct (validate_conversation_profile p) as [[]|] eqn:Ev; [|done]. intros E. split; [by apply validate_profile_Ok|].
  destruct (try_interfaces_Ok _ _ _ _ _ _ _ E) as (before & i & after & u & c0 & Hi & Hu & Hh & Hl & -> & Hf).
  split; [done|]. exists before, i, after, u, c0. split_and!; [done..|].
  eapply Forall_impl; [exact Hf|]. intros j [Hj|(Hp & uj & cj & e & H1' & H2' & H3' & H4')];
    [by left|]. right. split; [done|]. exists uj, cj, e. split_and!; [done..|].
  intros Hin. unfold is_reachability_error in H4'.
  assert (existsb (fun c => match c with CRustls => true | _ => false end) e = true) as Ht.
  { apply existsb_exists. exists CRustls. split; [by apply list_elem_of_In|done]. }
  rewrite Ht in H4'. destruct (List.find _ _) as [[]|]; done.
Qed.
End ProfileProofs.

(** *** Pinned certificates *)

Lemma checked_mul_Some a b c : checked_mul_i64 a b = Some c <-> c = a * b /\ is_i64 (a * b).
Proof.
  unfold checked_mul_i64, is_i64. destruct (Z.leb_spec I64_MIN (a * b)), (Z.leb_spec (a * b) I64_MAX);
    cbn; (split; [intros [= <-]|intros [-> ?]]); try done; lia.
Qed.

(** A server certificate is accepted exactly when its SHA-256 is pinned, the first pin with
    that digest is current within five minutes of clock skew, and the certificate's own
    validity is the pin's, to the millisecond. *)
Theorem pinned_certificate_iff `{Digests} parse_x509 now pins cert :
  is_i64 now -> Forall (fun p => is_i64 (pp_from p) /\ is_i64 (pp_to p)) pins ->
  verify_server_cert parse_x509 now pins cert = Ok () <->
  exists p from to, List.find (fun p => bool_decide (sha256 cert = pp_digest p)) pins = Some p /\
    pp_from p - CLOCK_SKEW_MS <= now <= pp_to p + CLOCK_SKEW_MS /\
    parse_x509 cert = Some (from, to) /\ from * 1000 = pp_from p /\ to * 1000 = pp_to p.
Proof.
  intros Hn Hp. unfold verify_server_cert.
  destruct (List.find _ pins) as [p|] eqn:Ef; cbn [ok_or mbind result_bind];
    [|split; [done|by intros (? & ? & ? & ? & _)]].
  apply List.find_some in Ef as [Hin _]. apply list_elem_of_In in Hin.
  rewrite Forall_forall in Hp. destruct (Hp p Hin) as [Hb Ha].
  assert (negb ((sat_i64 (now + CLOCK_SKEW_MS) <? pp_from p)
                || (pp_to p <? sat_i64 (now - CLOCK_SKEW_MS))) = true
          <-> pp_from p - CLOCK_SKEW_MS <= now <= pp_to p + CLOCK_SKEW_MS) as Hskew.
  { unfold sat_i64, CLOCK_SKEW_MS, is_i64, I64_MAX, I64_MIN in *.
    rewrite negb_true_iff, orb_false_iff, !Z.ltb_ge. lia. }
  destruct (negb _) eqn:Eg; cbn [ensure mbind result_bind].
  2: { split; [done|]. intros (q & from & to & [= <-] & Hx & _). by apply Hskew in Hx. }
  destruct (parse_x509 cert) as [[from to]|]; cbn [ok_or mbind result_bind fst snd];
    [|split; [done|by intros (? & ? & ? & _ & _ & ? & _)]].
  split.
  - destruct (checked_mul_i64 from 1000) as [f|] eqn:E1; [|done]. cbn [ok_or mbind result_bind].
    destruct (checked_mul_i64 to 1000) as [t|] eqn:E2; [|done]. cbn [ok_or mbind result_bind].
    apply checked_mul_Some in E1 as [-> _], E2 as [-> _].
    case_bool_decide as Hv; [|done]. injection Hv as Hf Ht. intros _. exists p, from, to.
    split_and!; try done; by apply Hskew.
  - intros (q & f & t & [= <-] & _ & [= <- <-] & Hf & Ht).
    assert (checked_mul_i64 from 1000 = Some (from * 1000)) as ->
      by (apply checked_mul_Some; split; [done|congruence]).
    assert (checked_mul_i64 to 1000 = Some (to * 1000)) as ->
      by (apply checked_mul_Some; split; [done|congruence]).
    cbn [ok_or mbind result_bind]. rewrite bool_decide_eq_true_2 by congruence. done.
Qed.
End Conversation.

(** ** Witnesses *)
Module ConversationInstances.
Import Anyhow Conversation.

Definition table_jcs {T} `{EqDecision T} (xs : list T) (x : T) : result rstr (list byte) :=
  b ← table_serialize xs x; Ok (x02 :: b).
Definition table_json_parse {T} (xs : list T) (b : list byte) : result rstr T :=
  match b with x02 :: b' => table_deserialize xs b' | _ => Err [] end.
(** The canonical texts of the values of a table. *)
Definition table_json {T} `{EqDecision T} (xs : list T) : JsonCodec T :=
  {| jcs_to_vec := table_jcs xs; json_from_slice := table_json_parse xs |}.
Lemma table_json_laws {T} `{EqDecision T} (xs : list T) :
  @JsonLaws T (table_json xs).
Proof.
  split; intros x b; cbn; unfold table_jcs.
  - pose proof (table_roundtrip xs x) as Hr. destruct (table_serialize xs x) as [c|]; [|done]. cbn. intros [= <-]. by apply Hr.
  - destruct (table_serialize xs x); [|done]. cbn. by intros [= <-].
Qed.

#[global] Instance plain_uuids : Uuids :=
  { uuid_to_string := fun u => hex_encode (bn u) ++ lit "----" }.
#[global] Instance plain_uuid_laws : UuidLaws.
Proof.
  split; unfold uuid_to_string, plain_uuids.
  - intros a b E. apply app_inv_tail in E. by apply hex_bn_inj.
  - intros a. rewrite length_app.
    rewrite (hex_decode_length _ _ (hex_decode_encode (bn a))), bn_length. done.
  - intros a c. rewrite elem_of_app. intros [Hc|Hc].
    + apply hex_encode_digits in Hc. lia.
    + change (lit "----") with (replicate 4 45) in Hc. apply elem_of_replicate in Hc as [-> _].
      lia.
Qed.

(** Secrets are their public keys, and keys agree on the sum of their bytes. *)
#[global] Instance plain_x25519 : X25519 := {
  x25519_public := fun a => a;
  diffie_hellman := fun a b =>
    pad_bytesN 32 (zip_with (fun x y => byte_of (byte_val x + byte_val y)) (bn a) (bn b));
  was_contributory := fun _ => true;
}.
#[global] Instance plain_x25519_laws : X25519Laws.
Proof.
  intros a b. unfold diffie_hellman, x25519_public, plain_x25519. f_equal.
  generalize (bn a) (bn b). induction l as [|x l IH]; intros [|y l']; try done.
  cbn [zip_with]. by rewrite Z.add_comm, IH.
Qed.
#[global] Instance plain_hkdf : Hkdf :=
  { hkdf_sha256 := fun salt key info => Ok (checksum 91 (salt ++ key ++ info)) }.
(** Hexadecimal text is URL-safe. *)
#[global] Instance plain_base64 : Base64 := {
  b64_encode := plain_hex_encode;
  b64_decode := plain_hex_decode;
}.
#[global] Instance plain_base64_laws : Base64Laws.
Proof.
  split; unfold b64_encode, b64_decode, plain_base64.
  - exact plain_hex_decode_encode.
  - intros b. apply forallb_forall. intros c Hc%list_elem_of_In%plain_hex_encode_digits.
    unfold is_b64_char, is_ascii_digit, is_ascii_lowercase, is_ascii_uppercase.
    destruct Hc as [[H1 H2]|[H1 H2]].
    + by rewrite !(proj2 (Z.leb_le _ _)) by lia.
    + rewrite (proj2 (Z.leb_le 97 c)), (proj2 (Z.leb_le c 122)) by lia. by rewrite orb_true_r.
  - done.
  - intros b. rewrite (plain_hex_decode_length _ _ _ (le_n _) (plain_hex_decode_encode b)).
    Z.to_euclidean_division_equations. lia.
Qed.

(** URLs of one host. *)
#[global] Instance plain_urls : Urls := {
  Url := rstr;
  url_parse := fun t => if starts_with (lit "https://") t then Ok t else Err (lit "relative URL");
  url_scheme := fun _ => lit "https";
  url_username := fun _ => [];
  url_password := fun _ => None;
  url_host := fun u => Some (drop 8 u);
  url_path := fun _ => lit "/";
  url_query := fun _ => None;
  url_fragment := fun _ => None;
  url_set_path := fun _ u => u;
  url_clear_query := fun u => u;
  url_clear_fragment := fun u => u;
  url_text := fun u => u;
}.
#[global] Instance plain_ips : Ips := {
  IpAddr := rstr;
  ip_parse := fun _ => Err (lit "invalid IP address syntax");
  ip_text := fun a => a;
  is_loopback := fun _ => false;
  is_ipv6 := fun _ => false;
}.
End ConversationInstances.

Module ConversationWitness.
Import Anyhow Conversation ConversationInstances.

Definition hex64 : rstr := hex_encode (replicate 32 x11).
Definition text0 : MessagePayload := Plaintext [Text (lit "hello")].
#[local] Instance payload_json : JsonCodec MessagePayload := table_json [text0].
Definition alice : bytesN 32 := pad_bytesN 32 [x61].
Definition bob : bytesN 32 := pad_bytesN 32 [x62].
Definition random0 : e2e_random :=
  {| rnd_ephemeral := pad_bytesN 32 [x65]; rnd_content_key := pad_bytesN 32 [x63];
     rnd_content_nonce := pad_bytesN 24 [x6e] |}.
Definition two : list (bytesN 24 * E2eRecipient) :=
  [(pad_bytesN 24 [x01], {| r_key_id := lit "alice"; r_public_key := hex_encode (bn alice) |});
   (pad_bytesN 24 [x02], {| r_key_id := lit "bob"; r_public_key := hex_encode (bn bob) |})].
Definition ok_or_default {A} (d : A) (r : result error A) : A :=
  match r with Ok a => a | Err _ => d end.
Definition envelope0 : E2eEnvelopeV1 :=
  {| e_version := 1; e_epoch := 7;
     e_ephemeral_public_key := hex_encode (bn (rnd_ephemeral random0));
     e_content_nonce := b64_encode (bn (rnd_content_nonce random0));
     e_ciphertext := b64_encode (match aead_encrypt (rnd_content_key random0)
        (bn (rnd_content_nonce random0)) [x02] (content_aad hex64 7) with Ok c => c | Err _ => [] end);
     e_recipients := ok_or_default []
        (wrap_all hex64 7 (rnd_ephemeral random0) (rnd_content_key random0) [] two) |}.
#[local] Instance envelope_json : JsonCodec E2eEnvelopeV1 := table_json [envelope0].
#[local] Instance envelope_laws : JsonLaws E2eEnvelopeV1 := table_json_laws [envelope0].
Definition sealed : MessagePayload :=
  ok_or_default text0 (encrypt_e2e random0 hex64 7 text0 two).

(** Bob reads the message; a stranger does not. *)
Lemma e2e_roundtrip_witness :
  decrypt_e2e hex64 7 sealed (lit "bob") bob = Ok text0 /\
  is_ok (decrypt_e2e hex64 7 sealed (lit "bob") alice) = false.
Proof.
  split; [|by vm_compute].
  refine (proj1 (e2e_roundtrip random0 hex64 7 text0 two sealed _ _) (pad_bytesN 24 [x02])
    {| r_key_id := lit "bob"; r_public_key := hex_encode (bn bob) |} bob _ _).
  - intros b. exact (@json_roundtrip _ _ (table_json_laws [text0]) text0 b).
  - by vm_compute.
  - apply list_elem_of_further, list_elem_of_here.
  - apply hex_decode_encode.
Defined.

Definition sender0 : rstr := address_to_hex address_treasury.
Definition uuid0 : bytesN 16 := pad_bytesN 16 [x0a].
Definition blank : SubmitMessageRequest :=
  {| message_id := uuid0; client_timestamp_ms := 0; reply_to := None; key_epoch := None;
     payload := text0; signing_key_id := []; signature := [] |}.
Definition signed0 : SubmitMessageRequest :=
  ok_or_default blank
    (sign_message uuid0 5 alice uuid0 hex64 sender0 text0 (Some uuid0) None).
Lemma message_signature_binds_witness :
  exists sig, hex_decode (signature signed0) = Ok (bn sig) /\
    pk_verify (keypair_public_key alice)
      (message_signing_bytes hex64 sender0 signed0 (ok_or_default [] (payload_digest text0))) sig
    = Ok ().
Proof.
  set (d := ok_or_default [] (payload_digest text0)).
  refine (proj1 (message_signature_binds uuid0 5 alice uuid0 hex64 sender0 text0 (Some uuid0) None
    signed0 d uuid0 5 alice uuid0 hex64 sender0 text0 (Some uuid0) None signed0 d
    _ _ _ _ _ _ _)).
  - by vm_compute.
  - by vm_compute.
  - by vm_compute.
  - by vm_compute.
  - exact I.
  - exact I.
  - reflexivity.
Defined.

Definition options0 : CreateDelegationOptions :=
  {| o_subject := {| s_network := lit "vega"; s_chain_id := lit "zincha-vega-1";
                     s_kind := Agreement; s_id := hex64 |};
     o_home_service_id := lit "home"; o_not_before_ms := 0; o_expires_at_ms := 1000;
     o_capabilities := [lit "write"; lit "read"] |}.
Definition delegation0 : ConversationKeyDelegationV1 :=
  match create_delegation uuid0 uuid0 alice bob bob options0 with
  | Ok d => d
  | Err _ => {| d_version := 0; d_delegation_id := uuid0; d_participant_address := [];
      d_participant_public_key := []; d_subject := o_subject options0; d_home_service_id := [];
      d_operational_signing_key := []; d_encryption_key := []; d_capabilities := [];
      d_not_before_ms := 0; d_expires_at_ms := 0; d_nonce := []; d_signature := [] |}
  end.
Lemma options0_scalar : options_scalar options0.
Proof. split; [|split]; apply lit_scalar. Qed.
Lemma delegation_binds_witness :
  exists sig, hex_decode (d_signature delegation0) = Ok (bn sig) /\
    pk_verify (keypair_public_key alice) (delegation_signing_bytes delegation0) sig = Ok ().
Proof.
  refine (proj2 (proj1 (delegation_binds uuid0 uuid0 alice bob bob options0 delegation0
    uuid0 uuid0 alice bob bob options0 delegation0 options0_scalar options0_scalar _ _ _))).
  - by vm_compute.
  - by vm_compute.
  - reflexivity.
Defined.

Definition profile0 : ConversationProfileV2 :=
  {| version := 2; service_id := lit "home"; interfaces := [Https (lit "https://a"); Https (lit "https://b")];
     privacy_modes := [EndToEnd]; protocol_versions := [1] |}.
#[local] Instance profile_json : JsonCodec ConversationProfileV2 := table_json [profile0].
#[local] Instance profile_laws : JsonLaws ConversationProfileV2 := table_json_laws [profile0].
Lemma profile_metadata_roundtrip_witness :
  conversation_profile_from_metadata [x02] = Ok profile0.
Proof.
  refine (proj2 (proj1 (profile_metadata_roundtrip profile0) [x02] _)). by vm_compute.
Defined.

Definition url_b : @Url plain_urls := lit "https://b".
(** The first interface times out, the second answers with the profile. *)
Definition network (c : ConversationClient) : result error ConversationProfileV2 :=
  if bool_decide (url_text (base_url c) = lit "https://a") then Err [CReqwest true; CIo TimedOut]
  else Ok profile0.
Lemma from_profile_authenticated_witness :
  exists c, from_profile network profile0 Auto = Ok c /\ base_url c = url_b /\
    access_token c = None.
Proof.
  exists {| base_url := url_b; access_token := None |}.
  split; [by vm_compute|]. split; [by vm_compute|].
  refine (proj1 (proj2 (from_profile_authenticated network profile0 Auto _ _))).
  by vm_compute.
Defined.

Definition pin0 : parsed_pin := {| pp_digest := sha256 [x01]; pp_from := 1000; pp_to := 9000 |}.
Lemma pinned_certificate_iff_witness :
  verify_server_cert (fun _ => Some (1, 9)) 5000 [pin0] [x01] = Ok () /\
  is_ok (verify_server_cert (fun _ => Some (1, 9)) 500000 [pin0] [x01]) = false.
Proof.
  split; [|by vm_compute].
  refine (proj2 (pinned_certificate_iff (fun _ => Some (1, 9)) 5000 [pin0] [x01] _ _) _).
  - vm_compute. split; discriminate.
  - constructor; [|constructor]. split; (vm_compute; split; discriminate).
  - exists pin0, 1, 9. split; [by vm_compute|]. split; [vm_compute; split; discriminate|].
    split; [reflexivity|]. split; reflexivity.
Defined.
End ConversationWitness.
