(* ===== verification/Outbox.v ===== *)
(** * The conversation client's outbox and event stream

    Models the rest of zincha-client's [conversation.rs]: [FileOutbox], the durable queue of
    unsent messages over one file; the framing of server-sent events; the stream that
    follows a conversation across reconnections and resynchronisations; and the bounded
    reading of a response. File, network and JSON outcomes are arguments. *)
From S2P Require Import Prelude Crypto Keystore Conversation Instances.

Module Outbox.
Import Anyhow Conversation.

(** [serde_json::to_vec] and [from_slice] at one type. *)
Class SerdeJson (T : Type) := {
  json_to_vec : T -> result rstr (list byte);
  json_of_slice : list byte -> result rstr T;
}.
Class SerdeJsonLaws (T : Type) `{SerdeJson T} : Prop :=
  serde_roundtrip : forall (x : T) b, json_to_vec x = Ok b -> json_of_slice b = Ok x.

Definition DEFAULT_OUTBOX_MAX_ENTRIES : Z := 1000.
Definition DEFAULT_OUTBOX_MAX_BYTES : Z := 64 * 1024 * 1024.
Definition MAX_OUTBOX_ERROR_CHARS : nat := 1024.

Record QueuedMessage : Type := {
  q_conversation_id : rstr;
  q_request : SubmitMessageRequest;
  q_attempts : Z;
  q_next_attempt_ms : Z;
  q_last_error : option rstr;
}.
#[global] Instance QueuedMessage_eq_dec : EqDecision QueuedMessage.
Proof. solve_decision. Defined.
Definition q_id (m : QueuedMessage) : bytesN 16 := message_id (q_request m).

(** The limits of an outbox; its path is the file the operations are given. *)
Record FileOutbox : Type := { max_entries : Z; max_bytes : Z }.
Definition outbox_new : FileOutbox :=
  {| max_entries := DEFAULT_OUTBOX_MAX_ENTRIES; max_bytes := DEFAULT_OUTBOX_MAX_BYTES |}.
Definition with_limits (entries bytes : Z) : result error FileOutbox :=
  _ ← bail_if ((entries =? 0) || (bytes =? 0)) "outbox limits must be greater than zero";
  Ok {| max_entries := entries; max_bytes := bytes |}.

(** The file: absent, or its bytes. *)
Abbreviation file := (option (list byte)).
(** How replacing the file went: the temporary file is renamed over it in one step, so a
    failure leaves the old contents, or (syncing the directory) the new ones. *)
Inductive write_outcome : Type :=
| Written
| FailedBefore (context_text : string) (kind : io_kind)
| FailedAfter (context_text : string) (kind : io_kind).
(** The outcomes of one operation's read and write. *)
Record io : Type := { io_read : option io_kind; io_write : write_outcome }.

Section Queue.
Context `{SerdeJson (list QueuedMessage)}.

Definition load_unlocked (ob : FileOutbox) (f : file) (read : option io_kind)
    : result error (list QueuedMessage) :=
  _ ← bail_if (match f with Some b => max_bytes ob <? Z.of_nat (length b) | None => false end)
    "conversation outbox byte limit exceeded";
  match read, f with
  | Some NotFound, _ | None, None => Ok []
  | Some k, _ => Err [CText (msg "read conversation outbox"); CIo k]
  | None, Some bytes =>
      items ← context "decode conversation outbox" (of_text (json_of_slice bytes));
      _ ← bail_if (max_entries ob <? Z.of_nat (length items))
        "conversation outbox entry limit exceeded";
      Ok items
  end.
(** The file afterwards, and the outcome. *)
Definition store_unlocked (ob : FileOutbox) (f : file) (items : list QueuedMessage)
    (write : write_outcome) : file * result error unit :=
  match
    _ ← bail_if (max_entries ob <? Z.of_nat (length items)) "conversation outbox entry limit exceeded";
    bytes ← context "encode conversation outbox" (of_text (json_to_vec items));
    _ ← bail_if (max_bytes ob <? Z.of_nat (length bytes)) "conversation outbox byte limit exceeded";
    Ok bytes
  with
  | Err e => (f, Err e)
  | Ok bytes =>
      match write with
      | Written => (Some bytes, Ok ())
      | FailedBefore m k => (f, Err [CText (msg m); CIo k])
      | FailedAfter m k => (Some bytes, Err [CText (msg m); CIo k])
      end
  end.

Definition enqueue (ob : FileOutbox) (f : file) (o : io) (now : Z) (conversation_id : rstr)
    (request : SubmitMessageRequest) : file * result error unit :=
  match load_unlocked ob f (io_read o) with
  | Err e => (f, Err e)
  | Ok items =>
      match List.find (fun i => bool_decide (q_id i = message_id request)) items with
      | Some existing =>
          if bool_decide (q_conversation_id existing = conversation_id)
             && bool_decide (q_request existing = request)
          then (f, Ok ())
          else (f, bail (msg "outbox message ID is already bound to different content"))
      | None =>
          if max_entries ob <=? Z.of_nat (length items)
          then (f, bail (msg "conversation outbox entry limit reached"))
          else store_unlocked ob f
                 (items ++ [{| q_conversation_id := conversation_id; q_request := request;
                               q_attempts := 0; q_next_attempt_ms := now;
                               q_last_error := None |}]) (io_write o)
      end
  end.
Definition due (ob : FileOutbox) (f : file) (o : io) (current : Z) (limit : nat)
    : result error (list QueuedMessage) :=
  items ← load_unlocked ob f (io_read o);
  Ok (take limit (List.filter (fun i => q_next_attempt_ms i <=? current) items)).
Definition mark_sent (ob : FileOutbox) (f : file) (o : io) (id : bytesN 16)
    : file * result error unit :=
  match load_unlocked ob f (io_read o) with
  | Err e => (f, Err e)
  | Ok items =>
      store_unlocked ob f (List.filter (fun i => negb (bool_decide (q_id i = id))) items)
        (io_write o)
  end.

Definition backoff (attempts : Z) : Z :=
  Z.min (sat_i64 (250 * Z.shiftl 1 (Z.min attempts 8))) 60000.
Definition failed_item (text : rstr) (current : Z) (i : QueuedMessage) : QueuedMessage :=
  let attempts := sat_add32 (q_attempts i) 1 in
  {| q_conversation_id := q_conversation_id i; q_request := q_request i; q_attempts := attempts;
     q_next_attempt_ms := sat_i64 (current + backoff attempts);
     q_last_error := Some (take MAX_OUTBOX_ERROR_CHARS text) |}.
(** [iter_mut().find]: the first item with the identifier. *)
Fixpoint update_item (id : bytesN 16) (g : QueuedMessage -> QueuedMessage)
    (items : list QueuedMessage) : list QueuedMessage :=
  match items with
  | [] => []
  | i :: items' =>
      if bool_decide (q_id i = id) then g i :: items' else i :: update_item id g items'
  end.
Definition mark_failed (ob : FileOutbox) (f : file) (o : io) (id : bytesN 16) (text : rstr)
    (current : Z) : file * result error unit :=
  match load_unlocked ob f (io_read o) with
  | Err e => (f, Err e)
  | Ok items =>
      if existsb (fun i => bool_decide (q_id i = id)) items then
        store_unlocked ob f (update_item id (failed_item text current) items) (io_write o)
      else (f, bail (msg "outbox message not found"))
  end.

(** Submitting one item is a question to the service, in the monad [asking]; [error_text] is an
    error's [{:#}] text; [ios] gives the outcomes of the operation after each item. *)
Abbreviation submitting := (asking QueuedMessage (result error unit)).
Fixpoint flush_items (ob : FileOutbox) (error_text : error -> rstr) (current : Z) (ios : nat -> io)
    (n : nat) (sent : Z) (f : file) (items : list QueuedMessage) : submitting (file * result error Z) :=
  match items with
  | [] => Answered (f, Ok sent)
  | i :: items' =>
      Ask i (fun submitted =>
        match submitted with
        | Ok _ =>
            match mark_sent ob f (ios n) (q_id i) with
            | (f', Ok _) => flush_items ob error_text current ios (S n) (sent + 1) f' items'
            | (f', Err e) => Answered (f', Err e)
            end
        | Err e0 =>
            match mark_failed ob f (ios n) (q_id i) (error_text e0) current with
            | (f', Ok _) => flush_items ob error_text current ios (S n) sent f' items'
            | (f', Err e) => Answered (f', Err e)
            end
        end)
  end.
Definition flush (ob : FileOutbox) (error_text : error -> rstr) (current : Z) (o : io)
    (ios : nat -> io) (limit : nat) (f : file) : submitting (file * result error Z) :=
  match due ob f o current limit with
  | Err e => Answered (f, Err e)
  | Ok items => flush_items ob error_text current ios 0 0 f items
  end.
End Queue.

(** ** Properties of the queue *)
Section QueueProofs.
Context `{SerdeJsonLaws (list QueuedMessage)}.

(** The messages a file holds. *)
Definition contents (f : file) (l : list QueuedMessage) : Prop :=
  match f with None => l = [] | Some b => json_of_slice b = Ok l end.
Definition sound (ob : FileOutbox) (f : file) (l : list QueuedMessage) : Prop :=
  contents f l /\ NoDup (q_id <$> l) /\ Z.of_nat (length l) <= max_entries ob /\
  match f with None => True | Some b => Z.of_nat (length b) <= max_bytes ob end.
(** A missing file is reported only when there is none. *)
Definition honest (f : file) (o : io) : Prop := io_read o = Some NotFound -> f = None.

Lemma load_Ok ob f o l items :
  sound ob f l -> honest f o -> load_unlocked ob f (io_read o) = Ok items -> items = l.
Proof.
  intros (Hc & _) Hh E. unfold load_unlocked in E. destruct (bail_if _ _) as [[]|]; [|done].
  cbn [mbind result_bind] in E. destruct (io_read o) as [k|] eqn:Ek.
  - destruct k; try (by destruct f). rewrite (Hh Ek) in Hc. cbn in Hc. by injection E as <-.
  - destruct f as [b|]; [|injection E as <-; by rewrite Hc]. cbn in Hc. rewrite Hc in E.
    cbn [of_text context map_err mbind result_bind] in E. destruct (bail_if _ _); [|done].
    by injection E.
Qed.
Lemma load_sound ob f l :
  sound ob f l -> load_unlocked ob f None = Ok l.
Proof.
  intros (Hc & _ & Hl & Hb). unfold load_unlocked. destruct f as [b|]; cbn in *.
  - rewrite (proj2 (Z.ltb_ge _ _) Hb). cbn [bail_if mbind result_bind]. rewrite Hc.
    cbn [of_text context map_err mbind result_bind]. by rewrite (proj2 (Z.ltb_ge _ _) Hl).
  - by subst.
Qed.
(** A store leaves the old file or a whole new one. *)
Lemma store_cases ob f l items w f' r :
  store_unlocked ob f items w = (f', r) -> sound ob f l -> NoDup (q_id <$> items) ->
  (f' = f /\ is_ok r = false) \/ sound ob f' items.
Proof.
  unfold store_unlocked. intros E Hs Hn.
  destruct (Z.ltb_spec (max_entries ob) (Z.of_nat (length items)));
    [injection E as <- <-; by left|]. cbn [bail_if mbind result_bind] in E.
  destruct (json_to_vec items) as [b|] eqn:Ej; [|injection E as <- <-; by left].
  cbn [of_text context map_err mbind result_bind] in E.
  destruct (Z.ltb_spec (max_bytes ob) (Z.of_nat (length b)));
    [injection E as <- <-; by left|]. cbn [bail_if mbind result_bind] in E.
  assert (sound ob (Some b) items) as Hn'
    by (split; [cbn; by apply serde_roundtrip|by split_and!]).
  destruct w; injection E as <- <-; [by right|by left|by right].
Qed.
Lemma store_written ob f l items b :
  json_to_vec items = Ok b -> Z.of_nat (length b) <= max_bytes ob -> sound ob f l ->
  Z.of_nat (length items) <= max_entries ob ->
  store_unlocked ob f items Written = (Some b, Ok ()).
Proof.
  intros Hj Hb _ Hl. unfold store_unlocked. rewrite (proj2 (Z.ltb_ge _ _) Hl).
  cbn [bail_if mbind result_bind]. rewrite Hj. cbn [of_text context map_err mbind result_bind].
  by rewrite (proj2 (Z.ltb_ge _ _) Hb).
Qed.

Lemma find_id_None id l :
  List.find (fun i => bool_decide (q_id i = id)) l = None <-> id ∉ (q_id <$> l).
Proof.
  induction l as [|i l IH]; cbn; [set_solver|]. case_bool_decide as E; [set_solver|].
  rewrite IH. set_solver.
Qed.
Lemma remove_id_spec id l x :
  x ∈ List.filter (fun i => negb (bool_decide (q_id i = id))) l <-> x ∈ l /\ q_id x <> id.
Proof.
  rewrite list_elem_of_In, filter_In, <- list_elem_of_In, negb_true_iff, bool_decide_eq_false. done.
Qed.
Lemma filter_sublist (p : QueuedMessage -> bool) l : List.filter p l `sublist_of` l.
Proof. induction l as [|x l IH]; cbn; [constructor|]. destruct (p x); by constructor. Qed.
Lemma filter_ids_NoDup (p : QueuedMessage -> bool) l :
  NoDup (q_id <$> l) -> NoDup (q_id <$> List.filter p l).
Proof. intros Hn. eapply sublist_NoDup; [exact Hn|]. apply fmap_sublist, filter_sublist. Qed.
Lemma update_item_ids id g l :
  (forall i, q_id (g i) = q_id i) -> q_id <$> update_item id g l = q_id <$> l.
Proof.
  intros Hg. induction l as [|i l IH]; [done|]. cbn. case_bool_decide; cbn; [by rewrite Hg|].
  by rewrite IH.
Qed.
Lemma update_item_keeps id g l m :
  m ∈ l -> exists m', m' ∈ update_item id g l /\ (m' = m \/ m' = g m).
Proof.
  induction l as [|i l IH]; [by intros ?%not_elem_of_nil|]. cbn.
  intros [->|Hm]%elem_of_cons; case_bool_decide.
  - exists (g i). split; [apply list_elem_of_here|by right].
  - exists i. split; [apply list_elem_of_here|by left].
  - exists m. split; [by apply list_elem_of_further|by left].
  - destruct (IH Hm) as (m' & Hin & Hor). exists m'. split; [by apply list_elem_of_further|done].
Qed.

(** The operations that write. *)
Inductive op : Type :=
| OpEnqueue (now : Z) (conversation_id : rstr) (request : SubmitMessageRequest)
| OpSent (id : bytesN 16)
| OpFailed (id : bytesN 16) (text : rstr) (current : Z).
Definition run_op (ob : FileOutbox) (f : file) (x : io * op) : file :=
  match x.2 with
  | OpEnqueue now c r => (enqueue ob f x.1 now c r).1
  | OpSent id => (mark_sent ob f x.1 id).1
  | OpFailed id t now => (mark_failed ob f x.1 id t now).1
  end.

Definition same_message (a b : QueuedMessage) : Prop :=
  q_conversation_id a = q_conversation_id b /\ q_request a = q_request b.
Definition kept (o : op) (l l' : list QueuedMessage) : Prop :=
  forall m, m ∈ l -> o <> OpSent (q_id m) -> exists m', m' ∈ l' /\ same_message m m'.
Lemma kept_refl o l : kept o l l.
Proof. intros m Hm _. exists m. by repeat split. Qed.

Lemma run_op_sound ob f l o x :
  sound ob f l -> honest f o -> exists l', sound ob (run_op ob f (o, x)) l' /\ kept x l l'.
Proof.
  intros Hs Hh. pose proof Hs as (_ & Hn & _).
  assert (exists l', sound ob f l' /\ kept x l l') as Hsame
    by (exists l; split; [done|apply kept_refl]).
  assert (forall items, NoDup (q_id <$> items) -> kept x l items ->
    exists l', sound ob (store_unlocked ob f items (io_write o)).1 l' /\ kept x l l') as Hstore.
  { intros items Hni Hk. destruct (store_unlocked _ _ _ _) as [f' r] eqn:E.
    destruct (store_cases _ _ _ _ _ _ _ E Hs Hni) as [[-> _]|Hs']; [done|by exists items]. }
  destruct x as [now c r|id|id t now]; cbn [run_op fst snd];
    unfold enqueue, mark_sent, mark_failed;
    destruct (load_unlocked ob f (io_read o)) as [items|] eqn:El; try done;
    apply (load_Ok _ _ _ l) in El as ->; try done.
  - destruct (List.find _ l) as [e|] eqn:Ef; [by destruct (_ && _)|].
    destruct (_ <=? _); [done|]. apply Hstore.
    + rewrite fmap_app. apply NoDup_app. apply find_id_None in Ef. split; [done|].
      split; [|apply NoDup_singleton]. cbn. set_solver.
    + intros m Hm _. exists m. split; [set_solver|by split].
  - apply Hstore; [by apply filter_ids_NoDup|]. intros m Hm Hne. exists m. split; [|by split].
    apply remove_id_spec. split; [done|congruence].
  - destruct (existsb _ l); [|done]. apply Hstore; [by rewrite update_item_ids|].
    intros m Hm _. destruct (update_item_keeps id (failed_item t now) l m Hm) as (m' & Hin & Hor).
    exists m'. split; [done|]. by destruct Hor as [->| ->].
Qed.

(** Every operation's read is honest about the file it finds. *)
Fixpoint honest_run (ob : FileOutbox) (f : file) (xs : list (io * op)) : Prop :=
  match xs with [] => True | x :: xs' => honest f x.1 /\ honest_run ob (run_op ob f x) xs' end.

(** C21: The outbox loses nothing. Whatever reads and writes fail and wherever a replacement of the
    file is cut short, after any run of operations the file is absent or a whole snapshot
    within its limits with distinct message identifiers, and every message queued before is still
    queued, with its conversation and content, unless some operation marked it sent. *)
Theorem outbox_durable ob f l xs :
  sound ob f l -> honest_run ob f xs ->
  exists l', sound ob (foldl (run_op ob) f xs) l' /\
    forall m, m ∈ l -> OpSent (q_id m) ∉ (snd <$> xs) -> exists m', m' ∈ l' /\ same_message m m'.
Proof.
  revert f l. induction xs as [|[o x] xs IH]; intros f l Hs Hh.
  - exists l. split; [done|]. intros m Hm _. exists m. by repeat split.
  - destruct Hh as [Hho Hh]. destruct (run_op_sound _ _ _ _ x Hs Hho) as (l1 & Hs1 & Hk).
    destruct (IH _ _ Hs1 Hh) as (l2 & Hs2 & Hk2). exists l2. split; [done|].
    intros m Hm Hns. cbn in Hns. apply not_elem_of_cons in Hns as [Hn1 Hn2].
    destruct (Hk m Hm) as (m1 & Hm1 & Ec1 & Er1); [congruence|].
    destruct (Hk2 m1 Hm1) as (m2 & Hm2 & Ec2 & Er2).
    + unfold q_id in *. by rewrite <- Er1.
    + exists m2. split; [done|]. split; congruence.
Qed.

Lemma find_snoc id l m :
  List.find (fun i => bool_decide (q_id i = id)) l = None -> q_id m = id ->
  List.find (fun i => bool_decide (q_id i = id)) (l ++ [m]) = Some m.
Proof.
  intros Hn Hm. induction l as [|i l IH]; cbn in *; [by rewrite bool_decide_eq_true_2|].
  case_bool_decide; [done|]. by apply IH.
Qed.

(** Queueing is idempotent. When a message has been queued, queueing it again for the same
    conversation succeeds and changes nothing; the same identifier with another content
    or conversation is refused and changes nothing; and the message is in the file once, as it was
    given. *)
Theorem enqueue_idempotent ob f l o now conv r f' :
  sound ob f l -> honest f o -> enqueue ob f o now conv r = (f', Ok ()) ->
  exists l', sound ob f' l' /\
    (exists m, m ∈ l' /\ q_conversation_id m = conv /\ q_request m = r) /\
    forall w now' conv' r', message_id r' = message_id r ->
      enqueue ob f' {| io_read := None; io_write := w |} now' conv' r'
      = if bool_decide (conv' = conv) && bool_decide (r' = r) then (f', Ok ())
        else (f', bail (msg "outbox message ID is already bound to different content")).
Proof.
  intros Hs Hh E.
  assert (forall g l' m, sound ob g l' ->
    List.find (fun i => bool_decide (q_id i = message_id r)) l' = Some m ->
    q_conversation_id m = conv -> q_request m = r ->
    exists l', sound ob g l' /\
      (exists m, m ∈ l' /\ q_conversation_id m = conv /\ q_request m = r) /\
      forall w now' conv' r', message_id r' = message_id r ->
        enqueue ob g {| io_read := None; io_write := w |} now' conv' r'
        = if bool_decide (conv' = conv) && bool_decide (r' = r) then (g, Ok ())
          else (g, bail (msg "outbox message ID is already bound to different content")))
    as Hfound.
  { intros g l' m Hg Hf Hc Hr. exists l'. split; [done|]. split.
    - exists m. apply List.find_some in Hf as [Hin _]. by apply list_elem_of_In in Hin.
    - intros w now' conv' r' Hid. unfold enqueue. cbn [io_read]. rewrite (load_sound _ _ _ Hg).
      rewrite Hid, Hf, Hc, Hr. rewrite (bool_decide_ext (conv = conv') (conv' = conv)) by done.
      by rewrite (bool_decide_ext (r = r') (r' = r)) by done. }
  unfold enqueue in E. destruct (load_unlocked ob f (io_read o)) as [items|] eqn:El; [|done].
  apply (load_Ok _ _ _ l) in El as ->; [|done..].
  destruct (List.find _ l) as [e|] eqn:Ef.
  - case_bool_decide as Hc; [|done]. case_bool_decide as Hr; [|done]. injection E as <-.
    by apply (Hfound f l e).
  - destruct (_ <=? _); [done|]. set (m := {| q_conversation_id := conv |}) in E.
    destruct (store_cases _ _ _ _ _ _ _ E Hs) as [[_ ?]|Hs']; [|done|].
    + pose proof Hs as (_ & Hn & _). rewrite fmap_app. apply NoDup_app.
      split; [done|]. split; [|apply NoDup_singleton]. apply find_id_None in Ef. cbn. set_solver.
    + by apply (Hfound f' (l ++ [m]) m); [|apply find_snoc|..].
Qed.

Lemma backoff_bounds a : 1 <= a -> 500 <= backoff a <= 60000.
Proof.
  intros Ha. unfold backoff. rewrite Z.shiftl_1_l.
  pose proof (Z.pow_le_mono_r 2 1 (Z.min a 8) ltac:(lia) ltac:(lia)) as Hp.
  change (2 ^ 1) with 2 in Hp. revert Hp. generalize (2 ^ Z.min a 8). intros p Hp.
  unfold sat_i64, I64_MAX, I64_MIN. lia.
Qed.
Lemma find_update id g l m :
  List.find (fun i => bool_decide (q_id i = id)) l = Some m -> q_id (g m) = q_id m ->
  update_item id g l = (fun i => if bool_decide (q_id i = id) then g m else i) <$> l \/
  ~ NoDup (q_id <$> l).
Proof.
  induction l as [|i l IH]; cbn; [done|]. case_bool_decide as E; intros Hf Hg.
  - injection Hf as ->. destruct (decide (q_id m ∈ (q_id <$> l))) as [Hin|Hn].
    + right. intros [? _]%NoDup_cons. done.
    + left. f_equal. clear IH. induction l as [|j l IH]; [done|]. cbn in *.
      rewrite bool_decide_eq_false_2 by set_solver. f_equal. apply IH. set_solver.
  - destruct (IH Hf Hg) as [->|Hn]; [by left|]. right. intros [_ ?]%NoDup_cons. done.
Qed.

(** A failed attempt is retried later, with bounded delay. Recording a failure changes the
    failed message only: one more attempt, the next one between half a second and a minute
    from now (in the range of the clock), an error text of at most 1,024 characters, and the
    same content; every other message is untouched and the order is kept. *)
Theorem retry_schedule ob f l o id text current f' :
  sound ob f l -> honest f o -> mark_failed ob f o id text current = (f', Ok ()) ->
  exists m, m ∈ l /\ q_id m = id /\
    sound ob f' ((fun i => if bool_decide (q_id i = id) then failed_item text current m else i) <$> l) /\
    q_request (failed_item text current m) = q_request m /\
    (is_u32 (q_attempts m) ->
     q_attempts (failed_item text current m) = Z.min (q_attempts m + 1) U32_MAX /\
     500 <= backoff (q_attempts (failed_item text current m)) <= 60000 /\
     (0 <= current <= I64_MAX - 60000 ->
      current + 500 <= q_next_attempt_ms (failed_item text current m) <= current + 60000)) /\
    from_option (fun t => (length t <= MAX_OUTBOX_ERROR_CHARS)%nat) False
      (q_last_error (failed_item text current m)).
Proof.
  intros Hs Hh E. pose proof Hs as (_ & Hn & _). unfold mark_failed in E.
  destruct (load_unlocked ob f (io_read o)) as [items|] eqn:El; [|done].
  apply (load_Ok _ _ _ l) in El as ->; [|done..]. destruct (existsb _ l) eqn:Ex; [|done].
  destruct (List.find (fun i => bool_decide (q_id i = id)) l) as [m|] eqn:Ef.
  2: { exfalso. apply existsb_exists in Ex as (i & Hi & Hid).
       by rewrite (List.find_none _ _ Ef i Hi) in Hid. }
  pose proof (List.find_some _ _ Ef) as [Hin Hid]. apply list_elem_of_In in Hin.
  apply bool_decide_eq_true in Hid. exists m. split; [done|]. split; [done|].
  destruct (find_update id (failed_item text current) l m Ef eq_refl) as [Hu|]; [|done].
  split; [|split; [done|split]].
  - rewrite <- Hu. destruct (store_cases _ _ _ _ _ _ _ E Hs) as [[_ ?]|Hs'];
      [by rewrite update_item_ids|done|done].
  - intros Hr. cbn [failed_item q_attempts q_next_attempt_ms]. unfold sat_add32.
    assert (1 <= Z.min (q_attempts m + 1) U32_MAX) as H1 by (unfold is_u32, U32_MAX in *; lia).
    pose proof (backoff_bounds _ H1) as Hb. split; [done|]. split; [done|]. intros Hc.
    unfold sat_i64, I64_MAX, I64_MIN in *. lia.
  - cbn [from_option q_last_error failed_item]. rewrite length_take. apply Nat.le_min_l.
Qed.

(** *** Flushing *)
Definition working : io := {| io_read := None; io_write := Written |}.
(** A queue that can be written. *)
Definition writable (ob : FileOutbox) (l : list QueuedMessage) : Prop :=
  exists b, json_to_vec l = Ok b /\ Z.of_nat (length b) <= max_bytes ob.
Section Flush.
Context (submit : QueuedMessage -> result error unit) (error_text : error -> rstr) (current : Z).
(** What becomes of a message of the queue when the messages [attempted] have been submitted: it is
    gone if the service accepted it, and waits for another attempt if it did not. *)
Definition settle (attempted : list QueuedMessage) (i : QueuedMessage) : option QueuedMessage :=
  if bool_decide (q_id i ∈ (q_id <$> attempted)) then
    match submit i with Ok _ => None | Err e => Some (failed_item (error_text e) current i) end
  else Some i.
Definition settled (attempted l : list QueuedMessage) : list QueuedMessage := omap (settle attempted) l.
Definition accepted (attempted : list QueuedMessage) : list QueuedMessage :=
  List.filter (fun i => is_ok (submit i)) attempted.

Lemma settled_nil l : settled [] l = l.
Proof. unfold settled. induction l as [|i l IH]; [done|]. cbn. by rewrite IH. Qed.
Lemma settle_none attempted i : q_id i ∉ (q_id <$> attempted) -> settle attempted i = Some i.
Proof. intros Hi. unfold settle. by rewrite bool_decide_eq_false_2. Qed.
Lemma settled_cons m attempted l : q_id m ∉ (q_id <$> attempted) ->
  settled attempted (settled [m] l) = settled (m :: attempted) l.
Proof.
  intros Hm. unfold settled. induction l as [|i l IH]; [done|]. cbn [omap list_omap].
  destruct (decide (q_id i = q_id m)) as [E|E].
  - assert (forall rest, settle (m :: rest) i = match submit i with
      | Ok _ => None | Err e => Some (failed_item (error_text e) current i) end) as Es.
    { intros rest. unfold settle. rewrite bool_decide_eq_true_2; [done|cbn; set_solver]. }
    rewrite !Es. destruct (submit i) as [[]|e]; [exact IH|]. cbn [omap list_omap].
    rewrite settle_none by (change (q_id i ∉ (q_id <$> attempted)); by rewrite E).
    f_equal. exact IH.
  - rewrite (settle_none [m] i) by (cbn; set_solver). cbn [omap list_omap].
    assert (settle attempted i = settle (m :: attempted) i) as ->.
    { unfold settle. rewrite (bool_decide_ext (q_id i ∈ (q_id <$> m :: attempted))
        (q_id i ∈ (q_id <$> attempted))) by (cbn; set_solver). done. }
    destruct (settle (m :: attempted) i); [f_equal|]; exact IH.
Qed.
Lemma settled_others m l : q_id m ∉ (q_id <$> l) -> settled [m] l = l.
Proof.
  induction l as [|i l IH]; [done|]. cbn. intros [Hi Hl]%not_elem_of_cons. unfold settled in *. cbn.
  rewrite settle_none by (cbn; set_solver). by rewrite IH.
Qed.
(** Recording one attempt. *)
Lemma settled_sent m l u : submit m = Ok u -> m ∈ l -> NoDup (q_id <$> l) ->
  List.filter (fun i => negb (bool_decide (q_id i = q_id m))) l = settled [m] l.
Proof.
  intros Hs. induction l as [|i l IH]; [by intros ?%not_elem_of_nil|]. cbn. rewrite NoDup_cons.
  intros Hm [Hi Hn]. unfold settled. cbn [omap list_omap]. fold (settled [m] l). case_bool_decide as E; cbn [negb].
  - assert (m = i) as <-.
    { apply elem_of_cons in Hm as [?|Hm]; [done|]. exfalso. apply Hi. rewrite E.
      by apply list_elem_of_fmap_2. }
    unfold settle at 1. rewrite bool_decide_eq_true_2 by (cbn; set_solver). rewrite Hs.
    rewrite (settled_others m l Hi). clear - Hi. induction l as [|j l IH]; [done|]. cbn in *.
    apply not_elem_of_cons in Hi as [Hj Hl]. rewrite bool_decide_eq_false_2 by done. cbn. by rewrite IH.
  - rewrite settle_none by (cbn; set_solver). f_equal. apply IH; [|done]. set_solver.
Qed.
Lemma settled_failed m l e : submit m = Err e -> m ∈ l -> NoDup (q_id <$> l) ->
  update_item (q_id m) (failed_item (error_text e) current) l = settled [m] l.
Proof.
  intros Hs. induction l as [|i l IH]; [by intros ?%not_elem_of_nil|]. cbn. rewrite NoDup_cons.
  intros Hm [Hi Hn]. unfold settled. cbn [omap list_omap]. fold (settled [m] l). case_bool_decide as E.
  - assert (m = i) as <-.
    { apply elem_of_cons in Hm as [?|Hm]; [done|]. exfalso. apply Hi. rewrite E.
      by apply list_elem_of_fmap_2. }
    unfold settle at 1. rewrite bool_decide_eq_true_2 by (cbn; set_solver). rewrite Hs.
    by rewrite settled_others.
  - rewrite settle_none by (cbn; set_solver). f_equal. apply IH; [|done]. set_solver.
Qed.
Lemma settled_ids attempted l : (q_id <$> settled attempted l) `sublist_of` (q_id <$> l).
Proof.
  unfold settled. induction l as [|i l IH]; [done|]. cbn [omap list_omap].
  unfold settle at 1. case_bool_decide; [destruct (submit i)|]; cbn; by constructor.
Qed.
Lemma settled_keeps m i l : i ∈ l -> q_id i <> q_id m -> i ∈ settled [m] l.
Proof. intros Hi Hne. unfold settled. apply list_elem_of_omap. exists i. split; [done|]. apply settle_none. set_solver. Qed.

(** Recording an attempt in the file. *)
Lemma store_settled ob f l m : sound ob f l -> writable ob (settled [m] l) ->
  exists f', store_unlocked ob f (settled [m] l) Written = (f', Ok ()) /\ sound ob f' (settled [m] l).
Proof.
  intros (Hc & Hn & Hl & Hb) (b & Hj & Hm). exists (Some b).
  pose proof (settled_ids [m] l) as Hsub. pose proof (sublist_length _ _ Hsub) as Hlen.
  rewrite !length_fmap in Hlen.
  split; [apply (store_written _ _ l); [done|done|by split_and!|lia]|].
  split; [by apply serde_roundtrip|]. split; [by eapply sublist_NoDup|]. split; [lia|done].
Qed.
Lemma flush_items_prefix ob ios n k f items :
  (answered submit (flush_items ob error_text current ios n k f items)).1 `prefix_of` items.
Proof.
  revert n k f. induction items as [|i items IH]; intros n k f; cbn [flush_items]; [done|].
  cbn [answered]. destruct (submit i).
  - destruct (mark_sent ob f (ios n) (q_id i)) as [f' [[]|e]]; [|cbn; apply prefix_cons, prefix_nil].
    specialize (IH (S n) (k + 1) f'). destruct (answered submit _). by apply prefix_cons.
  - destruct (mark_failed ob f (ios n) (q_id i) _ current) as [f' [[]|e']];
      [|cbn; apply prefix_cons, prefix_nil].
    specialize (IH (S n) k f'). destruct (answered submit _). by apply prefix_cons.
Qed.
Lemma flush_items_delivers ob ios items n k f l :
  (forall n, ios n = working) -> sound ob f l -> NoDup (q_id <$> items) -> (forall i, i ∈ items -> i ∈ l) ->
  (forall n, writable ob (settled (take n items) l)) ->
  exists f', answered submit (flush_items ob error_text current ios n k f items)
    = (items, (f', Ok (k + Z.of_nat (length (accepted items))))) /\ sound ob f' (settled items l).
Proof.
  intros Hio. revert n k f l. induction items as [|m items IH]; intros n k f l Hs Hn Hin Hw;
    cbn [flush_items answered].
  - exists f. rewrite Z.add_0_r, settled_nil. by split.
  - cbn in Hn. apply NoDup_cons in Hn as [Hm Hn]. pose proof (Hin m (list_elem_of_here _ _)) as Hml.
    destruct (store_settled ob f l m Hs (Hw 1%nat)) as (f1 & Hst & Hs1).
    assert (forall i, i ∈ items -> i ∈ settled [m] l) as Hin1.
    { intros i Hi. apply settled_keeps; [by apply Hin; right|]. intros E. apply Hm. rewrite <- E.
      by apply list_elem_of_fmap_2. }
    assert (forall n, writable ob (settled (take n items) (settled [m] l))) as Hw1.
    { intros j. rewrite settled_cons; [apply (Hw (S j))|]. intros Hj. apply Hm.
      apply list_elem_of_fmap in Hj as (x & -> & Hx). apply list_elem_of_fmap_2.
      by apply elem_of_take in Hx as (? & ? & _); eapply list_elem_of_lookup_2. }
    pose proof Hs as (_ & Hnl & _).
    destruct (submit m) as [u|e] eqn:Em; rewrite Hio; unfold working, mark_sent, mark_failed;
      cbn [io_read io_write]; rewrite (load_sound _ _ _ Hs).
    + rewrite (settled_sent m l u Em Hml Hnl), Hst.
      destruct (IH (S n) (k + 1) f1 _ Hs1 Hn Hin1 Hw1) as (f' & -> & Hf'). exists f'.
      rewrite settled_cons in Hf' by done. split; [|done].
      unfold accepted. cbn [List.filter]. rewrite Em. cbn [is_ok length]. do 3 f_equal. lia.
    + assert (existsb (fun i => bool_decide (q_id i = q_id m)) l = true) as ->.
      { apply existsb_exists. exists m. split; [by apply list_elem_of_In|by apply bool_decide_eq_true]. }
      rewrite (settled_failed m l e Em Hml Hnl), Hst.
      destruct (IH (S n) k f1 _ Hs1 Hn Hin1 Hw1) as (f' & -> & Hf'). exists f'.
      rewrite settled_cons in Hf' by done. split; [|done].
      unfold accepted. cbn [List.filter]. by rewrite Em.
Qed.

(** C22: What a flush sends. Whatever the service answers and however the file fails, the messages
    submitted are the first of those due, up to the limit asked, each once, in the order of the
    queue. When the file can be read and written, and the queue serialises within its limit after
    each attempt, all of these are submitted; the number reported is that of the messages accepted;
    and the file then holds the queue without them, the refused ones with one more attempt, their error
    and their next time, and all others as they were, in the same order. *)
Theorem flush_delivers ob f l limit o ios :
  sound ob f l -> honest f o ->
  let attempted := take limit (List.filter (fun i => q_next_attempt_ms i <=? current) l) in
  let run := answered submit (flush ob error_text current o ios limit f) in
  run.1 `prefix_of` attempted /\ NoDup (q_id <$> run.1) /\
  (o = working -> (forall n, ios n = working) ->
   (forall n, writable ob (settled (take n attempted) l)) ->
   exists f', run = (attempted, (f', Ok (Z.of_nat (length (accepted attempted))))) /\
     sound ob f' (settled attempted l)).
Proof.
  intros Hs Hh. cbv zeta. set (attempted := take _ _).
  assert (attempted `sublist_of` l) as Hsub by (etrans; [apply sublist_take|apply filter_sublist]).
  assert (NoDup (q_id <$> attempted)) as Hn.
  { pose proof Hs as (_ & Hn & _). eapply sublist_NoDup; [exact Hn|]. by apply fmap_sublist. }
  assert ((answered submit (flush ob error_text current o ios limit f)).1 `prefix_of` attempted) as Hp.
  { unfold flush, due. destruct (load_unlocked ob f (io_read o)) as [items|] eqn:El; [|apply prefix_nil].
    apply (load_Ok _ _ _ l) in El as ->; [|done..]. apply flush_items_prefix. }
  split; [exact Hp|]. split.
  - destruct Hp as [rest E]. rewrite E, fmap_app in Hn. by apply NoDup_app in Hn as (? & _).
  - intros -> Hio Hw. unfold flush, due. cbn [working io_read]. rewrite (load_sound _ _ _ Hs).
    cbn [mbind result_bind]. fold attempted.
    destruct (flush_items_delivers ob ios attempted 0 0 f l Hio Hs Hn) as (f' & -> & Hf'); [|done|].
    + intros i Hi. by eapply elem_of_sublist.
    + by exists f'.
Qed.
End Flush.
End QueueProofs.

(** ** Server-sent events *)
Definition MAX_SSE_EVENT_BYTES : nat := Z.to_nat (256 * 1024).

(** [windows(n).position(|w| w == pat)]. *)
Fixpoint find_sub (pat l : list byte) : option nat :=
  if bool_decide (take (length pat) l = pat) then Some 0%nat
  else match l with [] => None | _ :: l' => S <$> find_sub pat l' end.
Definition LF2 : list byte := [x0a; x0a].
Definition CRLF2 : list byte := [x0d; x0a; x0d; x0a].
Definition sse_boundary (buffer : list byte) : option (nat * nat) :=
  match (fun i => (i, 2%nat)) <$> find_sub LF2 buffer, (fun i => (i, 4%nat)) <$> find_sub CRLF2 buffer with
  | Some l, Some r => Some (if (l.1 <=? r.1)%nat then l else r)
  | Some v, None | None, Some v => Some v
  | None, None => None
  end.

Record ParsedSseEvent : Type := { ev_kind : option rstr; ev_data : option rstr }.
#[global] Instance ParsedSseEvent_eq_dec : EqDecision ParsedSseEvent.
Proof. solve_decision. Defined.
(** [str::lines]: pieces between newlines, without a final empty one, each less one carriage
    return at its end. *)
Definition drop_last_empty (l : list rstr) : list rstr :=
  match reverse l with [] :: r => reverse r | _ => l end.
Definition strip_cr (s : rstr) : rstr :=
  match reverse s with 13 :: r => reverse r | _ => s end.
Definition lines (s : rstr) : list rstr := strip_cr <$> drop_last_empty (split_on 10 s).
Definition sse_line (e : ParsedSseEvent) (line : rstr) : ParsedSseEvent :=
  match split_once 58 line with
  | None => e
  | Some (name, value) =>
      let value := default value (strip_prefix [32] value) in
      if decide (name = lit "event") then {| ev_kind := Some value; ev_data := ev_data e |}
      else if decide (name = lit "data") then
        {| ev_kind := ev_kind e;
           ev_data := Some (match ev_data e with
                            | Some data => data ++ [10] ++ value
                            | None => value
                            end) |}
      else e
  end.
Definition parse_sse_block (block : list byte) : result error ParsedSseEvent :=
  text ← opt_context "decode conversation SSE event" (from_utf8 block);
  Ok (foldl sse_line {| ev_kind := None; ev_data := None |} (lines text)).

(** The complete blocks of a buffer and what is left. Every block takes its separator with
    it, so the buffer's length is fuel enough. *)
Fixpoint drain (fuel : nat) (buffer : list byte) : list (list byte) * list byte :=
  match fuel, sse_boundary buffer with
  | S fuel', Some (boundary, separator_len) =>
      let '(blocks, rest) := drain fuel' (drop (boundary + separator_len) buffer) in
      (take boundary buffer :: blocks, rest)
  | _, _ => ([], buffer)
  end.
Definition drain_all (buffer : list byte) : list (list byte) * list byte :=
  drain (length buffer) buffer.

(** *** The stream *)
Inductive signal : Type := SGo | SResync | SFail (e : error).
Section Stream.
(** [serde_json::from_str] at [MessageRecord]. *)
Context (decode : rstr -> result rstr MessageRecord).

Definition accept (cursor : Z) (m : MessageRecord) : list MessageRecord * Z :=
  if cursor <? m_sequence m then ([m], m_sequence m) else ([], cursor).
(** The messages yielded, the cursor, and whether to go on. *)
Definition handle_block (cursor : Z) (block : list byte) : list MessageRecord * Z * signal :=
  match parse_sse_block block with
  | Err e => ([], cursor, SFail e)
  | Ok event =>
      match ev_kind event with
      | None => ([], cursor, SGo)
      | Some kind =>
          if decide (kind = lit "message") then
            match ev_data event with
            | None => ([], cursor, SGo)
            | Some data =>
                match context "decode conversation SSE message" (of_text (decode data)) with
                | Err e => ([], cursor, SFail e)
                | Ok m => (accept cursor m, SGo)
                end
            end
          else if decide (kind = lit "resync_required") then ([], cursor, SResync)
          else if decide (kind = lit "authorization_required") then
            ([], cursor, SFail [CAuthorizationRequired])
          else ([], cursor, SGo)
      end
  end.
Fixpoint handle_blocks (cursor : Z) (blocks : list (list byte)) : list MessageRecord * Z * signal :=
  match blocks with
  | [] => ([], cursor, SGo)
  | b :: blocks' =>
      match handle_block cursor b with
      | (out, c, SGo) => let '(out', c', s) := handle_blocks c blocks' in (out ++ out', c', s)
      | r => r
      end
  end.
(** The chunks of one connection; a chunk that fails to arrive ends it. *)
Fixpoint handle_chunks (cursor : Z) (buffer : list byte) (chunks : list (option (list byte)))
    : list MessageRecord * Z * signal :=
  match chunks with
  | [] | None :: _ => ([], cursor, SGo)
  | Some chunk :: chunks' =>
      if (MAX_SSE_EVENT_BYTES <? length buffer + length chunk)%nat then
        ([], cursor, SFail [CText (msg "conversation SSE event exceeds 256 KiB")])
      else
        let '(blocks, rest) := drain_all (buffer ++ chunk) in
        match handle_blocks cursor blocks with
        | (out, c, SGo) => let '(out', c', s) := handle_chunks c rest chunks' in (out ++ out', c', s)
        | r => r
        end
  end.

(** What a stream does, in order: it connects to the events after a cursor, it reads the page after
    a cursor, or it yields a message. *)
Inductive stream_event : Type :=
| EventsAsked (cursor : Z)
| PageAsked (cursor : Z)
| Yielded (m : MessageRecord).
Definition yielded (es : list stream_event) : list MessageRecord :=
  omap (fun e => match e with Yielded m => Some m | _ => None end) es.

(** Resynchronisation reads pages from the cursor; [pages] are the responses in turn. [Wait] is a
    response that has not come. *)
Inductive outcome : Type := Done | Wait | Stop (e : error).
Fixpoint accept_all (cursor : Z) (ms : list MessageRecord) : list MessageRecord * Z :=
  match ms with
  | [] => ([], cursor)
  | m :: ms' =>
      let '(out, c) := accept cursor m in
      let '(out', c') := accept_all c ms' in (out ++ out', c')
  end.
(** What it does, the cursor, and the number of pages read. *)
Fixpoint resync (cursor : Z) (pages : list (result error (Page MessageRecord)))
    : list stream_event * Z * nat * outcome :=
  match pages with
  | [] => ([PageAsked cursor], cursor, 0%nat, Wait)
  | Err e :: _ => ([PageAsked cursor], cursor, 1%nat, Stop e)
  | Ok page :: pages' =>
      let '(out, c) := accept_all cursor (items page) in
      let es := PageAsked cursor :: (Yielded <$> out) in
      match next_cursor page with
      | None => (es, c, 1%nat, Done)
      | Some next =>
          if (c <=? cursor) || negb (next =? c) then
            (es, c, 1%nat,
             Stop [CText (msg "conversation message pagination did not advance coherently")])
          else
            let '(es', c', n, o) := resync c pages' in (es ++ es', c', S n, o)
      end
  end.
(** The messages it yields. *)
Definition resync_loop (cursor : Z) (pages : list (result error (Page MessageRecord)))
    : list MessageRecord * Z * nat * outcome :=
  let '(es, c, n, o) := resync cursor pages in (yielded es, c, n, o).

(** One attempt to connect. *)
Inductive connection : Type :=
| SendFailed
| Response (status : Z) (chunks : list (option (list byte)))
    (pages : list (result error (Page MessageRecord))).
Record stream_state : Type := { cursor : Z; delay_ms : Z }.
Definition stream_start (after : Z) : stream_state := {| cursor := after; delay_ms := 250 |}.
Definition backed_off (s : stream_state) (c : Z) : stream_state :=
  {| cursor := c; delay_ms := Z.min (sat_mul (delay_ms s) 2) 30000 |}.
Definition is_success (status : Z) : bool := (200 <=? status) && (status <? 300).
Definition retry_status (status : Z) : bool :=
  (status =? 408) || (status =? 429) || ((500 <=? status) && (status <? 600)).
(** What it does once the request is sent, and the state to reconnect with unless the stream waits
    or has stopped. *)
Definition connected (s : stream_state) (c : connection)
    : list stream_event * stream_state * outcome :=
  match c with
  | SendFailed => ([], backed_off s (cursor s), Done)
  | Response status chunks pages =>
      if (status =? 401) || (status =? 403) then ([], s, Stop [CAuthorizationRequired])
      else if negb (is_success status) && retry_status status then
        ([], backed_off s (cursor s), Done)
      else if negb (is_success status) then
        ([], s, Stop [CText (Msg "conversation SSE HTTP {}" [AInt status])])
      else
        match handle_chunks (cursor s) [] chunks with
        | (out, c, SFail e) => (Yielded <$> out, {| cursor := c; delay_ms := delay_ms s |}, Stop e)
        | (out, c, SGo) => (Yielded <$> out, backed_off s c, Done)
        | (out, c, SResync) =>
            let '(es, c', _, o) := resync c pages in
            ((Yielded <$> out) ++ es, {| cursor := c'; delay_ms := 250 |}, o)
        end
  end.
(** [events]: the connections in turn, each at the URL of the cursor. *)
Fixpoint stream (url : Z -> result error unit) (s : stream_state) (connections : list connection)
    : list stream_event * stream_state * outcome :=
  match url (cursor s) with
  | Err e => ([], s, Stop e)
  | Ok _ =>
      match connections with
      | [] => ([EventsAsked (cursor s)], s, Wait)
      | c :: connections' =>
          match connected s c with
          | (es, s', Done) =>
              let '(es', s'', o) := stream url s' connections' in
              (EventsAsked (cursor s) :: es ++ es', s'', o)
          | (es, s', o) => (EventsAsked (cursor s) :: es, s', o)
          end
      end
  end.
(** The messages the stream yields. *)
Definition events (url : Z -> result error unit) (s : stream_state) (connections : list connection)
    : list MessageRecord * stream_state * outcome :=
  let '(es, s', o) := stream url s connections in (yielded es, s', o).
End Stream.

(** ** Reading a response *)
Definition MAX_CONVERSATION_RESPONSE_BYTES : nat := Z.to_nat (64 * 1024 * 1024).
Record ApiResponse (T : Type) : Type := {
  api_success : option bool; api_data : option T; api_error : option rstr;
}.
Arguments api_success {T} a.
Arguments api_data {T} a.
Arguments api_error {T} a.
Fixpoint read_bounded (limit : nat) (encoded : list byte)
    (chunks : list (result error (list byte))) : result error (list byte) :=
  match chunks with
  | [] => Ok encoded
  | Err e :: _ => Err (CText (msg "read conversation response") :: e)
  | Ok chunk :: chunks' =>
      _ ← bail_if (limit <? length encoded + length chunk)%nat
        "conversation response exceeds bounded limit";
      read_bounded limit (encoded ++ chunk) chunks'
  end.
(** The part of [json_with_limit] after the request was sent. *)
Definition read_response {T} (decode : list byte -> result rstr (ApiResponse T))
    (response_limit : nat) (status : Z) (content_length : option Z)
    (chunks : list (result error (list byte))) : result error T :=
  _ ← bail_if (match content_length with Some n => Z.of_nat response_limit <? n | None => false end)
    "conversation response exceeds bounded limit";
  encoded ← read_bounded response_limit [] chunks;
  value ← context "decode conversation response" (of_text (decode encoded));
  _ ← (if negb (is_success status) || negb (bool_decide (api_success value = Some true)) then
         bail (Msg "conversation HTTP {}: {}"
                 [AInt status; AStr (default (lit "request failed") (api_error value))])
       else Ok ());
  opt_context "conversation response has no data" (api_data value).

(** ** Properties of the stream *)

(** *** Framing *)
Definition at_pos (pat l : list byte) (i : nat) : Prop := take (length pat) (drop i l) = pat.
Lemma find_sub_Some pat l i :
  find_sub pat l = Some i <-> at_pos pat l i /\ (i <= length l)%nat /\
    forall k, (k < i)%nat -> ~ at_pos pat l k.
Proof.
  unfold at_pos. revert i. induction l as [|x l IH]; intros i.
  - cbn. case_bool_decide as E; [|].
    + split; [intros [= <-]; split_and!; [done|lia|lia]|]. intros (_ & Hi & _).
      cbn in Hi. f_equal. lia.
    + split; [done|]. intros (Hp & Hi & _). cbn in Hi. assert (i = 0%nat) as -> by lia. done.
  - cbn [find_sub]. case_bool_decide as E.
    + split; [intros [= <-]; split_and!; [done|cbn; lia|lia]|]. intros (_ & _ & Hk).
      destruct i as [|i]; [done|]. exfalso. apply (Hk 0%nat); [lia|done].
    + destruct (find_sub pat l) as [j|] eqn:Ej; cbn [fmap option_fmap option_map].
      * destruct (proj1 (IH j) eq_refl) as (Hp & Hl & Hk). split.
        -- intros [= <-]. split_and!; [done|cbn; lia|]. intros [|k] Hlt; [done|]. apply Hk. lia.
        -- intros (Hp' & Hl' & Hk'). destruct i as [|i]; [done|]. cbn [drop length] in *.
           f_equal. f_equal. destruct (Nat.lt_trichotomy i j) as [Hlt|[->|Hlt]]; [|done|].
           ++ by exfalso; apply (Hk i).
           ++ exfalso. apply (Hk' (S j)); [lia|done].
      * split; [done|]. intros (Hp' & Hl' & Hk'). destruct i as [|i]; [done|]. exfalso.
        cbn [drop length] in *. assert (None = Some i) as ?; [|done]. apply IH.
        split_and!; [done|lia|]. intros k Hlt. apply (Hk' (S k)). lia.
Qed.
Lemma at_pos_app pat a b i :
  (i + length pat <= length a)%nat -> at_pos pat (a ++ b) i <-> at_pos pat a i.
Proof.
  intros Hi. unfold at_pos. rewrite drop_app_le by lia.
  by rewrite take_app_le by (rewrite length_drop; lia).
Qed.
Lemma at_pos_length pat l i : at_pos pat l i -> (length pat <= length l - i)%nat.
Proof.
  unfold at_pos. intros E. apply (f_equal length) in E.
  rewrite length_take, length_drop in E. lia.
Qed.
Lemma find_sub_app pat a b i : pat <> [] -> find_sub pat a = Some i -> find_sub pat (a ++ b) = Some i.
Proof.
  intros Hne (Hp & Hi & Hk)%find_sub_Some. pose proof (at_pos_length _ _ _ Hp).
  assert (0 < length pat)%nat by (destruct pat; [done|cbn; lia]).
  apply find_sub_Some. split; [apply at_pos_app; [lia|done]|]. rewrite length_app. split; [lia|].
  intros k Hlt Hat. apply (Hk k Hlt). by apply at_pos_app in Hat; [|lia].
Qed.
Lemma find_sub_new pat a b j :
  find_sub pat a = None -> find_sub pat (a ++ b) = Some j -> (length a < j + length pat)%nat.
Proof.
  intros Hn (Hp & Hi & Hk)%find_sub_Some. destruct (Nat.lt_ge_cases (length a) (j + length pat)) as [|Hle];
    [done|]. exfalso.
  assert (find_sub pat a = Some j) as ?; [|congruence]. apply find_sub_Some.
  split; [by apply at_pos_app in Hp|]. split; [lia|]. intros k Hlt Hat. apply (Hk k Hlt).
  apply at_pos_app; [lia|done].
Qed.
Lemma at_pos_lookup pat l i k x : at_pos pat l i -> pat !! k = Some x -> l !! (i + k)%nat = Some x.
Proof.
  unfold at_pos. intros E Hk. rewrite <- E in Hk. apply lookup_take_Some in Hk as [Hk _].
  by rewrite lookup_drop in Hk.
Qed.
Lemma LF2_nonempty : LF2 <> [].
Proof. done. Qed.
Lemma CRLF2_nonempty : CRLF2 <> [].
Proof. done. Qed.
(** What arrives later does not move the first boundary. *)
Lemma sse_boundary_app a b r : sse_boundary a = Some r -> sse_boundary (a ++ b) = Some r.
Proof.
  unfold sse_boundary. destruct (find_sub LF2 a) as [i|] eqn:El, (find_sub CRLF2 a) as [j|] eqn:Er;
    cbn [fmap option_fmap option_map]; [| | |done].
  - intros <-. rewrite (find_sub_app LF2 _ b _ LF2_nonempty El).
    by rewrite (find_sub_app CRLF2 _ b _ CRLF2_nonempty Er).
  - rewrite (find_sub_app LF2 _ b _ LF2_nonempty El). cbn [fmap option_fmap option_map].
    destruct (find_sub CRLF2 (a ++ b)) as [j|] eqn:Ej; [|done]. cbn [fmap option_fmap option_map fst].
    intros <-. destruct (Nat.leb_spec i j) as [|Hlt]; [done|]. exfalso.
    pose proof (find_sub_new _ _ _ _ Er Ej) as Hnew.
    apply find_sub_Some in El as (Hl & _ & _). apply find_sub_Some in Ej as (Hj & _ & _).
    pose proof (at_pos_length _ _ _ Hl) as Hlen. change (length CRLF2) with 4%nat in Hnew.
    change (length LF2) with 2%nat in Hlen. assert (i = S j) as -> by lia.
    pose proof (at_pos_lookup _ _ _ 1 _ Hl eq_refl) as H1.
    pose proof (at_pos_lookup _ _ _ 2 _ Hj eq_refl) as H2.
    replace (S j + 1)%nat with (j + 2)%nat in H1 by lia.
    rewrite lookup_app_l in H2 by lia. congruence.
  - rewrite (find_sub_app CRLF2 _ b _ CRLF2_nonempty Er). cbn [fmap option_fmap option_map].
    destruct (find_sub LF2 (a ++ b)) as [i|] eqn:Ei; [|done]. cbn [fmap option_fmap option_map fst].
    intros <-. pose proof (find_sub_new _ _ _ _ El Ei) as Hnew.
    apply find_sub_Some in Er as (Hr & _ & _). pose proof (at_pos_length _ _ _ Hr) as Hlen.
    change (length CRLF2) with 4%nat in Hlen. change (length LF2) with 2%nat in Hnew.
    destruct (Nat.leb_spec i j); [lia|done].
Qed.
Lemma sse_boundary_bounds a i n : sse_boundary a = Some (i, n) -> (i + n <= length a /\ 2 <= n)%nat.
Proof.
  unfold sse_boundary. destruct (find_sub LF2 a) as [x|] eqn:El, (find_sub CRLF2 a) as [y|] eqn:Er;
    cbn [fmap option_fmap option_map fst]; [case_match| | |done];
    intros [= <- <-];
    repeat match goal with
    | E : find_sub _ _ = Some _ |- _ => apply find_sub_Some in E as (E & _ & _); apply at_pos_length in E
    end; cbn [length LF2 CRLF2] in *; lia.
Qed.
Lemma drain_fuel n m a :
  (length a <= n)%nat -> (length a <= m)%nat -> drain n a = drain m a.
Proof.
  revert m a. induction n as [|n IH]; intros m a Hn Hm.
  - destruct a; [|cbn in Hn; lia]. destruct m; done.
  - cbn [drain]. destruct (sse_boundary a) as [[i k]|] eqn:E.
    + destruct (sse_boundary_bounds _ _ _ E) as [Hb H2].
      destruct m as [|m]; [lia|]. cbn [drain]. rewrite E.
      rewrite (IH m); [done|rewrite length_drop; lia..].
    + destruct m; cbn [drain]; by rewrite ?E.
Qed.
Lemma drain_all_step a i n :
  sse_boundary a = Some (i, n) ->
  drain_all a = (take i a :: (drain_all (drop (i + n) a)).1, (drain_all (drop (i + n) a)).2).
Proof.
  intros E. destruct (sse_boundary_bounds _ _ _ E) as [Hb H2]. unfold drain_all.
  destruct (length a) as [|k] eqn:El; [lia|]. cbn [drain]. rewrite E.
  rewrite (drain_fuel k (length (drop (i + n) a))) by (rewrite length_drop; lia).
  by destruct (drain (length (drop (i + n) a)) _).
Qed.
Lemma drain_all_none a : sse_boundary a = None -> drain_all a = ([], a).
Proof. intros E. unfold drain_all. destruct (length a); cbn [drain]; by rewrite ?E. Qed.
Lemma drain_all_app_n n a b :
  (length a <= n)%nat ->
  drain_all (a ++ b)
  = ((drain_all a).1 ++ (drain_all ((drain_all a).2 ++ b)).1, (drain_all ((drain_all a).2 ++ b)).2).
Proof.
  revert a. induction n as [|n IH]; intros a Hn.
  - destruct a; [|cbn in Hn; lia]. rewrite (drain_all_none []) by done.
    cbn [fst snd app]. by destruct (drain_all b).
  - destruct (sse_boundary a) as [[i k]|] eqn:E.
    + destruct (sse_boundary_bounds _ _ _ E) as [Hb H2].
      rewrite (drain_all_step _ _ _ (sse_boundary_app _ b _ E)), (drain_all_step _ _ _ E).
      cbn [fst snd]. rewrite drop_app_le, take_app_le by lia.
      rewrite (IH (drop (i + k) a)) by (rewrite length_drop; lia). done.
    + rewrite (drain_all_none _ E). cbn [fst snd]. by destruct (drain_all (a ++ b)).
Qed.
(** Draining in two steps drains the whole. *)
Lemma drain_all_app a b :
  drain_all (a ++ b)
  = ((drain_all a).1 ++ (drain_all ((drain_all a).2 ++ b)).1, (drain_all ((drain_all a).2 ++ b)).2).
Proof. by apply (drain_all_app_n (length a)). Qed.
Lemma drain_all_length a : (length (drain_all a).2 <= length a)%nat.
Proof.
  assert (forall n a, (length a <= n)%nat -> (length (drain_all a).2 <= length a)%nat) as Hg;
    [|by apply (Hg (length a))]. clear a.
  induction n as [|n IH]; intros a Hn; [by destruct a; [|cbn in Hn; lia]|].
  destruct (sse_boundary a) as [[i k]|] eqn:E; [|by rewrite (drain_all_none _ E)].
  destruct (sse_boundary_bounds _ _ _ E) as [Hb H2]. rewrite (drain_all_step _ _ _ E). cbn [snd].
  etrans; [apply IH|]; rewrite length_drop; lia.
Qed.

Section StreamProofs.
Context (decode : rstr -> result rstr MessageRecord).

Lemma handle_blocks_app c bs1 bs2 :
  handle_blocks decode c (bs1 ++ bs2)
  = match handle_blocks decode c bs1 with
    | (out, c', SGo) => let '(out', c'', s) := handle_blocks decode c' bs2 in (out ++ out', c'', s)
    | r => r
    end.
Proof.
  revert c. induction bs1 as [|b bs1 IH]; intros c; cbn.
  - by destruct (handle_blocks decode c bs2) as [[? ?] ?].
  - destruct (handle_block decode c b) as [[out c1] []]; [|done..]. rewrite IH.
    destruct (handle_blocks decode c1 bs1) as [[out1 c2] []]; [|done..].
    destruct (handle_blocks decode c2 bs2) as [[out2 c3] s]. by rewrite app_assoc.
Qed.
(** Chunks are handled as the blocks of what they spell. *)
Lemma handle_chunks_blocks c buffer cs :
  (length buffer + length (concat cs) <= MAX_SSE_EVENT_BYTES)%nat -> sse_boundary buffer = None ->
  handle_chunks decode c buffer (Some <$> cs)
  = handle_blocks decode c (drain_all (buffer ++ concat cs)).1.
Proof.
  revert c buffer. induction cs as [|chunk cs IH]; intros c buffer Hl Hb.
  - cbn [fmap list_fmap handle_chunks concat]. by rewrite app_nil_r, (drain_all_none _ Hb).
  - cbn [fmap list_fmap handle_chunks concat] in *. rewrite length_app in Hl.
    rewrite (proj2 (Nat.ltb_ge _ _)) by lia.
    rewrite app_assoc, (drain_all_app (buffer ++ chunk)). cbn [fst]. rewrite handle_blocks_app.
    pose proof (drain_all_length (buffer ++ chunk)) as Hd. rewrite length_app in Hd.
    assert (sse_boundary (drain_all (buffer ++ chunk)).2 = None) as Hr.
    { pose proof (drain_all_app (buffer ++ chunk) []) as Hx. rewrite !app_nil_r in Hx.
      destruct (sse_boundary (drain_all (buffer ++ chunk)).2) as [[i k]|] eqn:E; [|done]. exfalso.
      rewrite (drain_all_step _ _ _ E) in Hx. cbn [fst snd] in Hx.
      apply (f_equal (fun p => length p.1)) in Hx. cbn [fst] in Hx. rewrite length_app in Hx.
      cbn [length] in Hx. lia. }
    destruct (drain_all (buffer ++ chunk)) as [blocks rest]. cbn [fst snd] in *.
    destruct (handle_blocks decode c blocks) as [[out c1] []]; [|done..].
    rewrite IH by (done || lia). done.
Qed.

(** C30: Events do not depend on how the network cuts the stream. Take a stream of at most 256 KiB in
    all, the size of the buffer, of which every chunk arrives, read into an empty buffer: any two
    ways of cutting its bytes into chunks give the same messages, the same cursor and the same
    signal. (Of a longer stream this is not claimed: the bound is tested against the buffer and the
    whole next chunk.) *)
Theorem chunking_irrelevant c cs1 cs2 :
  concat cs1 = concat cs2 -> (length (concat cs1) <= MAX_SSE_EVENT_BYTES)%nat ->
  handle_chunks decode c [] (Some <$> cs1) = handle_chunks decode c [] (Some <$> cs2).
Proof.
  intros E Hl. rewrite (handle_chunks_blocks c [] cs1) by done.
  rewrite (handle_chunks_blocks c [] cs2) by (done || by rewrite <- E). by rewrite E.
Qed.

(** *** Order *)

(** The messages' sequences rise from the first cursor to the second. *)
Fixpoint advances (c : Z) (ms : list MessageRecord) (c' : Z) : Prop :=
  match ms with
  | [] => c' = c
  | m :: ms' => c < m_sequence m /\ advances (m_sequence m) ms' c'
  end.
Lemma advances_app c ms1 c1 ms2 c2 :
  advances c ms1 c1 -> advances c1 ms2 c2 -> advances c (ms1 ++ ms2) c2.
Proof.
  revert c. induction ms1 as [|m ms1 IH]; intros c; cbn; [by intros ->|].
  intros [H1 H2] H3. split; [done|]. by apply IH.
Qed.
Lemma advances_le c ms c' : advances c ms c' -> c + Z.of_nat (length ms) <= c'.
Proof.
  revert c. induction ms as [|m ms IH]; intros c; cbn [advances length]; [lia|].
  intros [H1 H2%IH]. lia.
Qed.
Lemma accept_advances c m : advances c (accept c m).1 (accept c m).2.
Proof. unfold accept. destruct (Z.ltb_spec c (m_sequence m)); cbn; auto. Qed.
Lemma accept_all_advances c ms : advances c (accept_all c ms).1 (accept_all c ms).2.
Proof.
  revert c. induction ms as [|m ms IH]; intros c; [done|]. cbn [accept_all].
  pose proof (accept_advances c m) as Ha. destruct (accept c m) as [out c1].
  specialize (IH c1). destruct (accept_all c1 ms) as [out' c2]. by eapply advances_app.
Qed.
Lemma handle_block_advances c b :
  advances c (handle_block decode c b).1.1 (handle_block decode c b).1.2.
Proof.
  unfold handle_block. destruct (parse_sse_block b) as [ev|]; [|done].
  destruct (ev_kind ev) as [kind|]; [|done]. repeat case_decide; try done.
  destruct (ev_data ev) as [data|]; [|done]. destruct (context _ _) as [m|]; [|done].
  pose proof (accept_advances c m). by destruct (accept c m).
Qed.
Lemma handle_blocks_advances c bs :
  advances c (handle_blocks decode c bs).1.1 (handle_blocks decode c bs).1.2.
Proof.
  revert c. induction bs as [|b bs IH]; intros c; [done|]. cbn [handle_blocks].
  pose proof (handle_block_advances c b) as Hb. destruct (handle_block decode c b) as [[out c1] []];
    [|done..]. specialize (IH c1). destruct (handle_blocks decode c1 bs) as [[out' c2] s].
  by eapply advances_app.
Qed.
Lemma handle_chunks_advances c buffer cs :
  advances c (handle_chunks decode c buffer cs).1.1 (handle_chunks decode c buffer cs).1.2.
Proof.
  revert c buffer. induction cs as [|[chunk|] cs IH]; intros c buffer; [done| |done].
  cbn [handle_chunks]. destruct (_ <? _)%nat; [done|].
  destruct (drain_all (buffer ++ chunk)) as [blocks rest].
  pose proof (handle_blocks_advances c blocks) as Hb.
  destruct (handle_blocks decode c blocks) as [[out c1] []]; [|done..].
  specialize (IH c1 rest). destruct (handle_chunks decode c1 rest cs) as [[out' c2] s].
  by eapply advances_app.
Qed.
Lemma yielded_app a b : yielded (a ++ b) = yielded a ++ yielded b.
Proof. apply omap_app. Qed.
Lemma yielded_all ms : yielded (Yielded <$> ms) = ms.
Proof. induction ms as [|m ms IH]; [done|]. cbn. f_equal. exact IH. Qed.
Lemma resync_advances c pages :
  let '(out, c', n, o) := resync_loop c pages in
  advances c out c' /\ Z.of_nat n <= c' - c + 1 /\ (n <= length pages)%nat /\
  (o = Wait -> Z.of_nat (length pages) <= c' - c).
Proof.
  unfold resync_loop.
  revert c. induction pages as [|[page|e] pages IH]; intros c; cbn [resync].
  - split_and!; [done|lia|done|cbn; lia].
  - pose proof (accept_all_advances c (items page)) as Ha.
    destruct (accept_all c (items page)) as [out c1]. cbn [fst snd] in Ha.
    pose proof (advances_le _ _ _ Ha) as Hle.
    assert (yielded (PageAsked c :: (Yielded <$> out)) = out) as Hy by apply yielded_all.
    destruct (next_cursor page) as [next|]; [|cbn [orb negb]; cbv beta iota zeta; rewrite Hy; split_and!; [done|lia|cbn; lia|done]].
    destruct (Z.leb_spec c1 c) as [|Hlt]; [cbn [orb negb]; cbv beta iota zeta; rewrite Hy; split_and!; [done|lia|cbn; lia|done]|].
    destruct (next =? c1); [|cbn [orb negb]; cbv beta iota zeta; rewrite Hy; split_and!; [done|lia|cbn; lia|done]]. cbn [negb orb].
    specialize (IH c1). destruct (resync c1 pages) as [[[es' c2] n] o].
    destruct IH as (H1 & H2 & H3 & H4). cbn [length]. cbv beta iota zeta. rewrite yielded_app, Hy.
    split_and!; [by eapply advances_app|lia|lia|intros Ho%H4; lia].
  - split_and!; [done|lia|cbn; lia|done].
Qed.

(** C29: Resynchronisation ends. Every page that does not end it moves the cursor forward, so the
    number of pages read is at most one more than the sequences gained; where the
    conversation's sequences stay below some bound, the loop ends by itself, with the stream caught
    up or with an error, within that many responses. *)
Theorem resync_terminates c pages :
  let '(out, c', n, o) := resync_loop c pages in
  Z.of_nat n <= c' - c + 1 /\ advances c out c' /\
  forall bound, Forall (fun m => m_sequence m <= bound) out -> c <= bound ->
    bound - c < Z.of_nat (length pages) -> o <> Wait.
Proof.
  pose proof (resync_advances c pages) as Hr. destruct (resync_loop c pages) as [[[out c'] n] o].
  destruct Hr as (H1 & H2 & _ & H4). split; [done|]. split; [done|]. intros bound Hf Hc Hb Ho.
  specialize (H4 Ho). assert (c' <= bound); [|lia]. clear - H1 Hf Hc. revert c H1 Hc.
  induction Hf as [|m out Hm _ IH]; intros c; cbn [advances]; [by intros ->|].
  intros [_ H] _. by apply (IH _ H).
Qed.

Lemma connected_ok s c :
  0 < delay_ms s <= 30000 ->
  let '(es, s', o) := connected decode s c in
  advances (cursor s) (yielded es) (cursor s') /\ Z.min 250 (delay_ms s) <= delay_ms s' <= 30000.
Proof.
  intros Hd. assert (forall c, Z.min 250 (delay_ms s) <= delay_ms (backed_off s c) <= 30000) as Hb
    by (intros; cbn; unfold sat_mul, U64_MAX; lia).
  unfold connected. destruct c as [|status chunks pages]; [by split|].
  destruct (_ || _); [split; [done|lia]|]. destruct (_ && _); [by split|].
  destruct (negb _); [split; [done|lia]|].
  pose proof (handle_chunks_advances (cursor s) [] chunks) as Hc.
  destruct (handle_chunks decode (cursor s) [] chunks) as [[out c] []]; cbn [fst snd] in Hc.
  - by rewrite yielded_all.
  - pose proof (resync_advances c pages) as Hr. unfold resync_loop in Hr.
    destruct (resync c pages) as [[[es c'] n] o]. destruct Hr as [Hr _].
    rewrite yielded_app, yielded_all. split; [by eapply advances_app|cbn; lia].
  - rewrite yielded_all. split; [done|cbn; lia].
Qed.
Lemma events_ok url s cs :
  0 < delay_ms s <= 30000 ->
  let '(out, s', o) := events decode url s cs in
  advances (cursor s) out (cursor s') /\ Z.min 250 (delay_ms s) <= delay_ms s' <= 30000.
Proof.
  unfold events. revert s. induction cs as [|c cs IH]; intros s Hd; cbn [stream];
    (destruct (url (cursor s)); [|split; [done|lia]]); [split; [done|lia]|].
  pose proof (connected_ok s c Hd) as Hc. destruct (connected decode s c) as [[es s'] []];
    [|done..]. destruct Hc as [Ha Hb]. specialize (IH s' ltac:(lia)).
  destruct (stream decode url s' cs) as [[es' s''] o]. destruct IH as [Ha' Hb'].
  change (yielded (EventsAsked (cursor s) :: es ++ es')) with (yielded (es ++ es')).
  rewrite yielded_app. split; [by eapply advances_app|lia].
Qed.
Lemma advances_sorted c ms c' :
  advances c ms c' ->
  StronglySorted (fun a b => m_sequence a < m_sequence b) ms /\ Forall (fun m => c < m_sequence m) ms.
Proof.
  revert c. induction ms as [|m ms IH]; intros c; cbn [advances]; [by repeat constructor|].
  intros [Hm [Hs Hf]%IH]. split; constructor; [done..|].
  eapply Forall_impl; [exact Hf|]. cbn. lia.
Qed.

(** The stream delivers each message once and in order. Over any sequence of connections,
    failures, duplicated or reordered events and resynchronisations, the sequences of the messages
    yielded rise strictly from the starting cursor, the cursor is that of the last message
    (or the start), and the delay before reconnecting stays between 250 ms and 30 s. *)
Theorem stream_in_order url after cs :
  let '(out, s, o) := events decode url (stream_start after) cs in
  StronglySorted (fun a b => m_sequence a < m_sequence b) out /\
  Forall (fun m => after < m_sequence m) out /\
  cursor s = default after (m_sequence <$> last out) /\
  250 <= delay_ms s <= 30000.
Proof.
  pose proof (events_ok url (stream_start after) cs ltac:(cbn; lia)) as He.
  destruct (events decode url (stream_start after) cs) as [[out s] o]. destruct He as [Ha Hd].
  cbn [stream_start cursor delay_ms] in *. destruct (advances_sorted _ _ _ Ha) as [Hs Hf].
  split_and!; [done|done| |lia|lia]. clear - Ha. revert after Ha.
  induction out as [|m out IH]; intros after; cbn [advances]; [done|]. intros [_ H%IH].
  rewrite H. destruct out; [done|]. rewrite last_cons_cons. destruct (last _) eqn:E; [done|].
  by apply last_None in E.
Qed.
End StreamProofs.

(** *** Responses *)
Lemma read_bounded_Ok limit encoded chunks r :
  (length encoded <= limit)%nat -> read_bounded limit encoded chunks = Ok r ->
  (length r <= limit)%nat /\ exists cs, chunks = Ok <$> cs /\ r = encoded ++ concat cs.
Proof.
  revert encoded. induction chunks as [|[chunk|e] chunks IH]; intros encoded Hl; cbn [read_bounded].
  - intros [= <-]. split; [done|]. exists []. by rewrite app_nil_r.
  - destruct (Nat.ltb_spec limit (length encoded + length chunk)); [done|].
    cbn [bail_if mbind result_bind]. intros E. apply IH in E as [Hr (cs & -> & ->)];
      [|rewrite length_app; lia]. split; [done|]. exists (chunk :: cs). split; [done|].
    cbn. by rewrite app_assoc.
  - done.
Qed.

(** A response is read within its bound and believed only when it says so. A result is
    given only when the announced and the received lengths are within the limit, every
    chunk arrived, the status is a success and the decoded body says success and carries the
    data; anything else is an error. *)
Theorem response_bounded {T} (decode : list byte -> result rstr (ApiResponse T)) limit status
    announced chunks v :
  read_response decode limit status announced chunks = Ok v <->
  exists cs body, chunks = Ok <$> cs /\ (length (concat cs) <= limit)%nat /\
    from_option (fun n => n <= Z.of_nat limit) True announced /\
    decode (concat cs) = Ok body /\ 200 <= status < 300 /\
    api_success body = Some true /\ api_data body = Some v.
Proof.
  assert (is_success status = true <-> 200 <= status < 300) as Hst
    by (unfold is_success; rewrite andb_true_iff, Z.leb_le, Z.ltb_lt; lia).
  unfold read_response. split.
  - destruct (bail_if _ _) as [[]|] eqn:Ea; [|done]. cbn [mbind result_bind].
    apply bail_if_Ok in Ea. destruct (read_bounded limit [] chunks) as [b|] eqn:Er; [|done].
    apply read_bounded_Ok in Er as [Hl (cs & -> & ->)]; [|cbn; lia]. cbn [app mbind result_bind] in *.
    destruct (decode (concat cs)) as [body|] eqn:Ed; [|done].
    cbn [of_text context map_err mbind result_bind].
    destruct (is_success status) eqn:Es; [|done]. case_bool_decide as Hb; [|done].
    cbn [negb orb mbind result_bind]. destruct (api_data body) as [d|] eqn:Ev; [|done].
    cbn. intros [= <-]. exists cs, body. split_and!; try done; try by apply Hst.
    destruct announced as [n|]; cbn; [|done]. by apply Z.ltb_ge in Ea.
  - intros (cs & body & -> & Hl & Ha & Hd & Hs & Hb & Hv).
    assert (forall enc cs, (length enc + length (concat cs) <= limit)%nat ->
      read_bounded limit enc (Ok <$> cs) = Ok (enc ++ concat cs)) as Hread.
    { clear. intros enc cs. revert enc. induction cs as [|c cs IH]; intros enc Hl;
        cbn [fmap list_fmap read_bounded concat].
      - by rewrite app_nil_r.
      - cbn [concat] in Hl. rewrite length_app in Hl. rewrite (proj2 (Nat.ltb_ge _ _)) by lia.
        cbn [bail_if mbind result_bind]. rewrite IH by (rewrite length_app; lia).
        by rewrite app_assoc. }
    assert (match announced with Some n => Z.of_nat limit <? n | None => false end = false) as ->
      by (destruct announced; [by apply Z.ltb_ge|done]).
    cbn [bail_if mbind result_bind]. rewrite Hread by done. cbn [app mbind result_bind].
    rewrite Hd. cbn [of_text context map_err mbind result_bind]. rewrite (proj2 Hst Hs), Hb.
    rewrite bool_decide_eq_true_2 by done. cbn [negb orb mbind result_bind]. by rewrite Hv.
Qed.
End Outbox.

(** ** Witnesses *)
Module OutboxWitness.
Import Anyhow Conversation Outbox.

Definition request (b : byte) : SubmitMessageRequest :=
  {| message_id := pad_bytesN 16 [b]; client_timestamp_ms := 0; reply_to := None;
     key_epoch := None; payload := Plaintext [Text (lit "hi")]; signing_key_id := [];
     signature := [] |}.
Definition queued (b : byte) (attempts : Z) : QueuedMessage :=
  {| q_conversation_id := lit "c"; q_request := request b; q_attempts := attempts;
     q_next_attempt_ms := 10; q_last_error := None |}.
Definition failed1 : QueuedMessage := failed_item (lit "offline") 100 (queued x01 0).
Definition table : list (list QueuedMessage) :=
  [[]; [queued x01 0]; [queued x01 0; queued x02 0]; [queued x02 0]; [failed1; queued x02 0];
   [failed1]].
#[local] Instance queue_json : SerdeJson (list QueuedMessage) :=
  {| json_to_vec := table_serialize table; json_of_slice := table_deserialize table |}.
#[local] Instance queue_json_laws : SerdeJsonLaws (list QueuedMessage).
Proof. intros l b. apply table_roundtrip. Qed.

Definition fine : io := {| io_read := None; io_write := Written |}.
Definition torn : io := {| io_read := None; io_write := FailedBefore "write temporary outbox" OtherKind |}.
Definition box : FileOutbox := outbox_new.
Definition two_file : file := Some (replicate 2 x01).
Lemma two_sound : sound box two_file [queued x01 0; queued x02 0].
Proof.
  split; [by vm_compute|]. split; [by apply (bool_decide_unpack (NoDup _)); vm_compute|].
  split; [vm_compute; discriminate|vm_compute; discriminate].
Qed.

(** A failed write and a failed attempt: both messages are still there. *)
Lemma outbox_durable_witness :
  let f := foldl (run_op box) two_file
             [(torn, OpSent (q_id (queued x02 0)));
              (fine, OpFailed (q_id (queued x01 0)) (lit "offline") 100)] in
  exists l', sound box f l' /\ exists m', m' ∈ l' /\ same_message (queued x01 0) m'.
Proof.
  destruct (outbox_durable box two_file [queued x01 0; queued x02 0]
    [(torn, OpSent (q_id (queued x02 0)));
     (fine, OpFailed (q_id (queued x01 0)) (lit "offline") 100)]) as (l' & Hs & Hk).
  - exact two_sound.
  - split; [discriminate|]. split; [discriminate|exact I].
  - exists l'. split; [exact Hs|]. apply Hk; [apply list_elem_of_here|].
    cbn [fmap list_fmap snd]. rewrite !not_elem_of_cons. split; [|split; [discriminate|apply not_elem_of_nil]].
    intros E. apply (f_equal (fun o => match o with OpSent id => bn id | _ => [] end)) in E.
    vm_compute in E. discriminate E.
Defined.

Definition one_file : file := Some (replicate 1 x01).
Lemma one_sound : sound box one_file [queued x01 0].
Proof.
  split; [by vm_compute|]. split; [apply NoDup_singleton|].
  split; [vm_compute; discriminate|vm_compute; discriminate].
Qed.
(** A second message is queued. *)
Lemma enqueue_idempotent_witness :
  exists l', sound box two_file l' /\
    (exists m, m ∈ l' /\ q_conversation_id m = lit "c" /\ q_request m = request x02).
Proof.
  destruct (enqueue_idempotent box one_file [queued x01 0] fine 10 (lit "c") (request x02) two_file)
    as (l' & Hs & Hm & _).
  - exact one_sound.
  - discriminate.
  - by vm_compute.
  - exists l'. split; [exact Hs|exact Hm].
Defined.

Lemma retry_schedule_witness :
  exists f', mark_failed box two_file fine (q_id (queued x01 0)) (lit "offline") 100 = (f', Ok ()) /\
  exists m, m ∈ [queued x01 0; queued x02 0] /\ q_id m = q_id (queued x01 0).
Proof.
  exists (Some (replicate 4 x01)). split; [by vm_compute|].
  destruct (retry_schedule box two_file [queued x01 0; queued x02 0] fine (q_id (queued x01 0))
    (lit "offline") 100 (Some (replicate 4 x01))) as (m & Hm & Hi & _).
  - exact two_sound.
  - discriminate.
  - by vm_compute.
  - exists m. split; [exact Hm|exact Hi].
Defined.

(** The service refuses the first message and takes the second. *)
Definition answer (i : QueuedMessage) : result error unit :=
  if bool_decide (i = queued x01 0) then Err [CText (msg "offline")] else Ok ().
Definition two : list QueuedMessage := [queued x01 0; queued x02 0].
Lemma two_writable n : writable box (settled answer (fun _ => lit "offline") 100 (take n two) two).
Proof.
  assert (forall k, (k <= 2)%nat -> writable box (settled answer (fun _ => lit "offline") 100 (take k two) two))
    as Hk.
  { intros [|[|[|k]]] Hk; [..|lia]; eexists; (split; [by vm_compute|vm_compute; discriminate]). }
  destruct (decide (n <= 2)%nat) as [Hn|Hn]; [by apply Hk|].
  rewrite take_ge by (cbn; lia). by apply (Hk 2%nat).
Qed.
Lemma flush_delivers_witness :
  let run := answered answer (flush box (fun _ => lit "offline") 100 working (fun _ => working) 500 two_file) in
  run.1 = two /\ run.2.2 = Ok 1 /\ sound box run.2.1 [failed1].
Proof.
  cbv zeta.
  destruct (flush_delivers answer (fun _ => lit "offline") 100 box two_file two 500 working
    (fun _ => working)) as (_ & _ & H).
  - exact two_sound.
  - discriminate.
  - destruct H as (f' & E & Hs); [reflexivity|reflexivity|exact two_writable|].
    rewrite E. cbn [fst snd]. split; [reflexivity|]. split; [reflexivity|exact Hs].
Defined.

Definition record (n : Z) : MessageRecord :=
  {| m_conversation_id := []; m_sequence := n; m_message_id := pad_bytesN 16 []; m_sender := [];
     m_client_timestamp_ms := 0; m_accepted_at_ms := 0; m_reply_to := None; m_key_epoch := None;
     m_payload := Plaintext []; m_payload_digest := []; m_signing_key_id := []; m_signature := [] |}.
Definition by_length (data : rstr) : result rstr MessageRecord := Ok (record (Z.of_nat (length data))).
(** Two events, with the two conventions of line ends, cut inside a separator. *)
Definition wire : list byte :=
  blit "event: message" ++ [x0a] ++ blit "data: aaa" ++ [x0a; x0a]
  ++ blit "event: message" ++ [x0d; x0a] ++ blit "data: aaaaa" ++ [x0d; x0a; x0d; x0a].
Lemma chunking_irrelevant_witness :
  handle_chunks by_length 0 [] (Some <$> [take 26 wire; drop 26 wire])
  = handle_chunks by_length 0 [] (Some <$> [wire]) /\
  (handle_chunks by_length 0 [] (Some <$> [wire])).1.2 = 5.
Proof.
  split; [|by vm_compute]. apply (chunking_irrelevant by_length).
  - by vm_compute.
  - apply Nat.leb_le. by vm_compute.
Defined.

Definition pages0 : list (result error (Page MessageRecord)) :=
  [Ok {| items := [record 1; record 2]; next_cursor := Some 2 |};
   Ok {| items := [record 3]; next_cursor := None |};
   Err []; Err []].
Lemma resync_terminates_witness :
  (let '(out, c', n, o) := resync_loop 0 pages0 in o <> Wait) /\
  (resync_loop 0 pages0).1.2 = 2%nat.
Proof.
  split; [|by vm_compute].
  pose proof (resync_terminates 0 pages0) as Hr. cbn in Hr. cbn.
  destruct Hr as (_ & _ & Hb). apply (Hb 3).
  - repeat constructor; discriminate.
  - discriminate.
  - reflexivity.
Defined.
End OutboxWitness.
