(* ===== verification/Client.v ===== *)
(** * The RPC client

    Models zincha-client's [lib.rs]: the builder of a client, the requests of its endpoints, the
    signing of requests, the decoding of responses and the wait for a transaction. The
    network is an argument: a request is what would be sent. URLs, JSON texts and form
    encoding are parameters. *)
From S2P Require Import Prelude Crypto Instances Keystore Mnemonic Conversation.

Module Client.
Import Anyhow Conversation.

(** The rest of the [url] crate that this file uses. *)
Class UrlOps `{Urls} := {
  url_join : Url -> rstr -> result rstr Url;
  url_set_scheme : rstr -> Url -> option Url;
  (** [form_urlencoded]: the pairs of a query. *)
  form_encode : list (rstr * rstr) -> rstr;
}.

(** ** Requests *)
Inductive Method : Type := GET | POST.
Definition method_as_str (m : Method) : rstr := match m with GET => lit "GET" | POST => lit "POST" end.

Record RequestOptions : Type := {
  query : list (rstr * rstr);
  body : option Json.Value;
  o_bearer_token : option rstr;
  signed : bool;
  o_signer : option Keypair;
  o_timestamp_ms : option Z;
  o_nonce : option rstr;
  delegation_id : option rstr;
}.
#[global] Instance eta_RequestOptions : Eta RequestOptions := fun o =>
  {| query := query o; body := body o; o_bearer_token := o_bearer_token o; signed := signed o;
     o_signer := o_signer o; o_timestamp_ms := o_timestamp_ms o; o_nonce := o_nonce o;
     delegation_id := delegation_id o |}.
Definition options_default : RequestOptions :=
  {| query := []; body := None; o_bearer_token := None; signed := false; o_signer := None;
     o_timestamp_ms := None; o_nonce := None; delegation_id := None |}.
Definition query_param (name value : rstr) (o : RequestOptions) : RequestOptions :=
  o <| query := query o ++ [(name, value)] |>.
Definition body_json (b : Json.Value) (o : RequestOptions) : RequestOptions := o <| body := Some b |>.
Definition with_bearer_token (t : rstr) (o : RequestOptions) : RequestOptions :=
  o <| o_bearer_token := Some t |>.
Definition with_signed (o : RequestOptions) : RequestOptions := o <| signed := true |>.
Definition with_signer (k : Keypair) (o : RequestOptions) : RequestOptions := o <| o_signer := Some k |>.
Definition with_timestamp_ms (t : Z) (o : RequestOptions) : RequestOptions :=
  o <| o_timestamp_ms := Some t |>.
Definition with_nonce (n : rstr) (o : RequestOptions) : RequestOptions := o <| o_nonce := Some n |>.
Definition delegated (id : rstr) (o : RequestOptions) : RequestOptions :=
  o <| delegation_id := Some id |>.

(** [if let Some(v) = opt { options = options.query_param(name, ..) }]. *)
Definition opt_param (name : string) (v : option rstr) (o : RequestOptions) : RequestOptions :=
  match v with Some v => query_param (lit name) v o | None => o end.

(** A builder's method called when there is a value for it. *)
Definition with_opt {A Q} (set : A -> Q -> Q) (v : option A) (q : Q) : Q :=
  match v with Some a => set a q | None => q end.

(** Queries: [CursorPageQuery], [TransactionHistoryQuery] and [ParticipantWorkflowQuery] have
    the same fields and methods. *)
Record CursorPageQuery : Type := { cp_limit : option Z; cp_cursor : option rstr }.
#[global] Instance eta_CursorPageQuery : Eta CursorPageQuery := fun q =>
  {| cp_limit := cp_limit q; cp_cursor := cp_cursor q |}.
Definition page_new : CursorPageQuery := {| cp_limit := None; cp_cursor := None |}.
Definition page_limit (n : Z) (q : CursorPageQuery) : CursorPageQuery := q <| cp_limit := Some n |>.
Definition page_cursor (c : rstr) (q : CursorPageQuery) : CursorPageQuery :=
  q <| cp_cursor := Some c |>.
Definition page_options (q : CursorPageQuery) (o : RequestOptions) : RequestOptions :=
  opt_param "cursor" (cp_cursor q) (opt_param "limit" (show_u <$> cp_limit q) o).
Definition into_request_options (q : CursorPageQuery) : RequestOptions :=
  page_options q options_default.
Record CapabilityListQuery : Type := {
  cl_limit : option Z; cl_cursor : option rstr; cl_status : option rstr;
  cl_category : option rstr; cl_parent : option rstr;
}.
#[global] Instance eta_CapabilityListQuery : Eta CapabilityListQuery := fun q =>
  {| cl_limit := cl_limit q; cl_cursor := cl_cursor q; cl_status := cl_status q;
     cl_category := cl_category q; cl_parent := cl_parent q |}.
Definition list_new : CapabilityListQuery :=
  {| cl_limit := None; cl_cursor := None; cl_status := None; cl_category := None;
     cl_parent := None |}.
Definition list_limit (n : Z) (q : CapabilityListQuery) : CapabilityListQuery :=
  q <| cl_limit := Some n |>.
Definition list_cursor (c : rstr) (q : CapabilityListQuery) : CapabilityListQuery :=
  q <| cl_cursor := Some c |>.
Definition list_status (s : rstr) (q : CapabilityListQuery) : CapabilityListQuery :=
  q <| cl_status := Some s |>.
Definition list_category (c : rstr) (q : CapabilityListQuery) : CapabilityListQuery :=
  q <| cl_category := Some c |>.
Definition list_parent (p : rstr) (q : CapabilityListQuery) : CapabilityListQuery :=
  q <| cl_parent := Some p |>.
Definition capability_list_options (q : CapabilityListQuery) : RequestOptions :=
  opt_param "parent" (cl_parent q) (opt_param "category" (cl_category q)
    (opt_param "status" (cl_status q)
      (page_options {| cp_limit := cl_limit q; cp_cursor := cl_cursor q |} options_default))).
Record CapabilitySearchQuery : Type := {
  cs_limit : option Z; cs_cursor : option rstr; cs_status : option rstr; cs_category : option rstr;
}.
#[global] Instance eta_CapabilitySearchQuery : Eta CapabilitySearchQuery := fun q =>
  {| cs_limit := cs_limit q; cs_cursor := cs_cursor q; cs_status := cs_status q;
     cs_category := cs_category q |}.
Definition search_new : CapabilitySearchQuery :=
  {| cs_limit := None; cs_cursor := None; cs_status := None; cs_category := None |}.
Definition search_limit (n : Z) (q : CapabilitySearchQuery) : CapabilitySearchQuery :=
  q <| cs_limit := Some n |>.
Definition search_cursor (c : rstr) (q : CapabilitySearchQuery) : CapabilitySearchQuery :=
  q <| cs_cursor := Some c |>.
Definition search_status (s : rstr) (q : CapabilitySearchQuery) : CapabilitySearchQuery :=
  q <| cs_status := Some s |>.
Definition search_category (c : rstr) (q : CapabilitySearchQuery) : CapabilitySearchQuery :=
  q <| cs_category := Some c |>.
Definition capability_search_options (q : rstr) (s : CapabilitySearchQuery) : RequestOptions :=
  opt_param "category" (cs_category s) (opt_param "status" (cs_status s)
    (page_options {| cp_limit := cs_limit s; cp_cursor := cs_cursor s |}
       (query_param (lit "q") q options_default))).
Record PendingTaskListQuery : Type := {
  pt_limit : option Z;
  pt_cursor : option rstr;
  pt_discover_capabilities : list rstr;
  pt_discover_min_fee : option Z;
  pt_discover_fees : list (rstr * Z);
}.
#[global] Instance eta_PendingTaskListQuery : Eta PendingTaskListQuery := fun q =>
  {| pt_limit := pt_limit q; pt_cursor := pt_cursor q;
     pt_discover_capabilities := pt_discover_capabilities q;
     pt_discover_min_fee := pt_discover_min_fee q; pt_discover_fees := pt_discover_fees q |}.
Definition pending_new : PendingTaskListQuery :=
  {| pt_limit := None; pt_cursor := None; pt_discover_capabilities := [];
     pt_discover_min_fee := None; pt_discover_fees := [] |}.
Definition pending_limit (n : Z) (q : PendingTaskListQuery) : PendingTaskListQuery :=
  q <| pt_limit := Some n |>.
Definition pending_cursor (c : rstr) (q : PendingTaskListQuery) : PendingTaskListQuery :=
  q <| pt_cursor := Some c |>.
Definition discover_capability (c : rstr) (q : PendingTaskListQuery) : PendingTaskListQuery :=
  q <| pt_discover_capabilities := pt_discover_capabilities q ++ [c] |>.
Definition discover_min_fee (fee : Z) (q : PendingTaskListQuery) : PendingTaskListQuery :=
  q <| pt_discover_min_fee := Some fee |>.
Definition discover_fee (c : rstr) (fee : Z) (q : PendingTaskListQuery) : PendingTaskListQuery :=
  q <| pt_discover_fees := pt_discover_fees q ++ [(c, fee)] |>.
Definition pending_task_options (q : PendingTaskListQuery) : RequestOptions :=
  let o := page_options {| cp_limit := pt_limit q; cp_cursor := pt_cursor q |} options_default in
  let o := foldl (fun o c => query_param (lit "discover_capability") c o) o
             (pt_discover_capabilities q) in
  let o := opt_param "discover_min_fee" (show_u <$> pt_discover_min_fee q) o in
  foldl (fun o p => query_param (lit "discover_fee") (p.1 ++ lit ":" ++ show_u p.2) o) o
    (pt_discover_fees q).
(** [ParticipantWorkflowQuery]: the same, signed. *)
Definition participant_options (q : CursorPageQuery) : RequestOptions :=
  page_options q (with_signed options_default).

(** ** Endpoints: the method, the path and the options *)
Record api_request : Type := { r_method : Method; r_path : rstr; r_options : RequestOptions }.
Definition get_with (path : rstr) (o : RequestOptions) : api_request :=
  {| r_method := GET; r_path := path; r_options := o |}.
Definition get (path : rstr) : api_request := get_with path options_default.
Definition post_json (path : rstr) (b : Json.Value) : api_request :=
  {| r_method := POST; r_path := path; r_options := body_json b options_default |}.

Definition chain_info : api_request := get (lit "/v1/chain/info").
Definition balance (address : rstr) : api_request :=
  get (lit "/v1/accounts/" ++ address ++ lit "/balance").
Definition nonce (address : rstr) : api_request :=
  get (lit "/v1/accounts/" ++ address ++ lit "/nonce").
Definition requester_reputation (address : rstr) : api_request :=
  get (lit "/v1/requesters/" ++ address).
Definition validators : api_request := get (lit "/v1/consensus/validators").
Definition account_transactions (address : rstr) (q : CursorPageQuery) : api_request :=
  get_with (lit "/v1/accounts/" ++ address ++ lit "/transactions") (into_request_options q).
Definition agents (q : CursorPageQuery) : api_request :=
  get_with (lit "/v1/agents") (into_request_options q).
Definition tools (q : CursorPageQuery) : api_request :=
  get_with (lit "/v1/tools") (into_request_options q).
Definition contracts (q : CursorPageQuery) : api_request :=
  get_with (lit "/v1/contracts") (into_request_options q).
Definition tokens (q : CursorPageQuery) : api_request :=
  get_with (lit "/v1/tokens") (into_request_options q).
Definition arbitrators (q : CursorPageQuery) : api_request :=
  get_with (lit "/v1/arbitrators") (into_request_options q).
Definition rpc_read_delegation (id : rstr) : api_request :=
  get (lit "/v1/rpc-read-delegations/" ++ id).
Definition rpc_read_delegations_by_delegator (address : rstr) (q : CursorPageQuery) : api_request :=
  get_with (lit "/v1/rpc-read-delegations/delegator/" ++ address) (into_request_options q).
Definition rpc_read_delegations_by_delegate (address : rstr) (q : CursorPageQuery) : api_request :=
  get_with (lit "/v1/rpc-read-delegations/delegate/" ++ address) (into_request_options q).
Definition rpc_read_delegation_lifecycle_events (delegate : rstr) (after_seq limit : Z) : api_request :=
  get_with (lit "/v1/rpc-read-delegations/delegate/" ++ delegate ++ lit "/lifecycle-events")
    (query_param (lit "limit") (show_u limit)
       (query_param (lit "after_seq") (show_u after_seq) options_default)).
Definition market_rates (q : CursorPageQuery) : api_request :=
  get_with (lit "/v1/market-rates") (into_request_options q).
Definition pending_tasks (q : PendingTaskListQuery) : api_request :=
  get_with (lit "/v1/tasks/pending") (pending_task_options q).
Definition contract_transactions (address : rstr) (q : CursorPageQuery) : api_request :=
  get_with (lit "/v1/contracts/" ++ address ++ lit "/transactions") (into_request_options q).
Definition token_transactions (id : rstr) (q : CursorPageQuery) : api_request :=
  get_with (lit "/v1/tokens/" ++ id ++ lit "/transactions") (into_request_options q).
Definition capabilities (q : CapabilityListQuery) : api_request :=
  get_with (lit "/v1/capabilities") (capability_list_options q).
Definition capability_search (text : rstr) (q : CapabilitySearchQuery) : api_request :=
  get_with (lit "/v1/capabilities/search") (capability_search_options text q).
Definition capability (slug : rstr) : api_request := get (lit "/v1/capabilities/" ++ slug).
Definition capability_categories : api_request := get (lit "/v1/capabilities/categories").
Definition task (id : rstr) : api_request :=
  get_with (lit "/v1/tasks/" ++ id) (with_signed options_default).
Definition task_opportunity (id : rstr) : api_request :=
  get (lit "/v1/tasks/" ++ id ++ lit "/opportunity").
Definition agreement (id : rstr) : api_request :=
  get_with (lit "/v1/agreements/" ++ id) (with_signed options_default).
Definition agreements_by_party (address : rstr) (q : CursorPageQuery) : api_request :=
  get_with (lit "/v1/agreements/party/" ++ address) (participant_options q).
Definition agreements_by_arbitrator (address : rstr) (q : CursorPageQuery) : api_request :=
  get_with (lit "/v1/agreements/arbitrator/" ++ address) (participant_options q).
Definition tool_job (id : rstr) : api_request :=
  get_with (lit "/v1/tool-jobs/" ++ id) (with_signed options_default).
Definition tool_jobs_by_requester (address : rstr) (q : CursorPageQuery) : api_request :=
  get_with (lit "/v1/tool-jobs/requester/" ++ address) (participant_options q).
Definition tool_jobs_by_provider (address : rstr) (q : CursorPageQuery) : api_request :=
  get_with (lit "/v1/tool-jobs/provider/" ++ address) (participant_options q).
Definition tool_usage_session (id : rstr) : api_request :=
  get_with (lit "/v1/tool-usage-sessions/" ++ id) (with_signed options_default).
Definition tool_usage_sessions_by_requester (address : rstr) (q : CursorPageQuery) : api_request :=
  get_with (lit "/v1/tool-usage-sessions/requester/" ++ address) (participant_options q).
Definition tool_usage_sessions_by_provider (address : rstr) (q : CursorPageQuery) : api_request :=
  get_with (lit "/v1/tool-usage-sessions/provider/" ++ address) (participant_options q).
Definition transaction_status (hash : rstr) : api_request := get (lit "/v1/tx/" ++ hash).

(** *** Submissions *)
Definition j_u64 (n : Z) : Json.Value := Json.Number (show_u n).
(** A field skipped when it is [None]. *)
Definition opt_field (name : string) (n : option Z) : list (rstr * Json.Value) :=
  match n with Some n => [(lit name, j_u64 n)] | None => [] end.
Definition submit_signed_transaction_hex (hex : rstr) : api_request :=
  post_json (lit "/v1/tx/submit") (Json.Object [(lit "signed_tx_hex", Json.Str hex)]).
Definition hex_array (hexes : list rstr) : rstr * Json.Value :=
  (lit "signed_transactions_hex", Json.Array (Json.Str <$> hexes)).
Definition submit_batch (hexes : list rstr) : api_request :=
  post_json (lit "/v1/tx/submit/batch") (Json.Object [hex_array hexes]).
Record ProtectedSubmitOptions : Type := {
  ps_bearer_token : option rstr; ps_max_priority_fee_per_gas : option Z;
}.
Definition submit_protected (hex : rstr) (o : ProtectedSubmitOptions) : api_request :=
  {| r_method := POST; r_path := lit "/v1/tx/submit/protected";
     r_options := options_default
       <| o_bearer_token := ps_bearer_token o |>
       <| body := Some (Json.Object ([(lit "signed_tx_hex", Json.Str hex)]
            ++ opt_field "max_priority_fee_per_gas" (ps_max_priority_fee_per_gas o))) |> |}.
Record OrderflowBundleOptions : Type := {
  ob_bearer_token : option rstr;
  ob_atomic : bool;
  ob_expiration_height : Z;
  ob_max_total_fee : option Z;
  ob_max_priority_fee_per_gas : option Z;
}.
Definition bundle_options (expiration_height : Z) : OrderflowBundleOptions :=
  {| ob_bearer_token := None; ob_atomic := true; ob_expiration_height := expiration_height;
     ob_max_total_fee := None; ob_max_priority_fee_per_gas := None |}.
Definition submit_orderflow_bundle (hexes : list rstr) (o : OrderflowBundleOptions) : api_request :=
  {| r_method := POST; r_path := lit "/v1/orderflow/bundles";
     r_options := options_default
       <| o_bearer_token := ob_bearer_token o |>
       <| body := Some (Json.Object
            ([hex_array hexes; (lit "atomic", Json.Boolean (ob_atomic o));
              (lit "expiration_height", j_u64 (ob_expiration_height o))]
             ++ opt_field "max_total_fee" (ob_max_total_fee o)
             ++ opt_field "max_priority_fee_per_gas" (ob_max_priority_fee_per_gas o))) |> |}.
Definition faucet_request (address : rstr) (micro zin : option Z) : api_request :=
  post_json (lit "/v1/faucet") (Json.Object
    ([(lit "address", Json.Str address)] ++ opt_field "amount_micro_zin" micro
     ++ opt_field "amount_zin" zin)).

(** ** Signed requests *)
Section Signing.
Context `{Digests, Hex, Ed25519}.

Definition SIGNED_REQUEST_PREFIX : rstr := lit "zincha-rpc-signed-request-v1".
Definition DELEGATED_REQUEST_PREFIX : rstr := lit "zincha-rpc-delegated-read-v1".
Definition to_ascii_uppercase (s : rstr) : rstr :=
  (fun c => if is_ascii_lowercase c then c - 32 else c) <$> s.

Record SignedRequestParts : Type := {
  p_message : rstr;
  p_body_sha256 : rstr;
  p_timestamp_ms : Z;
  p_nonce : rstr;
  p_address : rstr;
  p_public_key : rstr;
  p_signature : rstr;
}.
(** What a request without its own time and nonce is given: the clock, and sixteen random bytes. *)
Record ambient : Type := { a_now : Z; a_nonce : bytesN 16 }.
Definition random_nonce_hex (a : ambient) : rstr := hex_encode (bn (a_nonce a)).
Definition request_lines (prefix : rstr) (signer : Keypair) (method target : rstr)
    (body_bytes : list byte) (timestamp_ms : Z) (nonce : rstr) : list rstr :=
  [prefix; to_ascii_uppercase method; target; show_u timestamp_ms; nonce;
   hash_to_hex (hash_bytes body_bytes); address_to_hex (keypair_address signer);
   hex_encode (bn (keypair_public_key signer))].
Definition signed_request_parts (a : ambient) (signer : Keypair) (method target : rstr)
    (body_bytes : list byte) (timestamp_ms : option Z) (nonce : option rstr) : SignedRequestParts :=
  let timestamp_ms := default (a_now a) timestamp_ms in
  let nonce := default (random_nonce_hex a) nonce in
  let message :=
    join [10] (request_lines SIGNED_REQUEST_PREFIX signer method target body_bytes timestamp_ms nonce) in
  {| p_message := message; p_body_sha256 := hash_to_hex (hash_bytes body_bytes);
     p_timestamp_ms := timestamp_ms; p_nonce := nonce;
     p_address := address_to_hex (keypair_address signer);
     p_public_key := hex_encode (bn (keypair_public_key signer));
     p_signature := hex_encode (bn (keypair_sign signer (utf8 message))) |}.

(** Headers, in the order of their names. *)
Definition signed_request_headers (a : ambient) (signer : Keypair) (method target : rstr)
    (body_bytes : list byte) (timestamp_ms : option Z) (nonce : option rstr) : list (rstr * rstr) :=
  let parts := signed_request_parts a signer method target body_bytes timestamp_ms nonce in
  [(lit "x-zincha-address", p_address parts);
   (lit "x-zincha-body-sha256", p_body_sha256 parts);
   (lit "x-zincha-nonce", p_nonce parts);
   (lit "x-zincha-public-key", p_public_key parts);
   (lit "x-zincha-signature", p_signature parts);
   (lit "x-zincha-timestamp-ms", show_u (p_timestamp_ms parts))].
Definition delegated_message (signer : Keypair) (method target : rstr) (body_bytes : list byte)
    (timestamp_ms : Z) (nonce delegation : rstr) : rstr :=
  join [10] (request_lines DELEGATED_REQUEST_PREFIX signer method target body_bytes timestamp_ms nonce
             ++ [delegation]).
Definition delegated_request_headers (a : ambient) (signer : Keypair) (method target : rstr)
    (body_bytes : list byte) (delegation : rstr) (timestamp_ms : option Z) (nonce : option rstr)
    : result error (list (rstr * rstr)) :=
  id ← context "delegation ID must be a 32-byte hexadecimal hash" (of_text (hash_from_hex delegation));
  let delegation := hash_to_hex id in
  let timestamp_ms := default (a_now a) timestamp_ms in
  let nonce := default (random_nonce_hex a) nonce in
  let message := delegated_message signer method target body_bytes timestamp_ms nonce delegation in
  Ok [(lit "x-zincha-address", address_to_hex (keypair_address signer));
      (lit "x-zincha-body-sha256", hash_to_hex (hash_bytes body_bytes));
      (lit "x-zincha-delegation-id", delegation);
      (lit "x-zincha-nonce", nonce);
      (lit "x-zincha-public-key", hex_encode (bn (keypair_public_key signer)));
      (lit "x-zincha-signature", hex_encode (bn (keypair_sign signer (utf8 message))));
      (lit "x-zincha-timestamp-ms", show_u timestamp_ms)].
End Signing.

(** ** The client *)
Section Client.
Context `{UrlOps, Digests, Hex, Ed25519}.

Record ZinchaClient : Type := {
  base_url : Url;
  faucet_url : option Url;
  websocket_url : option Url;
  bearer_token : option rstr;
  signer : option Keypair;
}.
Record ZinchaClientBuilder : Type := {
  b_base_url : option rstr;
  b_release : option rstr;
  b_faucet_url : option rstr;
  b_websocket_url : option rstr;
  b_bearer_token : option rstr;
  b_signer : option Keypair;
}.
Definition builder_new : ZinchaClientBuilder :=
  {| b_base_url := None; b_release := None; b_faucet_url := None; b_websocket_url := None;
     b_bearer_token := None; b_signer := None |}.

Definition with_base_url (u : rstr) (b : ZinchaClientBuilder) : ZinchaClientBuilder :=
  {| b_base_url := Some u; b_release := b_release b; b_faucet_url := b_faucet_url b;
     b_websocket_url := b_websocket_url b; b_bearer_token := b_bearer_token b; b_signer := b_signer b |}.
Definition with_release (r : rstr) (b : ZinchaClientBuilder) : ZinchaClientBuilder :=
  {| b_base_url := b_base_url b; b_release := Some r; b_faucet_url := b_faucet_url b;
     b_websocket_url := b_websocket_url b; b_bearer_token := b_bearer_token b; b_signer := b_signer b |}.
Definition with_faucet_url (u : rstr) (b : ZinchaClientBuilder) : ZinchaClientBuilder :=
  {| b_base_url := b_base_url b; b_release := b_release b; b_faucet_url := Some u;
     b_websocket_url := b_websocket_url b; b_bearer_token := b_bearer_token b; b_signer := b_signer b |}.
Definition with_websocket_url (u : rstr) (b : ZinchaClientBuilder) : ZinchaClientBuilder :=
  {| b_base_url := b_base_url b; b_release := b_release b; b_faucet_url := b_faucet_url b;
     b_websocket_url := Some u; b_bearer_token := b_bearer_token b; b_signer := b_signer b |}.
Definition builder_bearer_token (t : rstr) (b : ZinchaClientBuilder) : ZinchaClientBuilder :=
  {| b_base_url := b_base_url b; b_release := b_release b; b_faucet_url := b_faucet_url b;
     b_websocket_url := b_websocket_url b; b_bearer_token := Some t; b_signer := b_signer b |}.
Definition builder_signer (k : Keypair) (b : ZinchaClientBuilder) : ZinchaClientBuilder :=
  {| b_base_url := b_base_url b; b_release := b_release b; b_faucet_url := b_faucet_url b;
     b_websocket_url := b_websocket_url b; b_bearer_token := b_bearer_token b; b_signer := Some k |}.

(** [s.trim_end_matches(c)] and [s.trim_start_matches(c)]. *)
Definition trim_end_matches (c : Z) (s : rstr) : rstr :=
  reverse (drop_while (fun x => x =? c) (reverse s)).
Definition trim_start_matches (c : Z) (s : rstr) : rstr := drop_while (fun x => x =? c) s.

Definition normalize_base_url (raw : rstr) : result error Url :=
  url ← map_err (fun e => [CText (Msg "parse API URL {}" [AStr raw]); CText (Msg "{}" [AStr e])])
    (url_parse raw);
  _ ← bail_if (negb (bool_decide (url_scheme url = lit "http"))
        && negb (bool_decide (url_scheme url = lit "https"))) "API URL must use http or https";
  Ok (url_set_path (trim_end_matches 47 (url_path url)) url).
Definition derive_websocket_url (base : Url) : result error Url :=
  scheme ← (if decide (url_scheme base = lit "http") then Ok (lit "ws")
            else if decide (url_scheme base = lit "https") then Ok (lit "wss")
            else bail (Msg "cannot derive websocket URL from scheme {}" [AStr (url_scheme base)]));
  ok_or (url_set_scheme scheme base) [CText (msg "derive websocket URL scheme")].

(** Building the HTTP client itself is taken to succeed. *)
Definition build (b : ZinchaClientBuilder) : result error ZinchaClient :=
  spec ← match b_release b with
         | Some alias =>
             name ← ok_or (Release.parse_alias alias)
               [CText (Msg "unknown release alias {}" [AStr alias])];
             Ok (Some (Release.release_spec name))
         | None => Ok None
         end;
  base ← ok_or (match b_base_url b with
                | Some u => Some u
                | None => Release.canonical_rpc_url <$> spec
                end) [CText (msg "base_url or release is required")];
  base ← normalize_base_url base;
  faucet ← match (match b_faucet_url b with
                  | Some u => Some u
                  | None => if bool_decide (is_Some (b_base_url b)) then None
                            else s ← spec; Release.faucet_url s
                  end) with
           | Some u => f ← normalize_base_url u; Ok (Some f)
           | None => Ok None
           end;
  websocket ← match b_websocket_url b with
              | Some u =>
                  w ← map_err (fun e => [CText (Msg "parse websocket URL {}" [AStr u]);
                                         CText (Msg "{}" [AStr e])]) (url_parse u);
                  Ok (Some w)
              | None =>
                  match a ← b_release b; Release.canonical_websocket_url_for_alias a with
                  | Some u =>
                      w ← context "parse canonical release websocket URL" (of_text (url_parse u));
                      Ok (Some w)
                  | None => Ok (ok (derive_websocket_url base))
                  end
              end;
  Ok {| base_url := base; faucet_url := faucet; websocket_url := websocket;
        bearer_token := b_bearer_token b; signer := b_signer b |}.
Definition new_client (url : rstr) : result error ZinchaClient :=
  build (with_base_url url builder_new).
Definition for_release (alias : rstr) : result error ZinchaClient :=
  build (with_release alias builder_new).

Definition build_request_target (path : rstr) (q : list (rstr * rstr)) : rstr :=
  let target := if starts_with (lit "/") path then path else lit "/" ++ path in
  if bool_decide (q = []) then target
  else target ++ (if bool_decide (63 ∈ target) then [38] else [63]) ++ form_encode q.
Definition join_path (base : Url) (path : rstr) : result error Url :=
  map_err (fun e => [CText (Msg "join API path {}" [AStr path]); CText (Msg "{}" [AStr e])])
    (url_join base (trim_start_matches 47 path)).

(** What is sent: method, URL, body, bearer token and signature headers. *)
Record outgoing : Type := {
  out_method : Method;
  out_url : Url;
  out_body : option (list byte);
  out_bearer : option rstr;
  out_headers : list (rstr * rstr);
}.
Definition option_or {A} (a b : option A) : option A := match a with Some _ => a | None => b end.
(** [request] up to sending; [to_vec] serialises a JSON value. *)
Definition request (to_vec : Json.Value -> result rstr (list byte)) (a : ambient) (c : ZinchaClient)
    (r : api_request) : result error outgoing :=
  let o := r_options r in
  let target := build_request_target (r_path r) (query o) in
  url ← join_path (base_url c) target;
  body_bytes ← match body o with
               | Some b => v ← context "serialize JSON request body" (of_text (to_vec b)); Ok (Some v)
               | None => Ok None
               end;
  headers ←
    (if signed o || bool_decide (is_Some (delegation_id o)) then
       key ← ok_or (option_or (o_signer o) (signer c))
         [CText (msg "signed request requires a signer")];
       match delegation_id o with
       | Some id => delegated_request_headers a key (method_as_str (r_method r)) target
                      (default [] body_bytes) id (o_timestamp_ms o) (o_nonce o)
       | None => Ok (signed_request_headers a key (method_as_str (r_method r)) target
                       (default [] body_bytes) (o_timestamp_ms o) (o_nonce o))
       end
     else Ok []);
  Ok {| out_method := r_method r; out_url := url; out_body := body_bytes;
        out_bearer := option_or (o_bearer_token o) (bearer_token c); out_headers := headers |}.
(** The faucet answers at its own URL when the client has one. *)
Definition faucet_client (c : ZinchaClient) : ZinchaClient :=
  match faucet_url c with
  | Some u => {| base_url := u; faucet_url := faucet_url c; websocket_url := websocket_url c;
                 bearer_token := bearer_token c; signer := signer c |}
  | None => c
  end.
Definition request_faucet (to_vec : Json.Value -> result rstr (list byte)) (a : ambient)
    (c : ZinchaClient) (address : rstr) (micro zin : option Z) : result error outgoing :=
  request to_vec a (faucet_client c) (faucet_request address micro zin).
End Client.

(** ** Responses *)
Record ApiResponse : Type := {
  success : bool; data : option Json.Value; api_error : option rstr;
}.
Record ZinchaApiError : Type := { e_status : option Z; e_message : rstr; e_data : option Json.Value }.
Inductive response_error : Type :=
| ApiFailure (e : ZinchaApiError)
| Undecodable (context_text : string) (e : rstr).
(** [parse] decodes the envelope, [decode] the data, [lossy] reads text with replacements;
    [status_text] is a status with its reason. *)
Definition decode_response {T} (parse : list byte -> result rstr ApiResponse)
    (decode : Json.Value -> result rstr T) (lossy : list byte -> rstr) (status : Z)
    (status_text : rstr) (bytes : list byte) : result response_error T :=
  let envelope := parse bytes in
  if negb ((200 <=? status) && (status <? 300)) then
    Err (ApiFailure
      match envelope with
      | Ok api => {| e_status := Some status;
                     e_message := default (lit "HTTP " ++ status_text ++ lit " without API error message")
                                    (api_error api);
                     e_data := data api |}
      | Err _ => {| e_status := Some status; e_message := lossy bytes; e_data := None |}
      end)
  else
    api ← map_err (Undecodable "decode API response envelope") envelope;
    if negb (success api) then
      Err (ApiFailure {| e_status := Some status;
                         e_message := default (lit "API response reported failure") (api_error api);
                         e_data := data api |})
    else map_err (Undecodable "decode API response data") (decode (default Json.Null (data api))).

(** ** Waiting for a transaction *)
Definition as_bool (v : Json.Value) : option bool :=
  match v with Json.Boolean b => Some b | _ => None end.
(** [value.get(key)], [value.pointer("/transaction/key")]. *)
Definition value_get (key : rstr) (v : Json.Value) : option Json.Value :=
  fields ← Json.as_object v; Json.get key fields.
Definition pointer_transaction (key : rstr) (v : Json.Value) : option Json.Value :=
  t ← value_get (lit "transaction") v; value_get key t.
Definition is_pending_transaction_status (v : Json.Value) : bool :=
  let status :=
    default (lit "unknown")
      (option_or (s ← value_get (lit "status") v; Json.as_str s)
                 (s ← pointer_transaction (lit "status") v; Json.as_str s)) in
  let terminal :=
    bool_decide ((t ← option_or (value_get (lit "terminal") v) (pointer_transaction (lit "terminal") v);
                  as_bool t) = Some true) in
  negb (terminal && bool_decide (status ∈ [lit "confirmed"; lit "rejected"])).
(** One poll: the answer, and the time since the start when it is looked at. The sequence is
    what the node answers; [None] is a poll that has not been answered. *)
Fixpoint wait_for_transaction (hash : rstr) (timeout : Z)
    (polls : list (result error Json.Value * Z)) : option (result error Json.Value) :=
  match polls with
  | [] => None
  | (Err e, _) :: _ => Some (Err e)
  | (Ok status, elapsed) :: polls' =>
      if negb (is_pending_transaction_status status) then Some (Ok status)
      else if timeout <=? elapsed then
        Some (Err [CText (Msg "timed out waiting for transaction {}" [AStr hash])])
      else wait_for_transaction hash timeout polls'
  end.

(** ** What is signed *)
Section SigningProofs.
Context `{Digests, HexLaws, Ed25519Laws}.

(** The message of a request, signed by its owner or as the delegate of a grant. *)
Definition request_message (delegation : option rstr) (signer : Keypair) (m : Method)
    (target : rstr) (body_bytes : list byte) (t : Z) (n : rstr) : rstr :=
  match delegation with
  | None => join [10] (request_lines SIGNED_REQUEST_PREFIX signer (method_as_str m) target body_bytes t n)
  | Some d => delegated_message signer (method_as_str m) target body_bytes t n d
  end.
Definition message_lines_of (delegation : option rstr) (signer : Keypair) (m : Method)
    (target : rstr) (body_bytes : list byte) (t : Z) (n : rstr) : list rstr :=
  match delegation with
  | None => request_lines SIGNED_REQUEST_PREFIX signer (method_as_str m) target body_bytes t n
  | Some d =>
      request_lines DELEGATED_REQUEST_PREFIX signer (method_as_str m) target body_bytes t n ++ [d]
  end.
Lemma request_message_lines d k m target b t n :
  request_message d k m target b t n = join [10] (message_lines_of d k m target b t n).
Proof. by destruct d. Qed.
Lemma request_lines_clean p k m target b t n :
  clean p -> clean target -> clean n ->
  Forall clean (request_lines p k (method_as_str m) target b t n).
Proof.
  intros Hp Ht Hn. unfold request_lines. rewrite !Forall_cons. split_and!; try done.
  - by destruct m; apply (clean_lit "GET") || apply (clean_lit "POST").
  - apply clean_show_u.
  - apply clean_hex.
  - apply clean_address_text.
  - apply clean_hex.
Qed.
Lemma message_lines_of_clean d k m target b t n :
  from_option clean True d -> clean target -> clean n ->
  Forall clean (message_lines_of d k m target b t n).
Proof.
  intros Hd Ht Hn. destruct d as [d|]; cbn [message_lines_of].
  - apply Forall_app. split; [apply request_lines_clean; [by apply clean_lit|done..]|by constructor].
  - apply request_lines_clean; [by apply clean_lit|done..].
Qed.
Lemma method_upper_inj m1 m2 :
  to_ascii_uppercase (method_as_str m1) = to_ascii_uppercase (method_as_str m2) -> m1 = m2.
Proof. by destruct m1, m2. Qed.
Lemma request_lines_inj p k1 m1 g1 b1 t1 n1 k2 m2 g2 b2 t2 n2 :
  is_u64 t1 -> is_u64 t2 ->
  request_lines p k1 (method_as_str m1) g1 b1 t1 n1 = request_lines p k2 (method_as_str m2) g2 b2 t2 n2 ->
  (m1, g1, t1, n1, hash_bytes b1, keypair_public_key k1)
  = (m2, g2, t2, n2, hash_bytes b2, keypair_public_key k2).
Proof.
  intros U1 U2 E. unfold request_lines in E. injection E as Em -> Et -> Eb _ Ek.
  apply method_upper_inj in Em as ->. unfold is_u64 in *. apply show_u_inj in Et as ->; [|lia..].
  apply hex_bn_inj in Ek as ->. apply hex_bn_inj in Eb. by rewrite Eb.
Qed.

(** C26: A request signature binds the request, where no target, nonce or delegation has a line feed in
    it and the times are of 64 bits. Two such requests whose signed messages are the same bytes,
    each signed by its owner or under a delegation, agree in everything signed: whether and under
    which delegation, the method, the target with its query, the time, the nonce, the digest of
    the body and the key; in particular a delegated signature is never one of the owner's. *)
Theorem request_message_binds d1 k1 m1 g1 b1 t1 n1 d2 k2 m2 g2 b2 t2 n2 :
  Forall clean [g1; n1; g2; n2] -> is_u64 t1 -> is_u64 t2 ->
  from_option clean True d1 -> from_option clean True d2 ->
  utf8 (request_message d1 k1 m1 g1 b1 t1 n1) = utf8 (request_message d2 k2 m2 g2 b2 t2 n2) ->
  d1 = d2 /\
  (m1, g1, t1, n1, hash_bytes b1, keypair_public_key k1)
  = (m2, g2, t2, n2, hash_bytes b2, keypair_public_key k2).
Proof.
  rewrite !Forall_cons. intros (Cg1 & Cn1 & Cg2 & Cn2 & _) U1 U2 D1 D2.
  rewrite !request_message_lines. intros E.
  apply signed_lines_inj in E; [|by destruct d1|by destruct d2|by apply message_lines_of_clean..].
  destruct d1 as [d1|], d2 as [d2|]; cbn [message_lines_of] in E;
    [|by apply (f_equal length) in E|by apply (f_equal length) in E|].
  - apply app_inj_tail in E as [E ->]. split; [done|]. by apply request_lines_inj in E.
  - split; [done|]. by apply request_lines_inj in E.
Qed.
End SigningProofs.

(** ** What is sent *)
Section RequestProofs.
Context `{UrlOps, Digests, HexLaws, Ed25519Laws}.
Variable to_vec : Json.Value -> result rstr (list byte).

(** Membership in an explicit list. *)
Local Ltac in_list := repeat (first [apply list_elem_of_here | apply list_elem_of_further]).

(** The headers that carry a signature over [message]. *)
Definition carries (headers : list (rstr * rstr)) (key : Keypair) (message : rstr) : Prop :=
  exists sig, (lit "x-zincha-signature", hex_encode (bn sig)) ∈ headers /\
    (lit "x-zincha-public-key", hex_encode (bn (keypair_public_key key))) ∈ headers /\
    (lit "x-zincha-address", address_to_hex (keypair_address key)) ∈ headers /\
    pk_verify (keypair_public_key key) (utf8 message) sig = Ok ().
Definition request_time (a : ambient) (r : api_request) : Z :=
  default (a_now a) (o_timestamp_ms (r_options r)).
Definition request_nonce (a : ambient) (r : api_request) : rstr :=
  default (random_nonce_hex a) (o_nonce (r_options r)).
Definition needs_signer (r : api_request) : bool :=
  signed (r_options r) || bool_decide (is_Some (delegation_id (r_options r))).

Lemma signed_headers_carry a key m g b t n :
  carries (signed_request_headers a key (method_as_str m) g b t n) key
    (request_message None key m g b (default (a_now a) t) (default (random_nonce_hex a) n)).
Proof.
  set (message := request_message _ _ _ _ _ _ _).
  exists (keypair_sign key (utf8 message)). unfold signed_request_headers, signed_request_parts.
  cbn [p_address p_body_sha256 p_nonce p_public_key p_signature p_timestamp_ms].
  split_and!; [in_list..|apply keypair_sign_verify].
Qed.
Lemma delegated_headers_carry a key m g b d t n headers :
  delegated_request_headers a key (method_as_str m) g b d t n = Ok headers ->
  exists id, hash_from_hex d = Ok id /\
  carries headers key
    (request_message (Some (hash_to_hex id)) key m g b (default (a_now a) t)
       (default (random_nonce_hex a) n)).
Proof.
  unfold delegated_request_headers. destruct (hash_from_hex d) as [id|]; [|done].
  cbn [context of_text map_err mbind result_bind]. intros [= <-]. exists id. split; [done|].
  eexists (keypair_sign key (utf8 _)). split_and!; [in_list..|apply keypair_sign_verify].
Qed.
Lemma request_Ok a c r out :
  request to_vec a c r = Ok out ->
  out_method out = r_method r /\
  join_path (base_url c) (build_request_target (r_path r) (query (r_options r))) = Ok (out_url out) /\
  match body (r_options r) with
  | Some b => exists v, to_vec b = Ok v /\ out_body out = Some v
  | None => out_body out = None
  end /\
  if needs_signer r then
    exists key, option_or (o_signer (r_options r)) (signer c) = Some key /\
    match delegation_id (r_options r) with
    | Some id =>
        delegated_request_headers a key (method_as_str (r_method r))
          (build_request_target (r_path r) (query (r_options r))) (default [] (out_body out)) id
          (o_timestamp_ms (r_options r)) (o_nonce (r_options r)) = Ok (out_headers out)
    | None =>
        out_headers out =
        signed_request_headers a key (method_as_str (r_method r))
          (build_request_target (r_path r) (query (r_options r))) (default [] (out_body out))
          (o_timestamp_ms (r_options r)) (o_nonce (r_options r))
    end
  else out_headers out = [].
Proof.
  unfold request, needs_signer. generalize (build_request_target (r_path r) (query (r_options r))).
  intros target. destruct (join_path (base_url c) target) as [url|]; [|done].
  cbn [mbind result_bind].
  set (bb := match body (r_options r) with Some _ => _ | None => _ end).
  destruct bb as [bytes|] eqn:Eb; [|done]. subst bb. cbn [mbind result_bind].
  assert (match body (r_options r) with
          | Some b => exists v, to_vec b = Ok v /\ bytes = Some v | None => bytes = None end) as Hb.
  { destruct (body (r_options r)) as [b|]; [|by injection Eb].
    destruct (to_vec b) as [v|]; [|done]. cbn in Eb. injection Eb as <-. by exists v. }
  destruct (signed (r_options r) || _).
  - destruct (option_or (o_signer (r_options r)) (signer c)) as [key|]; [|done].
    cbn [ok_or mbind result_bind]. destruct (delegation_id (r_options r)) as [id|].
    + destruct (delegated_request_headers _ _ _ _ _ _ _ _) as [h|] eqn:Eh; [|done].
      cbn [mbind result_bind]. intros [= <-]. cbn. split_and!; try done. by exists key.
    + cbn [mbind result_bind]. intros [= <-]. cbn [out_method out_url out_body out_headers].
      split_and!; try done. by exists key.
  - cbn [mbind result_bind]. intros [= <-]. by split_and!.
Qed.
Lemma request_carries a c r out :
  request to_vec a c r = Ok out -> needs_signer r = true ->
  exists key delegation, option_or (o_signer (r_options r)) (signer c) = Some key /\
  (delegation_id (r_options r) = None -> delegation = None) /\
  (forall id, delegation_id (r_options r) = Some id ->
     exists h, hash_from_hex id = Ok h /\ delegation = Some (hash_to_hex h)) /\
  carries (out_headers out) key
    (request_message delegation key (out_method out)
       (build_request_target (r_path r) (query (r_options r))) (default [] (out_body out))
       (request_time a r) (request_nonce a r)).
Proof.
  intros E Hn. destruct (request_Ok _ _ _ _ E) as (Em & _ & _ & Hh). rewrite Hn in Hh.
  destruct Hh as (key & Ek & Hh). rewrite Em. exists key.
  destruct (delegation_id (r_options r)) as [id|].
  - destruct (delegated_headers_carry _ _ _ _ _ _ _ _ _ Hh) as (h & Eh & Hc).
    exists (Some (hash_to_hex h)). split_and!; [done|done| |done].
    intros i [= <-]. by exists h.
  - exists None. rewrite Hh. split_and!; [done|done|done|]. apply signed_headers_carry.
Qed.

(** A request that has to be signed is signed. What is sent is the method and the body of the
    request at the URL its target joins to; when the request is marked signed or names a
    delegation, its headers carry a signature that verifies, under the key of the request or
    else of the client, over the message of exactly this method, target, body, time, nonce and
    normalised delegation; without such a key nothing is sent; any other request has no
    signature headers. *)
Theorem request_authenticated a c r out :
  request to_vec a c r = Ok out ->
  out_method out = r_method r /\
  join_path (base_url c) (build_request_target (r_path r) (query (r_options r))) = Ok (out_url out) /\
  (needs_signer r = false -> out_headers out = []) /\
  (needs_signer r = true ->
   exists key delegation, option_or (o_signer (r_options r)) (signer c) = Some key /\
   (delegation_id (r_options r) = None -> delegation = None) /\
   (forall id, delegation_id (r_options r) = Some id ->
      exists h, hash_from_hex id = Ok h /\ delegation = Some (hash_to_hex h)) /\
   carries (out_headers out) key
     (request_message delegation key (r_method r)
        (build_request_target (r_path r) (query (r_options r))) (default [] (out_body out))
        (request_time a r) (request_nonce a r))).
Proof.
  intros E. destruct (request_Ok _ _ _ _ E) as (Em & Eu & _ & Hh).
  split_and!; [done|done| |].
  - intros Hn. by rewrite Hn in Hh.
  - rewrite <- Em. by apply request_carries.
Qed.

(** The reads of a participant's own work. *)
Definition participant_reads (id : rstr) (q : CursorPageQuery) : list api_request :=
  [task id; agreement id; agreements_by_party id q; agreements_by_arbitrator id q; tool_job id;
   tool_jobs_by_requester id q; tool_jobs_by_provider id q; tool_usage_session id;
   tool_usage_sessions_by_requester id q; tool_usage_sessions_by_provider id q].
Lemma page_options_signed q o :
  needs_signer {| r_method := GET; r_path := []; r_options := page_options q o |}
  = needs_signer {| r_method := GET; r_path := []; r_options := o |}.
Proof. by destruct q as [[l|] [cu|]]. Qed.
Lemma participant_reads_signed id q : Forall (fun r => needs_signer r = true) (participant_reads id q).
Proof.
  pose proof (page_options_signed q (with_signed options_default)) as Hp. cbn in Hp.
  repeat (constructor; [first [done|exact Hp]|]). constructor.
Qed.
Lemma participant_reads_options id q r :
  r ∈ participant_reads id q ->
  o_signer (r_options r) = None /\ delegation_id (r_options r) = None /\ body (r_options r) = None /\
  o_timestamp_ms (r_options r) = None /\ o_nonce (r_options r) = None /\ r_method r = GET.
Proof.
  intros Hr. unfold participant_reads in Hr.
  repeat (apply elem_of_cons in Hr as [->|Hr]); [by destruct q as [[l|] [cu|]]..|by inversion Hr].
Qed.

(** C25: A participant's private reads are answered by the owner's signature or not sent. For each of
    the ten reads of tasks, agreements, tool jobs and usage sessions, a client without a signer
    answers an error, and a client with one sends, whenever the path joins, a request without a
    body under that signer's signature over the path and query, with a fresh time and nonce. *)
Theorem participant_reads_private a c id q r :
  r ∈ participant_reads id q ->
  (signer c = None -> forall out, request to_vec a c r <> Ok out) /\
  (forall key url, signer c = Some key ->
     join_path (base_url c) (build_request_target (r_path r) (query (r_options r))) = Ok url ->
     exists out, request to_vec a c r = Ok out /\ out_url out = url /\ out_body out = None /\
     carries (out_headers out) key
       (request_message None key GET (build_request_target (r_path r) (query (r_options r))) []
          (a_now a) (random_nonce_hex a))).
Proof.
  intros Hr. destruct (participant_reads_options _ _ _ Hr) as (Es & Ed & Eb & Et & En & Em).
  pose proof (participant_reads_signed id q) as Hs. rewrite Forall_forall in Hs.
  specialize (Hs r Hr). split.
  - intros Hc out E. destruct (request_carries _ _ _ _ E Hs) as (key & d & Ek & _).
    by rewrite Es, Hc in Ek.
  - intros key url Hc Eu. unfold request. unfold needs_signer in Hs.
    rewrite Eu, Eb, Hs, Es, Hc, Ed, Et, En, Em. cbn [mbind result_bind ok_or option_or].
    eexists. split; [reflexivity|]. split; [done|]. split; [done|].
    exact (signed_headers_carry a key GET _ [] None None).
Qed.
End RequestProofs.

(** ** Waiting *)
Lemma wait_app hash timeout pre rest :
  Forall (fun p => exists v, p.1 = Ok v /\ is_pending_transaction_status v = true /\ p.2 < timeout) pre ->
  wait_for_transaction hash timeout (pre ++ rest) = wait_for_transaction hash timeout rest.
Proof.
  induction 1 as [|[a t] pre (v & E & Hp & Ht) Hpre IH]; [done|]. cbn in E, Ht. subst a.
  cbn [app wait_for_transaction]. rewrite Hp. cbn [negb].
  by rewrite (proj2 (Z.leb_gt _ _)).
Qed.
(** What a poll ends the wait with. *)
Definition poll_ends (hash : rstr) (timeout : Z) (p : result error Json.Value * Z)
    : option (result error Json.Value) := wait_for_transaction hash timeout [p].
Lemma poll_goes_on hash timeout p :
  poll_ends hash timeout p = None ->
  exists v, p.1 = Ok v /\ is_pending_transaction_status v = true /\ p.2 < timeout.
Proof.
  destruct p as [[v|e] t]; [|done]. unfold poll_ends. cbn [wait_for_transaction fst snd].
  destruct (is_pending_transaction_status v) eqn:Ev; [|done]. cbn [negb].
  destruct (timeout <=? t) eqn:Et; [done|]. apply Z.leb_gt in Et. by exists v.
Qed.
Lemma wait_cons_ends hash timeout p polls r :
  poll_ends hash timeout p = Some r -> wait_for_transaction hash timeout (p :: polls) = Some r.
Proof.
  destruct p as [[v|e] t]; [|done]. unfold poll_ends. cbn [wait_for_transaction].
  destruct (is_pending_transaction_status v); [|done]. by destruct (timeout <=? t).
Qed.
Lemma wait_stops hash timeout polls :
  Exists (fun p => timeout <= p.2) polls ->
  exists pre p post r, polls = pre ++ p :: post /\
    Forall (fun p => exists v, p.1 = Ok v /\ is_pending_transaction_status v = true /\ p.2 < timeout) pre /\
    poll_ends hash timeout p = Some r.
Proof.
  induction 1 as [p polls Hp|p polls _ IH].
  - destruct (poll_ends hash timeout p) as [r|] eqn:Er; [by exists [], p, polls, r|].
    apply poll_goes_on in Er as (v & _ & _ & Hlt). lia.
  - destruct (poll_ends hash timeout p) as [r|] eqn:Er; [by exists [], p, polls, r|].
    destruct IH as (pre & q & post & r & -> & Hpre & Hq). exists (p :: pre), q, post, r.
    split; [done|]. split; [|done]. constructor; [by apply poll_goes_on in Er|done].
Qed.
Lemma not_pending_iff v :
  is_pending_transaction_status v = false <->
  (t ← option_or (value_get (lit "terminal") v) (pointer_transaction (lit "terminal") v); as_bool t)
    = Some true /\
  default (lit "unknown")
    (option_or (s ← value_get (lit "status") v; Json.as_str s)
               (s ← pointer_transaction (lit "status") v; Json.as_str s))
    ∈ [lit "confirmed"; lit "rejected"].
Proof.
  unfold is_pending_transaction_status. rewrite negb_false_iff, andb_true_iff.
  by rewrite !bool_decide_eq_true.
Qed.

(** The wait for a transaction ends, and ends with a final answer. When polls are at least an
    interval apart, at most [timeout / interval + 2] of them are made: every poll before the
    last one was answered with a transaction that is not final, inside the time; the last one
    decides. A transaction is reported only with the evidence that it is final: a true
    [terminal] field and the status confirmed or rejected; otherwise the answer is the error of
    the last poll, or the timeout once the time is used up. *)
Theorem wait_terminates hash timeout interval polls :
  0 < interval -> 0 <= timeout ->
  (forall k p, polls !! k = Some p -> Z.of_nat k * interval <= p.2) ->
  timeout / interval < Z.of_nat (length polls) - 1 ->
  exists n a t, Z.of_nat n <= timeout / interval + 1 /\ polls !! n = Some (a, t) /\
    (forall k p, (k < n)%nat -> polls !! k = Some p ->
       exists v, p.1 = Ok v /\ is_pending_transaction_status v = true /\ p.2 < timeout) /\
    wait_for_transaction hash timeout polls =
      Some (match a with
            | Err e => Err e
            | Ok v => if is_pending_transaction_status v
                      then Err [CText (Msg "timed out waiting for transaction {}" [AStr hash])]
                      else Ok v
            end) /\
    (forall v, wait_for_transaction hash timeout polls = Some (Ok v) ->
       (t ← option_or (value_get (lit "terminal") v) (pointer_transaction (lit "terminal") v);
        as_bool t) = Some true /\
       default (lit "unknown")
         (option_or (s ← value_get (lit "status") v; Json.as_str s)
                    (s ← pointer_transaction (lit "status") v; Json.as_str s))
         ∈ [lit "confirmed"; lit "rejected"]).
Proof.
  intros Hi Ht Hk Hl. set (m := Z.to_nat (timeout / interval + 1)).
  assert (0 <= timeout / interval) as Hd by (apply Z.div_pos; lia).
  destruct (lookup_lt_is_Some_2 polls m ltac:(lia)) as [p Hp].
  assert (timeout <= p.2) as Hpt.
  { specialize (Hk _ _ Hp). unfold m in Hk. rewrite Z2Nat.id in Hk by lia.
    pose proof (Z.mul_succ_div_gt timeout interval Hi). lia. }
  rewrite <- (take_drop_middle _ _ _ Hp).
  destruct (wait_stops hash timeout (take m polls ++ [p])) as (pre & [a t] & post & r & E & Hpre & Hr).
  { apply Exists_app. right. by constructor. }
  assert (length pre <= m)%nat as Hlen.
  { apply (f_equal length) in E. rewrite !length_app, length_take in E. cbn in E. lia. }
  rewrite (cons_middle p), (assoc_L (++)), E, <- (assoc_L (++)). cbn [app].
  assert (wait_for_transaction hash timeout (pre ++ (a, t) :: post ++ drop (S m) polls) = Some r) as W.
  { rewrite wait_app by done. by apply wait_cons_ends. }
  rewrite W. exists (length pre), a, t. split_and!.
  - lia.
  - by apply list_lookup_middle.
  - intros k q Hkn Hq. rewrite lookup_app_l in Hq by done. by eapply Forall_lookup_1 in Hpre.
  - revert Hr. unfold poll_ends. destruct a as [v|e]; cbn [wait_for_transaction]; [|by intros <-].
    destruct (is_pending_transaction_status v); cbn [negb]; [|by intros <-].
    by destruct (timeout <=? t).
  - intros v [= ->]. apply not_pending_iff. revert Hr. unfold poll_ends. destruct a as [v'|e];
      cbn [wait_for_transaction]; [|done].
    destruct (is_pending_transaction_status v') eqn:Ev; cbn [negb].
    + by destruct (timeout <=? t).
    + by intros [= <-].
Qed.

(** ** Building *)

Section BuildProofs.
Context `{UrlOps, Digests, Hex, Ed25519}.

Lemma normalize_base_url_Ok raw u :
  normalize_base_url raw = Ok u <->
  exists p, url_parse raw = Ok p /\ (url_scheme p = lit "http" \/ url_scheme p = lit "https") /\
    u = url_set_path (trim_end_matches 47 (url_path p)) p.
Proof.
  unfold normalize_base_url. destruct (url_parse raw) as [p|e]; cbn [map_err mbind result_bind].
  - case_bool_decide as E1; [|case_bool_decide as E2]; cbn [negb andb bail_if mbind result_bind].
    + split; [intros [= <-]; eauto|]. by intros (q & [= <-] & _ & ->).
    + split; [intros [= <-]; eauto|]. by intros (q & [= <-] & _ & ->).
    + split; [done|]. intros (q & [= <-] & [E|E] & _); [by destruct E1|by destruct E2].
  - split; [done|]. by intros (p & E & _).
Qed.

(** The URL a builder starts from: its own, or else its release's. *)
Definition chosen_base (b : ZinchaClientBuilder) : option rstr :=
  match b_base_url b with
  | Some u => Some u
  | None => alias ← b_release b; n ← Release.parse_alias alias;
            Some (Release.canonical_rpc_url (Release.release_spec n))
  end.
(** The faucet: its own, or else the release's unless the base URL was given. *)
Definition chosen_faucet (b : ZinchaClientBuilder) : option rstr :=
  match b_faucet_url b, b_base_url b with
  | Some u, _ => Some u
  | None, Some _ => None
  | None, None => alias ← b_release b; n ← Release.parse_alias alias;
                  Release.faucet_url (Release.release_spec n)
  end.

(** A client is built for the endpoints that were asked for. The build succeeds only when the
    release, if one is named, is known; its API URL is then the given one or else the
    release's, parsed with scheme http or https and without trailing slashes; a faucet is the
    given one, or else the release's and only when the API URL was not given, so a client of an
    explicit node is never pointed at another network's faucet; the token and the key are those
    given; without a base URL and without a release nothing is built. *)
Theorem build_endpoints b :
  (forall c, build b = Ok c ->
     (forall alias, b_release b = Some alias -> is_Some (Release.parse_alias alias)) /\
     (exists raw, chosen_base b = Some raw /\ normalize_base_url raw = Ok (base_url c)) /\
     match chosen_faucet b with
     | Some raw => exists f, normalize_base_url raw = Ok f /\ faucet_url c = Some f
     | None => faucet_url c = None
     end /\
     bearer_token c = b_bearer_token b /\ signer c = b_signer b) /\
  (b_base_url b = None -> b_release b = None ->
   build b = Err [CText (msg "base_url or release is required")]).
Proof.
  split; [intros c|by destruct b as [[]  []]]. unfold build.
  intros (spec & Es & (raw & Er & (base & Eb & (faucet & Ef & (ws & _ & E)%bind_Ok)
    %bind_Ok)%bind_Ok)%bind_Ok)%bind_Ok.
  injection E as <-. apply ok_or_inv in Er.
  assert (spec = (alias ← b_release b; n ← Release.parse_alias alias; Some (Release.release_spec n)) /\
    (forall alias, b_release b = Some alias -> is_Some (Release.parse_alias alias))) as [-> Ha].
  { destruct (b_release b) as [alias|]; [|by injection Es as <-].
    apply bind_Ok in Es as (n & En%ok_or_inv & [= <-]). cbn [mbind option_bind].
    rewrite En. split; [done|]. intros ? [= <-]. by exists n. }
  split; [done|]. cbn [base_url faucet_url bearer_token signer]. unfold chosen_base, chosen_faucet.
  split; [|split; [|done]].
  - exists raw. split; [|done]. destruct (b_base_url b) as [u|]; [done|].
    destruct (b_release b) as [alias|]; [|done]. cbn [mbind option_bind] in Er |- *.
    by destruct (Release.parse_alias alias).
  - destruct (b_faucet_url b) as [u|]; [|destruct (b_base_url b) as [u|]].
    + apply bind_Ok in Ef as (f & Ef & [= <-]). by exists f.
    + by injection Ef as <-.
    + destruct (b_release b) as [alias|]; [|by injection Ef as <-].
      cbn [mbind option_bind] in Ef |- *.
      destruct (Release.parse_alias alias) as [n|]; [|by injection Ef as <-].
      cbn [mbind option_bind] in Ef |- *.
      destruct (Release.faucet_url (Release.release_spec n)) as [u|]; [|by injection Ef as <-].
      apply bind_Ok in Ef as (f & Ef & [= <-]). by exists f.
Qed.
End BuildProofs.

(** A response counts as answered only when its status is a success, its envelope says so and
    its data decodes; everything else is an error that keeps the status. *)
Theorem response_accepted {T} parse (decode : Json.Value -> result rstr T) lossy status st bytes x :
  decode_response parse decode lossy status st bytes = Ok x <->
  200 <= status < 300 /\
  exists api, parse bytes = Ok api /\ success api = true /\ decode (default Json.Null (data api)) = Ok x.
Proof.
  unfold decode_response. destruct (_ && _) eqn:Es; cbn [negb].
  - apply andb_true_iff in Es as [E1%Z.leb_le E2%Z.ltb_lt].
    destruct (parse bytes) as [api|]; cbn [map_err mbind result_bind];
      [|split; [done|by intros (_ & api & ? & _)]].
    destruct (success api) eqn:Ea; cbn [negb].
    + destruct (decode _) as [y|] eqn:Ed; cbn [map_err].
      * split; [intros [= <-]; split; [done|by exists api]|].
        intros (_ & a & [= <-] & _ & Ex). rewrite Ed in Ex. by injection Ex as ->.
      * split; [done|]. intros (_ & a & [= <-] & _ & Ex). by rewrite Ex in Ed.
    + split; [done|]. intros (_ & a & [= <-] & Eb & _). by rewrite Eb in Ea.
  - split; [done|]. intros [Hs _]. apply andb_false_iff in Es as [E%Z.leb_gt|E%Z.ltb_ge]; lia.
Qed.
End Client.

Module ClientWitness.
Import Anyhow Conversation ConversationInstances Client.

#[local] Instance plain_url_ops : UrlOps := {
  url_join := fun base p => Ok ((base : rstr) ++ lit "/" ++ p);
  url_set_scheme := fun s u => Some (s ++ lit ":" ++ drop 6 (u : rstr));
  form_encode := fun q => join [38] ((fun p => p.1 ++ lit "=" ++ p.2) <$> q);
}.
Definition key0 : Keypair := keypair_from_secret_bytes (pad_bytesN 32 [x6b]).
Definition ambient0 : ambient := {| a_now := 1700000000000; a_nonce := pad_bytesN 16 [x01] |}.
Definition client0 : ZinchaClient :=
  {| base_url := lit "https://node"; faucet_url := None; websocket_url := None; bearer_token := None;
     signer := Some key0 |}.
Definition page0 : CursorPageQuery := {| cp_limit := Some 5; cp_cursor := None |}.
Definition to_vec0 (v : Json.Value) : result rstr (list byte) := Ok [].

Definition key1 : Keypair := keypair_from_secret_bytes (pad_bytesN 32 [x6c]).
Definition grant0 : rstr := hex_encode (replicate 32 x07).
(** Another method, another nonce, another key, a delegate: none has the message of the first. *)
Lemma request_message_binds_witness :
  let message d k m n := utf8 (request_message d k m (lit "/v1/tasks/x") [] 5 n) in
  message None key0 GET (lit "n") <> message None key0 POST (lit "n") /\
  message None key0 GET (lit "n") <> message None key0 GET (lit "m") /\
  message None key0 GET (lit "n") <> message None key1 GET (lit "n") /\
  message None key0 GET (lit "n") <> message (Some grant0) key0 GET (lit "n").
Proof.
  assert (Forall clean [lit "/v1/tasks/x"; lit "n"; lit "/v1/tasks/x"; lit "n"]) as Hn
    by (rewrite !Forall_cons; split_and!; [by apply clean_lit..|apply Forall_nil_2]).
  assert (Forall clean [lit "/v1/tasks/x"; lit "n"; lit "/v1/tasks/x"; lit "m"]) as Hm
    by (rewrite !Forall_cons; split_and!; [by apply clean_lit..|apply Forall_nil_2]).
  assert (is_u64 5) as H5 by (vm_compute; split; discriminate).
  cbv zeta. split_and!; intros E.
  - destruct (request_message_binds None key0 GET (lit "/v1/tasks/x") [] 5 (lit "n")
      None key0 POST (lit "/v1/tasks/x") [] 5 (lit "n") Hn H5 H5 I I E)
      as [_ [=]].
  - destruct (request_message_binds None key0 GET (lit "/v1/tasks/x") [] 5 (lit "n")
      None key0 GET (lit "/v1/tasks/x") [] 5 (lit "m") Hm H5 H5 I I E)
      as [_ [=]].
  - destruct (request_message_binds None key0 GET (lit "/v1/tasks/x") [] 5 (lit "n")
      None key1 GET (lit "/v1/tasks/x") [] 5 (lit "n") Hn H5 H5 I I E)
      as [_ Ek].
    apply (f_equal snd) in Ek. cbn [snd] in Ek. apply (f_equal bn) in Ek. vm_compute in Ek. discriminate Ek.
  - destruct (request_message_binds None key0 GET (lit "/v1/tasks/x") [] 5 (lit "n")
      (Some grant0) key0 GET (lit "/v1/tasks/x") [] 5 (lit "n") Hn H5 H5 I
      (clean_hex _) E) as [[=] _].
Defined.
(** With a line feed in them, fields run into each other: a nonce can hold the time and nonce of
    another request, whose target then holds this one's. *)
Lemma line_feed_ambiguous :
  request_message None key0 GET (lit "/x") [] 1 (lit "n" ++ [10] ++ lit "9" ++ [10] ++ lit "m")
  = request_message None key0 GET (lit "/x" ++ [10] ++ lit "1" ++ [10] ++ lit "n") [] 9 (lit "m").
Proof. vm_compute. reflexivity. Qed.
Lemma request_authenticated_witness :
  exists out, request to_vec0 ambient0 client0 (task (lit "t1")) = Ok out /\ out_method out = GET.
Proof.
  destruct (request to_vec0 ambient0 client0 (task (lit "t1"))) as [out|] eqn:E.
  - exists out. split; [done|]. exact (proj1 (request_authenticated to_vec0 ambient0 client0 _ out E)).
  - discriminate E.
Defined.
Lemma participant_reads_private_witness :
  exists out, request to_vec0 ambient0 client0 (tool_jobs_by_requester (lit "a") page0) = Ok out.
Proof.
  assert (tool_jobs_by_requester (lit "a") page0 ∈ participant_reads (lit "a") page0) as Hin.
  { unfold participant_reads. do 5 apply list_elem_of_further. apply list_elem_of_here. }
  destruct (participant_reads_private to_vec0 ambient0 client0 (lit "a") page0 _ Hin) as [_ Hk].
  destruct (Hk key0 _ eq_refl eq_refl) as (out & E & _). exists out. exact E.
Defined.
Definition pending0 : Json.Value :=
  Json.Object [(lit "status", Json.Str (lit "confirmed")); (lit "terminal", Json.Boolean false)].
Definition final0 : Json.Value :=
  Json.Object [(lit "status", Json.Str (lit "confirmed")); (lit "terminal", Json.Boolean true)].
Definition polls0 : list (result error Json.Value * Z) :=
  [(Ok pending0, 0); (Ok final0, 10); (Ok final0, 20); (Ok final0, 30); (Ok final0, 40)].
Lemma wait_terminates_witness :
  is_Some (wait_for_transaction (lit "h") 20 polls0) /\
  wait_for_transaction (lit "h") 20 polls0 = Some (Ok final0).
Proof.
  split; [|reflexivity].
  assert (forall k p, polls0 !! k = Some p -> Z.of_nat k * 10 <= p.2) as Hk.
  { intros [|[|[|[|[|k]]]]] p; cbn; intros [= <-]; cbn; lia. }
  destruct (wait_terminates (lit "h") 20 10 polls0 ltac:(lia) ltac:(lia) Hk ltac:(by vm_compute))
    as (n & a & t & _ & _ & _ & W & _).
  rewrite W. by eexists.
Defined.
End ClientWitness.
