(* ===== verification/ConversationApi.v ===== *)
(** * The requests of the conversation client

    Models the authenticated half of zincha-client's [ConversationClient]: what each call asks
    of the service, the checks made before asking, how an answer becomes a result, and the
    grant of chain-read access through a wallet. The service is an argument: a function from
    requests to replies. *)
From S2P Require Import Prelude Crypto Instances Keystore Mnemonic RpcDelegation Transaction Wallet.
From S2P Require Import Conversation Outbox Client.

Module ConversationApi.
Import Anyhow Conversation.

(** ** Data *)
Record ChainReadKeyInfo : Type := { k_public_key : rstr; k_address : rstr }.
Record ConversationDelegationInfo : Type := {
  i_protocol_version : Z;
  i_service_id : rstr;
  i_network : rstr;
  i_chain_id : rstr;
  i_active_key : ChainReadKeyInfo;
  i_next_key : option ChainReadKeyInfo;
  i_required_scopes : list rstr;
  i_required_scope_mask : Z;
  i_default_grant_lifetime_ms : Z;
  i_maximum_grant_lifetime_ms : Z;
}.
Record ChallengeRequest : Type := { cr_participant_address : rstr; cr_subject : SubjectRef }.
Record SessionRequest : Type := {
  sr_challenge_id : bytesN 16;
  sr_delegation : ConversationKeyDelegationV1;
  sr_challenge_signature : rstr;
}.
Record SessionResponse : Type := { ss_access_token : rstr; ss_expires_at_ms : Z }.
Record ResolveConversationRequest : Type := {
  rr_subject : SubjectRef; rr_provider_address : rstr; rr_privacy_mode : PrivacyMode;
}.
(** [Conversation] of the source. *)
Record ConversationRecord : Type := {
  v_id : rstr;
  v_tenant_id : rstr;
  v_subject : SubjectRef;
  v_home_service_id : rstr;
  v_privacy_mode : PrivacyMode;
  v_snapshot : Json.Value;
  v_created_at_ms : Z;
  v_updated_at_ms : Z;
}.

(** ** Requests *)
Inductive Method : Type := GET | POST | DELETE.
Inductive body : Type :=
| BChallenge (r : ChallengeRequest)
| BSession (r : SessionRequest)
| BResolve (r : ResolveConversationRequest)
| BMessage (r : SubmitMessageRequest)
| BAcknowledge (through_sequence : Z).
(** A request as sent: a missing limit is a call whose answer has no body to read, or a stream. *)
Record service_request `{Urls} : Type := {
  sv_method : Method;
  sv_url : Url;
  sv_token : option rstr;
  sv_body : option body;
  sv_limit : option nat;
}.
(** A reply, or the error of sending. *)
Inductive reply : Type :=
| NotSent (e : error)
| Replied (status : Z) (content_length : option Z) (chunks : list (result error (list byte))).

(** [serde_json::from_slice] at the answers of the service. *)
Class ApiDecode (T : Type) := { decode_response : list byte -> result rstr (Outbox.ApiResponse T) }.

Definition MAX_PROFILE_RESPONSE_BYTES : nat := Z.to_nat (8 * 1024).

Section Api.
Context `{UrlOps : Client.UrlOps}.

Definition service_call (c : ConversationClient) (method : Method) (path : rstr) (b : option body)
    (limit : option nat) : result error service_request :=
  url ← context "build conversation URL"
    (of_text (Client.url_join (base_url c) (drop_while (fun x => x =? 47) path)));
  Ok {| sv_method := method; sv_url := url; sv_token := access_token c; sv_body := b;
        sv_limit := limit |}.
Definition json (c : ConversationClient) (method : Method) (path : rstr) (b : option body)
    : result error service_request :=
  service_call c method path b (Some Outbox.MAX_CONVERSATION_RESPONSE_BYTES).
Definition empty (c : ConversationClient) (method : Method) (path : rstr) (b : option body)
    : result error service_request :=
  service_call c method path b None.

Definition issue_challenge (c : ConversationClient) (r : ChallengeRequest) : result error service_request :=
  _ ← validate_address (cr_participant_address r);
  _ ← validate_subject_ref (cr_subject r);
  json c POST (lit "/v1/auth/challenges") (Some (BChallenge r)).
Definition profile (c : ConversationClient) : result error service_request :=
  service_call c GET (lit "/v1/profile") None (Some MAX_PROFILE_RESPONSE_BYTES).
Definition delegation_info (c : ConversationClient) : result error service_request :=
  service_call c GET (lit "/v1/delegation-info") None (Some MAX_PROFILE_RESPONSE_BYTES).
Definition create_session (c : ConversationClient) (r : SessionRequest) : result error service_request :=
  json c POST (lit "/v1/auth/sessions") (Some (BSession r)).
Definition resolve (c : ConversationClient) (r : ResolveConversationRequest) : result error service_request :=
  _ ← validate_subject_ref (rr_subject r);
  _ ← validate_address (rr_provider_address r);
  json c POST (lit "/v1/conversations/resolve") (Some (BResolve r)).
Definition conversation (c : ConversationClient) (id : rstr) : result error service_request :=
  _ ← validate_conversation_id id;
  json c GET (lit "/v1/conversations/" ++ id) None.
Definition submit (c : ConversationClient) (id : rstr) (r : SubmitMessageRequest)
    : result error service_request :=
  _ ← validate_conversation_id id;
  json c POST (lit "/v1/conversations/" ++ id ++ lit "/messages") (Some (BMessage r)).
Definition messages (c : ConversationClient) (id : rstr) (after limit : Z)
    : result error service_request :=
  _ ← validate_conversation_id id;
  _ ← bail_if ((after <? 0) || (limit =? 0) || (500 <? limit)) "message page cursor or limit is invalid";
  json c GET (lit "/v1/conversations/" ++ id ++ lit "/messages?after=" ++ show_i after
              ++ lit "&limit=" ++ show_u limit) None.
(** The connection of [events] after a sequence. *)
Definition event_stream (c : ConversationClient) (id : rstr) (after : Z) : result error service_request :=
  url ← events_url Client.url_join c id after;
  Ok {| sv_method := GET; sv_url := url; sv_token := access_token c; sv_body := None; sv_limit := None |}.
Definition acknowledge (c : ConversationClient) (id : rstr) (through_sequence : Z)
    : result error service_request :=
  _ ← validate_conversation_id id;
  _ ← bail_if (through_sequence <? 0) "acknowledgement sequence cannot be negative";
  empty c POST (lit "/v1/conversations/" ++ id ++ lit "/acknowledgements")
    (Some (BAcknowledge through_sequence)).
Definition revoke_delegation `{Uuids} (c : ConversationClient) (id : bytesN 16)
    : result error service_request :=
  empty c DELETE (lit "/v1/auth/delegations/" ++ uuid_to_string id) None.

(** What a reply to a request means: [json_with_limit] and [empty] after sending. *)
Definition read_reply {T} `{!ApiDecode T} (r : service_request) (a : reply) : result error T :=
  match a with
  | NotSent e => context "send conversation request" (Err e)
  | Replied status content_length chunks =>
      Outbox.read_response decode_response
        (default Outbox.MAX_CONVERSATION_RESPONSE_BYTES (sv_limit r)) status content_length chunks
  end.
Definition read_empty (a : reply) : result error unit :=
  match a with
  | NotSent e => context "send conversation request" (Err e)
  | Replied status _ _ =>
      if Outbox.is_success status then Ok ()
      else bail (Msg "conversation HTTP {}: request failed" [AInt status])
  end.
End Api.

(** ** [grant_conversation_read_access] *)
(** After the service's answer: the wallet afterwards, and the request to the node; [now] is
    [now_ms], [wallet_now] the clock when the transaction is built. *)
Definition grant_conversation_read_access `{Digests, Hex, Ed25519, !Bincode Tx.Transaction,
    !Bincode Tx.SignedTransaction, !Wallet.Builder}
    (w : Wallet.AgentWallet) (now wallet_now : Z) (info : ConversationDelegationInfo)
    (lifetime_ms : option Z) (fee : Z)
    : Wallet.AgentWallet * option (result error Client.api_request) :=
  match
    let lifetime := default (i_default_grant_lifetime_ms info) lifetime_ms in
    _ ← bail_if ((lifetime <? Delegation.RPC_READ_DELEGATION_MIN_LIFETIME_MS)
          || (i_maximum_grant_lifetime_ms info <? lifetime))
      "conversation grant lifetime is outside service bounds";
    bytes ← context "decode conversation chain-read public key"
      (of_text (hex_decode (k_public_key (i_active_key info))));
    bytes ← opt_context "conversation chain-read public key must be 32 bytes" (mk_bytesN 32 bytes);
    key ← context "parse conversation chain-read public key"
      (map_err (fun e => [CZincha e]) (pk_from_bytes bytes));
    _ ← context "system time precedes the Unix epoch"
      (bail_if (now <? 0) "out of range integral type conversion attempted");
    expires ← opt_context "conversation grant expiry overflows"
      (if now + lifetime <=? U64_MAX then Some (now + lifetime) else None);
    Ok (key, expires)
  with
  | Err e => (w, Some (Err e))
  | Ok (key, expires) =>
      let '(w', built) := Wallet.run_builder w wallet_now
        (Wallet.RqRpcReadDelegationGrant key (i_service_id info) (i_required_scope_mask info) expires fee) in
      (w', match built with
           | None => None
           | Some (Err e) => Some (Err [CZincha e])
           | Some (Ok stx) =>
               Some (hex ← map_err (fun e => [CZincha e]) (Wallet.tx_to_hex stx);
                     Ok (Client.submit_signed_transaction_hex hex))
           end)
  end.

(** A granted access is one signed grant. When a request to the node comes out, it submits
    exactly one transaction, in hexadecimal: a read-delegation grant of the wallet, with its
    nonce and the fee asked, which verifies; the lifetime is within the service's bounds and the
    wallet's nonce is taken. *)
Theorem access_grant_sound `{Digests, Hex, Ed25519, !Bincode Tx.Transaction,
    !Bincode Tx.SignedTransaction, !Wallet.Builder} w now wallet_now info lifetime_ms fee w' req :
  grant_conversation_read_access w now wallet_now info lifetime_ms fee = (w', Some (Ok req)) ->
  let lifetime := default (i_default_grant_lifetime_ms info) lifetime_ms in
  Delegation.RPC_READ_DELEGATION_MIN_LIFETIME_MS <= lifetime <= i_maximum_grant_lifetime_ms info /\
  exists stx text, req = Client.submit_signed_transaction_hex text /\ Wallet.tx_to_hex stx = Ok text /\
    w' = Wallet.next_nonce w /\ Wallet.emitted w wallet_now stx /\
    Tx.tx_type (Tx.transaction stx) = Tx.RpcReadDelegationGrant /\ Tx.fee (Tx.transaction stx) = fee.
Proof.
  unfold grant_conversation_read_access. cbv zeta.
  destruct (mbind _ _) as [[key expires]|e] eqn:E; [|intros Ex; discriminate Ex].
  destruct (bail_if (_ || _) _) as [[]|] eqn:El in E; [|done]. apply bail_if_Ok in El. clear E.
  apply orb_false_iff in El as [Elo%Z.ltb_ge Ehi%Z.ltb_ge].
  pose proof (Wallet.builder_answers w wallet_now (Wallet.RqRpcReadDelegationGrant key (i_service_id info)
    (i_required_scope_mask info) expires fee)) as A. unfold Wallet.answers in A.
  destruct (Wallet.run_builder _ _ _) as [w1 [[stx|e]|]]; cbn [snd fst] in A; [|done..].
  destruct A as (-> & Em & Ety & Efe).
  destruct (Wallet.tx_to_hex stx) as [text|e] eqn:Et; [|done]. intros [= <- <-].
  split; [done|]. exists stx, text. by split_and!.
Qed.
End ConversationApi.
