(* ===== verification/CliWallet.v ===== *)
(** * The command line's keys and files

    Models zincha-cli-core's [support.rs], [secret.rs], [wallet.rs] and [output.rs]: parsing
    of arguments, key and password sources, the commands of the wallet and of key
    generation over a file system with permissions. The operating system is an argument: which
    calls fail, the umask, the environment and the terminal. *)
From S2P Require Import Prelude Crypto Instances Keystore KeystoreFile Mnemonic Capability Conversation.

Module CliWallet.
Import Anyhow Keystore.

(** ** The operating system *)
Record file : Type := { contents : list byte; mode : Z }.
(** A path is its text; a symbolic link is the file it names. *)
Abbreviation files := (gmap rstr file).
Inductive io_call : Type := Stat | OpenFile | Read | Chmod.
(** How a write goes: all of it, not at all, or cut short after some bytes. *)
Inductive write_outcome : Type :=
| Complete
| NotOpened (kind : io_kind)
| CutShort (n : nat) (kind : io_kind).
Record os : Type := {
  io_error : io_call -> rstr -> option io_kind;
  write_outcome_of : rstr -> write_outcome;
  umask : Z;
  env_var : rstr -> result rstr rstr;
  is_terminal : bool;
  prompt_password : rstr -> result rstr rstr;
}.

(** Commands: the files they leave, and their result. *)
Definition M (A : Type) : Type := files -> files * result error A.
#[global] Instance M_ret : MRet M := fun A a fs => (fs, Ok a).
#[global] Instance M_bind : MBind M := fun A B k m fs =>
  match m fs with (fs', Ok a) => k a fs' | (fs', Err e) => (fs', Err e) end.
Definition lift {A} (r : result error A) : M A := fun fs => (fs, r).
Definition z_lift {A} (r : result ZinchaError A) : M A :=
  lift (map_err (fun e => [CZincha e]) r).
Definition ctx {A} (m : message) (r : result error A) : result error A :=
  map_err (fun e => CText m :: e) r.
Definition m_ctx {A} (msg : message) (m : M A) : M A := fun fs => let '(fs', r) := m fs in (fs', ctx msg r).

Section Support.
Context `{Hex, Ed25519} (o : os).

(** ** [support.rs]: arguments *)
Definition parse_address (raw : rstr) : result error Address :=
  ctx (Msg "parse address {}" [AStr raw]) (map_err (fun e => [CZincha e]) (address_from_hex raw)).
Definition parse_hash (raw : rstr) : result error Hash256 :=
  ctx (Msg "parse hash {}" [AStr raw]) (of_text (hash_from_hex raw)).
Definition parse_public_key (raw : rstr) : result error PublicKey :=
  bytes ← ctx (Msg "decode public key hex {}" [AStr raw]) (of_text (hex_decode raw));
  bytes ← opt_context "public key must be 32 bytes" (mk_bytesN 32 bytes);
  ctx (Msg "parse public key {}" [AStr raw]) (map_err (fun e => [CZincha e]) (pk_from_bytes bytes)).
Definition parse_hex_bytes (raw : option rstr) : result error (list byte) :=
  match raw with
  | Some value =>
      if bool_decide (value = []) then Ok []
      else ctx (Msg "decode hex bytes {}" [AStr value]) (of_text (hex_decode value))
  | None => Ok []
  end.

(** ** [support.rs]: files *)
Definition exists_path (p : rstr) (fs : files) : bool :=
  bool_decide (is_Some (fs !! p)) && bool_decide (io_error o Stat p = None).
Definition fs_read (p : rstr) (fs : files) : result error (list byte) :=
  match io_error o Read p, fs !! p with
  | Some k, _ => Err [CIo k]
  | None, None => Err [CIo NotFound]
  | None, Some f => Ok (contents f)
  end.
Definition fs_read_to_string (p : rstr) (fs : files) : result error rstr :=
  bytes ← fs_read p fs; ok_or (from_utf8 bytes) [CIo OtherKind].
(** [std::fs::write]: a new file has the permissions the umask leaves. *)
Definition with_contents (p : rstr) (bytes : list byte) (fs : files) : files :=
  <[p := {| contents := bytes;
            mode := match fs !! p with Some f => mode f | None => Z.land 438 (Z.lnot (umask o)) end |}]> fs.
Definition fs_write (p : rstr) (bytes : list byte) : M unit := fun fs =>
  match write_outcome_of o p with
  | Complete => (with_contents p bytes fs, Ok ())
  | NotOpened k => (fs, Err [CIo k])
  | CutShort n k => (with_contents p (take n bytes) fs, Err [CIo k])
  end.
Definition read_json_file {T} (from_slice : list byte -> result rstr T) (p : rstr) (fs : files)
    : result error T :=
  bytes ← ctx (Msg "read {}" [AStr p]) (fs_read p fs);
  ctx (Msg "parse JSON {}" [AStr p]) (of_text (from_slice bytes)).
Definition read_public_text_file (p : rstr) (fs : files) : result error rstr :=
  ctx (Msg "read {}" [AStr p]) (fs_read_to_string p fs).
Definition check_owner_only (p : rstr) (fs : files) : result error unit :=
  if negb (exists_path p fs) then Ok ()
  else
    mode ← match io_error o Stat p, fs !! p with
           | None, Some f => Ok (mode f)
           | Some k, _ => Err [CText (Msg "stat {}" [AStr p]); CIo k]
           | None, None => Err [CText (Msg "stat {}" [AStr p]); CIo NotFound]
           end;
    if negb (Z.land mode 63 =? 0) then
      bail (Msg "{} must not be readable, writable, or executable by group/other" [AStr p])
    else Ok ().
Definition read_text_file (p : rstr) (fs : files) : result error rstr :=
  _ ← check_owner_only p fs;
  ctx (Msg "read {}" [AStr p]) (fs_read_to_string p fs).
Definition read_hex_or_file (value path : option rstr) (fs : files) : result error rstr :=
  match value, path with
  | Some _, Some _ => bail (msg "provide either hex value or file, not both")
  | Some value, None => Ok (trim value)
  | None, Some path => t ← read_public_text_file path fs; Ok (trim t)
  | None, None => bail (msg "missing hex value or file")
  end.
Definition set_private_permissions (p : rstr) : M unit := fun fs =>
  match io_error o Chmod p, fs !! p with
  | Some k, _ => (fs, Err [CText (Msg "set private permissions on {}" [AStr p]); CIo k])
  | None, None => (fs, Err [CText (Msg "set private permissions on {}" [AStr p]); CIo NotFound])
  | None, Some f => (<[p := {| contents := contents f; mode := 384 |}]> fs, Ok ())
  end.
Definition save_private (p : rstr) (text : rstr) : M unit :=
  _ ← m_ctx (Msg "write {}" [AStr p]) (fs_write p (utf8 text));
  set_private_permissions p.
Definition write_private_file (p : rstr) (text : rstr) (force : bool) : M unit := fun fs =>
  if exists_path p fs && negb force then
    (fs, bail (Msg "refusing to overwrite existing file {}" [AStr p]))
  else save_private p text fs.

(** ** [secret.rs] *)
Record PasswordSourceArgs : Type := { password_file : option rstr; password_env : option rstr }.
Record KeySourceArgs : Type := {
  secret_key : option rstr;
  key_file : option rstr;
  keystore : option rstr;
  keystore_address : option rstr;
  password : PasswordSourceArgs;
}.
Definition is_ascii_hexdigit (c : Z) : bool :=
  is_ascii_digit c || ((97 <=? c) && (c <=? 102)) || ((65 <=? c) && (c <=? 70)).
Definition secret_to_keypair (secret : rstr) : result error Keypair :=
  bytes ← context "decode secret key hex" (of_text (hex_decode secret));
  bytes ← opt_context "secret key must be 32 bytes" (mk_bytesN 32 bytes);
  Ok (keypair_from_secret_bytes bytes).
Definition load_secret_key (raw : rstr) (fs : files) : result error Keypair :=
  if (str_len raw =? 64) && forallb is_ascii_hexdigit raw then secret_to_keypair raw
  else secret ← read_text_file raw fs; secret_to_keypair (trim secret).
Definition parse_keystore_address (raw : option rstr) : result error Address :=
  raw ← opt_context "--keystore-address is required with --keystore" raw; parse_address raw.
(** [s.trim_end_matches(['\r', '\n'])]. *)
Definition trim_line_ends (s : rstr) : rstr :=
  reverse (drop_while (fun c => (c =? 13) || (c =? 10)) (reverse s)).
Definition load_password (args : PasswordSourceArgs) (prompt : string) (fs : files)
    : result error rstr :=
  match password_file args, password_env args with
  | Some _, Some _ => bail (msg "provide either --password-file or --password-env, not both")
  | Some path, None => t ← read_text_file path fs; Ok (trim_line_ends t)
  | None, Some name => ctx (Msg "read password env {}" [AStr name]) (of_text (env_var o name))
  | None, None =>
      if is_terminal o
      then context "read password" (of_text (prompt_password o (lit prompt ++ lit ": ")))
      else bail (msg "password source required in non-TTY mode; use --password-file or --password-env")
  end.
End Support.

(** [serde_json]: a tree written as text, a text parsed, and its wording of a fault. *)
Class KeystoreJson := {
  to_string_pretty : Json.Value -> result rstr rstr;
  value_from_str : rstr -> result rstr Json.Value;
  fault_text : KeystoreFile.fault -> rstr;
}.
(** A text that was written parses to the tree it was written from, its members by key. *)
Class KeystoreJsonLaws `{KeystoreJson} : Prop :=
  pretty_parsed : forall v text, to_string_pretty v = Ok text ->
    forallb is_char text = true /\ value_from_str text = Ok (KeystoreFile.parsed v).

Section Wallet.
Context `{Digests, Hex, Ed25519, Argon2, Aead, Mnemonic.Bip39, KeystoreJson} (o : os).

(** ** [output.rs]: the value printed *)
Definition emit (command : string) (payload : Json.Value) (json : bool) : Json.Value :=
  if json then
    Json.Object [(lit "version", Json.Number (lit "1")); (lit "ok", Json.Boolean true);
                 (lit "command", Json.Str (lit command)); (lit "data", payload)]
  else payload.
Definition j_opt (v : option rstr) : Json.Value :=
  match v with Some s => Json.Str s | None => Json.Null end.

(** ** [Keystore::load], [load_keypair] and the helpers of [wallet.rs] *)
Definition entries_from_value (v : Json.Value) : result rstr (list KeystoreEntry) :=
  map_err fault_text (KeystoreFile.read_entries v).
Definition to_json_pretty (k : Keystore) : result rstr rstr :=
  to_string_pretty (KeystoreFile.entries_value (entries k)).
(** The text of the I/O error is kept as the cause that follows. *)
Definition keystore_load (p : rstr) (fs : files) : result error Keystore :=
  data ← map_err (fun e => CZincha (Storage (Msg "Cannot read keystore: {}" [])) :: e)
    (fs_read_to_string o p fs);
  k ← map_err (fun e => [CZincha e]) (from_json_str value_from_str entries_from_value data);
  Ok (k <| path := Some p |>).
Definition load_keypair (args : KeySourceArgs) (fs : files) : result error Keypair :=
  match secret_key args, key_file args, keystore args with
  | Some raw, None, None => load_secret_key o raw fs
  | None, Some path, None =>
      secret ← read_text_file o path fs; secret_to_keypair (trim secret)
  | None, None, Some path =>
      _ ← check_owner_only o path fs;
      address ← parse_keystore_address (keystore_address args);
      password ← load_password o (password args) "Keystore password" fs;
      store ← ctx (Msg "load {}" [AStr path]) (keystore_load path fs);
      ctx (Msg "unlock keystore entry {}" [ABytes (bn address)])
        (map_err (fun e => [CZincha e]) (unlock store address password))
  | _, _, _ => bail (msg "provide one key source: --secret-key, --key-file, or --keystore")
  end.
Definition load_keystore (p : rstr) (fs : files) : result error Keystore :=
  _ ← check_owner_only o p fs;
  ctx (Msg "load {}" [AStr p]) (keystore_load p fs).
Definition load_or_new_keystore (p : rstr) (fs : files) : result error Keystore :=
  if exists_path o p fs then load_keystore p fs else Ok new_keystore.
Definition save_keystore (k : Keystore) (p : rstr) : M unit :=
  json ← lift (map_err (fun t => [CZincha (Serialization (Msg "{}" [AStr t]))])
                 (to_json_pretty k));
  _ ← save_private o p json;
  set_private_permissions o p.
Definition resolve_import_keypair (secret_key key_file mnemonic mnemonic_file : option rstr)
    (mnemonic_passphrase : rstr) (derivation_path : option rstr) (fs : files)
    : result error (Keypair * KeystoreEntryOrigin * option rstr) :=
  match secret_key, key_file, mnemonic, mnemonic_file with
  | Some secret, None, None, None =>
      k ← secret_to_keypair secret; Ok (k, RawSecretFile, None)
  | None, Some path, None, None =>
      secret ← read_text_file o path fs; k ← secret_to_keypair (trim secret);
      Ok (k, RawSecretFile, None)
  | None, None, Some phrase, None =>
      d ← map_err (fun e => [CZincha e])
        (Mnemonic.derive_keypair_from_mnemonic_phrase phrase mnemonic_passphrase derivation_path);
      Ok (Mnemonic.keypair d, Mnemonic, Some (Mnemonic.derivation_path d))
  | None, None, None, Some path =>
      phrase ← read_text_file o path fs;
      d ← map_err (fun e => [CZincha e])
        (Mnemonic.derive_keypair_from_mnemonic_phrase phrase mnemonic_passphrase derivation_path);
      Ok (Mnemonic.keypair d, Mnemonic, Some (Mnemonic.derivation_path d))
  | _, _, _, _ => bail (msg "provide exactly one import key source")
  end.
Definition origin_debug (g : KeystoreEntryOrigin) : rstr :=
  match g with
  | Generated => lit "Generated" | RawSecretFile => lit "RawSecretFile"
  | Pkcs8Pem => lit "Pkcs8Pem" | Mnemonic => lit "Mnemonic"
  end.
Definition kdf_debug (k : KdfType) : rstr := match k with Argon2id => lit "Argon2id" end.
Definition cipher_debug (c : CipherType) : rstr :=
  match c with XChaCha20Poly1305 => lit "XChaCha20Poly1305" end.
Definition entry_to_json (e : KeystoreEntry) : Json.Value :=
  Json.Object
    [(lit "address", Json.Str (address_to_hex (address e))); (lit "label", Json.Str (label e));
     (lit "created_at", Json.Number (show_u (created_at e)));
     (lit "origin", Json.Str (origin_debug (origin e)));
     (lit "derivation_path", j_opt (derivation_path e));
     (lit "kdf", Json.Str (kdf_debug (kdf e))); (lit "cipher", Json.Str (cipher_debug (cipher e)))].
Definition keypair_fields (k : Keypair) : list (rstr * Json.Value) :=
  [(lit "address", Json.Str (address_to_hex (keypair_address k)));
   (lit "public_key", Json.Str (hex_encode (bn (keypair_public_key k))))].
Definition emit_keypair (command : string) (k : Keypair) (json : bool) : Json.Value :=
  emit command (Json.Object (keypair_fields k)) json.

(** ** The commands of [wallet.rs] *)
Inductive WalletCommands : Type :=
| WAddress (secret_key : rstr)
| WInspect (keystore : rstr) (address : option rstr)
| WCreate (keystore label : rstr) (force : bool) (password : PasswordSourceArgs)
| WImport (keystore label : rstr) (secret_key key_file mnemonic mnemonic_file : option rstr)
    (mnemonic_passphrase : rstr) (derivation_path : option rstr) (password : PasswordSourceArgs)
| WList (keystore : rstr)
| WRelabel (keystore address label : rstr)
| WExport (key_source : KeySourceArgs) (out : option rstr) (unsafe_print_secret force : bool)
| WRemove (keystore address : rstr)
| WChangePassword (keystore address : rstr) (new_password_file new_password_env : option rstr)
    (password : PasswordSourceArgs).
(** What a command draws: a generated key, a salt with its nonce, and the clock. *)
Record draws : Type := { d_keypair : Keypair; d_fresh : fresh; d_now : Z }.

Definition secret_hex (k : Keypair) : rstr := hex_encode (bn (keypair_secret_bytes k)).
(** [out] written with the secret, and what is printed. *)
Definition give_secret (command : string) (k : Keypair) (out : option rstr)
    (unsafe_print_secret force json : bool) : M Json.Value :=
  _ ← match out with
      | Some path => write_private_file o path (secret_hex k) force
      | None => mret ()
      end;
  mret (emit command (Json.Object (keypair_fields k ++
    [(lit "secret_file", j_opt out);
     (lit "secret_key", if unsafe_print_secret then Json.Str (secret_hex k) else Json.Null)])) json).
Definition run_keygen (d : draws) (out : option rstr) (force unsafe_print_secret json : bool)
    : M Json.Value :=
  give_secret "keygen" (d_keypair d) out unsafe_print_secret force json.

(** Reading the files leaves them as they are. *)
Definition reading {A} (f : files -> result error A) : M A := fun fs => (fs, f fs).

Definition run_wallet (d : draws) (c : WalletCommands) (json : bool) : M Json.Value :=
  match c with
  | WAddress secret_key =>
      k ← reading (load_secret_key o secret_key); mret (emit_keypair "wallet-address" k json)
  | WInspect keystore address =>
      store ← reading (load_keystore keystore);
      es ← lift (match address with
                 | Some raw =>
                     a ← parse_address raw;
                     e ← ok_or (entry store a)
                       [CText (Msg "address {} not found in keystore" [ABytes (bn a)])];
                     Ok [entry_to_json e]
                 | None => Ok (entry_to_json <$> entries store)
                 end);
      mret (emit "wallet-inspect" (Json.Object [(lit "entries", Json.Array es)]) json)
  | WCreate keystore label force password =>
      _ ← reading (fun fs =>
            if exists_path o keystore fs && negb force
            then bail (Msg "refusing to overwrite existing keystore {}" [AStr keystore]) else Ok ());
      password ← reading (load_password o password "New keystore password");
      p ← z_lift (create_key (d_fresh d) (d_now d) (d_keypair d) new_keystore password label);
      let '(store, address) := p in
      _ ← save_keystore store keystore;
      mret (emit "wallet-create" (Json.Object
        [(lit "keystore", Json.Str keystore); (lit "address", Json.Str (address_to_hex address));
         (lit "label", Json.Str label)]) json)
  | WImport keystore label secret_key key_file mnemonic mnemonic_file passphrase path password =>
      store ← reading (load_or_new_keystore keystore);
      password ← reading (load_password o password "Keystore password");
      r ← reading (resolve_import_keypair secret_key key_file mnemonic mnemonic_file passphrase path);
      let '(k, origin, path_meta) := r in
      store ← z_lift (import_key_with_origin (d_fresh d) (d_now d) store k password label origin
                        path_meta);
      _ ← save_keystore store keystore;
      mret (emit "wallet-import" (Json.Object
        [(lit "keystore", Json.Str keystore);
         (lit "address", Json.Str (address_to_hex (keypair_address k)));
         (lit "label", Json.Str label)]) json)
  | WList keystore =>
      store ← reading (load_keystore keystore);
      mret (emit "wallet-list" (Json.Object
        [(lit "keystore", Json.Str keystore);
         (lit "entries", Json.Array ((fun p : Address * rstr =>
            Json.Object [(lit "address", Json.Str (address_to_hex p.1)); (lit "label", Json.Str p.2)])
            <$> list_addresses store))]) json)
  | WRelabel keystore raw label =>
      store ← reading (load_keystore keystore);
      a ← lift (parse_address raw);
      store ← z_lift (relabel store a label);
      _ ← save_keystore store keystore;
      mret (emit "wallet-relabel" (Json.Object
        [(lit "address", Json.Str (address_to_hex a)); (lit "label", Json.Str label)]) json)
  | WExport key_source out unsafe_print_secret force =>
      k ← reading (load_keypair key_source);
      give_secret "wallet-export" k out unsafe_print_secret force json
  | WRemove keystore raw =>
      store ← reading (load_keystore keystore);
      a ← lift (parse_address raw);
      let '(store, removed) := remove store a in
      _ ← lift (if removed then Ok ()
                else bail (Msg "address {} not found in keystore" [ABytes (bn a)]));
      _ ← save_keystore store keystore;
      mret (emit "wallet-remove" (Json.Object
        [(lit "address", Json.Str (address_to_hex a)); (lit "removed", Json.Boolean true)]) json)
  | WChangePassword keystore raw new_password_file new_password_env password =>
      store ← reading (load_keystore keystore);
      a ← lift (parse_address raw);
      current ← reading (load_password o password "Current keystore password");
      new_password ← reading (load_password o
        {| password_file := new_password_file; password_env := new_password_env |}
        "New keystore password");
      r ← z_lift (change_entry_password (d_fresh d) store a current new_password);
      let '(store, outcome) := r in
      _ ← save_keystore store keystore;
      mret (emit "wallet-change-password" (Json.Object
        [(lit "address", Json.Str (address_to_hex a));
         (lit "password_changed", Json.Boolean (password_changed outcome));
         (lit "kdf_after", Json.Str (kdf_debug (kdf_after outcome)));
         (lit "cipher_after", Json.Str (cipher_debug (cipher_after outcome)))]) json)
  end.

(** ** Properties *)

(** *** Running commands *)
Lemma M_bind_Ok {A B} (m : M A) (k : A -> M B) fs fs' v :
  (x ← m; k x) fs = (fs', Ok v) -> exists fs1 a, m fs = (fs1, Ok a) /\ k a fs1 = (fs', Ok v).
Proof. unfold mbind, M_bind. destruct (m fs) as [fs1 [a|e]]; [by exists fs1, a|done]. Qed.
Lemma lift_Ok {A} (r : result error A) fs fs' a : lift r fs = (fs', Ok a) -> fs' = fs /\ r = Ok a.
Proof. by intros [= <- ->]. Qed.
Lemma z_lift_Ok {A} (r : result ZinchaError A) fs fs' a :
  z_lift r fs = (fs', Ok a) -> fs' = fs /\ r = Ok a.
Proof. unfold z_lift. intros [-> E]%lift_Ok. split; [done|].
  destruct r; cbn in E; [by injection E as ->|done].
Qed.
Lemma reading_Ok {A} (f : files -> result error A) fs fs' a :
  reading f fs = (fs', Ok a) -> fs' = fs /\ f fs = Ok a.
Proof. by intros [= <- ->]. Qed.
Lemma ctx_Ok {A} m (r : result error A) a : ctx m r = Ok a <-> r = Ok a.
Proof. destruct r; cbn; by split; intros [= ->]. Qed.
Lemma map_err_Ok {E F A} (f : E -> F) (r : result E A) a : map_err f r = Ok a <-> r = Ok a.
Proof. destruct r; cbn; by split; intros [= ->]. Qed.

(** A private file with a text. *)
Definition private (text : rstr) : file := {| contents := utf8 text; mode := 384 |}.
Lemma chmod_Ok p fs fs' u :
  set_private_permissions o p fs = (fs', Ok u) ->
  io_error o Chmod p = None /\
  exists f, fs !! p = Some f /\ fs' = <[p := {| contents := contents f; mode := 384 |}]> fs.
Proof.
  unfold set_private_permissions. destruct (io_error o Chmod p); [done|].
  destruct (fs !! p) as [f|] eqn:E; [|done]. intros [= <-]. split; [done|by exists f].
Qed.
Lemma save_private_Ok p text fs fs' u :
  save_private o p text fs = (fs', Ok u) ->
  write_outcome_of o p = Complete /\ fs' = <[p := private text]> fs.
Proof.
  unfold save_private. intros (fs1 & [] & E1 & (_ & f & Ef & ->)%chmod_Ok)%M_bind_Ok.
  unfold m_ctx, fs_write in E1. destruct (write_outcome_of o p); [|done..].
  injection E1 as <-. split; [done|]. unfold with_contents in Ef |- *.
  rewrite lookup_insert_eq in Ef. injection Ef as <-. cbn. by rewrite insert_insert_eq.
Qed.
Lemma write_private_Ok p text force fs fs' u :
  write_private_file o p text force fs = (fs', Ok u) ->
  (exists_path o p fs = true -> force = true) /\ fs' = <[p := private text]> fs.
Proof.
  unfold write_private_file. destruct (exists_path o p fs) eqn:Ee, force; cbn [andb negb].
  2: done.
  all: intros [_ ->]%save_private_Ok; by split.
Qed.
Lemma save_keystore_Ok k p fs fs' u :
  save_keystore k p fs = (fs', Ok u) ->
  exists text, to_json_pretty k = Ok text /\ fs' = <[p := private text]> fs.
Proof.
  unfold save_keystore.
  intros (fs1 & text & [-> Et]%lift_Ok & (fs2 & [] & [_ ->]%save_private_Ok &
    (_ & f & Ef & ->)%chmod_Ok)%M_bind_Ok)%M_bind_Ok.
  apply map_err_Ok in Et. exists text. split; [done|].
  rewrite lookup_insert_eq in Ef. injection Ef as <-. cbn. by rewrite insert_insert_eq.
Qed.

(** *** Confinement: a command changes at most one file *)
Definition confined (w : option rstr) {A} (m : M A) : Prop :=
  forall fs q, Some q <> w -> (m fs).1 !! q = fs !! q.
Lemma confined_ret (w : option rstr) {A} (a : A) : confined w (mret a).
Proof. done. Qed.
Lemma confined_lift (w : option rstr) {A} (r : result error A) : confined w (lift r).
Proof. done. Qed.
Lemma confined_z_lift (w : option rstr) {A} (r : result ZinchaError A) : confined w (z_lift r).
Proof. done. Qed.
Lemma confined_reading (w : option rstr) {A} (f : files -> result error A) : confined w (reading f).
Proof. done. Qed.
Lemma confined_bind (w : option rstr) {A B} (m : M A) (k : A -> M B) :
  confined w m -> (forall a, confined w (k a)) -> confined w (x ← m; k x).
Proof.
  intros Hm Hk fs q Hq. specialize (Hm fs q Hq). unfold mbind, M_bind.
  destruct (m fs) as [fs1 [a|e]]; cbn in *; [|done]. by rewrite Hk.
Qed.
Lemma confined_fs_write p bytes m : confined (Some p) (m_ctx m (fs_write o p bytes)).
Proof.
  intros fs q Hq. unfold m_ctx, fs_write. assert (p <> q) by congruence.
  destruct (write_outcome_of o p); cbn; unfold with_contents; by rewrite ?lookup_insert_ne.
Qed.
Lemma confined_chmod p : confined (Some p) (set_private_permissions o p).
Proof.
  intros fs q Hq. unfold set_private_permissions. assert (p <> q) by congruence.
  destruct (io_error o Chmod p); [done|]. destruct (fs !! p); [|done]. cbn.
  by rewrite lookup_insert_ne.
Qed.
Lemma confined_save_private p text : confined (Some p) (save_private o p text).
Proof. apply confined_bind; [apply confined_fs_write|]. intros []. apply confined_chmod. Qed.
Lemma confined_write_private p text force : confined (Some p) (write_private_file o p text force).
Proof.
  intros fs q Hq. unfold write_private_file.
  destruct (_ && _); [done|by apply confined_save_private].
Qed.
Lemma confined_save_keystore k p : confined (Some p) (save_keystore k p).
Proof.
  apply confined_bind; [apply confined_lift|]. intros text.
  apply confined_bind; [apply confined_save_private|]. intros []. apply confined_chmod.
Qed.
Lemma confined_give_secret command k out unsafe force json :
  confined out (give_secret command k out unsafe force json).
Proof.
  apply confined_bind; [|intros; apply confined_ret].
  destruct out; [apply confined_write_private|apply confined_ret].
Qed.

(** The file a command may write, and the one it refuses to replace. *)
Definition writes (c : WalletCommands) : option rstr :=
  match c with
  | WAddress _ | WInspect _ _ | WList _ => None
  | WCreate keystore _ _ _ | WImport keystore _ _ _ _ _ _ _ _ | WRelabel keystore _ _
  | WRemove keystore _ | WChangePassword keystore _ _ _ _ => Some keystore
  | WExport _ out _ _ => out
  end.
Definition protects (c : WalletCommands) : option rstr :=
  match c with
  | WCreate keystore _ false _ => Some keystore
  | WExport _ out _ false => out
  | _ => None
  end.
Lemma run_wallet_confined d c json : confined (writes c) (run_wallet d c json).
Proof.
  destruct c; cbn [run_wallet writes];
    repeat first
      [ apply confined_give_secret
      | apply confined_ret | apply confined_lift | apply confined_z_lift | apply confined_reading
      | apply confined_save_keystore
      | apply confined_bind; [|intros ?]
      | case_match ].
Qed.
Lemma give_secret_Ok command k out unsafe force json fs fs' v :
  give_secret command k out unsafe force json fs = (fs', Ok v) ->
  fs' = match out with Some p => <[p := private (secret_hex k)]> fs | None => fs end.
Proof.
  unfold give_secret. intros (fs1 & [] & E & [= <- _])%M_bind_Ok.
  destruct out; [by apply write_private_Ok in E as [_ ->]|by injection E as <-].
Qed.

(** Every file a command leaves is private. Saving a keystore, or giving a secret to a file. *)
Lemma run_wallet_private d c json fs fs' v p :
  run_wallet d c json fs = (fs', Ok v) -> writes c = Some p ->
  exists text, fs' = <[p := private text]> fs.
Proof.
  assert (forall k fs1 (f : unit -> Json.Value),
    (x ← save_keystore k p; mret (f x)) fs1 = (fs', Ok v) -> exists text, fs' = <[p := private text]> fs1)
    as Hs.
  { intros k fs1 f (fs2 & u & (text & _ & ->)%save_keystore_Ok & [= <- _])%M_bind_Ok. by exists text. }
  destruct c; cbn [run_wallet writes]; intros E Hw; try done.
  - injection Hw as ->. apply M_bind_Ok in E as (f1 & u & [-> _]%reading_Ok & E).
    apply M_bind_Ok in E as (f2 & pw & [-> _]%reading_Ok & E).
    apply M_bind_Ok in E as (f3 & [k' a] & [-> _]%z_lift_Ok & E). exact (Hs _ _ (fun _ => _) E).
  - injection Hw as ->. apply M_bind_Ok in E as (f1 & k1 & [-> _]%reading_Ok & E).
    apply M_bind_Ok in E as (f2 & pw & [-> _]%reading_Ok & E).
    apply M_bind_Ok in E as (f3 & [[kp g] pm] & [-> _]%reading_Ok & E).
    apply M_bind_Ok in E as (f4 & k' & [-> _]%z_lift_Ok & E). exact (Hs _ _ (fun _ => _) E).
  - injection Hw as ->. apply M_bind_Ok in E as (f1 & k1 & [-> _]%reading_Ok & E).
    apply M_bind_Ok in E as (f2 & a & [-> _]%lift_Ok & E).
    apply M_bind_Ok in E as (f3 & k' & [-> _]%z_lift_Ok & E). exact (Hs _ _ (fun _ => _) E).
  - subst out. apply M_bind_Ok in E as (f1 & k & [-> _]%reading_Ok & ->%give_secret_Ok). by eexists.
  - injection Hw as ->. apply M_bind_Ok in E as (f1 & k1 & [-> _]%reading_Ok & E).
    apply M_bind_Ok in E as (f2 & a & [-> _]%lift_Ok & E).
    destruct (remove k1 a) as [k' b]. apply M_bind_Ok in E as (f3 & u & [-> _]%lift_Ok & E).
    exact (Hs _ _ (fun _ => _) E).
  - injection Hw as ->. apply M_bind_Ok in E as (f1 & k1 & [-> _]%reading_Ok & E).
    apply M_bind_Ok in E as (f2 & a & [-> _]%lift_Ok & E).
    apply M_bind_Ok in E as (f3 & pw & [-> _]%reading_Ok & E).
    apply M_bind_Ok in E as (f4 & npw & [-> _]%reading_Ok & E).
    apply M_bind_Ok in E as (f5 & [k' oc] & [-> _]%z_lift_Ok & E). exact (Hs _ _ (fun _ => _) E).
Qed.
Lemma run_wallet_protects d c json fs p :
  protects c = Some p -> exists_path o p fs = true ->
  (run_wallet d c json fs).1 = fs /\ is_ok (run_wallet d c json fs).2 = false.
Proof.
  intros Hp He. destruct c; try done; destruct force; try done; cbn in Hp; simplify_eq.
  - cbn [run_wallet]. unfold mbind, M_bind, reading. rewrite He. done.
  - cbn [run_wallet]. unfold mbind, M_bind, reading. destruct (load_keypair key_source fs) as [k|];
      [|done]. unfold give_secret, mbind, M_bind, write_private_file. rewrite He. done.
Qed.

(** The wallet commands keep secrets in private files. A command changes no file but the one it
    is told to write; when it succeeds that file is exactly as written and readable
    and writable by its owner alone, whatever the umask and the mode it had before; and
    without the force flag creating a keystore or exporting a key leaves an existing file as
    it was and reports an error. *)
Theorem wallet_files_private d c json fs :
  (forall q, Some q <> writes c -> (run_wallet d c json fs).1 !! q = fs !! q) /\
  (forall p v, writes c = Some p -> (run_wallet d c json fs).2 = Ok v ->
     exists text, (run_wallet d c json fs).1 !! p = Some {| contents := utf8 text; mode := 384 |}) /\
  (forall p, protects c = Some p -> exists_path o p fs = true ->
     (run_wallet d c json fs).1 = fs /\ is_ok (run_wallet d c json fs).2 = false).
Proof.
  split; [|split].
  - intros q Hq. by apply run_wallet_confined.
  - intros p v Hw Hr. destruct (run_wallet d c json fs) as [fs' r] eqn:E. cbn in Hr. subst r.
    destruct (run_wallet_private _ _ _ _ _ _ _ E Hw) as [text ->]. exists text.
    apply lookup_insert_eq.
  - intros p. apply run_wallet_protects.
Qed.
End Wallet.

Section KeystoreFiles.
Context `{Digests, HexLaws, Ed25519Laws, Argon2, AeadLaws, Mnemonic.Bip39, KeystoreJsonLaws} (o : os).

(** In the current format, with a time that fits its 64 bits. *)
Definition current (es : list KeystoreEntry) : Prop :=
  Forall (fun e => validate_current_format e = Ok () /\ is_u64 (created_at e)) es.
Lemma current_parts es :
  current es <-> Forall (fun e => validate_current_format e = Ok ()) es /\
    Forall (fun e => is_u64 (created_at e)) es.
Proof. apply Forall_and. Qed.
Lemma from_json_str_Ok data k :
  from_json_str value_from_str entries_from_value data = Ok k ->
  current (entries k) /\ Keystore.path k = None.
Proof.
  unfold from_json_str. intros (v & _ & (u & _ & (es & Ed & (w & Ef & [= <-])%bind_Ok)%bind_Ok)
    %bind_Ok)%bind_Ok. destruct w. cbn. split; [|done]. apply current_parts.
  split; [by apply validate_all_Ok|].
  unfold entries_from_value in Ed. destruct (KeystoreFile.read_entries v) as [es'|] eqn:Er; [|done].
  injection Ed as ->. eapply Forall_impl; [by eapply KeystoreFile.entries_in_range|].
  unfold is_u64. lia.
Qed.
Lemma load_keystore_Ok p fs k :
  load_keystore o p fs = Ok k -> current (entries k) /\ Keystore.path k = Some p.
Proof.
  unfold load_keystore, keystore_load. intros ([] & _ & (data & _ & (k0 & E & [= <-])%bind_Ok)
    %ctx_Ok%bind_Ok)%bind_Ok. apply map_err_Ok, from_json_str_Ok in E as [E _]. done.
Qed.
Lemma load_or_new_Ok p fs k : load_or_new_keystore o p fs = Ok k -> current (entries k).
Proof.
  unfold load_or_new_keystore. destruct (exists_path o p fs).
  - intros E. by apply load_keystore_Ok in E as [E _].
  - intros [= <-]. apply Forall_nil_2.
Qed.

(** What was saved is what is loaded. *)
Lemma saved_loads k p text fs :
  current (entries k) -> to_json_pretty k = Ok text -> io_error o Read p = None ->
  load_keystore o p (<[p := private text]> fs) = Ok (k <| Keystore.path := Some p |>).
Proof.
  intros [Hf Ht]%current_parts Et Hr. destruct (pretty_parsed _ _ Et) as (Hch & Ev).
  destruct (KeystoreFile.entries_read (entries k)) as [Hs Ed].
  { eapply Forall_impl; [exact Ht|]. unfold is_u64. lia. }
  unfold load_keystore, check_owner_only, exists_path.
  assert ((if negb (bool_decide (is_Some (<[p:=private text]> fs !! p))
            && bool_decide (io_error o Stat p = None)) then Ok ()
    else mode ← match io_error o Stat p, <[p:=private text]> fs !! p with
           | None, Some f => Ok (mode f)
           | Some k, _ => Err [CText (Msg "stat {}" [AStr p]); CIo k]
           | None, None => Err [CText (Msg "stat {}" [AStr p]); CIo NotFound]
           end;
      if negb (Z.land mode 63 =? 0) then
        bail (Msg "{} must not be readable, writable, or executable by group/other" [AStr p])
      else Ok ()) = Ok ()) as ->.
  { rewrite lookup_insert_eq. by destruct (io_error o Stat p). }
  cbn [mbind result_bind]. unfold keystore_load, fs_read_to_string, fs_read.
  rewrite Hr, lookup_insert_eq. cbn [contents private mbind result_bind].
  rewrite from_utf8_utf8 by done. cbn [ok_or map_err mbind result_bind].
  unfold from_json_str. rewrite Ev. cbn [map_err mbind result_bind]. rewrite Hs.
  cbn [mbind result_bind]. unfold entries_from_value. rewrite Ed. cbn [map_err mbind result_bind].
  by rewrite (proj2 (validate_all_Ok (entries k)) Hf).
Qed.

(** What a command does to the store its file held. *)
Inductive store_effect (d : draws) (fs : files) : WalletCommands -> Keystore -> Keystore -> Prop :=
| effect_create ks lbl force pw password a k' :
    load_password o pw "New keystore password" fs = Ok password ->
    create_key (d_fresh d) (d_now d) (d_keypair d) new_keystore password lbl = Ok (k', a) ->
    store_effect d fs (WCreate ks lbl force pw) new_keystore k'
| effect_import ks lbl sk kf mn mf pp dp pw k password kp g pm k' :
    load_or_new_keystore o ks fs = Ok k ->
    load_password o pw "Keystore password" fs = Ok password ->
    resolve_import_keypair o sk kf mn mf pp dp fs = Ok (kp, g, pm) ->
    import_key_with_origin (d_fresh d) (d_now d) k kp password lbl g pm = Ok k' ->
    store_effect d fs (WImport ks lbl sk kf mn mf pp dp pw) k k'
| effect_relabel ks raw lbl k a k' :
    load_keystore o ks fs = Ok k -> parse_address raw = Ok a -> relabel k a lbl = Ok k' ->
    store_effect d fs (WRelabel ks raw lbl) k k'
| effect_remove ks raw k a k' :
    load_keystore o ks fs = Ok k -> parse_address raw = Ok a -> remove k a = (k', true) ->
    store_effect d fs (WRemove ks raw) k k'
| effect_change ks raw nf ne pw k a cur new k' outcome :
    load_keystore o ks fs = Ok k -> parse_address raw = Ok a ->
    load_password o pw "Current keystore password" fs = Ok cur ->
    load_password o {| password_file := nf; password_env := ne |} "New keystore password" fs = Ok new ->
    change_entry_password (d_fresh d) k a cur new = Ok (k', outcome) ->
    store_effect d fs (WChangePassword ks raw nf ne pw) k k'.
Lemma built_current fr kp pw lbl t g dp e :
  is_u64 t -> build_current_entry fr kp pw lbl t g dp = Ok e ->
  validate_current_format e = Ok () /\ is_u64 (created_at e).
Proof. by intros Ht (_ & Hv & [= _ -> _ _] & _)%built_entry. Qed.
Lemma store_effect_current d fs c k k' :
  is_u64 (d_now d) -> store_effect d fs c k k' -> current (entries k').
Proof.
  unfold current. intros Hd. destruct 1 as [ks lbl force pw password a k' _ E|? ? ? ? ? ? ? ? ? ? ? ? ? ? ? El _ _ E
    |? ? ? ? ? ? El%load_keystore_Ok _ E|? ? ? ? ? El%load_keystore_Ok _ E
    |? ? ? ? ? ? ? ? ? ? ? El%load_keystore_Ok _ _ _ E].
  - unfold create_key in E. apply bind_Ok in E as (k1 & E & [= -> _]).
    apply import_Ok in E as (_ & e & He%built_current & ->); [|done]. by apply Forall_singleton.
  - apply load_or_new_Ok in El. apply import_Ok in E as (_ & e & He%built_current & ->); [|done].
    apply Forall_app. split; [done|]. by apply Forall_singleton.
  - unfold relabel in E. apply bind_Ok in E as (e & _ & [= <-]). cbn.
    apply update_first_Forall; [by intros|]. apply El.
  - unfold remove in E. injection E as <- _. cbn. rewrite Forall_forall. intros e He.
    apply list_elem_of_In, filter_In in He as [He _]. apply list_elem_of_In in He.
    destruct El as [El _]. unfold current in El. rewrite Forall_forall in El. by apply El.
  - destruct El as [El _]. unfold change_entry_password in E.
    apply bind_Ok in E as (kp & _ & (e0 & Ee & (e & He & [= <- _])%bind_Ok)%bind_Ok).
    apply built_current in He.
    + cbn. apply update_first_Forall; [done|]. apply El.
    + destruct (entry k a) as [e1|] eqn:E1; [|done]. injection Ee as <-.
      apply entry_Some in E1 as [Hin _]. unfold current in El. rewrite Forall_forall in El.
      apply (El e1 Hin).
Qed.
Lemma saving_Ok k p (v v' : Json.Value) fs fs' :
  (_ ← save_keystore o k p; mret v) fs = (fs', Ok v') ->
  exists text, to_json_pretty k = Ok text /\ fs' = <[p := private text]> fs.
Proof. intros (fs1 & u & E & [= <- _])%M_bind_Ok. by apply save_keystore_Ok in E. Qed.
Lemma run_wallet_effect d c json fs fs' v p :
  run_wallet o d c json fs = (fs', Ok v) -> writes c = Some p ->
  (forall ks out u f, c <> WExport ks out u f) ->
  exists k k' text, store_effect d fs c k k' /\ to_json_pretty k' = Ok text /\
    fs' = <[p := private text]> fs.
Proof.
  intros E Hw Hx. destruct c; cbn [run_wallet writes] in E, Hw; try done;
    [injection Hw as ->..| |injection Hw as ->|injection Hw as ->]; [| | |by destruct (Hx key_source out unsafe_print_secret force)| |].
  - apply M_bind_Ok in E as (f1 & u & [-> _]%reading_Ok & E).
    apply M_bind_Ok in E as (f2 & pw & [-> Ep]%reading_Ok & E).
    apply M_bind_Ok in E as (f3 & [k' a] & [-> Ek]%z_lift_Ok & (text & Et & ->)%saving_Ok).
    exists new_keystore, k', text. split; [by econstructor|done].
  - apply M_bind_Ok in E as (f1 & k & [-> El]%reading_Ok & E).
    apply M_bind_Ok in E as (f2 & pw & [-> Ep]%reading_Ok & E).
    apply M_bind_Ok in E as (f3 & [[kp g] pm] & [-> Er]%reading_Ok & E).
    apply M_bind_Ok in E as (f4 & k' & [-> Ek]%z_lift_Ok & (text & Et & ->)%saving_Ok).
    exists k, k', text. split; [by econstructor|done].
  - apply M_bind_Ok in E as (f1 & k & [-> El]%reading_Ok & E).
    apply M_bind_Ok in E as (f2 & a & [-> Ea]%lift_Ok & E).
    apply M_bind_Ok in E as (f3 & k' & [-> Ek]%z_lift_Ok & (text & Et & ->)%saving_Ok).
    exists k, k', text. split; [by econstructor|done].
  - apply M_bind_Ok in E as (f1 & k & [-> El]%reading_Ok & E).
    apply M_bind_Ok in E as (f2 & a & [-> Ea]%lift_Ok & E).
    destruct (remove k a) as [k' b] eqn:Er.
    apply M_bind_Ok in E as (f3 & u & [-> Eb]%lift_Ok & (text & Et & ->)%saving_Ok).
    destruct b; [|done]. exists k, k', text. split; [by econstructor|done].
  - apply M_bind_Ok in E as (f1 & k & [-> El]%reading_Ok & E).
    apply M_bind_Ok in E as (f2 & a & [-> Ea]%lift_Ok & E).
    apply M_bind_Ok in E as (f3 & pw & [-> Ep]%reading_Ok & E).
    apply M_bind_Ok in E as (f4 & npw & [-> En]%reading_Ok & E).
    apply M_bind_Ok in E as (f5 & [k' oc] & [-> Ek]%z_lift_Ok & (text & Et & ->)%saving_Ok).
    exists k, k', text. split; [by econstructor|done].
Qed.

(** The wallet commands are the keystore's operations on a file. A command that writes a
    keystore and succeeds has made exactly its operation (creating, importing, relabelling,
    removing, changing a password) on the store its file held, or on the empty store where there
    was none, and whoever loads the file next gets the resulting store. *)
Theorem wallet_refines_keystore d c json fs fs' v p :
  run_wallet o d c json fs = (fs', Ok v) -> writes c = Some p ->
  (forall ks out u f, c <> WExport ks out u f) -> io_error o Read p = None -> is_u64 (d_now d) ->
  exists k k', store_effect d fs c k k' /\
    load_keystore o p fs' = Ok (k' <| Keystore.path := Some p |>).
Proof.
  intros E Hw Hx Hr Hd. destruct (run_wallet_effect _ _ _ _ _ _ _ E Hw Hx) as (k & k' & text & He & Et & ->).
  exists k, k'. split; [done|]. apply saved_loads; [by eapply (store_effect_current _ _ _ _ _ Hd)|done..].
Qed.

(** *** Keys come back *)
Lemma parse_address_text a : parse_address (address_to_hex a) = Ok a.
Proof.
  unfold parse_address, address_from_hex, address_to_hex. rewrite strip_prefix_app.
  by rewrite decode_raw_hex_body_encode.
Qed.
Lemma imported_unlocks fr t k kp pw lbl g pm k' :
  import_key_with_origin fr t k kp pw lbl g pm = Ok k' -> unlock k' (keypair_address kp) pw = Ok kp.
Proof.
  intros (Hn & e & (Ha & _ & _ & Hu)%built_entry & Ek)%import_Ok. apply Hu.
  unfold entry. rewrite Ek. by apply find_app_new.
Qed.
Lemma changed_unlocks fr k a cur new k' oc kp :
  change_entry_password fr k a cur new = Ok (k', oc) -> unlock k a cur = Ok kp ->
  unlock k' (keypair_address kp) new = Ok kp.
Proof.
  intros E Eu. destruct (unlock_Ok _ _ _ _ Eu) as (Ha & e0 & Ee & _).
  unfold change_entry_password in E. rewrite Eu in E. cbn [mbind result_bind] in E.
  rewrite Ee in E. cbn [ok_or mbind result_bind] in E.
  apply bind_Ok in E as (e & (Hae & _ & _ & Hu)%built_entry & [= <- _]). apply Hu.
  unfold entry. cbn. rewrite Ha in *. rewrite find_update_same by done.
  unfold entry in Ee. by rewrite Ee.
Qed.
(** The key a command puts in its keystore, and the password it puts it under. *)
Inductive stores (d : draws) (fs : files) : WalletCommands -> Keypair -> rstr -> Prop :=
| stores_create ks lbl force pw password :
    load_password o pw "New keystore password" fs = Ok password ->
    stores d fs (WCreate ks lbl force pw) (d_keypair d) password
| stores_import ks lbl sk kf mn mf pp dp pw password kp g pm :
    load_password o pw "Keystore password" fs = Ok password ->
    resolve_import_keypair o sk kf mn mf pp dp fs = Ok (kp, g, pm) ->
    stores d fs (WImport ks lbl sk kf mn mf pp dp pw) kp password
| stores_change ks raw nf ne pw k a cur kp new :
    load_keystore o ks fs = Ok k -> parse_address raw = Ok a ->
    load_password o pw "Current keystore password" fs = Ok cur -> unlock k a cur = Ok kp ->
    load_password o {| password_file := nf; password_env := ne |} "New keystore password" fs = Ok new ->
    stores d fs (WChangePassword ks raw nf ne pw) kp new.
Lemma effect_unlocks d fs c k k' kp password :
  store_effect d fs c k k' -> stores d fs c kp password ->
  unlock k' (keypair_address kp) password = Ok kp.
Proof.
  intros He Hs. destruct Hs as [ks lbl force pw password Ep|ks lbl sk kf mn mf pp dp pw password kp g pm Ep Er
    |ks raw nf ne pw k0 a cur kp new El Ea Ec Eu En]; inversion He; subst; clear He.
  - assert (password0 = password) as -> by congruence. unfold create_key in *.
    match goal with E : _ = Ok (k', _) |- _ => apply bind_Ok in E as (k1 & E & [= -> _]) end.
    by eapply imported_unlocks.
  - match goal with E : resolve_import_keypair _ _ _ _ _ _ _ _ = Ok (?x, ?y, ?z) |- _ =>
      assert ((x, y, z) = (kp, g, pm)) as [= -> -> ->] by congruence end.
    assert (password0 = password) as -> by congruence. by eapply imported_unlocks.
  - assert (k0 = k) as -> by congruence. assert (a0 = a) as -> by congruence.
    assert (cur0 = cur) as -> by congruence. assert (new0 = new) as -> by congruence.
    by eapply changed_unlocks.
Qed.

(** C28: A key put in a keystore file is the key that is used. After a create, an import or a
    password change that succeeded, at a time of 64 bits and on a file that can be read, naming
    the keystore, the address and a source of the same password gives exactly the key that was
    generated, imported or re-encrypted. The document is written and read with the names that
    the serde attributes give, past the checks of its shape; only the JSON text of a tree is a
    parameter. *)
Theorem stored_key_loads d c json fs fs' v p kp password args :
  run_wallet o d c json fs = (fs', Ok v) -> writes c = Some p -> io_error o Read p = None ->
  is_u64 (d_now d) -> stores d fs c kp password ->
  args = {| secret_key := None; key_file := None; keystore := Some p;
            keystore_address := Some (address_to_hex (keypair_address kp));
            CliWallet.password := CliWallet.password args |} ->
  load_password o (CliWallet.password args) "Keystore password" fs' = Ok password ->
  load_keypair o args fs' = Ok kp.
Proof.
  intros E Hw Hr Hd Hs -> Hp. assert (forall ks out u f, c <> WExport ks out u f) as Hx
    by (by intros; destruct Hs).
  destruct (run_wallet_effect _ _ _ _ _ _ _ E Hw Hx) as (k & k' & text & He & Et & ->).
  pose proof (saved_loads k' p text fs (store_effect_current _ _ _ _ _ Hd He) Et Hr) as El.
  unfold load_keystore in El. apply bind_Ok in El as ([] & Ec & El%ctx_Ok).
  unfold load_keypair. cbn [secret_key key_file keystore keystore_address CliWallet.password] in *.
  rewrite Ec. cbn [mbind result_bind]. unfold parse_keystore_address.
  cbn [opt_context ok_or mbind result_bind]. rewrite parse_address_text. cbn [mbind result_bind].
  rewrite Hp. cbn [mbind result_bind]. rewrite El. cbn [ctx map_err mbind result_bind].
  rewrite (unlock_entry _ k') by done. by rewrite (effect_unlocks _ _ _ _ _ _ _ He Hs).
Qed.

(** *** Key sources *)
Lemma hexdigit_not_space c : 48 <= c <= 57 \/ 97 <= c <= 102 -> is_whitespace c = false.
Proof. intros Hc. unfold is_whitespace. mlia. Qed.
Lemma drop_while_id {A} (p : A -> bool) l : Forall (fun x => p x = false) l -> drop_while p l = l.
Proof. destruct 1 as [|x l Hx]; cbn; [done|by rewrite Hx]. Qed.
Lemma trim_hex b : trim (hex_encode b) = hex_encode b.
Proof.
  assert (Forall (fun c => is_whitespace c = false) (hex_encode b)) as Hf.
  { rewrite Forall_forall. intros c Hc%hex_encode_digits. by apply hexdigit_not_space. }
  unfold trim. rewrite (drop_while_id _ (hex_encode b)) by done.
  rewrite drop_while_id by (by apply Forall_reverse). apply reverse_involutive.
Qed.
Lemma hex_is_text b : forallb is_char (hex_encode b) = true.
Proof.
  apply forallb_forall. intros c Hc%list_elem_of_In%hex_encode_digits. unfold is_char. mlia.
Qed.
Lemma secret_text_loads k : secret_to_keypair (trim (secret_hex k)) = Ok k.
Proof.
  unfold secret_to_keypair, secret_hex. rewrite trim_hex, hex_decode_encode.
  cbn [context of_text map_err mbind result_bind]. by rewrite mk_bytesN_bn.
Qed.
Lemma private_read p text fs :
  forallb is_char text = true -> io_error o Read p = None ->
  read_text_file o p (<[p := private text]> fs) = Ok text.
Proof.
  intros Ht Hr. unfold read_text_file, check_owner_only, exists_path, fs_read_to_string, fs_read.
  rewrite Hr, lookup_insert_eq. destruct (io_error o Stat p); cbn;
    rewrite from_utf8_utf8 by done; done.
Qed.

(** A generated key is usable from its file, and is shown only on request. After key
    generation wrote a file, that file as key source gives the generated key; the secret is part
    of what is printed exactly when printing it was asked for. *)
Theorem generated_key_loads d p force unsafe fs fs' v :
  run_keygen o d (Some p) force unsafe false fs = (fs', Ok v) -> io_error o Read p = None ->
  (forall ka pw, load_keypair o
     {| secret_key := None; key_file := Some p; keystore := None; keystore_address := ka;
        CliWallet.password := pw |} fs' = Ok (d_keypair d)) /\
  (fields ← Json.as_object v; Json.get (lit "secret_key") fields)
    = Some (if unsafe then Json.Str (secret_hex (d_keypair d)) else Json.Null).
Proof.
  intros E Hr. unfold run_keygen in E. pose proof (give_secret_Ok _ _ _ _ _ _ _ _ _ _ E) as ->.
  split.
  - intros ka pw. unfold load_keypair. cbn [secret_key key_file keystore].
    rewrite private_read by (done || apply hex_is_text). cbn [mbind result_bind].
    apply secret_text_loads.
  - unfold give_secret in E. apply M_bind_Ok in E as (fs1 & u & _ & [= _ <-]). reflexivity.
Qed.

(** The file a key source reads its key from. *)
Definition key_path (args : KeySourceArgs) : option rstr :=
  match secret_key args, key_file args, keystore args with
  | Some raw, None, None =>
      if (str_len raw =? 64) && forallb is_ascii_hexdigit raw then None else Some raw
  | None, Some p, None | None, None, Some p => Some p
  | _, _, _ => None
  end.
Lemma owner_only p fs u :
  check_owner_only o p fs = Ok u -> io_error o Stat p = None ->
  forall f, fs !! p = Some f -> Z.land (mode f) 63 = 0.
Proof.
  unfold check_owner_only, exists_path. intros E Hs f Ef. rewrite Hs, Ef in E. cbn in E.
  destruct (Z.land (mode f) 63 =? 0) eqn:Em; [by apply Z.eqb_eq|done].
Qed.
Lemma fs_read_exists p fs b : fs_read o p fs = Ok b -> exists f, fs !! p = Some f /\ contents f = b.
Proof.
  unfold fs_read. destruct (io_error o Read p); [done|]. destruct (fs !! p) as [f|]; [|done].
  intros [= <-]. by exists f.
Qed.
Lemma read_text_private p fs t :
  read_text_file o p fs = Ok t -> io_error o Stat p = None ->
  exists f, fs !! p = Some f /\ Z.land (mode f) 63 = 0.
Proof.
  unfold read_text_file. intros (u & Ec & E%ctx_Ok)%bind_Ok Hs.
  unfold fs_read_to_string in E. apply bind_Ok in E as (b & (f & Ef & _)%fs_read_exists & _).
  exists f. split; [done|]. by eapply owner_only.
Qed.

(** Keys come from one private source. A key is loaded only when exactly one source is named,
    and, where its permissions can be examined, the file it is read from grants nothing to
    group or others; the same holds of a password file. *)
Theorem key_sources_private args fs k :
  load_keypair o args fs = Ok k ->
  (length (List.filter (fun x => bool_decide (is_Some x))
     [secret_key args; key_file args; keystore args]) = 1)%nat /\
  (forall p, key_path args = Some p -> io_error o Stat p = None ->
     exists f, fs !! p = Some f /\ Z.land (mode f) 63 = 0) /\
  (forall p, keystore args <> None -> password_file (CliWallet.password args) = Some p ->
     io_error o Stat p = None -> exists f, fs !! p = Some f /\ Z.land (mode f) 63 = 0).
Proof.
  unfold load_keypair, key_path.
  destruct (secret_key args) as [raw|], (key_file args) as [kf|], (keystore args) as [ks|]; try done.
  - unfold load_secret_key. destruct ((str_len raw =? 64) && _) eqn:Eh.
    + done.
    + intros (t & Et & _)%bind_Ok. split; [done|]. split; [|done]. intros p [= <-].
      by eapply read_text_private.
  - intros (t & Et & _)%bind_Ok. split; [done|]. split; [|done]. intros p [= <-].
    by eapply read_text_private.
  - intros (u & Ec & (a & _ & (pw & Ep & (st & Es%ctx_Ok & _)%bind_Ok)%bind_Ok)%bind_Ok)%bind_Ok.
    split; [done|]. split.
    + intros p [= <-] Hs. unfold keystore_load in Es. apply bind_Ok in Es as (t & Es & _).
      apply map_err_Ok in Es. unfold fs_read_to_string in Es.
      apply bind_Ok in Es as (b & (f & Ef & _)%fs_read_exists & _).
      exists f. split; [done|]. by eapply owner_only.
    + intros p _ Hf. unfold load_password in Ep. rewrite Hf in Ep.
      destruct (password_env (CliWallet.password args)); [done|].
      apply bind_Ok in Ep as (t & Et & _). by eapply read_text_private.
Qed.
End KeystoreFiles.
End CliWallet.

Module CliWalletWitness.
Import Anyhow Keystore CliWallet.

#[local] Instance plain_argon2 : Argon2 := {
  argon2id := fun password slt => Ok (pad_bytesN 32 (take 16 password ++ take 16 (bn slt)));
}.
#[local] Instance plain_bip39 : Mnemonic.Bip39 := {
  Mnemonic.phrase_type := rstr;
  Mnemonic.parse_in_normalized := fun p => Ok p;
  Mnemonic.phrase_to_string := fun p => p;
  Mnemonic.to_seed := fun p w => utf8 p ++ utf8 w;
  Mnemonic.hmac_sha512 := fun k m => pad_bytesN 64 (k ++ m);
}.
Definition key0 : Keypair := pad_bytesN 32 [x51].
Definition draws0 : draws :=
  {| d_keypair := key0; d_fresh := {| f_salt := pad_bytesN 32 [x01]; f_nonce := pad_bytesN 24 [x02] |};
     d_now := 7 |}.
(** A notation for trees: each value behind its kind and its length. *)
Fixpoint spell (v : Json.Value) : rstr :=
  match v with
  | Json.Null => [0]
  | Json.Boolean b => [1; if b then 1 else 0]
  | Json.Number t => 2 :: Z.of_nat (length t) :: t
  | Json.Str t => 3 :: Z.of_nat (length t) :: t
  | Json.Array vs => 4 :: Z.of_nat (length vs) :: concat (List.map spell vs)
  | Json.Object fields =>
      5 :: Z.of_nat (length fields) ::
      concat (List.map (fun f => Z.of_nat (length f.1) :: f.1 ++ spell f.2) fields)
  end.
Definition repeated {A} (one : rstr -> option (A * rstr)) : nat -> rstr -> option (list A * rstr) :=
  fix go n t :=
    match n with
    | O => Some ([], t)
    | S n => p ← one t; q ← go n p.2; Some (p.1 :: q.1, q.2)
    end.
Fixpoint unspell (fuel : nat) (t : rstr) : option (Json.Value * rstr) :=
  match fuel with
  | O => None
  | S fuel =>
      match t with
      | 0 :: t => Some (Json.Null, t)
      | 1 :: b :: t => Some (Json.Boolean (b =? 1), t)
      | 2 :: n :: t => Some (Json.Number (take (Z.to_nat n) t), drop (Z.to_nat n) t)
      | 3 :: n :: t => Some (Json.Str (take (Z.to_nat n) t), drop (Z.to_nat n) t)
      | 4 :: n :: t => p ← repeated (unspell fuel) (Z.to_nat n) t; Some (Json.Array p.1, p.2)
      | 5 :: n :: t =>
          p ← repeated (fun t =>
                match t with
                | n :: t =>
                    p ← unspell fuel (drop (Z.to_nat n) t); Some ((take (Z.to_nat n) t, p.1), p.2)
                | [] => None
                end) (Z.to_nat n) t;
          Some (Json.Object p.1, p.2)
      | _ => None
      end
  end.
Lemma repeated_spelled {A} (one : rstr -> option (A * rstr)) (write : A -> rstr) l rest :
  (forall a t, a ∈ l -> one (write a ++ t) = Some (a, t)) ->
  repeated one (length l) (concat (List.map write l) ++ rest) = Some (l, rest).
Proof.
  induction l as [|a l IH]; intros Ho; [done|]. cbn [length repeated List.map concat].
  rewrite <- app_assoc, Ho by apply list_elem_of_here. cbn [mbind option_bind fst snd].
  rewrite IH by (intros; apply Ho; by apply list_elem_of_further). done.
Qed.
Lemma inner_shorter {A} (write : A -> rstr) l a :
  a ∈ l -> (length (write a) <= length (concat (List.map write l)))%nat.
Proof.
  induction 1 as [a l|a b l _ IH]; cbn [List.map concat]; rewrite length_app; lia.
Qed.
Lemma take_drop_app (k t : rstr) :
  take (Z.to_nat (Z.of_nat (length k))) (k ++ t) = k /\
  drop (Z.to_nat (Z.of_nat (length k))) (k ++ t) = t.
Proof. by rewrite Nat2Z.id, take_app_length, drop_app_length. Qed.
Lemma unspell_spell fuel v rest :
  (length (spell v) <= fuel)%nat -> unspell fuel (spell v ++ rest) = Some (v, rest).
Proof.
  revert v rest. induction fuel as [|fuel IH]; intros v rest Hf.
  { by destruct v; cbn in Hf; lia. }
  destruct v as [|b|t|t|vs|fields]; cbn [spell app length] in Hf |- *; cbn [unspell].
  - done.
  - by destruct b.
  - by destruct (take_drop_app t rest) as [-> ->].
  - by destruct (take_drop_app t rest) as [-> ->].
  - rewrite Nat2Z.id, repeated_spelled; [done|]. intros v t Hv. apply IH.
    pose proof (inner_shorter spell vs v Hv). lia.
  - rewrite Nat2Z.id.
    rewrite (repeated_spelled _ (fun f : rstr * Json.Value =>
      Z.of_nat (length f.1) :: f.1 ++ spell f.2)); [done|]. intros [k v] t Hv. cbn [fst snd app].
    rewrite <- app_assoc. destruct (take_drop_app k (spell v ++ t)) as [-> ->].
    rewrite IH; [done|]. apply (inner_shorter (fun f : rstr * Json.Value =>
      Z.of_nat (length f.1) :: f.1 ++ spell f.2)) in Hv. cbn [fst snd length] in Hv.
    rewrite length_app in Hv. lia.
Qed.
#[local] Instance json0 : KeystoreJson := {
  to_string_pretty := fun v => if forallb is_char (spell v) then Ok (spell v) else Err (lit "character");
  value_from_str := fun t =>
    match unspell (length t) t with
    | Some (v, []) => Ok (KeystoreFile.parsed v)
    | _ => Err (lit "expected value")
    end;
  fault_text := fun _ => lit "invalid";
}.
#[local] Instance json0_laws : KeystoreJsonLaws.
Proof.
  intros v text. unfold to_string_pretty, value_from_str, json0.
  destruct (forallb is_char (spell v)) eqn:Ec; [|done]. intros [= <-]. split; [done|].
  pose proof (unspell_spell (length (spell v)) v [] (Nat.le_refl _)) as E. rewrite app_nil_r in E.
  by rewrite E.
Qed.
Definition os0 : os :=
  {| io_error := fun _ _ => None; write_outcome_of := fun _ => Complete; umask := 18;
     env_var := fun n => if decide (n = lit "PW") then Ok (lit "hunter2") else Err (lit "not present");
     is_terminal := false; prompt_password := fun _ => Err (lit "no terminal") |}.
Definition from_env : PasswordSourceArgs :=
  {| password_file := None; password_env := Some (lit "PW") |}.
Definition create0 : WalletCommands := WCreate (lit "keys.json") (lit "default") false from_env.
Definition after0 : files := (run_wallet os0 draws0 create0 false ∅).1.
Definition printed0 : Json.Value :=
  match (run_wallet os0 draws0 create0 false ∅).2 with Ok v => v | Err _ => Json.Null end.
Lemma created : run_wallet os0 draws0 create0 false ∅ = (after0, Ok printed0).
Proof. by vm_compute. Qed.

Lemma wallet_refines_keystore_witness :
  exists k, load_keystore os0 (lit "keys.json") after0 = Ok k.
Proof.
  destruct (wallet_refines_keystore os0 draws0 create0 false ∅ after0 printed0 (lit "keys.json")
    created eq_refl ltac:(intros; discriminate) eq_refl ltac:(by vm_compute)) as (k & k' & _ & E).
  exact (ex_intro _ _ E).
Defined.
Definition source0 : KeySourceArgs :=
  {| secret_key := None; key_file := None; keystore := Some (lit "keys.json");
     keystore_address := Some (address_to_hex (keypair_address key0)); password := from_env |}.
Lemma stored_key_loads_witness : load_keypair os0 source0 after0 = Ok key0.
Proof.
  apply (stored_key_loads os0 draws0 create0 false ∅ after0 printed0 (lit "keys.json") key0
    (lit "hunter2") source0 created eq_refl eq_refl); [by vm_compute| |reflexivity|by vm_compute].
  exact (stores_create os0 draws0 ∅ (lit "keys.json") (lit "default") false from_env (lit "hunter2")
    eq_refl).
Defined.
Lemma generated_key_loads_witness :
  load_keypair os0 {| secret_key := None; key_file := Some (lit "key"); keystore := None;
    keystore_address := None; password := from_env |}
    (run_keygen os0 draws0 (Some (lit "key")) false false false ∅).1 = Ok key0.
Proof.
  destruct (run_keygen os0 draws0 (Some (lit "key")) false false false ∅) as [fs' [v|e]] eqn:E.
  - exact (proj1 (generated_key_loads os0 draws0 (lit "key") false false ∅ fs' v E eq_refl) None from_env).
  - vm_compute in E. discriminate E.
Defined.
Lemma key_sources_private_witness :
  exists f, after0 !! lit "keys.json" = Some f /\ Z.land (mode f) 63 = 0.
Proof.
  assert (load_keypair os0 source0 after0 = Ok key0) as E by (vm_compute; reflexivity).
  exact (proj1 (proj2 (key_sources_private os0 source0 after0 key0 E)) (lit "keys.json") eq_refl eq_refl).
Defined.
End CliWalletWitness.
