(* ===== verification/CliQuery.v ===== *)
(** * Queries of the command line

    Models zincha-cli-core's [query.rs] and [surface.rs]: what each query command asks of the
    node, under which key, and the table of endpoints the command line may reach. *)
From S2P Require Import Prelude Crypto Instances Keystore Mnemonic Conversation Client CliWallet.

Module CliQuery.
Import Anyhow Client CliWallet.

(** ** [surface.rs] *)
Inductive SurfaceCategory : Type := Public | Participant | Provider | Omitted.
#[global] Instance SurfaceCategory_eq_dec : EqDecision SurfaceCategory.
Proof. solve_decision. Defined.
Record SurfaceEntry : Type := { s_command : rstr; s_category : SurfaceCategory; rationale : rstr }.
Definition TX_SURFACE : list SurfaceEntry :=
  [
   {| s_command := lit "transfer"; s_category := Public;
      rationale := lit "ordinary value transfer" |};
   {| s_command := lit "entity-link"; s_category := Public;
      rationale := lit "public identity graph transaction" |};
   {| s_command := lit "agent-*"; s_category := Public;
      rationale := lit "public agent lifecycle" |};
   {| s_command := lit "capability-*"; s_category := Public;
      rationale := lit "public capability catalog proposal and curator lifecycle" |};
   {| s_command := lit "task-*"; s_category := Public;
      rationale := lit "public requester/agent task lifecycle" |};
   {| s_command := lit "tool-*"; s_category := Public;
      rationale := lit "public tool lifecycle, invocation, results, usage, subscriptions" |};
   {| s_command := lit "agreement-*"; s_category := Public;
      rationale := lit "public agreement lifecycle" |};
   {| s_command := lit "arbitrator-*"; s_category := Public;
      rationale := lit "public dispute-arbitrator lifecycle" |};
   {| s_command := lit "validator-register/update/exit stake/unstake"; s_category := Public;
      rationale := lit "public validator and stake transactions accepted by submit API" |};
   {| s_command := lit "contract-*"; s_category := Public;
      rationale := lit "public contract deployment, calls, routes, verification, ABI" |};
   {| s_command := lit "token-*"; s_category := Public;
      rationale := lit "ZIP-20 token lifecycle" |};
   {| s_command := lit "conversation-*"; s_category := Participant;
      rationale := lit "provider-hosted participant conversation lifecycle" |};
   {| s_command := lit "submit-protected submit-bundle"; s_category := Provider;
      rationale := lit "provider-gated orderflow utilities that require bearer auth" |};
   {| s_command := lit "validator-vrf-* protocol-params-update finality-* node-* operator-*"; s_category := Omitted;
      rationale := lit "consensus, operator, node management, and internal maintenance are outside the public SDK boundary" |}].
Record QueryEndpoint : Type := {
  q_command : string; q_method : string; path_template : rstr; q_category : SurfaceCategory;
}.
Definition endpoint (command method template : string) (c : SurfaceCategory) : QueryEndpoint :=
  {| q_command := command; q_method := method; path_template := lit template; q_category := c |}.
Definition TYPED_QUERY_ENDPOINTS : list QueryEndpoint :=
  [
   endpoint "chain" "GET" "/v1/chain/info" Public;
   endpoint "block" "GET" "/v1/blocks/{height_or_hash}" Public;
   endpoint "blocks" "GET" "/v1/blocks" Public;
   endpoint "account" "GET" "/v1/accounts/{address}/balance" Public;
   endpoint "account-nonce" "GET" "/v1/accounts/{address}/nonce" Public;
   endpoint "account-transactions" "GET" "/v1/accounts/{address}/transactions" Public;
   endpoint "agent" "GET" "/v1/agents/{address}" Public;
   endpoint "agents" "GET" "/v1/agents" Public;
   endpoint "requester-reputation" "GET" "/v1/requesters/{address}" Public;
   endpoint "capabilities" "GET" "/v1/capabilities" Public;
   endpoint "capability" "GET" "/v1/capabilities/{slug}" Public;
   endpoint "capability-search" "GET" "/v1/capabilities/search" Public;
   endpoint "capability-categories" "GET" "/v1/capabilities/categories" Public;
   endpoint "task" "GET" "/v1/tasks/{task_id}" Participant;
   endpoint "task-opportunity" "GET" "/v1/tasks/{task_id}/opportunity" Public;
   endpoint "pending-tasks" "GET" "/v1/tasks/pending" Public;
   endpoint "tool" "GET" "/v1/tools/{tool_id}" Public;
   endpoint "tools" "GET" "/v1/tools" Public;
   endpoint "subscription" "GET" "/v1/tool-subscriptions/{subscription_id}" Public;
   endpoint "agreement" "GET" "/v1/agreements/{agreement_id}" Participant;
   endpoint "agreements-by-party" "GET" "/v1/agreements/party/{address}" Participant;
   endpoint "agreements-by-arbitrator" "GET" "/v1/agreements/arbitrator/{address}" Participant;
   endpoint "tool-job" "GET" "/v1/tool-jobs/{job_id}" Participant;
   endpoint "tool-jobs-by-requester" "GET" "/v1/tool-jobs/requester/{address}" Participant;
   endpoint "tool-jobs-by-provider" "GET" "/v1/tool-jobs/provider/{address}" Participant;
   endpoint "tool-usage-session" "GET" "/v1/tool-usage-sessions/{session_id}" Participant;
   endpoint "tool-usage-sessions-by-requester" "GET" "/v1/tool-usage-sessions/requester/{address}" Participant;
   endpoint "tool-usage-sessions-by-provider" "GET" "/v1/tool-usage-sessions/provider/{address}" Participant;
   endpoint "contract" "GET" "/v1/contracts/{address}" Public;
   endpoint "contracts" "GET" "/v1/contracts" Public;
   endpoint "contract-transactions" "GET" "/v1/contracts/{address}/transactions" Public;
   endpoint "route" "GET" "/v1/contracts/routes/{deployer}/{route_name}" Public;
   endpoint "token" "GET" "/v1/tokens/{token_id}" Public;
   endpoint "tokens" "GET" "/v1/tokens" Public;
   endpoint "token-transactions" "GET" "/v1/tokens/{token_id}/transactions" Public;
   endpoint "arbitrator" "GET" "/v1/arbitrators/{address}" Public;
   endpoint "arbitrators" "GET" "/v1/arbitrators" Public;
   endpoint "market-rates" "GET" "/v1/market-rates" Public;
   endpoint "events" "GET" "/v1/events" Public;
   endpoint "tx" "GET" "/v1/tx/{hash}" Public;
   endpoint "validators" "GET" "/v1/consensus/validators" Public;
   endpoint "participant" "GET" "<signed participant path>" Participant].
Definition has_category (c : SurfaceCategory) (e : SurfaceEntry) : bool := bool_decide (s_category e = c).
Definition excluded_words : list string :=
  ["operator"; "mempool"; "pipeline"; "finality"; "testing"; "internal"; "readiness"; "orderflow"].
Definition endpoint_ok (e : QueryEndpoint) : bool :=
  bool_decide (q_method e = "GET")
  && negb (bool_decide (q_category e ∈ [Provider; Omitted]))
  && negb (bool_decide (path_template e = lit "/v1/tasks"))
  && forallb (fun w => negb (contains_str (lit w) (path_template e))) excluded_words
  && (negb (contains_str (lit "consensus") (path_template e))
      || bool_decide (path_template e = lit "/v1/consensus/validators")).
(** [None] is a failed assertion. *)
Definition assert_public_surface : may_panic unit :=
  if negb (bool_decide (TX_SURFACE = []))
     && existsb (has_category Provider) TX_SURFACE
     && existsb (has_category Omitted) TX_SURFACE
     && forallb (fun e => negb (bool_decide (trim (s_command e) = []))
                          && negb (bool_decide (trim (rationale e) = []))) TX_SURFACE
     && forallb endpoint_ok TYPED_QUERY_ENDPOINTS
  then Some () else None.

(** ** [query.rs] *)
Inductive QueryCommands : Type :=
| QChain
| QBlock (height_or_hash : rstr)
| QBlocks (limit : option Z)
| QAccount (address : rstr)
| QAccountNonce (address : rstr)
| QAccountTransactions (address : rstr) (limit : option Z) (cursor : option rstr)
| QAgent (address : rstr)
| QAgents (limit : option Z) (cursor : option rstr)
| QRequesterReputation (address : rstr)
| QCapabilities (limit : option Z) (cursor status category parent : option rstr)
| QCapability (slug : rstr)
| QCapabilitySearch (text : rstr) (limit : option Z) (cursor status category : option rstr)
| QCapabilityCategories
| QTask (signer : KeySourceArgs) (task_id : rstr)
| QTaskOpportunity (task_id : rstr)
| QPendingTasks (limit : option Z) (cursor : option rstr) (discover_capability : list rstr)
    (discover_min_fee : option Z) (discover_fee : list rstr)
| QTool (tool_id : rstr)
| QTools (limit : option Z) (cursor : option rstr)
| QSubscription (subscription_id : rstr)
| QAgreement (signer : KeySourceArgs) (agreement_id : rstr)
| QAgreementsByParty (signer : KeySourceArgs) (address : rstr) (limit : option Z) (cursor : option rstr)
| QAgreementsByArbitrator (signer : KeySourceArgs) (address : rstr) (limit : option Z)
    (cursor : option rstr)
| QToolJob (signer : KeySourceArgs) (job_id : rstr)
| QToolJobsByRequester (signer : KeySourceArgs) (address : rstr) (limit : option Z)
    (cursor : option rstr)
| QToolJobsByProvider (signer : KeySourceArgs) (address : rstr) (limit : option Z)
    (cursor : option rstr)
| QToolUsageSession (signer : KeySourceArgs) (session_id : rstr)
| QToolUsageSessionsByRequester (signer : KeySourceArgs) (address : rstr) (limit : option Z)
    (cursor : option rstr)
| QToolUsageSessionsByProvider (signer : KeySourceArgs) (address : rstr) (limit : option Z)
    (cursor : option rstr)
| QContract (address : rstr)
| QContracts (limit : option Z) (cursor : option rstr)
| QContractTransactions (address : rstr) (limit : option Z) (cursor : option rstr)
| QRoute (deployer route_name : rstr)
| QToken (token_id : rstr)
| QTokens (limit : option Z) (cursor : option rstr)
| QTokenTransactions (token_id : rstr) (limit : option Z) (cursor : option rstr)
| QArbitrator (address : rstr)
| QArbitrators (limit : option Z) (cursor : option rstr)
| QMarketRates (limit : option Z) (cursor : option rstr)
| QEvents (topic : option rstr) (limit : option Z)
| QTx (hash : rstr)
| QValidators
| QParticipant (signer : KeySourceArgs) (path : rstr).

Definition transaction_history_query (limit : option Z) (cursor : option rstr) : CursorPageQuery :=
  with_opt page_cursor cursor (with_opt page_limit limit page_new).
Definition cursor_page_query (limit : option Z) (cursor : option rstr) : CursorPageQuery :=
  with_opt page_cursor cursor (with_opt page_limit limit page_new).
Definition participant_workflow_query (limit : option Z) (cursor : option rstr) : CursorPageQuery :=
  with_opt page_cursor cursor (with_opt page_limit limit page_new).
Definition capability_list_query (limit : option Z) (cursor status category parent : option rstr)
    : CapabilityListQuery :=
  with_opt list_parent parent (with_opt list_category category (with_opt list_status status
    (with_opt list_cursor cursor (with_opt list_limit limit list_new)))).
Definition capability_search_query (limit : option Z) (cursor status category : option rstr)
    : CapabilitySearchQuery :=
  with_opt search_category category (with_opt search_status status
    (with_opt search_cursor cursor (with_opt search_limit limit search_new))).
Definition discover_fee_entry (entry : rstr) : result error (rstr * Z) :=
  p ← ok_or (split_once 58 entry)
    [CText (Msg "invalid --discover-fee {:?}: expected capability:fee" [AStr entry])];
  fee ← map_err (fun e => [CText (Msg "invalid --discover-fee {:?}: fee must be an integer: {}"
           [AStr entry; AStr (parse_int_text e)])]) (parse_unsigned U64_MAX p.2);
  Ok (p.1, fee).
Definition pending_task_list_query (limit : option Z) (cursor : option rstr)
    (discover_capabilities : list rstr) (discover_min_fee : option Z) (discover_fees : list rstr)
    : result error PendingTaskListQuery :=
  let q := with_opt pending_cursor cursor (with_opt pending_limit limit pending_new) in
  let q := foldl (fun q c => Client.discover_capability c q) q discover_capabilities in
  let q := with_opt Client.discover_min_fee discover_min_fee q in
  fold_result (fun q e => f ← discover_fee_entry e; Ok (discover_fee f.1 f.2 q)) q discover_fees.
Definition signed_get (path : rstr) (k : Keypair) : api_request :=
  get_with path (with_signer k (with_signed options_default)).
Definition get_with_limit (path : rstr) (limit : option Z) : api_request :=
  match limit with
  | Some limit => get_with path (query_param (lit "limit") (show_u limit) options_default)
  | None => get path
  end.
Definition scoped_prefixes : list rstr :=
  [lit "/v1/accounts/"; lit "/v1/agents/"; lit "/v1/requesters/"].
Definition enforce_address_scope (path signer_address : rstr) : result error unit :=
  fold_result (fun _ prefix =>
    match strip_prefix prefix path with
    | Some rest =>
        let path_address := take_while (fun c => negb (c =? 47)) rest in
        if negb (bool_decide (path_address = [])) && negb (bool_decide (path_address = signer_address))
        then bail (Msg
          "signed participant route address {} does not match signer address {}"
          [AStr path_address; AStr signer_address])
        else Ok ()
    | None => Ok ()
    end) () scoped_prefixes.

Section Query.
Context `{Digests, Hex, Ed25519, Keystore.Argon2, Aead, Mnemonic.Bip39, KeystoreJson}
  (o : os) (fs : files).

Definition signed_workflow_list (signer : KeySourceArgs) (address path : rstr) (limit : option Z)
    (cursor : option rstr) : result error api_request :=
  k ← load_keypair o signer fs;
  let signer_address := address_to_hex (keypair_address k) in
  if negb (bool_decide (signer_address = address)) then
    bail (Msg "signed participant query address mismatch: signer address {} does not match path address {}"
            [AStr signer_address; AStr address])
  else
    let q := participant_workflow_query limit cursor in
    Ok (get_with path (opt_param "cursor" (cp_cursor q) (opt_param "limit" (show_u <$> cp_limit q)
             (with_signer k (with_signed options_default))))).
Definition run_participant_query (signer : KeySourceArgs) (path : rstr) : result error api_request :=
  k ← load_keypair o signer fs;
  _ ← enforce_address_scope path (address_to_hex (keypair_address k));
  Ok (signed_get path k).

(** [run_query] up to the request: the label of the answer and what is asked. *)
Definition query_request (command : option QueryCommands) (path : option rstr)
    : result error (string * api_request) :=
  let signed_at label signer p :=
    k ← load_keypair o signer fs; Ok (label, signed_get p k) in
  let listed label signer address p limit cursor :=
    r ← signed_workflow_list signer address p limit cursor; Ok (label, r) in
  match command with
  | Some QChain => Ok ("query-chain", chain_info)
  | Some (QBlock h) => Ok ("query-block", get (lit "/v1/blocks/" ++ h))
  | Some (QBlocks limit) => Ok ("query-blocks", get_with_limit (lit "/v1/blocks") limit)
  | Some (QAccount a) => Ok ("query-account", balance a)
  | Some (QAccountNonce a) => Ok ("query-account-nonce", nonce a)
  | Some (QAccountTransactions a limit cursor) =>
      Ok ("query-account-transactions", account_transactions a (transaction_history_query limit cursor))
  | Some (QAgent a) => Ok ("query-agent", get (lit "/v1/agents/" ++ a))
  | Some (QAgents limit cursor) => Ok ("query-agents", agents (cursor_page_query limit cursor))
  | Some (QRequesterReputation a) => Ok ("query-requester-reputation", requester_reputation a)
  | Some (QCapabilities limit cursor status category parent) =>
      Ok ("query-capabilities", capabilities (capability_list_query limit cursor status category parent))
  | Some (QCapability slug) => Ok ("query-capability", capability slug)
  | Some (QCapabilitySearch text limit cursor status category) =>
      Ok ("query-capability-search",
          capability_search text (capability_search_query limit cursor status category))
  | Some QCapabilityCategories => Ok ("query-capability-categories", capability_categories)
  | Some (QTask signer id) => signed_at "query-task" signer (lit "/v1/tasks/" ++ id)
  | Some (QTaskOpportunity id) => Ok ("query-task-opportunity", task_opportunity id)
  | Some (QPendingTasks limit cursor caps min_fee fees) =>
      q ← pending_task_list_query limit cursor caps min_fee fees;
      Ok ("query-pending-tasks", pending_tasks q)
  | Some (QTool id) => Ok ("query-tool", get (lit "/v1/tools/" ++ id))
  | Some (QTools limit cursor) => Ok ("query-tools", tools (cursor_page_query limit cursor))
  | Some (QSubscription id) => Ok ("query-subscription", get (lit "/v1/tool-subscriptions/" ++ id))
  | Some (QAgreement signer id) => signed_at "query-agreement" signer (lit "/v1/agreements/" ++ id)
  | Some (QAgreementsByParty signer a limit cursor) =>
      listed "query-agreements-by-party" signer a (lit "/v1/agreements/party/" ++ a) limit cursor
  | Some (QAgreementsByArbitrator signer a limit cursor) =>
      listed "query-agreements-by-arbitrator" signer a (lit "/v1/agreements/arbitrator/" ++ a) limit cursor
  | Some (QToolJob signer id) => signed_at "query-tool-job" signer (lit "/v1/tool-jobs/" ++ id)
  | Some (QToolJobsByRequester signer a limit cursor) =>
      listed "query-tool-jobs-by-requester" signer a (lit "/v1/tool-jobs/requester/" ++ a) limit cursor
  | Some (QToolJobsByProvider signer a limit cursor) =>
      listed "query-tool-jobs-by-provider" signer a (lit "/v1/tool-jobs/provider/" ++ a) limit cursor
  | Some (QToolUsageSession signer id) =>
      signed_at "query-tool-usage-session" signer (lit "/v1/tool-usage-sessions/" ++ id)
  | Some (QToolUsageSessionsByRequester signer a limit cursor) =>
      listed "query-tool-usage-sessions-by-requester" signer a
        (lit "/v1/tool-usage-sessions/requester/" ++ a) limit cursor
  | Some (QToolUsageSessionsByProvider signer a limit cursor) =>
      listed "query-tool-usage-sessions-by-provider" signer a
        (lit "/v1/tool-usage-sessions/provider/" ++ a) limit cursor
  | Some (QContract a) => Ok ("query-contract", get (lit "/v1/contracts/" ++ a))
  | Some (QContracts limit cursor) => Ok ("query-contracts", contracts (cursor_page_query limit cursor))
  | Some (QContractTransactions a limit cursor) =>
      Ok ("query-contract-transactions", contract_transactions a (transaction_history_query limit cursor))
  | Some (QRoute deployer route_name) =>
      Ok ("query-route", get (lit "/v1/contracts/routes/" ++ deployer ++ lit "/" ++ route_name))
  | Some (QToken id) => Ok ("query-token", get (lit "/v1/tokens/" ++ id))
  | Some (QTokens limit cursor) => Ok ("query-tokens", tokens (cursor_page_query limit cursor))
  | Some (QTokenTransactions id limit cursor) =>
      Ok ("query-token-transactions", token_transactions id (transaction_history_query limit cursor))
  | Some (QArbitrator a) => Ok ("query-arbitrator", get (lit "/v1/arbitrators/" ++ a))
  | Some (QArbitrators limit cursor) =>
      Ok ("query-arbitrators", arbitrators (cursor_page_query limit cursor))
  | Some (QMarketRates limit cursor) =>
      Ok ("query-market-rates", market_rates (cursor_page_query limit cursor))
  | Some (QEvents topic limit) =>
      Ok ("query-events",
          get_with (lit "/v1/events")
            (opt_param "limit" (show_u <$> limit) (opt_param "topic" topic options_default)))
  | Some (QTx hash) => Ok ("query-tx", transaction_status hash)
  | Some QValidators => Ok ("query-validators", validators)
  | Some (QParticipant signer p) =>
      r ← run_participant_query signer p; Ok ("query-participant", r)
  | None =>
      p ← ok_or path [CText (msg "query path or typed query command is required")];
      Ok ("query", get p)
  end.

(** ** Properties *)

(** The name of a command on the command line. *)
Definition query_name (c : QueryCommands) : string :=
  match c with
  | QChain => "chain" | QBlock _ => "block" | QBlocks _ => "blocks" | QAccount _ => "account"
  | QAccountNonce _ => "account-nonce" | QAccountTransactions _ _ _ => "account-transactions"
  | QAgent _ => "agent" | QAgents _ _ => "agents"
  | QRequesterReputation _ => "requester-reputation"
  | QCapabilities _ _ _ _ _ => "capabilities" | QCapability _ => "capability"
  | QCapabilitySearch _ _ _ _ _ => "capability-search"
  | QCapabilityCategories => "capability-categories" | QTask _ _ => "task"
  | QTaskOpportunity _ => "task-opportunity" | QPendingTasks _ _ _ _ _ => "pending-tasks"
  | QTool _ => "tool" | QTools _ _ => "tools" | QSubscription _ => "subscription"
  | QAgreement _ _ => "agreement" | QAgreementsByParty _ _ _ _ => "agreements-by-party"
  | QAgreementsByArbitrator _ _ _ _ => "agreements-by-arbitrator" | QToolJob _ _ => "tool-job"
  | QToolJobsByRequester _ _ _ _ => "tool-jobs-by-requester"
  | QToolJobsByProvider _ _ _ _ => "tool-jobs-by-provider"
  | QToolUsageSession _ _ => "tool-usage-session"
  | QToolUsageSessionsByRequester _ _ _ _ => "tool-usage-sessions-by-requester"
  | QToolUsageSessionsByProvider _ _ _ _ => "tool-usage-sessions-by-provider"
  | QContract _ => "contract" | QContracts _ _ => "contracts"
  | QContractTransactions _ _ _ => "contract-transactions" | QRoute _ _ => "route"
  | QToken _ => "token" | QTokens _ _ => "tokens" | QTokenTransactions _ _ _ => "token-transactions"
  | QArbitrator _ => "arbitrator" | QArbitrators _ _ => "arbitrators"
  | QMarketRates _ _ => "market-rates" | QEvents _ _ => "events" | QTx _ => "tx"
  | QValidators => "validators" | QParticipant _ _ => "participant"
  end.
Definition endpoint_of (name : string) : option QueryEndpoint :=
  List.find (fun e => bool_decide (q_command e = name)) TYPED_QUERY_ENDPOINTS.
(** A template with its holes, in braces, filled in order. *)
Fixpoint fill (in_hole : bool) (template : rstr) (args : list rstr) : rstr :=
  match template with
  | [] => []
  | c :: t =>
      if in_hole then fill (negb (c =? 125)) t args
      else if c =? 123 then
        match args with a :: args' => a ++ fill true t args' | [] => fill true t [] end
      else c :: fill false t args
  end.
(** The key source of a command and the address it must have. *)
Definition query_signer (c : QueryCommands) : option KeySourceArgs :=
  match c with
  | QTask s _ | QAgreement s _ | QAgreementsByParty s _ _ _ | QAgreementsByArbitrator s _ _ _
  | QToolJob s _ | QToolJobsByRequester s _ _ _ | QToolJobsByProvider s _ _ _
  | QToolUsageSession s _ | QToolUsageSessionsByRequester s _ _ _
  | QToolUsageSessionsByProvider s _ _ _ | QParticipant s _ => Some s
  | _ => None
  end.
Definition query_owner (c : QueryCommands) : option rstr :=
  match c with
  | QAgreementsByParty _ a _ _ | QAgreementsByArbitrator _ a _ _ | QToolJobsByRequester _ a _ _
  | QToolJobsByProvider _ a _ _ | QToolUsageSessionsByRequester _ a _ _
  | QToolUsageSessionsByProvider _ a _ _ => Some a
  | _ => None
  end.
Definition query_args (c : QueryCommands) : list rstr :=
  match c with
  | QBlock x | QAccount x | QAccountNonce x | QAccountTransactions x _ _ | QAgent x
  | QRequesterReputation x | QCapability x | QTask _ x | QTaskOpportunity x | QTool x
  | QSubscription x | QAgreement _ x | QAgreementsByParty _ x _ _ | QAgreementsByArbitrator _ x _ _
  | QToolJob _ x | QToolJobsByRequester _ x _ _ | QToolJobsByProvider _ x _ _
  | QToolUsageSession _ x | QToolUsageSessionsByRequester _ x _ _
  | QToolUsageSessionsByProvider _ x _ _ | QContract x | QContractTransactions x _ _ | QToken x
  | QTokenTransactions x _ _ | QArbitrator x | QTx x => [x]
  | QRoute d n => [d; n]
  | _ => []
  end.
End Query.

Section QueryProofs.
Context `{Digests, Hex, Ed25519, Keystore.Argon2, Aead, Mnemonic.Bip39, KeystoreJson}
  (o : os) (fs : files).

(** Everything of a request's options but its query. *)
Definition authority (r : RequestOptions) :=
  (body r, o_bearer_token r, signed r, o_signer r, o_timestamp_ms r, o_nonce r, delegation_id r).
Lemma authority_query_param n v r : authority (query_param n v r) = authority r.
Proof. done. Qed.
Lemma authority_opt_param n v r : authority (opt_param n v r) = authority r.
Proof. by destruct v. Qed.
Lemma authority_page q r : authority (page_options q r) = authority r.
Proof. unfold page_options. by rewrite !authority_opt_param. Qed.
Lemma authority_foldl {A} (f : A -> rstr) (n : rstr) (l : list A) r :
  authority (foldl (fun r a => query_param n (f a) r) r l) = authority r.
Proof. revert r. induction l as [|a l IH]; intros r; [done|]. cbn [foldl]. by rewrite IH. Qed.
Lemma authority_pending q : authority (pending_task_options q) = authority options_default.
Proof.
  unfold pending_task_options.
  rewrite (authority_foldl (fun p : rstr * Z => p.1 ++ lit ":" ++ show_u p.2)).
  rewrite authority_opt_param, (authority_foldl (fun c : rstr => c)). by rewrite authority_page.
Qed.
Lemma authority_cap_list q : authority (capability_list_options q) = authority options_default.
Proof. unfold capability_list_options. by rewrite !authority_opt_param, authority_page. Qed.
Lemma authority_cap_search t q :
  authority (capability_search_options t q) = authority options_default.
Proof. unfold capability_search_options. by rewrite !authority_opt_param, authority_page. Qed.
Lemma authority_events topic limit :
  authority (opt_param "limit" limit (opt_param "topic" topic options_default))
  = authority options_default.
Proof. by rewrite !authority_opt_param. Qed.
Definition owner_authority (k : Keypair) := authority (with_signer k (with_signed options_default)).

(** A path that begins with one of the scoped prefixes, slash and all, has no address there or the
    address [a]. *)
Definition own_scope (path a : rstr) : Prop :=
  forall prefix rest, prefix ∈ scoped_prefixes -> strip_prefix prefix path = Some rest ->
    take_while (fun c => negb (c =? 47)) rest = [] \/ take_while (fun c => negb (c =? 47)) rest = a.
Lemma scope_checked path a :
  enforce_address_scope path a = Ok () <-> own_scope path a.
Proof.
  unfold enforce_address_scope, own_scope. induction scoped_prefixes as [|pre l IH]; cbn [fold_result].
  { split; [|done]. intros _ pre rest Hin. by apply elem_of_nil in Hin. }
  set (r := match strip_prefix pre path with Some _ => _ | None => _ end).
  assert (r = Ok () <-> forall rest, strip_prefix pre path = Some rest ->
    take_while (fun c => negb (c =? 47)) rest = [] \/ take_while (fun c => negb (c =? 47)) rest = a) as Hr.
  { subst r. destruct (strip_prefix pre path) as [rest|]; [|by split].
    case_bool_decide as E1; [|case_bool_decide as E2]; cbn [negb andb].
    - split; [|done]. intros _ ? [= <-]. by left.
    - split; [|done]. intros _ ? [= <-]. by right.
    - split; [done|]. intros Hx. destruct (Hx rest eq_refl); contradiction. }
  split.
  - intros (u & Er & El)%bind_Ok pre' rest Hin Es. destruct u.
    apply elem_of_cons in Hin as [->|Hin]; [by apply (proj1 Hr Er)|].
    by apply (proj1 IH El pre' rest).
  - intros Hx. rewrite (proj2 Hr); [|intros rest; apply Hx; apply list_elem_of_here].
    cbn [mbind result_bind]. apply IH. intros pre' rest Hin. apply Hx. by apply list_elem_of_further.
Qed.

(** A request as the table allows it. *)
Definition allowed (c : QueryCommands) (r : api_request) (e : QueryEndpoint) : Prop :=
  r_method r = GET /\
  match c with
  | QParticipant _ p => r_path r = p
  | _ => r_path r = fill false (path_template e) (query_args c)
  end /\
  match query_signer c with
  | None => q_category e = Public /\ authority (r_options r) = authority options_default
  | Some s =>
      q_category e = Participant /\ exists k, load_keypair o s fs = Ok k /\
      authority (r_options r) = owner_authority k /\
      (forall a, query_owner c = Some a -> address_to_hex (keypair_address k) = a) /\
      (forall s' p, c = QParticipant s' p -> own_scope p (address_to_hex (keypair_address k)))
  end.
Lemma signed_workflow_list_Ok s a p limit cursor r :
  signed_workflow_list o fs s a p limit cursor = Ok r ->
  r_method r = GET /\ r_path r = p /\ exists k, load_keypair o s fs = Ok k /\
  authority (r_options r) = owner_authority k /\ address_to_hex (keypair_address k) = a.
Proof.
  unfold signed_workflow_list. intros (k & Ek & E)%bind_Ok.
  destruct (negb _) eqn:Ea; [done|]. apply negb_false_iff, bool_decide_eq_true in Ea.
  injection E as <-. split; [done|]. split; [done|]. exists k. split; [done|]. split; [|done].
  unfold get_with. cbn [r_options]. by rewrite !authority_opt_param.
Qed.
(** The query a pending task list is asked with: each argument in its place. *)
Lemma pending_capabilities q caps :
  foldl (fun q c => Client.discover_capability c q) q caps
  = q <| pt_discover_capabilities := pt_discover_capabilities q ++ caps |>.
Proof.
  revert q. induction caps as [|c caps IH]; intros q; cbn [foldl].
  - destruct q. cbn. by rewrite app_nil_r.
  - rewrite IH. cbn. by rewrite <- app_assoc.
Qed.
Lemma pending_fees q entries q' :
  fold_result (fun q e => f ← discover_fee_entry e; Ok (discover_fee f.1 f.2 q)) q entries = Ok q' ->
  exists fees, map discover_fee_entry entries = map Ok fees /\
    q' = q <| pt_discover_fees := pt_discover_fees q ++ fees |>.
Proof.
  revert q. induction entries as [|e entries IH]; intros q; cbn [fold_result].
  - intros [= <-]. exists []. split; [done|]. destruct q. cbn. by rewrite app_nil_r.
  - intros (q1 & (f & Ef & [= <-])%bind_Ok & E)%bind_Ok. apply IH in E as (fees & Em & ->).
    exists (f :: fees). cbn [map]. rewrite Ef, Em. split; [done|].
    destruct f as [c fee]. cbn. by rewrite <- app_assoc.
Qed.
Lemma pending_list_Ok limit cursor caps min_fee entries q :
  pending_task_list_query limit cursor caps min_fee entries = Ok q <->
  exists fees, map discover_fee_entry entries = map Ok fees /\
  q = {| pt_limit := limit; pt_cursor := cursor; pt_discover_capabilities := caps;
         pt_discover_min_fee := min_fee; pt_discover_fees := fees |}.
Proof.
  unfold pending_task_list_query. rewrite pending_capabilities. split.
  - intros (fees & Em & ->)%pending_fees. exists fees. split; [done|].
    by destruct limit, cursor, min_fee.
  - intros (fees & Em & ->).
    set (q0 := with_opt _ _ _).
    assert (fold_result (fun q e => f ← discover_fee_entry e; Ok (discover_fee f.1 f.2 q)) q0 entries
      = Ok (q0 <| pt_discover_fees := pt_discover_fees q0 ++ fees |>)) as ->.
    { generalize q0. clear q0. revert fees Em. induction entries as [|e entries IH]; intros [|f fees] Em q;
        [by destruct q; cbn; rewrite app_nil_r|done|done|].
      cbn [map] in Em. injection Em as E Em. cbn [fold_result]. rewrite E. cbn [mbind result_bind].
      rewrite (IH fees Em). destruct f as [c fee]. cbn. by rewrite <- app_assoc. }
    by destruct limit, cursor, min_fee.
Qed.

(** What an answer holds; a command's entry in the table, its method and its path. *)
Lemma Ok_pair {A B} (a a' : A) (b b' : B) : Ok (E:=error) (a, b) = Ok (a', b') -> a = a' /\ b = b'.
Proof. by intros [= <- <-]. Qed.
Local Ltac in_table :=
  split; [reflexivity|]; eexists; split; [vm_compute; reflexivity|]; split; [reflexivity|];
  split; [cbv -[app]; rewrite ?app_nil_r; reflexivity|]; split; [reflexivity|].
Local Ltac public E :=
  apply Ok_pair in E as [<- <-];
  try match goal with |- context [get_with_limit _ ?l] => destruct l end;
  in_table;
  first [ reflexivity
        | exact (authority_page _ options_default)
        | exact (authority_cap_list _)
        | exact (authority_cap_search _ _)
        | exact (authority_events _ _)
        | exact (authority_pending _) ].
Local Ltac listed E :=
  apply signed_workflow_list_Ok in E as (Em & Ep & k & Ek & Ea & Eo);
  split; [reflexivity|]; eexists; split; [vm_compute; reflexivity|]; split; [exact Em|];
  split; [etrans; [exact Ep|]; cbv -[app]; rewrite ?app_nil_r; reflexivity|];
  split; [reflexivity|]; exists k; split; [exact Ek|]; split; [exact Ea|]; split; [intros ? [= <-]; exact Eo|done].

(** C27: The command line asks only what its table of endpoints allows. The table passes the checks
    made at every start. A typed query command has an entry in it under its own name, and what it
    sends is one GET request to that entry's path, filled with the command's arguments, or for the
    participant command to the path it is given. A command of a public entry sends no signature,
    token, body or delegation; one of a participant entry is signed with the key of the command's
    own key source and carries nothing else. The lists of a participant's agreements, jobs and
    sessions are asked for only if that key has the address asked for; a path given to the
    participant command that begins with a slash and a scoped prefix (accounts, agents,
    requesters) has no address there or that key's (without the slash it is not looked at). The
    untyped query is a plain GET of the path it is given. *)
Theorem queries_within_surface c path label r :
  assert_public_surface = Some () /\
  (query_request o fs (Some c) path = Ok (label, r) ->
   label = ("query-" ++ query_name c)%string /\
   exists e, endpoint_of (query_name c) = Some e /\ allowed c r e) /\
  (query_request o fs None path = Ok (label, r) ->
   label = "query" /\ exists p, path = Some p /\ r = get p).
Proof.
  split; [by vm_compute|]. split.
  2: { cbn [query_request]. intros (p & Ep & [<- <-]%Ok_pair)%bind_Ok.
       split; [done|]. exists p. split; [|done]. destruct path; [|done]. by injection Ep as ->. }
  destruct c; cbn [query_request query_name]; intros E.
  all: lazymatch goal with
    | E : Ok _ = Ok _ |- _ => public E
    | _ => idtac
    end.
  all: apply bind_Ok in E as (x & Ex & [<- <-]%Ok_pair).
  all: lazymatch type of Ex with
    | load_keypair _ _ _ = _ => in_table; exists x; split; [exact Ex|]; split; [reflexivity|]; by split
    | signed_workflow_list _ _ _ _ _ _ _ = _ => listed Ex
    | _ => idtac
    end.
  - in_table. exact (authority_pending x).
  - unfold run_participant_query in Ex. apply bind_Ok in Ex as (k & Ek & (u & Es & E)%bind_Ok).
    injection E as <-. in_table. exists k. split; [exact Ek|]. split; [reflexivity|]. split; [done|].
    intros s' p [= _ <-]. destruct u. by apply scope_checked.
Qed.

(** A free participant path stays with its signer, when it is written with its slash. A path
    under accounts, agents or requesters is sent, signed by the key of the source, exactly when
    the address in it is empty or the key's own; but the same path without the leading slash
    passes whatever its address, and is sent to the same target. *)
Theorem participant_path_scope s path r rest (a : rstr) `{!Client.UrlOps (H:=u)} :
  (run_participant_query o fs s path = Ok r <->
   exists k, load_keypair o s fs = Ok k /\ r = signed_get path k /\
     own_scope path (address_to_hex (keypair_address k))) /\
  enforce_address_scope (lit "v1/accounts/" ++ rest) a = Ok () /\
  build_request_target (lit "v1/accounts/" ++ rest) [] = lit "/v1/accounts/" ++ rest.
Proof.
  split; [|split; reflexivity]. unfold run_participant_query. split.
  - intros (k & Ek & (u0 & Es & E)%bind_Ok)%bind_Ok. injection E as <-. destruct u0.
    exists k. split; [done|]. split; [done|]. by apply scope_checked.
  - intros (k & -> & -> & Hs%scope_checked). cbn [mbind result_bind]. by rewrite Hs.
Qed.
End QueryProofs.
End CliQuery.

(** ** A query on concrete data *)
Module CliQueryWitness.
Import Client CliWallet CliQuery.
#[local] Existing Instances CliWalletWitness.plain_argon2 CliWalletWitness.plain_bip39
  CliWalletWitness.json0.

(** The key is given as hexadecimal text. *)
Definition source0 : KeySourceArgs :=
  {| secret_key := Some (secret_hex CliWalletWitness.key0); key_file := None; keystore := None;
     keystore_address := None; password := CliWalletWitness.from_env |}.
Definition own0 : rstr := address_to_hex (keypair_address CliWalletWitness.key0).
Definition jobs0 : QueryCommands := QToolJobsByProvider source0 own0 (Some 5) None.
Definition asked0 : api_request :=
  match query_request CliWalletWitness.os0 ∅ (Some jobs0) None with
  | Ok (_, r) => r
  | Err _ => chain_info
  end.
Lemma queries_within_surface_witness :
  query_request CliWalletWitness.os0 ∅ (Some jobs0) None = Ok ("query-tool-jobs-by-provider", asked0) /\
  r_path asked0 = lit "/v1/tool-jobs/provider/" ++ own0 /\
  exists k, load_keypair CliWalletWitness.os0 source0 ∅ = Ok k /\ address_to_hex (keypair_address k) = own0.
Proof.
  assert (query_request CliWalletWitness.os0 ∅ (Some jobs0) None
    = Ok ("query-tool-jobs-by-provider", asked0)) as E by (vm_compute; reflexivity).
  split; [exact E|].
  destruct (proj1 (proj2 (queries_within_surface CliWalletWitness.os0 ∅ jobs0 None _ _)) E)
    as (_ & e & He & _ & Hp & _ & k & Ek & _ & Ho & _).
  injection He as <-. split.
  - rewrite Hp. reflexivity.
  - exists k. split; [exact Ek|]. exact (Ho own0 eq_refl).
Defined.
End CliQueryWitness.
