(* ===== verification/CliTx.v ===== *)
(** * Transactions from the command line

    Models zincha-cli-core's [tx.rs]: the request each command makes of a wallet, the wallet it
    is made of (key, chain, nonce, validity window), and what is written, sent and waited for.
    The wallet's builders are the interface [Wallet.Builder]; the node is a function from
    requests to answers. Every request sent is recorded, those the builders make of the embedding
    service too; the polls of one transaction are recorded as one. *)
From S2P Require Import Prelude Crypto Float Instances Transaction Agreement Subscription ToolJob.
From S2P Require Import Contract Capability Tool Validator Token Task Wallet Keystore Mnemonic.
From S2P Require Import Conversation Client CliWallet.

Module CliTx.
Import Anyhow CliWallet.

(** ** Arguments *)
Record TxBuildArgs : Type := {
  key_source : KeySourceArgs;
  tb_nonce : option Z;
  tb_chain_id : option rstr;
  tb_timestamp_ms : option Z;
  reference_block_height : option Z;
  reference_block_hash : option rstr;
  tb_ttl_blocks : option Z;
  tb_embed_url : option rstr;
  tb_offline : bool;
  tb_submit : bool;
  tb_wait : bool;
  wait_timeout_secs : Z;
  wait_interval_ms : Z;
  signed_tx_out : option rstr;
  tb_force : bool;
}.
(** The commands that build a transaction; [StakeTargetArg] is [Tx.StakeTarget]. *)
Inductive BuildCommand : Type :=
| CmdTransfer (to : rstr) (amount fee : Z) (max_priority_fee_per_gas : option Z)
| CmdEntityLink (entity authorizer_secret_key : rstr) (fee : Z)
| CmdRegisterAgent (name description : rstr) (capabilities : list rstr) (model_hash : option rstr)
    (min_fee : option Z) (fee_schedule_file : option rstr) (fee : Z)
| CmdUpdateAgent (name description model_hash : option rstr) (capabilities : list rstr)
    (metadata_hex : option rstr) (active : option bool) (min_fee : option Z)
    (fee_schedule_file : option rstr) (fee : Z)
| CmdDeregisterAgent (fee : Z)
| CmdCapabilityPropose (slug display_name description category : rstr) (parent : option rstr)
    (aliases keywords examples related : list rstr) (fee : Z)
| CmdCapabilityApprove (slug : rstr) (display_name description category parent : option rstr)
    (aliases keywords examples related : list rstr) (fee : Z)
| CmdCapabilityReject (slug reason : rstr) (fee : Z)
| CmdCapabilityDeprecate (slug replacement reason : rstr) (fee : Z)
| CmdBondRequesterAutoMatch (amount fee : Z)
| CmdSubmitTask (description : rstr) (capabilities : list rstr) (max_fee priority : Z)
    (deadline_ms : option Z) (parameters_hex match_prefs_file : option rstr) (fee : Z)
| CmdFulfillTask (task_id : rstr) (result_hash result_data_hex : option rstr)
    (tools_used input_refs : list rstr) (fee : Z)
| CmdAcceptTask (task_id : rstr) (fee : Z)
| CmdDisputeTask (task_id reason : rstr) (fee : Z)
| CmdResolveTask (task_id : rstr) (agent_wins : bool) (reason : rstr) (fee : Z)
| CmdFinalizeTask (task_id : rstr) (fee : Z)
| CmdCancelTask (task_id : rstr) (fee : Z)
| CmdDecomposeTask (task_id subtasks_file : rstr) (fee : Z)
| CmdUpdateReputation (task_id : rstr) (quality : f64) (requester_accepted : bool)
    (feedback : option rstr) (fee : Z)
| CmdRegisterValidator (stake : Z) (vrf_public_key executor_services_file : option rstr) (fee : Z)
| CmdUpdateValidator (vrf_public_key executor_services_file : option rstr) (fee : Z)
| CmdReactivateValidator (fee : Z)
| CmdStake (target : Tx.StakeTarget) (amount fee : Z)
| CmdUnstake (target : Tx.StakeTarget) (amount fee : Z)
| CmdExitValidator (fee : Z)
| CmdRegisterTool (name description endpoint : rstr) (price : Z) (capabilities : list rstr)
    (settlement_mode : rstr) (sla_ms challenge_window_ms max_result_metadata_bytes : Z)
    (arbitration_policy version : rstr) (fee : Z)
| CmdInvokeTool (tool_id : rstr) (input_hex : option rstr) (fee : Z)
| CmdInvokeMeteredTool (tool_id : rstr) (input_hex : option rstr) (max_units fee : Z)
| CmdInvokeMilestoneTool (tool_id : rstr) (input_hex : option rstr) (milestones_file : rstr)
    (fee : Z)
| CmdSubmitToolResult (job_id : rstr) (result_hash result_metadata_hex : option rstr)
    (milestone_index : option Z) (fee : Z)
| CmdAcceptToolResult (job_id : rstr) (milestone_index : option Z) (fee : Z)
| CmdDisputeToolResult (job_id reason : rstr) (milestone_index : option Z) (fee : Z)
| CmdResolveToolResult (job_id : rstr) (provider_wins : bool) (reason : rstr)
    (milestone_index : option Z) (fee : Z)
| CmdReportToolUsage (session_id : rstr) (units_used : Z)
    (result_hash result_metadata_hex : option rstr) (fee : Z)
| CmdAcceptToolUsage (session_id : rstr) (fee : Z)
| CmdDisputeToolUsage (session_id reason : rstr) (fee : Z)
| CmdResolveToolUsage (session_id : rstr) (provider_wins : bool) (reason : rstr) (fee : Z)
| CmdCreateToolSubscriptionPlan (tool_id name : rstr)
    (price_per_period period_ms included_calls included_credits : Z) (overage_policy : rstr)
    (fee : Z)
| CmdUpdateToolSubscriptionPlan (plan_id : rstr) (name : option rstr)
    (price_per_period period_ms included_calls included_credits : option Z)
    (overage_policy : option rstr) (active : option bool) (fee : Z)
| CmdStartToolSubscription (plan_id : rstr) (reserve_amount : Z) (auto_renew : bool) (fee : Z)
| CmdTopUpToolSubscription (subscription_id : rstr) (amount fee : Z)
| CmdCancelToolSubscription (subscription_id : rstr) (fee : Z)
| CmdResumeToolSubscription (subscription_id : rstr) (reserve_amount fee : Z)
| CmdRenewToolSubscription (subscription_id : rstr) (fee : Z)
| CmdUpdateTool (tool_id : rstr) (description endpoint : option rstr) (price_per_call : option Z)
    (settlement_mode : option rstr) (active : option bool) (capabilities : list rstr) (fee : Z)
| CmdDeregisterTool (tool_id : rstr) (fee : Z)
| CmdCreateAgreement (parties : list rstr) (terms_hex : option rstr)
    (escrow_amount expires_at : Z) (arbitrator milestones_file : option rstr)
    (service_provider : rstr) (settlement_allocations_file settlement_approver : option rstr)
    (fee : Z)
| CmdAcceptAgreement (agreement_id : rstr) (fee : Z)
| CmdExecuteAgreement (agreement_id result_hash : rstr) (milestone_index : option Z) (fee : Z)
| CmdDisputeAgreement (agreement_id reason : rstr) (milestone_index : option Z) (fee : Z)
| CmdResolveAgreement (agreement_id payouts_file : rstr) (reputation_effects_file : option rstr)
    (reason : rstr) (milestone_index : option Z) (fee : Z)
| CmdCancelAgreement (agreement_id : rstr) (fee : Z)
| CmdRegisterArbitrator (name description : rstr) (stake fee_bps : Z)
    (specializations : list rstr) (fee : Z)
| CmdDeregisterArbitrator (fee : Z)
| CmdDeployContract (bytecode_hex bytecode_file : option rstr) (initial_balance fee : Z)
| CmdCallContract (contract_address function : rstr) (args_hex : option rstr)
    (call_value gas_limit fee : Z)
| CmdCallContractRoute (deployer route_name function : rstr) (args_hex : option rstr)
    (call_value gas_limit fee : Z)
| CmdUpdateContractRoute (route_name target_contract_address : rstr) (fee : Z)
| CmdVerifyContractSource (contract_address proof_file : rstr) (fee : Z)
| CmdPublishContractAbi (contract_address abi_file : rstr) (fee : Z)
| CmdDeactivateContract (contract_address : rstr) (fee : Z)
| CmdCreateToken (name symbol : rstr) (decimals initial_supply : Z) (max_supply : option Z)
    (mint_authority : option rstr) (burnable : bool) (fee : Z)
| CmdTransferToken (token_id to : rstr) (amount fee : Z)
| CmdApproveToken (token_id spender : rstr) (amount fee : Z)
| CmdMintToken (token_id to : rstr) (amount fee : Z)
| CmdUpdateTokenMintAuthority (token_id : rstr) (mint_authority : option rstr) (fee : Z)
| CmdBurnToken (token_id : rstr) (amount fee : Z)
| CmdDestroyToken (token_id : rstr) (fee : Z).
(** The other commands, and all of them. *)
Inductive TxCommands : Type :=
| SubmitSigned (signed_tx_hex signed_tx_file : option rstr)
| SubmitBatch (signed_tx_hexes signed_tx_files : list rstr)
| SubmitProtected (signed_tx_hex signed_tx_file : option rstr) (max_priority_fee_per_gas : option Z)
| SubmitBundle (signed_tx_hexes signed_tx_files : list rstr) (atomic : bool)
    (expiration_height : Z) (max_total_fee max_priority_fee_per_gas : option Z)
| Wait (tx_hash : rstr) (timeout_secs poll_interval_ms : Z)
| Build (build : TxBuildArgs) (c : BuildCommand).

(** ** Parsing arguments *)
Definition map_opt {A B} (f : A -> result error B) (o : option A) : result error (option B) :=
  match o with Some a => b ← f a; Ok (Some b) | None => Ok None end.
Fixpoint map_all {A B} (f : A -> result error B) (l : list A) : result error (list B) :=
  match l with [] => Ok [] | a :: l' => b ← f a; bs ← map_all f l'; Ok (b :: bs) end.
(** [(!values.is_empty()).then_some(values)]. *)
Definition non_empty {A} (l : list A) : option (list A) :=
  match l with [] => None | _ => Some l end.
Definition parse_settlement_mode (raw : rstr) : result error Tool.HttpToolSettlementMode :=
  if bool_decide (raw ∈ [lit "prepaid_access"; lit "prepaid"]) then Ok Tool.PrepaidAccess
  else if bool_decide (raw ∈ [lit "result_escrowed"; lit "result-escrowed"]) then Ok Tool.ResultEscrowed
  else if bool_decide (raw ∈ [lit "metered_usage"; lit "metered"]) then Ok Tool.MeteredUsage
  else if bool_decide (raw ∈ [lit "milestone_escrowed"; lit "milestone-escrowed"])
  then Ok Tool.MilestoneEscrowed
  else bail (Msg "unsupported settlement mode {}" [AStr raw]).
Definition parse_arbitration_policy (raw : rstr) : result error Tool.ToolArbitrationPolicy :=
  if decide (raw = lit "protocol") then Ok Tool.Protocol
  else bail (Msg "unsupported arbitration policy {}" [AStr raw]).
Definition parse_overage_policy (raw : rstr) : result error Subscription.SubscriptionOveragePolicy :=
  if decide (raw = lit "deny") then Ok Subscription.Deny
  else if bool_decide (raw ∈ [lit "pay_as_you_go"; lit "pay-as-you-go"]) then Ok Subscription.PayAsYouGo
  else bail (Msg "unsupported overage policy {}" [AStr raw]).

(** ** Values of JSON answers *)
Definition as_u64 (v : Json.Value) : option Z :=
  match v with Json.Number t => ok (parse_unsigned U64_MAX t) | _ => None end.
Definition find_map {A B} (f : A -> option B) (l : list A) : option B :=
  foldr (fun a rest => Client.option_or (f a) rest) None l.
Definition extract_u64 (v : option Json.Value) (keys : list string) : option Z :=
  v ← v; find_map (fun key => x ← Client.value_get (lit key) v; as_u64 x) keys.
Definition extract_string (v : option Json.Value) (keys : list string) : option rstr :=
  v ← v; find_map (fun key => x ← Client.value_get (lit key) v; Json.as_str x) keys.
Definition extract_nonce (v : Json.Value) : result error Z :=
  ok_or
    (Client.option_or (extract_u64 (Some v) ["next_nonce"; "nonce"; "account_nonce"])
       (account ← Client.value_get (lit "account") v;
        x ← Client.value_get (lit "nonce") account; n ← as_u64 x; Some (wrap64 (n + 1))))
    [CText (msg "nonce response did not include next_nonce or nonce")].

Section Requests.
Context `{Digests, Hex, Ed25519} (o : os) (to_lowercase : rstr -> rstr).

Definition parse_optional_hash (raw : option rstr) : result error Hash256 :=
  h ← map_opt parse_hash raw; Ok (default hash_zero h).
Definition parse_hashes (values : list rstr) : result error (list Hash256) := map_all parse_hash values.
Definition parse_addresses (values : list rstr) : result error (list Address) :=
  map_all parse_address values.
Definition parse_capabilities (values : list rstr) : list Capability.Capability :=
  Capability.new_capability to_lowercase <$> values.

(** [serde_json::from_slice] at the types of the files a command reads. *)
Class FileJson (T : Type) := { from_slice : list byte -> result rstr T }.
Context `{!FileJson (list (rstr * Z))} `{!FileJson Task.MatchPreferences}
  `{!FileJson (list Task.SubTaskDef)} `{!FileJson (list Validator.ValidatorExecutorService)}
  `{!FileJson (list ToolJob.ToolMilestoneDef)} `{!FileJson (list Agreement.MilestoneDef)}
  `{!FileJson (list Agreement.AgreementPayoutShare)}
  `{!FileJson (list Agreement.AgreementDisputeReputationEffect)}
  `{!FileJson Contract.ContractSourceProof} `{!FileJson Contract.ContractAbi}.
Context (now : result error Z) (fs : files).
Definition json_file {T} `{!FileJson T} (p : rstr) : result error T :=
  read_json_file o from_slice p fs.

Definition validator_update (vrf_public_key executor_services_file : option rstr)
    (require_any_change : bool) : result error Validator.ValidatorUpdateData :=
  services ← map_opt json_file executor_services_file;
  vrf ← map_opt parse_public_key vrf_public_key;
  let services := default [] services in
  if require_any_change && bool_decide (services = []) && bool_decide (vrf = None) then
    bail (msg "update-validator requires --vrf-public-key or --executor-services-file; use reactivate-validator to reactivate a suspended validator")
  else Ok {| Validator.executor_services := services; Validator.vrf_public_key := vrf |}.

(** The request of a command: what fails before the wallet is resolved, then what
    fails after. *)
Import Wallet.
Definition after_wallet (r : result error request) : result error (result error request) := Ok r.
(** One request per command. *)
Definition prepare_transfer (to : rstr) (amount fee : Z) (priority : option Z)
    : result error (result error request) :=
  after_wallet (
    recipient ← parse_address to;
    match priority with
    | Some priority => Ok (RqTransferWithPriorityFee recipient amount fee priority)
    | None => Ok (RqTransfer recipient amount fee)
    end).
Definition prepare_entity_link (entity authorizer_secret_key : rstr) (fee : Z)
    : result error (result error request) :=
  after_wallet (
    authorizer ← load_secret_key o authorizer_secret_key fs;
    entity ← parse_address entity; Ok (RqEntityLink entity authorizer fee)).
Definition prepare_register_agent (name description : rstr) (caps : list rstr) (model_hash :
    option rstr) (min_fee : option Z) (schedule_file : option rstr) (fee : Z)
    : result error (result error request) :=
  after_wallet (
    schedule ← map_opt json_file schedule_file;
    model_hash ← match model_hash with Some h => parse_hash h | None => Ok hash_zero end;
    Ok (RqRegisterAgentFull name description (parse_capabilities caps) model_hash
          (default 0 min_fee) (default [] schedule) fee)).
Definition prepare_update_agent (name description model_hash : option rstr) (caps : list rstr)
    (metadata_hex : option rstr) (active : option bool) (min_fee : option Z) (schedule_file :
    option rstr) (fee : Z) : result error (result error request) :=
  after_wallet (
    model_hash ← map_opt parse_hash model_hash;
    metadata ← map_opt (fun h => parse_hex_bytes (Some h)) metadata_hex;
    schedule ← map_opt json_file schedule_file;
    Ok (RqUpdateAgentFull name description None model_hash (parse_capabilities <$> non_empty caps)
          metadata active min_fee schedule fee)).
Definition prepare_deregister_agent (fee : Z) : result error (result error request) :=
  after_wallet (Ok (RqDeregisterAgent fee)).
Definition prepare_capability_propose (slug display_name description category : rstr) (parent :
    option rstr) (aliases keywords examples related : list rstr) (fee : Z)
    : result error (result error request) :=
  after_wallet (Ok (RqProposeCapability
    {| Capability.cp_slug := slug; Capability.cp_display_name := display_name;
       Capability.cp_description := description; Capability.cp_category := category;
       Capability.cp_parent := parent; Capability.cp_aliases := aliases;
       Capability.cp_keywords := keywords; Capability.cp_examples := examples;
       Capability.cp_related := related |} fee)).
Definition prepare_capability_approve (slug : rstr) (display_name description category parent :
    option rstr) (aliases keywords examples related : list rstr) (fee : Z)
    : result error (result error request) :=
  after_wallet (Ok (RqApproveCapability
    {| Capability.ca_slug := slug; Capability.ca_display_name := display_name;
       Capability.ca_description := description; Capability.ca_category := category;
       Capability.ca_parent := Some <$> parent; Capability.ca_aliases := non_empty aliases;
       Capability.ca_keywords := non_empty keywords; Capability.ca_examples := non_empty examples;
       Capability.ca_related := non_empty related |} fee)).
Definition prepare_capability_reject (slug reason : rstr) (fee : Z)
    : result error (result error request) :=
  after_wallet (Ok (RqRejectCapability
    {| Capability.cr_slug := slug; Capability.cr_reason := reason |} fee)).
Definition prepare_capability_deprecate (slug replacement reason : rstr) (fee : Z)
    : result error (result error request) :=
  after_wallet (Ok (RqDeprecateCapability
    {| Capability.cd_slug := slug; Capability.cd_replacement := replacement;
       Capability.cd_reason := reason |} fee)).
Definition prepare_bond_requester_auto_match (amount fee : Z)
    : result error (result error request) :=
  after_wallet (Ok (RqRequesterAutoMatchBond amount fee)).
Definition prepare_submit_task (description : rstr) (caps : list rstr) (max_fee priority : Z)
    (deadline_ms : option Z) (parameters_hex prefs_file : option rstr) (fee : Z)
    : result error (result error request) :=
  after_wallet (
    now ← now;
    let deadline := default (now + 600000) deadline_ms in
    parameters ← parse_hex_bytes parameters_hex;
    prefs ← map_opt json_file prefs_file;
    let caps := parse_capabilities caps in
    match prefs with
    | Some prefs =>
        Ok (RqSubmitTaskWithPrefs description caps max_fee priority deadline parameters fee prefs)
    | None => Ok (RqSubmitTask description caps max_fee priority deadline parameters fee)
    end).
Definition prepare_fulfill_task (task_id : rstr) (result_hash result_data_hex : option rstr)
    (tools_used input_refs : list rstr) (fee : Z) : result error (result error request) :=
  after_wallet (
    id ← parse_hash task_id; h ← parse_optional_hash result_hash;
    d ← parse_hex_bytes result_data_hex; tools ← parse_hashes tools_used;
    refs ← parse_hashes input_refs; Ok (RqFulfillTask id h d tools refs fee)).
Definition prepare_accept_task (task_id : rstr) (fee : Z) : result error (result error request) :=
  after_wallet (id ← parse_hash task_id; Ok (RqAcceptTask id fee)).
Definition prepare_dispute_task (task_id reason : rstr) (fee : Z)
    : result error (result error request) :=
  after_wallet (id ← parse_hash task_id; Ok (RqDisputeTask id reason fee)).
Definition prepare_resolve_task (task_id : rstr) (agent_wins : bool) (reason : rstr) (fee : Z)
    : result error (result error request) :=
  after_wallet (id ← parse_hash task_id; Ok (RqResolveTask id agent_wins reason fee)).
Definition prepare_finalize_task (task_id : rstr) (fee : Z) : result error (result error request) :=
  after_wallet (id ← parse_hash task_id; Ok (RqFinalizeTask id fee)).
Definition prepare_cancel_task (task_id : rstr) (fee : Z) : result error (result error request) :=
  after_wallet (id ← parse_hash task_id; Ok (RqCancelTask id fee)).
Definition prepare_decompose_task (task_id subtasks_file : rstr) (fee : Z)
    : result error (result error request) :=
  after_wallet (
    subtasks ← json_file subtasks_file; id ← parse_hash task_id;
    Ok (RqDecomposeTask id subtasks fee)).
Definition prepare_update_reputation (task_id : rstr) (quality : f64) (requester_accepted :
    bool) (feedback : option rstr) (fee : Z) : result error (result error request) :=
  after_wallet (
    match feedback with
    | Some feedback =>
        id ← parse_hash task_id;
        Ok (RqUpdateReputationWithFeedback id quality requester_accepted feedback fee)
    | None => id ← parse_hash task_id; Ok (RqUpdateReputation id quality requester_accepted fee)
    end).
Definition prepare_register_validator (stake : Z) (vrf_public_key services_file : option rstr)
    (fee : Z) : result error (result error request) :=
  after_wallet (
    update ← validator_update vrf_public_key services_file false;
    Ok (RqRegisterValidatorWithUpdate stake update fee)).
Definition prepare_update_validator (vrf_public_key services_file : option rstr) (fee : Z)
    : result error (result error request) :=
  after_wallet (
    update ← validator_update vrf_public_key services_file true; Ok (RqUpdateValidator update fee)).
Definition prepare_reactivate_validator (fee : Z) : result error (result error request) :=
  after_wallet (Ok (RqReactivateValidator fee)).
Definition prepare_stake (target : Tx.StakeTarget) (amount fee : Z)
    : result error (result error request) :=
  after_wallet (Ok (RqStake amount target fee)).
Definition prepare_unstake (target : Tx.StakeTarget) (amount fee : Z)
    : result error (result error request) :=
  after_wallet (Ok (RqUnstake amount target fee)).
Definition prepare_exit_validator (fee : Z) : result error (result error request) :=
  after_wallet (Ok (RqExitValidator fee)).
Definition prepare_register_tool (name description endpoint : rstr) (price : Z) (caps : list
    rstr) (settlement_mode : rstr) (sla_ms challenge_window_ms max_metadata : Z)
    (arbitration_policy version : rstr) (fee : Z) : result error (result error request) :=
  after_wallet (
    settlement ← parse_settlement_mode settlement_mode;
    policy ← parse_arbitration_policy arbitration_policy;
    Ok (RqRegisterToolWithSettlement name description endpoint price settlement sla_ms
          challenge_window_ms max_metadata policy (parse_capabilities caps) version fee)).
Definition prepare_invoke_tool (tool_id : rstr) (input_hex : option rstr) (fee : Z)
    : result error (result error request) :=
  after_wallet (
    id ← parse_hash tool_id; input ← parse_hex_bytes input_hex; Ok (RqInvokeTool id input fee)).
Definition prepare_invoke_metered_tool (tool_id : rstr) (input_hex : option rstr) (max_units fee
    : Z) : result error (result error request) :=
  after_wallet (
    id ← parse_hash tool_id; input ← parse_hex_bytes input_hex;
    Ok (RqInvokeMeteredTool id input max_units fee)).
Definition prepare_invoke_milestone_tool (tool_id : rstr) (input_hex : option rstr)
    (milestones_file : rstr) (fee : Z) : result error (result error request) :=
  milestones ← json_file milestones_file;
    after_wallet (id ← parse_hash tool_id; input ← parse_hex_bytes input_hex;
                  Ok (RqInvokeMilestoneTool id input milestones fee)).
Definition prepare_submit_tool_result (job_id : rstr) (result_hash result_metadata_hex : option
    rstr) (milestone_index : option Z) (fee : Z) : result error (result error request) :=
  h ← parse_optional_hash result_hash;
    metadata ← parse_hex_bytes result_metadata_hex;
    after_wallet (
      id ← parse_hash job_id;
      match milestone_index with
      | Some index => Ok (RqSubmitToolMilestoneResult id index h metadata fee)
      | None => Ok (RqSubmitToolResult id h metadata fee)
      end).
Definition prepare_accept_tool_result (job_id : rstr) (milestone_index : option Z) (fee : Z)
    : result error (result error request) :=
  after_wallet (
    id ← parse_hash job_id;
    match milestone_index with
    | Some index => Ok (RqAcceptToolMilestoneResult id index fee)
    | None => Ok (RqAcceptToolResult id fee)
    end).
Definition prepare_dispute_tool_result (job_id reason : rstr) (milestone_index : option Z) (fee
    : Z) : result error (result error request) :=
  after_wallet (
    id ← parse_hash job_id;
    match milestone_index with
    | Some index => Ok (RqDisputeToolMilestoneResult id index reason fee)
    | None => Ok (RqDisputeToolResult id reason fee)
    end).
Definition prepare_resolve_tool_result (job_id : rstr) (provider_wins : bool) (reason : rstr)
    (milestone_index : option Z) (fee : Z) : result error (result error request) :=
  after_wallet (
    id ← parse_hash job_id;
    match milestone_index with
    | Some index => Ok (RqResolveToolMilestoneResult id index provider_wins reason fee)
    | None => Ok (RqResolveToolResult id provider_wins reason fee)
    end).
Definition prepare_report_tool_usage (session_id : rstr) (units_used : Z) (result_hash
    result_metadata_hex : option rstr) (fee : Z) : result error (result error request) :=
  after_wallet (
    id ← parse_hash session_id; h ← parse_optional_hash result_hash;
    metadata ← parse_hex_bytes result_metadata_hex;
    Ok (RqReportToolUsage id units_used h metadata fee)).
Definition prepare_accept_tool_usage (session_id : rstr) (fee : Z)
    : result error (result error request) :=
  after_wallet (id ← parse_hash session_id; Ok (RqAcceptToolUsage id fee)).
Definition prepare_dispute_tool_usage (session_id reason : rstr) (fee : Z)
    : result error (result error request) :=
  after_wallet (id ← parse_hash session_id; Ok (RqDisputeToolUsage id reason fee)).
Definition prepare_resolve_tool_usage (session_id : rstr) (provider_wins : bool) (reason : rstr)
    (fee : Z) : result error (result error request) :=
  after_wallet (id ← parse_hash session_id; Ok (RqResolveToolUsage id provider_wins reason fee)).
Definition prepare_create_tool_subscription_plan (tool_id name : rstr) (price_per_period
    period_ms included_calls included_credits : Z) (overage_policy : rstr) (fee : Z)
    : result error (result error request) :=
  after_wallet (
    id ← parse_hash tool_id; policy ← parse_overage_policy overage_policy;
    Ok (RqCreateToolSubscriptionPlan id name price_per_period period_ms included_calls
          included_credits policy fee)).
Definition prepare_update_tool_subscription_plan (plan_id : rstr) (name : option rstr)
    (price_per_period period_ms included_calls included_credits : option Z) (overage_policy :
    option rstr) (active : option bool) (fee : Z) : result error (result error request) :=
  id ← parse_hash plan_id;
    policy ← map_opt parse_overage_policy overage_policy;
    after_wallet (Ok (RqUpdateToolSubscriptionPlan
      {| Tool.pu_plan_id := id; Tool.pu_name := name; Tool.pu_price_per_period := price_per_period;
         Tool.pu_period_ms := period_ms; Tool.pu_included_calls := included_calls;
         Tool.pu_included_credits := included_credits; Tool.pu_overage_policy := policy;
         Tool.pu_active := active |} fee)).
Definition prepare_start_tool_subscription (plan_id : rstr) (reserve_amount : Z) (auto_renew :
    bool) (fee : Z) : result error (result error request) :=
  after_wallet (
    id ← parse_hash plan_id; Ok (RqStartToolSubscription id reserve_amount auto_renew fee)).
Definition prepare_top_up_tool_subscription (subscription_id : rstr) (amount fee : Z)
    : result error (result error request) :=
  after_wallet (
    id ← parse_hash subscription_id; Ok (RqTopUpToolSubscription id amount fee)).
Definition prepare_cancel_tool_subscription (subscription_id : rstr) (fee : Z)
    : result error (result error request) :=
  after_wallet (
    id ← parse_hash subscription_id; Ok (RqCancelToolSubscription id fee)).
Definition prepare_resume_tool_subscription (subscription_id : rstr) (reserve_amount fee : Z)
    : result error (result error request) :=
  after_wallet (
    id ← parse_hash subscription_id;
    Ok (RqResumeToolSubscriptionWithReserve id reserve_amount fee)).
Definition prepare_renew_tool_subscription (subscription_id : rstr) (fee : Z)
    : result error (result error request) :=
  after_wallet (
    id ← parse_hash subscription_id; Ok (RqRenewToolSubscription id fee)).
Definition prepare_update_tool (tool_id : rstr) (description endpoint : option rstr)
    (price_per_call : option Z) (settlement_mode : option rstr) (active : option bool) (caps :
    list rstr) (fee : Z) : result error (result error request) :=
  id ← parse_hash tool_id;
    settlement ← map_opt parse_settlement_mode settlement_mode;
    after_wallet (Ok (RqUpdateTool id
      {| Tool.up_tool_id := id; Tool.up_description := description; Tool.up_endpoint := endpoint;
         Tool.up_price_per_call := price_per_call; Tool.up_settlement_mode := settlement;
         Tool.up_sla_ms := None; Tool.up_challenge_window_ms := None;
         Tool.up_max_result_metadata_bytes := None; Tool.up_arbitration_policy := None;
         Tool.up_capabilities := parse_capabilities <$> non_empty caps;
         Tool.up_match_enabled := None; Tool.up_neural_embedding := None;
         Tool.up_version := None; Tool.up_active := active |} fee)).
Definition prepare_deregister_tool (tool_id : rstr) (fee : Z)
    : result error (result error request) :=
  after_wallet (id ← parse_hash tool_id; Ok (RqDeregisterTool id fee)).
Definition prepare_create_agreement (parties : list rstr) (terms_hex : option rstr)
    (escrow_amount expires_at : Z) (arbitrator milestones_file : option rstr) (service_provider
    : rstr) (allocations_file settlement_approver : option rstr) (fee : Z)
    : result error (result error request) :=
  after_wallet (
    milestones ← map_opt json_file milestones_file;
    allocations ← map_opt json_file allocations_file;
    parties ← parse_addresses parties;
    terms ← parse_hex_bytes terms_hex;
    arbitrator ← map_opt parse_address arbitrator;
    provider ← parse_address service_provider;
    approver ← map_opt parse_address settlement_approver;
    Ok (RqCreateAgreement parties terms escrow_amount expires_at arbitrator (default [] milestones)
          provider (default [] allocations) approver fee)).
Definition prepare_accept_agreement (agreement_id : rstr) (fee : Z)
    : result error (result error request) :=
  after_wallet (id ← parse_hash agreement_id; Ok (RqAcceptAgreement id fee)).
Definition prepare_execute_agreement (agreement_id result_hash : rstr) (milestone_index : option
    Z) (fee : Z) : result error (result error request) :=
  after_wallet (
    id ← parse_hash agreement_id; h ← parse_hash result_hash;
    match milestone_index with
    | Some index => Ok (RqExecuteMilestone id h index fee)
    | None => Ok (RqExecuteAgreement id h fee)
    end).
Definition prepare_dispute_agreement (agreement_id reason : rstr) (milestone_index : option Z)
    (fee : Z) : result error (result error request) :=
  after_wallet (
    id ← parse_hash agreement_id;
    Ok (RqDisputeAgreementWithMilestone id reason milestone_index fee)).
Definition prepare_resolve_agreement (agreement_id payouts_file : rstr) (effects_file : option
    rstr) (reason : rstr) (milestone_index : option Z) (fee : Z)
    : result error (result error request) :=
  payouts ← json_file payouts_file;
    effects ← map_opt json_file effects_file;
    after_wallet (id ← parse_hash agreement_id;
      Ok (RqResolveAgreement id payouts (default [] effects) reason milestone_index fee)).
Definition prepare_cancel_agreement (agreement_id : rstr) (fee : Z)
    : result error (result error request) :=
  after_wallet (id ← parse_hash agreement_id; Ok (RqCancelAgreement id fee)).
Definition prepare_register_arbitrator (name description : rstr) (stake fee_bps : Z)
    (specializations : list rstr) (fee : Z) : result error (result error request) :=
  after_wallet (Ok (RqRegisterArbitrator name description stake fee_bps specializations fee)).
Definition prepare_deregister_arbitrator (fee : Z) : result error (result error request) :=
  after_wallet (Ok (RqDeregisterArbitrator fee)).
Definition prepare_deploy_contract (bytecode_hex bytecode_file : option rstr) (initial_balance
    fee : Z) : result error (result error request) :=
  text ← read_hex_or_file o bytecode_hex bytecode_file fs;
    bytecode ← context "decode bytecode hex" (of_text (hex_decode text));
    after_wallet (Ok (RqDeployContract bytecode initial_balance fee)).
Definition prepare_call_contract (contract_address function : rstr) (args_hex : option rstr)
    (call_value gas_limit fee : Z) : result error (result error request) :=
  after_wallet (
    a ← parse_address contract_address; args ← parse_hex_bytes args_hex;
    Ok (RqCallContract a function args call_value gas_limit fee)).
Definition prepare_call_contract_route (deployer route_name function : rstr) (args_hex : option
    rstr) (call_value gas_limit fee : Z) : result error (result error request) :=
  after_wallet (
    a ← parse_address deployer; args ← parse_hex_bytes args_hex;
    Ok (RqCallContractRoute a route_name function args call_value gas_limit fee)).
Definition prepare_update_contract_route (route_name target : rstr) (fee : Z)
    : result error (result error request) :=
  after_wallet (
    a ← parse_address target; Ok (RqUpdateContractRoute route_name a fee)).
Definition prepare_verify_contract_source (contract_address proof_file : rstr) (fee : Z)
    : result error (result error request) :=
  proof ← json_file proof_file;
    after_wallet (a ← parse_address contract_address; Ok (RqVerifyContractSource a proof fee)).
Definition prepare_publish_contract_abi (contract_address abi_file : rstr) (fee : Z)
    : result error (result error request) :=
  abi ← json_file abi_file;
    after_wallet (a ← parse_address contract_address; Ok (RqPublishContractAbi a abi fee)).
Definition prepare_deactivate_contract (contract_address : rstr) (fee : Z)
    : result error (result error request) :=
  after_wallet (a ← parse_address contract_address; Ok (RqDeactivateContract a fee)).
Definition prepare_create_token (name symbol : rstr) (decimals initial_supply : Z) (max_supply :
    option Z) (mint_authority : option rstr) (burnable : bool) (fee : Z)
    : result error (result error request) :=
  after_wallet (
    authority ← map_opt parse_address mint_authority;
    Ok (RqCreateToken name symbol decimals initial_supply max_supply authority burnable [] fee)).
Definition prepare_transfer_token (token_id to : rstr) (amount fee : Z)
    : result error (result error request) :=
  after_wallet (
    id ← parse_hash token_id; a ← parse_address to; Ok (RqTransferToken id a amount fee)).
Definition prepare_approve_token (token_id spender : rstr) (amount fee : Z)
    : result error (result error request) :=
  after_wallet (
    id ← parse_hash token_id; a ← parse_address spender; Ok (RqApproveToken id a amount fee)).
Definition prepare_mint_token (token_id to : rstr) (amount fee : Z)
    : result error (result error request) :=
  after_wallet (
    id ← parse_hash token_id; a ← parse_address to; Ok (RqMintToken id a amount fee)).
Definition prepare_update_token_mint_authority (token_id : rstr) (mint_authority : option rstr)
    (fee : Z) : result error (result error request) :=
  after_wallet (
    id ← parse_hash token_id; authority ← map_opt parse_address mint_authority;
    Ok (RqUpdateTokenMintAuthority id authority fee)).
Definition prepare_burn_token (token_id : rstr) (amount fee : Z)
    : result error (result error request) :=
  after_wallet (id ← parse_hash token_id; Ok (RqBurnToken id amount fee)).
Definition prepare_destroy_token (token_id : rstr) (fee : Z)
    : result error (result error request) :=
  after_wallet (id ← parse_hash token_id; Ok (RqDestroyToken id fee)).
Definition prepare (c : BuildCommand) : result error (result error request) :=
  match c with
  | CmdTransfer to amount fee priority => prepare_transfer to amount fee priority
  | CmdEntityLink entity authorizer_secret_key fee =>
      prepare_entity_link entity authorizer_secret_key fee
  | CmdRegisterAgent name description caps model_hash min_fee schedule_file fee =>
      prepare_register_agent name description caps model_hash min_fee schedule_file fee
  | CmdUpdateAgent name description model_hash caps metadata_hex active min_fee schedule_file fee
      =>
      prepare_update_agent name description model_hash caps metadata_hex active min_fee
      schedule_file fee
  | CmdDeregisterAgent fee => prepare_deregister_agent fee
  | CmdCapabilityPropose slug display_name description category parent aliases keywords examples
      related fee =>
      prepare_capability_propose slug display_name description category parent aliases keywords
      examples related fee
  | CmdCapabilityApprove slug display_name description category parent aliases keywords examples
      related fee =>
      prepare_capability_approve slug display_name description category parent aliases keywords
      examples related fee
  | CmdCapabilityReject slug reason fee => prepare_capability_reject slug reason fee
  | CmdCapabilityDeprecate slug replacement reason fee =>
      prepare_capability_deprecate slug replacement reason fee
  | CmdBondRequesterAutoMatch amount fee => prepare_bond_requester_auto_match amount fee
  | CmdSubmitTask description caps max_fee priority deadline_ms parameters_hex prefs_file fee =>
      prepare_submit_task description caps max_fee priority deadline_ms parameters_hex prefs_file
      fee
  | CmdFulfillTask task_id result_hash result_data_hex tools_used input_refs fee =>
      prepare_fulfill_task task_id result_hash result_data_hex tools_used input_refs fee
  | CmdAcceptTask task_id fee => prepare_accept_task task_id fee
  | CmdDisputeTask task_id reason fee => prepare_dispute_task task_id reason fee
  | CmdResolveTask task_id agent_wins reason fee =>
      prepare_resolve_task task_id agent_wins reason fee
  | CmdFinalizeTask task_id fee => prepare_finalize_task task_id fee
  | CmdCancelTask task_id fee => prepare_cancel_task task_id fee
  | CmdDecomposeTask task_id subtasks_file fee => prepare_decompose_task task_id subtasks_file fee
  | CmdUpdateReputation task_id quality requester_accepted feedback fee =>
      prepare_update_reputation task_id quality requester_accepted feedback fee
  | CmdRegisterValidator stake vrf_public_key services_file fee =>
      prepare_register_validator stake vrf_public_key services_file fee
  | CmdUpdateValidator vrf_public_key services_file fee =>
      prepare_update_validator vrf_public_key services_file fee
  | CmdReactivateValidator fee => prepare_reactivate_validator fee
  | CmdStake target amount fee => prepare_stake target amount fee
  | CmdUnstake target amount fee => prepare_unstake target amount fee
  | CmdExitValidator fee => prepare_exit_validator fee
  | CmdRegisterTool name description endpoint price caps settlement_mode sla_ms
      challenge_window_ms max_metadata arbitration_policy version fee =>
      prepare_register_tool name description endpoint price caps settlement_mode sla_ms
      challenge_window_ms max_metadata arbitration_policy version fee
  | CmdInvokeTool tool_id input_hex fee => prepare_invoke_tool tool_id input_hex fee
  | CmdInvokeMeteredTool tool_id input_hex max_units fee =>
      prepare_invoke_metered_tool tool_id input_hex max_units fee
  | CmdInvokeMilestoneTool tool_id input_hex milestones_file fee =>
      prepare_invoke_milestone_tool tool_id input_hex milestones_file fee
  | CmdSubmitToolResult job_id result_hash result_metadata_hex milestone_index fee =>
      prepare_submit_tool_result job_id result_hash result_metadata_hex milestone_index fee
  | CmdAcceptToolResult job_id milestone_index fee =>
      prepare_accept_tool_result job_id milestone_index fee
  | CmdDisputeToolResult job_id reason milestone_index fee =>
      prepare_dispute_tool_result job_id reason milestone_index fee
  | CmdResolveToolResult job_id provider_wins reason milestone_index fee =>
      prepare_resolve_tool_result job_id provider_wins reason milestone_index fee
  | CmdReportToolUsage session_id units_used result_hash result_metadata_hex fee =>
      prepare_report_tool_usage session_id units_used result_hash result_metadata_hex fee
  | CmdAcceptToolUsage session_id fee => prepare_accept_tool_usage session_id fee
  | CmdDisputeToolUsage session_id reason fee => prepare_dispute_tool_usage session_id reason fee
  | CmdResolveToolUsage session_id provider_wins reason fee =>
      prepare_resolve_tool_usage session_id provider_wins reason fee
  | CmdCreateToolSubscriptionPlan tool_id name price_per_period period_ms included_calls
      included_credits overage_policy fee =>
      prepare_create_tool_subscription_plan tool_id name price_per_period period_ms included_calls
      included_credits overage_policy fee
  | CmdUpdateToolSubscriptionPlan plan_id name price_per_period period_ms included_calls
      included_credits overage_policy active fee =>
      prepare_update_tool_subscription_plan plan_id name price_per_period period_ms included_calls
      included_credits overage_policy active fee
  | CmdStartToolSubscription plan_id reserve_amount auto_renew fee =>
      prepare_start_tool_subscription plan_id reserve_amount auto_renew fee
  | CmdTopUpToolSubscription subscription_id amount fee =>
      prepare_top_up_tool_subscription subscription_id amount fee
  | CmdCancelToolSubscription subscription_id fee =>
      prepare_cancel_tool_subscription subscription_id fee
  | CmdResumeToolSubscription subscription_id reserve_amount fee =>
      prepare_resume_tool_subscription subscription_id reserve_amount fee
  | CmdRenewToolSubscription subscription_id fee =>
      prepare_renew_tool_subscription subscription_id fee
  | CmdUpdateTool tool_id description endpoint price_per_call settlement_mode active caps fee =>
      prepare_update_tool tool_id description endpoint price_per_call settlement_mode active caps
      fee
  | CmdDeregisterTool tool_id fee => prepare_deregister_tool tool_id fee
  | CmdCreateAgreement parties terms_hex escrow_amount expires_at arbitrator milestones_file
      service_provider allocations_file settlement_approver fee =>
      prepare_create_agreement parties terms_hex escrow_amount expires_at arbitrator
      milestones_file service_provider allocations_file settlement_approver fee
  | CmdAcceptAgreement agreement_id fee => prepare_accept_agreement agreement_id fee
  | CmdExecuteAgreement agreement_id result_hash milestone_index fee =>
      prepare_execute_agreement agreement_id result_hash milestone_index fee
  | CmdDisputeAgreement agreement_id reason milestone_index fee =>
      prepare_dispute_agreement agreement_id reason milestone_index fee
  | CmdResolveAgreement agreement_id payouts_file effects_file reason milestone_index fee =>
      prepare_resolve_agreement agreement_id payouts_file effects_file reason milestone_index fee
  | CmdCancelAgreement agreement_id fee => prepare_cancel_agreement agreement_id fee
  | CmdRegisterArbitrator name description stake fee_bps specializations fee =>
      prepare_register_arbitrator name description stake fee_bps specializations fee
  | CmdDeregisterArbitrator fee => prepare_deregister_arbitrator fee
  | CmdDeployContract bytecode_hex bytecode_file initial_balance fee =>
      prepare_deploy_contract bytecode_hex bytecode_file initial_balance fee
  | CmdCallContract contract_address function args_hex call_value gas_limit fee =>
      prepare_call_contract contract_address function args_hex call_value gas_limit fee
  | CmdCallContractRoute deployer route_name function args_hex call_value gas_limit fee =>
      prepare_call_contract_route deployer route_name function args_hex call_value gas_limit fee
  | CmdUpdateContractRoute route_name target fee =>
      prepare_update_contract_route route_name target fee
  | CmdVerifyContractSource contract_address proof_file fee =>
      prepare_verify_contract_source contract_address proof_file fee
  | CmdPublishContractAbi contract_address abi_file fee =>
      prepare_publish_contract_abi contract_address abi_file fee
  | CmdDeactivateContract contract_address fee => prepare_deactivate_contract contract_address fee
  | CmdCreateToken name symbol decimals initial_supply max_supply mint_authority burnable fee =>
      prepare_create_token name symbol decimals initial_supply max_supply mint_authority burnable
      fee
  | CmdTransferToken token_id to amount fee => prepare_transfer_token token_id to amount fee
  | CmdApproveToken token_id spender amount fee => prepare_approve_token token_id spender amount fee
  | CmdMintToken token_id to amount fee => prepare_mint_token token_id to amount fee
  | CmdUpdateTokenMintAuthority token_id mint_authority fee =>
      prepare_update_token_mint_authority token_id mint_authority fee
  | CmdBurnToken token_id amount fee => prepare_burn_token token_id amount fee
  | CmdDestroyToken token_id fee => prepare_destroy_token token_id fee
  end.
End Requests.
Create HintDb commands.
#[export] Hint Unfold prepare_transfer prepare_entity_link prepare_register_agent
  prepare_update_agent prepare_deregister_agent prepare_capability_propose
  prepare_capability_approve prepare_capability_reject prepare_capability_deprecate
  prepare_bond_requester_auto_match prepare_submit_task prepare_fulfill_task prepare_accept_task
  prepare_dispute_task prepare_resolve_task prepare_finalize_task prepare_cancel_task
  prepare_decompose_task prepare_update_reputation prepare_register_validator
  prepare_update_validator prepare_reactivate_validator prepare_stake prepare_unstake
  prepare_exit_validator prepare_register_tool prepare_invoke_tool prepare_invoke_metered_tool
  prepare_invoke_milestone_tool prepare_submit_tool_result prepare_accept_tool_result
  prepare_dispute_tool_result prepare_resolve_tool_result prepare_report_tool_usage
  prepare_accept_tool_usage prepare_dispute_tool_usage prepare_resolve_tool_usage
  prepare_create_tool_subscription_plan prepare_update_tool_subscription_plan
  prepare_start_tool_subscription prepare_top_up_tool_subscription
  prepare_cancel_tool_subscription prepare_resume_tool_subscription
  prepare_renew_tool_subscription prepare_update_tool prepare_deregister_tool
  prepare_create_agreement prepare_accept_agreement prepare_execute_agreement
  prepare_dispute_agreement prepare_resolve_agreement prepare_cancel_agreement
  prepare_register_arbitrator prepare_deregister_arbitrator prepare_deploy_contract
  prepare_call_contract prepare_call_contract_route prepare_update_contract_route
  prepare_verify_contract_source prepare_publish_contract_abi prepare_deactivate_contract
  prepare_create_token prepare_transfer_token prepare_approve_token prepare_mint_token
  prepare_update_token_mint_authority prepare_burn_token prepare_destroy_token : commands.
Definition command_label (c : BuildCommand) : string :=
  match c with
  | CmdTransfer _ _ _ _ => "tx-transfer"
  | CmdEntityLink _ _ _ => "tx-entity-link"
  | CmdRegisterAgent _ _ _ _ _ _ _ => "tx-register-agent"
  | CmdUpdateAgent _ _ _ _ _ _ _ _ _ => "tx-update-agent"
  | CmdDeregisterAgent _ => "tx-deregister-agent"
  | CmdCapabilityPropose _ _ _ _ _ _ _ _ _ _ => "tx-capability-propose"
  | CmdCapabilityApprove _ _ _ _ _ _ _ _ _ _ => "tx-capability-approve"
  | CmdCapabilityReject _ _ _ => "tx-capability-reject"
  | CmdCapabilityDeprecate _ _ _ _ => "tx-capability-deprecate"
  | CmdBondRequesterAutoMatch _ _ => "tx-bond-requester-auto-match"
  | CmdSubmitTask _ _ _ _ _ _ _ _ => "tx-submit-task"
  | CmdFulfillTask _ _ _ _ _ _ => "tx-fulfill-task"
  | CmdAcceptTask _ _ => "tx-accept-task"
  | CmdDisputeTask _ _ _ => "tx-dispute-task"
  | CmdResolveTask _ _ _ _ => "tx-resolve-task"
  | CmdFinalizeTask _ _ => "tx-finalize-task"
  | CmdCancelTask _ _ => "tx-cancel-task"
  | CmdDecomposeTask _ _ _ => "tx-decompose-task"
  | CmdUpdateReputation _ _ _ _ _ => "tx-update-reputation"
  | CmdRegisterValidator _ _ _ _ => "tx-register-validator"
  | CmdUpdateValidator _ _ _ => "tx-update-validator"
  | CmdReactivateValidator _ => "tx-reactivate-validator"
  | CmdStake _ _ _ => "tx-stake"
  | CmdUnstake _ _ _ => "tx-unstake"
  | CmdExitValidator _ => "tx-exit-validator"
  | CmdRegisterTool _ _ _ _ _ _ _ _ _ _ _ _ => "tx-register-tool"
  | CmdInvokeTool _ _ _ => "tx-invoke-tool"
  | CmdInvokeMeteredTool _ _ _ _ => "tx-invoke-metered-tool"
  | CmdInvokeMilestoneTool _ _ _ _ => "tx-invoke-milestone-tool"
  | CmdSubmitToolResult _ _ _ _ _ => "tx-submit-tool-result"
  | CmdAcceptToolResult _ _ _ => "tx-accept-tool-result"
  | CmdDisputeToolResult _ _ _ _ => "tx-dispute-tool-result"
  | CmdResolveToolResult _ _ _ _ _ => "tx-resolve-tool-result"
  | CmdReportToolUsage _ _ _ _ _ => "tx-report-tool-usage"
  | CmdAcceptToolUsage _ _ => "tx-accept-tool-usage"
  | CmdDisputeToolUsage _ _ _ => "tx-dispute-tool-usage"
  | CmdResolveToolUsage _ _ _ _ => "tx-resolve-tool-usage"
  | CmdCreateToolSubscriptionPlan _ _ _ _ _ _ _ _ => "tx-create-tool-subscription-plan"
  | CmdUpdateToolSubscriptionPlan _ _ _ _ _ _ _ _ _ => "tx-update-tool-subscription-plan"
  | CmdStartToolSubscription _ _ _ _ => "tx-start-tool-subscription"
  | CmdTopUpToolSubscription _ _ _ => "tx-top-up-tool-subscription"
  | CmdCancelToolSubscription _ _ => "tx-cancel-tool-subscription"
  | CmdResumeToolSubscription _ _ _ => "tx-resume-tool-subscription"
  | CmdRenewToolSubscription _ _ => "tx-renew-tool-subscription"
  | CmdUpdateTool _ _ _ _ _ _ _ _ => "tx-update-tool"
  | CmdDeregisterTool _ _ => "tx-deregister-tool"
  | CmdCreateAgreement _ _ _ _ _ _ _ _ _ _ => "tx-create-agreement"
  | CmdAcceptAgreement _ _ => "tx-accept-agreement"
  | CmdExecuteAgreement _ _ _ _ => "tx-execute-agreement"
  | CmdDisputeAgreement _ _ _ _ => "tx-dispute-agreement"
  | CmdResolveAgreement _ _ _ _ _ _ => "tx-resolve-agreement"
  | CmdCancelAgreement _ _ => "tx-cancel-agreement"
  | CmdRegisterArbitrator _ _ _ _ _ _ => "tx-register-arbitrator"
  | CmdDeregisterArbitrator _ => "tx-deregister-arbitrator"
  | CmdDeployContract _ _ _ _ => "tx-deploy-contract"
  | CmdCallContract _ _ _ _ _ _ => "tx-call-contract"
  | CmdCallContractRoute _ _ _ _ _ _ _ => "tx-call-contract-route"
  | CmdUpdateContractRoute _ _ _ => "tx-update-contract-route"
  | CmdVerifyContractSource _ _ _ => "tx-verify-contract-source"
  | CmdPublishContractAbi _ _ _ => "tx-publish-contract-abi"
  | CmdDeactivateContract _ _ => "tx-deactivate-contract"
  | CmdCreateToken _ _ _ _ _ _ _ _ => "tx-create-token"
  | CmdTransferToken _ _ _ _ => "tx-transfer-token"
  | CmdApproveToken _ _ _ _ => "tx-approve-token"
  | CmdMintToken _ _ _ _ => "tx-mint-token"
  | CmdUpdateTokenMintAuthority _ _ _ => "tx-update-token-mint-authority"
  | CmdBurnToken _ _ _ => "tx-burn-token"
  | CmdDestroyToken _ _ => "tx-destroy-token"
  end.

(** ** Running *)
(** What a run did: the files it leaves, the requests it sent in order, and how it
    ended; [Waiting] is a poll that has not been answered. *)
Inductive outcome (A : Type) : Type :=
| Done (r : result error A)
| Panicked
| Waiting.
Arguments Done {A} r.
Arguments Panicked {A}.
Arguments Waiting {A}.
(** A request that leaves the machine: to the node, or of the embedding service at [url]. *)
Inductive outgoing : Type :=
| ToNode (r : Client.api_request)
| ToEmbedder (url text : rstr).
Coercion ToNode : Client.api_request >-> outgoing.
Definition T (A : Type) : Type := files -> files * list outgoing * outcome A.
#[global] Instance T_ret : MRet T := fun A a fs => (fs, [], Done (Ok a)).
#[global] Instance T_bind : MBind T := fun A B k m fs =>
  match m fs with
  | (fs', sent, Done (Ok a)) => let '(fs'', sent', r) := k a fs' in (fs'', sent ++ sent', r)
  | (fs', sent, Done (Err e)) => (fs', sent, Done (Err e))
  | (fs', sent, Panicked) => (fs', sent, Panicked)
  | (fs', sent, Waiting) => (fs', sent, Waiting)
  end.
Definition of_result {A} (r : result error A) : T A := fun fs => (fs, [], Done r).
Definition of_files {A} (f : files -> result error A) : T A := fun fs => (fs, [], Done (f fs)).
Definition of_M {A} (m : M A) : T A := fun fs => let '(fs', r) := m fs in (fs', [], Done r).
(** The node: what it answers each request, and each poll of a transaction with the time
    of the poll. *)
Record node : Type := {
  answer : Client.api_request -> result error Json.Value;
  polls : rstr -> list (result error Json.Value * Z);
}.
Definition ask (n : node) (r : Client.api_request) : T Json.Value :=
  fun fs => (fs, [ToNode r], Done (answer n r)).
(** The polls of one transaction are recorded once. *)
Definition wait_for (n : node) (hash : rstr) (timeout : Z) : T Json.Value := fun fs =>
  (fs, [ToNode (Client.transaction_status hash)],
   match Client.wait_for_transaction hash timeout (polls n hash) with
   | Some r => Done r
   | None => Waiting
   end).

Section Run.
Import Wallet.
Context `{UrlOps : Client.UrlOps, Digests, Hex, Ed25519, Keystore.Argon2, Aead, Mnemonic.Bip39,
  KeystoreJson, !Bincode Tx.Transaction, !Bincode Tx.SignedTransaction, !Wallet.Builder}.
Context (o : os) (to_lowercase : rstr -> rstr).
Context `{!FileJson (list (rstr * Z))} `{!FileJson Task.MatchPreferences}
  `{!FileJson (list Task.SubTaskDef)} `{!FileJson (list Validator.ValidatorExecutorService)}
  `{!FileJson (list ToolJob.ToolMilestoneDef)} `{!FileJson (list Agreement.MilestoneDef)}
  `{!FileJson (list Agreement.AgreementPayoutShare)}
  `{!FileJson (list Agreement.AgreementDisputeReputationEffect)}
  `{!FileJson Contract.ContractSourceProof} `{!FileJson Contract.ContractAbi}.
Context (n : node) (client : Client.ZinchaClient) (now : result error Z).

Definition validate_reference_args (build : TxBuildArgs) : result error unit :=
  _ ← bail_if (negb (Bool.eqb (bool_decide (is_Some (reference_block_height build)))
                       (bool_decide (is_Some (reference_block_hash build)))))
    "reference_block_height and reference_block_hash must be provided together";
  bail_if (bool_decide (tb_ttl_blocks build = Some 0)) "--ttl-blocks must be positive".
Definition apply_validity_window (wallet : AgentWallet) (build : TxBuildArgs)
    (chain_info : option Json.Value) : result error AgentWallet :=
  _ ← validate_reference_args build;
  if bool_decide (chain_info = None) && bool_decide (reference_block_height build = None)
     && bool_decide (tb_ttl_blocks build = None)
  then Ok wallet
  else
    let advertised_ttl := extract_u64 chain_info ["transaction_ttl_blocks"] in
    _ ← bail_if (bool_decide (is_Some chain_info) && bool_decide (advertised_ttl = None))
      "chain metadata is missing transaction_ttl_blocks";
    ttl ← opt_context "--ttl-blocks is required with an explicit offline reference block"
      (Client.option_or (tb_ttl_blocks build) advertised_ttl);
    _ ← bail_if ((ttl =? 0) || match advertised_ttl with Some limit => limit <? ttl | None => false end)
      "transaction TTL must be positive and no greater than the advertised limit";
    p ← match reference_block_height build, reference_block_hash build with
        | Some height, Some hash => h ← parse_hash hash; Ok (height, h)
        | _, _ =>
            height ← opt_context "chain metadata is missing transaction_reference_block_height"
              (extract_u64 chain_info ["transaction_reference_block_height"]);
            hash ← opt_context "chain metadata is missing transaction_reference_block_hash"
              (extract_string chain_info ["transaction_reference_block_hash"]);
            h ← parse_hash hash; Ok (height, h)
        end;
    _ ← opt_context "transaction validity height overflow"
      (if p.1 + ttl <=? U64_MAX then Some (p.1 + ttl) else None);
    Ok (set_transaction_validity_window wallet p.1 p.2 ttl).

Definition resolve_wallet_embed_url_from (build : TxBuildArgs) (env_value : option rstr) : option rstr :=
  Client.option_or (tb_embed_url build) env_value.
Definition resolve_wallet_embed_url (build : TxBuildArgs) : option rstr :=
  resolve_wallet_embed_url_from build (ok (env_var o (lit "ZINCHA_EMBED_URL"))).
Definition m_context {A} (m : string) (x : T A) : T A := fun fs =>
  match x fs with
  | (fs', sent, Done r) => (fs', sent, Done (context m r))
  | other => other
  end.
Definition resolve_wallet (build : TxBuildArgs) : T AgentWallet :=
  _ ← of_result (validate_reference_args build);
  keypair ← of_files (load_keypair o (key_source build));
  _ ← of_result (bail_if (tb_offline build
        && (bool_decide (tb_chain_id build = None) || bool_decide (tb_nonce build = None)))
        "--offline requires explicit --chain-id and --nonce");
  chain_info ← (if tb_offline build || (negb (tb_submit build) && bool_decide (is_Some (tb_nonce build))
                                      && bool_decide (is_Some (tb_chain_id build)))
                then mret None
                else info ← m_context "load transaction chain metadata" (ask n Client.chain_info);
                     mret (Some info));
  chain_id ← of_result (opt_context
    "chain metadata is missing chain_id; specify --chain-id for offline construction"
    (Client.option_or (tb_chain_id build) (extract_string chain_info ["chain_id"; "chainId"])));
  nonce ← match tb_nonce build with
          | Some nonce => mret nonce
          | None =>
              if tb_offline build then of_result (bail (msg "--offline requires explicit --nonce"))
              else v ← ask n (Client.nonce (address_to_hex (keypair_address keypair)));
                   of_result (extract_nonce v)
          end;
  let wallet := new_wallet keypair chain_id (Conversation.url_text (Client.base_url client)) in
  let wallet := match resolve_wallet_embed_url build with
                | Some url => set_embed_url wallet url | None => wallet end in
  let wallet := set_nonce wallet nonce in
  let wallet := match tb_timestamp_ms build with
                | Some t => set_timestamp_ms wallet t | None => wallet end in
  of_result (apply_validity_window wallet build chain_info).

(** A builder's calls and its answer, as the command sees it. *)
Definition of_builder (wallet : AgentWallet) (wallet_now : Z) (rq : request)
    : T Tx.SignedTransaction := fun fs =>
  (fs, (fun call => ToEmbedder call.1 call.2) <$> builder_calls wallet wallet_now rq,
   match (run_builder wallet wallet_now rq).2 with
   | Some r => Done (map_err (fun e => [CZincha e]) r)
   | None => Panicked
   end).
(** [wallet_now] is the clock when the transaction is built. *)
Definition build_signed_transaction (wallet_now : Z) (build : TxBuildArgs) (c : BuildCommand)
    : T (string * Tx.SignedTransaction) :=
  late ← of_files (fun fs => prepare o to_lowercase now fs c);
  wallet ← resolve_wallet build;
  rq ← of_result late;
  signed ← of_builder wallet wallet_now rq;
  mret (command_label c, signed).

(** Every variant's name is its label in camel case. *)
Definition capitalise (w : rstr) : rstr :=
  match w with c :: r => (if is_ascii_lowercase c then c - 32 else c) :: r | [] => [] end.
Definition tx_type_debug (t : Tx.TxType) : rstr := mjoin (capitalise <$> split_on 95 (Tx.as_str t)).
Definition finish_transaction (label : string) (signed : Tx.SignedTransaction) (build : TxBuildArgs)
    (json : bool) : T Json.Value :=
  bytes ← of_result (of_text (bincode_serialize signed));
  let signed_tx_hex := hex_encode bytes in
  _ ← match signed_tx_out build with
      | Some path => of_M (write_private_file o path signed_tx_hex (tb_force build))
      | None => mret ()
      end;
  _ ← of_result (bail_if (tb_wait build && negb (tb_submit build))
        "--wait requires --submit for newly built transactions");
  let tx := Tx.transaction signed in
  submission ← (if tb_submit build
                then s ← ask n (Client.submit_signed_transaction_hex signed_tx_hex); mret (Some s)
                else mret None);
  waited ← (if tb_submit build && tb_wait build
            then w ← wait_for n (hash_to_hex (Tx.tx_hash signed)) (wait_timeout_secs build * 1000);
                 mret (Some w)
            else mret None);
  mret (emit label (Json.Object
    [(lit "hash", Json.Str (hash_to_hex (Tx.tx_hash signed)));
     (lit "sender", Json.Str (address_to_hex (Tx.sender tx)));
     (lit "tx_type", Json.Str (tx_type_debug (Tx.tx_type tx)));
     (lit "nonce", Client.j_u64 (Tx.nonce tx)); (lit "chain_id", Json.Str (Tx.chain_id tx));
     (lit "signed_tx_hex", Json.Str signed_tx_hex); (lit "signed_tx_file", j_opt (signed_tx_out build));
     (lit "submitted", Json.Boolean (tb_submit build));
     (lit "submission", default Json.Null submission); (lit "wait", default Json.Null waited)]) json).

Definition collect_signed_hexes (values paths : list rstr) (fs : files) : result error (list rstr) :=
  texts ← map_all (fun p => t ← ctx (Msg "read {}" [AStr p]) (fs_read_to_string o p fs); Ok (trim t)) paths;
  let output := values ++ texts in
  _ ← bail_if (bool_decide (output = [])) "at least one --signed-tx-hex or --signed-tx-file is required";
  Ok output.
Definition require_bearer (bearer : option rstr) : result error rstr :=
  ok_or bearer [CText (msg "provider orderflow commands require --bearer-token or --bearer-token-env")].
Definition run_tx (wallet_now : Z) (c : TxCommands) (bearer : option rstr) (json : bool) : T Json.Value :=
  match c with
  | SubmitSigned value file =>
      hex ← of_files (read_hex_or_file o value file);
      v ← ask n (Client.submit_signed_transaction_hex hex); mret (emit "tx-submit-signed" v json)
  | SubmitBatch values paths =>
      hexes ← of_files (collect_signed_hexes values paths);
      v ← ask n (Client.submit_batch hexes); mret (emit "tx-submit-batch" v json)
  | SubmitProtected value file max_priority_fee_per_gas =>
      token ← of_result (require_bearer bearer);
      hex ← of_files (read_hex_or_file o value file);
      v ← ask n (Client.submit_protected hex
            {| Client.ps_bearer_token := Some token;
               Client.ps_max_priority_fee_per_gas := max_priority_fee_per_gas |});
      mret (emit "tx-submit-protected" v json)
  | SubmitBundle values paths atomic expiration_height max_total_fee max_priority_fee_per_gas =>
      token ← of_result (require_bearer bearer);
      hexes ← of_files (collect_signed_hexes values paths);
      v ← ask n (Client.submit_orderflow_bundle hexes
            {| Client.ob_bearer_token := Some token; Client.ob_atomic := atomic;
               Client.ob_expiration_height := expiration_height;
               Client.ob_max_total_fee := max_total_fee;
               Client.ob_max_priority_fee_per_gas := max_priority_fee_per_gas |});
      mret (emit "tx-submit-bundle" v json)
  | Wait tx_hash timeout_secs _ =>
      v ← wait_for n tx_hash (timeout_secs * 1000); mret (emit "tx-wait" v json)
  | Build build c =>
      p ← build_signed_transaction wallet_now build c;
      finish_transaction p.1 p.2 build json
  end.
End Run.

(** ** The transaction a command asks for *)
(** The fee is the command's own, the type the one it is named after. *)
Definition command_fee (c : BuildCommand) : Z :=
  match c with
  | CmdTransfer _ _ fee _ => fee
  | CmdEntityLink _ _ fee => fee
  | CmdRegisterAgent _ _ _ _ _ _ fee => fee
  | CmdUpdateAgent _ _ _ _ _ _ _ _ fee => fee
  | CmdDeregisterAgent fee => fee
  | CmdCapabilityPropose _ _ _ _ _ _ _ _ _ fee => fee
  | CmdCapabilityApprove _ _ _ _ _ _ _ _ _ fee => fee
  | CmdCapabilityReject _ _ fee => fee
  | CmdCapabilityDeprecate _ _ _ fee => fee
  | CmdBondRequesterAutoMatch _ fee => fee
  | CmdSubmitTask _ _ _ _ _ _ _ fee => fee
  | CmdFulfillTask _ _ _ _ _ fee => fee
  | CmdAcceptTask _ fee => fee
  | CmdDisputeTask _ _ fee => fee
  | CmdResolveTask _ _ _ fee => fee
  | CmdFinalizeTask _ fee => fee
  | CmdCancelTask _ fee => fee
  | CmdDecomposeTask _ _ fee => fee
  | CmdUpdateReputation _ _ _ _ fee => fee
  | CmdRegisterValidator _ _ _ fee => fee
  | CmdUpdateValidator _ _ fee => fee
  | CmdReactivateValidator fee => fee
  | CmdStake _ _ fee => fee
  | CmdUnstake _ _ fee => fee
  | CmdExitValidator fee => fee
  | CmdRegisterTool _ _ _ _ _ _ _ _ _ _ _ fee => fee
  | CmdInvokeTool _ _ fee => fee
  | CmdInvokeMeteredTool _ _ _ fee => fee
  | CmdInvokeMilestoneTool _ _ _ fee => fee
  | CmdSubmitToolResult _ _ _ _ fee => fee
  | CmdAcceptToolResult _ _ fee => fee
  | CmdDisputeToolResult _ _ _ fee => fee
  | CmdResolveToolResult _ _ _ _ fee => fee
  | CmdReportToolUsage _ _ _ _ fee => fee
  | CmdAcceptToolUsage _ fee => fee
  | CmdDisputeToolUsage _ _ fee => fee
  | CmdResolveToolUsage _ _ _ fee => fee
  | CmdCreateToolSubscriptionPlan _ _ _ _ _ _ _ fee => fee
  | CmdUpdateToolSubscriptionPlan _ _ _ _ _ _ _ _ fee => fee
  | CmdStartToolSubscription _ _ _ fee => fee
  | CmdTopUpToolSubscription _ _ fee => fee
  | CmdCancelToolSubscription _ fee => fee
  | CmdResumeToolSubscription _ _ fee => fee
  | CmdRenewToolSubscription _ fee => fee
  | CmdUpdateTool _ _ _ _ _ _ _ fee => fee
  | CmdDeregisterTool _ fee => fee
  | CmdCreateAgreement _ _ _ _ _ _ _ _ _ fee => fee
  | CmdAcceptAgreement _ fee => fee
  | CmdExecuteAgreement _ _ _ fee => fee
  | CmdDisputeAgreement _ _ _ fee => fee
  | CmdResolveAgreement _ _ _ _ _ fee => fee
  | CmdCancelAgreement _ fee => fee
  | CmdRegisterArbitrator _ _ _ _ _ fee => fee
  | CmdDeregisterArbitrator fee => fee
  | CmdDeployContract _ _ _ fee => fee
  | CmdCallContract _ _ _ _ _ fee => fee
  | CmdCallContractRoute _ _ _ _ _ _ fee => fee
  | CmdUpdateContractRoute _ _ fee => fee
  | CmdVerifyContractSource _ _ fee => fee
  | CmdPublishContractAbi _ _ fee => fee
  | CmdDeactivateContract _ fee => fee
  | CmdCreateToken _ _ _ _ _ _ _ fee => fee
  | CmdTransferToken _ _ _ fee => fee
  | CmdApproveToken _ _ _ fee => fee
  | CmdMintToken _ _ _ fee => fee
  | CmdUpdateTokenMintAuthority _ _ fee => fee
  | CmdBurnToken _ _ fee => fee
  | CmdDestroyToken _ fee => fee
  end.
Definition command_type (c : BuildCommand) : Tx.TxType :=
  match c with
  | CmdTransfer _ _ _ _ => Tx.Transfer
  | CmdEntityLink _ _ _ => Tx.EntityLink
  | CmdRegisterAgent _ _ _ _ _ _ _ => Tx.AgentRegister
  | CmdUpdateAgent _ _ _ _ _ _ _ _ _ => Tx.AgentUpdate
  | CmdDeregisterAgent _ => Tx.AgentDeregister
  | CmdCapabilityPropose _ _ _ _ _ _ _ _ _ _ => Tx.CapabilityPropose
  | CmdCapabilityApprove _ _ _ _ _ _ _ _ _ _ => Tx.CapabilityApprove
  | CmdCapabilityReject _ _ _ => Tx.CapabilityReject
  | CmdCapabilityDeprecate _ _ _ _ => Tx.CapabilityDeprecate
  | CmdBondRequesterAutoMatch _ _ => Tx.Stake
  | CmdSubmitTask _ _ _ _ _ _ _ _ => Tx.TaskSubmit
  | CmdFulfillTask _ _ _ _ _ _ => Tx.TaskFulfill
  | CmdAcceptTask _ _ => Tx.TaskAccept
  | CmdDisputeTask _ _ _ => Tx.TaskDispute
  | CmdResolveTask _ _ _ _ => Tx.TaskResolve
  | CmdFinalizeTask _ _ => Tx.TaskFinalize
  | CmdCancelTask _ _ => Tx.TaskCancel
  | CmdDecomposeTask _ _ _ => Tx.TaskDecompose
  | CmdUpdateReputation _ _ _ _ _ => Tx.ReputationUpdate
  | CmdRegisterValidator _ _ _ _ => Tx.ValidatorRegister
  | CmdUpdateValidator _ _ _ => Tx.ValidatorUpdate
  | CmdReactivateValidator _ => Tx.ValidatorUpdate
  | CmdStake _ _ _ => Tx.Stake
  | CmdUnstake _ _ _ => Tx.Unstake
  | CmdExitValidator _ => Tx.ValidatorExit
  | CmdRegisterTool _ _ _ _ _ _ _ _ _ _ _ _ => Tx.ToolRegister
  | CmdInvokeTool _ _ _ => Tx.ToolInvoke
  | CmdInvokeMeteredTool _ _ _ _ => Tx.ToolInvoke
  | CmdInvokeMilestoneTool _ _ _ _ => Tx.ToolInvoke
  | CmdSubmitToolResult _ _ _ _ _ => Tx.ToolResultSubmit
  | CmdAcceptToolResult _ _ _ => Tx.ToolResultAccept
  | CmdDisputeToolResult _ _ _ _ => Tx.ToolResultDispute
  | CmdResolveToolResult _ _ _ _ _ => Tx.ToolResultResolve
  | CmdReportToolUsage _ _ _ _ _ => Tx.ToolUsageReport
  | CmdAcceptToolUsage _ _ => Tx.ToolUsageAccept
  | CmdDisputeToolUsage _ _ _ => Tx.ToolUsageDispute
  | CmdResolveToolUsage _ _ _ _ => Tx.ToolUsageResolve
  | CmdCreateToolSubscriptionPlan _ _ _ _ _ _ _ _ => Tx.ToolSubscriptionPlanCreate
  | CmdUpdateToolSubscriptionPlan _ _ _ _ _ _ _ _ _ => Tx.ToolSubscriptionPlanUpdate
  | CmdStartToolSubscription _ _ _ _ => Tx.ToolSubscriptionStart
  | CmdTopUpToolSubscription _ _ _ => Tx.ToolSubscriptionTopUp
  | CmdCancelToolSubscription _ _ => Tx.ToolSubscriptionCancel
  | CmdResumeToolSubscription _ _ _ => Tx.ToolSubscriptionResume
  | CmdRenewToolSubscription _ _ => Tx.ToolSubscriptionRenew
  | CmdUpdateTool _ _ _ _ _ _ _ _ => Tx.ToolUpdate
  | CmdDeregisterTool _ _ => Tx.ToolDeregister
  | CmdCreateAgreement _ _ _ _ _ _ _ _ _ _ => Tx.AgreementCreate
  | CmdAcceptAgreement _ _ => Tx.AgreementAccept
  | CmdExecuteAgreement _ _ _ _ => Tx.AgreementExecute
  | CmdDisputeAgreement _ _ _ _ => Tx.AgreementDispute
  | CmdResolveAgreement _ _ _ _ _ _ => Tx.AgreementResolve
  | CmdCancelAgreement _ _ => Tx.AgreementCancel
  | CmdRegisterArbitrator _ _ _ _ _ _ => Tx.ArbitratorRegister
  | CmdDeregisterArbitrator _ => Tx.ArbitratorDeregister
  | CmdDeployContract _ _ _ _ => Tx.ContractDeploy
  | CmdCallContract _ _ _ _ _ _ => Tx.ContractCall
  | CmdCallContractRoute _ _ _ _ _ _ _ => Tx.ContractRouteCall
  | CmdUpdateContractRoute _ _ _ => Tx.ContractRouteUpdate
  | CmdVerifyContractSource _ _ _ => Tx.ContractVerify
  | CmdPublishContractAbi _ _ _ => Tx.ContractPublishAbi
  | CmdDeactivateContract _ _ => Tx.ContractDeactivate
  | CmdCreateToken _ _ _ _ _ _ _ _ => Tx.TokenCreate
  | CmdTransferToken _ _ _ _ => Tx.TokenTransfer
  | CmdApproveToken _ _ _ _ => Tx.TokenApprove
  | CmdMintToken _ _ _ _ => Tx.TokenMint
  | CmdUpdateTokenMintAuthority _ _ _ => Tx.TokenUpdateAuthority
  | CmdBurnToken _ _ _ => Tx.TokenBurn
  | CmdDestroyToken _ _ => Tx.TokenDestroy
  end.

Section CommandProperties.
Import Wallet.
Context `{Digests, Hex, Ed25519} (o : os) (to_lowercase : rstr -> rstr).
Context `{!FileJson (list (rstr * Z))} `{!FileJson Task.MatchPreferences}
  `{!FileJson (list Task.SubTaskDef)} `{!FileJson (list Validator.ValidatorExecutorService)}
  `{!FileJson (list ToolJob.ToolMilestoneDef)} `{!FileJson (list Agreement.MilestoneDef)}
  `{!FileJson (list Agreement.AgreementPayoutShare)}
  `{!FileJson (list Agreement.AgreementDisputeReputationEffect)}
  `{!FileJson Contract.ContractSourceProof} `{!FileJson Contract.ContractAbi}.
Context (now : result error Z) (fs : files).

Definition yields {A} (P : A -> Prop) (r : result error A) : Prop :=
  match r with Ok a => P a | Err _ => True end.
Lemma yields_bind {A B} (P : B -> Prop) (r : result error A) (k : A -> result error B) :
  (forall a, yields P (k a)) -> yields P (mbind k r).
Proof. destruct r; cbn; auto. Qed.
(** Whatever a command's files and arguments give, the request has its type and fee. *)
Lemma command_request c :
  yields (yields (fun rq => request_type rq = command_type c /\ request_fee rq = command_fee c))
    (prepare o to_lowercase now fs c).
Proof.
  destruct c; cbn [prepare command_type command_fee]; autounfold with commands; unfold after_wallet;
    repeat first [apply yields_bind; intros ? | case_match | (cbn [yields]; split; reflexivity)
                 | progress cbn [yields]].
Qed.
End CommandProperties.

(** ** What a run sends *)
(** [sends P m]: every request of [m] is one of [P], however it ends. *)
Definition sends {A} (P : outgoing -> Prop) (m : T A) : Prop :=
  forall fs, Forall P (m fs).1.2.
Section Sends.
Context (P : outgoing -> Prop).
Lemma sends_bind {A B} (m : T A) (k : A -> T B) :
  sends P m -> (forall a, sends P (k a)) -> sends P (mbind k m).
Proof.
  intros Hm Hk fs. unfold mbind, T_bind. specialize (Hm fs).
  destruct (m fs) as [[fs' sent] [[a|e]| |]]; cbn in *; [|done..].
  specialize (Hk a fs'). destruct (k a fs') as [[fs'' sent'] r]; cbn in *. by apply Forall_app.
Qed.
Lemma sends_ret {A} (a : A) : sends P (mret a).
Proof. intros fs. constructor. Qed.
Lemma sends_of_result {A} (r : result error A) : sends P (of_result r).
Proof. intros fs. constructor. Qed.
Lemma sends_of_files {A} (f : files -> result error A) : sends P (of_files f).
Proof. intros fs. constructor. Qed.
Lemma sends_of_M {A} (m : M A) : sends P (of_M m).
Proof. intros fs. unfold of_M. destruct (m fs). constructor. Qed.
Lemma sends_ask n (r : Client.api_request) : P r -> sends P (ask n r).
Proof. intros HP fs. by constructor. Qed.
Lemma sends_wait n hash t : P (Client.transaction_status hash) -> sends P (wait_for n hash t).
Proof. intros HP fs. by constructor. Qed.
Lemma sends_context {A} m (x : T A) : sends P x -> sends P (m_context m x).
Proof. intros Hx fs. specialize (Hx fs). unfold m_context. by destruct (x fs) as [[fs' sent] []]. Qed.
End Sends.
Create HintDb sends.
#[export] Hint Resolve sends_ret sends_of_result sends_of_files sends_of_M sends_ask sends_wait
  sends_context : sends.
(** Follow the binds of a run. *)
Ltac sends_step :=
  first [ apply sends_bind; [|intros ?] | progress (eauto with sends) | case_match ].

(** [touches w m]: no file but [w] differs after [m]. *)
Definition touches (w : option rstr) {A} (m : T A) : Prop :=
  forall fs q, Some q <> w -> (m fs).1.1 !! q = fs !! q.
Lemma touches_bind w {A B} (m : T A) (k : A -> T B) :
  touches w m -> (forall a, touches w (k a)) -> touches w (mbind k m).
Proof.
  intros Hm Hk fs q Hq. unfold mbind, T_bind. specialize (Hm fs q Hq).
  destruct (m fs) as [[fs' sent] [[a|e]| |]]; cbn in *; [|done..].
  specialize (Hk a fs' q Hq). destruct (k a fs') as [[fs'' sent'] r]; cbn in *. congruence.
Qed.
Lemma touches_of_M w {A} (m : M A) : confined w m -> touches w (of_M m).
Proof. intros Hm fs q Hq. specialize (Hm fs q Hq). unfold of_M. by destruct (m fs). Qed.
Lemma touches_context w {A} m (x : T A) : touches w x -> touches w (m_context m x).
Proof. intros Hx fs q Hq. specialize (Hx fs q Hq). unfold m_context. by destruct (x fs) as [[? ?] []]. Qed.
Lemma touches_idle w {A} (m : T A) : (forall fs, (m fs).1.1 = fs) -> touches w m.
Proof. intros Hm fs q _. by rewrite Hm. Qed.
(** Follow the binds of a run, its idle steps and its branches. *)
Ltac touch :=
  repeat first [ done | apply touches_idle; intros ?; reflexivity | apply touches_bind; [|intros ?]
               | apply touches_context | case_match ].

(** A successful run of a sequence is a run of each part. *)
Lemma T_bind_Done {A B} (m : T A) (k : A -> T B) fs fs' sent b :
  (m ≫= k) fs = (fs', sent, Done (Ok b)) ->
  exists a fs1 s1 s2, m fs = (fs1, s1, Done (Ok a)) /\ k a fs1 = (fs', s2, Done (Ok b)) /\
    sent = s1 ++ s2.
Proof.
  unfold mbind, T_bind. destruct (m fs) as [[fs1 s1] [[a|e]| |]]; [|done..].
  destruct (k a fs1) as [[fs2 s2] r] eqn:E. intros [= <- <- ->]. by exists a, fs1, s1, s2.
Qed.
Lemma of_result_Done {A} (r : result error A) fs fs' sent a :
  of_result r fs = (fs', sent, Done (Ok a)) -> r = Ok a /\ fs' = fs /\ sent = [].
Proof. unfold of_result. by intros [= <- <- ->]. Qed.
Lemma of_files_Done {A} (f : files -> result error A) fs fs' sent a :
  of_files f fs = (fs', sent, Done (Ok a)) -> f fs = Ok a /\ fs' = fs /\ sent = [].
Proof. unfold of_files. by intros [= <- <- ->]. Qed.
Lemma ask_Done n r fs fs' sent v :
  ask n r fs = (fs', sent, Done (Ok v)) -> answer n r = Ok v /\ fs' = fs /\ sent = [ToNode r].
Proof. unfold ask. by intros [= <- <- ->]. Qed.
(** [gives Q m]: what [m] gives, if anything, satisfies [Q]. *)
Definition gives {A} (Q : A -> Prop) (m : T A) : Prop :=
  forall fs fs' sent a, m fs = (fs', sent, Done (Ok a)) -> Q a.
Lemma gives_bind {A B} (Q : B -> Prop) (m : T A) (k : A -> T B) :
  (forall a, gives Q (k a)) -> gives Q (m ≫= k).
Proof. intros Hk fs fs' sent b (a & fs1 & s1 & s2 & _ & E & _)%T_bind_Done. by eapply Hk. Qed.
Lemma gives_result {A} (Q : A -> Prop) (r : result error A) :
  (forall a, r = Ok a -> Q a) -> gives Q (of_result r).
Proof. intros Hr fs fs' sent a [E _]%of_result_Done. by apply Hr. Qed.

Lemma as_u64_range v n : as_u64 v = Some n -> 0 <= n <= U64_MAX.
Proof.
  destruct v; cbn; try done. unfold ok.
  destruct (parse_unsigned U64_MAX _) as [m|] eqn:E; [|done]. intros [= <-].
  apply parse_unsigned_Ok in E as (d & _ & _ & Hd & -> & ?); [|done].
  split; [by apply dec_value_nonneg|done].
Qed.
Lemma find_map_P {A B} (P : B -> Prop) (f : A -> option B) l b :
  (forall a b, f a = Some b -> P b) -> find_map f l = Some b -> P b.
Proof.
  intros Hf. induction l as [|a l IH]; cbn; [done|]. destruct (f a) eqn:E; cbn; [|done].
  intros [= <-]. by eapply Hf.
Qed.
Lemma extract_u64_range v keys n : extract_u64 v keys = Some n -> 0 <= n <= U64_MAX.
Proof.
  destruct v as [v|]; cbn; [|done]. apply (find_map_P (fun n => 0 <= n <= U64_MAX)). intros key m.
  destruct (Client.value_get (lit key) v) as [x|]; cbn; [apply as_u64_range|done].
Qed.

(** The window a command's arguments and the chain's metadata allow. *)
Record chosen_window `{Hex} (build : TxBuildArgs) (info : option Json.Value)
    (height : Z) (hash : Hash256) (ttl : Z) : Prop := {
  cw_anchor :
    match reference_block_height build, reference_block_hash build with
    | Some h, Some t => height = h /\ parse_hash t = Ok hash
    | None, None =>
        extract_u64 info ["transaction_reference_block_height"] = Some height /\
        exists t, extract_string info ["transaction_reference_block_hash"] = Some t /\
                  parse_hash t = Ok hash
    | _, _ => False
    end;
  cw_ttl : Client.option_or (tb_ttl_blocks build) (extract_u64 info ["transaction_ttl_blocks"])
           = Some ttl;
  cw_positive : 0 < ttl;
  cw_limit : info = None \/
    exists limit, extract_u64 info ["transaction_ttl_blocks"] = Some limit /\ ttl <= limit;
  cw_fits : height + ttl <= U64_MAX;
}.

Section WindowProofs.
Import Wallet.
Context `{Hex}.
Lemma validate_reference_Ok build u :
  validate_reference_args build = Ok u ->
  (reference_block_height build = None <-> reference_block_hash build = None) /\
  tb_ttl_blocks build <> Some 0.
Proof.
  unfold validate_reference_args. intros ([] & E1%bail_if_Ok & E2%bail_if_Ok)%bind_Ok.
  apply bool_decide_eq_false in E2. split; [|done].
  destruct (reference_block_height build), (reference_block_hash build); cbn in E1; by split.
Qed.
(** [apply_validity_window] keeps the wallet when there is nothing to anchor, and otherwise
    sets a window the arguments and the metadata allow. *)
Lemma apply_window_Ok w build info w' :
  (forall t, tb_ttl_blocks build = Some t -> 0 <= t) ->
  apply_validity_window w build info = Ok w' ->
  (w' = w /\ info = None /\ reference_block_height build = None /\ tb_ttl_blocks build = None) \/
  exists height hash ttl, chosen_window build info height hash ttl /\
    w' = set_transaction_validity_window w height hash ttl.
Proof.
  intros Ht. unfold apply_validity_window. intros ([] & [Hr Hz]%validate_reference_Ok & E)%bind_Ok.
  destruct (_ && _) eqn:Ec in E.
  { left. injection E as <-. rewrite !andb_true_iff, !bool_decide_eq_true in Ec. tauto. }
  right. apply bind_Ok in E as ([] & Ea%bail_if_Ok & E).
  apply bind_Ok in E as (ttl & El%ok_or_inv & E).
  apply bind_Ok in E as ([] & Eb%bail_if_Ok & E).
  apply bind_Ok in E as ([height hash] & Ew & E). apply bind_Ok in E as (top & Ef & E).
  injection E as <-. exists height, hash, ttl. split; [|done].
  apply orb_false_iff in Eb as [Et Eb]. apply Z.eqb_neq in Et.
  split.
  - destruct (reference_block_height build) as [h|], (reference_block_hash build) as [t|].
    + apply bind_Ok in Ew as (hs & Eh & [= <- <-]). done.
    + by pose proof (proj2 Hr eq_refl).
    + by pose proof (proj1 Hr eq_refl).
    + apply bind_Ok in Ew as (h & Eh%ok_or_inv & Ew).
      apply bind_Ok in Ew as (t & Es%ok_or_inv & Ew).
      apply bind_Ok in Ew as (hs & Ehs & [= <- <-]). split; [done|]. by exists t.
  - done.
  - enough (0 <= ttl) by lia. destruct (tb_ttl_blocks build) as [t|].
    + cbn in El. injection El as <-. by apply Ht.
    + apply extract_u64_range in El. lia.
  - destruct info as [v|]; [right|by left].
    destruct (extract_u64 (Some v) ["transaction_ttl_blocks"]) as [limit|] eqn:Ev; [|done].
    exists limit. split; [done|]. by apply Z.ltb_ge.
  - cbn in Ef. destruct (_ <=? _) eqn:Ef'; [|done]. by apply Z.leb_le.
Qed.
End WindowProofs.

(** What a wallet resolved from a command's arguments is: the key they name, and the chain,
    nonce, time and window they give or the node's answers do. *)
Record resolved `{Hex, Ed25519, Keystore.Argon2, Aead, Mnemonic.Bip39, KeystoreJson, Digests}
    (o : os) (n : node) (build : TxBuildArgs) (fs : files) (k : Keypair)
    (chain : rstr) (nc : Z) (time : option Z) (window : option (Z * Hash256 * Z)) : Prop := {
  rs_key : load_keypair o (key_source build) fs = Ok k;
  rs_time : time = tb_timestamp_ms build;
  rs_nonce :
    match tb_nonce build with
    | Some given => nc = given
    | None => exists v, answer n (Client.nonce (address_to_hex (keypair_address k))) = Ok v /\
                        extract_nonce v = Ok nc
    end;
  rs_chain : exists info,
    (info = None \/ exists v, info = Some v /\ answer n Client.chain_info = Ok v) /\
    Client.option_or (tb_chain_id build) (extract_string info ["chain_id"; "chainId"]) = Some chain /\
    match window with
    | None => info = None /\ reference_block_height build = None /\ tb_ttl_blocks build = None
    | Some (height, hash, ttl) => chosen_window build info height hash ttl
    end;
}.

Section RunProofs.
Import Wallet.
Context `{UrlOps : Client.UrlOps, Digests, Hex, Ed25519, Keystore.Argon2, Aead, Mnemonic.Bip39,
  KeystoreJson, !Bincode Tx.Transaction, !Bincode Tx.SignedTransaction, !Wallet.Builder}.
Context (o : os) (to_lowercase : rstr -> rstr).
Context `{!FileJson (list (rstr * Z))} `{!FileJson Task.MatchPreferences}
  `{!FileJson (list Task.SubTaskDef)} `{!FileJson (list Validator.ValidatorExecutorService)}
  `{!FileJson (list ToolJob.ToolMilestoneDef)} `{!FileJson (list Agreement.MilestoneDef)}
  `{!FileJson (list Agreement.AgreementPayoutShare)}
  `{!FileJson (list Agreement.AgreementDisputeReputationEffect)}
  `{!FileJson Contract.ContractSourceProof} `{!FileJson Contract.ContractAbi}.
Context (n : node) (client : Client.ZinchaClient) (now : result error Z).

Lemma of_builder_Done w wallet_now rq fs fs' sent stx :
  of_builder w wallet_now rq fs = (fs', sent, Done (Ok stx)) ->
  (run_builder w wallet_now rq).2 = Some (Ok stx) /\ fs' = fs.
Proof.
  unfold of_builder. destruct (run_builder w wallet_now rq).2 as [[stx'|e]|]; cbn; [|done..].
  by intros [= <- _ ->].
Qed.

Lemma resolve_wallet_Done build fs fs' sent w :
  (forall t, tb_ttl_blocks build = Some t -> 0 <= t) ->
  resolve_wallet o n client build fs = (fs', sent, Done (Ok w)) ->
  fs' = fs /\ exists k, signer w = keypair_signer k /\
    resolved o n build fs k (chain_id w) (nonce w) (timestamp_ms w) (tx_validity_window w).
Proof.
  intros Ht. unfold resolve_wallet.
  intros (? & f1 & s1 & t1 & (_ & -> & _)%of_result_Done & E & _)%T_bind_Done.
  apply T_bind_Done in E as (k & f2 & s2 & t2 & (Ek & -> & _)%of_files_Done & E & _).
  apply T_bind_Done in E as (? & f3 & s3 & t3 & (Eo & -> & _)%of_result_Done & E & _).
  apply T_bind_Done in E as (info & f4 & s4 & t4 & Ei & E & _).
  assert (f4 = fs /\ (info = None \/ exists v, info = Some v /\ answer n Client.chain_info = Ok v))
    as [-> Hi].
  { destruct (_ || _) in Ei; [injection Ei as <- _ <-; auto|].
    apply T_bind_Done in Ei as (v & f5 & s5 & t5 & Ev & [= <- _ <-] & _).
    unfold m_context, ask in Ev. destruct (answer n Client.chain_info) as [v'|] eqn:Ea; [|done].
    injection Ev as <- _ <-. eauto. }
  apply T_bind_Done in E as (chain & f6 & s6 & t6 & (Ec%ok_or_inv & -> & _)%of_result_Done & E & _).
  apply T_bind_Done in E as (nc & f7 & s7 & t7 & En & E & _).
  apply of_result_Done in E as (Ew & -> & _).
  assert (f7 = fs /\ match tb_nonce build with
    | Some given => nc = given
    | None => exists v, answer n (Client.nonce (address_to_hex (keypair_address k))) = Ok v /\
                        extract_nonce v = Ok nc
    end) as [-> Hn].
  { destruct (tb_nonce build) as [g|]; [by injection En as <- _ <-|].
    destruct (tb_offline build) in En; [by apply of_result_Done in En as [? _]|].
    apply T_bind_Done in En as (v & f8 & s8 & t8 & (Ev & -> & _)%ask_Done & En & _).
    apply of_result_Done in En as (En & -> & _). eauto. }
  split; [done|]. exists k.
  apply apply_window_Ok in Ew as [(-> & -> & Hh & Htl)|(height & hash & ttl & Cw & ->)]; [| |done].
  - split; [by repeat case_match|]. split; [done|by repeat case_match|by repeat case_match|].
    exists None. split; [by left|]. split; [by repeat case_match|by repeat case_match].
  - split; [by repeat case_match|]. split; [done|by repeat case_match|by repeat case_match|].
    exists info. split; [done|]. split; [by repeat case_match|].
    cbn. pose proof (cw_positive _ _ _ _ _ Cw). by rewrite Z.max_l by lia.
Qed.

(** What building does: the command's request, put to the wallet its arguments resolve to. *)
Lemma build_signed_Done wallet_now build c fs fs' sent label stx :
  (forall t, tb_ttl_blocks build = Some t -> 0 <= t) ->
  build_signed_transaction o to_lowercase n client now wallet_now build c fs
    = (fs', sent, Done (Ok (label, stx))) ->
  fs' = fs /\ label = command_label c /\ exists w k rq,
    request_type rq = command_type c /\ request_fee rq = command_fee c /\
    signer w = keypair_signer k /\
    resolved o n build fs k (chain_id w) (nonce w) (timestamp_ms w) (tx_validity_window w) /\
    (run_builder w wallet_now rq).2 = Some (Ok stx).
Proof.
  intros Ht. unfold build_signed_transaction.
  intros (late & f1 & s1 & t1 & (Ep & -> & _)%of_files_Done & E & _)%T_bind_Done.
  apply T_bind_Done in E as (w & f2 & s2 & t2 & Ew & E & _).
  apply resolve_wallet_Done in Ew as (-> & k & Es & Rs); [|done].
  apply T_bind_Done in E as (rq & f3 & s3 & t3 & (-> & -> & _)%of_result_Done & E & _).
  apply T_bind_Done in E as (stx' & f4 & s4 & t4 & (Eb & ->)%of_builder_Done & [= <- _ <- ->] & _).
  pose proof (command_request o to_lowercase now fs c) as Hc. rewrite Ep in Hc.
  destruct Hc as [Hty Hfee]. split_and!; [done|done|]. by exists w, k, rq.
Qed.


Definition reading_request (r : Client.api_request) : Prop :=
  r = Client.chain_info \/ exists a, r = Client.nonce a.
(** What resolving a wallet asks: of the node alone, and offline nothing. *)
Definition resolving (build : TxBuildArgs) (q : outgoing) : Prop :=
  exists r, q = ToNode r /\ tb_offline build = false /\ reading_request r.
Lemma resolve_wallet_sends build : sends (resolving build) (resolve_wallet o n client build).
Proof.
  unfold resolve_wallet.
  repeat first [ apply sends_bind; [|intros ?] | apply sends_ret | apply sends_of_result
               | apply sends_of_files | apply sends_context ].
  - destruct (tb_offline build) eqn:Eo; [apply sends_ret|].
    destruct (_ || _); [apply sends_ret|]. apply sends_bind; [|intros; apply sends_ret].
    apply sends_context, sends_ask. eexists. split_and!; [done|done|by left].
  - destruct (tb_nonce build); [apply sends_ret|].
    destruct (tb_offline build) eqn:Eo; [apply sends_of_result|].
    apply sends_bind; [|intros; apply sends_of_result]. apply sends_ask.
    eexists. split_and!; [done|done|right; eauto].
Qed.
Lemma apply_window_embed w build info w' :
  apply_validity_window w build info = Ok w' -> embed_url w' = embed_url w.
Proof.
  unfold apply_validity_window. intros (_ & _ & E)%bind_Ok.
  destruct (_ && _) in E; [by injection E as <-|]. cbv zeta in E.
  repeat (apply bind_Ok in E as (? & _ & E)). by injection E as <-.
Qed.
(** The service a wallet calls is the one the arguments or the environment name. *)
Lemma resolve_wallet_embed build :
  gives (fun w => embed_url w = resolve_wallet_embed_url o build) (resolve_wallet o n client build).
Proof.
  unfold resolve_wallet. repeat (apply gives_bind; intros ?).
  apply gives_result. intros w E%apply_window_embed. rewrite E. by repeat case_match.
Qed.

(** The one call that the builder of a command's request makes of the embedding service. *)
Definition embedding_types : list Tx.TxType :=
  [Tx.AgentRegister; Tx.AgentUpdate; Tx.TaskSubmit; Tx.ToolRegister].
Lemma request_text_type r text : request_text r = Some text -> request_type r ∈ embedding_types.
Proof.
  destruct r; cbn [request_text request_type]; intros E; try discriminate E;
    repeat constructor.
Qed.
Definition embeds (build : TxBuildArgs) (c : BuildCommand) (fs : files) (calls : list outgoing) : Prop :=
  exists url text rq, calls = [ToEmbedder url text] /\
    resolve_wallet_embed_url o build = Some url /\ prepare o to_lowercase now fs c = Ok (Ok rq) /\
    request_text rq = Some text /\ command_type c ∈ embedding_types.
(** What building a command's transaction asks, in order. *)
Definition build_requests (build : TxBuildArgs) (c : BuildCommand) (fs : files) (sent : list outgoing)
    : Prop :=
  exists reads calls, sent = (ToNode <$> reads) ++ calls /\
    Forall (fun r => tb_offline build = false /\ reading_request r) reads /\
    (calls = [] \/ embeds build c fs calls).
Lemma resolving_reads build sent : Forall (resolving build) sent -> exists reads,
  sent = ToNode <$> reads /\ Forall (fun r => tb_offline build = false /\ reading_request r) reads.
Proof.
  induction 1 as [|q sent (r & -> & Hr) _ (reads & -> & IH)]; [by exists []|].
  exists (r :: reads). split; [done|by constructor].
Qed.
Lemma builder_embeds build c fs w rq wallet_now :
  prepare o to_lowercase now fs c = Ok (Ok rq) -> embed_url w = resolve_wallet_embed_url o build ->
  let calls := (fun call => ToEmbedder call.1 call.2) <$> builder_calls w wallet_now rq in
  calls = [] \/ embeds build c fs calls.
Proof.
  intros Ep Ew. cbv zeta. rewrite builder_calls_spec. unfold embedding_calls. rewrite Ew.
  destruct (resolve_wallet_embed_url o build) as [url|] eqn:Eu; [|by left].
  destruct (request_text rq) as [text|] eqn:Et; [|by left].
  right. exists url, text, rq. split_and!; [done..|].
  pose proof (command_request o to_lowercase now fs c) as Hc. rewrite Ep in Hc.
  destruct Hc as [<- _]. by eapply request_text_type.
Qed.
Lemma build_sends wallet_now build c fs :
  build_requests build c fs
    (build_signed_transaction o to_lowercase n client now wallet_now build c fs).1.2.
Proof.
  unfold build_signed_transaction, build_requests, mbind, T_bind, of_files, of_result.
  destruct (prepare _ _ _ _ _) as [late|e] eqn:Ep; cbn [fst snd].
  2: { exists [], []. split_and!; [done|constructor|by left]. }
  pose proof (resolve_wallet_sends build fs) as Hs.
  destruct (resolve_wallet _ _ _ _ _) as [[fs1 sent] [[w|e]| |]] eqn:Ew; cbn [fst snd] in *;
    apply resolving_reads in Hs as (reads & -> & Hr); exists reads.
  2-4: exists []; rewrite ?app_nil_r; split_and!; [done|done|by left].
  destruct late as [rq|e]; cbn [fst snd].
  2: { exists []. split_and!; [done|done|by left]. }
  unfold of_builder.
  exists ((fun call => ToEmbedder call.1 call.2) <$> builder_calls w wallet_now rq).
  split_and!; [|done|by eapply builder_embeds, resolve_wallet_embed].
  destruct (run_builder w wallet_now rq).2 as [[stx|e]|]; cbn; by rewrite ?app_nil_r.
Qed.

(** What [finish_transaction] sends, in order. *)
Definition finish_requests (build : TxBuildArgs) (stx : Tx.SignedTransaction) (hex : rstr)
    (tail : list outgoing) : Prop :=
  tail = [] \/ tb_submit build = true /\
  (tail = [ToNode (Client.submit_signed_transaction_hex hex)] \/ tb_wait build = true /\
   tail = ToNode <$> [Client.submit_signed_transaction_hex hex;
                      Client.transaction_status (hash_to_hex (Tx.tx_hash stx))]).
Lemma finish_sends label stx build json fs :
  let r := finish_transaction o n label stx build json fs in
  r.1.2 = [] \/ exists bytes, bincode_serialize stx = Ok bytes /\
    finish_requests build stx (hex_encode bytes) r.1.2.
Proof.
  unfold finish_transaction, finish_requests.
  destruct (bincode_serialize stx) as [bytes|e] eqn:Eb; [|by left].
  right. exists bytes. split; [done|].
  unfold mbind, T_bind, of_result, of_M, ask, wait_for. cbn [of_text map_err].
  destruct (signed_tx_out build) as [p|]; cbn [mret T_ret];
    [destruct (write_private_file _ _ _ _ _) as [fs1 [[]|e]]; [|by left]|].
  all: destruct (bail_if (tb_wait build && _) _) as [[]|e]; cbn; [|by left].
  all: destruct (tb_submit build); cbn; [|by left]; right; split; [done|].
  all: destruct (answer n _); cbn; [|by left].
  all: destruct (tb_wait build); cbn; [right; split; [done|]|by left].
  all: destruct (Client.wait_for_transaction _ _ _) as [[]|]; cbn; done.
Qed.

Lemma finish_to_node label stx build json :
  sends (fun q => exists r, q = ToNode r) (finish_transaction o n label stx build json).
Proof. unfold finish_transaction. repeat sends_step; eauto with sends. Qed.
(** Only building a command that carries an embedding calls an embedding service. *)
Lemma run_tx_embeds wallet_now t bearer json fs url text :
  ToEmbedder url text ∈ (run_tx o to_lowercase n client now wallet_now t bearer json fs).1.2 ->
  exists build c, t = Build build c /\ resolve_wallet_embed_url o build = Some url /\
    command_type c ∈ embedding_types.
Proof.
  destruct t; cbn [run_tx].
  all: try match goal with |- _ ∈ (?m ?f).1.2 -> _ =>
      assert (sends (fun q => exists r, q = ToNode r) m) as Hm by (repeat sends_step; eauto with sends);
      intros Hin; specialize (Hm f); rewrite Forall_forall in Hm; by destruct (Hm _ Hin) end.
  match goal with t : TxBuildArgs, c : BuildCommand |- _ => rename t into build; rename c into cmd end.
  pose proof (build_sends wallet_now build cmd fs) as (reads & calls & Es & Hr & Hc).
  unfold mbind, T_bind. destruct (build_signed_transaction _ _ _ _ _ _ _ _ _) as [[fs1 sent] r].
  cbn [fst snd] in Es. subst sent.
  assert (ToEmbedder url text ∈ (ToNode <$> reads) ++ calls -> exists build0 c,
    Build build cmd = Build build0 c /\ resolve_wallet_embed_url o build0 = Some url /\
    command_type c ∈ embedding_types) as Hhere.
  { intros [(r0 & [=] & _)%list_elem_of_fmap|Hin]%elem_of_app.
    destruct Hc as [->|(url' & text' & rq & -> & Hu & _ & _ & Hty)]; [by apply not_elem_of_nil in Hin|].
    apply list_elem_of_singleton in Hin. injection Hin as -> ->. by exists build, cmd. }
  destruct r as [[[label stx]|e]| |]; cbn [fst snd]; try exact Hhere.
  pose proof (finish_to_node label stx build json fs1) as Hf.
  destruct (finish_transaction _ _ _ _ _ _ _) as [[fs2 tail] x]; cbn [fst snd] in *.
  intros [Hin|Hin]%elem_of_app; [by apply Hhere|].
  rewrite Forall_forall in Hf. by destruct (Hf _ Hin).
Qed.
Lemma build_touches wallet_now build c :
  touches None (build_signed_transaction o to_lowercase n client now wallet_now build c).
Proof.
  apply touches_bind; [touch|]. intros late. apply touches_bind; [unfold resolve_wallet; touch|].
  intros w. touch.
Qed.
Lemma finish_touches label stx build json :
  touches (signed_tx_out build) (finish_transaction o n label stx build json).
Proof.
  apply touches_bind; [touch|]. intros bytes. apply touches_bind; [|intros; touch].
  destruct (signed_tx_out build); [apply touches_of_M, confined_write_private|touch].
Qed.

(** C12: Only what was signed is submitted, and only when asked. A command that builds a transaction
    first reads, of the node, the chain's metadata and the sender's nonce, or with --offline nothing. Its
    builder then asks nothing, or makes one call: only if the arguments or the environment name an
    embedding service, only for the registration of an agent or a tool, an agent's update or a
    task, and to that service, offline too, with the text of the request the command prepares. Then
    nothing is sent unless --submit is given, and with it at most one transaction, the one built, in
    hexadecimal; what is waited for, if --wait is given, is that transaction, its polls being
    recorded as one. No file but the one named for the signed transaction changes. *)
Theorem command_sends wallet_now build c bearer json fs :
  let r := run_tx o to_lowercase n client now wallet_now (Build build c) bearer json fs in
  exists sent tail, r.1.2 = sent ++ tail /\ build_requests build c fs sent /\
    (tail = [] \/ exists label stx bytes fs1,
       build_signed_transaction o to_lowercase n client now wallet_now build c fs
         = (fs1, sent, Done (Ok (label, stx))) /\
       bincode_serialize stx = Ok bytes /\ finish_requests build stx (hex_encode bytes) tail) /\
    forall p, Some p <> signed_tx_out build -> r.1.1 !! p = fs !! p.
Proof.
  cbv zeta. cbn [run_tx]. unfold mbind, T_bind.
  pose proof (build_sends wallet_now build c fs) as Hb.
  pose proof (build_touches wallet_now build c fs) as Ht.
  destruct (build_signed_transaction _ _ _ _ _ _ _ _ _) as [[fs1 reads] [[[label stx]|e]| |]];
    cbn [fst snd] in *.
  2-4: exists reads, []; rewrite app_nil_r; split_and!; [done..|by left|intros p _; by apply Ht].
  pose proof (finish_sends label stx build json fs1) as Hs. cbv zeta in Hs.
  pose proof (finish_touches label stx build json fs1) as Hf.
  destruct (finish_transaction _ _ _ _ _ _ _) as [[fs2 tail] r]; cbn [fst snd] in *.
  exists reads, tail. split_and!; [done|done| |].
  - destruct Hs as [Hs|(bytes & Eb & Hs)]; [by left|right; by eauto 10].
  - intros p Hp. rewrite Hf by done. by apply Ht.
Qed.
End RunProofs.
End CliTx.

(** ** Witnesses *)
Module CliTxWitness.
Import Anyhow CliWallet CliTx Wallet.

#[local] Instance any_codec T : Bincode T := WalletWitness.fixed_codec T.
#[local] Instance plain_argon2 : Keystore.Argon2 := {
  Keystore.argon2id := fun password slt => Ok (pad_bytesN 32 (take 16 password ++ take 16 (bn slt)));
}.
#[local] Instance plain_bip39 : Mnemonic.Bip39 := {
  Mnemonic.phrase_type := rstr;
  Mnemonic.parse_in_normalized := fun p => Ok p;
  Mnemonic.phrase_to_string := fun p => p;
  Mnemonic.to_seed := fun p w => utf8 p ++ utf8 w;
  Mnemonic.hmac_sha512 := fun k m => pad_bytesN 64 (k ++ m);
}.
#[local] Instance no_json : KeystoreJson := {
  to_string_pretty := fun _ => Err []; value_from_str := fun _ => Err []; fault_text := fun _ => [];
}.
#[local] Instance no_file_json T : FileJson T := { from_slice := fun _ => Err [] }.
#[local] Instance own_builder : Builder := wallet_builder (fun _ _ => Err []).
Definition os0 : os :=
  {| io_error := fun _ _ => None; write_outcome_of := fun _ => Complete; umask := 18;
     env_var := fun _ => Err (lit "not present"); is_terminal := false;
     prompt_password := fun _ => Err (lit "no terminal") |}.
Definition key_file0 : rstr := lit "key".
Definition files0 : files :=
  {[ key_file0 := {| contents := utf8 (hex_encode (bn WalletWitness.key0)); mode := 384 |} ]}.
(** An offline transfer with a window of its own. *)
Definition build0 : TxBuildArgs :=
  {| CliTx.key_source := {| secret_key := None; key_file := Some key_file0; keystore := None;
                      keystore_address := None;
                      password := {| password_file := None; password_env := None |} |};
     tb_nonce := Some 4; tb_chain_id := Some (lit "zincha-vega-1"); tb_timestamp_ms := Some 9;
     reference_block_height := Some 100; reference_block_hash := Some (hash_to_hex hash_zero);
     tb_ttl_blocks := Some 20; tb_embed_url := None; tb_offline := true; tb_submit := false;
     tb_wait := false; wait_timeout_secs := 0; wait_interval_ms := 0; signed_tx_out := None;
     tb_force := false |}.
Definition node0 : node := {| answer := fun _ => Err []; polls := fun _ => [] |}.
Definition transfer0 : BuildCommand := CmdTransfer (address_to_hex address_treasury) 10 1 None.

#[local] Existing Instance Client.ClientWitness.plain_url_ops.
Definition run0 : files * list outgoing * outcome (string * Tx.SignedTransaction) :=
  build_signed_transaction os0 (fun s => s) node0 Client.ClientWitness.client0 (Err []) 5 build0
    transfer0 files0.
Definition signed0 : Tx.SignedTransaction :=
  match run0.2 with Done (Ok (_, stx)) => stx | _ => WalletWitness.stx0 end.
Lemma run0_signed : run0 = (files0, [], Done (Ok ("tx-transfer", signed0))).
Proof. by vm_compute. Qed.
End CliTxWitness.
