(* ===== verification/CliOffline.v ===== *)
(** * Signing offline, submitting online

    Two runs of the command line put together: a machine that holds the key builds a transaction
    with [--offline --signed-tx-out], and another, which has the node but not the key, submits the
    file with [tx submit-signed]. Composes [build_signed_transaction], [finish_transaction] and
    [run_tx] of [CliTx] with the files of [CliWallet]. *)
From S2P Require Import Prelude Crypto Float Instances Transaction Agreement Contract ToolJob.
From S2P Require Import Validator Task Wallet Keystore Mnemonic Conversation Client CliWallet CliTx.
From S2P Require Import Codec Layouts.
Import Anyhow CliWallet CliTx.

Module CliOffline.

Section Offline.
Import Wallet.
Context `{UrlOps : Client.UrlOps, Digests, Hex, Ed25519, Keystore.Argon2, Aead, Mnemonic.Bip39,
  KeystoreJson, !Bincode Tx.Transaction, !Bincode Tx.SignedTransaction, !Wallet.Builder}.
Context (to_lowercase : rstr -> rstr).
Context `{!FileJson (list (rstr * Z))} `{!FileJson Task.MatchPreferences}
  `{!FileJson (list Task.SubTaskDef)} `{!FileJson (list Validator.ValidatorExecutorService)}
  `{!FileJson (list ToolJob.ToolMilestoneDef)} `{!FileJson (list Agreement.MilestoneDef)}
  `{!FileJson (list Agreement.AgreementPayoutShare)}
  `{!FileJson (list Agreement.AgreementDisputeReputationEffect)}
  `{!FileJson Contract.ContractSourceProof} `{!FileJson Contract.ContractAbi}.
Context `{!HexLaws}.

(** A command that only signs, into a file. *)
Record signs_into (build : TxBuildArgs) (p : rstr) : Prop := {
  si_offline : tb_offline build = true;
  si_submit : tb_submit build = false;
  si_out : signed_tx_out build = Some p;
  si_ttl : forall t, tb_ttl_blocks build = Some t -> 0 <= t;
}.

(** The file such a run leaves. *)
Lemma finish_into o n label stx build json p fs fs' sent v :
  tb_submit build = false -> signed_tx_out build = Some p ->
  finish_transaction o n label stx build json fs = (fs', sent, Done (Ok v)) ->
  sent = [] /\ exists text, tx_to_hex stx = Ok text /\ fs' = <[p := private text]> fs.
Proof.
  intros Hs Hp. unfold finish_transaction. rewrite Hs, Hp.
  intros (bytes & f1 & s1 & t1 & (Eb & -> & ->)%of_result_Done & E & ->)%T_bind_Done.
  apply T_bind_Done in E as ([] & f2 & s2 & t2 & Ew & E & ->).
  apply T_bind_Done in E as ([] & f3 & s3 & t3 & (_ & -> & ->)%of_result_Done & E & ->).
  unfold of_M in Ew. destruct (write_private_file _ _ _ _ _) as [f4 r] eqn:W.
  injection Ew as <- <- ->. apply write_private_Ok in W as [_ ->].
  injection E as <- <- <-. split; [done|]. exists (hex_encode bytes). split; [|done].
  apply map_err_Ok in Eb. unfold tx_to_hex, encode. by rewrite Eb.
Qed.

(** The other machine reads what was written. *)
Lemma read_submitted o2 p text fs2 b :
  contents <$> fs2 !! p = Some (utf8 text) -> text = hex_encode b -> io_error o2 Read p = None ->
  read_hex_or_file o2 None (Some p) fs2 = Ok text.
Proof.
  intros Hf -> Hr. unfold read_hex_or_file, read_public_text_file, fs_read_to_string, fs_read.
  rewrite Hr. destruct (fs2 !! p) as [f|]; [|done]. injection Hf as Hf.
  cbn [mbind result_bind]. rewrite Hf, from_utf8_utf8 by apply hex_is_text.
  cbn. by rewrite trim_hex.
Qed.

(** C13: Signing where the key is, submitting where the node is. A command with [--offline] and
    a file to sign into sends the node nothing, and nothing else either, except that, where an
    embedding service is named, the registration of an agent or a tool, an agent's update or a
    task posts that service the one text to embed. It leaves a file that is the signed transaction, which
    verifies, with the type and the fee of the command. On any machine that has a file with those
    bytes and can read it, whatever its permissions, [tx submit-signed] changes nothing, and sends
    one request: that transaction, which the node reads back exactly as it was signed; the answer
    is the node's. *)
Theorem offline_then_submit `{!BincodeLaws Tx.SignedTransaction}
    o n client now wallet_now build c bearer json p fs fs' sent v :
  signs_into build p ->
  run_tx o to_lowercase n client now wallet_now (Build build c) bearer json fs
    = (fs', sent, Done (Ok v)) ->
  (sent = [] \/ embeds o to_lowercase now build c fs sent) /\ exists stx text,
    Tx.verify stx = Some (Ok ()) /\ Tx.tx_type (Tx.transaction stx) = command_type c /\
    Tx.fee (Tx.transaction stx) = command_fee c /\
    tx_to_hex stx = Ok text /\ tx_from_hex text = Ok stx /\
    forall o2 n2 client2 now2 wallet_now2 bearer2 json2 fs2,
      contents <$> fs2 !! p = contents <$> fs' !! p -> io_error o2 Read p = None ->
      run_tx o2 to_lowercase n2 client2 now2 wallet_now2 (SubmitSigned None (Some p)) bearer2 json2
        fs2 =
      (fs2, [ToNode (Client.submit_signed_transaction_hex text)],
       Done (answered ← answer n2 (Client.submit_signed_transaction_hex text);
             Ok (emit "tx-submit-signed" answered json2))).
Proof.
  intros [Ho Hs Hp Ht]. cbn [run_tx].
  intros ([label stx] & f1 & s1 & t1 & Eb & Ef & ->)%T_bind_Done. cbn [fst snd] in Ef.
  pose proof (build_sends o to_lowercase n client now wallet_now build c fs) as Hb. rewrite Eb in Hb.
  cbn [fst snd] in Hb.
  destruct Hb as (reads & calls & -> & Hrd & Hc).
  assert (reads = []) as ->.
  { destruct reads as [|r reads]; [done|]. apply Forall_cons in Hrd as [[Hoff _] _]. congruence. }
  apply build_signed_Done in Eb as (-> & -> & w & k & rq & Hty & Hfee & _ & _ & Er); [|done].
  apply finish_into with (p := p) in Ef as [-> (text & Ex & ->)]; [|done..].
  pose proof (builder_answers w wallet_now rq) as A. unfold answers in A. rewrite Er in A.
  destruct A as (_ & [Ev _ _ _ _ _ _] & Ety & Efe).
  split; [by rewrite app_nil_r|]. exists stx, text.
  split_and!; [done|congruence|congruence|done|by apply transport_roundtrip|].
  intros o2 n2 client2 now2 wallet_now2 bearer2 json2 fs2 Hf Hr.
  assert (exists b, text = hex_encode b) as [b Eh].
  { unfold tx_to_hex in Ex. apply bind_Ok in Ex as (b & _ & [= <-]). by exists b. }
  rewrite lookup_insert_eq in Hf. cbn [run_tx].
  unfold of_files, ask, mbind, T_bind. rewrite (read_submitted o2 p text fs2 b) by done.
  cbn. by destruct (answer n2 _).
Qed.
End Offline.
End CliOffline.

(** ** Witnesses *)
Module CliOfflineWitness.
Import Wallet CliOffline Layouts.

#[local] Existing Instances CliTxWitness.plain_argon2 CliTxWitness.plain_bip39
  CliTxWitness.no_json CliTxWitness.no_file_json Client.ClientWitness.plain_url_ops.
(** The wallet's builders over the real layouts. *)
#[local] Instance own_builder : Builder := wallet_builder (fun _ _ => Err []).

Definition out0 : rstr := lit "signed".
Definition build1 : TxBuildArgs :=
  {| CliTx.key_source := CliTx.key_source CliTxWitness.build0; tb_nonce := Some 4;
     tb_chain_id := Some (lit "zincha-vega-1"); tb_timestamp_ms := Some 9;
     reference_block_height := Some 100; reference_block_hash := Some (hash_to_hex hash_zero);
     tb_ttl_blocks := Some 20; tb_embed_url := None; tb_offline := true; tb_submit := false;
     tb_wait := false; wait_timeout_secs := 0; wait_interval_ms := 0;
     signed_tx_out := Some out0; tb_force := false |}.
Definition signed_run : files * list outgoing * outcome Json.Value :=
  run_tx CliTxWitness.os0 (fun s => s) CliTxWitness.node0 Client.ClientWitness.client0 (Err []) 5
    (Build build1 CliTxWitness.transfer0) None true CliTxWitness.files0.
Definition answer1 : Json.Value :=
  match signed_run.2 with Done (Ok v) => v | _ => Json.Null end.
(** The submitting machine: the file was copied with other permissions, and the node accepts. *)
Definition carried : files :=
  {[ out0 := {| contents := match signed_run.1.1 !! out0 with Some f => contents f | None => [] end;
                mode := 420 |} ]}.
Definition node1 : node := {| answer := fun _ => Ok Json.Null; polls := fun _ => [] |}.
Definition submit_run : files * list outgoing * outcome Json.Value :=
  run_tx CliTxWitness.os0 (fun s => s) node1 Client.ClientWitness.client0 (Err []) 6
    (SubmitSigned None (Some out0)) None false carried.

Lemma signed_run_Done :
  signed_run = (signed_run.1.1, signed_run.1.2, Done (Ok answer1)).
Proof. vm_compute. reflexivity. Qed.

Lemma offline_then_submit_witness : signed_run.1.2 = [] /\
  exists stx text, Tx.verify stx = Some (Ok ()) /\ tx_from_hex text = Ok stx /\
    submit_run = (carried, [ToNode (Client.submit_signed_transaction_hex text)], Done (Ok Json.Null)).
Proof.
  destruct (offline_then_submit (fun s => s) CliTxWitness.os0 CliTxWitness.node0
    Client.ClientWitness.client0 (Err []) 5 build1 CliTxWitness.transfer0 None true out0
    CliTxWitness.files0 signed_run.1.1 signed_run.1.2 answer1) as (_ & stx & text & V & _ & _ & _ & D & R).
  - split; [reflexivity|reflexivity|reflexivity|]. intros t [= <-]. lia.
  - exact signed_run_Done.
  - split; [vm_compute; reflexivity|]. exists stx, text. split; [exact V|]. split; [exact D|].
    apply (R CliTxWitness.os0 node1 Client.ClientWitness.client0 (Err []) 6 None false carried).
    + vm_compute. reflexivity.
    + reflexivity.
Defined.
End CliOfflineWitness.
