(* ===== verification/CliConversation.v ===== *)
(** * Conversations from the command line

    Models zincha-cli-core's [conversation.rs]: the private state file of a conversation, its
    checks and its replacement, and every command over it. A run is the files it leaves, what
    it sent and printed in order, and how it ended; the operating system, the node, the
    service, the clock and the random draws are arguments. *)
From S2P Require Import Prelude Crypto Float Instances RpcDelegation Transaction Wallet Keystore.
From S2P Require Import Mnemonic Conversation Outbox Client ConversationApi CliWallet CliTx.

Module CliConversation.
Import Anyhow CliWallet.
Abbreviation Delegation := Conversation.ConversationKeyDelegationV1.

(** ** Paths ([std::path] on Unix) *)
Definition SLASH : Z := 47.
Definition DOT : Z := 46.
(** A path's text without the separators and [.] components it ends with; [keep] characters,
    its root or leading [.], always stay. Reversed. *)
Fixpoint trim_rev (keep : nat) (r : rstr) : rstr :=
  match r with
  | [] => []
  | c :: r' =>
      if (length r <=? keep)%nat then r
      else if c =? SLASH then trim_rev keep r'
      else match r' with
           | d :: _ => if (c =? DOT) && (d =? SLASH) then trim_rev keep r' else r
           | [] => r
           end
  end.
Definition path_keep (p : rstr) : nat :=
  match p with
  | c :: p' =>
      if c =? SLASH then 1
      else if c =? DOT then match p' with [] => 1 | d :: _ => if d =? SLASH then 1 else 0 end
      else 0
  | [] => 0
  end.
(** What comes before the last component, and the component; both reversed. *)
Definition split_rev (p : rstr) : rstr * rstr :=
  let r := trim_rev (path_keep p) (reverse p) in
  let name := take_while (fun c => negb (c =? SLASH)) r in
  (drop (length name) r, name).
Definition file_name (p : rstr) : option rstr :=
  let name := reverse (split_rev p).2 in
  if bool_decide (name ∈ [[]; lit "."; lit ".."]) then None else Some name.
(** [parent], of a path that has a file name. *)
Definition parent (p : rstr) : rstr := reverse (trim_rev (path_keep p) (split_rev p).1).
Definition with_file_name (name p : rstr) : rstr :=
  let base := if bool_decide (is_Some (file_name p)) then parent p else p in
  match reverse base with
  | [] => name
  | c :: _ => if c =? SLASH then base ++ name else base ++ [SLASH] ++ name
  end.
(** The part of a file name before its last dot, unless that is its first character. *)
Definition file_stem (name : rstr) : rstr :=
  match drop_while (fun c => negb (c =? DOT)) (reverse name) with
  | [] => name
  | _ :: before => if bool_decide (before = []) then name else reverse before
  end.
(** [extension] is not empty here. *)
Definition with_extension (extension p : rstr) : rstr :=
  match file_name p with
  | None => p
  | Some name => reverse (split_rev p).1 ++ file_stem name ++ [DOT] ++ extension
  end.
(** [path.parent()], kept unless it is empty. *)
Definition state_directory (p : rstr) : option rstr :=
  if bool_decide (is_Some (file_name p)) && negb (bool_decide (parent p = [])) then Some (parent p)
  else None.
Definition default_outbox_path (state : rstr) : rstr :=
  with_file_name (default (lit "conversation-state.json") (file_name state) ++ lit ".outbox.json") state.
Example outbox_path : default_outbox_path (lit "/tmp/requester.json") = lit "/tmp/requester.json.outbox.json".
Proof. reflexivity. Qed.
Example outbox_path_bare : default_outbox_path (lit "a.b/./") = lit "a.b.outbox.json".
Proof. reflexivity. Qed.
Example extension_replaced : with_extension (lit "tmp-0") (lit "./d.x/s.json/") = lit "./d.x/s.tmp-0".
Proof. reflexivity. Qed.

(** ** The state *)
Definition STATE_VERSION : Z := 1.
Definition MAX_STATE_BYTES : Z := 128 * 1024.
Definition MAX_PAYLOAD_BYTES : Z := 64 * 1024.
Definition DEFAULT_SESSION_DELEGATION_SECS : Z := 24 * 60 * 60.
Definition MAX_DECRYPTION_KEY_IDS : nat := 32.
#[global] Instance SubjectRef_eq_dec : EqDecision Conversation.SubjectRef.
Proof. assert (EqDecision Conversation.SubjectKind) by solve_decision. solve_decision. Defined.

Record ConversationStateV1 : Type := {
  st_version : Z;
  provider_address : rstr;
  st_profile : Conversation.ConversationProfileV2;
  st_subject : Conversation.SubjectRef;
  st_privacy_mode : Conversation.PrivacyMode;
  operational_secret_key : rstr;
  encryption_secret_key : rstr;
  st_delegation : Delegation;
  decryption_key_ids : list rstr;
  st_access_token : option rstr;
  session_expires_at_ms : option Z;
  st_conversation_id : option rstr;
  last_observed_sequence : Z;
  last_acknowledged_sequence : Z;
}.
#[global] Instance eta_State : Eta ConversationStateV1 := fun s =>
  {| st_version := st_version s; provider_address := provider_address s;
     st_profile := st_profile s; st_subject := st_subject s;
     st_privacy_mode := st_privacy_mode s; operational_secret_key := operational_secret_key s;
     encryption_secret_key := encryption_secret_key s; st_delegation := st_delegation s;
     decryption_key_ids := decryption_key_ids s; st_access_token := st_access_token s;
     session_expires_at_ms := session_expires_at_ms s; st_conversation_id := st_conversation_id s;
     last_observed_sequence := last_observed_sequence s;
     last_acknowledged_sequence := last_acknowledged_sequence s |}.
(** [retain], [push] and [drain] of the oldest. *)
Definition retain_decryption_key_id (ids : list rstr) (value : rstr) : list rstr :=
  let ids := List.filter (fun id => negb (bool_decide (id = value))) ids ++ [value] in
  drop (length ids - MAX_DECRYPTION_KEY_IDS) ids.
Definition delegation_expiry (start lifetime_secs : Z) : result error Z :=
  duration ← opt_context "delegation lifetime overflows"
    (if lifetime_secs * 1000 <=? I64_MAX then Some (lifetime_secs * 1000) else None);
  opt_context "delegation expiry overflows"
    (if start + duration <=? I64_MAX then Some (start + duration) else None).
Definition conversation_id (s : ConversationStateV1) : result error rstr :=
  ok_or (st_conversation_id s) [CText (msg "conversation state has no resolved conversation ID")].

Section State.
Context `{Digests, Hex, Ed25519, Conversation.Uuids, Conversation.Urls, Conversation.Ips,
  Conversation.X25519, !Conversation.JsonCodec Conversation.ConversationProfileV2}.

Definition canonical_address (value : rstr) : result error rstr :=
  a ← parse_address value; Ok (address_to_hex a).
Definition operational_key (s : ConversationStateV1) : result error Keypair :=
  context "decode operational signing key from private state"
    (secret_to_keypair (operational_secret_key s)).
Definition encryption_secret (s : ConversationStateV1) : result error (bytesN 32) :=
  bytes ← context "decode E2E secret key" (of_text (hex_decode (encryption_secret_key s)));
  ok_or (mk_bytesN 32 bytes) [CText (msg "E2E secret key must be 32 bytes")].
Definition verify_delegation (participant : PublicKey) (d : Delegation) : result error unit :=
  bytes ← context "decode conversation delegation signature"
    (of_text (hex_decode (Conversation.d_signature d)));
  bytes ← ok_or (mk_bytesN 64 bytes) [CText (msg "conversation delegation signature must be 64 bytes")];
  sig ← map_err (fun e => [CZincha e]) (sig_from_bytes bytes);
  context "verify conversation state delegation"
    (map_err (fun e => [CZincha e])
       (pk_verify participant (Conversation.delegation_signing_bytes d) sig)).
Definition validate_state (s : ConversationStateV1) : result error unit :=
  let d := st_delegation s in
  _ ← bail_if (negb (st_version s =? STATE_VERSION)) "unsupported conversation state version";
  _ ← canonical_address (provider_address s);
  _ ← bail_if (negb (bool_decide (Conversation.service_id (st_profile s) = Conversation.d_home_service_id d))
        || negb (bool_decide (st_subject s = Conversation.d_subject d)))
    "conversation state profile or subject does not match its delegation";
  _ ← Conversation.validate_conversation_profile (st_profile s);
  _ ← bail_if (negb (bool_decide (st_privacy_mode s ∈ Conversation.privacy_modes (st_profile s))))
    "conversation state privacy mode is absent from its profile";
  _ ← match st_conversation_id s with
      | Some id => Conversation.validate_conversation_id id
      | None => Ok ()
      end;
  participant ← parse_public_key (Conversation.d_participant_public_key d);
  _ ← bail_if (negb (bool_decide (address_to_hex (pk_to_address participant)
                                  = Conversation.d_participant_address d)))
    "conversation state participant key does not match its address";
  _ ← verify_delegation participant d;
  operational ← operational_key s;
  _ ← bail_if (negb (bool_decide (hex_encode (bn (keypair_public_key operational))
                                  = Conversation.d_operational_signing_key d)))
    "conversation state operational key does not match its delegation";
  secret ← encryption_secret s;
  _ ← bail_if (negb (bool_decide (hex_encode (bn (Conversation.x25519_public secret))
                                  = Conversation.d_encryption_key d)))
    "conversation state encryption key does not match its delegation";
  _ ← bail_if (bool_decide (decryption_key_ids s = [])
        || (MAX_DECRYPTION_KEY_IDS <? length (decryption_key_ids s))%nat
        || negb (bool_decide (NoDup (decryption_key_ids s)))
        || negb (bool_decide (Conversation.uuid_to_string (Conversation.d_delegation_id d)
                              ∈ decryption_key_ids s)))
    "conversation state decryption key IDs are invalid";
  _ ← bail_if (match st_access_token s with
               | Some token => bool_decide (token = []) || (8192 <? str_len token)
               | None => false
               end
        || negb (Bool.eqb (bool_decide (is_Some (st_access_token s)))
                   (bool_decide (is_Some (session_expires_at_ms s)))))
    "conversation state access token is invalid";
  bail_if ((last_observed_sequence s <? 0) || (last_acknowledged_sequence s <? 0)
        || (last_observed_sequence s <? last_acknowledged_sequence s))
    "conversation state sequence cursors are invalid".
End State.

(** ** The state file *)
(** Where replacing the file goes wrong; a write may leave its first bytes. *)
Inductive replace_failure : Type :=
| CreateDirectory | CreateTemporary | WriteTemporary (n : nat) | SyncTemporary | Rename
| OpenDirectory.
Record state_io : Type := {
  suffix : bytesN 16;
  failure : option (replace_failure * io_kind);
  removal_fails : bool;
}.
(** [serde_json::to_vec_pretty]. *)
Class StateJson := { to_vec_pretty : ConversationStateV1 -> result rstr (list byte) }.
Class StateJsonLaws `{StateJson, !CliTx.FileJson ConversationStateV1} : Prop :=
  state_roundtrip : forall s b, to_vec_pretty s = Ok b -> CliTx.from_slice b = Ok s.

Section StateFile.
Context `{Digests, Hex, Ed25519, Conversation.Uuids, Conversation.Urls, Conversation.Ips,
  Conversation.X25519, !Conversation.JsonCodec Conversation.ConversationProfileV2,
  StateJson, !CliTx.FileJson ConversationStateV1}.
(** [symlink]: the path is a symbolic link; [fs] holds regular files. *)
Context (o : os) (symlink : rstr -> bool).

Definition check_private_existing (p : rstr) (fs : files) : result error unit :=
  if negb (exists_path o p fs) then Ok ()
  else
    _ ← (if symlink p then bail (Msg "{} must be a regular private file" [AStr p]) else Ok ());
    check_owner_only o p fs.
Definition read_json_limited {T} `{!CliTx.FileJson T} (p : rstr) (limit : Z) (fs : files)
    : result error T :=
  len ← ctx (Msg "stat {}" [AStr p])
    (match io_error o Stat p, fs !! p with
     | Some k, _ => Err [CIo k]
     | None, None => Err [CIo NotFound]
     | None, Some f => Ok (Z.of_nat (length (contents f)))
     end);
  _ ← (if limit <? len then bail (Msg "{} is not a bounded regular file" [AStr p]) else Ok ());
  _ ← ctx (Msg "open {}" [AStr p])
        (match io_error o OpenFile p with Some k => Err [CIo k] | None => Ok () end);
  bytes ← ctx (Msg "read {}" [AStr p]) (fs_read o p fs);
  let bytes := take (Z.to_nat (limit + 1)) bytes in
  _ ← (if limit <? Z.of_nat (length bytes) then bail (Msg "{} exceeds the bounded file size" [AStr p])
       else Ok ());
  ctx (Msg "parse JSON {}" [AStr p]) (of_text (CliTx.from_slice bytes)).
Definition read_private_json_limited {T} `{!CliTx.FileJson T} (p : rstr) (limit : Z) (fs : files)
    : result error T :=
  _ ← check_private_existing p fs; read_json_limited p limit fs.
Definition read_state (p : rstr) (fs : files) : result error ConversationStateV1 :=
  s ← read_private_json_limited p MAX_STATE_BYTES fs;
  _ ← validate_state s;
  Ok s.

(** The error of a failed step, and what the temporary file then holds if it was made. *)
Definition failure_text (p : rstr) (f : replace_failure) : message :=
  match f with
  | CreateDirectory => Msg "create state directory {}" [AStr (parent p)]
  | CreateTemporary => Msg "create temporary state {}" [AStr p]
  | WriteTemporary _ => msg "write temporary conversation state"
  | SyncTemporary => msg "sync temporary conversation state"
  | Rename => Msg "replace conversation state {}" [AStr p]
  | OpenDirectory => msg "sync conversation state directory"
  end.
Definition remove_temporary (io : state_io) (temp : rstr) (fs : files) : files :=
  if removal_fails io then fs else delete temp fs.
(** The closure of [write_state]: a new private file, filled, and renamed over the old. *)
Definition replace_file (io : state_io) (p : rstr) (bytes : list byte) : M unit := fun fs =>
  let temp := with_extension (lit "tmp-" ++ hex_encode (bn (suffix io))) p in
  let private b := {| contents := b; mode := Z.land 384 (Z.lnot (umask o)) |} in
  let fail f k := Err [CText (failure_text (match f with CreateTemporary => temp | _ => p end) f); CIo k] in
  if bool_decide (is_Some (fs !! temp)) then
    (remove_temporary io temp fs, fail CreateTemporary OtherKind)
  else
    let renamed := <[p := private bytes]> (delete temp fs) in
    match failure io with
    | Some (CreateTemporary, k) => (remove_temporary io temp fs, fail CreateTemporary k)
    | Some (WriteTemporary n, k) =>
        (remove_temporary io temp (<[temp := private (take n bytes)]> fs), fail (WriteTemporary n) k)
    | Some (SyncTemporary, k) =>
        (remove_temporary io temp (<[temp := private bytes]> fs), fail SyncTemporary k)
    | Some (Rename, k) =>
        (remove_temporary io temp (<[temp := private bytes]> fs), fail Rename k)
    | Some (OpenDirectory, k) =>
        match state_directory p with
        | Some _ => (remove_temporary io temp renamed, fail OpenDirectory k)
        | None => (renamed, Ok ())
        end
    | Some (CreateDirectory, _) | None => (renamed, Ok ())
    end.
Definition write_state (io : state_io) (p : rstr) (s : ConversationStateV1) (force : bool) : M unit :=
  fun fs =>
  match
    _ ← validate_state s;
    _ ← (if exists_path o p fs then
           _ ← check_private_existing p fs;
           if negb force then bail (Msg "refusing to overwrite existing file {}" [AStr p]) else Ok ()
         else Ok ());
    bytes ← context "encode conversation state" (of_text (to_vec_pretty s));
    _ ← bail_if (MAX_STATE_BYTES <? Z.of_nat (length bytes))
      "conversation state exceeds the bounded file size";
    match failure io, state_directory p with
    | Some (CreateDirectory, k), Some _ =>
        Err [CText (failure_text p CreateDirectory); CIo k]
    | _, _ => Ok bytes
    end
  with
  | Err e => (fs, Err e)
  | Ok bytes => replace_file io p bytes fs
  end.
End StateFile.

(** ** Running *)
(** What a run does, in order. *)
Inductive event `{Conversation.Urls} : Type :=
| NodeSent (r : Client.api_request)
| EmbedderSent (url text : rstr)
| ServiceSent (r : ConversationApi.service_request)
(** For a live profile, by which an interface is verified. *)
| ProfileSent (r : ConversationApi.service_request)
| Printed (v : Json.Value).
Definition S `{Conversation.Urls} (A : Type) : Type := files -> files * list event * CliTx.outcome A.
Section Running.
Context `{Conversation.Urls}.
#[global] Instance S_ret : MRet S := fun A a fs => (fs, [], CliTx.Done (Ok a)).
#[global] Instance S_bind : MBind S := fun A B k m fs =>
  match m fs with
  | (fs', es, CliTx.Done (Ok a)) => let '(fs'', es', r) := k a fs' in (fs'', es ++ es', r)
  | (fs', es, CliTx.Done (Err e)) => (fs', es, CliTx.Done (Err e))
  | (fs', es, CliTx.Panicked) => (fs', es, CliTx.Panicked)
  | (fs', es, CliTx.Waiting) => (fs', es, CliTx.Waiting)
  end.
Definition pure {A} (r : result error A) : S A := fun fs => (fs, [], CliTx.Done r).
Definition reads {A} (f : files -> result error A) : S A := fun fs => (fs, [], CliTx.Done (f fs)).
Definition writes {A} (m : M A) : S A := fun fs => let '(fs', r) := m fs in (fs', [], CliTx.Done r).
Definition of_T {A} (t : CliTx.T A) : S A := fun fs =>
  let '(fs', sent, r) := t fs in
  (fs', (fun q => match q with
                  | CliTx.ToNode r => NodeSent r
                  | CliTx.ToEmbedder url text => EmbedderSent url text
                  end) <$> sent, r).
Definition print (v : Json.Value) : S unit := fun fs => (fs, [Printed v], CliTx.Done (Ok ())).
End Running.

(** [Serialize] of the values the commands print. *)
Class ToJson (T : Type) := { to_value : T -> Json.Value }.

Section Commands.
Context `{UrlOps : Client.UrlOps, Digests, Hex, Ed25519, Conversation.Uuids, Conversation.Ips,
  Conversation.X25519, Conversation.Hkdf, Conversation.Base64,
  Keystore.Argon2, Aead, Mnemonic.Bip39, KeystoreJson, StateJson,
  !CliTx.FileJson ConversationStateV1, !Conversation.JsonCodec Conversation.ConversationProfileV2,
  !Conversation.JsonCodec Conversation.MessagePayload, !Conversation.JsonCodec Conversation.E2eEnvelopeV1}.
Context `{!ConversationApi.ApiDecode Conversation.ConversationProfileV2}.
Context (o : os) (symlink : rstr -> bool) (n : CliTx.node).
(** The service: its reply to each request. *)
Context (reply_of : ConversationApi.service_request -> ConversationApi.reply).

Definition ask_node (r : Client.api_request) : S Json.Value := fun fs =>
  (fs, [NodeSent r], CliTx.Done (CliTx.answer n r)).
Definition ask_service {T} `{!ConversationApi.ApiDecode T}
    (r : result error ConversationApi.service_request) : S T := fun fs =>
  match r with
  | Err e => (fs, [], CliTx.Done (Err e))
  | Ok r => (fs, [ServiceSent r], CliTx.Done (ConversationApi.read_reply r (reply_of r)))
  end.
Definition tell_service (r : result error ConversationApi.service_request) : S unit := fun fs =>
  match r with
  | Err e => (fs, [], CliTx.Done (Err e))
  | Ok r => (fs, [ServiceSent r], CliTx.Done (ConversationApi.read_empty (reply_of r)))
  end.
Definition s_context {A} (m : string) (x : S A) : S A := fun fs =>
  match x fs with
  | (fs', es, CliTx.Done r) => (fs', es, CliTx.Done (context m r))
  | other => other
  end.

(** ** Finding the service *)
Definition metadata_byte (v : Json.Value) : result error byte :=
  match CliTx.as_u64 v with
  | Some b => if b <=? 255 then Ok (byte_of b)
              else bail (msg "provider metadata contains a non-byte value")
  | None => bail (msg "provider metadata contains a non-byte value")
  end.
Definition profile_of_agent (agent : Json.Value) : result error Conversation.ConversationProfileV2 :=
  metadata ← opt_context "provider agent response has no metadata byte array"
    (v ← Client.value_get (lit "metadata") agent;
     match v with Json.Array l => Some l | _ => None end);
  _ ← bail_if (4096 <? length metadata)%nat
    "provider conversation profile exceeds the agent metadata limit";
  bytes ← CliTx.map_all metadata_byte metadata;
  context "decode provider conversation profile" (Conversation.conversation_profile_from_metadata bytes).
Definition provider_profile (provider : rstr) : S Conversation.ConversationProfileV2 :=
  agent ← s_context "fetch provider agent profile" (ask_node (Client.get (lit "/v1/agents/" ++ provider)));
  pure (profile_of_agent agent).
(** The live profile a client's service serves. *)
Definition live (c : Conversation.ConversationClient) : result error Conversation.ConversationProfileV2 :=
  r ← ConversationApi.profile c; ConversationApi.read_reply r (reply_of r).
(** [from_profile], with the requests for the live profiles. *)
Definition connect (profile : Conversation.ConversationProfileV2)
    (policy : Conversation.ConversationTransportPolicy) : S Conversation.ConversationClient := fun fs =>
  let '(asked, r) := answered live (Conversation.ask_from_profile profile policy) in
  (fs, omap (fun c => ProfileSent <$> ok (ConversationApi.profile c)) asked, CliTx.Done r).
Inductive TransportPolicyArg : Type := ArgAuto | ArgHttpsOnly | ArgZinchaTlsOnly.
Definition transport_policy (value : TransportPolicyArg) : Conversation.ConversationTransportPolicy :=
  match value with
  | ArgAuto => Conversation.Auto
  | ArgHttpsOnly => Conversation.HttpsOnly
  | ArgZinchaTlsOnly => Conversation.ZinchaTlsOnly
  end.
Coercion transport_policy : TransportPolicyArg >-> Conversation.ConversationTransportPolicy.
Inductive SubjectKindArg : Type := ArgTask | ArgAgreement | ArgToolJob | ArgToolSession.
Definition subject_kind (value : SubjectKindArg) : Conversation.SubjectKind :=
  match value with
  | ArgTask => Conversation.Task
  | ArgAgreement => Conversation.Agreement
  | ArgToolJob => Conversation.ToolJob
  | ArgToolSession => Conversation.ToolSession
  end.
Inductive PrivacyModeArg : Type := ArgPlatformReadable | ArgEndToEnd.
Definition privacy_mode (value : PrivacyModeArg) : Conversation.PrivacyMode :=
  match value with
  | ArgPlatformReadable => Conversation.PlatformReadable
  | ArgEndToEnd => Conversation.EndToEnd
  end.
Record ProfileTargetArgs : Type := {
  pt_provider : rstr; pt_transport : TransportPolicyArg;
}.
Record StateTargetArgs : Type := {
  ta_state : rstr; ta_transport : TransportPolicyArg;
}.
Definition verified_provider_client (target : ProfileTargetArgs)
    : S (Conversation.ConversationProfileV2 * Conversation.ConversationClient) :=
  provider ← pure (canonical_address (pt_provider target));
  profile ← provider_profile provider;
  client ← connect profile (pt_transport target);
  mret (profile, client).
(** [now] is the clock when the session is looked at. *)
Definition authenticated_client (now : Z) (s : ConversationStateV1)
    (policy : Conversation.ConversationTransportPolicy) : S Conversation.ConversationClient :=
  token ← pure (ok_or (st_access_token s)
    [CText (msg "conversation session is unavailable; run conversation renew")]);
  _ ← pure (bail_if (match session_expires_at_ms s with Some e => e <=? now | None => false end)
    "conversation session expired; run conversation renew");
  profile ← provider_profile (provider_address s);
  _ ← pure (bail_if (negb (bool_decide (Conversation.service_id profile
                                        = Conversation.d_home_service_id (st_delegation s))))
    "on-chain conversation service ID no longer matches the session delegation");
  client ← connect profile policy;
  mret (Conversation.with_access_token token client).
Definition validate_delegation_info (profile : Conversation.ConversationProfileV2)
    (info : ConversationApi.ConversationDelegationInfo) : result error unit :=
  _ ← bail_if (negb (ConversationApi.i_protocol_version info =? 1)
        || negb (bool_decide (ConversationApi.i_service_id info = Conversation.service_id profile)))
    "conversation delegation information does not match the authenticated profile";
  _ ← bail_if ((ConversationApi.i_required_scope_mask info =? 0)
        || (ConversationApi.i_default_grant_lifetime_ms info <? 3600000)
        || (ConversationApi.i_maximum_grant_lifetime_ms info
            <? ConversationApi.i_default_grant_lifetime_ms info))
    "conversation delegation information is invalid";
  active ← parse_public_key (ConversationApi.k_public_key (ConversationApi.i_active_key info));
  _ ← bail_if (negb (bool_decide (address_to_hex (pk_to_address active)
                                  = ConversationApi.k_address (ConversationApi.i_active_key info))))
    "conversation active chain-read key address is invalid";
  match ConversationApi.i_next_key info with
  | Some next =>
      key ← parse_public_key (ConversationApi.k_public_key next);
      bail_if (negb (bool_decide (address_to_hex (pk_to_address key) = ConversationApi.k_address next))
               || bool_decide (key = active))
        "conversation next chain-read key is invalid"
  | None => Ok ()
  end.

(** ** Sessions *)
Context `{!ConversationApi.ApiDecode ConversationApi.ConversationDelegationInfo}
  `{!ConversationApi.ApiDecode Conversation.ChallengeResponse}
  `{!ConversationApi.ApiDecode ConversationApi.SessionResponse}
  `{!ConversationApi.ApiDecode ConversationApi.ConversationRecord}
  `{!ConversationApi.ApiDecode Conversation.MessageRecord}
  `{!ConversationApi.ApiDecode (Conversation.Page Conversation.MessageRecord)}.
Context `{!ToJson Conversation.ConversationProfileV2} `{!ToJson ConversationApi.ConversationDelegationInfo}
  `{!ToJson ConversationApi.ConversationRecord} `{!ToJson Conversation.MessageRecord}
  `{!ToJson (Conversation.Page Conversation.MessageRecord)} `{!ToJson Conversation.MessagePayload}
  `{!ToJson Conversation.SubjectRef} `{!ToJson Conversation.PrivacyMode}.
(** The clock and the random draws of a run, and how its writes of the state go. *)
Record draws : Type := {
  now_ms : Z;
  operational : Keypair;
  encryption : bytesN 32;
  delegation_uuid : bytesN 16;
  delegation_nonce : bytesN 16;
  message_uuid : bytesN 16;
  e2e : Conversation.e2e_random;
  wrap_nonce : nat -> bytesN 24;
  now_millis : result error Z;
  wallet_now : Z;
  state_write : nat -> state_io;
}.
Definition j_uuid (id : bytesN 16) : Json.Value := Json.Str (Conversation.uuid_to_string id).
Definition j_int (z : Z) : Json.Value := Json.Number (show_i z).
Definition j_opt_int (z : option Z) : Json.Value := default Json.Null (j_int <$> z).

Definition save (d : draws) (p : rstr) (s : ConversationStateV1) (force : bool) : S unit :=
  writes (write_state o symlink (state_write d 0) p s force).
Definition load (p : rstr) : S ConversationStateV1 := reads (read_state o symlink p).

(** A delegation of the account, and the session the service opens for it. *)
Definition open_session (d : draws) (client : Conversation.ConversationClient) (account op : Keypair)
    (secret : bytesN 32) (subject : Conversation.SubjectRef) (service : rstr) (lifetime : Z)
    : S (Delegation * ConversationApi.SessionResponse) :=
  expires ← pure (delegation_expiry (now_ms d) lifetime);
  delegation ← pure (Conversation.create_delegation (delegation_uuid d) (delegation_nonce d) account op
    (Conversation.x25519_public secret)
    {| Conversation.o_subject := subject; Conversation.o_home_service_id := service;
       Conversation.o_not_before_ms := now_ms d; Conversation.o_expires_at_ms := expires;
       Conversation.o_capabilities := [lit "read"; lit "write"] |});
  challenge ← ask_service (ConversationApi.issue_challenge client
    {| ConversationApi.cr_participant_address := address_to_hex (keypair_address account);
       ConversationApi.cr_subject := subject |});
  session ← ask_service (ConversationApi.create_session client
    {| ConversationApi.sr_challenge_id := Conversation.challenge_id challenge;
       ConversationApi.sr_delegation := delegation;
       ConversationApi.sr_challenge_signature := Conversation.challenge_signature op challenge |});
  mret (delegation, session).

Record OpenArgs : Type := {
  oa_target : ProfileTargetArgs;
  oa_account : KeySourceArgs;
  oa_subject_kind : SubjectKindArg;
  oa_subject_id : rstr;
  oa_privacy_mode : PrivacyModeArg;
  oa_lifetime_secs : Z;
  oa_state : rstr;
  oa_force : bool;
}.
Definition open (d : draws) (args : OpenArgs) (json : bool) : S unit :=
  _ ← pure (bail_if (oa_lifetime_secs args =? 0) "delegation lifetime must be greater than zero");
  _ ← reads (fun fs =>
    if exists_path o (oa_state args) fs then
      _ ← check_private_existing o symlink (oa_state args) fs;
      if negb (oa_force args) then bail (Msg "refusing to overwrite existing file {}" [AStr (oa_state args)])
      else Ok ()
    else Ok ());
  provider ← pure (canonical_address (pt_provider (oa_target args)));
  pc ← verified_provider_client (oa_target args);
  let '(profile, client) := pc in
  let mode := privacy_mode (oa_privacy_mode args) in
  _ ← pure (bail_if (negb (bool_decide (mode ∈ Conversation.privacy_modes profile)))
    "conversation service does not advertise the selected privacy mode");
  info ← ask_service (ConversationApi.delegation_info client);
  _ ← pure (validate_delegation_info profile info);
  account ← reads (load_keypair o (oa_account args));
  let subject := {| Conversation.s_network := ConversationApi.i_network info;
                    Conversation.s_chain_id := ConversationApi.i_chain_id info;
                    Conversation.s_kind := subject_kind (oa_subject_kind args);
                    Conversation.s_id := oa_subject_id args |} in
  ds ← open_session d client account (operational d) (encryption d) subject
         (Conversation.service_id profile) (oa_lifetime_secs args);
  let '(delegation, session) := ds in
  conversation ← ask_service (ConversationApi.resolve
    (Conversation.with_access_token (ConversationApi.ss_access_token session) client)
    {| ConversationApi.rr_subject := subject; ConversationApi.rr_provider_address := provider;
       ConversationApi.rr_privacy_mode := mode |});
  let state := {|
    st_version := STATE_VERSION; provider_address := provider; st_profile := profile;
    st_subject := subject; st_privacy_mode := mode;
    operational_secret_key := hex_encode (bn (operational d));
    encryption_secret_key := hex_encode (bn (encryption d)); st_delegation := delegation;
    decryption_key_ids := [Conversation.uuid_to_string (Conversation.d_delegation_id delegation)];
    st_access_token := Some (ConversationApi.ss_access_token session);
    session_expires_at_ms := Some (ConversationApi.ss_expires_at_ms session);
    st_conversation_id := Some (ConversationApi.v_id conversation);
    last_observed_sequence := 0; last_acknowledged_sequence := 0 |} in
  _ ← save d (oa_state args) state (oa_force args);
  print (emit "conversation-open" (Json.Object
    [(lit "state_file", Json.Str (oa_state args));
     (lit "provider_address", Json.Str provider);
     (lit "participant_address", Json.Str (Conversation.d_participant_address delegation));
     (lit "delegation_id", j_uuid (Conversation.d_delegation_id delegation));
     (lit "delegation_expires_at_ms", j_int (Conversation.d_expires_at_ms delegation));
     (lit "session_expires_at_ms", j_opt_int (session_expires_at_ms state));
     (lit "conversation", to_value conversation)]) json).

Record RenewArgs : Type := {
  ra_target : StateTargetArgs; ra_account : KeySourceArgs; ra_lifetime_secs : Z;
}.
Definition renew (d : draws) (args : RenewArgs) (json : bool) : S unit :=
  let path := ta_state (ra_target args) in
  _ ← pure (bail_if (ra_lifetime_secs args =? 0) "delegation lifetime must be greater than zero");
  state ← load path;
  account ← reads (load_keypair o (ra_account args));
  _ ← pure (bail_if (negb (bool_decide (address_to_hex (keypair_address account)
                                        = Conversation.d_participant_address (st_delegation state))))
    "conversation state participant does not match account signer");
  profile ← provider_profile (provider_address state);
  client ← connect profile (ta_transport (ra_target args));
  info ← ask_service (ConversationApi.delegation_info client);
  _ ← pure (validate_delegation_info profile info);
  _ ← pure (bail_if (negb (bool_decide (Conversation.s_network (st_subject state) = ConversationApi.i_network info))
        || negb (bool_decide (Conversation.s_chain_id (st_subject state) = ConversationApi.i_chain_id info)))
    "conversation service chain identity changed");
  op ← pure (operational_key state);
  secret ← pure (encryption_secret state);
  ds ← open_session d client account op secret (st_subject state) (Conversation.service_id profile)
         (ra_lifetime_secs args);
  let '(delegation, session) := ds in
  _ ← match st_conversation_id state with
      | Some id =>
          c ← ask_service (T := ConversationApi.ConversationRecord) (ConversationApi.conversation
                (Conversation.with_access_token (ConversationApi.ss_access_token session) client) id);
          mret ()
      | None => mret ()
      end;
  let state := state
    <| st_profile := profile |>
    <| st_delegation := delegation |>
    <| st_access_token := Some (ConversationApi.ss_access_token session) |>
    <| session_expires_at_ms := Some (ConversationApi.ss_expires_at_ms session) |>
    <| decryption_key_ids := retain_decryption_key_id (decryption_key_ids state)
         (Conversation.uuid_to_string (Conversation.d_delegation_id delegation)) |> in
  _ ← save d path state true;
  print (emit "conversation-renew" (Json.Object
    [(lit "state_file", Json.Str path);
     (lit "delegation_id", j_uuid (Conversation.d_delegation_id delegation));
     (lit "delegation_expires_at_ms", j_int (Conversation.d_expires_at_ms delegation));
     (lit "session_expires_at_ms", j_opt_int (session_expires_at_ms state));
     (lit "conversation_id", j_opt (st_conversation_id state))]) json).

(** ** Reading *)
Definition status (p : rstr) (json : bool) : S unit :=
  state ← load p;
  let d := st_delegation state in
  print (emit "conversation-status" (Json.Object
    [(lit "state_file", Json.Str p); (lit "provider_address", Json.Str (provider_address state));
     (lit "service_id", Json.Str (Conversation.service_id (st_profile state)));
     (lit "subject", to_value (st_subject state));
     (lit "privacy_mode", to_value (st_privacy_mode state));
     (lit "participant_address", Json.Str (Conversation.d_participant_address d));
     (lit "delegation_id", j_uuid (Conversation.d_delegation_id d));
     (lit "delegation_expires_at_ms", j_int (Conversation.d_expires_at_ms d));
     (lit "session_expires_at_ms", j_opt_int (session_expires_at_ms state));
     (lit "session_available", Json.Boolean (bool_decide (is_Some (st_access_token state))));
     (lit "conversation_id", j_opt (st_conversation_id state));
     (lit "last_observed_sequence", j_int (last_observed_sequence state));
     (lit "last_acknowledged_sequence", j_int (last_acknowledged_sequence state));
     (lit "outbox", Json.Str (default_outbox_path p))]) json).
Definition get (d : draws) (target : StateTargetArgs) (json : bool) : S unit :=
  state ← load (ta_state target);
  id ← pure (conversation_id state);
  client ← authenticated_client (now_ms d) state (ta_transport target);
  c ← ask_service (T := ConversationApi.ConversationRecord) (ConversationApi.conversation client id);
  print (emit "conversation-get" (to_value c) json).
Definition observed (s : ConversationStateV1) (sequence : Z) : ConversationStateV1 :=
  s <| last_observed_sequence := Z.max (last_observed_sequence s) sequence |>.
Record MessagesArgs : Type := {
  ma_target : StateTargetArgs; ma_after : option Z; ma_limit : Z; ma_advance_cursor : bool;
}.
Definition messages (d : draws) (args : MessagesArgs) (json : bool) : S unit :=
  let path := ta_state (ma_target args) in
  state ← load path;
  id ← pure (conversation_id state);
  let after := default (last_observed_sequence state) (ma_after args) in
  client ← authenticated_client (now_ms d) state (ta_transport (ma_target args));
  page ← ask_service (T := Conversation.Page Conversation.MessageRecord)
           (ConversationApi.messages client id after (ma_limit args));
  _ ← (if ma_advance_cursor args then
         match Conversation.m_sequence <$> Conversation.items page with
         | [] => mret ()
         | sequence :: rest => save d path (observed state (foldl Z.max sequence rest)) true
         end
       else mret ());
  print (emit "conversation-messages" (to_value page) json).

Record WatchArgs : Type := { wa_target : StateTargetArgs; wa_after : option Z; wa_limit : nat }.
Definition stream_value (m : Conversation.MessageRecord) (json : bool) : Json.Value :=
  if json then
    Json.Object [(lit "version", Json.Number (lit "1")); (lit "ok", Json.Boolean true);
                 (lit "command", Json.Str (lit "conversation-watch")); (lit "data", to_value m)]
  else to_value m.
(** A request of the event stream; none is sent when its URL is refused. *)
Definition stream_asks (r : result error ConversationApi.service_request) : S unit := fun fs =>
  (fs, match r with Ok r => [ServiceSent r] | Err _ => [] end, CliTx.Done (Ok ())).
(** The loop over what the stream does, its requests and the messages it yields, and how it then goes
    on; [k] is the number delivered. *)
Fixpoint follow (d : draws) (client : Conversation.ConversationClient) (id p : rstr) (limit : nat)
    (json : bool) (k : nat) (state : ConversationStateV1) (es : list Outbox.stream_event)
    (stop : Outbox.outcome) : S unit :=
  match es with
  | [] => match stop with
          | Outbox.Stop e => pure (Err e)
          | Outbox.Done | Outbox.Wait => fun fs => (fs, [], CliTx.Waiting)
          end
  | Outbox.EventsAsked after :: es' =>
      _ ← stream_asks (ConversationApi.event_stream client id after);
      follow d client id p limit json k state es' stop
  | Outbox.PageAsked after :: es' =>
      _ ← stream_asks (ConversationApi.messages client id after 100);
      follow d client id p limit json k state es' stop
  | Outbox.Yielded m :: es' =>
      _ ← print (stream_value m json);
      let state := observed state (Conversation.m_sequence m) in
      _ ← writes (write_state o symlink (state_write d k) p state true);
      if negb (limit =? 0)%nat && (limit <=? k + 1)%nat then mret ()
      else follow d client id p limit json (k + 1) state es' stop
  end.
(** [decode] reads a message of an event; [connections] is what the event stream meets. *)
Definition watch (decode : rstr -> result rstr Conversation.MessageRecord)
    (connections : list Outbox.connection) (d : draws) (args : WatchArgs) (json : bool) : S unit :=
  let path := ta_state (wa_target args) in
  state ← load path;
  id ← pure (conversation_id state);
  let after := default (last_observed_sequence state) (wa_after args) in
  _ ← pure (bail_if (after <? 0) "message cursor cannot be negative");
  client ← authenticated_client (now_ms d) state (ta_transport (wa_target args));
  let url cursor := _ ← ConversationApi.event_stream client id cursor; Ok () in
  let '(es, _, stop) := Outbox.stream decode url (Outbox.stream_start after) connections in
  follow d client id path (wa_limit args) json 0 state es stop.

Record AcknowledgeArgs : Type := { aa_target : StateTargetArgs; aa_through_sequence : Z }.
Definition acknowledge (d : draws) (args : AcknowledgeArgs) (json : bool) : S unit :=
  let path := ta_state (aa_target args) in
  let through := aa_through_sequence args in
  state ← load path;
  _ ← pure (bail_if ((through <? last_acknowledged_sequence state)
                     || (last_observed_sequence state <? through))
    "acknowledgement must advance within the locally observed sequence range");
  id ← pure (conversation_id state);
  client ← authenticated_client (now_ms d) state (ta_transport (aa_target args));
  _ ← tell_service (ConversationApi.acknowledge client id through);
  _ ← save d path (state <| last_acknowledged_sequence := through |>) true;
  print (emit "conversation-acknowledge" (Json.Object
    [(lit "conversation_id", Json.Str id); (lit "through_sequence", j_int through)]) json).
Definition revoke_session (d : draws) (target : StateTargetArgs) (json : bool) : S unit :=
  state ← load (ta_state target);
  client ← authenticated_client (now_ms d) state (ta_transport target);
  let id := Conversation.d_delegation_id (st_delegation state) in
  _ ← tell_service (ConversationApi.revoke_delegation client id);
  _ ← save d (ta_state target)
        (state <| st_access_token := None |> <| session_expires_at_ms := None |>) true;
  print (emit "conversation-revoke-session" (Json.Object
    [(lit "delegation_id", j_uuid id); (lit "state_file", Json.Str (ta_state target));
     (lit "revoked", Json.Boolean true)]) json).

Record DecryptArgs : Type := {
  da_state : rstr; da_message_file : rstr; da_recipient_key_id : option rstr;
}.
(** [error_text] is an error's [{:#}] text. *)
Fixpoint try_keys (error_text : error -> rstr) (conversation : rstr) (epoch : Z)
    (m : Conversation.MessageRecord) (secret : bytesN 32) (failures ids : list rstr)
    : result error (rstr * Conversation.MessagePayload) :=
  match ids with
  | [] => bail (Msg "message could not be decrypted with retained key IDs: {}"
                  [AStr (join (lit "; ") failures)])
  | id :: ids' =>
      match Conversation.decrypt_e2e conversation epoch (Conversation.m_payload m) id secret with
      | Ok p => Ok (id, p)
      | Err e => try_keys error_text conversation epoch m secret
                   (failures ++ [id ++ lit ": " ++ error_text e]) ids'
      end
  end.
Definition decrypt `{!CliTx.FileJson Conversation.MessageRecord} (error_text : error -> rstr)
    (args : DecryptArgs) (json : bool) : S unit :=
  state ← load (da_state args);
  m ← reads (read_private_json_limited (T := Conversation.MessageRecord) o symlink
               (da_message_file args) MAX_PAYLOAD_BYTES);
  conversation ← pure (conversation_id state);
  _ ← pure (bail_if (negb (bool_decide (Conversation.m_conversation_id m = conversation)))
    "message conversation does not match state");
  epoch ← pure (ok_or (Conversation.m_key_epoch m) [CText (msg "message has no E2E key epoch")]);
  secret ← pure (encryption_secret state);
  found ← pure (try_keys error_text conversation epoch m secret []
    match da_recipient_key_id args with Some id => [id] | None => decryption_key_ids state end);
  print (emit "conversation-decrypt" (Json.Object
    [(lit "conversation_id", Json.Str conversation);
     (lit "message_id", j_uuid (Conversation.m_message_id m));
     (lit "sender", Json.Str (Conversation.m_sender m)); (lit "key_epoch", Client.j_u64 epoch);
     (lit "recipient_key_id", Json.Str found.1); (lit "payload", to_value found.2)]) json).

(** ** Sending *)
(** An operation of the outbox over its file: a new file is private; rewriting a file with the
    same bytes is taken to leave its mode. *)
Definition outbox_file (p : rstr) (fs : files) : Outbox.file := contents <$> fs !! p.
Definition with_outbox (p : rstr) (f : Outbox.file) (fs : files) : files :=
  if bool_decide (f = outbox_file p fs) then fs
  else match f with
       | Some b => <[p := {| contents := b; mode := Z.land 384 (Z.lnot (umask o)) |}]> fs
       | None => delete p fs
       end.
Definition on_outbox {A} (p : rstr) (op : Outbox.file -> Outbox.file * result error A) : M A :=
  fun fs => let '(f, r) := op (outbox_file p fs) in (with_outbox p f fs, r).
Definition try_service {T} `{!ConversationApi.ApiDecode T}
    (r : result error ConversationApi.service_request) : S (result error T) := fun fs =>
  match r with
  | Err e => (fs, [], CliTx.Done (Ok (Err e)))
  | Ok r => (fs, [ServiceSent r], CliTx.Done (Ok (ConversationApi.read_reply r (reply_of r))))
  end.

(** [serde_json::to_vec] of a payload, and [Uuid::parse_str]. *)
Context (payload_to_vec : Conversation.MessagePayload -> result rstr (list byte))
  (uuid_parse : rstr -> result rstr (bytesN 16)).
Context `{!CliTx.FileJson Conversation.MessagePayload} `{!CliTx.FileJson (list Conversation.E2eRecipient)}
  `{!Outbox.SerdeJson (list Outbox.QueuedMessage)}.
Context (error_text : error -> rstr) (ios : nat -> Outbox.io).

Record SendArgs : Type := {
  sa_target : StateTargetArgs;
  sa_text : option rstr;
  sa_payload_file : option rstr;
  sa_reply_to : option rstr;
  sa_key_epoch : option Z;
  sa_e2e_recipients_file : option rstr;
  sa_outbox : option rstr;
}.
Definition given_payload (args : SendArgs) (fs : files) : result error Conversation.MessagePayload :=
  match sa_text args, sa_payload_file args with
  | Some text, None => Ok (Conversation.Plaintext [Conversation.Text text])
  | None, Some path => read_private_json_limited o symlink path MAX_PAYLOAD_BYTES fs
  | _, _ => bail (msg "provide exactly one of --text or --payload-file")
  end.
Definition sealed_payload (d : draws) (args : SendArgs) (id : rstr)
    (payload : Conversation.MessagePayload) (fs : files) : result error Conversation.MessagePayload :=
  match sa_e2e_recipients_file args with
  | None => Ok payload
  | Some path =>
      epoch ← ok_or (sa_key_epoch args) [CText (msg "--key-epoch is required for E2E encryption")];
      recipients ← read_json_limited (T := list Conversation.E2eRecipient) o path MAX_PAYLOAD_BYTES fs;
      Conversation.encrypt_e2e (e2e d) id epoch payload (imap (fun i r => (wrap_nonce d i, r)) recipients)
  end.
Definition check_privacy (mode : Conversation.PrivacyMode) (payload : Conversation.MessagePayload)
    : result error unit :=
  match mode, payload with
  | Conversation.EndToEnd, Conversation.Plaintext _ =>
      bail (msg "end_to_end conversations require encrypted payloads")
  | Conversation.PlatformReadable, Conversation.Ciphertext _ =>
      bail (msg "platform_readable conversations require plaintext payloads")
  | _, _ => Ok ()
  end.
(** The signed message [send] makes of its arguments. *)
Definition message_to_send (d : draws) (args : SendArgs) (state : ConversationStateV1) (id : rstr)
    (fs : files) : result error Conversation.SubmitMessageRequest :=
  payload ← given_payload args fs;
  payload ← sealed_payload d args id payload fs;
  _ ← check_privacy (st_privacy_mode state) payload;
  bytes ← of_text (payload_to_vec payload);
  _ ← bail_if (MAX_PAYLOAD_BYTES <? Z.of_nat (length bytes))
    "conversation payload exceeds the bounded payload size";
  reply ← context "parse reply message ID"
    (CliTx.map_opt (fun t => of_text (uuid_parse t)) (sa_reply_to args));
  op ← operational_key state;
  Conversation.sign_message (message_uuid d) (now_ms d) op (Conversation.d_delegation_id (st_delegation state)) id
    (Conversation.d_participant_address (st_delegation state)) payload reply (sa_key_epoch args).
Definition outbox_path_of (outbox : option rstr) (state : rstr) : rstr :=
  default (default_outbox_path state) outbox.
(** After the message was queued and sent. *)
Definition settle (d : draws) (path outbox : rstr) (state : ConversationStateV1)
    (request : Conversation.SubmitMessageRequest) (r : result error Conversation.MessageRecord)
    (json : bool) : S unit :=
  let box := Outbox.outbox_new in
  match r with
  | Ok record =>
      _ ← writes (on_outbox outbox (fun f => Outbox.mark_sent box f (ios 1) (Conversation.message_id request)));
      _ ← save d path (observed state (Conversation.m_sequence record)) true;
      print (emit "conversation-send" (Json.Object
        [(lit "message", to_value record); (lit "outbox", Json.Str outbox);
         (lit "queued", Json.Boolean false)]) json)
  | Err e =>
      _ ← writes (on_outbox outbox (fun f => Outbox.mark_failed box f (ios 1)
                    (Conversation.message_id request) (error_text e) (now_ms d)));
      pure (Err (CText (Msg "message remains queued in {}" [AStr outbox]) :: e))
  end.
Definition send (d : draws) (args : SendArgs) (json : bool) : S unit :=
  let path := ta_state (sa_target args) in
  state ← load path;
  id ← pure (conversation_id state);
  client ← authenticated_client (now_ms d) state (ta_transport (sa_target args));
  request ← reads (message_to_send d args state id);
  let outbox := outbox_path_of (sa_outbox args) path in
  _ ← reads (check_private_existing o symlink outbox);
  _ ← writes (on_outbox outbox (fun f => Outbox.enqueue Outbox.outbox_new f (ios 0) (now_ms d) id request));
  r ← try_service (ConversationApi.submit client id request);
  settle d path outbox state request r json.

Record OutboxFlushArgs : Type := {
  fa_target : StateTargetArgs; fa_outbox : option rstr; fa_limit : nat;
}.
(** [flush] with its requests: [Outbox.flush] is what it does to the file. *)
Definition submit_item (client : Conversation.ConversationClient) (i : Outbox.QueuedMessage)
    : S (result error Conversation.MessageRecord) :=
  try_service (ConversationApi.submit client (Outbox.q_conversation_id i) (Outbox.q_request i)).
Fixpoint flush_items (d : draws) (client : Conversation.ConversationClient) (outbox : rstr) (k : nat)
    (sent : Z) (items : list Outbox.QueuedMessage) : S Z :=
  match items with
  | [] => mret sent
  | i :: items' =>
      r ← submit_item client i;
      match r with
      | Ok _ =>
          _ ← writes (on_outbox outbox (fun f => Outbox.mark_sent Outbox.outbox_new f (ios k) (Outbox.q_id i)));
          flush_items d client outbox (k + 1) (sent + 1) items'
      | Err e =>
          _ ← writes (on_outbox outbox (fun f => Outbox.mark_failed Outbox.outbox_new f (ios k) (Outbox.q_id i)
                        (error_text e) (now_ms d)));
          flush_items d client outbox (k + 1) sent items'
      end
  end.
(** [first_io] is the read that lists the due messages. *)
Definition outbox_flush (first_io : Outbox.io) (d : draws) (args : OutboxFlushArgs) (json : bool) : S unit :=
  _ ← pure (bail_if ((fa_limit args =? 0)%nat || (500 <? fa_limit args)%nat)
    "outbox flush limit must be between 1 and 500");
  state ← load (ta_state (fa_target args));
  client ← authenticated_client (now_ms d) state (ta_transport (fa_target args));
  let path := outbox_path_of (fa_outbox args) (ta_state (fa_target args)) in
  _ ← reads (check_private_existing o symlink path);
  items ← reads (fun fs =>
    Outbox.due Outbox.outbox_new (outbox_file path fs) first_io (now_ms d) (fa_limit args));
  sent ← flush_items d client path 0 0 items;
  print (emit "conversation-outbox-flush" (Json.Object
    [(lit "outbox", Json.Str path); (lit "sent", Client.j_u64 sent)]) json).

(** ** The provider's grant *)
Context `{!Bincode Tx.Transaction} `{!Bincode Tx.SignedTransaction} `{!Wallet.Builder}.
Context (client : Client.ZinchaClient).
Definition signed_by_provider (build : CliTx.TxBuildArgs) (provider : Address) : S Wallet.AgentWallet :=
  wallet ← of_T (CliTx.resolve_wallet o n client build);
  _ ← pure (bail_if (negb (bool_decide (Wallet.address wallet = provider)))
    "conversation provider address does not match transaction signer");
  mret wallet.
Definition finish (label : string) (d : draws) (build : CliTx.TxBuildArgs) (wallet : Wallet.AgentWallet)
    (r : Wallet.request) (json : bool) : S unit :=
  signed ← of_T (CliTx.of_builder wallet (wallet_now d) r);
  v ← of_T (CliTx.finish_transaction o n label signed build json);
  print v.
Definition delegate_info (target : ProfileTargetArgs)
    : S (Conversation.ConversationProfileV2 * ConversationApi.ConversationDelegationInfo) :=
  pc ← verified_provider_client target;
  info ← ask_service (ConversationApi.delegation_info pc.2);
  _ ← pure (validate_delegation_info pc.1 info);
  mret (pc.1, info).
Definition authorize (d : draws) (target : ProfileTargetArgs) (build : CliTx.TxBuildArgs)
    (lifetime_ms : option Z) (fee : Z) (json : bool) : S unit :=
  provider ← pure (parse_address (pt_provider target));
  pi ← delegate_info target;
  let info := pi.2 in
  let lifetime := default (ConversationApi.i_default_grant_lifetime_ms info) lifetime_ms in
  _ ← pure (bail_if ((lifetime <? 3600000) || (ConversationApi.i_maximum_grant_lifetime_ms info <? lifetime))
    "conversation grant lifetime is outside service bounds");
  delegate ← pure (parse_public_key (ConversationApi.k_public_key (ConversationApi.i_active_key info)));
  now ← pure (now_millis d);
  expires ← pure (opt_context "conversation grant expiry overflows"
    (if now + lifetime <=? U64_MAX then Some (now + lifetime) else None));
  wallet ← signed_by_provider build provider;
  finish "conversation-authorize" d build wallet
    (Wallet.RqRpcReadDelegationGrant delegate (ConversationApi.i_service_id info)
       (ConversationApi.i_required_scope_mask info) expires fee) json.
Definition deauthorize (d : draws) (target : ProfileTargetArgs) (build : CliTx.TxBuildArgs)
    (delegation_id : option rstr) (fee : Z) (json : bool) : S unit :=
  provider ← pure (parse_address (pt_provider target));
  wallet ← signed_by_provider build provider;
  id ← match delegation_id with
       | Some value => pure (parse_hash value)
       | None =>
           pi ← delegate_info target;
           delegate ← pure (parse_public_key
             (ConversationApi.k_public_key (ConversationApi.i_active_key pi.2)));
           mret (Delegation.rpc_read_delegation_id provider delegate (ConversationApi.i_service_id pi.2))
       end;
  finish "conversation-deauthorize" d build wallet (Wallet.RqRpcReadDelegationRevoke id fee) json.

Inductive ConversationCommands : Type :=
| Profile (target : ProfileTargetArgs)
| DelegationInfo (target : ProfileTargetArgs)
| Authorize (target : ProfileTargetArgs) (build : CliTx.TxBuildArgs) (lifetime_ms : option Z) (fee : Z)
| Deauthorize (target : ProfileTargetArgs) (build : CliTx.TxBuildArgs) (delegation_id : option rstr)
    (fee : Z)
| Open (args : OpenArgs)
| Renew (args : RenewArgs)
| Status (state : rstr)
| Get (target : StateTargetArgs)
| Send (args : SendArgs)
| Messages (args : MessagesArgs)
| Watch (args : WatchArgs)
| Acknowledge (args : AcknowledgeArgs)
| OutboxFlush (args : OutboxFlushArgs)
| Decrypt (args : DecryptArgs)
| RevokeSession (target : StateTargetArgs).
Context `{!CliTx.FileJson Conversation.MessageRecord}.
Context (decode : rstr -> result rstr Conversation.MessageRecord)
  (connections : list Outbox.connection) (first_io : Outbox.io).
Definition run_conversation (d : draws) (c : ConversationCommands) (json : bool) : S unit :=
  match c with
  | Profile target =>
      pc ← verified_provider_client target;
      provider ← pure (canonical_address (pt_provider target));
      print (emit "conversation-profile" (Json.Object
        [(lit "provider_address", Json.Str provider); (lit "profile", to_value pc.1);
         (lit "verified", Json.Boolean true)]) json)
  | DelegationInfo target =>
      pi ← delegate_info target;
      print (emit "conversation-delegation-info" (to_value pi.2) json)
  | Authorize target build lifetime_ms fee => authorize d target build lifetime_ms fee json
  | Deauthorize target build delegation_id fee => deauthorize d target build delegation_id fee json
  | Open args => open d args json
  | Renew args => renew d args json
  | Status state => status state json
  | Get target => get d target json
  | Send args => send d args json
  | Messages args => messages d args json
  | Watch args => watch decode connections d args json
  | Acknowledge args => acknowledge d args json
  | OutboxFlush args => outbox_flush first_io d args json
  | Decrypt args => decrypt error_text args json
  | RevokeSession target => revoke_session d target json
  end.
End Commands.

(** ** Properties of the state *)

(** What every command keeps of a state: whose it is, its keys, and how far it has come. *)
Record evolves (s s' : ConversationStateV1) : Prop := {
  ev_provider : provider_address s' = provider_address s;
  ev_subject : st_subject s' = st_subject s;
  ev_privacy : st_privacy_mode s' = st_privacy_mode s;
  ev_operational : operational_secret_key s' = operational_secret_key s;
  ev_encryption : encryption_secret_key s' = encryption_secret_key s;
  ev_conversation : st_conversation_id s' = st_conversation_id s;
  ev_observed : last_observed_sequence s <= last_observed_sequence s';
  ev_acknowledged : last_acknowledged_sequence s <= last_acknowledged_sequence s';
}.
#[global] Instance evolves_preorder : PreOrder evolves.
Proof.
  split; [by split|]. intros a b c [] []. split; [congruence..|by etrans|by etrans].
Qed.
Lemma evolves_observed s n : evolves s (observed s n).
Proof. split; cbn; [done..|lia|done]. Qed.

(** The retained identifiers stay distinct and bounded, the newest is kept, and at most one of
    the others is dropped, the oldest. *)
Lemma retained_ids ids v :
  NoDup ids -> (length ids <= MAX_DECRYPTION_KEY_IDS)%nat ->
  let r := retain_decryption_key_id ids v in
  NoDup r /\ (length r <= MAX_DECRYPTION_KEY_IDS)%nat /\ last r = Some v /\
  exists dropped, (length dropped <= 1)%nat /\
    List.filter (fun id => negb (bool_decide (id = v))) ids ++ [v] = dropped ++ r.
Proof.
  intros Hn Hl. unfold retain_decryption_key_id. set (kept := List.filter _ ids). cbv zeta.
  assert (length kept <= length ids)%nat as Hk by apply List.filter_length_le.
  assert (NoDup (kept ++ [v])) as Hnd.
  { apply NoDup_app. split; [by apply NoDup_ListNoDup, List.NoDup_filter, NoDup_ListNoDup|].
    split; [|apply NoDup_singleton]. intros x Hx ->%list_elem_of_singleton.
    apply list_elem_of_In, List.filter_In in Hx as [_ Hx].
    rewrite bool_decide_true in Hx by done. done. }
  rewrite length_app. cbn [length].
  set (k := (length kept + 1 - MAX_DECRYPTION_KEY_IDS)%nat).
  assert (k <= length kept)%nat as Hlt by (unfold k, MAX_DECRYPTION_KEY_IDS in *; lia).
  split; [by eapply sublist_NoDup, sublist_drop|].
  split; [rewrite length_drop, length_app; cbn; unfold k; lia|]. split.
  - rewrite drop_app_le by lia. by rewrite last_snoc.
  - exists (take k (kept ++ [v])). split; [rewrite length_take; unfold k; lia|].
    by rewrite take_drop.
Qed.

(** *** Replacing the file *)
Section FileProofs.
Context `{Digests, Hex, Ed25519, Conversation.Uuids, Conversation.Urls, Conversation.Ips,
  Conversation.X25519, !Conversation.JsonCodec Conversation.ConversationProfileV2,
  StateJson, !CliTx.FileJson ConversationStateV1}.
Context (o : os) (symlink : rstr -> bool).

Definition temporary (io : state_io) (p : rstr) : rstr :=
  with_extension (lit "tmp-" ++ hex_encode (bn (suffix io))) p.
Definition private_file (b : list byte) : file :=
  {| contents := b; mode := Z.land 384 (Z.lnot (umask o)) |}.
(** The bytes of a checked state. *)
Definition state_bytes (s : ConversationStateV1) (b : list byte) : Prop :=
  validate_state s = Ok () /\ to_vec_pretty s = Ok b /\ Z.of_nat (length b) <= MAX_STATE_BYTES.

Lemma remove_temporary_other io temp fs p :
  temp <> p -> remove_temporary io temp fs !! p = fs !! p.
Proof. intros Hp. unfold remove_temporary. case_match; [done|by apply lookup_delete_ne]. Qed.
(** Whatever goes wrong, a file ends as it was or, in one step, as the whole new one. *)
Lemma replace_file_at io p bytes fs fs' r :
  temporary io p <> p -> replace_file o io p bytes fs = (fs', r) ->
  (fs' !! p = fs !! p /\ is_ok r = false) \/ fs' !! p = Some (private_file bytes).
Proof.
  intros Hp. unfold replace_file. fold (temporary io p).
  assert (forall b, remove_temporary io (temporary io p)
    (<[temporary io p := private_file b]> fs) !! p = fs !! p) as Ht.
  { intros b. rewrite remove_temporary_other by done. by apply lookup_insert_ne. }
  case_bool_decide.
  { intros [= <- <-]. left. by rewrite remove_temporary_other. }
  destruct (failure io) as [[[| |k| | |] kind]|].
  6: destruct (state_directory p).
  all: intros [= <- <-]; try (left; split; [|done];
    first [by rewrite remove_temporary_other | by apply Ht]).
  all: right; rewrite ?remove_temporary_other by done; apply lookup_insert_eq.
Qed.
Lemma replace_file_other io p bytes fs q :
  q <> p -> temporary io p <> q -> (replace_file o io p bytes fs).1 !! q = fs !! q.
Proof.
  intros Hp Hq. unfold replace_file. fold (temporary io p).
  case_bool_decide; [by apply remove_temporary_other|].
  destruct (failure io) as [[[| |k| | |] kind]|]; try destruct (state_directory p); cbn;
    rewrite ?remove_temporary_other, ?lookup_insert_ne, ?lookup_delete_ne by done; done.
Qed.
Lemma write_state_at io p s force fs fs' r :
  temporary io p <> p -> write_state o symlink io p s force fs = (fs', r) ->
  (fs' !! p = fs !! p /\ is_ok r = false) \/
  exists b, state_bytes s b /\ fs' !! p = Some (private_file b).
Proof.
  intros Hp. unfold write_state.
  destruct (mbind _ (validate_state s)) as [bytes|e] eqn:E; [|intros [= <- <-]; by left].
  intros Er%replace_file_at; [|done]. destruct Er as [Er|Er]; [by left|right].
  apply bind_Ok in E as ([] & Ev & E). apply bind_Ok in E as ([] & _ & E).
  apply bind_Ok in E as (b & Eb & E). apply bind_Ok in E as ([] & El%bail_if_Ok & E).
  assert (b = bytes) as -> by (destruct (failure io) as [[[] ?]|], (state_directory p); congruence).
  exists bytes. split; [|done]. split; [done|]. split; [|by apply Z.ltb_ge].
  by apply map_err_Ok, map_err_Ok in Eb.
Qed.
Lemma write_state_other io p s force fs q :
  q <> p -> temporary io p <> q -> (write_state o symlink io p s force fs).1 !! q = fs !! q.
Proof.
  intros Hp Hq. unfold write_state. case_match; [|done]. by apply replace_file_other.
Qed.

(** A readable path: no error, no symbolic link. *)
Definition readable (p : rstr) : Prop :=
  io_error o Stat p = None /\ (io_error o OpenFile p = None /\ io_error o Read p = None) /\
  symlink p = false.
Lemma private_mode : Z.land (Z.land 384 (Z.lnot (umask o))) 63 = 0.
Proof. rewrite <- Z.land_assoc, (Z.land_comm _ 63), Z.land_assoc. by change (Z.land 384 63) with 0. Qed.
Lemma private_accepted p fs b :
  readable p -> fs !! p = Some (private_file b) -> check_private_existing o symlink p fs = Ok ().
Proof.
  intros (Hs & _ & Hl) Hp. unfold check_private_existing, check_owner_only, exists_path.
  rewrite Hs, Hp, Hl. cbn. by rewrite private_mode.
Qed.
Lemma read_limited `{!CliTx.FileJson T} p limit fs b (x : T) :
  readable p -> fs !! p = Some (private_file b) -> Z.of_nat (length b) <= limit ->
  CliTx.from_slice b = Ok x -> read_private_json_limited o symlink p limit fs = Ok x.
Proof.
  intros Hr Hp Hb Hx. unfold read_private_json_limited. rewrite (private_accepted _ _ _ Hr Hp).
  destruct Hr as (Hs & (Ho & Hd) & _). cbn [mbind result_bind]. unfold read_json_limited, fs_read.
  rewrite Hs, Ho, Hd, Hp. cbn [ctx map_err mbind result_bind contents private_file].
  assert (limit <? Z.of_nat (length b) = false) as -> by (apply Z.ltb_ge; lia).
  cbn [mbind result_bind]. rewrite take_ge by lia.
  assert (limit <? Z.of_nat (length b) = false) as -> by (apply Z.ltb_ge; lia).
  cbn [mbind result_bind]. by rewrite Hx.
Qed.
(** A state file written whole is the state read back, and its owner's alone. *)
Lemma read_written `{!StateJsonLaws} p fs s b :
  readable p -> state_bytes s b -> fs !! p = Some (private_file b) -> read_state o symlink p fs = Ok s.
Proof.
  intros Hr (Hv & Hb & Hl) Hp. unfold read_state.
  rewrite (read_limited _ MAX_STATE_BYTES _ b s Hr Hp Hl (state_roundtrip s b Hb)).
  cbn [mbind result_bind]. by rewrite Hv.
Qed.
Lemma read_state_valid p fs s : read_state o symlink p fs = Ok s -> validate_state s = Ok ().
Proof.
  unfold read_state. intros (x & _ & E)%bind_Ok. apply bind_Ok in E as ([] & Hv & [= <-]). done.
Qed.

(** What is written is what is read. After the state was written, reading the file
    gives exactly that state, and only its owner may open the file; it was already a checked
    state, within the size the reader accepts. *)
Theorem state_file_roundtrip `{!StateJsonLaws} io p s force fs fs' :
  readable p -> temporary io p <> p -> write_state o symlink io p s force fs = (fs', Ok ()) ->
  read_state o symlink p fs' = Ok s /\
  exists f, fs' !! p = Some f /\ Z.land (mode f) 63 = 0 /\ Z.of_nat (length (contents f)) <= MAX_STATE_BYTES.
Proof.
  intros Hr Hp Hw. destruct (write_state_at _ _ _ _ _ _ _ Hp Hw) as [[_ ?]|(b & Hb & Ef)]; [done|].
  split; [by apply (read_written p fs' s b)|]. exists (private_file b). split; [done|].
  split; [apply private_mode|apply Hb].
Qed.
End FileProofs.

(** *** Runs over a state file *)
Section RunFacts.
Context `{UrlOps : Client.UrlOps}.
(** Every outcome of [m] leaves the file at [p] as it was, or as one of [R]. *)
Definition leaves (p : rstr) (R : file -> Prop) {A} (m : S A) : Prop :=
  forall fs, (m fs).1.1 !! p = fs !! p \/ exists f, R f /\ (m fs).1.1 !! p = Some f.
Context (p : rstr) (R : file -> Prop).
Lemma leaves_idle {A} (m : S A) : (forall fs, (m fs).1.1 = fs) -> leaves p R m.
Proof. intros Hm fs. left. by rewrite Hm. Qed.
Lemma leaves_bind {A B} (m : S A) (k : A -> S B) :
  leaves p R m -> (forall a, leaves p R (k a)) -> leaves p R (mbind k m).
Proof.
  intros Hm Hk fs. unfold mbind, S_bind. specialize (Hm fs).
  destruct (m fs) as [[fs' es] [[a|e]| |]]; cbn [fst snd] in *; [|done..].
  specialize (Hk a fs'). destruct (k a fs') as [[fs'' es'] r]; cbn [fst snd] in *.
  destruct Hk as [Hk|Hk]; [|by right]. rewrite Hk. done.
Qed.
(** What a check established may be used after it. *)
Lemma leaves_pure {A B} (r : result error A) (k : A -> S B) :
  (forall a, r = Ok a -> leaves p R (k a)) -> leaves p R (a ← pure r; k a).
Proof.
  intros Hk fs. unfold mbind, S_bind, pure. destruct r as [a|e]; [|by left].
  specialize (Hk a eq_refl fs). destruct (k a fs) as [[fs' es] r]. exact Hk.
Qed.
Lemma leaves_writes {A} (m : M A) :
  (forall fs, (m fs).1 !! p = fs !! p \/ exists f, R f /\ (m fs).1 !! p = Some f) ->
  leaves p R (writes m).
Proof. intros Hm fs. specialize (Hm fs). unfold writes. by destruct (m fs). Qed.
Lemma leaves_of_T {A} w (t : CliTx.T A) : Some p <> w -> CliTx.touches w t -> leaves p R (of_T t).
Proof.
  intros Hw Ht fs. left. specialize (Ht fs p Hw). unfold of_T.
  destruct (t fs) as [[fs' sent] r]. exact Ht.
Qed.
Lemma leaves_case {A B} (x : A * B) {C} (k : A -> B -> S C) :
  (forall a b, leaves p R (k a b)) -> leaves p R (let '(a, b) := x in k a b).
Proof. destruct x. auto. Qed.
End RunFacts.
Lemma idle_context `{Conversation.Urls} {A} m (x : S A) :
  (forall fs, (x fs).1.1 = fs) -> forall fs, (s_context m x fs).1.1 = fs.
Proof. intros Hx fs. specialize (Hx fs). unfold s_context. by destruct (x fs) as [[fs' es] []]. Qed.
(** Follow a run that does not write. *)
Ltac idle_step :=
  first [ apply leaves_bind; [|intros ?] | apply leaves_case; intros
        | apply leaves_idle; intros ?; first [reflexivity | by case_match | by repeat case_match]
        | apply leaves_idle, idle_context; intros ?; reflexivity ].

(** *** Steps of a run *)
Section Steps.
Context `{Conversation.Urls}.
Lemma step_pure {A B : Type} (r : result error A) (k : A -> S B) fs :
  (a ← pure r; k a) fs = match r with Ok a => k a fs | Err e => (fs, [], CliTx.Done (Err e)) end.
Proof. unfold mbind, S_bind, pure. destruct r as [a|e]; [|done]. by destruct (k a fs) as [[fs' es] x]. Qed.
Lemma step_reads {A B : Type} (f : files -> result error A) (k : A -> S B) fs :
  (a ← reads f; k a) fs = match f fs with Ok a => k a fs | Err e => (fs, [], CliTx.Done (Err e)) end.
Proof. unfold mbind, S_bind, reads. destruct (f fs) as [a|e]; [|done]. by destruct (k a fs) as [[fs' es] x]. Qed.
Lemma step_writes {A B : Type} (m : M A) (k : A -> S B) fs :
  (a ← writes m; k a) fs
  = match (m fs).2 with Ok a => k a (m fs).1 | Err e => ((m fs).1, [], CliTx.Done (Err e)) end.
Proof.
  unfold mbind, S_bind, writes. destruct (m fs) as [fs' [a|e]]; [|done]. cbn [fst snd].
  by destruct (k a fs') as [[fs'' es] x].
Qed.
End Steps.

(** *** What a run asks of the service *)
(** A request to anything but the node. *)
Definition remote_event `{Conversation.Urls} (e : event) : Prop :=
  match e with ServiceSent _ | ProfileSent _ | EmbedderSent _ _ => True | _ => False end.
(** [asks P Q m]: every such request of [m] is one of [P], however it ends, and if it ends well its
    result is one of [Q]. *)
Definition asks `{Conversation.Urls} (P : event -> Prop) {A} (Q : A -> Prop) (m : S A) : Prop :=
  forall fs, (forall e, e ∈ (m fs).1.2 -> remote_event e -> P e) /\
             (forall a, (m fs).2 = CliTx.Done (Ok a) -> Q a).
Section Asking.
Context `{Conversation.Urls} (P : event -> Prop).
Lemma asks_bind {A B} (Q : A -> Prop) (R : B -> Prop) (m : S A) (k : A -> S B) :
  asks P Q m -> (forall a, Q a -> asks P R (k a)) -> asks P R (mbind k m).
Proof.
  intros Hm Hk fs. unfold mbind, S_bind. specialize (Hm fs) as [Hs Ha].
  destruct (m fs) as [[fs' es] [[a|e]| |]]; cbn [fst snd] in *; [|by split..].
  specialize (Hk a (Ha a eq_refl) fs') as [Hs' Hr].
  destruct (k a fs') as [[fs'' es'] r]; cbn [fst snd] in *. split; [|done].
  intros x [Hx|Hx]%elem_of_app; auto.
Qed.
(** Steps that ask nothing; what a check established is kept. *)
Lemma asks_pure {A} (r : result error A) : asks P (fun a => r = Ok a) (pure r).
Proof. intros fs. split; [by intros x []%not_elem_of_nil|]. by intros a [= ->]. Qed.
Lemma asks_reads {A} (f : files -> result error A) : asks P (fun _ => True) (reads f).
Proof. intros fs. split; [by intros x []%not_elem_of_nil|done]. Qed.
Lemma asks_writes {A} (m : M A) : asks P (fun _ => True) (writes m).
Proof. intros fs. unfold writes. destruct (m fs). split; [by intros x []%not_elem_of_nil|done]. Qed.
Lemma asks_print v : asks P (fun _ => True) (print v).
Proof. intros fs. split; [|done]. by intros x ->%list_elem_of_singleton. Qed.
Lemma asks_ret {A} (Q : A -> Prop) (a : A) : Q a -> asks P Q (mret a).
Proof. intros Hq fs. split; [by intros x []%not_elem_of_nil|]. by intros b [= <-]. Qed.
Lemma asks_of_T {A} (t : CliTx.T A) :
  CliTx.sends (fun q => exists r, q = CliTx.ToNode r) t -> asks P (fun _ => True) (of_T t).
Proof.
  intros Ht fs. specialize (Ht fs). unfold of_T. destruct (t fs) as [[fs' sent] r]. split; [|done].
  intros x (y & -> & Hy)%list_elem_of_fmap.
  rewrite Forall_forall in Ht. by destruct (Ht y Hy) as [q ->].
Qed.
Lemma asks_weaken {A} (Q R : A -> Prop) (m : S A) :
  asks P Q m -> (forall a, Q a -> R a) -> asks P R m.
Proof. intros Hm Hq fs. destruct (Hm fs) as [Hs Ha]. split; [done|]. intros a Hr. by apply Hq, Ha. Qed.
End Asking.

Section CommandProofs.
Context `{UrlOps : Client.UrlOps, Digests, Hex, Ed25519, Conversation.Uuids, Conversation.Ips,
  Conversation.X25519, Conversation.Hkdf, Conversation.Base64,
  Keystore.Argon2, Aead, Mnemonic.Bip39, KeystoreJson, StateJson,
  !CliTx.FileJson ConversationStateV1, !Conversation.JsonCodec Conversation.ConversationProfileV2,
  !Conversation.JsonCodec Conversation.MessagePayload, !Conversation.JsonCodec Conversation.E2eEnvelopeV1}.
Context `{!ConversationApi.ApiDecode Conversation.ConversationProfileV2}
  `{!ConversationApi.ApiDecode ConversationApi.ConversationDelegationInfo}
  `{!ConversationApi.ApiDecode Conversation.ChallengeResponse}
  `{!ConversationApi.ApiDecode ConversationApi.SessionResponse}
  `{!ConversationApi.ApiDecode ConversationApi.ConversationRecord}
  `{!ConversationApi.ApiDecode Conversation.MessageRecord}
  `{!ConversationApi.ApiDecode (Conversation.Page Conversation.MessageRecord)}.
Context `{!ToJson Conversation.ConversationProfileV2} `{!ToJson ConversationApi.ConversationDelegationInfo}
  `{!ToJson ConversationApi.ConversationRecord} `{!ToJson Conversation.MessageRecord}
  `{!ToJson (Conversation.Page Conversation.MessageRecord)} `{!ToJson Conversation.MessagePayload}
  `{!ToJson Conversation.SubjectRef} `{!ToJson Conversation.PrivacyMode}.
Context `{!CliTx.FileJson Conversation.MessagePayload} `{!CliTx.FileJson (list Conversation.E2eRecipient)}
  `{!Outbox.SerdeJson (list Outbox.QueuedMessage)} `{!CliTx.FileJson Conversation.MessageRecord}.
Context `{!Bincode Tx.Transaction} `{!Bincode Tx.SignedTransaction} `{!Wallet.Builder}.
Context (o : os) (symlink : rstr -> bool) (n : CliTx.node)
  (reply_of : ConversationApi.service_request -> ConversationApi.reply)
  (payload_to_vec : Conversation.MessagePayload -> result rstr (list byte))
  (uuid_parse : rstr -> result rstr (bytesN 16)) (error_text : error -> rstr) (ios : nat -> Outbox.io)
  (client : Client.ZinchaClient) (decode : rstr -> result rstr Conversation.MessageRecord)
  (connections : list Outbox.connection) (first_io : Outbox.io) (d : draws).
#[local] Abbreviation run := (run_conversation o symlink n reply_of payload_to_vec uuid_parse
  error_text ios client decode connections first_io d).

(** The state files [s] may become. *)
Definition evolved (s : ConversationStateV1) (f : file) : Prop :=
  exists s' b, evolves s s' /\ state_bytes s' b /\ f = private_file o b.
Lemma leaves_write (R : file -> Prop) p k s force :
  temporary (state_write d k) p <> p ->
  (forall b, state_bytes s b -> R (private_file o b)) ->
  leaves p R (writes (write_state o symlink (state_write d k) p s force)).
Proof.
  intros Hp HR. apply leaves_writes. intros fs.
  destruct (write_state _ _ _ _ _ _ fs) as [fs' r] eqn:E. apply write_state_at in E; [|done].
  cbn [fst]. destruct E as [[E _]|(b & Hb & E)]; [by left|right]. eauto.
Qed.
Lemma leaves_outbox (R : file -> Prop) p q {A} (op : Outbox.file -> Outbox.file * result error A) :
  q <> p -> leaves p R (writes (on_outbox o q op)).
Proof.
  intros Hq. apply leaves_writes. intros fs. left. unfold on_outbox, with_outbox.
  destruct (op _) as [f r]. cbn [fst]. case_bool_decide; [done|].
  destruct f; [by apply lookup_insert_ne|by apply lookup_delete_ne].
Qed.
(** A command that begins by loading the state. *)
Lemma loaded p {A} (k : ConversationStateV1 -> S A) fs :
  (forall s, read_state o symlink p fs = Ok s -> leaves p (evolved s) (k s)) ->
  let fs' := (s ← load o symlink p; k s) fs in
  fs'.1.1 !! p = fs !! p \/
  exists s f, read_state o symlink p fs = Ok s /\ evolved s f /\ fs'.1.1 !! p = Some f.
Proof.
  intros Hk. cbv zeta. unfold mbind, S_bind, load, reads.
  destruct (read_state o symlink p fs) as [s|e]; [|by left].
  specialize (Hk s eq_refl fs). destruct (k s fs) as [[fs' es] r]; cbn [fst snd] in *.
  destruct Hk as [Hk|(f & Hf & Hk)]; [by left|right]. eauto.
Qed.

Section OneFile.
Context (p : rstr) (Hfresh : forall k, temporary (state_write d k) p <> p).
Lemma leaves_ask R {T} `{!ConversationApi.ApiDecode T} r : leaves p R (ask_service (T := T) reply_of r).
Proof. apply leaves_idle. intros fs. unfold ask_service. by destruct r. Qed.
Lemma leaves_tell R r : leaves p R (tell_service reply_of r).
Proof. apply leaves_idle. intros fs. unfold tell_service. by destruct r. Qed.
Lemma leaves_try R {T} `{!ConversationApi.ApiDecode T} r : leaves p R (try_service (T := T) reply_of r).
Proof. apply leaves_idle. intros fs. unfold try_service. by destruct r. Qed.
Lemma leaves_provider R a : leaves p R (provider_profile n a).
Proof. repeat idle_step. Qed.
Lemma leaves_connect R profile policy : leaves p R (connect reply_of profile policy).
Proof. apply leaves_idle. intros fs. unfold connect. by destruct (answered _ _). Qed.
Lemma leaves_client R now s policy : leaves p R (authenticated_client n reply_of now s policy).
Proof. repeat first [apply leaves_provider | apply leaves_connect | idle_step]. Qed.
Lemma leaves_verified R target : leaves p R (verified_provider_client n reply_of target).
Proof. repeat first [apply leaves_provider | apply leaves_connect | idle_step]. Qed.
Lemma leaves_session R c a op sec subj svc t : leaves p R (open_session reply_of d c a op sec subj svc t).
Proof. repeat first [apply leaves_ask | idle_step]. Qed.
Lemma leaves_save s s' : evolves s s' -> leaves p (evolved s) (save o symlink d p s' true).
Proof. intros He. apply leaves_write; [done|]. intros b Hb. by exists s', b. Qed.
End OneFile.
#[local] Ltac steps :=
  repeat first [ apply leaves_provider | apply leaves_connect | apply leaves_client | apply leaves_verified
               | apply leaves_session | apply leaves_ask | apply leaves_tell | apply leaves_try
               | apply leaves_pure; intros ? ? | idle_step
               | match goal with |- leaves _ _ (match ?x with _ => _ end) => destruct x end ].

Section StateCommands.
Context (p : rstr) (Hfresh : forall k, temporary (state_write d k) p <> p).
Definition state_of (c : ConversationCommands) : option rstr :=
  match c with
  | Open args => Some (oa_state args)
  | Renew args => Some (ta_state (ra_target args))
  | Status state => Some state
  | Get target | RevokeSession target => Some (ta_state target)
  | Send args => Some (ta_state (sa_target args))
  | Messages args => Some (ta_state (ma_target args))
  | Watch args => Some (ta_state (wa_target args))
  | Acknowledge args => Some (ta_state (aa_target args))
  | OutboxFlush args => Some (ta_state (fa_target args))
  | Decrypt args => Some (da_state args)
  | _ => None
  end.
(** The other file a command writes. *)
Definition outbox_of (c : ConversationCommands) : option rstr :=
  match c with
  | Send args => Some (outbox_path_of (sa_outbox args) (ta_state (sa_target args)))
  | OutboxFlush args => Some (outbox_path_of (fa_outbox args) (ta_state (fa_target args)))
  | _ => None
  end.
Lemma leaves_follow c id limit json es stop k s0 s :
  evolves s0 s -> leaves p (evolved s0) (follow o symlink d c id p limit json k s es stop).
Proof.
  revert k s. induction es as [|[after|after|m] es IH]; intros k s Hs; cbn [follow].
  - apply leaves_idle. intros fs. by destruct stop.
  - apply leaves_bind; [by apply leaves_idle|]. intros _. by apply IH.
  - apply leaves_bind; [by apply leaves_idle|]. intros _. by apply IH.
  - apply leaves_bind; [by apply leaves_idle|]. intros _.
    assert (evolves s0 (observed s (Conversation.m_sequence m))) as He
      by (etrans; [exact Hs|apply evolves_observed]).
    apply leaves_bind; [apply leaves_write; [done|intros b Hb; eexists _, b; eauto]|]. intros _.
    case_match; [by apply leaves_idle|by apply IH].
Qed.
Lemma leaves_flush R outbox c k sent items :
  outbox <> p -> leaves p R (flush_items o reply_of error_text ios d c outbox k sent items).
Proof.
  intros Ho. revert k sent. induction items as [|i items IH]; intros k sent; cbn [flush_items].
  - by apply leaves_idle.
  - apply leaves_bind; [apply leaves_try|]. intros [x|e];
      (apply leaves_bind; [by apply leaves_outbox|intros _; apply IH]).
Qed.
Lemma leaves_settle s outbox rq r json :
  outbox <> p -> leaves p (evolved s) (settle o symlink error_text ios d p outbox s rq r json).
Proof.
  intros Ho. unfold settle. destruct r as [record|e].
  - apply leaves_bind; [by apply leaves_outbox|]. intros _.
    apply leaves_bind; [apply leaves_save; [done|apply evolves_observed]|]. intros _. by apply leaves_idle.
  - apply leaves_bind; [by apply leaves_outbox|]. intros _. by apply leaves_idle.
Qed.
End StateCommands.

(** What a command may make of the state file it is given. *)
Definition next_state (c : ConversationCommands) (p : rstr) (fs : files) (s' : ConversationStateV1) : Prop :=
  match c with
  | Open args =>
      (exists_path o p fs = true -> oa_force args = true) /\
      last_observed_sequence s' = 0 /\ last_acknowledged_sequence s' = 0
  | _ => exists s, read_state o symlink p fs = Ok s /\ evolves s s'
  end.
Lemma leaves_open args json :
  (forall k, temporary (state_write d k) (oa_state args) <> oa_state args) ->
  leaves (oa_state args) (fun f => exists s' b, last_observed_sequence s' = 0 /\
    last_acknowledged_sequence s' = 0 /\ state_bytes s' b /\ f = private_file o b)
    (open o symlink n reply_of d args json).
Proof.
  intros Hp. unfold open. steps.
  apply leaves_write; [done|]. intros bytes Hb. eexists _, bytes. split_and!; [| |exact Hb|]; done.
Qed.
Lemma leaves_renew_state s profile delegation token expires ids :
  evolves s (s <| st_profile := profile |> <| st_delegation := delegation |>
    <| st_access_token := Some token |> <| session_expires_at_ms := Some expires |>
    <| decryption_key_ids := ids |>).
Proof. by split. Qed.
Lemma open_forced args json fs :
  exists_path o (oa_state args) fs = true -> oa_force args = false ->
  (open o symlink n reply_of d args json fs).1.1 = fs.
Proof.
  intros He Hf. unfold open, mbind, S_bind, pure, reads. rewrite He, Hf.
  destruct (bail_if _ _); [|done]. by destruct (check_private_existing _ _ _ _).
Qed.

(** The commands that begin by loading the state, some after a check of their arguments. *)
Definition next_file (p : rstr) (fs : files) (m : S unit) : Prop :=
  (m fs).1.1 !! p = fs !! p \/
  exists s s' b, read_state o symlink p fs = Ok s /\ evolves s s' /\ state_bytes s' b /\
    (m fs).1.1 !! p = Some (private_file o b).
Lemma next_loaded p fs (k : ConversationStateV1 -> S unit) :
  (forall s, leaves p (evolved s) (k s)) -> next_file p fs (s ← load o symlink p; k s).
Proof.
  intros Hk. destruct (loaded p k fs (fun s _ => Hk s)) as [E|(s & f & Hs & (s' & b & He & Hb & ->) & E)];
    [by left|right; by exists s, s', b].
Qed.
Lemma next_checked p fs (r : result error unit) (m : S unit) :
  next_file p fs m -> next_file p fs (_ ← pure r; m).
Proof.
  unfold next_file, mbind, S_bind, pure. destruct r as [[]|e]; [|by left].
  by destruct (m fs) as [[fs' es] x].
Qed.
Lemma next_renew args json fs :
  (forall k, temporary (state_write d k) (ta_state (ra_target args)) <> ta_state (ra_target args)) ->
  next_file (ta_state (ra_target args)) fs (renew o symlink n reply_of d args json).
Proof.
  intros Hp. unfold renew. apply next_checked, next_loaded. intros s. steps.
  apply leaves_save; [done|apply leaves_renew_state].
Qed.
Lemma next_messages args json fs :
  (forall k, temporary (state_write d k) (ta_state (ma_target args)) <> ta_state (ma_target args)) ->
  next_file (ta_state (ma_target args)) fs (messages o symlink n reply_of d args json).
Proof.
  intros Hp. unfold messages. apply next_loaded. intros s. steps.
  apply leaves_save; [done|apply evolves_observed].
Qed.
Lemma next_watch args json fs :
  (forall k, temporary (state_write d k) (ta_state (wa_target args)) <> ta_state (wa_target args)) ->
  next_file (ta_state (wa_target args)) fs (watch o symlink n reply_of decode connections d args json).
Proof.
  intros Hp. unfold watch. apply next_loaded. intros s. cbv zeta.
  repeat first [apply leaves_client | apply leaves_pure; intros ? ? | apply leaves_bind; [|intros ?]
               | apply leaves_case; intros].
  by apply leaves_follow.
Qed.
Lemma next_acknowledge args json fs :
  (forall k, temporary (state_write d k) (ta_state (aa_target args)) <> ta_state (aa_target args)) ->
  next_file (ta_state (aa_target args)) fs (acknowledge o symlink n reply_of d args json).
Proof.
  intros Hp. unfold acknowledge. apply next_loaded. intros s.
  apply leaves_pure. intros u [Hlo Hhi]%bail_if_Ok%orb_false_iff. apply Z.ltb_ge in Hlo, Hhi. steps.
  apply leaves_save; [done|]. by split.
Qed.
Lemma next_revoke target json fs :
  (forall k, temporary (state_write d k) (ta_state target) <> ta_state target) ->
  next_file (ta_state target) fs (revoke_session o symlink n reply_of d target json).
Proof. intros Hp. unfold revoke_session. apply next_loaded. intros s. steps. apply leaves_save; [done|by split]. Qed.
Lemma next_send args json fs :
  (forall k, temporary (state_write d k) (ta_state (sa_target args)) <> ta_state (sa_target args)) ->
  outbox_path_of (sa_outbox args) (ta_state (sa_target args)) <> ta_state (sa_target args) ->
  next_file (ta_state (sa_target args)) fs
    (send o symlink n reply_of payload_to_vec uuid_parse error_text ios d args json).
Proof.
  intros Hp Ho. unfold send. apply next_loaded. intros s. cbv zeta.
  repeat first [apply leaves_client | apply leaves_try | by apply leaves_outbox | by apply leaves_settle
               | apply leaves_pure; intros ? ? | idle_step].
Qed.
Lemma next_flush args json fs :
  outbox_path_of (fa_outbox args) (ta_state (fa_target args)) <> ta_state (fa_target args) ->
  next_file (ta_state (fa_target args)) fs
    (outbox_flush o symlink n reply_of error_text ios first_io d args json).
Proof.
  intros Ho. unfold outbox_flush. apply next_checked, next_loaded. intros s. cbv zeta.
  repeat first [apply leaves_client | by apply leaves_flush | apply leaves_pure; intros ? ? | idle_step].
Qed.

(** C14: A conversation's state file is always a checked state, whole, and its owner's. Let a command
    be given a state file which is not its outbox, and let the temporary names it draws differ
    from the file's name. Whatever the command does, succeeds at or fails at, the file ends
    exactly as it was, or as one whole new state that passes every check, readable by its owner
    alone. If the command opens a conversation, that is a new state with both cursors at zero; it
    takes the place of an existing file, with its keys and cursors, only when forced. For any
    other command it follows the state that the file held: it has its provider, subject, privacy mode,
    secret keys and conversation, and neither cursor goes back. *)
Theorem conversation_state_sound c p json fs :
  state_of c = Some p -> outbox_of c <> Some p ->
  (forall k, temporary (state_write d k) p <> p) ->
  let fs' := (run c json fs).1.1 in
  fs' !! p = fs !! p \/
  exists s b, fs' !! p = Some (private_file o b) /\ state_bytes s b /\ next_state c p fs s.
Proof.
  intros Hc Ho Hp. cbv zeta.
  assert (forall m, next_file p fs m ->
    (forall s s', read_state o symlink p fs = Ok s -> evolves s s' -> next_state c p fs s') ->
    (m fs).1.1 !! p = fs !! p \/ exists s b,
      (m fs).1.1 !! p = Some (private_file o b) /\ state_bytes s b /\ next_state c p fs s) as Hnext.
  { intros m [E|(s & s' & b & Hs & He & Hb & E)] Hn; [by left|right]. exists s', b. eauto. }
  destruct c; cbn [state_of] in Hc; try discriminate Hc; injection Hc as Hc; subst p;
    cbn [run_conversation outbox_of] in *.
  1: { destruct (exists_path o (oa_state args) fs && negb (oa_force args)) eqn:Ee.
       { left. apply andb_true_iff in Ee as [Ee Ef%negb_true_iff]. by rewrite open_forced. }
       destruct (leaves_open args json Hp fs) as [E|(f & (s & b & Hl & Ha & Hb & ->) & E)];
         [by left|right]. exists s, b. split; [done|]. split; [done|]. split; [|done].
       intros He. rewrite He in Ee. by apply negb_false_iff. }
  all: apply Hnext; [|by cbn; eauto].
  - by apply next_renew.
  - apply next_loaded. intros s. steps.
  - apply next_loaded. intros s. steps.
  - apply next_send; [done|congruence].
  - by apply next_messages.
  - by apply next_watch.
  - by apply next_acknowledge.
  - apply next_flush. congruence.
  - apply next_loaded. intros s. steps.
  - by apply next_revoke.
Qed.

(** *** Where requests go *)
(** The client that verifying the profile which the provider's agent metadata carries on the chain
    makes, under a policy: for the first interface that is reached and serves that very profile. *)
Definition advertised (provider : rstr) (profile : Conversation.ConversationProfileV2) : Prop :=
  exists agent, CliTx.answer n (Client.get (lit "/v1/agents/" ++ provider)) = Ok agent /\
    profile_of_agent agent = Ok profile.
Definition trusted (provider : rstr) (policy : Conversation.ConversationTransportPolicy)
    (profile : Conversation.ConversationProfileV2) (c : Conversation.ConversationClient) : Prop :=
  advertised provider profile /\ Conversation.from_profile (live reply_of) profile policy = Ok c.
(** A request to a client's service, and one made through the client. *)
Definition at_service (c : Conversation.ConversationClient) (r : ConversationApi.service_request) : Prop :=
  exists path, Client.url_join (Conversation.base_url c) path = Ok (ConversationApi.sv_url r).
Definition through (c : Conversation.ConversationClient) (r : ConversationApi.service_request) : Prop :=
  ConversationApi.sv_token r = Conversation.access_token c /\ at_service c r.
(** The request for a live profile: without a token, to an interface that the advertised
    profile has and the policy allows. *)
Record profile_request (provider : rstr) (policy : Conversation.ConversationTransportPolicy)
    (r : ConversationApi.service_request) : Prop := {
  pr_read : ConversationApi.sv_method r = ConversationApi.GET /\ ConversationApi.sv_body r = None;
  pr_token : ConversationApi.sv_token r = None;
  pr_interface : exists profile c, advertised provider profile /\
    Conversation.allowed policy (Conversation.interfaces profile) c /\
    Client.url_join (Conversation.base_url c) (lit "v1/profile") = Ok (ConversationApi.sv_url r);
}.
(** A request of a command to anything but the node: for one of the providers [chosen], for a live
    profile, or to the service of a trusted client; [Q] is what the token satisfies. *)
Definition granted (policy : Conversation.ConversationTransportPolicy) (chosen : rstr -> Prop)
    (Q : Conversation.ConversationProfileV2 -> Conversation.ConversationClient -> option rstr -> Prop)
    (e : event) : Prop :=
  exists provider, chosen provider /\
  match e with
  | ServiceSent r => exists profile c, trusted provider policy profile c /\ at_service c r /\
      Q profile c (ConversationApi.sv_token r)
  | ProfileSent r => profile_request provider policy r
  | EmbedderSent _ _ => False
  | NodeSent _ | Printed _ => True
  end.
(** Where no session is stored: no token, or that of a session which the service itself opened in
    answer to a request without one. *)
Definition issued (c : Conversation.ConversationClient) (t : option rstr) : Prop :=
  exists r request session, through c r /\ ConversationApi.sv_body r = Some (ConversationApi.BSession request) /\
    ConversationApi.read_reply r (reply_of r) = Ok session /\ t = Some (ConversationApi.ss_access_token session).
Definition fresh_token (_ : Conversation.ConversationProfileV2) (c : Conversation.ConversationClient)
    (t : option rstr) : Prop := t = None \/ issued c t.
(** With the session of a state: its token, which had not expired when the command looked, and only
    to the service its delegation was made for. *)
Definition session_token (s : ConversationStateV1) (profile : Conversation.ConversationProfileV2)
    (_ : Conversation.ConversationClient) (t : option rstr) : Prop :=
  Conversation.service_id profile = Conversation.d_home_service_id (st_delegation s) /\
  t = st_access_token s /\ is_Some t /\ forall e, session_expires_at_ms s = Some e -> now_ms d < e.

Lemma service_call_through c m path b limit r :
  ConversationApi.service_call c m path b limit = Ok r -> through c r.
Proof.
  unfold ConversationApi.service_call. intros (url & Eu & [= <-])%bind_Ok.
  split; [done|]. eexists. by apply map_err_Ok, map_err_Ok in Eu.
Qed.
(** Every call of the client is a request through it. *)
Ltac through_call :=
  repeat match goal with
  | H : mbind _ _ = Ok _ |- _ => apply bind_Ok in H as (? & ? & H)
  end;
  by eapply service_call_through.
Lemma delegation_info_through c r : ConversationApi.delegation_info c = Ok r -> through c r.
Proof. intros H'. through_call. Qed.
Lemma issue_challenge_through c q r : ConversationApi.issue_challenge c q = Ok r -> through c r.
Proof. intros H'. unfold ConversationApi.issue_challenge in H'. through_call. Qed.
Lemma create_session_through c q r : ConversationApi.create_session c q = Ok r -> through c r.
Proof. intros H'. through_call. Qed.
Lemma resolve_through c q r : ConversationApi.resolve c q = Ok r -> through c r.
Proof. intros H'. unfold ConversationApi.resolve in H'. through_call. Qed.
Lemma conversation_through c id r : ConversationApi.conversation c id = Ok r -> through c r.
Proof. intros H'. unfold ConversationApi.conversation in H'. through_call. Qed.
Lemma submit_through c id q r : ConversationApi.submit c id q = Ok r -> through c r.
Proof. intros H'. unfold ConversationApi.submit in H'. through_call. Qed.
Lemma messages_through c id after limit r : ConversationApi.messages c id after limit = Ok r -> through c r.
Proof. intros H'. unfold ConversationApi.messages in H'. through_call. Qed.
Lemma acknowledge_through c id t r : ConversationApi.acknowledge c id t = Ok r -> through c r.
Proof. intros H'. unfold ConversationApi.acknowledge in H'. through_call. Qed.
Lemma revoke_through c id r : ConversationApi.revoke_delegation c id = Ok r -> through c r.
Proof. intros H'. through_call. Qed.

Lemma event_stream_through c id after r : ConversationApi.event_stream c id after = Ok r -> through c r.
Proof.
  unfold ConversationApi.event_stream, Conversation.events_url. intros (url & Eu & [= <-])%bind_Ok.
  apply bind_Ok in Eu as (? & _ & Eu). apply bind_Ok in Eu as (? & _ & Eu).
  split; [done|]. eexists. by apply map_err_Ok, map_err_Ok in Eu.
Qed.

Section Asked.
Context (P : event -> Prop).
Lemma asks_service {T} `{!ConversationApi.ApiDecode T} r :
  (forall r', r = Ok r' -> P (ServiceSent r')) ->
  asks P (fun a => exists r', r = Ok r' /\ ConversationApi.read_reply (T := T) r' (reply_of r') = Ok a)
    (ask_service (T := T) reply_of r).
Proof.
  intros Hr fs. unfold ask_service. destruct r as [r|e]; split; cbn; try done.
  - intros x ->%list_elem_of_singleton _. by apply Hr.
  - intros a [= E]. by exists r.
  - by intros x []%not_elem_of_nil.
Qed.
Lemma asks_tell r : (forall r', r = Ok r' -> P (ServiceSent r')) -> asks P (fun _ => True) (tell_service reply_of r).
Proof.
  intros Hr fs. unfold tell_service. destruct r as [r|e]; (split; [|done]); cbn.
  - intros x ->%list_elem_of_singleton _. by apply Hr.
  - by intros x []%not_elem_of_nil.
Qed.
Lemma asks_try {T} `{!ConversationApi.ApiDecode T} r :
  (forall r', r = Ok r' -> P (ServiceSent r')) -> asks P (fun _ => True) (try_service (T := T) reply_of r).
Proof.
  intros Hr fs. unfold try_service. destruct r as [r|e]; (split; [|done]); cbn.
  - intros x ->%list_elem_of_singleton _. by apply Hr.
  - by intros x []%not_elem_of_nil.
Qed.
Lemma asks_stream r : (forall r', r = Ok r' -> P (ServiceSent r')) -> asks P (fun _ => True) (stream_asks r).
Proof.
  intros Hr fs. unfold stream_asks. destruct r as [r|e]; (split; [|done]); cbn.
  - intros x ->%list_elem_of_singleton _. by apply Hr.
  - by intros x []%not_elem_of_nil.
Qed.
Lemma asks_provider a : asks P (advertised a) (provider_profile n a).
Proof.
  apply (asks_bind P (fun agent => CliTx.answer n (Client.get (lit "/v1/agents/" ++ a)) = Ok agent)).
  - intros fs. unfold s_context, ask_node. split.
    + cbn. by intros x ->%list_elem_of_singleton.
    + cbn. intros agent [= E]. by apply map_err_Ok in E.
  - intros agent Ha. eapply asks_weaken; [apply asks_pure|]. intros profile Hp. by exists agent.
Qed.
Lemma asks_connect provider profile policy :
  advertised provider profile -> (forall r, profile_request provider policy r -> P (ProfileSent r)) ->
  asks P (trusted provider policy profile) (connect reply_of profile policy).
Proof.
  intros Ha HP fs. unfold connect.
  pose proof (Conversation.from_profile_asks (live reply_of) profile policy) as Hall.
  unfold trusted, Conversation.from_profile.
  destruct (answered (live reply_of) _) as [asked r]. cbn [fst snd] in *. split; [|by intros c [= ->]].
  intros e (c & Hc & E)%list_elem_of_omap _. unfold ok in E.
  destruct (ConversationApi.profile c) as [q|] eqn:Eq; [|done]. cbn in E. injection E as <-.
  rewrite Forall_forall in Hall. pose proof (Hall c Hc) as (i & u & Hi & Hu & Hh). apply HP.
  unfold ConversationApi.profile, ConversationApi.service_call in Eq.
  apply bind_Ok in Eq as (url & Eu%map_err_Ok%map_err_Ok & [= <-]). split; cbn; [done| |].
  - by eapply Conversation.with_http_token.
  - exists profile, c. split; [done|]. split; [by exists i, u|exact Eu].
Qed.
Lemma asks_verified target :
  (forall provider r, canonical_address (pt_provider target) = Ok provider ->
     profile_request provider (pt_transport target) r -> P (ProfileSent r)) ->
  asks P (fun pc => exists provider, canonical_address (pt_provider target) = Ok provider /\
            trusted provider (pt_transport target) pc.1 pc.2) (verified_provider_client n reply_of target).
Proof.
  intros HP. eapply asks_bind; [apply asks_pure|]. intros provider Hc.
  eapply asks_bind; [apply asks_provider|]. intros profile Ha.
  eapply asks_bind; [apply asks_connect; [exact Ha|intros r Hr; by apply (HP provider)]|]. intros c Ht.
  apply asks_ret. by exists provider.
Qed.
(** What [authenticated_client] answers. *)
Definition session_client (s : ConversationStateV1) (policy : Conversation.ConversationTransportPolicy)
    (c : Conversation.ConversationClient) : Prop :=
  exists profile c0, trusted (provider_address s) policy profile c0 /\
    Conversation.base_url c = Conversation.base_url c0 /\
    session_token s profile c0 (Conversation.access_token c).
Lemma asks_client s policy :
  (forall r, profile_request (provider_address s) policy r -> P (ProfileSent r)) ->
  asks P (session_client s policy) (authenticated_client n reply_of (now_ms d) s policy).
Proof.
  intros HP. eapply asks_bind; [apply asks_pure|]. intros token Ht%ok_or_inv.
  eapply asks_bind; [apply asks_pure|]. intros u He%bail_if_Ok.
  eapply asks_bind; [apply asks_provider|]. intros profile Ha.
  eapply asks_bind; [apply asks_pure|]. intros u' Hs%bail_if_Ok.
  apply negb_false_iff, bool_decide_eq_true in Hs.
  eapply asks_bind; [by apply asks_connect|]. intros c Hc. apply asks_ret.
  exists profile, c. split; [done|]. split; [done|]. split; [done|]. split; [by rewrite Ht|].
  split; [by eexists|]. intros e Ee. rewrite Ee in He. by apply Z.leb_gt.
Qed.
End Asked.

Lemma trusted_token provider policy profile c :
  trusted provider policy profile c -> Conversation.access_token c = None.
Proof.
  intros [_ E]. unfold Conversation.from_profile, Conversation.ask_from_profile in E.
  destruct (Conversation.validate_conversation_profile profile); [|done].
  by apply Conversation.try_interfaces_Ok in E as (? & ? & ? & ? & ? & _ & _ & _ & _ & -> & _).
Qed.
Lemma session_granted s policy c r :
  session_client s policy c -> through c r ->
  granted policy (eq (provider_address s)) (session_token s) (ServiceSent r).
Proof.
  intros (profile & c0 & Ht & Hb & Hs) [Hr (path & Hp)]. exists (provider_address s). split; [done|].
  exists profile, c0. split; [done|]. split; [exists path; by rewrite <- Hb|by rewrite Hr].
Qed.
Lemma fresh_granted policy (chosen : rstr -> Prop) provider profile c r :
  chosen provider -> trusted provider policy profile c -> through c r ->
  granted policy chosen fresh_token (ServiceSent r).
Proof.
  intros Hc Ht [Hr Hs]. exists provider. split; [done|]. exists profile, c. split; [done|].
  split; [done|]. left. rewrite Hr. by eapply trusted_token.
Qed.
Lemma issued_granted policy (chosen : rstr -> Prop) provider profile c t r :
  chosen provider -> trusted provider policy profile c -> issued c (Some t) ->
  through (Conversation.with_access_token t c) r -> granted policy chosen fresh_token (ServiceSent r).
Proof.
  intros Hc Ht Hi [Hr Hs]. exists provider. split; [done|]. exists profile, c. split; [done|].
  split; [exact Hs|]. right. by rewrite Hr.
Qed.
Lemma profile_granted policy (chosen : rstr -> Prop) Q provider r :
  chosen provider -> profile_request provider policy r -> granted policy chosen Q (ProfileSent r).
Proof. intros Hc Hr. by exists provider. Qed.

Create HintDb through.
#[local] Hint Resolve delegation_info_through issue_challenge_through create_session_through
  resolve_through conversation_through submit_through messages_through acknowledge_through
  revoke_through event_stream_through profile_granted : through.
#[local] Ltac reaches :=
  intros ? ?; first
  [ eapply session_granted; [eassumption|by eauto with through]
  | eapply fresh_granted; [eassumption|eassumption|by eauto with through]
  | eapply issued_granted; [eassumption|eassumption|eassumption|by eauto with through]
  | eapply profile_granted; [|eassumption]; done ].
#[local] Ltac asking :=
  repeat first
  [ apply asks_print | apply asks_reads | apply asks_writes
  | by apply asks_ret
  | eapply asks_weaken; [apply asks_service; by reaches | done]
  | apply asks_tell; by reaches | apply asks_try; by reaches
  | eapply asks_weaken; [apply asks_pure | by intros]
  | eapply asks_bind; [apply asks_pure | intros ? ?]
  | eapply asks_bind; [apply asks_client; by reaches | intros ? ?]
  | eapply asks_bind; [apply asks_service; by reaches | intros ? _]
  | eapply (asks_bind _ (fun _ => True)); [|intros ? _]
  | match goal with |- asks _ _ (match ?x with _ => _ end) => destruct x end ].
Lemma asked_loaded p (P : ConversationStateV1 -> event -> Prop) {A} (k : ConversationStateV1 -> S A) fs e :
  (forall s, read_state o symlink p fs = Ok s -> asks (P s) (fun _ => True) (k s)) ->
  e ∈ ((s ← load o symlink p; k s) fs).1.2 -> remote_event e ->
  exists s, read_state o symlink p fs = Ok s /\ P s e.
Proof.
  intros Hk. unfold mbind, S_bind, load, reads.
  destruct (read_state o symlink p fs) as [s|x]; [|by intros []%not_elem_of_nil].
  destruct (Hk s eq_refl fs) as [Hs _]. destruct (k s fs) as [[fs' es] x]; cbn in *. eauto.
Qed.
Lemma asked_checked (c : result error unit) (m : S unit) fs e :
  e ∈ ((_ ← pure c; m) fs).1.2 -> e ∈ (m fs).1.2.
Proof.
  unfold mbind, S_bind, pure. destruct c; [|by intros []%not_elem_of_nil].
  by destruct (m fs) as [[fs' es] x].
Qed.
Lemma asks_flush s policy c outbox k sent items :
  session_client s policy c ->
  asks (granted policy (eq (provider_address s)) (session_token s)) (fun _ => True)
    (flush_items o reply_of error_text ios d c outbox k sent items).
Proof.
  intros Hc. revert k sent. induction items as [|i items IH]; intros k sent; cbn [flush_items].
  - by apply asks_ret.
  - eapply asks_bind; [apply asks_try; by reaches|]. intros [x|e] _;
      (eapply asks_bind; [apply asks_writes|intros _ _; apply IH]).
Qed.
Lemma asks_follow s policy c id p limit json k s' es stop :
  session_client s policy c ->
  asks (granted policy (eq (provider_address s)) (session_token s)) (fun _ => True)
    (follow o symlink d c id p limit json k s' es stop).
Proof.
  intros Hc. revert k s'. induction es as [|[after|after|m] es IH]; intros k s'; cbn [follow].
  - destruct stop; [| |eapply asks_weaken; [apply asks_pure|done]];
      (intros fs; split; [by intros x []%not_elem_of_nil|done]).
  - eapply asks_bind; [apply asks_stream; by reaches|intros _ _; apply IH].
  - eapply asks_bind; [apply asks_stream; by reaches|intros _ _; apply IH].
  - eapply asks_bind; [apply asks_print|intros _ _].
    eapply asks_bind; [apply asks_writes|intros _ _]. case_match; [by apply asks_ret|apply IH].
Qed.
Lemma asks_session policy (chosen : rstr -> Prop) provider profile c account op secret subject service lifetime :
  chosen provider -> trusted provider policy profile c ->
  asks (granted policy chosen fresh_token)
    (fun ds => issued c (Some (ConversationApi.ss_access_token ds.2)))
    (open_session reply_of d c account op secret subject service lifetime).
Proof.
  intros Hc Ht. unfold open_session.
  eapply asks_bind; [apply asks_pure|intros ? _]. eapply asks_bind; [apply asks_pure|intros ? _].
  eapply asks_bind; [apply asks_service; by reaches|intros ? _].
  eapply asks_bind; [apply asks_service; by reaches|intros session (r & Er & Es)]. apply asks_ret.
  pose proof (create_session_through _ _ _ Er) as Hr.
  unfold ConversationApi.create_session, ConversationApi.json, ConversationApi.service_call in Er.
  apply bind_Ok in Er as (url & _ & [= <-]). eexists _, _, session. by split_and!.
Qed.

(** The commands that need a session, with their state file. *)
Definition session_state (c : ConversationCommands) : option rstr :=
  match c with
  | Get _ | RevokeSession _ | Send _ | Messages _ | Watch _ | Acknowledge _ | OutboxFlush _ => state_of c
  | _ => None
  end.
(** The provider a command is for: the one its arguments name, or its state's. *)
Definition chosen_provider (fs : files) (c : ConversationCommands) (provider : rstr) : Prop :=
  match c with
  | Profile target | DelegationInfo target | Authorize target _ _ _ | Deauthorize target _ _ _ =>
      canonical_address (pt_provider target) = Ok provider
  | Open args => canonical_address (pt_provider (oa_target args)) = Ok provider
  | _ => exists p s, state_of c = Some p /\ read_state o symlink p fs = Ok s /\
           provider_address s = provider
  end.
Definition command_policy (c : ConversationCommands) : Conversation.ConversationTransportPolicy :=
  match c with
  | Profile target | DelegationInfo target | Authorize target _ _ _ | Deauthorize target _ _ _ =>
      pt_transport target
  | Open args => pt_transport (oa_target args)
  | Renew args => ta_transport (ra_target args)
  | Get target | RevokeSession target => ta_transport target
  | Send args => ta_transport (sa_target args)
  | Messages args => ta_transport (ma_target args)
  | Watch args => ta_transport (wa_target args)
  | Acknowledge args => ta_transport (aa_target args)
  | OutboxFlush args => ta_transport (fa_target args)
  | Status _ | Decrypt _ => ArgAuto
  end.
Lemma session_asks c p json fs e :
  session_state c = Some p -> e ∈ (run c json fs).1.2 -> remote_event e ->
  exists s, read_state o symlink p fs = Ok s /\
    granted (command_policy c) (eq (provider_address s)) (session_token s) e.
Proof.
  intros Hc Hr Hv. destruct c; cbn [session_state state_of] in Hc; try discriminate Hc;
    injection Hc as <-; cbn [run_conversation command_policy] in *.
  - eapply (asked_loaded _ (fun s => granted _ (eq (provider_address s)) (session_token s))); [|exact Hr|exact Hv]. intros s _. cbv beta. asking.
  - eapply (asked_loaded _ (fun s => granted _ (eq (provider_address s)) (session_token s))); [|exact Hr|exact Hv]. intros s _. unfold settle. cbv beta zeta. asking.
  - eapply (asked_loaded _ (fun s => granted _ (eq (provider_address s)) (session_token s))); [|exact Hr|exact Hv]. intros s _. cbv beta zeta. asking.
  - eapply (asked_loaded _ (fun s => granted _ (eq (provider_address s)) (session_token s))); [|exact Hr|exact Hv]. intros s _. cbv beta zeta.
    eapply asks_bind; [apply asks_pure|intros ? _]. eapply asks_bind; [apply asks_pure|intros ? _].
    eapply asks_bind; [apply asks_client; by reaches|intros ? Hs].
    destruct (Outbox.stream _ _ _ _) as [[es st] stop]. by apply asks_follow.
  - eapply (asked_loaded _ (fun s => granted _ (eq (provider_address s)) (session_token s))); [|exact Hr|exact Hv]. intros s _. cbv beta zeta. asking.
  - apply asked_checked in Hr. eapply (asked_loaded _ (fun s => granted _ (eq (provider_address s)) (session_token s))); [|exact Hr|exact Hv]. intros s _. cbv beta zeta.
    eapply asks_bind; [apply asks_client; by reaches|intros ? Hs].
    eapply asks_bind; [apply asks_reads|intros ? _]. eapply asks_bind; [apply asks_reads|intros ? _].
    eapply asks_bind; [by apply asks_flush|intros ? _]. apply asks_print.
  - eapply (asked_loaded _ (fun s => granted _ (eq (provider_address s)) (session_token s))); [|exact Hr|exact Hv]. intros s _. cbv beta zeta. asking.
Qed.

Lemma asks_open args json :
  asks (granted (pt_transport (oa_target args))
          (fun provider => canonical_address (pt_provider (oa_target args)) = Ok provider) fresh_token)
    (fun _ => True) (open o symlink n reply_of d args json).
Proof.
  unfold open. eapply asks_bind; [apply asks_pure|intros ? _].
  eapply asks_bind; [apply asks_reads|intros ? _]. eapply asks_bind; [apply asks_pure|intros ? _].
  eapply asks_bind; [apply asks_verified; eauto with through|].
  intros [profile c] (provider & Hp & Ht). cbn [fst snd] in Ht.
  eapply asks_bind; [apply asks_pure|intros ? _].
  eapply asks_bind; [apply asks_service; by reaches|intros ? _].
  eapply asks_bind; [apply asks_pure|intros ? _]. eapply asks_bind; [apply asks_reads|intros ? _].
  eapply asks_bind; [by eapply asks_session|intros [dl ss] Hi]. cbn [snd] in Hi.
  eapply asks_bind; [apply asks_service; by reaches|intros ? _].
  eapply asks_bind; [apply asks_writes|intros ? _]. apply asks_print.
Qed.
Lemma renew_asks args json fs e :
  e ∈ (renew o symlink n reply_of d args json fs).1.2 -> remote_event e ->
  exists s, read_state o symlink (ta_state (ra_target args)) fs = Ok s /\
    granted (ta_transport (ra_target args)) (eq (provider_address s)) fresh_token e.
Proof.
  unfold renew. intros Hr%asked_checked Hv. eapply (asked_loaded _ (fun s => granted _ (eq (provider_address s)) fresh_token)); [|exact Hr|exact Hv].
  intros s _. eapply asks_bind; [apply asks_reads|intros ? _].
  eapply asks_bind; [apply asks_pure|intros ? _].
  eapply asks_bind; [apply asks_provider|]. intros profile Ha.
  eapply asks_bind; [apply asks_connect; [exact Ha|by reaches]|]. intros c Ht.
  assert (provider_address s = provider_address s) as Hp by done.
  eapply asks_bind; [apply asks_service; by reaches|intros ? _].
  do 4 (eapply asks_bind; [apply asks_pure|intros ? _]).
  eapply asks_bind; [by eapply asks_session|intros [dl ss] Hi]. cbn [snd] in Hi.
  eapply (asks_bind _ (fun _ => True)).
  { destruct (st_conversation_id s); [|by apply asks_ret].
    eapply asks_bind; [apply asks_service; by reaches|intros ? _]. by apply asks_ret. }
  intros ? _. eapply asks_bind; [apply asks_writes|intros ? _]. apply asks_print.
Qed.
Lemma asks_delegate target :
  asks (granted (pt_transport target) (fun provider => canonical_address (pt_provider target) = Ok provider)
          fresh_token)
    (fun _ => True) (delegate_info n reply_of target).
Proof.
  eapply asks_bind; [apply asks_verified; eauto with through|].
  intros [profile c] (provider & Hp & Ht). cbn [fst snd] in *.
  eapply asks_bind; [apply asks_service; by reaches|intros ? _].
  eapply asks_bind; [apply asks_pure|intros ? _]. by apply asks_ret.
Qed.
Lemma asks_signed P build provider :
  asks P (fun _ => True) (signed_by_provider o n client build provider).
Proof.
  unfold signed_by_provider. eapply (asks_bind _ (fun _ => True)); [apply asks_of_T|intros ? _; asking].
  intros fs. eapply Forall_impl; [apply CliTx.resolve_wallet_sends|]. by intros q (r & -> & _); eexists.
Qed.
Lemma asks_finish P label build w rq json :
  Wallet.request_text rq = None -> asks P (fun _ => True) (finish o n label d build w rq json).
Proof.
  intros Ht. unfold finish. eapply (asks_bind _ (fun _ => True)); [apply asks_of_T|intros stx _].
  - intros fs. unfold CliTx.of_builder. cbn. rewrite Wallet.builder_calls_spec.
    unfold Wallet.embedding_calls. rewrite Ht. by destruct (Wallet.embed_url w).
  - eapply (asks_bind _ (fun _ => True)); [apply asks_of_T, CliTx.finish_to_node|intros ? _; asking].
Qed.
Lemma requests_granted c json fs e :
  e ∈ (run c json fs).1.2 -> remote_event e ->
  match session_state c with
  | Some p => exists s, read_state o symlink p fs = Ok s /\
      granted (command_policy c) (eq (provider_address s)) (session_token s) e
  | None => granted (command_policy c) (chosen_provider fs c) fresh_token e
  end.
Proof.
  intros Hr Hv. destruct (session_state c) as [p|] eqn:Ec; [by eapply session_asks|].
  assert (forall P m, asks P (fun _ : unit => True) m -> e ∈ (m fs).1.2 -> P e) as use
    by (intros P m Hm Hin; by apply (Hm fs)).
  destruct c; try discriminate Ec; cbn [run_conversation command_policy] in *.
  - eapply use, Hr. eapply asks_bind; [apply asks_verified; eauto with through|intros ? _]. asking.
  - eapply use, Hr. eapply asks_bind; [apply asks_delegate|intros ? _]. asking.
  - eapply use, Hr. unfold authorize. eapply asks_bind; [apply asks_pure|intros ? _].
    eapply asks_bind; [apply asks_delegate|intros ? _].
    do 4 (eapply asks_bind; [apply asks_pure|intros ? _]).
    eapply asks_bind; [apply asks_signed|intros ? _]. by apply asks_finish.
  - eapply use, Hr. unfold deauthorize. eapply asks_bind; [apply asks_pure|intros ? _].
    eapply asks_bind; [apply asks_signed|intros ? _].
    eapply (asks_bind _ (fun _ => True)); [|intros ? _; by apply asks_finish].
    destruct delegation_id; [eapply asks_weaken; [apply asks_pure|done]|].
    eapply asks_bind; [apply asks_delegate|intros ? _].
    eapply asks_bind; [apply asks_pure|intros ? _]. by apply asks_ret.
  - eapply use, Hr. apply asks_open.
  - destruct (renew_asks args json fs e Hr Hv) as (s & Es & provider & <- & Hg).
    exists (provider_address s). split; [by exists (ta_state (ra_target args)), s|exact Hg].
  - eapply use, Hr. unfold status. eapply asks_bind; [apply asks_reads|intros ? _]. apply asks_print.
  - eapply use, Hr. unfold decrypt. asking.
Qed.

(** C15: Every request that a conversation command makes of anything but the node, for live
    profiles and event streams too, goes where the chain says. The provider is the one the arguments
    name, or that of the state the command loads. A request for a live profile has no token, and goes to
    an interface that the profile in the provider's agent metadata has and the command's transport
    allows. Any other request goes to the service of the client that the verification of that profile
    yields. A command that uses a stored session sends exactly its token, which had not expired when the
    command looked (a stream that reconnects later sends it still), and only if the service is the
    one its delegation was made for; any other command sends no token but one that the same service
    gives for a session in answer to a request without a token. No text is sent to be embedded. *)
Theorem requests_trusted c json fs e :
  e ∈ (run c json fs).1.2 -> remote_event e ->
  match session_state c with
  | Some p => exists s, read_state o symlink p fs = Ok s /\
      granted (command_policy c) (eq (provider_address s)) (session_token s) e
  | None => granted (command_policy c) (chosen_provider fs c) fresh_token e
  end.
Proof. apply requests_granted. Qed.

(** *** Sending *)
Lemma outbox_after q {A} (op : Outbox.file -> Outbox.file * result error A) fs :
  outbox_file q (on_outbox o q op fs).1 = (op (outbox_file q fs)).1 /\
  (on_outbox o q op fs).2 = (op (outbox_file q fs)).2.
Proof.
  unfold on_outbox. destruct (op (outbox_file q fs)) as [f r]. cbn [fst snd]. split; [|done].
  unfold with_outbox. case_bool_decide as E; [by symmetry|]. unfold outbox_file.
  destruct f as [b|]; [by rewrite lookup_insert_eq|by rewrite lookup_delete_eq].
Qed.
(** The client is found without touching a file, and with nothing asked of the service but live
    profiles. *)
Lemma client_run s policy fs :
  exists es r, authenticated_client n reply_of (now_ms d) s policy fs = (fs, es, r) /\
    (forall q, ServiceSent q ∉ es) /\
    (forall c, r = CliTx.Done (Ok c) -> session_client s policy c).
Proof.
  destruct (asks_client (fun e => exists r, e = ProfileSent r) s policy ltac:(by eexists) fs) as [Hq Hc].
  assert ((authenticated_client n reply_of (now_ms d) s policy fs).1.1 = fs) as Hf.
  { unfold authenticated_client, provider_profile. rewrite step_pure. destruct (ok_or _ _); [|done].
    rewrite step_pure. destruct (bail_if _ _); [|done].
    unfold mbind, S_bind, s_context, ask_node, pure, connect. cbn.
    destruct (context _ _); [|done]. destruct (profile_of_agent _) as [pr|]; [|done].
    destruct (bail_if _ _); [|done]. by destruct (answered _ _) as [asked []]. }
  destruct (authenticated_client _ _ _ _ _ fs) as [[fs' es] r]. cbn in *. subst fs'.
  exists es, r. split; [done|]. split; [|intros c Hr; by apply Hc].
  intros q Hin. by destruct (Hq _ Hin I) as [? ?].
Qed.
Lemma sign_message_fields id now op dl conv from p reply ep rq :
  Conversation.sign_message id now op dl conv from p reply ep = Ok rq -> Conversation.message_id rq = id.
Proof.
  unfold Conversation.sign_message. intros E.
  do 4 (apply bind_Ok in E as (? & _ & E)). cbv zeta in E. apply bind_Ok in E as (? & _ & E).
  by injection E as <-.
Qed.
Lemma message_to_send_id args s id fs rq :
  message_to_send o symlink payload_to_vec uuid_parse d args s id fs = Ok rq ->
  Conversation.message_id rq = message_uuid d.
Proof.
  unfold message_to_send. intros E. do 7 (apply bind_Ok in E as (? & _ & E)).
  by apply sign_message_fields in E.
Qed.

Section SendProofs.
Context `{!Outbox.SerdeJsonLaws (list Outbox.QueuedMessage)}.
(** Reads of the outbox do not report a file missing that is there. *)
Context (Hios : forall k, Outbox.io_read (ios k) <> Some NotFound).
Abbreviation box := Outbox.outbox_new.
Definition still (l : list Outbox.QueuedMessage) (m : Outbox.QueuedMessage) : Prop :=
  exists m', m' ∈ l /\ Outbox.same_message m m'.

Lemma sound_unique ob f l1 l2 : Outbox.sound ob f l1 -> Outbox.sound ob f l2 -> l1 = l2.
Proof. intros E1%Outbox.load_sound E2%Outbox.load_sound. congruence. Qed.
Lemma honest_ios k f : Outbox.honest f (ios k).
Proof. intros E. by destruct (Hios k). Qed.
Lemma on_outbox_sound q k (op : Outbox.op) {A} (g : Outbox.file -> Outbox.file * result error A) fs l :
  (forall f, (g f).1 = Outbox.run_op box f (ios k, op)) ->
  Outbox.sound box (outbox_file q fs) l ->
  exists l', Outbox.sound box (outbox_file q (on_outbox o q g fs).1) l' /\ Outbox.kept op l l'.
Proof.
  intros Hg Hl. rewrite (proj1 (outbox_after q g fs)), Hg.
  apply Outbox.run_op_sound; [done|apply honest_ios].
Qed.
Lemma save_keeps_outbox q p s fs :
  q <> p -> temporary (state_write d 0) p <> q ->
  outbox_file q (write_state o symlink (state_write d 0) p s true fs).1 = outbox_file q fs.
Proof. intros Hq Ht. unfold outbox_file. by rewrite write_state_other. Qed.
Lemma settle_run q p s rq r json fs l :
  q <> p -> temporary (state_write d 0) p <> q -> Outbox.sound box (outbox_file q fs) l ->
  let x := settle o symlink error_text ios d p q s rq r json fs in
  exists l', Outbox.sound box (outbox_file q x.1.1) l' /\ (forall sr, ServiceSent sr ∉ x.1.2) /\
    forall m, m ∈ l -> (is_ok r = false \/ Outbox.q_id m <> Conversation.message_id rq) -> still l' m.
Proof.
  intros Hq Ht Hl. cbv zeta. unfold settle. destruct r as [record|e]; rewrite step_writes.
  - edestruct (on_outbox_sound q 1 (Outbox.OpSent (Conversation.message_id rq))
      (fun f => Outbox.mark_sent box f (ios 1) (Conversation.message_id rq))) as (l1 & Hl1 & Hk);
      [done|exact Hl|]. set (fs1 := (on_outbox o q _ fs).1) in *.
    assert (forall m, m ∈ l -> is_ok (Ok (E:=error) record) = false \/
      Outbox.q_id m <> Conversation.message_id rq -> still l1 m) as Hs.
    { intros m Hm [?|Hne]; [done|]. apply (Hk m Hm). congruence. }
    exists l1. destruct (on_outbox _ _ _ _).2 as [[]|e]; cbn [fst snd];
      [|split_and!; [done|by intros sr []%not_elem_of_nil|done]].
    unfold save. rewrite step_writes. set (w := write_state _ _ _ _ _ _ _).
    assert (outbox_file q w.1 = outbox_file q fs1) as Hw by by apply save_keeps_outbox.
    destruct w.2 as [[]|e]; cbn; rewrite Hw; (split_and!; [done| |done]);
      [by intros sr Hin%list_elem_of_singleton|by intros sr []%not_elem_of_nil].
  - edestruct (on_outbox_sound q 1 (Outbox.OpFailed (Conversation.message_id rq) (error_text e) (now_ms d))
      (fun f => Outbox.mark_failed box f (ios 1) (Conversation.message_id rq) (error_text e) (now_ms d)))
      as (l1 & Hl1 & Hk); [done|exact Hl|]. exists l1.
    destruct (on_outbox _ _ _ _).2 as [[]|e1]; cbn;
      (split_and!; [done|by intros sr []%not_elem_of_nil|]); intros m Hm _; by apply (Hk m Hm).
Qed.

(** After queueing, the rest of [send]. *)
Lemma submit_run q p s id c rq json fs l m :
  q <> p -> temporary (state_write d 0) p <> q -> Outbox.sound box (outbox_file q fs) l ->
  m ∈ l -> Outbox.q_conversation_id m = id -> Outbox.q_request m = rq ->
  let x := (r ← try_service (T := Conversation.MessageRecord) reply_of (ConversationApi.submit c id rq);
            settle o symlink error_text ios d p q s rq r json) fs in
  exists l', Outbox.sound box (outbox_file q x.1.1) l' /\
    (forall m, m ∈ l -> Outbox.q_id m <> Conversation.message_id rq -> still l' m) /\
    forall sr, ServiceSent sr ∈ x.1.2 ->
      ConversationApi.sv_body sr = Some (ConversationApi.BMessage rq) /\
      (still l' m \/ exists record, ConversationApi.read_reply (T := Conversation.MessageRecord) sr (reply_of sr) = Ok record).
Proof.
  intros Hq Ht Hl Hm Hc Hr. cbv zeta. unfold mbind, S_bind, try_service.
  destruct (ConversationApi.submit c id rq) as [sr|e] eqn:Es.
  - pose proof (settle_run q p s rq (ConversationApi.read_reply sr (reply_of sr)) json fs l Hq Ht Hl)
      as (l' & Hl' & Hn & Hk).
    destruct (settle _ _ _ _ _ _ _ _ _ _ _ fs) as [[fs' es] x]; cbn [fst snd] in *.
    exists l'. split; [done|]. split; [by intros m' Hm' ?; apply Hk; [|right]|].
    intros sr' [E|Hin]%elem_of_cons; [injection E as ->|by destruct (Hn sr')]. split.
    + unfold ConversationApi.submit, ConversationApi.json, ConversationApi.service_call in Es.
      apply bind_Ok in Es as (? & _ & Es). apply bind_Ok in Es as (? & _ & Es). by injection Es as <-.
    + destruct (ConversationApi.read_reply sr (reply_of sr)) as [record|e]; [right; by exists record|].
      left. by apply Hk; [|left].
  - pose proof (settle_run q p s rq (Err e) json fs l Hq Ht Hl) as (l' & Hl' & Hn & Hk).
    destruct (settle _ _ _ _ _ _ _ _ _ _ _ fs) as [[fs' es] x]; cbn [fst snd] in *.
    exists l'. split; [done|]. split; [by intros m' Hm' ?; apply Hk; [|right]|].
    intros sr' Hin. by destruct (Hn sr').
Qed.
(** What a send keeps: the outbox, but for the message sent; and what it submits was queued. *)
Definition send_kept (args : SendArgs) (q : rstr) (fs : files) (l : list Outbox.QueuedMessage)
    (x : files * list event * CliTx.outcome unit) : Prop :=
  exists l', Outbox.sound box (outbox_file q x.1.1) l' /\
    (forall m, m ∈ l -> still l' m \/ Outbox.q_id m = message_uuid d) /\
    forall sr, ServiceSent sr ∈ x.1.2 -> exists s id rq,
      read_state o symlink (ta_state (sa_target args)) fs = Ok s /\
      message_to_send o symlink payload_to_vec uuid_parse d args s id fs = Ok rq /\
      ConversationApi.sv_body sr = Some (ConversationApi.BMessage rq) /\
      ((exists m, m ∈ l' /\ Outbox.q_conversation_id m = id /\ Outbox.q_request m = rq) \/
       exists record, ConversationApi.read_reply (T := Conversation.MessageRecord) sr (reply_of sr) = Ok record).
Lemma kept_idle args q fs l x :
  Outbox.sound box (outbox_file q fs) l -> x.1.1 = fs -> (forall sr, ServiceSent sr ∉ x.1.2) ->
  send_kept args q fs l x.
Proof.
  intros Hl Hx Hn. exists l. rewrite Hx. split; [done|]. split; [intros m Hm; left; by exists m|].
  intros sr Hin. by destruct (Hn sr).
Qed.
Lemma still_trans (l : list Outbox.QueuedMessage) m m' : Outbox.same_message m m' -> still l m' -> still l m.
Proof. intros [E1 E2] (m'' & Hin & E3 & E4). exists m''. split; [done|]. split; congruence. Qed.
(** C16: A message is durable before it is sent. When a send submits a message, that is the message
    the command's arguments make, signed, and it was in the outbox first: unless the service
    accepted it, it is there still when the command ends, whatever failed; no other
    queued message is lost; and a send that submits nothing has lost nothing. *)
Theorem send_queues_first args json fs l q :
  q = outbox_path_of (sa_outbox args) (ta_state (sa_target args)) ->
  q <> ta_state (sa_target args) -> temporary (state_write d 0) (ta_state (sa_target args)) <> q ->
  Outbox.sound box (outbox_file q fs) l ->
  send_kept args q fs l (run (Send args) json fs).
Proof.
  intros Eq Hq Ht Hl. cbn [run_conversation]. unfold send. rewrite <- Eq. cbv zeta.
  assert (forall sr, ServiceSent sr ∉ ([] : list event)) as Hnil by (intros sr; apply not_elem_of_nil).
  unfold load. rewrite step_reads.
  destruct (read_state _ _ _ _) as [s|e] eqn:Es; [|by apply kept_idle].
  rewrite step_pure. destruct (conversation_id s) as [id|e]; [|by apply kept_idle].
  destruct (client_run s (ta_transport (sa_target args)) fs) as (es & r & Er & Hes & Hc).
  unfold mbind at 1, S_bind at 1. rewrite Er.
  destruct r as [[c|e]| |]; [|by apply kept_idle..].
  rewrite step_reads. destruct (message_to_send _ _ _ _ _ _ _ _ _) as [rq|e] eqn:Em;
    [|apply kept_idle; [done..|cbn; by rewrite app_nil_r]].
  rewrite step_reads. destruct (check_private_existing _ _ _ _) as [[]|e];
    [|apply kept_idle; [done..|cbn; by rewrite app_nil_r]].
  pose proof (message_to_send_id _ _ _ _ _ Em) as Hid.
  rewrite step_writes. set (g := fun f => Outbox.enqueue _ f _ _ _ _).
  destruct (on_outbox_sound q 0 (Outbox.OpEnqueue (now_ms d) id rq) g fs l) as (l1 & Hl1 & Hk1);
    [done|done|].
  assert (forall m, m ∈ l -> still l1 m) as Hs1 by (intros m Hm; by apply (Hk1 m Hm)).
  destruct (outbox_after q g fs) as [Ho Ho2]. destruct (on_outbox o q g fs).2 as [[]|e] eqn:E2.
  2: { exists l1. cbn [fst snd]. rewrite app_nil_r. split; [done|]. split; [intros m Hm; left; auto|].
       intros sr Hin. by destruct (Hes sr). }
  assert (exists m, m ∈ l1 /\ Outbox.q_conversation_id m = id /\ Outbox.q_request m = rq)
    as (m & Hm & Hmc & Hmr).
  { destruct (Outbox.enqueue_idempotent box (outbox_file q fs) l (ios 0) (now_ms d) id rq (g (outbox_file q fs)).1)
      as (l2 & Hl2 & Hin & _); [done|apply honest_ios|rewrite Ho2; apply surjective_pairing|].
    rewrite <- Ho in Hl2. by rewrite (sound_unique _ _ _ _ Hl1 Hl2). }
  destruct (submit_run q (ta_state (sa_target args)) s id c rq json (on_outbox o q g fs).1 l1 m Hq Ht Hl1 Hm Hmc Hmr)
    as (l' & Hl' & Hk & Hsent). cbv zeta in Hl', Hsent.
  match type of Hl' with context [outbox_file q ?t.1.1] => destruct t as [[fs' es'] x] end.
  cbn [fst snd] in *.
  exists l'. split; [done|]. split.
  - intros m0 Hm0. destruct (Hs1 m0 Hm0) as (m1 & Hm1 & Es1). rewrite <- Hid.
    destruct (decide (Outbox.q_id m0 = Conversation.message_id rq)) as [?|Hne]; [by right|left].
    eapply still_trans; [exact Es1|]. apply Hk; [done|]. unfold Outbox.q_id in *.
    by destruct Es1 as [_ <-].
  - intros sr [Hin|Hin]%elem_of_app; [by destruct (Hes sr)|].
    destruct (Hsent sr Hin) as [Hb Ho3]. exists s, id, rq. split_and!; [done..|].
    destruct Ho3 as [(m' & Hm' & Ec & Eq')|?]; [left|by right]. exists m'. split; [done|].
    split; congruence.
Qed.
End SendProofs.

(** Flushing from the command line is the library's flush, and sends the messages this submits. *)
Definition submit_once (c : Conversation.ConversationClient) (i : Outbox.QueuedMessage) : result error unit :=
  r ← ConversationApi.submit c (Outbox.q_conversation_id i) (Outbox.q_request i);
  _ ← ConversationApi.read_reply (T := Conversation.MessageRecord) r (reply_of r); Ok ().
Definition submission (c : Conversation.ConversationClient) (i : Outbox.QueuedMessage) : option event :=
  ServiceSent <$> ok (ConversationApi.submit c (Outbox.q_conversation_id i) (Outbox.q_request i)).
Lemma flush_refines q c k sent items fs :
  let lib := answered (submit_once c) (Outbox.flush_items Outbox.outbox_new error_text (now_ms d) ios k sent
               (outbox_file q fs) items) in
  let x := flush_items o reply_of error_text ios d c q k sent items fs in
  outbox_file q x.1.1 = lib.2.1 /\ x.2 = CliTx.Done lib.2.2 /\ x.1.2 = omap (submission c) lib.1.
Proof.
  cbv zeta. revert k sent fs. induction items as [|i items IH]; intros k sent fs; [done|].
  cbn [flush_items Outbox.flush_items answered]. unfold submit_item.
  assert (exists r, submit_once c i = (_ ← r; Ok ()) /\
    forall K : result error Conversation.MessageRecord -> S Z,
    (r ← try_service (T := Conversation.MessageRecord) reply_of
       (ConversationApi.submit c (Outbox.q_conversation_id i) (Outbox.q_request i)); K r) fs
    = (let '(fs', es', x) := K r fs in (fs', option_list (submission c i) ++ es', x))) as (r & Hsub & Hrun).
  { unfold submit_once, try_service, submission.
    destruct (ConversationApi.submit c (Outbox.q_conversation_id i) (Outbox.q_request i)) as [r|e];
      [by exists (ConversationApi.read_reply r (reply_of r))|exists (Err e); split; [done|]].
    intros K. unfold mbind at 1, S_bind at 1. by destruct (K (Err e) fs) as [[? ?] ?]. }
  assert (forall asked, omap (submission c) (i :: asked) = option_list (submission c i) ++ omap (submission c) asked)
    as Hcons by (intros asked; cbn; by destruct (submission c i)).
  rewrite Hrun, Hsub. destruct r as [record|e]; cbn [mbind result_bind];
    rewrite step_writes; set (g := fun f => _);
    destruct (outbox_after q g fs) as [Ho Hr]; destruct (on_outbox o q g fs) as [fs1 r1];
    cbn [fst snd] in *; subst r1; change (Outbox.mark_sent _ _ _ _) with (g (outbox_file q fs)) ||
    change (Outbox.mark_failed _ _ _ _ _ _) with (g (outbox_file q fs));
    destruct (g (outbox_file q fs)) as [f [[]|e']]; cbn [fst snd answered] in *;
    [|split_and!; [done|done|by rewrite Hcons]| |split_and!; [done|done|by rewrite Hcons]];
    subst f; specialize (IH (k + 1)%nat);
    [specialize (IH (sent + 1) fs1)|specialize (IH sent fs1)];
    destruct (flush_items _ _ _ _ _ _ _ _ _ _ fs1) as [[fs' es'] x]; rewrite Nat.add_1_r in IH;
    destruct (answered (submit_once c) _) as [asked y]; cbn [fst snd] in *;
    destruct IH as (H1' & H2' & H3'); rewrite Hcons, <- H3'; done.
Qed.
End CommandProofs.
End CliConversation.

(** ** Witnesses *)
Module CliConversationWitness.
Import Anyhow CliWallet Conversation ConversationInstances ConversationApi CliConversation.

#[local] Existing Instance Client.ClientWitness.plain_url_ops.
#[local] Existing Instance CliTx.CliTxWitness.plain_argon2.
#[local] Existing Instance CliTx.CliTxWitness.plain_bip39.
#[local] Existing Instance CliTx.CliTxWitness.no_json.
#[local] Instance any_codec T : Bincode T := Wallet.WalletWitness.fixed_codec T.
#[local] Instance own_builder : Wallet.Builder := Wallet.wallet_builder (fun _ _ => Err []).
#[local] Instance no_answer T : ApiDecode T := { decode_response := fun _ => Err (lit "expected value") }.
#[local] Instance null_value T : ToJson T := { to_value := fun _ => Json.Null }.
Definition no_file_json T : CliTx.FileJson T := {| CliTx.from_slice := fun _ => Err [] |}.
#[local] Existing Instance no_file_json | 10.
#[local] Instance state_eq_dec : EqDecision ConversationStateV1.
Proof. assert (EqDecision Delegation) by solve_decision. solve_decision. Defined.

Definition profile1 : ConversationProfileV2 :=
  {| version := 2; service_id := lit "home"; interfaces := [Https (lit "https://a")];
     privacy_modes := [PlatformReadable]; protocol_versions := [1] |}.
#[local] Instance profile_json : JsonCodec ConversationProfileV2 := table_json [profile1].
#[local] Instance payload_json : JsonCodec MessagePayload := table_json [ConversationWitness.text0].
#[local] Instance envelope_json : JsonCodec E2eEnvelopeV1 := table_json [].
Definition state0 : ConversationStateV1 :=
  {| st_version := 1; provider_address := address_to_hex address_treasury; st_profile := profile1;
     st_subject := o_subject ConversationWitness.options0; st_privacy_mode := PlatformReadable;
     operational_secret_key := hex_encode (bn ConversationWitness.bob);
     encryption_secret_key := hex_encode (bn ConversationWitness.bob);
     st_delegation := ConversationWitness.delegation0;
     decryption_key_ids := [uuid_to_string ConversationWitness.uuid0];
     st_access_token := Some (lit "token"); session_expires_at_ms := Some 9000;
     st_conversation_id := Some ConversationWitness.hex64; last_observed_sequence := 5;
     last_acknowledged_sequence := 2 |}.
Definition state1 : ConversationStateV1 := state0 <| last_acknowledged_sequence := 4 |>.
Definition states : list ConversationStateV1 := [state0; state1].
#[local] Instance state_json : StateJson := { to_vec_pretty := table_serialize states }.
#[local] Instance state_file_json : CliTx.FileJson ConversationStateV1 :=
  { CliTx.from_slice := table_deserialize states }.
#[local] Instance state_json_laws : StateJsonLaws.
Proof. intros s b. apply table_roundtrip. Qed.
Definition os0 : os := CliTx.CliTxWitness.os0.
Definition no_links (p : rstr) : bool := false.
Definition path0 : rstr := lit "c.json".
Definition io0 : state_io := {| suffix := pad_bytesN 16 [x07]; failure := None; removal_fails := false |}.
Definition bytes0 : list byte := match to_vec_pretty state0 with Ok b => b | Err _ => [x00] end.
Definition files0 : files := {[ path0 := {| contents := bytes0; mode := 384 |} ]}.
Lemma state0_valid : validate_state state0 = Ok ().
Proof. by vm_compute. Qed.
Lemma state0_read : read_state os0 no_links path0 files0 = Ok state0.
Proof. by vm_compute. Qed.

(** The state written to a new file, and read back. *)
Lemma state_file_roundtrip_witness :
  read_state os0 no_links path0 (write_state os0 no_links io0 path0 state0 false ∅).1 = Ok state0.
Proof.
  refine (proj1 (state_file_roundtrip os0 no_links io0 path0 state0 false ∅ _ _ _ _)).
  - by repeat split.
  - by vm_compute.
  - by vm_compute.
Defined.

Definition draws0 : draws :=
  {| now_ms := 100; operational := ConversationWitness.bob; encryption := ConversationWitness.bob;
     delegation_uuid := ConversationWitness.uuid0; delegation_nonce := ConversationWitness.uuid0;
     message_uuid := ConversationWitness.uuid0; e2e := ConversationWitness.random0;
     wrap_nonce := fun _ => pad_bytesN 24 []; now_millis := Ok 100; wallet_now := 100;
     state_write := fun _ => io0 |}.
Definition agent0 : Json.Value := Json.Object [(lit "metadata", Json.Array [Json.Number (lit "2")])].
Definition node0 : CliTx.node := {| CliTx.answer := fun _ => Ok agent0; CliTx.polls := fun _ => [] |}.
(** The service answers every request with a success and no body, which is read as its profile. *)
#[local] Instance profile_answer : ApiDecode ConversationProfileV2 := {
  decode_response := fun _ => Ok {| Outbox.api_success := Some true; Outbox.api_data := Some profile1;
                                    Outbox.api_error := None |};
}.
Definition reply0 (r : service_request) : reply := Replied 200 None [].
Definition vec0 (p : MessagePayload) : result rstr (list byte) := Ok [].
Definition no_uuid (t : rstr) : result rstr (bytesN 16) := Err [].
Definition text_of (e : error) : rstr := [].
Definition target0 : StateTargetArgs := {| ta_state := path0; ta_transport := ArgAuto |}.
Definition send0 : SendArgs :=
  {| sa_target := target0; sa_text := Some (lit "hello"); sa_payload_file := None;
     sa_reply_to := None; sa_key_epoch := None; sa_e2e_recipients_file := None; sa_outbox := None |}.
Definition outbox0 : rstr := outbox_path_of None path0.
Definition message0 : result error SubmitMessageRequest :=
  message_to_send os0 no_links vec0 no_uuid draws0 send0 state0 ConversationWitness.hex64 files0.
Definition queued0 : list Outbox.QueuedMessage :=
  match message0 with
  | Ok rq => [{| Outbox.q_conversation_id := ConversationWitness.hex64; Outbox.q_request := rq;
                 Outbox.q_attempts := 0; Outbox.q_next_attempt_ms := 100; Outbox.q_last_error := None |}]
  | Err _ => []
  end.
Definition queues : list (list Outbox.QueuedMessage) := [[]; queued0].
#[local] Instance queue_json : Outbox.SerdeJson (list Outbox.QueuedMessage) :=
  {| Outbox.json_to_vec := table_serialize queues; Outbox.json_of_slice := table_deserialize queues |}.
#[local] Instance queue_json_laws : Outbox.SerdeJsonLaws (list Outbox.QueuedMessage).
Proof. intros l b. apply table_roundtrip. Qed.
Definition good_io (k : nat) : Outbox.io := {| Outbox.io_read := None; Outbox.io_write := Outbox.Written |}.
Definition run0 (c : ConversationCommands) : files * list event * CliTx.outcome unit :=
  run_conversation os0 no_links node0 reply0 vec0 no_uuid text_of good_io
    Client.ClientWitness.client0 (fun _ => Err []) [] (good_io 0) draws0 c false files0.
Definition ack0 : ConversationCommands := Acknowledge {| aa_target := target0; aa_through_sequence := 4 |}.
Lemma ack0_written : (run0 ack0).1.1 !! path0 <> files0 !! path0.
Proof. intros E. apply (f_equal (fmap contents)) in E. vm_compute in E. discriminate E. Qed.
Lemma conversation_state_sound_witness :
  exists s b, (run0 ack0).1.1 !! path0 = Some (private_file os0 b) /\ state_bytes s b.
Proof.
  destruct (conversation_state_sound os0 no_links node0 reply0 vec0 no_uuid text_of good_io
    Client.ClientWitness.client0 (fun _ => Err []) [] (good_io 0) draws0 ack0 path0 false files0
    eq_refl) as [E|(s & b & Hf & Hb & _)].
  - discriminate.
  - intros k. by vm_compute.
  - by destruct (ack0_written E).
  - exists s, b. split; [exact Hf|exact Hb].
Defined.

Definition asked0 : service_request :=
  {| sv_method := POST; sv_url := lit "https://a/v1/conversations/" ++ ConversationWitness.hex64 ++ lit "/acknowledgements";
     sv_token := Some (lit "token"); sv_body := Some (BAcknowledge 4); sv_limit := None |}.
(** The request for the live profile has no token, the acknowledgement that of the state. *)
Definition profile0_asked : service_request :=
  {| sv_method := GET; sv_url := lit "https://a/v1/profile"; sv_token := None; sv_body := None;
     sv_limit := Some MAX_PROFILE_RESPONSE_BYTES |}.
Lemma requests_trusted_witness :
  omap (fun e => match e with ServiceSent r => Some (sv_token r) | ProfileSent r => Some (sv_token r) | _ => None end)
    (run0 ack0).1.2 = [None; Some (lit "token")] /\
  sv_token asked0 = st_access_token state0 /\ sv_method profile0_asked = GET.
Proof.
  split; [by vm_compute|]. split.
  - destruct (requests_trusted os0 no_links node0 reply0 vec0 no_uuid text_of good_io
      Client.ClientWitness.client0 (fun _ => Err []) [] (good_io 0) draws0 ack0 false files0
      (ServiceSent asked0)) as (s & Es & provider & _ & profile & c & _ & _ & _ & Ht & _).
    + apply (list_elem_of_lookup_2 _ 2). vm_compute. reflexivity.
    + exact I.
    + change (read_state os0 no_links path0 files0 = Ok s) in Es.
      rewrite state0_read in Es. injection Es as <-. exact Ht.
  - destruct (requests_trusted os0 no_links node0 reply0 vec0 no_uuid text_of good_io
      Client.ClientWitness.client0 (fun _ => Err []) [] (good_io 0) draws0 ack0 false files0
      (ProfileSent profile0_asked)) as (s & _ & provider & _ & [[Hm _] _ _]).
    + apply (list_elem_of_lookup_2 _ 1). vm_compute. reflexivity.
    + exact I.
    + exact Hm.
Defined.
Lemma outbox0_sound : Outbox.sound Outbox.outbox_new (outbox_file outbox0 files0) [].
Proof. split; [reflexivity|]. split; [constructor|]. split; [vm_compute; discriminate|exact I]. Qed.
Lemma send_queues_first_witness :
  exists l, Outbox.sound Outbox.outbox_new (outbox_file outbox0 (run0 (Send send0)).1.1) l.
Proof.
  destruct (send_queues_first os0 no_links node0 reply0 vec0 no_uuid text_of good_io
    Client.ClientWitness.client0 (fun _ => Err []) [] (good_io 0) draws0 ltac:(discriminate)
    send0 false files0 [] outbox0 eq_refl) as (l & Hl & _).
  - by vm_compute.
  - by vm_compute.
  - exact outbox0_sound.
  - exists l. exact Hl.
Defined.
End CliConversationWitness.
