(* ===== verification/Cli.v ===== *)
(** * The command line

    Models zincha-cli-core's [lib.rs], [watch.rs] and the faucet of [wallet.rs]: the client a run
    is made with, and the dispatch of its command to the runs of [CliWallet], [CliQuery], [CliTx]
    and [CliConversation]. A run is the files it leaves, what it sent, through which client, and
    printed, in order, and how it ended. *)
From S2P Require Import Prelude Crypto Float Instances Transaction Agreement Subscription ToolJob.
From S2P Require Import Contract Tool Validator Token Task Wallet Keystore Mnemonic Conversation.
From S2P Require Import Outbox Client ConversationApi CliWallet CliQuery CliTx CliConversation.

Module Cli.
Import Anyhow CliWallet.

Record KeygenCommand : Type := {
  kg_out : option rstr; kg_force : bool; kg_unsafe_print_secret : bool;
}.
Record FaucetCommand : Type := {
  fc_address : rstr; fc_amount_micro_zin : option Z; fc_amount_zin : option Z;
}.
Inductive Commands : Type :=
| Keygen (c : KeygenCommand)
| Wallet (c : WalletCommands)
| Conversation (c : CliConversation.ConversationCommands)
| Tx (c : CliTx.TxCommands)
| Query (command : option CliQuery.QueryCommands) (path : option rstr)
| Info
| Faucet (c : FaucetCommand)
| Watch (path : rstr).
Record Cli : Type := {
  api_url : rstr;
  release : option rstr;
  json : bool;
  bearer_token : option rstr;
  bearer_token_env : rstr;
  command : Commands;
}.

(** ** Runs *)
Inductive event `{Conversation.Urls} : Type :=
| Sent (c : Client.ZinchaClient) (r : Client.api_request)
(** By a builder, of an embedding service. *)
| Embedded (url text : rstr)
| Asked (r : ConversationApi.service_request)
(** For a service's live profile. *)
| ProfileAsked (r : ConversationApi.service_request)
| Shown (v : Json.Value).
Definition R `{Conversation.Urls} (A : Type) : Type :=
  files -> files * list event * CliTx.outcome A.
Section Runs.
Context `{Conversation.Urls}.
#[global] Instance R_ret : MRet R := fun A a fs => (fs, [], CliTx.Done (Ok a)).
#[global] Instance R_bind : MBind R := fun A B k m fs =>
  match m fs with
  | (fs', es, CliTx.Done (Ok a)) => let '(fs'', es', r) := k a fs' in (fs'', es ++ es', r)
  | (fs', es, CliTx.Done (Err e)) => (fs', es, CliTx.Done (Err e))
  | (fs', es, CliTx.Panicked) => (fs', es, CliTx.Panicked)
  | (fs', es, CliTx.Waiting) => (fs', es, CliTx.Waiting)
  end.
Definition pure {A} (r : result error A) : R A := fun fs => (fs, [], CliTx.Done r).
Definition reads {A} (f : files -> result error A) : R A := fun fs => (fs, [], CliTx.Done (f fs)).
Definition show (v : Json.Value) : R unit := fun fs => (fs, [Shown v], CliTx.Done (Ok ())).
(** The runs of the other files, with the client they were given. *)
Definition of_M {A} (m : M A) : R A := fun fs => let '(fs', r) := m fs in (fs', [], CliTx.Done r).
Definition out (c : Client.ZinchaClient) (q : CliTx.outgoing) : event :=
  match q with
  | CliTx.ToNode r => Sent c r
  | CliTx.ToEmbedder url text => Embedded url text
  end.
Definition of_T {A} (c : Client.ZinchaClient) (t : CliTx.T A) : R A := fun fs =>
  let '(fs', sent, r) := t fs in (fs', out c <$> sent, r).
Definition seen (c : Client.ZinchaClient) (e : CliConversation.event) : event :=
  match e with
  | CliConversation.NodeSent r => Sent c r
  | CliConversation.EmbedderSent url text => Embedded url text
  | CliConversation.ServiceSent r => Asked r
  | CliConversation.ProfileSent r => ProfileAsked r
  | CliConversation.Printed v => Shown v
  end.
Definition of_S {A} (c : Client.ZinchaClient) (s : CliConversation.S A) : R A := fun fs =>
  let '(fs', es, r) := s fs in (fs', seen c <$> es, r).
Lemma bind_pure {A B : Type} (r : result error A) (k : A -> R B) fs :
  (a ← pure r; k a) fs = match r with Ok a => k a fs | Err e => (fs, [], CliTx.Done (Err e)) end.
Proof.
  unfold mbind, R_bind, pure. destruct r as [a|e]; [|done]. by destruct (k a fs) as [[fs' es] x].
Qed.
Lemma bind_reads {A B : Type} (f : files -> result error A) (k : A -> R B) fs :
  (a ← reads f; k a) fs = match f fs with Ok a => k a fs | Err e => (fs, [], CliTx.Done (Err e)) end.
Proof. exact (bind_pure (f fs) k fs). Qed.
End Runs.

(** ** What a run sent and printed *)
Section Events.
Context `{Conversation.Urls}.
Definition is_shown (e : event) : bool := match e with Shown _ => true | _ => false end.
Definition is_sent (e : event) : bool := match e with Sent _ _ => true | _ => false end.
Definition silent (es : list event) : Prop := forallb (fun e => negb (is_shown e)) es = true.
(** One value printed, last, when a run succeeds; nothing printed when it does not. *)
Definition prints_once (es : list event) (x : CliTx.outcome unit) : Prop :=
  match x with
  | CliTx.Done (Ok _) => exists es' v, es = es' ++ [Shown v] /\ silent es'
  | _ => silent es
  end.

(** [runs P m]: what [m] sends is of [P], and nothing is printed. *)
Definition runs (P : event -> Prop) {A : Type} (m : R A) : Prop :=
  forall fs, Forall P (m fs).1.2 /\ silent (m fs).1.2.
Lemma runs_of_M (P : event -> Prop) {A : Type} (m : M A) : runs P (of_M m).
Proof. intros fs. unfold of_M. destruct (m fs). by split; [constructor|]. Qed.
Lemma runs_of_T (P : event -> Prop) c {A : Type} (t : CliTx.T A) :
  (forall fs q, q ∈ (t fs).1.2 -> P (out c q)) -> runs P (of_T c t).
Proof.
  intros HP fs. specialize (HP fs). unfold of_T. destruct (t fs) as [[fs' sent] r].
  cbn [fst snd] in *. split.
  - apply Forall_forall. intros e (q & -> & Hq)%list_elem_of_fmap. by apply HP.
  - unfold silent. clear HP. induction sent as [|[] sent IH]; [done|exact IH..].
Qed.
(** A run that ends by printing its value. *)
Lemma then_show (P : event -> Prop) {A : Type} (m : R A) (f : A -> Json.Value) fs :
  (forall v, P (Shown v)) -> runs P m ->
  let '(fs', es, x) := (a ← m; show (f a)) fs in Forall P es /\ prints_once es x.
Proof.
  intros Hv Hm. unfold mbind, R_bind. destruct (Hm fs) as [Hp Hs].
  destruct (m fs) as [[fs' es] [[a|e]| |]]; cbn [fst snd] in *; [|by split..].
  unfold show. split; [|by exists es, (f a)].
  apply Forall_app. split; [done|]. by repeat constructor.
Qed.
Lemma of_S_sent c {A : Type} (s : CliConversation.S A) fs e :
  e ∈ (of_S c s fs).1.2 -> exists e', e' ∈ (s fs).1.2 /\ e = seen c e'.
Proof.
  unfold of_S. destruct (s fs) as [[fs' es] x]. cbn [fst snd].
  intros (e' & -> & He)%list_elem_of_fmap. by exists e'.
Qed.
End Events.

Section Run.
Context `{UrlOps : Client.UrlOps, Digests, Hex, Ed25519, Conversation.Uuids, Conversation.Ips,
  Conversation.X25519, Conversation.Hkdf, Conversation.Base64,
  Keystore.Argon2, Aead, Mnemonic.Bip39, KeystoreJson, CliConversation.StateJson,
  !CliTx.FileJson CliConversation.ConversationStateV1,
  !Conversation.JsonCodec Conversation.ConversationProfileV2,
  !Conversation.JsonCodec Conversation.MessagePayload, !Conversation.JsonCodec Conversation.E2eEnvelopeV1}.
Context `{!ConversationApi.ApiDecode Conversation.ConversationProfileV2}
  `{!ConversationApi.ApiDecode ConversationApi.ConversationDelegationInfo}
  `{!ConversationApi.ApiDecode Conversation.ChallengeResponse}
  `{!ConversationApi.ApiDecode ConversationApi.SessionResponse}
  `{!ConversationApi.ApiDecode ConversationApi.ConversationRecord}
  `{!ConversationApi.ApiDecode Conversation.MessageRecord}
  `{!ConversationApi.ApiDecode (Conversation.Page Conversation.MessageRecord)}.
Context `{!CliConversation.ToJson Conversation.ConversationProfileV2}
  `{!CliConversation.ToJson ConversationApi.ConversationDelegationInfo}
  `{!CliConversation.ToJson ConversationApi.ConversationRecord}
  `{!CliConversation.ToJson Conversation.MessageRecord}
  `{!CliConversation.ToJson (Conversation.Page Conversation.MessageRecord)}
  `{!CliConversation.ToJson Conversation.MessagePayload}
  `{!CliConversation.ToJson Conversation.SubjectRef} `{!CliConversation.ToJson Conversation.PrivacyMode}.
Context `{!CliTx.FileJson Conversation.MessagePayload} `{!CliTx.FileJson (list Conversation.E2eRecipient)}
  `{!Outbox.SerdeJson (list Outbox.QueuedMessage)} `{!CliTx.FileJson Conversation.MessageRecord}.
Context `{!Bincode Tx.Transaction} `{!Bincode Tx.SignedTransaction} `{!Wallet.Builder}.
Context `{!CliTx.FileJson (list (rstr * Z))} `{!CliTx.FileJson Task.MatchPreferences}
  `{!CliTx.FileJson (list Task.SubTaskDef)} `{!CliTx.FileJson (list Validator.ValidatorExecutorService)}
  `{!CliTx.FileJson (list ToolJob.ToolMilestoneDef)} `{!CliTx.FileJson (list Agreement.MilestoneDef)}
  `{!CliTx.FileJson (list Agreement.AgreementPayoutShare)}
  `{!CliTx.FileJson (list Agreement.AgreementDisputeReputationEffect)}
  `{!CliTx.FileJson Contract.ContractSourceProof} `{!CliTx.FileJson Contract.ContractAbi}.
(** Everything a run meets: the system, the node each client reaches, the service, the JSON
    codecs, the clock and what is drawn at random. *)
Record world : Type := {
  system : os;
  symlink : rstr -> bool;
  to_lowercase : rstr -> rstr;
  node_of : Client.ZinchaClient -> CliTx.node;
  reply_of : ConversationApi.service_request -> ConversationApi.reply;
  payload_to_vec : Conversation.MessagePayload -> result rstr (list byte);
  uuid_parse : rstr -> result rstr (bytesN 16);
  error_text : error -> rstr;
  ios : nat -> Outbox.io;
  decode_event : rstr -> result rstr Conversation.MessageRecord;
  connections : list Outbox.connection;
  first_io : Outbox.io;
  now : result error Z;
  wallet_now : Z;
  wallet_draws : CliWallet.draws;
  conversation_draws : CliConversation.draws;
}.
Context (w : world).

(** The token given, or else the environment's unless it is empty. *)
Definition resolved_bearer (cli : Cli) : option rstr :=
  match bearer_token cli with
  | Some t => Some t
  | None =>
      match ok (env_var (system w) (bearer_token_env cli)) with
      | Some value => if bool_decide (value = []) then None else Some value
      | None => None
      end
  end.
Definition client (api_url : rstr) (release bearer_token : option rstr)
    : result error Client.ZinchaClient :=
  let builder := Client.builder_new in
  let builder := match release with
                 | Some release => Client.with_release release builder
                 | None => Client.with_base_url api_url builder
                 end in
  let builder := match bearer_token with
                 | Some token => Client.builder_bearer_token token builder
                 | None => builder
                 end in
  ctx (match release with
       | Some release => Msg "build client for release {}" [AStr release]
       | None => Msg "build client for API URL {}" [AStr api_url]
       end) (Client.build builder).

Definition ask (c : Client.ZinchaClient) (r : Client.api_request) : R Json.Value :=
  of_T c (CliTx.ask (node_of w c) r).
Definition run_watch (path : rstr) (c : Client.ZinchaClient) (json : bool) : R unit :=
  payload ← ask c (Client.get path); show (emit "watch" payload json).
Definition run_faucet (f : FaucetCommand) (c : Client.ZinchaClient) (json : bool) : R unit :=
  payload ← ask (Client.faucet_client c)
    (Client.faucet_request (fc_address f) (fc_amount_micro_zin f) (fc_amount_zin f));
  show (emit "faucet" payload json).
Definition run_info (c : Client.ZinchaClient) (json : bool) : R unit :=
  payload ← ask c Client.chain_info; show (emit "info" payload json).
Definition run_query (q : option CliQuery.QueryCommands) (path : option rstr)
    (c : Client.ZinchaClient) (json : bool) : R unit :=
  asked ← reads (fun fs => CliQuery.query_request (system w) fs q path);
  payload ← ask c asked.2;
  show (emit asked.1 payload json).
Definition run_tx (t : CliTx.TxCommands) (c : Client.ZinchaClient) (bearer : option rstr)
    (json : bool) : R unit :=
  v ← of_T c (CliTx.run_tx (system w) (to_lowercase w) (node_of w c) c (now w) (wallet_now w) t
                bearer json);
  show v.
Definition run_conversation (t : CliConversation.ConversationCommands) (c : Client.ZinchaClient)
    (json : bool) : R unit :=
  of_S c (CliConversation.run_conversation (system w) (symlink w) (node_of w c)
    (reply_of w) (payload_to_vec w) (uuid_parse w) (error_text w) (ios w) c (decode_event w)
    (connections w) (first_io w) (conversation_draws w) t json).
Definition run_keygen (k : KeygenCommand) (json : bool) : R unit :=
  v ← of_M (CliWallet.run_keygen (system w) (wallet_draws w) (kg_out k) (kg_force k)
              (kg_unsafe_print_secret k) json);
  show v.
Definition run_wallet (c : WalletCommands) (json : bool) : R unit :=
  v ← of_M (CliWallet.run_wallet (system w) (wallet_draws w) c json); show v.

(** A failed assertion on the table of endpoints stops the run before anything else. *)
Definition run_cli (cli : Cli) : R unit := fun fs =>
  match CliQuery.assert_public_surface with
  | None => (fs, [], CliTx.Panicked)
  | Some _ =>
      let bearer := resolved_bearer cli in
      let client := pure (client (api_url cli) (release cli) bearer) in
      let json := json cli in
      (match command cli with
       | Keygen k => run_keygen k json
       | Wallet c => run_wallet c json
       | Conversation t => c ← client; run_conversation t c json
       | Tx t => c ← client; run_tx t c bearer json
       | Query q path => c ← client; run_query q path c json
       | Info => c ← client; run_info c json
       | Faucet f => c ← client; run_faucet f c json
       | Watch path => c ← client; run_watch path c json
       end) fs
  end.

(** ** Properties *)
(** Commands that need a node, and those that only look at it. *)
Definition networked (c : Commands) : bool :=
  match c with Keygen _ | Wallet _ => false | _ => true end.
Definition looks (c : Commands) : bool :=
  match c with Query _ _ | Info | Faucet _ | Watch _ => true | _ => false end.
Definition converses (c : Commands) : bool := match c with Conversation _ => true | _ => false end.
(** The client a run is to be made with: the release's node when one is named and the given
    address otherwise, the token of the run, and no key of its own; only a release brings a
    faucet. *)
Record chosen (cli : Cli) (c : Client.ZinchaClient) : Prop := {
  ch_base : match release cli with
            | Some alias => exists n, Release.parse_alias alias = Some n /\
                Client.normalize_base_url (Release.canonical_rpc_url (Release.release_spec n))
                = Ok (Client.base_url c)
            | None => Client.normalize_base_url (api_url cli) = Ok (Client.base_url c)
            end;
  ch_faucet : release cli = None -> Client.faucet_url c = None;
  ch_token : Client.bearer_token c = resolved_bearer cli;
  ch_signer : Client.signer c = None;
}.
(** The faucet is asked at its own address. *)
Definition reached (k : Commands) (c : Client.ZinchaClient) : Client.ZinchaClient :=
  match k with Faucet _ => Client.faucet_client c | _ => c end.
Lemma surface_public : CliQuery.assert_public_surface = Some ().
Proof. by vm_compute. Qed.
Lemma client_chosen cli c :
  client (api_url cli) (release cli) (resolved_bearer cli) = Ok c -> chosen cli c.
Proof.
  unfold client. intros E%ctx_Ok. revert E.
  set (b := match resolved_bearer cli with Some _ => _ | None => _ end). intros E.
  destruct (proj1 (Client.build_endpoints b) c E) as (Ha & (raw & Er & Eb) & Ef & Et & Es).
  subst b. constructor.
  - destruct (release cli) as [alias|].
    + destruct (Ha alias) as [n En]; [by destruct (resolved_bearer cli)|]. exists n. split; [done|].
      rewrite <- Eb. f_equal. apply (inj Some). rewrite <- Er.
      destruct (resolved_bearer cli); unfold Client.chosen_base;
        cbn [Client.with_release Client.builder_bearer_token Client.b_base_url Client.b_release
             Client.builder_new mbind option_bind]; by rewrite En.
    + rewrite <- Eb. f_equal. apply (inj Some). rewrite <- Er. by destruct (resolved_bearer cli).
  - intros Hn. rewrite Hn in Ef. by destruct (resolved_bearer cli).
  - rewrite Et. by destruct (resolved_bearer cli), (release cli).
  - rewrite Es. by destruct (resolved_bearer cli), (release cli).
Qed.

(** Without a client a networked command does nothing at all. *)
Lemma no_client cli fs e :
  networked (command cli) = true ->
  client (api_url cli) (release cli) (resolved_bearer cli) = Err e ->
  run_cli cli fs = (fs, [], CliTx.Done (Err e)).
Proof.
  intros Hn E. unfold run_cli. rewrite surface_public. cbv zeta. rewrite E.
  destruct (command cli); try discriminate Hn; by rewrite bind_pure.
Qed.
(** What a command does once its client is there. *)
Definition run_command (k : Commands) (c : Client.ZinchaClient) (bearer : option rstr) (j : bool)
    : R unit :=
  match k with
  | Keygen k => run_keygen k j
  | Wallet k => run_wallet k j
  | Conversation t => run_conversation t c j
  | Tx t => run_tx t c bearer j
  | Query q path => run_query q path c j
  | Info => run_info c j
  | Faucet f => run_faucet f c j
  | Watch path => run_watch path c j
  end.
(** With one, or for a command that needs none, the run is the command's. *)
Lemma run_client cli fs c :
  client (api_url cli) (release cli) (resolved_bearer cli) = Ok c ->
  run_cli cli fs = run_command (command cli) c (resolved_bearer cli) (json cli) fs.
Proof.
  intros E. unfold run_cli. rewrite surface_public. cbv zeta. rewrite E.
  destruct (command cli); rewrite ?bind_pure; done.
Qed.
(** What a command that only looks at the node does: it may fail before it asks, and it asks
    once; the files are as they were, and it does come to an end. *)
Definition looks_once (fs : files) (y : files * list event * CliTx.outcome unit) : Prop :=
  y.1.1 = fs /\ (length (List.filter is_sent y.1.2) <= 1)%nat /\
  exists r, y.2 = CliTx.Done r.
Lemma ask_looks c q f fs : looks_once fs ((v ← ask c q; show (f v)) fs).
Proof.
  unfold looks_once, ask, of_T, CliTx.ask, mbind, R_bind, show.
  destruct (CliTx.answer _ _) as [v|e]; cbn; eauto.
Qed.
Lemma query_looks q path c j fs : looks_once fs (run_query q path c j fs).
Proof.
  unfold run_query. rewrite bind_reads.
  destruct (CliQuery.query_request _ _ _ _) as [a|e]; [|split_and!; [done|cbn; lia|by eexists]].
  exact (ask_looks c a.2 (fun v => emit a.1 v j) fs).
Qed.

(** What a command may do, with the client [P] speaks of. Only building a transaction of a type
    that has an embedding calls an embedding service, the one its arguments or the environment
    name; only conversations ask anything of a conversation service. *)
Definition admits (P : Client.ZinchaClient -> Prop) (k : Commands) (e : event) : Prop :=
  match e with
  | Sent c _ => networked k = true /\ exists c0, P c0 /\ c = reached k c0
  | Embedded url _ => exists build b, k = Tx (CliTx.Build build b) /\
      CliTx.resolve_wallet_embed_url (system w) build = Some url /\
      CliTx.command_type b ∈ CliTx.embedding_types
  | Asked _ | ProfileAsked _ => converses k = true
  | Shown _ => True
  end.
Lemma admits_weaken (P Q : Client.ZinchaClient -> Prop) k e :
  (forall c, P c -> Q c) -> admits P k e -> admits Q k e.
Proof. intros Hpq. destruct e; cbn; [|done..]. intros (Hn & c0 & Hc & ->). eauto. Qed.
Lemma asks_admitted c k q :
  networked k = true -> runs (admits (eq c) k) (ask (reached k c) q).
Proof.
  intros Hn. apply runs_of_T. intros fs q' Hq. cbn in Hq. apply list_elem_of_singleton in Hq as ->.
  by split; [|exists c].
Qed.
Lemma tx_admitted c t bearer j :
  runs (admits (eq c) (Tx t)) (of_T c (CliTx.run_tx (system w) (to_lowercase w) (node_of w c) c
    (now w) (wallet_now w) t bearer j)).
Proof.
  apply runs_of_T. intros fs [q|url text] Hq; [by split; [|exists c]|].
  apply CliTx.run_tx_embeds in Hq as (build & b & -> & Hu & Ht). by exists build, b.
Qed.
Lemma conversation_admitted c t j fs :
  Forall (admits (eq c) (Conversation t)) (run_conversation t c j fs).1.2.
Proof.
  apply Forall_forall. intros e He. apply of_S_sent in He as (e' & He & ->).
  destruct e' as [q|url text|q|q|v]; [by split; [|exists c]| |done..].
  apply CliConversation.requests_granted in He; [|done].
  destruct (CliConversation.session_state t); [by destruct He as (s & _ & ? & _ & [])|by destruct He as (? & _ & [])].
Qed.
(** Each command's run, once its client is there: what it does, and what is printed. *)
Lemma command_answers k c bearer j fs :
  let '(fs', es, x) := run_command k c bearer j fs in
  Forall (admits (eq c) k) es /\ (converses k = false -> prints_once es x).
Proof.
  assert (forall y : files * list event * CliTx.outcome unit,
    (let '(_, es, x) := y in Forall (admits (eq c) k) es /\ prints_once es x) ->
    let '(_, es, x) := y in Forall (admits (eq c) k) es /\ (converses k = false -> prints_once es x))
    as printing by (intros [[fs' es] x] [He Hp]; by split).
  destruct k as [k|k|t|t|q p| |f|p]; cbn [run_command].
  1, 2: apply printing, then_show, runs_of_M; done.
  - pose proof (conversation_admitted c t j fs) as Hc.
    destruct (run_conversation t c j fs) as [[fs' es] x]. by split.
  - apply printing, then_show, tx_admitted; done.
  - apply printing. unfold run_query. rewrite bind_reads.
    destruct (CliQuery.query_request _ _ _ _) as [a|e]; [|by split].
    apply (then_show _ (ask c a.2) (fun v => emit a.1 v j)); [done|].
    by apply (asks_admitted c (Query q p)).
  - apply printing, then_show; [done|]. by apply (asks_admitted c Info).
  - apply printing, then_show; [done|]. by apply (asks_admitted c (Faucet f)).
  - apply printing, then_show; [done|]. by apply (asks_admitted c (Watch p)).
Qed.

(** The commands that look, with their client. *)
Lemma command_looks k c bearer j fs :
  looks k = true -> looks_once fs (run_command k c bearer j fs).
Proof.
  destruct k as [| | | |q p| |f|p]; intros Hl; try discriminate Hl.
  - apply query_looks.
  - exact (ask_looks c _ (fun v => emit "info" v j) fs).
  - exact (ask_looks _ _ (fun v => emit "faucet" v j) fs).
  - exact (ask_looks c _ (fun v => emit "watch" v j) fs).
Qed.
Lemma local_answers P cli fs :
  networked (command cli) = false ->
  let '(fs', es, x) := run_cli cli fs in Forall (admits P (command cli)) es /\ prints_once es x.
Proof.
  intros Hn. unfold run_cli. rewrite surface_public.
  destruct (command cli); try discriminate Hn; by apply then_show, runs_of_M.
Qed.

(** C17: What a run of the command line sends and prints. Requests of a node are sent by no command on
    keys or keystores; those of the others go through the client that the arguments choose, to the
    release's node when one is named and to the given address otherwise, with the run's token and
    no key, but for the faucet's request, which goes to that client's faucet address. A text is
    sent to an embedding service only by the building of a transaction that carries an embedding,
    to the service its arguments or the environment name, and requests of conversation services
    are sent only by conversation commands. The commands other than conversations print exactly
    one value, last, when the run succeeds, and none when it does not. Queries, the faucet,
    information and watching leave the files alone, send at most one request of a node and always
    end. Where no client can be made, a command that needs one fails before it reads, writes,
    sends or prints anything. *)
Theorem run_cli_sound cli fs :
  let '(fs', es, x) := run_cli cli fs in
  Forall (admits (chosen cli) (command cli)) es /\
  (converses (command cli) = false -> prints_once es x) /\
  (looks (command cli) = true -> looks_once fs (fs', es, x)) /\
  (networked (command cli) = true ->
   forall e, client (api_url cli) (release cli) (resolved_bearer cli) = Err e ->
   fs' = fs /\ es = [] /\ x = CliTx.Done (Err e)).
Proof.
  destruct (client (api_url cli) (release cli) (resolved_bearer cli)) as [c|e] eqn:Ec.
  - pose proof (client_chosen _ _ Ec) as Hc. rewrite (run_client cli fs c Ec).
    pose proof (command_answers (command cli) c (resolved_bearer cli) (json cli) fs) as Ha.
    pose proof (command_looks (command cli) c (resolved_bearer cli) (json cli) fs) as Hl.
    destruct (run_command _ _ _ _ fs) as [[fs' es] x]. destruct Ha as [Ha Hp].
    split_and!; [|done..]. eapply Forall_impl; [exact Ha|].
    intros ev. apply admits_weaken. by intros ? <-.
  - destruct (networked (command cli)) eqn:Hn.
    + rewrite (no_client cli fs e Hn Ec). split_and!; [constructor|done| |].
      * intros _. unfold looks_once. split_and!; [reflexivity|cbn; lia|by eexists].
      * intros _ e' [= <-]. by split_and!.
    + pose proof (local_answers (chosen cli) cli fs Hn) as Ha. destruct (run_cli cli fs) as [[fs' es] x].
      destruct Ha as [Ha Hp]. split_and!; [done|by intros _| |done].
      by destruct (command cli).
Qed.
End Run.
End Cli.

(** ** A run on concrete data *)
Module CliWitness.
Import CliWallet Cli Conversation ConversationInstances CliConversation.CliConversationWitness.
#[local] Existing Instance Client.ClientWitness.plain_url_ops.
#[local] Existing Instance CliTx.CliTxWitness.plain_argon2.
#[local] Existing Instance CliTx.CliTxWitness.plain_bip39.
#[local] Existing Instance CliTx.CliTxWitness.no_json.
#[local] Existing Instances any_codec own_builder no_answer profile_answer null_value profile_json payload_json
  envelope_json state_json state_file_json queue_json.
#[local] Existing Instance no_file_json | 10.

Definition world0 : world :=
  {| system := os0; symlink := no_links; to_lowercase := fun s => s;
     node_of := fun _ => {| CliTx.answer := fun _ => Ok (Json.Str (lit "here")); CliTx.polls := fun _ => [] |};
     reply_of := reply0; payload_to_vec := vec0; uuid_parse := no_uuid;
     error_text := text_of; ios := good_io; decode_event := fun _ => Err []; connections := [];
     first_io := good_io 0; now := Ok 100; wallet_now := 100;
     wallet_draws := CliWallet.CliWalletWitness.draws0; conversation_draws := draws0 |}.
(** The faucet, through a node of one's own. *)
Definition faucet0 : Cli :=
  {| api_url := lit "https://node"; release := None; json := false;
     bearer_token := None; bearer_token_env := lit "ZINCHA_BEARER_TOKEN";
     command := Faucet {| fc_address := address_to_hex address_treasury;
                          fc_amount_micro_zin := Some 5; fc_amount_zin := None |} |}.
Definition run0 : files * list event * CliTx.outcome unit := run_cli world0 faucet0 ∅.
Definition sent0 : Client.ZinchaClient :=
  match run0.1.2 with Sent c _ :: _ => c | _ => Client.ClientWitness.client0 end.
(** One request, to the node itself, which has no other faucet; one value; the files as before. *)
Lemma run_cli_sound_witness :
  run0.2 = CliTx.Done (Ok ()) /\ prints_once run0.1.2 run0.2 /\ looks_once ∅ run0 /\
  exists c, chosen world0 faucet0 c /\ sent0 = c.
Proof.
  pose proof (run_cli_sound world0 faucet0 ∅) as Hs. fold run0 in Hs.
  assert (run0.2 = CliTx.Done (Ok ())) as Hr by (vm_compute; reflexivity).
  assert (Sent sent0 (Client.faucet_request (address_to_hex address_treasury) (Some 5) None)
    ∈ run0.1.2) as Hin by (apply (list_elem_of_lookup_2 _ 0); vm_compute; reflexivity).
  destruct run0 as [[fs' es] x]. destruct Hs as (Hc & Hp & Hl & _).
  split; [exact Hr|]. split; [exact (Hp eq_refl)|]. split; [exact (Hl eq_refl)|].
  rewrite Forall_forall in Hc. destruct (Hc _ Hin) as (_ & c & Hch & E). exists c. split; [exact Hch|]. rewrite E.
  cbn [reached command faucet0]. unfold Client.faucet_client. by rewrite (ch_faucet _ _ _ Hch eq_refl).
Defined.
End CliWitness.
