(* ===== verification/Conformance.v ===== *)
(** * The repository's golden vectors

    The transactions of [sdk/testdata], which the Rust, Python and TypeScript suites share, rebuilt
    by the model: its wallet is asked what a vector says was asked, with SHA-256 and the binary
    layouts, and the signed transaction it answers with is, byte for byte, the vector's. Ed25519 is
    a table of the vectors' signatures by the hash they sign; a hash that differed in a bit would
    not be found in it. Storage roots, receipt leaves and delegation identifiers, for which the
    sources give values, are computed as well. *)
From S2P Require Import Prelude Crypto Float Instances Sha256 Codec Merkle Transaction Agreement.
From S2P Require Import Subscription ToolJob Contract ContractStorage ToolVerifier Capability Tool.
From S2P Require Import RpcDelegation Entity Validator Token Task Agent Wallet Layouts Conversation.

Module Conformance.
Import Layouts.
#[local] Existing Instance Sha256.real_digests.

(** ** Vectors *)
Definition joined (s : list string) : rstr := mjoin (lit <$> s).
Definition unhex (s : rstr) : list byte := match plain_hex_decode s with Ok l => l | Err _ => [] end.
Definition raw (s : string) : list byte := unhex (lit s).
Definition h32 (s : string) : bytesN 32 := pad_bytesN 32 (raw s).
Definition adr (s : string) : Address :=
  match address_from_hex (lit s) with Ok a => a | Err _ => address_zero end.
Definition cap (s : string) : Capability.Capability := Capability.Build_Capability (lit s).
Definition real (n d : Z) : f32 := f32_div (f32_of_Z n) (f32_of_Z d).
(** A text with single quotes for double ones. *)
Definition quoted (s : string) : rstr := (fun c => if c =? 39 then 34 else c) <$> lit s.

(** What is asked of the wallet: a request, or a payload no builder makes. *)
Inductive asked : Type :=
| Ask (r : Wallet.request)
| Payload (ty : Tx.TxType) (recipient : Address) (amount : Z)
    (payload : result ZinchaError (list byte)).
Record vector : Type := Vector {
  v_nonce : Z;
  v_timestamp : Z;
  v_asked : asked;
  v_signed_hex : list string;
}.

Definition wat_proof : Contract.ContractSourceProof :=
  Contract.Build_ContractSourceProof Contract.Wat (lit "wasmprinter-0.2.84")
    (quoted "(module (func (export 'increment')))") None.
Definition counter_abi : Contract.ContractAbi :=
  Contract.Build_ContractAbi (lit "Counter") (lit "1.0.0")
    [Contract.Build_FunctionSignature (lit "increment") (lit "Increment the counter")
       [Contract.Build_AbiParam (lit "by") (lit "u64") (lit "Delta to add")] [] true;
     Contract.Build_FunctionSignature (lit "get") (lit "Read the counter") []
       [Contract.Build_AbiParam (lit "value") (lit "u64") (lit "Current counter value")] false].
Definition token_create : vector :=
  Vector 6 1700000001000
    (Ask (Wallet.RqCreateToken (lit "SDK Token") (lit "SDK") 6 1000000 (Some 10000000) (Some
      (adr "zn11da32ad2a4b1ce97b5a852ff18800c1e52982376")) true (raw
      "7b22707572706f7365223a2273646b227d") 1000))
    ["29000000c352f906cb1b11ef43fb33e252ef7ff5522638890000000000000000000000000000000000000000";
     "0000000000000000e80300000000000000000000000000000600000000000000e86be5cf8b0100002a000000";
     "0000000011111111111111111111111111111111111111111111111111111111111111118e00000000000000";
     "5c00000000000000090000000000000053444b20546f6b656e030000000000000053444b0640420f00000000";
     "00809698000000000001011da32ad2a4b1ce97b5a852ff18800c1e5298237611000000000000007b22707572";
     "706f7365223a2273646b227d0d000000000000007a696e6368612d766567612d31d9ca2e5d520c1dd8720c52";
     "e22746b51167791d413869d6ec45349d5aedbbbc8eac76056b1c19ac6275af950b6b29eec006154f9a33c2ec";
     "8144906a3173066f09ea4a6c63e29c520abef5507b132ec5f9954776aebebe7b92421eea691446d22c31d265";
     "993efd6f4aea4b65625bfbf5f7244b8de2069f27ab6ca6d5abd78ab959"].
Definition token_transfer : vector :=
  Vector 7 1700000001001
    (Ask (Wallet.RqTransferToken (h32
      "2222222222222222222222222222222222222222222222222222222222222222") (adr
      "zn1ee840a04bcc3a37a4f9d46df327dec56b8a9b7c9") 123456 1000))
    ["2a000000c352f906cb1b11ef43fb33e252ef7ff552263889ee840a04bcc3a37a4f9d46df327dec56b8a9b7c9";
     "0000000000000000e80300000000000000000000000000000700000000000000e96be5cf8b0100002a000000";
     "0000000011111111111111111111111111111111111111111111111111111111111111118e00000000000000";
     "3c000000000000002222222222222222222222222222222222222222222222222222222222222222ee840a04";
     "bcc3a37a4f9d46df327dec56b8a9b7c940e20100000000000d000000000000007a696e6368612d766567612d";
     "319b153af2fdc0b9eea8c7fb6a824b20ae703cbd588e645172b6b41c0623f7776ceef64586fa6365264ad3c2";
     "2176fe9bd8603e00c2ee9b565246214426f199290fea4a6c63e29c520abef5507b132ec5f9954776aebebe7b";
     "92421eea691446d22c145d46c4504ed870160f081db8cef965b3d7a0d508cee6c83a50002744db346f"].
Definition token_approve : vector :=
  Vector 8 1700000001002
    (Ask (Wallet.RqApproveToken (h32
      "2222222222222222222222222222222222222222222222222222222222222222") (adr
      "zn11c151c2b62aff8cb95b293096d3463018544face") 77000 1000))
    ["2b000000c352f906cb1b11ef43fb33e252ef7ff5522638891c151c2b62aff8cb95b293096d3463018544face";
     "0000000000000000e80300000000000000000000000000000800000000000000ea6be5cf8b0100002a000000";
     "0000000011111111111111111111111111111111111111111111111111111111111111118e00000000000000";
     "3c0000000000000022222222222222222222222222222222222222222222222222222222222222221c151c2b";
     "62aff8cb95b293096d3463018544facec82c0100000000000d000000000000007a696e6368612d766567612d";
     "31a55b41918efa12f12e6ca94c9ab8b621d000a9bbf04ec9d8f89a6f5509f7c0a469aa9f460e40c24cb9776e";
     "9d59dba818ca17ec75f91cf5a1f5cbf528d010850bea4a6c63e29c520abef5507b132ec5f9954776aebebe7b";
     "92421eea691446d22ca54dbfd8ab255522a6505c1c0099ec5ee9a4e4deb34471bb63f0253d481d16be"].
Definition token_mint : vector :=
  Vector 9 1700000001003
    (Ask (Wallet.RqMintToken (h32
      "2222222222222222222222222222222222222222222222222222222222222222") (adr
      "zn1ee840a04bcc3a37a4f9d46df327dec56b8a9b7c9") 250000 1000))
    ["2c000000c352f906cb1b11ef43fb33e252ef7ff552263889ee840a04bcc3a37a4f9d46df327dec56b8a9b7c9";
     "0000000000000000e80300000000000000000000000000000900000000000000eb6be5cf8b0100002a000000";
     "0000000011111111111111111111111111111111111111111111111111111111111111118e00000000000000";
     "3c000000000000002222222222222222222222222222222222222222222222222222222222222222ee840a04";
     "bcc3a37a4f9d46df327dec56b8a9b7c990d00300000000000d000000000000007a696e6368612d766567612d";
     "31b1f9d9707a499a62095128f6b54a110a6caa99c574b28c3a47e9a6a1d4f2d9db466edc52bf3ae6f13f581f";
     "16080210ef2107fb82e775efc7631b901c99f3b30dea4a6c63e29c520abef5507b132ec5f9954776aebebe7b";
     "92421eea691446d22cdf30ce6bb27e4cbd90a6e3b1f293dde52286820f92babb267397ff0af5ea5533"].
Definition token_burn : vector :=
  Vector 10 1700000001004
    (Ask (Wallet.RqBurnToken (h32
      "2222222222222222222222222222222222222222222222222222222222222222") 12345 1000))
    ["2e000000c352f906cb1b11ef43fb33e252ef7ff5522638890000000000000000000000000000000000000000";
     "0000000000000000e80300000000000000000000000000000a00000000000000ec6be5cf8b0100002a000000";
     "0000000011111111111111111111111111111111111111111111111111111111111111118e00000000000000";
     "2800000000000000222222222222222222222222222222222222222222222222222222222222222239300000";
     "000000000d000000000000007a696e6368612d766567612d315f0e85d60b98640bfbfb6cc6cd83b92a88d462";
     "95d5cd2533674c30a3a69d7d30ad2b73b8641da7f25a02e018b751fb192cfd7f7a0a9d2b55f72e0aa781f5af";
     "07ea4a6c63e29c520abef5507b132ec5f9954776aebebe7b92421eea691446d22cc22d88821e78a11c738d3e";
     "20e3fa6798f9589820b9d937734710bc9200bcc314"].
Definition agent_tool_agent_update : vector :=
  Vector 17 1700000003000
    (Ask (Wallet.RqUpdateAgentFull (Some (lit "DataAnalyst Pro")) (Some (lit
      "Updated research and tool orchestration agent")) (Some ([(real 1 4); (real 1 2)])) (Some
      (h32 "bbbbbbbbbbbbbbbbbbbbbbbbbbbbbbbbbbbbbbbbbbbbbbbbbbbbbbbbbbbbbbbb")) (Some ([(cap
      "data.analysis"); (cap "tool.orchestration")])) (Some (raw
      "7b2274696572223a2270726f227d")) (Some true) (Some 75000) (Some ([(lit "data.analysis",
      6000000)])) 1000))
    ["03000000c352f906cb1b11ef43fb33e252ef7ff5522638890000000000000000000000000000000000000000";
     "0000000000000000e80300000000000000000000000000001100000000000000b873e5cf8b0100002a000000";
     "0000000011111111111111111111111111111111111111111111111111111111111111118e00000000000000";
     "0001000000000000010f0000000000000044617461416e616c7973742050726f012d00000000000000557064";
     "6174656420726573656172636820616e6420746f6f6c206f726368657374726174696f6e206167656e740102";
     "000000000000000000803e0000003f01bbbbbbbbbbbbbbbbbbbbbbbbbbbbbbbbbbbbbbbbbbbbbbbbbbbbbbbb";
     "bbbbbbbb0102000000000000000d00000000000000646174612e616e616c797369731200000000000000746f";
     "6f6c2e6f726368657374726174696f6e010e000000000000007b2274696572223a2270726f227d010101f824";
     "0100000000000101000000000000000d00000000000000646174612e616e616c79736973808d5b0000000000";
     "0d000000000000007a696e6368612d766567612d318a7c6f019a4e9eef466382ddc6b4085cbfa1066c436a20";
     "a578cfa55ae02bb01187c9bfa8a53acb0cf48912052e4b526fc4961ce4d2e7d3cda669ee4a2fa92905ea4a6c";
     "63e29c520abef5507b132ec5f9954776aebebe7b92421eea691446d22ca698b9c0b57cb301bc89dfaa7eeb05";
     "697519e88d7183a2cbb5f72b21be90e8c7"].
Definition agent_tool_agent_deregister : vector :=
  Vector 18 1700000003001
    (Ask (Wallet.RqDeregisterAgent 1000))
    ["2f000000c352f906cb1b11ef43fb33e252ef7ff5522638890000000000000000000000000000000000000000";
     "0000000000000000e80300000000000000000000000000001200000000000000b973e5cf8b0100002a000000";
     "0000000011111111111111111111111111111111111111111111111111111111111111118e00000000000000";
     "00000000000000000d000000000000007a696e6368612d766567612d31571583f30ad5d0327e636c075a5a55";
     "76f75af6288311e1639b4933a78a6e8ffd1aa663d197cc14a68e326441691d8b8189b11f496ec407645796a0";
     "560b9a0e0fea4a6c63e29c520abef5507b132ec5f9954776aebebe7b92421eea691446d22c544ee9b5feae73";
     "b86f3343019816e16b0fe7ae462c5e0cf3e85eb5876c3eb93e"].
Definition agent_tool_tool_register : vector :=
  Vector 19 1700000003002
    (Ask (Wallet.RqRegisterToolResultEscrowed (lit "Research Search") (lit
      "Searches private research corpora") (lit "https://tools.example/search") 2000000 2000000
      600000 2048 [(cap "data.search"); (cap "research.retrieve")] (lit "1.2.0") 1000))
    ["08000000c352f906cb1b11ef43fb33e252ef7ff5522638890000000000000000000000000000000000000000";
     "0000000000000000e80300000000000000000000000000001300000000000000ba73e5cf8b0100002a000000";
     "0000000011111111111111111111111111111111111111111111111111111111111111118e00000000000000";
     "db000000000000000f0000000000000052657365617263682053656172636821000000000000005365617263";
     "686573207072697661746520726573656172636820636f72706f72611c0000000000000068747470733a2f2f";
     "746f6f6c732e6578616d706c652f73656172636880841e00000000000100000080841e0000000000c0270900";
     "00000000000800000000000002000000000000000b00000000000000646174612e7365617263681100000000";
     "00000072657365617263682e726574726965766501010200000000000000cdcccc3dcdcc4c3e050000000000";
     "0000312e322e300d000000000000007a696e6368612d766567612d31c19c36d3996160caee92e4b850632ec3";
     "528fc4f304b652d3f3bb88505501d472d94bcecde3b8dc22300a8d484e6cda25bae7461b14aee7edaf4658cf";
     "a5dc490aea4a6c63e29c520abef5507b132ec5f9954776aebebe7b92421eea691446d22c7f1768e4e8a3fe90";
     "9da9118223f56672f851b0153a1abe800eb47475d6e943cc"].
Definition agent_tool_tool_invoke : vector :=
  Vector 20 1700000003003
    (Payload Tx.ToolInvoke address_zero 0 (Wallet.encode {| Tool.iv_tool_id := (h32
      "aaaaaaaaaaaaaaaaaaaaaaaaaaaaaaaaaaaaaaaaaaaaaaaaaaaaaaaaaaaaaaaa"); Tool.iv_input_data :=
      (raw "7b227175657279223a227a696e636861227d");       Tool.iv_max_metered_units := Some 25;
      Tool.iv_gas_limit := 400000;       Tool.iv_milestones := [{| ToolJob.def_label := (lit
      "draft"); ToolJob.def_amount := 700000 |}; {| ToolJob.def_label := (lit "final");
      ToolJob.def_amount := 1300000 |}] |}))
    ["09000000c352f906cb1b11ef43fb33e252ef7ff5522638890000000000000000000000000000000000000000";
     "0000000000000000e80300000000000000000000000000001400000000000000bb73e5cf8b0100002a000000";
     "0000000011111111111111111111111111111111111111111111111111111111111111118e00000000000000";
     "7d00000000000000aaaaaaaaaaaaaaaaaaaaaaaaaaaaaaaaaaaaaaaaaaaaaaaaaaaaaaaaaaaaaaaa12000000";
     "000000007b227175657279223a227a696e636861227d011900000000000000801a0600000000000200000000";
     "0000000500000000000000647261667460ae0a0000000000050000000000000066696e616c20d61300000000";
     "000d000000000000007a696e6368612d766567612d311d01d0ada16057bd807352f26812459a0d242bb2193d";
     "dd8c683477231396fc8b178ab5197df8b8bbde4a06ca4c4ee39a1b99fca806b2860409e353cd4bb43000ea4a";
     "6c63e29c520abef5507b132ec5f9954776aebebe7b92421eea691446d22c6bad0f8ecac970cc3bdd8775ea0d";
     "240538c59f93eed6a8fc0705b8232f9c4d51"].
Definition agent_tool_tool_update : vector :=
  Vector 21 1700000003004
    (Ask (Wallet.RqUpdateTool (h32
      "aaaaaaaaaaaaaaaaaaaaaaaaaaaaaaaaaaaaaaaaaaaaaaaaaaaaaaaaaaaaaaaa")
      (Tool.Build_ToolUpdateData (h32
      "aaaaaaaaaaaaaaaaaaaaaaaaaaaaaaaaaaaaaaaaaaaaaaaaaaaaaaaaaaaaaaaa") (Some (lit
      "Updated research retrieval tool")) (Some (lit "https://tools.example/search/v2")) (Some
      2500000) (Some Tool.MeteredUsage) (Some 1500000) (Some 500000) (Some 4096) (Some
      Tool.Protocol) (Some ([(cap "research.retrieve")])) (Some false) (Some []) (Some (lit
      "1.3.0")) (Some true)) 1000))
    ["16000000c352f906cb1b11ef43fb33e252ef7ff5522638890000000000000000000000000000000000000000";
     "0000000000000000e80300000000000000000000000000001500000000000000bc73e5cf8b0100002a000000";
     "0000000011111111111111111111111111111111111111111111111111111111111111118e00000000000000";
     "d700000000000000aaaaaaaaaaaaaaaaaaaaaaaaaaaaaaaaaaaaaaaaaaaaaaaaaaaaaaaaaaaaaaaa011f0000";
     "0000000000557064617465642072657365617263682072657472696576616c20746f6f6c011f000000000000";
     "0068747470733a2f2f746f6f6c732e6578616d706c652f7365617263682f763201a025260000000000010200";
     "00000160e31600000000000120a1070000000000010010000001000000000101000000000000001100000000";
     "00000072657365617263682e72657472696576650100010000000000000000010500000000000000312e332e";
     "3001010d000000000000007a696e6368612d766567612d31b05a91b3a35b840fd479ebf110c20c2246041eb6";
     "ccf0fddc32015679ef7c1f4c4f52409696157f5dcc33e998acee57e489fa4b85cc09524c8d36a1f38a344700";
     "ea4a6c63e29c520abef5507b132ec5f9954776aebebe7b92421eea691446d22ca8a2be3d3fd17cd7656e88ba";
     "70d201ed92089b1c9176dda32e8c29bafcc18e11"].
Definition agent_tool_tool_deregister : vector :=
  Vector 22 1700000003005
    (Ask (Wallet.RqDeregisterTool (h32
      "aaaaaaaaaaaaaaaaaaaaaaaaaaaaaaaaaaaaaaaaaaaaaaaaaaaaaaaaaaaaaaaa") 1000))
    ["30000000c352f906cb1b11ef43fb33e252ef7ff5522638890000000000000000000000000000000000000000";
     "0000000000000000e80300000000000000000000000000001600000000000000bd73e5cf8b0100002a000000";
     "0000000011111111111111111111111111111111111111111111111111111111111111118e00000000000000";
     "2000000000000000aaaaaaaaaaaaaaaaaaaaaaaaaaaaaaaaaaaaaaaaaaaaaaaaaaaaaaaaaaaaaaaa0d000000";
     "000000007a696e6368612d766567612d31a8947f987fa5806d77684f140f1552927e75b41d234e68db05896f";
     "8778eb6c2e885ddc1b7a7774f0acff31e47524276ea04606e57b585b50cd650ceae69de905ea4a6c63e29c52";
     "0abef5507b132ec5f9954776aebebe7b92421eea691446d22c31e6c8b725f1e8c128e2198a8c236d4b22ad60";
     "b808be27274de9a34375d26694"].
Definition agent_tool_tool_result_submit : vector :=
  Vector 23 1700000003006
    (Ask (Wallet.RqSubmitToolMilestoneResult (h32
      "cccccccccccccccccccccccccccccccccccccccccccccccccccccccccccccccc") 1 (h32
      "dddddddddddddddddddddddddddddddddddddddddddddddddddddddddddddddd") (raw
      "61727469666163743a2f2f746f6f6c2d726573756c74") 1000))
    ["0a000000c352f906cb1b11ef43fb33e252ef7ff5522638890000000000000000000000000000000000000000";
     "0000000000000000e80300000000000000000000000000001700000000000000be73e5cf8b0100002a000000";
     "0000000011111111111111111111111111111111111111111111111111111111111111118e00000000000000";
     "6300000000000000ccccccccccccccccccccccccccccccccccccccccccccccccccccccccccccccccdddddddd";
     "dddddddddddddddddddddddddddddddddddddddddddddddddddddddd16000000000000006172746966616374";
     "3a2f2f746f6f6c2d726573756c7401010000000d000000000000007a696e6368612d766567612d314c0d9613";
     "c18a525ab90e36bfae469411733ec3f80f8116ebbfaac5c0bac5eb7b1463e1adb93ffef8a8e1e1b5e585afbf";
     "a0ff478f3f3b9a3072573f96bf072e08ea4a6c63e29c520abef5507b132ec5f9954776aebebe7b92421eea69";
     "1446d22c9e18f29447e28c98216b8339216de15fd91446ede0da0dba6ce63af2c7d89a36"].
Definition agent_tool_tool_result_accept : vector :=
  Vector 24 1700000003007
    (Ask (Wallet.RqAcceptToolMilestoneResult (h32
      "cccccccccccccccccccccccccccccccccccccccccccccccccccccccccccccccc") 1 1000))
    ["0b000000c352f906cb1b11ef43fb33e252ef7ff5522638890000000000000000000000000000000000000000";
     "0000000000000000e80300000000000000000000000000001800000000000000bf73e5cf8b0100002a000000";
     "0000000011111111111111111111111111111111111111111111111111111111111111118e00000000000000";
     "2500000000000000cccccccccccccccccccccccccccccccccccccccccccccccccccccccccccccccc01010000";
     "000d000000000000007a696e6368612d766567612d316d0161efa276b82b94bd3630e32a2ff79fbdf1532d59";
     "e569a81c4886168779ff23a86c34b58b77a3d36b58f1fbc4171b8345a257085b872b5ca8092f7447a202ea4a";
     "6c63e29c520abef5507b132ec5f9954776aebebe7b92421eea691446d22c6009312ad2893470685e3b28340f";
     "5b4b028b17c8cc67f20ef34821b2f9b65baf"].
Definition agent_tool_tool_result_dispute : vector :=
  Vector 25 1700000003008
    (Ask (Wallet.RqDisputeToolMilestoneResult (h32
      "cccccccccccccccccccccccccccccccccccccccccccccccccccccccccccccccc") 1 (lit
      "artifact mismatch") 1000))
    ["0c000000c352f906cb1b11ef43fb33e252ef7ff5522638890000000000000000000000000000000000000000";
     "0000000000000000e80300000000000000000000000000001900000000000000c073e5cf8b0100002a000000";
     "0000000011111111111111111111111111111111111111111111111111111111111111118e00000000000000";
     "3e00000000000000cccccccccccccccccccccccccccccccccccccccccccccccccccccccccccccccc11000000";
     "000000006172746966616374206d69736d6174636801010000000d000000000000007a696e6368612d766567";
     "612d3123b0b0aebc262b73f3c3be4d7c861d8fc0c43ac80454017821c8e7487125e44e85075289509ee3cfe2";
     "73ca4cd4131ef911c69a3f072943a47860bc310b46f80dea4a6c63e29c520abef5507b132ec5f9954776aebe";
     "be7b92421eea691446d22c88c191703d6a2a44fc182b99090771a1e81b008e17a90352fc1f6a0854300c67"].
Definition agent_tool_tool_result_resolve : vector :=
  Vector 26 1700000003009
    (Ask (Wallet.RqResolveToolMilestoneResult (h32
      "cccccccccccccccccccccccccccccccccccccccccccccccccccccccccccccccc") 1 true (lit
      "provider evidence matched") 1000))
    ["0d000000c352f906cb1b11ef43fb33e252ef7ff5522638890000000000000000000000000000000000000000";
     "0000000000000000e80300000000000000000000000000001a00000000000000c173e5cf8b0100002a000000";
     "0000000011111111111111111111111111111111111111111111111111111111111111118e00000000000000";
     "4700000000000000cccccccccccccccccccccccccccccccccccccccccccccccccccccccccccccccc01190000";
     "000000000070726f76696465722065766964656e6365206d61746368656401010000000d000000000000007a";
     "696e6368612d766567612d31fcb54b5c48f88d19875970666a595f776b8c385bf1e98b829a1fa356284b7231";
     "a88239f0e4cba4a5fb4de2bea42fb1f25e0f1453ae76acf7553137388072b909ea4a6c63e29c520abef5507b";
     "132ec5f9954776aebebe7b92421eea691446d22c941a9c150ad5a19bfc7a7a9a7314be6156f7623e3dde7aef";
     "485cc731f0cacca5"].
Definition agent_tool_tool_job_expire : vector :=
  Vector 27 1700000003010
    (Ask (Wallet.RqExpireToolJob (h32
      "cccccccccccccccccccccccccccccccccccccccccccccccccccccccccccccccc") 1000))
    ["0e000000c352f906cb1b11ef43fb33e252ef7ff5522638890000000000000000000000000000000000000000";
     "0000000000000000e80300000000000000000000000000001b00000000000000c273e5cf8b0100002a000000";
     "0000000011111111111111111111111111111111111111111111111111111111111111118e00000000000000";
     "2000000000000000cccccccccccccccccccccccccccccccccccccccccccccccccccccccccccccccc0d000000";
     "000000007a696e6368612d766567612d31c52abae6f8d25fb74e4e999f1fd3e30cc47329b39fe9e677e178ce";
     "1b6bddd73be8b690fcef1c1a3d070718965cc701884308b29f3d4376200beb197db416cc04ea4a6c63e29c52";
     "0abef5507b132ec5f9954776aebebe7b92421eea691446d22ca2592e1e4fa6689c2cba72702eb6a04eef3c1a";
     "26a0c81f176617c61cc0a0f0dd"].
Definition agent_tool_tool_usage_report : vector :=
  Vector 28 1700000003011
    (Ask (Wallet.RqReportToolUsage (h32
      "eeeeeeeeeeeeeeeeeeeeeeeeeeeeeeeeeeeeeeeeeeeeeeeeeeeeeeeeeeeeeeee") 91 (h32
      "dddddddddddddddddddddddddddddddddddddddddddddddddddddddddddddddd") (raw
      "75736167653a2f2f73657373696f6e2d726573756c74") 1000))
    ["34000000c352f906cb1b11ef43fb33e252ef7ff5522638890000000000000000000000000000000000000000";
     "0000000000000000e80300000000000000000000000000001c00000000000000c373e5cf8b0100002a000000";
     "0000000011111111111111111111111111111111111111111111111111111111111111118e00000000000000";
     "6600000000000000eeeeeeeeeeeeeeeeeeeeeeeeeeeeeeeeeeeeeeeeeeeeeeeeeeeeeeeeeeeeeeee5b000000";
     "00000000dddddddddddddddddddddddddddddddddddddddddddddddddddddddddddddddd1600000000000000";
     "75736167653a2f2f73657373696f6e2d726573756c740d000000000000007a696e6368612d766567612d3149";
     "b35633986c95212f17738df95d3e9a6eb86c005af21d8b92bf8ef63929d59fe16c12b5a0357eaa202821b6bb";
     "393ca4b274b78cdc4811a25b8a786a2a3fa000ea4a6c63e29c520abef5507b132ec5f9954776aebebe7b9242";
     "1eea691446d22c1e05a2f586bcaf104914ea6878c985a3c55aa6cc1f112cd2a5412cf431c39b6c"].
Definition agent_tool_tool_usage_accept : vector :=
  Vector 29 1700000003012
    (Ask (Wallet.RqAcceptToolUsage (h32
      "eeeeeeeeeeeeeeeeeeeeeeeeeeeeeeeeeeeeeeeeeeeeeeeeeeeeeeeeeeeeeeee") 1000))
    ["35000000c352f906cb1b11ef43fb33e252ef7ff5522638890000000000000000000000000000000000000000";
     "0000000000000000e80300000000000000000000000000001d00000000000000c473e5cf8b0100002a000000";
     "0000000011111111111111111111111111111111111111111111111111111111111111118e00000000000000";
     "2000000000000000eeeeeeeeeeeeeeeeeeeeeeeeeeeeeeeeeeeeeeeeeeeeeeeeeeeeeeeeeeeeeeee0d000000";
     "000000007a696e6368612d766567612d316d086e731cbf29ff3c992f6a86f8d75b633886f35ae426a0e83316";
     "083883ac95bee0387a1d26c5b8b3c0e1481f458434acc7bc1f2ca344a594d1f3f135885209ea4a6c63e29c52";
     "0abef5507b132ec5f9954776aebebe7b92421eea691446d22c94c4867a98d34179768b01609ecaf01b96461e";
     "c7b5535b8843bdf00dd58390aa"].
Definition agent_tool_tool_usage_dispute : vector :=
  Vector 30 1700000003013
    (Ask (Wallet.RqDisputeToolUsage (h32
      "eeeeeeeeeeeeeeeeeeeeeeeeeeeeeeeeeeeeeeeeeeeeeeeeeeeeeeeeeeeeeeee") (lit
      "usage overstated") 1000))
    ["36000000c352f906cb1b11ef43fb33e252ef7ff5522638890000000000000000000000000000000000000000";
     "0000000000000000e80300000000000000000000000000001e00000000000000c573e5cf8b0100002a000000";
     "0000000011111111111111111111111111111111111111111111111111111111111111118e00000000000000";
     "3800000000000000eeeeeeeeeeeeeeeeeeeeeeeeeeeeeeeeeeeeeeeeeeeeeeeeeeeeeeeeeeeeeeee10000000";
     "000000007573616765206f7665727374617465640d000000000000007a696e6368612d766567612d312847e6";
     "ffd916e8fc52966620e99b23a94c96601b026c46fb33d3ea2b8a6de33cc5dfbeab81a3134b1775bafe48f04a";
     "0710aaa1e5304dd9aef302043eda731b0dea4a6c63e29c520abef5507b132ec5f9954776aebebe7b92421eea";
     "691446d22ca23526ca8f4008254b00e1dee4cc5657220a39dbae34fea2a0d1560a130889a9"].
Definition agent_tool_tool_usage_resolve : vector :=
  Vector 31 1700000003014
    (Ask (Wallet.RqResolveToolUsage (h32
      "eeeeeeeeeeeeeeeeeeeeeeeeeeeeeeeeeeeeeeeeeeeeeeeeeeeeeeeeeeeeeeee") false (lit
      "refund requested") 1000))
    ["37000000c352f906cb1b11ef43fb33e252ef7ff5522638890000000000000000000000000000000000000000";
     "0000000000000000e80300000000000000000000000000001f00000000000000c673e5cf8b0100002a000000";
     "0000000011111111111111111111111111111111111111111111111111111111111111118e00000000000000";
     "3900000000000000eeeeeeeeeeeeeeeeeeeeeeeeeeeeeeeeeeeeeeeeeeeeeeeeeeeeeeeeeeeeeeee00100000";
     "0000000000726566756e64207265717565737465640d000000000000007a696e6368612d766567612d31ee46";
     "872f3bcbe7458d6a35cabb40ee4d2bd6ee8c61cb238514b7355c847bffdc5cf4ddaf5859acda6b5f54769cd7";
     "03cdd09747a60c3dca6169430b069f007207ea4a6c63e29c520abef5507b132ec5f9954776aebebe7b92421e";
     "ea691446d22ceee29a4909d7a684a3d5a4f5e739e663052530cc550cde0977a7aec8a760df3c"].
Definition agent_tool_tool_usage_expire : vector :=
  Vector 32 1700000003015
    (Ask (Wallet.RqExpireToolUsage (h32
      "eeeeeeeeeeeeeeeeeeeeeeeeeeeeeeeeeeeeeeeeeeeeeeeeeeeeeeeeeeeeeeee") 1000))
    ["38000000c352f906cb1b11ef43fb33e252ef7ff5522638890000000000000000000000000000000000000000";
     "0000000000000000e80300000000000000000000000000002000000000000000c773e5cf8b0100002a000000";
     "0000000011111111111111111111111111111111111111111111111111111111111111118e00000000000000";
     "2000000000000000eeeeeeeeeeeeeeeeeeeeeeeeeeeeeeeeeeeeeeeeeeeeeeeeeeeeeeeeeeeeeeee0d000000";
     "000000007a696e6368612d766567612d31e7242501faa09d508f483bcfbb9d5c42e65aa04db7d3ed9f0ad2bc";
     "f2bcdac0ee7702106e795fa607f33daad50515e2e4858a71a0badeab30b62e840f42fd4503ea4a6c63e29c52";
     "0abef5507b132ec5f9954776aebebe7b92421eea691446d22c71a7a606ed59039c71c2a5b22abb6511569a61";
     "852a16db765c281493b5eea49e"].
Definition agent_tool_tool_subscription_plan_create : vector :=
  Vector 33 1700000003016
    (Ask (Wallet.RqCreateToolSubscriptionPlan (h32
      "aaaaaaaaaaaaaaaaaaaaaaaaaaaaaaaaaaaaaaaaaaaaaaaaaaaaaaaaaaaaaaaa") (lit "Pro") 9000000
      86400000 100 1000000 Subscription.PayAsYouGo 1000))
    ["0f000000c352f906cb1b11ef43fb33e252ef7ff5522638890000000000000000000000000000000000000000";
     "0000000000000000e80300000000000000000000000000002100000000000000c873e5cf8b0100002a000000";
     "0000000011111111111111111111111111111111111111111111111111111111111111118e00000000000000";
     "4b00000000000000aaaaaaaaaaaaaaaaaaaaaaaaaaaaaaaaaaaaaaaaaaaaaaaaaaaaaaaaaaaaaaaa03000000";
     "0000000050726f4054890000000000005c2605000000006400000040420f0000000000010000000d00000000";
     "0000007a696e6368612d766567612d31362660c2dcbdae15ba3e3d97860009fe92f3296c69af922e50ebcf1b";
     "cd86b96a0ae6a5ce8c07e98a9ef9664ea60ade182c0765f1ea2fdd1c4f5ebe34610bfd01ea4a6c63e29c520a";
     "bef5507b132ec5f9954776aebebe7b92421eea691446d22c476a02a37958e47f21bb16b6e115a87e5b2d8b67";
     "f6f9ed5fe33ccc5ce6609052"].
Definition agent_tool_tool_subscription_plan_update : vector :=
  Vector 34 1700000003017
    (Ask (Wallet.RqUpdateToolSubscriptionPlan (Tool.Build_ToolSubscriptionPlanUpdateData (h32
      "1212121212121212121212121212121212121212121212121212121212121212") (Some (lit
      "Pro Plus")) (Some 12000000) (Some 172800000) (Some 250) (Some 2000000) (Some
      Subscription.Deny) (Some false)) 1000))
    ["10000000c352f906cb1b11ef43fb33e252ef7ff5522638890000000000000000000000000000000000000000";
     "0000000000000000e80300000000000000000000000000002200000000000000c973e5cf8b0100002a000000";
     "0000000011111111111111111111111111111111111111111111111111111111111111118e00000000000000";
     "5800000000000000121212121212121212121212121212121212121212121212121212121212121201080000";
     "000000000050726f20506c757301001bb700000000000100b84c0a0000000001fa0000000180841e00000000";
     "00010000000001000d000000000000007a696e6368612d766567612d31c3982abf53276f627ba4abe357854b";
     "8630218456362252e3ab6056a96b7642d0cb8a735e82294621f07ecd19b9313ae18cb8c1f527e0b3ca2bef4a";
     "a38ed0ed02ea4a6c63e29c520abef5507b132ec5f9954776aebebe7b92421eea691446d22c0b51218d080ad6";
     "0a31fa8b2551fba9d47becf0e0c5d6d8f90a9b028dee73a269"].
Definition agent_tool_tool_subscription_start : vector :=
  Vector 35 1700000003018
    (Ask (Wallet.RqStartToolSubscription (h32
      "1212121212121212121212121212121212121212121212121212121212121212") 3000000 false 1000))
    ["11000000c352f906cb1b11ef43fb33e252ef7ff5522638890000000000000000000000000000000000000000";
     "0000000000000000e80300000000000000000000000000002300000000000000ca73e5cf8b0100002a000000";
     "0000000011111111111111111111111111111111111111111111111111111111111111118e00000000000000";
     "29000000000000001212121212121212121212121212121212121212121212121212121212121212c0c62d00";
     "00000000000d000000000000007a696e6368612d766567612d31c3c0d477c61b1484dd88c131d19d6d4f1845";
     "1b7841f961941b1987853e5e86115b8c05f270b1e964542810f090d2f2694aba3488feaf4b2db592b5389bd5";
     "fa08ea4a6c63e29c520abef5507b132ec5f9954776aebebe7b92421eea691446d22c871bed6fd163af1a9cfd";
     "52a1c1d82699c9d2bab911820c49616de3e6da969631"].
Definition agent_tool_tool_subscription_top_up : vector :=
  Vector 36 1700000003019
    (Ask (Wallet.RqTopUpToolSubscription (h32
      "3434343434343434343434343434343434343434343434343434343434343434") 4321 1000))
    ["12000000c352f906cb1b11ef43fb33e252ef7ff5522638890000000000000000000000000000000000000000";
     "0000000000000000e80300000000000000000000000000002400000000000000cb73e5cf8b0100002a000000";
     "0000000011111111111111111111111111111111111111111111111111111111111111118e00000000000000";
     "28000000000000003434343434343434343434343434343434343434343434343434343434343434e1100000";
     "000000000d000000000000007a696e6368612d766567612d31deb5623de16ecd0e029deb4dae5c02869ce14d";
     "37c09f82872ab7245f1f11602d0e0771113ea993283bfdee88f6394e876f0b45f84827b4068120ec693be91b";
     "03ea4a6c63e29c520abef5507b132ec5f9954776aebebe7b92421eea691446d22c8884089b4e0b324b7fe205";
     "7d41e7795ce1d65398a38ecc97819a87a7ce65a88f"].
Definition agent_tool_tool_subscription_cancel : vector :=
  Vector 37 1700000003020
    (Ask (Wallet.RqCancelToolSubscription (h32
      "3434343434343434343434343434343434343434343434343434343434343434") 1000))
    ["13000000c352f906cb1b11ef43fb33e252ef7ff5522638890000000000000000000000000000000000000000";
     "0000000000000000e80300000000000000000000000000002500000000000000cc73e5cf8b0100002a000000";
     "0000000011111111111111111111111111111111111111111111111111111111111111118e00000000000000";
     "200000000000000034343434343434343434343434343434343434343434343434343434343434340d000000";
     "000000007a696e6368612d766567612d31c55c91b207d9182881453d11297d25eaf9d0158d3d7075e09cc444";
     "f66c480edd55febc9bb1c21d390614bcb557fb566d5816f50df21ce96fb040cd1407b50e04ea4a6c63e29c52";
     "0abef5507b132ec5f9954776aebebe7b92421eea691446d22cb25601e8aeea4f7bfe35233a003ebcfe6c50b9";
     "4d3c13ddbaf8fe8e362938990a"].
Definition agent_tool_tool_subscription_resume : vector :=
  Vector 38 1700000003021
    (Ask (Wallet.RqResumeToolSubscriptionWithReserve (h32
      "3434343434343434343434343434343434343434343434343434343434343434") 765 1000))
    ["14000000c352f906cb1b11ef43fb33e252ef7ff5522638890000000000000000000000000000000000000000";
     "0000000000000000e80300000000000000000000000000002600000000000000cd73e5cf8b0100002a000000";
     "0000000011111111111111111111111111111111111111111111111111111111111111118e00000000000000";
     "28000000000000003434343434343434343434343434343434343434343434343434343434343434fd020000";
     "000000000d000000000000007a696e6368612d766567612d3120c2fd5ad20a3e28955e2e6f6c446c8869cd3a";
     "192cd58b0da0df33635f057094eccd32d51fcf311f7e2831a2dfbc4f9f202765a524e03cacbb8ddd96055ce2";
     "00ea4a6c63e29c520abef5507b132ec5f9954776aebebe7b92421eea691446d22cf29b750643972222432302";
     "4219ebb80ae35780fdda376ff7844b9fb57b9dc903"].
Definition agent_tool_tool_subscription_renew : vector :=
  Vector 39 1700000003022
    (Ask (Wallet.RqRenewToolSubscription (h32
      "3434343434343434343434343434343434343434343434343434343434343434") 1000))
    ["15000000c352f906cb1b11ef43fb33e252ef7ff5522638890000000000000000000000000000000000000000";
     "0000000000000000e80300000000000000000000000000002700000000000000ce73e5cf8b0100002a000000";
     "0000000011111111111111111111111111111111111111111111111111111111111111118e00000000000000";
     "200000000000000034343434343434343434343434343434343434343434343434343434343434340d000000";
     "000000007a696e6368612d766567612d31ee3b529aff9d505dca33a2f07a06c558b4777fab40211faec5843f";
     "a6de68fbdadf360c9e4e33a194cb5850371d6ec82334ad17b382e15cab649ff744da284e05ea4a6c63e29c52";
     "0abef5507b132ec5f9954776aebebe7b92421eea691446d22cf1ce088c17477ea96de67d2ed103acee15ec43";
     "3ed2de3727f45d31293caba062"].
Definition staking_validator_validator_register : vector :=
  Vector 40 1700000004000
    (Ask (Wallet.RqRegisterValidatorWithUpdate 50000000 (Validator.Build_ValidatorUpdateData
      [Validator.Build_ValidatorExecutorService 2 (lit
      "https://executor.vega.zincha.com/partition/2") (h32
      "fd1724385aa0c75b64fb78cd602fa1d991fdebf76b13c58ed702eac835e9f618")] (Some (h32
      "ea4a6c63e29c520abef5507b132ec5f9954776aebebe7b92421eea691446d22c"))) 1000))
    ["1e000000c352f906cb1b11ef43fb33e252ef7ff5522638890000000000000000000000000000000000000000";
     "80f0fa0200000000e80300000000000000000000000000002800000000000000a077e5cf8b0100002a000000";
     "0000000011111111111111111111111111111111111111111111111111111111111111118e00000000000000";
     "81000000000000000100000000000000020000002c0000000000000068747470733a2f2f6578656375746f72";
     "2e766567612e7a696e6368612e636f6d2f706172746974696f6e2f32fd1724385aa0c75b64fb78cd602fa1d9";
     "91fdebf76b13c58ed702eac835e9f61801ea4a6c63e29c520abef5507b132ec5f9954776aebebe7b92421eea";
     "691446d22c0d000000000000007a696e6368612d766567612d31a177fc8db8b4914d43e7cdb15a0c0c52e847";
     "caac9536826064da630fb7d943a38e67b668d717f49ad1c2cf96319f7862218d8cde78da2e3d1e13a7e21f84";
     "400cea4a6c63e29c520abef5507b132ec5f9954776aebebe7b92421eea691446d22ce82140ff02ee4a3e6945";
     "e42779c44a349ee8b9ac08774e6f18f4e973115597c5"].
Definition staking_validator_validator_update : vector :=
  Vector 41 1700000004001
    (Ask (Wallet.RqUpdateValidator (Validator.Build_ValidatorUpdateData
      [Validator.Build_ValidatorExecutorService 0 (lit
      "https://executor.vega.zincha.com/partition/0") (h32
      "43a72e714401762df66b68c26dfbdf2682aaec9f2474eca4613e424a0fbafd3c");
      Validator.Build_ValidatorExecutorService 1 (lit
      "https://executor.vega.zincha.com/partition/1") (h32
      "fd1724385aa0c75b64fb78cd602fa1d991fdebf76b13c58ed702eac835e9f618")] None) 1000))
    ["39000000c352f906cb1b11ef43fb33e252ef7ff5522638890000000000000000000000000000000000000000";
     "0000000000000000e80300000000000000000000000000002900000000000000a177e5cf8b0100002a000000";
     "0000000011111111111111111111111111111111111111111111111111111111111111118e00000000000000";
     "b9000000000000000200000000000000000000002c0000000000000068747470733a2f2f6578656375746f72";
     "2e766567612e7a696e6368612e636f6d2f706172746974696f6e2f3043a72e714401762df66b68c26dfbdf26";
     "82aaec9f2474eca4613e424a0fbafd3c010000002c0000000000000068747470733a2f2f6578656375746f72";
     "2e766567612e7a696e6368612e636f6d2f706172746974696f6e2f31fd1724385aa0c75b64fb78cd602fa1d9";
     "91fdebf76b13c58ed702eac835e9f618000d000000000000007a696e6368612d766567612d313d9107628f66";
     "147f471455ee197f064e2e6ab9a126a3b1b587787520996671f6e69fe3e53659c5366298d1611ac51cdd3001";
     "663949ad7f45fdf5c9fc1db28303ea4a6c63e29c520abef5507b132ec5f9954776aebebe7b92421eea691446";
     "d22cc45f9a36ecdf39a809a53b6acf237ba4f270c08410720b44d2d44674060547fb"].
Definition staking_validator_validator_exit : vector :=
  Vector 42 1700000004002
    (Ask (Wallet.RqExitValidator 1000))
    ["1f000000c352f906cb1b11ef43fb33e252ef7ff5522638890000000000000000000000000000000000000000";
     "0000000000000000e80300000000000000000000000000002a00000000000000a277e5cf8b0100002a000000";
     "0000000011111111111111111111111111111111111111111111111111111111111111118e00000000000000";
     "00000000000000000d000000000000007a696e6368612d766567612d3104e0e196958dab53fdb049f263ef39";
     "18966a2e6b23ed1f4c2f3c19f7f9c649005aabafe8a18ee5f6730ccbd8c4e1f48eb612aec65795164dc07146";
     "310480e203ea4a6c63e29c520abef5507b132ec5f9954776aebebe7b92421eea691446d22c33afe33f30db82";
     "1c8b87ae48e57508068cfcdb6177391f609d78a18784b2373a"].
Definition staking_validator_validator_vrf_commit : vector :=
  Vector 43 1700000004003
    (Payload Tx.ValidatorVrfCommit address_zero 0 (Wallet.encode
      (Validator.Build_ValidatorVrfCommitData 42 (h32
      "abababababababababababababababababababababababababababababababab"))))
    ["20000000c352f906cb1b11ef43fb33e252ef7ff5522638890000000000000000000000000000000000000000";
     "0000000000000000e80300000000000000000000000000002b00000000000000a377e5cf8b0100002a000000";
     "0000000011111111111111111111111111111111111111111111111111111111111111118e00000000000000";
     "28000000000000002a00000000000000abababababababababababababababababababababababababababab";
     "abababab0d000000000000007a696e6368612d766567612d31cde18b7c2b18ecda5dda194403473e4f35296c";
     "6bded0e83c0fc40d5314f64f04604eafa87ab8e2ef9380866bb3e75ba9ed5b142b73d16aab07765dd0c18a65";
     "03ea4a6c63e29c520abef5507b132ec5f9954776aebebe7b92421eea691446d22c885a757109af1706e51498";
     "b0d018903cbf3dad3380cbdef9ae6aff08ddca3026"].
Definition staking_validator_validator_vrf_contribution : vector :=
  Vector 44 1700000004004
    (Payload Tx.ValidatorVrfContribution address_zero 0 (Wallet.encode
      (Validator.Build_ValidatorVrfContributionData 42 (raw
      "1111111111111111111111111111111111111111111111111111111111111111") (raw
      "22222222222222222222222222222222222222222222222222222222222222222222222222222222222222222222222222222222222222222222222222222222"))))
    ["21000000c352f906cb1b11ef43fb33e252ef7ff5522638890000000000000000000000000000000000000000";
     "0000000000000000e80300000000000000000000000000002c00000000000000a477e5cf8b0100002a000000";
     "0000000011111111111111111111111111111111111111111111111111111111111111118e00000000000000";
     "78000000000000002a0000000000000020000000000000001111111111111111111111111111111111111111";
     "1111111111111111111111114000000000000000222222222222222222222222222222222222222222222222";
     "222222222222222222222222222222222222222222222222222222222222222222222222222222220d000000";
     "000000007a696e6368612d766567612d31872198e9d2ac6c88aa7c0c49b8c10b5661aa2c92b7e6e69db34415";
     "bbd3d9b88e53fdc50af892dd30af04abd24241629398c98b4b14e35c69911862e85c647d07ea4a6c63e29c52";
     "0abef5507b132ec5f9954776aebebe7b92421eea691446d22c241df96acca022b700fe552ecc2679d92ce1a2";
     "61577c53c36e0a6aa0e09136a0"].
Definition staking_validator_stake_agent : vector :=
  Vector 45 1700000004005
    (Ask (Wallet.RqStake 1000000 Tx.STAgent 1000))
    ["22000000c352f906cb1b11ef43fb33e252ef7ff5522638890000000000000000000000000000000000000000";
     "40420f0000000000e80300000000000000000000000000002d00000000000000a577e5cf8b0100002a000000";
     "0000000011111111111111111111111111111111111111111111111111111111111111118e00000000000000";
     "0400000000000000000000000d000000000000007a696e6368612d766567612d313f9d85fce42bdd8bc0fbf9";
     "d191cd0aac61a0afac1ab24afba26bff1e94660069e774564a4908c6a7947e7663d5b18aa7c4fdaf993022ea";
     "9d6d962a891c70fa0dea4a6c63e29c520abef5507b132ec5f9954776aebebe7b92421eea691446d22c49828f";
     "9301e4c7cf56147d1cb7adec10f06b795aa82024c6c36600dad87694c3"].
Definition staking_validator_stake_validator : vector :=
  Vector 46 1700000004006
    (Ask (Wallet.RqStake 2000000 Tx.STValidator 1000))
    ["22000000c352f906cb1b11ef43fb33e252ef7ff5522638890000000000000000000000000000000000000000";
     "80841e0000000000e80300000000000000000000000000002e00000000000000a677e5cf8b0100002a000000";
     "0000000011111111111111111111111111111111111111111111111111111111111111118e00000000000000";
     "0400000000000000010000000d000000000000007a696e6368612d766567612d3188458201d45cb27d69e9f9";
     "432f605e18fe2cc3c3c8b7374d2f8dcc12d910f570993786e0d0b45d32cbd5df3ea4916fada2cd9b7ae4d025";
     "060e64911d46676d0aea4a6c63e29c520abef5507b132ec5f9954776aebebe7b92421eea691446d22c409c2d";
     "e2790a5e0ef85dd7fbcf9782ccef157ddad31f54f6420bb2ade0318d3f"].
Definition staking_validator_stake_requester_auto_match : vector :=
  Vector 47 1700000004007
    (Ask (Wallet.RqStake 3000000 Tx.STRequesterAutoMatch 1000))
    ["22000000c352f906cb1b11ef43fb33e252ef7ff5522638890000000000000000000000000000000000000000";
     "c0c62d0000000000e80300000000000000000000000000002f00000000000000a777e5cf8b0100002a000000";
     "0000000011111111111111111111111111111111111111111111111111111111111111118e00000000000000";
     "0400000000000000020000000d000000000000007a696e6368612d766567612d31e37ef9d727c2ba4a54b14b";
     "5040cac19b0398e0275d88a85740c3d61e7a1dba2a7e779a4ea139e718e04545dcb0aead4d981927f21161d5";
     "b1d091260d5c27e505ea4a6c63e29c520abef5507b132ec5f9954776aebebe7b92421eea691446d22cd0b763";
     "0407b66db1346db6a58395d22a2551b751a480c126bc5bcd66902f39c5"].
Definition staking_validator_unstake_agent : vector :=
  Vector 48 1700000004008
    (Ask (Wallet.RqUnstake 500000 Tx.STAgent 1000))
    ["23000000c352f906cb1b11ef43fb33e252ef7ff5522638890000000000000000000000000000000000000000";
     "20a1070000000000e80300000000000000000000000000003000000000000000a877e5cf8b0100002a000000";
     "0000000011111111111111111111111111111111111111111111111111111111111111118e00000000000000";
     "0400000000000000000000000d000000000000007a696e6368612d766567612d311e216d3507ea1fb854c64e";
     "100f3549c03a48c22290dff5ad7f2a1583539fdb3cfc3003dc6e09052510a44ff4de6930797e3b2621f85593";
     "0a665780a1022c0201ea4a6c63e29c520abef5507b132ec5f9954776aebebe7b92421eea691446d22cf32759";
     "927be336985ea186a753f97b8813c025020ff5665a6d5af3c4c5d5a832"].
Definition staking_validator_unstake_validator : vector :=
  Vector 49 1700000004009
    (Ask (Wallet.RqUnstake 750000 Tx.STValidator 1000))
    ["23000000c352f906cb1b11ef43fb33e252ef7ff5522638890000000000000000000000000000000000000000";
     "b0710b0000000000e80300000000000000000000000000003100000000000000a977e5cf8b0100002a000000";
     "0000000011111111111111111111111111111111111111111111111111111111111111118e00000000000000";
     "0400000000000000010000000d000000000000007a696e6368612d766567612d31910459ac6eadd1dbb7da12";
     "1a605c739e1263d37a1ffbaa1b6c76725af9730d19f2fe3507c8a984f4cd6c5bd0a89d71e07127e6fb8b88b9";
     "245e125d3111c01401ea4a6c63e29c520abef5507b132ec5f9954776aebebe7b92421eea691446d22c25d687";
     "83cda77618e235e160da15959c093b8d174d393b6c5a6fce077d744969"].
Definition staking_validator_validator_reactivate : vector :=
  Vector 50 1700000004010
    (Ask (Wallet.RqReactivateValidator 1000))
    ["39000000c352f906cb1b11ef43fb33e252ef7ff5522638890000000000000000000000000000000000000000";
     "0000000000000000e80300000000000000000000000000003200000000000000aa77e5cf8b0100002a000000";
     "0000000011111111111111111111111111111111111111111111111111111111111111118e00000000000000";
     "09000000000000000000000000000000000d000000000000007a696e6368612d766567612d31e6306f69c6df";
     "8054c18536d05fff9dedccffae94c1e1dfc0bc3447e14e10e1f98564e0c89e4072c8a4cf6a31cc52fed6ac42";
     "dc1daa8a07ae876ec08289fc4a0bea4a6c63e29c520abef5507b132ec5f9954776aebebe7b92421eea691446";
     "d22ce77c4ec0a87baa2c9c326b73d2dcfc004122c8fe9e809a85351d646d705c3235"].
Definition contract_contract_deploy : vector :=
  Vector 50 1700000005000
    (Ask (Wallet.RqDeployContract (raw "0061736d01000000") 12345 1000))
    ["26000000c352f906cb1b11ef43fb33e252ef7ff5522638890000000000000000000000000000000000000000";
     "3930000000000000e80300000000000000000000000000003200000000000000887be5cf8b0100002a000000";
     "0000000011111111111111111111111111111111111111111111111111111111111111118e00000000000000";
     "100000000000000008000000000000000061736d010000000d000000000000007a696e6368612d766567612d";
     "31eb8e155939154eb9a1c9e8162e10837790f56addc47e208b28f17d94a6de38c973aaa6a2a72b7df15cee4d";
     "a1057ff639d85e6ad6ac2c2913e60b4fedaf0b2506ea4a6c63e29c520abef5507b132ec5f9954776aebebe7b";
     "92421eea691446d22cd8ee46a4974efe3ba74aad49c6284a6bbde229f9a0a8d98ae774a81e5b4a587e"].
Definition contract_contract_call : vector :=
  Vector 51 1700000005001
    (Payload Tx.ContractCall address_zero 5000 (Wallet.encode (Contract.Build_ContractCallData
      (adr "zn1e448441501f759a595a86980e5d9a422a01e5d55") (lit "increment") (raw "01020304")
      50000)))
    ["27000000c352f906cb1b11ef43fb33e252ef7ff5522638890000000000000000000000000000000000000000";
     "8813000000000000e80300000000000000000000000000003300000000000000897be5cf8b0100002a000000";
     "0000000011111111111111111111111111111111111111111111111111111111111111118e00000000000000";
     "3900000000000000e448441501f759a595a86980e5d9a422a01e5d550900000000000000696e6372656d656e";
     "7404000000000000000102030450c30000000000000d000000000000007a696e6368612d766567612d31bfb6";
     "063283b0c7ab1cc6758aebdc79729afdd6528aecbf0627af2da4668b36da5b707a19d9336e7d869fead2f5c1";
     "cd0ddd4bb869b720a612eefe352666ba0b0cea4a6c63e29c520abef5507b132ec5f9954776aebebe7b92421e";
     "ea691446d22cb5857c8979971028283a219ce0b6638035377fb9ec507bf5715cec5f408ecd86"].
Definition contract_contract_verify : vector :=
  Vector 52 1700000005002
    (Payload Tx.ContractVerify address_zero 0 (Wallet.encode (Contract.Build_ContractVerifyData
      (adr "zn1e448441501f759a595a86980e5d9a422a01e5d55") wat_proof)))
    ["3a000000c352f906cb1b11ef43fb33e252ef7ff5522638890000000000000000000000000000000000000000";
     "0000000000000000e803000000000000000000000000000034000000000000008a7be5cf8b0100002a000000";
     "0000000011111111111111111111111111111111111111111111111111111111111111118e00000000000000";
     "5f00000000000000e448441501f759a595a86980e5d9a422a01e5d550000000012000000000000007761736d";
     "7072696e7465722d302e322e38342400000000000000286d6f64756c65202866756e6320286578706f727420";
     "22696e6372656d656e7422292929000d000000000000007a696e6368612d766567612d31784336f26a285a7f";
     "4ba2136bd6bc88ce38f1d04c687f641dfe277c9d0212518bc11b35012895bc9fffc1026fc07da1878f1d5731";
     "de4fdcbb6e6f82c7f5347905ea4a6c63e29c520abef5507b132ec5f9954776aebebe7b92421eea691446d22c";
     "adbf00d33ad9a93c9493d0553315d41e65e78abc811e604d79caa99d8c1520c6"].
Definition contract_contract_publish_abi : vector :=
  Vector 53 1700000005003
    (Payload Tx.ContractPublishAbi address_zero 0 (Wallet.encode
      (Contract.Build_ContractPublishAbiData (adr "zn1e448441501f759a595a86980e5d9a422a01e5d55")
      counter_abi)))
    ["3b000000c352f906cb1b11ef43fb33e252ef7ff5522638890000000000000000000000000000000000000000";
     "0000000000000000e803000000000000000000000000000035000000000000008b7be5cf8b0100002a000000";
     "0000000011111111111111111111111111111111111111111111111111111111111111118e00000000000000";
     "0901000000000000e448441501f759a595a86980e5d9a422a01e5d550700000000000000436f756e74657205";
     "00000000000000312e302e3002000000000000000900000000000000696e6372656d656e7415000000000000";
     "00496e6372656d656e742074686520636f756e74657201000000000000000200000000000000627903000000";
     "000000007536340c0000000000000044656c746120746f206164640000000000000000010300000000000000";
     "6765741000000000000000526561642074686520636f756e7465720000000000000000010000000000000005";
     "0000000000000076616c75650300000000000000753634150000000000000043757272656e7420636f756e74";
     "65722076616c7565000d000000000000007a696e6368612d766567612d31007598e479e7bc4aa5c78aeed995";
     "8117624c89f98048d3fb3aa7120a0654d131f6b9479d156e27f1e9b114e990daea4de8fd2fd171a22ab2b9cd";
     "fe3ca04c5a00ea4a6c63e29c520abef5507b132ec5f9954776aebebe7b92421eea691446d22c44bbb51f2168";
     "ad6eaa860854224185aca2b0d0b7d5c31045bd8a007656538391"].
Definition contract_contract_route_update : vector :=
  Vector 54 1700000005004
    (Ask (Wallet.RqUpdateContractRoute (lit "counter.stable") (adr
      "zn1e448441501f759a595a86980e5d9a422a01e5d55") 1000))
    ["3c000000c352f906cb1b11ef43fb33e252ef7ff5522638890000000000000000000000000000000000000000";
     "0000000000000000e803000000000000000000000000000036000000000000008c7be5cf8b0100002a000000";
     "0000000011111111111111111111111111111111111111111111111111111111111111118e00000000000000";
     "2a000000000000000e00000000000000636f756e7465722e737461626c65e448441501f759a595a86980e5d9";
     "a422a01e5d550d000000000000007a696e6368612d766567612d31b6558a571b866796530c8defe6878087dd";
     "55240b869b500707949213b2152110f60f7d4a33e1d8a4fb85a0618ab1978d9a575696365df2d9fdd2b2420c";
     "6c880bea4a6c63e29c520abef5507b132ec5f9954776aebebe7b92421eea691446d22c2077743f3b08d1692e";
     "bbc5850eb25874f4826f26561ee7461d048d9d71bddf72"].
Definition contract_contract_route_call : vector :=
  Vector 55 1700000005005
    (Ask (Wallet.RqCallContractRoute (adr "zn1c352f906cb1b11ef43fb33e252ef7ff552263889") (lit
      "counter.stable") (lit "increment") (raw "090807") 7000 75000 1000))
    ["3d000000c352f906cb1b11ef43fb33e252ef7ff5522638890000000000000000000000000000000000000000";
     "581b000000000000e803000000000000000000000000000037000000000000008d7be5cf8b0100002a000000";
     "0000000011111111111111111111111111111111111111111111111111111111111111118e00000000000000";
     "4e00000000000000c352f906cb1b11ef43fb33e252ef7ff5522638890e00000000000000636f756e7465722e";
     "737461626c650900000000000000696e6372656d656e740300000000000000090807f8240100000000000d00";
     "0000000000007a696e6368612d766567612d31ae67fa8b6fcfbc8e1478c812b5b1b0f443f021faf6742b68d4";
     "8cf06fdb329b450e42d8f83af618d9dff37566acfa65b6a1b8c64253ff41d76e328fe6c871640fea4a6c63e2";
     "9c520abef5507b132ec5f9954776aebebe7b92421eea691446d22c8e2b21aa54056331b68552bbeb8cfbc613";
     "bdaa5c8c206c2414a9eb1acba50401"].
Definition contract_contract_deactivate : vector :=
  Vector 56 1700000005006
    (Ask (Wallet.RqDeactivateContract (adr "zn1e448441501f759a595a86980e5d9a422a01e5d55") 1000))
    ["32000000c352f906cb1b11ef43fb33e252ef7ff5522638890000000000000000000000000000000000000000";
     "0000000000000000e803000000000000000000000000000038000000000000008e7be5cf8b0100002a000000";
     "0000000011111111111111111111111111111111111111111111111111111111111111118e00000000000000";
     "1400000000000000e448441501f759a595a86980e5d9a422a01e5d550d000000000000007a696e6368612d76";
     "6567612d316c39b1b357f11427076fe090e12dea94a33704ff7c69d062a480463eea6933f5afc5b34536c21e";
     "7601e9f4058a5a5899ee76f5245c4f1aaf923f5682cf2fde03ea4a6c63e29c520abef5507b132ec5f9954776";
     "aebebe7b92421eea691446d22cd95a1228cb5b65154742904b1f896a19eede54a1785ac46649a97c07af6883";
     "4f"].
Definition task_fulfill : vector :=
  Vector 11 1700000002000
    (Ask (Wallet.RqFulfillTaskVerified (h32
      "3333333333333333333333333333333333333333333333333333333333333333") (h32
      "4444444444444444444444444444444444444444444444444444444444444444") (raw
      "7b226f6b223a747275657d") [(h32
      "5555555555555555555555555555555555555555555555555555555555555555")] [(h32
      "6666666666666666666666666666666666666666666666666666666666666666")]
      [Access.Build_ReceiptWithProof (Access.Build_AccessTokenReceipt (h32
      "7777777777777777777777777777777777777777777777777777777777777777") (h32
      "5555555555555555555555555555555555555555555555555555555555555555") (adr
      "zn1e448441501f759a595a86980e5d9a422a01e5d55") 42000 1700000000010 77 9) [((h32
      "9999999999999999999999999999999999999999999999999999999999999999"), true)] (h32
      "8888888888888888888888888888888888888888888888888888888888888888")] 1000))
    ["05000000c352f906cb1b11ef43fb33e252ef7ff5522638890000000000000000000000000000000000000000";
     "0000000000000000e80300000000000000000000000000000b00000000000000d06fe5cf8b0100002a000000";
     "0000000011111111111111111111111111111111111111111111111111111111111111118e00000000000000";
     "6801000000000000333333333333333333333333333333333333333333333333333333333333333344444444";
     "444444444444444444444444444444444444444444444444444444440b000000000000007b226f6b223a7472";
     "75657d0100000000000000555555555555555555555555555555555555555555555555555555555555555501";
     "0000000000000066666666666666666666666666666666666666666666666666666666666666660100000000";
     "0000007777777777777777777777777777777777777777777777777777777777777777555555555555555555";
     "5555555555555555555555555555555555555555555555e448441501f759a595a86980e5d9a422a01e5d5510";
     "a40000000000000a68e5cf8b0100004d00000000000000090000000000000001000000000000009999999999";
     "9999999999999999999999999999999999999999999999999999990188888888888888888888888888888888";
     "888888888888888888888888888888880d000000000000007a696e6368612d766567612d31357f3c1ff7bf8e";
     "89e718c172338974d880e86d0fbfc7c082674817e6fd17fa13b70480ca0674fb7ec5ac3e69c0b975f64b11a0";
     "0a775ff3159cfb37ee1563b80aea4a6c63e29c520abef5507b132ec5f9954776aebebe7b92421eea691446d2";
     "2cb28787a0e7deb3467f608178676c991abaf3cc65607ea064be2131e768cede94"].
Definition task_accept : vector :=
  Vector 12 1700000002001
    (Ask (Wallet.RqAcceptTask (h32
      "3333333333333333333333333333333333333333333333333333333333333333") 1000))
    ["3f000000c352f906cb1b11ef43fb33e252ef7ff5522638890000000000000000000000000000000000000000";
     "0000000000000000e80300000000000000000000000000000c00000000000000d16fe5cf8b0100002a000000";
     "0000000011111111111111111111111111111111111111111111111111111111111111118e00000000000000";
     "200000000000000033333333333333333333333333333333333333333333333333333333333333330d000000";
     "000000007a696e6368612d766567612d31e0c507b386bb483dea4780d8c7b78513a4012aa55753c44541c966";
     "cbde270c1197bc18fc5ad79ff77d8fdb6f554a797a74a1e09efcf4477fc50d75ae831df407ea4a6c63e29c52";
     "0abef5507b132ec5f9954776aebebe7b92421eea691446d22cd3e708abdffba840072db55dcc562f9f9098fb";
     "9a419cf0dc8cb322eb0b8d7111"].
Definition task_dispute : vector :=
  Vector 13 1700000002002
    (Ask (Wallet.RqDisputeTask (h32
      "3333333333333333333333333333333333333333333333333333333333333333") (lit
      "Output did not match the requested schema") 1000))
    ["40000000c352f906cb1b11ef43fb33e252ef7ff5522638890000000000000000000000000000000000000000";
     "0000000000000000e80300000000000000000000000000000d00000000000000d26fe5cf8b0100002a000000";
     "0000000011111111111111111111111111111111111111111111111111111111111111118e00000000000000";
     "5100000000000000333333333333333333333333333333333333333333333333333333333333333329000000";
     "000000004f757470757420646964206e6f74206d61746368207468652072657175657374656420736368656d";
     "610d000000000000007a696e6368612d766567612d315a8bbb91c8e41d5b2b0a4c9923bb7f50508116332c62";
     "2394bbf457dcfbc147f931e746836857e97d5b5310d9c196a4b8c6ed979d9d728ab3e798cb3744cc020eea4a";
     "6c63e29c520abef5507b132ec5f9954776aebebe7b92421eea691446d22c7082ba36f9cdd340766860890e71";
     "b95782d954dae0ef4165a28757bfb5c62e0f"].
Definition task_resolve : vector :=
  Vector 14 1700000002003
    (Ask (Wallet.RqResolveTask (h32
      "3333333333333333333333333333333333333333333333333333333333333333") true (lit
      "Evidence supports the submitted result") 1000))
    ["41000000c352f906cb1b11ef43fb33e252ef7ff5522638890000000000000000000000000000000000000000";
     "0000000000000000e80300000000000000000000000000000e00000000000000d36fe5cf8b0100002a000000";
     "0000000011111111111111111111111111111111111111111111111111111111111111118e00000000000000";
     "4f00000000000000333333333333333333333333333333333333333333333333333333333333333301260000";
     "000000000045766964656e636520737570706f72747320746865207375626d697474656420726573756c740d";
     "000000000000007a696e6368612d766567612d31c8e0bdfc5b767fa2023fb1c35c49827c100e27bdc2e90d33";
     "dacc169a9504a6295a12d117976547cd925dbf68d9003d42b804500be0d7b38ba9c06285f7074300ea4a6c63";
     "e29c520abef5507b132ec5f9954776aebebe7b92421eea691446d22c8ac1de0241ff74c77f07eed6f3f1ac53";
     "9b97faff6f5674c8b1b83355923f37dd"].
Definition task_finalize : vector :=
  Vector 15 1700000002004
    (Ask (Wallet.RqFinalizeTask (h32
      "3333333333333333333333333333333333333333333333333333333333333333") 1000))
    ["42000000c352f906cb1b11ef43fb33e252ef7ff5522638890000000000000000000000000000000000000000";
     "0000000000000000e80300000000000000000000000000000f00000000000000d46fe5cf8b0100002a000000";
     "0000000011111111111111111111111111111111111111111111111111111111111111118e00000000000000";
     "200000000000000033333333333333333333333333333333333333333333333333333333333333330d000000";
     "000000007a696e6368612d766567612d31b8f4f42bce43189e3e35849e5d7b6eb22160e93d63ff7d02a9718d";
     "c89a794fd8514f447ac9db341203114b6ab8ddc025c8402c61a31f21112ec196278046d40fea4a6c63e29c52";
     "0abef5507b132ec5f9954776aebebe7b92421eea691446d22c00f20fafa9fe59a5b28ea645308f5809924dd8";
     "0fe309a2b8f42ab4de7cb4c69e"].
Definition task_cancel : vector :=
  Vector 16 1700000002005
    (Ask (Wallet.RqCancelTask (h32
      "3333333333333333333333333333333333333333333333333333333333333333") 1000))
    ["06000000c352f906cb1b11ef43fb33e252ef7ff5522638890000000000000000000000000000000000000000";
     "0000000000000000e80300000000000000000000000000001000000000000000d56fe5cf8b0100002a000000";
     "0000000011111111111111111111111111111111111111111111111111111111111111118e00000000000000";
     "200000000000000033333333333333333333333333333333333333333333333333333333333333330d000000";
     "000000007a696e6368612d766567612d31479e350c05df33d38ac838cbd1a4b8c2ab041b9529ccd94702711b";
     "3cc6c3c53ad1bb65a2bcee92edd2da4b1955c0b1913c0d1b180cb095b42cd8fd5ddaca0a0bea4a6c63e29c52";
     "0abef5507b132ec5f9954776aebebe7b92421eea691446d22cace58fa1782ef3edef94705535d2aecee62fac";
     "b7a83bdc56bbccfbd3231fe269"].
Definition transfer : vector :=
  Vector 3 1700000000123
    (Ask (Wallet.RqTransferWithPriorityFee (adr "zn1ee840a04bcc3a37a4f9d46df327dec56b8a9b7c9")
      1234567 100000 2))
    ["00000000c352f906cb1b11ef43fb33e252ef7ff552263889ee840a04bcc3a37a4f9d46df327dec56b8a9b7c9";
     "87d6120000000000a086010000000000020000000000000003000000000000007b68e5cf8b0100002a000000";
     "0000000011111111111111111111111111111111111111111111111111111111111111118e00000000000000";
     "00000000000000000d000000000000007a696e6368612d766567612d31d49f29ed0695433a757f90a3d11bac";
     "d45236fda6b8972e47cec5d0b9ed06ba9424d26ad633f69cfc229eb2fd4e97915098ad42f8b9dbdf3fe228ab";
     "183c278f09ea4a6c63e29c520abef5507b132ec5f9954776aebebe7b92421eea691446d22ce9b2ab56d2658c";
     "94f60846542c045a3b7dbfad5e72a8b07b649aba970b73cc88"].
Definition agent_register : vector :=
  Vector 4 1700000000456
    (Ask (Wallet.RqRegisterAgentFull (lit "DataAnalyst") (lit
      "High-performance financial analysis agent") [(cap "data.analysis"); (cap
      "finance.report")] hash_zero 50000 [(lit "data.analysis", 5000000); (lit "finance.report",
      10000000)] 1000))
    ["02000000c352f906cb1b11ef43fb33e252ef7ff5522638890000000000000000000000000000000000000000";
     "0000000000000000e80300000000000000000000000000000400000000000000c869e5cf8b0100002a000000";
     "0000000011111111111111111111111111111111111111111111111111111111111111118e00000000000000";
     "eb000000000000000b0000000000000044617461416e616c7973742900000000000000486967682d70657266";
     "6f726d616e63652066696e616e6369616c20616e616c79736973206167656e74000000000000000000000000";
     "00000000000000000000000000000000000000000002000000000000000d00000000000000646174612e616e";
     "616c797369730e0000000000000066696e616e63652e7265706f7274000000000000000050c3000000000000";
     "02000000000000000d00000000000000646174612e616e616c79736973404b4c00000000000e000000000000";
     "0066696e616e63652e7265706f727480969800000000000d000000000000007a696e6368612d766567612d31";
     "05531227555767c268db2c18ce544f6ffd332100ddec84497e7d59ef2f9d669cdc3bedab5e7688965d5f26b5";
     "b80363167315e5816601dde0a8b6e1c8de145f07ea4a6c63e29c520abef5507b132ec5f9954776aebebe7b92";
     "421eea691446d22c2824e62774db560c07c6f7e7eaf1937e76543ea04567109ab963eb6392b73f28"].
Definition task_submit : vector :=
  Vector 5 1700000000789
    (Ask (Wallet.RqSubmitTaskWithPrefs (lit "Summarize Q4 trends in financial markets") [(cap
      "data.analysis"); (cap "finance.report")] 50000000 100 3600000 [] 1000
      (Task.Build_MatchPreferences 30 40 15 5 10 (f64_lit 5 2) 0 10 15)))
    ["04000000c352f906cb1b11ef43fb33e252ef7ff5522638890000000000000000000000000000000000000000";
     "0000000000000000e80300000000000000000000000000000500000000000000156be5cf8b0100002a000000";
     "0000000011111111111111111111111111111111111111111111111111111111111111118e00000000000000";
     "9700000000000000280000000000000053756d6d6172697a65205134207472656e647320696e2066696e616e";
     "6369616c206d61726b6574730002000000000000000d00000000000000646174612e616e616c797369730e00";
     "00000000000066696e616e63652e7265706f727480f0fa02000000006480ee36000000000000000000000000";
     "001e280f050a000000000000044000000000000000000a0000000f0d000000000000007a696e6368612d7665";
     "67612d31bc70b5ba2ede8c0ef2846921f1e3a4a2605bbe56094339385132213c057122d332533dc6ed26ea5e";
     "606fcb1a2da223330bd048cfa89b19091f82df34ce6cd104ea4a6c63e29c520abef5507b132ec5f9954776ae";
     "bebe7b92421eea691446d22c80de5e3f4cfc744099ccb949c55e1b4da6d734c6dbb249bdde4af3aaf6336d0f"].

Definition vectors : list vector :=
  [token_create; token_transfer; token_approve; token_mint; token_burn;
   agent_tool_agent_update; agent_tool_agent_deregister; agent_tool_tool_register;
   agent_tool_tool_invoke; agent_tool_tool_update; agent_tool_tool_deregister;
   agent_tool_tool_result_submit; agent_tool_tool_result_accept;
   agent_tool_tool_result_dispute; agent_tool_tool_result_resolve;
   agent_tool_tool_job_expire; agent_tool_tool_usage_report; agent_tool_tool_usage_accept;
   agent_tool_tool_usage_dispute; agent_tool_tool_usage_resolve;
   agent_tool_tool_usage_expire; agent_tool_tool_subscription_plan_create;
   agent_tool_tool_subscription_plan_update; agent_tool_tool_subscription_start;
   agent_tool_tool_subscription_top_up; agent_tool_tool_subscription_cancel;
   agent_tool_tool_subscription_resume; agent_tool_tool_subscription_renew;
   staking_validator_validator_register; staking_validator_validator_update;
   staking_validator_validator_exit; staking_validator_validator_vrf_commit;
   staking_validator_validator_vrf_contribution; staking_validator_stake_agent;
   staking_validator_stake_validator; staking_validator_stake_requester_auto_match;
   staking_validator_unstake_agent; staking_validator_unstake_validator;
   staking_validator_validator_reactivate; contract_contract_deploy; contract_contract_call;
   contract_contract_verify; contract_contract_publish_abi; contract_contract_route_update;
   contract_contract_route_call; contract_contract_deactivate; task_fulfill; task_accept;
   task_dispute; task_resolve; task_finalize; task_cancel; transfer; agent_register;
   task_submit].

(** ** The check *)
Definition secret : bytesN 32 := pad_bytesN 32 (replicate 32 x07).
Definition public : bytesN 32 := h32 "ea4a6c63e29c520abef5507b132ec5f9954776aebebe7b92421eea691446d22c".
(** A signed transaction ends with its signature, its public key and its hash. *)
Definition signed_bytes (v : vector) : list byte := unhex (joined (v_signed_hex v)).
Definition last_bytes (n : nat) (l : list byte) : list byte := drop (length l - n) l.
Definition v_hash (v : vector) : bytesN 32 := pad_bytesN 32 (last_bytes 32 (signed_bytes v)).
Definition v_signature (v : vector) : bytesN 64 :=
  pad_bytesN 64 (take 64 (last_bytes 128 (signed_bytes v))).
Definition signatures (vs : list vector) : list (list byte * bytesN 64) :=
  (fun v => (bn (v_hash v), v_signature v)) <$> vs.
Definition look_up (t : list (list byte * bytesN 64)) (m : list byte) : bytesN 64 :=
  match find (fun p => bool_decide (p.1 = m)) t with
  | Some p => p.2
  | None => pad_bytesN 64 []
  end.
Definition table_ed25519 (t : list (list byte * bytesN 64)) : Ed25519 := {|
  ed_decode _ := Ok ();
  ed_verify k m s :=
    if bool_decide (k = public) && bool_decide (s = look_up t m) then Ok ()
    else Err (lit "signature error");
  ed_public k := if bool_decide (k = secret) then public else pad_bytesN 32 [];
  ed_sign _ m := look_up t m;
|}.
(** The embedding service of the vectors: it answers for the tool that has an embedding. *)
Definition service (url text : rstr) : result rstr (list f32) :=
  if starts_with (lit "Research Search") text
  then Ok [real 13421773 134217728; real 13421773 67108864] else Err [].

Section Check.
Context `{Ed25519}.
Definition wallet (v : vector) : Wallet.AgentWallet :=
  Wallet.set_transaction_validity_window
    (Wallet.set_timestamp_ms (Wallet.set_nonce (Wallet.set_embed_url
      (Wallet.from_secret secret (lit "zincha-vega-1") []) []) (v_nonce v)) (v_timestamp v))
    42 (h32 "1111111111111111111111111111111111111111111111111111111111111111") 100.
Definition answer (v : vector) : option (result ZinchaError Tx.SignedTransaction) :=
  match v_asked v with
  | Ask r => (Wallet.run_request service (wallet v) 0 r).2
  | Payload ty recipient amount payload =>
      (Wallet.submit (wallet v) 0 ty recipient amount 1000 0 payload).2
  end.
(** The answer is the vector's transaction, in hexadecimal, and it verifies. *)
Definition conforms (v : vector) : bool :=
  match answer v with
  | Some (Ok stx) =>
      bool_decide (Wallet.tx_to_hex stx = Ok (joined (v_signed_hex v))) &&
      match Tx.verify stx with Some (Ok _) => true | _ => false end
  | _ => false
  end.

Lemma conforms_spec v : conforms v = true -> exists stx,
  answer v = Some (Ok stx) /\
  Wallet.tx_to_hex stx = Ok (joined (v_signed_hex v)) /\
  Wallet.tx_from_hex (joined (v_signed_hex v)) = Ok stx /\
  Tx.verify stx = Some (Ok ()).
Proof.
  unfold conforms. destruct (answer v) as [[stx|]|]; [|done..].
  intros [Hex%bool_decide_eq_true Hv]%andb_true_iff. exists stx.
  destruct (Tx.verify stx) as [[[]|]|]; [|done..].
  split_and!; [done|done|by apply (Wallet.transport_roundtrip stx)|done].
Qed.
End Check.

(** ** Transactions *)
#[local] Instance golden_ed25519 : Ed25519 := table_ed25519 (signatures vectors).

Lemma vectors_conform : forallb conforms vectors = true.
Proof. vm_compute. reflexivity. Qed.

(** The model rebuilds every golden transaction. Asked what the vector was asked, with its
    nonce, time and validity window, the wallet answers with a transaction that verifies and whose
    hexadecimal form is the vector's signed transaction, to the last digit; and that text reads
    back as the same transaction. *)
Theorem golden_transactions : Forall (fun v => exists stx,
  answer v = Some (Ok stx) /\
  Wallet.tx_to_hex stx = Ok (joined (v_signed_hex v)) /\
  Wallet.tx_from_hex (joined (v_signed_hex v)) = Ok stx /\
  Tx.verify stx = Some (Ok ())) vectors.
Proof.
  apply Forall_forall. intros v Hv%list_elem_of_In. apply conforms_spec.
  exact (proj1 (forallb_forall _ _) vectors_conform v Hv).
Qed.

(** *** Where the vectors and the wallet differ *)
Definition contract0 : Address := adr "zn1e448441501f759a595a86980e5d9a422a01e5d55".
Definition contract_requests : list (vector * Wallet.request) :=
  [(contract_contract_call,
    Wallet.RqCallContract contract0 (lit "increment") (raw "01020304") 5000 50000 1000);
   (contract_contract_verify, Wallet.RqVerifyContractSource contract0 wat_proof 1000);
   (contract_contract_publish_abi, Wallet.RqPublishContractAbi contract0 counter_abi 1000)].
#[local] Instance eta_Transaction : Eta Tx.Transaction := fun t =>
  {| Tx.tx_type := Tx.tx_type t; Tx.sender := Tx.sender t; Tx.recipient := Tx.recipient t;
     Tx.amount := Tx.amount t; Tx.fee := Tx.fee t;
     Tx.max_priority_fee_per_gas := Tx.max_priority_fee_per_gas t; Tx.nonce := Tx.nonce t;
     Tx.timestamp := Tx.timestamp t; Tx.reference_block_height := Tx.reference_block_height t;
     Tx.reference_block_hash := Tx.reference_block_hash t;
     Tx.max_valid_block_height := Tx.max_valid_block_height t; Tx.data := Tx.data t;
     Tx.chain_id := Tx.chain_id t |}.
Definition signed_by (r : option (result ZinchaError Tx.SignedTransaction)) : option Tx.Transaction :=
  match r with Some (Ok stx) => Some (Tx.transaction stx) | _ => None end.
(** The vectors of a contract call, of a source verification and of an ABI publication have the
    zero address for a recipient; the wallet's own builders name the contract there, and differ
    from the vectors in nothing else. *)
Theorem contract_vectors_differ : Forall (fun '(v, r) => exists tx,
  signed_by (answer v) = Some tx /\ Tx.recipient tx = address_zero /\
  signed_by (Wallet.run_request service (wallet v) 0 r).2 =
    Some (tx <| Tx.recipient := contract0 |>)) contract_requests.
Proof.
  repeat constructor; (eexists; split_and!; [vm_compute; reflexivity..]).
Qed.

(** ** Payloads of the agreement life cycle *)
Definition party (b : byte) : Address := pad_bytesN 20 (replicate 20 b).
Definition agreement0 : Hash256 := pad_bytesN 32 (replicate 32 xaa).
Definition hex_of {T} `{Bincode T} (x : T) : option rstr :=
  match bincode_serialize x with Ok b => Some (hex_encode b) | Err _ => None end.

Lemma golden_agreement_create : hex_of {|
  Agreement.cd_parties := [party x11; party x22; party x33];
  Agreement.cd_terms := blit "deliver audited model";
  Agreement.cd_escrow_amount := 1000000; Agreement.cd_expires_at := 1900000000000;
  Agreement.cd_arbitrator := Some (party x44);
  Agreement.cd_milestones :=
    [Agreement.Build_MilestoneDef (lit "prototype") 400000;
     Agreement.Build_MilestoneDef (lit "production") 600000];
  Agreement.cd_service_provider := party x22;
  Agreement.cd_settlement_allocations :=
    [Agreement.Build_AgreementPayoutShare (party x22) 7500;
     Agreement.Build_AgreementPayoutShare (party x33) 2500];
  Agreement.cd_settlement_approver := Some (party x11) |} =
  Some (joined ["030000000000000011111111111111111111111111111111111111112222222222222222222222222222";
    "2222222222223333333333333333333333333333333333333333150000000000000064656c6976657220";
    "61756469746564206d6f64656c40420f00000000000038d360ba01000001444444444444444444444444";
    "44444444444444440200000000000000090000000000000070726f746f74797065801a0600000000000a";
    "0000000000000070726f64756374696f6ec0270900000000002222222222222222222222222222222222";
    "222222020000000000000022222222222222222222222222222222222222224c1d333333333333333333";
    "3333333333333333333333c409011111111111111111111111111111111111111111"]).
Proof. vm_compute. reflexivity. Qed.
Lemma golden_agreement_execute :
  hex_of (Agreement.Build_AgreementExecuteData agreement0 (pad_bytesN 32 (replicate 32 xbb)) 1) =
  Some (joined ["aaaaaaaaaaaaaaaaaaaaaaaaaaaaaaaaaaaaaaaaaaaaaaaaaaaaaaaaaaaaaaaabbbbbbbbbbbbbbbbbbbb";
    "bbbbbbbbbbbbbbbbbbbbbbbbbbbbbbbbbbbbbbbbbbbb01000000"]).
Proof. vm_compute. reflexivity. Qed.
Lemma golden_agreement_dispute :
  hex_of (Agreement.Build_AgreementDisputeData agreement0 (lit "result failed review") (Some 1)) =
  Some (joined ["aaaaaaaaaaaaaaaaaaaaaaaaaaaaaaaaaaaaaaaaaaaaaaaaaaaaaaaaaaaaaaaa14000000000000007265";
    "73756c74206661696c6564207265766965770101000000"]).
Proof. vm_compute. reflexivity. Qed.
Lemma golden_agreement_resolve : hex_of {|
  Agreement.resolve_agreement_id := agreement0;
  Agreement.resolve_payouts :=
    [Agreement.Build_AgreementPayoutShare (party x11) 2000;
     Agreement.Build_AgreementPayoutShare (party x22) 8000];
  Agreement.resolve_reputation_effects :=
    [Agreement.Build_AgreementDisputeReputationEffect (party x11) Agreement.Lost;
     Agreement.Build_AgreementDisputeReputationEffect (party x22) Agreement.Won];
  Agreement.resolve_reason := lit "provider evidence prevailed";
  Agreement.resolve_milestone_index := Some 1 |} =
  Some (joined ["aaaaaaaaaaaaaaaaaaaaaaaaaaaaaaaaaaaaaaaaaaaaaaaaaaaaaaaaaaaaaaaa02000000000000001111";
    "111111111111111111111111111111111111d0072222222222222222222222222222222222222222401f";
    "020000000000000011111111111111111111111111111111111111110100000022222222222222222222";
    "22222222222222222222000000001b0000000000000070726f76696465722065766964656e6365207072";
    "657661696c65640101000000"]).
Proof. vm_compute. reflexivity. Qed.

(** ** Derived values *)
(** Read delegations: the identifier, the delegate's address, the two payloads. *)
Definition delegate_key : bytesN 32 :=
  h32 "8a88e3dd7409f195fd52db2d3cba5d72ca6709bf1d94121bf3748801b40f6f5c".
Definition delegator0 : Address := adr "zn10707070707070707070707070707070707070707".
Definition service0 : rstr := lit "provider-agent/conversations".
Lemma golden_delegation :
  hash_to_hex (Delegation.rpc_read_delegation_id delegator0 delegate_key service0) =
    lit "1f913502d635f2ff44bed3839672ac59fb18c5a089017e963c665c1e3d1b6091" /\
  option_map address_to_hex (ok (Delegation.rpc_read_delegate_address (fun _ => []) delegate_key)) =
    Some (lit "zn1aabe933be154a4b5094e1c4abf42866505f3c97e") /\
  hex_of (Delegation.Build_RpcReadDelegationGrantData delegate_key service0 255 1791000000000) =
    Some (joined ["8a88e3dd7409f195fd52db2d3cba5d72ca6709bf1d94121bf3748801b40f6f5c1c000000000000007072";
    "6f76696465722d6167656e742f636f6e766572736174696f6e73ff000000000000000036ebffa0010000"]) /\
  hex_encode (bn (sha256 [])) =
    lit "e3b0c44298fc1c149afbf4c8996fb92427ae41e4649b934ca495991b7852b855".
Proof. vm_compute. auto. Qed.
(** The address of a contract, from its deployer, the deployment's nonce and its code. *)
Lemma golden_contract_address :
  address_to_hex (Contract.derive_contract_address
    (adr "zn1c352f906cb1b11ef43fb33e252ef7ff552263889") 50 (raw "0061736d01000000")) =
  lit "zn140318bbb61e3363908f431e1cee9ffab8c9ccebd".
Proof. vm_compute. reflexivity. Qed.
(** The storage trie: the vectors of [contract.rs]. *)
Definition storage_root (s : list (list byte * list byte)) : option rstr :=
  option_map hash_to_hex (Storage.compute_contract_storage_root (list_to_map s)).
Lemma golden_storage_roots :
  storage_root [] =
    Some (lit "0000000000000000000000000000000000000000000000000000000000000000") /\
  storage_root [(blit "k", blit "v")] =
    Some (lit "e47ed5b5a57e80383ae9512b4aad4bc942f08ae6eccb18c813bcdc3430c3a700") /\
  storage_root [(blit "alpha", blit "one"); (blit "alphabet", blit "two")] =
    Some (lit "1a3cd23761926a3e47d1e90071da4188f60d0db45a695c046ae77a8287ac26a4") /\
  storage_root [(blit "a", blit "prefix"); (blit "aa", blit "child"); (blit "b", blit "branch")] =
    Some (lit "c16c21f76bfad0bd24ca3e781a52ac3f43ac06396b8adc32851c29796bdf4efb") /\
  storage_root [([x00; xff], [x10]); ([x10; x00], [x20; x21]); ([xff], [])] =
    Some (lit "33edece428639d8da8f286f49470f29d1641ce56e2e2483362d9940bf63dd625").
Proof. vm_compute. auto. Qed.
(** Receipts: the leaf hash and the Merkle root of [tool.rs]. *)
Definition filled (n : nat) (b : byte) : bytesN n := pad_bytesN n (replicate n b).
Lemma golden_receipts :
  hash_to_hex (Access.leaf_hash (Access.Build_AccessTokenReceipt (filled 32 x11) (filled 32 x22)
    (filled 20 x33) 0x0102030405060708 0x1112131415161718 0x2122232425262728 0x3132333435363738)) =
    lit "0971d0324d3716003801f08b93a766ef78fc6fad2a8a7e266702d4fe265c4f1c" /\
  hash_to_hex (Merkle.root (Merkle.from_hashes
    [Access.leaf_hash (Access.Build_AccessTokenReceipt (filled 32 x11) (filled 32 x22)
       (filled 20 x33) 1 2 3 4);
     Access.leaf_hash (Access.Build_AccessTokenReceipt (filled 32 x44) (filled 32 x55)
       (filled 20 x66) 5 6 7 8)])) =
    lit "524f75235dff690b525fc8386e6cf88e3d9785744c6838de90c1f1d67b7bd92a".
Proof. vm_compute. auto. Qed.
(** What a conversation key delegation and a message sign, with the hyphenated form of the
    [uuid] crate. *)
Definition hyphenated (u : bytesN 16) : rstr :=
  let h := hex_encode (bn u) in
  take 8 h ++ [45] ++ take 4 (drop 8 h) ++ [45] ++ take 4 (drop 12 h) ++ [45] ++
  take 4 (drop 16 h) ++ [45] ++ drop 20 h.
#[local] Instance hyphenated_uuids : Conversation.Uuids :=
  {| Conversation.uuid_to_string := hyphenated |}.
Definition uuid_of (b : byte) (version variant : byte) : bytesN 16 :=
  pad_bytesN 16 (replicate 6 b ++ [version; b; variant] ++ replicate 7 b).
Definition delegation0 : Conversation.ConversationKeyDelegationV1 := {|
  Conversation.d_version := 1; Conversation.d_delegation_id := uuid_of x11 x41 x81;
  Conversation.d_participant_address := lit "zn100112233445566778899aabbccddeeff00112233";
  Conversation.d_participant_public_key := hex_encode (replicate 32 x01);
  Conversation.d_subject := {| Conversation.s_network := lit "testnet";
    Conversation.s_chain_id := lit "zincha-test"; Conversation.s_kind := Conversation.Task;
    Conversation.s_id := hex_encode (replicate 32 xab) |};
  Conversation.d_home_service_id := lit "marketplace.example/conversations";
  Conversation.d_operational_signing_key := hex_encode (replicate 32 x02);
  Conversation.d_encryption_key := hex_encode (replicate 32 x03);
  Conversation.d_capabilities := [lit "write"; lit "read"; lit "write"];
  Conversation.d_not_before_ms := 1700000000000; Conversation.d_expires_at_ms := 1700003600000;
  Conversation.d_nonce := hex_encode (replicate 16 x04);
  Conversation.d_signature := hex_encode (replicate 64 x05) |}.
Definition message0 : Conversation.SubmitMessageRequest := {|
  Conversation.message_id := uuid_of x22 x42 x82;
  Conversation.client_timestamp_ms := 1700000000123;
  Conversation.reply_to := None; Conversation.key_epoch := None;
  Conversation.payload := Conversation.Plaintext [];
  Conversation.signing_key_id := hyphenated (uuid_of x11 x41 x81);
  Conversation.signature := [] |}.
Lemma golden_delegation_signing : hex_encode (Conversation.delegation_signing_bytes delegation0) =
  joined ["7a696e6368612d636f6e766572736174696f6e2d64656c65676174696f6e2d76310a310a313131313131";
    "31312d313131312d343131312d383131312d3131313131313131313131310a7a6e313030313132323333";
    "34343535363637373838393961616262636364646565666630303131323233330a303130313031303130";
    "313031303130313031303130313031303130313031303130313031303130313031303130313031303130";
    "313031303130313031303130310a746573746e65740a7a696e6368612d746573740a7461736b0a616261";
    "626162616261626162616261626162616261626162616261626162616261626162616261626162616261";
    "626162616261626162616261626162616261620a6d61726b6574706c6163652e6578616d706c652f636f";
    "6e766572736174696f6e730a303230323032303230323032303230323032303230323032303230323032";
    "303230323032303230323032303230323032303230323032303230323032303230320a30333033303330";
    "333033303330333033303330333033303330333033303330333033303330333033303330333033303330";
    "3330333033303330333033303330330a726561642c77726974650a313730303030303030303030300a31";
    "3730303030333630303030300a3034303430343034303430343034303430343034303430343034303430";
    "343034"].
Proof. vm_compute. reflexivity. Qed.
(** The signed bytes name the payload by its digest, which is given here. *)
Lemma golden_message_signing : hex_encode (Conversation.message_signing_bytes
    (hex_encode (replicate 32 xcd)) (lit "zn100112233445566778899aabbccddeeff00112233")
    message0 (lit "e49da4ad9294a466356d5464f9795ba0299cf22efd06c0d544c373ffeefbcaca")) =
  joined ["7a696e6368612d636f6e766572736174696f6e2d6d6573736167652d76310a6364636463646364636463";
    "646364636463646364636463646364636463646364636463646364636463646364636463646364636463";
    "64636463646364636463640a32323232323232322d323232322d343232322d383232322d323232323232";
    "3232323232320a7a6e313030313132323333343435353636373738383939616162626363646465656666";
    "30303131323233330a313730303030303030303132330a0a0a6534396461346164393239346134363633";
    "353664353436346639373935626130323939636632326566643036633064353434633337336666656566";
    "62636163610a31313131313131312d313131312d343131312d383131312d313131313131313131313131"].
Proof. vm_compute. reflexivity. Qed.
End Conformance.
